(* ===== verification/_CoqProject ===== *)
-Q . S2P
Prelude.v
Types.v
Spinlock.v
Seg.v
Mboot.v
MAT.v
Container.v
Memory.v
Bytes.v
VMM.v
Pmap.v
Thread.v
Intr.v
Smp.v
Disk.v
ThreadSched.v
Bufcache.v
Log.v
Txn.v
Block.v
Inode.v
Dir.v
Mkfs.v
Printfmt.v
Printf.v
Ustring.v
Clock.v
Apic.v
Sound.v
Console.v
Monitor.v
Boot.v
File.v
Sysfile.v
Trap.v
Usys.v
Uprog.v
Devinit.v
