(* ===== verification/Prelude.v ===== *)
(** * A verification development for the mCertiKOS teaching kernel

    The program is a small operating system for 32 bit PCs: a boot loader
    (src/boot), a kernel (src/kern) and user programs with their library
    (src/user).  The kernel is built in layers, from memory management over
    threads and the file system to traps and system calls, and so is this
    development: one file per component, each requiring the ones it calls.

    ** How the source is translated

    A C function is a Rocq function with the same name, in the state and error
    monad [K] of this file: [K S A] is [S -> outcome S A], and an outcome is
    [Ok] with a result and the new state, or [Err].  The errors are [Panic]
    for KERN_PANIC and a failing KERN_ASSERT, [Undef] for undefined behaviour
    (an index out of range, a null pointer, a signed overflow), [Block] for a
    wait that nobody ends, and [Fuel] for a loop that has used up its fuel.
    The static variables of a component are the fields of its [state] record;
    a component that calls another works on the other's state through a [lens]
    and [zoom].  Machine words are integers with their wrap-around written out
    ([u8], [u16], [u32], [i32]); memory is a finite map from addresses to
    bytes; arrays and pools are maps by index or lists, and a pointer into them
    is the index.  Hardware is modelled at the registers the drivers use.
    Specifications are weakest preconditions ([wp]); [wp_run] turns them into
    statements about runs.

    ** The files and the source they model

    - Types, Spinlock, Seg: kern/lib/types.c; spinlock.c, once sequentially and
      once with the steps of all processors interleaved ([Conc]); seg.c, the
      descriptor tables and kernel stacks.
    - Boot: boot/boot1, which loads the kernel and hands over the memory map.
    - Mboot, MAT, Container: kern/dev/mboot.c, kern/pmm.  The memory map, the
      page allocator filled from it, and the quotas of the processes.
    - Memory, Bytes: kern/lib/string.c over byte-addressed memory; fields of
      byte sequences.
    - VMM, Pmap: kern/vmm, kern/lib/pmap.c, elf.c.  Page structures, access to
      user memory, loading of programs.
    - Thread, ThreadSched: kern/pcpu, kern/thread.  Processor structures, thread
      control blocks, queues, contexts, the scheduler.
    - Clock, Intr, Apic, Smp: kern/dev: tsc.c and timer.c, the counters and the
      interval timer; 8259A, I/O APIC, local APIC, IDT, with Apic for their
      initialisation as a whole; acpi.c and pcpu_mp.c, which find the processors.
    - Sound: kern/dev/sb16.c.
    - Disk, Bufcache, Log, Txn, Block, Inode, Dir, File, Sysfile: the IDE driver
      of kern/dev/disk and all of kern/fs up to the system calls; Txn has no
      code, it is the view of a transaction the layers above the log share.
    - Mkfs: kern/fs/mkfs.c, the program that builds the disk image on the host.
    - Printfmt, Printf, Console, Monitor: kern/lib/printfmt.c, dprintf.c, debug.c
      and monitor.c, kern/dev/console.c, serial.c, keyboard.c, video.c, and the
      copies of the formatting code in user/lib.
    - Ustring: user/lib/string.c and spinlock.c.
    - Trap: kern/proc, kern/trap, kern/init/init.c over everything below.
    - Usys, Uprog: user/include/syscall.h and user/lib/proc.c, the system calls
      as a process makes them, through the trap into the kernel and back;
      user/lib/debug.c and the programs idle, ping, pong and ding.
    - Devinit: kern/dev/devinit.c, which initialises all components on one
      state, and pcpu_boot_ap, which starts another processor.

    ** Interfaces

    Components are proved against classes that say what they use of the ones
    below, and the ones below are instances: [PageAlloc] with [PageAllocSpec]
    (the allocator, for the containers), [Containers] with its contract (for the
    page structures), [Sched] with [SchedOk] (the scheduler, for everything from
    the disk driver up; ThreadSched is the instance), [Procs] with [ProcsOk]
    (current process, working directory and open files, for the file system),
    [UserMem] (access to user memory, for the system calls), [Quotas] (for the
    trap handlers).  What the kernel cannot see of other threads, such as what
    they do while one sleeps, is a parameter with a hypothesis that says what it
    leaves alone.

    ** What the theorems show

    - Crash safety: a transaction is atomic and recovery can be interrupted
      (Log, Txn); the system call write is atomic from the trap frame down to
      the disk (Sysfile).  A crash is any prefix of the writes of the drive.
    - Isolation: user pages of all processes stay on distinct physical pages
      (VMM); a trap returns to the process that trapped (Trap); user code can
      enter the kernel only through three gates (Intr).
    - The start of the system: from zeroed variables, the firmware's tables and
      devices that answer, devinit leaves every component initialised
      (Devinit); kern_init goes on to the first process and enters its program
      in ring 3 (Trap); the loader comes before them (Boot).
    - System calls from end to end: every user stub reaches its handler with its
      arguments, and spawn is followed from the call in one process to the
      process it creates (Usys).
    - Functional correctness of each layer, on every branch: allocation,
      quotas, page faults, copying, threads, cache, blocks, inodes, directories,
      descriptors, process creation, processor discovery, the monitor.
    - Refinement: the linked thread queues are lists (Thread); the ring buffer,
      the serial line and the keyboard are one queue (Console); the image that
      mkfs writes is the file system the kernel reads (Mkfs); the boot loader
      puts the kernel file into memory (Boot).
    - Liveness and termination: a woken sleeper gets the processor back after at
      most one turn of every other thread (ThreadSched); formatted output ends
      for every format (Printfmt).
    - Round trips and bounds: write and read of files, link and lookup, printing
      and reading numbers; vsnprintf, strlcpy and the screen stay in their
      buffers.
    - Deviations: theorems that show what the code does where it does not do
      what it means to, for example palloc missing free pages or the endless
      loops over malformed processor tables.

    ** Fuel and bounds

    A loop of the source is [for_] or [loop fuel]; the fuel is chosen from the
    data (the number of sectors, of digits, of ring slots, of table bytes), and
    the theorems say that the call returns, so that it is enough.  Where only
    the environment bounds a loop (polling a device, input that arrives, the
    length of a memory map) the fuel is an argument, and the theorems ask for as
    much as there is input.  Recursion on it is structural, so every definition
    can be evaluated, and the witnesses of the theorems evaluate them on small
    machines, disks and inputs.

    ** What is not modelled

    Inline assembly and assembly files beyond the effect of the instructions on
    the modelled state (kern/lib/x86.c, boot0.S, the trap stubs); the list macros
    of queue.h; user/include/x86.h, which nothing calls; the test program fstest
    and the unit tests.  What a device answers is a stream of readings (ports,
    counters) or a small model of its registers; what other processors do while
    one waits for them is a list of steps.  Memory consistency is
    sequential, and the file system is run by one thread at a time between its
    waits, as on the one processor the kernel starts. *)

From stdpp Require Export base gmap list numbers strings.
From Stdlib Require Export ZArith Lia.

#[export] Set Default Goal Selector "!".
Global Open Scope Z_scope.

(** ** Machine words

    [unsigned int], [uint32_t], [uintptr_t] and [size_t] are 32 bit words on
    the target; they are integers in [0, 2^32) and every addition, subtraction
    and multiplication of the source is followed by [u32].  [int] is read off
    the same word by [i32]. *)

Definition u8 (z : Z) : Z := z mod 2 ^ 8.
Definition u16 (z : Z) : Z := z mod 2 ^ 16.
Definition u32 (z : Z) : Z := z mod 2 ^ 32.
Definition i32 (z : Z) : Z :=
  if u32 z <? 2 ^ 31 then u32 z else u32 z - 2 ^ 32.
Definition i16 (z : Z) : Z :=
  if u16 z <? 2 ^ 15 then u16 z else u16 z - 2 ^ 16.

Definition is_u32 (z : Z) : Prop := 0 <= z < 2 ^ 32.
Definition is_byte (z : Z) : Prop := 0 <= z < 2 ^ 8.

Lemma u32_range z : is_u32 (u32 z).
Proof. apply Z.mod_pos_bound. lia. Qed.

Lemma u32_small z : is_u32 z -> u32 z = z.
Proof. apply Z.mod_small. Qed.

Lemma u32_idemp z : u32 (u32 z) = u32 z.
Proof. apply u32_small, u32_range. Qed.

Lemma u8_range z : is_byte (u8 z).
Proof. apply Z.mod_pos_bound. lia. Qed.

Lemma u8_small z : is_byte z -> u8 z = z.
Proof. apply Z.mod_small. Qed.

Lemma i32_small z : - 2 ^ 31 <= z < 2 ^ 31 -> i32 z = z.
Proof.
  intros Hz. unfold i32, u32. destruct (decide (0 <= z)).
  - rewrite Z.mod_small by lia. destruct (Z.ltb_spec z (2 ^ 31)); lia.
  - replace (z mod 2 ^ 32) with (z + 2 ^ 32).
    + destruct (Z.ltb_spec (z + 2 ^ 32) (2 ^ 31)); lia.
    + apply Zmod_unique with (q := -1); lia.
Qed.

Lemma i32_range z : - 2 ^ 31 <= i32 z < 2 ^ 31.
Proof.
  unfold i32. pose proof (u32_range z) as H. unfold is_u32 in H.
  destruct (Z.ltb_spec (u32 z) (2 ^ 31)); lia.
Qed.

Lemma u32_i32 z : u32 (i32 z) = u32 z.
Proof.
  unfold i32. destruct (u32 z <? 2 ^ 31); [apply u32_idemp |].
  unfold u32. rewrite Zminus_mod, Zmod_mod, Z_mod_same_full, Z.sub_0_r, Zmod_mod.
  done.
Qed.

(** [lia] after unfolding the constants of the source: a [Definition] that
    stands for a [#define] is declared in [kconst]. *)
Create HintDb kconst.
#[export] Hint Unfold is_u32 is_byte : kconst.
Ltac klia := autounfold with kconst in *; lia.

(** Case analysis on the boolean tests the source's conditions become. *)
Ltac case_bool :=
  match goal with
  | |- context [Z.eqb ?a ?b] => destruct (Z.eqb_spec a b)
  | |- context [Z.ltb ?a ?b] => destruct (Z.ltb_spec a b)
  | |- context [Z.leb ?a ?b] => destruct (Z.leb_spec a b)
  end.

(** A boolean test whose value is fixed by the arithmetic in the context. *)
Ltac bool_true :=
  match goal with
  | |- context [Z.eqb ?a ?b] => replace (Z.eqb a b) with true by (symmetry; apply Z.eqb_eq; klia)
  | |- context [Z.ltb ?a ?b] => replace (Z.ltb a b) with true by (symmetry; apply Z.ltb_lt; klia)
  | |- context [Z.leb ?a ?b] => replace (Z.leb a b) with true by (symmetry; apply Z.leb_le; klia)
  end.
Ltac bool_false :=
  match goal with
  | |- context [Z.eqb ?a ?b] => replace (Z.eqb a b) with false by (symmetry; apply Z.eqb_neq; klia)
  | |- context [Z.ltb ?a ?b] => replace (Z.ltb a b) with false by (symmetry; apply Z.ltb_ge; klia)
  | |- context [Z.leb ?a ?b] => replace (Z.leb a b) with false by (symmetry; apply Z.leb_gt; klia)
  end.
Ltac bool_simp := repeat first [bool_true | bool_false]; cbn [andb orb negb].

(** ** The execution monad

    A C function over the global variables of a component is a state
    transformer that may fail to return.  The four ways it can fail are kept
    apart:
    - [Panic]: [KERN_PANIC] or a failed [KERN_ASSERT] halts the machine;
    - [Undef]: the access is outside its array, or a division by zero;
    - [Block]: the caller spins on a lock or leaves the processor in
      [thread_sleep], and only another processor or thread can go on;
    - [Fuel]: the bound of a loop of the model is exhausted (theorems show
      that it never is). *)

Inductive err : Type :=
| Panic (why : string)
| Undef
| Block
| Fuel.

Inductive outcome (S A : Type) : Type :=
| Ok (a : A) (s : S)
| Err (e : err).
Arguments Ok {S A} a s.
Arguments Err {S A} e.

#[export] Instance err_eq_dec : EqDecision err.
Proof. solve_decision. Defined.

Definition K (S A : Type) : Type := S -> outcome S A.

#[export] Instance K_ret {S} : MRet (K S) := fun A a s => Ok a s.
#[export] Instance K_bind {S} : MBind (K S) := fun A B k m s =>
  match m s with
  | Ok a s' => k a s'
  | Err e => Err e
  end.

Definition fail {S A} (e : err) : K S A := fun _ => Err e.
Definition panic {S A} (why : string) : K S A := fail (Panic why).
Definition get {S} : K S S := fun s => Ok s s.
Definition gets {S A} (f : S -> A) : K S A := fun s => Ok (f s) s.
Definition modify {S} (f : S -> S) : K S unit := fun s => Ok tt (f s).
Definition kassert {S} (b : bool) (why : string) : K S unit :=
  if b then mret tt else panic why.
Definition when {S} (b : bool) (m : K S unit) : K S unit :=
  if b then m else mret tt.

Lemma bind_Ok {S A B} (m : K S A) (k : A -> K S B) s a s' :
  m s = Ok a s' -> (m ≫= k) s = k a s'.
Proof. intros H. unfold mbind, K_bind. by rewrite H. Qed.

Lemma bind_Err {S A B} (m : K S A) (k : A -> K S B) s e :
  m s = Err e -> (m ≫= k) s = Err e.
Proof. intros H. unfold mbind, K_bind. by rewrite H. Qed.

Lemma bind_inv {S A B} (m : K S A) (k : A -> K S B) s b s' :
  (m ≫= k) s = Ok b s' -> exists a s1, m s = Ok a s1 /\ k a s1 = Ok b s'.
Proof.
  unfold mbind, K_bind. destruct (m s) as [a s1|e]; intros H; [|done]. eauto.
Qed.

Lemma bind_ret_l {S A B} (a : A) (k : A -> K S B) s : (mret a ≫= k) s = k a s.
Proof. done. Qed.

Lemma bind_assoc {S A B C} (m : K S A) (f : A -> K S B) (g : B -> K S C) s :
  ((m ≫= f) ≫= g) s = (m ≫= fun a => f a ≫= g) s.
Proof. unfold mbind, K_bind. by destruct (m s). Qed.

Lemma bind_ext {S A B} (m : K S A) (k k' : A -> K S B) s :
  (forall a s, k a s = k' a s) -> (m ≫= k) s = (m ≫= k') s.
Proof. intros E. unfold mbind, K_bind. destruct (m s); [apply E | done]. Qed.

(** ** Working on a part of the state

    A component is written over its own state; a caller whose state contains
    it runs its operations through a lens. *)

Record lens (S T : Type) : Type := Lens {
  lget : S -> T;
  lput : T -> S -> S
}.
Arguments Lens {S T} lget lput.
Arguments lget {S T} l s.
Arguments lput {S T} l t s.

Class LensLaws {S T} (l : lens S T) : Prop := {
  lget_lput : forall t s, lget l (lput l t s) = t;
  lput_lget : forall s, lput l (lget l s) s = s;
  lput_lput : forall t t' s, lput l t (lput l t' s) = lput l t s
}.

Definition zoom {S T A} (l : lens S T) (m : K T A) : K S A := fun s =>
  match m (lget l s) with
  | Ok a t => Ok a (lput l t s)
  | Err e => Err e
  end.

Definition lens_comp {S T U} (l1 : lens S T) (l2 : lens T U) : lens S U :=
  Lens (fun s => lget l2 (lget l1 s))
       (fun u s => lput l1 (lput l2 u (lget l1 s)) s).

#[export] Instance lens_comp_laws {S T U} (l1 : lens S T) (l2 : lens T U)
  `{!LensLaws l1, !LensLaws l2} : LensLaws (lens_comp l1 l2).
Proof.
  split; intros; cbn.
  - by rewrite !lget_lput.
  - by rewrite !lput_lget.
  - by rewrite lget_lput, lput_lput, lput_lput.
Qed.

Lemma zoom_Ok {S T A} (l : lens S T) (m : K T A) s a t :
  m (lget l s) = Ok a t -> zoom l m s = Ok a (lput l t s).
Proof. intros H. unfold zoom. by rewrite H. Qed.

Lemma zoom_bind {S T A B} (l : lens S T) `{!LensLaws l} (m : K T A) (k : A -> K T B) s :
  zoom l (m ≫= k) s = (zoom l m ≫= fun a => zoom l (k a)) s.
Proof.
  unfold zoom, mbind, K_bind. destruct (m (lget l s)) as [a t|e]; [|done].
  rewrite lget_lput. destruct (k a t); [|done]. by rewrite lput_lput.
Qed.

(** ** Loops

    [for_ lo hi body] is [for (i = lo; i < hi; i++) body(i)] for a body that
    does not assign [i].  [loop fuel body l] is a general loop over the local
    variables [l]: [inl l'] goes round again, [inr r] leaves with [r]. *)

Fixpoint for_range {S} (n : nat) (i : Z) (body : Z -> K S unit) : K S unit :=
  match n with
  | O => mret tt
  | Datatypes.S n' => body i ;; for_range n' (i + 1) body
  end.

Definition for_ {S} (lo hi : Z) (body : Z -> K S unit) : K S unit :=
  for_range (Z.to_nat (hi - lo)) lo body.

Fixpoint loop {S L R} (fuel : nat) (body : L -> K S (L + R)) (l : L) : K S R :=
  match fuel with
  | O => fail Fuel
  | Datatypes.S f =>
      r ← body l;
      match r with
      | inl l' => loop f body l'
      | inr x => mret x
      end
  end.

(** ** Total correctness

    [wp m Q s]: run from [s], [m] returns (it does not panic, leave an array,
    block or run out of fuel) and its result and final state satisfy [Q]. *)

Definition wp {S A} (m : K S A) (Q : A -> S -> Prop) (s : S) : Prop :=
  match m s with
  | Ok a s' => Q a s'
  | Err _ => False
  end.

Section wp_rules.
Context {S : Type}.
Implicit Types s : S.

Lemma wp_run {A} (m : K S A) Q s :
  wp m Q s <-> exists a s', m s = Ok a s' /\ Q a s'.
Proof.
  unfold wp. split.
  - destruct (m s) as [a s'|]; [eauto | done].
  - by intros (a & s' & -> & HQ).
Qed.

Lemma wp_intro {A} (m : K S A) (Q : A -> S -> Prop) s a s' :
  m s = Ok a s' -> Q a s' -> wp m Q s.
Proof. unfold wp. by intros ->. Qed.

Lemma wp_Ok {A} (m : K S A) (Q : A -> S -> Prop) s a s' :
  wp m Q s -> m s = Ok a s' -> Q a s'.
Proof. unfold wp. by intros ? H; rewrite H in *. Qed.

(** A computation that only reads. *)
Lemma wp_reads {A} (m : K S A) a s :
  (forall Q : A -> S -> Prop, Q a s -> wp m Q s) -> m s = Ok a s.
Proof.
  intros H. specialize (H (fun a' s' => a' = a /\ s' = s) (conj eq_refl eq_refl)). revert H.
  unfold wp. destruct (m s); [|done]. by intros [-> ->].
Qed.

Lemma wp_mono {A} (m : K S A) (Q Q' : A -> S -> Prop) s :
  wp m Q s -> (forall a s', Q a s' -> Q' a s') -> wp m Q' s.
Proof. unfold wp. destruct (m s); eauto. Qed.

Lemma wp_ret {A} (a : A) (Q : A -> S -> Prop) s : Q a s -> wp (mret a) Q s.
Proof. done. Qed.

Lemma wp_bind {A B} (m : K S A) (k : A -> K S B) Q s :
  wp m (fun a => wp (k a) Q) s -> wp (m ≫= k) Q s.
Proof. unfold wp, mbind, K_bind. by destruct (m s). Qed.

Lemma wp_gets {A} (f : S -> A) (Q : A -> S -> Prop) s :
  Q (f s) s -> wp (gets f) Q s.
Proof. done. Qed.

Lemma wp_get (Q : S -> S -> Prop) s : Q s s -> wp get Q s.
Proof. done. Qed.

Lemma wp_modify (f : S -> S) (Q : unit -> S -> Prop) s :
  Q tt (f s) -> wp (modify f) Q s.
Proof. done. Qed.

Lemma wp_kassert b why (Q : unit -> S -> Prop) s :
  b = true -> Q tt s -> wp (kassert b why) Q s.
Proof. by intros ->. Qed.

Lemma wp_when b (m : K S unit) (Q : unit -> S -> Prop) s :
  (b = true -> wp m Q s) -> (b = false -> Q tt s) -> wp (when b m) Q s.
Proof. destruct b; intros H1 H2; [by apply H1 | by apply H2]. Qed.

Lemma wp_zoom {T A} (l : lens S T) (m : K T A) (Q : A -> S -> Prop) s :
  wp m (fun a t => Q a (lput l t s)) (lget l s) -> wp (zoom l m) Q s.
Proof. unfold wp, zoom. by destruct (m (lget l s)). Qed.

Lemma wp_for_range (I : Z -> S -> Prop) n lo (body : Z -> K S unit)
    (Q : unit -> S -> Prop) s :
  I lo s ->
  (forall i s, lo <= i < lo + Z.of_nat n -> I i s ->
     wp (body i) (fun _ s' => I (i + 1) s') s) ->
  (forall s, I (lo + Z.of_nat n) s -> Q tt s) ->
  wp (for_range n lo body) Q s.
Proof.
  revert lo s. induction n as [|n IH]; intros lo s HI Hbody HQ; cbn [for_range].
  - apply wp_ret, HQ. by rewrite Z.add_0_r.
  - apply wp_bind. eapply wp_mono; [apply Hbody; [lia | done] |].
    intros [] s' HI'. apply IH; [done | |].
    + intros i s1 Hi. apply Hbody. lia.
    + intros s1 H1. apply HQ. by replace (lo + Z.of_nat (Datatypes.S n))
        with (lo + 1 + Z.of_nat n) by lia.
Qed.

Lemma wp_for (I : Z -> S -> Prop) lo hi (body : Z -> K S unit)
    (Q : unit -> S -> Prop) s :
  lo <= hi ->
  I lo s ->
  (forall i s, lo <= i < hi -> I i s -> wp (body i) (fun _ s' => I (i + 1) s') s) ->
  (forall s, I hi s -> Q tt s) ->
  wp (for_ lo hi body) Q s.
Proof.
  intros Hle HI Hbody HQ. unfold for_.
  assert (Hhi : lo + Z.of_nat (Z.to_nat (hi - lo)) = hi) by lia.
  apply (wp_for_range I); rewrite ?Hhi; eauto.
Qed.

Lemma wp_loop {L R} (I : L -> S -> Prop) (V : L -> S -> nat) fuel
    (body : L -> K S (L + R)) (Q : R -> S -> Prop) l s :
  I l s ->
  (V l s < fuel)%nat ->
  (forall l s, I l s ->
     wp (body l) (fun r s' =>
       match r with
       | inl l' => I l' s' /\ (V l' s' < V l s)%nat
       | inr x => Q x s'
       end) s) ->
  wp (loop fuel body l) Q s.
Proof.
  revert l s. induction fuel as [|f IH]; intros l s HI HV Hbody; [lia|].
  cbn [loop]. apply wp_bind. eapply wp_mono; [by apply Hbody|].
  intros [l'|x] s'; [|done]. intros [HI' HV']. apply IH; [done | lia | done].
Qed.

(** Loops with the same body, rounds compared state by state. *)
Lemma loop_ext {L R} f (body body' : L -> K S (L + R)) l s :
  (forall l s, body l s = body' l s) -> loop f body l s = loop f body' l s.
Proof.
  intros H. revert l s. induction f as [|f IH]; intros l s; [done|]. cbn [loop].
  unfold mbind, K_bind. rewrite H. destruct (body' l s) as [[l'|x] s'|e]; [apply IH | done | done].
Qed.

Lemma wp_ext {A} (m m' : K S A) (Q : A -> S -> Prop) s : m s = m' s -> wp m' Q s -> wp m Q s.
Proof. unfold wp. by intros ->. Qed.

(** One round of a loop. *)
Lemma wp_loop_S {L R} f (body : L -> K S (L + R)) (Q : R -> S -> Prop) l s :
  wp (body l) (fun r s' =>
    match r with inl l' => wp (loop f body l') Q s' | inr x => Q x s' end) s ->
  wp (loop (Datatypes.S f) body l) Q s.
Proof.
  intros H. cbn [loop]. apply wp_bind. eapply wp_mono; [exact H|]. by intros [] ?.
Qed.
End wp_rules.

(** One step of symbolic execution on a goal [wp m Q s]. *)
Ltac wp_step :=
  lazymatch goal with
  | |- wp (mret _) _ _ => apply wp_ret
  | |- wp (_ ≫= _) _ _ => apply wp_bind
  | |- wp (gets _) _ _ => apply wp_gets
  | |- wp get _ _ => apply wp_get
  | |- wp (modify _) _ _ => apply wp_modify
  | |- wp (zoom _ _) _ _ => apply wp_zoom
  | |- wp (kassert _ _) _ _ => apply wp_kassert
  end.
Ltac wp_steps := repeat (wp_step; cbn beta).

(** One step of execution on a goal [(m ≫= k) s = _]: [krun] runs a
    primitive, [krun tac] a call whose run lemma [tac] applies. *)
Tactic Notation "krun" := erewrite bind_Ok by reflexivity.
Tactic Notation "krun" tactic(tac) := erewrite bind_Ok by (tac; done).

(** Use the specification [H] of a called function. *)
Tactic Notation "wp_call" uconstr(H) := eapply wp_mono; [eapply H |].

(** ** Static arrays

    A C array with static storage is zero-initialised: it is a finite map
    whose missing entries hold the zero of its element type.  An access out of
    its bounds is [Undef]. *)

#[export] Instance Z_inhabited : Inhabited Z := populate 0.

Definition in_bounds (n i : Z) : bool := (0 <=? i) && (i <? n).

Lemma in_bounds_true n i : in_bounds n i = true <-> 0 <= i < n.
Proof. unfold in_bounds. rewrite andb_true_iff, Z.leb_le, Z.ltb_lt. lia. Qed.

Definition bounds {S} (n i : Z) : K S unit :=
  if in_bounds n i then mret tt else fail Undef.

Lemma bounds_Ok {S} n i (s : S) : 0 <= i < n -> bounds n i s = Ok tt s.
Proof. intros H%in_bounds_true. unfold bounds. by rewrite H. Qed.

Lemma bounds_Undef {S} n i (s : S) : ~ (0 <= i < n) -> bounds n i s = Err Undef.
Proof.
  intros H. unfold bounds. destruct (in_bounds n i) eqn:E; [|done].
  apply in_bounds_true in E. lia.
Qed.

Lemma wp_bounds {S} n i (Q : unit -> S -> Prop) s :
  0 <= i < n -> Q tt s -> wp (bounds n i) Q s.
Proof. intros H HQ. by apply (wp_intro _ _ _ tt s); [apply bounds_Ok|]. Qed.

(** [ainit lo n x a]: the array [a] with the [n] entries from [lo] set to [x]. *)
Fixpoint ainit {T} (n : nat) (lo : Z) (f : Z -> T) (a : gmap Z T) : gmap Z T :=
  match n with
  | O => a
  | Datatypes.S n' => ainit n' (lo + 1) f (<[lo := f lo]> a)
  end.

Lemma lookup_ainit {T} `{!Inhabited T} n lo (f : Z -> T) a j :
  ainit n lo f a !!! j = if decide (lo <= j < lo + Z.of_nat n) then f j else a !!! j.
Proof.
  revert lo a. induction n as [|n IH]; intros lo a; cbn [ainit]; [by rewrite decide_False by lia|].
  rewrite IH. destruct (decide (j = lo)) as [->|Hne].
  - rewrite decide_False, decide_True by lia. by rewrite lookup_total_insert_eq.
  - rewrite lookup_total_insert_ne by done. by repeat destruct (decide _); try lia.
Qed.

(** [f 0 + ... + f (n - 1)], and what changing one summand does. *)
Fixpoint sumZ (f : Z -> Z) (n : nat) : Z :=
  match n with
  | O => 0
  | Datatypes.S n' => sumZ f n' + f (Z.of_nat n')
  end.

Lemma sumZ_ext f g n :
  (forall i, 0 <= i < Z.of_nat n -> f i = g i) -> sumZ f n = sumZ g n.
Proof.
  induction n as [|n IH]; intros H; [done|]. cbn [sumZ].
  rewrite IH, H by (intros; try apply H; lia). done.
Qed.

Lemma sumZ_upd f g n i :
  0 <= i < Z.of_nat n -> (forall j, j <> i -> g j = f j) ->
  sumZ g n = sumZ f n + (g i - f i).
Proof.
  induction n as [|n IH]; intros Hi H; [lia|]. cbn [sumZ].
  destruct (decide (i = Z.of_nat n)) as [->|Hne].
  - rewrite (sumZ_ext g f) by (intros; apply H; lia). lia.
  - rewrite IH, (H (Z.of_nat n)) by (done || lia). lia.
Qed.

Lemma sumZ_nonneg f n :
  (forall i, 0 <= i < Z.of_nat n -> 0 <= f i) -> 0 <= sumZ f n.
Proof.
  induction n as [|n IH]; intros H; [done|]. cbn [sumZ].
  apply Z.add_nonneg_nonneg; [apply IH; intros; apply H; lia | apply H; lia].
Qed.

Lemma sumZ_ge f n i :
  (forall j, 0 <= j < Z.of_nat n -> 0 <= f j) -> 0 <= i < Z.of_nat n -> f i <= sumZ f n.
Proof.
  intros Hf Hi.
  pose proof (sumZ_upd f (fun j => if j =? i then 0 else f j) n i Hi) as H.
  cbn beta in H. rewrite Z.eqb_refl in H.
  assert (0 <= sumZ (fun j => if j =? i then 0 else f j) n).
  { apply sumZ_nonneg. intros j Hj. case_bool; [lia | by apply Hf]. }
  rewrite H in *; [lia|]. intros j Hne. by apply Z.eqb_neq in Hne as ->.
Qed.

Create HintDb kern.
#[export] Hint Resolve u32_range u8_range : kern.
