(* ===== verification/Types.v ===== *)
(** * kern/lib/types.c: the word helpers used all over the kernel *)

From S2P Require Import Prelude.

Definition max (a b : Z) : Z := if b <? a then a else b.
Definition min (a b : Z) : Z := if a <? b then a else b.
Definition rounddown (a n : Z) : Z := u32 (a - a mod n).
Definition roundup (a n : Z) : Z := rounddown (u32 (u32 (a + n) - 1)) n.

Lemma max_spec a b : max a b = Z.max a b.
Proof. unfold max. case_bool; lia. Qed.

Lemma min_spec a b : min a b = Z.min a b.
Proof. unfold min. case_bool; lia. Qed.

Lemma rounddown_spec a n :
  is_u32 a -> 0 < n ->
  rounddown a n = n * (a / n) /\ rounddown a n <= a < rounddown a n + n.
Proof.
  intros Ha Hn. unfold rounddown, is_u32 in *.
  pose proof (Z.mod_pos_bound a n Hn). pose proof (Z.div_mod a n ltac:(lia)).
  assert (0 <= n * (a / n)) by (apply Z.mul_nonneg_nonneg; [lia | apply Z.div_pos; lia]).
  rewrite u32_small by (unfold is_u32; lia). lia.
Qed.

Lemma rounddown_mod a n : is_u32 a -> 0 < n -> rounddown a n mod n = 0.
Proof.
  intros Ha Hn. destruct (rounddown_spec a n Ha Hn) as [-> _].
  rewrite Z.mul_comm. apply Z.mod_mul. lia.
Qed.

(** Without overflow [roundup] is the least multiple of [n] that is not below
    [a]; the sum [a + n - 1] must fit a word. *)
Lemma roundup_spec a n :
  is_u32 a -> 0 < n < 2 ^ 32 -> a + n - 1 < 2 ^ 32 ->
  roundup a n mod n = 0 /\ a <= roundup a n < a + n.
Proof.
  intros Ha Hn Hov. unfold roundup.
  assert (E : u32 (u32 (a + n) - 1) = a + n - 1).
  { unfold u32. rewrite Zminus_mod_idemp_l. apply u32_small. unfold is_u32 in *. lia. }
  rewrite E. unfold is_u32 in *.
  destruct (rounddown_spec (a + n - 1) n) as [_ H]; [unfold is_u32; lia | lia |].
  split; [apply rounddown_mod; unfold is_u32; lia|]. lia.
Qed.

