(* ===== verification/Spinlock.v ===== *)
(** * Spinlocks (kern/lib/spinlock.c) and the constants of kern/lib/x86.h

    The sequential operations are what one processor executes when no other
    processor touches the lock meanwhile; [Conc] interleaves the atomic steps
    of the same code on all processors. *)

From S2P Require Import Prelude.

(** ** Constants of kern/lib/x86.h *)
Module X86.
Definition PAGESIZE : Z := 4096.
Definition PTE_P : Z := 0x001.
Definition PTE_W : Z := 0x002.
Definition PTE_U : Z := 0x004.
Definition PTE_G : Z := 0x100.
Definition NUM_CPUS : Z := 8.
Definition NUM_IDS : Z := 64.
Definition MagicNumber : Z := 1048577.
Definition MAX_CHILDREN : Z := 3.
#[export] Hint Unfold PAGESIZE NUM_CPUS NUM_IDS MagicNumber MAX_CHILDREN : kconst.
End X86.
Export X86.

Definition KSTACK_MAGIC : Z := 0x98765432.

(** The kernel stack page of the running processor, found by rounding the
    stack pointer down to [KSTACK_SIZE]: the two fields the lock code reads. *)
Record kstack : Type := Kstack { cpu_idx : Z; magic : Z }.

Definition kstack_ok (ks : kstack) : Prop :=
  0 <= cpu_idx ks < NUM_CPUS /\ magic ks = KSTACK_MAGIC.

Record spinlock_t : Type := Spinlock { lock_holder : Z; lock : Z }.

#[export] Instance spinlock_t_inhabited : Inhabited spinlock_t :=
  populate (Spinlock 0 0).

Definition set_lock_holder (h : Z) (lk : spinlock_t) : spinlock_t :=
  Spinlock h (lock lk).
Definition set_lock (l : Z) (lk : spinlock_t) : spinlock_t :=
  Spinlock (lock_holder lk) l.

(** ** The operations *)

Definition spinlock_init : K spinlock_t unit :=
  modify (set_lock_holder (NUM_CPUS + 1)) ;;
  modify (set_lock 0).

(** The [lock; xchgl] instruction on the word [lock]. *)
Definition xchg (newval : Z) : K spinlock_t Z :=
  old ← gets lock;
  modify (set_lock newval) ;;
  mret old.

Section ops.
Context (ks : kstack).

Definition spinlock_holding : K spinlock_t bool :=
  l ← gets lock;
  if l =? 0 then mret false
  else
    kassert (magic ks =? KSTACK_MAGIC) "kstack->magic == KSTACK_MAGIC" ;;
    h ← gets lock_holder;
    mret (h =? cpu_idx ks).

(** [while (xchg(&lk->lock, 1) != 0) pause();]: a lock that is taken is
    spun on until its owner, on another processor, releases it. *)
Definition spinlock_acquire_A : K spinlock_t unit :=
  old ← xchg 1;
  if old =? 0 then
    kassert (magic ks =? KSTACK_MAGIC) "kstack->magic == KSTACK_MAGIC" ;;
    modify (set_lock_holder (cpu_idx ks))
  else fail Block.

Definition spinlock_try_acquire_A : K spinlock_t Z :=
  old_val ← xchg 1;
  when (old_val =? 0)
    (kassert (magic ks =? KSTACK_MAGIC) "kstack->magic == KSTACK_MAGIC" ;;
     modify (set_lock_holder (cpu_idx ks))) ;;
  mret old_val.

Definition spinlock_release_A : K spinlock_t unit :=
  modify (set_lock_holder (NUM_CPUS + 1)) ;;
  xchg 0 ;;
  mret tt.

Definition spinlock_acquire : K spinlock_t unit := spinlock_acquire_A.
Definition spinlock_release : K spinlock_t unit := spinlock_release_A.
Definition spinlock_try_acquire : K spinlock_t Z := spinlock_try_acquire_A.

(** A lock nobody holds. *)
Definition unlocked (lk : spinlock_t) : Prop := lk = Spinlock (NUM_CPUS + 1) 0.

Lemma spinlock_init_run lk : spinlock_init lk = Ok tt (Spinlock (NUM_CPUS + 1) 0).
Proof. done. Qed.

Lemma spinlock_acquire_run lk :
  magic ks = KSTACK_MAGIC -> lock lk = 0 ->
  spinlock_acquire lk = Ok tt (Spinlock (cpu_idx ks) 1).
Proof.
  intros Hm Hl. destruct lk as [h l]; cbn in Hl; subst l.
  unfold spinlock_acquire, spinlock_acquire_A, xchg, mbind, K_bind; cbn.
  by rewrite Hm.
Qed.

Lemma spinlock_acquire_taken lk : lock lk <> 0 -> spinlock_acquire lk = Err Block.
Proof.
  intros Hl. unfold spinlock_acquire, spinlock_acquire_A, xchg, mbind, K_bind; cbn.
  by apply Z.eqb_neq in Hl as ->.
Qed.

Lemma spinlock_release_run lk :
  spinlock_release lk = Ok tt (Spinlock (NUM_CPUS + 1) 0).
Proof. done. Qed.

Lemma spinlock_try_acquire_taken lk :
  lock lk <> 0 -> spinlock_try_acquire lk = Ok (lock lk) (set_lock 1 lk).
Proof.
  intros Hl. unfold spinlock_try_acquire, spinlock_try_acquire_A, xchg, mbind, K_bind; cbn.
  by apply Z.eqb_neq in Hl as ->.
Qed.
End ops.

(** ** All processors at once

    Each processor runs acquire, try_acquire and release on one lock; every
    memory access is one step, [xchg] being atomic.  The program counter says
    where in spinlock_acquire_A / spinlock_release_A a processor is. *)
Module Conc.

Inductive pc : Type :=
| Idle        (* outside the lock code and the critical section *)
| Spinning    (* in the while loop of spinlock_acquire_A *)
| Taken       (* its xchg returned 0, lock_holder not written yet *)
| Holding     (* in the critical section *)
| Releasing.  (* lock_holder reset, second xchg still to come *)

#[export] Instance pc_eq_dec : EqDecision pc.
Proof. solve_decision. Defined.

Record state : Type := State { lk : spinlock_t; pcs : Z -> pc }.

Definition set_pc (c : Z) (p : pc) (s : state) : state :=
  State (lk s) (fun d => if d =? c then p else pcs s d).
Definition set_lk (l : spinlock_t) (s : state) : state := State l (pcs s).

Inductive step : state -> state -> Prop :=
| step_enter s c :
    0 <= c < NUM_CPUS -> pcs s c = Idle ->
    step s (set_pc c Spinning s)
| step_xchg s c old l :
    0 <= c < NUM_CPUS -> pcs s c = Spinning ->
    xchg 1 (lk s) = Ok old l ->
    step s (set_pc c (if old =? 0 then Taken else Spinning) (set_lk l s))
| step_try s c old l :
    0 <= c < NUM_CPUS -> pcs s c = Idle ->
    xchg 1 (lk s) = Ok old l ->
    step s (set_pc c (if old =? 0 then Taken else Idle) (set_lk l s))
| step_holder s c :
    0 <= c < NUM_CPUS -> pcs s c = Taken ->
    step s (set_pc c Holding (set_lk (set_lock_holder c (lk s)) s))
| step_unset s c :
    0 <= c < NUM_CPUS -> pcs s c = Holding ->
    step s (set_pc c Releasing (set_lk (set_lock_holder (NUM_CPUS + 1) (lk s)) s))
| step_release s c old l :
    0 <= c < NUM_CPUS -> pcs s c = Releasing ->
    xchg 0 (lk s) = Ok old l ->
    step s (set_pc c Idle (set_lk l s)).

(** The state spinlock_init leaves, before any processor uses the lock. *)
Definition init : state := State (Spinlock (NUM_CPUS + 1) 0) (fun _ => Idle).

Definition owns (p : pc) : bool :=
  match p with Taken | Holding | Releasing => true | _ => false end.

(** Either the lock is free and nobody is inside, or exactly one processor is,
    the word [lock] is 1, and the holder field names that processor while it is
    in its critical section and nobody otherwise. *)
Inductive inv (s : state) : Prop :=
| inv_unlocked :
    lk s = Spinlock (NUM_CPUS + 1) 0 ->
    (forall d, owns (pcs s d) = false) -> inv s
| inv_locked c :
    0 <= c < NUM_CPUS -> owns (pcs s c) = true ->
    (forall d, d <> c -> owns (pcs s d) = false) ->
    lk s = Spinlock (if decide (pcs s c = Holding) then c else NUM_CPUS + 1) 1 ->
    inv s.

Lemma inv_init : inv init.
Proof. by apply inv_unlocked. Qed.

Lemma xchg_run v l : xchg v l = Ok (lock l) (set_lock v l).
Proof. done. Qed.

Lemma pcs_set_eq c p s : pcs (set_pc c p s) c = p.
Proof. cbn. by rewrite Z.eqb_refl. Qed.

Lemma pcs_set_ne c d p s : d <> c -> pcs (set_pc c p s) d = pcs s d.
Proof. cbn. by intros ->%Z.eqb_neq. Qed.

(** A processor outside that stays outside changes nothing for the others. *)
Lemma inv_outside s c p l :
  inv s -> owns (pcs s c) = false -> owns p = false -> l = lk s ->
  inv (set_pc c p (set_lk l s)).
Proof.
  intros Hinv Hc Hp ->.
  assert (Hout : forall d, owns (pcs s d) = false ->
                 owns (pcs (set_pc c p (set_lk (lk s) s)) d) = false).
  { intros d Hd. destruct (decide (d = c)) as [->|Hne].
    - by rewrite pcs_set_eq.
    - by rewrite pcs_set_ne. }
  destruct Hinv as [Hlk Hfree|c0 Hr Hown Hothers Hlk].
  - apply inv_unlocked; auto.
  - assert (c0 <> c) by congruence.
    apply (inv_locked _ c0); rewrite ?pcs_set_ne by done; auto.
Qed.

(** The exchange succeeds only on a free lock. *)
Lemma inv_xchg s c p :
  inv s -> 0 <= c < NUM_CPUS -> owns (pcs s c) = false -> owns p = false ->
  inv (set_pc c (if lock (lk s) =? 0 then Taken else p) (set_lk (set_lock 1 (lk s)) s)).
Proof.
  intros Hinv Hr Hc Hp. pose proof Hinv as [Hlk Hfree|c0 Hr0 Hown Hothers Hlk].
  - rewrite Hlk; cbn [lock Z.eqb]. apply (inv_locked _ c); [done | by rewrite pcs_set_eq | |].
    + intros d Hd. rewrite pcs_set_ne by done. apply Hfree.
    + by rewrite pcs_set_eq.
  - rewrite Hlk; cbn [lock Z.eqb]. apply inv_outside; [done.. | by rewrite Hlk].
Qed.

(** The owner moves on while it stays inside. *)
Lemma inv_owner s c p h :
  inv s -> owns (pcs s c) = true -> owns p = true ->
  h = (if decide (p = Holding) then c else NUM_CPUS + 1) ->
  inv (set_pc c p (set_lk (set_lock_holder h (lk s)) s)).
Proof.
  intros [Hlk Hfree|c0 Hr0 Hown Hothers Hlk] Hc Hp ->; [by rewrite Hfree in Hc|].
  destruct (decide (c0 = c)) as [->|Hne]; [|by rewrite Hothers in Hc].
  apply (inv_locked _ c); [done | by rewrite pcs_set_eq | |].
  - intros d Hd. rewrite pcs_set_ne by done. by apply Hothers.
  - rewrite pcs_set_eq. cbn. by rewrite Hlk.
Qed.

Lemma inv_release s c :
  inv s -> pcs s c = Releasing -> inv (set_pc c Idle (set_lk (set_lock 0 (lk s)) s)).
Proof.
  intros [Hlk Hfree|c0 Hr0 Hown Hothers Hlk] Hc.
  - specialize (Hfree c). by rewrite Hc in Hfree.
  - destruct (decide (c0 = c)) as [->|Hne].
    + apply inv_unlocked; [by cbn; rewrite Hlk, Hc|].
      intros d. destruct (decide (d = c)) as [->|Hd]; [by rewrite pcs_set_eq|].
      rewrite pcs_set_ne by done. by apply Hothers.
    + specialize (Hothers c). rewrite Hc in Hothers. by discriminate Hothers.
Qed.

Lemma step_inv s s' : inv s -> step s s' -> inv s'.
Proof.
  intros Hinv Hstep. destruct Hstep as [s c Hr Hp|s c old l Hr Hp Hx|s c old l Hr Hp Hx
    |s c Hr Hp|s c Hr Hp|s c old l Hr Hp Hx];
    rewrite ?xchg_run in *; simplify_eq/=.
  - apply (inv_outside s c Spinning (lk s)); by rewrite ?Hp.
  - apply inv_xchg; by rewrite ?Hp.
  - apply inv_xchg; by rewrite ?Hp.
  - apply inv_owner; by rewrite ?Hp.
  - apply inv_owner; by rewrite ?Hp.
  - by apply inv_release.
Qed.

Lemma reachable_inv s : rtc step init s -> inv s.
Proof.
  intros H. assert (Hgen : forall s0, rtc step s0 s -> inv s0 -> inv s).
  { induction 1; eauto using step_inv. }
  eauto using inv_init.
Qed.


(** Processor 0 has taken the free lock by try_acquire. *)
Definition one_taken : state := set_pc 0 Taken (set_lk (Spinlock (NUM_CPUS + 1) 1) init).

Lemma one_taken_reachable : rtc step init one_taken.
Proof.
  apply rtc_once. apply (step_try init 0 0 (Spinlock (NUM_CPUS + 1) 1)); [|done|done].
  unfold NUM_CPUS; lia.
Qed.


(** [spinlock_holding] is exact: it answers TRUE precisely on the processor
    that is in its critical section. *)
Theorem holding_exact s ks :
  rtc step init s -> kstack_ok ks ->
  spinlock_holding ks (lk s) =
    Ok (bool_decide (pcs s (cpu_idx ks) = Holding)) (lk s).
Proof.
  intros Hinv%reachable_inv [Hr Hm].
  unfold spinlock_holding, mbind, K_bind; cbn.
  destruct Hinv as [Hlk Hfree|c Hrc Hown Hothers Hlk]; rewrite Hlk; cbn.
  - rewrite bool_decide_eq_false_2; [done|].
    intros E. specialize (Hfree (cpu_idx ks)). by rewrite E in Hfree.
  - rewrite Hm; cbn. f_equal. case_decide as Hc.
    + destruct (Z.eqb_spec c (cpu_idx ks)) as [->|Hne]; [by rewrite bool_decide_eq_true_2|].
      rewrite bool_decide_eq_false_2; [done|]. intros E.
      specialize (Hothers (cpu_idx ks)). rewrite E in Hothers.
      by discriminate Hothers.
    + rewrite bool_decide_eq_false_2.
      * unfold NUM_CPUS in *. apply Z.eqb_neq. lia.
      * intros E. destruct (decide (cpu_idx ks = c)) as [Heq|Hne]; [by subst|].
        specialize (Hothers _ Hne). by rewrite E in Hothers.
Qed.

Lemma holding_exact_witness :
  spinlock_holding (Kstack 0 KSTACK_MAGIC) (lk one_taken) = Ok false (lk one_taken).
Proof.
  rewrite (holding_exact one_taken (Kstack 0 KSTACK_MAGIC)).
  - reflexivity.
  - exact one_taken_reachable.
  - split; [unfold NUM_CPUS; cbn; lia | reflexivity].
Defined.

End Conc.
