(* ===== verification/Seg.v ===== *)
(** * Segments and kernel stacks (kern/lib/seg.c, seg.h, kstack.h)

    Every processor and every process has a kernel stack page that starts with
    a descriptor table, a task state segment, the processor's index and a magic
    number.  The pages of [bsp_kstack] and [proc_kstack] are records here; the
    addresses of the two arrays are parameters, and the addresses the code
    stores in descriptors are computed from them. *)

From S2P Require Import Prelude Spinlock.

Module Seg.

(** ** seg.h *)

Record segdesc : Type := Segdesc {
  sd_lim_15_0 : Z; sd_base_15_0 : Z; sd_base_23_16 : Z; sd_type : Z; sd_s : Z; sd_dpl : Z;
  sd_p : Z; sd_lim_19_16 : Z; sd_avl : Z; sd_rsv1 : Z; sd_db : Z; sd_g : Z; sd_base_31_24 : Z
}.

Definition SEGDESC_NULL : segdesc := Segdesc 0 0 0 0 0 0 0 0 0 0 0 0 0.
#[export] Instance segdesc_inhabited : Inhabited segdesc := populate SEGDESC_NULL.

Definition SEGDESC32 (type base lim dpl : Z) : segdesc :=
  Segdesc (Z.land (Z.shiftr lim 12) 0xffff) (Z.land base 0xffff) (Z.land (Z.shiftr base 16) 0xff)
    type 1 dpl 1 (Z.shiftr lim 28) 0 0 1 1 (Z.shiftr base 24).
Definition SEGDESC16 (type base lim dpl : Z) : segdesc :=
  Segdesc (Z.land lim 0xffff) (Z.land base 0xffff) (Z.land (Z.shiftr base 16) 0xff)
    type 1 dpl 1 (Z.land (Z.shiftr lim 16) 0xf) 0 0 1 0 (Z.shiftr base 24).
Definition set_sd_s (v : Z) (d : segdesc) : segdesc :=
  Segdesc (sd_lim_15_0 d) (sd_base_15_0 d) (sd_base_23_16 d) (sd_type d) v (sd_dpl d) (sd_p d)
    (sd_lim_19_16 d) (sd_avl d) (sd_rsv1 d) (sd_db d) (sd_g d) (sd_base_31_24 d).

Definition STA_X : Z := 0x8.
Definition STA_W : Z := 0x2.
Definition STA_R : Z := 0x2.
Definition STS_T32A : Z := 0x9.
Definition CPU_GDT_KCODE : Z := 0x08.
Definition CPU_GDT_KDATA : Z := 0x10.
Definition CPU_GDT_UCODE : Z := 0x18.
Definition CPU_GDT_UDATA : Z := 0x20.
Definition CPU_GDT_TSS : Z := 0x28.
Definition CPU_GDT_NDESC : Z := 6.

(** The fields of [tss_t] the kernel writes; the others stay zero.  The
    structure has 104 bytes before the 129 bytes of [ts_iopm], and is padded to
    a multiple of four. *)
Record tss_t : Type := Tss { ts_esp0 : Z; ts_ss0 : Z; ts_iomb : Z; ts_iopm : gmap Z Z }.
Definition tss_zero : tss_t := Tss 0 0 0 ∅.
Definition TSS_IOPM : Z := 104.
Definition TSS_SIZE : Z := 236.

(** ** kstack.h *)

Definition KSTACK_SIZE : Z := 4096.
Record kpage : Type := Kpage { gdt : gmap Z segdesc; tss : tss_t; k_cpu_idx : Z; k_magic : Z }.
Definition kpage_zero : kpage := Kpage ∅ tss_zero 0 0.
#[export] Instance kpage_inhabited : Inhabited kpage := populate kpage_zero.

Definition set_gdt (i : Z) (d : segdesc) (k : kpage) : kpage :=
  Kpage (<[i := d]> (gdt k)) (tss k) (k_cpu_idx k) (k_magic k).
Definition set_tss (f : tss_t -> tss_t) (k : kpage) : kpage :=
  Kpage (gdt k) (f (tss k)) (k_cpu_idx k) (k_magic k).
Definition set_stack0 (esp0 ss0 : Z) (t : tss_t) : tss_t := Tss esp0 ss0 (ts_iomb t) (ts_iopm t).
Definition set_iomap (iomb : Z) (iopm : gmap Z Z) (t : tss_t) : tss_t :=
  Tss (ts_esp0 t) (ts_ss0 t) iomb iopm.

(** The segment registers of a processor. *)
Record segregs : Type := Segregs {
  gdtr : Z * Z; r_cs : Z; r_ds : Z; r_es : Z; r_fs : Z; r_gs : Z; r_ss : Z;
  ldtr : Z; tr : Z; idtr : Z
}.
#[export] Instance segregs_inhabited : Inhabited segregs :=
  populate (Segregs (0, 0) 0 0 0 0 0 0 0 0 0).
Definition set_tr (v : Z) (r : segregs) : segregs :=
  Segregs (gdtr r) (r_cs r) (r_ds r) (r_es r) (r_fs r) (r_gs r) (r_ss r) (ldtr r) v (idtr r).

Record state : Type := State {
  bsp_kstack : gmap Z kpage; proc_kstack : gmap Z kpage; sregs : gmap Z segregs
}.

Section ops.
Context (bsp_base proc_base idt_pd : Z).

Definition bsp_addr (i : Z) : Z := bsp_base + i * KSTACK_SIZE.
Definition proc_addr (i : Z) : Z := proc_base + i * KSTACK_SIZE.
Definition TSS_OFF : Z := 8 * CPU_GDT_NDESC.

Definition bsp_upd (i : Z) (f : kpage -> kpage) : K state unit :=
  bounds NUM_CPUS i ;;
  modify (fun s => State (<[i := f (bsp_kstack s !!! i)]> (bsp_kstack s)) (proc_kstack s) (sregs s)).
Definition proc_upd (i : Z) (f : kpage -> kpage) : K state unit :=
  bounds NUM_IDS i ;;
  modify (fun s => State (bsp_kstack s) (<[i := f (proc_kstack s !!! i)]> (proc_kstack s)) (sregs s)).
Definition ltr (cpu sel : Z) : K state unit :=
  modify (fun s => State (bsp_kstack s) (proc_kstack s) (<[cpu := set_tr sel (sregs s !!! cpu)]> (sregs s))).

(** The descriptor of the task state segment at [base]. *)
Definition tss_desc (base : Z) : segdesc := set_sd_s 0 (SEGDESC16 STS_T32A base (TSS_SIZE - 1) 0).

(** [cpu] is get_pcpu_idx(), [ptr] its kernel stack pointer, a page of bsp_kstack. *)
Definition kstack_switch (cpu ptr pid : Z) : K state unit :=
  let i := (ptr - bsp_base) / KSTACK_SIZE in
  bounds NUM_IDS pid ;;
  bsp_upd i (set_tss (set_stack0 (proc_addr pid + KSTACK_SIZE) CPU_GDT_KDATA)) ;;
  bsp_upd i (set_gdt (Z.shiftr CPU_GDT_TSS 3)
    (SEGDESC16 STS_T32A (proc_addr pid + TSS_OFF) (TSS_SIZE - 1) 0)) ;;
  bsp_upd i (fun k => set_gdt (Z.shiftr CPU_GDT_TSS 3)
    (set_sd_s 0 (gdt k !!! Z.shiftr CPU_GDT_TSS 3)) k) ;;
  ltr cpu CPU_GDT_TSS.

(** The descriptors seg_init and seg_init_proc write. *)
Definition set_gdts (k : kpage) : kpage :=
  set_gdt (Z.shiftr CPU_GDT_UDATA 3) (SEGDESC32 STA_W 0 0xffffffff 3)
  (set_gdt (Z.shiftr CPU_GDT_UCODE 3) (SEGDESC32 (Z.lor STA_X STA_R) 0 0xffffffff 3)
  (set_gdt (Z.shiftr CPU_GDT_KDATA 3) (SEGDESC32 STA_W 0 0xffffffff 0)
  (set_gdt (Z.shiftr CPU_GDT_KCODE 3) (SEGDESC32 (Z.lor STA_X STA_R) 0 0xffffffff 0)
  (set_gdt 0 SEGDESC_NULL k)))).

(** Clearing the BSS, which holds both arrays, leaves only the boot stack's page;
    the last step clears the other pages again. *)
Definition seg_init (cpu_idx : Z) : K state unit :=
  when (cpu_idx =? 0)
    (modify (fun s => State {[0 := bsp_kstack s !!! 0]} ∅ (sregs s))) ;;
  bsp_upd cpu_idx set_gdts ;;
  bsp_upd cpu_idx (set_tss (set_stack0 (bsp_addr cpu_idx + KSTACK_SIZE) CPU_GDT_KDATA)) ;;
  bsp_upd cpu_idx (set_gdt (Z.shiftr CPU_GDT_TSS 3) (tss_desc (bsp_addr cpu_idx + TSS_OFF))) ;;
  bsp_upd cpu_idx (fun k => Kpage (gdt k) (tss k) (k_cpu_idx k) KSTACK_MAGIC) ;;
  modify (fun s => State (bsp_kstack s) (proc_kstack s)
    (<[cpu_idx := Segregs (bsp_addr cpu_idx, 8 * CPU_GDT_NDESC - 1) CPU_GDT_KCODE CPU_GDT_KDATA
         CPU_GDT_KDATA CPU_GDT_KDATA CPU_GDT_KDATA CPU_GDT_KDATA 0 CPU_GDT_TSS idt_pd]> (sregs s))) ;;
  when (cpu_idx =? 0)
    (modify (fun s => State {[0 := bsp_kstack s !!! 0]} ∅ (sregs s))).

Definition seg_init_proc (cpu_idx pid : Z) : K state unit :=
  proc_upd pid set_gdts ;;
  proc_upd pid (set_tss (set_stack0 (proc_addr pid + KSTACK_SIZE) CPU_GDT_KDATA)) ;;
  proc_upd pid (set_tss (fun t => set_iomap TSS_IOPM (ts_iopm t) t)) ;;
  proc_upd pid (set_tss (fun t => set_iomap (ts_iomb t) (ainit 128 0 (fun _ => 0) (ts_iopm t)) t)) ;;
  proc_upd pid (set_tss (fun t => set_iomap (ts_iomb t) (<[128 := 0xff]> (ts_iopm t)) t)) ;;
  proc_upd pid (set_gdt (Z.shiftr CPU_GDT_TSS 3) (tss_desc (proc_addr pid + TSS_OFF))) ;;
  proc_upd pid (fun k => Kpage (gdt k) (tss k) (k_cpu_idx k) KSTACK_MAGIC) ;;
  proc_upd pid (fun k => Kpage (gdt k) (tss k) cpu_idx (k_magic k)).

(** ** What the processor reads out of a descriptor *)

Definition seg_base (d : segdesc) : Z :=
  sd_base_15_0 d + 2 ^ 16 * sd_base_23_16 d + 2 ^ 24 * sd_base_31_24 d.
Definition seg_limit (d : segdesc) : Z :=
  let l := sd_lim_15_0 d + 2 ^ 16 * sd_lim_19_16 d in
  if sd_g d =? 1 then l * 4096 + 4095 else l.

Lemma land_16 z : Z.land z 0xffff = z mod 2 ^ 16.
Proof. exact (Z.land_ones z 16 ltac:(lia)). Qed.
Lemma land_8 z : Z.land z 0xff = z mod 2 ^ 8.
Proof. exact (Z.land_ones z 8 ltac:(lia)). Qed.
Lemma land_4 z : Z.land z 0xf = z mod 2 ^ 4.
Proof. exact (Z.land_ones z 4 ltac:(lia)). Qed.

Ltac seg_bits :=
  unfold seg_base, seg_limit, SEGDESC16, SEGDESC32; cbn [sd_base_15_0 sd_base_23_16 sd_base_31_24
    sd_lim_15_0 sd_lim_19_16 sd_g Z.eqb Pos.eqb];
  rewrite ?land_16, ?land_8, ?land_4, ?Z.shiftr_div_pow2 by lia; unfold is_u32 in *;
  Z.to_euclidean_division_equations; lia.

Lemma base_16 t b l p : is_u32 b -> seg_base (SEGDESC16 t b l p) = b.
Proof. intros. seg_bits. Qed.
Lemma base_32 t b l p : is_u32 b -> seg_base (SEGDESC32 t b l p) = b.
Proof. intros. seg_bits. Qed.
Lemma limit_16 t b l p : 0 <= l < 2 ^ 20 -> seg_limit (SEGDESC16 t b l p) = l.
Proof. intros. seg_bits. Qed.
Lemma limit_32 t b l p : is_u32 l -> seg_limit (SEGDESC32 t b l p) = l / 4096 * 4096 + 4095.
Proof. intros. seg_bits. Qed.

(** The task state the processor finds through its task register: the process
    page whose task segment starts at the base of the selected descriptor. *)
Definition current_desc (s : state) (i cpu : Z) : segdesc :=
  gdt (bsp_kstack s !!! i) !!! Z.shiftr (tr (sregs s !!! cpu)) 3.

(** The processor lets code in ring 3 use an I/O port when the bit of the port
    in the map is clear; a map that ends before the bit forbids the port. *)
Definition port_allowed (t : tss_t) (port : Z) : bool :=
  let at_ := ts_iomb t + port / 8 in
  (at_ <? TSS_SIZE) &&
  negb (Z.testbit (ts_iopm t !!! (at_ - TSS_IOPM)) (port mod 8)).

Definition arrays_ok : Prop :=
  0 <= proc_base /\ proc_base + NUM_IDS * KSTACK_SIZE <= 2 ^ 32 /\ 0 <= bsp_base.

Lemma bsp_upd_run i f s : 0 <= i < NUM_CPUS -> bsp_upd i f s =
  Ok tt (State (<[i := f (bsp_kstack s !!! i)]> (bsp_kstack s)) (proc_kstack s) (sregs s)).
Proof. intros Hi. unfold bsp_upd. by erewrite bind_Ok by (by apply bounds_Ok). Qed.
Lemma proc_upd_run i f s : 0 <= i < NUM_IDS -> proc_upd i f s =
  Ok tt (State (bsp_kstack s) (<[i := f (proc_kstack s !!! i)]> (proc_kstack s)) (sregs s)).
Proof. intros Hi. unfold proc_upd. by erewrite bind_Ok by (by apply bounds_Ok). Qed.

Lemma kstack_switch_run cpu i pid s :
  arrays_ok -> 0 <= cpu < NUM_CPUS -> 0 <= i < NUM_CPUS -> 0 <= pid < NUM_IDS ->
  exists s', kstack_switch cpu (bsp_addr i) pid s = Ok tt s' /\
    proc_kstack s' = proc_kstack s /\ tr (sregs s' !!! cpu) = CPU_GDT_TSS /\
    current_desc s' i cpu = tss_desc (proc_addr pid + TSS_OFF) /\
    ts_esp0 (tss (bsp_kstack s' !!! i)) = proc_addr pid + KSTACK_SIZE.
Proof.
  intros (? & ? & ?) Hcpu Hi Hpid. unfold kstack_switch.
  replace ((bsp_addr i - bsp_base) / KSTACK_SIZE) with i
    by (unfold bsp_addr, KSTACK_SIZE; rewrite Z.add_simpl_l, Z.div_mul; lia).
  erewrite bind_Ok by (by apply bounds_Ok).
  do 3 erewrite bind_Ok by (by apply bsp_upd_run).
  eexists. split; [reflexivity|]. unfold current_desc. cbn.
  rewrite !lookup_total_insert_eq. cbn. by rewrite !lookup_total_insert_eq.
Qed.

Lemma seg_init_proc_run cpu pid s : 0 <= pid < NUM_IDS ->
  exists s', seg_init_proc cpu pid s = Ok tt s' /\ bsp_kstack s' = bsp_kstack s /\ sregs s' = sregs s /\
    (forall j, j <> pid -> proc_kstack s' !!! j = proc_kstack s !!! j) /\
    let k := proc_kstack s' !!! pid in
    k_cpu_idx k = cpu /\ k_magic k = KSTACK_MAGIC /\ ts_esp0 (tss k) = proc_addr pid + KSTACK_SIZE /\
    ts_ss0 (tss k) = CPU_GDT_KDATA /\ ts_iomb (tss k) = TSS_IOPM /\
    (forall j, 0 <= j < 128 -> ts_iopm (tss k) !!! j = 0) /\ ts_iopm (tss k) !!! 128 = 0xff.
Proof.
  intros Hpid. unfold seg_init_proc. do 7 erewrite bind_Ok by (by apply proc_upd_run).
  rewrite proc_upd_run by done. eexists. split; [reflexivity|]. cbn -[ainit].
  rewrite !lookup_total_insert_eq. split_and!; try done.
  - intros j Hj. by rewrite !lookup_total_insert_ne by done.
  - cbn -[ainit]. intros j Hj. rewrite lookup_total_insert_ne by lia.
    by rewrite lookup_ainit, decide_True by lia.
  - cbn -[ainit]. by rewrite lookup_total_insert_eq.
Qed.

Lemma gdts_lookup k d i : 0 <= i < CPU_GDT_NDESC ->
  gdt (set_gdt (Z.shiftr CPU_GDT_TSS 3) d (set_gdts k)) !!! i =
  [SEGDESC_NULL; SEGDESC32 (Z.lor STA_X STA_R) 0 0xffffffff 0; SEGDESC32 STA_W 0 0xffffffff 0;
   SEGDESC32 (Z.lor STA_X STA_R) 0 0xffffffff 3; SEGDESC32 STA_W 0 0xffffffff 3; d] !!! Z.to_nat i.
Proof.
  unfold CPU_GDT_NDESC. intros Hi.
  assert (i = 0 \/ i = 1 \/ i = 2 \/ i = 3 \/ i = 4 \/ i = 5) as Hc by lia.
  unfold set_gdts, set_gdt. cbn [gdt].
  change (Z.shiftr CPU_GDT_TSS 3) with 5. change (Z.shiftr CPU_GDT_UDATA 3) with 4.
  change (Z.shiftr CPU_GDT_UCODE 3) with 3. change (Z.shiftr CPU_GDT_KDATA 3) with 2.
  change (Z.shiftr CPU_GDT_KCODE 3) with 1.
  destruct Hc as [->|[->|[->|[->|[->| ->]]]]];
    repeat (rewrite lookup_total_insert_eq || rewrite lookup_total_insert_ne by done); reflexivity.
Qed.

(** After seg_init the descriptors of ring 3 are exactly the user code and data
    segments; both cover the whole address space, as the kernel's do, so that
    protection is left to the page tables.  The code descriptors are executable
    and the task register selects the processor's own task segment. *)
Theorem seg_init_correct cpu s :
  arrays_ok -> bsp_base + NUM_CPUS * KSTACK_SIZE <= 2 ^ 32 -> 0 <= cpu < NUM_CPUS ->
  exists s', seg_init cpu s = Ok tt s' /\
    let k := bsp_kstack s' !!! cpu in
    let r := sregs s' !!! cpu in
    (forall i, 0 <= i < CPU_GDT_NDESC ->
       sd_dpl (gdt k !!! i) = if bool_decide (i * 8 = CPU_GDT_UCODE \/ i * 8 = CPU_GDT_UDATA) then 3 else 0) /\
    (forall i, 0 < i < CPU_GDT_NDESC - 1 ->
       seg_base (gdt k !!! i) = 0 /\ seg_limit (gdt k !!! i) = 2 ^ 32 - 1 /\ sd_p (gdt k !!! i) = 1) /\
    seg_base (current_desc s' cpu cpu) = bsp_addr cpu + TSS_OFF /\
    ts_esp0 (tss k) = bsp_addr cpu + KSTACK_SIZE /\ k_magic k = KSTACK_MAGIC /\
    r_cs r = CPU_GDT_KCODE /\ r_ds r = CPU_GDT_KDATA /\ r_ss r = CPU_GDT_KDATA.
Proof.
  intros (? & ? & ?) Hb Hcpu. unfold seg_init.
  set (s1 := if cpu =? 0 then State {[0 := bsp_kstack s !!! 0]} ∅ (sregs s) else s).
  erewrite bind_Ok by (instantiate (1 := s1); unfold s1; by destruct (cpu =? 0)).
  do 4 erewrite bind_Ok by (by apply bsp_upd_run). erewrite bind_Ok by reflexivity.
  match goal with |- context [when _ _ ?t] => set (s2 := t) end.
  assert (Hk : exists s', when (cpu =? 0) (modify (fun s => State {[0 := bsp_kstack s !!! 0]} ∅ (sregs s))) s2
      = Ok tt s' /\ bsp_kstack s' !!! cpu = bsp_kstack s2 !!! cpu /\ sregs s' = sregs s2).
  { destruct (Z.eqb_spec cpu 0) as [->|]; eexists; (split; [reflexivity|]); [|done].
    split; [|done]. cbn [bsp_kstack]. by rewrite lookup_total_singleton. }
  destruct Hk as (s' & -> & Ek & Er). exists s'. split; [done|]. unfold current_desc.
  assert (Eg : gdt (bsp_kstack s2 !!! cpu) =
      gdt (set_gdt (Z.shiftr CPU_GDT_TSS 3) (tss_desc (bsp_addr cpu + TSS_OFF))
        (set_gdts (bsp_kstack s1 !!! cpu))))
    by (unfold s2; cbn -[set_gdts tss_desc]; by rewrite !lookup_total_insert_eq).
  assert (Et : tr (sregs s2 !!! cpu) = CPU_GDT_TSS)
    by (unfold s2; cbn; by rewrite lookup_total_insert_eq).
  rewrite Ek, Er, Et, Eg. split_and!.
  - unfold CPU_GDT_NDESC. intros i Hi. rewrite gdts_lookup by done.
    assert (i = 0 \/ i = 1 \/ i = 2 \/ i = 3 \/ i = 4 \/ i = 5) as Hc by lia.
    by destruct Hc as [->|[->|[->|[->|[->| ->]]]]].
  - unfold CPU_GDT_NDESC. intros i Hi. rewrite gdts_lookup by (unfold CPU_GDT_NDESC; lia).
    assert (i = 1 \/ i = 2 \/ i = 3 \/ i = 4) as Hc by lia.
    by destruct Hc as [->|[->|[->| ->]]].
  - rewrite gdts_lookup by done. apply base_16. unfold bsp_addr, TSS_OFF, CPU_GDT_NDESC, KSTACK_SIZE, NUM_CPUS, is_u32 in *. lia.
  - unfold s2. cbn. by rewrite !lookup_total_insert_eq.
  - unfold s2. cbn. by rewrite !lookup_total_insert_eq.
  - unfold s2. cbn. by rewrite !lookup_total_insert_eq.
  - unfold s2. cbn. by rewrite !lookup_total_insert_eq.
  - unfold s2. cbn. by rewrite !lookup_total_insert_eq.
Qed.

(** Entering the kernel from process [pid]: after seg_init_proc and
    kstack_switch the task segment the processor uses is that of the process's
    own kernel stack page, it is a present system segment of ring 0, and the
    stack it names is the top of that page. *)
Theorem kstack_switch_correct cpu pid i s :
  arrays_ok -> 0 <= cpu < NUM_CPUS -> 0 <= i < NUM_CPUS -> 0 <= pid < NUM_IDS ->
  exists s', (seg_init_proc cpu pid ;; kstack_switch cpu (bsp_addr i) pid) s = Ok tt s' /\
    let d := current_desc s' i cpu in
    seg_base d = proc_addr pid + TSS_OFF /\ seg_limit d = TSS_SIZE - 1 /\
    sd_type d = STS_T32A /\ sd_s d = 0 /\ sd_dpl d = 0 /\ sd_p d = 1 /\
    ts_esp0 (tss (proc_kstack s' !!! pid)) = proc_addr pid + KSTACK_SIZE /\
    ts_ss0 (tss (proc_kstack s' !!! pid)) = CPU_GDT_KDATA.
Proof.
  intros Ha Hcpu Hi Hpid.
  destruct (seg_init_proc_run cpu pid s Hpid) as (s1 & Hr1 & _ & _ & _ & _ & _ & E1 & E2 & _).
  erewrite bind_Ok by exact Hr1.
  destruct (kstack_switch_run cpu i pid s1 Ha Hcpu Hi Hpid) as (s2 & Hr2 & Ep & _ & Ed & _).
  exists s2. split; [exact Hr2|]. rewrite Ed, Ep. destruct Ha as (? & ? & ?).
  split_and!; try done. apply base_16.
  unfold proc_addr, TSS_OFF, CPU_GDT_NDESC, KSTACK_SIZE, NUM_IDS, is_u32 in *. lia.
Qed.

(** The permission map seg_init_proc installs allows ring 3 every port below
    1024, among them those of the disk, the interrupt controllers and the
    serial line. *)
Theorem seg_init_proc_opens_ports cpu pid s port :
  0 <= pid < NUM_IDS -> 0 <= port < 1024 ->
  exists s', seg_init_proc cpu pid s = Ok tt s' /\
    port_allowed (tss (proc_kstack s' !!! pid)) port = true.
Proof.
  intros Hpid Hport.
  destruct (seg_init_proc_run cpu pid s Hpid) as (s1 & Hr1 & _ & _ & _ & _ & _ & _ & _ & E & Hm & _).
  exists s1. split; [done|]. unfold port_allowed. rewrite E, Z.add_simpl_l, Hm by (unfold TSS_IOPM, TSS_SIZE; Z.to_euclidean_division_equations; lia).
  rewrite Z.testbit_0_l. apply andb_true_iff. split; [|done]. apply Z.ltb_lt.
  unfold TSS_IOPM, TSS_SIZE. Z.to_euclidean_division_equations; lia.
Qed.
End ops.

Lemma seg_init_correct_witness : exists s', seg_init 0x110000 0 0 (State ∅ ∅ ∅) = Ok tt s' /\
  ts_esp0 (tss (bsp_kstack s' !!! 0)) = 0x111000.
Proof.
  destruct (seg_init_correct 0x110000 0x120000 0 0 (State ∅ ∅ ∅)) as (s' & Hr & _ & _ & _ & E & _).
  - split_and!; unfold NUM_IDS, KSTACK_SIZE; lia.
  - unfold NUM_CPUS, KSTACK_SIZE; lia.
  - unfold NUM_CPUS; lia.
  - exists s'. split; [exact Hr | exact E].
Defined.

Lemma kstack_switch_correct_witness : exists s',
  (seg_init_proc 0x120000 0 5 ;; kstack_switch 0x110000 0x120000 0 0x110000 5) (State ∅ ∅ ∅) = Ok tt s' /\
  ts_esp0 (tss (proc_kstack s' !!! 5)) = 0x126000.
Proof.
  destruct (kstack_switch_correct 0x110000 0x120000 0 5 0 (State ∅ ∅ ∅))
    as (s' & Hr & _ & _ & _ & _ & _ & _ & E & _).
  - split_and!; unfold NUM_IDS, KSTACK_SIZE; lia.
  - unfold NUM_CPUS; lia.
  - unfold NUM_CPUS; lia.
  - unfold NUM_IDS; lia.
  - exists s'. split; [exact Hr | exact E].
Defined.

Lemma seg_init_proc_opens_ports_witness : exists s', seg_init_proc 0x120000 0 5 (State ∅ ∅ ∅) = Ok tt s' /\
  port_allowed (tss (proc_kstack s' !!! 5)) 0x1f0 = true.
Proof. apply seg_init_proc_opens_ports; unfold NUM_IDS; lia. Defined.
End Seg.
