(* ===== verification/Mboot.v ===== *)
(** * The physical memory map (kern/dev/mboot.c)

    [pmmap_init] copies the E820 entries the boot loader left into a list
    sorted by start address, merges neighbours and counts them; the page
    allocator reads the list through [get_size], [get_mms], [get_mml] and
    [is_usable].  The SLIST of slots is a Rocq list; a slot of the pool is
    taken for every insertion and never given back. *)

From Stdlib Require Import Sorting.Sorted.
From S2P Require Import Prelude Types.

(** One entry of the multiboot memory map (mboot.h). *)
Record mboot_mmap : Type := MbootMmap {
  base_addr_low : Z; base_addr_high : Z;
  length_low : Z; length_high : Z; mtype : Z
}.

Record pmmap : Type := Pmmap { start : Z; end_ : Z; type : Z }.

Definition MEM_RAM : Z := 1.
Definition MEM_RESERVED : Z := 2.
Definition MEM_ACPI : Z := 3.
Definition MEM_NVS : Z := 4.

Record state : Type := State {
  pmmap_slots_next_free : Z;
  pmmap_list : list pmmap;
  pmmap_sublist : gmap Z (list pmmap);
  max_usable_memory : Z;
  mem_npages : Z;
  pmmap_nentries : Z
}.

Definition set_slots_next_free v s := State v (pmmap_list s) (pmmap_sublist s)
  (max_usable_memory s) (mem_npages s) (pmmap_nentries s).
Definition set_list v s := State (pmmap_slots_next_free s) v (pmmap_sublist s)
  (max_usable_memory s) (mem_npages s) (pmmap_nentries s).
Definition set_sublist v s := State (pmmap_slots_next_free s) (pmmap_list s) v
  (max_usable_memory s) (mem_npages s) (pmmap_nentries s).
Definition set_max_usable v s := State (pmmap_slots_next_free s) (pmmap_list s)
  (pmmap_sublist s) v (mem_npages s) (pmmap_nentries s).
Definition set_npages v s := State (pmmap_slots_next_free s) (pmmap_list s)
  (pmmap_sublist s) (max_usable_memory s) v (pmmap_nentries s).
Definition set_nentries v s := State (pmmap_slots_next_free s) (pmmap_list s)
  (pmmap_sublist s) (max_usable_memory s) (mem_npages s) v.

(** The sublist a type belongs to: PMMAP_USABLE .. PMMAP_NVS, or -1. *)
Definition PMMAP_SUBLIST_NR (t : Z) : Z :=
  if t =? MEM_RAM then 0
  else if t =? MEM_RESERVED then 1
  else if t =? MEM_ACPI then 2
  else if t =? MEM_NVS then 3
  else -1.

(** ** Operations *)

(** [None] is the NULL pointer: all 128 slots are taken. *)
Definition pmmap_alloc_slot : K state (option Z) :=
  n ← gets pmmap_slots_next_free;
  if n =? 128 then mret None
  else modify (set_slots_next_free (n + 1)) ;; mret (Some n).

(** The list walk of pmmap_insert: the new slot goes after the last slot of
    the prefix whose start addresses are not above its own. *)
Fixpoint insert_slot (e : pmmap) (l : list pmmap) : list pmmap :=
  match l with
  | [] => [e]
  | slot :: l' =>
      if start e <? start slot then e :: l
      else slot :: insert_slot e l'
  end.

Definition pmmap_insert (st en ty : Z) : K state unit :=
  free_slot ← pmmap_alloc_slot;
  match free_slot with
  | None => panic "More than 128 E820 entries."
  | Some _ =>
      l ← gets pmmap_list;
      modify (set_list (insert_slot (Pmmap st en ty) l))
  end.

(** Step 1 of pmmap_merge: one pass; after a merge the loop goes on with the
    slot behind the one that was absorbed. *)
Fixpoint merge_pass (l : list pmmap) : list pmmap :=
  match l with
  | slot :: ((next_slot :: rest) as tl) =>
      if (start slot <=? start next_slot) && (start next_slot <=? end_ slot)
         && (type slot =? type next_slot)
      then Pmmap (start slot) (max (end_ slot) (end_ next_slot)) (type slot)
             :: merge_pass rest
      else slot :: merge_pass tl
  | _ => l
  end.

(** Step 2 of pmmap_merge: append every slot to the sublist of its type. *)
Fixpoint sort_types (l : list pmmap) : K state unit :=
  match l with
  | [] => mret tt
  | slot :: l' =>
      let sublist_nr := PMMAP_SUBLIST_NR (type slot) in
      kassert (negb (sublist_nr =? -1)) "sublist_nr != -1" ;;
      subs ← gets pmmap_sublist;
      modify (set_sublist (<[sublist_nr := subs !!! sublist_nr ++ [slot]]> subs)) ;;
      sort_types l'
  end.

Definition pmmap_merge : K state unit :=
  l ← gets pmmap_list;
  modify (set_list (merge_pass l)) ;;
  l ← gets pmmap_list;
  sort_types l ;;
  subs ← gets pmmap_sublist;
  match last (subs !!! 0) with
  | Some slot => modify (set_max_usable (end_ slot))
  | None => mret tt
  end.

(** The body of the loop of pmmap_init over the boot loader's entries. *)
Definition clip_end (p : mboot_mmap) : Z :=
  if negb (length_high p =? 0) || (0xffffffff - base_addr_low p <=? length_low p)
  then 0xffffffff
  else u32 (base_addr_low p + length_low p).

Definition pmmap_copy (p : mboot_mmap) : K state unit :=
  if negb (base_addr_high p =? 0) then mret tt
  else pmmap_insert (base_addr_low p) (clip_end p) (mtype p).

Fixpoint pmmap_copy_all (ps : list mboot_mmap) : K state unit :=
  match ps with
  | [] => mret tt
  | p :: ps' => pmmap_copy p ;; pmmap_copy_all ps'
  end.

(** [mmap] is the buffer of [mbi->mmap_length] bytes at [mbi->mmap_addr]. *)
Definition pmmap_init (mmap : list mboot_mmap) : K state unit :=
  modify (set_list []) ;;
  modify (set_sublist ∅) ;;
  pmmap_copy_all mmap ;;
  pmmap_merge ;;
  l ← gets pmmap_list;
  n ← gets pmmap_nentries;
  modify (set_nentries (n + Z.of_nat (length l))) ;;
  m ← gets max_usable_memory;
  modify (set_npages (rounddown m 4096 / 4096)).

Definition get_size : K state Z := gets pmmap_nentries.

(** The common walk of the three getters: the slot at position [idx], or NULL
    when the walk runs off the list or past [pmmap_nentries]. *)
Definition nth_slot (idx : Z) (s : state) : option pmmap :=
  if idx <? 0 then None
  else if idx =? pmmap_nentries s then None
  else pmmap_list s !! Z.to_nat idx.

Definition get_mms (idx : Z) : K state Z :=
  slot ← gets (nth_slot idx);
  mret (match slot with Some e => start e | None => 0 end).

Definition get_mml (idx : Z) : K state Z :=
  slot ← gets (nth_slot idx);
  mret (match slot with Some e => u32 (end_ e - start e) | None => 0 end).

Definition is_usable (idx : Z) : K state Z :=
  slot ← gets (nth_slot idx);
  mret (match slot with Some e => if type e =? MEM_RAM then 1 else 0 | None => 0 end).

(** The zero-initialised static variables at boot. *)
Definition boot_state : state := State 0 [] ∅ 0 0 0.

(** ** Correctness *)

Definition entry_ok (e : pmmap) : Prop :=
  0 <= start e <= end_ e /\ end_ e <= 0xffffffff.

Definition starts_le (a b : pmmap) : Prop := start a <= start b.

(** Address [x] lies in a region of type [t] of the map. *)
Definition covers (t x : Z) (l : list pmmap) : Prop :=
  Exists (fun e => type e = t /\ start e <= x < end_ e) l.

(** The fields of a boot loader entry are words, and its type is one of the
    four the kernel knows. *)
Definition mmap_ok (p : mboot_mmap) : Prop :=
  is_u32 (base_addr_low p) /\ is_u32 (length_low p) /\ 1 <= mtype p <= 4.

(** What the entry says about address [x] below 4G. *)
Definition mmap_covers (t x : Z) (p : mboot_mmap) : Prop :=
  base_addr_high p = 0 /\ mtype p = t /\
  base_addr_low p <= x < clip_end p.

Lemma covers_cons t x e l :
  covers t x (e :: l) <-> (type e = t /\ start e <= x < end_ e) \/ covers t x l.
Proof. apply Exists_cons. Qed.

Lemma covers_insert t x e l :
  covers t x (insert_slot e l) <-> covers t x (e :: l).
Proof.
  induction l as [|a l IH]; cbn [insert_slot]; [done|].
  case_bool; [done|]. rewrite !covers_cons, IH, covers_cons. tauto.
Qed.

Lemma insert_slot_perm e l : insert_slot e l ≡ₚ e :: l.
Proof.
  induction l as [|a l IH]; cbn [insert_slot]; [done|].
  case_bool; [done|]. rewrite IH. apply Permutation_swap.
Qed.

Lemma insert_slot_sorted e l :
  StronglySorted starts_le l -> StronglySorted starts_le (insert_slot e l).
Proof.
  induction 1 as [|a l Hs IH Ha]; cbn [insert_slot]; [by repeat constructor|].
  case_bool.
  - constructor; [by constructor|]. constructor; [unfold starts_le; lia|].
    eapply Forall_impl; [exact Ha|]. unfold starts_le. lia.
  - constructor; [done|]. rewrite insert_slot_perm. by constructor.
Qed.

(** [merge_pass] consumes one or two slots per round; this is its induction. *)
Lemma merge_ind (P : list pmmap -> Prop) :
  P [] -> (forall a, P [a]) ->
  (forall a b l, P l -> P (b :: l) -> P (a :: b :: l)) ->
  forall l, P l.
Proof.
  intros H0 H1 H2 l. cut (P l /\ forall a, P (a :: l)); [tauto|].
  induction l as [|b l [IHl IHc]]; [auto|]. split; [auto|]. auto.
Qed.

Definition mergeable (a b : pmmap) : bool :=
  (start a <=? start b) && (start b <=? end_ a) && (type a =? type b).
Definition merged (a b : pmmap) : pmmap :=
  Pmmap (start a) (max (end_ a) (end_ b)) (type a).

Lemma merge_pass_eq a b l :
  merge_pass (a :: b :: l) =
    if mergeable a b then merged a b :: merge_pass l else a :: merge_pass (b :: l).
Proof. done. Qed.

Lemma mergeable_true a b :
  mergeable a b = true -> start a <= start b <= end_ a /\ type a = type b.
Proof. unfold mergeable. rewrite !andb_true_iff, !Z.leb_le, Z.eqb_eq. lia. Qed.

Lemma merge_pass_covers t x l :
  Forall entry_ok l -> covers t x (merge_pass l) <-> covers t x l.
Proof.
  induction l as [|a|a b l IHl IHb] using merge_ind; [done | done |].
  intros Hok. rewrite merge_pass_eq.
  inversion_clear Hok as [|?? Ha Hok']. inversion_clear Hok' as [|?? Hb Hl].
  destruct (mergeable a b) eqn:E.
  - apply mergeable_true in E as [Hov Ht]. unfold merged, entry_ok in *.
    rewrite !covers_cons, IHl by done. cbn. rewrite max_spec, Ht.
    destruct (decide (end_ b <= end_ a)); intuition lia.
  - rewrite (covers_cons t x a (b :: l)), covers_cons, IHb by (by constructor). done.
Qed.

Lemma merge_pass_Forall (P : pmmap -> Prop) l :
  (forall a b, P a -> P b -> mergeable a b = true -> P (merged a b)) ->
  Forall P l -> Forall P (merge_pass l).
Proof.
  intros HP. induction l as [|a|a b l IHl IHb] using merge_ind; [done | done |].
  intros Hok. rewrite merge_pass_eq.
  inversion_clear Hok as [|?? Ha Hok']. inversion_clear Hok' as [|?? Hb Hl].
  destruct (mergeable a b) eqn:E; constructor; auto.
Qed.

Lemma merge_pass_ok l : Forall entry_ok l -> Forall entry_ok (merge_pass l).
Proof.
  apply merge_pass_Forall. intros a b Ha Hb [??]%mergeable_true.
  unfold entry_ok, merged in *; cbn. rewrite max_spec. lia.
Qed.

Lemma merge_pass_sorted l :
  StronglySorted starts_le l -> StronglySorted starts_le (merge_pass l).
Proof.
  induction l as [|a|a b l IHl IHb] using merge_ind; [done | done |].
  intros Hs. rewrite merge_pass_eq.
  inversion_clear Hs as [|?? Hs' Ha]. pose proof Hs' as Hb.
  inversion_clear Hb as [|?? Hsl Hbl].
  destruct (mergeable a b) eqn:E; constructor; auto.
  - apply merge_pass_Forall; [done|]. by inversion_clear Ha.
  - apply (merge_pass_Forall (starts_le a)); [done | done].
Qed.

Lemma clip_end_ok p : mmap_ok p ->
  entry_ok (Pmmap (base_addr_low p) (clip_end p) (mtype p)).
Proof.
  intros (Hb & Hl & Ht). unfold entry_ok, clip_end, is_u32 in *. cbn.
  destruct (Z.leb_spec (0xffffffff - base_addr_low p) (length_low p)).
  - rewrite orb_true_r. lia.
  - rewrite orb_false_r. destruct (negb _); [lia|].
    rewrite u32_small by (unfold is_u32; lia). lia.
Qed.

(** ** Running pmmap_init *)

(** The entries pmmap_init keeps: those that start below 4G. *)
Definition kept (ps : list mboot_mmap) : list mboot_mmap :=
  filter (fun p => base_addr_high p = 0) ps.

Definition entry_of (p : mboot_mmap) : pmmap :=
  Pmmap (base_addr_low p) (clip_end p) (mtype p).

(** What [pmmap_copy_all] keeps true of the list built so far. *)
Record list_ok (l : list pmmap) : Prop := {
  list_ok_entry : Forall entry_ok l;
  list_ok_type : Forall (fun e => 1 <= type e <= 4) l;
  list_ok_sorted : StronglySorted starts_le l
}.

Lemma insert_slot_ok e l :
  entry_ok e -> 1 <= type e <= 4 -> list_ok l -> list_ok (insert_slot e l).
Proof.
  intros He Ht [H1 H2 H3]. split.
  - rewrite insert_slot_perm. by constructor.
  - rewrite insert_slot_perm. by constructor.
  - by apply insert_slot_sorted.
Qed.

Lemma pmmap_copy_all_wp ps s :
  Forall mmap_ok ps ->
  pmmap_slots_next_free s + Z.of_nat (length (kept ps)) <= 128 ->
  0 <= pmmap_slots_next_free s ->
  list_ok (pmmap_list s) ->
  wp (pmmap_copy_all ps) (fun _ s' =>
    list_ok (pmmap_list s') /\
    (forall t x, covers t x (pmmap_list s') <->
       Exists (mmap_covers t x) ps \/ covers t x (pmmap_list s)) /\
    (length (pmmap_list s') = length (kept ps) + length (pmmap_list s))%nat /\
    pmmap_sublist s' = pmmap_sublist s /\
    max_usable_memory s' = max_usable_memory s /\
    pmmap_nentries s' = pmmap_nentries s) s.
Proof.
  intros Hok. revert s. induction Hok as [|p ps Hp Hps IH]; intros s Hfit Hn Hl.
  - apply wp_ret. split; [done|]. split; [|done]. intros t x. rewrite Exists_nil. tauto.
  - cbn [pmmap_copy_all]. apply wp_bind. unfold kept in *. rewrite filter_cons in Hfit.
    unfold pmmap_copy. rewrite filter_cons.
    destruct (decide (base_addr_high p = 0)) as [Hh|Hh].
    + rewrite Hh; cbn [Z.eqb negb length] in *.
      unfold pmmap_insert, pmmap_alloc_slot. wp_steps.
      destruct (Z.eqb_spec (pmmap_slots_next_free s) 128) as [E|E]; [lia|]. wp_steps.
      eapply wp_mono; [apply IH; cbn; [lia | lia |]|].
      * apply insert_slot_ok; [by apply clip_end_ok | by destruct Hp as (_ & _ & ?) | done].
      * cbn. intros _ s' (HL & Hcov & Hlen & Hrest). split; [done|]. split; [|split; [|done]].
        -- intros t x. rewrite Hcov, Exists_cons, covers_insert, covers_cons.
           assert (mmap_covers t x p <-> mtype p = t /\ base_addr_low p <= x < clip_end p)
             by (unfold mmap_covers; tauto). cbn. tauto.
        -- rewrite Hlen, insert_slot_perm. cbn. lia.
    + rewrite (proj2 (Z.eqb_neq _ _) Hh). cbn [negb]. wp_steps.
      eapply wp_mono; [by apply IH|].
      cbn. intros _ s' (HL & Hcov & Hrest). split; [done|]. split; [|done].
      intros t x. rewrite Hcov, Exists_cons.
      assert (~ mmap_covers t x p) by (unfold mmap_covers; tauto). tauto.
Qed.

Lemma sublist_nr_ok t : 1 <= t <= 4 -> 0 <= PMMAP_SUBLIST_NR t <= 3.
Proof.
  intros H. unfold PMMAP_SUBLIST_NR, MEM_RAM, MEM_RESERVED, MEM_ACPI, MEM_NVS.
  repeat case_bool; lia.
Qed.

Lemma sort_types_wp l s :
  Forall (fun e => 1 <= type e <= 4) l ->
  wp (sort_types l) (fun _ s' =>
    pmmap_list s' = pmmap_list s /\ pmmap_nentries s' = pmmap_nentries s /\
    max_usable_memory s' = max_usable_memory s /\
    pmmap_sublist s' !!! 0 = pmmap_sublist s !!! 0 ++ filter (fun e => type e = MEM_RAM) l) s.
Proof.
  intros Hl. revert s. induction Hl as [|e l He Hl IH]; intros s; cbn [sort_types].
  - apply wp_ret. by rewrite app_nil_r.
  - pose proof (sublist_nr_ok (type e) He) as Hnr.
    wp_steps; [apply negb_true_iff, Z.eqb_neq; lia|]. wp_steps.
    eapply wp_mono; [apply IH|]. intros _ s' (-> & -> & -> & ->).
    do 3 (split; [done|]). rewrite filter_cons. cbn [pmmap_sublist set_sublist].
    unfold PMMAP_SUBLIST_NR in *. case_decide as Ht.
    + rewrite Ht; cbn. by rewrite lookup_total_insert_eq, <- app_assoc.
    + apply Z.eqb_neq in Ht as ->. rewrite lookup_total_insert_ne; [done|].
      repeat case_bool; lia.
Qed.

(** What pmmap_init establishes: the map is sorted and well formed, the count
    the getters use is its length, and it describes exactly the memory the boot
    loader reported. *)
Record map_ok (ps : list mboot_mmap) (s : state) : Prop := {
  map_ok_list : list_ok (pmmap_list s);
  map_ok_count : pmmap_nentries s = Z.of_nat (length (pmmap_list s));
  map_ok_covers : forall t x,
    covers t x (pmmap_list s) <-> Exists (mmap_covers t x) ps
}.

Lemma pmmap_init_wp ps :
  Forall mmap_ok ps -> (length (kept ps) <= 128)%nat ->
  wp (pmmap_init ps) (fun _ s => map_ok ps s) boot_state.
Proof.
  intros Hps Hlen. unfold pmmap_init. wp_steps.
  wp_call pmmap_copy_all_wp; [done | cbn; lia | cbn; lia | cbn |].
  { split; constructor. }
  cbn. intros _ s (Hok & Hcov & _ & _ & _ & Hn). unfold pmmap_merge. wp_steps.
  destruct Hok as [H1 H2 H3].
  wp_call sort_types_wp; cbn.
  { apply merge_pass_Forall; [|done]. done. }
  intros _ s2 (HL & HN & _ & _).
  wp_steps. eapply (wp_mono _ (fun _ s3 => pmmap_list s3 = pmmap_list s2 /\
    pmmap_nentries s3 = pmmap_nentries s2)).
  { by destruct (last (pmmap_sublist s2 !!! 0)). }
  intros _ s3 [HL3 HN3]. wp_steps. cbn. split; cbn; rewrite HL3, HL.
  - split; [by apply merge_pass_ok | by apply merge_pass_Forall | by apply merge_pass_sorted].
  - rewrite HN3, HN, Hn. lia.
  - intros t x. rewrite merge_pass_covers, Hcov by done.
    unfold covers at 1. rewrite Exists_nil. tauto.
Qed.

(** ** The getters *)

(** The list and the count the getters compare positions with agree. *)
Definition counted (s : state) : Prop :=
  pmmap_nentries s = Z.of_nat (length (pmmap_list s)).

Lemma nth_slot_lookup s i e :
  counted s -> pmmap_list s !! i = Some e -> nth_slot (Z.of_nat i) s = Some e.
Proof.
  intros Hc Hl. unfold nth_slot. pose proof (lookup_lt_Some _ _ _ Hl) as Hlt.
  unfold counted in Hc. bool_simp. by rewrite Nat2Z.id.
Qed.

Lemma get_mms_run s i e :
  counted s -> pmmap_list s !! i = Some e ->
  get_mms (Z.of_nat i) s = Ok (start e) s.
Proof. intros Hc Hl. unfold get_mms. krun. by rewrite (nth_slot_lookup s i e). Qed.

Lemma get_mml_run s i e :
  counted s -> pmmap_list s !! i = Some e -> entry_ok e ->
  get_mml (Z.of_nat i) s = Ok (end_ e - start e) s.
Proof.
  intros Hc Hl [? ?]. unfold get_mml. krun. rewrite (nth_slot_lookup s i e) by done.
  by rewrite u32_small by klia.
Qed.

Lemma is_usable_run s i e :
  counted s -> pmmap_list s !! i = Some e ->
  is_usable (Z.of_nat i) s = Ok (if type e =? MEM_RAM then 1 else 0) s.
Proof. intros Hc Hl. unfold is_usable. krun. by rewrite (nth_slot_lookup s i e). Qed.
