(* ===== verification/MAT.v ===== *)
(** * The physical page allocator (kern/pmm/MATIntro, MATInit, MATOp)

    [MATIntro] holds the allocation table and its getters and setters,
    [MATInit] fills it from the memory map, [MATOp] allocates and frees pages.
    The allocation table [AT] has 2^20 entries; NUM_PAGES of them are in use. *)

From S2P Require Import Prelude Types Spinlock Mboot.

(** ** MATIntro *)
Module MATIntro.

Record ATStruct : Type := MkAT { perm : Z; allocated : Z }.

#[export] Instance ATStruct_inhabited : Inhabited ATStruct := populate (MkAT 0 0).

(** The number of entries of the array [AT]. *)
Definition AT_SIZE : Z := 2 ^ 20.
#[export] Hint Unfold AT_SIZE : kconst.

(** The static variables of MATIntro.c and MATOp.c, with the memory map of
    mboot.c below them. *)
Record state : Type := State {
  mm : Mboot.state;
  mem_lk : spinlock_t;
  NUM_PAGES : Z;
  AT : gmap Z ATStruct;
  last_palloc_index : Z
}.

Definition set_mm v s := State v (mem_lk s) (NUM_PAGES s) (AT s) (last_palloc_index s).
Definition set_mem_lk v s := State (mm s) v (NUM_PAGES s) (AT s) (last_palloc_index s).
Definition set_NUM_PAGES v s := State (mm s) (mem_lk s) v (AT s) (last_palloc_index s).
Definition set_AT v s := State (mm s) (mem_lk s) (NUM_PAGES s) v (last_palloc_index s).
Definition set_last v s := State (mm s) (mem_lk s) (NUM_PAGES s) (AT s) v.

Definition mm_lens : lens state Mboot.state := Lens mm set_mm.
Definition lk_lens : lens state spinlock_t := Lens mem_lk set_mem_lk.

#[export] Instance mm_lens_laws : LensLaws mm_lens.
Proof. split; [done | by intros [] | done]. Qed.
#[export] Instance lk_lens_laws : LensLaws lk_lens.
Proof. split; [done | by intros [] | done]. Qed.

Definition mem_spinlock_init : K state unit := zoom lk_lens spinlock_init.
Definition mem_lock (ks : kstack) : K state unit := zoom lk_lens (spinlock_acquire ks).
Definition mem_unlock : K state unit := zoom lk_lens spinlock_release.

Definition get_nps : K state Z := gets NUM_PAGES.
Definition set_nps (nps : Z) : K state unit := modify (set_NUM_PAGES nps).

Definition at_is_norm (page_index : Z) : K state Z :=
  bounds AT_SIZE page_index ;;
  tperm ← gets (fun s => perm (AT s !!! page_index));
  mret (if tperm =? 0 then 0 else if tperm =? 1 then 0 else 1).

Definition at_set_perm (page_index norm_val : Z) : K state unit :=
  bounds AT_SIZE page_index ;;
  modify (fun s => set_AT (<[page_index := MkAT norm_val 0]> (AT s)) s).

Definition at_is_allocated (page_index : Z) : K state Z :=
  bounds AT_SIZE page_index ;;
  a ← gets (fun s => allocated (AT s !!! page_index));
  mret (if a =? 0 then 0 else 1).

Definition at_set_allocated (page_index v : Z) : K state unit :=
  bounds AT_SIZE page_index ;;
  modify (fun s =>
    set_AT (<[page_index := MkAT (perm (AT s !!! page_index)) v]> (AT s)) s).

(** *** Run lemmas *)

Definition norm_page (s : state) (i : Z) : bool :=
  negb (perm (AT s !!! i) =? 0) && negb (perm (AT s !!! i) =? 1).
Definition used_page (s : state) (i : Z) : bool :=
  negb (allocated (AT s !!! i) =? 0).

Lemma at_is_norm_run i s : 0 <= i < AT_SIZE ->
  at_is_norm i s = Ok (if norm_page s i then 1 else 0) s.
Proof.
  intros Hi. unfold at_is_norm. erewrite bind_Ok by by apply bounds_Ok.
  unfold norm_page, mbind, K_bind; cbn. f_equal. by repeat case_bool.
Qed.

Lemma at_is_allocated_run i s : 0 <= i < AT_SIZE ->
  at_is_allocated i s = Ok (if used_page s i then 1 else 0) s.
Proof.
  intros Hi. unfold at_is_allocated. erewrite bind_Ok by by apply bounds_Ok.
  unfold used_page, mbind, K_bind; cbn. f_equal. by repeat case_bool.
Qed.

Lemma at_set_perm_run i p s : 0 <= i < AT_SIZE ->
  at_set_perm i p s = Ok tt (set_AT (<[i := MkAT p 0]> (AT s)) s).
Proof. intros Hi. unfold at_set_perm. by erewrite bind_Ok by by apply bounds_Ok. Qed.

Lemma at_set_allocated_run i v s : 0 <= i < AT_SIZE ->
  at_set_allocated i v s = Ok tt
    (set_AT (<[i := MkAT (perm (AT s !!! i)) v]> (AT s)) s).
Proof. intros Hi. unfold at_set_allocated. by erewrite bind_Ok by by apply bounds_Ok. Qed.

Lemma mem_lock_run ks s :
  magic ks = KSTACK_MAGIC -> lock (mem_lk s) = 0 ->
  mem_lock ks s = Ok tt (set_mem_lk (Spinlock (cpu_idx ks) 1) s).
Proof. intros Hm Hl. unfold mem_lock. by erewrite zoom_Ok by by apply spinlock_acquire_run. Qed.

Lemma mem_unlock_run s :
  mem_unlock s = Ok tt (set_mem_lk (Spinlock (NUM_CPUS + 1) 0) s).
Proof. done. Qed.

End MATIntro.

(** ** MATInit *)
Module MATInit.
Import MATIntro.

Definition VM_USERLO : Z := 0x40000000.
Definition VM_USERHI : Z := 0xF0000000.
Definition VM_USERLO_PI : Z := VM_USERLO / PAGESIZE.
Definition VM_USERHI_PI : Z := VM_USERHI / PAGESIZE.
#[export] Hint Unfold VM_USERLO VM_USERHI VM_USERLO_PI VM_USERHI_PI : kconst.

Lemma user_page i : VM_USERLO_PI <= i < VM_USERHI_PI -> 0x40000 <= i < 0xf0000.
Proof. done. Qed.

(** Line by line the body of [pmem_init] after [devinit] has run
    [pmmap_init]: first the highest address of the map gives [nps]. *)
Fixpoint count_nps (n : nat) (i nps : Z) : K state Z :=
  match n with
  | O => mret nps
  | S n' =>
      s ← zoom mm_lens (get_mms i);
      l ← zoom mm_lens (get_mml i);
      let maxs := u32 (u32 (s + l) / PAGESIZE + 1) in
      count_nps n' (i + 1) (if nps <? maxs then maxs else nps)
  end.

(** The inner loop: stop at the first range that contains page [i] entirely
    and report whether it is usable. *)
Fixpoint find_range (n : nat) (j i isnorm : Z) : K state (Z * Z) :=
  match n with
  | O => mret (0, isnorm)
  | S n' =>
      s ← zoom mm_lens (get_mms j);
      l ← zoom mm_lens (get_mml j);
      isnorm ← zoom mm_lens (is_usable j);
      if (s <=? u32 (i * PAGESIZE)) && (u32 ((i + 1) * PAGESIZE) <=? u32 (l + s))
      then mret (1, isnorm)
      else find_range n' (j + 1) i isnorm
  end.

(** The body of the outer loop. *)
Definition init_page (size i : Z) : K state unit :=
  if (i <? VM_USERLO_PI) || (VM_USERHI_PI <=? i) then at_set_perm i 1
  else
    '(flag, isnorm) ← find_range (Z.to_nat size) 0 i 0;
    if (flag =? 1) && (isnorm =? 1) then at_set_perm i 2
    else at_set_perm i 0.

Definition pmem_init (mmap : list mboot_mmap) : K state unit :=
  zoom mm_lens (pmmap_init mmap) ;;
  mem_spinlock_init ;;
  size ← zoom mm_lens get_size;
  nps ← count_nps (Z.to_nat size) 0 0;
  set_nps nps ;;
  for_ 0 nps (init_page size).

End MATInit.

(** ** MATOp *)
Module MATOp.
Import MATIntro.

Section ops.
Context (ks : kstack).

(** One round of the loop of palloc, over its variables [palloc_index] and
    [palloc_free_index]. *)
Definition palloc_body (tnps : Z) (v : Z * Z) : K state (Z * Z + Z) :=
  let '(palloc_index, palloc_free_index) := v in
  if (palloc_index <? tnps) && (palloc_free_index =? tnps) then
    palloc_is_norm ← at_is_norm palloc_index;
    palloc_free_index ←
      (if palloc_is_norm =? 1 then
         palloc_cur_at ← at_is_allocated palloc_index;
         mret (if palloc_cur_at =? 0 then palloc_index else palloc_free_index)
       else mret palloc_free_index);
    mret (inl (u32 (palloc_index + 1), palloc_free_index))
  else mret (inr palloc_free_index).

Definition palloc : K state Z :=
  mem_lock ks ;;
  tnps ← get_nps;
  last ← gets last_palloc_index;
  palloc_free_index ←
    loop (S (S (Z.to_nat tnps))) (palloc_body tnps) (u32 (last + 1), tnps);
  palloc_free_index ←
    (if palloc_free_index =? tnps then mret 0
     else at_set_allocated palloc_free_index 1 ;; mret palloc_free_index);
  (if tnps =? 0 then fail Undef
   else modify (set_last (palloc_free_index mod tnps))) ;;
  mem_unlock ;;
  mret palloc_free_index.

Definition pfree (pfree_index : Z) : K state unit :=
  mem_lock ks ;;
  at_set_allocated pfree_index 0 ;;
  mem_unlock.

End ops.

(** [static unsigned int last_palloc_index = 262144;] and the zeroed rest. *)
Definition boot_state : state :=
  State Mboot.boot_state (Spinlock 0 0) 0 ∅ 262144.

(** *** Correctness *)

(** A page palloc may hand out. *)
Definition free_page (s : state) (i : Z) : bool := norm_page s i && negb (used_page s i).

(** The invariant of the allocator once pmem_init has run: the table fits its
    array, every normal page lies in user memory (so page 0, the failure value,
    is none), and only normal pages are ever allocated. *)
Record alloc_inv (s : state) : Prop := {
  inv_unlocked : lock (mem_lk s) = 0;
  inv_nps : 0 < NUM_PAGES s <= AT_SIZE;
  inv_last : 0 <= last_palloc_index s < AT_SIZE;
  inv_norm : forall i, norm_page s i = true ->
               MATInit.VM_USERLO_PI <= i < MATInit.VM_USERHI_PI /\ i < NUM_PAGES s;
  inv_used : forall i, used_page s i = true -> norm_page s i = true
}.

(** No page in [lo, hi) is free. *)
Definition none_free (s : state) (lo hi : Z) : Prop :=
  forall j, lo <= j < hi -> free_page s j = false.

(** A round of the loop looks at one page and keeps it if it is free. *)
Lemma palloc_body_run n i s :
  0 <= i < n -> n <= AT_SIZE ->
  palloc_body n (i, n) s = Ok (inl (i + 1, if free_page s i then i else n)) s.
Proof.
  intros Hi Hn. unfold palloc_body.
  bool_simp.
  erewrite bind_Ok by (apply at_is_norm_run; klia).
  rewrite u32_small by klia. unfold free_page.
  destruct (norm_page s i); cbn [Z.eqb Pos.eqb]; [|done].
  erewrite bind_Ok; [done|].
  erewrite bind_Ok by (apply at_is_allocated_run; klia).
  by destruct (used_page s i).
Qed.

Lemma palloc_body_done n i r s : r <> n -> palloc_body n (i, r) s = Ok (inr r) s.
Proof. intros Hr%Z.eqb_neq. unfold palloc_body. by rewrite Hr, andb_false_r. Qed.

Lemma palloc_body_end n i r s : n <= i -> palloc_body n (i, r) s = Ok (inr r) s.
Proof. intros Hr%Z.ltb_ge. unfold palloc_body. by rewrite Hr. Qed.

(** What the loop of palloc returns when it is started at [lo]: the first free
    page from [lo] on, or [n] if there is none. *)
Definition scan_result (s : state) (lo n r : Z) : Prop :=
  (r = n /\ none_free s lo n) \/
  (lo <= r < n /\ free_page s r = true /\ none_free s lo r).

Lemma palloc_loop n lo s fuel :
  0 <= lo -> n <= AT_SIZE -> (Z.to_nat (n - lo) + 1 < fuel)%nat ->
  exists r, loop fuel (palloc_body n) (lo, n) s = Ok r s /\ scan_result s lo n r.
Proof.
  intros Hlo Hn. revert lo Hlo. induction fuel as [|f IH]; intros lo Hlo Hfuel; [lia|].
  cbn [loop]. destruct (decide (n <= lo)) as [Hend|Hlt].
  { erewrite bind_Ok by by apply palloc_body_end. exists n. split; [done|].
    left. split; [done|]. intros j ?. lia. }
  erewrite bind_Ok by (apply palloc_body_run; lia).
  destruct (free_page s lo) eqn:Ef.
  - destruct f as [|f]; [lia|]. cbn [loop].
    erewrite bind_Ok by (apply palloc_body_done; lia).
    exists lo. split; [done|]. right. split; [lia|]. split; [done|]. intros j ?. lia.
  - destruct (IH (lo + 1)) as (r & Hrun & Hr); [lia | lia |].
    exists r. split; [done|].
    assert (Hext : forall hi, none_free s (lo + 1) hi -> none_free s lo hi).
    { intros hi H j Hj. destruct (decide (j = lo)) as [->|]; [done|]. apply H. lia. }
    destruct Hr as [[? ?]|(? & ? & ?)]; [left | right]; eauto with lia.
Qed.

Section specs.
Context (ks : kstack) (Hks : magic ks = KSTACK_MAGIC).

(** The state after palloc returned [i]. *)
Definition palloc_post (s : state) (i : Z) : state :=
  set_mem_lk (Spinlock (NUM_CPUS + 1) 0)
    (set_last i
       (if i =? 0 then s
        else set_AT (<[i := MkAT (perm (AT s !!! i)) 1]> (AT s)) s)).

Lemma palloc_run s :
  alloc_inv s ->
  exists r, scan_result s (last_palloc_index s + 1) (NUM_PAGES s) r /\
    palloc ks s =
      let i := if r =? NUM_PAGES s then 0 else r in
      Ok i (palloc_post s i).
Proof.
  intros [Hlk Hnps Hlast Hnorm _].
  destruct (palloc_loop (NUM_PAGES s) (last_palloc_index s + 1)
    (set_mem_lk (Spinlock (cpu_idx ks) 1) s) (S (S (Z.to_nat (NUM_PAGES s)))))
    as (r & Hloop & Hr); [klia | klia | klia |].
  exists r. split; [exact Hr|]. unfold palloc.
  krun (apply mem_lock_run). krun. krun. cbn [NUM_PAGES last_palloc_index set_mem_lk].
  rewrite u32_small by klia.
  erewrite bind_Ok by exact Hloop.
  unfold palloc_post. destruct (Z.eqb_spec r (NUM_PAGES s)) as [->|Hne]; cbn zeta.
  - krun. bool_simp. krun. by rewrite Z.mod_0_l by lia.
  - destruct Hr as [[? _]|(Hr & _ & _)]; [done|].
    assert (Hr0 : r <> 0) by lia. apply Z.eqb_neq in Hr0 as ->.
    krun (krun (apply at_set_allocated_run; klia)).
    bool_simp. krun. by rewrite Z.mod_small by lia.
Qed.

(** *** What palloc and pfree do *)

Lemma AT_palloc_post s i j :
  AT (palloc_post s i) !!! j =
    if decide (i <> 0 /\ j = i) then MkAT (perm (AT s !!! i)) 1 else AT s !!! j.
Proof.
  unfold palloc_post; cbn. destruct (Z.eqb_spec i 0) as [->|Hi]; cbn.
  - by rewrite decide_False by lia.
  - destruct (decide (j = i)) as [->|Hj].
    + by rewrite lookup_total_insert_eq, decide_True by lia.
    + by rewrite lookup_total_insert_ne, decide_False by lia.
Qed.

Lemma norm_palloc_post s i j : norm_page (palloc_post s i) j = norm_page s j.
Proof. unfold norm_page. rewrite AT_palloc_post. by case_decide as H; [destruct H as [_ ->]|]. Qed.

Lemma used_palloc_post s i j :
  used_page (palloc_post s i) j = (if decide (i <> 0 /\ j = i) then true else used_page s j).
Proof. unfold used_page. rewrite AT_palloc_post. by case_decide. Qed.

Lemma nps_palloc_post s i : NUM_PAGES (palloc_post s i) = NUM_PAGES s.
Proof. unfold palloc_post; cbn. by case_bool. Qed.

Lemma palloc_post_inv s i :
  alloc_inv s -> i = 0 \/ free_page s i = true -> alloc_inv (palloc_post s i).
Proof.
  intros [Hlk Hn Hl Hnorm Hused] Hi.
  assert (Hf : i = 0 \/ norm_page s i = true)
    by (destruct Hi as [|[? _]%andb_true_iff]; auto).
  split.
  - done.
  - by rewrite nps_palloc_post.
  - cbn. destruct Hf as [->|Hf]; [klia|]. apply Hnorm in Hf as [Hf ?].
    apply MATInit.user_page in Hf. lia.
  - intros j. rewrite norm_palloc_post, nps_palloc_post. apply Hnorm.
  - intros j. rewrite used_palloc_post, norm_palloc_post. case_decide as Hd; [|apply Hused].
    intros _. destruct Hd as [? ->], Hf; [lia | done].
Qed.

Lemma free_page_range s i : alloc_inv s -> free_page s i = true ->
  (MATInit.VM_USERLO_PI <= i < MATInit.VM_USERHI_PI /\ i < NUM_PAGES s) /\ 0 < i < AT_SIZE.
Proof.
  intros [_ ? _ Hn _] [H%Hn _]%andb_true_iff. split; [done|]. destruct H as [H ?].
  pose proof (MATInit.user_page i H). klia.
Qed.

(** Marking page [i] as [v]; what pfree leaves behind with [v = 0]. *)
Definition mark_page (i v : Z) (s : state) : state :=
  set_AT (<[i := MkAT (perm (AT s !!! i)) v]> (AT s)) s.

Lemma pfree_run s i :
  alloc_inv s -> 0 <= i < AT_SIZE ->
  pfree ks i s = Ok tt (set_mem_lk (Spinlock (NUM_CPUS + 1) 0) (mark_page i 0 s)).
Proof.
  intros [Hlk _ _ _ _] Hi. unfold pfree.
  krun (apply mem_lock_run). krun (apply at_set_allocated_run). done.
Qed.

Lemma norm_mark_page s i v j : norm_page (mark_page i v s) j = norm_page s j.
Proof.
  unfold norm_page, mark_page; cbn. destruct (decide (i = j)) as [->|H].
  - by rewrite lookup_total_insert_eq.
  - by rewrite lookup_total_insert_ne.
Qed.

Lemma used_mark_page s i v j :
  used_page (mark_page i v s) j = if decide (j = i) then negb (v =? 0) else used_page s j.
Proof.
  unfold used_page, mark_page; cbn. case_decide as H; [subst|].
  - by rewrite lookup_total_insert_eq.
  - by rewrite lookup_total_insert_ne.
Qed.

Definition pfree_post (s : state) (i : Z) : state :=
  set_mem_lk (Spinlock (NUM_CPUS + 1) 0) (mark_page i 0 s).

Lemma pfree_post_inv s i : alloc_inv s -> alloc_inv (pfree_post s i).
Proof.
  intros [Hlk Hn Hl Hnorm Hused]. split; [done | done | done | |].
  - intros j H. apply Hnorm. by rewrite <- (norm_mark_page s i 0 j).
  - intros j H. change (norm_page (mark_page i 0 s) j = true). rewrite norm_mark_page.
    apply Hused. change (used_page (mark_page i 0 s) j = true) in H.
    rewrite used_mark_page in H. by case_decide.
Qed.

(** *** The abstract state: the set of free pages *)

Definition free_set (s : state) : gset Z :=
  list_to_set (filter (fun i => free_page s i = true) (seqZ 0 (NUM_PAGES s))).

Lemma elem_of_free_set s i : alloc_inv s -> i ∈ free_set s <-> free_page s i = true.
Proof.
  intros Hinv. unfold free_set.
  rewrite elem_of_list_to_set, list_elem_of_filter, elem_of_seqZ. split; [tauto|].
  intros H. split; [done|]. apply free_page_range in H as [[_ ?] ?]; [lia | done].
Qed.

Lemma free_set_palloc_post s i :
  alloc_inv s -> i = 0 \/ free_page s i = true ->
  free_set (palloc_post s i) = free_set s ∖ {[i]}.
Proof.
  intros Hinv Hi. apply set_eq. intros j.
  rewrite elem_of_difference, elem_of_singleton.
  rewrite !elem_of_free_set by (done || by apply palloc_post_inv).
  unfold free_page. rewrite norm_palloc_post, used_palloc_post.
  case_decide as Hd; [destruct Hd as [? ->]; rewrite andb_false_r; naive_solver|].
  destruct (decide (j = i)) as [->|]; [|naive_solver].
  destruct (decide (i = 0)) as [->|]; [|lia].
  fold (free_page s 0). split; [|tauto]. intros H.
  apply free_page_range in H as [_ ?]; [lia | done].
Qed.

Lemma free_set_pfree_post s i :
  alloc_inv s -> norm_page s i = true -> free_set (pfree_post s i) = free_set s ∪ {[i]}.
Proof.
  intros Hinv Hi. apply set_eq. intros j.
  rewrite elem_of_union, elem_of_singleton.
  rewrite !elem_of_free_set by (done || by apply pfree_post_inv).
  change (free_page (pfree_post s i) j) with (free_page (mark_page i 0 s) j).
  unfold free_page. rewrite norm_mark_page, used_mark_page.
  case_decide as Hd; [subst; rewrite Hi; naive_solver | naive_solver].
Qed.

End specs.
End MATOp.

(** ** pmem_init establishes the allocator's invariant *)
Module MATInitSpec.
Import MATIntro MATInit MATOp.

(** Page [i] lies entirely in the region [e]. *)
Definition contains (i : Z) (e : pmmap) : bool :=
  (start e <=? i * PAGESIZE) && ((i + 1) * PAGESIZE <=? end_ e).

(** The permission pmem_init gives page [i] under the memory map [l]. *)
Definition page_perm (l : list pmmap) (i : Z) : Z :=
  if (i <? VM_USERLO_PI) || (VM_USERHI_PI <=? i) then 1
  else match find (contains i) l with
       | Some e => if type e =? MEM_RAM then 2 else 0
       | None => 0
       end.

(** The highest page number of the map, plus one. *)
Definition nps_of (l : list pmmap) (nps : Z) : Z :=
  foldl (fun acc e => Z.max acc (end_ e / PAGESIZE + 1)) nps l.

Lemma end_page_bound e : entry_ok e -> 0 <= end_ e / PAGESIZE < 2 ^ 20.
Proof.
  intros [? ?]. unfold PAGESIZE.
  split; [apply Z.div_pos; lia | apply Z.div_lt_upper_bound; lia].
Qed.

Section walk.
Context (s : state) (Hc : Mboot.counted (mm s))
  (Hok : Forall entry_ok (pmmap_list (mm s))).

Lemma getters_run pre e suf :
  pmmap_list (mm s) = pre ++ e :: suf ->
  zoom mm_lens (get_mms (Z.of_nat (length pre))) s = Ok (start e) s /\
  zoom mm_lens (get_mml (Z.of_nat (length pre))) s = Ok (end_ e - start e) s /\
  zoom mm_lens (is_usable (Z.of_nat (length pre))) s =
    Ok (if type e =? MEM_RAM then 1 else 0) s.
Proof.
  intros Hl. assert (Hlook : pmmap_list (mm s) !! length pre = Some e)
    by (rewrite Hl; by apply list_lookup_middle).
  assert (He : entry_ok e) by (eapply Forall_lookup_1; eauto).
  assert (Hput : forall m : Mboot.state, m = mm s -> set_mm m s = s)
    by (intros m ->; by destruct s).
  unfold zoom; cbn.
  erewrite get_mms_run, get_mml_run, is_usable_run by done.
  by rewrite !Hput by done.
Qed.

Lemma count_nps_run suf pre nps :
  pmmap_list (mm s) = pre ++ suf ->
  count_nps (length suf) (Z.of_nat (length pre)) nps s = Ok (nps_of suf nps) s.
Proof.
  revert pre nps. induction suf as [|e suf IH]; intros pre nps Hl; [done|].
  cbn [count_nps length]. destruct (getters_run pre e suf Hl) as (Hs & Hll & _).
  krun (exact Hs). krun (exact Hll).
  assert (He : entry_ok e) by (rewrite Hl, Forall_app, Forall_cons in Hok; tauto).
  destruct He as [He1 He2]. cbn [nps_of foldl].
  replace (Z.of_nat (length pre) + 1) with (Z.of_nat (length (pre ++ [e])))
    by (rewrite length_app; cbn; lia).
  rewrite (IH (pre ++ [e])) by (by rewrite <- app_assoc). f_equal. f_equal.
  replace (start e + (end_ e - start e)) with (end_ e) by lia.
  rewrite (u32_small (end_ e)) by klia.
  pose proof (end_page_bound e (conj He1 He2)).
  rewrite u32_small by klia.
  unfold nps_of. f_equal. case_bool; lia.
Qed.

Lemma find_range_run suf pre i n0 :
  pmmap_list (mm s) = pre ++ suf -> VM_USERLO_PI <= i < VM_USERHI_PI ->
  exists isnorm,
    find_range (length suf) (Z.of_nat (length pre)) i n0 s =
      Ok (match find (contains i) suf with Some _ => 1 | None => 0 end, isnorm) s /\
    (forall e, find (contains i) suf = Some e ->
       isnorm = if type e =? MEM_RAM then 1 else 0).
Proof.
  intros Hl Hi. revert pre n0 Hl. induction suf as [|e suf IH]; intros pre n0 Hl.
  { exists n0. cbn. by split. }
  cbn [find_range length]. destruct (getters_run pre e suf Hl) as (Hs & Hll & Hu).
  krun (exact Hs). krun (exact Hll). krun (exact Hu).
  assert (He : entry_ok e) by (rewrite Hl, Forall_app, Forall_cons in Hok; tauto).
  destruct He as [He1 He2].
  pose proof (user_page i Hi) as Hi2.
  rewrite !u32_small by klia.
  replace (end_ e - start e + start e) with (end_ e) by lia.
  cbn [find]. fold (contains i e). destruct (contains i e) eqn:E.
  - eexists. split; [done|]. by intros ? [= <-].
  - replace (Z.of_nat (length pre) + 1) with (Z.of_nat (length (pre ++ [e])))
      by (rewrite length_app; cbn; lia).
    apply IH. by rewrite <- app_assoc.
Qed.

Lemma init_page_run i :
  0 <= i < AT_SIZE ->
  init_page (Z.of_nat (length (pmmap_list (mm s)))) i s =
    Ok tt (set_AT (<[i := MkAT (page_perm (pmmap_list (mm s)) i) 0]> (AT s)) s).
Proof.
  intros Hi. unfold init_page, page_perm.
  destruct ((i <? VM_USERLO_PI) || (VM_USERHI_PI <=? i)) eqn:E;
    [by apply at_set_perm_run|].
  apply orb_false_iff in E as [E1%Z.ltb_ge E2%Z.leb_gt]. rewrite Nat2Z.id.
  destruct (find_range_run (pmmap_list (mm s)) [] i 0) as (isnorm & Hrun & Hn);
    [done | lia |].
  krun (exact Hrun).
  destruct (find (contains i) (pmmap_list (mm s))) as [e|]; cbn [Z.eqb Pos.eqb andb].
  - rewrite (Hn e) by done.
    destruct (Z.eqb_spec (type e) MEM_RAM); cbn [Z.eqb Pos.eqb];
      by apply at_set_perm_run.
  - by apply at_set_perm_run.
Qed.
End walk.

Lemma nps_of_bounds l nps :
  Forall entry_ok l -> 0 <= nps <= AT_SIZE ->
  nps <= nps_of l nps <= AT_SIZE /\ Forall (fun e => end_ e / PAGESIZE < nps_of l nps) l.
Proof.
  intros Hl. revert nps. induction Hl as [|e l [He1 He2] Hl IH]; intros nps Hnps; [split; [cbn; lia | done]|].
  cbn [nps_of foldl].
  pose proof (end_page_bound e (conj He1 He2)).
  destruct (IH (Z.max nps (end_ e / PAGESIZE + 1))) as [IH1 IH2]; [klia|].
  fold (nps_of l (Z.max nps (end_ e / PAGESIZE + 1))) in *.
  split; [lia|]. constructor; [lia | done].
Qed.

(** What pmem_init leaves: the allocation table describes every page. *)
Record table_ok (mmap : list mboot_mmap) (s : state) : Prop := {
  table_map : Mboot.map_ok mmap (mm s);
  table_nps : NUM_PAGES s = nps_of (pmmap_list (mm s)) 0;
  table_perm : forall i, 0 <= i < NUM_PAGES s ->
    AT s !!! i = MkAT (page_perm (pmmap_list (mm s)) i) 0;
  table_rest : forall i, NUM_PAGES s <= i -> AT s !!! i = MkAT 0 0;
  table_neg : forall i, i < 0 -> AT s !!! i = MkAT 0 0;
  table_lk : mem_lk s = Spinlock (NUM_CPUS + 1) 0;
  table_last : last_palloc_index s = 262144
}.

Lemma pmem_init_wp mmap :
  Forall mmap_ok mmap -> (length (kept mmap) <= 128)%nat ->
  wp (pmem_init mmap) (fun _ s => table_ok mmap s) boot_state.
Proof.
  intros Hps Hlen. unfold pmem_init. apply wp_bind, wp_zoom.
  eapply wp_mono; [by apply pmmap_init_wp|]. cbn. intros _ m Hmap.
  pose proof Hmap as [[Hent _ _] Hcount _].
  set (s0 := set_mem_lk (Spinlock (NUM_CPUS + 1) 0) (set_mm m boot_state)).
  apply wp_bind, (wp_intro _ _ _ tt s0); [done|].
  apply wp_bind, (wp_intro _ _ _ (pmmap_nentries m) s0); [done|].
  rewrite Hcount, Nat2Z.id.
  apply wp_bind. eapply wp_intro; [by apply (count_nps_run s0 Hcount Hent _ [])|].
  apply wp_bind, wp_modify.
  destruct (nps_of_bounds (pmmap_list m) 0 Hent) as [Hb _]; [klia|].
  set (nps := nps_of (pmmap_list m) 0) in *.
  apply (wp_for (fun i s => exists a, s = set_AT a (set_NUM_PAGES nps s0) /\
    (forall j, 0 <= j < i -> a !!! j = MkAT (page_perm (pmmap_list m) j) 0) /\
    (forall j, i <= j \/ j < 0 -> a !!! j = MkAT 0 0))); [lia | | |].
  - exists ∅. split; [done|]. split; [lia|]. done.
  - intros i s Hi (a & -> & Ha1 & Ha2).
    eapply wp_intro; [apply (init_page_run (set_AT a (set_NUM_PAGES nps s0)) Hcount Hent); klia|].
    eexists. split; [done|]. split.
    + intros j Hj. destruct (decide (j = i)) as [->|Hne].
      * by rewrite lookup_total_insert_eq.
      * rewrite lookup_total_insert_ne by done. apply Ha1. lia.
    + intros j Hj. rewrite lookup_total_insert_ne by lia. apply Ha2. lia.
  - intros s (a & -> & Ha1 & Ha2). split; try done; cbn; intros i Hi; apply Ha2; lia.
Qed.

Lemma page_perm_norm l i : page_perm l i <> 0 -> page_perm l i <> 1 ->
  VM_USERLO_PI <= i < VM_USERHI_PI /\
  exists e, find (contains i) l = Some e /\ type e = MEM_RAM.
Proof.
  unfold page_perm. destruct (Z.ltb_spec i VM_USERLO_PI), (Z.leb_spec VM_USERHI_PI i);
    cbn [orb]; try done.
  destruct (find _ l) as [e|]; [|done]. destruct (Z.eqb_spec (type e) MEM_RAM); [|done].
  intros _ _. split; [lia|]. eauto.
Qed.

Lemma norm_page_true s i :
  norm_page s i = true <-> perm (AT s !!! i) <> 0 /\ perm (AT s !!! i) <> 1.
Proof. unfold norm_page. rewrite andb_true_iff, !negb_true_iff, !Z.eqb_neq. done. Qed.

(** A page is normal exactly if the first region of the map that contains it
    is RAM, and it lies in user memory. *)
Lemma table_norm mmap s i : table_ok mmap s ->
  norm_page s i = true <->
    0 <= i < NUM_PAGES s /\ VM_USERLO_PI <= i < VM_USERHI_PI /\
    exists e, find (contains i) (pmmap_list (mm s)) = Some e /\ type e = MEM_RAM.
Proof.
  intros [Hmap Hnps Hperm Hrest Hneg _ _]. rewrite norm_page_true. split.
  - intros [H0 H1].
    assert (Hi : 0 <= i < NUM_PAGES s).
    { destruct (decide (i < 0)); [by rewrite Hneg in H0|].
      destruct (decide (NUM_PAGES s <= i)); [by rewrite Hrest in H0 | lia]. }
    rewrite Hperm in H0, H1 by done. split; [done|]. by apply page_perm_norm.
  - intros (Hi & Hu & e & He & Ht). rewrite Hperm by done. cbn.
    unfold page_perm. bool_simp. rewrite He, Ht. done.
Qed.

(** A map with at least one byte of RAM has pages. *)
Lemma table_nps_pos mmap s t x :
  table_ok mmap s -> Exists (mmap_covers t x) mmap -> 0 < NUM_PAGES s.
Proof.
  intros [[[Hent _ _] _ Hcov] Hnps _ _ _ _ _] Hx. apply Hcov in Hx.
  destruct (nps_of_bounds _ 0 Hent) as [_ Hb]; [klia|]. rewrite <- Hnps in Hb.
  apply Exists_exists in Hx as (e & Hin & _). rewrite Forall_forall in Hb, Hent.
  pose proof (end_page_bound e (Hent e Hin)). specialize (Hb e Hin). lia.
Qed.

Lemma table_alloc_inv mmap s :
  table_ok mmap s -> 0 < NUM_PAGES s -> alloc_inv s.
Proof.
  intros Ht Hn. pose proof Ht as [Hmap Hnps Hperm Hrest Hneg Hlk Hlast].
  destruct Hmap as [[Hent _ _] _ _].
  destruct (nps_of_bounds _ 0 Hent) as [Hb _]; [klia|].
  split.
  - by rewrite Hlk.
  - rewrite Hnps in *. lia.
  - rewrite Hlast. klia.
  - intros i Hi. by apply (table_norm mmap s i Ht) in Hi as ([_ ?] & ? & _).
  - intros i Hi. exfalso. revert Hi. unfold used_page.
    destruct (decide (i < 0)); [by rewrite Hneg|].
    destruct (decide (NUM_PAGES s <= i)); [by rewrite Hrest|]. by rewrite Hperm by lia.
Qed.

Lemma contains_covers l i e x :
  find (contains i) l = Some e -> type e = MEM_RAM ->
  i * PAGESIZE <= x < (i + 1) * PAGESIZE -> Mboot.covers MEM_RAM x l.
Proof.
  intros [Hin Hc]%find_some Ht Hx. apply andb_true_iff in Hc as [H1%Z.leb_le H2%Z.leb_le].
  apply Exists_exists. exists e. split; [by apply list_elem_of_In | lia].
Qed.


(** A machine with 4 KiB of RAM at the bottom of user memory. *)
Definition demo_map : list mboot_mmap :=
  [MbootMmap 0x40000000 0 0x1000 0 MEM_RAM; MbootMmap 0 0 0x9fc00 0 MEM_RAM].


End MATInitSpec.

(** ** The allocator's correctness *)
Module MATCorrect.
Import MATIntro MATInit MATOp.

(** (C26) palloc either takes the first free page behind the last one it
    served, marks exactly that page, and leaves the invariant intact; or no
    page behind that point is free, it reports 0, changes no page and starts
    its next search from the beginning. *)
Theorem palloc_correct ks s :
  magic ks = KSTACK_MAGIC -> alloc_inv s ->
  exists i s', palloc ks s = Ok i s' /\ alloc_inv s' /\ last_palloc_index s' = i /\
    free_set s' = free_set s ∖ {[i]} /\
    (forall j, norm_page s' j = norm_page s j) /\
    (forall j, j <> i -> used_page s' j = used_page s j) /\
    ((i = 0 /\ none_free s (last_palloc_index s + 1) (NUM_PAGES s)) \/
     (last_palloc_index s < i < NUM_PAGES s /\ i ∈ free_set s /\ used_page s' i = true /\
      none_free s (last_palloc_index s + 1) i)).
Proof.
  intros Hm Hinv. destruct (palloc_run ks Hm s Hinv) as (r & Hr & Hrun). cbn zeta in Hrun.
  set (i := if r =? NUM_PAGES s then 0 else r) in *.
  assert (Hi : (i = 0 /\ none_free s (last_palloc_index s + 1) (NUM_PAGES s)) \/
    (last_palloc_index s < i < NUM_PAGES s /\ free_page s i = true /\
     none_free s (last_palloc_index s + 1) i)).
  { unfold i. destruct Hr as [[-> Hn]|(Hr & Hf & Hn)]; [rewrite Z.eqb_refl; auto|].
    bool_simp. right. split; [lia|auto]. }
  assert (Hi' : i = 0 \/ free_page s i = true) by tauto.
  exists i, (palloc_post s i). split_and!.
  - done.
  - by apply palloc_post_inv.
  - done.
  - by apply free_set_palloc_post.
  - intros j. apply norm_palloc_post.
  - intros j Hj. rewrite used_palloc_post. by rewrite decide_False by tauto.
  - destruct Hi as [?|(Hr1 & Hf & Hn)]; [by left | right].
    split_and!; [lia | lia | by apply elem_of_free_set | | done].
    rewrite used_palloc_post. apply free_page_range in Hf as [_ ?]; [|done].
    by rewrite decide_True by lia.
Qed.

(** An allocator with two normal pages, the second of them free. *)
Definition demo_state : state :=
  State Mboot.boot_state (Spinlock (NUM_CPUS + 1) 0) 0x40004
    (<[0x40001 := MkAT 2 0]> (<[0x40002 := MkAT 2 1]> ∅)) 0x40002.
Definition demo_kstack : kstack := Kstack 0 KSTACK_MAGIC.

Lemma demo_norm i : norm_page demo_state i = true -> i = 0x40001 \/ i = 0x40002.
Proof.
  unfold norm_page, demo_state; cbn [AT]. intros H.
  destruct (decide (i = 0x40001)); [auto|]. destruct (decide (i = 0x40002)); [auto|].
  by rewrite !lookup_total_insert_ne, lookup_total_empty in H by done.
Qed.

Lemma demo_used i : used_page demo_state i = true -> i = 0x40002.
Proof.
  unfold used_page, demo_state; cbn [AT]. intros H.
  destruct (decide (i = 0x40002)); [done|].
  destruct (decide (i = 0x40001)) as [->|]; [by rewrite lookup_total_insert_eq in H|].
  by rewrite !lookup_total_insert_ne, lookup_total_empty in H by done.
Qed.

Lemma demo_inv : alloc_inv demo_state.
Proof.
  split; [done | cbn; klia | cbn; klia | |].
  - intros i [->| ->]%demo_norm; split_and!; by vm_compute.
  - by intros i ->%demo_used.
Qed.

Lemma demo_free : 0x40001 ∈ free_set demo_state.
Proof. by apply elem_of_free_set; [exact demo_inv|]. Qed.

Lemma palloc_correct_witness :
  exists i s', palloc demo_kstack demo_state = Ok i s' /\ alloc_inv s'.
Proof.
  destruct (palloc_correct demo_kstack demo_state) as (i & s' & H1 & H2 & _).
  - reflexivity.
  - exact demo_inv.
  - exists i, s'. split; assumption.
Defined.

(** Two calls are enough: whenever some page is free, palloc or the palloc
    after it returns a page. *)
Theorem palloc_retry ks s :
  magic ks = KSTACK_MAGIC -> alloc_inv s -> free_set s <> ∅ ->
  exists i s1 j s2, palloc ks s = Ok i s1 /\ palloc ks s1 = Ok j s2 /\ (i <> 0 \/ j <> 0).
Proof.
  intros Hm Hinv Hne. destruct (palloc_run ks Hm s Hinv) as (r & Hr & Hrun). cbn zeta in Hrun.
  set (i := if r =? NUM_PAGES s then 0 else r) in *.
  assert (Hi : i = 0 \/ free_page s i = true).
  { unfold i. case_bool; [auto|]. destruct Hr as [[? _]|(_ & ? & _)]; auto. }
  pose proof (palloc_post_inv s i Hinv Hi) as Hinv1.
  destruct (palloc_run ks Hm _ Hinv1) as (r' & Hr' & Hrun').
  do 4 eexists. split; [exact Hrun|]. split; [exact Hrun'|].
  destruct (decide (i = 0)) as [Hi0|]; [right|by left].
  apply set_choose_L in Hne as [j Hj].
  rewrite Hi0 in Hr', Hinv1 |- *.
  assert (Hj' : free_page (palloc_post s 0) j = true)
    by (apply elem_of_free_set in Hj; done).
  apply free_page_range in Hj' as Hjr; [|done].
  destruct Hr' as [[_ Hnone]|(Hlo & _ & _)].
  - rewrite (Hnone j) in Hj'; [done|]. rewrite nps_palloc_post in *. cbn. lia.
  - cbn in Hlo. rewrite nps_palloc_post in *. bool_simp. lia.
Qed.

Lemma palloc_retry_witness :
  exists i s1 j s2, palloc demo_kstack demo_state = Ok i s1 /\
    palloc demo_kstack s1 = Ok j s2 /\ (i <> 0 \/ j <> 0).
Proof.
  apply palloc_retry.
  - reflexivity.
  - exact demo_inv.
  - intros H. pose proof demo_free as Hin. rewrite H in Hin. by apply not_elem_of_empty in Hin.
Defined.

(** The search of one call does not wrap around: in a state that meets the
    invariant, with a free normal page below the last page served, palloc reports
    failure although its comment promises 0 only when no page is available. *)
Theorem palloc_misses_free_page :
  alloc_inv demo_state /\ 0x40001 ∈ free_set demo_state /\
  exists s', palloc demo_kstack demo_state = Ok 0 s'.
Proof.
  split; [exact demo_inv|]. split; [exact demo_free|].
  eexists. vm_compute. reflexivity.
Qed.

(** Freeing gives back exactly what was taken: pfree of a page palloc just
    returned restores the set of free pages. *)
Theorem palloc_pfree ks s i s1 :
  magic ks = KSTACK_MAGIC -> alloc_inv s -> palloc ks s = Ok i s1 -> i <> 0 ->
  exists s2, pfree ks i s1 = Ok tt s2 /\ alloc_inv s2 /\ free_set s2 = free_set s /\
    (forall j, used_page s2 j = used_page s j).
Proof.
  intros Hm Hinv Hrun Hi0. destruct (palloc_run ks Hm s Hinv) as (r & Hr & Hrun').
  rewrite Hrun in Hrun'. cbn zeta in Hrun'. injection Hrun' as -> ->.
  set (i := if r =? NUM_PAGES s then 0 else r) in *.
  assert (Hf : free_page s i = true).
  { unfold i in *. revert Hi0. case_bool; [done|]. destruct Hr as [[? _]|(_ & ? & _)]; auto. }
  pose proof (palloc_post_inv s i Hinv (or_intror Hf)) as Hinv1.
  pose proof (free_page_range s i Hinv Hf) as [_ Hrange].
  pose proof Hf as [Hnorm Hunused]%andb_true_iff. apply negb_true_iff in Hunused.
  exists (pfree_post (palloc_post s i) i). split_and!.
  - by apply pfree_run; [|done|lia].
  - by apply pfree_post_inv.
  - rewrite free_set_pfree_post by (done || by rewrite norm_palloc_post).
    rewrite free_set_palloc_post by auto.
    apply elem_of_free_set in Hf; [|done].
    rewrite difference_union_L. set_solver.
  - intros j. change (used_page (mark_page i 0 (palloc_post s i)) j = used_page s j).
    rewrite used_mark_page, used_palloc_post. repeat case_decide; subst; naive_solver.
Qed.

Lemma palloc_pfree_witness :
  exists s2, pfree demo_kstack 0x40001 (palloc_post (palloc_post demo_state 0) 0x40001) = Ok tt s2
    /\ alloc_inv s2.
Proof.
  destruct (palloc_pfree demo_kstack (palloc_post demo_state 0) 0x40001
    (palloc_post (palloc_post demo_state 0) 0x40001)) as (s2 & H1 & H2 & _).
  - reflexivity.
  - apply palloc_post_inv; [exact demo_inv | by left].
  - vm_compute. reflexivity.
  - done.
  - exists s2. split; assumption.
Defined.

End MATCorrect.
