(* ===== verification/Container.v ===== *)
(** * Memory containers (kern/pmm/MContainer)

    A container records how many pages a process may use and uses, and its
    place in the process tree.  The operations are written against the
    interface [PageAlloc] of the page allocator below; the theorems use only
    its contract [PageAllocSpec], which MATOp discharges at the end. *)

From S2P Require Import Prelude Types Spinlock Mboot MAT.

(** ** The interface to the page allocator (MContainer/import.h) *)

Class PageAlloc (S : Type) : Type := {
  get_nps : K S Z;
  at_is_norm : Z -> K S Z;
  at_is_allocated : Z -> K S Z;
  palloc : kstack -> K S Z;
  pfree : kstack -> Z -> K S unit
}.

(** What the allocator promises: there is a set of free pages; [palloc] takes
    a page out of it or reports 0 and leaves it alone, [pfree] of an allocated
    page puts the page back. *)
Class PageAllocSpec (S : Type) `{PageAlloc S} : Type := {
  pa_inv : S -> Prop;
  pa_free : S -> gset Z;
  pa_used : S -> Z -> bool;
  pa_nps : S -> Z;
  pa_nps_range s : pa_inv s -> 0 < pa_nps s <= 2 ^ 20;
  pa_free_range s i : pa_inv s -> i ∈ pa_free s -> 0 < i < pa_nps s;
  pa_used_not_free s i : pa_inv s -> pa_used s i = true -> i ∉ pa_free s;
  pa_get_nps s : get_nps s = Ok (pa_nps s) s;
  pa_is_norm_allocated s i : pa_inv s -> 0 <= i < 2 ^ 20 ->
    exists n, at_is_norm i s = Ok n s /\
      at_is_allocated i s = Ok (if pa_used s i then 1 else 0) s /\
      ((n =? 1) && negb (pa_used s i) = bool_decide (i ∈ pa_free s));
  pa_palloc ks s : pa_inv s -> magic ks = KSTACK_MAGIC ->
    exists i s', palloc ks s = Ok i s' /\ pa_inv s' /\ pa_nps s' = pa_nps s /\
      (i = 0 \/ i ∈ pa_free s) /\ pa_free s' = pa_free s ∖ {[i]} /\
      (forall j, pa_used s' j = if decide (i <> 0 /\ j = i) then true else pa_used s j);
  pa_pfree ks s i : pa_inv s -> magic ks = KSTACK_MAGIC -> 0 <= i < 2 ^ 20 ->
    pa_used s i = true ->
    exists s', pfree ks i s = Ok tt s' /\ pa_inv s' /\ pa_nps s' = pa_nps s /\
      pa_free s' = pa_free s ∪ {[i]} /\
      (forall j, pa_used s' j = if decide (j = i) then false else pa_used s j)
}.

(** ** MContainer *)
Module MContainer.

(** The fields are C [int]s: signed 32 bit integers. *)
Record SContainer : Type := MkC {
  quota : Z; usage : Z; parent : Z; nchildren : Z; used : Z
}.
#[export] Instance SContainer_inhabited : Inhabited SContainer :=
  populate (MkC 0 0 0 0 0).

Definition set_quota v c := MkC v (usage c) (parent c) (nchildren c) (used c).
Definition set_usage v c := MkC (quota c) v (parent c) (nchildren c) (used c).
Definition set_parent v c := MkC (quota c) (usage c) v (nchildren c) (used c).
Definition set_nchildren v c := MkC (quota c) (usage c) (parent c) v (used c).
Definition set_used v c := MkC (quota c) (usage c) (parent c) (nchildren c) v.

Record state (S : Type) : Type := State {
  pa : S;
  CONTAINER : gmap Z SContainer
}.
Arguments State {S} pa CONTAINER.
Arguments pa {S} s.
Arguments CONTAINER {S} s.

Section ops.
Context {S : Type} `{!PageAlloc S}.

Definition pa_lens : lens (state S) S :=
  Lens pa (fun v s => State v (CONTAINER s)).

#[export] Instance pa_lens_laws : LensLaws pa_lens.
Proof. split; [done | by intros [] | done]. Qed.

(** [CONTAINER[id]] as an rvalue, and [CONTAINER[id].f = v]. *)
Definition cget (id : Z) : K (state S) SContainer :=
  bounds NUM_IDS id ;; gets (fun s => CONTAINER s !!! id).
Definition cupd (id : Z) (f : SContainer -> SContainer) : K (state S) unit :=
  bounds NUM_IDS id ;;
  modify (fun s => State (pa s) (<[id := f (CONTAINER s !!! id)]> (CONTAINER s))).

(** The counting loop of container_init; [norm] and [used] are its locals. *)
Fixpoint count_quota (n : nat) (i real_quota : Z) : K (state S) Z :=
  match n with
  | O => mret real_quota
  | Datatypes.S n' =>
      norm ← zoom pa_lens (at_is_norm i);
      used ← zoom pa_lens (at_is_allocated i);
      count_quota n' (i + 1)
        (if (norm =? 1) && (used =? 0) then u32 (real_quota + 1) else real_quota)
  end.

(** [pmem_init mbi_addr] is the parameter [pmem]. *)
Definition container_init (pmem : K S unit) : K (state S) unit :=
  zoom pa_lens pmem ;;
  nps ← zoom pa_lens get_nps;
  real_quota ← count_quota (Z.to_nat (nps - 1)) 1 0;
  cupd 0 (set_quota (i32 real_quota)) ;;
  cupd 0 (set_usage 0) ;;
  cupd 0 (set_parent 0) ;;
  cupd 0 (set_nchildren 0) ;;
  cupd 0 (set_used 1).

(** The getters return [unsigned int]. *)
Definition container_get_parent (id : Z) : K (state S) Z :=
  c ← cget id; mret (u32 (parent c)).
Definition container_get_nchildren (id : Z) : K (state S) Z :=
  c ← cget id; mret (u32 (nchildren c)).
Definition container_get_quota (id : Z) : K (state S) Z :=
  c ← cget id; mret (u32 (quota c)).
Definition container_get_usage (id : Z) : K (state S) Z :=
  c ← cget id; mret (u32 (usage c)).

(** [usage + n > quota]: the [int] operands are converted to [unsigned]. *)
Definition container_can_consume (id n : Z) : K (state S) Z :=
  c ← cget id;
  mret (if u32 (quota c) <? u32 (u32 (usage c) + n) then 0 else 1).

Definition container_split (id q : Z) : K (state S) Z :=
  c ← cget id;
  let nc := u32 (nchildren c) in
  let child := u32 (u32 (u32 (id * MAX_CHILDREN) + 1) + nc) in
  cupd child (set_used 1) ;;
  cupd child (set_quota (i32 q)) ;;
  cupd child (set_usage 0) ;;
  cupd child (set_parent (i32 id)) ;;
  cupd child (set_nchildren 0) ;;
  cupd id (fun c => set_usage (i32 (u32 (usage c) + q)) c) ;;
  cupd id (set_nchildren (i32 (u32 (nc + 1)))) ;;
  mret child.

Definition container_alloc (ks : kstack) (id : Z) : K (state S) Z :=
  c ← cget id;
  let u := u32 (usage c) in
  let q := u32 (quota c) in
  if u =? q then mret 0
  else
    cupd id (set_usage (i32 (u32 (u + 1)))) ;;
    zoom pa_lens (palloc ks).

Definition container_free (ks : kstack) (id page_index : Z) : K (state S) unit :=
  a ← zoom pa_lens (at_is_allocated page_index);
  if a =? 0 then mret tt
  else
    zoom pa_lens (pfree ks page_index) ;;
    c ← cget id;
    if 0 <? usage c then cupd id (set_usage (i32 (usage c - 1)))
    else mret tt.

(** *** Runs *)

Lemma cget_run id (s : state S) : 0 <= id < NUM_IDS -> cget id s = Ok (CONTAINER s !!! id) s.
Proof. intros H. unfold cget. by krun (apply bounds_Ok). Qed.

Lemma cupd_run id f (s : state S) : 0 <= id < NUM_IDS ->
  cupd id f s = Ok tt (State (pa s) (<[id := f (CONTAINER s !!! id)]> (CONTAINER s))).
Proof. intros H. unfold cupd. by krun (apply bounds_Ok). Qed.

(** *** The invariant *)

Definition avail (c : SContainer) : Z := quota c - usage c.

(** The pages all containers together may still ask for. *)
Definition total_avail (C : gmap Z SContainer) : Z :=
  sumZ (fun i => avail (C !!! i)) 64.

(** The container index container_split gives to child [k] of [id]. *)
Definition child_of (id k : Z) : Z := id * MAX_CHILDREN + 1 + k.

Definition fresh : SContainer := MkC 0 0 0 0 0.

Context `{!PageAllocSpec S}.

Record cinv (s : state S) : Prop := {
  ci_pa : pa_inv (pa s);
  ci_range : forall id, 0 <= id < NUM_IDS ->
    0 <= usage (CONTAINER s !!! id) <= quota (CONTAINER s !!! id) /\
    quota (CONTAINER s !!! id) < 2 ^ 31 /\
    0 <= nchildren (CONTAINER s !!! id) <= MAX_CHILDREN;
  ci_fresh : forall id k, 0 <= id < NUM_IDS ->
    nchildren (CONTAINER s !!! id) <= k < MAX_CHILDREN -> child_of id k < NUM_IDS ->
    CONTAINER s !!! child_of id k = fresh;
  ci_child : forall id k, 0 <= id < NUM_IDS ->
    0 <= k < nchildren (CONTAINER s !!! id) ->
    child_of id k < NUM_IDS /\
    used (CONTAINER s !!! child_of id k) = 1 /\
    parent (CONTAINER s !!! child_of id k) = id;
  ci_root : used (CONTAINER s !!! 0) = 1;
  ci_total : total_avail (CONTAINER s) <= Z.of_nat (size (pa_free (pa s)))
}.

Lemma child_of_inj id k id' k' :
  0 <= k < MAX_CHILDREN -> 0 <= k' < MAX_CHILDREN ->
  child_of id k = child_of id' k' -> id = id' /\ k = k'.
Proof. unfold child_of. klia. Qed.

Lemma child_of_gt id k : 0 <= id -> 0 <= k -> id < child_of id k.
Proof. unfold child_of. klia. Qed.

Lemma total_avail_insert C id c : 0 <= id < NUM_IDS ->
  total_avail (<[id := c]> C) = total_avail C + (avail c - avail (C !!! id)).
Proof.
  intros Hid. unfold total_avail.
  rewrite (sumZ_upd (fun i => avail (C !!! i)) (fun i => avail (<[id := c]> C !!! i)) 64 id).
  - by rewrite lookup_total_insert_eq.
  - klia.
  - intros j Hj. by rewrite lookup_total_insert_ne.
Qed.

(** A container with pages left has a free page behind it. *)
Lemma avail_le_free s id :
  cinv s -> 0 <= id < NUM_IDS ->
  avail (CONTAINER s !!! id) <= Z.of_nat (size (pa_free (pa s))).
Proof.
  intros [_ Hr _ _ _ Ht] Hid. etrans; [|exact Ht].
  apply (sumZ_ge (fun i => avail (CONTAINER s !!! i)) 64); [|klia].
  intros j Hj. destruct (Hr j) as (? & ? & ?); [klia|]. unfold avail. lia.
Qed.

(** Changing quota and usage of one container keeps the rest of the invariant. *)
Lemma cinv_usage s id u p' :
  cinv s -> 0 <= id < NUM_IDS -> pa_inv p' ->
  0 <= u <= quota (CONTAINER s !!! id) ->
  total_avail (CONTAINER s) - (u - usage (CONTAINER s !!! id))
    <= Z.of_nat (size (pa_free p')) ->
  cinv (State p' (<[id := set_usage u (CONTAINER s !!! id)]> (CONTAINER s))).
Proof.
  intros [Hpa Hr Hf Hc Hroot Ht] Hid Hp' Hu Htot.
  set (C' := <[id := _]> (CONTAINER s)).
  assert (Hsame : forall j, C' !!! j = CONTAINER s !!! j \/
    (j = id /\ C' !!! j = set_usage u (CONTAINER s !!! id))).
  { intros j. destruct (decide (j = id)) as [->|Hj].
    - right. split; [done|]. apply lookup_total_insert_eq.
    - left. by apply lookup_total_insert_ne. }
  assert (Hnc : forall j, nchildren (C' !!! j) = nchildren (CONTAINER s !!! j))
    by (intros j; by destruct (Hsame j) as [->|[-> ->]]).
  assert (Hus : forall j, used (C' !!! j) = used (CONTAINER s !!! j))
    by (intros j; by destruct (Hsame j) as [->|[-> ->]]).
  split; cbn [pa CONTAINER].
  - done.
  - intros j Hj. destruct (Hr j Hj) as (H1 & H2 & H3).
    destruct (Hsame j) as [->|[-> ->]]; [done|]. cbn. lia.
  - intros j k Hj Hk Hlt. rewrite Hnc in Hk. pose proof (Hf j k Hj Hk Hlt) as Hfr.
    destruct (Hsame (child_of j k)) as [->|[<- ->]]; [done|].
    rewrite Hfr in *. cbn in *. by replace u with 0 by lia.
  - intros j k Hj Hk. rewrite Hnc in Hk. destruct (Hc j k Hj Hk) as (H1 & H2 & H3).
    rewrite Hus. destruct (Hsame (child_of j k)) as [->|[<- ->]]; done.
  - by rewrite Hus.
  - unfold C'. rewrite total_avail_insert by done. unfold avail in *. cbn [quota usage set_usage]. lia.
Qed.

Lemma cinv_pa s p' :
  cinv s -> pa_inv p' -> total_avail (CONTAINER s) <= Z.of_nat (size (pa_free p')) ->
  cinv (State p' (CONTAINER s)).
Proof. intros [_ Hr Hf Hc Hroot _] Hp' Ht. by split. Qed.

(** *** container_alloc *)

(** The three outcomes of container_alloc: the quota is exhausted and nothing
    changes; a free page moves to the container; or palloc finds no page, and
    the container is charged all the same. *)
Definition alloc_result (s : state S) (id i : Z) (s' : state S) : Prop :=
  let c := CONTAINER s !!! id in
  (usage c = quota c /\ i = 0 /\ s' = s) \/
  (usage c < quota c /\
   CONTAINER s' = <[id := set_usage (usage c + 1) c]> (CONTAINER s) /\
   (i = 0 \/ i ∈ pa_free (pa s)) /\
   pa_free (pa s') = pa_free (pa s) ∖ {[i]} /\
   (forall j, pa_used (pa s') j =
      if decide (i <> 0 /\ j = i) then true else pa_used (pa s) j)).

Lemma container_alloc_wp ks id s :
  cinv s -> 0 <= id < NUM_IDS -> magic ks = KSTACK_MAGIC ->
  wp (container_alloc ks id) (fun i s' => cinv s' /\ alloc_result s id i s') s.
Proof.
  intros Hinv Hid Hm. pose proof Hinv as [Hpa Hr _ _ _ Ht].
  destruct (Hr id Hid) as (Hu & Hq & _). unfold container_alloc, alloc_result.
  apply wp_bind. eapply wp_intro; [by apply cget_run|].
  rewrite !u32_small by klia.
  destruct (Z.eqb_spec (usage (CONTAINER s !!! id)) (quota (CONTAINER s !!! id))) as [E|E].
  - apply wp_ret. auto.
  - apply wp_bind. eapply wp_intro; [by apply cupd_run|].
    rewrite i32_small by klia.
    destruct (pa_palloc ks (pa s) Hpa Hm) as (i & p' & Hrun & Hp' & _ & Hi & Hfree & Hus).
    eapply wp_intro; [by apply zoom_Ok|]. cbn [lput pa_lens CONTAINER pa].
    split; [|right; split; [lia|]; auto].
    apply (cinv_usage s id _ p'); try done; [lia|].
    rewrite Hfree.
    destruct (decide (i = 0)) as [->|Hi0].
    + rewrite difference_disjoint_L; [lia|]. apply disjoint_singleton_r.
      intros H%pa_free_range; [lia | done].
    + assert (Hin : {[i]} ⊆ pa_free (pa s)) by (destruct Hi; [done | by apply singleton_subseteq_l]).
      apply subseteq_size in Hin as Hsz. rewrite size_difference, size_singleton in * by done.
      lia.
Qed.

(** *** container_free *)

Definition free_result (s : state S) (id i : Z) (s' : state S) : Prop :=
  let c := CONTAINER s !!! id in
  if pa_used (pa s) i then
    pa_free (pa s') = pa_free (pa s) ∪ {[i]} /\
    (forall j, pa_used (pa s') j = if decide (j = i) then false else pa_used (pa s) j) /\
    CONTAINER s' =
      (if 0 <? usage c then <[id := set_usage (usage c - 1) c]> (CONTAINER s) else CONTAINER s)
  else s' = s.

Lemma is_allocated_run s i : pa_inv (pa s) -> 0 <= i < 2 ^ 20 ->
  zoom pa_lens (at_is_allocated i) s = Ok (if pa_used (pa s) i then 1 else 0) s.
Proof.
  intros Hpa Hi. destruct (pa_is_norm_allocated (pa s) i Hpa Hi) as (n & _ & Ha & _).
  erewrite zoom_Ok by exact Ha. by destruct s.
Qed.

Lemma container_free_wp ks id i s :
  cinv s -> 0 <= id < NUM_IDS -> 0 <= i < 2 ^ 20 -> magic ks = KSTACK_MAGIC ->
  wp (container_free ks id i) (fun _ s' => cinv s' /\ free_result s id i s') s.
Proof.
  intros Hinv Hid Hi Hm. pose proof Hinv as [Hpa Hr _ _ _ Ht].
  destruct (Hr id Hid) as (Hu & Hq & _). unfold container_free, free_result.
  apply wp_bind. eapply wp_intro; [by apply is_allocated_run|].
  destruct (pa_used (pa s) i) eqn:Eu; cbn [Z.eqb]; [|by apply wp_ret].
  destruct (pa_pfree ks (pa s) i Hpa Hm Hi Eu) as (p' & Hrun & Hp' & _ & Hfree & Hus).
  apply wp_bind. eapply wp_intro; [by apply zoom_Ok|]. cbn [lput pa_lens].
  apply wp_bind. eapply wp_intro; [by apply cget_run|]. cbn [CONTAINER].
  assert (Hsz : Z.of_nat (size (pa_free p')) = Z.of_nat (size (pa_free (pa s))) + 1).
  { rewrite Hfree, size_union, size_singleton; [lia|].
    apply disjoint_singleton_r, (pa_used_not_free (pa s) i Hpa Eu). }
  destruct (Z.ltb_spec 0 (usage (CONTAINER s !!! id))) as [Hpos|Hz].
  - eapply wp_intro; [by apply cupd_run|]. cbn [CONTAINER pa].
    rewrite i32_small by klia. split; [|auto].
    apply (cinv_usage s id _ p'); try done; lia.
  - apply wp_ret. split; [|auto]. apply cinv_pa; [done | done | lia].
Qed.

(** *** container_split *)

(** The table container_split leaves for a new child [child] of [id]. *)
Definition split_post (C : gmap Z SContainer) (id q child : Z) : gmap Z SContainer :=
  let c := C !!! id in
  <[id := MkC (quota c) (usage c + q) (parent c) (nchildren c + 1) (used c)]>
    (<[child := MkC q 0 id 0 1]> C).

(** What sys_spawn checks before it lets container_split run. *)
Record can_split (s : state S) (id q : Z) : Prop := {
  cs_id : 0 <= id < NUM_IDS;
  cs_quota : 0 <= q;
  cs_fits : usage (CONTAINER s !!! id) + q <= quota (CONTAINER s !!! id);
  cs_children : nchildren (CONTAINER s !!! id) < MAX_CHILDREN;
  cs_ids : id * MAX_CHILDREN + 1 + MAX_CHILDREN <= NUM_IDS;
  cs_used : used (CONTAINER s !!! id) = 1
}.

Lemma container_split_run id q s :
  cinv s -> can_split s id q ->
  let child := child_of id (nchildren (CONTAINER s !!! id)) in
  container_split id q s =
    Ok child (State (pa s) (split_post (CONTAINER s) id q child)).
Proof.
  intros [_ Hr _ _ _ _] [Hid Hq Hfits Hnc Hids Hused]. cbn zeta.
  destruct (Hr id Hid) as (Hu & Hqq & Hn). unfold container_split.
  krun (by apply cget_run).
  set (c := CONTAINER s !!! id) in *.
  rewrite (u32_small (nchildren c)) by klia.
  rewrite (u32_small (id * MAX_CHILDREN)) by klia.
  rewrite (u32_small (_ + 1)) by klia.
  rewrite (u32_small (_ + 1 + _)) by klia.
  fold (child_of id (nchildren c)).
  pose proof (child_of_gt id (nchildren c)) as Hgt.
  set (child := child_of id (nchildren c)) in *.
  assert (Hc : 0 <= child < NUM_IDS) by (unfold child, child_of; klia).
  do 7 (krun (apply cupd_run; klia)). unfold mret, K_ret. f_equal. f_equal.
  cbn [pa CONTAINER]. unfold split_post. fold c.
  repeat first [rewrite lookup_total_insert_eq | rewrite insert_insert_eq
               |rewrite lookup_total_insert_ne by lia].
  fold c. unfold set_used, set_quota, set_usage, set_parent, set_nchildren.
  cbn [quota usage parent nchildren used].
  rewrite !(i32_small id), !(i32_small q) by klia.
  rewrite !u32_small by klia. by rewrite !i32_small by klia.
Qed.

Lemma split_post_lookup C id q child j : child <> id ->
  split_post C id q child !!! j =
    if decide (j = id) then
      MkC (quota (C !!! id)) (usage (C !!! id) + q) (parent (C !!! id))
        (nchildren (C !!! id) + 1) (used (C !!! id))
    else if decide (j = child) then MkC q 0 id 0 1
    else C !!! j.
Proof.
  intros Hne. unfold split_post. repeat case_decide; subst.
  - by rewrite lookup_total_insert_eq.
  - rewrite lookup_total_insert_ne by done. by rewrite lookup_total_insert_eq.
  - by rewrite !lookup_total_insert_ne by done.
Qed.

Lemma split_post_inv s id q :
  cinv s -> can_split s id q ->
  cinv (State (pa s) (split_post (CONTAINER s) id q
    (child_of id (nchildren (CONTAINER s !!! id))))).
Proof.
  intros [Hpa Hr Hf Hc Hroot Ht] [Hid Hq Hfits Hnc Hids Hused].
  destruct (Hr id Hid) as (Hu & Hqq & Hn).
  set (n := nchildren (CONTAINER s !!! id)) in *. set (child := child_of id n).
  assert (Hgt : id < child) by (apply child_of_gt; lia).
  assert (Hrange : 0 <= child < NUM_IDS) by (unfold child, child_of; klia).
  assert (Hfr : CONTAINER s !!! child = fresh) by (apply Hf; klia).
  assert (Hlook := fun j => split_post_lookup (CONTAINER s) id q child j ltac:(lia)).
  split; cbn [pa CONTAINER].
  - done.
  - intros j Hj. rewrite !Hlook. destruct (Hr j Hj) as (? & ? & ?).
    repeat case_decide; subst; cbn; [lia | klia | done].
  - intros j k Hj Hk Hlt. rewrite !Hlook in *.
    pose proof (child_of_gt j k) as Hjk.
    destruct (decide (j = id)) as [->|Hne]; cbn in Hk; fold n in Hk.
    + rewrite !decide_False by (unfold child, child_of in *; lia). apply Hf; [done|lia|done].
    + assert (Hinj : child_of j k = child -> j = id).
      { intros E. apply (child_of_inj j k id n); [|lia|done].
        destruct (decide (j = child)); cbn in Hk; [lia|].
        destruct (Hr j Hj) as (_ & _ & ?). lia. }
      assert (Hk0 : 0 <= k).
      { destruct (decide (j = child)); cbn in Hk; [lia|].
        destruct (Hr j Hj) as (_ & _ & ?). lia. }
      assert (Hf' : CONTAINER s !!! child_of j k = fresh).
      { apply Hf; [done| |done]. destruct (decide (j = child)) as [->|]; [|done].
        rewrite Hfr. cbn in *. lia. }
      rewrite decide_False by (intros E; rewrite E in Hf'; by rewrite Hf' in Hused).
      rewrite decide_False by auto. done.
  - intros j k Hj Hk. rewrite !Hlook in *.
    destruct (decide (j = id)) as [->|Hne]; cbn in Hk; fold n in Hk.
    + pose proof (child_of_gt id k). rewrite decide_False by lia.
      case_decide as E; [by split; [lia|]|].
      apply Hc; [done|]. fold n. unfold child, child_of in E. lia.
    + destruct (decide (j = child)) as [->|Hne']; [cbn in Hk; lia|].
      destruct (Hc j k Hj Hk) as (H1 & H2 & H3). split; [done|].
      case_decide as E; [by rewrite <- E|]. case_decide as E'; [|done].
      by rewrite E', Hfr in H2.
  - rewrite Hlook. case_decide as E; [done|]. rewrite decide_False by lia. done.
  - unfold split_post. rewrite total_avail_insert by done.
    rewrite total_avail_insert by done. rewrite lookup_total_insert_ne by lia.
    rewrite Hfr. unfold avail, fresh. cbn [quota usage]. lia.
Qed.

(** *** container_can_consume *)

Lemma container_can_consume_run id n s :
  cinv s -> 0 <= id < NUM_IDS -> is_u32 n ->
  let c := CONTAINER s !!! id in
  container_can_consume id n s =
    Ok (if quota c <? u32 (usage c + n) then 0 else 1) s.
Proof.
  intros [_ Hr _ _ _ _] Hid Hn. cbn zeta. destruct (Hr id Hid) as (Hu & Hq & _).
  unfold container_can_consume. krun (by apply cget_run).
  by rewrite !(u32_small (quota _)), !(u32_small (usage _)) by klia.
Qed.

(** *** container_init *)

Lemma count_quota_run s n i acc :
  pa_inv (pa s) -> 0 <= i -> i + Z.of_nat n <= 2 ^ 20 -> 0 <= acc -> acc + Z.of_nat n < 2 ^ 32 ->
  count_quota n i acc s =
    Ok (acc + Z.of_nat (length (filter (fun j => j ∈ pa_free (pa s)) (seqZ i (Z.of_nat n))))) s.
Proof.
  intros Hpa. revert i acc. induction n as [|n IH]; intros i acc Hi Hn Hacc Hof.
  { cbn. by rewrite Z.add_0_r. }
  cbn [count_quota]. destruct (pa_is_norm_allocated (pa s) i Hpa) as (m & Hm & Ha & Hf); [lia|].
  assert (Hput : lput pa_lens (pa s) s = s) by (by destruct s).
  krun (rewrite (zoom_Ok _ _ _ _ _ Hm), Hput). krun (rewrite (zoom_Ok _ _ _ _ _ Ha), Hput).
  replace ((if pa_used (pa s) i then 1 else 0) =? 0) with (negb (pa_used (pa s) i))
    by (by destruct (pa_used _ _)).
  rewrite Hf, IH; [|lia|lia| |].
  - f_equal. rewrite Nat2Z.inj_succ, (seqZ_cons i) by lia. rewrite Z.pred_succ, filter_cons.
    replace (Z.succ i) with (i + 1) by lia.
    case_bool_decide as Hin.
    + rewrite decide_True by done. rewrite u32_small by klia. cbn [length]. lia.
    + rewrite decide_False by done. lia.
  - case_bool_decide; [rewrite u32_small by klia|]; lia.
  - case_bool_decide; [rewrite u32_small by klia|]; lia.
Qed.

Lemma size_free_count p : pa_inv p ->
  length (filter (fun j => j ∈ pa_free p) (seqZ 1 (pa_nps p - 1))) = size (pa_free p).
Proof.
  intros Hp. unfold size, set_size. cbn. apply Permutation_length, NoDup_Permutation.
  - apply NoDup_filter, NoDup_seqZ.
  - apply NoDup_elements.
  - intros i. rewrite elem_of_elements, list_elem_of_filter, elem_of_seqZ. split; [tauto|].
    intros H. pose proof (pa_free_range p i Hp H). split; [done|lia].
Qed.

Definition root_container (q : Z) : SContainer := MkC q 0 0 0 1.

Lemma total_avail_zero n : sumZ (fun i => avail ((∅ : gmap Z SContainer) !!! i)) n = 0.
Proof. induction n as [|n IH]; [done|]. cbn [sumZ]. by rewrite IH, lookup_total_empty. Qed.

Lemma root_cinv p : pa_inv p ->
  cinv (State p (<[0 := root_container (Z.of_nat (size (pa_free p)))]> ∅)).
Proof.
  intros Hp. set (q := Z.of_nat (size (pa_free p))).
  assert (Hq : 0 <= q < 2 ^ 20).
  { split; [unfold q; lia|]. unfold q. rewrite <- (size_free_count p Hp).
    pose proof (pa_nps_range p Hp).
    pose proof (length_filter (fun j => j ∈ pa_free p) (seqZ 1 (pa_nps p - 1))) as Hl.
    rewrite length_seqZ in Hl. lia. }
  assert (Hne : forall j, j <> 0 ->
    (<[0 := root_container q]> ∅ : gmap Z SContainer) !!! j = fresh).
  { intros j Hj. by rewrite lookup_total_insert_ne, lookup_total_empty by done. }
  split; cbn [pa CONTAINER].
  - done.
  - intros id _. destruct (decide (id = 0)) as [->|H0].
    + rewrite lookup_total_insert_eq. cbn. klia.
    + rewrite Hne by done. cbn. klia.
  - intros id k Hid Hk _. apply Hne. pose proof (child_of_gt id k).
    destruct (decide (id = 0)) as [->|H0].
    + rewrite lookup_total_insert_eq in Hk. cbn in Hk. lia.
    + rewrite Hne in Hk by done. cbn in Hk. lia.
  - intros id k Hid. destruct (decide (id = 0)) as [->|H0].
    + rewrite lookup_total_insert_eq. cbn. lia.
    + rewrite Hne by done. cbn. lia.
  - by rewrite lookup_total_insert_eq.
  - rewrite total_avail_insert by klia. unfold total_avail. rewrite total_avail_zero.
    rewrite lookup_total_empty. unfold avail. cbn. lia.
Qed.

Lemma container_init_run pmem p0 p :
  pmem p0 = Ok tt p -> pa_inv p ->
  container_init pmem (State p0 ∅) =
    Ok tt (State p (<[0 := root_container (Z.of_nat (size (pa_free p)))]> ∅)).
Proof.
  intros Hrun Hp. pose proof (pa_nps_range p Hp) as Hn. unfold container_init.
  krun (by apply zoom_Ok). cbn [lput pa_lens CONTAINER].
  krun (by apply zoom_Ok, pa_get_nps). cbn [lput pa_lens CONTAINER lget pa].
  krun (apply count_quota_run; cbn [pa]; [done|lia..]). cbn [pa].
  rewrite Z2Nat.id, size_free_count by (done || lia).
  do 4 (krun (apply cupd_run; klia)). rewrite cupd_run by klia. cbn [pa CONTAINER].
  repeat first [rewrite lookup_total_insert_eq | rewrite insert_insert_eq].
  unfold set_used, set_quota, set_usage, set_parent, set_nchildren.
  cbn [quota usage parent nchildren used]. rewrite Z.add_0_l, i32_small; [done|].
  pose proof (root_cinv p Hp) as [_ Hr _ _ _ _]. destruct (Hr 0) as (H1 & H2 & _); [klia|].
  cbn [CONTAINER] in *. rewrite lookup_total_insert_eq in H1, H2. cbn in H1, H2. lia.
Qed.

End ops.
End MContainer.

(** ** The page allocator meets the interface *)
Module MATPageAlloc.
Import MATIntro MATOp.

#[export] Instance mat_page_alloc : PageAlloc MATIntro.state := {
  get_nps := MATIntro.get_nps;
  at_is_norm := MATIntro.at_is_norm;
  at_is_allocated := MATIntro.at_is_allocated;
  palloc := MATOp.palloc;
  pfree := MATOp.pfree
}.

(** The contract, with [alloc_inv] as the invariant and [free_set] as the
    abstract state. *)
#[export] Program Instance mat_page_alloc_spec : PageAllocSpec MATIntro.state := {
  pa_inv := alloc_inv;
  pa_free := free_set;
  pa_used := used_page;
  pa_nps := NUM_PAGES
}.
Next Obligation. intros s [_ H _ _ _]. klia. Qed.
Next Obligation.
  intros s i Hinv Hi%elem_of_free_set; [|done].
  apply free_page_range in Hi as [[_ ?] ?]; [lia|done].
Qed.
Next Obligation.
  intros s i Hinv Hu Hi%elem_of_free_set; [|done].
  unfold free_page in Hi. rewrite Hu, andb_false_r in Hi. done.
Qed.
Next Obligation. done. Qed.
Next Obligation.
  intros s i Hinv Hi. eexists. split; [by apply at_is_norm_run|].
  split; [by apply at_is_allocated_run|].
  transitivity (free_page s i); [unfold free_page; by destruct (norm_page s i)|].
  destruct (free_page s i) eqn:E; symmetry.
  - by apply bool_decide_eq_true_2, elem_of_free_set.
  - apply bool_decide_eq_false_2. rewrite elem_of_free_set by done. by rewrite E.
Qed.
Next Obligation.
  intros ks s Hinv Hm. destruct (palloc_run ks Hm s Hinv) as (r & Hr & Hrun).
  set (i := if r =? NUM_PAGES s then 0 else r) in *. cbn zeta in Hrun.
  assert (Hi : i = 0 \/ free_page s i = true).
  { unfold i. case_bool; [auto|]. destruct Hr as [[? _]|(_ & ? & _)]; auto. }
  exists i, (palloc_post s i). split_and!.
  - exact Hrun.
  - by apply palloc_post_inv.
  - by apply nps_palloc_post.
  - rewrite elem_of_free_set by done. exact Hi.
  - by apply free_set_palloc_post.
  - intros j. apply used_palloc_post.
Qed.
Next Obligation.
  intros ks s i Hinv Hm Hi Hu. exists (pfree_post s i). split_and!.
  - by apply pfree_run.
  - by apply pfree_post_inv.
  - done.
  - apply free_set_pfree_post; [done|]. by destruct Hinv as [_ _ _ _ Hused]; apply Hused.
  - intros j. change (used_page (mark_page i 0 s) j = if decide (j = i) then false else used_page s j).
    by rewrite used_mark_page.
Qed.

End MATPageAlloc.

(** ** The containers' correctness

    Stated for the kernel's own page allocator. *)
Module MContainerCorrect.
Import MContainer MATPageAlloc.
Import (hints) MATCorrect.

Abbreviation kstate := (MContainer.state MATIntro.state).

(** container_init leaves the containers consistent with memory: only the
    root exists, it has used nothing, and its quota is exactly the number of
    pages palloc can hand out. *)
Theorem container_init_correct mmap :
  Forall mmap_ok mmap -> (length (kept mmap) <= 128)%nat ->
  (exists x, Exists (mmap_covers MEM_RAM x) mmap) ->
  exists s : kstate,
    container_init (MATInit.pmem_init mmap) (State MATOp.boot_state ∅) = Ok tt s /\
    cinv s /\
    CONTAINER s !!! 0 = MkC (Z.of_nat (size (MATOp.free_set (pa s)))) 0 0 0 1 /\
    (forall id, id <> 0 -> CONTAINER s !!! id = MkC 0 0 0 0 0).
Proof.
  intros Hmm Hlen (x & Hx).
  destruct (proj1 (wp_run _ _ _) (MATInitSpec.pmem_init_wp mmap Hmm Hlen)) as ([] & m & Hrun & Ht).
  assert (Hinv : MATOp.alloc_inv m).
  { apply (MATInitSpec.table_alloc_inv mmap); [done|].
    by apply (MATInitSpec.table_nps_pos mmap m MEM_RAM x). }
  eexists. split; [by apply container_init_run|]. split; [by apply root_cinv|].
  cbn [CONTAINER pa]. split; [by rewrite lookup_total_insert_eq|].
  intros id Hid. by rewrite lookup_total_insert_ne, lookup_total_empty by done.
Qed.

Lemma container_init_correct_witness :
  exists s : kstate,
    container_init (MATInit.pmem_init MATInitSpec.demo_map) (State MATOp.boot_state ∅) = Ok tt s
    /\ cinv s.
Proof.
  destruct (container_init_correct MATInitSpec.demo_map) as (s & H1 & H2 & _).
  - repeat apply Forall_cons_2; [ | |apply Forall_nil_2];
      unfold mmap_ok, is_u32, MEM_RAM; cbn; lia.
  - apply Nat.leb_le. reflexivity.
  - exists 0. apply Exists_cons_tl, Exists_cons_hd. by vm_compute.
  - exists s. split; assumption.
Defined.

(** container_alloc keeps the books: it refuses exactly when the quota is
    used up; otherwise one page is charged, and the page returned (if not 0)
    was free and now is not.  Quotas never promise more pages than are free, so
    a container below its quota always has a free page behind it. *)
Theorem container_alloc_correct ks id (s : kstate) :
  cinv s -> 0 <= id < NUM_IDS -> magic ks = KSTACK_MAGIC ->
  exists i s', container_alloc ks id s = Ok i s' /\ cinv s' /\
    alloc_result s id i s' /\
    (usage (CONTAINER s !!! id) < quota (CONTAINER s !!! id) ->
     MATOp.free_set (pa s) <> ∅).
Proof.
  intros Hinv Hid Hm.
  destruct (proj1 (wp_run _ _ _) (container_alloc_wp ks id s Hinv Hid Hm)) as (i & s' & ? & ? & ?).
  exists i, s'. split_and!; try done.
  intros Hlt Hempty. pose proof (avail_le_free s id Hinv Hid) as Hle.
  change (pa_free (pa s)) with (MATOp.free_set (pa s)) in Hle.
  rewrite Hempty, size_empty in Hle. unfold avail in Hle. lia.
Qed.

(** The root container over the allocator of [MATCorrect.demo_state]. *)
Definition demo : kstate :=
  State MATCorrect.demo_state
    (<[0 := root_container (Z.of_nat (size (pa_free MATCorrect.demo_state)))]> ∅).

Lemma demo_cinv : cinv demo.
Proof. apply root_cinv, MATCorrect.demo_inv. Qed.

Lemma demo_size : (0 < size (pa_free MATCorrect.demo_state))%nat.
Proof.
  pose proof MATCorrect.demo_free as Hin. revert Hin. cbn [pa_free mat_page_alloc_spec].
  generalize (MATOp.free_set MATCorrect.demo_state). intros X Hin.
  destruct (decide (size X = 0%nat)) as [E|]; [|lia]. apply size_empty_inv in E. set_solver.
Qed.

Lemma container_alloc_correct_witness :
  exists i s', container_alloc MATCorrect.demo_kstack 0 demo = Ok i s' /\ cinv s'.
Proof.
  destruct (container_alloc_correct MATCorrect.demo_kstack 0 demo) as (i & s' & H1 & H2 & _).
  - exact demo_cinv.
  - unfold NUM_IDS; lia.
  - reflexivity.
  - exists i, s'. split; assumption.
Defined.

(** container_free returns an allocated page to the free set, lowers the
    usage by one (never below zero) and does nothing for a page that is not
    allocated. *)
Theorem container_free_correct ks id i (s : kstate) :
  cinv s -> 0 <= id < NUM_IDS -> 0 <= i < 2 ^ 20 -> magic ks = KSTACK_MAGIC ->
  exists s', container_free ks id i s = Ok tt s' /\ cinv s' /\ free_result s id i s'.
Proof.
  intros Hinv Hid Hi Hm.
  destruct (proj1 (wp_run _ _ _) (container_free_wp ks id i s Hinv Hid Hi Hm)) as ([] & s' & ? & ? & ?).
  by exists s'.
Qed.

Lemma container_free_correct_witness :
  exists s', container_free MATCorrect.demo_kstack 0 0x40002 demo = Ok tt s' /\ cinv s' /\
    free_result demo 0 0x40002 s'.
Proof.
  apply container_free_correct.
  - exact demo_cinv.
  - unfold NUM_IDS; lia.
  - lia.
  - reflexivity.
Defined.

(** (C27) container_split under sys_spawn's checks: the child gets the unused
    index that belongs to (parent, number of children), with the quota moved out
    of the parent's allowance, so that the pages promised in total stay the
    same; every other container is untouched. *)
Theorem container_split_correct id q (s : kstate) :
  cinv s -> can_split s id q ->
  exists child s', container_split id q s = Ok child s' /\ cinv s' /\
    id < child < NUM_IDS /\ used (CONTAINER s !!! child) = 0 /\
    CONTAINER s' !!! child = MkC q 0 id 0 1 /\
    usage (CONTAINER s' !!! id) = usage (CONTAINER s !!! id) + q /\
    nchildren (CONTAINER s' !!! id) = nchildren (CONTAINER s !!! id) + 1 /\
    (forall j, j <> id -> j <> child -> CONTAINER s' !!! j = CONTAINER s !!! j) /\
    total_avail (CONTAINER s') = total_avail (CONTAINER s).
Proof.
  intros Hinv Hcs. pose proof Hinv as [_ Hr Hf _ _ _].
  pose proof Hcs as [Hid Hq Hfits Hnc Hids Hused].
  destruct (Hr id Hid) as (_ & _ & Hn).
  set (child := child_of id (nchildren (CONTAINER s !!! id))).
  assert (Hgt : id < child) by (apply child_of_gt; lia).
  assert (Hlt : child < NUM_IDS) by (unfold child, child_of; klia).
  assert (Hfr : CONTAINER s !!! child = fresh) by (apply Hf; klia).
  eexists child, _. split; [by apply container_split_run|].
  split; [by apply split_post_inv|]. cbn [CONTAINER].
  assert (Hl : forall j, _) by exact (fun j => split_post_lookup (CONTAINER s) id q child j ltac:(lia)).
  split_and!; [lia | lia | by rewrite Hfr | | | | |].
  - by rewrite Hl, decide_False, decide_True by lia.
  - by rewrite Hl, decide_True.
  - by rewrite Hl, decide_True.
  - intros j Hj Hj'. by rewrite Hl, !decide_False.
  - unfold split_post. fold child. rewrite !total_avail_insert by klia.
    rewrite lookup_total_insert_ne by lia. rewrite Hfr. unfold avail, fresh. cbn [quota usage]. lia.
Qed.

Lemma container_split_correct_witness :
  exists child s', container_split 0 0 demo = Ok child s' /\ cinv s'.
Proof.
  destruct (container_split_correct 0 0 demo) as (child & s' & H1 & H2 & _).
  - exact demo_cinv.
  - split; unfold demo; cbn [CONTAINER]; rewrite ?lookup_total_insert_eq; cbn;
      unfold NUM_IDS, MAX_CHILDREN; try lia; reflexivity.
  - exists child, s'. split; assumption.
Defined.

(** container_can_consume answers whether [n] more pages fit the quota,
    for every request below 2^31. *)
Theorem container_can_consume_correct id n (s : kstate) :
  cinv s -> 0 <= id < NUM_IDS -> 0 <= n < 2 ^ 31 ->
  container_can_consume id n s =
    Ok (if bool_decide (usage (CONTAINER s !!! id) + n <= quota (CONTAINER s !!! id))
        then 1 else 0) s.
Proof.
  intros Hinv Hid Hn. rewrite container_can_consume_run by (done || klia).
  destruct Hinv as [_ Hr _ _ _ _]. destruct (Hr id Hid) as (? & ? & _).
  rewrite u32_small by klia. by case_bool; case_bool_decide; try lia.
Qed.

Lemma container_can_consume_correct_witness :
  container_can_consume 0 0 demo = Ok 1 demo.
Proof.
  rewrite container_can_consume_correct.
  - rewrite bool_decide_eq_true_2; [reflexivity|].
    pose proof demo_cinv as [_ Hr _ _ _ _]. destruct (Hr 0) as (? & ? & _);
      unfold NUM_IDS; lia.
  - exact demo_cinv.
  - unfold NUM_IDS; lia.
  - lia.
Defined.

(** The sum in container_can_consume wraps: a request for 2^32 - 1 pages,
    which sys_spawn forwards from user space, is granted to every container that
    uses at least one page. *)
Theorem container_can_consume_wraps id (s : kstate) :
  cinv s -> 0 <= id < NUM_IDS -> 0 < usage (CONTAINER s !!! id) ->
  container_can_consume id (2 ^ 32 - 1) s = Ok 1 s.
Proof.
  intros Hinv Hid Hu. rewrite container_can_consume_run by (done || klia).
  destruct Hinv as [_ Hr _ _ _ _]. destruct (Hr id Hid) as (? & ? & _).
  replace (usage (CONTAINER s !!! id) + (2 ^ 32 - 1))
    with (usage (CONTAINER s !!! id) - 1 + 1 * 2 ^ 32) by lia.
  unfold u32. rewrite Z_mod_plus_full, Z.mod_small by lia. by bool_simp.
Qed.

Lemma container_can_consume_wraps_witness :
  exists i s', container_alloc MATCorrect.demo_kstack 0 demo = Ok i s' /\
    container_can_consume 0 (2 ^ 32 - 1) s' = Ok 1 s'.
Proof.
  assert (Hid : 0 <= 0 < NUM_IDS) by (unfold NUM_IDS; lia).
  destruct (proj1 (wp_run _ _ _)
    (container_alloc_wp MATCorrect.demo_kstack 0 demo demo_cinv Hid eq_refl))
    as (i & s' & Hrun & Hinv & Hres).
  exists i, s'. split; [exact Hrun|].
  apply container_can_consume_wraps; [exact Hinv | exact Hid |].
  destruct Hres as [(E & _ & _)|(Hlt & HC & _)].
  - exfalso. unfold demo in E. cbn [CONTAINER] in E. rewrite lookup_total_insert_eq in E.
    cbn [quota usage root_container] in E. pose proof demo_size. lia.
  - rewrite HC, lookup_total_insert_eq. unfold demo. cbn [CONTAINER].
    rewrite lookup_total_insert_eq. cbn. lia.
Defined.

End MContainerCorrect.
