(* ===== verification/Memory.v ===== *)
(** * Byte-addressed memory and kern/lib/string.c

    Memory is a finite map from addresses to bytes; an address never written
    holds 0.  [memset] and [memmove] are written with the string instructions
    the source uses ([rep stos], [rep movs] with the direction flag), at the
    width it chooses.  A [const char *] that a function only reads is the
    function from offsets to the bytes behind the pointer, so that the same
    definitions serve strings in memory and names in file system structures. *)

From S2P Require Import Prelude.

Abbreviation mem := (gmap Z Z).

(** Byte [k] of the word [v]. *)
Definition byte_of (v k : Z) : Z := u8 (Z.shiftr v (8 * k)).

(** [fill w d f m] writes [f 0 .. f (w - 1)] to the addresses from [d]. *)
Fixpoint fill (w : nat) (d : Z) (f : Z -> Z) (m : mem) : mem :=
  match w with
  | O => m
  | Datatypes.S w' =>
      <[u32 (d + Z.of_nat w') := f (Z.of_nat w')]> (fill w' d f m)
  end.

Definition load32 (m : mem) (a : Z) : Z :=
  m !!! u32 a + 2 ^ 8 * (m !!! u32 (a + 1)) + 2 ^ 16 * (m !!! u32 (a + 2))
    + 2 ^ 24 * (m !!! u32 (a + 3)).
Definition store32 (a v : Z) (m : mem) : mem := fill 4 a (byte_of v) m.

(** ** The string instructions *)

(** [cld; rep stos]: [n] elements of [w] bytes, the bytes of one being [f]. *)
Fixpoint rep_stos (w : nat) (n : nat) (edi : Z) (f : Z -> Z) (m : mem) : mem :=
  match n with
  | O => m
  | Datatypes.S n' => rep_stos w n' (u32 (edi + Z.of_nat w)) f (fill w edi f m)
  end.

(** One [movs]: the element is read before any of its bytes is written. *)
Definition movs (w : nat) (edi esi : Z) (m : mem) : mem :=
  fill w edi (fun k => m !!! u32 (esi + k)) m.

(** [rep movs] with the direction flag [df]. *)
Fixpoint rep_movs (df : bool) (w : nat) (n : nat) (edi esi : Z) (m : mem) : mem :=
  match n with
  | O => m
  | Datatypes.S n' =>
      let step := if df then - Z.of_nat w else Z.of_nat w in
      rep_movs df w n' (u32 (edi + step)) (u32 (esi + step)) (movs w edi esi m)
  end.

(** ** memset, memmove *)

Definition memset (v c n : Z) (m : mem) : mem :=
  if n =? 0 then m
  else if (Z.rem (i32 v) 4 =? 0) && (n mod 4 =? 0) then
    let c := Z.land c 0xFF in
    let c := Z.lor (Z.lor (Z.lor (Z.shiftl c 24) (Z.shiftl c 16)) (Z.shiftl c 8)) c in
    rep_stos 4 (Z.to_nat (n / 4)) v (byte_of c) m
  else rep_stos 1 (Z.to_nat n) v (byte_of c) m.

Definition memmove (dst src n : Z) (m : mem) : mem :=
  let s := src in
  let d := dst in
  if (s <? d) && (d <? u32 (s + n)) then
    let s := u32 (s + n) in
    let d := u32 (d + n) in
    if (Z.rem (i32 s) 4 =? 0) && (Z.rem (i32 d) 4 =? 0) && (n mod 4 =? 0)
    then rep_movs true 4 (Z.to_nat (n / 4)) (u32 (d - 4)) (u32 (s - 4)) m
    else rep_movs true 1 (Z.to_nat n) (u32 (d - 1)) (u32 (s - 1)) m
  else
    if (Z.rem (i32 s) 4 =? 0) && (Z.rem (i32 d) 4 =? 0) && (n mod 4 =? 0)
    then rep_movs false 4 (Z.to_nat (n / 4)) d s m
    else rep_movs false 1 (Z.to_nat n) d s m.

Definition memcpy (dst src n : Z) (m : mem) : mem := memmove dst src n m.
Definition memzero (v n : Z) (m : mem) : mem := memset v 0 n m.

(** ** Comparing and searching

    [p i] is the byte [p[i]]; the results are C [int]s. *)

Fixpoint strncmp_from (p q : Z -> Z) (i : Z) (n : nat) : Z :=
  match n with
  | O => 0
  | Datatypes.S n' =>
      if negb (p i =? 0) && (p i =? q i) then strncmp_from p q (i + 1) n'
      else p i - q i
  end.
Definition strncmp (p q : Z -> Z) (n : Z) : Z := strncmp_from p q 0 (Z.to_nat n).

Fixpoint strnlen_from (s : Z -> Z) (i : Z) (size : nat) : Z :=
  match size with
  | O => i
  | Datatypes.S size' => if s i =? 0 then i else strnlen_from s (i + 1) size'
  end.
Definition strnlen (s : Z -> Z) (size : Z) : Z := strnlen_from s 0 (Z.to_nat size).

(** [strcmp] and [strchr] run until they meet a NUL; [fuel] bounds the string
    length, [None] is returned when the bound is too small. *)
Fixpoint strcmp_from (fuel : nat) (p q : Z -> Z) (i : Z) : option Z :=
  match fuel with
  | O => None
  | Datatypes.S f =>
      if negb (p i =? 0) && (p i =? q i) then strcmp_from f p q (i + 1)
      else Some (p i - q i)
  end.
Definition strcmp (fuel : nat) (p q : Z -> Z) : option Z := strcmp_from fuel p q 0.

(** [Some (Some k)]: the pointer [s + k]; [Some None]: the null pointer. *)
Fixpoint strchr_from (fuel : nat) (s : Z -> Z) (c i : Z) : option (option Z) :=
  match fuel with
  | O => None
  | Datatypes.S f =>
      if s i =? 0 then Some None
      else if s i =? c then Some (Some i) else strchr_from f s c (i + 1)
  end.
Definition strchr (fuel : nat) (s : Z -> Z) (c : Z) : option (option Z) :=
  strchr_from fuel s c 0.

Fixpoint memcmp_from (s1 s2 : Z -> Z) (i : Z) (n : nat) : Z :=
  match n with
  | O => 0
  | Datatypes.S n' =>
      if negb (s1 i =? s2 i) then s1 i - s2 i else memcmp_from s1 s2 (i + 1) n'
  end.
Definition memcmp (v1 v2 : Z -> Z) (n : Z) : Z := memcmp_from v1 v2 0 (Z.to_nat n).

(** The two loops of strncpy: [n--] happens before the byte is copied, so the
    second loop writes what is left of the [n] bytes. *)
Fixpoint strncpy_pad (s : Z) (n : nat) (m : mem) : mem :=
  match n with
  | O => m
  | Datatypes.S n' => strncpy_pad (u32 (s + 1)) n' (<[s := 0]> m)
  end.
Fixpoint strncpy_from (s : Z) (t : Z -> Z) (i : Z) (n : nat) (m : mem) : mem :=
  match n with
  | O => m
  | Datatypes.S n' =>
      let m' := <[s := t i]> m in
      if negb (t i =? 0) then strncpy_from (u32 (s + 1)) t (i + 1) n' m'
      else strncpy_pad (u32 (s + 1)) n' m'
  end.
Definition strncpy (s : Z) (t : Z -> Z) (n : Z) (m : mem) : mem :=
  strncpy_from s t 0 (Z.to_nat n) m.

(** ** Memory lemmas *)

Lemma fill_lookup w d f m a :
  0 <= d -> d + Z.of_nat w <= 2 ^ 32 ->
  fill w d f m !!! a = if decide (d <= a < d + Z.of_nat w) then f (a - d) else m !!! a.
Proof.
  intros Hd. induction w as [|w IH]; intros Hw; cbn [fill].
  - by rewrite decide_False by lia.
  - rewrite u32_small by klia. destruct (decide (a = d + Z.of_nat w)) as [->|Hne].
    + rewrite lookup_total_insert_eq, decide_True by lia. f_equal. lia.
    + rewrite lookup_total_insert_ne, IH by lia. repeat case_decide; done || lia.
Qed.

Lemma rep_stos_lookup w n d f m a :
  (0 < w)%nat -> 0 <= d -> d + Z.of_nat n * Z.of_nat w <= 2 ^ 32 ->
  (forall k, 0 <= k < Z.of_nat w -> f k = f 0) ->
  rep_stos w n d f m !!! a =
    if decide (d <= a < d + Z.of_nat n * Z.of_nat w) then f 0 else m !!! a.
Proof.
  intros Hw Hd Hn Hf. revert d m Hd Hn. induction n as [|n IH]; intros d m Hd Hn; cbn [rep_stos].
  - by rewrite decide_False by lia.
  - assert (Hd' : n = 0%nat \/ d + Z.of_nat w < 2 ^ 32) by nia. destruct Hd' as [->|Hd'].
    + cbn [rep_stos]. rewrite fill_lookup by lia. repeat case_decide; try lia. apply Hf. lia.
    + rewrite u32_small by klia. rewrite IH by nia. rewrite fill_lookup by nia.
      repeat case_decide; try done; try nia. apply Hf. lia.
Qed.

Lemma movs_lookup w d s m a :
  0 <= d -> d + Z.of_nat w <= 2 ^ 32 -> 0 <= s -> s + Z.of_nat w <= 2 ^ 32 ->
  movs w d s m !!! a =
    if decide (d <= a < d + Z.of_nat w) then m !!! (s + (a - d)) else m !!! a.
Proof.
  intros. unfold movs. rewrite fill_lookup by done. case_decide; [|done].
  by rewrite u32_small by klia.
Qed.

(** Forward, the copy is right unless the destination starts inside the source. *)
Lemma rep_movs_forward w n d s m a :
  (0 < w)%nat -> 0 <= d -> d + Z.of_nat n * Z.of_nat w <= 2 ^ 32 ->
  0 <= s -> s + Z.of_nat n * Z.of_nat w <= 2 ^ 32 ->
  d <= s \/ s + Z.of_nat n * Z.of_nat w <= d ->
  rep_movs false w n d s m !!! a =
    if decide (d <= a < d + Z.of_nat n * Z.of_nat w) then m !!! (s + (a - d)) else m !!! a.
Proof.
  intros Hw. revert d s m. induction n as [|n IH]; intros d s m Hd Hdn Hs Hsn Hov.
  - by rewrite decide_False by lia.
  - cbn [rep_movs]. destruct (decide (n = 0%nat)) as [->|Hn].
    + cbn [rep_movs]. rewrite movs_lookup by lia. by repeat case_decide; try lia.
    + assert (Z.of_nat w <= Z.of_nat n * Z.of_nat w) by nia.
      rewrite !u32_small by (unfold is_u32; lia). rewrite IH by lia.
      rewrite !movs_lookup by lia.
      repeat case_decide; try (f_equal; lia); lia.
Qed.

(** Backward, from the last element, it is right when the destination lies above. *)
Lemma rep_movs_backward w n d s m a :
  (0 < w)%nat -> 0 <= d -> d + Z.of_nat n * Z.of_nat w <= 2 ^ 32 -> 0 <= s -> s < d ->
  rep_movs true w n (u32 (d + (Z.of_nat n - 1) * Z.of_nat w))
      (u32 (s + (Z.of_nat n - 1) * Z.of_nat w)) m !!! a =
    if decide (d <= a < d + Z.of_nat n * Z.of_nat w) then m !!! (s + (a - d)) else m !!! a.
Proof.
  intros Hw Hd Hdn Hs Hlt. revert m Hdn. induction n as [|n IH]; intros m Hdn.
  - by rewrite decide_False by lia.
  - cbn [rep_movs].
    assert (Hrw : forall x, u32 (u32 (x + (Z.of_nat (S n) - 1) * Z.of_nat w) + - Z.of_nat w)
      = u32 (x + (Z.of_nat n - 1) * Z.of_nat w)).
    { intros x. unfold u32. rewrite Zplus_mod_idemp_l. f_equal. lia. }
    rewrite !Hrw. rewrite IH by lia.
    assert (0 <= Z.of_nat n * Z.of_nat w) by nia.
    rewrite !(u32_small (_ + (Z.of_nat (S n) - 1) * _)) by (unfold is_u32; lia).
    rewrite !movs_lookup by lia.
    repeat case_decide; try (f_equal; lia); lia.
Qed.

Lemma rem4 z : is_u32 z -> (Z.rem (i32 z) 4 =? 0) = (z mod 4 =? 0).
Proof.
  intros Hz. unfold i32. rewrite u32_small by done. unfold is_u32 in Hz.
  destruct (Z.ltb_spec z (2 ^ 31)).
  - by rewrite Z.rem_mod_nonneg by lia.
  - apply eq_true_iff_eq. rewrite !Z.eqb_eq, Z.rem_divide, Z.mod_divide by lia.
    split; intros [k Hk]; [exists (k + 2 ^ 30) | exists (k - 2 ^ 30)]; lia.
Qed.

(** The word memset stores holds four copies of the byte. *)
Lemma spread_byte c k : 0 <= k < 4 ->
  byte_of (let c := Z.land c 0xFF in
    Z.lor (Z.lor (Z.lor (Z.shiftl c 24) (Z.shiftl c 16)) (Z.shiftl c 8)) c) k = u8 c.
Proof.
  intros Hk. cbn zeta. change 0xFF with (Z.ones 8). rewrite Z.land_ones by lia.
  fold (u8 c). pose proof (u8_range c) as Hr. unfold is_byte in Hr. revert Hr.
  generalize (u8 c). clear c. intros c Hc.
  apply Z.eqb_eq.
  assert (H : forallb (fun k => forallb (fun c =>
     byte_of (Z.lor (Z.lor (Z.lor (Z.shiftl c 24) (Z.shiftl c 16)) (Z.shiftl c 8)) c) k =? c)
     (seqZ 0 256)) (seqZ 0 4) = true) by (vm_compute; reflexivity).
  rewrite forallb_forall in H. specialize (H k). rewrite forallb_forall in H.
  apply H; apply list_elem_of_In, elem_of_seqZ; lia.
Qed.

(** memset writes the low byte of [c] to exactly the [n] bytes from [v],
    whichever of its two paths (words or bytes) it takes. *)
Theorem memset_correct v c n m a :
  0 <= v -> 0 <= n -> v + n <= 2 ^ 32 ->
  memset v c n m !!! a = if decide (v <= a < v + n) then u8 c else m !!! a.
Proof.
  intros Hv Hn Hvn. unfold memset. destruct (Z.eqb_spec n 0) as [->|Hn0].
  { by rewrite decide_False by lia. }
  rewrite rem4 by klia. destruct (Z.eqb_spec (v mod 4) 0); cbn [andb].
  1: destruct (Z.eqb_spec (n mod 4) 0) as [Hn4|]; cbn [andb].
  - pose proof (Z.div_mod n 4 ltac:(lia)).
    rewrite rep_stos_lookup by
      (lia || (intros; rewrite !(spread_byte c) by lia; done)).
    rewrite Z2Nat.id by lia. rewrite (spread_byte c) by lia.
    by repeat case_decide; try lia.
  - rewrite rep_stos_lookup by (lia || (intros; f_equal; lia)).
    rewrite Z2Nat.id by lia. unfold byte_of. rewrite Z.mul_0_r, Z.shiftr_0_r, Z.mul_1_r.
    by repeat case_decide; try lia.
  - rewrite rep_stos_lookup by (lia || (intros; f_equal; lia)).
    rewrite Z2Nat.id by lia. unfold byte_of. rewrite Z.mul_0_r, Z.shiftr_0_r, Z.mul_1_r.
    by repeat case_decide; try lia.
Qed.

Lemma memset_correct_witness : memset 0x1000 0x1ab 8 ∅ !!! 0x1007 = 0xab.
Proof.
  rewrite memset_correct.
  - reflexivity.
  - lia.
  - lia.
  - lia.
Defined.

(** The four copies of memmove, with the choice of width factored out. *)
Lemma backward_copy (b : bool) d s n m a :
  0 <= s -> s < d -> 0 < n -> d + n <= 2 ^ 32 -> (b = true -> n mod 4 = 0) ->
  (if b then rep_movs true 4 (Z.to_nat (n / 4)) (u32 (u32 (d + n) - 4)) (u32 (u32 (s + n) - 4)) m
   else rep_movs true 1 (Z.to_nat n) (u32 (u32 (d + n) - 1)) (u32 (u32 (s + n) - 1)) m) !!! a =
  if decide (d <= a < d + n) then m !!! (s + (a - d)) else m !!! a.
Proof.
  intros Hs Hsd Hn Hdn Hb.
  assert (Hu : forall x k, u32 (u32 (x + n) - k) = u32 (x + (n - k)))
    by (intros x k; unfold u32; rewrite Zminus_mod_idemp_l; f_equal; lia).
  rewrite !Hu. destruct b.
  - pose proof (Z.div_mod n 4 ltac:(lia)). specialize (Hb eq_refl).
    replace (n - 4) with ((Z.of_nat (Z.to_nat (n / 4)) - 1) * Z.of_nat 4) by lia.
    rewrite rep_movs_backward by lia. by repeat case_decide; try lia.
  - replace (n - 1) with ((Z.of_nat (Z.to_nat n) - 1) * Z.of_nat 1) by lia.
    rewrite rep_movs_backward by lia. by repeat case_decide; try lia.
Qed.

Lemma forward_copy (b : bool) d s n m a :
  0 <= s -> 0 <= d -> 0 <= n -> d + n <= 2 ^ 32 -> s + n <= 2 ^ 32 ->
  d <= s \/ s + n <= d -> (b = true -> n mod 4 = 0) ->
  (if b then rep_movs false 4 (Z.to_nat (n / 4)) d s m
   else rep_movs false 1 (Z.to_nat n) d s m) !!! a =
  if decide (d <= a < d + n) then m !!! (s + (a - d)) else m !!! a.
Proof.
  intros Hs Hd Hn Hdn Hsn Hov Hb. destruct b.
  - pose proof (Z.div_mod n 4 ltac:(lia)). specialize (Hb eq_refl).
    rewrite rep_movs_forward by lia. by repeat case_decide; try lia.
  - rewrite rep_movs_forward by lia. by repeat case_decide; try lia.
Qed.

(** memmove is a parallel copy for source and destination ranges that do not
    run past the end of the address space, however they overlap. *)
Lemma memmove_lookup dst src n m a :
  0 <= dst -> 0 <= src -> 0 <= n -> dst + n <= 2 ^ 32 -> src + n < 2 ^ 32 ->
  memmove dst src n m !!! a =
    if decide (dst <= a < dst + n) then m !!! (src + (a - dst)) else m !!! a.
Proof.
  intros Hd Hs Hn Hdn Hsn. unfold memmove. cbn zeta.
  rewrite (u32_small (src + n)) by klia.
  destruct (Z.ltb_spec src dst), (Z.ltb_spec dst (src + n)); cbn [andb].
  - rewrite <- (u32_small (src + n)) by klia.
    apply backward_copy; try lia; by intros [_ ?%Z.eqb_eq]%andb_true_iff.
  - apply forward_copy; try lia; by intros [_ ?%Z.eqb_eq]%andb_true_iff.
  - apply forward_copy; try lia; by intros [_ ?%Z.eqb_eq]%andb_true_iff.
  - apply forward_copy; try lia; by intros [_ ?%Z.eqb_eq]%andb_true_iff.
Qed.

(** memmove copies correctly whatever the overlap: afterwards every byte of
    the destination holds what the corresponding source byte held before the
    call, and no other byte has changed. *)
Theorem memmove_correct dst src n m a :
  0 <= dst -> 0 <= src -> 0 <= n -> dst + n <= 2 ^ 32 -> src + n < 2 ^ 32 ->
  memmove dst src n m !!! a =
    if decide (dst <= a < dst + n) then m !!! (src + (a - dst)) else m !!! a.
Proof. apply memmove_lookup. Qed.

Lemma memmove_correct_witness :
  memmove 0x1002 0x1000 4 (<[0x1000 := 1]> (<[0x1001 := 2]> ∅)) !!! 0x1003 = 2.
Proof.
  rewrite memmove_correct.
  - reflexivity.
  - lia.
  - lia.
  - lia.
  - lia.
  - lia.
Defined.

(** ** Words in memory *)

Lemma bytes_of_word v : is_u32 v ->
  byte_of v 0 + 2 ^ 8 * byte_of v 1 + 2 ^ 16 * byte_of v 2 + 2 ^ 24 * byte_of v 3 = v.
Proof.
  intros Hv. unfold is_u32 in Hv. unfold byte_of, u8. rewrite !Z.shiftr_div_pow2 by lia.
  change (2 ^ (8 * 0)) with 1. change (2 ^ (8 * 1)) with 256.
  change (2 ^ (8 * 2)) with 65536. change (2 ^ (8 * 3)) with 16777216.
  rewrite Z.div_1_r. change (2 ^ 8) with 256. change (2 ^ 16) with 65536.
  change (2 ^ 24) with 16777216. change (2 ^ 32) with 4294967296 in Hv.
  Z.div_mod_to_equations. lia.
Qed.

Lemma store32_lookup p v m a : 0 <= p -> p + 4 <= 2 ^ 32 ->
  store32 p v m !!! a = if decide (p <= a < p + 4) then byte_of v (a - p) else m !!! a.
Proof. intros. unfold store32. by rewrite fill_lookup by lia. Qed.

Lemma load32_store32 p v m : 0 <= p -> p + 4 <= 2 ^ 32 -> is_u32 v ->
  load32 (store32 p v m) p = v.
Proof.
  intros Hp Hp4 Hv. unfold load32. rewrite !u32_small by klia.
  rewrite !store32_lookup, !decide_True by lia.
  rewrite Z.sub_diag. replace (p + 1 - p) with 1 by lia. replace (p + 2 - p) with 2 by lia.
  replace (p + 3 - p) with 3 by lia. by apply bytes_of_word.
Qed.

Lemma load32_ext m m' q : 0 <= q -> q + 4 <= 2 ^ 32 ->
  (forall a, q <= a < q + 4 -> m !!! a = m' !!! a) -> load32 m q = load32 m' q.
Proof.
  intros Hq Hq4 H. unfold load32. rewrite !u32_small by klia. by rewrite !H by lia.
Qed.

Lemma load32_store32_ne p q v m : 0 <= p -> p + 4 <= 2 ^ 32 -> 0 <= q -> q + 4 <= 2 ^ 32 ->
  p + 4 <= q \/ q + 4 <= p -> load32 (store32 p v m) q = load32 m q.
Proof.
  intros Hp Hp4 Hq Hq4 Hne. apply load32_ext; [done | done |]. intros a Ha.
  by rewrite store32_lookup, decide_False by lia.
Qed.

(** ** Strings *)

Lemma strncmp_from_eq p q n i :
  strncmp_from p q i n = 0 <->
  forall k, i <= k < i + Z.of_nat n -> (forall j, i <= j < k -> p j <> 0) -> p k = q k.
Proof.
  revert i. induction n as [|n IH]; intros i; cbn [strncmp_from]; [split; [lia | done]|].
  destruct (Z.eqb_spec (p i) 0) as [E|E]; cbn [negb andb].
  { split.
    - intros H k Hk Hj. destruct (decide (k = i)) as [->|]; [lia|]. destruct (Hj i); [lia | done].
    - intros H. rewrite (H i); lia. }
  destruct (Z.eqb_spec (p i) (q i)) as [Eq|Eq].
  - rewrite IH. split; intros H k Hk Hj.
    + destruct (decide (k = i)) as [->|]; [done|]. apply H; [lia|]. intros j Hj'. apply Hj. lia.
    + apply H; [lia|]. intros j Hj'. destruct (decide (j = i)) as [->|]; [done|]. apply Hj. lia.
  - split; [lia|]. intros H. destruct Eq. apply H; lia.
Qed.

(** strncmp returns 0 exactly for strings that agree on every byte up to
    the first NUL, within the first [n] bytes. *)
Theorem strncmp_correct p q n :
  0 <= n ->
  strncmp p q n = 0 <->
  forall k, 0 <= k < n -> (forall j, 0 <= j < k -> p j <> 0) -> p k = q k.
Proof.
  intros Hn. unfold strncmp. rewrite strncmp_from_eq.
  by replace (0 + Z.of_nat (Z.to_nat n)) with n by lia.
Qed.

Lemma strncmp_correct_witness :
  strncmp (fun i => if i <? 2 then 65 else 0) (fun i => if i <? 2 then 65 else i - 2) 14 = 0.
Proof.
  apply strncmp_correct; [lia|]. intros k Hk Hj.
  destruct (decide (k < 2)) as [Hlt|Hge]; [by bool_simp|].
  destruct (decide (k = 2)) as [->|]; [reflexivity|]. destruct (Hj 2); [lia | reflexivity].
Defined.

(** The byte strncpy leaves at offset [k]: [t[k]] as long as no NUL came before. *)
Definition cstr_byte (t : Z -> Z) (i k : Z) : Z :=
  if existsb (fun j => t j =? 0) (seqZ i (k - i)) then 0 else t k.

Lemma strncpy_pad_lookup s n m a :
  0 <= s -> s + Z.of_nat n <= 2 ^ 32 ->
  strncpy_pad s n m !!! a = if decide (s <= a < s + Z.of_nat n) then 0 else m !!! a.
Proof.
  revert s m. induction n as [|n IH]; intros s m Hs Hn; cbn [strncpy_pad].
  { by rewrite decide_False by lia. }
  destruct (decide (n = 0%nat)) as [->|Hn0]; cbn [strncpy_pad]; [|rewrite u32_small, IH by klia].
  - destruct (decide (a = s)) as [->|]; [by rewrite lookup_total_insert_eq, decide_True by lia|].
    by rewrite lookup_total_insert_ne, decide_False by lia.
  - destruct (decide (a = s)) as [->|];
      [by rewrite decide_False, decide_True, lookup_total_insert_eq by lia|].
    rewrite lookup_total_insert_ne by done. repeat case_decide; done || lia.
Qed.

Lemma strncpy_from_lookup s t i n m a :
  0 <= s -> s + Z.of_nat n <= 2 ^ 32 ->
  strncpy_from s t i n m !!! a =
    if decide (s <= a < s + Z.of_nat n) then cstr_byte t i (i + (a - s)) else m !!! a.
Proof.
  revert s i m. induction n as [|n IH]; intros s i m Hs Hn; cbn [strncpy_from].
  { by rewrite decide_False by lia. }
  assert (Hself : cstr_byte t i (i + (s - s)) = t i).
  { unfold cstr_byte. rewrite Z.sub_diag, Z.add_0_r, Z.sub_diag. done. }
  assert (Hstep : forall k, i < k -> cstr_byte t i k = if t i =? 0 then 0 else cstr_byte t (i + 1) k).
  { intros k Hk. unfold cstr_byte. rewrite (seqZ_cons i) by lia. cbn [existsb].
    replace (Z.pred (k - i)) with (k - (i + 1)) by lia. by destruct (t i =? 0). }
  destruct (decide (n = 0%nat)) as [->|Hn0].
  - replace (if negb (t i =? 0) then _ else _) with (<[s := t i]> m) by (by destruct (t i =? 0)).
    destruct (decide (a = s)) as [->|];
      [by rewrite lookup_total_insert_eq, decide_True, Hself by lia|].
    by rewrite lookup_total_insert_ne, decide_False by lia.
  - rewrite u32_small by klia. destruct (decide (a = s)) as [->|Hne].
    + rewrite decide_True, Hself by lia.
      destruct (t i =? 0); cbn [negb]; rewrite ?strncpy_pad_lookup, ?IH, decide_False by lia;
        by rewrite lookup_total_insert_eq.
    + destruct (Z.eqb_spec (t i) 0) as [E|E]; cbn [negb];
        rewrite ?strncpy_pad_lookup, ?IH by lia; rewrite lookup_total_insert_ne by done;
        repeat case_decide; try lia; try done; rewrite Hstep by lia;
        [done | f_equal; lia].
Qed.

(** strncpy fills exactly the [n] bytes at [s]: the string up to its NUL,
    then zeroes; without a NUL in the first [n] bytes the copy is not
    terminated. *)
Theorem strncpy_correct s t n m a :
  0 <= s -> 0 <= n -> s + n <= 2 ^ 32 ->
  strncpy s t n m !!! a =
    if decide (s <= a < s + n) then cstr_byte t 0 (a - s) else m !!! a.
Proof.
  intros Hs Hn Hsn. unfold strncpy. rewrite strncpy_from_lookup by lia.
  by rewrite Z2Nat.id, Z.add_0_l by lia.
Qed.

Lemma strncpy_correct_witness :
  strncpy 0x100 (fun i => if i =? 1 then 0 else 66) 4 (<[0x103 := 7]> ∅) !!! 0x103 = 0.
Proof.
  rewrite strncpy_correct.
  - reflexivity.
  - lia.
  - lia.
  - lia.
Defined.

Lemma strnlen_from_spec s i n :
  i <= strnlen_from s i n <= i + Z.of_nat n /\
  (forall j, i <= j < strnlen_from s i n -> s j <> 0) /\
  (strnlen_from s i n < i + Z.of_nat n -> s (strnlen_from s i n) = 0).
Proof.
  revert i. induction n as [|n IH]; intros i; cbn [strnlen_from]; [split_and!; lia|].
  destruct (Z.eqb_spec (s i) 0) as [E|E]; [split_and!; lia || done|].
  destruct (IH (i + 1)) as (H1 & H2 & H3). split_and!; [lia.. | |].
  - intros j Hj. destruct (decide (j = i)) as [->|]; [done|]. apply H2. lia.
  - intros H. apply H3. lia.
Qed.
