(* ===== verification/Bytes.v ===== *)
(** * Byte sequences

    The contents of a disk block or of an on-disk structure is a list of
    bytes.  [sub] reads a field, [blit] is a [memmove] into the sequence, and
    the integers of the structures are stored little-endian. *)

From S2P Require Import Prelude.

(** The [n] bytes from offset [off]. *)
Definition sub (off n : Z) (l : list Z) : list Z :=
  take (Z.to_nat n) (drop (Z.to_nat off) l).

(** [memmove(l + off, src, length src)]. *)
Definition blit (off : Z) (src l : list Z) : list Z :=
  take (Z.to_nat off) l ++ src ++ drop (Z.to_nat off + length src) l.

Fixpoint le_enc (n : nat) (v : Z) : list Z :=
  match n with
  | O => []
  | S n' => v mod 2 ^ 8 :: le_enc n' (v / 2 ^ 8)
  end.

Fixpoint le_dec (l : list Z) : Z :=
  match l with
  | [] => 0
  | b :: l' => b + 2 ^ 8 * le_dec l'
  end.

Definition get16 (l : list Z) (off : Z) : Z := le_dec (sub off 2 l).
Definition get32 (l : list Z) (off : Z) : Z := le_dec (sub off 4 l).
Definition set16 (off v : Z) (l : list Z) : list Z := blit off (le_enc 2 v) l.
Definition set32 (off v : Z) (l : list Z) : list Z := blit off (le_enc 4 v) l.

(** The bytes of a string constant, without the null byte. *)
Fixpoint text (s : string) : list Z :=
  match s with EmptyString => [] | String a s => Z.of_nat (Ascii.nat_of_ascii a) :: text s end.

Definition zlen {A} (l : list A) : Z := Z.of_nat (length l).

(** ** Fields *)

Lemma le_enc_length n v : length (le_enc n v) = n.
Proof. revert v. induction n as [|n IH]; intros v; cbn; [done|]. by rewrite IH. Qed.

Lemma le_dec_enc n v : le_dec (le_enc n v) = v mod 2 ^ (8 * Z.of_nat n).
Proof.
  revert v. induction n as [|n IH]; intros v.
  - cbn. by rewrite Z.mod_1_r.
  - cbn [le_enc le_dec]. rewrite IH.
    replace (8 * Z.of_nat (S n)) with (8 + 8 * Z.of_nat n) by lia.
    rewrite Z.pow_add_r by lia. rewrite Z.rem_mul_r by lia. lia.
Qed.

Lemma le_enc_bytes n v : Forall is_byte (le_enc n v).
Proof.
  revert v. induction n as [|n IH]; intros v; cbn [le_enc]; constructor; [|by apply IH].
  apply Z.mod_pos_bound. lia.
Qed.

Lemma le_dec_range l : Forall is_byte l -> 0 <= le_dec l < 2 ^ (8 * Z.of_nat (length l)).
Proof.
  induction 1 as [|b l Hb Hl IH]; [cbn; lia|]. cbn [le_dec length].
  replace (8 * Z.of_nat (S (length l))) with (8 + 8 * Z.of_nat (length l)) by lia.
  rewrite Z.pow_add_r by lia. klia.
Qed.

Lemma le_enc_dec l : Forall is_byte l -> le_enc (length l) (le_dec l) = l.
Proof.
  induction 1 as [|b l Hb Hl IH]; [done|]. cbn [length le_enc le_dec].
  replace ((b + 2 ^ 8 * le_dec l) mod 2 ^ 8) with b.
  2: { rewrite (Z.mul_comm (2 ^ 8)), Z.mod_add, Z.mod_small by klia. done. }
  f_equal. rewrite (Z.mul_comm (2 ^ 8)), Z.div_add, Z.div_small, Z.add_0_l by klia. done.
Qed.

Lemma sub_length off n l : 0 <= off -> 0 <= n -> off + n <= zlen l -> zlen (sub off n l) = n.
Proof. unfold sub, zlen. rewrite length_take, length_drop. lia. Qed.

Lemma sub_0 l : sub 0 (zlen l) l = l.
Proof. unfold sub, zlen. rewrite drop_0, Nat2Z.id. by apply firstn_all. Qed.

Lemma blit_length off src l :
  0 <= off -> off + zlen src <= zlen l -> zlen (blit off src l) = zlen l.
Proof. unfold blit, zlen. rewrite !length_app, length_take, length_drop. lia. Qed.

Lemma sub_lookup off n l i : 0 <= off -> 0 <= i < n ->
  sub off n l !! Z.to_nat i = l !! Z.to_nat (off + i).
Proof.
  intros. unfold sub. rewrite lookup_take_lt by lia.
  rewrite lookup_drop. f_equal. lia.
Qed.

Lemma blit_lookup off src l i : 0 <= off -> off + zlen src <= zlen l -> 0 <= i ->
  blit off src l !! Z.to_nat i =
  if decide (off <= i < off + zlen src) then src !! Z.to_nat (i - off) else l !! Z.to_nat i.
Proof.
  unfold blit, zlen. intros Hoff Hlen Hi. case_decide.
  - rewrite lookup_app_r by (rewrite length_take; lia).
    rewrite length_take, lookup_app_l by lia. f_equal. lia.
  - destruct (decide (i < off)).
    + rewrite lookup_app_l by (rewrite length_take; lia). by rewrite lookup_take_lt by lia.
    + rewrite lookup_app_r by (rewrite length_take; lia).
      rewrite length_take, lookup_app_r, lookup_drop by lia. f_equal. lia.
Qed.

(** Sequences are equal when they agree at every index. *)
Lemma list_eq_Z {A} (l l' : list A) :
  (forall i, 0 <= i -> l !! Z.to_nat i = l' !! Z.to_nat i) -> l = l'.
Proof.
  intros H. apply list_eq. intros i. specialize (H (Z.of_nat i)).
  rewrite Nat2Z.id in H. apply H. lia.
Qed.

Lemma lookup_zlen_ge {A} (l : list A) i : zlen l <= i -> l !! Z.to_nat i = None.
Proof. unfold zlen. intros H. apply lookup_ge_None_2. lia. Qed.

Lemma sub_blit off src l :
  0 <= off -> off + zlen src <= zlen l -> sub off (zlen src) (blit off src l) = src.
Proof.
  intros Hoff Hlen. apply list_eq_Z. intros i Hi.
  destruct (decide (i < zlen src)).
  - rewrite sub_lookup, blit_lookup by lia. rewrite decide_True by lia. f_equal. lia.
  - rewrite !lookup_zlen_ge; [done | lia |].
    rewrite sub_length; [lia | lia | unfold zlen; lia | by rewrite blit_length].
Qed.

Lemma sub_blit_n off n src l :
  0 <= off -> zlen src = n -> off + n <= zlen l -> sub off n (blit off src l) = src.
Proof. intros Hoff <-. by apply sub_blit. Qed.

Lemma zlen_le_enc n v : zlen (le_enc n v) = Z.of_nat n.
Proof. unfold zlen. by rewrite le_enc_length. Qed.

(** Overwriting the whole sequence. *)
Lemma blit_all src l : zlen src = zlen l -> blit 0 src l = src.
Proof.
  unfold blit, zlen. intros H. rewrite take_0, drop_ge by lia. by rewrite app_nil_r.
Qed.

Lemma sub_blit_ne off src l o n :
  0 <= off -> off + zlen src <= zlen l -> 0 <= o -> 0 <= n ->
  o + n <= off \/ off + zlen src <= o ->
  sub o n (blit off src l) = sub o n l.
Proof.
  intros Hoff Hlen Ho Hn Hne. apply list_eq_Z. intros i Hi.
  destruct (decide (i < n)).
  - rewrite !sub_lookup, blit_lookup by lia. by rewrite decide_False by lia.
  - unfold sub. rewrite !lookup_take_ge by lia. done.
Qed.

Lemma get32_set32 off v l : 0 <= off -> off + 4 <= zlen l -> is_u32 v ->
  get32 (set32 off v l) off = v.
Proof.
  intros Hoff Hl Hv. unfold get32, set32.
  rewrite (sub_blit_n off 4) by (apply zlen_le_enc || done). rewrite le_dec_enc. by apply u32_small.
Qed.

Lemma get32_set32_ne off v l o : 0 <= off -> off + 4 <= zlen l -> 0 <= o ->
  o + 4 <= off \/ off + 4 <= o -> get32 (set32 off v l) o = get32 l o.
Proof.
  intros. unfold get32, set32. rewrite sub_blit_ne; [done | lia | | lia | lia |];
    rewrite zlen_le_enc; lia.
Qed.

Lemma set32_length off v l : 0 <= off -> off + 4 <= zlen l -> zlen (set32 off v l) = zlen l.
Proof.
  intros. unfold set32. apply blit_length; [done|]. by rewrite zlen_le_enc.
Qed.

Lemma get16_set16 off v l : 0 <= off -> off + 2 <= zlen l -> 0 <= v < 2 ^ 16 ->
  get16 (set16 off v l) off = v.
Proof.
  intros Hoff Hl Hv. unfold get16, set16.
  rewrite (sub_blit_n off 2) by (apply zlen_le_enc || done). rewrite le_dec_enc. by apply Z.mod_small.
Qed.

Lemma set16_length off v l : 0 <= off -> off + 2 <= zlen l -> zlen (set16 off v l) = zlen l.
Proof.
  intros. unfold set16. apply blit_length; [done|]. by rewrite zlen_le_enc.
Qed.

Lemma Forall_sub P off n l : Forall P l -> Forall P (sub off n l).
Proof. intros H. by apply Forall_take, Forall_drop. Qed.

Lemma Forall_blit P off src l : Forall P src -> Forall P l -> Forall P (blit off src l).
Proof.
  intros Hs Hl. apply Forall_app_2; [by apply Forall_take|].
  apply Forall_app_2; [done | by apply Forall_drop].
Qed.

Lemma get32_range l off : Forall is_byte l -> is_u32 (get32 l off).
Proof.
  intros H. unfold get32. pose proof (le_dec_range _ (Forall_sub _ off 4 l H)) as Hr.
  assert (8 * Z.of_nat (length (sub off 4 l)) <= 32).
  { unfold sub. rewrite length_take. lia. }
  pose proof (Z.pow_le_mono_r 2 _ 32 ltac:(lia) H0). klia.
Qed.
