(* ===== verification/VMM.v ===== *)
(** * Virtual memory (kern/vmm: MPTIntro, MPTOp, MPTComm, MPTKern, MPTNew, MPTInit)

    Page directories are the static array [PDirPool]; second-level page tables
    are pages of physical memory, so a page table entry is read and written
    through memory at the address the directory entry holds.  [IDPTbl] is the
    statically allocated identity table; it lies in kernel memory at the
    link-time address [IDPTbl_base].  The kernel runs on page structure 0, the
    identity map, so a physical address is a pointer. *)

From S2P Require Import Prelude Types Spinlock Mboot MAT Container Memory.

(** ** The interface to the containers (import.h of the vmm layers) *)

Class Containers (C : Type) : Type := {
  container_alloc : kstack -> Z -> K C Z;
  container_free : kstack -> Z -> Z -> K C unit;
  container_split : Z -> Z -> K C Z
}.

(** What page tables need of them: an allocated page was not in use, lies in
    user memory and stays in use until it is freed. *)
Class ContainersSpec (C : Type) `{Containers C} : Type := {
  ct_inv : C -> Prop;
  ct_used : C -> Z -> bool;
  ct_used_range c i : ct_inv c -> ct_used c i = true -> 0x40000 <= i < 0xf0000;
  ct_alloc ks id c : ct_inv c -> magic ks = KSTACK_MAGIC -> 0 <= id < NUM_IDS ->
    exists i c', container_alloc ks id c = Ok i c' /\ ct_inv c' /\
      (i <> 0 -> ct_used c i = false) /\
      (forall j, ct_used c' j = if decide (i <> 0 /\ j = i) then true else ct_used c j);
  ct_free ks id i c : ct_inv c -> magic ks = KSTACK_MAGIC -> 0 <= id < NUM_IDS ->
    0 <= i < 2 ^ 20 ->
    exists c', container_free ks id i c = Ok tt c' /\ ct_inv c' /\
      (forall j, ct_used c' j = if decide (j = i) then false else ct_used c j)
}.

Definition PT_PERM_UP : Z := 0.
Definition PT_PERM_PTU : Z := Z.lor (Z.lor PTE_P PTE_W) PTE_U.
#[export] Hint Unfold PTE_P PTE_W PTE_U PTE_G PT_PERM_UP : kconst.

(** The bits enable_paging (dev/mboot.c) sets and clears: PE, PG, AM, WP, NE
    and MP; EM and TS; and CR4's PGE. *)
Definition CR0_SET : Z :=
  Z.lor 0x1 (Z.lor 0x80000000 (Z.lor 0x40000 (Z.lor 0x10000 (Z.lor 0x20 0x2)))).
Definition CR0_CLEAR : Z := Z.lor 0x4 0x8.
Definition CR4_PGE : Z := 0x80.

(** ** MPTIntro *)
Module MPT.

Record state (C : Type) : Type := State {
  ct : C;
  pt_lk : spinlock_t;
  PDirPool : gmap (Z * Z) Z;
  pmem : mem;
  cr0 : Z;
  cr3 : Z;              (* the process whose directory CR3 points to *)
  cr4 : Z
}.
Arguments State {C} ct pt_lk PDirPool pmem cr0 cr3 cr4.
Arguments ct {C} s.
Arguments pt_lk {C} s.
Arguments PDirPool {C} s.
Arguments pmem {C} s.
Arguments cr0 {C} s.
Arguments cr3 {C} s.
Arguments cr4 {C} s.

Section ops.
Context {C : Type} `{!Containers C}.
Context (IDPTbl_base : Z).

Definition set_ct v (s : state C) : state C := State v (pt_lk s) (PDirPool s) (pmem s) (cr0 s) (cr3 s) (cr4 s).
Definition set_pt_lk v (s : state C) := State (ct s) v (PDirPool s) (pmem s) (cr0 s) (cr3 s) (cr4 s).
Definition set_PDirPool v (s : state C) := State (ct s) (pt_lk s) v (pmem s) (cr0 s) (cr3 s) (cr4 s).
Definition set_pmem v (s : state C) := State (ct s) (pt_lk s) (PDirPool s) v (cr0 s) (cr3 s) (cr4 s).

Definition ct_lens : lens (state C) C := Lens ct set_ct.
Definition lk_lens : lens (state C) spinlock_t := Lens pt_lk set_pt_lk.

#[export] Instance ct_lens_laws : LensLaws ct_lens.
Proof. split; [done | by intros [] | done]. Qed.

Definition pt_spinlock_init : K (state C) unit := zoom lk_lens spinlock_init.
Definition pt_spinlock_acquire (ks : kstack) : K (state C) unit :=
  zoom lk_lens (spinlock_acquire ks).
Definition pt_spinlock_release : K (state C) unit := zoom lk_lens spinlock_release.

Definition set_pdir_base (index : Z) : K (state C) unit :=
  bounds NUM_IDS index ;;
  modify (fun s => State (ct s) (pt_lk s) (PDirPool s) (pmem s) (cr0 s) index (cr4 s)).

Definition enable_paging : K (state C) unit :=
  modify (fun s => State (ct s) (pt_lk s) (PDirPool s) (pmem s) (cr0 s) (cr3 s)
    (Z.lor (cr4 s) CR4_PGE)) ;;
  modify (fun s => State (ct s) (pt_lk s) (PDirPool s) (pmem s)
    (Z.land (Z.lor (cr0 s) CR0_SET) (Z.lnot CR0_CLEAR)) (cr3 s) (cr4 s)).

Definition get_pdir_entry (proc_index pde_index : Z) : K (state C) Z :=
  bounds NUM_IDS proc_index ;; bounds 1024 pde_index ;;
  gets (fun s => PDirPool s !!! (proc_index, pde_index)).

Definition put_pdir_entry (proc_index pde_index v : Z) : K (state C) unit :=
  bounds NUM_IDS proc_index ;; bounds 1024 pde_index ;;
  modify (fun s => set_PDirPool (<[(proc_index, pde_index) := v]> (PDirPool s)) s).

Definition set_pdir_entry (proc_index pde_index page_index : Z) : K (state C) unit :=
  put_pdir_entry proc_index pde_index (u32 (u32 (page_index * PAGESIZE) + PT_PERM_PTU)).

(** The address of [IDPTbl[i][j]]. *)
Definition idptbl_addr (i j : Z) : Z := IDPTbl_base + i * 4096 + j * 4.

Definition set_pdir_entry_identity (proc_index pde_index : Z) : K (state C) unit :=
  put_pdir_entry proc_index pde_index (u32 (idptbl_addr pde_index 0 + PT_PERM_PTU)).

Definition rmv_pdir_entry (proc_index pde_index : Z) : K (state C) unit :=
  put_pdir_entry proc_index pde_index PT_PERM_UP.

(** [addr] of the three functions that follow. *)
Definition ptbl_addr (proc_index pde_index pte_index : Z) : K (state C) Z :=
  pde ← get_pdir_entry proc_index pde_index;
  mret (u32 (Z.land pde 0xfffff000 + u32 (pte_index * 4))).

Definition get_ptbl_entry (proc_index pde_index pte_index : Z) : K (state C) Z :=
  addr ← ptbl_addr proc_index pde_index pte_index;
  gets (fun s => load32 (pmem s) addr).

Definition set_ptbl_entry (proc_index pde_index pte_index page_index perm : Z)
    : K (state C) unit :=
  addr ← ptbl_addr proc_index pde_index pte_index;
  modify (fun s => set_pmem (store32 addr (u32 (u32 (page_index * PAGESIZE) + perm)) (pmem s)) s).

Definition set_ptbl_entry_identity (pde_index pte_index perm : Z) : K (state C) unit :=
  bounds 1024 pde_index ;; bounds 1024 pte_index ;;
  modify (fun s => set_pmem
    (store32 (idptbl_addr pde_index pte_index)
       (u32 (u32 (u32 (u32 (pde_index * 1024) + pte_index) * PAGESIZE) + perm)) (pmem s)) s).

Definition rmv_ptbl_entry (proc_index pde_index pte_index : Z) : K (state C) unit :=
  addr ← ptbl_addr proc_index pde_index pte_index;
  modify (fun s => set_pmem (store32 addr 0 (pmem s)) s).

(** ** MPTOp *)

Definition pde_index (vaddr : Z) : Z := vaddr / (4096 * 1024).
Definition pte_index (vaddr : Z) : Z := vaddr / 4096 mod 1024.

Definition get_ptbl_entry_by_va (proc_index vaddr : Z) : K (state C) Z :=
  pde ← get_pdir_entry proc_index (pde_index vaddr);
  if pde =? 0 then mret 0
  else get_ptbl_entry proc_index (pde_index vaddr) (pte_index vaddr).

Definition get_pdir_entry_by_va (proc_index vaddr : Z) : K (state C) Z :=
  get_pdir_entry proc_index (pde_index vaddr).

Definition rmv_ptbl_entry_by_va (proc_index vaddr : Z) : K (state C) unit :=
  rmv_ptbl_entry proc_index (pde_index vaddr) (pte_index vaddr).

Definition rmv_pdir_entry_by_va (proc_index vaddr : Z) : K (state C) unit :=
  rmv_pdir_entry proc_index (pde_index vaddr).

Definition set_ptbl_entry_by_va (proc_index vaddr page_index perm : Z) : K (state C) unit :=
  set_ptbl_entry proc_index (pde_index vaddr) (pte_index vaddr) page_index perm.

Definition set_pdir_entry_by_va (proc_index vaddr page_index : Z) : K (state C) unit :=
  set_pdir_entry proc_index (pde_index vaddr) page_index.

(** The permission idptbl_init gives the entries of directory slot [i]. *)
Definition id_perm (i : Z) : Z :=
  if (i <? 256) || (960 <=? i) then Z.lor (Z.lor PTE_P PTE_W) PTE_G else Z.lor PTE_P PTE_W.

(** [cinit] is [container_init mbi_adr]. *)
Definition idptbl_init (cinit : K C unit) : K (state C) unit :=
  zoom ct_lens cinit ;;
  for_ 0 1024 (fun i => for_ 0 1024 (fun j => set_ptbl_entry_identity i j (id_perm i))).

(** ** MPTComm *)

Definition pdir_init (cinit : K C unit) : K (state C) unit :=
  idptbl_init cinit ;;
  for_ 0 NUM_IDS (fun i => for_ 0 1024 (fun j =>
    if (j <? 256) || (960 <=? j) then set_pdir_entry_identity i j
    else rmv_pdir_entry i j)).

Definition alloc_ptbl (ks : kstack) (proc_index vadr : Z) : K (state C) Z :=
  pi ← zoom ct_lens (container_alloc ks proc_index);
  when (negb (pi =? 0))
    (set_pdir_entry_by_va proc_index vadr pi ;;
     for_ 0 1024 (fun i => rmv_ptbl_entry proc_index (pde_index vadr) i)) ;;
  mret pi.

Definition free_ptbl (ks : kstack) (proc_index vadr : Z) : K (state C) unit :=
  pde ← get_pdir_entry_by_va proc_index vadr;
  rmv_pdir_entry_by_va proc_index vadr ;;
  zoom ct_lens (container_free ks proc_index (pde / PAGESIZE)).

(** ** MPTKern *)

Definition pdir_init_kern (cinit : K C unit) : K (state C) unit :=
  pdir_init cinit ;;
  for_ 256 960 (fun i => set_pdir_entry_identity 0 i).

Definition map_page (ks : kstack) (proc_index vadr page_index perm : Z) : K (state C) Z :=
  pdir_entry ← get_pdir_entry_by_va proc_index vadr;
  result ← (if negb (pdir_entry =? 0) then mret 0
            else
              result ← alloc_ptbl ks proc_index vadr;
              mret (if result =? 0 then MagicNumber else result));
  when (negb (result =? MagicNumber))
    (set_ptbl_entry_by_va proc_index vadr page_index perm) ;;
  mret result.

Definition unmap_page (proc_index vadr : Z) : K (state C) Z :=
  ptbl_entry ← get_ptbl_entry_by_va proc_index vadr;
  when (negb (ptbl_entry =? 0)) (rmv_ptbl_entry_by_va proc_index vadr) ;;
  mret ptbl_entry.

(** ** MPTNew *)

Definition alloc_page (ks : kstack) (proc_index vaddr perm : Z) : K (state C) Z :=
  pt_spinlock_acquire ks ;;
  pi ← zoom ct_lens (container_alloc ks proc_index);
  result ← (if pi =? 0 then mret MagicNumber
            else map_page ks proc_index vaddr pi perm);
  pt_spinlock_release ;;
  mret result.

Definition alloc_mem_quota (id quota : Z) : K (state C) Z :=
  zoom ct_lens (container_split id quota).

(** ** MPTInit *)

Definition paging_init (ks : kstack) (cinit : K C unit) : K (state C) unit :=
  pt_spinlock_init ;;
  pdir_init_kern cinit ;;
  pt_spinlock_acquire ks ;;
  set_pdir_base 0 ;;
  enable_paging ;;
  pt_spinlock_release.

Definition paging_init_ap (ks : kstack) : K (state C) unit :=
  pt_spinlock_acquire ks ;;
  set_pdir_base 0 ;;
  enable_paging ;;
  pt_spinlock_release.

(** ** What a page structure means

    [lookup_va s p va] is the entry the structure of process [p] holds for the
    page of [va] (0 if there is none): the abstract state of the component. *)

Definition pde (s : state C) (p d : Z) : Z := PDirPool s !!! (p, d).

Definition entry_addr (s : state C) (p d j : Z) : Z :=
  u32 (Z.land (pde s p d) 0xfffff000 + u32 (j * 4)).

Definition lookup_va (s : state C) (p va : Z) : Z :=
  if pde s p (pde_index va) =? 0 then 0
  else load32 (pmem s) (entry_addr s p (pde_index va) (pte_index va)).

(** *** Runs *)

Lemma pde_index_range va : is_u32 va -> 0 <= pde_index va < 1024.
Proof.
  intros [? ?]. unfold pde_index.
  split; [apply Z.div_pos; lia | apply Z.div_lt_upper_bound; lia].
Qed.

Lemma pte_index_range va : 0 <= pte_index va < 1024.
Proof. apply Z.mod_pos_bound. lia. Qed.

(** Two addresses lie in one page exactly if both indices agree. *)
Lemma same_page va va' :
  va / 4096 = va' / 4096 <-> pde_index va = pde_index va' /\ pte_index va = pte_index va'.
Proof.
  unfold pde_index, pte_index. rewrite <- !Z.div_div by lia. split; [by intros ->|].
  intros [H1 H2].
  rewrite (Z.div_mod (va / 4096) 1024), (Z.div_mod (va' / 4096) 1024), H1, H2 by lia. done.
Qed.

Lemma get_pdir_entry_run p d s :
  0 <= p < NUM_IDS -> 0 <= d < 1024 -> get_pdir_entry p d s = Ok (pde s p d) s.
Proof. intros Hp Hd. unfold get_pdir_entry. do 2 krun (by apply bounds_Ok). done. Qed.

Lemma put_pdir_entry_run p d v s :
  0 <= p < NUM_IDS -> 0 <= d < 1024 ->
  put_pdir_entry p d v s = Ok tt (set_PDirPool (<[(p, d) := v]> (PDirPool s)) s).
Proof. intros Hp Hd. unfold put_pdir_entry. do 2 krun (by apply bounds_Ok). done. Qed.

Lemma ptbl_addr_run p d j s :
  0 <= p < NUM_IDS -> 0 <= d < 1024 -> ptbl_addr p d j s = Ok (entry_addr s p d j) s.
Proof. intros Hp Hd. unfold ptbl_addr. by krun (by apply get_pdir_entry_run). Qed.

Lemma get_ptbl_entry_by_va_run p va s :
  0 <= p < NUM_IDS -> is_u32 va -> get_ptbl_entry_by_va p va s = Ok (lookup_va s p va) s.
Proof.
  intros Hp Hva%pde_index_range. unfold get_ptbl_entry_by_va, lookup_va.
  krun (by apply get_pdir_entry_run). case_bool; [done|].
  unfold get_ptbl_entry. by krun (by apply ptbl_addr_run).
Qed.

(** What writing the entry [v] for [(p, d, j)] does to the state. *)
Definition write_entry (s : state C) (p d j v : Z) : state C :=
  set_pmem (store32 (entry_addr s p d j) v (pmem s)) s.

Lemma set_ptbl_entry_by_va_run p va page perm s :
  0 <= p < NUM_IDS -> is_u32 va ->
  set_ptbl_entry_by_va p va page perm s =
    Ok tt (write_entry s p (pde_index va) (pte_index va) (u32 (u32 (page * PAGESIZE) + perm))).
Proof.
  intros Hp Hva%pde_index_range. unfold set_ptbl_entry_by_va, set_ptbl_entry.
  by krun (by apply ptbl_addr_run).
Qed.

Lemma rmv_ptbl_entry_run p d j s :
  0 <= p < NUM_IDS -> 0 <= d < 1024 -> rmv_ptbl_entry p d j s = Ok tt (write_entry s p d j 0).
Proof. intros Hp Hd. unfold rmv_ptbl_entry. by krun (by apply ptbl_addr_run). Qed.

Lemma land_page q r : 0 <= r < 4096 -> is_u32 (q * 4096 + r) ->
  Z.land (q * 4096 + r) 0xfffff000 = q * 4096.
Proof.
  intros Hr He. change 0xfffff000 with (Z.land (Z.ones 32) (Z.lnot (Z.ones 12))).
  rewrite Z.land_assoc, Z.land_ones by lia.
  change ((q * 4096 + r) mod 2 ^ 32) with (u32 (q * 4096 + r)). rewrite u32_small by done.
  rewrite <- Z.ldiff_land, Z.ldiff_ones_r, Z.shiftl_mul_pow2, Z.shiftr_div_pow2 by lia.
  change (2 ^ 12) with 4096. rewrite Z.div_add_l, Z.div_small by lia. lia.
Qed.

(** ** The invariant *)

Context `{!ContainersSpec C}.

(** Where the linker put IDPTbl: page aligned, in kernel memory. *)
Definition base_ok : Prop :=
  0 <= IDPTbl_base /\ IDPTbl_base mod 4096 = 0 /\ IDPTbl_base + 2 ^ 22 <= 0x40000000.

Definition kern_slot (d : Z) : Prop := 0 <= d < 256 \/ 960 <= d < 1024.
Definition id_entry (d : Z) : Z := IDPTbl_base + d * 4096 + 7.

(** The directory entry [(p, d)] refers to the page table in page [pi]. *)
Definition has_table (s : state C) (p d pi : Z) : Prop :=
  pde s p d = pi * 4096 + 7 /\ ct_used (ct s) pi = true.

Record mpt_inv (s : state C) : Prop := {
  mi_ct : ct_inv (ct s);
  mi_kern : forall p d, 0 <= p < NUM_IDS -> kern_slot d -> pde s p d = id_entry d;
  mi_user : forall p d, 0 < p < NUM_IDS -> 256 <= d < 960 ->
    pde s p d = 0 \/ exists pi, has_table s p d pi;
  mi_proc0 : forall d, 256 <= d < 960 -> pde s 0 d = id_entry d;
  mi_inj : forall p d p' d' pi, 0 <= p < NUM_IDS -> 0 <= d < 1024 ->
    0 <= p' < NUM_IDS -> 0 <= d' < 1024 ->
    has_table s p d pi -> has_table s p' d' pi -> p = p' /\ d = d';
  mi_id : forall i j, 0 <= i < 1024 -> 0 <= j < 1024 ->
    load32 (pmem s) (idptbl_addr i j) = (i * 1024 + j) * 4096 + id_perm i
}.

Context (Hbase : base_ok).

Lemma id_perm_range i : 0 <= id_perm i < 4096.
Proof. unfold id_perm. destruct (_ || _); by split; vm_compute. Qed.

(** Every directory entry of the invariant: empty, identity, or a table page. *)
Lemma pde_cases s p d : mpt_inv s -> 0 <= p < NUM_IDS -> 0 <= d < 1024 ->
  (pde s p d = 0 /\ 0 < p /\ 256 <= d < 960) \/ pde s p d = id_entry d \/
  (exists pi, has_table s p d pi /\ 0x40000 <= pi < 0xf0000).
Proof.
  intros [Hct Hk Hu H0 _ _] Hp Hd. destruct (decide (256 <= d < 960)) as [Hud|Hud].
  - destruct (decide (p = 0)) as [->|Hp0]; [auto|].
    destruct (Hu p d) as [?|(pi & Ht)]; [lia | lia | left; split; [done|lia] |].
    right; right. exists pi. split; [done|]. apply (ct_used_range (ct s)); [done | apply Ht].
  - right; left. apply Hk; [done|]. unfold kern_slot. lia.
Qed.

Lemma entry_addr_table s p d j pi :
  has_table s p d pi -> 0x40000 <= pi < 0xf0000 -> 0 <= j < 1024 ->
  entry_addr s p d j = pi * 4096 + j * 4.
Proof.
  intros [He _] Hpi Hj. unfold entry_addr. rewrite He, land_page by klia.
  by rewrite (u32_small (j * 4)), u32_small by klia.
Qed.

Lemma entry_addr_id s p d j :
  pde s p d = id_entry d -> 0 <= d < 1024 -> 0 <= j < 1024 ->
  entry_addr s p d j = idptbl_addr d j.
Proof.
  destruct Hbase as (H0 & Hm & H1). intros He Hd Hj. unfold entry_addr. rewrite He. unfold id_entry.
  pose proof (Z.div_mod IDPTbl_base 4096 ltac:(lia)) as Hdiv.
  replace (IDPTbl_base + d * 4096 + 7) with ((IDPTbl_base / 4096 + d) * 4096 + 7) by lia.
  rewrite land_page by klia. rewrite (u32_small (j * 4)), u32_small by klia. unfold idptbl_addr. lia.
Qed.

(** Addresses in the page of a table never meet IDPTbl. *)
Lemma idptbl_addr_range i j : 0 <= i < 1024 -> 0 <= j < 1024 ->
  0 <= idptbl_addr i j /\ idptbl_addr i j + 4 <= 0x40000000.
Proof. destruct Hbase as (H0 & Hm & H1). unfold idptbl_addr. lia. Qed.

Lemma load32_page_ne m pi j v a :
  0x40000 <= pi < 0xf0000 -> 0 <= j < 1024 -> 0 <= a -> a + 4 <= 2 ^ 32 ->
  a + 4 <= pi * 4096 \/ (pi + 1) * 4096 <= a ->
  load32 (store32 (pi * 4096 + j * 4) v m) a = load32 m a.
Proof. intros. apply load32_store32_ne; lia. Qed.

(** *** Writing one entry *)

Lemma pde_write_entry s p d j v p' d' : pde (write_entry s p d j v) p' d' = pde s p' d'.
Proof. done. Qed.

Lemma write_entry_inv s p d j v pi :
  mpt_inv s -> has_table s p d pi -> 0 <= j < 1024 -> mpt_inv (write_entry s p d j v).
Proof.
  intros [Hct Hk Hu H0 Hinj Hid] Ht Hj. split; try done.
  intros i k Hi Hk'. cbn [pmem write_entry set_pmem].
  pose proof (ct_used_range _ pi Hct (proj2 Ht)) as Hpi.
  pose proof (idptbl_addr_range i k Hi Hk').
  rewrite (entry_addr_table s p d j pi), load32_page_ne by (done || lia). by apply Hid.
Qed.

(** The entry written is read back at its page, and every other page of every
    process keeps its entry. *)
Lemma write_entry_lookup s p va v pi p' va' :
  mpt_inv s -> 0 <= p < NUM_IDS -> is_u32 va ->
  has_table s p (pde_index va) pi -> is_u32 v ->
  0 <= p' < NUM_IDS -> is_u32 va' ->
  lookup_va (write_entry s p (pde_index va) (pte_index va) v) p' va' =
    if decide (p' = p /\ va' / 4096 = va / 4096) then v else lookup_va s p' va'.
Proof.
  intros Hinv Hp Hva Ht Hv Hp' Hva'. pose proof Hinv as [Hct _ _ _ Hinj _].
  pose proof (ct_used_range _ pi Hct (proj2 Ht)) as Hpi.
  pose proof (pde_index_range va Hva) as Hd. pose proof (pte_index_range va) as Hj.
  pose proof (pde_index_range va' Hva') as Hd'. pose proof (pte_index_range va') as Hj'.
  unfold lookup_va at 1. rewrite pde_write_entry. cbn [pmem write_entry set_pmem].
  change (entry_addr (write_entry _ _ _ _ _) p' (pde_index va') (pte_index va'))
    with (entry_addr s p' (pde_index va') (pte_index va')).
  rewrite (entry_addr_table s p (pde_index va) (pte_index va) pi) by done.
  rewrite (decide_ext _ (p' = p /\ pde_index va' = pde_index va /\ pte_index va' = pte_index va))
    by (by rewrite same_page).
  unfold lookup_va.
  destruct (pde_cases s p' (pde_index va') Hinv Hp' Hd') as [(E & _)|[E|(pi' & Ht' & Hpi')]].
  - rewrite E, Z.eqb_refl. rewrite decide_False; [done|].
    intros (-> & E2 & _). rewrite E2, (proj1 Ht) in E. lia.
  - assert (E0 : pde s p' (pde_index va') <> 0)
      by (rewrite E; unfold id_entry; destruct Hbase; lia).
    apply Z.eqb_neq in E0 as ->. pose proof (idptbl_addr_range _ _ Hd' Hj').
    rewrite entry_addr_id, load32_page_ne by (done || lia). rewrite decide_False; [done|].
    intros (-> & E2 & _). rewrite E2, (proj1 Ht) in E. unfold id_entry in E.
    destruct Hbase as (? & ? & ?). lia.
  - assert (E0 : pde s p' (pde_index va') <> 0) by (rewrite (proj1 Ht'); lia).
    apply Z.eqb_neq in E0 as ->. rewrite (entry_addr_table s p' _ _ pi') by done.
    destruct (decide (pi' = pi)) as [->|Hne].
    + destruct (Hinj p' (pde_index va') p (pde_index va) pi) as [-> Ed]; try done.
      destruct (decide (pte_index va' = pte_index va)) as [Ej|Ej].
      * rewrite decide_True by done. rewrite Ej. by rewrite load32_store32 by (done || lia).
      * rewrite decide_False by tauto. by rewrite load32_store32_ne by lia.
    + rewrite decide_False.
      * by rewrite load32_page_ne by lia.
      * intros (-> & E2 & _). apply Hne. destruct Ht as [E3 _], Ht' as [E4 _].
        rewrite E2 in E4. lia.
Qed.

(** *** Registering a fresh page table *)

(** The state after [pi] has been allocated (container state [c']) and put
    into the directory slot [(p, d)], with memory [m']. *)
Definition with_table (s : state C) (c' : C) (p d pi : Z) (m' : mem) : state C :=
  State c' (pt_lk s) (<[(p, d) := pi * 4096 + 7]> (PDirPool s)) m' (cr0 s) (cr3 s) (cr4 s).

Lemma pde_with_table s c' p d pi m' p' d' :
  pde (with_table s c' p d pi m') p' d' =
    if decide (p' = p /\ d' = d) then pi * 4096 + 7 else pde s p' d'.
Proof.
  unfold pde; cbn. case_decide as E.
  - destruct E as [-> ->]. by rewrite lookup_total_insert_eq.
  - rewrite lookup_total_insert_ne; [done|]. intros [= -> ->]. tauto.
Qed.

(** The loop of alloc_ptbl zeroes the whole page. *)
Lemma clear_table s p d pi :
  0 <= p < NUM_IDS -> 0 <= d < 1024 -> has_table s p d pi -> 0x40000 <= pi < 0xf0000 ->
  exists m', for_ 0 1024 (fun i => rmv_ptbl_entry p d i) s = Ok tt (set_pmem m' s) /\
    (forall a, ~ (pi * 4096 <= a < (pi + 1) * 4096) -> m' !!! a = pmem s !!! a) /\
    (forall j, 0 <= j < 1024 -> load32 m' (pi * 4096 + j * 4) = 0).
Proof.
  intros Hp Hd Ht Hpi.
  assert (Hwp : wp (for_ 0 1024 (fun i => rmv_ptbl_entry p d i))
    (fun _ s' => exists m', s' = set_pmem m' s /\
      (forall a, ~ (pi * 4096 <= a < (pi + 1) * 4096) -> m' !!! a = pmem s !!! a) /\
      (forall j, 0 <= j < 1024 -> load32 m' (pi * 4096 + j * 4) = 0)) s).
  2: { apply wp_run in Hwp as ([] & s' & Hrun & m' & -> & Hm). eauto. }
  apply (wp_for (fun k s' => exists m', s' = set_pmem m' s /\
      (forall a, ~ (pi * 4096 <= a < (pi + 1) * 4096) -> m' !!! a = pmem s !!! a) /\
      (forall j, 0 <= j < k -> load32 m' (pi * 4096 + j * 4) = 0))); [lia | | | done].
  - exists (pmem s). split; [by destruct s|]. split; [done | lia].
  - intros k s' Hk (m' & -> & Hfr & Hz).
    eapply wp_intro; [by apply rmv_ptbl_entry_run|].
    eexists. split; [reflexivity|]. cbn [pmem set_pmem write_entry].
    change (entry_addr (set_pmem m' s) p d k) with (entry_addr s p d k).
    rewrite (entry_addr_table s p d k pi) by (done || lia). split.
    + intros a Ha. rewrite store32_lookup, decide_False by lia. by apply Hfr.
    + intros j Hj. destruct (decide (j = k)) as [->|Hne].
      * apply load32_store32; klia.
      * rewrite load32_store32_ne by lia. apply Hz. lia.
Qed.

(** A fresh page becomes a table: the invariant holds and, its entries being
    zero, nobody's lookups change. *)
Section fresh_table.
Context (s : state C) (c' : C) (p d pi : Z) (m' : mem).
Context (Hinv : mpt_inv s) (Hp : 0 < p < NUM_IDS) (Hd : 256 <= d < 960)
  (He : pde s p d = 0) (Hct' : ct_inv c') (Hfresh : ct_used (ct s) pi = false)
  (Hused : forall j, ct_used c' j = if decide (j = pi) then true else ct_used (ct s) j)
  (Hfr : forall a, ~ (pi * 4096 <= a < (pi + 1) * 4096) -> m' !!! a = pmem s !!! a)
  (Hz : forall j, 0 <= j < 1024 -> load32 m' (pi * 4096 + j * 4) = 0).

Let s' := with_table s c' p d pi m'.

Lemma fresh_used : ct_used c' pi = true.
Proof. by rewrite Hused, decide_True. Qed.

Lemma fresh_range : 0x40000 <= pi < 0xf0000.
Proof. apply (ct_used_range c'); [done | apply fresh_used]. Qed.

Lemma old_table p' d' pi' : has_table s p' d' pi' -> pi' <> pi /\ ct_used c' pi' = true.
Proof.
  intros [_ E]. assert (pi' <> pi) by congruence. split; [done|]. by rewrite Hused, decide_False.
Qed.

Lemma no_entry p' d' : 0 <= p' < NUM_IDS -> 0 <= d' < 1024 -> pde s p' d' <> pi * 4096 + 7.
Proof.
  intros Hp' Hd' E. pose proof fresh_range.
  destruct (pde_cases s p' d' Hinv Hp' Hd') as [(E1 & _)|[E1|(q & Hq & _)]].
  - lia.
  - rewrite E in E1. unfold id_entry in E1. destruct Hbase as (? & ? & ?). lia.
  - apply (old_table p' d' q Hq). destruct Hq. lia.
Qed.

Lemma load32_other a : 0 <= a -> a + 4 <= 2 ^ 32 ->
  a + 4 <= pi * 4096 \/ (pi + 1) * 4096 <= a -> load32 m' a = load32 (pmem s) a.
Proof. intros. apply load32_ext; [lia | lia |]. intros; apply Hfr; lia. Qed.

Lemma load32_idptbl i j : 0 <= i < 1024 -> 0 <= j < 1024 ->
  load32 m' (idptbl_addr i j) = load32 (pmem s) (idptbl_addr i j).
Proof.
  intros Hi Hj. pose proof (idptbl_addr_range i j Hi Hj). pose proof fresh_range.
  apply load32_other; lia.
Qed.

Lemma with_table_inj p1 d1 p2 d2 pi' :
  0 <= p1 < NUM_IDS -> 0 <= d1 < 1024 -> 0 <= p2 < NUM_IDS -> 0 <= d2 < 1024 ->
  has_table s' p1 d1 pi' -> has_table s' p2 d2 pi' -> p1 = p2 /\ d1 = d2.
Proof.
  intros Hp1 Hd1 Hp2 Hd2 [E1 U1] [E2 _]. unfold s' in E1, E2. rewrite pde_with_table in E1, E2.
  pose proof (no_entry p1 d1 Hp1 Hd1). pose proof (no_entry p2 d2 Hp2 Hd2).
  repeat case_decide; [lia | exfalso; lia | exfalso; lia |].
  assert (pi' <> pi) by (intros ->; done). cbn in U1. rewrite Hused, decide_False in U1 by done.
  by apply (mi_inj s Hinv p1 d1 p2 d2 pi').
Qed.

Lemma with_table_inv : mpt_inv s'.
Proof.
  destruct Hinv as [Hct Hk Hu H0 Hinj Hid].
  split; [done | | | | exact with_table_inj |].
  - intros p' d' Hp' Hd'. unfold s'. rewrite pde_with_table, decide_False; [by apply Hk|].
    unfold kern_slot in Hd'. lia.
  - intros p' d' Hp' Hd'. unfold has_table, s'. rewrite pde_with_table. case_decide as E.
    + right. exists pi. by split; [|apply fresh_used].
    + destruct (Hu p' d' Hp' Hd') as [?|(pi' & Ht')]; [auto|]. right. exists pi'.
      split; [apply Ht' | apply (old_table _ _ _ Ht')].
  - intros d' Hd'. unfold s'. rewrite pde_with_table, decide_False by lia. by apply H0.
  - intros i j Hi Hj. cbn [pmem s' with_table]. rewrite load32_idptbl by done. by apply Hid.
Qed.

Lemma with_table_lookup p' va' : 0 <= p' < NUM_IDS -> is_u32 va' ->
  lookup_va s' p' va' = lookup_va s p' va'.
Proof.
  intros Hp' Hva'. pose proof fresh_range as Hpi.
  pose proof (pde_index_range va' Hva') as Hd'. pose proof (pte_index_range va') as Hj'.
  unfold lookup_va, s'. rewrite pde_with_table. case_decide as E.
  - destruct E as [-> Ed]. rewrite Ed, He, Z.eqb_refl. bool_simp.
    rewrite (entry_addr_table _ p d _ pi); [by apply Hz | | done | done].
    split; [by rewrite pde_with_table, decide_True | apply fresh_used].
  - case_bool; [done|].
    assert (Ea : entry_addr s' p' (pde_index va') (pte_index va') =
                 entry_addr s p' (pde_index va') (pte_index va'))
      by (unfold entry_addr, s'; by rewrite pde_with_table, decide_False).
    unfold s' in Ea. rewrite Ea. cbn [pmem with_table].
    destruct (pde_cases s p' (pde_index va') Hinv Hp' Hd') as [(E1 & _)|[E1|(q & Hq & Hqr)]]; [done| |].
    + rewrite entry_addr_id by done. by apply load32_idptbl.
    + pose proof (old_table _ _ _ Hq). rewrite (entry_addr_table s p' _ _ q) by done.
      apply load32_other; lia.
Qed.

Lemma with_table_tables p' d' q : 0 <= p' < NUM_IDS -> 0 <= d' < 1024 ->
  has_table s' p' d' q -> has_table s p' d' q \/ q = pi.
Proof.
  intros Hp' Hd' [E U]. unfold s' in E. rewrite pde_with_table in E.
  destruct (decide _); [right; lia|]. left. split; [done|].
  pose proof (no_entry p' d' Hp' Hd') as Hn. cbn in U. rewrite Hused, decide_False in U; [done|].
  intros ->. done.
Qed.
End fresh_table.

(** *** alloc_ptbl and map_page *)

(** Same translations for every process and address. *)
Definition same_map (s s' : state C) : Prop :=
  forall p va, 0 <= p < NUM_IDS -> is_u32 va -> lookup_va s' p va = lookup_va s p va.

(** The translations of [s'] are those of [s] with the page of [va] in [p]
    changed to [v]. *)
Definition map_updated (s s' : state C) (p va v : Z) : Prop :=
  forall p' va', 0 <= p' < NUM_IDS -> is_u32 va' ->
    lookup_va s' p' va' =
      if decide (p' = p /\ va' / 4096 = va / 4096) then v else lookup_va s p' va'.

Definition user_va (va : Z) : Prop := 0x40000000 <= va < 0xf0000000.

Lemma user_va_index va : user_va va -> is_u32 va /\ 256 <= pde_index va < 960.
Proof.
  intros [? ?]. split; [klia|]. unfold pde_index.
  split; [apply Z.div_le_lower_bound; lia | apply Z.div_lt_upper_bound; lia].
Qed.

(** The pages in use after an allocation that returned [i]. *)
Definition used_after (s s' : state C) (i : Z) : Prop :=
  (i <> 0 -> ct_used (ct s) i = false /\ 0x40000 <= i < 0xf0000) /\
  forall j, ct_used (ct s') j = if decide (i <> 0 /\ j = i) then true else ct_used (ct s) j.

(** The page tables after an allocation that returned [i]: the old ones and
    possibly [i]. *)
Definition tables_after (s s' : state C) (i : Z) : Prop :=
  forall p d q, 0 <= p < NUM_IDS -> 0 <= d < 1024 -> has_table s' p d q ->
    has_table s p d q \/ (q = i /\ i <> 0).

(** The state after container_alloc, seen from the page structures. *)
Lemma alloc_frame ks p s : mpt_inv s -> 0 <= p < NUM_IDS -> magic ks = KSTACK_MAGIC ->
  exists i c', container_alloc ks p (ct s) = Ok i c' /\
    zoom ct_lens (container_alloc ks p) s = Ok i (set_ct c' s) /\ ct_inv c' /\
    used_after s (set_ct c' s) i.
Proof.
  intros Hinv Hp Hm. destruct (ct_alloc ks p (ct s)) as (i & c' & Hrun & Hc' & Hfresh & Hus);
    [apply Hinv | done | done |].
  exists i, c'. split; [done|]. split; [by apply zoom_Ok|]. split; [done|]. split; [|done].
  intros Hi. split; [auto|]. apply (ct_used_range c'); [done|].
  by rewrite Hus, decide_True.
Qed.

(** Using one more page changes no translation. *)
Lemma set_ct_inv s c' i : mpt_inv s -> ct_inv c' -> used_after s (set_ct c' s) i ->
  mpt_inv (set_ct c' s).
Proof.
  intros Hinv Hc' [Hnew Hus]. pose proof Hinv as [Hct Hk Hu H0 Hinj Hid].
  cbn [ct set_ct] in Hus.
  assert (Hmono : forall j, ct_used (ct s) j = true -> ct_used c' j = true)
    by (intros j Hj; rewrite Hus; by destruct (decide _)).
  split; try done.
  - intros p d Hp Hd. destruct (Hu p d Hp Hd) as [?|(pi & E & U)]; [auto|].
    right. exists pi. split; [done | by apply Hmono].
  - intros p d p' d' pi Hp Hd Hp' Hd' [E1 U1] [E2 U2].
    change (pde s p d = pi * 4096 + 7) in E1. change (pde s p' d' = pi * 4096 + 7) in E2.
    destruct (pde_cases s p d Hinv Hp Hd) as [(E & _)|[E|(q & Hq & Hqr)]].
    + pose proof (ct_used_range c' pi Hc' U1). lia.
    + pose proof (ct_used_range c' pi Hc' U1). rewrite E1 in E. unfold id_entry in E.
      destruct Hbase as (? & ? & ?). lia.
    + assert (q = pi) as -> by (destruct Hq; lia).
      apply (Hinj p d p' d' pi); try done. split; [done | apply Hq].
Qed.

(** An entry of the directory that looks like page [q] is a table, and was one. *)
Lemma set_ct_tables s c' : mpt_inv s -> ct_inv c' -> tables_after s (set_ct c' s) 0.
Proof.
  intros Hinv Hc' p d q Hp Hd [E U]. change (pde s p d = q * 4096 + 7) in E.
  cbn in U. pose proof (ct_used_range c' q Hc' U). left.
  destruct (pde_cases s p d Hinv Hp Hd) as [(E1 & _)|[E1|(q' & Hq & _)]].
  - lia.
  - rewrite E in E1. unfold id_entry in E1. destruct Hbase as (? & ? & ?). lia.
  - assert (q' = q) as -> by (destruct Hq; lia). done.
Qed.

Lemma alloc_ptbl_spec ks p va s :
  mpt_inv s -> 0 < p < NUM_IDS -> user_va va -> magic ks = KSTACK_MAGIC ->
  pde s p (pde_index va) = 0 ->
  exists i s', alloc_ptbl ks p va s = Ok i s' /\ mpt_inv s' /\ same_map s s' /\
    used_after s s' i /\ tables_after s s' i /\ (i <> 0 -> has_table s' p (pde_index va) i) /\
    exists c', container_alloc ks p (ct s) = Ok i c'.
Proof.
  intros Hinv Hp Hva Hm He. destruct (user_va_index va Hva) as [Hva32 Hd].
  destruct (alloc_frame ks p s Hinv ltac:(lia) Hm) as (i & c' & Hraw & Hrun & Hc' & Hua).
  unfold alloc_ptbl. pose proof Hua as [Hnew Hus]. cbn [ct set_ct] in Hus.
  destruct (Z.eqb_spec i 0) as [->|Hi].
  { exists 0, (set_ct c' s). split_and!; try done.
    - by krun (exact Hrun).
    - by apply (set_ct_inv s c' 0).
    - by apply set_ct_tables.
    - by exists c'. }
  destruct (Hnew Hi) as [Hfresh Hir].
  set (s1 := set_PDirPool (<[(p, pde_index va) := i * 4096 + 7]> (PDirPool s)) (set_ct c' s)).
  assert (Ht : has_table s1 p (pde_index va) i).
  { split; [unfold pde; cbn; by rewrite lookup_total_insert_eq|]. cbn. by rewrite Hus, decide_True. }
  destruct (clear_table s1 p (pde_index va) i) as (m' & Hclr & Hfr & Hz); [lia | lia | done | done |].
  exists i, (with_table s c' p (pde_index va) i m').
  assert (Hus' : forall j, ct_used c' j = if decide (j = i) then true else ct_used (ct s) j).
  { intros j. rewrite Hus. destruct (decide (j = i)); [by rewrite decide_True|].
    by rewrite decide_False by tauto. }
  split; [|split_and!].
  - krun (exact Hrun). bool_simp. cbn [when].
    erewrite bind_Ok; [reflexivity|].
    erewrite bind_Ok by (apply put_pdir_entry_run; lia). cbn [PDirPool set_ct].
    change PT_PERM_PTU with 7. rewrite (u32_small (i * PAGESIZE)), u32_small by klia. exact Hclr.
  - by apply with_table_inv.
  - intros p' va' Hp' Hva'. by apply with_table_lookup.
  - done.
  - intros p' d' q Hp' Hd' Ht'.
    destruct (with_table_tables s c' p (pde_index va) i m' Hinv Hc' Hfresh Hus' p' d' q); auto.
  - intros _. split; [by rewrite pde_with_table, decide_True|]. cbn. by rewrite Hus', decide_True.
  - by exists c'.
Qed.

(** The outcome of map_page: either no page table could be allocated and no
    translation changed, or exactly the page of [va] is mapped. *)
Definition map_result (ks : kstack) (s : state C) (p va v r : Z) (s' : state C) : Prop :=
  (r = MagicNumber /\ pde s p (pde_index va) = 0 /\
   (exists c', container_alloc ks p (ct s) = Ok 0 c') /\ same_map s s' /\ used_after s s' 0 /\
   tables_after s s' 0) \/
  (r <> MagicNumber /\ map_updated s s' p va v /\ used_after s s' r /\ tables_after s s' r /\
   (r = 0 <-> pde s p (pde_index va) <> 0)).

Lemma map_page_spec ks p va page perm s :
  mpt_inv s -> 0 < p < NUM_IDS -> user_va va -> magic ks = KSTACK_MAGIC ->
  0 <= page -> 0 <= perm -> page * 4096 + perm < 2 ^ 32 ->
  exists r s', map_page ks p va page perm s = Ok r s' /\ mpt_inv s' /\
    map_result ks s p va (page * 4096 + perm) r s'.
Proof.
  intros Hinv Hp Hva Hm Hpage Hperm Hv. destruct (user_va_index va Hva) as [Hva32 Hd].
  assert (Hv' : u32 (u32 (page * PAGESIZE) + perm) = page * 4096 + perm)
    by (rewrite (u32_small (page * PAGESIZE)), u32_small by klia; done).
  unfold map_page, get_pdir_entry_by_va, map_result.
  erewrite bind_Ok by (apply get_pdir_entry_run; lia).
  destruct (Z.eqb_spec (pde s p (pde_index va)) 0) as [E|E]; cbn [negb].
  - destruct (alloc_ptbl_spec ks p va s Hinv Hp Hva Hm E) as (i & s1 & Hrun & Hinv1 & Hsame & Hua & Hta & Ht & Hraw).
    erewrite bind_Ok by (erewrite bind_Ok by exact Hrun; reflexivity).
    destruct (Z.eqb_spec i 0) as [->|Hi]; cbn [Z.eqb Pos.eqb negb MagicNumber when].
    { exists MagicNumber, s1. split; [done|]. split; [done|]. by left. }
    assert (Hir : 0x40000 <= i < 0xf0000) by (by apply Hua).
    assert (Hne : (i =? MagicNumber) = false) by (apply Z.eqb_neq; klia). rewrite Hne. cbn [negb].
    erewrite bind_Ok by (apply set_ptbl_entry_by_va_run; [lia|done]). rewrite Hv'.
    eexists i, _. split; [done|]. split; [by eapply write_entry_inv, pte_index_range; auto|].
    right. split; [klia|]. split; [|split; [done|split; [done|lia]]].
    intros p' va' Hp' Hva'. rewrite (write_entry_lookup s1 p va _ i) by (auto || klia).
    destruct (decide _); [done|]. by apply Hsame.
  - krun. cbn [Z.eqb negb MagicNumber when].
    assert (Htab : exists pi, has_table s p (pde_index va) pi).
    { destruct (mi_user s Hinv p (pde_index va)) as [?|?]; [lia|lia|done|done]. }
    destruct Htab as (pi & Ht).
    erewrite bind_Ok by (apply set_ptbl_entry_by_va_run; [lia|done]). rewrite Hv'.
    eexists 0, _. split; [done|]. split; [by eapply write_entry_inv, pte_index_range|].
    right. split; [klia|]. split; [|split; [|split; [|lia]]].
    + intros p' va' Hp' Hva'. by rewrite (write_entry_lookup s p va _ pi) by (auto || klia).
    + split; [done|]. intros j. by rewrite decide_False by tauto.
    + intros p' d' q _ _ Ht'. left. exact Ht'.
Qed.

Lemma write_zero_user s p va : mpt_inv s -> 0 < p < NUM_IDS -> user_va va ->
  lookup_va s p va <> 0 ->
  mpt_inv (write_entry s p (pde_index va) (pte_index va) 0) /\
  map_updated s (write_entry s p (pde_index va) (pte_index va) 0) p va 0.
Proof.
  intros Hinv Hp Hva Hne. destruct (user_va_index va Hva) as [Hva32 Hd].
  assert (Htab : exists pi, has_table s p (pde_index va) pi).
  { destruct (mi_user s Hinv p (pde_index va)) as [E|?]; [lia|lia| |done].
    unfold lookup_va in Hne. by rewrite E in Hne. }
  destruct Htab as (pi & Ht). split; [by eapply write_entry_inv, pte_index_range|].
  intros p' va' Hp' Hva'. apply (write_entry_lookup s p va _ pi); auto; klia.
Qed.

Lemma free_user_slot s p va c' :
  mpt_inv s -> 0 < p < NUM_IDS -> user_va va -> ct_inv c' ->
  (forall j, ct_used c' j =
     if decide (j = pde s p (pde_index va) / PAGESIZE) then false else ct_used (ct s) j) ->
  let s' := set_ct c' (set_PDirPool (<[(p, pde_index va) := 0]> (PDirPool s)) s) in
  mpt_inv s' /\
  (forall p' va', 0 <= p' < NUM_IDS -> is_u32 va' ->
     lookup_va s' p' va' =
       if decide (p' = p /\ pde_index va' = pde_index va) then 0 else lookup_va s p' va').
Proof.
  intros Hinv Hp Hva Hc' Hus s'. destruct (user_va_index va Hva) as [Hva32 Hd].
  pose proof Hinv as [Hct Hk Hu H0 Hinj Hid].
  assert (Hpde : forall p' d', pde s' p' d' =
    if decide (p' = p /\ d' = pde_index va) then 0 else pde s p' d').
  { intros p' d'. unfold pde; cbn. destruct (decide _) as [[-> ->]|E];
      [by rewrite lookup_total_insert_eq|].
    rewrite lookup_total_insert_ne; [done|]. intros [= ? ?]. apply E. auto. }
  assert (Htab : forall p' d' pi, has_table s' p' d' pi -> has_table s p' d' pi).
  { intros p' d' pi [E U]. cbn in U. pose proof (ct_used_range c' pi Hc' U).
    rewrite Hpde in E. destruct (decide _); [lia|]. split; [done|].
    rewrite Hus in U. by destruct (decide _). }
  split; [split; try done|].
  - intros p' d' Hp' Hd'. rewrite Hpde, decide_False; [by apply Hk|]. unfold kern_slot in Hd'. lia.
  - intros p' d' Hp' Hd'. rewrite Hpde. destruct (decide _) as [?|E]; [auto|].
    destruct (Hu p' d' Hp' Hd') as [?|(pi & Ht)]; [auto|]. right. exists pi.
    split; [rewrite Hpde, decide_False by done; apply Ht|]. cbn. rewrite Hus, decide_False; [apply Ht|].
    intros ->. apply E. destruct (Hu p (pde_index va)) as [E0|(q & Hq)]; [lia | lia | |].
    + rewrite E0 in Ht. change (0 / PAGESIZE) with 0 in Ht. pose proof (ct_used_range _ _ Hct (proj2 Ht)). lia.
    + assert (Eq : pde s p (pde_index va) / PAGESIZE = q)
        by (rewrite (proj1 Hq); unfold PAGESIZE; rewrite Z.div_add_l, Z.div_small; lia).
      rewrite Eq in Ht. apply (Hinj p' d' p (pde_index va) q); done || lia.
  - intros d' Hd'. rewrite Hpde, decide_False by lia. by apply H0.
  - intros p1 d1 p2 d2 pi ? ? ? ? Ht1%Htab Ht2%Htab. by apply (Hinj p1 d1 p2 d2 pi).
  - intros p' va' Hp' Hva'. unfold lookup_va. rewrite Hpde.
    destruct (decide _) as [?|E]; [done|]. case_bool; [done|]. f_equal.
    unfold entry_addr. by rewrite Hpde, decide_False.
Qed.

(** *** Initialisation *)

Definition idptbl_done (m : mem) (i j : Z) : Prop :=
  load32 m (idptbl_addr i j) = (i * 1024 + j) * 4096 + id_perm i.

Lemma set_ptbl_entry_identity_run i j s :
  0 <= i < 1024 -> 0 <= j < 1024 ->
  set_ptbl_entry_identity i j (id_perm i) s =
    Ok tt (set_pmem (store32 (idptbl_addr i j) ((i * 1024 + j) * 4096 + id_perm i) (pmem s)) s).
Proof.
  intros Hi Hj. unfold set_ptbl_entry_identity. do 2 krun (by apply bounds_Ok).
  pose proof (id_perm_range i). unfold modify. do 3 f_equal.
  rewrite (u32_small (i * 1024)), (u32_small (_ + j)) by klia.
  rewrite (u32_small (_ * PAGESIZE)), u32_small by klia. done.
Qed.

(** One store finishes one entry and keeps the finished ones. *)
Lemma idptbl_store m i j i' j' :
  0 <= i < 1024 -> 0 <= j < 1024 -> 0 <= i' < 1024 -> 0 <= j' < 1024 ->
  (i', j') = (i, j) \/ idptbl_done m i' j' ->
  idptbl_done (store32 (idptbl_addr i j) ((i * 1024 + j) * 4096 + id_perm i) m) i' j'.
Proof.
  intros Hi Hj Hi' Hj' H. unfold idptbl_done.
  pose proof (id_perm_range i). pose proof (idptbl_addr_range i j Hi Hj).
  pose proof (idptbl_addr_range i' j' Hi' Hj').
  destruct (decide ((i', j') = (i, j))) as [E|E].
  - injection E as -> ->. apply load32_store32; klia.
  - destruct H as [?|H]; [done|]. rewrite load32_store32_ne; [done | lia..|].
    unfold idptbl_addr. assert (i' <> i \/ j' <> j) by (destruct (decide (i' = i)) as [->|]; [right; congruence | auto]).
    lia.
Qed.

Lemma idptbl_init_wp cinit c' s :
  cinit (ct s) = Ok tt c' ->
  wp (idptbl_init cinit) (fun _ s' => exists m', s' = set_pmem m' (set_ct c' s) /\
    forall i j, 0 <= i < 1024 -> 0 <= j < 1024 -> idptbl_done m' i j) s.
Proof.
  intros Hc. unfold idptbl_init. apply wp_bind.
  eapply wp_intro; [by apply zoom_Ok|]. cbn [lput ct_lens].
  apply (wp_for (fun n s' => exists m', s' = set_pmem m' (set_ct c' s) /\
    forall i j, 0 <= i < n -> 0 <= j < 1024 -> idptbl_done m' i j)); [lia | | | done].
  { exists (pmem s). split; [done | lia]. }
  intros i s1 Hi (m & -> & Hm).
  apply (wp_for (fun k s' => exists m', s' = set_pmem m' (set_ct c' s) /\
    forall i' j, 0 <= i' < i \/ (i' = i /\ 0 <= j < k) -> 0 <= j < 1024 ->
      idptbl_done m' i' j)); [lia | | |].
  - exists m. split; [done|]. intros i' j [?|?]; [by apply Hm | lia].
  - intros j s2 Hj (m2 & -> & Hm2).
    eapply wp_intro; [by apply set_ptbl_entry_identity_run|]. eexists. split; [reflexivity|].
    intros i' j' Hij Hj'. cbn [pmem set_pmem]. apply idptbl_store; [lia.. |].
    destruct (decide ((i', j') = (i, j))) as [?|E]; [auto|]. right. apply Hm2; [|done].
    destruct Hij as [?|[-> ?]]; [auto|]. right. split; [done|].
    assert (j' <> j) by congruence. lia.
  - intros s3 (m3 & -> & Hm3). exists m3. split; [done|]. intros i' j Hi' Hj. apply Hm3; lia.
Qed.

(** What pdir_init puts into slot [d] of every process. *)
Definition init_slot (d : Z) : Z := if (d <? 256) || (960 <=? d) then id_entry d else 0.

Lemma set_pdir_entry_identity_run p d s :
  0 <= p < NUM_IDS -> 0 <= d < 1024 ->
  set_pdir_entry_identity p d s =
    Ok tt (set_PDirPool (<[(p, d) := id_entry d]> (PDirPool s)) s).
Proof.
  intros Hp Hd. unfold set_pdir_entry_identity. rewrite put_pdir_entry_run by done.
  destruct Hbase as (? & ? & ?). unfold idptbl_addr, id_entry. change PT_PERM_PTU with 7.
  rewrite u32_small by klia. do 3 f_equal. lia.
Qed.

Lemma init_slot_run p d s : 0 <= p < NUM_IDS -> 0 <= d < 1024 ->
  (if (d <? 256) || (960 <=? d) then set_pdir_entry_identity p d else rmv_pdir_entry p d) s =
    Ok tt (set_PDirPool (<[(p, d) := init_slot d]> (PDirPool s)) s).
Proof.
  intros Hp Hd. unfold init_slot. destruct (_ || _); [by apply set_pdir_entry_identity_run|].
  unfold rmv_pdir_entry. by rewrite put_pdir_entry_run.
Qed.

Lemma insert_slot_cases (D : gmap (Z * Z) Z) p d v p' d' :
  <[(p, d) := v]> D !!! (p', d') = if decide (p' = p /\ d' = d) then v else D !!! (p', d').
Proof.
  destruct (decide _) as [[-> ->]|E]; [by rewrite lookup_total_insert_eq|].
  rewrite lookup_total_insert_ne; [done|]. intros [= ? ?]. apply E. auto.
Qed.

Lemma pdir_loop_wp s :
  wp (for_ 0 NUM_IDS (fun i => for_ 0 1024 (fun j =>
        if (j <? 256) || (960 <=? j) then set_pdir_entry_identity i j else rmv_pdir_entry i j)))
    (fun _ s' => exists D, s' = set_PDirPool D s /\
       forall p d, 0 <= p < NUM_IDS -> 0 <= d < 1024 -> D !!! (p, d) = init_slot d) s.
Proof.
  apply (wp_for (fun n s' => exists D, s' = set_PDirPool D s /\
    forall p d, 0 <= p < n -> 0 <= d < 1024 -> D !!! (p, d) = init_slot d));
    [klia | | | done].
  { exists (PDirPool s). split; [by destruct s | lia]. }
  intros i s1 Hi (D & -> & HD).
  apply (wp_for (fun k s' => exists D, s' = set_PDirPool D s /\
    forall p d, 0 <= p < i \/ (p = i /\ 0 <= d < k) -> 0 <= d < 1024 ->
      D !!! (p, d) = init_slot d)); [lia | | |].
  - exists D. split; [done|]. intros p d [?|?]; [by apply HD | lia].
  - intros j s2 Hj (D2 & -> & HD2).
    eapply wp_intro; [by apply init_slot_run|]. eexists. split; [reflexivity|].
    intros p d Hpd Hd. cbn [PDirPool set_PDirPool]. rewrite insert_slot_cases.
    destruct (decide _) as [[-> ->]|E]; [done|]. apply HD2; lia.
  - intros s3 (D3 & -> & HD3). exists D3. split; [done|]. intros p d Hp Hd. apply HD3; lia.
Qed.

Lemma kern_loop_wp s :
  wp (for_ 256 960 (fun i => set_pdir_entry_identity 0 i))
    (fun _ s' => exists D, s' = set_PDirPool D s /\
       forall p d, D !!! (p, d) =
         if decide (p = 0 /\ 256 <= d < 960) then id_entry d else PDirPool s !!! (p, d)) s.
Proof.
  apply (wp_for (fun n s' => exists D, s' = set_PDirPool D s /\
    forall p d, D !!! (p, d) =
      if decide (p = 0 /\ 256 <= d < n) then id_entry d else PDirPool s !!! (p, d)));
    [lia | | | done].
  { exists (PDirPool s). split; [by destruct s|]. intros p d. by rewrite decide_False by lia. }
  intros i s1 Hi (D & -> & HD).
  eapply wp_intro; [apply set_pdir_entry_identity_run; klia|]. eexists. split; [reflexivity|].
  intros p d. cbn [PDirPool set_PDirPool]. rewrite insert_slot_cases.
  destruct (decide (p = 0 /\ d = i)) as [[-> ->]|E]; [by rewrite decide_True by lia|].
  rewrite HD. repeat case_decide; done || lia.
Qed.

Lemma pdir_init_kern_wp cinit c' s :
  cinit (ct s) = Ok tt c' -> ct_inv c' ->
  wp (pdir_init_kern cinit) (fun _ s' => mpt_inv s' /\ ct s' = c' /\ pt_lk s' = pt_lk s /\
    (forall p d, 0 < p < NUM_IDS -> 256 <= d < 960 -> pde s' p d = 0)) s.
Proof.
  intros Hc Hc'. unfold pdir_init_kern, pdir_init.
  apply wp_bind, wp_bind. eapply wp_mono; [by eapply idptbl_init_wp|].
  intros [] s1 (m & -> & Hm). eapply wp_mono; [apply pdir_loop_wp|].
  intros [] s2 (D & -> & HD). eapply wp_mono; [apply kern_loop_wp|].
  intros [] s3 (D' & -> & HD'). cbn [PDirPool set_PDirPool] in HD'.
  set (s' := set_PDirPool D' _).
  assert (Hp : forall p d, 0 <= p < NUM_IDS -> 0 <= d < 1024 ->
    pde s' p d = if decide (p = 0 /\ 256 <= d < 960) then id_entry d else init_slot d).
  { intros p d ? ?. unfold pde, s'. cbn. rewrite HD'. destruct (decide _); [done|]. by apply HD. }
  assert (Hslot : forall d, 256 <= d < 960 -> init_slot d = 0)
    by (intros d Hd; unfold init_slot; by bool_simp).
  split; [split; try done|split; [done|split; [done|]]].
  - intros p d Hpr Hd. unfold kern_slot in Hd. rewrite Hp, decide_False by (done || lia).
    unfold init_slot. destruct Hd as [Hd|Hd]; bool_simp; [done|].
    destruct (d <? 256); done.
  - intros p d Hpr Hd. left. rewrite Hp, decide_False by lia. by apply Hslot.
  - intros d Hd. rewrite Hp, decide_True by klia. done.
  - intros p d p' d' pi Hpr Hd _ _ [E U] _. exfalso.
    pose proof (ct_used_range c' pi Hc' U) as Hpi. rewrite Hp in E by done.
    destruct Hbase as (? & ? & ?). unfold init_slot, id_entry in E.
    destruct (decide _); [lia|]. destruct (_ || _); lia.
  - intros p d Hpr Hd. rewrite Hp, decide_False by lia. by apply Hslot.
Qed.

(** ** Correctness of the component *)


(** map_page: after a successful call the page of [va] translates to the
    given physical page with the given permission, and no other page of any
    process changes its translation; it fails (MagicNumber) only when a new page
    table was needed and container_alloc gave none, and then nothing changes.
    The result tells which page, if any, became the page table. *)
Theorem map_page_correct ks p va page perm s :
  mpt_inv s -> 0 < p < NUM_IDS -> user_va va -> magic ks = KSTACK_MAGIC ->
  0 <= page -> 0 <= perm -> page * 4096 + perm < 2 ^ 32 ->
  exists r s', map_page ks p va page perm s = Ok r s' /\ mpt_inv s' /\
    map_result ks s p va (page * 4096 + perm) r s' /\
    (r <> MagicNumber -> get_ptbl_entry_by_va p va s' = Ok (page * 4096 + perm) s').
Proof.
  intros Hinv Hp Hva Hm Hpage Hperm Hv. destruct (user_va_index va Hva) as [Hva32 Hd].
  destruct (map_page_spec ks p va page perm s) as (r & s' & Hrun & Hinv' & Hres); try done.
  exists r, s'. split_and!; try done. intros Hr.
  rewrite get_ptbl_entry_by_va_run by (done || lia). f_equal.
  destruct Hres as [[? _]|(_ & Hmap & _)]; [done|]. rewrite Hmap by (done || lia).
  by rewrite decide_True.
Qed.

(** unmap_page returns the entry it removes; afterwards the page of [va] is
    unmapped in [p] and every other translation is as before. *)
Theorem unmap_page_correct p va s :
  mpt_inv s -> 0 < p < NUM_IDS -> user_va va ->
  exists s', unmap_page p va s = Ok (lookup_va s p va) s' /\ mpt_inv s' /\
    map_updated s s' p va 0.
Proof.
  intros Hinv Hp Hva. destruct (user_va_index va Hva) as [Hva32 Hd].
  unfold unmap_page. erewrite bind_Ok by (apply get_ptbl_entry_by_va_run; done || lia).
  destruct (Z.eqb_spec (lookup_va s p va) 0) as [E|E]; cbn [negb when].
  - exists s. split; [done|]. split; [done|]. intros p' va' Hp' Hva'.
    destruct (decide _) as [[-> Epg]|?]; [|done]. rewrite <- E. unfold lookup_va.
    apply same_page in Epg as [-> ->]. done.
  - destruct (write_zero_user s p va Hinv Hp Hva E) as [Hinv' Hmap].
    eexists. split; [|by split].
    unfold rmv_ptbl_entry_by_va. by erewrite bind_Ok by (apply rmv_ptbl_entry_run; lia).
Qed.

(** *** Isolation of user memory *)

Definition frame (s : state C) (p va : Z) : Z := lookup_va s p va / 4096.

(** The page of [va] is mapped in [p]. *)
Definition mapped (s : state C) (p va : Z) : Prop :=
  0 < p < NUM_IDS /\ user_va va /\ lookup_va s p va <> 0.

(** Every mapped user page has a physical page of its own: it is in use, it is
    no page table, and no other page of any process maps to it. *)
Record data_inv (s : state C) : Prop := {
  di_used : forall p va, mapped s p va -> ct_used (ct s) (frame s p va) = true;
  di_table : forall p va p' d', mapped s p va -> 0 <= p' < NUM_IDS -> 0 <= d' < 1024 ->
    ~ has_table s p' d' (frame s p va);
  di_inj : forall p va p' va', mapped s p va -> mapped s p' va' ->
    frame s p va = frame s p' va' -> p = p' /\ va / 4096 = va' / 4096
}.

Lemma frame_new pi perm : 0 <= perm < 4096 -> (pi * 4096 + perm) / 4096 = pi.
Proof. intros. rewrite Z.div_add_l, (Z.div_small perm); lia. Qed.

Lemma data_inv_empty s :
  (forall p d, 0 < p < NUM_IDS -> 256 <= d < 960 -> pde s p d = 0) -> data_inv s.
Proof.
  intros Hempty. assert (Hno : forall p va, ~ mapped s p va).
  { intros p va (Hp & Hva & Hne). apply Hne. unfold lookup_va.
    by rewrite Hempty by (done || by apply user_va_index). }
  split; intros p va; intros; exfalso; by eapply Hno.
Qed.

(** Mapping a fresh page, with a fresh page table or none, keeps pages apart. *)
Lemma data_inv_map s s' p va pi perm r :
  mpt_inv s -> mpt_inv s' -> data_inv s -> 0 <= perm < 4096 ->
  map_updated s s' p va (pi * 4096 + perm) ->
  ct_used (ct s) pi = false -> ct_used (ct s') pi = true ->
  (forall j, ct_used (ct s) j = true -> ct_used (ct s') j = true) ->
  tables_after s s' r -> (r <> 0 -> ct_used (ct s) r = false /\ r <> pi) ->
  data_inv s'.
Proof.
  intros Hinv Hinv' [Hdu Hdt Hdi] Hperm Hmap Hfresh Hup Hmono Htab Hr.
  assert (Hcase : forall p' va', mapped s' p' va' ->
    (p' = p /\ va' / 4096 = va / 4096 /\ frame s' p' va' = pi) \/
    (~ (p' = p /\ va' / 4096 = va / 4096) /\ mapped s p' va' /\ frame s' p' va' = frame s p' va')).
  { intros p' va' (Hp' & Hva' & Hne). destruct (user_va_index va' Hva') as [Hva32 _].
    unfold frame, mapped. rewrite Hmap in Hne by (done || lia). rewrite Hmap by (done || lia).
    destruct (decide (p' = p /\ va' / 4096 = va / 4096)) as [E|E].
    - left. destruct E. by rewrite frame_new.
    - right. by repeat (split; [done|]). }
  split.
  - intros p' va' Hm. destruct (Hcase p' va' Hm) as [(_ & _ & ->)|(_ & Hm' & ->)]; auto.
  - intros p1 va1 p2 d2 Hm Hp2 Hd2 Ht.
    destruct (Htab p2 d2 _ Hp2 Hd2 Ht) as [Ht'|[Eq Hr0]];
      destruct (Hcase p1 va1 Hm) as [(_ & _ & E)|(_ & Hm' & E)]; rewrite E in *.
    + destruct Ht' as [_ U]. congruence.
    + by apply (Hdt p1 va1 p2 d2).
    + destruct (Hr Hr0). congruence.
    + destruct (Hr Hr0). pose proof (Hdu p1 va1 Hm'). congruence.
  - intros p1 va1 p2 va2 Hm1 Hm2 Ef.
    destruct (Hcase p1 va1 Hm1) as [(-> & E1 & F1)|(_ & Hm1' & F1)];
      destruct (Hcase p2 va2 Hm2) as [(-> & E2 & F2)|(_ & Hm2' & F2)]; rewrite F1, F2 in Ef.
    + split; [done|]. by rewrite E1, E2.
    + pose proof (Hdu p2 va2 Hm2'). congruence.
    + pose proof (Hdu p1 va1 Hm1'). congruence.
    + by apply Hdi.
Qed.

Lemma set_pt_lk_inv s l : mpt_inv s -> mpt_inv (set_pt_lk l s).
Proof. intros []. by split. Qed.

(** Allocating without mapping keeps pages apart. *)
Lemma data_inv_same s s' :
  data_inv s -> same_map s s' -> tables_after s s' 0 ->
  (forall j, ct_used (ct s) j = true -> ct_used (ct s') j = true) -> data_inv s'.
Proof.
  intros [Hdu Hdt Hdi] Hsame Htab Hmono.
  assert (Hl : forall p va, mapped s' p va -> lookup_va s' p va = lookup_va s p va)
    by (intros p va (? & Hva & _); apply Hsame; [lia | by apply user_va_index]).
  assert (Hm : forall p va, mapped s' p va -> mapped s p va /\ frame s' p va = frame s p va).
  { intros p va Hm. pose proof (Hl _ _ Hm) as E. unfold frame. rewrite E.
    destruct Hm as (? & ? & Hne). rewrite E in Hne. by split_and!. }
  split.
  - intros p va Hmp. destruct (Hm p va Hmp) as [? ->]. auto.
  - intros p va p' d' Hmp Hp' Hd' Ht. destruct (Hm p va Hmp) as [Hmp' E]. rewrite E in Ht.
    destruct (Htab p' d' _ Hp' Hd' Ht) as [?|[_ ?]]; [|done]. by eapply (Hdt p va p' d').
  - intros p va p' va' H1 H2 Ef. destruct (Hm _ _ H1) as [? E1], (Hm _ _ H2) as [? E2].
    rewrite E1, E2 in Ef. by apply Hdi.
Qed.

Lemma used_after_mono s s' i j : used_after s s' i -> ct_used (ct s) j = true -> ct_used (ct s') j = true.
Proof. intros [_ Hus] Hj. rewrite Hus. by destruct (decide _). Qed.

(** container_alloc fails for [p] at once, or after one more page. *)
Definition alloc_fails (ks : kstack) (p : Z) (c : C) : Prop :=
  (exists c', container_alloc ks p c = Ok 0 c') \/
  (exists i c' c'', container_alloc ks p c = Ok i c' /\ container_alloc ks p c' = Ok 0 c'').

Lemma alloc_page_spec ks p va perm s :
  mpt_inv s -> 0 < p < NUM_IDS -> user_va va -> magic ks = KSTACK_MAGIC -> 0 <= perm < 4096 ->
  lock (pt_lk s) = 0 ->
  exists r s', alloc_page ks p va perm s = Ok r s' /\ mpt_inv s' /\ lock (pt_lk s') = 0 /\
    ((r = MagicNumber /\ same_map s s' /\ alloc_fails ks p (ct s)) \/
     (exists pi, r <> MagicNumber /\ ct_used (ct s) pi = false /\ ct_used (ct s') pi = true /\
        0x40000 <= pi < 0xf0000 /\ map_updated s s' p va (pi * 4096 + perm))) /\
    (data_inv s -> data_inv s').
Proof.
  intros Hinv Hp Hva Hm Hperm Hlk. unfold alloc_page.
  erewrite bind_Ok by (by apply zoom_Ok, spinlock_acquire_run).
  set (s0 := lput lk_lens _ s).
  assert (Hinv0 : mpt_inv s0) by (by apply set_pt_lk_inv).
  destruct (alloc_frame ks p s0 Hinv0 ltac:(lia) Hm) as (pi & c' & Hraw & Hrun & Hc' & Hua).
  erewrite bind_Ok by exact Hrun.
  assert (Hinv1 : mpt_inv (set_ct c' s0)) by (by eapply set_ct_inv).
  destruct (Z.eqb_spec pi 0) as [->|Hpi].
  { krun. erewrite bind_Ok by reflexivity. eexists _, _. split; [reflexivity|].
    split; [by apply set_pt_lk_inv|]. split; [done|].
    split; [left; split_and!; [done | done | left; by exists c']|].
    intros Hdata. apply (data_inv_same s); [done | done | by apply (set_ct_tables s) |].
    intros k. by apply (used_after_mono s0 (set_ct c' s0) 0). }
  destruct (proj1 Hua Hpi) as [Hfresh Hrange].
  destruct (map_page_spec ks p va pi perm (set_ct c' s0)) as (r & s2 & Hmap & Hinv2 & Hres);
    [done | done | done | done | lia | lia | lia |].
  erewrite bind_Ok by exact Hmap. erewrite bind_Ok by reflexivity.
  eexists _, _. split; [reflexivity|]. split; [by apply set_pt_lk_inv|]. split; [done|].
  assert (Hup : ct_used c' pi = true) by (destruct Hua as [_ Hus]; by rewrite Hus, decide_True).
  pose proof (fun k => used_after_mono s0 (set_ct c' s0) pi k Hua) as Hmono1.
  pose proof (set_ct_tables s0 c' Hinv0 Hc') as Htab1.
  destruct Hres as [(-> & _ & (c2 & Hraw2) & Hsame & Hua2 & Htab2)|(Hr & Hupd & Hua2 & Htab2 & _)];
    pose proof (fun k => used_after_mono _ _ _ k Hua2) as Hmono2.
  - split; [left; split_and!; [done | done | right; by exists pi, c', c2]|]. intros Hdata.
    apply (data_inv_same s); [done | done | | auto].
    intros p' d' q Hp' Hd' Ht. apply Htab2 in Ht as [Ht|?]; [|auto..]. by apply Htab1.
  - split.
    { right. exists pi. split_and!; try done; try lia. by apply Hmono2. }
    intros Hdata. apply (data_inv_map s _ p va pi perm r); try done.
    + by apply set_pt_lk_inv.
    + by apply Hmono2.
    + auto.
    + intros p' d' q Hp' Hd' Ht. apply Htab2 in Ht as [Ht|?]; [|auto..].
      apply Htab1 in Ht as [?|[_ ?]]; [auto|done..].
    + intros Hr0. destruct Hua2 as [Hnew2 _]. destruct (Hnew2 Hr0) as [Hu2 _]. cbn in Hu2.
      destruct Hua as [_ Hus]. cbn in Hus. rewrite Hus in Hu2.
      destruct (decide (pi <> 0 /\ r = pi)); [done|]. split; [done|]. intros ->. tauto.
Qed.

(** alloc_page, the page-fault handler's allocator: on success the page of
    [va] translates to a page that nobody was using, and that is now in use, and
    no other translation of any process changes; it fails only if container_alloc
    refuses the page or the page table, and then no translation changes.  The lock is free again in both cases. *)
Theorem alloc_page_correct ks p va perm s :
  mpt_inv s -> 0 < p < NUM_IDS -> user_va va -> magic ks = KSTACK_MAGIC -> 0 <= perm < 4096 ->
  lock (pt_lk s) = 0 ->
  exists r s', alloc_page ks p va perm s = Ok r s' /\ mpt_inv s' /\ lock (pt_lk s') = 0 /\
    ((r = MagicNumber /\ same_map s s' /\ alloc_fails ks p (ct s)) \/
     (exists pi, r <> MagicNumber /\ ct_used (ct s) pi = false /\ ct_used (ct s') pi = true /\
        0x40000 <= pi < 0xf0000 /\ map_updated s s' p va (pi * 4096 + perm))).
Proof.
  intros Hinv Hp Hva Hm Hperm Hlk.
  destruct (alloc_page_spec ks p va perm s) as (r & s' & ? & ? & ? & ? & _); try done.
  by exists r, s'.
Qed.

(** (C7) Isolation: alloc_page preserves that distinct user pages, of one process
    or of two, never share a physical page, and that no page table is mapped
    into user memory. *)
Theorem alloc_page_isolation ks p va perm s :
  mpt_inv s -> 0 < p < NUM_IDS -> user_va va -> magic ks = KSTACK_MAGIC -> 0 <= perm < 4096 ->
  lock (pt_lk s) = 0 -> data_inv s ->
  exists r s', alloc_page ks p va perm s = Ok r s' /\ data_inv s' /\
    forall p1 va1 p2 va2, mapped s' p1 va1 -> mapped s' p2 va2 ->
      ~ (p1 = p2 /\ va1 / 4096 = va2 / 4096) ->
      frame s' p1 va1 <> frame s' p2 va2.
Proof.
  intros Hinv Hp Hva Hm Hperm Hlk Hdata.
  destruct (alloc_page_spec ks p va perm s) as (r & s' & Hrun & ? & ? & ? & Hd); try done.
  exists r, s'. split_and!; [done | auto |]. intros p1 va1 p2 va2 Hm1 Hm2 Hne E. apply Hne.
  by apply (di_inj s' (Hd Hdata)).
Qed.

(** free_ptbl removes the page table for [va]: the whole 4 MiB slot of [va]
    is unmapped in [p], everything else is translated as before, and the page of
    the table is given back. *)
Theorem free_ptbl_correct ks p va s :
  mpt_inv s -> 0 < p < NUM_IDS -> user_va va -> magic ks = KSTACK_MAGIC ->
  exists s', free_ptbl ks p va s = Ok tt s' /\ mpt_inv s' /\
    (forall p' va', 0 <= p' < NUM_IDS -> is_u32 va' ->
       lookup_va s' p' va' =
         if decide (p' = p /\ pde_index va' = pde_index va) then 0 else lookup_va s p' va') /\
    (forall pi, has_table s p (pde_index va) pi -> ct_used (ct s') pi = false).
Proof.
  intros Hinv Hp Hva Hm. destruct (user_va_index va Hva) as [Hva32 Hd].
  set (i := pde s p (pde_index va) / PAGESIZE).
  assert (Hi : 0 <= i < 2 ^ 20 /\ forall pi, has_table s p (pde_index va) pi -> i = pi).
  { unfold i. destruct (mi_user s Hinv p (pde_index va)) as [E|(pi & Ht)]; [lia | lia | |].
    - rewrite E. change (0 / PAGESIZE) with 0. split; [lia|]. intros pi [E2 U].
      pose proof (ct_used_range _ _ (mi_ct s Hinv) U). lia.
    - pose proof (ct_used_range _ _ (mi_ct s Hinv) (proj2 Ht)).
      assert (E : pde s p (pde_index va) / PAGESIZE = pi)
        by (rewrite (proj1 Ht); unfold PAGESIZE; rewrite Z.div_add_l, Z.div_small; lia).
      rewrite E. split; [lia|]. intros pi' [E2 _]. destruct Ht. lia. }
  destruct (ct_free ks p i (ct s) (mi_ct s Hinv) Hm ltac:(lia) ltac:(lia)) as (c' & Hrun & Hc' & Hus).
  destruct (free_user_slot s p va c' Hinv Hp Hva Hc' Hus) as [Hinv' Hmap].
  eexists. split; [|split; [exact Hinv' | split; [exact Hmap|]]].
  - unfold free_ptbl, get_pdir_entry_by_va, rmv_pdir_entry_by_va, rmv_pdir_entry.
    erewrite bind_Ok by (apply get_pdir_entry_run; lia).
    erewrite bind_Ok by (apply put_pdir_entry_run; lia). by apply zoom_Ok.
  - intros pi Ht. cbn. by rewrite Hus, decide_True by (symmetry; by apply Hi).
Qed.

End ops.
End MPT.

(** ** The containers meet the interface *)
Module ContainerPages.
Import MContainer MATPageAlloc.

Abbreviation kcontainer := (MContainer.state MATIntro.state).

#[export] Instance mcontainer_containers : Containers kcontainer := {
  container_alloc := MContainer.container_alloc;
  container_free := MContainer.container_free;
  container_split := MContainer.container_split
}.

#[export] Program Instance mcontainer_containers_spec : ContainersSpec kcontainer := {
  ct_inv := cinv;
  ct_used c i := MATIntro.used_page (pa c) i
}.
Next Obligation.
  intros c i [[_ _ _ Hnorm Hused] _ _ _ _ _] Hu.
  by apply MATInit.user_page, Hnorm, Hused.
Qed.
Next Obligation.
  intros ks id c Hinv Hm Hid.
  destruct (proj1 (wp_run _ _ _) (container_alloc_wp ks id c Hinv Hid Hm))
    as (i & c' & Hrun & Hinv' & Hres).
  exists i, c'. split_and!; try done.
  - intros Hi. destruct Hres as [(_ & -> & _)|(_ & _ & [->|Hin] & _)]; [done | done |].
    destruct (MATIntro.used_page (pa c) i) eqn:E; [|done].
    by destruct (pa_used_not_free (pa c) i (ci_pa c Hinv) E).
  - intros j. destruct Hres as [(_ & -> & ->)|(_ & _ & _ & _ & Hus)].
    + by rewrite decide_False by tauto.
    + apply Hus.
Qed.
Next Obligation.
  intros ks id i c Hinv Hm Hid Hi.
  destruct (proj1 (wp_run _ _ _) (container_free_wp ks id i c Hinv Hid Hi Hm))
    as ([] & c' & Hrun & Hinv' & Hres).
  exists c'. split_and!; try done. intros j. unfold free_result in Hres. cbn in Hres.
  destruct (MATIntro.used_page (pa c) i) eqn:E.
  - destruct Hres as (_ & Hus & _). apply Hus.
  - subst c'. by destruct (decide (j = i)) as [->|].
Qed.

(** A kernel whose page structures have just been initialised. *)
Definition demo_base : Z := 0x200000.

Lemma demo_base_ok : MPT.base_ok demo_base.
Proof. unfold MPT.base_ok, demo_base. by split_and!. Qed.

Definition demo_boot : MPT.state kcontainer :=
  MPT.State MContainerCorrect.demo (Spinlock (NUM_CPUS + 1) 0) ∅ ∅ 0 0 0.

(** The containers of [demo_boot] are already initialised. *)
Definition demo_cinit : K kcontainer unit := fun c => Ok tt c.

Lemma demo_ct : ct_inv MContainerCorrect.demo.
Proof. exact MContainerCorrect.demo_cinv. Qed.

Lemma demo_mpt : exists s : MPT.state kcontainer,
  MPT.mpt_inv demo_base s /\ lock (MPT.pt_lk s) = 0 /\ MPT.data_inv s.
Proof.
  destruct (proj1 (wp_run _ _ _) (MPT.pdir_init_kern_wp demo_base demo_base_ok
    demo_cinit MContainerCorrect.demo demo_boot eq_refl demo_ct))
    as ([] & s & _ & H & _ & Hlk & Hempty).
  exists s. split; [done|]. split; [by rewrite Hlk|]. by apply MPT.data_inv_empty.
Qed.


Lemma map_page_correct_witness :
  exists (s : MPT.state kcontainer) r s',
    MPT.map_page MATCorrect.demo_kstack 1 0x40000000 5 7 s = Ok r s' /\ MPT.mpt_inv demo_base s'.
Proof.
  destruct demo_mpt as (s & Hinv & _).
  destruct (MPT.map_page_correct demo_base demo_base_ok MATCorrect.demo_kstack 1 0x40000000 5 7 s)
    as (r & s' & H1 & H2 & _).
  - exact Hinv.
  - unfold NUM_IDS; lia.
  - unfold MPT.user_va; lia.
  - reflexivity.
  - lia.
  - lia.
  - lia.
  - exists s, r, s'. split; assumption.
Defined.

Lemma unmap_page_correct_witness :
  exists (s s' : MPT.state kcontainer),
    MPT.unmap_page 1 0x40000000 s = Ok (MPT.lookup_va s 1 0x40000000) s' /\ MPT.mpt_inv demo_base s'.
Proof.
  destruct demo_mpt as (s & Hinv & _).
  destruct (MPT.unmap_page_correct demo_base demo_base_ok 1 0x40000000 s) as (s' & H1 & H2 & _).
  - exact Hinv.
  - unfold NUM_IDS; lia.
  - unfold MPT.user_va; lia.
  - exists s, s'. split; assumption.
Defined.

Lemma alloc_page_correct_witness :
  exists (s : MPT.state kcontainer) r s',
    MPT.alloc_page MATCorrect.demo_kstack 1 0x40000000 7 s = Ok r s' /\ MPT.mpt_inv demo_base s'.
Proof.
  destruct demo_mpt as (s & Hinv & Hlk & _).
  destruct (MPT.alloc_page_correct demo_base demo_base_ok MATCorrect.demo_kstack 1 0x40000000 7 s)
    as (r & s' & H1 & H2 & _).
  - exact Hinv.
  - unfold NUM_IDS; lia.
  - unfold MPT.user_va; lia.
  - reflexivity.
  - lia.
  - exact Hlk.
  - exists s, r, s'. split; assumption.
Defined.

Lemma alloc_page_isolation_witness :
  exists (s : MPT.state kcontainer) r s',
    MPT.alloc_page MATCorrect.demo_kstack 1 0x40000000 7 s = Ok r s' /\ MPT.data_inv s'.
Proof.
  destruct demo_mpt as (s & Hinv & Hlk & Hdata).
  destruct (MPT.alloc_page_isolation demo_base demo_base_ok MATCorrect.demo_kstack 1 0x40000000 7 s)
    as (r & s' & H1 & H2 & _).
  - exact Hinv.
  - unfold NUM_IDS; lia.
  - unfold MPT.user_va; lia.
  - reflexivity.
  - lia.
  - exact Hlk.
  - exact Hdata.
  - exists s, r, s'. split; assumption.
Defined.

Lemma free_ptbl_correct_witness :
  exists (s s' : MPT.state kcontainer),
    MPT.free_ptbl MATCorrect.demo_kstack 1 0x40000000 s = Ok tt s' /\ MPT.mpt_inv demo_base s'.
Proof.
  destruct demo_mpt as (s & Hinv & _).
  destruct (MPT.free_ptbl_correct demo_base MATCorrect.demo_kstack 1 0x40000000 s)
    as (s' & H1 & H2 & _).
  - exact Hinv.
  - unfold NUM_IDS; lia.
  - unfold MPT.user_va; lia.
  - reflexivity.
  - exists s, s'. split; assumption.
Defined.

End ContainerPages.
