(* ===== verification/Pmap.v ===== *)
(** * Copying between kernel and user memory (kern/lib/pmap.c) and loading
    programs (kern/lib/elf.c)

    Both walk the page structure of a process and work on physical memory.  A
    page that is not present is allocated on the way. *)

From S2P Require Import Prelude Types Spinlock Mboot MAT Container Memory VMM.

Module Pmap.
Import MPT.

Definition VM_USERLO : Z := 0x40000000.
Definition VM_USERHI : Z := 0xf0000000.
#[export] Hint Unfold VM_USERLO VM_USERHI : kconst.

Section ops.
Context {C : Type} `{!Containers C}.
Context (ks : kstack).

(** The body of the three loops up to the physical address: look the page up,
    allocate it if it is not present (the result of alloc_page is ignored) and
    look it up again. *)
Definition user_pa (pmap_id uva : Z) : K (MPT.state C) Z :=
  uva_pa ← get_ptbl_entry_by_va pmap_id uva;
  uva_pa ← (if Z.land uva_pa PTE_P =? 0 then
              alloc_page ks pmap_id uva (Z.lor (Z.lor PTE_P PTE_U) PTE_W) ;;
              get_ptbl_entry_by_va pmap_id uva
            else mret uva_pa);
  mret (u32 (Z.land uva_pa 0xfffff000 + uva mod PAGESIZE)).

(** What is left of the page, or of the buffer. *)
Definition chunk (len pa : Z) : Z :=
  if len <? PAGESIZE - pa mod PAGESIZE then len else PAGESIZE - pa mod PAGESIZE.

(** The locals of the copy loops. *)
Record copy_locals : Type := Locals { c_len : Z; c_uva : Z; c_kva : Z; c_copied : Z }.

Definition copyin_body (pmap_id : Z) (v : copy_locals)
    : K (MPT.state C) (copy_locals + Z) :=
  if c_len v =? 0 then mret (inr (c_copied v))
  else
    uva_pa ← user_pa pmap_id (c_uva v);
    let size := chunk (c_len v) uva_pa in
    modify (fun s => set_pmem (memcpy (c_kva v) uva_pa size (pmem s)) s) ;;
    mret (inl (Locals (u32 (c_len v - size)) (u32 (c_uva v + size)) (u32 (c_kva v + size))
                 (u32 (c_copied v + size)))).

Definition copyout_body (pmap_id : Z) (v : copy_locals)
    : K (MPT.state C) (copy_locals + Z) :=
  if c_len v =? 0 then mret (inr (c_copied v))
  else
    uva_pa ← user_pa pmap_id (c_uva v);
    let size := chunk (c_len v) uva_pa in
    modify (fun s => set_pmem (memcpy uva_pa (c_kva v) size (pmem s)) s) ;;
    mret (inl (Locals (u32 (c_len v - size)) (u32 (c_uva v + size)) (u32 (c_kva v + size))
                 (u32 (c_copied v + size)))).

(** The range checks: both sums are computed in a word. *)
Definition range_ok (uva kva len : Z) : bool :=
  (VM_USERLO <=? uva) && (u32 (uva + len) <=? VM_USERHI) && negb (VM_USERHI <? u32 (kva + len)).

(** Every round copies at least one byte: [len + 1] rounds suffice. *)
Definition pt_copyin (pmap_id uva kva len : Z) : K (MPT.state C) Z :=
  if range_ok uva kva len
  then loop (Datatypes.S (Z.to_nat len)) (copyin_body pmap_id) (Locals len uva kva 0)
  else mret 0.

Definition pt_copyout (kva pmap_id uva len : Z) : K (MPT.state C) Z :=
  if range_ok uva kva len
  then loop (Datatypes.S (Z.to_nat len)) (copyout_body pmap_id) (Locals len uva kva 0)
  else mret 0.

Definition memset_body (pmap_id c : Z) (v : Z * Z * Z) : K (MPT.state C) (Z * Z * Z + Z) :=
  let '(len, va, set) := v in
  if len =? 0 then mret (inr set)
  else
    pa ← user_pa pmap_id va;
    let size := chunk len pa in
    modify (fun s => set_pmem (memset pa c size (pmem s)) s) ;;
    mret (inl (u32 (len - size), u32 (va + size), u32 (set + size))).

Definition pt_memset (pmap_id va c len : Z) : K (MPT.state C) Z :=
  loop (Datatypes.S (Z.to_nat len)) (memset_body pmap_id c) (len, va, 0).

(** ** elf.c *)

Definition ELF_MAGIC : Z := 0x464C457F.
Definition ELF_PROG_LOAD : Z := 1.
Definition ELF_PROG_FLAG_WRITE : Z := 2.
Definition ELF_SHT_STRTAB : Z := 3.
Definition ELF_SHN_UNDEF : Z := 0.

Definition load16 (m : mem) (a : Z) : Z := m !!! u32 a + 2 ^ 8 * (m !!! u32 (a + 1)).

(** The header fields, at their offsets in the packed structures. *)
Definition e_magic (m : mem) (eh : Z) : Z := load32 m eh.
Definition e_entry (m : mem) (eh : Z) : Z := load32 m (eh + 24).
Definition e_phoff (m : mem) (eh : Z) : Z := load32 m (eh + 28).
Definition e_shoff (m : mem) (eh : Z) : Z := load32 m (eh + 32).
Definition e_phnum (m : mem) (eh : Z) : Z := load16 m (eh + 44).
Definition e_shstrndx (m : mem) (eh : Z) : Z := load16 m (eh + 50).

Record proghdr : Type := Proghdr {
  p_type : Z; p_offset : Z; p_va : Z; p_filesz : Z; p_memsz : Z; p_flags : Z
}.
Definition read_proghdr (m : mem) (ph : Z) : proghdr :=
  Proghdr (load32 m ph) (load32 m (ph + 4)) (load32 m (ph + 8)) (load32 m (ph + 16))
    (load32 m (ph + 20)) (load32 m (ph + 24)).

(** One round of the inner loop of elf_load: the page at [va], its contents in
    the file at [fa]. *)
Definition load_page (pid : Z) (ph : proghdr) (zva perm va fa : Z) : K (MPT.state C) unit :=
  alloc_page ks pid va perm ;;
  if va <? rounddown zva PAGESIZE then
    pt_copyout fa pid va PAGESIZE ;; mret tt
  else if (va <? zva) && negb (p_filesz ph =? 0) then
    pt_memset pid va 0 PAGESIZE ;;
    pt_copyout fa pid va (u32 (zva - va)) ;; mret tt
  else
    pt_memset pid va 0 PAGESIZE ;; mret tt.

Definition load_body (pid : Z) (ph : proghdr) (zva eva perm : Z) (v : Z * Z)
    : K (MPT.state C) (Z * Z + unit) :=
  let '(va, fa) := v in
  if va <? eva then
    load_page pid ph zva perm va fa ;;
    mret (inl (u32 (va + PAGESIZE), u32 (fa + PAGESIZE)))
  else mret (inr tt).

(** One program header; [va] and [eva] are page aligned, so the inner loop ends
    after [(eva - va) / PAGESIZE] rounds. *)
Definition load_segment (eh pid : Z) (ph : proghdr) : K (MPT.state C) unit :=
  if negb (p_type ph =? ELF_PROG_LOAD) then mret tt
  else
    let fa := u32 (eh + rounddown (p_offset ph) PAGESIZE) in
    let va := rounddown (p_va ph) PAGESIZE in
    let zva := u32 (p_va ph + p_filesz ph) in
    let eva := roundup (u32 (p_va ph + p_memsz ph)) PAGESIZE in
    let perm := Z.lor PTE_U PTE_P in
    let perm := if negb (Z.land (p_flags ph) ELF_PROG_FLAG_WRITE =? 0)
                then Z.lor perm PTE_W else perm in
    loop (Datatypes.S (Datatypes.S (Z.to_nat ((eva - va) / PAGESIZE))))
      (load_body pid ph zva eva perm) (va, fa).

Definition elf_load (exe pid : Z) : K (MPT.state C) unit :=
  m ← gets pmem;
  let eh := exe in
  kassert (e_magic m eh =? ELF_MAGIC) "eh->e_magic == ELF_MAGIC" ;;
  kassert (negb (e_shstrndx m eh =? ELF_SHN_UNDEF)) "eh->e_shstrndx != ELF_SHN_UNDEF" ;;
  let sh := u32 (eh + e_shoff m eh) in
  kassert (load32 m (sh + e_shstrndx m eh * 40 + 4) =? ELF_SHT_STRTAB)
    "sh[eh->e_shstrndx].sh_type == ELF_SHT_STRTAB" ;;
  let ph := u32 (eh + e_phoff m eh) in
  for_ 0 (e_phnum m eh) (fun i =>
    m ← gets pmem;
    load_segment eh pid (read_proghdr m (ph + i * 32))).

Definition elf_entry (exe : Z) : K (MPT.state C) Z :=
  m ← gets pmem;
  kassert (e_magic m exe =? ELF_MAGIC) "eh->e_magic == ELF_MAGIC" ;;
  mret (e_entry m exe).

End ops.

(** ** Correctness *)
Section specs.
Context {C : Type} `{!Containers C, !ContainersSpec C}.
Context (base : Z) (Hbase : base_ok base).
Context (ks : kstack).
Implicit Types s : MPT.state C.

(** The physical address of [va] in process [p]. *)
Definition paddr s (p va : Z) : Z := frame s p va * 4096 + va mod 4096.
Definition vbyte s (p va : Z) : Z := pmem s !!! paddr s p va.
Definition present s (p va : Z) : Prop := Z.land (lookup_va s p va) PTE_P <> 0.

Lemma present_mapped s p va :
  0 < p < NUM_IDS -> user_va va -> present s p va -> mapped s p va.
Proof.
  intros Hp Hva Hpr. split_and!; try apply Hp; try apply Hva. intros E.
  unfold present in Hpr. by rewrite E in Hpr.
Qed.

Lemma lookup_va_same_page s p va va' : va / 4096 = va' / 4096 -> lookup_va s p va = lookup_va s p va'.
Proof. intros [E1 E2]%same_page. unfold lookup_va. by rewrite E1, E2. Qed.

Section data.
Context (s : MPT.state C) (Hinv : mpt_inv base s) (Hdata : data_inv s).

Lemma frame_range p va : mapped s p va -> 0x40000 <= frame s p va < 0xf0000.
Proof. intros Hm. apply (ct_used_range (ct s)); [apply Hinv | by apply (di_used s Hdata)]. Qed.

Lemma paddr_range p va : mapped s p va -> 0x40000000 <= paddr s p va < 0xf0000000.
Proof.
  intros Hm%frame_range. unfold paddr. pose proof (Z.mod_pos_bound va 4096). lia.
Qed.

Lemma paddr_inj p va p' va' : mapped s p va -> mapped s p' va' ->
  paddr s p va = paddr s p' va' -> p = p' /\ va = va'.
Proof.
  intros Hm Hm' E. unfold paddr in E.
  pose proof (Z.mod_pos_bound va 4096). pose proof (Z.mod_pos_bound va' 4096).
  destruct (di_inj s Hdata p va p' va' Hm Hm') as [-> Epg]; [lia|]. split; [done|].
  pose proof (Z.div_mod va 4096). pose proof (Z.div_mod va' 4096). lia.
Qed.

Lemma paddr_chunk p va j : 0 <= j -> va mod 4096 + j < 4096 -> paddr s p (va + j) = paddr s p va + j.
Proof.
  intros Hj Hlt. pose proof (Z.mod_pos_bound va 4096).
  pose proof (Z.div_mod va 4096 ltac:(lia)) as Hd.
  assert (Ediv : (va + j) / 4096 = va / 4096) by (symmetry; apply (Z.div_unique _ _ _ (va mod 4096 + j)); lia).
  assert (Emod : (va + j) mod 4096 = va mod 4096 + j)
    by (symmetry; apply (Z.mod_unique _ _ (va / 4096)); lia).
  unfold paddr, frame. rewrite (lookup_va_same_page s p (va + j) va) by done. lia.
Qed.

(** Writing to mapped user pages changes no translation. *)
Lemma lookup_set_pmem m' p va :
  0 <= p < NUM_IDS -> is_u32 va ->
  (forall a, (forall p' va', mapped s p' va' -> a / 4096 <> frame s p' va') ->
     m' !!! a = pmem s !!! a) ->
  lookup_va (set_pmem m' s) p va = lookup_va s p va.
Proof.
  intros Hp Hva Hm'. pose proof (pde_index_range va Hva) as Hd.
  pose proof (pte_index_range va) as Hj. unfold lookup_va.
  change (pde (set_pmem m' s) p (pde_index va)) with (pde s p (pde_index va)).
  change (entry_addr (set_pmem m' s)) with (entry_addr s). case_bool; [done|].
  destruct (pde_cases base s p (pde_index va) Hinv Hp Hd) as [(E & _)|[E|(q & Hq & Hqr)]]; [done| |].
  - rewrite (entry_addr_id base Hbase) by done.
    pose proof (idptbl_addr_range base Hbase _ _ Hd Hj).
    apply load32_ext; [lia | lia |]. intros a Ha. apply Hm'. intros p' va' Hmp Ef.
    pose proof (frame_range p' va' Hmp). pose proof (Z.mul_div_le a 4096). lia.
  - rewrite (entry_addr_table s p _ _ q) by done.
    apply load32_ext; [lia | lia |]. intros a Ha. apply Hm'. intros p' va' Hmp Ef.
    apply (di_table s Hdata p' va' p (pde_index va) Hmp Hp Hd). rewrite <- Ef.
    replace (a / 4096) with q; [done|]. apply (Z.div_unique _ _ _ (a - q * 4096)); lia.
Qed.

Lemma land_paddr p va : mapped s p va ->
  u32 (Z.land (lookup_va s p va) 0xfffff000 + va mod PAGESIZE) = paddr s p va.
Proof.
  intros Hm. pose proof (frame_range p va Hm) as Hf. pose proof (paddr_range p va Hm) as Hr.
  unfold paddr, frame in *. revert Hf Hr. generalize (lookup_va s p va). intros e Hf Hr.
  pose proof (Z.div_mod e 4096 ltac:(lia)) as He. pose proof (Z.mod_pos_bound e 4096).
  rewrite He at 1. rewrite (Z.mul_comm 4096), land_page by klia.
  change PAGESIZE with 4096. by rewrite u32_small by klia.
Qed.

Lemma user_pa_run p va : 0 < p < NUM_IDS -> user_va va -> present s p va ->
  user_pa ks p va s = Ok (paddr s p va) s.
Proof.
  intros Hp Hva Hpr. pose proof (present_mapped s p va Hp Hva Hpr) as Hm.
  destruct (user_va_index va Hva) as [Hva32 _]. unfold user_pa.
  erewrite bind_Ok by (apply get_ptbl_entry_by_va_run; done || lia).
  unfold present in Hpr. apply Z.eqb_neq in Hpr as ->. krun. by rewrite <- land_paddr.
Qed.
End data.

(** What the copy loop to user memory has done after [k] bytes. *)
Record copied_out s (p uva kva k : Z) (m' : mem) : Prop := {
  co_done : forall i, 0 <= i < k -> m' !!! paddr s p (uva + i) = pmem s !!! (kva + i);
  co_rest : forall a, (forall i, 0 <= i < k -> a <> paddr s p (uva + i)) ->
    m' !!! a = pmem s !!! a
}.

Lemma chunk_range len pa : 0 < len -> 0 < chunk len pa <= len /\ pa mod 4096 + chunk len pa <= 4096.
Proof.
  intros Hl. unfold chunk. change PAGESIZE with 4096. pose proof (Z.mod_pos_bound pa 4096).
  case_bool; lia.
Qed.

Lemma paddr_mod s p va : paddr s p va mod 4096 = va mod 4096.
Proof. unfold paddr. rewrite Z.add_comm, Z_mod_plus_full, Zmod_mod. done. Qed.

Lemma copied_out_step s p uva kva len k m' :
  mpt_inv base s -> data_inv s -> 0 < p < NUM_IDS ->
  0x40000000 <= uva -> uva + len <= 0xf0000000 -> 0 <= kva -> kva + len <= 0x40000000 ->
  (forall i, 0 <= i < len -> present s p (uva + i)) ->
  0 <= k < len -> copied_out s p uva kva k m' ->
  let pa := paddr s p (uva + k) in
  let size := chunk (len - k) pa in
  copied_out s p uva kva (k + size) (memcpy pa (kva + k) size m').
Proof.
  intros Hinv Hdata Hp Hlo Hhi Hk0 Hkh Hpr Hk [Hdone Hrest] pa size.
  destruct (chunk_range (len - k) pa ltac:(lia)) as [Hsz Hpg]. fold size in Hsz, Hpg.
  assert (Hm : forall i, 0 <= i < len -> mapped s p (uva + i))
    by (intros i Hi; apply present_mapped; [done | unfold user_va; lia | by apply Hpr]).
  pose proof (paddr_range s Hinv Hdata p (uva + k) (Hm k Hk)) as Hpa. fold pa in Hpa.
  unfold pa in Hpg at 1. rewrite paddr_mod in Hpg.
  assert (Hck : forall j, 0 <= j < size -> paddr s p (uva + (k + j)) = pa + j).
  { intros j Hj. rewrite Z.add_assoc. apply paddr_chunk; lia. }
  assert (Hlook : forall a, memcpy pa (kva + k) size m' !!! a =
    if decide (pa <= a < pa + size) then m' !!! (kva + k + (a - pa)) else m' !!! a).
  { intros a. unfold memcpy. pose proof (Z.mod_pos_bound (uva + k) 4096).
    apply memmove_lookup; lia. }
  split.
  - intros i Hi. rewrite Hlook. destruct (decide (i < k)) as [Hik|Hik].
    + rewrite decide_False; [by apply Hdone; lia|]. intros Hin.
      pose proof (Hck (paddr s p (uva + i) - pa) ltac:(lia)) as Hc.
      replace (pa + (paddr s p (uva + i) - pa)) with (paddr s p (uva + i)) in Hc by lia.
      apply (paddr_inj s Hdata) in Hc as [_ ?]; [lia | apply Hm; lia | apply Hm; lia].
    + pose proof (Hck (i - k) ltac:(lia)) as Hc. replace (k + (i - k)) with i in Hc by lia.
      rewrite Hc, decide_True by lia.
      replace (kva + k + (pa + (i - k) - pa)) with (kva + i) by lia.
      apply Hrest. intros j Hj E.
      pose proof (paddr_range s Hinv Hdata p (uva + j) (Hm j ltac:(lia))). lia.
  - intros a Ha. rewrite Hlook, decide_False.
    + apply Hrest. intros i Hi. apply Ha. lia.
    + intros Hin. apply (Ha (k + (a - pa))); [lia|]. rewrite Hck by lia. lia.
Qed.

(** The translations of a state that differs in user pages only. *)
Lemma copied_out_lookup s p uva kva len k m' p' va' :
  mpt_inv base s -> data_inv s -> 0 < p < NUM_IDS ->
  0x40000000 <= uva -> uva + len <= 0xf0000000 ->
  (forall i, 0 <= i < len -> present s p (uva + i)) ->
  0 <= k <= len -> copied_out s p uva kva k m' -> 0 <= p' < NUM_IDS -> is_u32 va' ->
  lookup_va (set_pmem m' s) p' va' = lookup_va s p' va'.
Proof.
  intros Hinv Hdata Hp Hlo Hhi Hpr Hk [_ Hrest] Hp' Hva'. apply lookup_set_pmem; try done.
  intros a Ha. apply Hrest. intros i Hi ->.
  apply (Ha p (uva + i)); [apply present_mapped; [done | unfold user_va; lia | apply Hpr; lia]|].
  unfold paddr. rewrite Z.div_add_l, Z.div_small by (lia || (apply Z.mod_pos_bound; lia)). lia.
Qed.


(** The range check of pt_copyin and pt_copyout wraps around: a length close
    to 2^32 passes although the range runs through the top of user memory into the
    kernel's addresses. *)
Theorem copy_range_wraps uva kva :
  0x40000000 <= uva -> uva < 0xf0000000 -> 0 <= kva <= uva ->
  range_ok uva kva (2 ^ 32 - kva) = true /\ VM_USERHI < uva + (2 ^ 32 - kva).
Proof.
  intros H1 H2 H3. unfold range_ok, VM_USERLO, VM_USERHI. split; [|lia].
  replace (uva + (2 ^ 32 - kva)) with (uva - kva + 1 * 2 ^ 32) by lia.
  replace (kva + (2 ^ 32 - kva)) with (0 + 1 * 2 ^ 32) by lia.
  unfold u32. rewrite !Z_mod_plus_full, !Z.mod_small by lia. by bool_simp.
Qed.

Lemma copy_range_wraps_witness : range_ok 0x40000000 0x100000 (2 ^ 32 - 0x100000) = true.
Proof. apply copy_range_wraps; lia. Defined.

(** When alloc_page fails the copy goes on at physical page 0: the address
    computed for an unmapped user page is its offset in low kernel memory. *)
Theorem user_pa_failed_alloc s p va s' :
  0 < p < NUM_IDS -> user_va va -> lookup_va s p va = 0 ->
  alloc_page ks p va 7 s = Ok MagicNumber s' -> same_map s s' ->
  user_pa ks p va s = Ok (va mod 4096) s'.
Proof.
  intros Hp Hva Hl Ha Hsame. destruct (user_va_index va Hva) as [Hva32 _]. unfold user_pa.
  erewrite bind_Ok by (apply get_ptbl_entry_by_va_run; done || lia). rewrite Hl.
  change (Z.land 0 PTE_P =? 0) with true. cbv iota.
  erewrite bind_Ok.
  2:{ erewrite bind_Ok by exact Ha. apply get_ptbl_entry_by_va_run; done || lia. }
  rewrite Hsame, Hl by (done || lia). unfold mret, K_ret. f_equal.
  rewrite Z.land_0_l, Z.add_0_l.
  pose proof (Z.mod_pos_bound va 4096). rewrite u32_small; change PAGESIZE with 4096; klia.
Qed.

End specs.
End Pmap.

(** ** A process with one page mapped *)
Module PmapDemo.
Import MContainer MATPageAlloc ContainerPages MPT Pmap.

(** Three free pages; process 1 may use two of them. *)
Definition mat3 : MATIntro.state :=
  MATIntro.State Mboot.boot_state (Spinlock (NUM_CPUS + 1) 0) 0x40004
    (<[0x40001 := MATIntro.MkAT 2 0]> (<[0x40002 := MATIntro.MkAT 2 0]>
      (<[0x40003 := MATIntro.MkAT 2 0]> ∅))) 0x40000.

Definition cont3 : kcontainer :=
  MContainer.State mat3 (split_post (<[0 := root_container 3]> ∅) 0 2 1).

Lemma mat3_norm i : MATIntro.norm_page mat3 i = true -> i ∈ [0x40001; 0x40002; 0x40003].
Proof.
  intros Hi. destruct (decide (i ∈ [0x40001; 0x40002; 0x40003])) as [Hin|Hout]; [done|].
  exfalso. revert Hi. unfold MATIntro.norm_page, mat3; cbn [MATIntro.AT].
  by rewrite !lookup_total_insert_ne, lookup_total_empty by set_solver.
Qed.

Lemma mat3_inv : MATOp.alloc_inv mat3.
Proof.
  split; [done | cbn; unfold MATIntro.AT_SIZE; lia | cbn; unfold MATIntro.AT_SIZE; lia | |].
  - intros i Hin%mat3_norm.
    repeat (apply elem_of_cons in Hin as [->|Hin]; [split_and!; by vm_compute|]).
    by apply elem_of_nil in Hin.
  - intros i Hi. exfalso. revert Hi. unfold MATIntro.used_page, mat3; cbn [MATIntro.AT].
    destruct (decide (i = 0x40001)) as [->|]; [done|]. destruct (decide (i = 0x40002)) as [->|]; [done|].
    destruct (decide (i = 0x40003)) as [->|]; [done|].
    by rewrite !lookup_total_insert_ne, lookup_total_empty by done.
Qed.

Lemma mat3_size : size (MATOp.free_set mat3) = 3%nat.
Proof.
  assert (E : MATOp.free_set mat3 = list_to_set [0x40001; 0x40002; 0x40003]).
  { apply set_eq. intros i. rewrite MATOp.elem_of_free_set by apply mat3_inv.
    rewrite elem_of_list_to_set. split.
    - intros [H _]%andb_true_iff. by apply mat3_norm.
    - intros Hin. repeat (apply elem_of_cons in Hin as [->|Hin]; [done|]).
      by apply elem_of_nil in Hin. }
  rewrite E, size_list_to_set; [done|]. apply (bool_decide_unpack _). vm_compute. exact I.
Qed.

Lemma cont3_inv : ct_inv cont3.
Proof.
  pose proof (root_cinv mat3 mat3_inv) as Hroot.
  change (pa_free mat3) with (MATOp.free_set mat3) in Hroot. rewrite mat3_size in Hroot.
  change (cinv cont3). unfold cont3.
  apply (split_post_inv (MContainer.State mat3 (<[0 := root_container 3]> ∅)) 0 2 Hroot).
  split; cbn [CONTAINER]; rewrite ?lookup_total_insert_eq; cbn;
    unfold NUM_IDS, MAX_CHILDREN; try lia; reflexivity.
Qed.

Lemma cont3_alloc : ~ alloc_fails MATCorrect.demo_kstack 1 cont3.
Proof.
  assert (H1 : exists c, VMM.container_alloc MATCorrect.demo_kstack 1 cont3 = Ok 0x40001 c /\
    exists c', VMM.container_alloc MATCorrect.demo_kstack 1 c = Ok 0x40002 c')
    by (eexists; split; [vm_compute; reflexivity | eexists; vm_compute; reflexivity]).
  destruct H1 as (c & H1 & c' & H2). intros [(c0 & E)|(i & c1 & c2 & E1 & E2)]; [by rewrite H1 in E|].
  rewrite H1 in E1. injection E1 as <- <-. by rewrite H2 in E2.
Qed.

Lemma page_mapped : exists (s : MPT.state kcontainer),
  mpt_inv demo_base s /\ data_inv s /\ present s 1 0x40000000.
Proof.
  set (s0 := MPT.State cont3 (Spinlock (NUM_CPUS + 1) 0) ∅ ∅ 0 0 0).
  destruct (proj1 (wp_run _ _ _) (pdir_init_kern_wp demo_base demo_base_ok
    demo_cinit cont3 s0 eq_refl cont3_inv)) as ([] & s & _ & Hinv & Hct & Hlk & Hempty).
  assert (Hva : user_va 0x40000000) by (unfold user_va; lia).
  destruct (alloc_page_spec demo_base demo_base_ok MATCorrect.demo_kstack 1 0x40000000 7 s)
    as (r & s' & _ & Hinv' & _ & [(_ & _ & Hf)|(pi & _ & _ & _ & Hpi & Hmap)] & Hdata);
    [done | unfold NUM_IDS; lia | done | done | lia | by rewrite Hlk | |].
  - rewrite Hct in Hf. by destruct cont3_alloc.
  - exists s'. split; [done|]. split; [by apply Hdata, data_inv_empty|].
    unfold present. rewrite Hmap by (unfold NUM_IDS, is_u32; lia). rewrite decide_True by done.
    change (Z.land (pi * 4096 + 7) PTE_P) with (Z.land (pi * 4096 + 7) (Z.ones 1)).
    rewrite Z.land_ones by lia. replace (pi * 4096 + 7) with (1 + (pi * 2048 + 3) * 2 ^ 1) by lia.
    by rewrite Z_mod_plus_full.
Qed.


Lemma demo_no_quota :
  VMM.container_alloc MATCorrect.demo_kstack 1 MContainerCorrect.demo = Ok 0 MContainerCorrect.demo.
Proof.
  change (MContainer.container_alloc MATCorrect.demo_kstack 1 MContainerCorrect.demo =
    Ok 0 MContainerCorrect.demo).
  unfold MContainer.container_alloc. erewrite bind_Ok by (apply cget_run; unfold NUM_IDS; lia).
  unfold MContainerCorrect.demo. cbn [CONTAINER].
  by rewrite lookup_total_insert_ne, lookup_total_empty by done.
Qed.

Lemma user_pa_failed_alloc_witness :
  exists (s s' : MPT.state kcontainer),
    user_pa MATCorrect.demo_kstack 1 0x40000123 s = Ok 0x123 s'.
Proof.
  destruct (proj1 (wp_run _ _ _) (pdir_init_kern_wp demo_base demo_base_ok
    demo_cinit MContainerCorrect.demo demo_boot eq_refl demo_ct))
    as ([] & s & _ & Hinv & Hct & Hlk & Hempty).
  assert (Hva : user_va 0x40000123) by (unfold user_va; lia).
  destruct (alloc_page_spec demo_base demo_base_ok MATCorrect.demo_kstack 1 0x40000123 7 s)
    as (r & s' & Hrun & Hinv' & _ & [(-> & Hsame & _)|(pi & Hr & _)] & _);
    [done | unfold NUM_IDS; lia | done | done | lia | by rewrite Hlk | |].
  - exists s, s'. apply (user_pa_failed_alloc MATCorrect.demo_kstack s 1 0x40000123 s').
    + unfold NUM_IDS; lia.
    + exact Hva.
    + unfold lookup_va. by rewrite Hempty by (unfold NUM_IDS; vm_compute; by split).
    + exact Hrun.
    + exact Hsame.
  - exfalso. revert Hrun. unfold alloc_page.
    erewrite bind_Ok by (apply zoom_Ok, spinlock_acquire_run; [done | cbn; by rewrite Hlk]).
    erewrite bind_Ok by (apply zoom_Ok; cbn [lget ct_lens ct lput lk_lens set_pt_lk]; rewrite Hct; apply demo_no_quota).
    cbn [Z.eqb]. unfold mbind, K_bind, mret, K_ret. cbn. intros [= <- _]. done.
Defined.

End PmapDemo.
