(* ===== verification/Thread.v ===== *)
(** * Threads and the scheduler (kern/pcpu, kern/thread)

    Per-processor data, thread control blocks, the index-based doubly linked
    thread queues, kernel contexts and the scheduler.  [ks] is the kernel stack
    the code runs on; it names the processor.  A context switch saves the
    processor's callee-saved registers and loads another thread's: what follows
    [kctx_switch] in the source runs when the thread is switched to again, and
    is a definition of its own ([thread_sleep_resume]). *)

From S2P Require Import Prelude Types Spinlock.

(** ** Per-processor structures (PCPUIntro.c, PCPUInit.c) *)
Module PCPU.

Record pcpu_t : Type := Pcpu {
  inited : bool; booted : bool; kstack_ptr : Z; vendor : Z; pcpu_idx : Z
}.
#[export] Instance pcpu_inhabited : Inhabited pcpu_t := populate (Pcpu false false 0 0 0).

Record state : Type := State { pcpu : gmap Z pcpu_t; pcpu_inited : bool }.

Definition upd (i : Z) (f : pcpu_t -> pcpu_t) : K state unit :=
  bounds NUM_CPUS i ;;
  modify (fun s => State (<[i := f (pcpu s !!! i)]> (pcpu s)) (pcpu_inited s)).
Definition read {A} (i : Z) (f : pcpu_t -> A) : K state A :=
  bounds NUM_CPUS i ;; gets (fun s => f (pcpu s !!! i)).

Definition pcpu_set_zero : K state unit :=
  modify (fun s => State ∅ (pcpu_inited s)).

Definition pcpu_fields_init (cpu : Z) : K state unit :=
  upd cpu (fun p => Pcpu true (booted p) (kstack_ptr p) (vendor p) (pcpu_idx p)) ;;
  upd cpu (fun p => Pcpu (inited p) (booted p) (kstack_ptr p) (vendor p) cpu).

(** [pcpu_cur()->cpu_idx], the index of the structure the stack names. *)
Definition get_pcpu_idx (ks : kstack) : K state Z := read (cpu_idx ks) pcpu_idx.

Definition set_pcpu_idx (index cpu : Z) : K state unit :=
  upd index (fun p => Pcpu (inited p) (booted p) (kstack_ptr p) (vendor p) cpu).
Definition get_pcpu_kstack_pointer (cpu : Z) : K state Z := read cpu kstack_ptr.
Definition set_pcpu_kstack_pointer (cpu v : Z) : K state unit :=
  upd cpu (fun p => Pcpu (inited p) (booted p) v (vendor p) (pcpu_idx p)).
Definition get_pcpu_boot_info (cpu : Z) : K state bool := read cpu booted.
Definition set_pcpu_boot_info (cpu : Z) (b : bool) : K state unit :=
  upd cpu (fun p => Pcpu (inited p) b (kstack_ptr p) (vendor p) (pcpu_idx p)).
Definition get_pcpu_cpu_vendor (cpu : Z) : K state Z := read cpu vendor.
Definition get_pcpu_inited_info (cpu : Z) : K state bool := read cpu inited.

(** [zero_arch], [mp_init] and [init_cpu] work on the architecture-dependent part
    of the structures, which belongs to kern/dev/pcpu_mp.c; [l] is the rest of
    them in the state of the caller, [sp] the stack page [ks]. *)
Definition pcpu_init {S} (l : lens S state) (zero_arch mp_init init_cpu : K S unit) (ks : kstack) (sp : Z)
    : K S unit :=
  let cpu := cpu_idx ks in
  i ← zoom l (gets pcpu_inited);
  if (cpu =? 0) && i then mret tt
  else
    when (cpu =? 0)
      ((zoom l pcpu_set_zero ;; zero_arch) ;;
       mp_init ;;
       zoom l (for_ 0 NUM_CPUS pcpu_fields_init) ;;
       zoom l (modify (fun s => State (pcpu s) true))) ;;
    zoom l (set_pcpu_idx cpu cpu) ;;
    zoom l (set_pcpu_kstack_pointer cpu sp) ;;
    zoom l (set_pcpu_boot_info cpu true) ;;
    init_cpu.

(** The structures of all processors carry their own index. *)
Definition pcpu_ok (s : state) : Prop :=
  forall i, 0 <= i < NUM_CPUS -> pcpu_idx (pcpu s !!! i) = i.

Lemma upd_run i f s : 0 <= i < NUM_CPUS ->
  upd i f s = Ok tt (State (<[i := f (pcpu s !!! i)]> (pcpu s)) (pcpu_inited s)).
Proof. intros Hi. unfold upd. by krun (by apply bounds_Ok). Qed.

Lemma get_pcpu_idx_run ks s : pcpu_ok s -> kstack_ok ks ->
  get_pcpu_idx ks s = Ok (cpu_idx ks) s.
Proof.
  intros Hok [Hi _]. unfold get_pcpu_idx, read. krun (by apply bounds_Ok).
  unfold gets. by rewrite Hok.
Qed.

Lemma insert_idx (m : gmap Z pcpu_t) i v j :
  pcpu_idx (<[i := v]> m !!! j) = if decide (j = i) then pcpu_idx v else pcpu_idx (m !!! j).
Proof.
  destruct (decide (j = i)) as [->|]; [by rewrite lookup_total_insert_eq|].
  by rewrite lookup_total_insert_ne.
Qed.

End PCPU.

(** ** Threads *)
Module Thread.

Inductive t_state : Type := TSTATE_READY | TSTATE_RUN | TSTATE_SLEEP | TSTATE_DEAD.
#[export] Instance t_state_eq_dec : EqDecision t_state.
Proof. solve_decision. Defined.

Record kctx : Type := Kctx { esp : Z; edi : Z; esi : Z; ebx : Z; ebp : Z; eip : Z }.
#[export] Instance kctx_inhabited : Inhabited kctx := populate (Kctx 0 0 0 0 0 0).

(** [openfiles] holds indices into the file table and [cwd] an index into the
    inode cache; [None] is the null pointer. *)
Record TCB : Type := MkTCB {
  tstate : t_state; prev : Z; next : Z; channel : Z;
  openfiles : gmap Z (option Z); cwd : option Z
}.
#[export] Instance TCB_inhabited : Inhabited TCB :=
  populate (MkTCB TSTATE_READY 0 0 0 ∅ None).

Record TQueue : Type := MkTQ { head : Z; tail : Z }.
#[export] Instance TQueue_inhabited : Inhabited TQueue := populate (MkTQ 0 0).

Definition SCHED_SLICE : Z := 5.
Definition LAPIC_TIMER_INTR_FREQ : Z := 1000.
Definition NOFILE : Z := 16.

(** [V] is the state of the virtual memory component below. *)
Record state (V : Type) : Type := State {
  vm : V;
  pcpus : PCPU.state;
  CURID : gmap Z Z;
  kctx_pool : gmap Z kctx;
  regs : gmap Z kctx;             (* the registers of each processor *)
  TCBPool : gmap Z TCB;
  TQueuePool : gmap (Z * Z) TQueue;
  sched_lk : spinlock_t;
  sched_ticks : gmap Z Z
}.
Arguments State {V}.
Arguments vm {V}.
Arguments pcpus {V}.
Arguments CURID {V}.
Arguments kctx_pool {V}.
Arguments regs {V}.
Arguments TCBPool {V}.
Arguments TQueuePool {V}.
Arguments sched_lk {V}.
Arguments sched_ticks {V}.

Section ops.
Context {V : Type}.
Context (ks : kstack).
Abbreviation st := (state V).

Definition set_vm v (s : st) : st := State v (pcpus s) (CURID s) (kctx_pool s) (regs s)
  (TCBPool s) (TQueuePool s) (sched_lk s) (sched_ticks s).
Definition set_pcpus v (s : st) : st := State (vm s) v (CURID s) (kctx_pool s) (regs s)
  (TCBPool s) (TQueuePool s) (sched_lk s) (sched_ticks s).
Definition set_CURID v (s : st) : st := State (vm s) (pcpus s) v (kctx_pool s) (regs s)
  (TCBPool s) (TQueuePool s) (sched_lk s) (sched_ticks s).
Definition set_kctx v r (s : st) : st := State (vm s) (pcpus s) (CURID s) v r
  (TCBPool s) (TQueuePool s) (sched_lk s) (sched_ticks s).
Definition set_TCBPool v (s : st) : st := State (vm s) (pcpus s) (CURID s) (kctx_pool s) (regs s)
  v (TQueuePool s) (sched_lk s) (sched_ticks s).
Definition set_TQueuePool v (s : st) : st := State (vm s) (pcpus s) (CURID s) (kctx_pool s) (regs s)
  (TCBPool s) v (sched_lk s) (sched_ticks s).
Definition set_sched_lk v (s : st) : st := State (vm s) (pcpus s) (CURID s) (kctx_pool s) (regs s)
  (TCBPool s) (TQueuePool s) v (sched_ticks s).
Definition set_ticks v (s : st) : st := State (vm s) (pcpus s) (CURID s) (kctx_pool s) (regs s)
  (TCBPool s) (TQueuePool s) (sched_lk s) v.

Definition vm_lens : lens st V := Lens vm set_vm.
Definition pcpus_lens : lens st PCPU.state := Lens pcpus set_pcpus.
Definition lk_lens : lens st spinlock_t := Lens sched_lk set_sched_lk.

Definition get_pcpu_idx : K st Z := zoom pcpus_lens (PCPU.get_pcpu_idx ks).

(** *** PCurID.c *)

Definition get_curid : K st Z :=
  c ← get_pcpu_idx; bounds NUM_CPUS c ;; gets (fun s => CURID s !!! c).
Definition set_curid (curid : Z) : K st unit :=
  c ← get_pcpu_idx; bounds NUM_CPUS c ;;
  modify (fun s => set_CURID (<[c := curid]> (CURID s)) s).

(** *** PKCtxIntro.c, cswitch.S *)

Definition kctx_upd (pid : Z) (f : kctx -> kctx) : K st unit :=
  bounds NUM_IDS pid ;;
  modify (fun s => set_kctx (<[pid := f (kctx_pool s !!! pid)]> (kctx_pool s)) (regs s) s).
Definition kctx_set_esp (pid v : Z) : K st unit :=
  kctx_upd pid (fun k => Kctx v (edi k) (esi k) (ebx k) (ebp k) (eip k)).
Definition kctx_set_eip (pid v : Z) : K st unit :=
  kctx_upd pid (fun k => Kctx (esp k) (edi k) (esi k) (ebx k) (ebp k) v).

(** Save all registers of the context, then load all of the other's. *)
Definition kctx_switch (from_pid to_pid : Z) : K st unit :=
  bounds NUM_IDS from_pid ;; bounds NUM_IDS to_pid ;;
  modify (fun s =>
    let c := cpu_idx ks in
    let pool := <[from_pid := regs s !!! c]> (kctx_pool s) in
    set_kctx pool (<[c := pool !!! to_pid]> (regs s)) s).

(** *** PTCBIntro.c *)

Definition tcb_read {A} (pid : Z) (f : TCB -> A) : K st A :=
  bounds NUM_IDS pid ;; gets (fun s => f (TCBPool s !!! pid)).
Definition tcb_upd (pid : Z) (f : TCB -> TCB) : K st unit :=
  bounds NUM_IDS pid ;;
  modify (fun s => set_TCBPool (<[pid := f (TCBPool s !!! pid)]> (TCBPool s)) s).

Definition w_state v t := MkTCB v (prev t) (next t) (channel t) (openfiles t) (cwd t).
Definition w_prev v t := MkTCB (tstate t) v (next t) (channel t) (openfiles t) (cwd t).
Definition w_next v t := MkTCB (tstate t) (prev t) v (channel t) (openfiles t) (cwd t).
Definition w_chan v t := MkTCB (tstate t) (prev t) (next t) v (openfiles t) (cwd t).
Definition w_files v t := MkTCB (tstate t) (prev t) (next t) (channel t) v (cwd t).
Definition w_cwd v t := MkTCB (tstate t) (prev t) (next t) (channel t) (openfiles t) v.

Definition tcb_get_state (pid : Z) : K st t_state := tcb_read pid tstate.
Definition tcb_set_state (pid : Z) (v : t_state) : K st unit := tcb_upd pid (w_state v).
Definition tcb_get_prev (pid : Z) : K st Z := tcb_read pid prev.
Definition tcb_set_prev (pid v : Z) : K st unit := tcb_upd pid (w_prev v).
Definition tcb_get_next (pid : Z) : K st Z := tcb_read pid next.
Definition tcb_set_next (pid v : Z) : K st unit := tcb_upd pid (w_next v).
Definition tcb_get_chan (pid : Z) : K st Z := tcb_read pid channel.
Definition tcb_set_chan (pid v : Z) : K st unit := tcb_upd pid (w_chan v).
Definition tcb_get_openfiles (pid : Z) : K st (gmap Z (option Z)) := tcb_read pid openfiles.
Definition tcb_set_openfiles (pid fd : Z) (f : option Z) : K st unit :=
  bounds NOFILE fd ;;
  tcb_upd pid (fun t => w_files (<[fd := f]> (openfiles t)) t).
Definition tcb_get_cwd (pid : Z) : K st (option Z) := tcb_read pid cwd.
Definition tcb_set_cwd (pid : Z) (d : option Z) : K st unit := tcb_upd pid (w_cwd d).

(** [root] is the call [namei("/")] into the file system. *)
Definition tcb_init_at_id (root : K st (option Z)) (pid : Z) : K st unit :=
  tcb_upd pid (w_state TSTATE_DEAD) ;;
  tcb_upd pid (w_prev NUM_IDS) ;;
  tcb_upd pid (w_next NUM_IDS) ;;
  tcb_upd pid (w_chan 0) ;;
  tcb_upd pid (w_files ∅) ;;
  d ← root;
  tcb_upd pid (w_cwd d).

(** *** PTCBInit.c; [paging] is [paging_init mbi_addr] *)

Definition tcb_init (paging : K V unit) (root : K st (option Z)) : K st unit :=
  zoom vm_lens paging ;;
  for_ 0 NUM_IDS (tcb_init_at_id root).

(** *** PTQueueIntro.c *)

Definition tq_upd (cpu chid : Z) (f : TQueue -> TQueue) : K st unit :=
  bounds NUM_CPUS cpu ;; bounds (NUM_IDS + 1) chid ;;
  modify (fun s => set_TQueuePool
    (<[(cpu, chid) := f (TQueuePool s !!! (cpu, chid))]> (TQueuePool s)) s).

Definition tqueue_get_head (chid : Z) : K st Z :=
  c ← get_pcpu_idx; bounds NUM_CPUS c ;; bounds (NUM_IDS + 1) chid ;;
  gets (fun s => head (TQueuePool s !!! (c, chid))).
Definition tqueue_get_tail (chid : Z) : K st Z :=
  c ← get_pcpu_idx; bounds NUM_CPUS c ;; bounds (NUM_IDS + 1) chid ;;
  gets (fun s => tail (TQueuePool s !!! (c, chid))).
Definition tqueue_set_head (chid v : Z) : K st unit :=
  c ← get_pcpu_idx; tq_upd c chid (fun q => MkTQ v (tail q)).
Definition tqueue_set_tail (chid v : Z) : K st unit :=
  c ← get_pcpu_idx; tq_upd c chid (fun q => MkTQ (head q) v).
Definition tqueue_init_at_id (cpu chid : Z) : K st unit :=
  tq_upd cpu chid (fun q => MkTQ NUM_IDS (tail q)) ;;
  tq_upd cpu chid (fun q => MkTQ (head q) NUM_IDS).

(** *** PTQueueInit.c *)

Definition tqueue_init (paging : K V unit) (root : K st (option Z)) : K st unit :=
  tcb_init paging root ;;
  for_ 0 NUM_CPUS (fun cpu => for_ 0 (NUM_IDS + 1) (fun chid => tqueue_init_at_id cpu chid)).

Definition tqueue_enqueue (chid pid : Z) : K st unit :=
  tail ← tqueue_get_tail chid;
  if tail =? NUM_IDS then
    tcb_set_prev pid NUM_IDS ;;
    tcb_set_next pid NUM_IDS ;;
    tqueue_set_head chid pid ;;
    tqueue_set_tail chid pid
  else
    tcb_set_next tail pid ;;
    tcb_set_prev pid tail ;;
    tcb_set_next pid NUM_IDS ;;
    tqueue_set_tail chid pid.

Definition tqueue_dequeue (chid : Z) : K st Z :=
  head ← tqueue_get_head chid;
  if negb (head =? NUM_IDS) then
    next ← tcb_get_next head;
    (if next =? NUM_IDS then
       tqueue_set_head chid NUM_IDS ;;
       tqueue_set_tail chid NUM_IDS
     else
       tcb_set_prev next NUM_IDS ;;
       tqueue_set_head chid next) ;;
    tcb_set_prev head NUM_IDS ;;
    tcb_set_next head NUM_IDS ;;
    mret head
  else mret NUM_IDS.

Definition tqueue_remove (chid pid : Z) : K st unit :=
  prev ← tcb_get_prev pid;
  next ← tcb_get_next pid;
  (if prev =? NUM_IDS then
     if next =? NUM_IDS then
       tqueue_set_head chid NUM_IDS ;;
       tqueue_set_tail chid NUM_IDS
     else
       tcb_set_prev next NUM_IDS ;;
       tqueue_set_head chid next
   else
     if next =? NUM_IDS then
       tcb_set_next prev NUM_IDS ;;
       tqueue_set_tail chid prev
     else
       when (negb (prev =? next)) (tcb_set_next prev next) ;;
       tcb_set_prev next prev) ;;
  tcb_set_prev pid NUM_IDS ;;
  tcb_set_next pid NUM_IDS.

(** *** PKCtxNew.c: [alloc_mem_quota] of the memory component, [kstack_hi pid]
    the top of the thread's kernel stack. *)
Definition kctx_new (alloc_mem_quota : Z -> Z -> K V Z) (kstack_hi : Z -> Z)
    (entry id quota : Z) : K st Z :=
  pid ← zoom vm_lens (alloc_mem_quota id quota);
  kctx_set_esp pid (kstack_hi pid) ;;
  kctx_set_eip pid entry ;;
  mret pid.

(** *** PThread.c *)

Definition sched_acquire : K st unit := zoom lk_lens (spinlock_acquire ks).
Definition sched_release : K st unit := zoom lk_lens spinlock_release.

Definition thread_init (paging : K V unit) (root : K st (option Z)) : K st unit :=
  for_ 0 NUM_CPUS (fun i => modify (fun s => set_ticks (<[i := 0]> (sched_ticks s)) s)) ;;
  zoom lk_lens spinlock_init ;;
  tqueue_init paging root ;;
  set_curid 0 ;;
  tcb_set_state 0 TSTATE_RUN.

Definition thread_spawn (alloc_mem_quota : Z -> Z -> K V Z) (kstack_hi : Z -> Z)
    (entry id quota : Z) : K st Z :=
  sched_acquire ;;
  pid ← kctx_new alloc_mem_quota kstack_hi entry id quota;
  tcb_set_state pid TSTATE_READY ;;
  tqueue_enqueue NUM_IDS pid ;;
  sched_release ;;
  mret pid.

Definition thread_yield : K st unit :=
  sched_acquire ;;
  old_cur_pid ← get_curid;
  tcb_set_state old_cur_pid TSTATE_READY ;;
  tqueue_enqueue NUM_IDS old_cur_pid ;;
  new_cur_pid ← tqueue_dequeue NUM_IDS;
  tcb_set_state new_cur_pid TSTATE_RUN ;;
  set_curid new_cur_pid ;;
  if negb (old_cur_pid =? new_cur_pid) then
    sched_release ;;
    kctx_switch old_cur_pid new_cur_pid
  else sched_release.

Definition sched_update : K st unit :=
  sched_acquire ;;
  c ← get_pcpu_idx;
  bounds NUM_CPUS c ;;
  modify (fun s => set_ticks
    (<[c := u32 (sched_ticks s !!! c + 1000 / LAPIC_TIMER_INTR_FREQ)]> (sched_ticks s)) s) ;;
  t ← gets (fun s => sched_ticks s !!! c);
  if SCHED_SLICE <? t then
    modify (fun s => set_ticks (<[c := 0]> (sched_ticks s)) s) ;;
    sched_release ;;
    thread_yield
  else sched_release.

(** thread_sleep up to its kctx_switch; [lk] is the caller's lock, [None] the
    null pointer; the result is the thread that went to sleep. *)
Definition thread_sleep (chan : Z) (lk : option (lens st spinlock_t)) : K st Z :=
  match lk with
  | None => panic "sleep without lock"
  | Some lk =>
      sched_acquire ;;
      zoom lk spinlock_release ;;
      pid ← get_curid;
      tcb_set_chan pid chan ;;
      tcb_set_state pid TSTATE_SLEEP ;;
      new_pid ← tqueue_dequeue NUM_IDS;
      tcb_set_state new_pid TSTATE_RUN ;;
      set_curid new_pid ;;
      sched_release ;;
      kctx_switch pid new_pid ;;
      mret pid
  end.

(** What thread [pid] does when it is switched to again. *)
Definition thread_sleep_resume (pid : Z) (lk : lens st spinlock_t) : K st unit :=
  sched_acquire ;;
  tcb_set_chan pid 0 ;;
  sched_release ;;
  zoom lk (spinlock_acquire ks).

Definition thread_wakeup (chan : Z) : K st unit :=
  sched_acquire ;;
  for_ 0 NUM_IDS (fun pid =>
    t ← tcb_get_state pid;
    c ← tcb_get_chan pid;
    if bool_decide (t = TSTATE_SLEEP) && (c =? chan) then
      tcb_set_state pid TSTATE_READY ;;
      tqueue_enqueue NUM_IDS pid
    else mret tt) ;;
  sched_release.

(** ** Thread queues are lists

    [links T l]: the blocks of the threads in [l] are chained in this order;
    NUM_IDS is the null index. *)

Definition prev_of (l : list Z) (i : nat) : Z :=
  match i with O => NUM_IDS | S j => default NUM_IDS (l !! j) end.
Definition next_of (l : list Z) (i : nat) : Z := default NUM_IDS (l !! S i).

Definition links (T : gmap Z TCB) (l : list Z) : Prop :=
  forall i x, l !! i = Some x ->
    0 <= x < NUM_IDS /\ prev (T !!! x) = prev_of l i /\ next (T !!! x) = next_of l i.

Definition queue_rep (s : st) (c ch : Z) (l : list Z) : Prop :=
  TQueuePool s !!! (c, ch) = MkTQ (default NUM_IDS (list.head l)) (default NUM_IDS (last l)) /\
  links (TCBPool s) l /\ NoDup l.

(** All queues of all processors; a thread is in at most one of them. *)
Record queues (s : st) (Q : Z -> Z -> list Z) : Prop := {
  qs_rep : forall c ch, 0 <= c < NUM_CPUS -> 0 <= ch <= NUM_IDS -> queue_rep s c ch (Q c ch);
  qs_disj : forall c ch c' ch' x, x ∈ Q c ch -> x ∈ Q c' ch' -> c = c' /\ ch = ch'
}.

Definition qupd (Q : Z -> Z -> list Z) (c ch : Z) (l : list Z) : Z -> Z -> list Z :=
  fun c' ch' => if decide (c' = c /\ ch' = ch) then l else Q c' ch'.

Lemma links_frame T T' l : links T l -> (forall x, x ∈ l -> T' !!! x = T !!! x) -> links T' l.
Proof.
  intros Hl Hf i x Hx. rewrite Hf by (by eapply list_elem_of_lookup_2). by apply Hl.
Qed.

Lemma links_range T l x : links T l -> x ∈ l -> 0 <= x < NUM_IDS.
Proof. intros Hl (i & Hi)%list_elem_of_lookup. by apply (Hl i x). Qed.

Lemma NoDup_pos (l : list Z) i j x : NoDup l -> l !! i = Some x -> l !! j = Some x -> i = j.
Proof. intros. by eapply NoDup_lookup. Qed.

(** *** Runs *)

Context (Hks : kstack_ok ks).

Lemma pcpu_run s : PCPU.pcpu_ok (pcpus s) -> get_pcpu_idx s = Ok (cpu_idx ks) s.
Proof.
  intros Hp. unfold get_pcpu_idx. erewrite zoom_Ok by (by apply PCPU.get_pcpu_idx_run).
  by destruct s.
Qed.

Lemma tcb_read_run {A} pid (f : TCB -> A) s : 0 <= pid < NUM_IDS ->
  tcb_read pid f s = Ok (f (TCBPool s !!! pid)) s.
Proof. intros H. unfold tcb_read. by krun (by apply bounds_Ok). Qed.

Lemma tcb_upd_run pid f s : 0 <= pid < NUM_IDS ->
  tcb_upd pid f s = Ok tt (set_TCBPool (<[pid := f (TCBPool s !!! pid)]> (TCBPool s)) s).
Proof. intros H. unfold tcb_upd. by krun (by apply bounds_Ok). Qed.

Lemma get_head_run ch s : PCPU.pcpu_ok (pcpus s) -> 0 <= ch <= NUM_IDS ->
  tqueue_get_head ch s = Ok (head (TQueuePool s !!! (cpu_idx ks, ch))) s.
Proof.
  intros Hp Hch. destruct Hks as [Hc _]. unfold tqueue_get_head. krun (by apply pcpu_run).
  krun (by apply bounds_Ok). krun (apply bounds_Ok; lia). done.
Qed.

Lemma get_tail_run ch s : PCPU.pcpu_ok (pcpus s) -> 0 <= ch <= NUM_IDS ->
  tqueue_get_tail ch s = Ok (tail (TQueuePool s !!! (cpu_idx ks, ch))) s.
Proof.
  intros Hp Hch. destruct Hks as [Hc _]. unfold tqueue_get_tail. krun (by apply pcpu_run).
  krun (by apply bounds_Ok). krun (apply bounds_Ok; lia). done.
Qed.

Lemma tq_upd_run c ch f s : 0 <= c < NUM_CPUS -> 0 <= ch <= NUM_IDS ->
  tq_upd c ch f s =
    Ok tt (set_TQueuePool (<[(c, ch) := f (TQueuePool s !!! (c, ch))]> (TQueuePool s)) s).
Proof.
  intros Hc Hch. unfold tq_upd. krun (by apply bounds_Ok). krun (apply bounds_Ok; lia). done.
Qed.

Lemma set_head_run ch v s : PCPU.pcpu_ok (pcpus s) -> 0 <= ch <= NUM_IDS ->
  tqueue_set_head ch v s = Ok tt (set_TQueuePool (<[(cpu_idx ks, ch) :=
    MkTQ v (tail (TQueuePool s !!! (cpu_idx ks, ch)))]> (TQueuePool s)) s).
Proof.
  intros Hp Hch. unfold tqueue_set_head. krun (by apply pcpu_run).
  apply tq_upd_run; [apply Hks | done].
Qed.

Lemma set_tail_run ch v s : PCPU.pcpu_ok (pcpus s) -> 0 <= ch <= NUM_IDS ->
  tqueue_set_tail ch v s = Ok tt (set_TQueuePool (<[(cpu_idx ks, ch) :=
    MkTQ (head (TQueuePool s !!! (cpu_idx ks, ch))) v]> (TQueuePool s)) s).
Proof.
  intros Hp Hch. unfold tqueue_set_tail. krun (by apply pcpu_run).
  apply tq_upd_run; [apply Hks | done].
Qed.

Lemma insert_TCB (T : gmap Z TCB) x v y :
  <[x := v]> T !!! y = if decide (y = x) then v else T !!! y.
Proof.
  destruct (decide (y = x)) as [->|]; [by rewrite lookup_total_insert_eq|].
  by rewrite lookup_total_insert_ne.
Qed.

Lemma insert_TQ (T : gmap (Z * Z) TQueue) k v k' :
  <[k := v]> T !!! k' = if decide (k' = k) then v else T !!! k'.
Proof.
  destruct (decide (k' = k)) as [->|]; [by rewrite lookup_total_insert_eq|].
  by rewrite lookup_total_insert_ne.
Qed.

(** [s'] differs from [s] in the links of the blocks, which are as [f] says, and
    in the queue [ch] of this processor, which is [q]. *)
Definition relinked (s : st) (ch : Z) (f : Z -> TCB) (q : TQueue) (s' : st) : Prop :=
  exists T TQ, s' = set_TQueuePool TQ (set_TCBPool T s) /\
    (forall x, T !!! x = f x) /\
    (forall k, TQ !!! k = if decide (k = (cpu_idx ks, ch)) then q else TQueuePool s !!! k).

(** Close a [relinked] goal about a concrete state. *)
Ltac relink :=
  match goal with |- relinked _ _ _ _ ?s' => exists (TCBPool s'), (TQueuePool s') end;
  split; [reflexivity|]; split; intros;
  cbn [TCBPool TQueuePool set_TCBPool set_TQueuePool];
  rewrite ?insert_TCB, ?insert_TQ;
  repeat destruct (decide _); subst; try done; try tauto; try congruence;
  try (cbn [head tail]; congruence).

Lemma tqueue_enqueue_run ch pid s :
  PCPU.pcpu_ok (pcpus s) -> 0 <= ch <= NUM_IDS -> 0 <= pid < NUM_IDS ->
  forall h t, TQueuePool s !!! (cpu_idx ks, ch) = MkTQ h t ->
  0 <= t <= NUM_IDS -> t <> pid ->
  exists s', tqueue_enqueue ch pid s = Ok tt s' /\
    relinked s ch
      (fun x => if decide (x = pid) then w_next NUM_IDS (w_prev t (TCBPool s !!! pid))
                else if decide (t <> NUM_IDS /\ x = t) then w_next pid (TCBPool s !!! x)
                else TCBPool s !!! x)
      (MkTQ (if t =? NUM_IDS then pid else h) pid) s'.
Proof.
  intros Hp Hch Hpid h t Hq Ht Hne. unfold tqueue_enqueue. krun (by apply get_tail_run).
  rewrite Hq. cbn [tail]. destruct (Z.eqb_spec t NUM_IDS) as [E|E].
  - erewrite bind_Ok by (by apply tcb_upd_run). erewrite bind_Ok by (by apply tcb_upd_run).
    erewrite bind_Ok by (by apply set_head_run). eexists. split; [by apply set_tail_run|].
    cbn [TQueuePool set_TQueuePool set_TCBPool]. rewrite insert_TQ, decide_True by done.
    relink.
  - erewrite bind_Ok by (apply tcb_upd_run; lia). erewrite bind_Ok by (by apply tcb_upd_run).
    erewrite bind_Ok by (by apply tcb_upd_run). eexists. split; [by apply set_tail_run|].
    cbn [TQueuePool set_TQueuePool set_TCBPool]. rewrite Hq. relink.
Qed.

Lemma tqueue_dequeue_run ch s :
  PCPU.pcpu_ok (pcpus s) -> 0 <= ch <= NUM_IDS ->
  forall h t nx, TQueuePool s !!! (cpu_idx ks, ch) = MkTQ h t -> next (TCBPool s !!! h) = nx ->
  0 <= h < NUM_IDS -> 0 <= nx <= NUM_IDS -> nx <> h ->
  exists s', tqueue_dequeue ch s = Ok h s' /\
    relinked s ch
      (fun x => if decide (x = h) then w_next NUM_IDS (w_prev NUM_IDS (TCBPool s !!! x))
                else if decide (nx <> NUM_IDS /\ x = nx) then w_prev NUM_IDS (TCBPool s !!! x)
                else TCBPool s !!! x)
      (MkTQ nx (if nx =? NUM_IDS then NUM_IDS else t)) s'.
Proof.
  intros Hp Hch h t nx Hq Hnxt Hh Hnx Hne. unfold tqueue_dequeue. krun (by apply get_head_run).
  rewrite Hq. cbn [head]. assert (E0 : (h =? NUM_IDS) = false) by (apply Z.eqb_neq; lia).
  rewrite E0. cbn [negb]. erewrite bind_Ok by (by apply tcb_read_run). rewrite Hnxt.
  destruct (Z.eqb_spec nx NUM_IDS) as [E|E].
  - erewrite bind_Ok by (erewrite bind_Ok by (by apply set_head_run); by apply set_tail_run).
    erewrite bind_Ok by (by apply tcb_upd_run). erewrite bind_Ok by (by apply tcb_upd_run).
    eexists. split; [reflexivity|].
    cbn [TQueuePool set_TQueuePool set_TCBPool]. rewrite insert_TQ, decide_True by done. relink.
  - erewrite bind_Ok by (erewrite bind_Ok by (apply tcb_upd_run; lia); by apply set_head_run).
    erewrite bind_Ok by (by apply tcb_upd_run). erewrite bind_Ok by (by apply tcb_upd_run).
    eexists. split; [reflexivity|].
    cbn [TQueuePool set_TQueuePool set_TCBPool]. rewrite Hq. relink.
Qed.

Lemma tqueue_dequeue_empty ch s :
  PCPU.pcpu_ok (pcpus s) -> 0 <= ch <= NUM_IDS ->
  head (TQueuePool s !!! (cpu_idx ks, ch)) = NUM_IDS ->
  tqueue_dequeue ch s = Ok NUM_IDS s.
Proof.
  intros Hp Hch E. unfold tqueue_dequeue. krun (by apply get_head_run). by rewrite E, Z.eqb_refl.
Qed.

Lemma tqueue_remove_run ch pid s :
  PCPU.pcpu_ok (pcpus s) -> 0 <= ch <= NUM_IDS -> 0 <= pid < NUM_IDS ->
  forall h t pv nx, TQueuePool s !!! (cpu_idx ks, ch) = MkTQ h t ->
  prev (TCBPool s !!! pid) = pv -> next (TCBPool s !!! pid) = nx ->
  0 <= pv <= NUM_IDS -> 0 <= nx <= NUM_IDS -> pv <> pid -> nx <> pid ->
  (pv = nx -> pv = NUM_IDS) ->
  exists s', tqueue_remove ch pid s = Ok tt s' /\
    relinked s ch
      (fun x => if decide (x = pid) then w_next NUM_IDS (w_prev NUM_IDS (TCBPool s !!! x))
                else if decide (pv <> NUM_IDS /\ x = pv) then w_next nx (TCBPool s !!! x)
                else if decide (nx <> NUM_IDS /\ x = nx) then w_prev pv (TCBPool s !!! x)
                else TCBPool s !!! x)
      (MkTQ (if pv =? NUM_IDS then nx else h) (if nx =? NUM_IDS then pv else t)) s'.
Proof.
  intros Hp Hch Hpid h t pv nx Hq Epv Enx Hpv Hnx Hne1 Hne2 Hd. unfold tqueue_remove.
  erewrite bind_Ok by (by apply tcb_read_run). erewrite bind_Ok by (by apply tcb_read_run).
  rewrite Epv, Enx. destruct (Z.eqb_spec pv NUM_IDS) as [Ep|Ep], (Z.eqb_spec nx NUM_IDS) as [En|En].
  - erewrite bind_Ok by (erewrite bind_Ok by (by apply set_head_run); by apply set_tail_run).
    erewrite bind_Ok by (by apply tcb_upd_run). eexists. split; [by apply tcb_upd_run|].
    cbn [TQueuePool set_TQueuePool set_TCBPool]. rewrite insert_TQ, decide_True by done. relink.
  - erewrite bind_Ok by (erewrite bind_Ok by (apply tcb_upd_run; lia); by apply set_head_run).
    erewrite bind_Ok by (by apply tcb_upd_run). eexists. split; [by apply tcb_upd_run|].
    cbn [TQueuePool set_TQueuePool set_TCBPool]. rewrite Hq. relink.
  - erewrite bind_Ok by (erewrite bind_Ok by (apply tcb_upd_run; lia); by apply set_tail_run).
    erewrite bind_Ok by (by apply tcb_upd_run). eexists. split; [by apply tcb_upd_run|].
    cbn [TQueuePool set_TQueuePool set_TCBPool]. rewrite Hq. relink.
  - assert (pv <> nx) as Hpn by auto. apply Z.eqb_neq in Hpn as Hb. rewrite Hb. cbn [negb when].
    erewrite bind_Ok by (erewrite bind_Ok by (apply tcb_upd_run; lia); apply tcb_upd_run; lia).
    erewrite bind_Ok by (by apply tcb_upd_run). eexists. split; [by apply tcb_upd_run|].
    relink.
Qed.

(** *** The list operations behind the three functions *)

Lemma last_idx (l : list Z) x : last l = Some x -> exists k, length l = S k /\ l !! k = Some x.
Proof.
  rewrite last_lookup. destruct l as [|y l]; [done|]. intros H. by exists (length l).
Qed.

Lemma enqueue_links T T' l pid :
  links T l -> NoDup l -> pid ∉ l -> 0 <= pid < NUM_IDS ->
  (forall x, T' !!! x =
     if decide (x = pid) then w_next NUM_IDS (w_prev (default NUM_IDS (last l)) (T !!! pid))
     else if decide (default NUM_IDS (last l) <> NUM_IDS /\ x = default NUM_IDS (last l))
     then w_next pid (T !!! x) else T !!! x) ->
  links T' (l ++ [pid]).
Proof.
  intros Hl Hnd Hpid Hr HT i x Hx. apply lookup_app_Some in Hx as [Hx|[Hlen Hx]].
  - destruct (Hl i x Hx) as (Hxr & Hpv & Hnx). pose proof (lookup_lt_Some _ _ _ Hx) as Hlt.
    assert (Hne : x <> pid) by (intros ->; apply Hpid; by eapply list_elem_of_lookup_2).
    assert (Epv : prev_of (l ++ [pid]) i = prev_of l i)
      by (destruct i as [|j]; [done|]; cbn; rewrite lookup_app_l by lia; done).
    split; [done|]. rewrite HT, decide_False, Epv by done.
    destruct (decide (S i = length l)) as [E|E].
    + assert (Hlast : last l = Some x) by (rewrite last_lookup, <- E; done).
      rewrite Hlast in *. cbn [default from_option id]. rewrite decide_True by (split; [lia|done]).
      split; [done|]. unfold next_of. rewrite E, list_lookup_middle; done.
    + rewrite decide_False.
      * split; [done|]. rewrite Hnx. unfold next_of. by rewrite lookup_app_l by lia.
      * intros [Hn Hlx]. destruct (last l) as [y|] eqn:Ely; cbn in Hlx, Hn; [subst y | done].
        apply last_idx in Ely as (k & Ek & Hk). pose proof (NoDup_pos l i k x Hnd Hx Hk). lia.
  - apply list_lookup_singleton_Some in Hx as [E <-]. split; [done|].
    rewrite HT, decide_True by done. cbn [w_next w_prev prev next].
    assert (i = length l) as -> by lia. split.
    + rewrite last_lookup. destruct l as [|y l]; [done|]. cbn [length prev_of pred].
      by rewrite lookup_app_l by (cbn; lia).
    + unfold next_of. rewrite lookup_ge_None_2; [done|]. rewrite length_app. cbn. lia.
Qed.

Lemma dequeue_links T T' h l nx :
  links T (h :: l) -> NoDup (h :: l) -> nx = default NUM_IDS (list.head l) ->
  (forall x, T' !!! x =
     if decide (x = h) then w_next NUM_IDS (w_prev NUM_IDS (T !!! x))
     else if decide (nx <> NUM_IDS /\ x = nx) then w_prev NUM_IDS (T !!! x) else T !!! x) ->
  links T' l.
Proof.
  intros Hl [Hh Hnd]%NoDup_cons Hnxe HT i x Hx. destruct (Hl (S i) x Hx) as (Hxr & Hpv & Hnx).
  assert (Hne : x <> h) by (intros ->; apply Hh; by eapply list_elem_of_lookup_2).
  split; [done|]. rewrite HT, decide_False by done.
  destruct i as [|j].
  - assert (Ehd : list.head l = Some x) by (by destruct l). rewrite Ehd in Hnxe. cbn in Hnxe. subst nx.
    rewrite decide_True by (split; [lia|done]). done.
  - rewrite decide_False; [done|]. intros [Hn ->]. destruct l as [|y l]; [done|].
    cbn in Hnxe, Hx. subst nx. apply NoDup_cons in Hnd as [Hy _]. apply Hy. by eapply list_elem_of_lookup_2.
Qed.

Lemma remove_links T T' l1 pid l2 :
  links T (l1 ++ pid :: l2) -> NoDup (l1 ++ pid :: l2) ->
  (forall x, T' !!! x =
     if decide (x = pid) then w_next NUM_IDS (w_prev NUM_IDS (T !!! x))
     else if decide (default NUM_IDS (last l1) <> NUM_IDS /\ x = default NUM_IDS (last l1))
     then w_next (default NUM_IDS (list.head l2)) (T !!! x)
     else if decide (default NUM_IDS (list.head l2) <> NUM_IDS /\ x = default NUM_IDS (list.head l2))
     then w_prev (default NUM_IDS (last l1)) (T !!! x)
     else T !!! x) ->
  links T' (l1 ++ l2).
Proof.
  intros Hl Hnd HT. pose proof Hnd as (Hnd1 & Hdis & Hnd2)%NoDup_app.
  apply NoDup_cons in Hnd2 as [Hp2 Hnd2].
  assert (Hlast : forall y, last l1 = Some y -> y ∈ l1)
    by (intros y (k & _ & Hk)%last_idx; by eapply list_elem_of_lookup_2).
  assert (Hhead : forall y, list.head l2 = Some y -> y ∈ l2)
    by (intros y Hy; destruct l2; [done|]; injection Hy as ->; apply elem_of_cons; auto).
  intros i x Hx. apply lookup_app_Some in Hx as [Hx|[Hlen Hx]].
  - pose proof (lookup_lt_Some _ _ _ Hx) as Hlt. pose proof (list_elem_of_lookup_2 _ _ _ Hx) as Hin.
    destruct (Hl i x (lookup_app_l_Some _ _ _ _ Hx)) as (Hxr & Hpv & Hnx).
    assert (Hne : x <> pid) by (intros ->; apply (Hdis pid Hin), elem_of_cons; auto).
    assert (Epv : prev_of (l1 ++ l2) i = prev_of (l1 ++ pid :: l2) i)
      by (destruct i as [|j]; [done|]; cbn; rewrite !lookup_app_l by lia; done).
    split; [done|]. rewrite HT, decide_False, Epv by done.
    destruct (decide (S i = length l1)) as [E|E].
    + assert (Hl1 : last l1 = Some x) by (rewrite last_lookup, <- E; done).
      rewrite Hl1. cbn [default from_option id]. rewrite decide_True by (split; [lia|done]). split; [done|].
      unfold next_of. cbn [w_next next]. rewrite lookup_app_r by lia.
      replace (S i - length l1)%nat with 0%nat by lia. by destruct l2.
    + rewrite decide_False.
      * rewrite decide_False.
        -- split; [done|]. rewrite Hnx. unfold next_of. by rewrite !lookup_app_l by lia.
        -- intros [Hn Hd]. destruct (list.head l2) as [y|] eqn:Ey; cbn in Hn, Hd; [subst y|done].
           apply (Hdis x Hin), elem_of_cons. right. by apply Hhead.
      * intros [Hn Hd]. destruct (last l1) as [y|] eqn:Ey; cbn in Hn, Hd; [subst y|done].
        apply last_idx in Ey as (k & Ek & Hk). pose proof (NoDup_pos l1 i k x Hnd1 Hx Hk). lia.
  - pose proof (list_elem_of_lookup_2 _ _ _ Hx) as Hin.
    assert (Hx' : (l1 ++ pid :: l2) !! S i = Some x).
    { rewrite lookup_app_r by lia. replace (S i - length l1)%nat with (S (i - length l1)) by lia. done. }
    destruct (Hl (S i) x Hx') as (Hxr & Hpv & Hnx).
    assert (Hne : x <> pid) by (intros ->; done).
    assert (Hn1 : ~ (default NUM_IDS (last l1) <> NUM_IDS /\ x = default NUM_IDS (last l1))).
    { intros [Hn Hd]. destruct (last l1) as [y|] eqn:Ey; cbn in Hn, Hd; [subst y|done].
      apply (Hdis x (Hlast x eq_refl)), elem_of_cons. auto. }
    assert (Enx : next_of (l1 ++ l2) i = next_of (l1 ++ pid :: l2) (S i)).
    { unfold next_of. rewrite !lookup_app_r by lia.
      by replace (S (S i) - length l1)%nat with (S (S i - length l1)) by lia. }
    split; [done|]. rewrite HT, decide_False, decide_False, Enx by done.
    destruct (decide (i = length l1)) as [->|E].
    + rewrite Nat.sub_diag in Hx. assert (Eh : list.head l2 = Some x) by (by destruct l2).
      rewrite Eh. cbn [default from_option id]. rewrite decide_True by (split; [lia|done]). split; [|done].
      cbn [w_prev prev]. rewrite last_lookup. destruct l1 as [|y l1]; [done|].
      cbn [length pred prev_of]. by rewrite (lookup_app_l (y :: l1) l2) by (cbn; lia).
    + rewrite decide_False.
      * split; [|done]. rewrite Hpv. destruct i as [|j]; [lia|]. cbn [prev_of].
        rewrite !lookup_app_r by lia.
        by replace (S j - length l1)%nat with (S (j - length l1)) by lia.
      * intros [Hn Hd]. destruct (list.head l2) as [y|] eqn:Ey; cbn in Hn, Hd; [subst y|done].
        assert (Hz : l2 !! 0%nat = Some x) by (by destruct l2).
        pose proof (NoDup_pos l2 _ _ x Hnd2 Hx Hz). lia.
Qed.

(** *** The three functions refine list operations *)

Definition cpu_ok (s : st) : Prop := PCPU.pcpu_ok (pcpus s).

(** The thread is in no queue. *)
Definition unqueued (Q : Z -> Z -> list Z) (pid : Z) : Prop := forall c ch, pid ∉ Q c ch.

Lemma qupd_eq Q c ch l : qupd Q c ch l c ch = l.
Proof. unfold qupd. by rewrite decide_True. Qed.

Lemma qupd_ne Q c ch l c' ch' : ~ (c' = c /\ ch' = ch) -> qupd Q c ch l c' ch' = Q c' ch'.
Proof. intros H. unfold qupd. by rewrite decide_False. Qed.

Lemma queues_relink s Q ch f q s' l' :
  let c := cpu_idx ks in
  queues s Q -> relinked s ch f q s' ->
  q = MkTQ (default NUM_IDS (list.head l')) (default NUM_IDS (last l')) -> NoDup l' ->
  links (TCBPool s') l' ->
  (forall x c' ch', ~ (c' = c /\ ch' = ch) -> x ∈ Q c' ch' -> f x = TCBPool s !!! x) ->
  (forall x, x ∈ l' -> x ∈ Q c ch \/ unqueued Q x) ->
  queues s' (qupd Q c ch l').
Proof.
  intros c [Hrep Hdisj] (T & TQ & -> & HT & HTQ) -> Hnd Hlinks Hframe Hfrom.
  split.
  - intros c' ch' Hc' Hch'. unfold queue_rep. cbn [TQueuePool TCBPool set_TQueuePool set_TCBPool] in *.
    rewrite HTQ. destruct (decide (c' = c /\ ch' = ch)) as [[-> ->]|Hne].
    + by rewrite qupd_eq, decide_True.
    + rewrite qupd_ne, decide_False by (done || (intros [= ? ?]; auto)).
      destruct (Hrep c' ch' Hc' Hch') as (H1 & H2 & H3). split_and!; [done | | done].
      apply (links_frame (TCBPool s)); [done|]. intros x Hx. rewrite HT. by eapply Hframe.
  - intros c1 ch1 c2 ch2 x. unfold qupd.
    destruct (decide (c1 = c /\ ch1 = ch)) as [[-> ->]|H1], (decide (c2 = c /\ ch2 = ch)) as [[-> ->]|H2];
      [done | | | apply Hdisj].
    + intros [Hx|Hx]%Hfrom Hx2; [by eapply Hdisj | by destruct (Hx c2 ch2)].
    + intros Hx2 [Hx|Hx]%Hfrom; [by eapply Hdisj | by destruct (Hx c1 ch1)].
Qed.

(** Everything but the links and the queues is unchanged. *)
Definition same_tcb (t t' : TCB) : Prop :=
  tstate t' = tstate t /\ channel t' = channel t /\ openfiles t' = openfiles t /\ cwd t' = cwd t.
Record only_links (s s' : st) : Prop := {
  ol_vm : vm s' = vm s; ol_pcpus : pcpus s' = pcpus s; ol_CURID : CURID s' = CURID s;
  ol_kctx : kctx_pool s' = kctx_pool s; ol_regs : regs s' = regs s;
  ol_lk : sched_lk s' = sched_lk s; ol_ticks : sched_ticks s' = sched_ticks s;
  ol_tcb : forall x, same_tcb (TCBPool s !!! x) (TCBPool s' !!! x)
}.

Lemma relinked_only s ch f q s' :
  relinked s ch f q s' -> (forall x, same_tcb (TCBPool s !!! x) (f x)) -> only_links s s'.
Proof. intros (T & TQ & -> & HT & _) Hf. split; try done. intros x. cbn. by rewrite HT. Qed.

Lemma relinked_T s ch f q s' x : relinked s ch f q s' -> TCBPool s' !!! x = f x.
Proof. by intros (T & TQ & -> & HT & _). Qed.

Lemma default_range T l o : links T l -> (o = list.head l \/ o = last l) ->
  0 <= default NUM_IDS o <= NUM_IDS.
Proof.
  intros Hl Ho. destruct o as [y|]; [|cbn; klia]. cbn.
  assert (Hy : y ∈ l); [|pose proof (links_range T l y Hl Hy); lia].
  destruct Ho as [E|E].
  - destruct l; [done|]. injection E as ->. apply elem_of_cons. auto.
  - symmetry in E. apply last_idx in E as (k & _ & Hk). by eapply list_elem_of_lookup_2.
Qed.

Lemma enqueue_spec ch pid s Q :
  queues s Q -> cpu_ok s -> 0 <= ch <= NUM_IDS -> 0 <= pid < NUM_IDS -> unqueued Q pid ->
  exists s', tqueue_enqueue ch pid s = Ok tt s' /\ only_links s s' /\
    queues s' (qupd Q (cpu_idx ks) ch (Q (cpu_idx ks) ch ++ [pid])).
Proof.
  intros HQ Hp Hch Hpid Hun. set (c := cpu_idx ks). set (l := Q c ch).
  destruct (qs_rep s Q HQ c ch) as (Hq & Hl & Hnd); [apply Hks | done |]. fold l in Hq, Hl, Hnd.
  assert (Hlast : default NUM_IDS (last l) <> pid).
  { destruct (last l) as [y|] eqn:E; cbn; [|lia]. intros ->. apply (Hun c ch). fold l.
    apply last_idx in E as (k & _ & Hk). by eapply list_elem_of_lookup_2. }
  destruct (tqueue_enqueue_run ch pid s Hp Hch Hpid _ _ Hq) as (s' & Hrun & Hre);
    [by eapply default_range; auto | done |].
  exists s'. split; [done|]. split.
  - eapply relinked_only; [done|]. intros x. cbn.
    repeat destruct (decide _); subst; by repeat split.
  - eapply queues_relink; [done | done | | | | |].
    + fold c l. rewrite last_snoc. cbn. f_equal. destruct l as [|y l0] eqn:El; [done|].
      assert (Hne : default NUM_IDS (last (y :: l0)) <> NUM_IDS).
      { destruct (last (y :: l0)) as [z|] eqn:E; [|by apply last_None in E]. cbn.
        assert (z ∈ y :: l0) as Hz by
          (apply last_idx in E as (k & _ & Hk); by eapply list_elem_of_lookup_2).
        apply (links_range _ _ _ Hl) in Hz. lia. }
      by apply Z.eqb_neq in Hne as ->.
    + apply NoDup_app. split_and!; [done | | apply NoDup_singleton].
      intros x Hx ->%list_elem_of_singleton. by apply (Hun c ch).
    + eapply enqueue_links; [done | done | apply Hun | done |].
      intros x. by rewrite (relinked_T _ _ _ _ _ _ Hre).
    + intros x c' ch' Hne Hx. cbn. rewrite decide_False by (intros ->; by apply (Hun c' ch')).
      rewrite decide_False; [done|]. intros [Hn ->]. apply Hne.
      destruct (last l) as [y|] eqn:E; [|done]. cbn in Hx.
      apply (qs_disj s Q HQ c' ch' c ch y Hx). fold l.
      apply last_idx in E as (k & _ & Hk). by eapply list_elem_of_lookup_2.
    + intros x [Hx|Hx]%elem_of_app; [by left|]. apply list_elem_of_singleton in Hx as ->. by right.
Qed.

Lemma dequeue_spec ch s Q h l :
  queues s Q -> cpu_ok s -> 0 <= ch <= NUM_IDS -> Q (cpu_idx ks) ch = h :: l ->
  exists s', tqueue_dequeue ch s = Ok h s' /\ only_links s s' /\
    queues s' (qupd Q (cpu_idx ks) ch l) /\ unqueued (qupd Q (cpu_idx ks) ch l) h.
Proof.
  intros HQ Hp Hch El. set (c := cpu_idx ks) in *.
  destruct (qs_rep s Q HQ c ch) as (Hq & Hl & Hnd); [apply Hks | done |]. rewrite El in Hq, Hl, Hnd.
  destruct (Hl 0%nat h eq_refl) as (Hh & _ & Hnx).
  assert (Hnx' : next (TCBPool s !!! h) = default NUM_IDS (list.head l)) by (rewrite Hnx; by destruct l).
  pose proof Hnd as [Hhl Hnd']%NoDup_cons.
  assert (Hfl : forall y, list.head l = Some y -> y ∈ l)
    by (intros y Hy; destruct l; [done|]; injection Hy as ->; apply elem_of_cons; auto).
  destruct (tqueue_dequeue_run ch s Hp Hch _ _ _ Hq Hnx') as (s' & Hrun & Hre); [done | | |].
  { destruct (list.head l) as [y|] eqn:E; [|cbn; klia]. cbn.
    assert (y ∈ h :: l) as Hy%(links_range _ _ _ Hl) by (apply elem_of_cons; auto). lia. }
  { destruct (list.head l) as [y|] eqn:E; cbn; [|lia]. intros ->. auto. }
  exists s'. split; [done|]. split; [|split].
  - eapply relinked_only; [done|]. intros x. cbn. repeat destruct (decide _); subst; by repeat split.
  - eapply queues_relink; [done | done | | done | | |].
    + f_equal. cbn [list.head default from_option id]. destruct l as [|y l0]; [done|].
      cbn [list.head default from_option id].
      assert (y ∈ h :: y :: l0) as Hy%(links_range _ _ _ Hl) by set_solver.
      assert (E : (y =? NUM_IDS) = false) by (apply Z.eqb_neq; lia). by rewrite E.
    + eapply dequeue_links; [done | done | reflexivity |].
      intros x. by rewrite (relinked_T _ _ _ _ _ _ Hre).
    + intros x c' ch' Hne Hx. cbn.
      assert (Hno : forall y, y ∈ h :: l -> x <> y).
      { intros y Hy ->. apply Hne. apply (qs_disj s Q HQ c' ch' c ch y); [done|]. by rewrite El. }
      rewrite decide_False by (apply Hno, elem_of_cons; auto). rewrite decide_False; [done|].
      intros [Hn ->]. destruct (list.head l) as [y|] eqn:E; [|done]. cbn in *.
      apply (Hno y); [|done]. apply elem_of_cons. auto.
    + intros x Hx. left. fold c. rewrite El. apply elem_of_cons. auto.
  - intros c' ch'. unfold qupd. destruct (decide _) as [?|Hne]; [done|]. intros Hx. apply Hne.
    apply (qs_disj s Q HQ c' ch' c ch h Hx). rewrite El. apply elem_of_cons. auto.
Qed.

Lemma head_elem (l : list Z) y : list.head l = Some y -> y ∈ l.
Proof. destruct l; [done|]. intros [= ->]. apply elem_of_cons. auto. Qed.

Lemma last_elem (l : list Z) y : last l = Some y -> y ∈ l.
Proof. intros (k & _ & Hk)%last_idx. by eapply list_elem_of_lookup_2. Qed.

Lemma remove_spec ch pid s Q l1 l2 :
  queues s Q -> cpu_ok s -> 0 <= ch <= NUM_IDS -> Q (cpu_idx ks) ch = l1 ++ pid :: l2 ->
  exists s', tqueue_remove ch pid s = Ok tt s' /\ only_links s s' /\
    queues s' (qupd Q (cpu_idx ks) ch (l1 ++ l2)).
Proof.
  intros HQ Hp Hch El. set (c := cpu_idx ks) in *.
  destruct (qs_rep s Q HQ c ch) as (Hq & Hl & Hnd); [apply Hks | done |]. rewrite El in Hq, Hl, Hnd.
  destruct (Hl (length l1) pid) as (Hpid & Hpv & Hnx); [by apply list_lookup_middle|].
  assert (Hpv' : prev (TCBPool s !!! pid) = default NUM_IDS (last l1)).
  { rewrite Hpv, last_lookup. destruct l1 as [|y l1]; [done|]. cbn [length prev_of pred].
    by rewrite lookup_app_l by (cbn; lia). }
  assert (Hnx' : next (TCBPool s !!! pid) = default NUM_IDS (list.head l2)).
  { rewrite Hnx. unfold next_of. rewrite lookup_app_r by lia.
    replace (S (length l1) - length l1)%nat with 1%nat by lia. by destruct l2. }
  pose proof Hnd as (Hnd1 & Hdis & [Hp2 Hnd2]%NoDup_cons)%NoDup_app.
  assert (Hin : forall y, y ∈ l1 ++ l2 -> 0 <= y < NUM_IDS /\ y <> pid).
  { intros y [Hy|Hy]%elem_of_app; split.
    - apply (links_range _ _ _ Hl). apply elem_of_app. auto.
    - intros ->. apply (Hdis pid Hy), elem_of_cons. auto.
    - apply (links_range _ _ _ Hl). apply elem_of_app. rewrite elem_of_cons. auto.
    - by intros ->. }
  assert (H1 : forall y, last l1 = Some y -> y ∈ l1 ++ l2)
    by (intros y Hy%last_elem; apply elem_of_app; auto).
  assert (H2 : forall y, list.head l2 = Some y -> y ∈ l1 ++ l2)
    by (intros y Hy%head_elem; apply elem_of_app; auto).
  destruct (tqueue_remove_run ch pid s Hp Hch Hpid _ _ _ _ Hq Hpv' Hnx') as (s' & Hrun & Hre).
  { destruct (last l1) eqn:E; cbn; [|klia]. destruct (Hin z (H1 z eq_refl)). lia. }
  { destruct (list.head l2) eqn:E; cbn; [|klia]. destruct (Hin z (H2 z eq_refl)). lia. }
  { destruct (last l1) eqn:E; cbn; [|lia]. by apply Hin, H1. }
  { destruct (list.head l2) eqn:E; cbn; [|lia]. by apply Hin, H2. }
  { destruct (last l1) as [y|] eqn:E1, (list.head l2) as [z|] eqn:E2; cbn; try done.
    intros ->. exfalso.
    apply (Hdis z); [by apply last_elem | apply elem_of_cons; right; by apply head_elem]. }
  exists s'. split; [done|]. split.
  - eapply relinked_only; [done|]. intros x. cbn. repeat destruct (decide _); subst; by repeat split.
  - eapply queues_relink; [done | done | | | | |].
    + f_equal.
      * destruct l1 as [|y l1']; [done|]. destruct (last (y :: l1')) as [z|] eqn:E; [|by apply last_None in E].
        cbn [default from_option id list.head app]. destruct (Hin z (H1 z eq_refl)).
        by replace (z =? NUM_IDS) with false by (symmetry; apply Z.eqb_neq; lia).
      * rewrite !last_app. destruct l2 as [|y l2']; [by cbn|].
        cbn [list.head default from_option id]. destruct (Hin y (H2 y eq_refl)).
        replace (y =? NUM_IDS) with false by (symmetry; apply Z.eqb_neq; lia).
        rewrite !last_cons. by destruct (last l2').
    + apply NoDup_app. split_and!; [done | | done]. intros x Hx Hx2.
      apply (Hdis x Hx), elem_of_cons. auto.
    + eapply remove_links; [done | done |]. intros x. by rewrite (relinked_T _ _ _ _ _ _ Hre).
    + intros x c' ch' Hne Hx. cbn.
      assert (Hno : forall y, y ∈ l1 ++ pid :: l2 -> x <> y).
      { intros y Hy ->. apply Hne. apply (qs_disj s Q HQ c' ch' c ch y); [done|]. by rewrite El. }
      rewrite decide_False by (apply Hno, elem_of_app; rewrite elem_of_cons; auto).
      rewrite decide_False; [rewrite decide_False; [done|]|].
      * intros [Hn E]. destruct (list.head l2) as [y|] eqn:E2; [|done]. cbn in E.
        apply (Hno y); [|done]. apply elem_of_app. rewrite elem_of_cons. right. right. by apply head_elem.
      * intros [Hn E]. destruct (last l1) as [y|] eqn:E2; [|done]. cbn in E.
        apply (Hno y); [|done]. apply elem_of_app. left. by apply last_elem.
    + intros x Hx. left. fold c. rewrite El. apply elem_of_app. rewrite elem_of_cons.
      apply elem_of_app in Hx. tauto.
Qed.

(** (C21) The index-based queues are FIFO queues: from a consistent state,
    tqueue_enqueue appends, tqueue_dequeue takes the head (or reports NUM_IDS for
    an empty queue), tqueue_remove takes a thread out of the middle, and each
    leaves every other queue of every processor as it was. *)
Theorem tqueue_refines_list ch pid s Q :
  queues s Q -> cpu_ok s -> 0 <= ch <= NUM_IDS -> 0 <= pid < NUM_IDS ->
  let c := cpu_idx ks in
  (unqueued Q pid ->
     exists s', tqueue_enqueue ch pid s = Ok tt s' /\ queues s' (qupd Q c ch (Q c ch ++ [pid]))) /\
  (forall h l, Q c ch = h :: l ->
     exists s', tqueue_dequeue ch s = Ok h s' /\ queues s' (qupd Q c ch l)) /\
  (Q c ch = [] -> tqueue_dequeue ch s = Ok NUM_IDS s) /\
  (forall l1 l2, Q c ch = l1 ++ pid :: l2 ->
     exists s', tqueue_remove ch pid s = Ok tt s' /\ queues s' (qupd Q c ch (l1 ++ l2))).
Proof.
  intros HQ Hp Hch Hpid c. split_and!.
  - intros Hun. destruct (enqueue_spec ch pid s Q) as (s' & ? & ? & ?); try done. by exists s'.
  - intros h l El. destruct (dequeue_spec ch s Q h l) as (s' & ? & ? & ? & ?); try done. by exists s'.
  - intros El. apply tqueue_dequeue_empty; [done | done |].
    destruct (qs_rep s Q HQ c ch) as (Hq & _); [apply Hks | done |]. fold c. by rewrite Hq, El.
  - intros l1 l2 El. destruct (remove_spec ch pid s Q l1 l2) as (s' & ? & ? & ?); try done. by exists s'.
Qed.

(** ** The scheduler *)

Definition cur (s : st) : Z := CURID s !!! cpu_idx ks.

Record sched_inv (s : st) (Q : Z -> Z -> list Z) : Prop := {
  si_queues : queues s Q;
  si_cpu : cpu_ok s;
  si_unlocked : lock (sched_lk s) = 0;
  si_cur : 0 <= cur s < NUM_IDS;
  si_run : tstate (TCBPool s !!! cur s) = TSTATE_RUN;
  si_out : unqueued Q (cur s);
  si_ready : forall pid, 0 <= pid < NUM_IDS ->
    (tstate (TCBPool s !!! pid) = TSTATE_READY <-> exists c, pid ∈ Q c NUM_IDS);
  si_sleepq : forall c ch, ch <> NUM_IDS -> Q c ch = []
}.

(** Queues depend on links and queue heads only. *)
Lemma queues_ext s s' Q :
  TQueuePool s' = TQueuePool s ->
  (forall x, prev (TCBPool s' !!! x) = prev (TCBPool s !!! x) /\
             next (TCBPool s' !!! x) = next (TCBPool s !!! x)) ->
  queues s Q -> queues s' Q.
Proof.
  intros HTQ HT [Hrep Hd]. split; [|done]. intros c ch Hc Hch.
  destruct (Hrep c ch Hc Hch) as (H1 & H2 & H3). split; [by rewrite HTQ|]. split; [|done].
  intros i x Hx. destruct (HT x) as [-> ->]. by apply H2.
Qed.

Lemma queues_state s Q pid v :
  queues s Q ->
  queues (set_TCBPool (<[pid := w_state v (TCBPool s !!! pid)]> (TCBPool s)) s) Q.
Proof.
  apply queues_ext; [done|]. intros x. cbn. rewrite insert_TCB.
  destruct (decide _); by subst.
Qed.

Lemma sched_acquire_run s : lock (sched_lk s) = 0 ->
  sched_acquire s = Ok tt (set_sched_lk (Spinlock (cpu_idx ks) 1) s).
Proof. intros H. unfold sched_acquire. by apply zoom_Ok, spinlock_acquire_run; [apply Hks|]. Qed.

Lemma get_curid_run s : cpu_ok s -> get_curid s = Ok (cur s) s.
Proof.
  intros Hp. unfold get_curid. krun (by apply pcpu_run). by krun (apply bounds_Ok, Hks).
Qed.

Lemma set_curid_run v s : cpu_ok s ->
  set_curid v s = Ok tt (set_CURID (<[cpu_idx ks := v]> (CURID s)) s).
Proof.
  intros Hp. unfold set_curid. krun (by apply pcpu_run). by krun (apply bounds_Ok, Hks).
Qed.

Lemma kctx_switch_run p p' s : 0 <= p < NUM_IDS -> 0 <= p' < NUM_IDS ->
  kctx_switch p p' s = Ok tt
    (let pool := <[p := regs s !!! cpu_idx ks]> (kctx_pool s) in
     set_kctx pool (<[cpu_idx ks := pool !!! p']> (regs s)) s).
Proof. intros Hp Hp'. unfold kctx_switch. do 2 krun (by apply bounds_Ok). done. Qed.

(** The threads of the ready queue after the running thread has joined it. *)
Definition rotated (s : st) (Q : Z -> Z -> list Z) : list Z :=
  Q (cpu_idx ks) NUM_IDS ++ [cur s].

Lemma links_elem s Q c ch x :
  queues s Q -> 0 <= c < NUM_CPUS -> 0 <= ch <= NUM_IDS -> x ∈ Q c ch -> 0 <= x < NUM_IDS.
Proof.
  intros HQ Hc Hch Hx. destruct (qs_rep s Q HQ c ch Hc Hch) as (_ & Hl & _).
  by apply (links_range _ _ _ Hl).
Qed.

(** The part of thread_yield up to the switch: the head of the rotated ready
    queue becomes the running thread. *)
Lemma yield_core s Q new l :
  queues s Q -> cpu_ok s -> 0 <= cur s < NUM_IDS -> unqueued Q (cur s) ->
  rotated s Q = new :: l ->
  exists s',
    (tcb_set_state (cur s) TSTATE_READY ;;
     tqueue_enqueue NUM_IDS (cur s) ;;
     new_cur_pid ← tqueue_dequeue NUM_IDS;
     tcb_set_state new_cur_pid TSTATE_RUN ;;
     set_curid new_cur_pid ;;
     mret new_cur_pid) s = Ok new s' /\
    queues s' (qupd Q (cpu_idx ks) NUM_IDS l) /\ cpu_ok s' /\
    unqueued (qupd Q (cpu_idx ks) NUM_IDS l) new /\ 0 <= new < NUM_IDS /\
    CURID s' = <[cpu_idx ks := new]> (CURID s) /\ kctx_pool s' = kctx_pool s /\ regs s' = regs s /\
    sched_lk s' = sched_lk s /\ vm s' = vm s /\ sched_ticks s' = sched_ticks s /\
    (forall x, tstate (TCBPool s' !!! x) =
       if decide (x = new) then TSTATE_RUN
       else if decide (x = cur s) then TSTATE_READY else tstate (TCBPool s !!! x)) /\
    (forall x, channel (TCBPool s' !!! x) = channel (TCBPool s !!! x)).
Proof.
  intros HQ Hp Hcur Hout Hrot. set (c := cpu_idx ks) in *.
  assert (Hc : 0 <= c < NUM_CPUS) by apply Hks.
  erewrite bind_Ok by (by apply tcb_upd_run).
  set (s1 := set_TCBPool _ s).
  assert (HQ1 : queues s1 Q) by (by apply queues_state).
  destruct (enqueue_spec NUM_IDS (cur s) s1 Q) as (s2 & Hr2 & Ho2 & HQ2);
    [done | done | klia | done | done |].
  erewrite bind_Ok by exact Hr2. fold c in HQ2.
  assert (Hp2 : cpu_ok s2) by (unfold cpu_ok; by rewrite (ol_pcpus _ _ Ho2)).
  destruct (dequeue_spec NUM_IDS s2 _ new l HQ2 Hp2) as (s3 & Hr3 & Ho3 & HQ3 & Hun3);
    [klia | by rewrite qupd_eq |].
  erewrite bind_Ok by exact Hr3.
  assert (Hnew : 0 <= new < NUM_IDS).
  { apply (links_elem s2 _ c NUM_IDS new HQ2 Hc); [klia|]. rewrite qupd_eq.
    unfold rotated in Hrot. fold c in Hrot. rewrite Hrot. apply elem_of_cons. auto. }
  erewrite bind_Ok by (by apply tcb_upd_run).
  assert (Hp3 : cpu_ok s3) by (unfold cpu_ok; by rewrite (ol_pcpus _ _ Ho3)).
  erewrite bind_Ok by (by apply set_curid_run).
  assert (Eq : forall c' ch', qupd (qupd Q c NUM_IDS (Q c NUM_IDS ++ [cur s])) c NUM_IDS l c' ch' =
    qupd Q c NUM_IDS l c' ch').
  { intros c' ch'. unfold qupd. by destruct (decide _). }
  eexists. split; [reflexivity|].
  pose proof (ol_CURID _ _ Ho2) as C2. pose proof (ol_CURID _ _ Ho3) as C3.
  split_and!; try lia; try done.
  - apply (queues_ext s3); [done | |].
    { intros x. cbn. rewrite insert_TCB. destruct (decide _); by subst. }
    destruct HQ3 as [R3 D3]. split.
    + intros c' ch' ? ?. rewrite <- Eq. by apply R3.
    + intros c1 ch1 c2 ch2 x. rewrite <- !Eq. apply D3.
  - intros c' ch'. rewrite <- Eq. apply Hun3.
  - cbn. by rewrite C3, C2.
  - cbn. by rewrite (ol_kctx _ _ Ho3), (ol_kctx _ _ Ho2).
  - cbn. by rewrite (ol_regs _ _ Ho3), (ol_regs _ _ Ho2).
  - cbn. by rewrite (ol_lk _ _ Ho3), (ol_lk _ _ Ho2).
  - cbn. by rewrite (ol_vm _ _ Ho3), (ol_vm _ _ Ho2).
  - cbn. by rewrite (ol_ticks _ _ Ho3), (ol_ticks _ _ Ho2).
  - intros x. cbn. rewrite insert_TCB. destruct (decide (x = new)); [done|].
    destruct (ol_tcb _ _ Ho3 x) as [-> _]. destruct (ol_tcb _ _ Ho2 x) as [-> _].
    cbn. rewrite insert_TCB. by destruct (decide _).
  - intros x. cbn. rewrite insert_TCB.
    destruct (ol_tcb _ _ Ho3 x) as (_ & E3 & _), (ol_tcb _ _ Ho2 x) as (_ & E2 & _).
    assert (E1 : channel (TCBPool s1 !!! x) = channel (TCBPool s !!! x))
      by (cbn; rewrite insert_TCB; by destruct (decide _) as [->|]).
    destruct (decide _) as [->|]; cbn; congruence.
Qed.

(** The invariant after the head [new] of the rotated queue took over. *)
Lemma yield_inv s Q new l s' :
  sched_inv s Q -> rotated s Q = new :: l ->
  queues s' (qupd Q (cpu_idx ks) NUM_IDS l) -> cpu_ok s' -> lock (sched_lk s') = 0 ->
  unqueued (qupd Q (cpu_idx ks) NUM_IDS l) new -> 0 <= new < NUM_IDS -> cur s' = new ->
  (forall x, tstate (TCBPool s' !!! x) =
     if decide (x = new) then TSTATE_RUN
     else if decide (x = cur s) then TSTATE_READY else tstate (TCBPool s !!! x)) ->
  sched_inv s' (qupd Q (cpu_idx ks) NUM_IDS l).
Proof.
  intros [HQ Hp Hlk Hcur Hrun Hout Hready Hsl] Hrot HQ' Hp' Hlk' Hun Hnew Ecur Hst.
  set (c := cpu_idx ks) in *. split; rewrite ?Ecur; try done.
  - by rewrite Hst, decide_True.
  - intros pid Hpid. rewrite Hst.
    assert (Hel : pid ∈ rotated s Q <-> pid = new \/ pid ∈ l) by (by rewrite Hrot, elem_of_cons).
    unfold rotated in Hel. fold c in Hel. rewrite elem_of_app, list_elem_of_singleton in Hel.
    destruct (decide (pid = new)) as [->|Hne].
    { split; [done|]. intros (c' & Hc'). by destruct (Hun c' NUM_IDS). }
    destruct (decide (pid = cur s)) as [->|Hnc].
    + split; [|done]. intros _. exists c. rewrite qupd_eq. tauto.
    + rewrite Hready by done. split; intros (c' & Hc').
      * destruct (decide (c' = c)) as [->|Hcc].
        -- exists c. rewrite qupd_eq. tauto.
        -- exists c'. rewrite qupd_ne by tauto. done.
      * destruct (decide (c' = c)) as [->|Hcc].
        -- exists c. rewrite qupd_eq in Hc'. tauto.
        -- exists c'. rewrite qupd_ne in Hc' by tauto. done.
  - intros c' ch Hch. rewrite qupd_ne by tauto. by apply Hsl.
Qed.

Lemma rotated_cons s Q : exists new l, rotated s Q = new :: l.
Proof. unfold rotated. destruct (Q (cpu_idx ks) NUM_IDS) as [|x l]; cbn; eauto. Qed.

Lemma thread_yield_spec s Q new l :
  sched_inv s Q -> rotated s Q = new :: l ->
  exists s', thread_yield s = Ok tt s' /\ sched_inv s' (qupd Q (cpu_idx ks) NUM_IDS l) /\
    cur s' = new /\ sched_ticks s' = sched_ticks s /\
    (forall x, channel (TCBPool s' !!! x) = channel (TCBPool s !!! x)) /\
    (forall x, x <> cur s -> kctx_pool s' !!! x = kctx_pool s !!! x) /\
    (new <> cur s -> kctx_pool s' !!! cur s = regs s !!! cpu_idx ks /\
       regs s' !!! cpu_idx ks = kctx_pool s !!! new).
Proof.
  intros Hinv Hrot. pose proof Hinv as [HQ Hp Hlk Hcur Hrun Hout Hready Hsl].
  unfold thread_yield. erewrite bind_Ok by (by apply sched_acquire_run).
  set (s0 := set_sched_lk _ s). erewrite bind_Ok by (by apply get_curid_run).
  change (cur s0) with (cur s).
  assert (HQ0 : queues s0 Q) by (by apply (queues_ext s)).
  destruct (yield_core s0 Q new l HQ0 Hp Hcur Hout Hrot)
    as (s1 & Hr & HQ1 & Hp1 & Hun & Hnew & EC & EK & ER & _ & _ & ET & Hst & Hch).
  change (cur s0) with (cur s) in *.
  assert (Hrest : forall k : Z -> K st unit,
    (tcb_set_state (cur s) TSTATE_READY ;;
     tqueue_enqueue NUM_IDS (cur s) ;;
     new_cur_pid ← tqueue_dequeue NUM_IDS;
     tcb_set_state new_cur_pid TSTATE_RUN ;;
     set_curid new_cur_pid ;; k new_cur_pid) s0 = k new s1).
  { intros k. revert Hr. unfold mbind, K_bind.
    destruct (tcb_set_state (cur s) TSTATE_READY s0) as [[] t1|]; [|done].
    destruct (tqueue_enqueue NUM_IDS (cur s) t1) as [[] t2|]; [|done].
    destruct (tqueue_dequeue NUM_IDS t2) as [n t3|]; [|done].
    destruct (tcb_set_state n TSTATE_RUN t3) as [[] t4|]; [|done].
    destruct (set_curid n t4) as [[] t5|]; [|done]. by intros [= -> ->]. }
  rewrite (Hrest (fun n => if negb (cur s =? n) then sched_release ;; kctx_switch (cur s) n
    else sched_release)).
  set (s2 := set_sched_lk (Spinlock (NUM_CPUS + 1) 0) s1).
  assert (E2 : cur s2 = new) by (unfold cur; cbn; by rewrite EC, lookup_total_insert_eq).
  assert (Hinv2 : sched_inv s2 (qupd Q (cpu_idx ks) NUM_IDS l)).
  { apply (yield_inv s Q new l); try done. by apply (queues_ext s1). }
  destruct (Z.eqb_spec (cur s) new) as [E|E]; cbn [negb].
  - exists s2. split_and!; [done.. | | congruence]. intros x _. cbn. by rewrite EK.
  - erewrite bind_Ok by reflexivity. rewrite kctx_switch_run by done.
    eexists. split; [reflexivity|]. split; [|split; [done|split; [done|split; [done|split]]]].
    + destruct Hinv2 as [A1 A2 A3 A4 A5 A6 A7 A8]. split; try done. by apply (queues_ext s2).
    + intros x Hx. cbn. by rewrite lookup_total_insert_ne, EK by done.
    + intros _. cbn. rewrite EK, ER. rewrite !lookup_total_insert_eq. cbn.
      split; [done|]. by rewrite lookup_total_insert_ne by done.
Qed.

(** thread_yield is round robin: the running thread goes to the end of its
    processor's ready queue and the head of that queue runs next (itself if the
    queue was empty); the registers of the old thread are saved and those of the
    new one loaded.  READY threads stay exactly the queued ones. *)
Theorem thread_yield_correct s Q :
  sched_inv s Q ->
  exists new l s', rotated s Q = new :: l /\ thread_yield s = Ok tt s' /\
    sched_inv s' (qupd Q (cpu_idx ks) NUM_IDS l) /\ cur s' = new /\
    (new <> cur s -> kctx_pool s' !!! cur s = regs s !!! cpu_idx ks /\
       regs s' !!! cpu_idx ks = kctx_pool s !!! new).
Proof.
  intros Hinv. destruct (rotated_cons s Q) as (new & l & Hrot).
  destruct (thread_yield_spec s Q new l Hinv Hrot) as (s' & ? & ? & ? & _ & _ & _ & ?).
  by exists new, l, s'.
Qed.

(** sched_update: a thread keeps the processor for SCHED_SLICE ticks; the
    tick after that resets the count and yields. *)
Theorem sched_update_correct s Q :
  sched_inv s Q -> 0 <= sched_ticks s !!! cpu_idx ks < 2 ^ 31 ->
  exists s', sched_update s = Ok tt s' /\
    if SCHED_SLICE <=? sched_ticks s !!! cpu_idx ks
    then exists l, sched_ticks s' !!! cpu_idx ks = 0 /\ rotated s Q = cur s' :: l /\
           sched_inv s' (qupd Q (cpu_idx ks) NUM_IDS l)
    else sched_ticks s' !!! cpu_idx ks = sched_ticks s !!! cpu_idx ks + 1 /\
         cur s' = cur s /\ sched_inv s' Q.
Proof.
  intros Hinv Ht. pose proof Hinv as [HQ Hp Hlk Hcur Hrun Hout Hready Hsl].
  assert (Hc : 0 <= cpu_idx ks < NUM_CPUS) by apply Hks.
  unfold sched_update. erewrite bind_Ok by (by apply sched_acquire_run).
  erewrite bind_Ok by (by apply pcpu_run). erewrite bind_Ok by (by apply bounds_Ok).
  erewrite bind_Ok by reflexivity. erewrite bind_Ok by reflexivity.
  cbn [sched_ticks set_ticks set_sched_lk]. rewrite lookup_total_insert_eq.
  change (1000 / LAPIC_TIMER_INTR_FREQ) with 1. rewrite u32_small by klia.
  set (t := sched_ticks s !!! cpu_idx ks) in *. unfold SCHED_SLICE.
  destruct (Z.leb_spec 5 t), (Z.ltb_spec 5 (t + 1)); try lia.
  - erewrite bind_Ok by reflexivity. erewrite bind_Ok by reflexivity.
    set (s2 := lput lk_lens _ _).
    assert (Hinv2 : sched_inv s2 Q) by (split; try done; by apply (queues_ext s)).
    destruct (rotated_cons s2 Q) as (new & l & Hrot).
    destruct (thread_yield_spec s2 Q new l Hinv2 Hrot) as (s' & Hr & Hinv' & Ecur & ET & _).
    exists s'. split; [done|]. exists l. rewrite Ecur. split_and!; [|done..].
    rewrite ET. cbn. by rewrite lookup_total_insert_eq.
  - eexists. split; [reflexivity|]. split_and!; [cbn; by rewrite lookup_total_insert_eq | done |].
    split; try done. by apply (queues_ext s).
Qed.

(** *** Sleeping and waking up *)

(** A caller's lock other than the scheduler's: releasing it changes nothing the
    scheduler looks at. *)
Class foreign_lock (lk : lens st spinlock_t) : Prop := {
  fl_pcpus l s : pcpus (lput lk l s) = pcpus s;
  fl_CURID l s : CURID (lput lk l s) = CURID s;
  fl_T l s : TCBPool (lput lk l s) = TCBPool s;
  fl_TQ l s : TQueuePool (lput lk l s) = TQueuePool s;
  fl_sched l s : sched_lk (lput lk l s) = sched_lk s;
  fl_kctx l s : kctx_pool (lput lk l s) = kctx_pool s;
  fl_regs l s : regs (lput lk l s) = regs s
}.

Lemma thread_sleep_spec chan lk s Q new l :
  sched_inv s Q -> foreign_lock lk -> Q (cpu_idx ks) NUM_IDS = new :: l ->
  exists s', thread_sleep chan (Some lk) s = Ok (cur s) s' /\
    sched_inv s' (qupd Q (cpu_idx ks) NUM_IDS l) /\ cur s' = new /\
    tstate (TCBPool s' !!! cur s) = TSTATE_SLEEP /\ channel (TCBPool s' !!! cur s) = chan /\
    unqueued (qupd Q (cpu_idx ks) NUM_IDS l) (cur s) /\
    (forall x, x <> cur s -> channel (TCBPool s' !!! x) = channel (TCBPool s !!! x)) /\
    kctx_pool s' !!! cur s = regs s !!! cpu_idx ks.
Proof.
  intros Hinv Hfl HQl. pose proof Hinv as [HQ Hp Hlk Hcur Hrun Hout Hready Hsl].
  set (c := cpu_idx ks) in *. assert (Hc : 0 <= c < NUM_CPUS) by apply Hks.
  unfold thread_sleep. erewrite bind_Ok by (by apply sched_acquire_run).
  set (s0 := set_sched_lk _ s). erewrite bind_Ok by (by apply zoom_Ok).
  set (s1 := lput lk _ s0).
  assert (Hp1 : cpu_ok s1) by (unfold cpu_ok, s1; rewrite fl_pcpus; done).
  assert (Ecur : cur s1 = cur s) by (unfold cur, s1; rewrite fl_CURID; done).
  assert (ET : TCBPool s1 = TCBPool s) by (unfold s1; by rewrite fl_T).
  assert (HQ1 : queues s1 Q)
    by (apply (queues_ext s); [unfold s1; by rewrite fl_TQ | by rewrite ET | done]).
  erewrite bind_Ok by (by apply get_curid_run). rewrite Ecur.
  erewrite bind_Ok by (by apply tcb_upd_run). erewrite bind_Ok by (by apply tcb_upd_run).
  set (s3 := set_TCBPool _ (set_TCBPool _ s1)).
  assert (HT3 : forall x, TCBPool s3 !!! x = if decide (x = cur s)
    then w_state TSTATE_SLEEP (w_chan chan (TCBPool s !!! x)) else TCBPool s !!! x).
  { intros x. unfold s3. cbn. rewrite !insert_TCB, ET.
    repeat destruct (decide _); subst; try done; try congruence. }
  assert (HQ3 : queues s3 Q).
  { apply (queues_ext s1); [done | | done]. intros x. rewrite HT3, ET.
    by destruct (decide _). }
  destruct (dequeue_spec NUM_IDS s3 Q new l HQ3 Hp1) as (s4 & Hr4 & Ho4 & HQ4 & Hun4);
    [klia | done |].
  erewrite bind_Ok by exact Hr4. fold c in HQ4, Hun4.
  assert (Hnew : 0 <= new < NUM_IDS)
    by (apply (links_elem s Q c NUM_IDS); [done | done | klia | rewrite HQl; apply elem_of_cons; auto]).
  assert (Hp4 : cpu_ok s4) by (unfold cpu_ok; by rewrite (ol_pcpus _ _ Ho4)).
  erewrite bind_Ok by (by apply tcb_upd_run). erewrite bind_Ok by (by apply set_curid_run).
  erewrite bind_Ok by reflexivity. erewrite bind_Ok by (by apply kctx_switch_run).
  eexists. split; [reflexivity|].
  match goal with |- sched_inv ?t _ /\ _ => set (s' := t) end.
  assert (Hnc : new <> cur s) by (intros ->; apply (Hout c NUM_IDS); rewrite HQl; apply elem_of_cons; auto).
  assert (HT' : forall x, prev (TCBPool s' !!! x) = prev (TCBPool s4 !!! x) /\
    next (TCBPool s' !!! x) = next (TCBPool s4 !!! x) /\
    channel (TCBPool s' !!! x) = channel (TCBPool s3 !!! x) /\
    tstate (TCBPool s' !!! x) = if decide (x = new) then TSTATE_RUN else tstate (TCBPool s3 !!! x)).
  { intros x. destruct (ol_tcb _ _ Ho4 x) as (E1 & E2 & _). unfold s'. cbn. rewrite insert_TCB.
    destruct (decide _) as [->|]; cbn; by rewrite ?E1, ?E2. }
  assert (Hout' : unqueued (qupd Q c NUM_IDS l) (cur s)).
  { intros c' ch'. unfold qupd. destruct (decide _) as [[-> ->]|]; [|apply Hout].
    intros Hx. apply (Hout c NUM_IDS). rewrite HQl. apply elem_of_cons. auto. }
  assert (Ecur' : cur s' = new) by (unfold cur, s'; cbn; apply lookup_total_insert_eq).
  split_and!; [|done| | |done| |].
  - split; rewrite ?Ecur'; try done.
    + apply (queues_ext s4); [done | | done]. intros x. split; apply HT'.
    + destruct (HT' new) as (_ & _ & _ & ->). by rewrite decide_True.
    + intros pid Hpid. destruct (HT' pid) as (_ & _ & _ & ->). rewrite HT3.
      destruct (decide (pid = new)) as [->|Hne].
      { split; [done|]. intros (c' & Hc'). by destruct (Hun4 c' NUM_IDS). }
      destruct (decide (pid = cur s)) as [->|Hne2]; cbn.
      { split; [done|]. intros (c' & Hc'). by destruct (Hout' c' NUM_IDS). }
      rewrite Hready by done. split; intros (c' & Hc'); exists c'.
      * destruct (decide (c' = c)) as [->|]; [|by rewrite qupd_ne by tauto].
        rewrite qupd_eq. rewrite HQl in Hc'. apply elem_of_cons in Hc'. tauto.
      * destruct (decide (c' = c)) as [->|]; [|by rewrite qupd_ne in Hc' by tauto].
        rewrite qupd_eq in Hc'. rewrite HQl. apply elem_of_cons. auto.
    + intros c' ch Hch. rewrite qupd_ne by tauto. by apply Hsl.
  - destruct (HT' (cur s)) as (_ & _ & _ & ->). rewrite decide_False, HT3, decide_True by done. done.
  - destruct (HT' (cur s)) as (_ & _ & -> & _). by rewrite HT3, decide_True.
  - intros x Hx. destruct (HT' x) as (_ & _ & -> & _). by rewrite HT3, decide_False.
  - cbn. rewrite lookup_total_insert_eq, (ol_regs _ _ Ho4). unfold s3. cbn. unfold s1. by rewrite fl_regs.
Qed.

(** thread_sleep with another thread ready: the caller leaves the processor
    asleep on [chan], in no queue, with the scheduler lock and its own lock
    released, and the head of the ready queue runs. *)
Theorem thread_sleep_correct chan lk s Q new l :
  sched_inv s Q -> foreign_lock lk -> Q (cpu_idx ks) NUM_IDS = new :: l ->
  exists s', thread_sleep chan (Some lk) s = Ok (cur s) s' /\
    sched_inv s' (qupd Q (cpu_idx ks) NUM_IDS l) /\ cur s' = new /\
    tstate (TCBPool s' !!! cur s) = TSTATE_SLEEP /\ channel (TCBPool s' !!! cur s) = chan /\
    unqueued (qupd Q (cpu_idx ks) NUM_IDS l) (cur s).
Proof.
  intros H1 H2 H3. destruct (thread_sleep_spec chan lk s Q new l H1 H2 H3) as (s' & ? & ? & ? & ? & ? & ? & _).
  by exists s'.
Qed.

(** With an empty ready queue thread_sleep has no thread to switch to: it
    takes the index NUM_IDS tqueue_dequeue reports and writes outside TCBPool. *)
Theorem thread_sleep_no_thread chan lk s Q :
  sched_inv s Q -> foreign_lock lk -> Q (cpu_idx ks) NUM_IDS = [] ->
  thread_sleep chan (Some lk) s = Err Undef.
Proof.
  intros [HQ Hp Hlk Hcur Hrun Hout Hready Hsl] Hfl HQl.
  unfold thread_sleep. erewrite bind_Ok by (by apply sched_acquire_run).
  set (s0 := set_sched_lk _ s). erewrite bind_Ok by (by apply zoom_Ok).
  set (s1 := lput lk _ s0).
  assert (Hp1 : cpu_ok s1) by (unfold cpu_ok, s1; rewrite fl_pcpus; done).
  assert (Ecur : cur s1 = cur s) by (unfold cur, s1; rewrite fl_CURID; done).
  erewrite bind_Ok by (by apply get_curid_run). rewrite Ecur.
  erewrite bind_Ok by (by apply tcb_upd_run). erewrite bind_Ok by (by apply tcb_upd_run).
  erewrite bind_Ok.
  2: { apply tqueue_dequeue_empty; [done | klia |]. cbn [TQueuePool set_TCBPool]. unfold s1. rewrite fl_TQ.
       destruct (qs_rep s Q HQ (cpu_idx ks) NUM_IDS) as (Hq & _); [apply Hks | klia |].
       change (TQueuePool s0) with (TQueuePool s). by rewrite Hq, HQl. }
  apply bind_Err. unfold tcb_set_state, tcb_upd. apply bind_Err, bounds_Undef. lia.
Qed.

(** The threads asleep on [chan], in the order the loop of thread_wakeup meets them. *)
Definition sleeps_on (s : st) (chan pid : Z) : bool :=
  bool_decide (tstate (TCBPool s !!! pid) = TSTATE_SLEEP) && (channel (TCBPool s !!! pid) =? chan).
Definition sleepers (s : st) (chan n : Z) : list Z :=
  filter (fun p => sleeps_on s chan p = true) (seqZ 0 n).

Lemma sleepers_snoc s chan n : 0 <= n ->
  sleepers s chan (n + 1) = sleepers s chan n ++ (if sleeps_on s chan n then [n] else []).
Proof.
  intros Hn. unfold sleepers. rewrite seqZ_app by lia. rewrite filter_app. f_equal.
  change (seqZ (0 + n) 1) with [0 + n]. rewrite Z.add_0_l, filter_cons.
  destruct (sleeps_on s chan n); [by rewrite decide_True | by rewrite decide_False].
Qed.

Lemma elem_of_sleepers s chan n p : p ∈ sleepers s chan n <-> sleeps_on s chan p = true /\ 0 <= p < n.
Proof. unfold sleepers. rewrite list_elem_of_filter, elem_of_seqZ. by rewrite Z.add_0_l. Qed.

(** What the loop of thread_wakeup has done for the threads below [n]. *)
Record woken (s : st) (Q : Z -> Z -> list Z) (chan n : Z) (s' : st) : Prop := {
  wk_queues : queues s' (qupd Q (cpu_idx ks) NUM_IDS (Q (cpu_idx ks) NUM_IDS ++ sleepers s chan n));
  wk_cpu : cpu_ok s';
  wk_curid : CURID s' = CURID s;
  wk_kctx : kctx_pool s' = kctx_pool s;
  wk_regs : regs s' = regs s;
  wk_chan : forall x, channel (TCBPool s' !!! x) = channel (TCBPool s !!! x);
  wk_state : forall x, tstate (TCBPool s' !!! x) =
    if bool_decide (0 <= x < n) && sleeps_on s chan x then TSTATE_READY else tstate (TCBPool s !!! x)
}.

Lemma sleeper_unqueued s Q chan pid :
  sched_inv s Q -> 0 <= pid < NUM_IDS -> sleeps_on s chan pid = true -> unqueued Q pid.
Proof.
  intros Hinv Hpid [Hs%bool_decide_eq_true _]%andb_true_iff c ch Hx.
  destruct (decide (ch = NUM_IDS)) as [->|Hne]; [|by rewrite (si_sleepq s Q Hinv c ch Hne), elem_of_nil in Hx].
  assert (Hr : tstate (TCBPool s !!! pid) = TSTATE_READY) by (apply (si_ready s Q Hinv pid Hpid); eauto).
  congruence.
Qed.

Lemma wakeup_step s Q chan i s' :
  sched_inv s Q -> 0 <= i < NUM_IDS -> woken s Q chan i s' ->
  wp (t ← tcb_get_state i; c ← tcb_get_chan i;
      if bool_decide (t = TSTATE_SLEEP) && (c =? chan)
      then tcb_set_state i TSTATE_READY ;; tqueue_enqueue NUM_IDS i else mret tt)
     (fun _ s'' => woken s Q chan (i + 1) s'') s'.
Proof.
  intros Hinv Hi [HQ' Hp' EC' EK' ER' ECh EST]. set (c := cpu_idx ks) in *.
  assert (Hst : tstate (TCBPool s' !!! i) = tstate (TCBPool s !!! i)).
  { rewrite EST, bool_decide_eq_false_2 by lia. done. }
  assert (Hnext : forall x, bool_decide (0 <= x < i + 1) && sleeps_on s chan x =
    if decide (x = i) then sleeps_on s chan i else bool_decide (0 <= x < i) && sleeps_on s chan x).
  { intros x. destruct (decide (x = i)) as [->|]; [by rewrite bool_decide_eq_true_2 by lia|].
    f_equal. apply bool_decide_ext. lia. }
  apply wp_bind. eapply wp_intro; [by apply tcb_read_run|].
  apply wp_bind. eapply wp_intro; [by apply tcb_read_run|].
  rewrite Hst, ECh. fold (sleeps_on s chan i).
  pose proof (sleepers_snoc s chan i ltac:(lia)) as Hsn.
  destruct (sleeps_on s chan i) eqn:Esl.
  - apply wp_bind. eapply wp_intro; [by apply tcb_upd_run|]. set (s1 := set_TCBPool _ s').
    assert (HQ1 : queues s1 (qupd Q c NUM_IDS (Q c NUM_IDS ++ sleepers s chan i)))
      by (by apply queues_state).
    assert (Hun : unqueued (qupd Q c NUM_IDS (Q c NUM_IDS ++ sleepers s chan i)) i).
    { pose proof (sleeper_unqueued s Q chan i Hinv Hi Esl) as Hu. intros c' ch'. unfold qupd.
      destruct (decide _); [|apply Hu]. rewrite elem_of_app, elem_of_sleepers.
      intros [H|H]; [by apply (Hu c NUM_IDS) | lia]. }
    destruct (enqueue_spec NUM_IDS i s1 _ HQ1 Hp') as (s2 & Hr2 & Ho2 & HQ2); [klia | done | done |].
    eapply wp_intro; [exact Hr2|]. fold c in HQ2. rewrite qupd_eq, <- app_assoc, <- Hsn in HQ2.
    split.
    + destruct HQ2 as [R D]. assert (Eq : forall l l' c' ch', qupd (qupd Q c NUM_IDS l') c NUM_IDS l c' ch' =
        qupd Q c NUM_IDS l c' ch') by (intros; unfold qupd; by destruct (decide _)).
      split; [intros c' ch' ? ?; rewrite <- (Eq _ (Q c NUM_IDS ++ sleepers s chan i)); by apply R|].
      intros c1 ch1 c2 ch2 x. rewrite <- !(Eq _ (Q c NUM_IDS ++ sleepers s chan i)). apply D.
    + unfold cpu_ok. by rewrite (ol_pcpus _ _ Ho2).
    + by rewrite (ol_CURID _ _ Ho2).
    + by rewrite (ol_kctx _ _ Ho2).
    + by rewrite (ol_regs _ _ Ho2).
    + intros x. destruct (ol_tcb _ _ Ho2 x) as (_ & -> & _). unfold s1. cbn. rewrite insert_TCB.
      destruct (decide _) as [->|]; apply ECh.
    + intros x. destruct (ol_tcb _ _ Ho2 x) as (-> & _). unfold s1. cbn. rewrite insert_TCB, Hnext.
      destruct (decide _) as [->|]; [done | apply EST].
  - apply wp_ret. split; try done.
    + by rewrite Hsn, app_nil_r.
    + intros x. rewrite Hnext, EST. destruct (decide _) as [->|]; [|done].
      by rewrite bool_decide_eq_false_2 by lia.
Qed.

Lemma thread_wakeup_spec chan s Q :
  sched_inv s Q ->
  exists s', thread_wakeup chan s = Ok tt s' /\ cur s' = cur s /\
    sched_inv s' (qupd Q (cpu_idx ks) NUM_IDS (Q (cpu_idx ks) NUM_IDS ++ sleepers s chan NUM_IDS)) /\
    (forall pid, 0 <= pid < NUM_IDS -> tstate (TCBPool s' !!! pid) =
       if sleeps_on s chan pid then TSTATE_READY else tstate (TCBPool s !!! pid)) /\
    (forall x, channel (TCBPool s' !!! x) = channel (TCBPool s !!! x)) /\
    kctx_pool s' = kctx_pool s /\ regs s' = regs s.
Proof.
  intros Hinv. pose proof Hinv as [HQ Hp Hlk Hcur Hrun Hout Hready Hsl].
  set (c := cpu_idx ks) in *.
  unfold thread_wakeup. erewrite bind_Ok by (by apply sched_acquire_run).
  set (s0 := set_sched_lk _ s).
  assert (Hloop : wp (for_ 0 NUM_IDS (fun pid =>
      t ← tcb_get_state pid; c ← tcb_get_chan pid;
      if bool_decide (t = TSTATE_SLEEP) && (c =? chan)
      then tcb_set_state pid TSTATE_READY ;; tqueue_enqueue NUM_IDS pid else mret tt))
    (fun _ s' => woken s Q chan NUM_IDS s') s0).
  { apply (wp_for (fun i s' => woken s Q chan i s')); [klia | | | done].
    - split; try done; [|intros x; by rewrite bool_decide_eq_false_2 by lia].
      apply (queues_ext s); [done | done |]. change (sleepers s chan 0) with (@nil Z). rewrite app_nil_r.
      destruct HQ as [R D]. assert (Eq : forall c' ch', qupd Q c NUM_IDS (Q c NUM_IDS) c' ch' = Q c' ch')
        by (intros; unfold qupd; destruct (decide _) as [[-> ->]|]; done).
      split; [intros; rewrite Eq; by apply R|]. intros ? ? ? ? ?. rewrite !Eq. apply D.
    - intros i s' Hi Hw. by apply wakeup_step. }
  apply wp_run in Hloop as ([] & s1 & Hr & [HQ1 Hp1 EC1 EK1 ER1 ECh1 EST1]).
  erewrite bind_Ok by exact Hr. eexists. split; [reflexivity|].
  match goal with |- _ /\ sched_inv ?t _ /\ _ => set (s' := t) end.
  assert (Ecur : cur s' = cur s) by (unfold cur, s'; cbn; by rewrite EC1).
  assert (EST : forall x, 0 <= x < NUM_IDS -> tstate (TCBPool s' !!! x) =
    if sleeps_on s chan x then TSTATE_READY else tstate (TCBPool s !!! x)).
  { intros x Hx. change (TCBPool s') with (TCBPool s1). by rewrite EST1, bool_decide_eq_true_2. }
  assert (Hcs : sleeps_on s chan (cur s) = false) by (unfold sleeps_on; by rewrite Hrun).
  split_and!; [done | | done | done | done | done]. split; rewrite ?Ecur; try done.
  - by apply (queues_ext s1).
  - rewrite EST by done. by rewrite Hcs.
  - intros c' ch'. unfold qupd. destruct (decide _); [|apply Hout].
    rewrite elem_of_app, elem_of_sleepers. intros [H|[H _]]; [by apply (Hout c NUM_IDS) | congruence].
  - intros pid Hpid. rewrite EST by done. destruct (sleeps_on s chan pid) eqn:Es.
    + split; [|done]. intros _. exists c. rewrite qupd_eq, elem_of_app, elem_of_sleepers. auto.
    + rewrite Hready by done. split; intros (c' & Hc'); exists c'.
      * destruct (decide (c' = c)) as [->|]; [|by rewrite qupd_ne by tauto].
        rewrite qupd_eq, elem_of_app. auto.
      * destruct (decide (c' = c)) as [->|]; [|by rewrite qupd_ne in Hc' by tauto].
        rewrite qupd_eq, elem_of_app, elem_of_sleepers in Hc'. destruct Hc' as [?|[? _]]; [done|congruence].
  - intros c' ch Hch. rewrite qupd_ne by tauto. by apply Hsl.
Qed.

(** thread_wakeup loses nobody: every thread asleep on [chan] becomes ready
    and joins the ready queue (in the order of the thread ids), and no other
    thread is touched. *)
Theorem thread_wakeup_correct chan s Q :
  sched_inv s Q ->
  exists s', thread_wakeup chan s = Ok tt s' /\ cur s' = cur s /\
    sched_inv s' (qupd Q (cpu_idx ks) NUM_IDS (Q (cpu_idx ks) NUM_IDS ++ sleepers s chan NUM_IDS)) /\
    (forall pid, 0 <= pid < NUM_IDS -> tstate (TCBPool s' !!! pid) =
       if sleeps_on s chan pid then TSTATE_READY else tstate (TCBPool s !!! pid)).
Proof.
  intros (s' & ? & ? & ? & ? & _)%(thread_wakeup_spec chan). by exists s'.
Qed.

Lemma thread_spawn_spec alloc_mem_quota kstack_hi entry id quota s Q pid v' :
  sched_inv s Q -> alloc_mem_quota id quota (vm s) = Ok pid v' ->
  0 <= pid < NUM_IDS -> tstate (TCBPool s !!! pid) = TSTATE_DEAD ->
  exists s', thread_spawn alloc_mem_quota kstack_hi entry id quota s = Ok pid s' /\ vm s' = v' /\ cur s' = cur s /\
    sched_inv s' (qupd Q (cpu_idx ks) NUM_IDS (Q (cpu_idx ks) NUM_IDS ++ [pid])) /\
    eip (kctx_pool s' !!! pid) = entry /\ esp (kctx_pool s' !!! pid) = kstack_hi pid /\
    (forall x, channel (TCBPool s' !!! x) = channel (TCBPool s !!! x)) /\ pcpus s' = pcpus s.
Proof.
  intros Hinv Ha Hpid Hdead. pose proof Hinv as [HQ Hp Hlk Hcur Hrun Hout Hready Hsl].
  set (c := cpu_idx ks) in *.
  assert (Hun : unqueued Q pid).
  { intros c' ch Hx. destruct (decide (ch = NUM_IDS)) as [->|Hne]; [|by rewrite Hsl, elem_of_nil in Hx].
    assert (tstate (TCBPool s !!! pid) = TSTATE_READY) by (apply Hready; eauto). congruence. }
  unfold thread_spawn. erewrite bind_Ok by (by apply sched_acquire_run).
  unfold kctx_new. rewrite bind_assoc. erewrite bind_Ok by (by apply zoom_Ok).
  rewrite bind_assoc.
  erewrite bind_Ok by (unfold kctx_set_esp, kctx_upd; erewrite bind_Ok by (by apply bounds_Ok); reflexivity).
  rewrite bind_assoc.
  erewrite bind_Ok by (unfold kctx_set_eip, kctx_upd; erewrite bind_Ok by (by apply bounds_Ok); reflexivity).
  erewrite bind_Ok by reflexivity. erewrite bind_Ok by (by apply tcb_upd_run).
  match goal with |- context [(tqueue_enqueue _ _ ≫= _) ?t] => set (s1 := t) end.
  assert (HQ1 : queues s1 Q).
  { apply (queues_ext s); [done | | done]. intros x. unfold s1. cbn. rewrite insert_TCB.
    destruct (decide _); by subst. }
  destruct (enqueue_spec NUM_IDS pid s1 Q HQ1 Hp) as (s2 & Hr2 & Ho2 & HQ2); [klia | done | done |].
  erewrite bind_Ok by exact Hr2. erewrite bind_Ok by reflexivity. eexists. split; [reflexivity|].
  match goal with |- vm ?t = _ /\ _ => set (s' := t) end.
  assert (Ecur : cur s' = cur s) by (unfold cur, s'; cbn; by rewrite (ol_CURID _ _ Ho2)).
  assert (EST : forall x, tstate (TCBPool s' !!! x) =
    if decide (x = pid) then TSTATE_READY else tstate (TCBPool s !!! x)).
  { intros x. destruct (ol_tcb _ _ Ho2 x) as (E & _). unfold s'. cbn. rewrite E. unfold s1. cbn.
    rewrite insert_TCB. by destruct (decide _). }
  assert (Hnc : cur s <> pid) by congruence.
  split_and!; [|done| | | | |].
  - unfold s'. cbn. by rewrite (ol_vm _ _ Ho2).
  - split; rewrite ?Ecur; try done.
    + by apply (queues_ext s2).
    + unfold cpu_ok, s'. cbn. by rewrite (ol_pcpus _ _ Ho2).
    + by rewrite EST, decide_False.
    + intros c' ch'. unfold qupd. destruct (decide _); [|apply Hout].
      rewrite elem_of_app, list_elem_of_singleton. intros [H|H]; [by apply (Hout c NUM_IDS) | done].
    + intros p Hpr. rewrite EST. destruct (decide (p = pid)) as [->|Hne].
      { split; [|done]. intros _. exists c. rewrite qupd_eq, elem_of_app, list_elem_of_singleton. auto. }
      rewrite Hready by done. split; intros (c' & Hc'); exists c'.
      * destruct (decide (c' = c)) as [->|]; [|by rewrite qupd_ne by tauto].
        rewrite qupd_eq, elem_of_app. auto.
      * destruct (decide (c' = c)) as [->|]; [|by rewrite qupd_ne in Hc' by tauto].
        rewrite qupd_eq, elem_of_app, list_elem_of_singleton in Hc'. by destruct Hc'.
    + intros c' ch Hch. rewrite qupd_ne by tauto. by apply Hsl.
  - unfold s'. cbn. rewrite (ol_kctx _ _ Ho2). unfold s1. cbn. by rewrite lookup_total_insert_eq.
  - unfold s'. cbn. rewrite (ol_kctx _ _ Ho2). unfold s1. cbn. by rewrite !lookup_total_insert_eq.
  - intros x. destruct (ol_tcb _ _ Ho2 x) as (_ & E & _). unfold s'. cbn. rewrite E. unfold s1. cbn.
    rewrite insert_TCB. by destruct (decide _) as [->|].
  - unfold s'. cbn. by rewrite (ol_pcpus _ _ Ho2).
Qed.

(** thread_spawn: the child that alloc_mem_quota chose starts at [entry] on
    its own stack, is ready and goes to the end of the ready queue; nothing else
    about the scheduler changes. *)
Theorem thread_spawn_correct alloc_mem_quota kstack_hi entry id quota s Q pid v' :
  sched_inv s Q -> alloc_mem_quota id quota (vm s) = Ok pid v' ->
  0 <= pid < NUM_IDS -> tstate (TCBPool s !!! pid) = TSTATE_DEAD ->
  exists s', thread_spawn alloc_mem_quota kstack_hi entry id quota s = Ok pid s' /\ vm s' = v' /\ cur s' = cur s /\
    sched_inv s' (qupd Q (cpu_idx ks) NUM_IDS (Q (cpu_idx ks) NUM_IDS ++ [pid])) /\
    eip (kctx_pool s' !!! pid) = entry /\ esp (kctx_pool s' !!! pid) = kstack_hi pid.
Proof.
  intros H1 H2 H3 H4. destruct (thread_spawn_spec _ kstack_hi entry _ _ _ _ _ _ H1 H2 H3 H4)
    as (s' & ? & ? & ? & ? & ? & ? & _). by exists s'.
Qed.

(** *** Initialisation *)

(** [namei("/")] returns and works on the components below only. *)
Definition root_ok (root : K st (option Z)) : Prop :=
  forall s, exists d v, root s = Ok d (set_vm v s).

Definition dead_tcb (t : TCB) : Prop :=
  tstate t = TSTATE_DEAD /\ prev t = NUM_IDS /\ next t = NUM_IDS /\ channel t = 0 /\ openfiles t = ∅.

(** [P]: what finding the root directory leaves alone below. *)
Definition root_keeps (P : V -> Prop) (root : K st (option Z)) : Prop :=
  forall s d s', root s = Ok d s' -> P (vm s) -> P (vm s').

Lemma tcb_init_at_id_wp P root pid s : root_ok root -> root_keeps P root -> P (vm s) -> 0 <= pid < NUM_IDS ->
  wp (tcb_init_at_id root pid) (fun _ s' => exists v T, s' = set_vm v (set_TCBPool T s) /\ P v /\
    dead_tcb (T !!! pid) /\ forall x, x <> pid -> T !!! x = TCBPool s !!! x) s.
Proof.
  intros Hroot Hkeep HP Hpid. unfold tcb_init_at_id.
  do 5 (apply wp_bind; eapply wp_intro; [by apply tcb_upd_run|]; cbn beta).
  match goal with |- wp _ _ ?t => set (s1 := t) end.
  destruct (Hroot s1) as (d & v & Hr). apply wp_bind. eapply wp_intro; [exact Hr|].
  eapply wp_intro; [by apply tcb_upd_run|].
  exists v, (<[pid := w_cwd d (TCBPool s1 !!! pid)]> (TCBPool s1)). split; [reflexivity|].
  split; [exact (Hkeep _ _ _ Hr HP)|].
  assert (H1 : forall x, x <> pid -> TCBPool s1 !!! x = TCBPool s !!! x)
    by (intros x Hx; unfold s1; cbn; by rewrite !lookup_total_insert_ne by done).
  split.
  - unfold s1. cbn. rewrite !lookup_total_insert_eq. by repeat split.
  - intros x Hx. rewrite lookup_total_insert_ne by done. by apply H1.
Qed.

Lemma tqueue_loop_wp s :
  wp (for_ 0 NUM_CPUS (fun cpu => for_ 0 (NUM_IDS + 1) (fun chid => tqueue_init_at_id cpu chid)))
    (fun _ s' => exists TQ, s' = set_TQueuePool TQ s /\
       forall c ch, 0 <= c < NUM_CPUS -> 0 <= ch <= NUM_IDS -> TQ !!! (c, ch) = MkTQ NUM_IDS NUM_IDS) s.
Proof.
  apply (wp_for (fun n s' => exists TQ, s' = set_TQueuePool TQ s /\
    forall c ch, 0 <= c < n -> 0 <= ch <= NUM_IDS -> TQ !!! (c, ch) = MkTQ NUM_IDS NUM_IDS));
    [klia | | | done].
  { exists (TQueuePool s). split; [by destruct s | lia]. }
  intros i s1 Hi (TQ & -> & HTQ).
  apply (wp_for (fun k s' => exists TQ, s' = set_TQueuePool TQ s /\
    forall c ch, 0 <= c < i \/ (c = i /\ 0 <= ch < k) -> 0 <= ch <= NUM_IDS ->
      TQ !!! (c, ch) = MkTQ NUM_IDS NUM_IDS)); [klia | | |].
  - exists TQ. split; [done|]. intros c ch [?|?]; [by apply HTQ | lia].
  - intros j s2 Hj (TQ2 & -> & H2). unfold tqueue_init_at_id.
    apply wp_bind. eapply wp_intro; [apply tq_upd_run; lia|].
    eapply wp_intro; [apply tq_upd_run; lia|]. eexists. split; [reflexivity|].
    intros c ch Hcc Hch. cbn [TQueuePool set_TQueuePool]. rewrite !insert_TQ.
    destruct (decide ((c, ch) = (i, j))) as [E|E].
    + injection E as -> ->. by rewrite decide_True by done.
    + apply H2; [|done]. destruct Hcc as [?|[-> ?]]; [auto|]. right. split; [done|].
      assert (ch <> j) by congruence. lia.
  - intros s3 (TQ3 & -> & H3). exists TQ3. split; [done|]. intros c ch Hc Hch. apply H3; lia.
Qed.

Lemma thread_init_wp P paging root s v' :
  cpu_ok s -> paging (vm s) = Ok tt v' -> root_ok root -> root_keeps P root -> P v' ->
  wp (thread_init paging root) (fun _ s' => sched_inv s' (fun _ _ => []) /\ cur s' = 0 /\
    sched_ticks s' !!! cpu_idx ks = 0 /\
    (forall pid, 0 < pid < NUM_IDS -> dead_tcb (TCBPool s' !!! pid)) /\ P (vm s') /\ pcpus s' = pcpus s) s.
Proof.
  intros Hp Hpg Hroot Hkeep HP. assert (Hc : 0 <= cpu_idx ks < NUM_CPUS) by apply Hks. unfold thread_init.
  apply wp_bind. apply (wp_for (fun n s' => exists t, s' = set_ticks t s /\
    forall i, 0 <= i < n -> t !!! i = 0)); [klia | | |].
  { exists (sched_ticks s). split; [by destruct s | lia]. }
  { intros i s1 Hi (t & -> & Ht). apply wp_modify. eexists. split; [reflexivity|]. intros j Hj.
    cbn. destruct (decide (j = i)) as [->|]; [by rewrite lookup_total_insert_eq|].
    rewrite lookup_total_insert_ne by done. apply Ht. lia. }
  intros s1 (t & -> & Ht). apply wp_bind. eapply wp_intro; [by apply zoom_Ok|].
  apply wp_bind. unfold tqueue_init, tcb_init. apply wp_bind, wp_bind.
  eapply wp_intro; [by apply zoom_Ok|]. cbn [lput vm_lens lk_lens].
  match goal with |- wp _ _ ?t => set (s2 := t) end.
  apply (wp_for (fun n s' => exists v T, s' = set_vm v (set_TCBPool T s2) /\ P v /\
    forall x, 0 <= x < n -> dead_tcb (T !!! x))); [klia | | |].
  { exists v', (TCBPool s2). split_and!; [done | done | lia]. }
  { intros i s3 Hi (v & T & -> & Hv & HT). eapply wp_mono; [by apply (tcb_init_at_id_wp P)|].
    intros [] s4 (v4 & T4 & -> & Hv4 & Hd & Hrest). exists v4, T4. split; [done|]. split; [done|]. intros x Hx.
    destruct (decide (x = i)) as [->|]; [done|]. rewrite Hrest by done. apply HT. lia. }
  intros s3 (v & T & -> & Hv & HT). eapply wp_mono; [apply tqueue_loop_wp|].
  intros [] s4 (TQ & -> & HTQ). apply wp_bind. eapply wp_intro; [by apply set_curid_run|].
  eapply wp_intro; [apply tcb_upd_run; klia|].
  match goal with |- sched_inv ?t _ /\ _ => set (s' := t) end.
  assert (Ecur : cur s' = 0) by (unfold cur, s'; cbn; by rewrite lookup_total_insert_eq).
  assert (HT' : forall pid, 0 < pid < NUM_IDS -> dead_tcb (TCBPool s' !!! pid)).
  { intros pid Hpid. unfold s'. cbn. rewrite insert_TCB, decide_False by lia. apply HT. lia. }
  assert (H0 : tstate (TCBPool s' !!! 0) = TSTATE_RUN) by (unfold s'; cbn; by rewrite insert_TCB).
  split_and!; [|done| |done|done|done].
  - split; rewrite ?Ecur; try done; try klia.
    + split; [|intros ? ? ? ? ? H; by apply elem_of_nil in H].
      intros c ch Hcc Hch. split; [by apply HTQ|]. split; [done | apply NoDup_nil_2].
    + intros c ch. apply not_elem_of_nil.
    + intros pid Hpid. split; [|intros (c & H); by apply elem_of_nil in H].
      destruct (decide (pid = 0)) as [->|]; [by rewrite H0|].
      destruct (HT' pid ltac:(lia)) as [-> _]. done.
  - by apply Ht.
Qed.

(** After thread_init the scheduler is consistent: thread 0 runs, every other
    thread is dead, and all queues of all processors are empty. *)
Theorem thread_init_correct paging root s v' :
  cpu_ok s -> paging (vm s) = Ok tt v' -> root_ok root ->
  exists s', thread_init paging root s = Ok tt s' /\ sched_inv s' (fun _ _ => []) /\ cur s' = 0 /\
    forall pid, 0 < pid < NUM_IDS -> dead_tcb (TCBPool s' !!! pid).
Proof.
  intros Hp Hpg Hroot.
  destruct (proj1 (wp_run _ _ _) (thread_init_wp (fun _ => True) paging root s v' Hp Hpg Hroot ltac:(done) I))
    as ([] & s' & ? & ? & ? & _ & ? & _). by exists s'.
Qed.

End ops.
End Thread.

(** ** A small instance *)
Module ThreadDemo.
Import Thread.
#[local] Existing Instance PCPU.pcpu_inhabited.

(** The component below holds one lock and always hands out thread id 1. *)
Abbreviation dstate := (state spinlock_t).
Definition ks0 : kstack := Kstack 0 KSTACK_MAGIC.
Definition quota1 (id quota : Z) : K spinlock_t Z := fun v => Ok 1 v.
Definition hi (pid : Z) : Z := 0x100000 + (pid + 1) * 4096.
Definition root0 : K dstate (option Z) := fun s => Ok (Some 0) (set_vm (vm s) s).

Lemma ks0_ok : kstack_ok ks0.
Proof. split; [unfold NUM_CPUS; cbn; lia | done]. Qed.

Definition boot : dstate :=
  State (Spinlock (NUM_CPUS + 1) 0)
    (PCPU.State (list_to_map ((fun i => (i, PCPU.Pcpu true true 0 0 i)) <$> seqZ 0 8)) true)
    ∅ ∅ ∅ ∅ ∅ (Spinlock 0 0) ∅.

Lemma boot_cpu : cpu_ok boot.
Proof.
  intros i Hi. assert (Hin : i ∈ seqZ 0 8) by (apply elem_of_seqZ; unfold NUM_CPUS in Hi; lia).
  revert i Hin Hi. change (forall i, i ∈ [0;1;2;3;4;5;6;7] -> 0 <= i < NUM_CPUS ->
    PCPU.pcpu_idx (PCPU.pcpu (pcpus boot) !!! i) = i).
  intros i Hin _. repeat (apply elem_of_cons in Hin as [->|Hin]; [reflexivity|]).
  by apply elem_of_nil in Hin.
Qed.

Lemma root0_ok : root_ok root0.
Proof. intros s. by exists (Some 0), (vm s). Qed.

Lemma vm_foreign : foreign_lock (vm_lens (V := spinlock_t)).
Proof. by split. Qed.

Lemma started : exists s : dstate, sched_inv ks0 s (fun _ _ => []) /\ cur ks0 s = 0 /\
  sched_ticks s !!! cpu_idx ks0 = 0 /\ (forall pid, 0 < pid < NUM_IDS -> dead_tcb (TCBPool s !!! pid)).
Proof.
  destruct (proj1 (wp_run _ _ _) (thread_init_wp ks0 ks0_ok (fun _ => True) (fun v => Ok tt v) root0 boot
    (vm boot) boot_cpu eq_refl root0_ok ltac:(done) I)) as ([] & s & _ & H1 & H2 & H3 & H4 & _).
  by exists s.
Qed.

(** Thread 1 has been spawned and waits in the ready queue. *)
Lemma two_threads : exists (s : dstate) Q, sched_inv ks0 s Q /\ Q 0 NUM_IDS = [1] /\
  (forall ch, ch <> NUM_IDS -> Q 0 ch = []) /\ cur ks0 s = 0 /\
  (forall x, 0 <= x < NUM_IDS -> x <> 0 -> channel (TCBPool s !!! x) = 0).
Proof.
  destruct started as (s & H1 & H2 & _ & H4).
  destruct (thread_spawn_spec ks0 ks0_ok quota1 hi 0x1234 0 10 s _ 1 (vm s) H1 eq_refl)
    as (s' & _ & _ & Hc & Hinv & _ & _ & Hch & _); [unfold NUM_IDS; lia | apply H4; unfold NUM_IDS; lia |].
  eexists s', _. split; [exact Hinv|]. split; [done|]. split_and!.
  - intros ch Hne. by rewrite qupd_ne by tauto.
  - by rewrite Hc.
  - intros x Hx Hx0. rewrite Hch. apply H4. lia.
Qed.

Lemma tqueue_refines_list_witness :
  exists (s s' : dstate), tqueue_dequeue ks0 NUM_IDS s = Ok 1 s'.
Proof.
  destruct two_threads as (s & Q & Hinv & HQ & _).
  destruct (tqueue_refines_list ks0 ks0_ok NUM_IDS 1 s Q) as (_ & Hd & _).
  - exact (si_queues _ _ _ Hinv).
  - exact (si_cpu _ _ _ Hinv).
  - unfold NUM_IDS; lia.
  - unfold NUM_IDS; lia.
  - destruct (Hd 1 [] HQ) as (s' & Hr & _). exists s, s'. exact Hr.
Defined.

Lemma thread_yield_correct_witness :
  exists (s s' : dstate), thread_yield ks0 s = Ok tt s'.
Proof.
  destruct two_threads as (s & Q & Hinv & HQ & _).
  destruct (thread_yield_correct ks0 ks0_ok s Q) as (new & l & s' & _ & Hr & _).
  - exact Hinv.
  - exists s, s'. exact Hr.
Defined.

Lemma sched_update_correct_witness :
  exists (s s' : dstate), sched_update ks0 s = Ok tt s' /\ sched_ticks s' !!! cpu_idx ks0 = 1.
Proof.
  destruct started as (s & Hinv & _ & Ht & _).
  destruct (sched_update_correct ks0 ks0_ok s (fun _ _ => [])) as (s' & Hr & Hpost).
  - exact Hinv.
  - rewrite Ht. lia.
  - exists s, s'. split; [exact Hr|]. rewrite Ht in Hpost. apply Hpost.
Defined.

Lemma thread_sleep_correct_witness :
  exists (s s' : dstate) pid, thread_sleep ks0 0x5000 (Some vm_lens) s = Ok pid s' /\ cur ks0 s' = 1.
Proof.
  destruct two_threads as (s & Q & Hinv & HQ & _).
  destruct (thread_sleep_correct ks0 ks0_ok 0x5000 vm_lens s Q 1 []) as (s' & Hr & _ & Hc & _).
  - exact Hinv.
  - exact vm_foreign.
  - exact HQ.
  - exists s, s', (cur ks0 s). split; assumption.
Defined.

Lemma thread_sleep_no_thread_witness :
  exists s : dstate, thread_sleep ks0 0x5000 (Some vm_lens) s = Err Undef.
Proof.
  destruct started as (s & Hinv & _). exists s.
  apply (thread_sleep_no_thread ks0 ks0_ok 0x5000 vm_lens s (fun _ _ => [])).
  - exact Hinv.
  - exact vm_foreign.
  - reflexivity.
Defined.

Lemma thread_wakeup_correct_witness :
  exists (s s' : dstate), thread_wakeup ks0 0x5000 s = Ok tt s'.
Proof.
  destruct two_threads as (s & Q & Hinv & _).
  destruct (thread_wakeup_correct ks0 ks0_ok 0x5000 s Q) as (s' & Hr & _).
  - exact Hinv.
  - exists s, s'. exact Hr.
Defined.

Lemma thread_spawn_correct_witness :
  exists (s s' : dstate), thread_spawn ks0 quota1 hi 0x1234 0 10 s = Ok 1 s' /\
    eip (kctx_pool s' !!! 1) = 0x1234.
Proof.
  destruct started as (s & Hinv & _ & _ & Hd).
  destruct (thread_spawn_correct ks0 ks0_ok quota1 hi 0x1234 0 10 s (fun _ _ => []) 1 (vm s))
    as (s' & Hr & _ & _ & _ & He & _).
  - exact Hinv.
  - reflexivity.
  - unfold NUM_IDS; lia.
  - apply Hd; unfold NUM_IDS; lia.
  - exists s, s'. split; assumption.
Defined.

Lemma thread_init_correct_witness :
  exists s' : dstate, thread_init ks0 (fun v => Ok tt v) root0 boot = Ok tt s' /\ cur ks0 s' = 0.
Proof.
  destruct (thread_init_correct ks0 ks0_ok (fun v => Ok tt v) root0 boot (vm boot))
    as (s' & Hr & _ & Hc & _).
  - exact boot_cpu.
  - reflexivity.
  - exact root0_ok.
  - exists s'. split; assumption.
Defined.

End ThreadDemo.
