(* ===== verification/Intr.v ===== *)
(** * Interrupt controllers and the interrupt descriptor table
      (kern/dev/pic.c, ioapic.c, lapic.c, intr.c, disk/picirq.c, disk/ioapic.c)

    The controllers are hardware.  The two 8259A chips are the state machine
    of their data sheet (initialisation words ICW1..ICW4, then operation words);
    an I/O APIC is a register selector with the registers behind it; the local
    APIC is its register file with the sequence of writes it received, and the
    values its timer and port 0x61 return are read off an input stream.  The
    driver code is what the source does on them. *)

From S2P Require Import Prelude Spinlock.

Module Intr.

Definition T_IRQ0 : Z := 32.
Definition T_SYSCALL : Z := 48.
Definition T_LERROR : Z := 50.
Definition T_IPI0 : Z := 63.
Definition T_DEFAULT : Z := 254.
Definition IRQ_TIMER : Z := 0.
Definition IRQ_KBD : Z := 1.
Definition IRQ_SLAVE : Z := 2.
Definition IRQ_SERIAL13 : Z := 4.
Definition IRQ_SPURIOUS : Z := 7.
Definition IRQ_IDE1 : Z := 14.
#[export] Hint Unfold T_IRQ0 T_SYSCALL T_IPI0 T_DEFAULT : kconst.

(** ** The hardware *)

Inductive icw_state : Type := Operational | WantICW2 | WantICW3 | WantICW4.
#[export] Instance icw_state_eq_dec : EqDecision icw_state.
Proof. solve_decision. Defined.

Record i8259 : Type := I8259 {
  icw : icw_state; imr : Z; vector_base : Z; cascade : Z; mode : Z; eois : Z
}.

(** A write to the even (command) and odd (data) port of a chip. *)
Definition i8259_cmd (v : Z) (p : i8259) : i8259 :=
  if Z.testbit v 4 then I8259 WantICW2 0 (vector_base p) (cascade p) (mode p) (eois p)
  else if Z.testbit v 3 then p                              (* OCW3 *)
  else if Z.testbit v 5 then                                (* OCW2: end of interrupt *)
    I8259 (icw p) (imr p) (vector_base p) (cascade p) (mode p) (eois p + 1)
  else p.
Definition i8259_data (v : Z) (p : i8259) : i8259 :=
  match icw p with
  | WantICW2 => I8259 WantICW3 (imr p) (Z.land v 0xf8) (cascade p) (mode p) (eois p)
  | WantICW3 => I8259 WantICW4 (imr p) (vector_base p) v (mode p) (eois p)
  | WantICW4 => I8259 Operational (imr p) (vector_base p) (cascade p) v (eois p)
  | Operational => I8259 Operational v (vector_base p) (cascade p) (mode p) (eois p)
  end.

Record ioapic_dev : Type := Ioapic { regsel : Z; ioregs : gmap Z Z }.

Record gate : Type := Gate { g_off : Z; g_sel : Z; g_trap : bool; g_dpl : Z }.

Definition MAX_IOAPIC : Z := 16.
#[export] Hint Unfold MAX_IOAPIC : kconst.

Record state : Type := State {
  pic1 : i8259; pic2 : i8259;
  mmio : gmap Z ioapic_dev;        (* the I/O APICs, by base address *)
  lowmem : gmap Z Z;               (* words stored at addresses of no device *)
  pic_irqmask : Z; pic_inited : bool;       (* statics of pic.c *)
  disk_irqmask : Z; disk_ioapic : Z;        (* statics of disk/picirq.c, disk/ioapic.c *)
  ioapics : gmap Z Z; ioapicid : gmap Z Z; gsi : gmap Z Z; ioapic_num : Z;
  lapic : Z; lregs : gmap Z Z; ltrace : list (Z * Z);
  in61 : list Z; tccr : list Z;
  using_apic : bool; intr_inited : bool; idt : gmap Z gate; idt_loaded : bool
}.

Definition w_pics a b s := State a b (mmio s) (lowmem s) (pic_irqmask s) (pic_inited s)
  (disk_irqmask s) (disk_ioapic s) (ioapics s) (ioapicid s) (gsi s) (ioapic_num s) (lapic s)
  (lregs s) (ltrace s) (in61 s) (tccr s) (using_apic s) (intr_inited s) (idt s) (idt_loaded s).
Definition w_mmio m l s := State (pic1 s) (pic2 s) m l (pic_irqmask s) (pic_inited s)
  (disk_irqmask s) (disk_ioapic s) (ioapics s) (ioapicid s) (gsi s) (ioapic_num s) (lapic s)
  (lregs s) (ltrace s) (in61 s) (tccr s) (using_apic s) (intr_inited s) (idt s) (idt_loaded s).
Definition w_pic m i s := State (pic1 s) (pic2 s) (mmio s) (lowmem s) m i
  (disk_irqmask s) (disk_ioapic s) (ioapics s) (ioapicid s) (gsi s) (ioapic_num s) (lapic s)
  (lregs s) (ltrace s) (in61 s) (tccr s) (using_apic s) (intr_inited s) (idt s) (idt_loaded s).
Definition w_disk m a s := State (pic1 s) (pic2 s) (mmio s) (lowmem s) (pic_irqmask s)
  (pic_inited s) m a (ioapics s) (ioapicid s) (gsi s) (ioapic_num s) (lapic s)
  (lregs s) (ltrace s) (in61 s) (tccr s) (using_apic s) (intr_inited s) (idt s) (idt_loaded s).
Definition w_ioapics a i g n s := State (pic1 s) (pic2 s) (mmio s) (lowmem s) (pic_irqmask s)
  (pic_inited s) (disk_irqmask s) (disk_ioapic s) a i g n (lapic s)
  (lregs s) (ltrace s) (in61 s) (tccr s) (using_apic s) (intr_inited s) (idt s) (idt_loaded s).
Definition w_lapic a r t s := State (pic1 s) (pic2 s) (mmio s) (lowmem s) (pic_irqmask s)
  (pic_inited s) (disk_irqmask s) (disk_ioapic s) (ioapics s) (ioapicid s) (gsi s)
  (ioapic_num s) a r t (in61 s) (tccr s) (using_apic s) (intr_inited s) (idt s) (idt_loaded s).
Definition w_streams a b s := State (pic1 s) (pic2 s) (mmio s) (lowmem s) (pic_irqmask s)
  (pic_inited s) (disk_irqmask s) (disk_ioapic s) (ioapics s) (ioapicid s) (gsi s)
  (ioapic_num s) (lapic s) (lregs s) (ltrace s) a b (using_apic s) (intr_inited s) (idt s)
  (idt_loaded s).
Definition w_intr u i d l s := State (pic1 s) (pic2 s) (mmio s) (lowmem s) (pic_irqmask s)
  (pic_inited s) (disk_irqmask s) (disk_ioapic s) (ioapics s) (ioapicid s) (gsi s)
  (ioapic_num s) (lapic s) (lregs s) (ltrace s) (in61 s) (tccr s) u i d l.

(** [outb] to the ports of the two chips, 0x20/0x21 and 0xA0/0xA1. *)
Definition IO_PIC1 : Z := 0x20.
Definition IO_PIC2 : Z := 0xA0.
Definition outb_pic (port v : Z) : K state unit := modify (fun s =>
  let v := u8 v in
  if port =? IO_PIC1 then w_pics (i8259_cmd v (pic1 s)) (pic2 s) s
  else if port =? IO_PIC1 + 1 then w_pics (i8259_data v (pic1 s)) (pic2 s) s
  else if port =? IO_PIC2 then w_pics (pic1 s) (i8259_cmd v (pic2 s)) s
  else if port =? IO_PIC2 + 1 then w_pics (pic1 s) (i8259_data v (pic2 s)) s
  else s).

(** [base->reg = reg; base->data = data]: a store to an address that is no
    I/O APIC goes to memory. *)
Definition ioapic_write (base reg data : Z) : K state unit := modify (fun s =>
  match mmio s !! base with
  | Some d => w_mmio (<[base := Ioapic reg (<[reg := data]> (ioregs d))]> (mmio s)) (lowmem s) s
  | None => w_mmio (mmio s) (<[base + 16 := data]> (<[base := reg]> (lowmem s))) s
  end).
Definition ioapic_read (base reg : Z) : K state Z := fun s =>
  match mmio s !! base with
  | Some d => Ok (ioregs d !!! reg) (w_mmio (<[base := Ioapic reg (ioregs d)]> (mmio s)) (lowmem s) s)
  | None => let m := <[base := reg]> (lowmem s) in Ok (m !!! (base + 16)) (w_mmio (mmio s) m s)
  end.

(** ** disk/picirq.c *)

Definition picsetmask (mask : Z) : K state unit :=
  modify (fun s => w_disk mask (disk_ioapic s) s) ;;
  outb_pic (IO_PIC1 + 1) mask ;;
  outb_pic (IO_PIC2 + 1) (Z.shiftr mask 8).

Definition picenable (irq : Z) : K state unit :=
  m ← gets disk_irqmask;
  picsetmask (u16 (Z.land m (Z.lnot (Z.shiftl 1 irq)))).

Definition picinit : K state unit :=
  outb_pic (IO_PIC1 + 1) 0xFF ;;
  outb_pic (IO_PIC2 + 1) 0xFF ;;
  outb_pic IO_PIC1 0x11 ;;
  outb_pic (IO_PIC1 + 1) T_IRQ0 ;;
  outb_pic (IO_PIC1 + 1) (Z.shiftl 1 IRQ_SLAVE) ;;
  outb_pic (IO_PIC1 + 1) 0x3 ;;
  outb_pic IO_PIC2 0x11 ;;
  outb_pic (IO_PIC2 + 1) (T_IRQ0 + 8) ;;
  outb_pic (IO_PIC2 + 1) IRQ_SLAVE ;;
  outb_pic (IO_PIC2 + 1) 0x3 ;;
  outb_pic IO_PIC1 0x68 ;;
  outb_pic IO_PIC1 0x0a ;;
  outb_pic IO_PIC2 0x68 ;;
  outb_pic IO_PIC2 0x0a ;;
  m ← gets disk_irqmask;
  when (negb (m =? 0xFFFF)) (picsetmask m).

(** ** disk/ioapic.c *)

Definition IOAPIC : Z := 0xFEC00000.
Definition REG_ID : Z := 0x00.
Definition REG_VER : Z := 0x01.
Definition REG_TABLE : Z := 0x10.
Definition INT_DISABLED : Z := 0x00010000.

Definition ioapicread (reg : Z) : K state Z :=
  b ← gets disk_ioapic; ioapic_read b reg.
Definition ioapicwrite (reg data : Z) : K state unit :=
  b ← gets disk_ioapic; ioapic_write b reg data.

Definition ioapicinit : K state unit :=
  modify (fun s => w_disk (disk_irqmask s) IOAPIC s) ;;
  v ← ioapicread REG_VER;
  let maxintr := Z.land (Z.shiftr v 16) 0xFF in
  ioapicread REG_ID ;;
  for_ 0 (maxintr + 1) (fun i =>
    ioapicwrite (REG_TABLE + 2 * i) (Z.lor INT_DISABLED (T_IRQ0 + i)) ;;
    ioapicwrite (REG_TABLE + 2 * i + 1) 0).

Definition ioapicenable (irq cpunum : Z) : K state unit :=
  ioapicwrite (REG_TABLE + 2 * irq) (T_IRQ0 + irq) ;;
  ioapicwrite (REG_TABLE + 2 * irq + 1) (u32 (Z.shiftl cpunum 24)).

(** ** pic.c *)

Definition pic_setup (icw4_master : Z) : K state unit :=
  outb_pic IO_PIC1 0x11 ;;
  outb_pic (IO_PIC1 + 1) T_IRQ0 ;;
  outb_pic (IO_PIC1 + 1) (Z.shiftl 1 IRQ_SLAVE) ;;
  outb_pic (IO_PIC1 + 1) icw4_master ;;
  outb_pic IO_PIC2 0x11 ;;
  outb_pic (IO_PIC2 + 1) (T_IRQ0 + 8) ;;
  outb_pic (IO_PIC2 + 1) IRQ_SLAVE ;;
  outb_pic (IO_PIC2 + 1) 0x01 ;;
  outb_pic IO_PIC1 0x68 ;;
  outb_pic IO_PIC1 0x0a ;;
  outb_pic IO_PIC2 0x68 ;;
  outb_pic IO_PIC2 0x0a.

Definition pic_init : K state unit :=
  i ← gets pic_inited;
  if (i : bool) then mret tt
  else
    modify (fun s => w_pic (pic_irqmask s) true s) ;;
    outb_pic (IO_PIC1 + 1) 0xff ;;
    outb_pic (IO_PIC2 + 1) 0xff ;;
    pic_setup 0x1 ;;
    outb_pic (IO_PIC1 + 1) 0xFF ;;
    outb_pic (IO_PIC2 + 1) 0xFF.

Definition pic_setmask (mask : Z) : K state unit :=
  modify (fun s => w_pic mask (pic_inited s) s) ;;
  outb_pic (IO_PIC1 + 1) (u8 mask) ;;
  outb_pic (IO_PIC2 + 1) (u8 (Z.shiftr mask 8)).

Definition pic_enable (irq : Z) : K state unit :=
  m ← gets pic_irqmask;
  pic_setmask (u16 (Z.land m (Z.lnot (Z.shiftl 1 irq)))).

Definition pic_eoi : K state unit :=
  outb_pic IO_PIC1 0x20 ;;
  outb_pic IO_PIC2 0x20.

Definition pic_reset : K state unit :=
  outb_pic (IO_PIC1 + 1) 0x00 ;;
  outb_pic (IO_PIC2 + 1) 0x00 ;;
  pic_setup 0x3.

(** ** ioapic.c *)

Definition ioapic_register (addr id g : Z) : K state unit :=
  n ← gets ioapic_num;
  if MAX_IOAPIC <=? n then mret tt
  else
    bounds MAX_IOAPIC n ;;
    modify (fun s => w_ioapics (<[n := addr]> (ioapics s)) (<[n := id]> (ioapicid s))
      (<[n := g]> (gsi s)) (ioapic_num s) s) ;;
    modify (fun s => w_ioapics (ioapics s) (ioapicid s) (gsi s) (i32 (ioapic_num s + 1)) s).

Definition maxintr_of (ver : Z) : Z := Z.land (Z.shiftr ver 16) 0xFF.

Definition ioapic_init_one (i : Z) : K state unit :=
  bounds MAX_IOAPIC i ;;
  base ← gets (fun s => ioapics s !!! i);
  want ← gets (fun s => ioapicid s !!! i);
  kassert (negb (base =? 0)) "ioapic != NULL" ;;
  r ← ioapic_read base REG_ID;
  let id := u8 (Z.shiftr r 24) in
  when (id =? 0) (ioapic_write base REG_ID (u32 (Z.shiftl want 24))) ;;
  ver ← ioapic_read base REG_VER;
  for_ 0 (maxintr_of ver + 1) (fun j =>
    ioapic_write base (REG_TABLE + 2 * j) (Z.lor INT_DISABLED (T_IRQ0 + j)) ;;
    ioapic_write base (REG_TABLE + 2 * j + 1) 0).

Definition ioapic_init : K state unit :=
  n ← gets ioapic_num;
  for_ 0 n ioapic_init_one.

Definition ioapic_enable_body (irq apicid : Z) (trigger_mode polarity : bool) (i : Z)
    : K state (Z + Z) :=
  n ← gets ioapic_num;
  if negb (i <? n) then mret (inr i)
  else
    bounds MAX_IOAPIC i ;;
    base ← gets (fun s => ioapics s !!! i);
    g ← gets (fun s => gsi s !!! i);
    ver ← ioapic_read base REG_VER;
    if (g <=? irq) && (irq <=? g + maxintr_of ver) then
      ioapic_write base (REG_TABLE + 2 * (irq - g))
        (Z.lor (Z.lor (Z.shiftl (Z.b2z trigger_mode) 15) (Z.shiftl (Z.b2z polarity) 13))
           (T_IRQ0 + irq)) ;;
      ioapic_write base (REG_TABLE + 2 * (irq - g) + 1) (u32 (Z.shiftl apicid 24)) ;;
      mret (inr i)
    else mret (inl (i + 1)).

Definition ioapic_enable (irq apicid : Z) (trigger_mode polarity : bool) : K state unit :=
  i ← loop (Z.to_nat MAX_IOAPIC + 1) (ioapic_enable_body irq apicid trigger_mode polarity) 0;
  n ← gets ioapic_num;
  when (i =? n) (panic "Cannot enable IRQ on IOAPIC").

Definition ioapic_number : K state Z := gets ioapic_num.
Definition ioapic_get (idx : Z) : K state (option Z) :=
  n ← gets ioapic_num;
  if u32 n <=? idx then mret None
  else bounds MAX_IOAPIC idx ;; gets (fun s => Some (ioapics s !!! idx)).

(** ** lapic.c *)

Definition LAPIC_VER : Z := 0x0030 / 4.
Definition LAPIC_TPR : Z := 0x0080 / 4.
Definition LAPIC_EOI : Z := 0x00B0 / 4.
Definition LAPIC_LDR : Z := 0x00D0 / 4.
Definition LAPIC_DFR : Z := 0x00E0 / 4.
Definition LAPIC_SVR : Z := 0x00F0 / 4.
Definition LAPIC_ESR : Z := 0x0280 / 4.
Definition LAPIC_ICRLO : Z := 0x0300 / 4.
Definition LAPIC_ICRHI : Z := 0x0310 / 4.
Definition LAPIC_TIMER : Z := 0x0320 / 4.
Definition LAPIC_PCINT : Z := 0x0340 / 4.
Definition LAPIC_LINT0 : Z := 0x0350 / 4.
Definition LAPIC_LINT1 : Z := 0x0360 / 4.
Definition LAPIC_ERROR : Z := 0x0370 / 4.
Definition LAPIC_TICR : Z := 0x0380 / 4.
Definition LAPIC_TCCR : Z := 0x0390 / 4.
Definition LAPIC_TDCR : Z := 0x03E0 / 4.
Definition LAPIC_SVR_ENABLE : Z := 0x00000100.
Definition LAPIC_DFR_FLAT_MODE : Z := 0xf0000000.
Definition LAPIC_TIMER_X1 : Z := 0x0000000B.
Definition LAPIC_TIMER_PERIODIC : Z := 0x00020000.
Definition LAPIC_LINT_MASKED : Z := 0x00010000.
Definition APIC_LVTT_M : Z := 0x00010000.
Definition LAPIC_ICRLO_INIT : Z := 0x00000500.
Definition LAPIC_ICRLO_STARTUP : Z := 0x00000600.
Definition LAPIC_ICRLO_DELIVS : Z := 0x00001000.
Definition LAPIC_ICRLO_ASSERT : Z := 0x00004000.
Definition LAPIC_ICRLO_LEVEL : Z := 0x00008000.
Definition LAPIC_ICRLO_NOBCAST : Z := 0x00000000.
Definition LAPIC_ICRLO_BCAST : Z := 0x00080000.
Definition LAPIC_ICRHI_DEST_MASK : Z := 0xFF000000.
Definition LAPIC_TIMER_INTR_FREQ : Z := 1000.

Definition lapic_here : K state unit :=
  l ← gets lapic; if l =? 0 then fail Undef else mret tt.

(** The current count comes from the running timer, the rest from the
    register file. *)
Definition lapic_read (index : Z) : K state Z :=
  lapic_here ;;
  if index =? LAPIC_TCCR then
    t ← gets tccr;
    match t with
    | [] => fail Block
    | v :: t' => modify (fun s => w_streams (in61 s) t' s) ;; mret v
    end
  else gets (fun s => lregs s !!! index).

Definition lapic_write (index value : Z) : K state unit :=
  lapic_here ;;
  modify (fun s => w_lapic (lapic s) (<[index := u32 value]> (lregs s))
    (ltrace s ++ [(index, u32 value)]) s).

Definition lapic_register (lapic_addr : Z) : K state unit :=
  modify (fun s => w_lapic lapic_addr (lregs s) (ltrace s) s).

Definition inb61 : K state Z :=
  p ← gets in61;
  match p with
  | [] => fail Block
  | v :: p' => modify (fun s => w_streams p' (tccr s) s) ;; mret v
  end.

(** The loop of lapic_calibrate_timer: [timer], [timer2], [pitcnt],
    [timermin], [timermax]. *)
Definition calib_locals : Type := Z * Z * Z * Z * Z.
Definition calib_body (v : calib_locals) : K state (calib_locals + calib_locals) :=
  let '(timer, timer2, pitcnt, timermin, timermax) := v in
  p ← inb61;
  if negb (Z.land p 0x20 =? 0) then mret (inr v)
  else
    timer2 ← lapic_read LAPIC_TCCR;
    let delta := u32 (timer - timer2) in
    mret (inl (timer2, timer2, i32 (pitcnt + 1),
               (if delta <? timermin then delta else timermin),
               (if timermax <? delta then delta else timermax))).

(** The writes to the PIT ports 0x43 and 0x42 start the countdown behind
    port 0x61 and the timer stream; they have no other effect here. *)
Definition lapic_calibrate_timer (fuel : nat) (latch ms loopmin : Z) : K state Z :=
  lapic_write LAPIC_TICR (2 ^ 32 - 1) ;;
  inb61 ;;
  timer ← lapic_read LAPIC_TCCR;
  r ← loop fuel calib_body (timer, timer, 0, 2 ^ 32 - 1, 0);
  let '(_, timer2, pitcnt, timermin, timermax) := r in
  if (pitcnt <? loopmin) || (u32 (10 * timermin) <? timermax) then mret (2 ^ 32 - 1)
  else if ms =? 0 then fail Undef
  else mret (u32 (timer - timer2) / ms).

Definition CAL_MS : Z := 10.
Definition CAL_LATCH : Z := 1193182 / (1000 / CAL_MS).
Definition CAL_PIT_LOOPS : Z := 1000.

Definition calib_retry (fuel : nat) (i : Z) : K state (Z + Z) :=
  t ← lapic_calibrate_timer fuel CAL_LATCH CAL_MS CAL_PIT_LOOPS;
  if negb (t =? 2 ^ 32 - 1) then mret (inr t)
  else if i + 1 <? 5 then mret (inl (i + 1)) else mret (inr t).

Definition wait_icr : K state unit :=
  v ← lapic_read LAPIC_ICRLO;
  if Z.land v LAPIC_ICRLO_DELIVS =? 0 then mret tt else fail Block.

Definition lapic_init (fuel : nat) : K state unit :=
  l ← gets lapic;
  when (l =? 0) (panic "NO LAPIC") ;;
  lapic_write LAPIC_SVR (Z.lor LAPIC_SVR_ENABLE (T_IRQ0 + IRQ_SPURIOUS)) ;;
  lapic_write LAPIC_TDCR LAPIC_TIMER_X1 ;;
  lapic_write LAPIC_TIMER (Z.lor LAPIC_TIMER_PERIODIC (T_IRQ0 + IRQ_TIMER)) ;;
  t ← loop 5 (calib_retry fuel) 0;
  let lapic_ticks_per_ms := if t =? 2 ^ 32 - 1 then 500000 else t in
  lapic_write LAPIC_TICR (u32 (lapic_ticks_per_ms * 1000) / LAPIC_TIMER_INTR_FREQ) ;;
  lapic_write LAPIC_LINT0 LAPIC_LINT_MASKED ;;
  lapic_write LAPIC_LINT1 LAPIC_LINT_MASKED ;;
  ver ← lapic_read LAPIC_VER;
  when (4 <=? Z.land (Z.shiftr ver 16) 0xFF) (lapic_write LAPIC_PCINT APIC_LVTT_M) ;;
  lapic_write LAPIC_DFR LAPIC_DFR_FLAT_MODE ;;
  lapic_write LAPIC_LDR 0 ;;
  lapic_write LAPIC_ERROR T_LERROR ;;
  lapic_write LAPIC_ESR 0 ;;
  lapic_write LAPIC_ESR 0 ;;
  lapic_write LAPIC_EOI 0 ;;
  lapic_write LAPIC_ICRHI 0 ;;
  lapic_write LAPIC_ICRLO (Z.lor (Z.lor LAPIC_ICRLO_BCAST LAPIC_ICRLO_INIT) LAPIC_ICRLO_LEVEL) ;;
  wait_icr ;;
  lapic_write LAPIC_TPR 0.

Definition lapic_eoi : K state unit :=
  l ← gets lapic;
  when (negb (l =? 0)) (lapic_write LAPIC_EOI 0).

(** The warm reset vector is stored at 0x467 (the two halves). *)
Definition lapic_startcpu (apicid addr : Z) : K state unit :=
  modify (fun s => w_mmio (mmio s)
    (<[0x469 := u16 (Z.shiftr addr 4)]> (<[0x467 := 0]> (lowmem s))) s) ;;
  lapic_write LAPIC_ICRHI (Z.shiftl apicid 24) ;;
  lapic_write LAPIC_ICRLO (Z.lor (Z.lor LAPIC_ICRLO_INIT LAPIC_ICRLO_LEVEL) LAPIC_ICRLO_ASSERT) ;;
  lapic_write LAPIC_ICRLO (Z.lor LAPIC_ICRLO_INIT LAPIC_ICRLO_LEVEL) ;;
  for_ 0 2 (fun _ =>
    lapic_write LAPIC_ICRHI (Z.shiftl apicid 24) ;;
    lapic_write LAPIC_ICRLO (Z.lor LAPIC_ICRLO_STARTUP (Z.shiftr addr 12))).

Definition lapic_send_ipi (apicid vector deliver_mode shorthand_mode : Z) : K state unit :=
  kassert (negb (deliver_mode =? LAPIC_ICRLO_INIT) && negb (deliver_mode =? LAPIC_ICRLO_STARTUP))
    "deliver_mode" ;;
  kassert (T_IPI0 <=? vector) "vector >= T_IPI0" ;;
  wait_icr ;;
  when (shorthand_mode =? LAPIC_ICRLO_NOBCAST)
    (lapic_write LAPIC_ICRHI (Z.land (Z.shiftl apicid 24) LAPIC_ICRHI_DEST_MASK)) ;;
  lapic_write LAPIC_ICRLO (Z.lor (Z.lor shorthand_mode deliver_mode) (Z.land vector 0xFF)).

(** ** intr.c

    [handler] gives the addresses of the entry points of idt.S, [edx] the
    feature word of cpuid, [ncpu] and [lapicid] what pcpu_mp.c found. *)

Definition CPU_GDT_KCODE : Z := 0x08.
Definition CPUID_FEATURE_APIC : Z := 2 ^ 9.

Definition SETGATE (i : Z) (istrap : bool) (sel off dpl : Z) : K state unit :=
  bounds 256 i ;;
  modify (fun s => w_intr (using_apic s) (intr_inited s)
    (<[i := Gate (u32 off) sel istrap dpl]> (idt s)) (idt_loaded s) s).

Definition idt_entries : list (Z * string * Z) := [
  (0, "Xdivide", 0); (1, "Xdebug", 0); (2, "Xnmi", 0); (3, "Xbrkpt", 3); (4, "Xoflow", 3);
  (5, "Xbound", 0); (6, "Xillop", 0); (7, "Xdevice", 0); (8, "Xdblflt", 0); (10, "Xtss", 0);
  (11, "Xsegnp", 0); (12, "Xstack", 0); (13, "Xgpflt", 0); (14, "Xpgflt", 0);
  (16, "Xfperr", 0); (17, "Xalign", 0); (18, "Xmchk", 0);
  (T_IRQ0 + 0, "Xirq_timer", 0); (T_IRQ0 + 1, "Xirq_kbd", 0); (T_IRQ0 + 2, "Xirq_slave", 0);
  (T_IRQ0 + 3, "Xirq_serial2", 0); (T_IRQ0 + 4, "Xirq_serial1", 0); (T_IRQ0 + 5, "Xirq_lpt", 0);
  (T_IRQ0 + 6, "Xirq_floppy", 0); (T_IRQ0 + 7, "Xirq_spurious", 0); (T_IRQ0 + 8, "Xirq_rtc", 0);
  (T_IRQ0 + 9, "Xirq9", 0); (T_IRQ0 + 10, "Xirq10", 0); (T_IRQ0 + 11, "Xirq11", 0);
  (T_IRQ0 + 12, "Xirq_mouse", 0); (T_IRQ0 + 13, "Xirq_coproc", 0);
  (T_IRQ0 + 14, "Xirq_ide1", 0); (T_IRQ0 + 15, "Xirq_ide2", 0);
  (T_SYSCALL, "Xsyscall", 3); (T_DEFAULT, "Xdefault", 0) ]%string.

Fixpoint set_gates (handler : string -> Z) (l : list (Z * string * Z)) : K state unit :=
  match l with
  | [] => mret tt
  | (i, sym, dpl) :: l' =>
      SETGATE i false CPU_GDT_KCODE (handler sym) dpl ;; set_gates handler l'
  end.

Definition intr_init_idt (handler : string -> Z) : K state unit :=
  kassert (Z.land T_IRQ0 7 =? 0) "(T_IRQ0 & 7) == 0" ;;
  for_ 0 256 (fun i => SETGATE i false CPU_GDT_KCODE (handler "Xdefault"%string) 0) ;;
  set_gates handler idt_entries ;;
  modify (fun s => w_intr (using_apic s) (intr_inited s) (idt s) true s).

Definition intr_init (fuel : nat) (handler : string -> Z) (edx : Z) (onboot : bool) : K state unit :=
  pic_init ;;
  let apic := negb (Z.land edx CPUID_FEATURE_APIC =? 0) in
  modify (fun s => w_intr apic (intr_inited s) (idt s) (idt_loaded s) s) ;;
  kassert apic "using_apic == TRUE" ;;
  when apic (when onboot ioapic_init ;; lapic_init fuel) ;;
  intr_init_idt handler ;;
  modify (fun s => w_intr (using_apic s) true (idt s) (idt_loaded s) s).

Definition intr_enable (ncpu : Z) (lapicid : Z -> Z) (irq cpunum : Z) : K state unit :=
  kassert ((cpunum =? 0xff) || ((0 <=? cpunum) && (cpunum <? ncpu))) "cpunum" ;;
  if 24 <=? irq then mret tt
  else
    a ← gets using_apic;
    if (a : bool) then ioapic_enable irq (if cpunum =? 0xff then 0xff else lapicid cpunum) false false
    else kassert (irq <? 16) "irq < 16" ;; pic_enable irq.

Definition intr_enable_lapicid (irq lapic_id : Z) : K state unit :=
  if 24 <? irq then mret tt
  else
    a ← gets using_apic;
    if (a : bool) then ioapic_enable irq (if lapic_id =? 0xff then 0xff else u8 lapic_id) false false
    else kassert (irq <? 16) "irq < 16" ;; pic_enable irq.

Definition intr_eoi : K state unit :=
  a ← gets using_apic;
  if (a : bool) then lapic_eoi else pic_eoi.

(** ** The 8259A pair after initialisation *)

(** pic_init, whatever the two chips were doing before, leaves both
    operational, in 8086 mode, cascaded on line 2, delivering their lines at
    vectors 32..39 and 40..47 (clear of the processor's exceptions), with every
    line masked; a second call changes nothing. *)
Theorem pic_init_correct s :
  pic_inited s = false ->
  exists s', pic_init s = Ok tt s' /\
    (icw (pic1 s'), imr (pic1 s'), vector_base (pic1 s'), cascade (pic1 s'), mode (pic1 s'))
      = (Operational, 0xff, T_IRQ0, 4, 1) /\
    (icw (pic2 s'), imr (pic2 s'), vector_base (pic2 s'), cascade (pic2 s'), mode (pic2 s'))
      = (Operational, 0xff, T_IRQ0 + 8, 2, 1) /\
    pic_init s' = Ok tt s'.
Proof.
  destruct s as [[[] ? ? ? ? ?] [[] ? ? ? ? ?]]; cbn; intros ->;
    (eexists; split; [vm_compute; reflexivity | done]).
Qed.

(** ** The descriptor table *)

Definition dpl_of (l : list (Z * string * Z)) (i d : Z) : Z :=
  foldl (fun a e => if e.1.1 =? i then e.2 else a) d l.

Lemma set_gates_run handler l s :
  Forall (fun e => 0 <= e.1.1 < 256) l ->
  exists t, set_gates handler l s =
      Ok tt (w_intr (using_apic s) (intr_inited s) t (idt_loaded s) s) /\
    forall i g, idt s !! i = Some g -> g_sel g = CPU_GDT_KCODE -> g_trap g = false ->
      exists g', t !! i = Some g' /\ g_sel g' = CPU_GDT_KCODE /\ g_trap g' = false /\
        g_dpl g' = dpl_of l i (g_dpl g).
Proof.
  intros Hl. revert s. induction Hl as [|[[i sym] dpl] l Hi Hl IH]; intros s; cbn [set_gates].
  - exists (idt s). split; [by destruct s|]. intros i g Hg ??. by exists g.
  - cbn in Hi. unfold SETGATE. rewrite bind_assoc. krun (by apply bounds_Ok). krun.
    edestruct IH as (t & Hrun & Ht). exists t. rewrite Hrun. split; [done|].
    intros j g Hg Hs Htr. cbn in Ht. destruct (decide (i = j)) as [->|Hne].
    + destruct (Ht j (Gate (u32 (handler sym)) CPU_GDT_KCODE false dpl)) as (g' & ? & ? & ? & Hd);
        [apply lookup_insert_eq | done | done |].
      exists g'. repeat split; try done. rewrite Hd. cbn. by rewrite Z.eqb_refl.
    + destruct (Ht j g) as (g' & ? & ? & ? & Hd); [by rewrite lookup_insert_ne | done | done |].
      exists g'. repeat split; try done. rewrite Hd. cbn. by apply Z.eqb_neq in Hne as ->.
Qed.

Lemma default_gates handler s :
  exists t, for_ 0 256 (fun i => SETGATE i false CPU_GDT_KCODE (handler "Xdefault"%string) 0) s =
      Ok tt (w_intr (using_apic s) (intr_inited s) t (idt_loaded s) s) /\
    forall i, 0 <= i < 256 ->
      exists g, t !! i = Some g /\ g_sel g = CPU_GDT_KCODE /\ g_trap g = false /\ g_dpl g = 0.
Proof.
  cut (wp (for_ 0 256 (fun i => SETGATE i false CPU_GDT_KCODE (handler "Xdefault"%string) 0)) (fun _ s' => exists t,
    s' = w_intr (using_apic s) (intr_inited s) t (idt_loaded s) s /\ forall i, 0 <= i < 256 ->
      exists g, t !! i = Some g /\ g_sel g = CPU_GDT_KCODE /\ g_trap g = false /\ g_dpl g = 0) s).
  { intros ([] & ? & Hr & t & -> & H)%wp_run. eauto. }
  apply (wp_for (fun n s' => exists t, s' = w_intr (using_apic s) (intr_inited s) t (idt_loaded s) s /\
    forall i, 0 <= i < n ->
    exists g, t !! i = Some g /\ g_sel g = CPU_GDT_KCODE /\ g_trap g = false /\ g_dpl g = 0));
    [lia | exists (idt s); split; [by destruct s | lia] | | done].
  intros n s1 Hn (t & -> & IH). unfold SETGATE. wp_step. apply wp_bounds; [done|]. wp_step.
  eexists. split; [reflexivity|]. cbn [idt w_intr]. intros i Hi. destruct (decide (n = i)) as [->|].
  - eexists. by rewrite lookup_insert_eq.
  - rewrite lookup_insert_ne by done. apply IH. lia.
Qed.

(** All gates are interrupt gates into the kernel; those of user code are three. *)
Definition user_gates (t : gmap Z gate) : Prop := forall i, 0 <= i < 256 ->
  exists g, t !! i = Some g /\ g_sel g = CPU_GDT_KCODE /\ g_trap g = false /\
    (g_dpl g = 3 <-> i = 3 \/ i = 4 \/ i = T_SYSCALL) /\ (g_dpl g = 0 \/ g_dpl g = 3).

Lemma intr_init_idt_run handler s : exists t,
  intr_init_idt handler s = Ok tt (w_intr (using_apic s) (intr_inited s) t true s) /\ user_gates t.
Proof.
  unfold intr_init_idt. krun. destruct (default_gates handler s) as (t1 & Hrun & Hs1).
  rewrite (bind_Ok _ _ _ _ _ Hrun).
  destruct (set_gates_run handler idt_entries (w_intr (using_apic s) (intr_inited s) t1 (idt_loaded s) s))
    as (t & Hrun2 & Ht).
  { repeat constructor; cbn; klia. }
  rewrite (bind_Ok _ _ _ _ _ Hrun2). exists t. split; [reflexivity|].
  intros i Hi. destruct (Hs1 i Hi) as (g & Hg & Hsel & Htr & Hd).
  destruct (Ht i g Hg Hsel Htr) as (g' & Hg' & ? & ? & Hd'). exists g'.
  repeat split; try done; rewrite Hd', Hd;
    unfold dpl_of, idt_entries; cbn [foldl fst snd]; repeat (case_bool; [klia|]); klia.
Qed.


(** ** Routing an interrupt *)

(** The I/O APIC [i] serves [irq]. *)
Definition serves (s : state) (i irq : Z) : Prop :=
  exists d, mmio s !! (ioapics s !!! i) = Some d /\
    gsi s !!! i <= irq <= gsi s !!! i + maxintr_of (ioregs d !!! REG_VER).

(** Registered I/O APICs are present and at distinct addresses. *)
Definition ioapics_ok (s : state) : Prop :=
  0 <= ioapic_num s <= MAX_IOAPIC /\
  (forall i, 0 <= i < ioapic_num s -> is_Some (mmio s !! (ioapics s !!! i))) /\
  (forall i j, 0 <= i < ioapic_num s -> 0 <= j < ioapic_num s ->
     ioapics s !!! i = ioapics s !!! j -> i = j).

(** What software sees of the I/O APICs: their registers, not the selector. *)
Definition regs_of (s : state) (base : Z) : option (gmap Z Z) := ioregs <$> mmio s !! base.

(** States that differ at most in the register selectors. *)
Definition agree (s s1 : state) : Prop :=
  exists m, s1 = w_mmio m (lowmem s) s /\ forall b, ioregs <$> m !! b = regs_of s b.

Lemma ioapic_read_run base reg s d :
  mmio s !! base = Some d ->
  ioapic_read base reg s =
    Ok (ioregs d !!! reg) (w_mmio (<[base := Ioapic reg (ioregs d)]> (mmio s)) (lowmem s) s).
Proof. intros H. unfold ioapic_read. by rewrite H. Qed.

Lemma ioapic_write_run base reg v s d :
  mmio s !! base = Some d ->
  ioapic_write base reg v s =
    Ok tt (w_mmio (<[base := Ioapic reg (<[reg := v]> (ioregs d))]> (mmio s)) (lowmem s) s).
Proof. intros H. unfold ioapic_write, modify. by rewrite H. Qed.

Lemma regs_of_lookup s s1 b d : agree s s1 -> mmio s !! b = Some d ->
  exists d', mmio s1 !! b = Some d' /\ ioregs d' = ioregs d.
Proof.
  intros (m & -> & Hm) Hd. specialize (Hm b). unfold regs_of in Hm. rewrite Hd in Hm.
  cbn in *. destruct (m !! b) as [d'|]; [|done]. exists d'. split; [done|].
  by injection Hm.
Qed.

Lemma agree_select s s1 b reg d : agree s s1 -> mmio s1 !! b = Some d ->
  agree s (w_mmio (<[b := Ioapic reg (ioregs d)]> (mmio s1)) (lowmem s1) s1).
Proof.
  intros (m & -> & Hm) Hd. cbn in Hd |- *. eexists. split; [reflexivity|].
  intros c. destruct (decide (b = c)) as [->|].
  - rewrite lookup_insert_eq, <- Hm, Hd. done.
  - by rewrite lookup_insert_ne.
Qed.

Definition serves_b (s : state) (i irq : Z) (d : ioapic_dev) : bool :=
  (gsi s !!! i <=? irq) && (irq <=? gsi s !!! i + maxintr_of (ioregs d !!! REG_VER)).

Lemma serves_b_spec s i irq d : mmio s !! (ioapics s !!! i) = Some d ->
  serves_b s i irq d = true <-> serves s i irq.
Proof.
  intros Hd. unfold serves_b. rewrite andb_true_iff, !Z.leb_le. unfold serves. split.
  - intros. by exists d.
  - intros (d' & Hd' & ?). rewrite Hd in Hd'. by injection Hd' as <-.
Qed.

Section enable.
Context (s : state) (irq apicid : Z) (tm pol : bool).
Hypothesis Hok : ioapics_ok s.

Definition entry_lo : Z :=
  Z.lor (Z.lor (Z.shiftl (Z.b2z tm) 15) (Z.shiftl (Z.b2z pol) 13)) (T_IRQ0 + irq).
Definition entry_hi : Z := u32 (Z.shiftl apicid 24).

Lemma enable_skip i s1 : agree s s1 -> 0 <= i < ioapic_num s -> ~ serves s i irq ->
  exists s2, ioapic_enable_body irq apicid tm pol i s1 = Ok (inl (i + 1)) s2 /\ agree s s2.
Proof.
  intros Ha Hi Hn. destruct Hok as (Hnum & Hpres & _).
  destruct (Hpres i Hi) as [d Hd]. destruct (regs_of_lookup _ _ _ _ Ha Hd) as (d1 & Hd1 & Hr).
  pose proof (agree_select _ _ _ REG_VER _ Ha Hd1) as Ha2.
  destruct Ha as (m & -> & Hm). unfold ioapic_enable_body. krun. cbn [ioapic_num w_mmio].
  bool_true. cbn [negb]. krun (apply bounds_Ok; klia). krun. krun.
  rewrite (bind_Ok _ _ _ _ _ (ioapic_read_run _ _ _ _ Hd1)). cbn [gsi w_mmio].
  destruct (serves_b s i irq d) eqn:E; [by apply (serves_b_spec _ _ _ _ Hd) in E|].
  unfold serves_b in E. rewrite <- Hr in E. rewrite E. eexists. split; [reflexivity | exact Ha2].
Qed.

Lemma enable_hit i s1 d : agree s s1 -> 0 <= i < ioapic_num s -> serves s i irq ->
  mmio s !! (ioapics s !!! i) = Some d ->
  exists s2, ioapic_enable_body irq apicid tm pol i s1 = Ok (inr i) s2 /\
    s2 = w_mmio (mmio s2) (lowmem s) s /\
    forall b, regs_of s2 b =
      if decide (b = ioapics s !!! i) then
        Some (<[REG_TABLE + 2 * (irq - gsi s !!! i) + 1 := entry_hi]>
              (<[REG_TABLE + 2 * (irq - gsi s !!! i) := entry_lo]> (ioregs d)))
      else regs_of s b.
Proof.
  intros Ha Hi Hn Hd. destruct Hok as (Hnum & _ & _).
  destruct (regs_of_lookup _ _ _ _ Ha Hd) as (d1 & Hd1 & Hr).
  destruct Ha as (m & -> & Hm). unfold ioapic_enable_body. krun. cbn [ioapic_num w_mmio].
  bool_true. cbn [negb]. krun (apply bounds_Ok; klia). krun. krun.
  rewrite (bind_Ok _ _ _ _ _ (ioapic_read_run _ _ _ _ Hd1)). cbn [gsi ioapics w_mmio].
  apply (serves_b_spec _ _ _ _ Hd) in Hn. unfold serves_b in Hn. rewrite Hr, Hn.
  erewrite bind_Ok by (apply ioapic_write_run, lookup_insert_eq).
  erewrite bind_Ok by (apply ioapic_write_run, lookup_insert_eq).
  eexists. split; [reflexivity|]. split; [done|]. intros b. unfold regs_of.
  cbn [mmio w_mmio ioregs]. rewrite !insert_insert_eq. case_decide as E.
  - subst b. by rewrite lookup_insert_eq.
  - rewrite lookup_insert_ne by done. apply Hm.
Qed.

Lemma enable_loop i k fuel s1 : agree s s1 -> 0 <= k <= i -> i <= ioapic_num s ->
  (forall j, k <= j < i -> ~ serves s j irq) -> (Z.to_nat (i - k) < fuel)%nat ->
  exists s2, loop fuel (ioapic_enable_body irq apicid tm pol) k s1 =
    loop (fuel - Z.to_nat (i - k)) (ioapic_enable_body irq apicid tm pol) i s2 /\ agree s s2.
Proof.
  intros Ha Hk Hi Hn Hf. remember (Z.to_nat (i - k)) as n eqn:En.
  revert k fuel s1 Ha Hk Hn Hf En. induction n as [|n IH]; intros k fuel s1 Ha Hk Hn Hf En.
  - exists s1. replace k with i by lia. by rewrite Nat.sub_0_r.
  - destruct fuel as [|fuel]; [lia|]. cbn [loop].
    destruct (enable_skip k s1 Ha) as (s2 & Hrun & Ha2); [lia | apply Hn; lia |].
    rewrite (bind_Ok _ _ _ _ _ Hrun). apply IH; [done | lia | | lia | lia].
    intros j Hj. apply Hn. lia.
Qed.
End enable.

(** ioapic_enable programs exactly one redirection entry, that of [irq] in
    the first I/O APIC that serves it: unmasked, vector 32 + irq, the given
    trigger mode, polarity and destination; all other registers of all I/O
    APICs keep their value. *)
Theorem ioapic_enable_correct s irq apicid tm pol i d :
  ioapics_ok s -> 0 <= i < ioapic_num s -> serves s i irq ->
  (forall j, 0 <= j < i -> ~ serves s j irq) ->
  mmio s !! (ioapics s !!! i) = Some d ->
  exists s', ioapic_enable irq apicid tm pol s = Ok tt s' /\
    s' = w_mmio (mmio s') (lowmem s) s /\
    forall b, regs_of s' b =
      if decide (b = ioapics s !!! i) then
        Some (<[REG_TABLE + 2 * (irq - gsi s !!! i) + 1 := entry_hi apicid]>
              (<[REG_TABLE + 2 * (irq - gsi s !!! i) := entry_lo irq tm pol]> (ioregs d)))
      else regs_of s b.
Proof.
  intros Hok Hi Hs Hn Hd. pose proof Hok as (Hnum & _).
  destruct (enable_loop s irq apicid tm pol Hok i 0 17 s) as (s1 & Hrun & Ha).
  { exists (mmio s). by destruct s. }
  { lia. } { lia. } { intros; apply Hn; lia. } { klia. }
  destruct (enable_hit s irq apicid tm pol Hok i s1 d Ha Hi Hs Hd) as (s2 & Hrun2 & Hn2 & Hr2).
  exists s2. split; [|done]. unfold ioapic_enable.
  erewrite bind_Ok; [|replace (Z.to_nat MAX_IOAPIC + 1)%nat with 17%nat by done; rewrite Hrun;
    destruct (17 - Z.to_nat (i - 0))%nat eqn:E; [klia|]; cbn [loop];
    rewrite (bind_Ok _ _ _ _ _ Hrun2); reflexivity].
  krun. rewrite Hn2. cbn [ioapic_num w_mmio]. bool_false. done.
Qed.

(** When no registered I/O APIC serves [irq], ioapic_enable panics. *)
Theorem ioapic_enable_panics s irq apicid tm pol :
  ioapics_ok s -> (forall j, 0 <= j < ioapic_num s -> ~ serves s j irq) ->
  ioapic_enable irq apicid tm pol s = Err (Panic "Cannot enable IRQ on IOAPIC").
Proof.
  intros Hok Hn. pose proof Hok as (Hnum & _).
  destruct (enable_loop s irq apicid tm pol Hok (ioapic_num s) 0 17 s) as (s1 & Hrun & Ha).
  { exists (mmio s). by destruct s. }
  { lia. } { lia. } { intros; apply Hn; lia. } { klia. }
  destruct Ha as (m & -> & Hm). unfold ioapic_enable.
  assert (Hb : ioapic_enable_body irq apicid tm pol (ioapic_num s) (w_mmio m (lowmem s) s) =
    Ok (inr (ioapic_num s)) (w_mmio m (lowmem s) s)).
  { unfold ioapic_enable_body. krun. cbn [ioapic_num w_mmio]. by rewrite Z.ltb_irrefl. }
  erewrite bind_Ok; [|replace (Z.to_nat MAX_IOAPIC + 1)%nat with 17%nat by done; rewrite Hrun;
    destruct (17 - Z.to_nat (ioapic_num s - 0))%nat eqn:E; [klia|]; cbn [loop];
    rewrite (bind_Ok _ _ _ _ _ Hb); reflexivity].
  krun. cbn [ioapic_num w_mmio]. by rewrite Z.eqb_refl.
Qed.

(** A machine with one I/O APIC of 24 lines at its default address. *)
Definition demo : state :=
  let p := I8259 Operational 0 0 0 0 0 in
  State p p {[IOAPIC := Ioapic 0 {[REG_VER := 0x170011]}]} ∅ 0xFFFB false 0xFFFB 0
    {[0 := IOAPIC]} {[0 := 1]} {[0 := 0]} 1 0xFEE00000 ∅ [] [] [] true false ∅ false.

Lemma demo_ok : ioapics_ok demo.
Proof.
  split; [cbn; klia|]. split.
  - intros i Hi. assert (i = 0) as -> by (cbn in Hi; lia). vm_compute. by eexists.
  - intros i j Hi Hj _. cbn in Hi, Hj. lia.
Qed.

Lemma pic_init_correct_witness :
  exists s', pic_init demo = Ok tt s' /\ imr (pic1 s') = 0xff.
Proof.
  destruct (pic_init_correct demo eq_refl) as (s' & H & H1 & _).
  exists s'. split; [exact H | by injection H1].
Defined.

Lemma ioapic_enable_correct_witness :
  exists s', ioapic_enable IRQ_IDE1 3 false false demo = Ok tt s' /\
    exists r, regs_of s' IOAPIC = Some r.
Proof.
  destruct (ioapic_enable_correct demo IRQ_IDE1 3 false false 0
    (Ioapic 0 {[REG_VER := 0x170011]}) demo_ok) as (s' & H & _ & Hr).
  - cbn. lia.
  - eexists. split; [reflexivity|]. by vm_compute.
  - lia.
  - reflexivity.
  - exists s'. split; [exact H|]. rewrite Hr. rewrite decide_True by reflexivity.
    eexists. reflexivity.
Defined.

Lemma ioapic_enable_panics_witness :
  ioapic_enable 24 3 false false demo = Err (Panic "Cannot enable IRQ on IOAPIC").
Proof.
  apply ioapic_enable_panics; [apply demo_ok|].
  intros j Hj. assert (j = 0) as -> by (cbn in Hj; lia).
  intros (d & Hd & Hr). assert (d = Ioapic 0 {[REG_VER := 0x170011]}) as ->
    by (injection Hd; done). vm_compute in Hr. by destruct Hr as [_ Hr].
Defined.

End Intr.
