(* ===== verification/Smp.v ===== *)
(** * Processor discovery (kern/dev/acpi.c, kern/dev/pcpu_mp.c)

    The tables the firmware leaves in memory say which processors and I/O
    APICs there are.  They are read from byte-addressed memory at the offsets
    of the packed structures of acpi.h and mptable.h; a pointer is an address
    and NULL is 0.  The interrupt controllers are the state of [Intr];
    [cpuid leaf subleaf] gives the four registers of the instruction. *)

From S2P Require Import Prelude Spinlock Bytes Memory Intr.

Module Smp.

Definition load8 (m : mem) (a : Z) : Z := m !!! u32 a.
Definition load16 (m : mem) (a : Z) : Z := m !!! u32 a + 2 ^ 8 * (m !!! u32 (a + 1)).

(** ** acpi.c *)

Definition ACPI_RSDP_SIG1 : Z := 0x20445352.
Definition ACPI_RSDP_SIG2 : Z := 0x20525450.
Definition ACPI_RSDT_SIG : Z := 0x54445352.
Definition ACPI_XSDT_SIG : Z := 0x54445358.
Definition ACPI_MADT_SIG : Z := 0x43495041.
Definition RSDP_SIZE : Z := 36.

(** The sum of [len] bytes as a byte; a negative [len] counts no byte. *)
Fixpoint sum_from (m : mem) (addr : Z) (n : nat) : Z :=
  match n with O => 0 | S n => load8 m addr + sum_from m (addr + 1) n end.
Definition sum (m : mem) (addr len : Z) : Z := u8 (sum_from m addr (Z.to_nat (i32 len))).

Definition is_rsdp (m : mem) (p : Z) : bool :=
  (load32 m p =? ACPI_RSDP_SIG1) && (load32 m (p + 4) =? ACPI_RSDP_SIG2) && (sum m p RSDP_SIZE =? 0).

(** [n] bounds the number of places that are looked at. *)
Fixpoint scan (test : Z -> bool) (n : nat) (p e : Z) : Z :=
  match n with
  | O => 0
  | S n => if p <? e then if test p then p else scan test n (u32 (p + 16)) e else 0
  end.
Definition acpi_probe_rsdp_aux (m : mem) (addr length : Z) : Z :=
  scan (is_rsdp m) (Z.to_nat (length / 16 + 2)) addr (u32 (addr + length)).

Definition bda_ptr (m : mem) : Z := Z.shiftl (Z.lor (Z.shiftl (load8 m (0x400 + 0x0F)) 8) (load8 m (0x400 + 0x0E))) 4.
Definition acpi_probe_rsdp (m : mem) : Z :=
  let p := bda_ptr m in
  let rsdp := if p =? 0 then 0 else acpi_probe_rsdp_aux m p 1024 in
  if rsdp =? 0 then acpi_probe_rsdp_aux m 0xE0000 0x1FFFF else rsdp.

Definition acpi_probe_rsdt (m : mem) (rsdp : Z) : Z :=
  let rsdt := load32 m (rsdp + 16) in
  if rsdt =? 0 then 0
  else if (load32 m rsdt =? ACPI_RSDT_SIG) && (sum m rsdt (load32 m (rsdt + 4)) =? 0) then rsdt else 0.

Definition is_table (m : mem) (sig hdr : Z) : bool :=
  (load32 m hdr =? sig) && (sum m hdr (load32 m (hdr + 4)) =? 0).

(** The entries of [w] bytes from [p] to [e]; the address is the first word of
    an entry. *)
Fixpoint probe_ent (m : mem) (sig w : Z) (n : nat) (p e : Z) : Z :=
  match n with
  | O => 0
  | S n => if p <? e then
             let hdr := load32 m p in
             if is_table m sig hdr then hdr else probe_ent m sig w n (u32 (p + w)) e
           else 0
  end.
Definition acpi_probe_rsdt_ent (m : mem) (rsdt sig : Z) : Z :=
  let len := load32 m (rsdt + 4) in
  probe_ent m sig 4 (Z.to_nat (len / 4 + 2)) (u32 (rsdt + 36)) (u32 (rsdt + len)).

Definition acpi_probe_xsdt (m : mem) (rsdp : Z) : Z :=
  let xsdt := load32 m (rsdp + 24) in
  if xsdt =? 0 then 0
  else if (load32 m xsdt =? ACPI_XSDT_SIG) && (sum m xsdt (load32 m (xsdt + 4)) =? 0) then xsdt else 0.
Definition acpi_probe_xsdt_ent (m : mem) (xsdt sig : Z) : Z :=
  let len := load32 m (xsdt + 4) in
  probe_ent m sig 8 (Z.to_nat (len / 8 + 2)) (u32 (xsdt + 36)) (u32 (xsdt + len)).

(** ** pcpu_mp.c *)

Record pcpuinfo : Type := Pcpuinfo {
  lapicid : Z; bsp : bool;
  cpuid_high : Z; vendor : list Z; cpu_vendor : Z;
  family : Z; model : Z; step : Z; ext_family : Z; ext_model : Z;
  brand_idx : Z; clflush_size : Z; max_cpu_id : Z; apic_id : Z; feature1 : Z; feature2 : Z;
  l1_cache_size : Z; l1_cache_line_size : Z; cpuid_exthigh : Z
}.
Definition zero_info : pcpuinfo := Pcpuinfo 0 false 0 [] 0 0 0 0 0 0 0 0 0 0 0 0 0 0 0.
#[export] Instance pcpuinfo_inhabited : Inhabited pcpuinfo := populate zero_info.

Record state : Type := State {
  mm : mem; info : gmap Z pcpuinfo; ncpu : Z; mp_inited : bool; ismp : bool;
  apics : Intr.state; imcr_sel : Z; imcr : Z
}.
Definition s_mm v s := State v (info s) (ncpu s) (mp_inited s) (ismp s) (apics s) (imcr_sel s) (imcr s).
Definition s_info v s := State (mm s) v (ncpu s) (mp_inited s) (ismp s) (apics s) (imcr_sel s) (imcr s).
Definition s_ncpu v s := State (mm s) (info s) v (mp_inited s) (ismp s) (apics s) (imcr_sel s) (imcr s).
Definition s_inited v s := State (mm s) (info s) (ncpu s) v (ismp s) (apics s) (imcr_sel s) (imcr s).
Definition s_ismp v s := State (mm s) (info s) (ncpu s) (mp_inited s) v (apics s) (imcr_sel s) (imcr s).
Definition s_apics v s := State (mm s) (info s) (ncpu s) (mp_inited s) (ismp s) v (imcr_sel s) (imcr s).
Definition s_imcr a b s := State (mm s) (info s) (ncpu s) (mp_inited s) (ismp s) (apics s) a b.
Definition apics_lens : lens state Intr.state := Lens apics s_apics.

(** *** cpuid *)

Definition UNKNOWN_CPU : Z := 0.
Definition INTEL : Z := 1.
Definition AMD : Z := 2.

Definition intel_cache_info (i : Z) : option (Z * Z) :=
  if i <? 0xff then
    Some match list_find (fun p : Z * (Z * Z) => p.1 = i)
             [(0x0a, (8, 32)); (0x0c, (16, 32)); (0x0d, (16, 64)); (0x0e, (24, 64)); (0x2c, (32, 64));
              (0x60, (16, 64)); (0x66, (8, 64)); (0x67, (16, 64)); (0x68, (32, 64))] with
         | Some (_, p) => p.2
         | None => (0, 0)
         end
  else None.

(** The loops over the descriptors: the last one decides. *)
Fixpoint cache_descs (l : list Z) (acc : Z * Z) : option (Z * Z) :=
  match l with [] => Some acc | d :: l => x ← intel_cache_info d; cache_descs l x end.

Definition regs : Type := Z * Z * Z * Z.
Definition word_bytes (v : Z) : list Z := le_enc 4 v.

Section mp.
Context (cpuid : Z -> Z -> regs).

Fixpoint leaf4 (i : Z) (n : nat) : option regs :=
  match n with
  | O => None
  | S n =>
      let '(a, b, c, d) := cpuid 4 i in
      if (Z.land a 0xf =? 1) && (Z.shiftr (Z.land a 0xe0) 5 =? 1) then Some (a, b, c, d) else leaf4 (i + 1) n
  end.

Definition l1_of (b c : Z) : Z * Z :=
  (u32 (u32 (u32 ((Z.shiftr (Z.land b 0xffc00000) 22 + 1) * (Z.shiftr (Z.land b 0x003ff000) 12 + 1)) * (Z.land b 0xfff + 1)) * u32 (c + 1)) / 1024,
   Z.land b 0xfff + 1).

(** [Some (size, line)]; [None] is an index past the table. *)
Definition l1_cache (v : Z) (old : Z * Z) : option (Z * Z) :=
  if v =? INTEL then
    let '(a, b, c, d) := cpuid 2 0 in
    x ← cache_descs (word_bytes a ++ word_bytes b ++ word_bytes c ++ word_bytes d) old;
    if negb (x.1 =? 0) && negb (x.2 =? 0) then Some x
    else match leaf4 0 3 with None => Some x | Some (_, b, c, _) => Some (l1_of b c) end
  else if v =? AMD then
    let '(_, _, c, _) := cpuid 0x80000005 0 in Some (Z.shiftr (Z.land c 0xff000000) 24, Z.land c 0xff)
  else Some (0, 0).

Definition pcpu_identify (cpu_idx : Z) : K state unit :=
  i ← gets (fun s => info s !!! cpu_idx);
  let '(a0, b0, c0, d0) := cpuid 0 0 in
  let vend := word_bytes b0 ++ word_bytes d0 ++ word_bytes c0 ++ [0] in
  let same str := strncmp (fun k => vend !!! Z.to_nat k) (fun k => (text str ++ [0]) !!! Z.to_nat k) 20 =? 0 in
  let v := if same "GenuineIntel"%string then INTEL else if same "AuthenticAMD"%string then AMD else UNKNOWN_CPU in
  let '(a, b, c, d) := cpuid 1 0 in
  match l1_cache v (l1_cache_size i, l1_cache_line_size i) with
  | None => fail Undef
  | Some (size, line) =>
      let '(ax, _, _, _) := cpuid 0x80000000 0 in
      modify (fun s => s_info (<[cpu_idx := Pcpuinfo (lapicid i) (bsp i) a0 vend v
        (Z.land (Z.shiftr a 8) 0xf) (Z.land (Z.shiftr a 4) 0xf) (Z.land a 0xf) (Z.land (Z.shiftr a 20) 0xff)
        (Z.land (Z.shiftr a 16) 0xff) (Z.land b 0xff) (Z.land (Z.shiftr b 8) 0xff) (Z.land (Z.shiftr b 16) 0xff)
        (Z.land (Z.shiftr b 24) 0xff) c d size line ax]> (info s)) s)
  end.
Definition pcpu_init_cpu : Z -> K state unit := pcpu_identify.

(** *** The tables *)

Definition pcpu_mp_init_cpu (idx lapic_id : Z) (is_bsp : bool) : K state unit :=
  kassert ((is_bsp && (idx =? 0)) || negb is_bsp) "(is_bsp == TRUE && idx == 0) || (is_bsp == FALSE)" ;;
  if NUM_CPUS <=? idx then mret tt
  else modify (fun s => let i := info s !!! idx in s_info (<[idx := Pcpuinfo lapic_id is_bsp (cpuid_high i) (vendor i)
    (cpu_vendor i) (family i) (model i) (step i) (ext_family i) (ext_model i) (brand_idx i) (clflush_size i) (max_cpu_id i)
    (apic_id i) (feature1 i) (feature2 i) (l1_cache_size i) (l1_cache_line_size i) (cpuid_exthigh i)]> (info s)) s).

Definition lapic_register (a : Z) : K state unit := zoom apics_lens (Intr.lapic_register a).
Definition ioapic_register (a id g : Z) : K state unit := zoom apics_lens (Intr.ioapic_register a id g).

(** outb(0x22, 0x70); outb(0x23, inb(0x23) | 1) *)
Definition force_apic : K state unit :=
  modify (fun s => s_imcr 0x70 (imcr s) s) ;;
  modify (fun s => s_imcr (imcr_sel s) (u8 (Z.lor (imcr s) 1)) s).

(** The image of the code the other processors start with. *)
Context (ap_start ap_size : Z).

Definition PCPU_AP_START_ADDR : Z := 0x8000.
Definition copy_ap : K state unit := modify (fun s => s_mm (memmove PCPU_AP_START_ADDR ap_start ap_size (mm s)) s).

(** sizeof(struct mp) is 16 *)
Definition is_mp (m : mem) (p : Z) : bool :=
  (memcmp (fun k => load8 m (p + k)) (fun k => text "_MP_" !!! Z.to_nat k) 4 =? 0) && (sum m p 16 =? 0).
Definition mpsearch1 (m : mem) (addr len : Z) : Z :=
  scan (is_mp m) (Z.to_nat (len / 16 + 2)) addr (u32 (addr + len)).
Definition mpsearch (m : mem) : Z :=
  let p := bda_ptr m in
  let mp := if p =? 0 then
              let p := Z.lor (Z.shiftl (load8 m (0x400 + 0x14)) 8) (load8 m (0x400 + 0x13)) * 1024 in
              mpsearch1 m (u32 (p - 1024)) 1024
            else mpsearch1 m p 1024 in
  if mp =? 0 then mpsearch1 m 0xF0000 0x10000 else mp.
(** The structure and the table; (0, 0) when there is none. *)
Definition mpconfig (m : mem) : Z * Z :=
  let mp := mpsearch m in
  if mp =? 0 then (0, 0)
  else
    let conf := load32 m (mp + 4) in
    if conf =? 0 then (0, 0)
    else if negb (memcmp (fun k => load8 m (conf + k)) (fun k => text "PCMP" !!! Z.to_nat k) 4 =? 0) then (0, 0)
    else if negb (load8 m (conf + 6) =? 1) && negb (load8 m (conf + 6) =? 4) then (0, 0)
    else if negb (sum m conf (load16 m (conf + 4)) =? 0) then (0, 0)
    else (mp, conf).

Definition MPENAB : Z := 1.
Definition MPBOOT : Z := 2.

(** One entry of the table; an unknown type leaves [p] where it is. *)
Definition mp_entry (e : Z) (x : Z * Z) : K state ((Z * Z) + unit) :=
  let '(p, ap_idx) := x in
  if p <? e then
    m ← gets mm;
    let type := load8 m p in
    if type =? 0 then
      let flags := load8 m (p + 3) in
      if Z.land flags MPENAB =? 0 then mret (inl (u32 (p + 20), ap_idx))
      else
        (if negb (Z.land flags MPBOOT =? 0) then pcpu_mp_init_cpu 0 (load8 m (p + 1)) true
         else pcpu_mp_init_cpu ap_idx (load8 m (p + 1)) false) ;;
        modify (fun s => s_ncpu (u32 (ncpu s + 1)) s) ;;
        mret (inl (u32 (p + 20), if negb (Z.land flags MPBOOT =? 0) then ap_idx else u32 (ap_idx + 1)))
    else if type =? 2 then
      ioapic_register (load32 m (p + 4)) (load8 m (p + 1)) 0 ;;
      mret (inl (u32 (p + 8), ap_idx))
    else if (type =? 1) || (type =? 3) || (type =? 4) then mret (inl (u32 (p + 8), ap_idx))
    else mret (inl (p, ap_idx))
  else mret (inr tt).

Definition mp_init_fallback : K state bool :=
  i ← gets mp_inited;
  if i : bool then mret true
  else
    m ← gets mm;
    let '(mp, conf) := mpconfig m in
    if conf =? 0 then mret false
    else
      modify (s_ismp true) ;;
      modify (s_ncpu 0) ;;
      lapic_register (load32 m (conf + 36)) ;;
      loop (Z.to_nat (load16 m (conf + 4) + 2)) (mp_entry (u32 (conf + load16 m (conf + 4)))) (u32 (conf + 44), 1) ;;
      when (negb (load8 m (mp + 12) =? 0)) force_apic ;;
      copy_ap ;;
      modify (s_inited true) ;;
      mret true.

(** The address of the MADT; 0 when one of the tables is missing. *)
Definition probe_madt (m : mem) : Z :=
  let rsdp := acpi_probe_rsdp m in
  if rsdp =? 0 then 0
  else
    let xsdt := acpi_probe_xsdt m rsdp in
    if negb (xsdt =? 0) then acpi_probe_xsdt_ent m xsdt ACPI_MADT_SIG
    else
      let rsdt := acpi_probe_rsdt m rsdp in
      if rsdt =? 0 then 0 else acpi_probe_rsdt_ent m rsdt ACPI_MADT_SIG.

Definition ACPI_APIC_ENABLED : Z := 1.

(** One structure of the MADT. *)
Definition madt_entry (e : Z) (x : Z * Z * bool) : K state ((Z * Z * bool) + unit) :=
  let '(p, ap_idx, found_bsp) := x in
  if p <? e then
    m ← gets mm;
    let type := load8 m p in
    let next := u32 (p + load8 m (p + 1)) in
    if type =? 0 then
      if Z.land (load32 m (p + 4)) ACPI_APIC_ENABLED =? 0 then mret (inl (next, ap_idx, found_bsp))
      else
        (if negb found_bsp then pcpu_mp_init_cpu 0 (load8 m (p + 3)) true
         else pcpu_mp_init_cpu ap_idx (load8 m (p + 3)) false) ;;
        modify (fun s => s_ncpu (u32 (ncpu s + 1)) s) ;;
        mret (inl (next, if negb found_bsp then ap_idx else u32 (ap_idx + 1), true))
    else if type =? 1 then
      ioapic_register (load32 m (p + 4)) (load8 m (p + 2)) (i32 (load32 m (p + 8))) ;;
      mret (inl (next, ap_idx, found_bsp))
    else mret (inl (next, ap_idx, found_bsp))
  else mret (inr tt).

Definition pcpu_mp_init : K state bool :=
  i ← gets mp_inited;
  if i : bool then mret true
  else
    m ← gets mm;
    let madt := probe_madt m in
    if madt =? 0 then
      b ← mp_init_fallback;
      if b : bool then mret true
      else modify (s_ismp false) ;; modify (s_ncpu 1) ;; mret false
    else
      modify (s_ismp true) ;;
      lapic_register (load32 m (madt + 36)) ;;
      modify (s_ncpu 0) ;;
      let e := u32 (madt + load32 m (madt + 4)) in
      loop (Z.to_nat (load32 m (madt + 4) + 2)) (madt_entry e) (u32 (madt + 44), 1, false) ;;
      when (Z.land (load32 m (madt + 40)) 1 =? 0) force_apic ;;
      copy_ap ;;
      modify (s_inited true) ;;
      mret true.

Definition pcpu_ncpu : K state Z := gets ncpu.
Definition pcpu_is_smp : K state bool := gets ismp.
Definition pcpu_onboot (cpu_idx : Z) : K state bool :=
  i ← gets mp_inited;
  if i : bool then gets (fun s => bsp (info s !!! cpu_idx)) else mret (cpu_idx =? 0).
Definition pcpu_cpu_lapicid (cpu_idx : Z) : K state Z :=
  n ← gets ncpu;
  kassert ((0 <=? cpu_idx) && (u32 cpu_idx <? n)) "0 <= cpu_idx && cpu_idx < ncpu" ;;
  gets (fun s => lapicid (info s !!! cpu_idx)).
End mp.

(** ** Searching *)

(** The places [addr], [addr + 16], ... below [e]. *)
Definition place (addr e p : Z) : Prop := exists k, 0 <= k /\ p = addr + 16 * k /\ p < e.

Lemma scan_spec test n : forall addr e, 0 < addr -> e + 16 <= 2 ^ 32 -> e - addr < 16 * Z.of_nat n ->
  let r := scan test n addr e in
  (r <> 0 /\ place addr e r /\ test r = true /\ forall p, place addr e p -> p < r -> test p = false) \/
  (r = 0 /\ forall p, place addr e p -> test p = false).
Proof.
  induction n as [|n IH]; intros addr e Ha He Hn r; subst r; cbn [scan].
  - right. split; [done|]. intros p (k & Hk & -> & Hp). lia.
  - destruct (Z.ltb_spec addr e) as [Hlt|Hge].
    + destruct (test addr) eqn:Et.
      * left. split; [lia|]. split; [exists 0; lia|]. split; [done|]. intros p (k & Hk & -> & _) Hp. lia.
      * rewrite u32_small by klia. specialize (IH (addr + 16) e ltac:(lia) He ltac:(lia)). cbv zeta in IH.
        assert (Hnext : forall p, place addr e p -> p = addr \/ place (addr + 16) e p).
        { intros p (k & Hk & -> & Hp). destruct (decide (k = 0)) as [->|]; [left; lia | right; exists (k - 1); lia]. }
        destruct IH as [(R1 & (k & Hk & Ek & Hke) & R3 & R4) | (R1 & R2)].
        -- left. split; [done|]. split; [exists (k + 1); lia|]. split; [done|]. intros p Hp Hlt'.
           destruct (Hnext p Hp) as [->|Hp']; [done | by apply R4].
        -- right. split; [done|]. intros p Hp. destruct (Hnext p Hp) as [->|Hp']; [done | by apply R2].
    + right. split; [done|]. intros p (k & Hk & -> & Hp). lia.
Qed.

(** acpi_probe_rsdp_aux returns the first place with both words of the
    signature and a checksum of 0, and NULL only when there is none. *)
Theorem rsdp_search_correct m addr length : 0 < addr -> 0 <= length -> addr + length + 16 <= 2 ^ 32 ->
  let r := acpi_probe_rsdp_aux m addr length in
  (r <> 0 /\ place addr (addr + length) r /\ is_rsdp m r = true /\
     forall p, place addr (addr + length) p -> p < r -> is_rsdp m p = false) \/
  (r = 0 /\ forall p, place addr (addr + length) p -> is_rsdp m p = false).
Proof.
  intros Ha Hl He. unfold acpi_probe_rsdp_aux. rewrite u32_small by klia. apply scan_spec; [done | lia|].
  pose proof (Z.div_mod length 16 ltac:(lia)). pose proof (Z.mod_pos_bound length 16 ltac:(lia)).
  pose proof (Z.div_pos length 16 ltac:(lia) ltac:(lia)). lia.
Qed.

(** ** The structures of the MADT *)

Inductive ent : Type :=
| Lapic (proc id flags : Z)
| Ioapic (id addr gsi : Z)
| Other (type : Z) (body : list Z).

Definition ent_bytes (x : ent) : list Z :=
  match x with
  | Lapic proc id flags => [0; 8; proc; id] ++ le_enc 4 flags
  | Ioapic id addr gsi => [1; 12; id; 0] ++ le_enc 4 addr ++ le_enc 4 gsi
  | Other type body => [type; 2 + zlen body] ++ body
  end.
Definition wf_ent (x : ent) : Prop :=
  match x with
  | Lapic proc id flags => is_byte proc /\ is_byte id /\ is_u32 flags
  | Ioapic id addr gsi => is_byte id /\ is_u32 addr /\ 0 <= gsi < 2 ^ 31
  | Other type body => 2 <= type < 256 /\ Forall is_byte body /\ zlen body < 254
  end.

(** The processors that are enabled, and the I/O APICs. *)
Definition ent_cpu (x : ent) : list Z :=
  match x with Lapic _ id flags => if Z.land flags ACPI_APIC_ENABLED =? 0 then [] else [id] | _ => [] end.
Definition ent_io (x : ent) : list (Z * Z * Z) :=
  match x with Ioapic id addr gsi => [(addr, id, gsi)] | _ => [] end.
Definition cpus (l : list ent) : list Z := l ≫= ent_cpu.
Definition ios (l : list ent) : list (Z * Z * Z) := l ≫= ent_io.

Definition holds (m : mem) (a : Z) (l : list Z) : Prop := forall i, 0 <= i < zlen l -> m !!! (a + i) = l !!! Z.to_nat i.

Lemma holds_app m a l1 l2 : holds m a (l1 ++ l2) -> holds m a l1 /\ holds m (a + zlen l1) l2.
Proof.
  intros H. split; intros i Hi.
  - rewrite H by (unfold zlen in *; rewrite length_app; lia). apply lookup_total_app_l. unfold zlen in Hi. lia.
  - rewrite <- Z.add_assoc, H by (unfold zlen in *; rewrite length_app; lia).
    rewrite lookup_total_app_r by (unfold zlen in *; lia). f_equal. unfold zlen in *. lia.
Qed.
Lemma holds8 m a l i : holds m a l -> 0 <= i < zlen l -> 0 <= a -> a + i < 2 ^ 32 -> load8 m (a + i) = l !!! Z.to_nat i.
Proof. intros H Hi Ha Hm. unfold load8. rewrite u32_small by klia. by apply H. Qed.
Lemma holds32 m a v : holds m a (le_enc 4 v) -> is_u32 v -> 0 <= a -> a + 4 <= 2 ^ 32 -> load32 m a = v.
Proof.
  intros H Hv Ha Hm. assert (L : zlen (le_enc 4 v) = 4) by apply zlen_le_enc.
  pose proof (le_dec_enc 4 v) as E. change (8 * Z.of_nat 4) with 32 in E. rewrite Z.mod_small in E by klia.
  destruct (le_enc 4 v) as [|b0 [|b1 [|b2 [|b3 [|]]]]]; try (unfold zlen in L; cbn [length] in L; lia).
  unfold load32. rewrite !u32_small by klia. pose proof (H 0 ltac:(lia)) as H0. rewrite Z.add_0_r in H0.
  rewrite H0, (H 1), (H 2), (H 3) by lia. rewrite <- E. cbn [le_dec]. change (Z.to_nat 0) with 0%nat. change (Z.to_nat 1) with 1%nat.
  change (Z.to_nat 2) with 2%nat. change (Z.to_nat 3) with 3%nat. cbn [lookup_total list_lookup_total]. lia.
Qed.

(** ** What the kernel learns from the MADT *)

Definition set_cpu (id : Z) (b : bool) (i : pcpuinfo) : pcpuinfo :=
  Pcpuinfo id b (cpuid_high i) (vendor i) (cpu_vendor i) (family i) (model i) (step i) (ext_family i) (ext_model i)
    (brand_idx i) (clflush_size i) (max_cpu_id i) (apic_id i) (feature1 i) (feature2 i) (l1_cache_size i)
    (l1_cache_line_size i) (cpuid_exthigh i).

(** Processor [i] is the [i]-th that is enabled, the first one the boot
    processor; there is room for NUM_CPUS. *)
Definition expect (l : list Z) (old : gmap Z pcpuinfo) (i : Z) : pcpuinfo :=
  match (if (0 <=? i) && (i <? NUM_CPUS) then l !! Z.to_nat i else None) with
  | Some id => set_cpu id (i =? 0) (old !!! i)
  | None => old !!! i
  end.
Definition cpus_ok (l : list Z) (old new : gmap Z pcpuinfo) : Prop := forall i, new !!! i = expect l old i.

(** The I/O APICs are registered in order, as many as there is room for. *)
Definition ios_ok (l : list (Z * Z * Z)) (st : Intr.state) : Prop :=
  Intr.ioapic_num st = Z.min Intr.MAX_IOAPIC (zlen l) /\
  forall j x, l !! j = Some x -> Z.of_nat j < Intr.MAX_IOAPIC ->
    (Intr.ioapics st !!! Z.of_nat j, Intr.ioapicid st !!! Z.of_nat j, Intr.gsi st !!! Z.of_nat j) = x.

Lemma init_cpu_wp l old id s (Q : unit -> state -> Prop) : cpus_ok l old (info s) ->
  (forall new, cpus_ok (l ++ [id]) old new -> Q tt (s_info new s)) ->
  wp (pcpu_mp_init_cpu (zlen l) id (bool_decide (l = []))) Q s.
Proof.
  intros Hc HQ. unfold pcpu_mp_init_cpu. apply wp_bind, wp_kassert.
  { destruct l; [by rewrite bool_decide_true | by rewrite bool_decide_false]. }
  assert (Hz : 0 <= zlen l) by (unfold zlen; lia).
  assert (Hnew : forall i, i <> zlen l \/ NUM_CPUS <= i -> expect (l ++ [id]) old i = expect l old i).
  { intros i Hi. unfold expect. destruct ((0 <=? i) && (i <? NUM_CPUS)) eqn:E; [|done].
    apply andb_true_iff in E as [E1%Z.leb_le E2%Z.ltb_lt].
    destruct (decide (Z.to_nat i < length l)%nat); [by rewrite lookup_app_l|].
    rewrite !lookup_ge_None_2; [done | lia | rewrite length_app; cbn; unfold zlen in *; lia]. }
  destruct (Z.leb_spec NUM_CPUS (zlen l)) as [Hge|Hlt].
  - apply wp_ret. replace s with (s_info (info s) s) by (by destruct s). apply HQ. intros i. rewrite Hnew; [apply Hc | lia].
  - apply wp_modify. cbv zeta. apply HQ. intros i. destruct (decide (i = zlen l)) as [->|Hne].
    + rewrite lookup_total_insert_eq, Hc. unfold expect. bool_simp.
      unfold zlen. rewrite Nat2Z.id, list_lookup_middle, lookup_ge_None_2 by (done || lia).
      unfold set_cpu. do 2 f_equal. destruct l; [by rewrite bool_decide_true|]. rewrite bool_decide_false by done. done.
    + rewrite lookup_total_insert_ne, Hc, Hnew by auto. done.
Qed.

(** States that differ at most in the table of I/O APICs. *)
Definition same_apics (st st' : Intr.state) : Prop := exists a i g n, st' = Intr.w_ioapics a i g n st.
#[local] Instance same_apics_preorder : PreOrder same_apics.
Proof.
  split; [intros []; by eexists _, _, _, _|].
  intros st1 st2 st3 (? & ? & ? & ? & ->) (? & ? & ? & ? & ->). by eexists _, _, _, _.
Qed.

Lemma smp_ioapic_wp l x s (Q : unit -> state -> Prop) : ios_ok l (apics s) ->
  (forall st, ios_ok (l ++ [x]) st -> same_apics (apics s) st -> Q tt (s_apics st s)) ->
  wp (ioapic_register x.1.1 x.1.2 x.2) Q s.
Proof.
  intros [Hn Hl] HQ. unfold ioapic_register. apply wp_zoom. cbn [lget apics_lens lput]. unfold Intr.ioapic_register. apply wp_bind, wp_gets.
  assert (Hz : 0 <= zlen l) by (unfold zlen; lia). rewrite Hn.
  assert (Hs : zlen (l ++ [x]) = zlen l + 1) by (unfold zlen; rewrite length_app; cbn; lia). unfold Intr.MAX_IOAPIC in *.
  destruct (Z.leb_spec 16 (Z.min 16 (zlen l))) as [Hge|Hlt].
  - apply wp_ret, HQ; [|reflexivity]. split; [rewrite Hn, Hs; unfold Intr.MAX_IOAPIC; lia|].
    intros j y Hj Hj16. unfold Intr.MAX_IOAPIC in Hj16. rewrite lookup_app_l in Hj by (unfold zlen in *; lia). by apply Hl.
  - apply wp_bind. eapply wp_intro; [apply bounds_Ok; lia|]. apply wp_bind, wp_modify, wp_modify.
    cbn [Intr.ioapics Intr.ioapicid Intr.gsi Intr.ioapic_num Intr.w_ioapics]. rewrite Hn, Z.min_r by lia. apply HQ; [|by eexists _, _, _, _].
    split; cbn [Intr.ioapics Intr.ioapicid Intr.gsi Intr.ioapic_num Intr.w_ioapics].
    + rewrite i32_small by lia. unfold Intr.MAX_IOAPIC. lia.
    + intros j y Hj Hj16. destruct (decide (j = length l)) as [->|Hne].
      * rewrite list_lookup_middle in Hj by done. injection Hj as <-. fold (zlen l). rewrite !lookup_total_insert_eq. by destruct x as [[] ].
      * pose proof (lookup_lt_Some _ _ _ Hj) as Hjl. rewrite length_app in Hjl. cbn in Hjl. rewrite lookup_app_l in Hj by lia.
        rewrite !lookup_total_insert_ne by (unfold zlen; lia). by apply Hl.
Qed.

Definition ap_idx_of (l : list Z) : Z := match l with [] => 1 | _ => zlen l end.
Definition found (l : list Z) : bool := match l with [] => false | _ => true end.

(** The state after the structures [l]. *)
Record learned (l : list ent) (s s' : state) : Prop := {
  le_mm : mm s' = mm s; le_inited : mp_inited s' = mp_inited s; le_ismp : ismp s' = ismp s;
  le_sel : imcr_sel s' = imcr_sel s; le_imcr : imcr s' = imcr s; le_apics : same_apics (apics s) (apics s');
  le_ncpu : ncpu s' = zlen (cpus l); le_cpus : cpus_ok (cpus l) (info s) (info s'); le_ios : ios_ok (ios l) (apics s')
}.

Lemma zlen_cpus l : zlen (cpus l) <= zlen l.
Proof.
  unfold cpus, zlen. induction l as [|x l IH]; [done|]. rewrite bind_cons, length_app. cbn [length].
  assert (length (ent_cpu x) <= 1)%nat by (destruct x as [? ? f | |]; cbn [ent_cpu]; [destruct (Z.land f ACPI_APIC_ENABLED =? 0)|..]; cbn [length]; lia). lia.
Qed.

(** The first bytes of a structure: its type and length. *)
Lemma ent_head m p x : holds m p (ent_bytes x) -> wf_ent x -> 0 <= p -> p + 256 < 2 ^ 32 ->
  load8 m p = match x with Lapic _ _ _ => 0 | Ioapic _ _ _ => 1 | Other t _ => t end /\
  load8 m (p + 1) = zlen (ent_bytes x) /\ 2 <= zlen (ent_bytes x) < 256.
Proof.
  intros H Hw Hp Hm.
  assert (Hz : zlen (ent_bytes x) = match x with Lapic _ _ _ => 8 | Ioapic _ _ _ => 12 | Other _ b => 2 + zlen b end).
  { destruct x; unfold zlen; cbn [ent_bytes]; rewrite ?length_app, ?le_enc_length; cbn [length]; lia. }
  assert (Hl : 2 <= zlen (ent_bytes x) < 256) by (rewrite Hz; destruct x; try lia; cbn in Hw; unfold zlen in *; lia).
  pose proof (holds8 m p _ 0 H ltac:(lia) Hp ltac:(lia)) as H0. rewrite Z.add_0_r in H0.
  pose proof (holds8 m p _ 1 H ltac:(lia) Hp ltac:(lia)) as H1. rewrite H0, H1.
  split; [by destruct x|]. split; [rewrite Hz; by destruct x | done].
Qed.

Lemma ent_step m e pre x p s s0 (Q : (Z * Z * bool) + unit -> state -> Prop) :
  learned pre s0 s -> mm s0 = m -> holds m p (ent_bytes x) -> wf_ent x -> 0 <= p -> p < e -> e + 256 < 2 ^ 32 -> zlen pre + 2 < 2 ^ 31 ->
  (forall s', learned (pre ++ [x]) s0 s' ->
     Q (inl (p + zlen (ent_bytes x), ap_idx_of (cpus (pre ++ [x])), found (cpus (pre ++ [x])))) s') ->
  wp (madt_entry e (p, ap_idx_of (cpus pre), found (cpus pre))) Q s.
Proof.
  intros L Em Hh Hw Hp Hpe He Hn HQ. pose proof L as [L1 L2 L3 L4 L5 L6 L7 L8 L9].
  destruct (ent_head m p x Hh Hw Hp ltac:(lia)) as (E0 & E1 & Hz). unfold madt_entry. bool_true.
  apply wp_bind, wp_gets. rewrite L1, Em, E0, E1, u32_small by klia.
  assert (Ec : cpus (pre ++ [x]) = cpus pre ++ ent_cpu x) by (unfold cpus; by rewrite bind_app, bind_cons, app_nil_r).
  assert (Ei : ios (pre ++ [x]) = ios pre ++ ent_io x) by (unfold ios; by rewrite bind_app, bind_cons, app_nil_r).
  pose proof (zlen_cpus pre) as Hcl.
  destruct x as [proc id flags | id addr gsi | t body].
  - destruct Hw as (_ & Hid & Hfl). cbn [Z.eqb]. cbn [ent_bytes] in Hh. apply holds_app in Hh as [Hb Hf]. change (zlen [0; 8; proc; id]) with 4 in Hf.
    rewrite (holds32 m (p + 4) flags Hf) by (done || klia). cbn [ent_cpu] in Ec.
    destruct (Z.land flags ACPI_APIC_ENABLED =? 0) eqn:Efl.
    + rewrite app_nil_r in Ec. rewrite <- Ec. apply wp_ret, HQ. split; rewrite ?Ec, ?Ei; cbn [ent_io]; rewrite ?app_nil_r; done.
    + rewrite (holds8 m p [0; 8; proc; id] 3 Hb) by (done || klia). change ([0; 8; proc; id] !!! Z.to_nat 3) with id.
      assert (W : forall Q' : unit -> state -> Prop, (forall new, cpus_ok (cpus pre ++ [id]) (info s0) new -> Q' tt (s_info new s)) ->
        wp (if negb (found (cpus pre)) then pcpu_mp_init_cpu 0 id true else pcpu_mp_init_cpu (ap_idx_of (cpus pre)) id false) Q' s).
      { intros Q' HQ'. pose proof (init_cpu_wp (cpus pre) (info s0) id s Q' L8 HQ') as W. by destruct (cpus pre). }
      apply wp_bind, W. intros new Hnew. apply wp_bind, wp_modify, wp_ret. cbn [ncpu s_info]. rewrite L7.
      assert (Ez : zlen (cpus pre ++ [id]) = zlen (cpus pre) + 1) by (unfold zlen; rewrite length_app; cbn; lia).
      assert (0 <= zlen (cpus pre)) by (unfold zlen; lia). assert (0 <= ap_idx_of (cpus pre) <= zlen (cpus pre) + 1) by (unfold ap_idx_of; destruct (cpus pre); unfold zlen; cbn; lia).
      rewrite !u32_small by klia.
      assert (Ev : (if negb (found (cpus pre)) then ap_idx_of (cpus pre) else ap_idx_of (cpus pre) + 1) = ap_idx_of (cpus pre ++ [id]) /\
        found (cpus pre ++ [id]) = true).
      { destruct (cpus pre) as [|y l]; [done|]. split; [|done]. cbn [negb found ap_idx_of app]. unfold zlen. cbn [length]. rewrite length_app. cbn. lia. }
      destruct Ev as [-> Ev2]. rewrite Ec, Ev2 in HQ. apply HQ. split; rewrite ?Ec, ?Ei; cbn [ent_io]; rewrite ?app_nil_r, ?Ez; done.
  - destruct Hw as (Hid & Had & Hg). cbn [Z.eqb Pos.eqb]. cbn [ent_bytes] in Hh. apply holds_app in Hh as [Hb Hf]. change (zlen [1; 12; id; 0]) with 4 in Hf.
    apply holds_app in Hf as [Hfa Hfg]. rewrite zlen_le_enc, <- Z.add_assoc in Hfg. change (4 + Z.of_nat 4) with 8 in Hfg.
    rewrite (holds32 m (p + 4) addr Hfa), (holds32 m (p + 8) gsi Hfg), (holds8 m p [1; 12; id; 0] 2 Hb) by (done || klia).
    change ([1; 12; id; 0] !!! Z.to_nat 2) with id. rewrite i32_small by lia.
    apply wp_bind, (smp_ioapic_wp (ios pre) (addr, id, gsi) s); [done|]. intros st Hst Hla. apply wp_ret.
    cbn [ent_cpu] in Ec. rewrite app_nil_r in Ec. rewrite Ec in HQ. apply HQ. split; rewrite ?Ec, ?Ei; cbn [ent_io]; done || (cbn; by etrans).
  - destruct Hw as (Ht & _). rewrite (proj2 (Z.eqb_neq t 0)), (proj2 (Z.eqb_neq t 1)) by lia.
    cbn [ent_cpu] in Ec. rewrite app_nil_r in Ec. rewrite Ec in HQ. apply wp_ret, HQ. split; rewrite ?Ec, ?Ei; cbn [ent_io]; rewrite ?app_nil_r; done.
Qed.

Lemma madt_loop m s0 e ents : forall pre p s fuel (Q : unit -> state -> Prop),
  learned pre s0 s -> mm s0 = m -> holds m p (ents ≫= ent_bytes) -> Forall wf_ent ents -> 0 <= p ->
  e = p + zlen (ents ≫= ent_bytes) -> e + 256 < 2 ^ 32 -> zlen pre + zlen ents + 2 < 2 ^ 31 -> (length ents < fuel)%nat ->
  (forall s', learned (pre ++ ents) s0 s' -> Q tt s') ->
  wp (loop fuel (madt_entry e) (p, ap_idx_of (cpus pre), found (cpus pre))) Q s.
Proof.
  induction ents as [|x ents IH]; intros pre p s fuel Q L Em Hh Hw Hp Ee He Hn Hf HQ; (destruct fuel as [|fuel]; [lia|]);
    apply wp_loop_S.
  - unfold madt_entry. change (zlen ([] ≫= ent_bytes)) with 0 in Ee. bool_false. apply wp_ret, HQ. by rewrite app_nil_r.
  - rewrite bind_cons in Hh, Ee. apply holds_app in Hh as [Hx Hh]. apply Forall_cons in Hw as [Hwx Hw].
    assert (Ez : zlen (ent_bytes x ++ (ents ≫= ent_bytes)) = zlen (ent_bytes x) + zlen (ents ≫= ent_bytes))
      by (unfold zlen; rewrite length_app; lia).
    assert (0 <= zlen (ents ≫= ent_bytes)) by (unfold zlen; lia).
    assert (2 <= zlen (ent_bytes x)) by (destruct x; unfold zlen; cbn [ent_bytes]; rewrite ?length_app; cbn [length]; lia).
    assert (zlen (x :: ents) = 1 + zlen ents /\ 0 <= zlen ents) as [En Hen] by (unfold zlen; cbn [length]; lia).
    apply (ent_step m e pre x p s s0); try done; [lia | lia|]. intros s1 L1. cbn [length] in Hf.
    apply (IH (pre ++ [x])); try done; [lia | lia | | lia | by rewrite <- app_assoc].
    unfold zlen in *. rewrite length_app. cbn [length]. lia.
Qed.

(** A state that has learned nothing yet. *)
Lemma learned_nil s : ncpu s = 0 -> Intr.ioapic_num (apics s) = 0 -> learned [] s s.
Proof.
  intros Hn Hi. split; try done; try reflexivity. intros i. unfold expect. case_match; [|done]. case_match; done.
Qed.

(** What pcpu_mp_init has learned from the MADT at [madt]. *)
Record discovered (ap_start ap_size madt : Z) (ents : list ent) (s s' : state) : Prop := {
  di_ncpu : ncpu s' = zlen (cpus ents); di_ismp : ismp s' = true; di_inited : mp_inited s' = true;
  di_cpus : cpus_ok (cpus ents) (info s) (info s'); di_ios : ios_ok (ios ents) (apics s');
  di_apics : same_apics (Intr.w_lapic (load32 (mm s) (madt + 36)) (Intr.lregs (apics s)) (Intr.ltrace (apics s)) (apics s)) (apics s');
  di_mm : mm s' = memmove PCPU_AP_START_ADDR ap_start ap_size (mm s)
}.

Lemma pcpu_mp_init_wp ap_start ap_size ents s (Q : bool -> state -> Prop) :
  let m := mm s in let madt := probe_madt m in
  mp_inited s = false -> 0 < madt -> load32 m (madt + 4) = 44 + zlen (ents ≫= ent_bytes) ->
  holds m (madt + 44) (ents ≫= ent_bytes) -> Forall wf_ent ents -> madt + 44 + zlen (ents ≫= ent_bytes) + 256 < 2 ^ 32 ->
  zlen ents + 2 < 2 ^ 31 -> Intr.ioapic_num (apics s) = 0 ->
  (forall s', discovered ap_start ap_size madt ents s s' -> Q true s') ->
  wp (pcpu_mp_init ap_start ap_size) Q s.
Proof.
  intros m madt Hi Hmadt Hlen Hh Hw Hm Hn Hio HQ.
  assert (Hz : 0 <= zlen (ents ≫= ent_bytes) /\ (length ents <= length (ents ≫= ent_bytes))%nat).
  { split; [unfold zlen; lia|]. clear. induction ents as [|x ents IH]; [done|]. rewrite bind_cons, length_app. cbn [length].
    destruct x; cbn [ent_bytes]; rewrite ?length_app; cbn [length]; lia. }
  destruct Hz as [Hz Hzl].
  unfold pcpu_mp_init. apply wp_bind, wp_gets. rewrite Hi. apply wp_bind, wp_gets. fold m. fold madt.
  rewrite (proj2 (Z.eqb_neq madt 0)), Hlen by lia. apply wp_bind, wp_modify, wp_bind.
  unfold lapic_register. apply wp_zoom. eapply wp_intro; [reflexivity|]. apply wp_bind, wp_modify, wp_bind.
  rewrite !u32_small by klia.
  eapply (madt_loop m _ (madt + (44 + zlen (ents ≫= ent_bytes))) ents [] (madt + 44));
    [by apply learned_nil | done | done | done | lia | lia | lia | done | unfold zlen in *; lia|].
  intros s1 [L1 L2 L3 L4 L5 L6 L7 L8 L9]. cbn [app mm s_ncpu s_ismp lput apics_lens s_apics] in *.
  assert (Hend : forall s2, mm s2 = mm s1 -> info s2 = info s1 -> ncpu s2 = ncpu s1 -> ismp s2 = ismp s1 -> apics s2 = apics s1 ->
    wp (copy_ap ap_start ap_size ;; modify (s_inited true) ;; mret true) Q s2).
  { intros s2 E1 E2 E3 E4 E5. apply wp_bind, wp_modify, wp_bind, wp_modify, wp_ret, HQ.
    split; cbn [mm info ncpu ismp apics mp_inited s_mm s_inited]; rewrite ?E1, ?E2, ?E3, ?E4, ?E5, ?L1, ?L3; done. }
  apply wp_bind, wp_when; intros _; [|by apply Hend].
  unfold force_apic. apply wp_bind, wp_modify, wp_modify. by apply Hend.
Qed.

(** (C30) pcpu_mp_init with an ACPI table: the enabled processors are counted and
    numbered in the order of the table, the first one as the boot processor,
    as many as there is room for; the local APIC and the I/O APICs are
    registered with their addresses; the start code is copied. *)
Theorem pcpu_mp_init_correct ap_start ap_size ents s :
  let m := mm s in let madt := probe_madt m in
  mp_inited s = false -> 0 < madt -> load32 m (madt + 4) = 44 + zlen (ents ≫= ent_bytes) ->
  holds m (madt + 44) (ents ≫= ent_bytes) -> Forall wf_ent ents -> madt + 44 + zlen (ents ≫= ent_bytes) + 256 < 2 ^ 32 ->
  zlen ents + 2 < 2 ^ 31 -> Intr.ioapic_num (apics s) = 0 ->
  exists s', pcpu_mp_init ap_start ap_size s = Ok true s' /\
    ncpu s' = zlen (cpus ents) /\ ismp s' = true /\ mp_inited s' = true /\
    cpus_ok (cpus ents) (info s) (info s') /\ ios_ok (ios ents) (apics s') /\
    Intr.lapic (apics s') = load32 m (madt + 36) /\ mm s' = memmove PCPU_AP_START_ADDR ap_start ap_size m.
Proof.
  intros m madt Hi Hmadt Hlen Hh Hw Hm Hn Hio.
  assert (W : wp (pcpu_mp_init ap_start ap_size) (fun r s' => r = true /\ discovered ap_start ap_size madt ents s s') s)
    by (eapply pcpu_mp_init_wp; eauto).
  apply wp_run in W as (r & s' & E & -> & [D1 D2 D3 D4 D5 (? & ? & ? & ? & D6) D7]).
  exists s'. rewrite D6 at 2. by split_and!.
Qed.

(** Without any table there is one processor. *)
Theorem pcpu_mp_init_none ap_start ap_size s :
  mp_inited s = false -> probe_madt (mm s) = 0 -> (mpconfig (mm s)).2 = 0 ->
  pcpu_mp_init ap_start ap_size s = Ok false (s_ncpu 1 (s_ismp false s)).
Proof.
  intros Hi Hm Hc. unfold pcpu_mp_init. krun. rewrite Hi. krun. rewrite Hm. cbn [Z.eqb].
  assert (E : mp_init_fallback ap_start ap_size s = Ok false s).
  { unfold mp_init_fallback. krun. rewrite Hi. krun. destruct (mpconfig (mm s)) as [mp conf]. cbn in Hc. by subst. }
  by erewrite bind_Ok by exact E.
Qed.

(** An entry of an unknown type in the MP table keeps mp_init_fallback in its
    loop for ever. *)
Theorem mp_unknown_type_loops e p ap_idx s : p < e -> 5 <= load8 (mm s) p ->
  forall n, loop n (mp_entry e) (p, ap_idx) s = Err Fuel.
Proof.
  intros Hp Ht. assert (E : mp_entry e (p, ap_idx) s = Ok (inl (p, ap_idx)) s).
  { unfold mp_entry. bool_true. krun. by rewrite !(proj2 (Z.eqb_neq _ _)) by lia. }
  induction n as [|n IH]; [done|]. cbn [loop]. by erewrite bind_Ok by exact E.
Qed.

(** A structure of length 0 in the MADT does the same to pcpu_mp_init. *)
Theorem madt_zero_length_loops e p ap_idx b s : 0 <= p < 2 ^ 32 -> p < e -> 2 <= load8 (mm s) p -> load8 (mm s) (p + 1) = 0 ->
  forall n, loop n (madt_entry e) (p, ap_idx, b) s = Err Fuel.
Proof.
  intros Hp He Ht Hl. assert (E : madt_entry e (p, ap_idx, b) s = Ok (inl (p, ap_idx, b)) s).
  { unfold madt_entry. bool_true. krun. rewrite !(proj2 (Z.eqb_neq _ _)) by lia. by rewrite Hl, Z.add_0_r, u32_small. }
  induction n as [|n IH]; [done|]. cbn [loop]. by erewrite bind_Ok by exact E.
Qed.

(** ** An example: two processors of three are enabled *)

(** Byte [i] makes the sum 0. *)
Definition summed (i : nat) (l : list Z) : list Z := <[i := u8 (- foldr Z.add 0 l)]> l.
Definition put (a : Z) (l : list Z) (m : mem) : mem := fill (length l) a (fun k => l !!! Z.to_nat k) m.
Definition ex_ents : list ent :=
  [Lapic 0 0 1; Lapic 1 4 1; Lapic 2 6 0; Ioapic 2 0xFEC00000 0; Other 2 (replicate 8 0)].
Definition ex_madt : list Z := summed 9 (le_enc 4 ACPI_MADT_SIG ++ le_enc 4 90 ++ replicate 28 0 ++
  le_enc 4 0xFEE00000 ++ le_enc 4 1 ++ (ex_ents ≫= ent_bytes)).
Definition ex_rsdt : list Z := summed 9 (le_enc 4 ACPI_RSDT_SIG ++ le_enc 4 40 ++ replicate 28 0 ++ le_enc 4 0x7100).
Definition ex_rsdp : list Z := summed 8 (le_enc 4 ACPI_RSDP_SIG1 ++ le_enc 4 ACPI_RSDP_SIG2 ++ replicate 8 0 ++ le_enc 4 0x7000 ++ replicate 16 0).
Definition ex_mem : mem := put 0x7100 ex_madt (put 0x7000 ex_rsdt (put 0xE0010 ex_rsdp ∅)).
Definition ex_state : state := State ex_mem ∅ 0 false false (Intr.w_ioapics ∅ ∅ ∅ 0 Intr.demo) 0 0.

Lemma ex_holds : holds ex_mem (0x7100 + 44) (ex_ents ≫= ent_bytes).
Proof.
  assert (H : forallb (fun i => ex_mem !!! (0x7100 + 44 + i) =? (ex_ents ≫= ent_bytes) !!! Z.to_nat i) (seqZ 0 46) = true)
    by (vm_compute; reflexivity).
  intros i Hi. rewrite forallb_forall in H. apply Z.eqb_eq, H. rewrite <- list_elem_of_In, elem_of_seqZ.
  change (zlen (ex_ents ≫= ent_bytes)) with 46 in Hi. lia.
Qed.

Lemma ex_wf : Forall wf_ent ex_ents.
Proof.
  unfold ex_ents. repeat apply Forall_cons_2; [..|by apply Forall_nil]; cbn [wf_ent]; split_and!; try done; try klia.
  by apply Forall_replicate.
Qed.

Lemma rsdp_search_correct_witness : acpi_probe_rsdp_aux ex_mem 0xE0000 0x1FFFF = 0xE0010 /\ is_rsdp ex_mem 0xE0000 = false.
Proof.
  assert (E : acpi_probe_rsdp_aux ex_mem 0xE0000 0x1FFFF = 0xE0010) by (vm_compute; reflexivity).
  split; [exact E|].
  destruct (rsdp_search_correct ex_mem 0xE0000 0x1FFFF ltac:(lia) ltac:(lia) ltac:(lia)) as [(_ & _ & _ & H) | (H & _)]; rewrite E in H; [|done].
  apply H; [exists 0; lia | lia].
Defined.

Lemma pcpu_mp_init_correct_witness :
  exists s', pcpu_mp_init 0x100000 16 ex_state = Ok true s' /\ ncpu s' = 2 /\ lapicid (info s' !!! 1) = 4 /\
    bsp (info s' !!! 0) = true /\ Intr.ioapics (apics s') !!! 0 = 0xFEC00000 /\ Intr.lapic (apics s') = 0xFEE00000.
Proof.
  assert (Em : probe_madt (mm ex_state) = 0x7100) by (vm_compute; reflexivity).
  assert (El : load32 (mm ex_state) (0x7100 + 36) = 0xFEE00000) by (vm_compute; reflexivity).
  pose proof (pcpu_mp_init_correct 0x100000 16 ex_ents ex_state) as H. cbv zeta in H. rewrite Em, El in H.
  destruct H as (s' & E & H1 & _ & _ & H2 & [_ H3] & H4 & _).
  - reflexivity.
  - lia.
  - vm_compute. reflexivity.
  - exact ex_holds.
  - exact ex_wf.
  - vm_compute. reflexivity.
  - vm_compute. reflexivity.
  - reflexivity.
  - exists s'. split; [exact E|]. split; [exact H1|]. rewrite (H2 1), (H2 0). split; [reflexivity|]. split; [reflexivity|].
    split; [|exact H4]. specialize (H3 0%nat (0xFEC00000, 2, 0) eq_refl ltac:(done)). by injection H3.
Defined.

Lemma pcpu_mp_init_none_witness :
  pcpu_mp_init 0x100000 16 (s_mm ∅ ex_state) = Ok false (s_ncpu 1 (s_ismp false (s_mm ∅ ex_state))).
Proof. apply (pcpu_mp_init_none 0x100000 16 (s_mm ∅ ex_state)); vm_compute; reflexivity. Defined.
Lemma mp_unknown_type_loops_witness : loop 100 (mp_entry 0x9000) (0x8000, 1) (s_mm {[0x8000 := 9]} ex_state) = Err Fuel.
Proof. apply (mp_unknown_type_loops 0x9000 0x8000 1 (s_mm {[0x8000 := 9]} ex_state)); by vm_compute. Defined.
Lemma madt_zero_length_loops_witness : loop 100 (madt_entry 0x9000) (0x8000, 1, true) (s_mm {[0x8000 := 9]} ex_state) = Err Fuel.
Proof. apply (madt_zero_length_loops 0x9000 0x8000 1 true (s_mm {[0x8000 := 9]} ex_state)); by vm_compute. Defined.
End Smp.
