(* ===== verification/Disk.v ===== *)
(** * The disk and its driver (kern/dev/disk/ide.c, kern/lib/buf.h)

    The drive is hardware: an image of 512 byte sectors per drive, the task
    file registers the driver programs, and the sequence of sector writes it
    has performed, so that a crash is the image after any prefix of them.

    A thread that waits for the disk sleeps: another thread runs, the drive
    raises its interrupt, [ide_intr] runs and wakes the sleeper.  The class
    [Sched] is what the file system uses of the scheduler; [sched_resume] is
    what happens between the wake-up and the sleeper's return from
    thread_sleep.  Everywhere else a call of thread_sleep waits for another
    thread of the file system, and is [Block]. *)

From S2P Require Import Prelude Spinlock Bytes Intr.

Class Sched (T : Type) : Type := {
  sched_sleep : Z -> K T unit;     (* thread_sleep(chan, lk) up to the switch *)
  sched_wakeup : Z -> K T unit;    (* thread_wakeup(chan) *)
  sched_resume : Z -> K T unit     (* until thread_sleep(chan, lk) returns *)
}.

(** What the scheduler promises: waking somebody up always returns; a thread
    that slept on a channel and was woken on it is resumed. *)
Class SchedOk (T : Type) `{!Sched T} : Type := {
  sched_ok : T -> Prop;
  sched_asleep : Z -> T -> Prop;
  sched_woken : Z -> T -> Prop;
  sleep_ok : forall c t, sched_ok t -> wp (sched_sleep c) (fun _ t' => sched_asleep c t') t;
  wakeup_ok : forall c t, sched_ok t -> wp (sched_wakeup c) (fun _ t' => sched_ok t') t;
  wakeup_asleep : forall c t, sched_asleep c t ->
    wp (sched_wakeup c) (fun _ t' => sched_woken c t') t;
  resume_ok : forall c t, sched_woken c t -> wp (sched_resume c) (fun _ t' => sched_ok t') t
}.

Module Disk.

Definition BSIZE : Z := 512.
Definition NBUF : Z := 10.
Definition NULL : Z := -1.
Definition HEAD : Z := NBUF.     (* &bcache.head *)
#[export] Hint Unfold BSIZE NBUF NULL HEAD : kconst.

Abbreviation block := (list Z).
Definition zero_block : block := replicate 512 0.

(** ** buf.h *)

Definition B_BUSY : Z := 0x1.
Definition B_VALID : Z := 0x2.
Definition B_DIRTY : Z := 0x4.

Record buf : Type := Buf {
  flags : Z; dev : Z; sector : Z; prev : Z; next : Z; qnext : Z; data : block
}.
#[export] Instance buf_inhabited : Inhabited buf :=
  populate (Buf 0 0 0 NULL NULL NULL zero_block).

Definition w_flags v b := Buf v (dev b) (sector b) (prev b) (next b) (qnext b) (data b).
Definition w_key d s b := Buf (flags b) d s (prev b) (next b) (qnext b) (data b).
Definition w_prev v b := Buf (flags b) (dev b) (sector b) v (next b) (qnext b) (data b).
Definition w_next v b := Buf (flags b) (dev b) (sector b) (prev b) v (qnext b) (data b).
Definition w_qnext v b := Buf (flags b) (dev b) (sector b) (prev b) (next b) v (data b).
Definition w_data v b := Buf (flags b) (dev b) (sector b) (prev b) (next b) (qnext b) v.

(** ** The drive *)

Definition IDE_BSY : Z := 0x80.
Definition IDE_DRDY : Z := 0x40.
Definition IDE_DF : Z := 0x20.
Definition IDE_ERR : Z := 0x01.
Definition IDE_CMD_READ : Z := 0x20.
Definition IDE_CMD_WRITE : Z := 0x30.

Abbreviation key := (Z * Z)%type.   (* drive, sector *)

Record drive : Type := Drive {
  image : gmap key block; writes : list (key * block);
  r3 : Z; r4 : Z; r5 : Z; r6 : Z; cmd : Z; status : Z
}.

Definition sector_of (img : gmap key block) (k : key) : block := default zero_block (img !! k).

(** The sector the task file addresses. *)
Definition lba (d : drive) : Z :=
  Z.lor (Z.lor (Z.lor (r3 d) (Z.shiftl (r4 d) 8)) (Z.shiftl (r5 d) 16))
    (Z.shiftl (Z.land (r6 d) 0x0f) 24).
Definition drive_key (d : drive) : key := (Z.land (Z.shiftr (r6 d) 4) 1, lba d).

Definition drive_outb (port v : Z) (d : drive) : drive :=
  let v := u8 v in
  if port =? 0x1f3 then Drive (image d) (writes d) v (r4 d) (r5 d) (r6 d) (cmd d) (status d)
  else if port =? 0x1f4 then Drive (image d) (writes d) (r3 d) v (r5 d) (r6 d) (cmd d) (status d)
  else if port =? 0x1f5 then Drive (image d) (writes d) (r3 d) (r4 d) v (r6 d) (cmd d) (status d)
  else if port =? 0x1f6 then Drive (image d) (writes d) (r3 d) (r4 d) (r5 d) v (cmd d) (status d)
  else if port =? 0x1f7 then Drive (image d) (writes d) (r3 d) (r4 d) (r5 d) (r6 d) v (status d)
  else d.

(** Filling the data register after a write command writes the sector. *)
Definition drive_outsl (b : block) (d : drive) : drive :=
  if cmd d =? IDE_CMD_WRITE then
    Drive (<[drive_key d := b]> (image d)) (writes d ++ [(drive_key d, b)])
      (r3 d) (r4 d) (r5 d) (r6 d) 0 (status d)
  else d.
Definition drive_insl (d : drive) : block := sector_of (image d) (drive_key d).

(** ** State: the buffers, the request queue and the drive *)

Record state (T : Type) : Type := State {
  bcache_lk : spinlock_t; bufs : gmap Z buf;      (* bcache of bufcache.c *)
  ide_lk : spinlock_t; idequeue : Z; havedisk1 : Z;
  hw : drive; irqc : Intr.state; sch : T
}.
Arguments State {T}.
Arguments bcache_lk {T}.
Arguments bufs {T}.
Arguments ide_lk {T}.
Arguments idequeue {T}.
Arguments havedisk1 {T}.
Arguments hw {T}.
Arguments irqc {T}.
Arguments sch {T}.

Section ops.
Context {T : Type} `{!Sched T}.
Context (ks : kstack).
Abbreviation st := (state T).

Definition s_bclk v (s : st) : st :=
  State v (bufs s) (ide_lk s) (idequeue s) (havedisk1 s) (hw s) (irqc s) (sch s).
Definition s_bufs v (s : st) : st :=
  State (bcache_lk s) v (ide_lk s) (idequeue s) (havedisk1 s) (hw s) (irqc s) (sch s).
Definition s_idelk v (s : st) : st :=
  State (bcache_lk s) (bufs s) v (idequeue s) (havedisk1 s) (hw s) (irqc s) (sch s).
Definition s_queue v (s : st) : st :=
  State (bcache_lk s) (bufs s) (ide_lk s) v (havedisk1 s) (hw s) (irqc s) (sch s).
Definition s_disk1 v (s : st) : st :=
  State (bcache_lk s) (bufs s) (ide_lk s) (idequeue s) v (hw s) (irqc s) (sch s).
Definition s_hw v (s : st) : st :=
  State (bcache_lk s) (bufs s) (ide_lk s) (idequeue s) (havedisk1 s) v (irqc s) (sch s).
Definition s_irqc v (s : st) : st :=
  State (bcache_lk s) (bufs s) (ide_lk s) (idequeue s) (havedisk1 s) (hw s) v (sch s).
Definition s_sch v (s : st) : st :=
  State (bcache_lk s) (bufs s) (ide_lk s) (idequeue s) (havedisk1 s) (hw s) (irqc s) v.

Definition bclk_lens : lens st spinlock_t := Lens bcache_lk s_bclk.
Definition idelk_lens : lens st spinlock_t := Lens ide_lk s_idelk.
Definition irqc_lens : lens st Intr.state := Lens irqc s_irqc.
Definition sch_lens : lens st T := Lens sch s_sch.

Definition getb (s : st) (b : Z) : buf := bufs s !!! b.

(** Reading and writing the fields of [*b]. *)
Definition bfield {A} (b : Z) (f : buf -> A) : K st A :=
  bounds (NBUF + 1) b ;; gets (fun s => f (getb s b)).
Definition bupd (b : Z) (f : buf -> buf) : K st unit :=
  bounds (NBUF + 1) b ;; modify (fun s => s_bufs (<[b := f (getb s b)]> (bufs s)) s).

Definition outb (port v : Z) : K st unit := modify (fun s => s_hw (drive_outb port v (hw s)) s).

(** ** ide.c *)

Definition ide_lock : K st unit := zoom idelk_lens (spinlock_acquire ks).
Definition ide_unlock : K st unit := zoom idelk_lens spinlock_release.
Definition thread_wakeup (chan : Z) : K st unit := zoom sch_lens (sched_wakeup chan).

(** The loop reads the status until the drive is ready; a drive that stays
    busy is waited for. *)
Definition ide_wait (checkerr : bool) : K st Z :=
  r ← gets (fun s => status (hw s));
  if Z.land r (Z.lor IDE_BSY IDE_DRDY) =? IDE_DRDY then
    if checkerr && negb (Z.land r (Z.lor IDE_DF IDE_ERR) =? 0) then mret (-1) else mret 0
  else fail Block.

(** [ncpu] is pcpu_ncpu(); the status of the selected drive is non-zero when
    the drive is there. *)
Definition ide_init (ncpu : Z) : K st unit :=
  zoom idelk_lens spinlock_init ;;
  zoom irqc_lens (Intr.picenable Intr.IRQ_IDE1) ;;
  zoom irqc_lens (Intr.ioapicenable Intr.IRQ_IDE1 (ncpu - 1)) ;;
  ide_wait false ;;
  outb 0x1f6 (Z.lor 0xe0 (Z.shiftl 1 4)) ;;
  loop 1001 (fun i : Z =>
    if negb (i <? 1000) then mret (inr tt)
    else
      r ← gets (fun s => status (hw s));
      if negb (r =? 0) then modify (s_disk1 1) ;; mret (inr tt)
      else mret (inl (i + 1))) 0 ;;
  outb 0x1f6 (Z.lor 0xe0 (Z.shiftl 0 4)).

Definition ide_start (b : Z) : K st unit :=
  if b =? NULL then panic "ide_start"
  else
    ide_wait false ;;
    sec ← bfield b sector;
    d ← bfield b dev;
    fl ← bfield b flags;
    outb 0x3f6 0 ;;
    outb 0x1f2 1 ;;
    outb 0x1f3 (Z.land sec 0xff) ;;
    outb 0x1f4 (Z.land (Z.shiftr sec 8) 0xff) ;;
    outb 0x1f5 (Z.land (Z.shiftr sec 16) 0xff) ;;
    outb 0x1f6 (Z.lor (Z.lor 0xe0 (Z.shiftl (Z.land d 1) 4)) (Z.land (Z.shiftr sec 24) 0x0f)) ;;
    if negb (Z.land fl B_DIRTY =? 0) then
      outb 0x1f7 IDE_CMD_WRITE ;;
      dat ← bfield b data;
      modify (fun s => s_hw (drive_outsl dat (hw s)) s)
    else outb 0x1f7 IDE_CMD_READ.

Definition ide_intr : K st unit :=
  ide_lock ;;
  b ← gets idequeue;
  if b =? NULL then ide_unlock
  else
    q ← bfield b qnext;
    modify (s_queue q) ;;
    fl ← bfield b flags;
    (if Z.land fl B_DIRTY =? 0 then
       r ← ide_wait true;
       when (0 <=? r)
         (dat ← gets (fun s => drive_insl (hw s)); bupd b (w_data dat))
     else mret tt) ;;
    bupd b (fun x => w_flags (Z.lor (flags x) B_VALID) x) ;;
    bupd b (fun x => w_flags (Z.land (flags x) (Z.lnot B_DIRTY)) x) ;;
    thread_wakeup b ;;
    q ← gets idequeue;
    when (negb (q =? NULL)) (ide_start q) ;;
    ide_unlock.

(** The walk of ide_rw to the null link at the end of the queue, which gets [b]. *)
Definition queue_append (b : Z) : K st unit :=
  q ← gets idequeue;
  if q =? NULL then modify (s_queue b)
  else
    loop (Z.to_nat NBUF + 2) (fun p =>
      n ← bfield p qnext;
      if n =? NULL then bupd p (w_qnext b) ;; mret (inr tt) else mret (inl n)) q.

(** thread_sleep(b, &ide_lk): the lock is released, another thread runs, the
    drive interrupts, and the sleeper comes back with the lock. *)
Definition ide_sleep (b : Z) : K st unit :=
  ide_unlock ;;
  zoom sch_lens (sched_sleep b) ;;
  ide_intr ;;
  zoom sch_lens (sched_resume b) ;;
  ide_lock.

Definition ide_rw (b : Z) : K st unit :=
  fl ← bfield b flags;
  d ← bfield b dev;
  h ← gets havedisk1;
  if Z.land fl B_BUSY =? 0 then panic "ide_rw: buf not busy"
  else if Z.land fl (Z.lor B_VALID B_DIRTY) =? B_VALID then panic "ide_rw: nothing to do"
  else if negb (d =? 0) && (h =? 0) then panic "ide_rw: ide disk 1 not present"
  else
    ide_lock ;;
    bupd b (w_qnext NULL) ;;
    queue_append b ;;
    q ← gets idequeue;
    when (q =? b) (ide_start b) ;;
    loop (Z.to_nat NBUF + 2) (fun _ : unit =>
      fl ← bfield b flags;
      if Z.land fl (Z.lor B_VALID B_DIRTY) =? B_VALID then mret (inr tt)
      else ide_sleep b ;; mret (inl tt)) tt ;;
    ide_unlock.

End ops.

(** ** Addressing: the task file names the sector of the buffer *)

Lemma lor_shift_add a b n : 0 <= n -> 0 <= a < 2 ^ n -> Z.lor a (Z.shiftl b n) = a + b * 2 ^ n.
Proof.
  intros Hn Ha. rewrite <- Z.lxor_lor, <- Z.add_nocarry_lxor, Z.shiftl_mul_pow2; try done.
  all: apply Z.bits_inj'; intros i Hi; rewrite Z.land_spec, Z.bits_0, Z.shiftl_spec by done.
  all: destruct (decide (i < n)); [by rewrite (Z.testbit_neg_r _ (i - n)), andb_false_r by lia|].
  all: rewrite <- (Z.mod_small a (2 ^ n)), Z.mod_pow2_bits_high by lia; done.
Qed.

Lemma land_mod a n : 0 <= n -> Z.land a (Z.ones n) = a mod 2 ^ n.
Proof. apply Z.land_ones. Qed.

Lemma lba_bytes sec : 0 <= sec < 2 ^ 28 ->
  Z.lor (Z.lor (Z.lor (Z.land sec 255) (Z.shiftl (Z.land (Z.shiftr sec 8) 255) 8))
     (Z.shiftl (Z.land (Z.shiftr sec 16) 255) 16))
    (Z.shiftl (Z.land (Z.shiftr sec 24) 15) 24) = sec.
Proof.
  intros Hs. change 255 with (Z.ones 8). change 15 with (Z.ones 4).
  rewrite !land_mod, !Z.shiftr_div_pow2 by done.
  rewrite (lor_shift_add (sec mod 2 ^ 8)), (lor_shift_add (_ + _) _ 16),
    (lor_shift_add (_ + _) _ 24); Z.to_euclidean_division_equations; lia.
Qed.

Lemma task_file sec d :
  0 <= sec < 2 ^ 28 -> d = 0 \/ d = 1 ->
  let r := u8 (Z.lor (Z.lor 0xe0 (Z.shiftl (Z.land d 1) 4)) (Z.land (Z.shiftr sec 24) 0x0f)) in
  Z.land (Z.shiftr r 4) 1 = d /\ Z.land r 0x0f = Z.land (Z.shiftr sec 24) 15.
Proof.
  intros Hs Hd. change 0x0f with (Z.ones 4). rewrite land_mod, Z.shiftr_div_pow2 by done.
  assert (Hq : 0 <= (sec / 2 ^ 24) mod 2 ^ 4 < 16) by (apply Z.mod_pos_bound; lia).
  rewrite (Z.mod_small (sec / 2 ^ 24)) in * by (Z.to_euclidean_division_equations; lia).
  set (q := sec / 2 ^ 24) in *. clearbody q.
  assert (Hall : forall q', 0 <= q' < 16 -> In q' (map Z.of_nat (seq 0 16))).
  { intros q' Hq'. apply in_map_iff. exists (Z.to_nat q'). split; [lia|]. apply in_seq. lia. }
  specialize (Hall q Hq). cbn in Hall.
  destruct Hd as [-> | ->]; repeat destruct Hall as [<- | Hall]; done.
Qed.

(** Project the fields of an updated state. *)
Ltac st_simp :=
  unfold idelk_lens, bclk_lens, sch_lens, irqc_lens, getb in *; cbn [lput lget] in *;
  unfold s_bclk, s_bufs, s_idelk, s_queue, s_disk1, s_hw, s_irqc, s_sch in *;
  cbn [bcache_lk bufs ide_lk idequeue havedisk1 hw irqc sch] in *.

(** The same in the goal, keeping [getb]. *)
Ltac st_goal :=
  unfold idelk_lens, bclk_lens, sch_lens, irqc_lens; cbn [lput lget];
  unfold s_bclk, s_bufs, s_idelk, s_queue, s_disk1, s_hw, s_irqc, s_sch;
  cbn [bcache_lk bufs ide_lk idequeue havedisk1 hw irqc sch].

(** ** One request *)

Section specs.
Context {T : Type} `{!Sched T}.
Context (ks : kstack).
Abbreviation st := (state T).
Implicit Types s : st.

Definition key_ok (k : key) : Prop := (k.1 = 0 \/ k.1 = 1) /\ 0 <= k.2 < 2 ^ 28.
Definition bkey (x : buf) : key := (dev x, sector x).
Definition ready (d : drive) : Prop := status d = IDE_DRDY.
Definition flag (f m : Z) : bool := negb (Z.land f m =? 0).

(** What the drive keeps of the requests: sectors and their write history. *)
Definition drive_after (wr : bool) (k : key) (dat : block) (d d' : drive) : Prop :=
  image d' = (if wr then <[k := dat]> (image d) else image d) /\
  writes d' = (if wr then writes d ++ [(k, dat)] else writes d) /\
  status d' = status d.

Lemma wp_bfield {A} b (f : buf -> A) (Q : A -> st -> Prop) s :
  0 <= b < NBUF + 1 -> Q (f (getb s b)) s -> wp (bfield b f) Q s.
Proof. intros Hb HQ. unfold bfield. wp_step. by apply wp_bounds. Qed.

Lemma wp_bupd b f (Q : unit -> st -> Prop) s :
  0 <= b < NBUF + 1 -> Q tt (s_bufs (<[b := f (getb s b)]> (bufs s)) s) -> wp (bupd b f) Q s.
Proof. intros Hb HQ. unfold bupd. wp_step. by apply wp_bounds. Qed.

Lemma getb_upd b x (s : st) : getb (s_bufs (<[b := x]> (bufs s)) s) b = x.
Proof. apply lookup_total_insert_eq. Qed.

Lemma flags_cases f : 0 <= f < 8 ->
  f = 0 \/ f = 1 \/ f = 2 \/ f = 3 \/ f = 4 \/ f = 5 \/ f = 6 \/ f = 7.
Proof. lia. Qed.

Lemma ide_wait_ready c s : ready (hw s) -> ide_wait c s = Ok 0 s.
Proof.
  intros H. unfold ide_wait. krun. unfold ready in H. rewrite H. by destruct c.
Qed.

(** The drive after the address of [x] has been programmed. *)
Definition addressed (x : buf) (d : drive) : drive :=
  let sec := sector x in
  drive_outb 0x1f6 (Z.lor (Z.lor 0xe0 (Z.shiftl (Z.land (dev x) 1) 4))
    (Z.land (Z.shiftr sec 24) 0x0f))
  (drive_outb 0x1f5 (Z.land (Z.shiftr sec 16) 0xff)
  (drive_outb 0x1f4 (Z.land (Z.shiftr sec 8) 0xff)
  (drive_outb 0x1f3 (Z.land sec 0xff)
  (drive_outb 0x1f2 1 (drive_outb 0x3f6 0 d))))).

Lemma addressed_key x d : key_ok (bkey x) -> drive_key (addressed x d) = bkey x.
Proof.
  intros [Hd Hs]. unfold bkey, drive_key, lba in *. cbn [fst snd] in Hd, Hs.
  destruct (task_file (sector x) (dev x) Hs Hd) as [Hdrv Hhi].
  cbn -[u8 Z.land Z.lor Z.shiftl Z.shiftr]. rewrite Hdrv, Hhi. f_equal.
  assert (Hb : forall z, u8 (Z.land z 255) = Z.land z 255).
  { intros z. apply u8_small. change 255 with (Z.ones 8). rewrite land_mod by done.
    apply u8_range. }
  rewrite !Hb. by apply lba_bytes.
Qed.

Lemma write_command dat d d0 :
  image d = image d0 -> writes d = writes d0 -> status d = status d0 ->
  drive_after true (drive_key d) dat d0 (drive_outsl dat (drive_outb 0x1f7 IDE_CMD_WRITE d)).
Proof.
  intros Hi Hw Hs. unfold drive_after. rewrite <- Hi, <- Hw, <- Hs. done.
Qed.

Lemma ide_start_wp b s (Q : unit -> st -> Prop) :
  0 <= b < NBUF -> ready (hw s) -> key_ok (bkey (getb s b)) ->
  (forall d', drive_after (flag (flags (getb s b)) B_DIRTY) (bkey (getb s b)) (data (getb s b))
       (hw s) d' ->
     (flag (flags (getb s b)) B_DIRTY = false -> drive_key d' = bkey (getb s b)) ->
     Q tt (s_hw d' s)) ->
  wp (ide_start b) Q s.
Proof.
  intros Hb Hr Hk HQ. unfold ide_start. bool_false.
  wp_step. eapply wp_intro; [by apply ide_wait_ready|].
  do 3 (wp_step; apply wp_bfield; [klia|]).
  pose proof (addressed_key _ (hw s) Hk) as Ha.
  do 6 (wp_step; apply wp_modify).
  unfold flag in HQ. destruct (negb (Z.land (flags (getb s b)) B_DIRTY =? 0)).
  - wp_step. apply wp_modify. wp_step. apply wp_bfield; [klia|]. apply wp_modify.
    refine (HQ (drive_outsl (data (getb s b))
      (drive_outb 0x1f7 IDE_CMD_WRITE (addressed (getb s b) (hw s)))) _ _); [|done].
    rewrite <- Ha. by apply write_command.
  - apply wp_modify. refine (HQ (drive_outb 0x1f7 IDE_CMD_READ (addressed (getb s b) (hw s))) _ _).
    + done.
    + intros _. exact Ha.
Qed.

Definition unlocked_lk : spinlock_t := Spinlock (NUM_CPUS + 1) 0.

(** The end of ide_intr, with nothing else queued. *)
Lemma intr_finish `{!SchedOk T} b s (Q : unit -> st -> Prop) :
  0 <= b < NBUF -> idequeue s = NULL -> sched_asleep b (sch s) ->
  (forall t, sched_woken b t ->
     Q tt (State (bcache_lk s)
       (<[b := w_flags (Z.land (Z.lor (flags (getb s b)) B_VALID) (Z.lnot B_DIRTY)) (getb s b)]>
          (bufs s)) unlocked_lk NULL (havedisk1 s) (hw s) (irqc s) t)) ->
  wp (bupd b (fun x => w_flags (Z.lor (flags x) B_VALID) x) ;;
      bupd b (fun x => w_flags (Z.land (flags x) (Z.lnot B_DIRTY)) x) ;;
      thread_wakeup b ;;
      q ← gets idequeue;
      when (negb (q =? NULL)) (ide_start q) ;;
      ide_unlock) Q s.
Proof.
  destruct s as [blk bf ilk q h1 d ic t]. st_simp. intros Hb -> Hsl HQ.
  wp_step. apply wp_bupd; [klia|]. wp_step. apply wp_bupd; [klia|]. rewrite getb_upd. st_simp.
  rewrite insert_insert_eq. wp_step. unfold thread_wakeup. wp_step. st_simp.
  wp_call wakeup_asleep; [done|]. intros [] t' Ht'. wp_step. wp_step. wp_step.
  apply wp_when; [by rewrite Z.eqb_refl | intros _]. unfold ide_unlock. wp_step.
  eapply wp_intro; [reflexivity|]. st_simp. by apply HQ.
Qed.

(** The request at the head of the queue, alone in it, is completed by the
    interrupt: a read fills the buffer from the sector addressed. *)
Lemma ide_intr_wp `{!SchedOk T} b s (Q : unit -> st -> Prop) :
  let x := getb s b in
  0 <= b < NBUF -> idequeue s = b -> qnext x = NULL -> lock (ide_lk s) = 0 ->
  magic ks = KSTACK_MAGIC -> ready (hw s) ->
  (flag (flags x) B_DIRTY = false -> drive_key (hw s) = bkey x) ->
  sched_asleep b (sch s) ->
  (forall t, sched_woken b t ->
     Q tt (State (bcache_lk s)
       (<[b := Buf (Z.land (Z.lor (flags x) B_VALID) (Z.lnot B_DIRTY)) (dev x) (sector x) (prev x)
            (next x) NULL (if flag (flags x) B_DIRTY then data x
                           else sector_of (image (hw s)) (bkey x))]> (bufs s))
       unlocked_lk NULL (havedisk1 s) (hw s) (irqc s) t)) ->
  wp (ide_intr ks) Q s.
Proof.
  destruct s as [blk bf ilk q h1 d ic t]. st_simp. set (x := bf !!! b).
  intros Hb -> Hqn Hlk Hm Hr Haddr Hsl HQ. unfold ide_intr, ide_lock.
  wp_step. wp_step. eapply wp_intro; [by apply spinlock_acquire_run|]. wp_step. wp_step.
  st_simp. bool_false.
  wp_step. apply wp_bfield; [klia|]. wp_step. wp_step. wp_step. apply wp_bfield; [klia|].
  st_simp. fold x. rewrite Hqn. wp_step. unfold flag in *.
  destruct (Z.land (flags x) B_DIRTY =? 0); cbn [negb] in *.
  - wp_step. eapply wp_intro; [by apply ide_wait_ready|]. apply wp_when; [intros _|done].
    wp_step. wp_step. apply wp_bupd; [klia|]. st_simp. fold x.
    apply intr_finish; [done | done | done |]. intros t' Ht'.
    st_simp. rewrite insert_insert_eq, lookup_total_insert_eq. unfold drive_insl. rewrite Haddr by done.
    unfold w_flags, w_data; cbn. rewrite Hqn. by apply HQ.
  - wp_step. apply intr_finish; [done | done | done |]. intros t' Ht'.
    st_simp. fold x. unfold w_flags; cbn. rewrite Hqn. by apply HQ.
Qed.

(** ide_rw, with the queue empty, performs the whole request before it
    returns: a dirty buffer is written to its sector and becomes clean; a
    buffer that is not valid is filled from its sector.  Either way it is then
    valid, no other buffer is touched, and the drive has seen exactly that one
    write, or none. *)
Lemma ide_rw_wp `{!SchedOk T} b s (Q : unit -> st -> Prop) :
  let x := getb s b in
  0 <= b < NBUF -> idequeue s = NULL -> lock (ide_lk s) = 0 ->
  magic ks = KSTACK_MAGIC -> ready (hw s) -> key_ok (bkey x) ->
  flag (flags x) B_BUSY = true ->
  flag (flags x) B_VALID = false \/ flag (flags x) B_DIRTY = true ->
  dev x = 0 \/ havedisk1 s <> 0 -> sched_ok (sch s) ->
  0 <= flags x < 8 ->
  (forall t d', sched_ok t ->
     drive_after (flag (flags x) B_DIRTY) (bkey x) (data x) (hw s) d' ->
     Q tt (State (bcache_lk s)
       (<[b := Buf (Z.land (Z.lor (flags x) B_VALID) (Z.lnot B_DIRTY)) (dev x) (sector x) (prev x)
            (next x) NULL (if flag (flags x) B_DIRTY then data x
                           else sector_of (image (hw s)) (bkey x))]> (bufs s))
       unlocked_lk NULL (havedisk1 s) d' (irqc s) t)) ->
  wp (ide_rw ks b) Q s.
Proof.
  destruct s as [blk bf ilk q h1 d ic t]. st_simp. set (x := bf !!! b).
  intros Hb -> Hlk Hm Hr Hk Hbusy Hwork Hdisk Hok Hfl HQ. unfold ide_rw.
  do 2 (wp_step; apply wp_bfield; [klia|]). wp_step. wp_step. st_simp. fold x.
  unfold flag in *. replace (Z.land (flags x) B_BUSY =? 0) with false
    by (destruct (Z.land (flags x) B_BUSY =? 0); done).
  replace (Z.land (flags x) (Z.lor B_VALID B_DIRTY) =? B_VALID) with false.
  2: { clear -Hwork Hfl. destruct (flags_cases _ Hfl) as [E|[E|[E|[E|[E|[E|[E|E]]]]]]];
       rewrite E in *; cbn in *; destruct Hwork; done. }
  replace (negb (dev x =? 0) && (h1 =? 0)) with false.
  2: { symmetry. apply andb_false_iff. rewrite negb_false_iff, Z.eqb_eq, Z.eqb_neq. done. }
  unfold ide_lock at 1. wp_step. wp_step. eapply wp_intro; [by apply spinlock_acquire_run|].
  wp_step. apply wp_bupd; [klia|]. st_simp. fold x.
  wp_step. unfold queue_append. wp_step. wp_step. st_simp. rewrite Z.eqb_refl.
  wp_step. wp_step. wp_step. st_simp. wp_step. apply wp_when; [intros _ | by rewrite Z.eqb_refl].
  apply ide_start_wp; st_simp; rewrite ?lookup_total_insert_eq; try done.
  cbn [w_qnext flags data bkey dev sector]. intros d' Hd' Hkey.
  wp_step. change (Z.to_nat NBUF + 2)%nat with (S (S 10)). apply wp_loop_S.
  wp_step. apply wp_bfield; [klia|]. st_simp. rewrite lookup_total_insert_eq. cbn [flags w_qnext].
  replace (Z.land (flags x) (Z.lor B_VALID B_DIRTY) =? B_VALID) with false.
  2: { clear -Hwork Hfl. destruct (flags_cases _ Hfl) as [E|[E|[E|[E|[E|[E|[E|E]]]]]]];
       rewrite E in *; cbn in *; destruct Hwork; done. }
  wp_step. unfold ide_sleep, ide_unlock. wp_step. wp_step. eapply wp_intro; [reflexivity|].
  wp_step. wp_step. st_simp. wp_call sleep_ok; [done|]. intros [] t1 Ht1. st_simp.
  wp_step. apply ide_intr_wp with (b := b); st_simp; rewrite ?lookup_total_insert_eq; try done.
  { unfold ready in *. destruct Hd' as (_ & _ & Hst). by rewrite Hst. }
  intros t2 Ht2. cbn [w_qnext flags dev sector prev next data]. rewrite insert_insert_eq.
  wp_step. wp_step. st_simp. wp_call resume_ok; [done|]. intros [] t3 Ht3. unfold ide_lock.
  wp_step. eapply wp_intro; [by apply spinlock_acquire_run|]. wp_step. st_simp.
  apply wp_loop_S. wp_step. apply wp_bfield; [klia|]. st_simp. rewrite lookup_total_insert_eq.
  cbn [flags].
  replace (Z.land (Z.land (Z.lor (flags x) B_VALID) (Z.lnot B_DIRTY)) (Z.lor B_VALID B_DIRTY)
    =? B_VALID) with true.
  2: { clear -Hfl. by destruct (flags_cases _ Hfl) as [E|[E|[E|[E|[E|[E|[E|E]]]]]]]; rewrite E. }
  wp_step. wp_step. eapply wp_intro; [reflexivity|]. st_simp.
  assert (Himg : (if flag (flags x) B_DIRTY then data x else sector_of (image d') (bkey x)) =
    (if flag (flags x) B_DIRTY then data x else sector_of (image d) (bkey x))).
  { destruct Hd' as (Hi & _). rewrite Hi. by destruct (flag _ _). }
  change (bkey (w_qnext NULL x)) with (bkey x). rewrite Himg. by apply HQ.
Qed.

End specs.
End Disk.
