(* ===== verification/ThreadSched.v ===== *)
(** * The scheduler under the file system

    The file system is verified against the interface [Sched] of the disk
    driver.  Here the threads of kern/thread implement it: a waiting thread is
    put to sleep by thread_sleep, the interrupt handler wakes it by
    thread_wakeup, and it returns from thread_sleep when the round robin of
    thread_yield has come to it. *)

From S2P Require Import Prelude Spinlock Thread Disk.

Module ThreadSched.
Import Thread.

Section inst.
Context {V : Type}.
Context (ks : kstack).
Abbreviation st := (Thread.state V).

(** The lock the caller of thread_sleep holds belongs to the file system, which
    releases it and takes it again around the calls of the interface. *)
Definition outer_lock : lens st spinlock_t := Lens (fun _ => Spinlock 0 0) (fun _ s => s).

(** The processor is given from thread to thread until one runs that was asleep
    on [chan]: a thread keeps its channel until it is back in thread_sleep. *)
Definition resume_on (chan : Z) : K st unit :=
  pid ← loop (Z.to_nat NUM_IDS + 1) (fun _ : unit =>
    pid ← get_curid ks;
    c ← tcb_get_chan pid;
    if c =? chan then mret (inr pid)
    else thread_yield ks ;; mret (inl tt)) tt;
  thread_sleep_resume ks pid outer_lock.

#[export] Instance thread_sched : Sched st := {
  sched_sleep chan := thread_sleep ks chan (Some outer_lock) ;; mret tt;
  sched_wakeup chan := thread_wakeup ks chan;
  sched_resume chan := resume_on chan
}.

Lemma outer_foreign : foreign_lock outer_lock.
Proof. by split. Qed.

Context (Hks : kstack_ok ks).
Abbreviation cpu := (cpu_idx ks).

(** A thread runs and another one is ready to take over when it sleeps. *)
Definition can_sleep (s : st) : Prop :=
  exists Q, sched_inv ks s Q /\ Q cpu NUM_IDS <> [].
Definition asleep (chan : Z) (s : st) : Prop :=
  exists Q pid, sched_inv ks s Q /\ 0 <= pid < NUM_IDS /\ sleeps_on s chan pid = true.
Definition back_soon (chan : Z) (s : st) : Prop :=
  exists Q pid, sched_inv ks s Q /\ pid ∈ Q cpu NUM_IDS /\ channel (TCBPool s !!! pid) = chan.

Lemma queue_short (s : st) Q : sched_inv ks s Q -> (length (Q cpu NUM_IDS) < Z.to_nat NUM_IDS)%nat.
Proof.
  intros Hinv. destruct (qs_rep _ _ (si_queues _ _ _ Hinv) cpu NUM_IDS) as (_ & Hl & Hn);
    [apply Hks | klia |].
  assert (Hsub : cur ks s :: Q cpu NUM_IDS ⊆+ seqZ 0 NUM_IDS).
  { apply NoDup_submseteq; [apply NoDup_cons; split; [apply (si_out _ _ _ Hinv) | done]|].
    intros x. rewrite elem_of_cons, elem_of_seqZ. intros [->|Hx].
    - pose proof (si_cur _ _ _ Hinv). lia.
    - pose proof (links_range _ _ _ Hl Hx). lia. }
  apply submseteq_length in Hsub. rewrite length_seqZ in Hsub. cbn in Hsub. lia.
Qed.

Definition resume_body (chan : Z) (_ : unit) : K st (unit + Z) :=
  pid ← get_curid ks;
  c ← tcb_get_chan pid;
  if c =? chan then mret (inr pid) else thread_yield ks ;; mret (inl tt).

Lemma resume_body_wp chan (s : st) Q h l :
  sched_inv ks s Q -> Q cpu NUM_IDS = h :: l ->
  wp (resume_body chan tt) (fun r s' =>
    match r with
    | inr p => p = cur ks s /\ s' = s /\ channel (TCBPool s !!! p) = chan
    | inl _ => sched_inv ks s' (qupd Q cpu NUM_IDS (l ++ [cur ks s])) /\ cur ks s' = h /\
        (forall x, channel (TCBPool s' !!! x) = channel (TCBPool s !!! x)) /\
        (forall x, x <> cur ks s -> kctx_pool s' !!! x = kctx_pool s !!! x) /\
        (h <> cur ks s -> regs s' !!! cpu = kctx_pool s !!! h) /\
        channel (TCBPool s !!! cur ks s) <> chan
    end) s.
Proof.
  intros Hinv EQ. unfold resume_body. apply wp_bind.
  eapply wp_intro; [apply get_curid_run; [done | apply (si_cpu _ _ _ Hinv)]|].
  apply wp_bind. eapply wp_intro; [apply tcb_read_run, (si_cur _ _ _ Hinv)|].
  destruct (Z.eqb_spec (channel (TCBPool s !!! cur ks s)) chan) as [E|E]; [done|].
  destruct (thread_yield_spec ks Hks s Q h (l ++ [cur ks s])) as (s' & Hr & ? & ? & _ & ? & ? & Hsw);
    [done | unfold rotated; by rewrite EQ |].
  apply wp_bind. eapply wp_intro; [exact Hr|]. split_and!; try done. intros Hne. by apply Hsw.
Qed.

(** One turn of the round robin per thread in front of [pid]; a thread that
    stops it was asleep on [chan], and [pid] has its registers back. *)
Lemma resume_loop chan pid i : forall fuel (s : st) Q,
  sched_inv ks s Q -> Q cpu NUM_IDS !! i = Some pid ->
  channel (TCBPool s !!! pid) = chan -> (i + 2 <= fuel)%nat ->
  wp (loop fuel (resume_body chan) tt) (fun p s' =>
    p = cur ks s' /\ can_sleep s' /\ channel (TCBPool s !!! p) = chan /\
    (p = pid -> regs s' !!! cpu = kctx_pool s !!! pid)) s.
Proof.
  induction i as [|i IH]; intros [|[|fuel]] s Q Hinv Hi Hch Hf; try lia;
    destruct (Q cpu NUM_IDS) as [|h l] eqn:EQ; try done;
    (assert (Hout : pid <> cur ks s)
       by (intros ->; apply (si_out _ _ _ Hinv cpu NUM_IDS); rewrite EQ; by eapply list_elem_of_lookup_2));
    apply wp_loop_S; (eapply wp_mono; [by eapply resume_body_wp|]);
    intros [[]|p] s' H; cbn beta iota in H.
  - destruct H as (Hinv' & Ec & Hch' & _ & Hsw & _). injection Hi as ->.
    set (q := l ++ [cur ks s]) in *. destruct q as [|h' l'] eqn:Eq; [by destruct l|].
    apply wp_loop_S. eapply wp_mono; [eapply resume_body_wp; [done | apply qupd_eq]|].
    intros [[]|p] s2; cbn beta iota.
    + intros (_ & _ & _ & _ & _ & []). by rewrite Ec, Hch'.
    + intros (-> & -> & E). split_and!; [done | | by rewrite Ec | by intros _; apply Hsw].
      exists (qupd Q cpu NUM_IDS (h' :: l')). by rewrite qupd_eq.
  - destruct H as (-> & -> & E). split_and!; [done | exists Q; by rewrite EQ | done | by intros <-].
  - destruct H as (Hinv' & Ec & Hch' & Hk & _). cbn in Hi.
    eapply wp_mono; [apply (IH _ _ _ Hinv'); [|by rewrite Hch' | lia]|].
    + rewrite qupd_eq. by apply lookup_app_l_Some.
    + intros p s2 (-> & Hs2 & E & Hr). rewrite Hch' in E. split_and!; [done..|].
      intros ->%Hr. by apply Hk.
  - destruct H as (-> & -> & E). split_and!; [done | exists Q; by rewrite EQ | done | by intros <-].
Qed.

(** Clearing its channel is the last thing a woken thread does under the
    scheduler's lock. *)
Lemma clear_chan_inv (s : st) Q pid : sched_inv ks s Q ->
  sched_inv ks (set_TCBPool (<[pid := w_chan 0 (TCBPool s !!! pid)]> (TCBPool s)) s) Q.
Proof.
  intros [HQ Hp Hlk Hcur Hrun Hout Hready Hsl].
  assert (E : forall x, tstate ((<[pid := w_chan 0 (TCBPool s !!! pid)]> (TCBPool s)) !!! x) =
    tstate (TCBPool s !!! x)) by (intros x; rewrite insert_TCB; by destruct (decide _) as [->|]).
  split; try done.
  - apply (queues_ext s); [done | | done]. intros x. cbn. rewrite insert_TCB.
    by destruct (decide _) as [->|].
  - cbn. by rewrite E.
  - intros x Hx. cbn. rewrite E. by apply Hready.
Qed.

Lemma unlock_inv (s : st) Q lk : lock lk = 0 -> sched_inv ks s Q -> sched_inv ks (set_sched_lk lk s) Q.
Proof. intros Hl [HQ Hp Hlk Hcur Hrun Hout Hready Hsl]. split; try done. by apply (queues_ext s). Qed.

Lemma resume_on_spec chan pid (s : st) Q :
  sched_inv ks s Q -> pid ∈ Q cpu NUM_IDS -> channel (TCBPool s !!! pid) = chan ->
  wp (resume_on chan) (fun _ s' => can_sleep s' /\ channel (TCBPool s !!! cur ks s') = chan /\
    (cur ks s' = pid -> regs s' !!! cpu = kctx_pool s !!! pid)) s.
Proof.
  intros Hinv Hin Hch. apply list_elem_of_lookup in Hin as (i & Hi).
  pose proof (queue_short s Q Hinv) as Hlen. pose proof (lookup_lt_Some _ _ _ Hi).
  unfold resume_on. apply wp_bind.
  eapply wp_mono; [apply (resume_loop chan pid i _ s Q); [done | done | done | lia]|].
  intros p s1 (-> & (Q1 & Hinv1 & Hne) & E & Hr). unfold thread_sleep_resume.
  apply wp_bind. eapply wp_intro; [apply sched_acquire_run; [done | apply (si_unlocked _ _ _ Hinv1)]|].
  apply wp_bind. eapply wp_intro; [apply tcb_upd_run, (si_cur _ _ _ Hinv1)|].
  apply wp_bind, (wp_intro _ _ _ _ _ eq_refl).
  eapply wp_intro; [apply zoom_Ok, spinlock_acquire_run; [apply Hks | done]|].
  split_and!; [|done|done]. exists Q1. split; [|done].
  exact (unlock_inv _ Q1 (Spinlock (NUM_CPUS + 1) 0) eq_refl (clear_chan_inv s1 Q1 (cur ks s1) Hinv1)).
Qed.

Lemma resume_on_wp chan s : back_soon chan s -> wp (resume_on chan) (fun _ s' => can_sleep s') s.
Proof.
  intros (Q & pid & Hinv & Hin & Hch).
  eapply wp_mono; [by apply (resume_on_spec chan pid s Q)|]. by intros ? ? [? _].
Qed.

Lemma sleep_on_wp chan s : can_sleep s -> wp (sched_sleep chan) (fun _ s' => asleep chan s') s.
Proof.
  intros (Q & Hinv & Hne). destruct (Q cpu NUM_IDS) as [|h l] eqn:EQ; [done|].
  destruct (thread_sleep_spec ks Hks chan outer_lock s Q h l Hinv outer_foreign EQ)
    as (s' & Hr & Hinv' & _ & Hst & Hch & _ & _ & _).
  apply wp_bind. eapply wp_intro; [exact Hr|]. eexists _, (cur ks s). split; [exact Hinv'|].
  split; [apply (si_cur _ _ _ Hinv)|]. unfold sleeps_on. rewrite Hst, Hch.
  by rewrite bool_decide_eq_true_2, Z.eqb_refl.
Qed.

Lemma wakeup_wp chan s : can_sleep s -> wp (sched_wakeup chan) (fun _ s' => can_sleep s') s.
Proof.
  intros (Q & Hinv & Hne). destruct (thread_wakeup_spec ks Hks chan s Q Hinv) as (s' & Hr & _ & Hinv' & _).
  eapply wp_intro; [exact Hr|]. eexists. split; [exact Hinv'|]. rewrite qupd_eq. by destruct (Q cpu NUM_IDS).
Qed.

Lemma wakeup_asleep_wp chan s : asleep chan s -> wp (sched_wakeup chan) (fun _ s' => back_soon chan s') s.
Proof.
  intros (Q & pid & Hinv & Hpid & Hs).
  destruct (thread_wakeup_spec ks Hks chan s Q Hinv) as (s' & Hr & _ & Hinv' & _ & Hch & _).
  eapply wp_intro; [exact Hr|]. eexists _, pid. split; [exact Hinv'|].
  rewrite qupd_eq, Hch, elem_of_app, elem_of_sleepers. split; [auto|].
  by apply andb_true_iff in Hs as [_ ?%Z.eqb_eq].
Qed.

#[export] Instance thread_sched_ok : SchedOk st := {|
  sched_ok := can_sleep; sched_asleep := asleep; sched_woken := back_soon;
  sleep_ok := sleep_on_wp; wakeup_ok := wakeup_wp;
  wakeup_asleep := wakeup_asleep_wp; resume_ok := resume_on_wp
|}.

End inst.

End ThreadSched.
