(* ===== verification/Bufcache.v ===== *)
(** * The buffer cache (kern/fs/bufcache.c)

    Ten buffers on a doubly linked ring through the list head, most recently
    released first.  [bc_inv s l] says that the ring visits the buffers in the
    order [l] and that every clean idle buffer agrees with the disk; [view] is
    the contents of a sector as the file system sees it. *)

From S2P Require Import Prelude Spinlock Bytes Disk.

Module Bufcache.
Import Disk.

Section ops.
Context {T : Type} `{!Sched T}.
Context (ks : kstack).
Abbreviation st := (state T).

Definition bc_lock : K st unit := zoom bclk_lens (spinlock_acquire ks).
Definition bc_unlock : K st unit := zoom bclk_lens spinlock_release.

Definition bufcache_init : K st unit :=
  zoom bclk_lens spinlock_init ;;
  bupd HEAD (w_prev HEAD) ;;
  bupd HEAD (w_next HEAD) ;;
  for_ 0 NBUF (fun b =>
    n ← bfield HEAD next;
    bupd b (w_next n) ;;
    bupd b (w_prev HEAD) ;;
    bupd b (fun x => w_key (u32 (-1)) (sector x) x) ;;
    n ← bfield HEAD next;
    bupd n (w_prev b) ;;
    bupd HEAD (w_next b)).

(** The first loop of bufcache_get: is the sector cached?  A busy buffer is
    waited for: thread_sleep. *)
Definition get_cached (d sec : Z) (b : Z) : K st (Z + option Z) :=
  if b =? HEAD then mret (inr None)
  else
    bd ← bfield b dev;
    bs ← bfield b sector;
    if (bd =? d) && (bs =? sec) then
      fl ← bfield b flags;
      if Z.land fl B_BUSY =? 0 then
        bupd b (fun x => w_flags (Z.lor (flags x) B_BUSY) x) ;;
        bc_unlock ;;
        mret (inr (Some b))
      else fail Block
    else
      n ← bfield b next; mret (inl n).

(** The second loop: recycle a clean idle buffer, least recently used first. *)
Definition get_fresh (d sec : Z) (b : Z) : K st (Z + option Z) :=
  if b =? HEAD then mret (inr None)
  else
    fl ← bfield b flags;
    if (Z.land fl B_BUSY =? 0) && (Z.land fl B_DIRTY =? 0) then
      bupd b (fun x => w_key d (sector x) x) ;;
      bupd b (fun x => w_key (dev x) sec x) ;;
      bupd b (w_flags B_BUSY) ;;
      bc_unlock ;;
      mret (inr (Some b))
    else
      p ← bfield b prev; mret (inl p).

Definition RING : nat := Z.to_nat NBUF + 1.

Definition bufcache_get (d sec : Z) : K st Z :=
  bc_lock ;;
  b ← bfield HEAD next;
  r ← loop RING (get_cached d sec) b;
  match r with
  | Some b => mret b
  | None =>
      b ← bfield HEAD prev;
      r ← loop RING (get_fresh d sec) b;
      match r with
      | Some b => mret b
      | None => panic "bufcache_get: no buffers"
      end
  end.

Definition bufcache_read (d sec : Z) : K st Z :=
  b ← bufcache_get d sec;
  fl ← bfield b flags;
  when (Z.land fl B_VALID =? 0) (ide_rw ks b) ;;
  mret b.

Definition bufcache_write (b : Z) : K st unit :=
  fl ← bfield b flags;
  if Z.land fl B_BUSY =? 0 then panic "bwrite"
  else
    bupd b (fun x => w_flags (Z.lor (flags x) B_DIRTY) x) ;;
    ide_rw ks b.

(** Unlink [b] and put it back after the head. *)
Definition move_front (b : Z) : K st unit :=
  n ← bfield b next;
  p ← bfield b prev;
  bupd n (w_prev p) ;;
  p ← bfield b prev;
  n ← bfield b next;
  bupd p (w_next n) ;;
  hn ← bfield HEAD next;
  bupd b (w_next hn) ;;
  bupd b (w_prev HEAD) ;;
  hn ← bfield HEAD next;
  bupd hn (w_prev b) ;;
  bupd HEAD (w_next b).

Definition bufcache_release (b : Z) : K st unit :=
  fl ← bfield b flags;
  if Z.land fl B_BUSY =? 0 then panic "brelse"
  else
    bc_lock ;;
    move_front b ;;
    bupd b (fun x => w_flags (Z.land (flags x) (Z.lnot B_BUSY)) x) ;;
    thread_wakeup b ;;
    bc_unlock.
End ops.

(** ** Rings: chains of two link functions *)

(** From [x] through [l] to [y], linked forwards by [nx], backwards by [pv]. *)
Fixpoint lseg (nx pv : Z -> Z) (x : Z) (l : list Z) (y : Z) : Prop :=
  match l with
  | [] => nx x = y /\ pv y = x
  | z :: l' => (nx x = z /\ pv z = x) /\ lseg nx pv z l' y
  end.

Fixpoint chain (g : Z -> Z) (x : Z) (l : list Z) (y : Z) : Prop :=
  match l with
  | [] => g x = y
  | z :: l' => g x = z /\ chain g z l' y
  end.

Lemma lseg_app nx pv x l1 z l2 y :
  lseg nx pv x (l1 ++ z :: l2) y <-> lseg nx pv x l1 z /\ lseg nx pv z l2 y.
Proof. revert x. induction l1 as [|w l1 IH]; intros x; cbn; [done|]. rewrite IH. tauto. Qed.

Lemma lseg_rev nx pv x l y : lseg nx pv x l y -> lseg pv nx y (rev l) x.
Proof.
  revert x. induction l as [|z l IH]; intros x; cbn; [tauto|].
  intros [[H1 H2] H]. apply lseg_app. split; [by apply IH | done].
Qed.

Lemma lseg_chain nx pv x l y : lseg nx pv x l y -> chain nx x l y.
Proof. revert x. induction l as [|z l IH]; intros x; cbn; [tauto|]. intros [[??]?]. auto. Qed.

(** Only the forward links of [x :: l] and the backward links of [l ++ [y]]
    matter. *)
Lemma lseg_frame nx pv nx' pv' x l y :
  (forall n, n = x \/ n ∈ l -> nx' n = nx n) -> (forall n, n = y \/ n ∈ l -> pv' n = pv n) ->
  lseg nx pv x l y -> lseg nx' pv' x l y.
Proof.
  revert x. induction l as [|z l IH]; intros x Hn Hp; cbn.
  - rewrite Hn, Hp by auto. done.
  - intros [[??]?]. rewrite Hn, Hp by set_solver. split; [done|].
    apply IH; [intros n ?; apply Hn; set_solver | intros n ?; apply Hp; set_solver | done].
Qed.

Lemma lseg_last nx pv x l y : lseg nx pv x l y -> pv y = x \/ pv y ∈ l.
Proof.
  revert x. induction l as [|z l IH]; intros x; cbn; [tauto|].
  intros [_ H]. right. destruct (IH _ H) as [->|]; set_solver.
Qed.

Lemma lseg_first nx pv x l y : lseg nx pv x l y -> nx x = y \/ nx x ∈ l.
Proof. destruct l; cbn; [tauto|]. intros [[-> _] _]. set_solver. Qed.

Definition fupd (f : Z -> Z) (a v : Z) : Z -> Z := fun n => if n =? a then v else f n.

Lemma fupd_eq f a v : fupd f a v a = v.
Proof. unfold fupd. by rewrite Z.eqb_refl. Qed.
Lemma fupd_ne f a v n : n <> a -> fupd f a v n = f n.
Proof. unfold fupd. by intros ->%Z.eqb_neq. Qed.

(** Taking [b] out. *)
Lemma lseg_unlink nx pv x l1 b l2 y :
  lseg nx pv x (l1 ++ b :: l2) y -> NoDup (x :: l1 ++ b :: l2) -> y ∉ l1 ++ b :: l2 ->
  lseg (fupd nx (pv b) (nx b)) (fupd pv (nx b) (pv b)) x (l1 ++ l2) y.
Proof.
  revert x. induction l1 as [|w l1 IH]; intros x; cbn.
  - intros [[Hx Hb] H2] Hnd Hy. rewrite Hb. destruct l2 as [|z l2]; cbn in *.
    + destruct H2 as [-> H2]. by rewrite !fupd_eq.
    + destruct H2 as [[Hz Hz'] H2]. rewrite Hz, !fupd_eq. split; [done|].
      eapply lseg_frame; [| |exact H2].
      * intros n Hn. apply fupd_ne. apply NoDup_cons in Hnd as [Hnd _]. set_solver.
      * intros n Hn. apply fupd_ne. apply NoDup_cons in Hnd as [_ Hnd].
        apply NoDup_cons in Hnd as [_ Hnd]. apply NoDup_cons in Hnd as [Hnd _]. set_solver.
  - intros [[Hx Hw] H] Hnd Hy. apply NoDup_cons in Hnd as [Hnx Hnd].
    pose proof H as [H1 H2]%lseg_app.
    assert (Hp : pv b = w \/ pv b ∈ l1) by by eapply lseg_last.
    assert (Hn : nx b = y \/ nx b ∈ l2) by by eapply lseg_first.
    split; [split|].
    + rewrite fupd_ne; [done|]. clear -Hp Hnx. set_solver.
    + rewrite fupd_ne; [done|]. apply NoDup_cons in Hnd as [Hnd _]. clear -Hn Hnd Hy. set_solver.
    + apply IH; [done | done | set_solver].
Qed.

(** Putting [b] in after the head. *)
Lemma lseg_push nx pv h l b :
  lseg nx pv h l h -> NoDup (h :: b :: l) ->
  lseg (fupd (fupd nx b (nx h)) h b) (fupd (fupd pv b h) (nx h) b) h (b :: l) h.
Proof.
  intros H Hnd. apply NoDup_cons in Hnd as [Hh Hnd]. apply NoDup_cons in Hnd as [Hb Hnd].
  assert (Hn : nx h = h \/ nx h ∈ l) by by eapply lseg_first.
  cbn. split; [split|].
  - by rewrite fupd_eq.
  - rewrite fupd_ne by set_solver. by rewrite fupd_eq.
  - destruct l as [|z l]; cbn in *.
    + destruct H as [-> Hp]. rewrite fupd_ne by set_solver. by rewrite !fupd_eq.
    + destruct H as [[Hz Hp] H]. rewrite Hz. apply NoDup_cons in Hnd as [Hz' Hnd].
      rewrite fupd_ne, !fupd_eq by set_solver. split; [done|].
      eapply lseg_frame; [| |exact H].
      * intros n Hn'. rewrite !fupd_ne; [done | set_solver | set_solver].
      * intros n Hn'. rewrite !fupd_ne; [done | set_solver | set_solver].
Qed.

(** A walk along a chain: [skip] holds of the elements passed over. *)
Lemma walk_wp {T R} (g : Z -> Z) (skip : Z -> bool) (body : Z -> K (state T) (Z + R))
    (Q : R -> state T -> Prop) y s fuel x l :
  chain g x l y -> (length l < fuel)%nat ->
  (forall b, b ∈ l -> skip b = true -> body b s = Ok (inl (g b)) s) ->
  (forall l1 b l2, l = l1 ++ b :: l2 -> Forall (fun z => skip z = true) l1 -> skip b = false ->
     wp (body b) (fun r s' => match r with inl _ => False | inr v => Q v s' end) s) ->
  (Forall (fun z => skip z = true) l ->
     wp (body y) (fun r s' => match r with inl _ => False | inr v => Q v s' end) s) ->
  wp (loop fuel body (g x)) Q s.
Proof.
  revert x fuel. induction l as [|z l IH]; intros x fuel Hc Hf Hskip Hhit Hend;
    (destruct fuel as [|fuel]; [cbn in Hf; lia|]); apply wp_loop_S; cbn in Hc.
  - rewrite Hc. eapply wp_mono; [by apply Hend|]. by intros [].
  - destruct Hc as [-> Hc]. destruct (skip z) eqn:E.
    + eapply wp_intro; [apply Hskip; [set_solver | done]|]. cbn.
      apply IH; [done | cbn in Hf; lia | | |].
      * intros b Hb. apply Hskip. set_solver.
      * intros l1 b l2 -> Hl1. apply (Hhit (z :: l1) b l2); [done | by constructor].
      * intros Hl. apply Hend. by constructor.
    + eapply wp_mono; [by apply (Hhit [] z l)|]. by intros [].
Qed.

(** ** The invariant *)

Definition busy (x : buf) : bool := flag (flags x) B_BUSY.
Definition valid (x : buf) : bool := flag (flags x) B_VALID.
Definition dirty (x : buf) : bool := flag (flags x) B_DIRTY.
Definition free (x : buf) : bool := negb (busy x) && negb (dirty x).

(** What of a buffer matters to the file system: not its links. *)
Definition slot (x : buf) : Z * key * block := (flags x, bkey x, data x).

Definition blk_ok (d : block) : Prop := zlen d = BSIZE /\ Forall is_byte d.

(** A buffer never used yet has device -1. *)
Record slot_ok (img : gmap key block) (x : buf) : Prop := {
  sl_flags : 0 <= flags x < 8;
  sl_data : blk_ok (data x);
  sl_key : key_ok (bkey x) \/ dev x = 2 ^ 32 - 1 /\ flags x = 0;
  sl_clean : valid x = true -> dirty x = false -> busy x = false ->
    data x = sector_of img (bkey x);
  sl_dirty : dirty x = true -> valid x = true
}.

Lemma slot_ok_ext img x x' : slot x = slot x' -> slot_ok img x -> slot_ok img x'.
Proof.
  destruct x, x'; unfold slot, bkey; cbn. intros [= -> -> -> ->] [? ? ? ? ?]. split; done.
Qed.

Lemma key_not_ok x : dev x = 2 ^ 32 - 1 -> ~ key_ok (bkey x).
Proof. unfold key_ok, bkey. cbn. lia. Qed.

Section specs.
Context {T : Type} `{!Sched T} `{!SchedOk T}.
Context (ks : kstack) (Hks : magic ks = KSTACK_MAGIC).
Abbreviation st := (state T).
Implicit Types s : st.

Definition nx s (i : Z) : Z := next (getb s i).
Definition pv s (i : Z) : Z := prev (getb s i).

(** The buffers are on the ring in the order [l]. *)
Record ring_ok s (l : list Z) : Prop := {
  i_ring : lseg (nx s) (pv s) HEAD l HEAD;
  i_nodup : NoDup l;
  i_mem : forall i, i ∈ l <-> 0 <= i < NBUF
}.

(** Nothing is in progress and the disk works. *)
Record quiet s : Prop := {
  i_lk : lock (bcache_lk s) = 0;
  i_idelk : lock (ide_lk s) = 0;
  i_queue : idequeue s = NULL;
  i_ready : ready (hw s);
  i_disk1 : havedisk1 s <> 0;
  i_sched : sched_ok (sch s)
}.

Record bc_inv s (l : list Z) : Prop := {
  i_links : ring_ok s l;
  i_quiet : quiet s;
  i_slots : forall i, 0 <= i < NBUF -> slot_ok (image (hw s)) (getb s i);
  i_uniq : forall i j, 0 <= i < NBUF -> 0 <= j < NBUF ->
    key_ok (bkey (getb s i)) -> bkey (getb s i) = bkey (getb s j) -> i = j;
  i_img : forall k, blk_ok (sector_of (image (hw s)) k)
}.

Lemma ring_length s l : ring_ok s l -> length l = 10%nat.
Proof.
  intros [_ Hnd Hm].
  assert (l ≡ₚ Z.of_nat <$> seq 0 10) as ->; [|done].
  apply NoDup_Permutation; [done | |].
  - apply (NoDup_fmap_2 _), NoDup_seq.
  - intros i. rewrite Hm, list_elem_of_fmap. split.
    + intros Hi. exists (Z.to_nat i). split; [lia|]. apply elem_of_seq. klia.
    + intros (n & -> & Hn%elem_of_seq). klia.
Qed.

Lemma ring_ok_ext s s' l :
  (forall i, next (getb s' i) = next (getb s i) /\ prev (getb s' i) = prev (getb s i)) ->
  ring_ok s l -> ring_ok s' l.
Proof.
  intros H [H1 H2 H3]. split; [|done | done].
  eapply lseg_frame; [| |exact H1]; intros n _; apply H.
Qed.

(** Changing one buffer [b], and at most its sector on disk. *)
Lemma bc_inv_upd s s' l b :
  bc_inv s l -> 0 <= b < NBUF -> quiet s' ->
  (forall i, i <> b -> getb s' i = getb s i) ->
  next (getb s' b) = next (getb s b) -> prev (getb s' b) = prev (getb s b) ->
  slot_ok (image (hw s')) (getb s' b) ->
  (forall i, 0 <= i < NBUF -> i <> b -> bkey (getb s i) <> bkey (getb s' b)) ->
  (forall k, k <> bkey (getb s' b) -> sector_of (image (hw s')) k = sector_of (image (hw s)) k) ->
  (forall k, blk_ok (sector_of (image (hw s')) k)) ->
  bc_inv s' l.
Proof.
  intros [Hl Hq Hs Hu Hi] Hb Hq' Ho Hn Hp Hok Hne Himg Hblk.
  split; [|done | | |done].
  - eapply ring_ok_ext; [|exact Hl]. intros i.
    destruct (decide (i = b)) as [->|]; [done|]. by rewrite Ho.
  - intros i Hir. destruct (decide (i = b)) as [->|Hib]; [done|]. rewrite Ho by done.
    destruct (Hs i Hir) as [? ? ? Hc ?]. split; try done.
    intros ???. rewrite Himg; [by apply Hc|]. by apply Hne.
  - intros i j Hir Hjr Hk. destruct (decide (i = b)) as [->|Hib], (decide (j = b)) as [->|Hjb].
    + done.
    + rewrite (Ho j) by done. intros E. by destruct (Hne j Hjr Hjb).
    + rewrite (Ho i) in * by done. intros E. by destruct (Hne i Hir Hib).
    + rewrite !Ho in * by done. by apply Hu.
Qed.

(** ** bufcache_get *)

Lemma bfield_Ok {A} b (f : buf -> A) s : 0 <= b < NBUF + 1 -> bfield b f s = Ok (f (getb s b)) s.
Proof. intros Hb. unfold bfield. by krun (by apply bounds_Ok). Qed.

Lemma walk_bounds s l b : ring_ok s l -> b ∈ l -> 0 <= b < NBUF.
Proof. intros [_ _ Hm]. apply Hm. Qed.

Lemma flag_set f m : Z.land f m =? 0 = negb (flag f m).
Proof. unfold flag. by rewrite negb_involutive. Qed.

(** The state with the cache lock taken by this processor. *)
Definition held s : st := s_bclk (Spinlock (cpu_idx ks) 1) s.

Lemma get_cached_wp s l k (Q : option Z -> st -> Prop) :
  ring_ok s l ->
  (forall i, 0 <= i < NBUF -> bkey (getb s i) = k -> busy (getb s i) = false) ->
  (forall b, 0 <= b < NBUF -> bkey (getb s b) = k ->
     Q (Some b) (s_bclk unlocked_lk (s_bufs
       (<[b := w_flags (Z.lor (flags (getb s b)) B_BUSY) (getb s b)]> (bufs s)) s))) ->
  ((forall i, 0 <= i < NBUF -> bkey (getb s i) <> k) -> Q None (held s)) ->
  wp (loop RING (get_cached k.1 k.2) (next (getb s HEAD))) Q (held s).
Proof.
  intros Hl Hnb Hhit Hmiss.
  apply (walk_wp (nx s) (fun b => negb (bool_decide (bkey (getb s b) = k))) _ _ HEAD _ _ HEAD l).
  - eapply lseg_chain, i_ring, Hl.
  - rewrite (ring_length _ _ Hl). unfold RING. klia.
  - intros b Hb Hskip. pose proof (walk_bounds _ _ _ Hl Hb) as Hbr.
    assert (Hne : (dev (getb s b) =? k.1) && (sector (getb s b) =? k.2) = false).
    { apply negb_true_iff, bool_decide_eq_false in Hskip. apply andb_false_iff.
      rewrite !Z.eqb_neq. destruct (decide (dev (getb s b) = k.1)); [|by left].
      right. intros ?. apply Hskip. destruct k; unfold bkey; cbn in *; congruence. }
    unfold get_cached. bool_false. krun (apply bfield_Ok; klia). krun (apply bfield_Ok; klia).
    change (getb (held s) b) with (getb s b). rewrite Hne. krun (apply bfield_Ok; klia). done.
  - intros l1 b l2 -> _ Hb. apply negb_false_iff, bool_decide_eq_true in Hb.
    assert (Hbr : 0 <= b < NBUF) by (eapply walk_bounds; [done | set_solver]).
    unfold get_cached. bool_false. do 2 (wp_step; apply wp_bfield; [klia|]).
    change (getb (held s) b) with (getb s b). rewrite <- Hb at 1 2. unfold bkey; cbn [fst snd].
    rewrite !Z.eqb_refl. cbn [andb]. wp_step. apply wp_bfield; [klia|].
    change (getb (held s) b) with (getb s b). rewrite flag_set. fold (busy (getb s b)).
    rewrite Hnb by done. cbn [negb]. wp_step. apply wp_bupd; [klia|]. wp_step.
    unfold bc_unlock. wp_step. eapply wp_intro; [reflexivity|]. wp_step. by apply Hhit.
  - intros Hall. unfold get_cached. rewrite Z.eqb_refl. wp_step. apply Hmiss.
    intros i Hi Hk. apply (i_mem _ _ Hl) in Hi. rewrite Forall_forall in Hall.
    specialize (Hall i Hi). apply negb_true_iff, bool_decide_eq_false in Hall. done.
Qed.

Lemma get_fresh_wp s l k (Q : option Z -> st -> Prop) :
  ring_ok s l -> Exists (fun i => free (getb s i) = true) l ->
  (forall l1 b l2, l = l1 ++ b :: l2 -> free (getb s b) = true ->
     Forall (fun i => free (getb s i) = false) l2 ->
     Q (Some b) (s_bclk unlocked_lk (s_bufs
       (<[b := w_flags B_BUSY (w_key k.1 k.2 (getb s b))]> (bufs s)) s))) ->
  wp (loop RING (get_fresh k.1 k.2) (prev (getb s HEAD))) Q (held s).
Proof.
  intros Hl Hex Hhit.
  apply (walk_wp (pv s) (fun b => negb (free (getb s b))) _ _ HEAD _ _ HEAD (rev l)).
  - eapply lseg_chain, lseg_rev, i_ring, Hl.
  - rewrite length_rev, (ring_length _ _ Hl). unfold RING. klia.
  - intros b Hb Hskip. rewrite list_elem_of_In, <- in_rev, <- list_elem_of_In in Hb.
    pose proof (walk_bounds _ _ _ Hl Hb) as Hbr.
    unfold get_fresh. bool_false. krun (apply bfield_Ok; klia).
    change (getb (held s) b) with (getb s b). rewrite !flag_set.
    change (_ && _) with (free (getb s b)). apply negb_true_iff in Hskip. rewrite Hskip.
    krun (apply bfield_Ok; klia). done.
  - intros l1 b l2 E Hl1 Hb. apply negb_false_iff in Hb.
    assert (El : l = rev l2 ++ b :: rev l1).
    { rewrite <- (rev_involutive l), E, rev_app_distr. cbn. by rewrite <- app_assoc. }
    assert (Hbr : 0 <= b < NBUF) by (eapply walk_bounds; [done | rewrite El; set_solver]).
    unfold get_fresh. bool_false. wp_step. apply wp_bfield; [klia|].
    change (getb (held s) b) with (getb s b). rewrite !flag_set.
    change (_ && _) with (free (getb s b)). rewrite Hb.
    do 3 (wp_step; apply wp_bupd; [klia|]; rewrite ?getb_upd). wp_step. unfold bc_unlock. wp_step.
    eapply wp_intro; [reflexivity|]. wp_step.
    cbn -[insert]. rewrite !insert_insert_eq. apply (Hhit (rev l2) b (rev l1)); [done | done |].
    apply Forall_rev. eapply Forall_impl; [exact Hl1|]. cbn. intros ? ?%negb_true_iff. done.
  - intros Hall. exfalso. apply Exists_exists in Hex as (i & Hi & Hf).
    rewrite Forall_forall in Hall. specialize (Hall i). rewrite Hf in Hall.
    rewrite list_elem_of_In, <- in_rev, <- list_elem_of_In in Hall. by specialize (Hall Hi).
Qed.

(** bufcache_get returns the buffer of the sector if there is one, and else
    recycles the least recently used clean idle buffer. *)
Lemma bufcache_get_wp s l k (Q : Z -> st -> Prop) :
  ring_ok s l -> lock (bcache_lk s) = 0 ->
  (forall i, 0 <= i < NBUF -> bkey (getb s i) = k -> busy (getb s i) = false) ->
  (exists i, 0 <= i < NBUF /\ (bkey (getb s i) = k \/ free (getb s i) = true)) ->
  (forall b, 0 <= b < NBUF -> bkey (getb s b) = k ->
     Q b (s_bclk unlocked_lk (s_bufs
       (<[b := w_flags (Z.lor (flags (getb s b)) B_BUSY) (getb s b)]> (bufs s)) s))) ->
  ((forall i, 0 <= i < NBUF -> bkey (getb s i) <> k) ->
   forall l1 b l2, l = l1 ++ b :: l2 -> free (getb s b) = true ->
     Forall (fun i => free (getb s i) = false) l2 ->
     Q b (s_bclk unlocked_lk (s_bufs
       (<[b := w_flags B_BUSY (w_key k.1 k.2 (getb s b))]> (bufs s)) s))) ->
  wp (bufcache_get ks k.1 k.2) Q s.
Proof.
  intros Hl Hlk Hnb (i & Hi & Hroom) Hhit Hmiss. unfold bufcache_get, bc_lock.
  wp_step. wp_step. eapply wp_intro; [by apply spinlock_acquire_run|].
  change (lput bclk_lens _ s) with (held s).
  wp_step. apply wp_bfield; [klia|]. wp_step.
  apply (get_cached_wp s l k); [done | done | |].
  - intros b Hb Hk. wp_step. by apply Hhit.
  - intros Hno. wp_step. apply wp_bfield; [klia|]. wp_step.
    apply (get_fresh_wp s l k); [done | |].
    + apply Exists_exists. exists i. split; [by apply (i_mem _ _ Hl)|].
      destruct Hroom as [Hk|]; [by destruct (Hno i Hi) | done].
    + intros l1 b l2 El Hf Hl2. wp_step. by eapply Hmiss.
Qed.

(** ** The contents of a sector *)

Definition owner s (k : key) : option Z :=
  snd <$> list_find (fun i => bkey (getb s i) = k /\ valid (getb s i) = true) (seqZ 0 NBUF).

(** What a reader of sector [k] gets: the cached copy, or the disk's. *)
Definition view s (k : key) : block :=
  match owner s k with
  | Some i => data (getb s i)
  | None => sector_of (image (hw s)) k
  end.

Lemma owner_Some s k i : owner s k = Some i ->
  0 <= i < NBUF /\ bkey (getb s i) = k /\ valid (getb s i) = true.
Proof.
  unfold owner. intros ([n j] & E & [= <-])%fmap_Some_1.
  apply list_find_Some in E as (Hn & Hj & _). split; [|done].
  apply lookup_seqZ in Hn. klia.
Qed.

Lemma owner_None s k i : owner s k = None -> 0 <= i < NBUF -> bkey (getb s i) = k ->
  valid (getb s i) = false.
Proof.
  unfold owner. intros E%fmap_None Hi Hk. apply list_find_None in E.
  rewrite Forall_forall in E. specialize (E i). rewrite elem_of_seqZ in E.
  destruct (valid (getb s i)); [|done]. exfalso. apply E; [klia | done].
Qed.

Lemma view_valid s l i : bc_inv s l -> 0 <= i < NBUF -> key_ok (bkey (getb s i)) ->
  valid (getb s i) = true -> view s (bkey (getb s i)) = data (getb s i).
Proof.
  intros HI Hi Hk Hv. unfold view. destruct (owner s _) as [j|] eqn:E.
  - apply owner_Some in E as (Hj & Hkj & _). f_equal. f_equal.
    eapply i_uniq; [done | done | done | by rewrite Hkj | done].
  - by rewrite (owner_None _ _ _ E Hi eq_refl) in Hv.
Qed.

Lemma view_disk s k :
  (forall i, 0 <= i < NBUF -> bkey (getb s i) = k -> valid (getb s i) = false) ->
  view s k = sector_of (image (hw s)) k.
Proof.
  intros H. unfold view. destruct (owner s k) as [i|] eqn:E; [|done].
  apply owner_Some in E as (Hi & Hk & Hv). by rewrite (H i Hi Hk) in Hv.
Qed.

Lemma view_clean s l k : bc_inv s l -> key_ok k ->
  (forall i, 0 <= i < NBUF -> bkey (getb s i) = k ->
     dirty (getb s i) = false /\ busy (getb s i) = false) ->
  view s k = sector_of (image (hw s)) k.
Proof.
  intros HI Hk H. unfold view. destruct (owner s k) as [i|] eqn:E; [|done].
  apply owner_Some in E as (Hi & Hki & Hv). destruct (H i Hi Hki) as [Hd Hb].
  rewrite (sl_clean _ _ (i_slots _ _ HI i Hi) Hv Hd Hb). by rewrite Hki.
Qed.

Lemma view_ok s l k : bc_inv s l -> blk_ok (view s k).
Proof.
  intros HI. unfold view. destruct (owner s k) as [i|] eqn:E; [|by eapply i_img].
  apply owner_Some in E as (Hi & _). by eapply sl_data, i_slots.
Qed.

(** A change of one buffer [b] leaves the other sectors as they were. *)
Lemma view_frame s s' l l' b k :
  bc_inv s l -> bc_inv s' l' -> key_ok k -> k <> bkey (getb s' b) ->
  (forall i, 0 <= i < NBUF -> i <> b -> slot (getb s' i) = slot (getb s i)) ->
  (bkey (getb s b) = k -> free (getb s b) = true) ->
  sector_of (image (hw s')) k = sector_of (image (hw s)) k ->
  view s' k = view s k.
Proof.
  intros HI HI' Hk Hne Ho Hb Himg. unfold view at 1. destruct (owner s' k) as [i|] eqn:E.
  - apply owner_Some in E as (Hi & Hki & Hv).
    assert (i <> b) as Hib by (intros ->; congruence).
    specialize (Ho i Hi Hib). injection Ho as Hf Hd Hs Hdat.
    assert (Hki' : bkey (getb s i) = k) by (rewrite <- Hki; unfold bkey; congruence).
    rewrite <- Hki', (view_valid s l i HI Hi); [done | by rewrite Hki' |].
    unfold valid in *. by rewrite <- Hf.
  - rewrite Himg. destruct (owner s k) as [j|] eqn:E2; [|unfold view; by rewrite E2].
    apply owner_Some in E2 as (Hj & Hkj & Hv). destruct (decide (j = b)) as [->|Hjb].
    + specialize (Hb Hkj). unfold free in Hb. apply andb_true_iff in Hb as [Hb Hd].
      apply negb_true_iff in Hb, Hd. rewrite <- Hkj, (view_valid s l b HI Hj) by (done || by rewrite Hkj).
      symmetry. by apply (sl_clean _ _ (i_slots _ _ HI b Hj)).
    + specialize (Ho j Hj Hjb). injection Ho as Hf Hd Hs Hdat.
      assert (Hkj' : bkey (getb s' j) = k) by (rewrite <- Hkj; unfold bkey; congruence).
      pose proof (owner_None _ _ _ E Hj Hkj') as Hv'. unfold valid in *. congruence.
Qed.

(** ** The operations on the contents *)

(** [b] is the buffer of sector [k], held by this thread with contents [d]. *)
Definition holds s (b : Z) (k : key) (d : block) : Prop :=
  0 <= b < NBUF /\ bkey (getb s b) = k /\ busy (getb s b) = true /\
  valid (getb s b) = true /\ data (getb s b) = d.

Definition others s s' (b : Z) : Prop :=
  forall i, 0 <= i < NBUF -> i <> b -> slot (getb s' i) = slot (getb s i).

Lemma view_ext s s' k :
  (forall i, bkey (getb s' i) = bkey (getb s i) /\ valid (getb s' i) = valid (getb s i) /\
     data (getb s' i) = data (getb s i)) ->
  image (hw s') = image (hw s) -> view s' k = view s k.
Proof.
  intros H Hi. unfold view, owner. rewrite Hi.
  rewrite (list_find_ext (fun i => bkey (getb s' i) = k /\ valid (getb s' i) = true)
    (fun i => bkey (getb s i) = k /\ valid (getb s i) = true)).
  - destruct (list_find _ _) as [[n i]|]; cbn; [apply H | done].
  - intros i. destruct (H i) as (-> & -> & _). done.
Qed.

(** A state that differs from [s] in the buffer [b] only (and in the locks). *)
Definition with_buf s (b : Z) (x : buf) : st := s_bclk unlocked_lk (s_bufs (<[b := x]> (bufs s)) s).

Lemma with_buf_eq s b x : getb (with_buf s b x) b = x.
Proof. apply lookup_total_insert_eq. Qed.
Lemma with_buf_ne s b x i : i <> b -> getb (with_buf s b x) i = getb s i.
Proof. intros H. by apply lookup_total_insert_ne. Qed.

Lemma flags_busy f : 0 <= f < 8 ->
  let f' := Z.lor f B_BUSY in
  0 <= f' < 8 /\ flag f' B_BUSY = true /\ flag f' B_VALID = flag f B_VALID /\
  flag f' B_DIRTY = flag f B_DIRTY.
Proof. by intros [->|[->|[->|[->|[->|[->|[->| ->]]]]]]]%flags_cases. Qed.

Lemma flags_rw f : 0 <= f < 8 ->
  let f' := Z.land (Z.lor f B_VALID) (Z.lnot B_DIRTY) in
  0 <= f' < 8 /\ flag f' B_BUSY = flag f B_BUSY /\ flag f' B_VALID = true /\
  flag f' B_DIRTY = false.
Proof. by intros [->|[->|[->|[->|[->|[->|[->| ->]]]]]]]%flags_cases. Qed.

Lemma flags_dirty f : 0 <= f < 8 ->
  let f' := Z.lor f B_DIRTY in
  0 <= f' < 8 /\ flag f' B_BUSY = flag f B_BUSY /\ flag f' B_VALID = flag f B_VALID /\
  flag f' B_DIRTY = true.
Proof. by intros [->|[->|[->|[->|[->|[->|[->| ->]]]]]]]%flags_cases. Qed.

Lemma flags_idle f : 0 <= f < 8 ->
  let f' := Z.land f (Z.lnot B_BUSY) in
  0 <= f' < 8 /\ flag f' B_BUSY = false /\ flag f' B_VALID = flag f B_VALID /\
  flag f' B_DIRTY = flag f B_DIRTY.
Proof. by intros [->|[->|[->|[->|[->|[->|[->| ->]]]]]]]%flags_cases. Qed.

(** The buffer bufcache_get hands out. *)
Record got s (l : list Z) (k : key) (b : Z) s' : Prop := {
  g_inv : bc_inv s' l;
  g_range : 0 <= b < NBUF;
  g_key : bkey (getb s' b) = k;
  g_busy : busy (getb s' b) = true;
  g_idle : busy (getb s b) = false;
  g_dirty : dirty (getb s' b) = dirty (getb s b);
  g_old : bkey (getb s b) = k \/ free (getb s b) = true;
  g_others : others s s' b;
  g_view : forall k', key_ok k' -> view s' k' = view s k';
  g_image : image (hw s') = image (hw s);
  g_writes : writes (hw s') = writes (hw s)
}.

Lemma got_hit s l k b : bc_inv s l -> key_ok k -> 0 <= b < NBUF -> bkey (getb s b) = k ->
  busy (getb s b) = false ->
  got s l k b (with_buf s b (w_flags (Z.lor (flags (getb s b)) B_BUSY) (getb s b))).
Proof.
  intros HI Hk Hb Hkb Hnb. pose proof (i_slots _ _ HI b Hb) as [Hf Hd Hkey Hc Hv].
  destruct (flags_busy _ Hf) as (Hf' & Hfb & Hfv & Hfd). destruct (i_quiet _ _ HI) as [].
  set (x := w_flags _ _).
  assert (Hx : bkey x = k /\ valid x = valid (getb s b) /\ data x = data (getb s b)) by done.
  assert (HI' : bc_inv (with_buf s b x) l).
  { apply (bc_inv_upd s _ l b); try done.
    - intros i Hi. by apply with_buf_ne.
    - by rewrite with_buf_eq.
    - by rewrite with_buf_eq.
    - rewrite with_buf_eq. split; [done | done | by left; rewrite (proj1 Hx) | |].
      + unfold busy, x. cbn. by rewrite Hfb.
      + unfold dirty, valid, x. cbn. by rewrite Hfd, Hfv.
    - intros i Hi Hib. rewrite with_buf_eq. intros E. apply Hib.
      eapply i_uniq; [exact HI | done | done | rewrite E; by rewrite (proj1 Hx) | by rewrite E, Hkb].
    - apply (i_img _ _ HI). }
  split; try done; rewrite ?with_buf_eq; try done.
  - by left.
  - intros i Hi Hib. by rewrite with_buf_ne.
  - intros k' Hk'. apply view_ext; [|done]. intros i. destruct (decide (i = b)) as [->|].
    + rewrite with_buf_eq. destruct Hx as (-> & -> & ->). by rewrite Hkb.
    + by rewrite with_buf_ne.
Qed.

Lemma got_miss s l k b : bc_inv s l -> key_ok k -> 0 <= b < NBUF -> free (getb s b) = true ->
  (forall i, 0 <= i < NBUF -> bkey (getb s i) <> k) ->
  got s l k b (with_buf s b (w_flags B_BUSY (w_key k.1 k.2 (getb s b)))).
Proof.
  intros HI Hk Hb Hfr Hno. pose proof (i_slots _ _ HI b Hb) as [Hf Hd Hkey Hc Hv].
  destruct (i_quiet _ _ HI) as [].
  set (x := w_flags _ _).
  assert (Hx : bkey x = k) by (by destruct k).
  assert (HI' : bc_inv (with_buf s b x) l).
  { apply (bc_inv_upd s _ l b); try done.
    - intros i Hi. by apply with_buf_ne.
    - by rewrite with_buf_eq.
    - by rewrite with_buf_eq.
    - rewrite with_buf_eq. split; try done. left. by rewrite Hx.
    - intros i Hi _. rewrite with_buf_eq, Hx. by apply Hno.
    - apply (i_img _ _ HI). }
  pose proof Hfr as Hfr'. unfold free in Hfr'. apply andb_true_iff in Hfr' as [Hnb Hnd].
  apply negb_true_iff in Hnb, Hnd.
  split; try done; rewrite ?with_buf_eq; try done.
  - by right.
  - intros i Hi Hib. by rewrite with_buf_ne.
  - intros k' Hk'. destruct (decide (k' = k)) as [->|Hne].
    + rewrite !view_disk; [done | |].
      * intros i Hi Hki. by destruct (Hno i Hi).
      * intros i Hi. destruct (decide (i = b)) as [->|Hib]; [by rewrite with_buf_eq|].
        rewrite with_buf_ne by done. intros Hki. by destruct (Hno i Hi).
    + eapply (view_frame s _ l l b); try done.
      * by rewrite with_buf_eq, Hx.
      * intros i Hi Hib. by rewrite with_buf_ne.
Qed.

(** bufcache_read returns the sector's current contents in a buffer that is
    the caller's until it releases it; nothing is written to disk and no
    other buffer changes. *)
Record read_post s (l : list Z) (k : key) (b : Z) s' : Prop := {
  rp_got : got s l k b s';
  rp_valid : valid (getb s' b) = true;
  rp_data : data (getb s' b) = view s k
}.

(** The state ide_rw leaves: [x] is the new buffer, [d] the drive. *)
Definition after_rw s (b : Z) (x : buf) (d : drive) (t : T) : st :=
  State (bcache_lk s) (<[b := x]> (bufs s)) unlocked_lk NULL (havedisk1 s) d (irqc s) t.

Lemma after_rw_eq s b x d t : getb (after_rw s b x d t) b = x.
Proof. apply lookup_total_insert_eq. Qed.
Lemma after_rw_ne s b x d t i : i <> b -> getb (after_rw s b x d t) i = getb s i.
Proof. intros H. by apply lookup_total_insert_ne. Qed.

(** After a transfer of [b] the buffer agrees with its sector. *)
Lemma after_rw_inv s l b x d t :
  bc_inv s l -> 0 <= b < NBUF -> key_ok (bkey (getb s b)) ->
  bkey x = bkey (getb s b) -> next x = next (getb s b) -> prev x = prev (getb s b) ->
  0 <= flags x < 8 -> blk_ok (data x) -> valid x = true -> dirty x = false ->
  sector_of (image d) (bkey x) = data x ->
  (forall k, k <> bkey x -> sector_of (image d) k = sector_of (image (hw s)) k) ->
  status d = status (hw s) -> sched_ok t ->
  bc_inv (after_rw s b x d t) l.
Proof.
  intros HI Hb Hk Hkx Hn Hp Hf Hd Hv Hnd Himg Himg' Hst Ht.
  destruct (i_quiet _ _ HI) as [? ? ? Hr ? ?].
  apply (bc_inv_upd s _ l b); try done.
  - split; try done. cbn. unfold ready in *. congruence.
  - intros i Hi. by apply after_rw_ne.
  - by rewrite after_rw_eq.
  - by rewrite after_rw_eq.
  - rewrite after_rw_eq. split; try done. left. by rewrite Hkx.
  - intros i Hi Hib. rewrite after_rw_eq, Hkx. intros E. apply Hib.
    eapply i_uniq; [exact HI | done | done | by rewrite E | done].
  - by rewrite after_rw_eq.
  - intros k. cbn. destruct (decide (k = bkey x)) as [->|]; [by rewrite Himg|].
    rewrite Himg' by done. apply (i_img _ _ HI).
Qed.

Lemma read_fill s l k b s1 (Q : Z -> st -> Prop) :
  got s l k b s1 -> key_ok k -> (forall s', read_post s l k b s' -> Q b s') ->
  wp (fl ← bfield b flags; when (Z.land fl B_VALID =? 0) (ide_rw ks b) ;; mret b) Q s1.
Proof.
  intros G Hk HQ. pose proof G as [HI Hb Hkb Hbusy Hidle Hd Hold Ho Hview Himg Hwr].
  pose proof (i_slots _ _ HI b Hb) as [Hf Hdat Hkey Hc Hdv].
  destruct (i_quiet _ _ HI) as [? ? ? ? ? ?].
  wp_step. apply wp_bfield; [klia|]. wp_step. rewrite flag_set.
  fold (valid (getb s1 b)). destruct (valid (getb s1 b)) eqn:Ev; cbn [negb].
  - apply wp_when; [done|]. intros _. wp_step. apply HQ. split; [done | done |].
    rewrite <- (Hview k Hk), <- Hkb. symmetry. eapply view_valid; [done | done | by rewrite Hkb | done].
  - apply wp_when; [|done]. intros _.
    assert (Hnd : dirty (getb s1 b) = false).
    { destruct (dirty (getb s1 b)) eqn:Ed; [|done]. specialize (Hdv eq_refl). congruence. }
    apply (ide_rw_wp ks b s1); try done; [by rewrite Hkb | by left | by right |].
    fold (dirty (getb s1 b)). rewrite Hnd. intros t d' Ht (Hi' & Hw' & Hs').
    wp_step. destruct (flags_rw _ Hf) as (Hf' & Hfb & Hfv & Hfd).
    set (x := Buf _ _ _ _ _ _ _). fold (after_rw s1 b x d' t).
    assert (Hkx : bkey x = k) by done.
    assert (HI' : bc_inv (after_rw s1 b x d' t) l).
    { apply after_rw_inv; try done; [by rewrite Hkb | apply (i_img _ _ HI) | |].
      - by rewrite Hi', Hkx, <- Hkb.
      - intros k' _. by rewrite Hi'. }
    assert (Hvk : view s1 k = data x).
    { rewrite view_disk; [cbn; by rewrite Hkb|]. intros i Hir Hki.
      assert (i = b) as ->; [|done].
      eapply i_uniq; [exact HI | done | done | by rewrite Hki | congruence]. }
    apply HQ. split; [split; try done | |]; rewrite ?after_rw_eq; try done.
    + unfold busy in *. cbn. by rewrite Hfb.
    + rewrite <- Hd, Hnd. done.
    + intros i Hir Hib. rewrite after_rw_ne by done. by apply Ho.
    + intros k' Hk'. rewrite <- Hview by done. destruct (decide (k' = k)) as [->|Hne].
      * pose proof (view_valid _ l b HI' Hb) as Hvv. rewrite after_rw_eq, Hkx in Hvv.
        by rewrite Hvv, Hvk.
      * eapply (view_frame s1 _ l l b); try done.
        -- by rewrite after_rw_eq, Hkx.
        -- intros i Hir Hib. by rewrite after_rw_ne.
        -- congruence.
        -- cbn. by rewrite Hi'.
    + cbn. by rewrite Hi'.
    + cbn. by rewrite Hw'.
    + rewrite <- Hvk. by apply Hview.
Qed.

(** The buffers that must be kept are those of the sectors [H] somebody holds
    and [D] with changes not on disk yet. *)
Record pinned s (H D : list key) : Prop := {
  p_busy : forall i, 0 <= i < NBUF -> busy (getb s i) = true -> bkey (getb s i) ∈ H;
  p_dirty : forall k, k ∈ D <->
    exists i, 0 <= i < NBUF /\ bkey (getb s i) = k /\ dirty (getb s i) = true
}.

Lemma room s l H D : bc_inv s l -> pinned s H D -> (length H + length D < 10)%nat ->
  exists i, 0 <= i < NBUF /\ free (getb s i) = true.
Proof.
  intros HI [Hh Hd] Hlen.
  destruct (decide (Exists (fun i => free (getb s i) = true) l)) as [He|He].
  - apply Exists_exists in He as (i & Hi & Hf). exists i. split; [|done].
    by apply (i_mem _ _ (i_links _ _ HI)).
  - exfalso. apply not_Exists_Forall in He; [|intros; apply _]. rewrite Forall_forall in He.
    assert (Hin : (fun i => bkey (getb s i)) <$> l ⊆ H ++ D).
    { intros k (i & -> & Hi)%list_elem_of_fmap. specialize (He i Hi).
      apply (i_mem _ _ (i_links _ _ HI)) in Hi. apply not_true_is_false in He.
      unfold free in He. apply andb_false_iff in He. rewrite !negb_false_iff in He.
      apply elem_of_app. destruct He; [left; by apply Hh | right; apply Hd; eauto]. }
    assert (Hnd : NoDup ((fun i => bkey (getb s i)) <$> l)).
    { apply NoDup_fmap_2_strong; [|apply (i_nodup _ _ (i_links _ _ HI))].
      intros i j Hi Hj E. specialize (He i Hi).
      apply (i_mem _ _ (i_links _ _ HI)) in Hi, Hj.
      eapply i_uniq; [exact HI | done | done | | done].
      destruct (sl_key _ _ (i_slots _ _ HI i Hi)) as [|[_ Hz]]; [done|].
      exfalso. apply He. unfold free, busy, dirty, flag. by rewrite Hz. }
    pose proof (submseteq_length _ _ (NoDup_submseteq _ _ Hnd Hin)) as Hle.
    rewrite length_fmap, (ring_length _ _ (i_links _ _ HI)), length_app in Hle. lia.
Qed.

Lemma slot_inv (x x' : buf) : slot x = slot x' ->
  bkey x = bkey x' /\ busy x = busy x' /\ valid x = valid x' /\ dirty x = dirty x' /\
  data x = data x'.
Proof.
  unfold slot, busy, valid, dirty. intros [= Hf Hd Hs Hdat]. unfold bkey.
  by rewrite Hf, Hd, Hs, Hdat.
Qed.

(** How one buffer's change moves the two sets. *)
Lemma pinned_upd s s' H D H' D' b :
  pinned s H D -> 0 <= b < NBUF -> others s s' b ->
  (forall i, 0 <= i < NBUF -> i <> b -> busy (getb s i) = true -> bkey (getb s i) ∈ H -> bkey (getb s i) ∈ H') ->
  (busy (getb s' b) = true -> bkey (getb s' b) ∈ H') ->
  (forall k, k ∈ D' <-> (k = bkey (getb s' b) /\ dirty (getb s' b) = true) \/
     exists i, 0 <= i < NBUF /\ i <> b /\ bkey (getb s i) = k /\ dirty (getb s i) = true) ->
  pinned s' H' D'.
Proof.
  intros [Hh Hd] Hb Ho HH Hbb HD. split.
  - intros i Hi Hbu. destruct (decide (i = b)) as [->|Hib]; [by apply Hbb|].
    destruct (slot_inv _ _ (Ho i Hi Hib)) as (Ek & Eb & _). rewrite Ek, Eb in *.
    apply HH; try done. by apply Hh.
  - intros k. rewrite HD. split.
    + intros [[-> Hdb]|(i & Hi & Hib & Hk & Hdi)]; [by exists b|].
      exists i. destruct (slot_inv _ _ (Ho i Hi Hib)) as (Ek & _ & _ & Ed & _). by rewrite Ek, Ed.
    + intros (i & Hi & Hk & Hdi). destruct (decide (i = b)) as [->|Hib]; [by left|]. right.
      exists i. destruct (slot_inv _ _ (Ho i Hi Hib)) as (Ek & _ & _ & Ed & _).
      by rewrite <- Ek, <- Ed.
Qed.

Lemma got_pinned s l k b s' H D : bc_inv s l -> got s l k b s' -> pinned s H D ->
  pinned s' (k :: H) D.
Proof.
  intros HI G HP. pose proof G as [HI' Hb Hkb Hbusy Hidle Hd Hold Ho _ _ _].
  eapply (pinned_upd s s' H D _ _ b); try done.
  - intros i _ _ _ ?. by apply elem_of_cons; right.
  - intros _. rewrite Hkb. by apply elem_of_cons; left.
  - intros k'. rewrite (p_dirty _ _ _ HP), Hkb, Hd. split.
    + intros (i & Hi & Hk & Hdi). destruct (decide (i = b)) as [->|Hib]; [left|right; by exists i].
      split; [|done]. destruct Hold as [|Hfr]; [congruence|]. unfold free in Hfr.
      rewrite Hdi, andb_false_r in Hfr. done.
    + intros [[-> Hdb]|(i & ? & ? & ?)]; [|by exists i]. exists b. split; [done|].
      destruct Hold as [|Hfr]; [done|]. unfold free in Hfr. by rewrite Hdb, andb_false_r in Hfr.
Qed.

(** Reading a sector nobody holds; the cache has room when the sectors that
    must be kept are fewer than its buffers. *)
Lemma bufcache_read_wp s l H D k (Q : Z -> st -> Prop) :
  bc_inv s l -> pinned s H D -> key_ok k -> k ∉ H ->
  (length H + length D < 10)%nat \/ k ∈ D ->
  (forall b s', read_post s l k b s' -> pinned s' (k :: H) D -> Q b s') ->
  wp (bufcache_read ks k.1 k.2) Q s.
Proof.
  intros HI HP Hk HkH Hroom HQ. unfold bufcache_read. wp_step.
  assert (Hnb : forall i, 0 <= i < NBUF -> bkey (getb s i) = k -> busy (getb s i) = false).
  { intros i Hi Hki. destruct (busy (getb s i)) eqn:E; [|done].
    apply (p_busy _ _ _ HP) in E; [|done]. by rewrite Hki in E. }
  assert (Hfill : forall b s', got s l k b s' ->
    wp (fl ← bfield b flags; when (Z.land fl B_VALID =? 0) (ide_rw ks b) ;; mret b) Q s').
  { intros b s' G. eapply read_fill; [exact G | done |]. intros s2 HR. apply HQ; [done|].
    eapply got_pinned; [exact HI | apply HR | done]. }
  apply (bufcache_get_wp s l k); [apply HI | apply (i_quiet _ _ HI) | done | | |].
  - destruct Hroom as [Hlen|HD].
    + destruct (room s l H D HI HP Hlen) as (i & Hi & Hf). exists i. by auto.
    + apply (p_dirty _ _ _ HP) in HD as (i & Hi & Hki & _). exists i. by auto.
  - intros b Hb Hkb. apply Hfill, got_hit; auto.
  - intros Hno l1 b l2 El Hf _. apply Hfill, got_miss; [done | done | | done | done].
    apply (i_mem _ _ (i_links _ _ HI)). rewrite El. set_solver.
Qed.

(** The sectors of [K] other than [k]. *)
Definition without (k : key) (K : list key) : list key := filter (fun k' => k' <> k) K.

Lemma elem_of_without k k' K : k' ∈ without k K <-> k' <> k /\ k' ∈ K.
Proof. unfold without. by rewrite list_elem_of_filter. Qed.

Lemma uniq_other s l b i : bc_inv s l -> 0 <= b < NBUF -> key_ok (bkey (getb s b)) ->
  0 <= i < NBUF -> i <> b -> bkey (getb s i) <> bkey (getb s b).
Proof. intros HI Hb Hk Hi Hne E. apply Hne. symmetry. by eapply i_uniq. Qed.

(** bufcache_write puts the buffer's contents on disk: one sector write. *)
Lemma bufcache_write_wp s l H D b k d (Q : unit -> st -> Prop) :
  bc_inv s l -> pinned s H D -> key_ok k -> holds s b k d ->
  (forall s', bc_inv s' l -> pinned s' H (without k D) -> holds s' b k d ->
     dirty (getb s' b) = false -> others s s' b ->
     image (hw s') = <[k := d]> (image (hw s)) ->
     writes (hw s') = writes (hw s) ++ [(k, d)] ->
     (forall k', key_ok k' -> view s' k' = view s k') -> Q tt s') ->
  wp (bufcache_write ks b) Q s.
Proof.
  intros HI HP Hk (Hb & Hkb & Hbusy & Hv & Hd) HQ.
  pose proof (i_slots _ _ HI b Hb) as [Hf Hdat Hkey Hc Hdv].
  destruct (i_quiet _ _ HI) as [? ? ? ? ? ?]. destruct (flags_dirty _ Hf) as (Hf1 & Hb1 & Hv1 & Hd1).
  unfold bufcache_write. wp_step. apply wp_bfield; [klia|]. rewrite flag_set.
  fold (busy (getb s b)). rewrite Hbusy. cbn [negb]. wp_step. apply wp_bupd; [klia|].
  unfold busy, valid in Hbusy, Hv.
  apply (ide_rw_wp ks b); rewrite ?getb_upd; cbn [w_flags flags]; try done;
    [by rewrite <- Hkb in Hk | by rewrite Hb1 | by right | by right |].
  rewrite Hd1. intros t d' Ht (Hi' & Hw' & Hs').
  destruct (flags_rw _ Hf1) as (Hf2 & Hb2 & Hv2 & Hd2).
  cbn [s_bufs bcache_lk bufs havedisk1 irqc hw w_flags dev sector prev next data] in *.
  rewrite insert_insert_eq. set (x := Buf _ _ _ _ _ _ _). fold (after_rw s b x d' t).
  assert (Hkx : bkey x = k) by done. change (bkey (w_flags _ _)) with (bkey (getb s b)) in *.
  rewrite Hkb, Hd in *.
  assert (HI' : bc_inv (after_rw s b x d' t) l).
  { apply after_rw_inv; try done; [by rewrite Hkb | | |].
    - cbn. by rewrite Hd.
    - rewrite Hi', Hkx. unfold sector_of. by rewrite lookup_insert_eq.
    - intros k' Hne. rewrite Hi'. unfold sector_of. by rewrite lookup_insert_ne by congruence. }
  assert (Ho : others s (after_rw s b x d' t) b).
  { intros i Hi Hib. by rewrite after_rw_ne. }
  assert (Hh : holds (after_rw s b x d' t) b k d).
  { unfold holds. rewrite after_rw_eq. repeat split; try done; try klia.
    unfold busy. cbn. by rewrite Hb2, Hb1. }
  apply HQ; try done.
  - eapply (pinned_upd s _ H D _ _ b); try done.
    + intros _. rewrite after_rw_eq, Hkx, <- Hkb. by apply (p_busy _ _ _ HP).
    + intros k'. rewrite elem_of_without, after_rw_eq, (p_dirty _ _ _ HP). split.
      * intros [Hne (i & Hi & Hki & Hdi)]. right. exists i. repeat split; try done; [klia | klia |].
        intros ->. congruence.
      * intros [[_ Hdx]|(i & Hi & Hib & Hki & Hdi)].
        { unfold dirty in Hdx. cbn in Hdx. congruence. }
        split; [|by exists i]. rewrite <- Hki, <- Hkb.
        eapply uniq_other; [exact HI | done | by rewrite Hkb | done | done].
  - by rewrite after_rw_eq.
  - intros k' Hk'. destruct (decide (k' = k)) as [->|Hne].
    + pose proof (view_valid _ l b HI' Hb) as Hvv. rewrite after_rw_eq, Hkx in Hvv.
      rewrite Hvv by done. rewrite <- Hkb.
      symmetry. eapply view_valid; [exact HI | done | by rewrite Hkb | done].
    + eapply (view_frame s _ l l b); try done.
      * by rewrite after_rw_eq, Hkx.
      * congruence.
      * cbn. rewrite Hi'. unfold sector_of. by rewrite lookup_insert_ne.
Qed.

(** Changing the contents of a buffer one holds. *)
Lemma set_data_wp s l H D b k d d' (Q : unit -> st -> Prop) :
  bc_inv s l -> pinned s H D -> key_ok k -> holds s b k d -> blk_ok d' ->
  (forall s', bc_inv s' l -> pinned s' H D -> holds s' b k d' -> others s s' b ->
     dirty (getb s' b) = dirty (getb s b) ->
     hw s' = hw s -> (forall k', key_ok k' -> view s' k' = if decide (k' = k) then d' else view s k') ->
     Q tt s') ->
  wp (bupd b (w_data d')) Q s.
Proof.
  intros HI HP Hk (Hb & Hkb & Hbusy & Hv & Hd) Hok HQ.
  pose proof (i_slots _ _ HI b Hb) as [Hf Hdat Hkey Hc Hdv].
  apply wp_bupd; [klia|]. set (s' := s_bufs _ _).
  assert (Eb : getb s' b = w_data d' (getb s b)) by apply getb_upd.
  assert (Ene : forall i, i <> b -> getb s' i = getb s i).
  { intros i Hi. by apply lookup_total_insert_ne. }
  assert (HI' : bc_inv s' l).
  { apply (bc_inv_upd s _ l b); try done; rewrite ?Eb; try done.
    - by destruct (i_quiet _ _ HI).
    - split; try done. cbn. change (busy (w_data d' (getb s b))) with (busy (getb s b)). congruence.
    - intros i Hi Hib. eapply uniq_other; [exact HI | done | by rewrite Hkb | done | done].
    - apply (i_img _ _ HI). }
  assert (Ho : others s s' b) by (intros i Hi Hib; by rewrite Ene).
  apply HQ; try done.
  - eapply (pinned_upd s _ H D _ _ b); try done.
    + rewrite Eb. by apply (p_busy _ _ _ HP).
    + intros k'. rewrite Eb, (p_dirty _ _ _ HP).
      change (bkey (w_data d' (getb s b))) with (bkey (getb s b)).
      change (dirty (w_data d' (getb s b))) with (dirty (getb s b)). split.
      * intros (i & Hi & Hki & Hdi). destruct (decide (i = b)) as [->|]; [by left|].
        right. by exists i.
      * intros [[-> Hdi]|(i & Hi & _ & ? & ?)]; [by exists b | by exists i].
  - unfold holds. by rewrite Eb.
  - by rewrite Eb.
  - intros k' Hk'. case_decide as E.
    + subst k'. pose proof (view_valid _ l b HI' Hb) as Hvv. rewrite Eb in Hvv.
      change (bkey (w_data d' (getb s b))) with (bkey (getb s b)) in Hvv.
      rewrite Hkb in Hvv. by apply Hvv.
    + eapply (view_frame s _ l l b); try done.
      * rewrite Eb. change (bkey (w_data d' (getb s b))) with (bkey (getb s b)). by rewrite Hkb.
      * congruence.
Qed.

(** [b->flags |= B_DIRTY] on a buffer one holds keeps it in the cache. *)
Lemma mark_dirty_wp s l H D b k d (Q : unit -> st -> Prop) :
  bc_inv s l -> pinned s H D -> key_ok k -> holds s b k d ->
  (forall s', bc_inv s' l -> pinned s' H (k :: D) -> holds s' b k d -> others s s' b ->
     dirty (getb s' b) = true -> hw s' = hw s ->
     (forall k', key_ok k' -> view s' k' = view s k') -> Q tt s') ->
  wp (bupd b (fun x => w_flags (Z.lor (flags x) B_DIRTY) x)) Q s.
Proof.
  intros HI HP Hk (Hb & Hkb & Hbusy & Hv & Hd) HQ.
  pose proof (i_slots _ _ HI b Hb) as [Hf Hdat Hkey Hc Hdv].
  destruct (flags_dirty _ Hf) as (Hf1 & Hb1 & Hv1 & Hd1).
  apply wp_bupd; [klia|]. set (s' := s_bufs _ _).
  assert (Eb : getb s' b = w_flags (Z.lor (flags (getb s b)) B_DIRTY) (getb s b)) by apply getb_upd.
  assert (Ene : forall i, i <> b -> getb s' i = getb s i).
  { intros i Hi. by apply lookup_total_insert_ne. }
  assert (Hfl : busy (getb s' b) = true /\ valid (getb s' b) = true /\ dirty (getb s' b) = true).
  { rewrite Eb. unfold busy, valid, dirty in *. cbn. by rewrite Hb1, Hv1, Hd1. }
  destruct Hfl as (Fb & Fv & Fd).
  assert (Ek : bkey (getb s' b) = k) by by rewrite Eb.
  assert (HI' : bc_inv s' l).
  { apply (bc_inv_upd s _ l b); try done; rewrite ?Ek; try done.
    - by destruct (i_quiet _ _ HI).
    - by rewrite Eb.
    - by rewrite Eb.
    - split; [by rewrite Eb | by rewrite Eb | left; by rewrite Ek | congruence | done].
    - intros i Hi Hib. rewrite <- Hkb.
      eapply uniq_other; [exact HI | done | by rewrite Hkb | done | done].
    - apply (i_img _ _ HI). }
  assert (Ho : others s s' b) by (intros i Hi Hib; by rewrite Ene).
  apply HQ; try done.
  - eapply (pinned_upd s _ H D _ _ b); try done.
    + intros _. rewrite Ek, <- Hkb. by apply (p_busy _ _ _ HP).
    + intros k'. rewrite Ek, Fd, elem_of_cons, (p_dirty _ _ _ HP). split.
      * intros [->|(i & Hi & Hki & Hdi)]; [by left|].
        destruct (decide (i = b)) as [->|]; [left; by rewrite <- Hki, Hkb|].
        right. by exists i.
      * intros [[-> _]|(i & Hi & _ & ? & ?)]; [by left | right; by exists i].
  - unfold holds. repeat split; try done; try klia. by rewrite Eb.
  - intros k' Hk'. apply view_ext; [|done]. intros i. destruct (decide (i = b)) as [->|].
    + rewrite Ek, Fv, Eb. by rewrite Hkb, Hv.
    + by rewrite Ene.
Qed.

(** ** bufcache_release *)

(** [s] is [s0] with its links changed to [f] (forwards) and [g] (backwards). *)
Record relinked s0 s (f g : Z -> Z) : Prop := {
  r_nx : forall i, nx s i = f i;
  r_pv : forall i, pv s i = g i;
  r_slot : forall i, slot (getb s i) = slot (getb s0 i);
  r_rest : s = s_bufs (bufs s) s0
}.

Lemma relinked_refl s : relinked s s (nx s) (pv s).
Proof. by split; destruct s. Qed.

Lemma wp_set_prev s0 s f g n v (Q : unit -> st -> Prop) :
  0 <= n < NBUF + 1 -> relinked s0 s f g ->
  (forall s', relinked s0 s' f (fupd g n v) -> Q tt s') -> wp (bupd n (w_prev v)) Q s.
Proof.
  intros Hn [Hf Hg Hs Hr] HQ. apply wp_bupd; [done|]. apply HQ. split.
  - intros i. rewrite <- Hf. unfold nx. destruct (decide (i = n)) as [->|].
    + by rewrite getb_upd.
    + unfold getb; cbn. by rewrite lookup_total_insert_ne.
  - intros i. unfold fupd, pv. case_bool.
    + subst. by rewrite getb_upd.
    + rewrite <- Hg. unfold pv, getb; cbn. by rewrite lookup_total_insert_ne.
  - intros i. rewrite <- Hs. destruct (decide (i = n)) as [->|].
    + by rewrite getb_upd.
    + unfold getb; cbn. by rewrite lookup_total_insert_ne.
  - cbn. by rewrite Hr.
Qed.

Lemma wp_set_next s0 s f g n v (Q : unit -> st -> Prop) :
  0 <= n < NBUF + 1 -> relinked s0 s f g ->
  (forall s', relinked s0 s' (fupd f n v) g -> Q tt s') -> wp (bupd n (w_next v)) Q s.
Proof.
  intros Hn [Hf Hg Hs Hr] HQ. apply wp_bupd; [done|]. apply HQ. split.
  - intros i. unfold fupd, nx. case_bool.
    + subst. by rewrite getb_upd.
    + rewrite <- Hf. unfold nx, getb; cbn. by rewrite lookup_total_insert_ne.
  - intros i. rewrite <- Hg. unfold pv. destruct (decide (i = n)) as [->|].
    + by rewrite getb_upd.
    + unfold getb; cbn. by rewrite lookup_total_insert_ne.
  - intros i. rewrite <- Hs. destruct (decide (i = n)) as [->|].
    + by rewrite getb_upd.
    + unfold getb; cbn. by rewrite lookup_total_insert_ne.
  - cbn. by rewrite Hr.
Qed.

Lemma wp_link s0 s f g n (fld : buf -> Z) (Q : Z -> st -> Prop) :
  0 <= n < NBUF + 1 -> relinked s0 s f g ->
  (fld = next /\ Q (f n) s) \/ (fld = prev /\ Q (g n) s) -> wp (bfield n fld) Q s.
Proof.
  intros Hn [Hf Hg Hs Hr] HQ. apply wp_bfield; [done|].
  destruct HQ as [[-> HQ]|[-> HQ]]; [by rewrite <- Hf in HQ | by rewrite <- Hg in HQ].
Qed.

(** The links after moving [b] to the front. *)
Definition front_nx (f g : Z -> Z) (b : Z) : Z -> Z :=
  let f1 := fupd f (g b) (f b) in fupd (fupd f1 b (f1 HEAD)) HEAD b.
Definition front_pv (f g : Z -> Z) (b : Z) : Z -> Z :=
  let f1 := fupd f (g b) (f b) in
  let g1 := fupd g (f b) (g b) in fupd (fupd g1 b HEAD) (f1 HEAD) b.

Lemma ring_front s l1 b l2 : ring_ok s (l1 ++ b :: l2) ->
  lseg (front_nx (nx s) (pv s) b) (front_pv (nx s) (pv s) b) HEAD (b :: l1 ++ l2) HEAD.
Proof.
  intros [Hr Hnd Hm].
  assert (Hh : HEAD ∉ l1 ++ b :: l2) by (rewrite Hm; klia).
  assert (Hp : b :: l1 ++ l2 ≡ₚ l1 ++ b :: l2) by apply Permutation_middle.
  apply lseg_push.
  - apply lseg_unlink; [done | by constructor | done].
  - rewrite Hp. by constructor.
Qed.

Lemma ring_links s l i : ring_ok s l -> i ∈ l ->
  0 <= nx s i < NBUF + 1 /\ 0 <= pv s i < NBUF + 1 /\ nx s i <> i.
Proof.
  intros [Hr Hnd Hm] Hi. apply list_elem_of_split in Hi as (l1 & l2 & ->).
  apply lseg_app in Hr as [H1 H2].
  assert (Hb : 0 <= i < NBUF) by (apply Hm; set_solver).
  assert (Hn : nx s i = HEAD \/ nx s i ∈ l2) by by eapply lseg_first.
  assert (Hp : pv s i = HEAD \/ pv s i ∈ l1) by by eapply lseg_last.
  split; [|split].
  - destruct Hn as [->|Hn]; [klia|]. assert (0 <= nx s i < NBUF) by (apply Hm; set_solver). klia.
  - destruct Hp as [->|Hp]; [klia|]. assert (0 <= pv s i < NBUF) by (apply Hm; set_solver). klia.
  - destruct Hn as [->|Hn]; [klia|]. intros E. rewrite E in Hn.
    apply NoDup_app in Hnd as (_ & _ & Hnd). apply NoDup_cons in Hnd as [Hnd _]. done.
Qed.

Lemma ring_head s l : ring_ok s l -> 0 <= nx s HEAD < NBUF + 1.
Proof.
  intros [Hr Hnd Hm]. destruct (lseg_first _ _ _ _ _ Hr) as [->|Hn]; [klia|].
  apply Hm in Hn. klia.
Qed.

Lemma move_front_wp s l1 b l2 (Q : unit -> st -> Prop) :
  ring_ok s (l1 ++ b :: l2) ->
  (forall s', relinked s s' (front_nx (nx s) (pv s) b) (front_pv (nx s) (pv s) b) -> Q tt s') ->
  wp (move_front b) Q s.
Proof.
  intros Hr HQ. unfold move_front.
  assert (Hb : 0 <= b < NBUF) by (apply (i_mem _ _ Hr); set_solver).
  destruct (ring_links s _ b Hr) as (Hn & Hp & Hne); [set_solver|].
  pose proof (ring_head s _ Hr) as Hh.
  assert (Hf1 : 0 <= fupd (nx s) (pv s b) (nx s b) HEAD < NBUF + 1).
  { unfold fupd. case_bool; done. }
  pose proof (relinked_refl s) as H0.
  wp_step. eapply (wp_link s _ _ _); [klia | exact H0 | left; split; [done|]].
  wp_step. eapply (wp_link s _ _ _); [klia | exact H0 | right; split; [done|]].
  wp_step. eapply (wp_set_prev s _ _ _); [done | exact H0 |]. intros s1 H1.
  wp_step. eapply (wp_link s _ _ _); [klia | exact H1 | right; split; [done|]].
  rewrite fupd_ne by done.
  wp_step. eapply (wp_link s _ _ _); [klia | exact H1 | left; split; [done|]].
  wp_step. eapply (wp_set_next s _ _ _); [done | exact H1 |]. intros s2 H2.
  wp_step. eapply (wp_link s _ _ _); [klia | exact H2 | left; split; [done|]].
  wp_step. eapply (wp_set_next s _ _ _); [klia | exact H2 |]. intros s3 H3.
  wp_step. eapply (wp_set_prev s _ _ _); [klia | exact H3 |]. intros s4 H4.
  wp_step. eapply (wp_link s _ _ _); [klia | exact H4 | left; split; [done|]].
  rewrite (fupd_ne _ b _ HEAD) by klia.
  wp_step. eapply (wp_set_prev s _ _ _); [done | exact H4 |]. intros s5 H5.
  eapply (wp_set_next s _ _ _); [klia | exact H5 |]. exact HQ.
Qed.

(** bufcache_release gives the buffer back, as the most recently used one.
    Its contents must be on disk or marked dirty. *)
Lemma bufcache_release_wp s l H D b k d (Q : unit -> st -> Prop) :
  bc_inv s l -> pinned s H D -> key_ok k -> holds s b k d ->
  dirty (getb s b) = true \/ d = sector_of (image (hw s)) k ->
  (forall s' l1 l2, l = l1 ++ b :: l2 -> bc_inv s' (b :: l1 ++ l2) ->
     pinned s' (without k H) D -> others s s' b -> busy (getb s' b) = false ->
     hw s' = hw s -> (forall k', key_ok k' -> view s' k' = view s k') -> Q tt s') ->
  wp (bufcache_release ks b) Q s.
Proof.
  intros HI HP Hk (Hb & Hkb & Hbusy & Hv & Hd) Hclean HQ.
  pose proof (i_slots _ _ HI b Hb) as [Hf Hdat Hkey Hc Hdv].
  destruct (i_quiet _ _ HI) as [? ? ? ? ? ?]. destruct (flags_idle _ Hf) as (Hf1 & Hb1 & Hv1 & Hd1).
  pose proof (proj2 (i_mem _ _ (i_links _ _ HI) b) Hb) as Hin.
  apply list_elem_of_split in Hin as (l1 & l2 & ->).
  unfold bufcache_release. wp_step. apply wp_bfield; [klia|]. rewrite flag_set.
  fold (busy (getb s b)). rewrite Hbusy. cbn [negb]. unfold bc_lock. wp_step. wp_step.
  eapply wp_intro; [by apply spinlock_acquire_run|]. change (lput bclk_lens _ s) with (held s).
  wp_step. apply (move_front_wp _ l1 b l2).
  { eapply ring_ok_ext; [|apply HI]. done. }
  change (nx (held s)) with (nx s). change (pv (held s)) with (pv s).
  intros s1 [Hnx Hpv Hslot Hrest]. wp_step. apply wp_bupd; [klia|]. wp_step.
  unfold thread_wakeup. wp_step. set (x := w_flags _ (getb s1 b)). rewrite Hrest. st_goal.
  wp_call wakeup_ok; [done|].
  intros [] t Ht. unfold bc_unlock. wp_step. eapply wp_intro; [reflexivity|]. st_goal.
  set (s' := State _ _ _ _ _ _ _ _).
  assert (Eb : getb s' b = x) by apply lookup_total_insert_eq.
  assert (Ene : forall i, i <> b -> getb s' i = getb s1 i).
  { intros i Hi. by apply lookup_total_insert_ne. }
  assert (Hl' : forall i, next (getb s' i) = nx s1 i /\ prev (getb s' i) = pv s1 i).
  { intros i. destruct (decide (i = b)) as [->|]; [by rewrite Eb | by rewrite Ene]. }
  change (forall i, slot (getb s1 i) = slot (getb s i)) in Hslot.
  destruct (slot_inv _ _ (Hslot b)) as (Sk & Sb & Sv & Sd & Sdat).
  assert (Sf : flags (getb s1 b) = flags (getb s b)) by (pose proof (Hslot b) as E; by injection E).
  assert (Ho : others s s' b).
  { intros i Hi Hib. rewrite Ene by done. apply Hslot. }
  assert (Fx : busy x = false /\ valid x = true /\ dirty x = dirty (getb s b) /\ data x = d /\ bkey x = k).
  { unfold x, busy, valid, dirty in *. cbn [flags w_flags]. rewrite Sf, Hb1, Hv1, Hd1.
    repeat split; try done; [cbn; by rewrite Sdat | by rewrite <- Hkb, <- Sk]. }
  destruct Fx as (Fb & Fv & Fd & Fdat & Fk).
  assert (Hp : b :: l1 ++ l2 ≡ₚ l1 ++ b :: l2) by apply Permutation_middle.
  assert (HI' : bc_inv s' (b :: l1 ++ l2)).
  { split.
    - split; [|rewrite Hp; apply (i_nodup _ _ (i_links _ _ HI))|
        intros i; rewrite Hp; apply (i_mem _ _ (i_links _ _ HI))].
      eapply lseg_frame; [| |apply ring_front, (i_links _ _ HI)].
      + intros n _. rewrite <- Hnx. apply Hl'.
      + intros n _. rewrite <- Hpv. apply Hl'.
    - by split.
    - intros i Hi. destruct (decide (i = b)) as [->|Hib].
      + rewrite Eb. split; [by unfold x; cbn; rewrite Sf | by rewrite Fdat, <- Hd |
          left; by rewrite Fk | | done].
        intros _ Hnd _. rewrite Fdat, Fk. destruct Hclean as [Hc'|Hc']; [congruence | done].
      + eapply slot_ok_ext; [symmetry; by apply Ho | by apply (i_slots _ _ HI)].
    - intros i j Hi Hj.
      assert (Hbk : forall i, 0 <= i < NBUF -> bkey (getb s' i) = bkey (getb s i)).
      { intros n Hn. destruct (decide (n = b)) as [->|Hnb]; [by rewrite Eb, Fk|].
        by destruct (slot_inv _ _ (Ho n Hn Hnb)). }
      rewrite !Hbk by done. by apply (i_uniq _ _ HI).
    - apply (i_img _ _ HI). }
  apply (HQ s' l1 l2); try done.
  - eapply (pinned_upd s _ H D _ _ b); try done.
    + intros i Hi Hib _ ?. apply elem_of_without. split; [|done]. rewrite <- Hkb.
      eapply uniq_other; [exact HI | done | by rewrite Hkb | done | done].
    + rewrite Eb, Fb. done.
    + intros k'. rewrite Eb, Fk, Fd, (p_dirty _ _ _ HP). split.
      * intros (i & Hi & Hki & Hdi). destruct (decide (i = b)) as [->|]; [left; by rewrite <- Hki|].
        right. by exists i.
      * intros [[-> Hdi]|(i & Hi & _ & ? & ?)]; [by exists b | by exists i].
  - by rewrite Eb.
  - intros k' Hk'. apply view_ext; [|done]. intros i. destruct (decide (i = b)) as [->|Hib].
    + by rewrite Eb, Fk, Fv, Fdat.
    + rewrite Ene by done. destruct (slot_inv _ _ (Hslot i)) as (-> & _ & -> & _ & ->). done.
Qed.

(** ** Initialisation *)

(** The kernel's static data at boot, with the drive [d] attached. *)
Definition boot (lk : spinlock_t) (d : drive) (ic : Intr.Intr.state) (t : T) : st :=
  State lk ∅ unlocked_lk NULL 1 d ic t.

Definition init_order : list Z := [9; 8; 7; 6; 5; 4; 3; 2; 1; 0].

Definition init_bufs : gmap Z buf :=
  let mk p n := Buf 0 (2 ^ 32 - 1) 0 p n NULL zero_block in
  <[10 := Buf 0 0 0 0 9 NULL zero_block]> (list_to_map
    ((fun i => (i, mk (if i =? 9 then 10 else i + 1) (if i =? 0 then 10 else i - 1))) <$> init_order)).

Lemma bufcache_init_run lk d ic t :
  bufcache_init (boot lk d ic t) = Ok tt (State unlocked_lk init_bufs unlocked_lk NULL 1 d ic t).
Proof. vm_compute. reflexivity. Qed.

Lemma zero_block_ok : blk_ok zero_block.
Proof. split; [done|]. apply Forall_replicate. klia. Qed.

Lemma init_slot i : 0 <= i < NBUF ->
  exists p n, init_bufs !!! i = Buf 0 (2 ^ 32 - 1) 0 p n NULL zero_block.
Proof.
  intros Hi. assert (Hin : i ∈ init_order).
  { unfold init_order. rewrite !elem_of_cons. klia. }
  unfold init_order in Hin. rewrite !elem_of_cons, elem_of_nil in Hin.
  repeat destruct Hin as [->|Hin]; try done; (eexists _, _; vm_compute; reflexivity).
Qed.

Lemma init_inv d ic t :
  ready d -> sched_ok t -> (forall k, blk_ok (sector_of (image d) k)) ->
  bc_inv (State unlocked_lk init_bufs unlocked_lk NULL 1 d ic t) init_order /\
  pinned (State unlocked_lk init_bufs unlocked_lk NULL 1 d ic t) [] [].
Proof.
  intros Hr Ht Himg. set (s := State _ _ _ _ _ _ _ _).
  assert (Hs : forall i, 0 <= i < NBUF -> exists p n,
    getb s i = Buf 0 (2 ^ 32 - 1) 0 p n NULL zero_block) by apply init_slot.
  split; [split|split].
  - split.
    + vm_compute. repeat split.
    + apply (bool_decide_unpack _). by vm_compute.
    + intros i. unfold init_order. rewrite !elem_of_cons, elem_of_nil. klia.
  - by split.
  - intros i Hi. destruct (Hs i Hi) as (p & n & ->).
    split; [cbn; lia | apply zero_block_ok | by right | done | done].
  - intros i j Hi Hj Hk. destruct (Hs i Hi) as (p & n & E). rewrite E in Hk.
    unfold key_ok, bkey in Hk. cbn in Hk. lia.
  - done.
  - intros i Hi. destruct (Hs i Hi) as (p & n & ->). done.
  - intros k. split; [by rewrite elem_of_nil|].
    intros (i & Hi & _ & Hd). by destruct (Hs i Hi) as (p & n & E); rewrite E in Hd.
Qed.

Lemma init_view d ic t k : key_ok k ->
  view (State unlocked_lk init_bufs unlocked_lk NULL 1 d ic t) k = sector_of (image d) k.
Proof.
  intros Hk. apply view_disk. intros i Hi. unfold getb; cbn [bufs].
  by destruct (init_slot i Hi) as (p & n & ->).
Qed.

(** ** What the cache guarantees *)

(** (C23) bufcache_read of a sector nobody holds returns a buffer that holds the
    sector's current contents (the cached copy if there is one, the disk's
    otherwise) and is reserved for the caller; the contents of every sector, the
    other buffers and the disk are unchanged.  It cannot run out of buffers as
    long as the sectors held or dirty are fewer than the ten buffers, or the
    sector itself is one of the dirty ones. *)
Theorem bufcache_read_correct s l H D k :
  bc_inv s l -> pinned s H D -> key_ok k -> k ∉ H ->
  (length H + length D < 10)%nat \/ k ∈ D ->
  exists b s', bufcache_read ks k.1 k.2 s = Ok b s' /\
    bc_inv s' l /\ pinned s' (k :: H) D /\ holds s' b k (view s k) /\ others s s' b /\
    (forall k', key_ok k' -> view s' k' = view s k') /\
    image (hw s') = image (hw s) /\ writes (hw s') = writes (hw s).
Proof.
  intros HI HP Hk HkH Hroom. apply wp_run.
  apply (bufcache_read_wp s l H D k); try done.
  intros b s' [[HI' Hb Hkb Hbu ? ? ? ? ? ? ?] Hv Hd] HP'. by split_and!.
Qed.

(** The replacement policy: when the sector is not cached, the buffer
    bufcache_get recycles is the least recently released one among those that
    are neither held nor dirty, and it is handed out with the new sector's name,
    reserved, and not valid. *)
Theorem bufcache_get_lru s l k :
  bc_inv s l ->
  (forall i, 0 <= i < NBUF -> bkey (getb s i) <> k) ->
  Exists (fun i => free (getb s i) = true) l ->
  exists b s' l1 l2, bufcache_get ks k.1 k.2 s = Ok b s' /\
    l = l1 ++ b :: l2 /\ free (getb s b) = true /\
    Forall (fun i => free (getb s i) = false) l2 /\
    bkey (getb s' b) = k /\ flags (getb s' b) = B_BUSY /\
    (forall i, i <> b -> getb s' i = getb s i).
Proof.
  intros HI Hno Hex.
  destruct (proj1 (wp_run (bufcache_get ks k.1 k.2) (fun b s' => exists l1 l2,
    l = l1 ++ b :: l2 /\ free (getb s b) = true /\ Forall (fun i => free (getb s i) = false) l2 /\
    bkey (getb s' b) = k /\ flags (getb s' b) = B_BUSY /\
    (forall i, i <> b -> getb s' i = getb s i)) s)) as (b & s' & Hrun & l1 & l2 & Hp).
  - apply (bufcache_get_wp s l k); [apply HI | apply (i_quiet _ _ HI) | | | |].
    + intros i Hi Hki. by destruct (Hno i Hi).
    + apply Exists_exists in Hex as (i & Hi & Hf). exists i. split; [|by right].
      by apply (i_mem _ _ (i_links _ _ HI)).
    + intros b Hb Hkb. by destruct (Hno b Hb).
    + intros _ l1 b l2 El Hf Hl2. exists l1, l2. fold (with_buf s b (w_flags B_BUSY (w_key k.1 k.2 (getb s b)))).
      rewrite with_buf_eq. repeat split; try done; [by destruct k|].
      intros i Hi. by apply with_buf_ne.
  - by exists b, s', l1, l2.
Qed.

Lemma walk_all {R} (g : Z -> Z) (body : Z -> K st (Z + R)) y s fuel x l v :
  chain g x l y -> (length l < fuel)%nat ->
  (forall b, b ∈ l -> body b s = Ok (inl (g b)) s) -> body y s = Ok (inr v) s ->
  loop fuel body (g x) s = Ok v s.
Proof.
  revert x fuel. induction l as [|z l IH]; intros x fuel Hc Hf Hl Hy;
    (destruct fuel as [|fuel]; [cbn in Hf; lia|]); cbn [loop]; cbn in Hc.
  - rewrite Hc. by krun (exact Hy).
  - destruct Hc as [-> Hc]. krun (apply Hl; set_solver). apply IH; try done; [cbn in Hf; lia|].
    intros b Hb. apply Hl. set_solver.
Qed.

(** With all ten buffers held or dirty, reading a sector that is not cached
    panics: the cache never evicts changes that are not on disk. *)
Theorem bufcache_full_panics s l k :
  bc_inv s l -> (forall i, 0 <= i < NBUF -> bkey (getb s i) <> k /\ free (getb s i) = false) ->
  bufcache_read ks k.1 k.2 s = Err (Panic "bufcache_get: no buffers").
Proof.
  intros HI Hall. unfold bufcache_read. apply bind_Err. unfold bufcache_get, bc_lock.
  pose proof (i_links _ _ HI) as Hl.
  erewrite bind_Ok by (apply zoom_Ok, spinlock_acquire_run; [done | apply (i_quiet _ _ HI)]).
  change (lput bclk_lens _ s) with (held s). krun (apply bfield_Ok; klia).
  erewrite bind_Ok.
  2: { apply (walk_all (nx s) _ HEAD _ _ HEAD l None).
       - eapply lseg_chain, i_ring, Hl.
       - rewrite (ring_length _ _ Hl). unfold RING. klia.
       - intros b Hb. pose proof (walk_bounds _ _ _ Hl Hb) as Hbr. unfold get_cached. bool_false.
         do 2 (krun (apply bfield_Ok; klia)).
         destruct (Hall b Hbr) as [Hne _].
         assert (E : (dev (getb s b) =? k.1) && (sector (getb s b) =? k.2) = false).
         { apply andb_false_iff. rewrite !Z.eqb_neq. destruct (decide (dev (getb s b) = k.1)); [|by left].
           right. intros ?. apply Hne. destruct k; unfold bkey; cbn in *; congruence. }
         change (getb (held s) b) with (getb s b). rewrite E. by krun (apply bfield_Ok; klia).
       - unfold get_cached. by rewrite Z.eqb_refl. }
  cbn beta iota. krun (apply bfield_Ok; klia).
  erewrite bind_Ok.
  2: { apply (walk_all (pv s) _ HEAD _ _ HEAD (rev l) None).
       - eapply lseg_chain, lseg_rev, i_ring, Hl.
       - rewrite length_rev, (ring_length _ _ Hl). unfold RING. klia.
       - intros b Hb. rewrite list_elem_of_In, <- in_rev, <- list_elem_of_In in Hb.
         pose proof (walk_bounds _ _ _ Hl Hb) as Hbr. unfold get_fresh. bool_false.
         krun (apply bfield_Ok; klia). change (getb (held s) b) with (getb s b). rewrite !flag_set.
         change (_ && _) with (free (getb s b)). rewrite (proj2 (Hall b Hbr)).
         by krun (apply bfield_Ok; klia).
       - unfold get_fresh. by rewrite Z.eqb_refl. }
  done.
Qed.
End specs.
End Bufcache.

(** ** A machine to run on: one thread, whose sleep ends with the wake-up *)
Module BufcacheDemo.
Import Disk Bufcache.

#[export] Instance idle_sched : Sched unit :=
  {| sched_sleep := fun _ => mret tt; sched_wakeup := fun _ => mret tt;
     sched_resume := fun _ => mret tt |}.

#[export] Instance idle_sched_ok : SchedOk unit.
Proof.
  refine {| sched_ok := fun _ => True; sched_asleep := fun _ _ => True;
            sched_woken := fun _ _ => True |}; done.
Defined.

Definition demo_ks : kstack := Kstack 0 KSTACK_MAGIC.
Definition demo_drive : drive := Drive ∅ [] 0 0 0 0 0 IDE_DRDY.
Definition demo : state unit :=
  State unlocked_lk init_bufs unlocked_lk NULL 1 demo_drive Intr.Intr.demo tt.

Lemma bdemo_inv : bc_inv demo init_order /\ pinned demo [] [].
Proof. apply init_inv; [done | done |]. intros k. apply zero_block_ok. Qed.

Lemma bufcache_read_correct_witness :
  exists b s', bufcache_read demo_ks 1 2 demo = Ok b s' /\ holds s' b (1, 2) (view demo (1, 2)).
Proof.
  destruct bdemo_inv as [HI HP].
  destruct (bufcache_read_correct demo_ks eq_refl demo init_order [] [] (1, 2) HI HP)
    as (b & s' & Hrun & _ & _ & Hh & _).
  - split; cbn; lia.
  - apply not_elem_of_nil.
  - left. cbn. lia.
  - exists b, s'. split; [exact Hrun | exact Hh].
Defined.

Lemma bufcache_get_lru_witness :
  exists b s' l1 l2, bufcache_get demo_ks 1 2 demo = Ok b s' /\ init_order = l1 ++ b :: l2.
Proof.
  destruct bdemo_inv as [HI HP].
  destruct (bufcache_get_lru demo_ks eq_refl demo init_order (1, 2) HI)
    as (b & s' & l1 & l2 & Hrun & Hl & _).
  - intros i Hi. destruct (init_slot i Hi) as (p & n & E).
    change (getb demo i) with (init_bufs !!! i). by rewrite E.
  - apply Exists_exists. exists 9. split; [by left|]. by vm_compute.
  - exists b, s', l1, l2. split; [exact Hrun | exact Hl].
Defined.

(** All ten buffers hold changes not on disk. *)
Definition full_bufs : gmap Z buf :=
  let mk i p n := Buf (Z.lor B_VALID B_DIRTY) 1 i p n NULL zero_block in
  <[10 := Buf 0 0 0 0 9 NULL zero_block]> (list_to_map
    ((fun i => (i, mk i (if i =? 9 then 10 else i + 1) (if i =? 0 then 10 else i - 1))) <$> init_order)).
Definition full : state unit :=
  State unlocked_lk full_bufs unlocked_lk NULL 1 demo_drive Intr.Intr.demo tt.

Lemma full_slot i : 0 <= i < NBUF ->
  exists p n, getb full i = Buf (Z.lor B_VALID B_DIRTY) 1 i p n NULL zero_block.
Proof.
  intros Hi. assert (Hin : i ∈ init_order).
  { unfold init_order. rewrite !elem_of_cons. klia. }
  unfold init_order in Hin. rewrite !elem_of_cons, elem_of_nil in Hin.
  repeat destruct Hin as [->|Hin]; try done; (eexists _, _; vm_compute; reflexivity).
Qed.

Lemma full_inv : bc_inv full init_order.
Proof.
  split.
  - split.
    + vm_compute. repeat split.
    + apply (bool_decide_unpack _). by vm_compute.
    + intros i. unfold init_order. rewrite !elem_of_cons, elem_of_nil. klia.
  - by split.
  - intros i Hi. destruct (full_slot i Hi) as (p & n & ->).
    split; [done | apply zero_block_ok | left; split; cbn; klia | done | done].
  - intros i j Hi Hj _. destruct (full_slot i Hi) as (p & n & ->), (full_slot j Hj) as (p' & n' & ->).
    by intros [= ->].
  - intros k. apply zero_block_ok.
Qed.

Lemma bufcache_full_panics_witness :
  bufcache_read demo_ks 1 20 full = Err (Panic "bufcache_get: no buffers").
Proof.
  apply (bufcache_full_panics demo_ks eq_refl full init_order (1, 20) full_inv).
  intros i Hi. destruct (full_slot i Hi) as (p & n & ->). split; [|done].
  unfold bkey. cbn. intros [= ->]. klia.
Defined.
End BufcacheDemo.
