(* ===== verification/Log.v ===== *)
(** * The write-ahead log (kern/fs/log.c)

    A transaction copies each modified block to the log area of the disk and
    pins the buffer in the cache; the commit writes the header block (the
    commit point), installs the blocks at their home sectors and erases the
    header.  The theorems show that a crash at any point of this, followed by
    log_init at the next boot, leaves all of the transaction's blocks or none. *)

From S2P Require Import Prelude Spinlock Bytes Disk Bufcache.

Module Log.
Import Disk Bufcache.

Definition ROOTDEV : Z := 1.
Definition LOGSIZE : Z := 10.
#[export] Hint Unfold ROOTDEV LOGSIZE : kconst.

(** struct log, with the struct logheader it contains. *)
Record log : Type := MkLog {
  log_lk : spinlock_t; start : Z; size : Z; busy : Z; ldev : Z; n : Z; sectors : gmap Z Z
}.

Record superblock : Type := MkSb {
  sb_size : Z; sb_nblocks : Z; sb_ninodes : Z; sb_nlog : Z
}.

Definition sb_of (d : block) : superblock :=
  MkSb (get32 d 0) (get32 d 4) (get32 d 8) (get32 d 12).

Record state (T : Type) : Type := State { bc : Disk.state T; lg : log }.
Arguments State {T}.
Arguments bc {T}.
Arguments lg {T}.

Section ops.
Context {T : Type} `{!Sched T}.
Context (ks : kstack).
Abbreviation st := (state T).

Definition s_bc v (s : st) : st := State v (lg s).
Definition s_lg v (s : st) : st := State (bc s) v.
Definition bc_lens : lens st (Disk.state T) := Lens bc s_bc.

Definition w_lk v (g : log) := MkLog v (start g) (size g) (busy g) (ldev g) (n g) (sectors g).
Definition w_geom a b d (g : log) := MkLog (log_lk g) a b (busy g) d (n g) (sectors g).
Definition w_busy v (g : log) := MkLog (log_lk g) (start g) (size g) v (ldev g) (n g) (sectors g).
Definition w_n v (g : log) := MkLog (log_lk g) (start g) (size g) (busy g) (ldev g) v (sectors g).
Definition w_sectors v (g : log) :=
  MkLog (log_lk g) (start g) (size g) (busy g) (ldev g) (n g) v.

Definition lk_lens : lens st spinlock_t := Lens (fun s => log_lk (lg s)) (fun v s => s_lg (w_lk v (lg s)) s).

Definition getl {A} (f : log -> A) : K st A := gets (fun s => f (lg s)).
Definition setl (f : log -> log) : K st unit := modify (fun s => s_lg (f (lg s)) s).

Definition bread (d sec : Z) : K st Z := zoom bc_lens (bufcache_read ks (u32 d) (u32 sec)).
Definition bwrite (b : Z) : K st unit := zoom bc_lens (bufcache_write ks b).
Definition brelse (b : Z) : K st unit := zoom bc_lens (bufcache_release ks b).
Definition bget {A} (b : Z) (f : buf -> A) : K st A := zoom bc_lens (bfield b f).
(** Assign to [b->data]. *)
Definition bmod (b : Z) (f : block -> block) : K st unit :=
  zoom bc_lens (bupd b (fun x => w_data (f (data x)) x)).

(** ** block.c: read_superblock *)

Definition read_superblock (d : Z) : K st superblock :=
  bp ← bread d 1;
  dat ← bget bp data;
  brelse bp ;;
  mret (sb_of dat).

(** ** log.c *)

(** log.lh.n is not assigned by the loop bodies. *)
Definition install_trans : K st unit :=
  cnt ← getl n;
  for_ 0 cnt (fun tail =>
    dv ← getl ldev;
    st0 ← getl start;
    lbuf ← bread dv (st0 + tail + 1);
    bounds LOGSIZE tail ;;
    sec ← getl (fun g => sectors g !!! tail);
    dbuf ← bread dv sec;
    ld ← bget lbuf data;
    bmod dbuf (blit 0 ld) ;;
    bwrite dbuf ;;
    brelse lbuf ;;
    brelse dbuf).

Definition read_head : K st unit :=
  dv ← getl ldev;
  st0 ← getl start;
  b ← bread dv st0;
  dat ← bget b data;
  setl (w_n (i32 (get32 dat 0))) ;;
  cnt ← getl n;
  for_ 0 cnt (fun i =>
    bounds LOGSIZE i ;;
    setl (fun g => w_sectors (<[i := i32 (get32 dat (4 + 4 * i))]> (sectors g)) g)) ;;
  brelse b.

Definition write_head : K st unit :=
  dv ← getl ldev;
  st0 ← getl start;
  b ← bread dv st0;
  cnt ← getl n;
  bmod b (set32 0 (u32 cnt)) ;;
  for_ 0 cnt (fun i =>
    bounds LOGSIZE i ;;
    sec ← getl (fun g => sectors g !!! i);
    bmod b (set32 (4 + 4 * i) (u32 sec))) ;;
  bwrite b ;;
  brelse b.

Definition recover_from_log : K st unit :=
  read_head ;;
  install_trans ;;
  setl (w_n 0) ;;
  write_head.

(** sizeof(struct logheader) is 44 bytes. *)
Definition log_init : K st unit :=
  when (BSIZE <=? 4 + 4 * LOGSIZE) (panic "log_init: too big logheader") ;;
  zoom lk_lens spinlock_init ;;
  sb ← read_superblock ROOTDEV;
  setl (fun g => w_geom (i32 (sb_size sb - sb_nlog sb)) (i32 (sb_nlog sb)) ROOTDEV g) ;;
  recover_from_log.

Definition begin_trans : K st unit :=
  zoom lk_lens (spinlock_acquire ks) ;;
  b ← getl busy;
  if negb (b =? 0) then fail Block        (* thread_sleep(&log, &log.lock) *)
  else
    setl (w_busy 1) ;;
    zoom lk_lens spinlock_release.

(** [chan] is the address of [log], the channel begin_trans sleeps on. *)
Definition LOG_CHAN : Z := -2.

Definition commit_trans : K st unit :=
  cnt ← getl n;
  when (0 <? cnt)
    (write_head ;;
     install_trans ;;
     setl (w_n 0) ;;
     write_head) ;;
  zoom lk_lens (spinlock_acquire ks) ;;
  setl (w_busy 0) ;;
  zoom bc_lens (thread_wakeup LOG_CHAN) ;;
  zoom lk_lens spinlock_release.

(** The search for the block in the log: [for (i = 0; i < log.lh.n; i++)]. *)
Definition find_logged (sec : Z) : K st Z :=
  cnt ← getl n;
  loop (Z.to_nat LOGSIZE + 1) (fun i =>
    if negb (i <? cnt) then mret (inr i)
    else
      bounds LOGSIZE i ;;
      x ← getl (fun g => sectors g !!! i);
      if u32 x =? sec then mret (inr i) else mret (inl (i + 1))) 0.

Definition log_write (b : Z) : K st unit :=
  cnt ← getl n;
  sz ← getl size;
  when ((LOGSIZE <=? cnt) || (sz - 1 <=? cnt)) (panic "too big a transaction") ;;
  bz ← getl busy;
  when (bz =? 0) (panic "write outside of trans") ;;
  sec ← bget b sector;
  i ← find_logged sec;
  bounds LOGSIZE i ;;
  setl (fun g => w_sectors (<[i := i32 sec]> (sectors g)) g) ;;
  dv ← bget b dev;
  st0 ← getl start;
  lbuf ← bread dv (st0 + i + 1);
  dat ← bget b data;
  bmod lbuf (blit 0 dat) ;;
  bwrite lbuf ;;
  brelse lbuf ;;
  cnt ← getl n;
  when (i =? cnt) (setl (w_n (cnt + 1))) ;;
  zoom bc_lens (bupd b (fun x => w_flags (Z.lor (flags x) B_DIRTY) x)).
End ops.

(** ** The cache as its clients see it

    [cache c H D v m w]: the cache [c] is consistent; the sectors [H] are held,
    [D] are dirty; [v] gives the contents of the sectors, [m] is the image on
    disk and [w] the writes that have been made. *)

Record cache {T} `{!Sched T} `{!SchedOk T} (c : Disk.state T) (H D : list key)
    (v : key -> block) (m : gmap key block) (w : list (key * block)) : Prop := {
  c_inv : exists l, bc_inv c l;
  c_pin : pinned c H D;
  c_view : forall k, key_ok k -> view c k = v k;
  c_image : image (hw c) = m;
  c_writes : writes (hw c) = w
}.

(** [b] is the buffer of the held sector [k]. *)
Definition owns {T} (c : Disk.state T) (b : Z) (k : key) : Prop :=
  0 <= b < NBUF /\ bkey (getb c b) = k /\ Bufcache.busy (getb c b) = true /\
  valid (getb c b) = true.

Definition upd (v : key -> block) (k : key) (d : block) : key -> block :=
  fun k' => if decide (k' = k) then d else v k'.

Section cache_specs.
Context {T : Type} `{!Sched T} `{!SchedOk T}.
Context (ks : kstack) (Hks : magic ks = KSTACK_MAGIC).
Abbreviation st := (state T).
Implicit Types (s : st) (c : Disk.state T).

Lemma owns_holds c H D v m w b k : cache c H D v m w -> key_ok k -> owns c b k ->
  holds c b k (v k).
Proof.
  intros [[l HI] _ Hv _ _] Hk (Hb & Hkb & Hbu & Hva). repeat split; try done; try lia.
  rewrite <- (Hv k Hk), <- Hkb. symmetry. eapply view_valid; [done | done | by rewrite Hkb | done].
Qed.

Lemma owns_same c b k k' : owns c b k -> owns c b k' -> k = k'.
Proof. intros (_ & <- & _) (_ & <- & _). done. Qed.

Lemma holds_owns c b k d : holds c b k d -> owns c b k.
Proof. by intros (? & ? & ? & ? & _). Qed.

Lemma owns_others c c' b b' k' : others c c' b -> b' <> b -> owns c b' k' -> owns c' b' k'.
Proof.
  intros Ho Hne (Hb & Hkb & Hbu & Hva).
  destruct (slot_inv _ _ (Ho b' Hb Hne)) as (Ek & Eb & Ev & _ & _).
  unfold owns. by rewrite Ek, Eb, Ev.
Qed.

Lemma owns_dirty c H D v m w b k : cache c H D v m w -> key_ok k -> owns c b k ->
  k ∈ D -> dirty (getb c b) = true.
Proof.
  intros [[l HI] HP _ _ _] Hk (Hb & Hkb & _) HD. apply (p_dirty _ _ _ HP) in HD as (i & Hi & Hki & Hd).
  assert (i = b) as ->; [|done]. eapply i_uniq; [exact HI | done | done | by rewrite Hki | congruence].
Qed.

Lemma cache_block_ok c H D v m w k : cache c H D v m w -> key_ok k -> blk_ok (v k).
Proof. intros [[l HI] _ Hv _ _] Hk. rewrite <- Hv by done. by eapply view_ok. Qed.

Lemma cache_image_ok c H D v m w k : cache c H D v m w -> blk_ok (sector_of m k).
Proof. intros [[l HI] _ _ <- _]. by eapply i_img. Qed.

Lemma u32_key k : key_ok k -> u32 k.1 = k.1 /\ u32 k.2 = k.2.
Proof. intros [Hd Hs]. split; apply u32_small; klia. Qed.

Lemma bread_wp s H D v m w k (Q : Z -> st -> Prop) :
  cache (bc s) H D v m w -> key_ok k -> k ∉ H -> (length H + length D < 10)%nat \/ k ∈ D ->
  (forall b c, cache c (k :: H) D v m w -> owns c b k ->
     (forall b' k', owns (bc s) b' k' -> owns c b' k') -> Q b (s_bc c s)) ->
  wp (bread ks k.1 k.2) Q s.
Proof.
  intros [[l HI] HP Hv Hm Hw] Hk HkH Hroom HQ. unfold bread. wp_step.
  destruct (u32_key k Hk) as [-> ->].
  apply (bufcache_read_wp ks Hks _ l H D k); try done.
  intros b c [[HI' Hb Hkb Hbu Hidle Hd Hold Ho Hview Himg Hwr] Hva Hdat] HP'.
  apply HQ.
  - split; [by exists l | done | | by rewrite Himg | by rewrite Hwr].
    intros k' Hk'. by rewrite Hview, Hv.
  - done.
  - intros b' k' Ho'. eapply owns_others; [done | | done]. intros ->.
    destruct Ho' as (_ & _ & Hbu' & _). unfold lget, bc_lens in *. congruence.
Qed.

Lemma bget_wp {A} s b (f : buf -> A) (Q : A -> st -> Prop) :
  0 <= b < NBUF -> Q (f (getb (bc s) b)) s -> wp (bget b f) Q s.
Proof.
  intros Hb HQ. unfold bget. wp_step. apply wp_bfield; [klia|]. by destruct s.
Qed.

Lemma bdata_wp s H D v m w b k (Q : block -> st -> Prop) :
  cache (bc s) H D v m w -> key_ok k -> owns (bc s) b k -> Q (v k) s -> wp (bget b data) Q s.
Proof.
  intros Hc Hk Ho HQ. destruct (owns_holds _ _ _ _ _ _ _ _ Hc Hk Ho) as (Hb & _ & _ & _ & Hd).
  apply bget_wp; [done|]. by rewrite Hd.
Qed.

Lemma bmod_wp s H D v m w b k f (Q : unit -> st -> Prop) :
  cache (bc s) H D v m w -> key_ok k -> owns (bc s) b k -> blk_ok (f (v k)) ->
  (forall c, cache c H D (upd v k (f (v k))) m w ->
     (forall b' k', owns (bc s) b' k' -> owns c b' k') -> Q tt (s_bc c s)) ->
  wp (bmod b f) Q s.
Proof.
  intros Hc Hk Ho Hok HQ. pose proof (owns_holds _ _ _ _ _ _ _ _ Hc Hk Ho) as Hh.
  destruct Hc as [[l HI] HP Hv Hm Hw]. unfold bmod. wp_step.
  assert (Hrun : wp (bupd b (w_data (f (v k)))) (fun a t => Q a (lput bc_lens t s)) (bc s)).
  { eapply (set_data_wp _ l); try done. intros c HI' HP' Hh' Ho' Hd' Hhw Hview.
    apply HQ.
    - split; [by exists l | done | | by rewrite Hhw | by rewrite Hhw].
      intros k' Hk'. rewrite Hview by done. unfold upd. case_decide; [done | by apply Hv].
    - intros b' k' Hb'. destruct (decide (b' = b)) as [->|Hne].
      + rewrite <- (owns_same _ _ _ _ Ho Hb'). by eapply holds_owns.
      + by eapply owns_others. }
  unfold wp, bupd in *. destruct Hh as (_ & _ & _ & _ & Hd).
  unfold mbind, K_bind, modify in *. destruct (bounds _ _ _) as [[] s1|e] eqn:E; [|done].
  assert (s1 = bc s) as ->; [|cbn in *; by rewrite Hd].
  unfold bounds in E. destruct (in_bounds _ _); by inversion E.
Qed.

Lemma bwrite_wp s H D v m w b k (Q : unit -> st -> Prop) :
  cache (bc s) H D v m w -> key_ok k -> owns (bc s) b k ->
  (forall c, cache c H (without k D) v (<[k := v k]> m) (w ++ [(k, v k)]) ->
     (forall b' k', owns (bc s) b' k' -> owns c b' k') -> Q tt (s_bc c s)) ->
  wp (bwrite ks b) Q s.
Proof.
  intros Hc Hk Ho HQ. pose proof (owns_holds _ _ _ _ _ _ _ _ Hc Hk Ho) as Hh.
  destruct Hc as [[l HI] HP Hv Hm Hw]. unfold bwrite. wp_step.
  eapply (bufcache_write_wp ks Hks _ l); try done.
  intros c HI' HP' Hh' Hnd Ho' Himg Hwr Hview. apply HQ.
  - split; [by exists l | done | | cbn in *; by rewrite Himg, Hm | cbn in *; by rewrite Hwr, Hw].
    intros k' Hk'. by rewrite Hview, Hv.
  - intros b' k' Hb'. destruct (decide (b' = b)) as [->|Hne]; [|by eapply owns_others].
    rewrite <- (owns_same _ _ _ _ Ho Hb'). by eapply holds_owns.
Qed.

Lemma brelse_wp s H D v m w b k (Q : unit -> st -> Prop) :
  cache (bc s) H D v m w -> key_ok k -> owns (bc s) b k ->
  k ∈ D \/ v k = sector_of m k ->
  (forall c, cache c (without k H) D v m w ->
     (forall b' k', k' <> k -> owns (bc s) b' k' -> owns c b' k') -> Q tt (s_bc c s)) ->
  wp (brelse ks b) Q s.
Proof.
  intros Hc Hk Ho Hcl HQ. pose proof (owns_holds _ _ _ _ _ _ _ _ Hc Hk Ho) as Hh.
  assert (Hcl' : dirty (getb (bc s) b) = true \/ v k = sector_of (image (hw (bc s))) k).
  { destruct Hcl as [HD|Heq]; [left; by eapply owns_dirty | right; by rewrite (c_image _ _ _ _ _ _ Hc)]. }
  destruct Hc as [[l HI] HP Hv Hm Hw]. unfold brelse. wp_step.
  eapply (bufcache_release_wp ks Hks _ l); try done.
  intros c l1 l2 _ HI' HP' Ho' _ Hhw Hview. apply HQ.
  - split; [by eexists | done | | cbn in *; by rewrite Hhw | cbn in *; by rewrite Hhw].
    intros k' Hk'. by rewrite Hview, Hv.
  - intros b' k' Hne Hb'. eapply owns_others; [done | | done]. intros ->.
    by rewrite (owns_same _ _ _ _ Ho Hb') in Hne.
Qed.

Lemma bdirty_wp s H D v m w b k (Q : unit -> st -> Prop) :
  cache (bc s) H D v m w -> key_ok k -> owns (bc s) b k ->
  (forall c, cache c H (k :: D) v m w ->
     (forall b' k', owns (bc s) b' k' -> owns c b' k') -> Q tt (s_bc c s)) ->
  wp (zoom bc_lens (bupd b (fun x => w_flags (Z.lor (flags x) B_DIRTY) x))) Q s.
Proof.
  intros Hc Hk Ho HQ. pose proof (owns_holds _ _ _ _ _ _ _ _ Hc Hk Ho) as Hh.
  destruct Hc as [[l HI] HP Hv Hm Hw]. wp_step.
  eapply (mark_dirty_wp _ l); try done. intros c HI' HP' Hh' Ho' Hd Hhw Hview. apply HQ.
  - split; [by exists l | done | | cbn in *; by rewrite Hhw | cbn in *; by rewrite Hhw].
    intros k' Hk'. by rewrite Hview, Hv.
  - intros b' k' Hb'. destruct (decide (b' = b)) as [->|Hne]; [|by eapply owns_others].
    rewrite <- (owns_same _ _ _ _ Ho Hb'). by eapply holds_owns.
Qed.
End cache_specs.

(** ** Sequences of sector writes *)

Definition apply_writes (m : gmap key block) (ws : list (key * block)) : gmap key block :=
  foldl (fun m e => <[e.1 := e.2]> m) m ws.
Definition vupds (v : key -> block) (ws : list (key * block)) : key -> block :=
  foldl (fun v e => upd v e.1 e.2) v ws.

Lemma sector_of_insert m k d k' : sector_of (<[k := d]> m) k' = upd (sector_of m) k d k'.
Proof.
  unfold sector_of, upd. case_decide; [subst; by rewrite lookup_insert_eq|].
  by rewrite lookup_insert_ne.
Qed.

Lemma vupds_ext v v' ws k : v k = v' k -> vupds v ws k = vupds v' ws k.
Proof.
  revert v v'. induction ws as [|[k' d] ws IH]; intros v v' Hv; [done|]. cbn.
  apply IH. unfold upd. by case_decide.
Qed.

Lemma sector_of_apply m ws k : sector_of (apply_writes m ws) k = vupds (sector_of m) ws k.
Proof.
  revert m. induction ws as [|[k' d] ws IH]; intros m; [done|]. cbn.
  rewrite IH. apply vupds_ext, sector_of_insert.
Qed.

Lemma vupds_app v ws ws' : vupds v (ws ++ ws') = vupds (vupds v ws) ws'.
Proof. apply foldl_app. Qed.
Lemma apply_writes_app m ws ws' : apply_writes m (ws ++ ws') = apply_writes (apply_writes m ws) ws'.
Proof. apply foldl_app. Qed.

Lemma vupds_notin v ws k : k ∉ ws.*1 -> vupds v ws k = v k.
Proof.
  revert v. induction ws as [|[k' d] ws IH]; intros v Hk; [done|]. cbn in *.
  rewrite IH by set_solver. unfold upd. case_decide; [set_solver | done].
Qed.

Lemma vupds_in v ws k d : NoDup ws.*1 -> (k, d) ∈ ws -> vupds v ws k = d.
Proof.
  revert v. induction ws as [|[k' d'] ws IH]; intros v Hnd Hin; [set_solver|]. cbn in *.
  apply NoDup_cons in Hnd as [Hni Hnd]. apply elem_of_cons in Hin as [[= -> ->]|Hin].
  - rewrite vupds_notin by done. unfold upd. by rewrite decide_True.
  - by apply IH.
Qed.

(** Writing again what is already there changes nothing. *)
Lemma vupds_same v ws k : (forall k' d, (k', d) ∈ ws -> v k' = d) -> vupds v ws k = v k.
Proof.
  revert v. induction ws as [|[k' d'] ws IH]; intros v H; [done|]. cbn.
  assert (Hu : forall k, upd v k' d' k = v k).
  { intros k1. unfold upd. case_decide; [|done]. subst. symmetry. apply H. set_solver. }
  rewrite IH; [apply Hu|]. intros k1 d1 Hin. rewrite Hu. apply H. set_solver.
Qed.

(** ** The header block *)

Definition head_n (d : block) : Z := i32 (get32 d 0).
Definition head_sec (d : block) (i : Z) : Z := i32 (get32 d (4 + 4 * i)).
Definition head_secs (d : block) : list Z := head_sec d <$> seqZ 0 (head_n d).

(** The header block [d] with the sectors from slot [i] on overwritten. *)
Fixpoint put_secs (i : Z) (secs : list Z) (d : block) : block :=
  match secs with
  | [] => d
  | x :: r => put_secs (i + 1) r (set32 (4 + 4 * i) (u32 x) d)
  end.
Definition put_head (secs : list Z) (d : block) : block :=
  put_secs 0 secs (set32 0 (u32 (zlen secs)) d).

Lemma set32_ok off x d : 0 <= off -> off + 4 <= BSIZE -> blk_ok d -> blk_ok (set32 off x d).
Proof.
  intros Ho Hl [Hd Hb]. split.
  - rewrite set32_length; [done | lia | by rewrite Hd].
  - apply Forall_blit; [apply le_enc_bytes | done].
Qed.

Lemma put_secs_ok i secs d : 0 <= i -> i + zlen secs <= LOGSIZE -> blk_ok d ->
  blk_ok (put_secs i secs d).
Proof.
  revert i d. induction secs as [|x secs IH]; intros i d Hi Hl Hd; [done|]. cbn [put_secs].
  unfold zlen in *. cbn [length] in Hl. apply IH; [lia | lia |].
  apply set32_ok; [lia | klia | done].
Qed.

Lemma put_secs_get i secs d o : 0 <= i -> i + zlen secs <= LOGSIZE -> blk_ok d ->
  0 <= o -> o + 4 <= 4 + 4 * i -> get32 (put_secs i secs d) o = get32 d o.
Proof.
  revert i d. induction secs as [|x secs IH]; intros i d Hi Hl Hd Ho Hoi; [done|]. cbn [put_secs].
  unfold zlen in *. cbn [length] in Hl.
  rewrite IH; [|lia | lia | apply set32_ok; [lia | klia | done] | lia | lia].
  destruct Hd as [Hd _]. apply get32_set32_ne; [lia | rewrite Hd; klia | lia | lia].
Qed.

Lemma put_secs_lookup i secs d t x : 0 <= i -> i + zlen secs <= LOGSIZE -> blk_ok d ->
  secs !! t = Some x -> 0 <= x < 2 ^ 28 -> head_sec (put_secs i secs d) (i + Z.of_nat t) = x.
Proof.
  revert i d t. induction secs as [|y secs IH]; intros i d t Hi Hl Hd Ht Hx; [done|].
  unfold zlen in *. cbn [length] in Hl. cbn [put_secs].
  assert (Hd' : blk_ok (set32 (4 + 4 * i) (u32 y) d)) by (apply set32_ok; [lia | klia | done]).
  destruct t as [|t]; cbn in Ht.
  - injection Ht as ->. unfold head_sec. rewrite Z.add_0_r.
    rewrite put_secs_get; [| lia | unfold zlen; lia | done | lia | lia].
    destruct Hd as [Hd _]. rewrite get32_set32; [| lia | rewrite Hd; klia | apply u32_range].
    rewrite u32_small by klia. apply i32_small. lia.
  - replace (i + Z.of_nat (S t)) with (i + 1 + Z.of_nat t) by lia. by apply IH; [lia | lia | | |].
Qed.

Definition secs_ok (a : Z) (secs : list Z) : Prop :=
  zlen secs <= LOGSIZE /\ NoDup secs /\ forall x, x ∈ secs -> 2 <= x < a.

Lemma put_head_n secs d : blk_ok d -> zlen secs <= LOGSIZE -> head_n (put_head secs d) = zlen secs.
Proof.
  intros Hd Hl. unfold head_n, put_head.
  assert (0 <= zlen secs) by (unfold zlen; lia).
  rewrite put_secs_get; [| lia | lia | apply set32_ok; [lia | klia | done] | lia | lia].
  destruct Hd as [Hd _]. rewrite get32_set32; [| lia | rewrite Hd; klia | apply u32_range].
  rewrite u32_small by klia. apply i32_small. klia.
Qed.

(** Reading a header back gives the sectors that were written. *)
Lemma put_head_secs a secs d : blk_ok d -> secs_ok a secs -> a <= 2 ^ 28 ->
  head_secs (put_head secs d) = secs.
Proof.
  intros Hd (Hl & _ & Hx) Ha. unfold head_secs. rewrite put_head_n by done.
  apply list_eq. intros t. rewrite list_lookup_fmap.
  destruct (decide (Z.of_nat t < zlen secs)) as [Ht|Ht].
  - assert (seqZ 0 (zlen secs) !! t = Some (Z.of_nat t)) as ->.
    { apply lookup_seqZ. lia. }
    cbn. unfold zlen in Ht. destruct (lookup_lt_is_Some_2 secs t) as [x Ex]; [lia|]. rewrite Ex.
    f_equal. apply (put_secs_lookup 0 secs _ t x); [lia | done | | done |].
    + apply set32_ok; [lia | klia | done].
    + apply list_elem_of_lookup_2, Hx in Ex. lia.
  - rewrite (lookup_ge_None_2 secs) by (unfold zlen in Ht; lia).
    assert (seqZ 0 (zlen secs) !! t = None) as ->; [|done].
    apply lookup_ge_None_2. rewrite length_seqZ. unfold zlen in *. lia.
Qed.

(** ** The operations *)

(** Sector [x] of the root device; the log area starts at [a]. *)
Definition home (x : Z) : key := (ROOTDEV, x).

Record geom (g : log) (a : Z) : Prop := {
  ge_start : start g = a;
  ge_dev : ldev g = ROOTDEV;
  ge_size : LOGSIZE <= size g;
  ge_low : 2 <= a;
  ge_high : a + size g < 2 ^ 28
}.

(** The header in memory lists [secs]. *)
Definition log_mem (g : log) (secs : list Z) : Prop :=
  n g = zlen secs /\ forall t x, secs !! t = Some x -> sectors g !!! Z.of_nat t = x.

(** What installing [secs] writes. *)
Definition entries (a : Z) (v : key -> block) (secs : list Z) : list (key * block) :=
  imap (fun i x => (home x, v (home (a + 1 + Z.of_nat i)))) secs.

Lemma entries_lookup a v secs t x : secs !! t = Some x ->
  entries a v secs !! t = Some (home x, v (home (a + 1 + Z.of_nat t))).
Proof. intros H. unfold entries. by rewrite list_lookup_imap, H. Qed.

Lemma entries_keys a v secs : (entries a v secs).*1 = home <$> secs.
Proof. unfold entries. rewrite fmap_imap. apply imap_const. Qed.

Lemma entries_length a v secs : length (entries a v secs) = length secs.
Proof. apply length_imap. Qed.

Section log_specs.
Context {T : Type} `{!Sched T} `{!SchedOk T}.
Context (ks : kstack) (Hks : magic ks = KSTACK_MAGIC).
Abbreviation st := (state T).
Implicit Types (s : st) (c : Disk.state T).

Lemma cache_clean c H D v m w k : cache c H D v m w -> key_ok k -> k ∉ H -> k ∉ D ->
  v k = sector_of m k.
Proof.
  intros [[l HI] HP Hv Hm Hw] Hk HkH HkD. rewrite <- Hv, <- Hm by done.
  eapply view_clean; [done | done |]. intros i Hi Hki. split.
  - destruct (dirty (getb c i)) eqn:E; [|done]. exfalso. apply HkD, (p_dirty _ _ _ HP). eauto.
  - destruct (Bufcache.busy (getb c i)) eqn:E; [|done]. exfalso. apply HkH.
    rewrite <- Hki. by apply (p_busy _ _ _ HP).
Qed.

Lemma cache_ext c H H' D D' v v' m w :
  (forall k, k ∈ H <-> k ∈ H') -> (forall k, k ∈ D <-> k ∈ D') -> (forall k, v k = v' k) ->
  cache c H D v m w -> cache c H' D' v' m w.
Proof.
  intros EH ED Ev [HI [Hb Hd] Hv Hm Hw]. split; try done.
  - split; [intros i Hi Hbi; by apply EH, Hb | intros k; by rewrite <- ED].
  - intros k Hk. by rewrite Hv.
Qed.

Lemma home_ok a g x : geom g a -> 0 <= x <= a + size g -> key_ok (home x).
Proof. intros [] Hx. split; cbn; klia. Qed.

Lemma without_notin k K : k ∉ K -> without k K = K.
Proof.
  intros Hk. unfold without. induction K as [|k' K IH]; [done|].
  rewrite filter_cons_True by set_solver. f_equal. apply IH. set_solver.
Qed.

Lemma without_one k : without k [k] = [].
Proof. unfold without. rewrite filter_cons_False by tauto. done. Qed.

Lemma setl_wp f s (Q : unit -> st -> Prop) : Q tt (s_lg (f (lg s)) s) -> wp (setl f) Q s.
Proof. done. Qed.
Lemma getl_wp {A} (f : log -> A) s (Q : A -> st -> Prop) : Q (f (lg s)) s -> wp (getl f) Q s.
Proof. done. Qed.

(** The header loop of write_head. *)
Lemma put_loop s b k secs D v m w t d :
  cache (bc s) [k] D (upd v k d) m w -> key_ok k -> owns (bc s) b k -> log_mem (lg s) (t ++ secs) ->
  zlen (t ++ secs) <= LOGSIZE -> blk_ok d ->
  wp (for_range (length secs) (zlen t) (fun i =>
        bounds LOGSIZE i ;; sec ← getl (fun g => sectors g !!! i);
        bmod b (set32 (4 + 4 * i) (u32 sec))))
    (fun _ s' => exists c, s' = s_bc c s /\ owns c b k /\
       cache c [k] D (upd v k (put_secs (zlen t) secs d)) m w) s.
Proof.
  revert s t d. induction secs as [|x secs IH]; intros s t d Hc Hk Ho Hmem Hlen Hd; cbn [length for_range].
  - wp_step. exists (bc s). split; [by destruct s | done].
  - assert (Hzt : 0 <= zlen t < LOGSIZE).
    { unfold zlen in *. rewrite length_app in Hlen. cbn [length] in Hlen. lia. }
    wp_step. wp_step. apply wp_bounds; [done|]. wp_step. apply getl_wp.
    assert (Hx : sectors (lg s) !!! zlen t = x).
    { apply Hmem. rewrite lookup_app_r, Nat.sub_diag by lia. done. }
    rewrite Hx. eapply (bmod_wp _ _ _ _ _ _ _ k); try done.
    { unfold upd. rewrite decide_True by done. apply set32_ok; [lia | klia | done]. }
    intros c Hc' Ho'.
    assert (Ev : forall k', upd (upd v k d) k (set32 (4 + 4 * zlen t) (u32 x) (upd v k d k)) k' =
      upd v k (set32 (4 + 4 * zlen t) (u32 x) d) k').
    { intros k'. unfold upd. repeat case_decide; try done; by rewrite decide_True. }
    assert (Et : zlen t + 1 = zlen (t ++ [x])).
    { unfold zlen. rewrite length_app. cbn [length]. lia. }
    rewrite Et.
    eapply wp_mono; [apply (IH (s_bc c s) (t ++ [x]) (set32 (4 + 4 * zlen t) (u32 x) d))|].
    + eapply cache_ext; [done | done | exact Ev | exact Hc'].
    + done.
    + by apply Ho'.
    + by rewrite <- app_assoc.
    + by rewrite <- app_assoc.
    + apply set32_ok; [lia | klia | done].
    + intros [] s' (c' & -> & Ho2 & Hc2). exists c'. split; [done|]. split; [done|].
      cbn [put_secs]. by rewrite Et.
Qed.

Lemma write_head_wp s a secs D v m w (Q : unit -> st -> Prop) :
  let new := put_head secs (v (home a)) in
  cache (bc s) [] D v m w -> geom (lg s) a -> log_mem (lg s) secs -> zlen secs <= LOGSIZE ->
  (length D < 10)%nat -> home a ∉ D ->
  (forall c, cache c [] D (upd v (home a) new) (<[home a := new]> m) (w ++ [(home a, new)]) ->
     Q tt (s_bc c s)) ->
  wp (write_head ks) Q s.
Proof.
  cbn zeta. intros Hc Hg Hmem Hl HD Ha HQ.
  assert (Hk : key_ok (home a)) by (eapply home_ok; [done|]; destruct Hg; klia).
  assert (Hok : blk_ok (v (home a))) by by eapply cache_block_ok.
  assert (Hl0 : 0 <= zlen secs) by (unfold zlen; lia).
  unfold write_head. wp_step. apply getl_wp. wp_step. apply getl_wp.
  rewrite (ge_dev _ _ Hg), (ge_start _ _ Hg). wp_step.
  eapply (bread_wp ks Hks _ _ _ _ _ _ (home a)); [done | done | apply not_elem_of_nil | by left |].
  intros b c1 Hc1 Ho1 _. wp_step. apply getl_wp. cbn [lg s_bc]. rewrite (proj1 Hmem). wp_step.
  eapply bmod_wp; [exact Hc1 | done | done | apply set32_ok; [lia | klia | done] |].
  intros c2 Hc2 Ho2. wp_step. unfold for_. rewrite Z.sub_0_r. unfold zlen at 1. rewrite Nat2Z.id.
  change 0 with (zlen (@nil Z)).
  eapply wp_mono.
  { eapply (put_loop _ b (home a) secs D v m w []); [exact Hc2 | done | by apply Ho2 | done | done |].
    apply set32_ok; [lia | klia | done]. }
  intros [] s3 (c3 & -> & Ho3 & Hc3). change (zlen []) with 0 in Hc3.
  fold (put_head secs (v (home a))) in Hc3. wp_step.
  eapply bwrite_wp; [done | exact Hc3 | done | done |]. intros c4 Hc4 Ho4.
  rewrite without_notin in Hc4 by done.
  assert (Eu : upd v (home a) (put_head secs (v (home a))) (home a) = put_head secs (v (home a))).
  { unfold upd. by rewrite decide_True. }
  rewrite Eu in Hc4.
  eapply brelse_wp; [done | exact Hc4 | done | by apply Ho4 | |].
  { right. rewrite Eu, sector_of_insert. unfold upd. by rewrite decide_True. }
  intros c5 Hc5 _. rewrite without_one in Hc5. by apply HQ.
Qed.

Lemma install_one s a secs t x D v m w (Q : unit -> st -> Prop) :
  let d := v (home (a + 1 + Z.of_nat t)) in
  cache (bc s) [] D v m w -> geom (lg s) a -> log_mem (lg s) secs -> secs_ok a secs ->
  secs !! t = Some x -> (length D < 10)%nat -> (length D < 9)%nat \/ home x ∈ D ->
  home (a + 1 + Z.of_nat t) ∉ D ->
  (forall c, cache c [] (without (home x) D) (upd v (home x) d) (<[home x := d]> m)
       (w ++ [(home x, d)]) -> Q tt (s_bc c s)) ->
  wp (dv ← getl ldev; st0 ← getl start; lbuf ← bread ks dv (st0 + Z.of_nat t + 1);
      bounds LOGSIZE (Z.of_nat t) ;; sec ← getl (fun g => sectors g !!! Z.of_nat t);
      dbuf ← bread ks dv sec; ld ← bget lbuf data; bmod dbuf (blit 0 ld) ;;
      bwrite ks dbuf ;; brelse ks lbuf ;; brelse ks dbuf) Q s.
Proof.
  cbn zeta. intros Hc Hg Hmem (Hlen & Hnd & Hx) Ht HD HDx Hlog HQ.
  pose proof (lookup_lt_Some _ _ _ Ht) as Htl. unfold zlen in Hlen.
  assert (Hxr : 2 <= x < a) by (eapply Hx, list_elem_of_lookup_2, Ht).
  assert (Hkl : key_ok (home (a + 1 + Z.of_nat t))) by (eapply home_ok; [done|]; destruct Hg; klia).
  assert (Hkx : key_ok (home x)) by (eapply home_ok; [done|]; destruct Hg; klia).
  assert (Hne : home x <> home (a + 1 + Z.of_nat t)) by (intros [= ?]; klia).
  wp_step. apply getl_wp. wp_step. apply getl_wp.
  rewrite (ge_dev _ _ Hg), (ge_start _ _ Hg). wp_step.
  replace (a + Z.of_nat t + 1) with (a + 1 + Z.of_nat t) by lia.
  eapply (bread_wp ks Hks _ _ _ _ _ _ (home (a + 1 + Z.of_nat t)));
    [done | done | apply not_elem_of_nil | by left |].
  intros lb c1 Hc1 Ho1 _. wp_step. apply wp_bounds; [klia|]. wp_step. apply getl_wp.
  cbn [lg s_bc]. rewrite (proj2 Hmem t x Ht). wp_step.
  eapply (bread_wp ks Hks _ _ _ _ _ _ (home x)); [exact Hc1 | done | set_solver | |].
  { destruct HDx; [left; cbn; lia | by right]. }
  intros db c2 Hc2 Ho2 Hk2. wp_step.
  eapply bdata_wp; [exact Hc2 | exact Hkl | by apply Hk2 |]. wp_step.
  assert (Eb : blit 0 (v (home (a + 1 + Z.of_nat t))) (v (home x)) = v (home (a + 1 + Z.of_nat t))).
  { apply blit_all. pose proof (cache_block_ok _ _ _ _ _ _ _ Hc Hkl) as [-> _].
    by pose proof (cache_block_ok _ _ _ _ _ _ _ Hc Hkx) as [-> _]. }
  eapply bmod_wp; [exact Hc2 | exact Hkx | done | |].
  { rewrite Eb. by eapply cache_block_ok. }
  rewrite Eb. intros c3 Hc3 Ho3. wp_step.
  eapply bwrite_wp; [done | exact Hc3 | exact Hkx | by apply Ho3 |]. intros c4 Hc4 Ho4.
  assert (Eu : upd v (home x) (v (home (a + 1 + Z.of_nat t))) (home x) = v (home (a + 1 + Z.of_nat t))).
  { unfold upd. by rewrite decide_True. }
  rewrite Eu in Hc4. wp_step.
  eapply brelse_wp; [done | exact Hc4 | exact Hkl | by apply Ho4, Ho3, Hk2 | |].
  { right. rewrite sector_of_insert. unfold upd. rewrite !decide_False by done.
    eapply cache_clean; [exact Hc | done | apply not_elem_of_nil | done]. }
  intros c5 Hc5 Ho5.
  eapply brelse_wp; [done | exact Hc5 | exact Hkx | by apply Ho5, Ho4, Ho3 | |].
  { right. rewrite sector_of_insert. unfold upd. by rewrite !decide_True. }
  intros c6 Hc6 _. apply HQ. eapply cache_ext; [| | |exact Hc6]; try done.
  intros k. rewrite !elem_of_without. set_solver.
Qed.

(** [entries] from slot [i] on. *)
Definition ents (i : nat) (a : Z) (v : key -> block) (secs : list Z) : list (key * block) :=
  imap (fun j x => (home x, v (home (a + 1 + Z.of_nat (i + j))))) secs.

Lemma ents_ext i a v v' secs :
  (forall j, 0 <= j -> v (home (a + 1 + j)) = v' (home (a + 1 + j))) -> ents i a v secs = ents i a v' secs.
Proof. intros H. apply imap_ext. intros j x _. by rewrite H by lia. Qed.

Definition withouts (secs : list Z) (D : list key) : list key :=
  foldl (fun D x => without (home x) D) D secs.

Lemma elem_of_withouts secs D k : k ∈ withouts secs D <-> k ∈ D /\ k ∉ home <$> secs.
Proof.
  revert D. induction secs as [|x secs IH]; intros D; cbn; [set_solver|].
  fold (withouts secs (without (home x) D)). rewrite IH, elem_of_without. set_solver.
Qed.

Lemma withouts_nil secs : withouts secs [] = [].
Proof. by induction secs. Qed.

(** Waking threads up does not touch the cache. *)
Lemma cache_sch c H D v m w t : cache c H D v m w -> sched_ok t -> cache (s_sch t c) H D v m w.
Proof.
  intros [[l [[] [] ? ? ?]] [] ? ? ?] Ht. split; try done.
  by exists l.
Qed.

Lemma length_without k D : (length (without k D) <= length D)%nat.
Proof. apply length_filter. Qed.

Lemma install_loop s a t rest D v m w :
  cache (bc s) [] D v m w -> geom (lg s) a -> log_mem (lg s) (t ++ rest) -> secs_ok a (t ++ rest) ->
  (length D < 10)%nat -> (length D < 9)%nat \/ (forall x, x ∈ rest -> home x ∈ D) ->
  (forall x, a <= x -> home x ∉ D) ->
  wp (for_range (length rest) (zlen t) (fun tail =>
      dv ← getl ldev; st0 ← getl start; lbuf ← bread ks dv (st0 + tail + 1);
      bounds LOGSIZE tail ;; sec ← getl (fun g => sectors g !!! tail);
      dbuf ← bread ks dv sec; ld ← bget lbuf data; bmod dbuf (blit 0 ld) ;;
      bwrite ks dbuf ;; brelse ks lbuf ;; brelse ks dbuf))
    (fun _ s' => exists c, s' = s_bc c s /\
       cache c [] (withouts rest D) (vupds v (ents (length t) a v rest))
         (apply_writes m (ents (length t) a v rest)) (w ++ ents (length t) a v rest)) s.
Proof.
  revert s t D v m w. induction rest as [|x rest IH];
    intros s t D v m w Hc Hg Hmem Hok HD HDx Hlog; cbn [length for_range].
  - wp_step. exists (bc s). split; [by destruct s|]. cbn. by rewrite app_nil_r.
  - wp_step.
    assert (Hxin : 2 <= x < a) by (apply Hok; set_solver).
    assert (Hxr : x ∉ rest).
    { destruct Hok as (_ & Hnd & _). apply NoDup_app in Hnd as (_ & _ & Hnd).
      by apply NoDup_cons in Hnd as [? _]. }
    eapply (install_one s a (t ++ x :: rest) (length t) x); try done.
    { by rewrite lookup_app_r, Nat.sub_diag by lia. }
    { destruct HDx; [by left | right; set_solver]. }
    { apply Hlog. lia. }
    intros c Hc'.
    assert (Et : zlen t + 1 = zlen (t ++ [x])).
    { unfold zlen. rewrite length_app. cbn [length]. lia. }
    rewrite Et. set (d := v (home (a + 1 + Z.of_nat (length t)))) in *.
    eapply wp_mono; [apply (IH (s_bc c s) (t ++ [x]) _ _ _ _ Hc')|].
    + done.
    + by rewrite <- app_assoc.
    + by rewrite <- app_assoc.
    + pose proof (length_without (home x) D). lia.
    + pose proof (length_without (home x) D). destruct HDx as [|HDx]; [left; lia | right].
      intros y Hy. apply elem_of_without. split; [intros [= ->]; done | apply HDx; set_solver].
    + intros y Hy. rewrite elem_of_without. intros [_ Hin]. by apply (Hlog y).
    + intros [] s' (c' & -> & Hc2). exists c'. split; [done|].
      assert (Ee : (home x, d) :: ents (length (t ++ [x])) a (upd v (home x) d) rest =
        ents (length t) a v (x :: rest)).
      { unfold ents at 2. cbn [imap]. rewrite Nat.add_0_r. f_equal.
        rewrite (ents_ext _ a _ v).
        - apply imap_ext. intros j y _. cbn. rewrite length_app. cbn [length].
          by replace (length t + 1 + j)%nat with (length t + S j)%nat by lia.
        - intros j Hj. unfold upd. rewrite decide_False; [done|]. intros [= ?]. lia. }
      rewrite <- Ee. rewrite <- app_assoc in Hc2. exact Hc2.
Qed.

Lemma ents_0 a v secs : ents 0 a v secs = entries a v secs.
Proof. done. Qed.

Lemma install_trans_wp s a secs D v m w (Q : unit -> st -> Prop) :
  cache (bc s) [] D v m w -> geom (lg s) a -> log_mem (lg s) secs -> secs_ok a secs ->
  (length D < 10)%nat -> (length D < 9)%nat \/ (forall x, x ∈ secs -> home x ∈ D) ->
  (forall x, a <= x -> home x ∉ D) ->
  (forall c, cache c [] (withouts secs D) (vupds v (entries a v secs))
       (apply_writes m (entries a v secs)) (w ++ entries a v secs) -> Q tt (s_bc c s)) ->
  wp (install_trans ks) Q s.
Proof.
  intros Hc Hg Hmem Hok HD HDx Hlog HQ. unfold install_trans. wp_step. apply getl_wp.
  rewrite (proj1 Hmem). unfold for_. rewrite Z.sub_0_r. unfold zlen at 1. rewrite Nat2Z.id.
  change 0 with (zlen (@nil Z)).
  eapply wp_mono; [by eapply (install_loop s a [] secs)|].
  intros [] s' (c & -> & Hc'). by apply HQ.
Qed.

(** read_head loads the header on disk. *)
Lemma read_loop s d (cnt : nat) :
  Z.of_nat cnt <= LOGSIZE ->
  wp (for_ 0 (Z.of_nat cnt) (fun i =>
        bounds LOGSIZE i ;;
        setl (fun g => w_sectors (<[i := head_sec d i]> (sectors g)) g)))
    (fun _ s' => exists m, s' = s_lg (w_sectors m (lg s)) s /\
       forall i, 0 <= i < Z.of_nat cnt -> m !!! i = head_sec d i) s.
Proof.
  intros Hc.
  apply (wp_for (fun i s' => exists m, s' = s_lg (w_sectors m (lg s)) s /\
    forall j, 0 <= j < i -> m !!! j = head_sec d j)); [lia | | | done].
  - exists (sectors (lg s)). split; [by destruct s as [? []] | lia].
  - intros i s' Hi (m & -> & Hm). wp_step. apply wp_bounds; [lia|]. apply setl_wp.
    exists (<[i := head_sec d i]> m). split; [done|]. intros j Hj.
    destruct (decide (j = i)) as [->|]; [by rewrite lookup_total_insert_eq|].
    rewrite lookup_total_insert_ne by done. apply Hm. lia.
Qed.

Lemma read_head_wp s a v m w (Q : unit -> st -> Prop) :
  let d := v (home a) in
  cache (bc s) [] [] v m w -> geom (lg s) a -> 0 <= head_n d <= LOGSIZE ->
  (forall c g, cache c [] [] v m w -> geom g a -> log_mem g (head_secs d) ->
     log_lk g = log_lk (lg s) -> busy g = busy (lg s) -> Q tt (State c g)) ->
  wp (read_head ks) Q s.
Proof.
  cbn zeta. intros Hc Hg Hn HQ.
  assert (Hk : key_ok (home a)) by (eapply home_ok; [done|]; destruct Hg; klia).
  unfold read_head. wp_step. apply getl_wp. wp_step. apply getl_wp.
  rewrite (ge_dev _ _ Hg), (ge_start _ _ Hg). wp_step.
  eapply (bread_wp ks Hks _ _ _ _ _ _ (home a)); [done | done | apply not_elem_of_nil | left; cbn; lia |].
  intros b c1 Hc1 Ho1 _. wp_step. eapply bdata_wp; [exact Hc1 | done | done |].
  wp_step. apply setl_wp. wp_step. apply getl_wp. wp_step. cbn [lg s_lg s_bc n w_n].
  fold (head_n (v (home a))). rewrite <- (Z2Nat.id (head_n (v (home a)))) by lia.
  eapply wp_mono; [apply read_loop; lia|]. intros [] s' (sm & -> & Hsm).
  eapply brelse_wp; [done | exact Hc1 | done | done | |].
  { right. eapply cache_clean; [exact Hc | done | apply not_elem_of_nil | apply not_elem_of_nil]. }
  intros c2 Hc2 _. rewrite without_one in Hc2.
  apply HQ; try done.
  - by destruct Hg.
  - split; cbn.
    + unfold head_secs, zlen. rewrite length_fmap, length_seqZ. lia.
    + intros t x Ht. unfold head_secs in Ht. rewrite list_lookup_fmap in Ht.
      apply fmap_Some_1 in Ht as (i & Hi & ->). apply lookup_seqZ in Hi as [-> Hi].
      rewrite Z.add_0_l. apply Hsm. lia.
Qed.

(** *** Recovery *)

(** The writes recovery makes when the sectors contain [v]. *)
Definition recovery (a : Z) (v : key -> block) : list (key * block) :=
  let ws := entries a v (head_secs (v (home a))) in
  ws ++ [(home a, put_head [] (vupds v ws (home a)))].

Lemma log_mem_nil g : log_mem (w_n 0 g) [].
Proof. by split. Qed.

Lemma geom_w_n g a v : geom g a -> geom (w_n v g) a.
Proof. by intros []. Qed.

Lemma recover_wp s a v m w (Q : unit -> st -> Prop) :
  cache (bc s) [] [] v m w -> geom (lg s) a -> 0 <= head_n (v (home a)) <= LOGSIZE ->
  secs_ok a (head_secs (v (home a))) ->
  (forall c g, cache c [] [] (vupds v (recovery a v)) (apply_writes m (recovery a v))
       (w ++ recovery a v) -> geom g a -> n g = 0 ->
     log_lk g = log_lk (lg s) -> busy g = busy (lg s) -> Q tt (State c g)) ->
  wp (recover_from_log ks) Q s.
Proof.
  intros Hc Hg Hn Hok HQ. unfold recover_from_log. wp_step.
  eapply read_head_wp; [exact Hc | done | done |]. intros c1 g1 Hc1 Hg1 Hm1 Hlk1 Hb1. wp_step.
  eapply install_trans_wp; [exact Hc1 | exact Hg1 | exact Hm1 | done | cbn; lia | left; cbn; lia | |].
  { intros x _. apply not_elem_of_nil. }
  intros c2 Hc2. rewrite withouts_nil in Hc2. wp_step. apply setl_wp.
  eapply write_head_wp; [exact Hc2 | by apply geom_w_n | apply log_mem_nil | done | cbn; lia |
    apply not_elem_of_nil |].
  intros c3 Hc3. apply HQ; [|by apply geom_w_n | done | done | done].
  unfold recovery. by rewrite vupds_app, apply_writes_app, app_assoc.
Qed.

(** *** Commit *)

Definition commit_writes (a : Z) (v : key -> block) (secs : list Z) : list (key * block) :=
  let h := put_head secs (v (home a)) in
  let ws := entries a v secs in
  (home a, h) :: ws ++ [(home a, put_head [] h)].

(** The log copy of every logged block is its current contents. *)
Definition logged (a : Z) (v : key -> block) (secs : list Z) : Prop :=
  forall t x, secs !! t = Some x -> v (home (a + 1 + Z.of_nat t)) = v (home x).

Lemma entries_home a v secs k d : secs_ok a secs -> (k, d) ∈ entries a v secs ->
  exists t x, secs !! t = Some x /\ 2 <= x < a /\ k = home x /\ d = v (home (a + 1 + Z.of_nat t)).
Proof.
  intros (_ & _ & Hx) (t & Ht)%list_elem_of_lookup_1. unfold entries in Ht.
  rewrite list_lookup_imap in Ht. apply fmap_Some_1 in Ht as (x & Hs & [= -> ->]).
  exists t, x. repeat split; try done; eapply Hx, list_elem_of_lookup_2, Hs.
Qed.

(** The end of commit_trans: the log is free again. *)
Lemma commit_end_wp s H D v m w (Q : unit -> st -> Prop) :
  cache (bc s) H D v m w -> lock (log_lk (lg s)) = 0 ->
  (forall c g, cache c H D v m w -> g = w_lk unlocked_lk (w_busy 0 (lg s)) -> Q tt (State c g)) ->
  wp (zoom lk_lens (spinlock_acquire ks) ;; setl (w_busy 0) ;;
      zoom bc_lens (thread_wakeup LOG_CHAN) ;; zoom lk_lens spinlock_release) Q s.
Proof.
  intros Hc Hlk HQ. wp_step. wp_step. eapply wp_intro; [by apply spinlock_acquire_run|].
  wp_step. apply setl_wp. wp_step. unfold thread_wakeup. wp_step. wp_step.
  destruct (c_inv _ _ _ _ _ _ Hc) as [l HI].
  wp_call wakeup_ok; [apply (i_quiet _ _ HI)|]. intros [] t Ht. wp_step.
  eapply wp_intro; [reflexivity|]. apply HQ; [by apply cache_sch | done].
Qed.

Lemma commit_wp s a secs v m w (Q : unit -> st -> Prop) :
  cache (bc s) [] (home <$> secs) v m w -> geom (lg s) a -> log_mem (lg s) secs ->
  secs_ok a secs -> 0 < zlen secs < NBUF -> logged a v secs -> lock (log_lk (lg s)) = 0 ->
  (forall c g, cache c [] [] (upd v (home a) (put_head [] (put_head secs (v (home a)))))
       (apply_writes m (commit_writes a v secs)) (w ++ commit_writes a v secs) ->
     geom g a -> n g = 0 -> busy g = 0 -> log_lk g = unlocked_lk -> size g = size (lg s) ->
     Q tt (State c g)) ->
  wp (commit_trans ks) Q s.
Proof.
  intros Hc Hg Hmem Hok Hlen Hlog Hlk HQ.
  assert (HlenD : (length (home <$> secs) < 10)%nat) by (rewrite length_fmap; unfold zlen in *; klia).
  assert (Hhigh : forall x, a <= x -> home x ∉ home <$> secs).
  { intros x Hx (y & [= ->] & Hy)%list_elem_of_fmap. apply Hok in Hy. lia. }
  unfold commit_trans. wp_step. apply getl_wp. rewrite (proj1 Hmem). bool_true.
  cbn [when]. wp_step. wp_step.
  eapply write_head_wp; [exact Hc | done | exact Hmem | apply Hok | done | by apply Hhigh |].
  intros c1 Hc1. wp_step.
  eapply install_trans_wp; [exact Hc1 | exact Hg | exact Hmem | done | done | right | done |].
  { intros x Hx. by apply list_elem_of_fmap_2. }
  set (h := put_head secs (v (home a))) in *.
  assert (Ee : entries a (upd v (home a) h) secs = entries a v secs).
  { rewrite <- !ents_0. apply ents_ext. intros j Hj. unfold upd. rewrite decide_False; [done|].
    intros [= ?]. lia. }
  rewrite Ee. intros c2 Hc2. wp_step. apply setl_wp.
  assert (Hsame : forall k, vupds (upd v (home a) h) (entries a v secs) k = upd v (home a) h k).
  { intros k. apply vupds_same. intros k' d Hin.
    apply entries_home in Hin as (t & x & Ht & Hx & -> & ->); [|done].
    unfold upd. rewrite decide_False by (intros [= ?]; lia). symmetry. by apply Hlog. }
  assert (Hc2' : cache c2 [] [] (upd v (home a) h) (apply_writes (<[home a := h]> m) (entries a v secs))
    ((w ++ [(home a, h)]) ++ entries a v secs)).
  { eapply cache_ext; [done | | exact Hsame | exact Hc2]. intros k. rewrite elem_of_withouts.
    rewrite elem_of_nil. tauto. }
  eapply write_head_wp; [exact Hc2' | by apply geom_w_n | apply log_mem_nil | done | cbn; lia |
    apply not_elem_of_nil |].
  intros c3 Hc3. eapply (commit_end_wp (s_bc c3 _)); [exact Hc3 | done |].
  intros c g Hc4 ->. apply HQ; try done; [|by destruct Hg].
  assert (Eu : upd v (home a) h (home a) = h) by (unfold upd; by rewrite decide_True).
  rewrite Eu in Hc4. unfold commit_writes. fold h.
  rewrite <- !app_assoc in Hc4. cbn [app] in Hc4.
  eapply cache_ext; [done | done | |].
  2: { cbn [apply_writes foldl]. fold (apply_writes (<[home a:=h]> m) (entries a v secs ++ [(home a, put_head [] h)])).
       rewrite apply_writes_app. exact Hc4. }
  intros k. unfold upd. by repeat case_decide.
Qed.

(** *** log_init *)

Lemma read_superblock_wp s D v m w (Q : superblock -> st -> Prop) :
  cache (bc s) [] D v m w -> (length D < 10)%nat -> home 1 ∉ D ->
  (forall c, cache c [] D v m w -> Q (sb_of (v (home 1))) (s_bc c s)) ->
  wp (read_superblock ks ROOTDEV) Q s.
Proof.
  intros Hc HD H1 HQ. assert (Hk : key_ok (home 1)) by (split; cbn; klia).
  unfold read_superblock. wp_step.
  eapply (bread_wp ks Hks _ _ _ _ _ _ (home 1)); [done | done | apply not_elem_of_nil | by left |].
  intros b c1 Hc1 Ho1 _. wp_step. eapply bdata_wp; [exact Hc1 | done | done |]. wp_step.
  eapply brelse_wp; [done | exact Hc1 | done | done | |].
  { right. eapply cache_clean; [exact Hc | done | apply not_elem_of_nil | done]. }
  intros c2 Hc2 _. rewrite without_one in Hc2. wp_step. by apply HQ.
Qed.

(** The superblock [d] says that the log takes the [z] blocks from [a]. *)
Definition super_ok (d : block) (a z : Z) : Prop :=
  sb_size (sb_of d) = a + z /\ sb_nlog (sb_of d) = z /\ 2 <= a /\ LOGSIZE <= z /\ a + z < 2 ^ 28.

(** The header on disk is one that a commit, an erase or mkfs left. *)
Definition header_ok (a : Z) (d : block) : Prop :=
  0 <= head_n d <= LOGSIZE /\ secs_ok a (head_secs d).

Lemma head_secs_nil d : head_n d = 0 -> head_secs d = [].
Proof. intros H. unfold head_secs. by rewrite H. Qed.

Lemma header_idle a d : head_n d = 0 -> header_ok a d.
Proof.
  intros H. split; [klia|]. rewrite head_secs_nil by done.
  split; [done|]. split; [constructor|]. by intros x ?%not_elem_of_nil.
Qed.

Lemma log_init_wp s a z v m w (Q : unit -> st -> Prop) :
  cache (bc s) [] [] v m w -> super_ok (v (home 1)) a z -> header_ok a (v (home a)) ->
  (forall c g, cache c [] [] (vupds v (recovery a v)) (apply_writes m (recovery a v))
       (w ++ recovery a v) -> geom g a -> n g = 0 -> log_lk g = unlocked_lk ->
     busy g = busy (lg s) -> Q tt (State c g)) ->
  wp (log_init ks) Q s.
Proof.
  intros Hc (Hsz & Hnl & Ha & Hz & Haz) [Hn Hok] HQ. unfold log_init.
  wp_step. apply wp_when; [done | intros _]. wp_step. wp_step. eapply wp_intro; [reflexivity|]. wp_step.
  eapply read_superblock_wp; [exact Hc | cbn; lia | apply not_elem_of_nil |].
  intros c1 Hc1. wp_step. apply setl_wp. rewrite Hsz, Hnl.
  replace (a + z - z) with a by lia. rewrite !i32_small by klia.
  eapply recover_wp; [exact Hc1 | | done | done |].
  - split; cbn; klia.
  - intros c g Hc' Hg Hn' Hlk Hb. by apply HQ.
Qed.

(** *** Crashes

    After a crash the kernel boots with what is on disk; [booted img] is its
    state when log_init runs. *)
Definition log0 : log := MkLog inhabitant 0 0 0 0 0 ∅.
Definition booted (img : gmap key block) (ic : Intr.Intr.state) (t : T) : st :=
  State (Disk.State unlocked_lk init_bufs unlocked_lk NULL 1
    (Drive img [] 0 0 0 0 0 IDE_DRDY) ic t) log0.

Lemma booted_cache img ic t : sched_ok t -> (forall k, blk_ok (sector_of img k)) ->
  cache (bc (booted img ic t)) [] [] (sector_of img) img [].
Proof.
  intros Ht Himg. destruct (init_inv (Drive img [] 0 0 0 0 0 IDE_DRDY) ic t) as [HI HP]; [done | done | done |].
  split; [by exists init_order | done | | done | done]. intros k Hk. by apply init_view.
Qed.

(** What the disk's home sectors contain after recovery from [img]. *)
Definition recovered (a : Z) (img : gmap key block) (x : Z) : block :=
  vupds (sector_of img) (recovery a (sector_of img)) (home x).

Lemma recovered_idle a img x : head_n (sector_of img (home a)) = 0 -> x <> a ->
  recovered a img x = sector_of img (home x).
Proof.
  intros Hn Hx. unfold recovered, recovery.
  rewrite head_secs_nil by done.
  cbn. unfold upd. rewrite decide_False; [done|]. intros [= ?]. done.
Qed.

Lemma recovered_committed a img v secs x : secs_ok a secs -> logged a v secs ->
  head_secs (sector_of img (home a)) = secs ->
  (forall j, 0 <= j < LOGSIZE -> sector_of img (home (a + 1 + j)) = v (home (a + 1 + j))) ->
  x <> a -> (x ∉ secs -> sector_of img (home x) = v (home x)) ->
  recovered a img x = v (home x).
Proof.
  intros Hok Hlog Hh Hv Hxa Hx. unfold recovered, recovery. rewrite Hh, vupds_app. cbn [vupds foldl].
  unfold upd at 1. rewrite decide_False by (intros [= ?]; done).
  assert (Ee : entries a (sector_of img) secs = entries a v secs).
  { apply imap_ext. intros j y Hy. cbn. rewrite Hv; [done|].
    apply lookup_lt_Some in Hy. destruct Hok as (Hl & _). unfold zlen in Hl. lia. }
  rewrite Ee. fold (vupds (sector_of img) (entries a v secs)).
  destruct (decide (x ∈ secs)) as [Hin|Hni].
  - apply list_elem_of_lookup_1 in Hin as [t Ht].
    rewrite (vupds_in _ _ _ (v (home (a + 1 + Z.of_nat t)))); [by apply Hlog | |].
    + rewrite entries_keys. apply NoDup_fmap_2; [|apply Hok]. by intros ?? [= ->].
    + eapply list_elem_of_lookup_2, entries_lookup, Ht.
  - rewrite vupds_notin; [by apply Hx|]. rewrite entries_keys.
    intros (y & [= ->] & Hy)%list_elem_of_fmap. done.
Qed.

Lemma prefix_snoc {A} (p l : list A) x : p `prefix_of` l ++ [x] -> p = l ++ [x] \/ p `prefix_of` l.
Proof.
  intros [k Hk]. destruct k as [|y k _] using rev_ind.
  - left. by rewrite app_nil_r in Hk.
  - right. rewrite app_assoc in Hk. apply app_inj_tail in Hk as [-> _]. by exists k.
Qed.

Lemma apply_ok m ws : (forall k, blk_ok (sector_of m k)) -> Forall (fun e => blk_ok e.2) ws ->
  forall k, blk_ok (sector_of (apply_writes m ws) k).
Proof.
  intros Hm Hws. revert m Hm. induction Hws as [|[k d] ws Hd Hws IH]; intros m Hm; [done|].
  cbn. apply IH. intros k'. rewrite sector_of_insert. unfold upd. by case_decide.
Qed.

Lemma put_head_ok secs d : zlen secs <= LOGSIZE -> blk_ok d -> blk_ok (put_head secs d).
Proof.
  intros Hl Hd. apply put_secs_ok; [lia | lia |]. apply set32_ok; [lia | klia | done].
Qed.

Lemma log_init_recovers img a z ic t :
  sched_ok t -> (forall k, blk_ok (sector_of img k)) -> super_ok (sector_of img (home 1)) a z ->
  header_ok a (sector_of img (home a)) ->
  exists s', log_init ks (booted img ic t) = Ok tt s' /\ n (lg s') = 0 /\
    image (hw (bc s')) = apply_writes img (recovery a (sector_of img)) /\
    writes (hw (bc s')) = recovery a (sector_of img) /\
    (forall x, sector_of (image (hw (bc s'))) (home x) = recovered a img x).
Proof.
  intros Ht Himg Hsb Hh. pose proof (booted_cache img ic t Ht Himg) as Hc.
  destruct (proj1 (wp_run (log_init ks) (fun _ s' => n (lg s') = 0 /\
    image (hw (bc s')) = apply_writes img (recovery a (sector_of img)) /\
    writes (hw (bc s')) = recovery a (sector_of img)) (booted img ic t)))
    as ([] & s' & Hrun & Hn & Hi & Hw).
  - eapply log_init_wp; [exact Hc | exact Hsb | exact Hh |].
    intros c g [_ _ _ Hm Hw] _ Hn _ _. done.
  - exists s'. split_and!; try done. intros x. rewrite Hi, sector_of_apply. done.
Qed.

Lemma upd_eq v k d : upd v k d k = d.
Proof. unfold upd. by rewrite decide_True. Qed.
Lemma upd_ne v k d k' : k' <> k -> upd v k d k' = v k'.
Proof. intros. unfold upd. by rewrite decide_False. Qed.

Lemma home_ne x y : x <> y -> home x <> home y.
Proof. by intros H [= ?]. Qed.

(** *** The image after a prefix of the installs *)
Section prefix.
Context (a : Z) (v : key -> block) (secs : list Z) (m : gmap key block).
Hypothesis Hok : secs_ok a secs.

Lemma prefix_keys p : p `prefix_of` entries a v secs ->
  forall k, k ∈ p.*1 -> exists x, x ∈ secs /\ 2 <= x < a /\ k = home x.
Proof.
  intros [r Hr] k Hk. assert (Hin : k ∈ (entries a v secs).*1).
  { rewrite Hr, fmap_app. by apply elem_of_app; left. }
  rewrite entries_keys in Hin. apply list_elem_of_fmap in Hin as (x & -> & Hx).
  exists x. split; [done|]. split; [by apply Hok | done].
Qed.

Lemma prefix_image p x : p `prefix_of` entries a v secs -> x ∉ secs ->
  sector_of (apply_writes m p) (home x) = sector_of m (home x).
Proof.
  intros Hp Hx. rewrite sector_of_apply. apply vupds_notin. intros Hk.
  apply (prefix_keys p Hp) in Hk as (y & Hy & _ & [= ->]). done.
Qed.

Lemma not_logged x : ~ (2 <= x < a) -> x ∉ secs.
Proof. intros Hx Hin. by apply Hok in Hin. Qed.

Lemma entries_ok : (forall k, key_ok k -> blk_ok (v k)) -> a + LOGSIZE < 2 ^ 28 ->
  Forall (fun e => blk_ok e.2) (entries a v secs).
Proof.
  intros Hv Ha. apply Forall_forall. intros [k d] Hin.
  apply entries_home in Hin as (t & x & Ht & Hx & -> & ->); [|done]. apply Hv.
  apply lookup_lt_Some in Ht. destruct Hok as (Hl & _). unfold zlen in Hl. split; cbn; klia.
Qed.

Lemma prefix_ok p : p `prefix_of` entries a v secs ->
  (forall k, key_ok k -> blk_ok (v k)) -> a + LOGSIZE < 2 ^ 28 -> Forall (fun e => blk_ok e.2) p.
Proof.
  intros [r Hr] Hv Ha. pose proof (entries_ok Hv Ha) as H. rewrite Hr in H.
  by apply Forall_app in H as [? _].
Qed.
End prefix.

(** ** Transactions *)

(** A transaction that has changed the blocks [secs]: [v] is the contents of
    the sectors as the kernel sees them, [m] the disk. *)
Record transaction s (a : Z) (secs : list Z) (v : key -> block) (m : gmap key block)
    (w : list (key * block)) : Prop := {
  tx_cache : cache (bc s) [] (home <$> secs) v m w;
  tx_geom : geom (lg s) a;
  tx_mem : log_mem (lg s) secs;
  tx_secs : secs_ok a secs;
  tx_room : zlen secs < NBUF;
  tx_logged : logged a v secs;
  tx_lk : lock (log_lk (lg s)) = 0;
  tx_super : super_ok (v (home 1)) a (size (lg s));
  tx_head : head_n (sector_of m (home a)) = 0
}.

(** Recovery from [img] makes the home sectors [u]. *)
Definition recovers_to (img : gmap key block) (a : Z) (ic : Intr.Intr.state) (t : T)
    (u : key -> block) : Prop :=
  exists s', log_init ks (booted img ic t) = Ok tt s' /\ n (lg s') = 0 /\
    forall x, 0 <= x < a -> sector_of (image (hw (bc s'))) (home x) = u (home x).

(** Recovery with an empty log changes nothing. *)
Lemma recovers_idle m a z ic t : sched_ok t -> (forall k, blk_ok (sector_of m k)) ->
  super_ok (sector_of m (home 1)) a z -> head_n (sector_of m (home a)) = 0 ->
  recovers_to m a ic t (sector_of m).
Proof.
  intros Ht Hm Hsb Hh.
  destruct (log_init_recovers m a z ic t Ht Hm Hsb) as (s' & Hrun & Hn & _ & _ & Hx); [by apply header_idle|].
  exists s'. split; [done|]. split; [done|]. intros x Hxr. rewrite Hx. apply recovered_idle; [done | lia].
Qed.

Lemma recovers_to_ext m a ic t u u' : recovers_to m a ic t u ->
  (forall x, 0 <= x < a -> u (home x) = u' (home x)) -> recovers_to m a ic t u'.
Proof.
  intros (s' & Hrun & Hn & Hx) He. exists s'. split_and!; try done. intros x Hxr.
  rewrite Hx by done. by apply He.
Qed.

Section crash.
Context (s : st) (a : Z) (secs : list Z) (v : key -> block) (m : gmap key block)
  (w : list (key * block)) (ic : Intr.Intr.state) (t : T).
Hypotheses (Htx : transaction s a secs v m w) (Ht : sched_ok t).

Lemma tx_bounds : 2 <= a /\ a + LOGSIZE < 2 ^ 28 /\ zlen secs <= LOGSIZE.
Proof. destruct (tx_geom _ _ _ _ _ _ Htx). pose proof (tx_room _ _ _ _ _ _ Htx). klia. Qed.

Lemma tx_home x : 0 <= x < a + LOGSIZE + 1 -> x ∉ secs -> v (home x) = sector_of m (home x).
Proof.
  intros Hx Hni. eapply cache_clean; [apply (tx_cache _ _ _ _ _ _ Htx) | | apply not_elem_of_nil |].
  - pose proof tx_bounds. split; cbn; klia.
  - intros (y & [= ->] & Hy)%list_elem_of_fmap. done.
Qed.

Lemma tx_low : 1 ∉ secs.
Proof. eapply not_logged; [apply (tx_secs _ _ _ _ _ _ Htx) | lia]. Qed.

Lemma tx_high x : a <= x -> x ∉ secs.
Proof. intros Hx. eapply not_logged; [apply (tx_secs _ _ _ _ _ _ Htx) | lia]. Qed.

Lemma tx_v_ok k : key_ok k -> blk_ok (v k).
Proof. apply (cache_block_ok _ _ _ _ _ _ _ (tx_cache _ _ _ _ _ _ Htx)). Qed.

Lemma tx_m_ok k : blk_ok (sector_of m k).
Proof. apply (cache_image_ok _ _ _ _ _ _ _ (tx_cache _ _ _ _ _ _ Htx)). Qed.

(** A crash before the header is written: the old contents. *)
Lemma crash_before : recovers_to m a ic t (sector_of m).
Proof.
  pose proof tx_bounds as (Ha & _).
  apply (recovers_idle m a (size (lg s))); [done | apply tx_m_ok | | apply (tx_head _ _ _ _ _ _ Htx)].
  rewrite <- (tx_home 1) by (apply tx_low || klia). apply (tx_super _ _ _ _ _ _ Htx).
Qed.

(** A crash after the header is written, with [p] of the installs done. *)
Lemma crash_after p : p `prefix_of` entries a v secs ->
  recovers_to (apply_writes m ((home a, put_head secs (v (home a))) :: p)) a ic t v.
Proof.
  intros Hp. pose proof tx_bounds as (Ha & Ha' & Hl). pose proof (tx_secs _ _ _ _ _ _ Htx) as Hok.
  assert (Hka : key_ok (home a)) by (split; cbn; klia).
  set (h := put_head secs (v (home a))).
  assert (Hh : blk_ok h) by (apply put_head_ok; [done | by apply tx_v_ok]).
  set (img := apply_writes m ((home a, h) :: p)).
  assert (Hat : forall x, x <> a -> x ∉ secs -> sector_of img (home x) = sector_of m (home x)).
  { intros x Hxa Hxs. unfold img. cbn. fold (apply_writes (<[home a := h]> m) p).
    rewrite (prefix_image a v secs) by done.
    rewrite sector_of_insert. apply upd_ne. by apply home_ne. }
  assert (Hha : sector_of img (home a) = h).
  { unfold img. cbn. fold (apply_writes (<[home a := h]> m) p).
    rewrite (prefix_image a v secs) by (done || by apply tx_high).
    rewrite sector_of_insert. apply upd_eq. }
  assert (Hsecs : head_secs h = secs).
  { eapply put_head_secs; [by apply tx_v_ok | done | klia]. }
  destruct (log_init_recovers img a (size (lg s)) ic t Ht) as (s' & Hrun & Hn & _ & _ & Hx).
  - apply apply_ok; [apply tx_m_ok|]. constructor; [done|].
    eapply prefix_ok; [done | done | apply tx_v_ok | done].
  - rewrite Hat by (apply tx_low || lia). rewrite <- (tx_home 1) by (apply tx_low || klia).
    apply (tx_super _ _ _ _ _ _ Htx).
  - rewrite Hha. split; [|by rewrite Hsecs]. unfold h. rewrite put_head_n; [unfold zlen in *; klia | | done].
    by apply tx_v_ok.
  - exists s'. split; [done|]. split; [done|]. intros x Hxr. rewrite Hx.
    apply (recovered_committed a img v secs); [done | apply (tx_logged _ _ _ _ _ _ Htx) | by rewrite Hha | | lia |].
    + intros j Hj. rewrite Hat by (apply tx_high || idtac; lia).
      symmetry. apply tx_home; [klia | apply tx_high; lia].
    + intros Hni. rewrite Hat by (done || lia). symmetry. by apply tx_home; [klia|].
Qed.

(** A crash after the header is erased: the new contents are home. *)
Lemma installed x : 0 <= x < a ->
  sector_of (apply_writes m (commit_writes a v secs)) (home x) = v (home x).
Proof.
  intros Hx. pose proof tx_bounds as (Ha & Ha' & Hl). pose proof (tx_secs _ _ _ _ _ _ Htx) as Hok.
  unfold commit_writes. cbn [apply_writes foldl]. fold (apply_writes (<[home a := put_head secs (v (home a))]> m)
    (entries a v secs ++ [(home a, put_head [] (put_head secs (v (home a))))])).
  rewrite apply_writes_app. cbn [apply_writes foldl].
  fold (apply_writes (<[home a := put_head secs (v (home a))]> m) (entries a v secs)).
  rewrite sector_of_insert, upd_ne by (apply home_ne; cbn; lia).
  rewrite sector_of_apply. destruct (decide (x ∈ secs)) as [Hin|Hni].
  - apply list_elem_of_lookup_1 in Hin as [j Hj].
    rewrite (vupds_in _ _ _ (v (home (a + 1 + Z.of_nat j)))); [by apply (tx_logged _ _ _ _ _ _ Htx) | |].
    + rewrite entries_keys. apply NoDup_fmap_2; [|apply Hok]. by intros ?? [= ->].
    + eapply list_elem_of_lookup_2, entries_lookup, Hj.
  - rewrite vupds_notin.
    + rewrite sector_of_insert, upd_ne by (apply home_ne; lia). symmetry. by apply tx_home; [klia|].
    + rewrite entries_keys. intros (y & [= ->] & Hy)%list_elem_of_fmap. done.
Qed.

Lemma erased :
  sector_of (apply_writes m (commit_writes a v secs)) (home a) =
    put_head [] (put_head secs (v (home a))).
Proof.
  unfold commit_writes. rewrite sector_of_apply.
  change (_ :: ?l ++ ?r) with ((home a, put_head secs (v (home a))) :: l ++ r).
  rewrite app_comm_cons, vupds_app. cbn [vupds foldl]. apply upd_eq.
Qed.

Lemma crash_end : recovers_to (apply_writes m (commit_writes a v secs)) a ic t v.
Proof.
  pose proof tx_bounds as (Ha & Ha' & Hl). pose proof (tx_secs _ _ _ _ _ _ Htx) as Hok.
  assert (Hka : key_ok (home a)) by (split; cbn; klia).
  assert (Hh : blk_ok (put_head secs (v (home a)))) by (apply put_head_ok; [done | by apply tx_v_ok]).
  assert (Hn0 : head_n (put_head [] (put_head secs (v (home a)))) = 0) by by apply put_head_n.
  destruct (log_init_recovers (apply_writes m (commit_writes a v secs)) a (size (lg s)) ic t Ht)
    as (s' & Hrun & Hn & _ & _ & Hx).
  - apply apply_ok; [apply tx_m_ok|]. constructor; [done|]. apply Forall_app. split.
    + eapply entries_ok; [done | apply tx_v_ok | done].
    + constructor; [|constructor]. by apply put_head_ok.
  - rewrite installed by lia. apply (tx_super _ _ _ _ _ _ Htx).
  - rewrite erased. by apply header_idle.
  - exists s'. split; [done|]. split; [done|]. intros x Hxr. rewrite Hx.
    rewrite recovered_idle; [by apply installed | by rewrite erased | lia].
Qed.
End crash.

(** Atomicity of a transaction.  commit_trans returns with all changed
    blocks at their home sectors and the log empty; and if the machine crashes
    after any number of the sector writes it makes and boots again, log_init
    leaves either the contents from before the transaction in every home sector
    or the new contents in every one, never a mixture. *)
Theorem commit_crash_safe s a secs v m w ic t :
  transaction s a secs v m w -> 0 < zlen secs -> sched_ok t ->
  exists s', commit_trans ks s = Ok tt s' /\
    n (lg s') = 0 /\ busy (lg s') = 0 /\
    (forall x, 0 <= x < a -> sector_of (image (hw (bc s'))) (home x) = v (home x)) /\
    exists ws, writes (hw (bc s')) = w ++ ws /\ image (hw (bc s')) = apply_writes m ws /\
      forall p, p `prefix_of` ws ->
        recovers_to (apply_writes m p) a ic t (sector_of m) \/
        recovers_to (apply_writes m p) a ic t v.
Proof.
  intros Htx Hne Ht.
  destruct (proj1 (wp_run (commit_trans ks) (fun _ s' => n (lg s') = 0 /\ busy (lg s') = 0 /\
    writes (hw (bc s')) = w ++ commit_writes a v secs /\
    image (hw (bc s')) = apply_writes m (commit_writes a v secs)) s))
    as ([] & s' & Hrun & Hn & Hb & Hw & Hi).
  - destruct Htx. eapply commit_wp; try done. intros c g [_ _ _ Hm Hw] _ Hn Hb _ _. done.
  - exists s'. split_and!; try done.
    + intros x Hx. rewrite Hi. by eapply installed.
    + exists (commit_writes a v secs). split_and!; try done. intros p Hp.
      unfold commit_writes in Hp. destruct p as [|e p].
      { left. by eapply crash_before. }
      right. assert (e = (home a, put_head secs (v (home a)))) as ->.
      { by apply prefix_cons_inv_1 in Hp. }
      apply prefix_cons_inv_2 in Hp. apply prefix_snoc in Hp as [->|Hp].
      * by eapply crash_end.
      * by eapply crash_after.
Qed.

(** (C6) Recovery can itself be interrupted: after a crash at any point of
    log_init's own writes, the next log_init leaves the home sectors with the
    same contents as an uninterrupted one. *)
Theorem recovery_crash_safe m a z ic t :
  sched_ok t -> (forall k, blk_ok (sector_of m k)) -> super_ok (sector_of m (home 1)) a z ->
  header_ok a (sector_of m (home a)) ->
  exists s', log_init ks (booted m ic t) = Ok tt s' /\
    image (hw (bc s')) = apply_writes m (writes (hw (bc s'))) /\
    forall p, p `prefix_of` writes (hw (bc s')) ->
      recovers_to (apply_writes m p) a ic t (sector_of (image (hw (bc s')))).
Proof.
  intros Ht Hm Hsb Hh.
  destruct (log_init_recovers m a z ic t Ht Hm Hsb Hh) as (s' & Hrun & _ & Hi & Hw & _).
  exists s'. split; [done|]. rewrite Hi, Hw. split; [done|]. clear s' Hrun Hi Hw. intros p Hp.
  set (v := sector_of m) in *. set (secs := head_secs (v (home a))) in *.
  destruct Hh as [Hn Hok]. fold secs in Hok. destruct Hsb as (Hs1 & Hs2 & Ha & Hz & Haz).
  assert (Hlow : 1 ∉ secs) by (eapply not_logged; [done | lia]).
  assert (Hhigh : forall x, a <= x -> x ∉ secs) by (intros; eapply not_logged; [done | lia]).
  assert (Hvok : forall k, key_ok k -> blk_ok (v k)) by (intros; apply Hm).
  unfold recovery in Hp |- *. fold secs in Hp |- *. set (ws := entries a v secs) in *.
  assert (Hout : forall x, x ∉ secs -> vupds v ws (home x) = v (home x)).
  { intros x Hx. apply vupds_notin. unfold ws. rewrite entries_keys.
    intros (y & [= ->] & Hy)%list_elem_of_fmap. done. }
  set (h0 := put_head [] (vupds v ws (home a))) in *.
  assert (Hh0 : blk_ok h0 /\ head_n h0 = 0).
  { unfold h0. rewrite Hout by by apply Hhigh. split; [|apply put_head_n]; try done.
    apply put_head_ok; done. }
  assert (Hend : forall x, x <> a ->
    sector_of (apply_writes m (ws ++ [(home a, h0)])) (home x) = vupds v ws (home x)).
  { intros x Hx. rewrite sector_of_apply, vupds_app. cbn [vupds foldl]. apply upd_ne. by apply home_ne. }
  assert (Hwsok : Forall (fun e => blk_ok e.2) ws) by (eapply entries_ok; [done | done | klia]).
  apply prefix_snoc in Hp as [->|Hp].
  - set (img := apply_writes m (ws ++ [(home a, h0)])) in *.
    assert (Hia : sector_of img (home a) = h0).
    { unfold img. rewrite sector_of_apply, vupds_app. cbn [vupds foldl]. apply upd_eq. }
    destruct (log_init_recovers img a z ic t Ht) as (s' & Hrun & Hn' & _ & _ & Hx).
    + apply apply_ok; [done|]. apply Forall_app. split; [done|]. constructor; [apply Hh0 | constructor].
    + rewrite Hend, Hout by (done || lia). done.
    + rewrite Hia. by apply header_idle.
    + exists s'. split; [done|]. split; [done|]. intros x Hxr. rewrite Hx.
      apply recovered_idle; [by rewrite Hia | lia].
  - set (img := apply_writes m p) in *.
    assert (Hat : forall x, x ∉ secs -> sector_of img (home x) = v (home x)).
    { intros x Hx. by apply (prefix_image a v secs). }
    destruct (log_init_recovers img a z ic t Ht) as (s' & Hrun & Hn' & _ & _ & Hx).
    + apply apply_ok; [done|]. eapply prefix_ok; [done | done | done | klia].
    + by rewrite Hat.
    + by rewrite Hat by by apply Hhigh.
    + exists s'. split; [done|]. split; [done|]. intros x Hxr. rewrite Hx, Hend by lia.
      apply (recovered_committed a img (vupds v ws) secs); [done | | by rewrite Hat by by apply Hhigh | | lia |].
      * intros j y Hj. rewrite Hout by (apply Hhigh; lia). symmetry. apply vupds_in.
        -- unfold ws. rewrite entries_keys. apply NoDup_fmap_2; [|apply Hok]. by intros ?? [= ->].
        -- eapply list_elem_of_lookup_2, entries_lookup, Hj.
      * intros j Hj. rewrite Hat, Hout by (apply Hhigh; lia). done.
      * intros Hni. by rewrite Hat, Hout.
Qed.

(** ** log_write *)

(** The sectors of the log after [x] has been written to it. *)
Definition add_sec (x : Z) (secs : list Z) : list Z :=
  if decide (x ∈ secs) then secs else secs ++ [x].

(** The slot of the log [x] is in, or gets. *)
Definition slot_of (x : Z) (secs : list Z) (t : nat) : Prop :=
  secs !! t = Some x \/ t = length secs /\ x ∉ secs.

Lemma add_sec_lookup x secs t : slot_of x secs t -> add_sec x secs !! t = Some x.
Proof.
  unfold add_sec. intros [Ht|[-> Hx]].
  - rewrite decide_True; [done|]. by eapply list_elem_of_lookup_2.
  - rewrite decide_False, lookup_app_r, Nat.sub_diag by done || lia. done.
Qed.

Lemma elem_of_add_sec x secs y : y ∈ add_sec x secs <-> y = x \/ y ∈ secs.
Proof using Type. clear Hks. unfold add_sec. case_decide; set_solver. Qed.

Lemma find_logged_wp s secs x a (Q : Z -> st -> Prop) :
  log_mem (lg s) secs -> zlen secs <= LOGSIZE -> (forall y, y ∈ secs -> 0 <= y < a) -> a <= 2 ^ 28 ->
  (forall t, slot_of x secs t -> (t <= length secs)%nat -> Q (Z.of_nat t) s) ->
  wp (find_logged x) Q s.
Proof.
  intros [Hn Hmem] Hlen Hr Ha HQ. unfold find_logged. wp_step. apply getl_wp. rewrite Hn.
  apply (wp_loop (fun i s' => s' = s /\ 0 <= i <= zlen secs /\ x ∉ take (Z.to_nat i) secs)
    (fun i _ => Z.to_nat (zlen secs - i))).
  - split; [done|]. split; [unfold zlen; lia|]. cbn. apply not_elem_of_nil.
  - unfold zlen in *. klia.
  - intros i s' (-> & Hi & Hni). case_bool.
    + cbn [negb]. wp_step. apply wp_bounds; [lia|]. wp_step. apply getl_wp.
      destruct (lookup_lt_is_Some_2 secs (Z.to_nat i)) as [y Hy]; [unfold zlen in *; lia|].
      pose proof (Hmem _ _ Hy) as Hs. rewrite Z2Nat.id in Hs by lia. rewrite Hs.
      assert (Hyr : 0 <= y < a) by (eapply Hr, list_elem_of_lookup_2, Hy).
      rewrite u32_small by klia. destruct (Z.eqb_spec y x) as [->|Hyx]; wp_step.
      * specialize (HQ (Z.to_nat i)). rewrite Z2Nat.id in HQ by lia.
        apply HQ; [by left|]. unfold zlen in *. lia.
      * split; [|lia]. split; [done|]. split; [lia|].
        replace (Z.to_nat (i + 1)) with (S (Z.to_nat i)) by lia.
        rewrite (take_S_r _ _ _ Hy), elem_of_app, list_elem_of_singleton.
        intros [|]; [done | congruence].
    + cbn [negb]. wp_step. assert (i = zlen secs) as -> by lia.
      apply (HQ (length secs)); [|done]. right. split; [done|].
      unfold zlen in Hni. by rewrite Nat2Z.id, firstn_all in Hni.
Qed.

Lemma log_mem_add g secs x t : log_mem g secs -> slot_of x secs t ->
  log_mem (if decide (x ∈ secs) then w_sectors (<[Z.of_nat t := x]> (sectors g)) g
           else w_n (n g + 1) (w_sectors (<[Z.of_nat t := x]> (sectors g)) g)) (add_sec x secs).
Proof.
  intros [Hn Hmem] Ht. unfold add_sec. case_decide as E.
  - destruct Ht as [Ht|[_ ?]]; [|done]. split; [done|]. cbn. intros j y Hj.
    destruct (decide (j = t)) as [->|Hne].
    + rewrite lookup_total_insert_eq. congruence.
    + rewrite lookup_total_insert_ne by lia. by apply Hmem.
  - destruct Ht as [Ht|[-> _]]; [by apply list_elem_of_lookup_2 in Ht|].
    split; cbn; [unfold zlen in *; rewrite length_app, Hn; cbn [length]; lia|]. intros j y Hj.
    apply lookup_snoc_Some in Hj as [[Hj Hy]|[-> ->]].
    + rewrite lookup_total_insert_ne by lia. by apply Hmem.
    + by rewrite lookup_total_insert_eq.
Qed.

Lemma log_write_wp s a secs b x H v m w (Q : unit -> st -> Prop) :
  cache (bc s) (home x :: H) (home <$> secs) v m w -> owns (bc s) b (home x) ->
  geom (lg s) a -> log_mem (lg s) secs -> secs_ok a secs -> 2 <= x < a -> busy (lg s) <> 0 ->
  (1 + length H + length secs < 10)%nat -> (forall y, a <= y -> home y ∉ H) ->
  (forall c g t, slot_of x secs t ->
     let lk := home (a + 1 + Z.of_nat t) in
     cache c (home x :: H) (home <$> add_sec x secs) (upd v lk (v (home x)))
       (<[lk := v (home x)]> m) (w ++ [(lk, v (home x))]) ->
     (forall b' k', owns (bc s) b' k' -> owns c b' k') ->
     geom g a -> log_mem g (add_sec x secs) -> busy g = busy (lg s) ->
     log_lk g = log_lk (lg s) -> size g = size (lg s) -> Q tt (State c g)) ->
  wp (log_write ks b) Q s.
Proof.
  intros Hc Ho Hg Hmem Hok Hx Hbz Hroom HH HQ. pose proof Hok as (Hlen & Hnd & Hsec).
  pose proof Hg as [Hst Hdv Hsz Hlo Hhi].
  assert (Hkx : key_ok (home x)) by (split; cbn; klia).
  destruct (Ho) as (Hb & Hkb & _). injection Hkb as Hbd Hbs.
  unfold log_write. wp_step. apply getl_wp. wp_step. apply getl_wp. wp_step.
  rewrite (proj1 Hmem). apply wp_when.
  { intros E. exfalso. apply orb_true_iff in E. rewrite !Z.leb_le in E. unfold zlen in *. klia. }
  intros _. wp_step. apply getl_wp. wp_step. apply wp_when; [by intros ?%Z.eqb_eq | intros _].
  wp_step. apply bget_wp; [done|]. rewrite Hbs. wp_step.
  eapply (find_logged_wp s secs x a); [done | done | intros y Hy; specialize (Hsec y Hy); lia | klia |].
  intros t Ht Htl. wp_step. apply wp_bounds; [unfold zlen in *; klia|]. wp_step. apply setl_wp.
  wp_step. apply bget_wp; [done|]. cbn [bc s_lg]. rewrite Hbd. wp_step. apply getl_wp.
  cbn [lg s_lg start w_sectors]. rewrite Hst. wp_step.
  replace (a + Z.of_nat t + 1) with (a + 1 + Z.of_nat t) by lia.
  set (lk := home (a + 1 + Z.of_nat t)).
  assert (Hkl : key_ok lk) by (split; cbn; unfold zlen in *; klia).
  assert (Hlx : lk <> home x) by (apply home_ne; lia).
  assert (HlD : lk ∉ home <$> secs).
  { intros (y & [= Ey] & Hy)%list_elem_of_fmap. apply Hsec in Hy. lia. }
  assert (HlH : lk ∉ home x :: H).
  { apply not_elem_of_cons. split; [done | apply HH; lia]. }
  change (a + 1 + Z.of_nat t) with (lk.2). change ROOTDEV with (lk.1).
  eapply (bread_wp ks Hks _ (home x :: H) (home <$> secs)); [exact Hc | done | done | left |].
  { cbn [length]. rewrite length_fmap. lia. }
  intros lb c1 Hc1 Ho1 Hk1. wp_step. eapply bdata_wp; [exact Hc1 | exact Hkx | by apply Hk1 |].
  wp_step.
  assert (Eb : blit 0 (v (home x)) (v lk) = v (home x)).
  { apply blit_all. pose proof (cache_block_ok _ _ _ _ _ _ _ Hc Hkx) as [-> _].
    by pose proof (cache_block_ok _ _ _ _ _ _ _ Hc Hkl) as [-> _]. }
  eapply bmod_wp; [exact Hc1 | exact Hkl | done | rewrite Eb; by eapply cache_block_ok |].
  rewrite Eb. intros c2 Hc2 Ho2. wp_step.
  eapply bwrite_wp; [done | exact Hc2 | exact Hkl | by apply Ho2 |]. intros c3 Hc3 Ho3.
  rewrite upd_eq, without_notin in Hc3 by done. wp_step.
  eapply brelse_wp; [done | exact Hc3 | exact Hkl | by apply Ho3, Ho2 | |].
  { right. by rewrite upd_eq, sector_of_insert, upd_eq. }
  intros c4 Hc4 Ho4. wp_step. apply getl_wp. wp_step.
  assert (Hc4' : cache c4 (home x :: H) (home <$> secs) (upd v lk (v (home x)))
    (<[lk := v (home x)]> m) (w ++ [(lk, v (home x))])).
  { eapply cache_ext; [| done | done | exact Hc4]. intros k. rewrite elem_of_without.
    set_solver. }
  assert (Hox : owns c4 b (home x)) by (apply Ho4, Ho3, Ho2, Hk1; done).
  assert (Hfin : forall g, geom g a -> log_mem g (add_sec x secs) -> busy g = busy (lg s) ->
    log_lk g = log_lk (lg s) -> size g = size (lg s) ->
    wp (zoom bc_lens (bupd b (fun y => w_flags (Z.lor (flags y) B_DIRTY) y))) Q (State c4 g)).
  { intros g Hg' Hm' Hb' Hl' Hs'. eapply bdirty_wp; [exact Hc4' | exact Hkx | done |].
    intros c5 Hc5 Ho5. apply (HQ c5 g t); try done.
    - eapply cache_ext; [done | | done | exact Hc5]. intros k.
      rewrite elem_of_cons, !list_elem_of_fmap. setoid_rewrite elem_of_add_sec.
      clear. split.
      + intros [->|(y & -> & Hy)]; [exists x | exists y]; auto.
      + intros (y & -> & [->|Hy]); [by left | right; by exists y].
    - intros b' k' Hb2. apply Ho5. destruct (decide (k' = lk)) as [->|Hne].
      + exfalso. destruct Hc as [_ HP _ _ _]. destruct Hb2 as (Hbr & Hbk & Hbu & _).
        apply HlH. rewrite <- Hbk. by apply (p_busy _ _ _ HP).
      + apply Ho4; [done|]. by apply Ho3, Ho2, Hk1. }
  pose proof (log_mem_add (lg s) secs x t Hmem Ht) as Hm'.
  assert (Hi32 : i32 x = x) by (apply i32_small; klia). rewrite Hi32.
  cbn [lg bc s_lg s_bc n w_sectors]. rewrite (proj1 Hmem) in *.
  destruct Ht as [Ht|[-> Hxn]].
  - assert (Hxin : x ∈ secs) by by eapply list_elem_of_lookup_2.
    rewrite decide_True in Hm' by done. apply wp_when.
    { intros E%Z.eqb_eq. apply lookup_lt_Some in Ht. unfold zlen in E. lia. }
    intros _. by apply Hfin.
  - rewrite decide_False in Hm' by done. apply wp_when; [intros _|by rewrite Z.eqb_refl].
    apply setl_wp. by apply Hfin.
Qed.

(** The use of the log that log.h describes: read the block, modify it,
    log_write it, release it. *)
Definition log_update (x : Z) (f : block -> block) : K st unit :=
  b ← bread ks ROOTDEV x;
  bmod b f ;;
  log_write ks b ;;
  brelse ks b.

Lemma add_sec_ok a x secs : secs_ok a secs -> 2 <= x < a -> zlen secs < LOGSIZE -> secs_ok a (add_sec x secs).
Proof.
  intros (Hl & Hnd & Hx) Hxr Hlt. unfold add_sec. case_decide as E; [done|]. split; [|split].
  - unfold zlen in *. rewrite length_app. cbn [length]. lia.
  - apply NoDup_app. split; [done|]. split; [|apply NoDup_singleton].
    intros y Hy Hy'%list_elem_of_singleton. by subst.
  - intros y [Hy|Hy%list_elem_of_singleton]%elem_of_app; [by apply Hx | by subst].
Qed.

Lemma add_sec_zlen x secs : zlen (add_sec x secs) <= zlen secs + 1.
Proof. unfold add_sec, zlen. case_decide; [lia|]. rewrite length_app. cbn [length]. lia. Qed.

Lemma logged_add a v secs x t d : logged a v secs -> secs_ok a (add_sec x secs) -> slot_of x secs t ->
  2 <= x < a ->
  logged a (upd (upd v (home x) d) (home (a + 1 + Z.of_nat t)) d) (add_sec x secs).
Proof.
  intros Hlog (_ & Hnd & Hr) Ht Hx j y Hj.
  assert (Hy : 2 <= y < a) by (eapply Hr, list_elem_of_lookup_2, Hj).
  rewrite (upd_ne _ _ _ (home y)) by (apply home_ne; lia).
  destruct (decide (j = t)) as [->|Hne].
  - rewrite upd_eq. rewrite (add_sec_lookup _ _ _ Ht) in Hj. injection Hj as <-. by rewrite upd_eq.
  - rewrite !upd_ne by (apply home_ne; lia).
    assert (Hyx : y <> x).
    { intros ->. apply Hne. eapply NoDup_lookup; [exact Hnd | exact Hj | by apply add_sec_lookup]. }
    rewrite upd_ne by by apply home_ne. apply Hlog. unfold add_sec in Hj. case_decide; [done|].
    apply lookup_snoc_Some in Hj as [[_ Hj]|[_ <-]]; [done | done].
Qed.

Lemma upd_both v x y d e : x <> y -> upd (upd v (home x) d) (home y) e (home x) = d.
Proof. intros H. rewrite upd_ne by by apply home_ne. apply upd_eq. Qed.

Lemma log_update_wp s a secs v m w x f (Q : unit -> st -> Prop) :
  transaction s a secs v m w -> busy (lg s) <> 0 -> 2 <= x < a -> zlen secs < NBUF - 1 ->
  (forall d, blk_ok d -> blk_ok (f d)) ->
  (forall s' t, slot_of x secs t ->
     let lk := home (a + 1 + Z.of_nat t) in let d := f (v (home x)) in
     transaction s' a (add_sec x secs) (upd (upd v (home x) d) lk d) (<[lk := d]> m) (w ++ [(lk, d)]) ->
     busy (lg s') = busy (lg s) -> Q tt s') ->
  wp (log_update x f) Q s.
Proof.
  intros [Hc Hg Hmem Hok Hroom Hlog Hlk Hsb Hhd] Hbz Hx Hlen Hf HQ. pose proof Hg as [_ _ Hsz Hlo Hhi].
  assert (Hkx : key_ok (home x)) by (split; cbn; klia).
  assert (Hd : blk_ok (f (v (home x)))) by (apply Hf; by eapply cache_block_ok).
  unfold log_update. wp_step. change x with ((home x).2) at 1. change ROOTDEV with ((home x).1).
  eapply (bread_wp ks Hks _ [] (home <$> secs)); [exact Hc | done | apply not_elem_of_nil | left |].
  { rewrite length_fmap. cbn. unfold zlen in *. klia. }
  intros b c1 Hc1 Ho1 _. wp_step. eapply bmod_wp; [exact Hc1 | exact Hkx | done | done |].
  intros c2 Hc2 Ho2. wp_step.
  eapply (log_write_wp _ a secs b x []); [exact Hc2 | by apply Ho2 | done | done | done | done | done | | |].
  { unfold zlen in *. cbn. klia. }
  { intros y _. apply not_elem_of_nil. }
  intros c3 g t Ht. cbn zeta. rewrite upd_eq. set (lk := home (a + 1 + Z.of_nat t)).
  intros Hc3 Ho3 Hg3 Hm3 Hb3 Hl3 Hs3.
  assert (Hlx : lk <> home x) by (apply home_ne; lia).
  eapply (brelse_wp ks Hks (State c3 g)); [exact Hc3 | exact Hkx | by apply Ho3, Ho2 | |].
  { left. apply list_elem_of_fmap_2, elem_of_add_sec. by left. }
  intros c4 Hc4 _. rewrite without_one in Hc4.
  assert (Hok' : secs_ok a (add_sec x secs)) by (apply add_sec_ok; [done | done | klia]).
  eapply (HQ _ t); try done. split; try done.
  - pose proof (add_sec_zlen x secs). lia.
  - by apply logged_add.
  - cbn. by rewrite Hl3.
  - cbn. rewrite Hs3. rewrite !upd_ne by (apply home_ne; lia). done.
  - rewrite sector_of_insert, upd_ne by (apply home_ne; lia). done.
Qed.

(** (C24) Inside a transaction, updating a block through the log makes the new
    contents visible to every later reader, keeps all other blocks, and leaves
    every home sector on disk and the log header untouched, so that a crash
    before the commit recovers the old contents; the updated block joins the
    blocks the commit will install, once however often it is updated. *)
Theorem log_write_correct s a secs v m w x f ic t :
  transaction s a secs v m w -> busy (lg s) <> 0 -> 2 <= x < a -> zlen secs < NBUF - 1 ->
  (forall d, blk_ok d -> blk_ok (f d)) -> sched_ok t ->
  exists s' v' m' w', log_update x f s = Ok tt s' /\
    transaction s' a (add_sec x secs) v' m' w' /\ busy (lg s') = busy (lg s) /\
    v' (home x) = f (v (home x)) /\
    (forall y, 0 <= y < a -> y <> x -> v' (home y) = v (home y)) /\
    (forall y, 0 <= y <= a -> sector_of m' (home y) = sector_of m (home y)) /\
    recovers_to m' a ic t (sector_of m').
Proof.
  intros Htx Hbz Hx Hlen Hf Ht.
  destruct (proj1 (wp_run (log_update x f) (fun _ s' => exists j, slot_of x secs j /\
     transaction s' a (add_sec x secs) (upd (upd v (home x) (f (v (home x))))
       (home (a + 1 + Z.of_nat j)) (f (v (home x)))) (<[home (a + 1 + Z.of_nat j) := f (v (home x))]> m)
       (w ++ [(home (a + 1 + Z.of_nat j), f (v (home x)))]) /\ busy (lg s') = busy (lg s)) s))
    as ([] & s' & Hrun & j & Hj & Htx' & Hb).
  - eapply log_update_wp; try done. intros s' j Hj Htx' Hb. by exists j.
  - eexists s', _, _, _. split; [exact Hrun|]. split; [exact Htx'|]. split_and!; try done.
    + rewrite upd_ne, upd_eq by (apply home_ne; lia). done.
    + intros y Hy Hyx. by rewrite !upd_ne by (apply home_ne; lia).
    + intros y Hy. rewrite sector_of_insert. apply upd_ne, home_ne. lia.
    + by eapply crash_before.
Qed.

(** begin_trans, when no transaction is running, marks the log busy and
    changes nothing else; when one is, the caller waits. *)
Theorem begin_trans_correct s :
  lock (log_lk (lg s)) = 0 ->
  begin_trans ks s = (if busy (lg s) =? 0
    then Ok tt (s_lg (w_lk unlocked_lk (w_busy 1 (lg s))) s) else Err Block).
Proof.
  intros Hlk. unfold begin_trans.
  erewrite bind_Ok by (apply zoom_Ok, spinlock_acquire_run; done). krun. cbn [lg lk_lens lput s_lg w_lk busy].
  destruct (busy (lg s) =? 0); done.
Qed.
End log_specs.
End Log.

(** ** A disk with the sizes of mkfs.c: 1024 blocks, the last ten for the log *)
Module LogDemo.
Import Disk Bufcache Log BufcacheDemo.

Definition demo_super : block := set32 0 1024 (set32 12 10 zero_block).
Definition demo_img : gmap key block := {[ home 1 := demo_super ]}.
(** The kernel after log_init and begin_trans on it. *)
Definition demo_tx : Log.state unit :=
  Log.State (Log.bc (booted demo_img Intr.Intr.demo tt)) (MkLog unlocked_lk 1014 10 1 ROOTDEV 0 ∅).
(** Fill a block with sevens. *)
Definition sevens : block -> block := fun _ => replicate 512 7.

Lemma sevens_ok d : blk_ok d -> blk_ok (sevens d).
Proof. intros _. split; [done|]. apply Forall_replicate. done. Qed.

Lemma demo_super_ok : super_ok (sector_of demo_img (home 1)) 1014 10.
Proof. unfold super_ok. assert (sb_of (sector_of demo_img (home 1)) = MkSb 1024 0 0 10) as ->
    by (by vm_compute). cbn. klia. Qed.

Lemma demo_img_ok k : blk_ok (sector_of demo_img k).
Proof.
  unfold demo_img. rewrite <- insert_empty, sector_of_insert. unfold upd. case_decide.
  - apply set32_ok; [lia | klia |]. apply set32_ok; [lia | klia |]. apply zero_block_ok.
  - apply zero_block_ok.
Qed.

Lemma demo_header : head_n (sector_of demo_img (home 1014)) = 0.
Proof. by vm_compute. Qed.

Lemma demo_tx_ok : transaction demo_tx 1014 [] (sector_of demo_img) demo_img [].
Proof.
  split; try done.
  - apply booted_cache; [done | apply demo_img_ok].
  - split; [done|]. split; [constructor|]. by intros x ?%not_elem_of_nil.
Qed.

Lemma log_write_correct_witness :
  exists s' v' m' w', log_update demo_ks 5 sevens demo_tx = Ok tt s' /\
    transaction s' 1014 [5] v' m' w' /\ v' (home 5) = replicate 512 7.
Proof.
  destruct (log_write_correct demo_ks eq_refl demo_tx 1014 [] (sector_of demo_img) demo_img [] 5 sevens
    Intr.Intr.demo tt demo_tx_ok) as (s' & v' & m' & w' & Hrun & Htx & _ & Hv & _);
    [done | lia | done | apply sevens_ok | done |].
  exists s', v', m', w'. split; [exact Hrun|]. split; [exact Htx | exact Hv].
Defined.

Lemma commit_crash_safe_witness :
  exists s s', log_update demo_ks 5 sevens demo_tx = Ok tt s /\ commit_trans demo_ks s = Ok tt s' /\
    n (lg s') = 0 /\ sector_of (image (hw (Log.bc s'))) (home 5) = replicate 512 7.
Proof.
  assert (Hrun : exists s v m w, log_update demo_ks 5 sevens demo_tx = Ok tt s /\
    transaction s 1014 [5] v m w /\ v (home 5) = replicate 512 7).
  { destruct (proj1 (wp_run (log_update demo_ks 5 sevens) (fun _ s => exists v m w,
      transaction s 1014 [5] v m w /\ v (home 5) = replicate 512 7) demo_tx)) as ([] & s & Hr & v & m & w & Htx & Hv).
    - eapply (log_update_wp demo_ks eq_refl _ 1014 [] _ _ _ 5 sevens);
        [apply demo_tx_ok | done | lia | done | apply sevens_ok |].
      intros s t Ht. cbn zeta. intros Htx _. eexists _, _, _. split; [exact Htx|].
      etrans; [apply upd_both; lia|]. unfold sevens. done.
    - exists s, v, m, w. split; [exact Hr|]. split; [exact Htx | exact Hv]. }
  destruct Hrun as (s & v & m & w & Hrun & Htx & Hv).
  destruct (commit_crash_safe demo_ks eq_refl s 1014 [5] v m w Intr.Intr.demo tt Htx)
    as (s' & Hc & Hn & _ & Hx & _); [done | done |].
  exists s, s'. split; [exact Hrun|]. split; [exact Hc|]. split; [exact Hn|].
  rewrite Hx by lia. exact Hv.
Defined.

Lemma recovery_crash_safe_witness :
  exists s', log_init demo_ks (booted demo_img Intr.Intr.demo tt) = Ok tt s' /\
    forall p, p `prefix_of` writes (hw (Log.bc s')) ->
      recovers_to demo_ks (apply_writes demo_img p) 1014 Intr.Intr.demo tt
        (sector_of (image (hw (Log.bc s')))).
Proof.
  destruct (recovery_crash_safe demo_ks eq_refl demo_img 1014 10 Intr.Intr.demo tt)
    as (s' & Hrun & _ & Hp); [done | apply demo_img_ok | apply demo_super_ok | |].
  - apply header_idle, demo_header.
  - exists s'. split; [exact Hrun | exact Hp].
Defined.

Lemma begin_trans_correct_witness : begin_trans demo_ks demo_tx = Err Block.
Proof. rewrite begin_trans_correct by done. reflexivity. Defined.
End LogDemo.
