(* ===== verification/Txn.v ===== *)
(** * File system transactions as the layers above the log use them

    Between begin_trans and commit_trans a file system operation reads blocks,
    changes them and passes them to log_write.  [intx s a H secs u o] abstracts
    from the cache and the log: the blocks below the log area (which starts at
    [a]) contain [u], the buffers of the blocks [H] are held, [secs] are the
    blocks changed so far, and since the disk was [o] only the log area has been
    written.  [fsat false] says the same without the promise that a transaction
    is running. *)

From S2P Require Import Prelude Spinlock Bytes Disk Bufcache Log.

Module Txn.
Import Disk Bufcache Log.

Definition uset (u : Z -> block) (x : Z) (d : block) : Z -> block :=
  fun y => if decide (y = x) then d else u y.

Lemma uset_eq u x d : uset u x d x = d.
Proof. unfold uset. by rewrite decide_True. Qed.

Lemma uset_ne u x d y : y <> x -> uset u x d y = u y.
Proof. intros. unfold uset. by rewrite decide_False. Qed.

(** A disk: its image and the writes made to it so far. *)
Abbreviation disk := (gmap key block * list (key * block))%type.

(** A write of a block into the log area. *)
Definition log_area (a : Z) (e : key * block) : Prop :=
  (exists y, e.1 = home y /\ a < y) /\ blk_ok e.2.

Section txn.
Context {T : Type} `{!Sched T} `{!SchedOk T}.
Context (ks : kstack) (Hks : magic ks = KSTACK_MAGIC).
Abbreviation st := (Log.state T).
Implicit Types (s : st) (u : Z -> block) (o : disk) (H secs : list Z).

Record tx (t : bool) s (a : Z) H secs (v : key -> block) (m : gmap key block) (w : list (key * block)) : Prop := {
  x_cache : cache (bc s) (home <$> H) (home <$> secs) v m w;
  x_geom : geom (lg s) a;
  x_mem : log_mem (lg s) secs;
  x_secs : secs_ok a secs;
  x_room : zlen secs < NBUF;
  x_logged : logged a v secs;
  x_lk : lock (log_lk (lg s)) = 0;
  x_super : super_ok (v (home 1)) a (size (lg s));
  x_head : head_n (sector_of m (home a)) = 0;
  x_busy : t = true -> busy (lg s) <> 0;
  x_held : forall x, x ∈ H -> 0 <= x < a;
  x_clean : forall x, 0 <= x < a -> x ∉ secs -> v (home x) = sector_of m (home x)
}.

Definition fsat (t : bool) s (a : Z) H secs u o : Prop := exists v ws,
  tx t s a H secs v (apply_writes o.1 ws) (o.2 ++ ws) /\
  Forall (log_area a) ws /\ (forall k, blk_ok (sector_of o.1 k)) /\
  forall x, 0 <= x < a -> v (home x) = u x.
Abbreviation intx := (fsat true).

(** [s'] has the buffers held in [s]. *)
Definition keeps s s' : Prop := forall b k, owns (bc s) b k -> owns (bc s') b k.

Lemma tx_transaction t s a secs v m w : tx t s a [] secs v m w -> transaction s a secs v m w.
Proof. intros []. by split. Qed.

Lemma transaction_tx s a secs v m w : transaction s a secs v m w -> busy (lg s) <> 0 ->
  tx true s a [] secs v m w.
Proof.
  intros Htx Hb. pose proof Htx as []. split; try done; [by intros x ?%not_elem_of_nil|].
  intros x Hx Hni. eapply tx_home; [exact Htx | | done]. klia.
Qed.

Lemma intx_ext {t} s a H secs u o u' : fsat t s a H secs u o ->
  (forall x, 0 <= x < a -> u x = u' x) -> fsat t s a H secs u' o.
Proof.
  intros (v & ws & Htx & Hws & Ho & Hu) He. exists v, ws. split_and!; try done. intros x Hx.
  rewrite Hu by done. by apply He.
Qed.

Lemma intx_bounds {t} s a H secs u o : fsat t s a H secs u o ->
  2 <= a /\ a + LOGSIZE < 2 ^ 28 /\ zlen secs < NBUF.
Proof. intros (v & ws & [] & _). destruct x_geom0. klia. Qed.

Lemma intx_block_ok {t} s a H secs u o x : fsat t s a H secs u o -> 0 <= x < a -> blk_ok (u x).
Proof.
  intros Hi Hx. pose proof (intx_bounds _ _ _ _ _ _ Hi).
  destruct Hi as (v & ws & [] & _ & _ & Hu). rewrite <- Hu by done.
  eapply cache_block_ok; [done|]. split; cbn; klia.
Qed.

Lemma intx_secs {t} s a H secs u o : fsat t s a H secs u o -> secs_ok a secs.
Proof. by intros (v & ws & [] & _). Qed.

Lemma intx_held {t} s a H secs u o x : fsat t s a H secs u o -> x ∈ H -> 0 <= x < a.
Proof. intros (v & ws & [] & _). eauto. Qed.

Lemma home_notin x H : x ∉ H -> home x ∉ home <$> H.
Proof. intros Hx (y & [= ->] & Hy)%list_elem_of_fmap. done. Qed.

Lemma intx_read {t} s a H secs u o x (Q : Z -> st -> Prop) :
  fsat t s a H secs u o -> 0 <= x < a -> x ∉ H ->
  (length H + length secs < 10)%nat \/ x ∈ secs ->
  (forall b s', fsat t s' a (x :: H) secs u o -> owns (bc s') b (home x) -> keeps s s' -> Q b s') ->
  wp (bread ks ROOTDEV x) Q s.
Proof.
  intros Hi Hx HxH Hroom HQ. pose proof (intx_bounds _ _ _ _ _ _ Hi).
  destruct Hi as (v & ws & Htx & Hws & Hd & Hu). pose proof Htx as [].
  change x with ((home x).2). change ROOTDEV with ((home x).1).
  eapply (bread_wp ks Hks); [done | split; cbn; klia | by apply home_notin | |].
  { rewrite !length_fmap. destruct Hroom; [by left | right; by apply list_elem_of_fmap_2]. }
  intros b c Hc Ho Hk. apply HQ; [|done | done].
  exists v, ws. split; [|done]. split; try done. intros y [->|Hy]%elem_of_cons; [done | by apply x_held0].
Qed.

Lemma intx_release {t} s a H secs u o x b (Q : unit -> st -> Prop) :
  fsat t s a (x :: H) secs u o -> x ∉ H -> owns (bc s) b (home x) ->
  (forall s', fsat t s' a H secs u o ->
     (forall b' k', k' <> home x -> owns (bc s) b' k' -> owns (bc s') b' k') -> Q tt s') ->
  wp (brelse ks b) Q s.
Proof.
  intros Hi HxH Ho HQ. pose proof (intx_bounds _ _ _ _ _ _ Hi).
  destruct Hi as (v & ws & Htx & Hws & Hd & Hu). pose proof Htx as [].
  assert (Hx : 0 <= x < a) by (apply x_held0; by left).
  eapply (brelse_wp ks Hks _ _ _ _ _ _ _ (home x)); [exact x_cache0 | split; cbn; klia | done | |].
  { destruct (decide (x ∈ secs)); [left; by apply list_elem_of_fmap_2 | right; by apply x_clean0]. }
  intros c Hc Ho'. apply HQ; [|done]. exists v, ws. split; [|done].
  split; try done; [|intros y Hy; apply x_held0; by right].
  eapply cache_ext; [| done | done | exact Hc]. intros k. rewrite elem_of_without, fmap_cons, elem_of_cons.
  pose proof (home_notin x H HxH) as Hn. split; [tauto|]. intros Hin. split; [|by right].
  by intros ->.
Qed.

Lemma intx_data {t} s a H secs u o x b (Q : block -> st -> Prop) :
  fsat t s a H secs u o -> owns (bc s) b (home x) -> 0 <= x < a -> Q (u x) s -> wp (bget b data) Q s.
Proof.
  intros Hi Ho Hx HQ. pose proof (intx_bounds _ _ _ _ _ _ Hi).
  destruct Hi as (v & ws & [] & _ & _ & Hu).
  eapply (bdata_wp _ _ _ _ _ _ _ (home x)); [done | split; cbn; klia | done |]. by rewrite Hu.
Qed.

(** Change a held block and log it. *)
Lemma intx_update {A} s a H secs u o x b f (k : K st A) (Q : A -> st -> Prop) :
  intx s a (x :: H) secs u o -> owns (bc s) b (home x) -> 2 <= x ->
  (1 + length H + length secs < 10)%nat -> blk_ok (f (u x)) ->
  (forall s', intx s' a (x :: H) (add_sec x secs) (uset u x (f (u x))) o -> keeps s s' -> wp k Q s') ->
  wp (bmod b f ;; log_write ks b ;; k) Q s.
Proof.
  intros Hi Ho Hx2 Hroom Hok HQ. pose proof (intx_bounds _ _ _ _ _ _ Hi).
  destruct Hi as (v & ws & Htx & Hws & Hd & Hu). pose proof Htx as [].
  assert (Hx : 0 <= x < a) by (apply x_held0; by left).
  pose proof (Hu x Hx) as Evx. rewrite <- Evx in *.
  assert (Hkx : key_ok (home x)) by (split; cbn; klia).
  wp_step. eapply bmod_wp; [exact x_cache0 | exact Hkx | done | done |]. intros c1 Hc1 Ho1. wp_step.
  eapply (log_write_wp ks Hks _ a secs b x (home <$> H));
    [exact Hc1 | by apply Ho1 | done | done | done | lia | by apply x_busy0 | by rewrite length_fmap | |].
  { intros y Hy. apply home_notin. intros Hy'. assert (0 <= y < a) by (apply x_held0; by right). lia. }
  intros c2 g t Ht. cbn zeta. rewrite upd_eq. set (lk := home (a + 1 + Z.of_nat t)).
  intros Hc2 Ho2 Hg2 Hm2 Hb2 Hl2 Hs2.
  assert (Hok' : secs_ok a (add_sec x secs)) by (apply add_sec_ok; [done | lia | unfold zlen in *; klia]).
  apply HQ; [|intros ???; by apply Ho2, Ho1].
  set (d := f (v (home x))) in *. exists (upd (upd v (home x) d) lk d), (ws ++ [(lk, d)]).
  rewrite apply_writes_app. cbn [apply_writes foldl]. rewrite app_assoc. split_and!.
  - split; try done.
    + pose proof (add_sec_zlen x secs). unfold zlen in *. klia.
    + apply logged_add; [done | done | done | lia].
    + cbn. by rewrite Hl2.
    + cbn. rewrite Hs2. rewrite !upd_ne by (apply home_ne; lia). done.
    + rewrite sector_of_insert, upd_ne by (apply home_ne; lia). done.
    + cbn. rewrite Hb2. exact x_busy0.
    + intros y Hy Hny. rewrite elem_of_add_sec in Hny.
      assert (Hyx : y <> x) by (intros ->; tauto).
      rewrite sector_of_insert, !upd_ne by (apply home_ne; lia).
      apply x_clean0; tauto.
  - apply Forall_app. split; [done|]. constructor; [|constructor]. split; [|done].
    exists (a + 1 + Z.of_nat t). split; [done | lia].
  - done.
  - intros y Hy. rewrite upd_ne by (apply home_ne; lia). unfold uset.
    case_decide as E; [subst; by rewrite upd_eq|]. rewrite upd_ne by by apply home_ne. by apply Hu.
Qed.

(** A buffer somebody has is one of the held ones. *)
Lemma intx_owns {t} s a H secs u o b x : fsat t s a H secs u o -> owns (bc s) b (home x) -> x ∈ H.
Proof.
  intros (v & ws & [] & _) (Hbr & Hbk & Hbu & _). destruct x_cache0 as [_ HP _ _ _].
  assert (Hin : home x ∈ home <$> H) by (rewrite <- Hbk; by apply (p_busy _ _ _ HP)).
  apply list_elem_of_fmap in Hin as (y & [= <-] & Hy). done.
Qed.

Lemma keeps_release {t} s s1 s2 a H secs u o x :
  fsat t s a H secs u o -> x ∉ H -> keeps s s1 ->
  (forall b' k', k' <> home x -> owns (bc s1) b' k' -> owns (bc s2) b' k') -> keeps s s2.
Proof.
  intros Hi HxH Hk1 Hk2 b' k' Hb'. apply Hk2; [|by apply Hk1].
  intros ->. by apply HxH, (intx_owns _ _ _ _ _ _ _ _ Hi Hb').
Qed.

Lemma intx_superblock {t} s a H secs u o (Q : superblock -> st -> Prop) :
  fsat t s a H secs u o -> 1 ∉ H -> (length H + length secs < 10)%nat ->
  (forall s', fsat t s' a H secs u o -> keeps s s' -> Q (sb_of (u 1)) s') ->
  wp (read_superblock ks ROOTDEV) Q s.
Proof.
  intros Hi H1 Hroom HQ. pose proof (intx_bounds _ _ _ _ _ _ Hi).
  unfold read_superblock. wp_step. eapply intx_read; [exact Hi | lia | done | by left |].
  intros b s1 Hi1 Ho1 Hk1. wp_step. eapply intx_data; [exact Hi1 | done | lia |]. wp_step.
  eapply intx_release; [exact Hi1 | done | done |]. intros s2 Hi2 Hk2. wp_step.
  apply HQ; [done|]. by eapply keeps_release.
Qed.

(** Read a block that is not held, look at it and release it. *)
Lemma intx_peek {A t} s a H secs u o x (f : block -> A) (Q : A -> st -> Prop) :
  fsat t s a H secs u o -> 0 <= x < a -> x ∉ H ->
  (length H + length secs < 10)%nat \/ x ∈ secs ->
  (forall s', fsat t s' a H secs u o -> keeps s s' -> Q (f (u x)) s') ->
  wp (b ← bread ks ROOTDEV x; d ← bget b data; brelse ks b ;; mret (f d)) Q s.
Proof.
  intros Hi Hx HxH Hroom HQ. wp_step. eapply intx_read; [exact Hi | lia | done | done |].
  intros b s1 Hi1 Ho1 Hk1. wp_step. eapply intx_data; [exact Hi1 | done | lia |]. wp_step.
  eapply intx_release; [exact Hi1 | done | done |]. intros s2 Hi2 Hk2. wp_step.
  apply HQ; [done|]. by eapply keeps_release.
Qed.

(** ** The ends of a transaction *)

Definition disk_now s : disk := (image (hw (bc s)), writes (hw (bc s))).

(** The file system between transactions: the blocks contain [u], all of it on
    disk. *)
Definition at_rest s (a : Z) u : Prop := fsat false s a [] [] u (disk_now s) /\ busy (lg s) = 0.

Lemma begin_wp s a u (Q : unit -> st -> Prop) :
  at_rest s a u -> (forall s', bc s' = bc s -> intx s' a [] [] u (disk_now s) -> Q tt s') ->
  wp (begin_trans ks) Q s.
Proof.
  intros [(v & ws & Htx & Hws & Hd & Hu) Hb] HQ. pose proof Htx as [].
  unfold begin_trans. wp_step. wp_step. eapply wp_intro; [by apply spinlock_acquire_run|].
  wp_step. apply getl_wp. cbn [lg lk_lens lput s_lg w_lk busy]. rewrite Hb. cbn [Z.eqb negb].
  wp_step. apply setl_wp. wp_step. eapply wp_intro; [reflexivity|].
  apply HQ; [done|]. exists v, ws. split; [|done]. split; try done. by destruct x_geom0.
Qed.

Lemma log_area_home (a : Z) (ws : list (key * block)) (x : Z) (m : gmap key block) : Forall (log_area a) ws -> x <= a ->
  sector_of (apply_writes m ws) (home x) = sector_of m (home x).
Proof.
  intros Hws Hx. rewrite sector_of_apply. apply vupds_notin. intros (e & He & Hin)%list_elem_of_fmap.
  rewrite Forall_forall in Hws. destruct (Hws e Hin) as [(y & Hy & Hlt) _].
  rewrite Hy in He. injection He as ->. lia.
Qed.

(** Whatever is in the log area, as long as the header is empty recovery gives
    the old contents. *)
Lemma log_area_crash s a secs u o ic t ws : intx s a [] secs u o -> sched_ok t ->
  Forall (log_area a) ws -> recovers_to ks (apply_writes o.1 ws) a ic t (sector_of o.1).
Proof.
  intros Hi Ht Hws. pose proof (intx_bounds _ _ _ _ _ _ Hi).
  destruct Hi as (v & ws' & Htx & Hws' & Hd & Hu). pose proof Htx as [].
  eapply recovers_to_ext; [apply (recovers_idle ks Hks _ a (size (lg s)))|]; [done | | | |].
  - apply apply_ok; [done|]. eapply Forall_impl; [exact Hws|]. by intros e [_ ?].
  - rewrite (log_area_home a) by (done || lia). rewrite <- (log_area_home a ws') by (done || lia).
    rewrite <- x_clean0; [done | lia |]. intros H1. apply x_secs0 in H1. lia.
  - rewrite (log_area_home a) by (done || lia). rewrite <- (log_area_home a ws') by (done || lia). done.
  - intros x Hx. apply (log_area_home a); [done | lia].
Qed.

Lemma rest_tx s a v m w : cache (bc s) [] [] v m w -> geom (lg s) a -> n (lg s) = 0 ->
  lock (log_lk (lg s)) = 0 -> super_ok (v (home 1)) a (size (lg s)) ->
  head_n (sector_of m (home a)) = 0 -> tx false s a [] [] v m w.
Proof.
  intros Hc Hg Hn Hlk Hsb Hh. split; try done.
  - split; [done|]. split; [constructor|]. by intros x ?%not_elem_of_nil.
  - by intros x ?%not_elem_of_nil.
  - intros x Hx _. destruct Hg. eapply cache_clean; [done | | apply not_elem_of_nil | apply not_elem_of_nil].
    split; cbn; klia.
Qed.

Lemma rest_intro s a u v m w : tx false s a [] [] v m w -> busy (lg s) = 0 ->
  (forall x, 0 <= x < a -> v (home x) = u x) -> at_rest s a u.
Proof.
  intros Htx Hb Hu. split; [|done]. pose proof (x_cache _ _ _ _ _ _ _ _ Htx) as Hc.
  pose proof Hc as [_ _ _ Hm Hw].
  exists v, []. unfold disk_now. cbn [fst snd apply_writes foldl]. rewrite Hm, Hw, app_nil_r.
  split; [done|]. split; [constructor|]. split; [|done]. intros k. by eapply cache_image_ok.
Qed.

(** commit_trans leaves the file system at rest with the new contents. *)
Lemma commit_rest s a secs u o (Q : unit -> st -> Prop) : intx s a [] secs u o ->
  (forall s', at_rest s' a u -> (secs = [] -> disk_now s' = disk_now s) -> Q tt s') ->
  wp (commit_trans ks) Q s.
Proof.
  intros Hi HQ. pose proof (intx_bounds _ _ _ _ _ _ Hi). destruct Hi as (v & ws & Htx & Hws & Hd & Hu).
  pose proof Htx as []. destruct (decide (secs = [])) as [->|Hne].
  - unfold commit_trans. wp_step. apply getl_wp. rewrite (proj1 x_mem0). cbn [zlen length Z.of_nat].
    change (0 <? zlen []) with false. cbn [when]. wp_step. wp_step.
    eapply commit_end_wp; [done | exact x_cache0 | done |]. intros c g Hc ->. apply HQ.
    2: { intros _. destruct Hc as [_ _ _ Hm Hw], x_cache0 as [_ _ _ Hm0 Hw0].
         unfold disk_now. cbn. by rewrite Hm, Hw, Hm0, Hw0. }
    eapply (rest_intro _ _ _ v); [|done | done]. apply rest_tx; try done.
    + by destruct x_geom0.
    + apply x_mem0.
  - assert (Hz : 0 < zlen secs) by (destruct secs; [done|]; unfold zlen; cbn; lia).
    eapply commit_wp; [done | exact x_cache0 | done | done | done | lia | done | done |].
    intros c g Hc Hg Hn Hb Hlk Hsz. apply HQ; [|done]. set (v' := upd v (home a) _) in Hc.
    assert (Hv' : forall x, 0 <= x < a -> v' (home x) = v (home x)).
    { intros x Hx. apply upd_ne, home_ne. lia. }
    eapply (rest_intro _ _ _ v'); [|done |]; [apply rest_tx; try done|].
    + cbn. by rewrite Hlk.
    + cbn. rewrite Hsz, Hv' by lia. done.
    + rewrite <- (cache_clean _ _ _ _ _ _ (home a) Hc);
        [|split; cbn; klia | apply not_elem_of_nil | apply not_elem_of_nil].
      unfold v'. rewrite upd_eq. apply put_head_n; [|done]. apply put_head_ok; [klia|].
      eapply cache_block_ok; [exact x_cache0|]. split; cbn; klia.
    + intros x Hx. rewrite Hv' by done. by apply Hu.
Qed.

(** Commit of a transaction, and crashes during it. *)
Lemma commit_atomic s a secs u o ic t :
  intx s a [] secs u o -> sched_ok t ->
  exists s' ws, commit_trans ks s = Ok tt s' /\ at_rest s' a u /\
    writes (hw (bc s')) = o.2 ++ ws /\ image (hw (bc s')) = apply_writes o.1 ws /\
    forall p, p `prefix_of` ws ->
      recovers_to ks (apply_writes o.1 p) a ic t (sector_of o.1) \/
      recovers_to ks (apply_writes o.1 p) a ic t (fun k => u k.2).
Proof.
  intros Hi Ht.
  destruct (proj1 (wp_run (commit_trans ks) (fun _ s' => at_rest s' a u /\
    (secs = [] -> disk_now s' = disk_now s)) s)) as ([] & s' & Hrun & Hrest & Hnil).
  { eapply commit_rest; [exact Hi | done]. }
  pose proof Hi as (v & ws & Htx & Hws & Hd & Hu). pose proof Htx as [].
  assert (Hlog : forall p, p `prefix_of` ws -> recovers_to ks (apply_writes o.1 p) a ic t (sector_of o.1)).
  { intros p [q ->]. apply Forall_app in Hws as [Hp _]. by eapply log_area_crash. }
  destruct (decide (secs = [])) as [->|Hne].
  - exists s', ws. specialize (Hnil eq_refl). unfold disk_now in Hnil. injection Hnil as -> ->.
    destruct x_cache0 as [_ _ _ Hm0 Hw0]. split_and!; try done. intros p Hp. left. by apply Hlog.
  - assert (Hz : 0 < zlen secs) by (destruct secs; [done|]; unfold zlen; cbn; lia).
    destruct (commit_crash_safe ks Hks s a secs v _ _ ic t (tx_transaction _ _ _ _ _ _ _ Htx) Hz Ht)
      as (s2 & Hrun2 & _ & _ & _ & cw & Hw & Hm & Hp).
    rewrite Hrun in Hrun2. injection Hrun2 as <-.
    exists s', (ws ++ cw). rewrite apply_writes_app, app_assoc. split_and!; try done. intros p Hpre.
    destruct (prefix_weak_total p ws (ws ++ cw) Hpre) as [Hin|[q ->]]; [by apply prefix_app_r | |].
    + left. by apply Hlog.
    + apply prefix_app_inv in Hpre. rewrite apply_writes_app. destruct (Hp q Hpre) as [Ho|Hn].
      * left. eapply recovers_to_ext; [exact Ho|]. intros x Hx. apply (log_area_home a); [done | lia].
      * right. eapply recovers_to_ext; [exact Hn|]. intros x Hx. cbn. by apply Hu.
Qed.

(** (C5) A transaction is atomic with respect to crashes, from its begin_trans
    to the end of its commit_trans: commit_trans returns with the new contents
    of all blocks on disk and the log free, and if the machine crashes after any
    number of the disk writes made since the transaction began and boots again,
    log_init leaves the contents from before the transaction or the new
    contents, in all blocks. *)
Theorem transaction_atomic s a secs u o ic t :
  intx s a [] secs u o -> sched_ok t ->
  exists s' ws, commit_trans ks s = Ok tt s' /\ at_rest s' a u /\
    writes (hw (bc s')) = o.2 ++ ws /\ image (hw (bc s')) = apply_writes o.1 ws /\
    forall p, p `prefix_of` ws ->
      recovers_to ks (apply_writes o.1 p) a ic t (sector_of o.1) \/
      recovers_to ks (apply_writes o.1 p) a ic t (fun k => u k.2).
Proof. apply commit_atomic. Qed.

(** The scheduler can run meanwhile. *)
Lemma fsat_sch {t} s a H secs u o th : fsat t s a H secs u o -> sched_ok th ->
  fsat t (s_bc (s_sch th (bc s)) s) a H secs u o.
Proof.
  intros (v & ws & Htx & Hr) Hth. exists v, ws. split; [|done]. destruct Htx. split; try done.
  by apply cache_sch.
Qed.

Lemma fsat_sched {t} s a H secs u o : fsat t s a H secs u o -> sched_ok (sch (bc s)).
Proof.
  intros (v & ws & [[[l HI] _ _ _ _]] & _). apply (i_quiet _ _ HI).
Qed.
End txn.

Abbreviation intx := (fsat true).
End Txn.
