(* ===== verification/Block.v ===== *)
(** * Disk blocks (kern/fs/block.c) *)

From S2P Require Import Prelude Spinlock Bytes Disk Bufcache Log Txn.

Module Block.
Import Disk Bufcache Log Txn.

(** ** dinode.h *)
Definition DINODE_SIZE : Z := 64.
Definition IPB : Z := BSIZE / DINODE_SIZE.
Definition IBLOCK (i : Z) : Z := i / IPB + 2.
Definition BPB : Z := BSIZE * 8.
Definition BBLOCK (b ninodes : Z) : Z := b / BPB + ninodes / IPB + 3.

#[export] Hint Unfold DINODE_SIZE IPB BPB : kconst.

Definition get8 (l : block) (i : Z) : Z := l !!! Z.to_nat i.
Definition set8 (i v : Z) (l : block) : block := <[Z.to_nat i := v]> l.

(** The mask [1 << (bi % 8)]. *)
Definition bit_mask (bi : Z) : Z := Z.shiftl 1 (bi mod 8).

Section ops.
Context {T : Type} `{!Sched T}.
Context (ks : kstack).
Abbreviation st := (Log.state T).

Definition block_zero (d bno : Z) : K st unit :=
  bp ← bread ks d bno;
  bmod bp (fun _ => zero_block) ;;
  log_write ks bp ;;
  brelse ks bp.

(** The inner loop of block_alloc: the first clear bit of the bitmap block. *)
Definition find_bit (bp b size : Z) : K st (option Z) :=
  loop (Z.to_nat BPB + 1) (fun bi =>
    if (bi <? BPB) && (b + bi <? size) then
      dat ← bget bp data;
      if Z.land (get8 dat (bi / 8)) (bit_mask bi) =? 0 then mret (inr (Some bi))
      else mret (inl (bi + 1))
    else mret (inr None)) 0.

(** Falling out of the outer loop, the function ends without a return: the
    line after it is a string in parentheses, not a call of KERN_PANIC. *)
Definition block_alloc (d : Z) : K st Z :=
  sb ← read_superblock ks d;
  loop (Z.to_nat (sb_size sb / BPB) + 2) (fun b =>
    if b <? sb_size sb then
      bp ← bread ks d (BBLOCK b (sb_ninodes sb));
      r ← find_bit bp b (sb_size sb);
      match r with
      | Some bi =>
          bmod bp (fun dat => set8 (bi / 8) (Z.lor (get8 dat (bi / 8)) (bit_mask bi)) dat) ;;
          log_write ks bp ;;
          brelse ks bp ;;
          block_zero d (b + bi) ;;
          mret (inr (b + bi))
      | None => brelse ks bp ;; mret (inl (b + BPB))
      end
    else fail Undef) 0.

Definition block_free (d b : Z) : K st unit :=
  sb ← read_superblock ks d;
  bp ← bread ks d (BBLOCK b (sb_ninodes sb));
  let bi := b mod BPB in
  dat ← bget bp data;
  when (Z.land (get8 dat (bi / 8)) (bit_mask bi) =? 0) (panic "freeing free block") ;;
  bmod bp (fun dat => set8 (bi / 8) (Z.land (get8 dat (bi / 8)) (Z.lnot (bit_mask bi))) dat) ;;
  log_write ks bp ;;
  brelse ks bp.
End ops.

(** ** Bitmaps *)

(** Bit [i] of a bitmap block; block [b] of the file system with the block
    contents [u]. *)
Definition bit (d : block) (i : Z) : bool := Z.testbit (get8 d (i / 8)) (i mod 8).
Definition used (u : Z -> block) (ni b : Z) : bool := bit (u (BBLOCK b ni)) (b mod BPB).

Definition set_bit (i : Z) (d : block) : block :=
  set8 (i / 8) (Z.lor (get8 d (i / 8)) (bit_mask i)) d.
Definition clear_bit (i : Z) (d : block) : block :=
  set8 (i / 8) (Z.land (get8 d (i / 8)) (Z.lnot (bit_mask i))) d.

Lemma mask_bit i j : Z.testbit (bit_mask i) j = (j =? i mod 8).
Proof.
  unfold bit_mask. rewrite Z.shiftl_1_l. pose proof (Z.mod_pos_bound i 8 ltac:(lia)).
  rewrite Z.pow2_bits_eqb by lia. apply Z.eqb_sym.
Qed.

Lemma mask_test x i : (Z.land x (bit_mask i) =? 0) = negb (Z.testbit x (i mod 8)).
Proof.
  pose proof (Z.mod_pos_bound i 8 ltac:(lia)).
  destruct (Z.testbit x (i mod 8)) eqn:E; cbn [negb].
  - apply Z.eqb_neq. intros H0. assert (Hb : Z.testbit (Z.land x (bit_mask i)) (i mod 8) = true).
    { by rewrite Z.land_spec, E, mask_bit, Z.eqb_refl. }
    by rewrite H0, Z.bits_0 in Hb.
  - apply Z.eqb_eq, Z.bits_inj'. intros j Hj. rewrite Z.land_spec, mask_bit, Z.bits_0.
    case_bool; [subst; by rewrite E | by rewrite andb_false_r].
Qed.

Lemma get8_set8 d i v j : 0 <= i < zlen d -> 0 <= j ->
  get8 (set8 i v d) j = if decide (j = i) then v else get8 d j.
Proof.
  intros Hi Hj. unfold get8, set8, zlen in *. case_decide as E.
  - subst. apply list_lookup_total_insert_eq. lia.
  - apply list_lookup_total_insert_ne. lia.
Qed.

Lemma set8_ok d i v : blk_ok d -> is_byte v -> blk_ok (set8 i v d).
Proof.
  intros [Hl Hb] Hv. split; [unfold zlen, set8 in *; by rewrite length_insert|].
  by apply Forall_insert.
Qed.

Lemma get8_byte d i : blk_ok d -> is_byte (get8 d i).
Proof.
  intros [_ Hb]. unfold get8. rewrite list_lookup_total_alt.
  destruct (d !! Z.to_nat i) eqn:E; cbn; [by eapply Forall_lookup_1 in Hb | klia].
Qed.

Lemma bits_byte x : (forall j, 8 <= j -> Z.testbit x j = false) -> is_byte x.
Proof.
  intros Hx. assert (E : x = x mod 2 ^ 8).
  { apply Z.bits_inj'. intros j Hj. destruct (decide (j < 8)).
    - by rewrite Z.mod_pow2_bits_low by lia.
    - rewrite Z.mod_pow2_bits_high by lia. apply Hx. lia. }
  rewrite E. apply u8_range.
Qed.

Lemma byte_bits x j : is_byte x -> 8 <= j -> Z.testbit x j = false.
Proof.
  intros Hx Hj. rewrite <- (u8_small x Hx). unfold u8. apply Z.mod_pow2_bits_high. lia.
Qed.

Lemma set_bit_ok d i : blk_ok d -> blk_ok (set_bit i d).
Proof.
  intros Hd. apply set8_ok; [done|]. apply bits_byte. intros j Hj.
  rewrite Z.lor_spec, mask_bit, byte_bits; [|by apply get8_byte | done].
  pose proof (Z.mod_pos_bound i 8 ltac:(lia)). apply Z.eqb_neq. lia.
Qed.

Lemma clear_bit_ok d i : blk_ok d -> blk_ok (clear_bit i d).
Proof.
  intros Hd. apply set8_ok; [done|]. apply bits_byte. intros j Hj.
  by rewrite Z.land_spec, byte_bits by (try apply get8_byte; done).
Qed.

(** The same byte and the same bit of it is the same bit. *)
Lemma bit_split i j : i / 8 = j / 8 -> i mod 8 = j mod 8 -> i = j.
Proof. intros. rewrite (Z.div_mod i 8), (Z.div_mod j 8) by lia. congruence. Qed.

Lemma div8_range i d : blk_ok d -> 0 <= i < BPB -> 0 <= i / 8 < zlen d.
Proof.
  intros [-> _] Hi. split; [apply Z.div_pos; lia | apply Z.div_lt_upper_bound; klia].
Qed.

Lemma bit_set_bit d i j : blk_ok d -> 0 <= i < BPB -> 0 <= j ->
  bit (set_bit i d) j = if decide (j = i) then true else bit d j.
Proof.
  intros Hd Hi Hj. unfold bit, set_bit.
  rewrite get8_set8 by (try apply div8_range; try apply Z.div_pos; done || lia).
  case_decide as E; [|by rewrite decide_False by (intros ->; done)].
  rewrite Z.lor_spec, mask_bit, E. case_bool.
  - rewrite (decide_True _ _ (bit_split j i E e)). apply orb_true_r.
  - rewrite decide_False by (intros ->; done). apply orb_false_r.
Qed.

Lemma bit_clear_bit d i j : blk_ok d -> 0 <= i < BPB -> 0 <= j ->
  bit (clear_bit i d) j = if decide (j = i) then false else bit d j.
Proof.
  intros Hd Hi Hj. unfold bit, clear_bit.
  rewrite get8_set8 by (try apply div8_range; try apply Z.div_pos; done || lia).
  case_decide as E; [|by rewrite decide_False by (intros ->; done)].
  pose proof (Z.mod_pos_bound j 8 ltac:(lia)).
  rewrite Z.land_spec, Z.lnot_spec, mask_bit, E by lia. case_bool; cbn [negb].
  - rewrite (decide_True _ _ (bit_split j i E e)). apply andb_false_r.
  - rewrite decide_False by (intros ->; done). apply andb_true_r.
Qed.
(** ** Specifications *)

(** The superblock of a file system with [ni] inodes, whose bitmap is below
    the log area at [a]. *)
Record layout (u : Z -> block) (a ni : Z) : Prop := {
  l_ni : sb_ninodes (sb_of (u 1)) = ni;
  l_ni_range : 0 <= ni;
  l_bits : forall b, 0 <= b < sb_size (sb_of (u 1)) -> BBLOCK b ni < a
}.

Section specs.
Context {T : Type} `{!Sched T} `{!SchedOk T}.
Context (ks : kstack) (Hks : magic ks = KSTACK_MAGIC).
Abbreviation st := (Log.state T).
Implicit Types (s : st) (u : Z -> block) (o : disk) (H secs : list Z).

Lemma BBLOCK_low b ni : 0 <= b -> 0 <= ni -> 3 <= BBLOCK b ni.
Proof.
  intros. unfold BBLOCK. pose proof (Z.div_pos b BPB ltac:(lia) ltac:(done)).
  pose proof (Z.div_pos ni IPB ltac:(lia) ltac:(done)). lia.
Qed.

Lemma add_sec_length x secs : (length (add_sec x secs) <= S (length secs))%nat.
Proof. pose proof (add_sec_zlen x secs). unfold zlen in *. lia. Qed.

Lemma block_zero_wp s a H secs u o x (Q : unit -> st -> Prop) :
  intx s a H secs u o -> 2 <= x < a -> x ∉ H -> (1 + length H + length secs < 10)%nat ->
  (forall s', intx s' a H (add_sec x secs) (uset u x zero_block) o -> keeps s s' -> Q tt s') ->
  wp (block_zero ks ROOTDEV x) Q s.
Proof.
  intros Hi Hx HxH Hroom HQ. unfold block_zero. wp_step.
  eapply intx_read; [done | exact Hi | lia | done | left; lia |]. intros b s1 Hi1 Ho1 Hk1.
  eapply intx_update; [done | exact Hi1 | done | lia | done | apply zero_block_ok |].
  intros s2 Hi2 Hk2. eapply intx_release; [done | exact Hi2 | done | by apply Hk2 |].
  intros s3 Hi3 Hk3. apply HQ; [done|]. eapply keeps_release; [exact Hi | done | | done].
  intros ???. by apply Hk2, Hk1.
Qed.

Lemma find_bit_wp s a H secs u o x bp b size (Q : option Z -> st -> Prop) :
  intx s a H secs u o -> owns (bc s) bp (home x) -> 0 <= x < a ->
  (forall r, match r with
     | Some bi => 0 <= bi < BPB /\ b + bi < size /\ bit (u x) bi = false /\
         forall j, 0 <= j < bi -> bit (u x) j = true
     | None => forall j, 0 <= j < BPB -> b + j < size -> bit (u x) j = true
     end -> Q r s) ->
  wp (find_bit bp b size) Q s.
Proof.
  intros Hi Ho Hx HQ. unfold find_bit.
  apply (wp_loop (fun bi s' => s' = s /\ 0 <= bi <= BPB /\ forall j, 0 <= j < bi -> bit (u x) j = true)
    (fun bi _ => Z.to_nat (BPB - bi))).
  - split; [done|]. split; [klia|]. intros j Hj. lia.
  - klia.
  - intros bi s' (-> & Hbi & Hall). destruct ((bi <? BPB) && (b + bi <? size)) eqn:E.
    + apply andb_true_iff in E as [E1%Z.ltb_lt E2%Z.ltb_lt]. wp_step.
      eapply intx_data; [exact Hi | done | done |]. rewrite mask_test.
      change (Z.testbit (get8 (u x) (bi / 8)) (bi mod 8)) with (bit (u x) bi).
      destruct (bit (u x) bi) eqn:Eb; cbn [negb]; wp_step.
      * split; [|lia]. split; [done|]. split; [lia|]. intros j Hj.
        destruct (decide (j = bi)) as [->|Hne]; [done | apply Hall; lia].
      * apply HQ. split_and!; done || lia.
    + wp_step. apply HQ. intros j Hj Hs. apply andb_false_iff in E as [E%Z.ltb_ge|E%Z.ltb_ge]; apply Hall; lia.
Qed.

Lemma BBLOCK_group q i ni : 0 <= i < BPB -> BBLOCK (BPB * q + i) ni = BBLOCK (BPB * q) ni.
Proof.
  intros Hi. unfold BBLOCK. rewrite (Z.mul_comm BPB), Z.div_add_l, Z.div_mul by klia.
  rewrite Z.div_small by done. lia.
Qed.

Lemma used_group u q i ni : 0 <= i < BPB ->
  used u ni (BPB * q + i) = bit (u (BBLOCK (BPB * q) ni)) i.
Proof.
  intros Hi. unfold used. rewrite BBLOCK_group by done. f_equal.
  rewrite Z.add_comm, Z.mul_comm, Z.mod_add by klia. by apply Z.mod_small.
Qed.

(** What block_alloc does to the blocks when it returns [b]. *)
Definition allocated u (ni b : Z) : Z -> block :=
  uset (uset u (BBLOCK b ni) (set_bit (b mod BPB) (u (BBLOCK b ni)))) b zero_block.
Definition alloc_secs (ni b : Z) secs : list Z := add_sec b (add_sec (BBLOCK b ni) secs).

(** [b] is the first free block. *)
Definition first_free u (ni b : Z) : Prop :=
  0 <= b < sb_size (sb_of (u 1)) /\ used u ni b = false /\
  forall j, 0 <= j < b -> used u ni j = true.

(** The blocks block_alloc and block_free read are not held. *)
Definition unheld u (ni : Z) H : Prop :=
  1 ∉ H /\ forall b, 0 <= b < sb_size (sb_of (u 1)) -> BBLOCK b ni ∉ H.

Lemma group_le b q : 0 <= b -> 0 <= q <= b / BPB -> 0 <= BPB * q <= b.
Proof. intros Hb Hq. pose proof (Z.mul_div_le b BPB ltac:(done)). unfold BPB, BSIZE in *. nia. Qed.

Lemma block_alloc_wp s a H secs u o ni b (Q : Z -> st -> Prop) :
  intx s a H secs u o -> layout u a ni -> unheld u ni H -> first_free u ni b ->
  2 <= b < a -> b ∉ H -> (2 + length H + length secs < 10)%nat ->
  (forall s', intx s' a H (alloc_secs ni b secs) (allocated u ni b) o -> keeps s s' -> Q b s') ->
  wp (block_alloc ks ROOTDEV) Q s.
Proof.
  intros Hi [Hni Hni0 Hbits] [H1 HHb] (Hb & Hfree & Hall) Hb2 HbH Hroom HQ. unfold block_alloc.
  wp_step. eapply intx_superblock; [done | exact Hi | done | lia |].
  intros s1 Hi1 Hk1. rewrite Hni. set (size := sb_size (sb_of (u 1))) in *.
  apply (wp_loop (fun c s' => exists q, c = BPB * q /\ 0 <= q <= b / BPB /\
      intx s' a H secs u o /\ keeps s s') (fun c _ => Z.to_nat (size / BPB + 1 - c / BPB))).
  { exists 0. split; [lia|]. split; [|done]. split; [lia | apply Z.div_pos; klia]. }
  { rewrite Z.div_0_l by done. pose proof (Z.div_pos size BPB ltac:(lia) ltac:(done)). lia. }
  intros c s2 (q & -> & Hq & Hi2 & Hk2).
  pose proof (group_le b q ltac:(lia) Hq) as Hqb.
  assert (Hgr : 0 <= BPB * q < size) by lia.
  pose proof (BBLOCK_low (BPB * q) ni ltac:(lia) Hni0) as Hlow.
  specialize (Hbits _ Hgr). specialize (HHb _ Hgr). bool_true. wp_step.
  eapply intx_read; [done | exact Hi2 | lia | done | left; lia |]. intros bp s3 Hi3 Ho3 Hk3. wp_step.
  eapply find_bit_wp; [exact Hi3 | done | lia |]. intros [bi|].
  - intros (Hbi & Hs & Hclear & Hbefore). rewrite <- used_group in Hclear by done.
    assert (b = BPB * q + bi) as ->.
    { destruct (decide (BPB * q + bi < b)); [by rewrite Hall in Hclear by lia|].
      destruct (decide (b < BPB * q + bi)); [|lia].
      replace b with (BPB * q + (b - BPB * q)) in Hfree by lia.
      rewrite used_group, Hbefore in Hfree by lia. done. }
    rewrite <- (BBLOCK_group q bi) in * by done.
    eapply intx_update; [done | exact Hi3 | done | lia | lia | apply set_bit_ok; eapply intx_block_ok; [exact Hi3 | lia] |].
    intros s4 Hi4 Hk4. wp_step.
    eapply intx_release; [done | exact Hi4 | done | by apply Hk4 |]. intros s5 Hi5 Hk5. wp_step.
    pose proof (add_sec_length (BBLOCK (BPB * q + bi) ni) secs).
    eapply block_zero_wp; [exact Hi5 | lia | done | lia |]. intros s6 Hi6 Hk6. wp_step.
    apply HQ.
    + unfold allocated. rewrite Z.add_comm, Z.mul_comm, Z.mod_add, Z.mod_small by klia.
      by rewrite Z.add_comm, (Z.mul_comm q).
    + intros b' k' Hb'. apply Hk6. eapply (keeps_release s s4); [exact Hi | exact HHb | | done | done].
      intros ???. by apply Hk4, Hk3, Hk2.
  - intros Hnone. wp_step. eapply intx_release; [done | exact Hi3 | done | done |].
    intros s4 Hi4 Hk4. wp_step.
    assert (Hnext : BPB * q + BPB <= b).
    { destruct (decide (b < BPB * q + BPB)); [|lia].
      replace b with (BPB * q + (b - BPB * q)) in Hfree by lia.
      rewrite used_group, Hnone in Hfree by lia. done. }
    replace (BPB * q + BPB) with (BPB * (q + 1)) in * by lia.
    assert (Hq1 : q + 1 <= b / BPB) by (apply Z.div_le_lower_bound; klia).
    split.
    + exists (q + 1). split; [done|]. split; [lia|]. split; [done|].
      eapply (keeps_release s s3); [exact Hi | exact HHb | | done]. intros ???. by apply Hk3, Hk2.
    + pose proof (Z.div_le_mono b size BPB ltac:(done) ltac:(lia)).
      rewrite !(Z.mul_comm BPB), !Z.div_mul by done. lia.
Qed.

Lemma block_free_wp s a H secs u o ni b (Q : unit -> st -> Prop) :
  intx s a H secs u o -> layout u a ni -> unheld u ni H ->
  0 <= b < sb_size (sb_of (u 1)) -> used u ni b = true -> (1 + length H + length secs < 10)%nat ->
  (forall s', intx s' a H (add_sec (BBLOCK b ni) secs)
       (uset u (BBLOCK b ni) (clear_bit (b mod BPB) (u (BBLOCK b ni)))) o -> keeps s s' -> Q tt s') ->
  wp (block_free ks ROOTDEV b) Q s.
Proof.
  intros Hi [Hni Hni0 Hbits] [H1 HHb] Hb Hused Hroom HQ. unfold block_free.
  specialize (Hbits _ Hb). specialize (HHb _ Hb). pose proof (BBLOCK_low b ni ltac:(lia) Hni0).
  wp_step. eapply intx_superblock; [done | exact Hi | done | lia |]. intros s1 Hi1 Hk1. rewrite Hni.
  wp_step. eapply intx_read; [done | exact Hi1 | lia | done | left; lia |]. intros bp s2 Hi2 Ho2 Hk2.
  wp_step. eapply intx_data; [exact Hi2 | done | lia |]. wp_step. apply wp_when.
  { rewrite mask_test. unfold used, bit in Hused. by rewrite Hused. }
  intros _. eapply intx_update; [done | exact Hi2 | done | lia | lia | apply clear_bit_ok; eapply intx_block_ok; [exact Hi2 | lia] |].
  intros s3 Hi3 Hk3. eapply intx_release; [done | exact Hi3 | done | by apply Hk3 |].
  intros s4 Hi4 Hk4. apply HQ; [done|]. eapply (keeps_release s s3); [exact Hi | done | | done].
  intros ???. by apply Hk3, Hk2, Hk1.
Qed.

Lemma used_allocated u a ni b j : blk_ok (u (BBLOCK b ni)) -> 0 <= b -> 0 <= j ->
  b <> BBLOCK j ni -> a = allocated u ni b ->
  used a ni j = if decide (j = b) then true else used u ni j.
Proof.
  intros Hok Hb Hj Hne ->. unfold used, allocated.
  pose proof (Z.mod_pos_bound b BPB ltac:(done)). pose proof (Z.mod_pos_bound j BPB ltac:(done)).
  rewrite uset_ne by done. destruct (decide (BBLOCK j ni = BBLOCK b ni)) as [E|E].
  - rewrite E, uset_eq, bit_set_bit by (done || lia).
    destruct (decide (j mod BPB = b mod BPB)) as [Em|Em].
    + rewrite decide_True; [done|]. rewrite (Z.div_mod j BPB), (Z.div_mod b BPB), Em by done.
      unfold BBLOCK in E. f_equal. f_equal. lia.
    + by rewrite decide_False by (intros ->; done).
  - rewrite uset_ne by done. by rewrite decide_False by (intros ->; done).
Qed.

(** (C17) block_alloc returns the first free block of the file system; it marks
    that block, and no other, as used, fills it with zeros, and changes no
    block that is not of the bitmap.  The changes are part of the transaction:
    the disk keeps the old contents. *)
Theorem block_alloc_correct s a secs u o ni b :
  intx s a [] secs u o -> layout u a ni -> first_free u ni b -> 2 <= b < a ->
  (forall j, 0 <= j < sb_size (sb_of (u 1)) -> used u ni (BBLOCK j ni) = true) ->
  (length secs < 8)%nat ->
  exists s' secs' u', block_alloc ks ROOTDEV s = Ok b s' /\ intx s' a [] secs' u' o /\
    u' b = zero_block /\
    (forall j, 0 <= j < sb_size (sb_of (u 1)) ->
       used u' ni j = if decide (j = b) then true else used u ni j) /\
    (forall x, x <> b -> (forall j, 0 <= j < sb_size (sb_of (u 1)) -> x <> BBLOCK j ni) ->
       u' x = u x).
Proof.
  intros Hi Hl Hfree Hb Hmeta Hroom. pose proof Hl as [Hni Hni0 Hbits].
  pose proof Hfree as (Hbs & Hbf & _).
  assert (Hne : forall j, 0 <= j < sb_size (sb_of (u 1)) -> b <> BBLOCK j ni).
  { intros j Hj ->. by rewrite Hmeta in Hbf. }
  destruct (proj1 (wp_run (block_alloc ks ROOTDEV) (fun r s' => r = b /\
    intx s' a [] (alloc_secs ni b secs) (allocated u ni b) o) s)) as (r & s' & Hrun & -> & Hi').
  { eapply block_alloc_wp; try done; [|apply not_elem_of_nil | cbn; lia].
    split; [apply not_elem_of_nil|]. intros ??. apply not_elem_of_nil. }
  exists s', (alloc_secs ni b secs), (allocated u ni b). split_and!; try done.
  - apply uset_eq.
  - intros j Hj. eapply used_allocated; [| lia | lia | by apply Hne | done].
    eapply intx_block_ok; [exact Hi|]. pose proof (BBLOCK_low b ni ltac:(lia) Hni0).
    specialize (Hbits b Hbs). lia.
  - intros x Hx Hxb. unfold allocated. rewrite !uset_ne; try done. by apply Hxb.
Qed.

Lemma set8_set8 i v w d : set8 i v (set8 i w d) = set8 i v d.
Proof. unfold set8. apply list_insert_insert_eq. Qed.

Lemma clear_set_bit d i : blk_ok d -> 0 <= i < BPB -> bit d i = false ->
  clear_bit i (set_bit i d) = d.
Proof.
  intros Hd Hi Hclear. unfold clear_bit, set_bit. pose proof (div8_range _ _ Hd Hi) as Hr.
  rewrite get8_set8, decide_True, set8_set8 by (done || lia).
  assert (E : Z.land (Z.lor (get8 d (i / 8)) (bit_mask i)) (Z.lnot (bit_mask i)) = get8 d (i / 8)).
  { apply Z.bits_inj'. intros j Hj. rewrite Z.land_spec, Z.lor_spec, Z.lnot_spec, mask_bit by done.
    case_bool; cbn [negb].
    - subst. rewrite andb_false_r. symmetry. exact Hclear.
    - by rewrite orb_false_r, andb_true_r. }
  rewrite E. unfold set8, get8, zlen in *. apply list_insert_id.
  apply list_lookup_lookup_total_lt. lia.
Qed.

(** Freeing a block that has just been allocated gives the bitmap back as
    it was: after block_alloc and block_free all blocks have their contents
    from before, but the one that was allocated, which is zero. *)
Theorem block_alloc_free s a secs u o ni b :
  intx s a [] secs u o -> layout u a ni -> first_free u ni b -> 2 <= b < a ->
  (forall j, 0 <= j < sb_size (sb_of (u 1)) -> used u ni (BBLOCK j ni) = true) ->
  (length secs < 7)%nat ->
  exists s' secs', (r ← block_alloc ks ROOTDEV; block_free ks ROOTDEV r) s = Ok tt s' /\
    intx s' a [] secs' (uset u b zero_block) o.
Proof.
  intros Hi Hl Hfree Hb Hmeta Hroom. pose proof Hl as [Hni Hni0 Hbits].
  pose proof Hfree as (Hbs & Hbf & _). set (bb := BBLOCK b ni).
  assert (Hne : forall j, 0 <= j < sb_size (sb_of (u 1)) -> b <> BBLOCK j ni).
  { intros j Hj ->. by rewrite Hmeta in Hbf. }
  pose proof (BBLOCK_low b ni ltac:(lia) Hni0) as Hlow. fold bb in Hlow.
  pose proof (Hbits b Hbs) as Hbb. fold bb in Hbb.
  assert (Hok : blk_ok (u bb)) by (eapply intx_block_ok; [exact Hi | lia]).
  assert (Hnil : forall u', unheld u' ni []).
  { intros u'. split; [apply not_elem_of_nil|]. intros ??. apply not_elem_of_nil. }
  assert (E1 : allocated u ni b 1 = u 1) by (unfold allocated; rewrite !uset_ne by lia; done).
  assert (Ebb : allocated u ni b bb = set_bit (b mod BPB) (u bb)).
  { unfold allocated. rewrite uset_ne by (intros E; by eapply Hne). apply uset_eq. }
  destruct (proj1 (wp_run (r ← block_alloc ks ROOTDEV; block_free ks ROOTDEV r) (fun _ s' =>
    exists secs', intx s' a [] secs' (uset u b zero_block) o) s)) as ([] & s' & Hrun & secs' & Hi').
  2: { by exists s', secs'. }
  wp_step. eapply block_alloc_wp; [exact Hi | done | done | done | done | apply not_elem_of_nil | cbn; lia |].
  intros s1 Hi1 _. pose proof (add_sec_length bb secs). pose proof (add_sec_length b (add_sec bb secs)).
  eapply (block_free_wp _ a [] _ _ o ni b); [exact Hi1 | | done | by rewrite E1 | | |].
  - split; [by rewrite E1 | done | by rewrite E1].
  - rewrite (used_allocated u _ ni b b) by (done || lia || by apply Hne). by rewrite decide_True.
  - unfold alloc_secs. fold bb. cbn [length]. lia.
  - intros s2 Hi2 _. eexists. eapply intx_ext; [exact Hi2|]. intros x Hx. fold bb. rewrite Ebb.
    pose proof (Z.mod_pos_bound b BPB ltac:(done)). rewrite clear_set_bit by done.
    unfold uset at 1. case_decide as E; [subst x|].
    + by rewrite uset_ne by (intros E; by eapply Hne).
    + unfold allocated. fold bb. unfold uset. repeat case_decide; done.
Qed.
End specs.
End Block.

(** ** The file system mkfs makes, before any file is in it: blocks 0 to 28 are
    in use, 28 being the bitmap *)
Module BlockDemo.
Import Disk Bufcache BufcacheDemo Log Txn Block.

Definition demo_super : block := set32 0 1024 (set32 4 985 (set32 8 200 (set32 12 10 zero_block))).
Definition demo_bitmap : block := [255; 255; 255; 31] ++ replicate 508 0.
Definition demo_img : gmap key block := <[home 1 := demo_super]> {[home 28 := demo_bitmap]}.
Definition demo_tx : Log.state unit :=
  Log.State (Log.bc (booted demo_img Intr.Intr.demo tt)) (MkLog unlocked_lk 1014 10 1 ROOTDEV 0 ∅).
Definition demo_u (x : Z) : block := sector_of demo_img (home x).

Lemma demo_sb : sb_of (demo_u 1) = MkSb 1024 985 200 10.
Proof. by vm_compute. Qed.

Lemma mkfs_img_ok k : blk_ok (sector_of demo_img k).
Proof.
  unfold demo_img. rewrite <- insert_empty, sector_of_insert. unfold upd. case_decide;
    [|rewrite sector_of_insert; unfold upd; case_decide].
  - repeat (apply set32_ok; [lia | klia |]). apply zero_block_ok.
  - split; [done|]. apply Forall_app. split; [repeat constructor; klia | apply Forall_replicate; klia].
  - apply zero_block_ok.
Qed.

Definition demo_disk : disk := (demo_img, []).

Lemma demo_intx : intx demo_tx 1014 [] [] demo_u demo_disk.
Proof.
  exists (sector_of demo_img), []. split; [|split_and!; [constructor | apply mkfs_img_ok | done]].
  apply transaction_tx; [|done]. split; try done.
  - apply booted_cache; [done | apply mkfs_img_ok].
  - split; [done|]. split; [constructor|]. by intros x ?%not_elem_of_nil.
Qed.

Lemma demo_bblock j : 0 <= j < 1024 -> BBLOCK j 200 = 28.
Proof. intros Hj. unfold BBLOCK. rewrite Z.div_small by klia. done. Qed.

Lemma demo_layout : layout demo_u 1014 200.
Proof. split; rewrite ?demo_sb; cbn; [done | lia |]. intros b Hb. rewrite demo_bblock by done. lia. Qed.

Lemma demo_first_free : first_free demo_u 200 29.
Proof.
  unfold first_free. rewrite demo_sb. split; [cbn; lia|]. split; [by vm_compute|]. intros j Hj.
  assert (Hall : forallb (used demo_u 200) (seqZ 0 29) = true) by by vm_compute.
  rewrite forallb_forall in Hall. apply Hall, list_elem_of_In, elem_of_seqZ. lia.
Qed.

Lemma demo_meta j : 0 <= j < sb_size (sb_of (demo_u 1)) -> used demo_u 200 (BBLOCK j 200) = true.
Proof. rewrite demo_sb. intros Hj. rewrite demo_bblock by exact Hj. by vm_compute. Qed.

Lemma block_alloc_correct_witness :
  exists s' secs' u', block_alloc demo_ks ROOTDEV demo_tx = Ok 29 s' /\
    intx s' 1014 [] secs' u' demo_disk /\ u' 29 = zero_block.
Proof.
  destruct (block_alloc_correct demo_ks eq_refl demo_tx 1014 [] demo_u demo_disk 200 29
    demo_intx demo_layout demo_first_free) as (s' & secs' & u' & Hrun & Hi & Hz & _);
    [lia | apply demo_meta | cbn; lia |].
  exists s', secs', u'. split; [exact Hrun|]. split; [exact Hi | exact Hz].
Defined.

Lemma block_alloc_free_witness :
  exists s' secs', (r ← block_alloc demo_ks ROOTDEV; block_free demo_ks ROOTDEV r) demo_tx = Ok tt s' /\
    intx s' 1014 [] secs' (uset demo_u 29 zero_block) demo_disk.
Proof.
  destruct (block_alloc_free demo_ks eq_refl demo_tx 1014 [] demo_u demo_disk 200 29
    demo_intx demo_layout demo_first_free) as (s' & secs' & Hrun & Hi);
    [lia | apply demo_meta | cbn; lia |].
  exists s', secs'. split; [exact Hrun | exact Hi].
Defined.

(** Zero block 29 in a transaction and commit it. *)
Lemma transaction_atomic_witness :
  exists s s', block_zero demo_ks ROOTDEV 29 demo_tx = Ok tt s /\ commit_trans demo_ks s = Ok tt s' /\
    at_rest s' 1014 (uset demo_u 29 zero_block).
Proof.
  destruct (proj1 (wp_run (block_zero demo_ks ROOTDEV 29) (fun _ s =>
    intx s 1014 [] [29] (uset demo_u 29 zero_block) demo_disk) demo_tx)) as ([] & s & Hrun & Hi).
  { eapply (block_zero_wp demo_ks eq_refl demo_tx 1014 [] []);
      [exact demo_intx | lia | apply not_elem_of_nil | cbn; lia |]. intros s Hi _. exact Hi. }
  destruct (transaction_atomic demo_ks eq_refl s 1014 [29] (uset demo_u 29 zero_block) demo_disk
    Intr.Intr.demo tt Hi) as (s' & ws & Hc & Hrest & _); [done|].
  exists s, s'. split; [exact Hrun|]. split; [exact Hc | exact Hrest].
Defined.

(** The same file system with all blocks below the log area in use. *)
Definition full_bitmap : block := replicate 126 255 ++ [63] ++ replicate 385 0.
Definition full_tx : Log.state unit :=
  Log.State (Log.bc (booted (<[home 28 := full_bitmap]> demo_img) Intr.Intr.demo tt))
    (MkLog unlocked_lk 1014 10 1 ROOTDEV 0 ∅).

(** mkfs does not mark the blocks of the log as used and block_alloc looks at
    all blocks of the file system: once the data blocks are used up it hands
    out, and overwrites with zeros, the header block of the log. *)
Theorem block_alloc_takes_log :
  start (lg full_tx) = 1014 /\
  match block_alloc demo_ks ROOTDEV full_tx with Ok b _ => b = 1014 | Err _ => False end.
Proof. split; [done|]. by vm_compute. Qed.
End BlockDemo.
