(* ===== verification/Inode.v ===== *)
(** * Inodes (kern/fs/inode.c)

    The cache of inodes in memory, and the contents of files through the block
    numbers an inode holds.  A pointer to an inode is its index in the cache,
    NULL is [Disk.NULL].  A [char *dst] that is only written is modelled by the
    bytes written through it, in order. *)

From S2P Require Import Prelude Types Spinlock Bytes Disk Bufcache Log Txn Block.

Module Inode.
Import Disk Bufcache Log Txn Block.

Definition NINODE : Z := 50.
Definition NDEV : Z := 10.
Definition ROOTINO : Z := 1.
Definition NDIRECT : Z := 12.
Definition NINDIRECT : Z := BSIZE / 4.
Definition MAXFILE : Z := NDIRECT + NINDIRECT.
Definition T_DIR : Z := 1.
Definition T_FILE : Z := 2.
Definition T_DEV : Z := 3.
Definition I_BUSY : Z := 1.
Definition I_VALID : Z := 2.
#[export] Hint Unfold NINODE NDEV ROOTINO NDIRECT NINDIRECT MAXFILE T_DIR T_FILE T_DEV
  I_BUSY I_VALID : kconst.

Record inode : Type := MkInode {
  idev : Z; inum : Z; ref : Z; iflags : Z;
  itype : Z; major : Z; minor : Z; nlink : Z; isize : Z; addrs : list Z
}.
#[export] Instance inode_inhabited : Inhabited inode :=
  populate (MkInode 0 0 0 0 0 0 0 0 0 (replicate 13 0)).

Definition w_ref v i := MkInode (idev i) (inum i) v (iflags i) (itype i) (major i) (minor i) (nlink i) (isize i) (addrs i).
Definition w_iflags v i := MkInode (idev i) (inum i) (ref i) v (itype i) (major i) (minor i) (nlink i) (isize i) (addrs i).
Definition w_ident d n r f i := MkInode d n r f (itype i) (major i) (minor i) (nlink i) (isize i) (addrs i).
Definition w_copy t ma mi nl sz ad i := MkInode (idev i) (inum i) (ref i) (iflags i) t ma mi nl sz ad.
Definition w_type v i := w_copy v (major i) (minor i) (nlink i) (isize i) (addrs i) i.
Definition w_devno ma mi i := w_copy (itype i) ma mi (nlink i) (isize i) (addrs i) i.
Definition w_nlink v i := w_copy (itype i) (major i) (minor i) v (isize i) (addrs i) i.
Definition w_size v i := w_copy (itype i) (major i) (minor i) (nlink i) v (addrs i) i.
Definition w_addr k v i := w_copy (itype i) (major i) (minor i) (nlink i) (isize i) (<[Z.to_nat k := v]> (addrs i)) i.

(** ** struct dinode: the fields at their offsets from [o] *)
Definition di_off (ino : Z) : Z := DINODE_SIZE * (ino mod IPB).
Definition di_type (d : block) (o : Z) : Z := i16 (get16 d o).
Definition di_major (d : block) (o : Z) : Z := i16 (get16 d (o + 2)).
Definition di_minor (d : block) (o : Z) : Z := i16 (get16 d (o + 4)).
Definition di_nlink (d : block) (o : Z) : Z := i16 (get16 d (o + 6)).
Definition di_size (d : block) (o : Z) : Z := get32 d (o + 8).
Definition di_addrs (d : block) (o : Z) : list Z :=
  (fun k => get32 d (o + 12 + 4 * k)) <$> seqZ 0 (NDIRECT + 1).

Definition words_bytes (l : list Z) : list Z := l ≫= le_enc 4.

(** The stores of inode_update. *)
Definition put_dinode (o : Z) (i : inode) (d : block) : block :=
  blit (o + 12) (words_bytes (addrs i)) (set32 (o + 8) (isize i) (set16 (o + 6) (u16 (nlink i))
    (set16 (o + 4) (u16 (minor i)) (set16 (o + 2) (u16 (major i)) (set16 o (u16 (itype i)) d))))).

Record state (T : Type) : Type := State {
  lgs : Log.state T; icache_lk : spinlock_t; inodes : gmap Z inode
}.
Arguments State {T}.
Arguments lgs {T}.
Arguments icache_lk {T}.
Arguments inodes {T}.

Section ops.
Context {T : Type} `{!Sched T}.
Context (ks : kstack).
Abbreviation st := (state T).

Definition s_lgs v (s : st) : st := State v (icache_lk s) (inodes s).
Definition s_ilk v (s : st) : st := State (lgs s) v (inodes s).
Definition s_ino v (s : st) : st := State (lgs s) (icache_lk s) v.
Definition lgs_lens : lens st (Log.state T) := Lens lgs s_lgs.
Definition ilk_lens : lens st spinlock_t := Lens icache_lk s_ilk.

Definition geti (s : st) (ip : Z) : inode := inodes s !!! ip.
Definition ifield {A} (ip : Z) (f : inode -> A) : K st A :=
  bounds NINODE ip ;; gets (fun s => f (geti s ip)).
Definition iupd (ip : Z) (f : inode -> inode) : K st unit :=
  bounds NINODE ip ;; modify (fun s => s_ino (<[ip := f (geti s ip)]> (inodes s)) s).
Definition icache_lock : K st unit := zoom ilk_lens (spinlock_acquire ks).
Definition icache_unlock : K st unit := zoom ilk_lens spinlock_release.
Definition ondisk {A} (m : K (Log.state T) A) : K st A := zoom lgs_lens m.

(** The channel of an inode: its address, apart from those of the buffers. *)
Definition ichan (ip : Z) : Z := 2 ^ 16 + ip.
Definition ithread_wakeup (chan : Z) : K st unit :=
  ondisk (zoom bc_lens (thread_wakeup chan)).

Definition inode_init : K st unit := zoom ilk_lens spinlock_init.

(** The search of inode_get: [Some ip] is the cached inode, [None] comes with
    the first empty slot. *)
Definition find_inode (d ino : Z) : K st (option Z * Z) :=
  loop (Z.to_nat NINODE + 1) (fun '(ip, empty) =>
    if negb (ip <? NINODE) then mret (inr (None, empty))
    else
      x ← ifield ip id;
      if (0 <? ref x) && (idev x =? d) && (inum x =? ino) then mret (inr (Some ip, empty))
      else mret (inl (ip + 1, if (empty =? NULL) && (ref x =? 0) then ip else empty)))
    (0, NULL).

Definition inode_get (d ino : Z) : K st Z :=
  icache_lock ;;
  '(found, empty) ← find_inode d ino;
  match found with
  | Some ip =>
      iupd ip (fun x => w_ref (ref x + 1) x) ;;
      icache_unlock ;;
      mret ip
  | None =>
      when (empty =? NULL) (panic "inode_get: no inodes") ;;
      iupd empty (w_ident d ino 1 0) ;;
      icache_unlock ;;
      mret empty
  end.

Definition inode_alloc (d type : Z) : K st Z :=
  sb ← ondisk (read_superblock ks d);
  found ← ondisk (loop (Z.to_nat (sb_ninodes sb) + 1) (fun ino =>
    if ino <? sb_ninodes sb then
      bp ← bread ks d (IBLOCK ino);
      dat ← bget bp data;
      let o := di_off ino in
      if di_type dat o =? 0 then
        bmod bp (fun dat => set16 o (u16 type) (blit o (replicate 64 0) dat)) ;;
        log_write ks bp ;;
        brelse ks bp ;;
        mret (inr ino)
      else
        brelse ks bp ;;
        mret (inl (ino + 1))
    else panic "inode_alloc: no inodes") 1);
  inode_get d found.

Definition inode_update (ip : Z) : K st unit :=
  x ← ifield ip id;
  ondisk (
    bp ← bread ks (idev x) (IBLOCK (inum x));
    bmod bp (put_dinode (di_off (inum x)) x) ;;
    log_write ks bp ;;
    brelse ks bp).

Definition inode_dup (ip : Z) : K st Z :=
  icache_lock ;;
  iupd ip (fun x => w_ref (ref x + 1) x) ;;
  icache_unlock ;;
  mret ip.

Definition inode_lock (ip : Z) : K st unit :=
  when (ip =? NULL) (panic "inode_lock") ;;
  r ← ifield ip ref;
  when (r <? 1) (panic "inode_lock") ;;
  icache_lock ;;
  fl ← ifield ip iflags;
  if negb (Z.land fl I_BUSY =? 0) then fail Block      (* thread_sleep(ip, &inode_cache.lock) *)
  else
    iupd ip (fun x => w_iflags (Z.lor (iflags x) I_BUSY) x) ;;
    icache_unlock ;;
    fl ← ifield ip iflags;
    if negb (Z.land fl I_VALID =? 0) then mret tt
    else
      x ← ifield ip id;
      dat ← ondisk (
        bp ← bread ks (idev x) (IBLOCK (inum x));
        dat ← bget bp data;
        brelse ks bp ;;
        mret dat);
      let o := di_off (inum x) in
      iupd ip (w_copy (di_type dat o) (di_major dat o) (di_minor dat o) (di_nlink dat o)
                 (di_size dat o) (di_addrs dat o)) ;;
      iupd ip (fun x => w_iflags (Z.lor (iflags x) I_VALID) x) ;;
      t ← ifield ip itype;
      when (t =? 0) (panic "inode_lock: no type").

Definition inode_unlock (ip : Z) : K st unit :=
  when (ip =? NULL) (panic "inode_unlock") ;;
  x ← ifield ip id;
  when ((Z.land (iflags x) I_BUSY =? 0) || (ref x <? 1)) (panic "inode_unlock") ;;
  icache_lock ;;
  iupd ip (fun x => w_iflags (Z.land (iflags x) (Z.lnot I_BUSY)) x) ;;
  ithread_wakeup (ichan ip) ;;
  icache_unlock.

(** ** Contents *)

Definition bmap (ip bn : Z) : K st Z :=
  if bn <? NDIRECT then
    x ← ifield ip id;
    let addr := addrs x !!! Z.to_nat bn in
    if addr =? 0 then
      addr ← ondisk (block_alloc ks (idev x));
      iupd ip (w_addr bn addr) ;;
      mret addr
    else mret addr
  else
    let bn := bn - NDIRECT in
    if bn <? NINDIRECT then
      x ← ifield ip id;
      let addr := addrs x !!! Z.to_nat NDIRECT in
      addr ← (if addr =? 0 then
                addr ← ondisk (block_alloc ks (idev x));
                iupd ip (w_addr NDIRECT addr) ;;
                mret addr
              else mret addr);
      ondisk (
        bp ← bread ks (idev x) addr;
        dat ← bget bp data;
        let addr := get32 dat (4 * bn) in
        if addr =? 0 then
          addr ← block_alloc ks (idev x);
          bmod bp (set32 (4 * bn) addr) ;;
          log_write ks bp ;;
          brelse ks bp ;;
          mret addr
        else
          brelse ks bp ;;
          mret addr)
    else panic "bmap: out of range".

Definition inode_trunc (ip : Z) : K st unit :=
  for_ 0 NDIRECT (fun i =>
    x ← ifield ip id;
    let addr := addrs x !!! Z.to_nat i in
    when (negb (addr =? 0))
      (ondisk (block_free ks (idev x) addr) ;;
       iupd ip (w_addr i 0))) ;;
  x ← ifield ip id;
  let addr := addrs x !!! Z.to_nat NDIRECT in
  when (negb (addr =? 0))
    (ondisk (
       bp ← bread ks (idev x) addr;
       for_ 0 NINDIRECT (fun j =>
         dat ← bget bp data;
         let a := get32 dat (4 * j) in
         when (negb (a =? 0)) (block_free ks (idev x) a)) ;;
       brelse ks bp ;;
       block_free ks (idev x) addr) ;;
     iupd ip (w_addr NDIRECT 0)) ;;
  iupd ip (w_size 0) ;;
  inode_update ip.

Definition inode_put (ip : Z) : K st unit :=
  icache_lock ;;
  x ← ifield ip id;
  when ((ref x =? 1) && negb (Z.land (iflags x) I_VALID =? 0) && (nlink x =? 0))
    (when (negb (Z.land (iflags x) I_BUSY =? 0)) (panic "inode_put busy") ;;
     iupd ip (fun x => w_iflags (Z.lor (iflags x) I_BUSY) x) ;;
     icache_unlock ;;
     inode_trunc ip ;;
     iupd ip (w_type 0) ;;
     inode_update ip ;;
     icache_lock ;;
     iupd ip (w_iflags 0) ;;
     ithread_wakeup (ichan ip)) ;;
  iupd ip (fun x => w_ref (ref x - 1) x) ;;
  icache_unlock.

Definition inode_unlockput (ip : Z) : K st unit :=
  inode_unlock ip ;;
  inode_put ip.

Record file_stat : Type := Stat {
  st_type : Z; st_dev : Z; st_ino : Z; st_nlink : Z; st_size : Z
}.

(** [st->nlink] is a [uint16_t]. *)
Definition inode_stat (ip : Z) : K st file_stat :=
  ifield ip (fun x => Stat (itype x) (idev x) (inum x) (u16 (nlink x)) (isize x)).

(** A T_DEV inode: [devsw] is never assigned, so that [devsw[major].read] is an
    access through a null pointer. *)
Definition dev_access (major : Z) : K st Z :=
  if (major <? 0) || (NDEV <=? major) then mret (-1) else fail Undef.

(** The size of the chunk at [off] when [rest] bytes are left. *)
Definition io_chunk (rest off : Z) : Z := min rest (BSIZE - off mod BSIZE).

(** The result and the bytes stored at [dst].  The first round may take less
    than a block, every other one but the last takes a whole block. *)
Definition inode_read (ip off n : Z) : K st (Z * list Z) :=
  x ← ifield ip id;
  if itype x =? T_DEV then
    r ← dev_access (major x); mret (r, [])
  else if (isize x <? off) || (u32 (off + n) <? off) then mret (-1, [])
  else
    let n := if isize x <? u32 (off + n) then u32 (isize x - off) else n in
    loop (Z.to_nat (n / BSIZE) + 3) (fun '(tot, off, dst) =>
      if tot <? n then
        bno ← bmap ip (off / BSIZE);
        let m := io_chunk (n - tot) off in
        d ← ifield ip idev;
        chunk ← ondisk (
          bp ← bread ks d bno;
          dat ← bget bp data;
          brelse ks bp ;;
          mret (sub (off mod BSIZE) m dat));
        mret (inl (tot + m, u32 (off + m), dst ++ chunk))
      else mret (inr (i32 n, dst))) (0, off, []).

(** [src] is the memory behind the source pointer, at least [n] bytes. *)
Definition inode_write (ip : Z) (src : list Z) (off n : Z) : K st Z :=
  x ← ifield ip id;
  if itype x =? T_DEV then dev_access (major x)
  else if (isize x <? off) || (u32 (off + n) <? off) then mret (-1)
  else if MAXFILE * BSIZE <? u32 (off + n) then mret (-1)
  else
    off ← loop (Z.to_nat (n / BSIZE) + 3) (fun '(tot, off) =>
      if tot <? n then
        bno ← bmap ip (off / BSIZE);
        let m := io_chunk (n - tot) off in
        d ← ifield ip idev;
        ondisk (
          bp ← bread ks d bno;
          bmod bp (blit (off mod BSIZE) (sub tot m src)) ;;
          log_write ks bp ;;
          brelse ks bp) ;;
        mret (inl (tot + m, u32 (off + m)))
      else mret (inr off)) (0, off);
    sz ← ifield ip isize;
    when ((0 <? n) && (sz <? off))
      (iupd ip (w_size off) ;;
       inode_update ip) ;;
    mret (i32 n).
End ops.

(** ** The contents of a file

    [fblk u ad bn]: the block number of block [bn] of the file with the block
    map [ad], 0 if there is none; [fbyte u ad i] is byte [i] of the file. *)

Definition fblk (u : Z -> block) (ad : list Z) (bn : Z) : Z :=
  if bn <? NDIRECT then ad !!! Z.to_nat bn
  else if ad !!! Z.to_nat NDIRECT =? 0 then 0
  else get32 (u (ad !!! Z.to_nat NDIRECT)) (4 * (bn - NDIRECT)).
Definition fbyte (u : Z -> block) (ad : list Z) (i : Z) : Z :=
  get8 (u (fblk u ad (i / BSIZE))) (i mod BSIZE).
Definition fbytes (u : Z -> block) (ad : list Z) (off n : Z) : list Z := fbyte u ad <$> seqZ off n.

(** The first [sz] bytes of the file are in blocks below the log, which are
    not held. *)
Definition blocks_ok (u : Z -> block) (a : Z) (H : list Z) (ad : list Z) (sz : Z) : Prop :=
  forall bn, 0 <= bn -> bn * BSIZE < sz ->
    bn < MAXFILE /\ 2 <= fblk u ad bn < a /\ fblk u ad bn ∉ H /\
    (NDIRECT <= bn -> 2 <= ad !!! Z.to_nat NDIRECT < a /\ ad !!! Z.to_nat NDIRECT ∉ H).

Lemma fbytes_app u ad off m n : 0 <= m -> 0 <= n ->
  fbytes u ad off (m + n) = fbytes u ad off m ++ fbytes u ad (off + m) n.
Proof. intros. unfold fbytes. by rewrite seqZ_app, fmap_app. Qed.

Lemma fbytes_length u ad off n : length (fbytes u ad off n) = Z.to_nat n.
Proof. unfold fbytes. by rewrite length_fmap, length_seqZ. Qed.

Lemma block_div off k : 0 <= off -> 0 <= k -> off mod BSIZE + k < BSIZE ->
  (off + k) / BSIZE = off / BSIZE /\ (off + k) mod BSIZE = off mod BSIZE + k.
Proof.
  intros. rewrite (Z.div_mod off BSIZE) at 1 3 by done.
  replace (BSIZE * (off / BSIZE) + off mod BSIZE + k)
    with (off mod BSIZE + k + off / BSIZE * BSIZE) by lia.
  pose proof (Z.mod_pos_bound off BSIZE ltac:(done)).
  rewrite Z.div_add, Z.mod_add, Z.div_small, Z.mod_small by (done || lia). lia.
Qed.

(** A piece of one block. *)
Lemma sub_fbytes u ad off m : 0 <= off -> 0 <= m -> off mod BSIZE + m <= BSIZE ->
  zlen (u (fblk u ad (off / BSIZE))) = BSIZE ->
  sub (off mod BSIZE) m (u (fblk u ad (off / BSIZE))) = fbytes u ad off m.
Proof.
  intros Ho Hm Hc Hl. apply list_eq_Z. intros i Hi.
  pose proof (Z.mod_pos_bound off BSIZE ltac:(done)).
  destruct (decide (i < m)).
  - rewrite sub_lookup by lia. unfold fbytes. rewrite list_lookup_fmap.
    assert (seqZ off m !! Z.to_nat i = Some (off + i)) as -> by (apply lookup_seqZ; lia).
    cbn. unfold fbyte. destruct (block_div off i) as [-> ->]; [lia | lia | lia |].
    unfold get8. apply list_lookup_lookup_total_lt. unfold zlen in Hl. lia.
  - rewrite !lookup_zlen_ge; [done | | rewrite sub_length; lia].
    unfold zlen. rewrite fbytes_length. lia.
Qed.

(** The rounds the loops of inode_read and inode_write take. *)
Definition rounds (off n : Z) : Z := if 0 <? n then (n + off mod BSIZE + 511) / BSIZE else 0.

Lemma rounds_bound off n : 0 <= off -> 0 <= n -> 0 <= rounds off n < n / BSIZE + 3.
Proof.
  intros. unfold rounds. pose proof (Z.mod_pos_bound off BSIZE ltac:(done)).
  unfold BSIZE in *. case_bool; split; try lia.
  - apply Z.div_pos; lia.
  - apply Z.div_lt_upper_bound; [lia|]. pose proof (Z.mul_div_le n 512 ltac:(lia)).
    pose proof (Z.mod_pos_bound n 512 ltac:(lia)). pose proof (Z.div_mod n 512 ltac:(lia)). lia.
  - pose proof (Z.div_pos n 512 ltac:(lia) ltac:(lia)). lia.
Qed.

Lemma io_chunk_spec rest off : 0 < rest -> 0 <= off ->
  let m := io_chunk rest off in
  0 < m <= rest /\ off mod BSIZE + m <= BSIZE /\ rounds (off + m) (rest - m) = rounds off rest - 1.
Proof.
  intros Hr Ho m. unfold m, io_chunk. rewrite min_spec.
  pose proof (Z.mod_pos_bound off BSIZE ltac:(done)) as Hm.
  split; [unfold BSIZE in *; lia|]. split; [lia|]. unfold rounds.
  destruct (Z.ltb_spec 0 rest); [|lia].
  destruct (decide (rest <= BSIZE - off mod BSIZE)).
  - rewrite Z.min_l, Z.sub_diag by lia. cbn [Z.ltb].
    assert ((rest + off mod BSIZE + 511) / BSIZE = 1) as ->; [|done].
    symmetry. apply Z.div_unique with (rest + off mod BSIZE - 1); unfold BSIZE in *; lia.
  - rewrite Z.min_r by lia. bool_true.
    assert ((off + (BSIZE - off mod BSIZE)) mod BSIZE = 0) as ->.
    { rewrite (Z.div_mod off BSIZE) at 1 by done.
      replace (BSIZE * (off / BSIZE) + off mod BSIZE + (BSIZE - off mod BSIZE))
        with ((off / BSIZE + 1) * BSIZE) by lia. apply Z.mod_mul. done. }
    replace (rest + off mod BSIZE + 511) with (rest - (BSIZE - off mod BSIZE) + 0 + 511 + 1 * BSIZE) by lia.
    rewrite Z.div_add by done. lia.
Qed.

Section written.
Implicit Types (u : Z -> block) (H secs ad : list Z).

(** *** inode_write on blocks the file has *)

Lemma get8_blit p c d j : 0 <= p -> p + zlen c <= zlen d -> 0 <= j ->
  get8 (blit p c d) j = if decide (p <= j < p + zlen c) then c !!! Z.to_nat (j - p) else get8 d j.
Proof.
  intros Ho Hl Hj. unfold get8. rewrite !list_lookup_total_alt, blit_lookup by done. by case_decide.
Qed.

Lemma blit_ok p c d : blk_ok d -> 0 <= p -> p + zlen c <= BSIZE -> Forall is_byte c -> blk_ok (blit p c d).
Proof.
  intros [Hl Hb] Ho Hc Hcb. split; [rewrite blit_length by lia; done | by apply Forall_blit].
Qed.

Lemma chunk_same_block i off m : 0 <= off -> off mod BSIZE + m <= BSIZE -> i / BSIZE = off / BSIZE ->
  off mod BSIZE <= i mod BSIZE < off mod BSIZE + m <-> off <= i < off + m.
Proof.
  intros Ho Hm E. pose proof (Z.div_mod i BSIZE ltac:(done)). pose proof (Z.div_mod off BSIZE ltac:(done)).
  rewrite E in *. lia.
Qed.

Lemma chunk_other_block i off m : 0 <= off -> 0 <= m -> off mod BSIZE + m <= BSIZE ->
  off <= i < off + m -> i / BSIZE = off / BSIZE.
Proof.
  intros Ho Hm Hf Hi. symmetry. apply Z.div_unique with (i - off / BSIZE * BSIZE); [|lia].
  pose proof (Z.div_mod off BSIZE ltac:(done)). pose proof (Z.mod_pos_bound off BSIZE ltac:(done)). lia.
Qed.

(** The blocks of the first [sz] bytes, and the block of block numbers, are
    all different. *)
Definition distinct_blocks u ad (sz : Z) : Prop :=
  (forall bn bn', 0 <= bn -> bn * BSIZE < sz -> 0 <= bn' -> bn' * BSIZE < sz ->
     fblk u ad bn = fblk u ad bn' -> bn = bn') /\
  (forall bn, 0 <= bn -> bn * BSIZE < sz -> fblk u ad bn <> ad !!! Z.to_nat NDIRECT).

(** [u'] is [u] with [n] bytes of [src] written at offset [off] of the file. *)
Record written u ad (sz : Z) (src : list Z) (off n : Z) u' : Prop := {
  wr_bytes : forall i, 0 <= i -> i / BSIZE * BSIZE < sz -> fbyte u' ad i =
    if decide (off <= i < off + n) then src !!! Z.to_nat (i - off) else fbyte u ad i;
  wr_blk : forall bn, fblk u' ad bn = fblk u ad bn;
  wr_frame : forall y, (forall bn, 0 <= bn -> bn * BSIZE < sz -> y <> fblk u ad bn) -> u' y = u y
}.

Lemma written_nil u ad sz src off : written u ad sz src off 0 u.
Proof. split; try done. intros i Hi Hs. by rewrite decide_False by lia. Qed.

Lemma fblk_ext u u' ad bn : u' (ad !!! Z.to_nat NDIRECT) = u (ad !!! Z.to_nat NDIRECT) ->
  fblk u' ad bn = fblk u ad bn.
Proof. intros E. unfold fblk. by rewrite E. Qed.

Lemma written_step u ad sz src off tot m u' :
  distinct_blocks u ad sz -> written u ad sz src off tot u' -> 0 <= off -> 0 <= tot -> 0 < m ->
  (off + tot) mod BSIZE + m <= BSIZE -> off + tot + m <= sz -> tot + m <= zlen src ->
  zlen (u' (fblk u ad ((off + tot) / BSIZE))) = BSIZE ->
  let b := fblk u ad ((off + tot) / BSIZE) in
  written u ad sz src off (tot + m)
    (uset u' b (blit ((off + tot) mod BSIZE) (sub tot m src) (u' b))).
Proof.
  intros [Hinj Hind] [Hb Hbk Hfr] Hoff Htot Hm Hfit Hsz Hsrc Hlen b. fold b in Hlen.
  set (k := (off + tot) / BSIZE) in *.
  assert (Hk : 0 <= k /\ k * BSIZE < sz).
  { split; [apply Z.div_pos; klia|]. pose proof (Z.mul_div_le (off + tot) BSIZE ltac:(done)). lia. }
  set (u'' := uset u' b _).
  assert (Hbk' : forall bn, fblk u'' ad bn = fblk u ad bn).
  { intros bn. rewrite <- Hbk. apply fblk_ext. unfold u''. apply uset_ne. intros E.
    by apply (Hind k (proj1 Hk) (proj2 Hk)). }
  pose proof (Z.mod_pos_bound (off + tot) BSIZE ltac:(done)) as Hmod.
  assert (Hsl : zlen (sub tot m src) = m) by (apply sub_length; lia).
  split; [|done |].
  - intros i Hi Hir. unfold fbyte. rewrite Hbk'.
    specialize (Hb i Hi Hir). unfold fbyte in Hb. rewrite Hbk in Hb.
    destruct (decide (i / BSIZE = k)) as [Ek|Ek].
    + rewrite Ek in *. unfold u''. fold b. rewrite uset_eq.
      pose proof (Z.mod_pos_bound i BSIZE ltac:(done)).
      rewrite get8_blit, Hsl by (rewrite ?Hlen, ?Hsl; lia).
      pose proof (chunk_same_block i (off + tot) m ltac:(lia) Hfit Ek) as Hc.
      destruct (decide ((off + tot) mod BSIZE <= i mod BSIZE < (off + tot) mod BSIZE + m)) as [Hin|Hout].
      * rewrite decide_True by lia. rewrite !list_lookup_total_alt.
        assert (i mod BSIZE - (off + tot) mod BSIZE = i - (off + tot)) as ->.
        { pose proof (Z.div_mod i BSIZE ltac:(done)). pose proof (Z.div_mod (off + tot) BSIZE ltac:(done)).
          fold k in H1. rewrite Ek in *. lia. }
        rewrite sub_lookup by lia. do 2 f_equal. lia.
      * fold b in Hb. rewrite Hb. repeat case_decide; (done || lia).
    + unfold u''. rewrite uset_ne.
      * rewrite Hb. assert (~ (off + tot <= i < off + tot + m)).
        { intros Hin. apply Ek. apply (chunk_other_block i (off + tot) m); (done || lia). }
        repeat case_decide; (done || lia).
      * intros E. apply Ek. apply (Hinj (i / BSIZE) k); [apply Z.div_pos; klia | done | lia | lia | exact E].
  - intros y Hy. unfold u''. rewrite uset_ne by (apply Hy; lia). by apply Hfr.
Qed.

Lemma words_bytes_length l : zlen (words_bytes l) = 4 * zlen l.
Proof.
  induction l as [|x l IH]; [done|]. change (words_bytes (x :: l)) with (le_enc 4 x ++ words_bytes l).
  unfold zlen in *. rewrite length_app, le_enc_length. cbn [length]. lia.
Qed.

Lemma words_bytes_ok l : Forall is_byte (words_bytes l).
Proof.
  induction l as [|x l IH]; [constructor|].
  change (words_bytes (x :: l)) with (le_enc 4 x ++ words_bytes l). apply Forall_app. split; [apply le_enc_bytes | exact IH].
Qed.

Lemma set16_ok p v d : 0 <= p -> p + 2 <= BSIZE -> blk_ok d -> blk_ok (set16 p v d).
Proof. intros. apply blit_ok; [done | done | by rewrite zlen_le_enc | apply le_enc_bytes]. Qed.

Lemma put_dinode_ok ino x d : blk_ok d -> length (addrs x) = 13%nat ->
  blk_ok (put_dinode (di_off ino) x d).
Proof.
  intros Hd Hl. assert (Hp : 0 <= di_off ino <= 448).
  { unfold di_off. pose proof (Z.mod_pos_bound ino IPB ltac:(done)).
    change IPB with 8 in *. unfold DINODE_SIZE. lia. }
  unfold put_dinode. apply blit_ok; [| lia | | apply words_bytes_ok].
  - apply set32_ok; [lia | unfold BSIZE; lia |].
    repeat (apply set16_ok; [lia | unfold BSIZE; lia |]). done.
  - rewrite words_bytes_length. unfold zlen, BSIZE. lia.
Qed.
End written.

Section specs.
Context {T : Type} `{!Sched T} `{!SchedOk T}.
Context (ks : kstack) (Hks : magic ks = KSTACK_MAGIC).
Abbreviation st := (state T).
Implicit Types (s : st) (u : Z -> block) (o : disk) (H secs ad : list Z).

Lemma ifield_wp {A} s ip (f : inode -> A) (Q : A -> st -> Prop) :
  0 <= ip < NINODE -> Q (f (geti s ip)) s -> wp (ifield ip f) Q s.
Proof. intros Hip HQ. unfold ifield. wp_step. apply wp_bounds; [done|]. by wp_step. Qed.

Lemma iupd_wp s ip f (Q : unit -> st -> Prop) :
  0 <= ip < NINODE -> Q tt (s_ino (<[ip := f (geti s ip)]> (inodes s)) s) -> wp (iupd ip f) Q s.
Proof. intros Hip HQ. unfold iupd. wp_step. apply wp_bounds; [done|]. by wp_step. Qed.

Lemma geti_insert s ip x ip' : geti (s_ino (<[ip := x]> (inodes s)) s) ip' =
  if decide (ip' = ip) then x else geti s ip'.
Proof.
  unfold geti. cbn. case_decide; [subst; by rewrite lookup_total_insert_eq|].
  by rewrite lookup_total_insert_ne.
Qed.

Lemma s_lgs_id s : s_lgs (lgs s) s = s.
Proof. by destruct s. Qed.

(** bmap of a block the file has. *)
Lemma bmap_mapped_wp {t} s ip a H secs u o bn (Q : Z -> st -> Prop) :
  let x := geti s ip in
  fsat t (lgs s) a H secs u o -> 0 <= ip < NINODE -> idev x = ROOTDEV ->
  0 <= bn < MAXFILE -> fblk u (addrs x) bn <> 0 ->
  (NDIRECT <= bn -> 0 <= addrs x !!! Z.to_nat NDIRECT < a /\ addrs x !!! Z.to_nat NDIRECT ∉ H) ->
  (length H + length secs < 10)%nat ->
  (forall l, fsat t l a H secs u o -> keeps (lgs s) l -> Q (fblk u (addrs x) bn) (s_lgs l s)) ->
  wp (bmap ks ip bn) Q s.
Proof.
  intros x Hi Hip Hdev Hbn Hne Hind Hroom HQ. unfold bmap. unfold fblk in *.
  destruct (Z.ltb_spec bn NDIRECT).
  - wp_step. apply ifield_wp; [done|]. fold x. cbn [id].
    destruct (Z.eqb_spec (addrs x !!! Z.to_nat bn) 0); [done|]. wp_step.
    rewrite <- (s_lgs_id s). apply HQ; [done | by intros ??].
  - destruct (Z.ltb_spec (bn - NDIRECT) NINDIRECT); [|klia].
    destruct (Hind ltac:(lia)) as [Hib HibH].
    wp_step. apply ifield_wp; [done|]. fold x. cbn [id]. set (ib := addrs x !!! Z.to_nat NDIRECT) in *.
    destruct (Z.eqb_spec ib 0) as [|Hib0]; [done|]. wp_step. wp_step. unfold ondisk. wp_step. wp_step. cbn [lget lgs_lens].
    rewrite Hdev. eapply intx_read; [done | exact Hi | done | done | by left |].
    intros bp l1 Hi1 Ho1 Hk1. wp_step. eapply intx_data; [exact Hi1 | done | done |].
    destruct (Z.eqb_spec (get32 (u ib) (4 * (bn - NDIRECT))) 0); [done|]. wp_step.
    eapply intx_release; [done | exact Hi1 | done | done |]. intros l2 Hi2 Hk2. wp_step.
    apply HQ; [done|]. by eapply keeps_release.
Qed.

(** Inode [ip] is a file or directory of the root device, with its contents in
    the blocks [u]. *)
Record file_ok s u (a : Z) H (ip : Z) : Prop := {
  fo_ip : 0 <= ip < NINODE;
  fo_dev : idev (geti s ip) = ROOTDEV;
  fo_type : itype (geti s ip) <> T_DEV;
  fo_size : 0 <= isize (geti s ip) <= MAXFILE * BSIZE;
  fo_blocks : blocks_ok u a H (addrs (geti s ip)) (isize (geti s ip))
}.

(** The loop of inode_read. *)
Definition read_round (ip n : Z) : Z * Z * list Z -> K st (Z * Z * list Z + Z * list Z) :=
  fun '(tot, off, dst) =>
    if tot <? n then
      bno ← bmap ks ip (off / BSIZE);
      let m := io_chunk (n - tot) off in
      d ← ifield ip idev;
      chunk ← ondisk (
        bp ← bread ks d bno;
        dat ← bget bp data;
        brelse ks bp ;;
        mret (sub (off mod BSIZE) m dat));
      mret (inl (tot + m, u32 (off + m), dst ++ chunk))
    else mret (inr (i32 n, dst)).

Lemma read_loop_wp {t} s ip a H secs u o off n (Q : Z * list Z -> st -> Prop) :
  let x := geti s ip in
  fsat t (lgs s) a H secs u o -> file_ok s u a H ip -> 0 <= off -> 0 <= n -> off + n <= isize x ->
  (length H + length secs < 10)%nat ->
  (forall l, fsat t l a H secs u o -> keeps (lgs s) l -> Q (n, fbytes u (addrs x) off n) (s_lgs l s)) ->
  wp (loop (Z.to_nat (n / BSIZE) + 3) (read_round ip n) (0, off, [])) Q s.
Proof.
  intros x Hi [Hip Hdev Hty Hsz Hbl] Hoff Hn Hend Hroom HQ. fold x in Hdev, Hty, Hsz, Hbl.
  pose proof (rounds_bound off n Hoff Hn) as Hr. change (MAXFILE * BSIZE) with 71680 in Hsz.
  apply (wp_loop (fun '(tot, off', dst) s' => exists l, s' = s_lgs l s /\ fsat t l a H secs u o /\
      keeps (lgs s) l /\ 0 <= tot <= n /\ off' = off + tot /\ dst = fbytes u (addrs x) off tot)
    (fun '(tot, off', _) _ => Z.to_nat (rounds off' (n - tot)))).
  - exists (lgs s). split; [by rewrite s_lgs_id|]. split; [done|]. split; [by intros ??|].
    split; [lia|]. split; [lia | done].
  - rewrite Z.sub_0_r. lia.
  - intros [[tot off'] dst] s' (l & -> & Hl & Hk & Htot & -> & ->). unfold read_round.
    destruct (Z.ltb_spec tot n) as [Hlt|Hge].
    + assert (Hd : 0 <= (off + tot) / BSIZE) by (apply Z.div_pos; klia).
      assert (Hb : (off + tot) / BSIZE * BSIZE < isize x).
      { pose proof (Z.mul_div_le (off + tot) BSIZE ltac:(done)). lia. }
      destruct (Hbl _ Hd Hb) as (Hbn & Hblk & HblkH & Hind).
      destruct (io_chunk_spec (n - tot) (off + tot)) as (Hm & Hfit & Hrd); [lia | lia |].
      set (m := io_chunk (n - tot) (off + tot)) in *.
      wp_step. eapply (bmap_mapped_wp (s_lgs l s)); [exact Hl | done | done | done |
        change (geti (s_lgs l s) ip) with x; lia | | done |].
      { intros H12. destruct (Hind H12) as [Hib HibH]. split; [|done].
        change (geti (s_lgs l s) ip) with x. lia. }
      intros l1 Hl1 Hk1. wp_step. apply ifield_wp; [done|]. change (geti (s_lgs l1 (s_lgs l s)) ip) with x.
      rewrite Hdev. wp_step. unfold ondisk. wp_step. change (geti (s_lgs l s) ip) with x.
      eapply (intx_peek ks Hks); [exact Hl1 | lia | done | by left |]. intros l2 Hl2 Hk2. wp_step.
      split.
      * exists l2. split; [done|]. split; [done|]. split; [intros ???; by apply Hk2, Hk1, Hk|].
        split; [lia|]. split; [rewrite u32_small by klia; lia|].
        rewrite fbytes_app by lia. f_equal. apply sub_fbytes; [lia | lia | done |].
        eapply (intx_block_ok l2); [exact Hl2 | lia].
      * rewrite u32_small by klia. replace (n - (tot + m)) with (n - tot - m) by lia.
        rewrite Hrd. pose proof (rounds_bound (off + tot + m) (n - tot - m)). lia.
    + wp_step. assert (tot = n) as -> by lia. rewrite i32_small by klia. by apply HQ.
Qed.

Lemma inode_read_wp {t} s ip a H secs u o off n (Q : Z * list Z -> st -> Prop) :
  let x := geti s ip in let n' := Z.min n (isize x - off) in
  fsat t (lgs s) a H secs u o -> file_ok s u a H ip ->
  0 <= off <= isize x -> 0 <= n -> off + n < 2 ^ 32 -> (length H + length secs < 10)%nat ->
  (forall l, fsat t l a H secs u o -> keeps (lgs s) l ->
     Q (n', fbytes u (addrs x) off n') (s_lgs l s)) ->
  wp (inode_read ks ip off n) Q s.
Proof.
  intros x n' Hi Hf Hoff Hn Hov Hroom HQ. pose proof Hf as [Hip Hdev Hty Hsz Hbl].
  fold x in Hdev, Hty, Hsz, Hbl. change (MAXFILE * BSIZE) with 71680 in Hsz.
  unfold inode_read. wp_step. apply ifield_wp; [done|]. fold x. cbn [id].
  destruct (Z.eqb_spec (itype x) T_DEV); [done|]. rewrite (u32_small (off + n)) by klia.
  replace ((isize x <? off) || (off + n <? off)) with false
    by (symmetry; apply orb_false_iff; rewrite !Z.ltb_ge; lia).
  assert (En : (if isize x <? off + n then u32 (isize x - off) else n) = n').
  { unfold n'. case_bool; [rewrite u32_small by klia|]; lia. }
  rewrite En. eapply (read_loop_wp s ip); [exact Hi | done | lia | unfold n'; lia | | done | done].
  unfold n'. fold x. lia.
Qed.


Lemma inode_update_wp s ip a H secs u o (Q : unit -> st -> Prop) :
  let x := geti s ip in let ib := IBLOCK (inum x) in
  intx (lgs s) a H secs u o -> 0 <= ip < NINODE -> idev x = ROOTDEV -> length (addrs x) = 13%nat ->
  2 <= ib < a -> ib ∉ H -> (1 + length H + length secs < 10)%nat ->
  (forall l, intx l a H (add_sec ib secs) (uset u ib (put_dinode (di_off (inum x)) x (u ib))) o ->
     keeps (lgs s) l -> Q tt (s_lgs l s)) ->
  wp (inode_update ks ip) Q s.
Proof.
  intros x ib Hi Hip Hdev Hlen Hib HibH Hroom HQ. unfold inode_update.
  wp_step. apply ifield_wp; [done|]. fold x. cbn [id]. rewrite Hdev. fold ib.
  unfold ondisk. wp_step. wp_step. eapply intx_read; [done | exact Hi | lia | done | left; lia |].
  intros b l1 Hi1 Ho1 Hk1.
  eapply intx_update; [done | exact Hi1 | done | lia | done | |].
  { apply put_dinode_ok; [|done]. eapply intx_block_ok; [exact Hi | lia]. }
  intros l2 Hi2 Hk2. eapply intx_release; [done | exact Hi2 | done | by apply Hk2 |].
  intros l3 Hi3 Hk3. apply HQ; [done|]. eapply (keeps_release (lgs s) l2); [exact Hi | done | | done].
  intros ???. by apply Hk2, Hk1.
Qed.

Definition write_round (ip : Z) (src : list Z) (n : Z) : Z * Z -> K st (Z * Z + Z) :=
  fun '(tot, off) =>
    if tot <? n then
      bno ← bmap ks ip (off / BSIZE);
      let m := io_chunk (n - tot) off in
      d ← ifield ip idev;
      ondisk (
        bp ← bread ks d bno;
        bmod bp (blit (off mod BSIZE) (sub tot m src)) ;;
        log_write ks bp ;;
        brelse ks bp) ;;
      mret (inl (tot + m, u32 (off + m)))
    else mret (inr off).

Lemma write_loop_wp s ip a secs u o src off n sz (Q : Z -> st -> Prop) :
  let x := geti s ip in
  intx (lgs s) a [] secs u o -> 0 <= ip < NINODE -> idev x = ROOTDEV -> sz <= MAXFILE * BSIZE ->
  blocks_ok u a [] (addrs x) sz -> distinct_blocks u (addrs x) sz ->
  0 <= off -> 0 <= n -> off + n <= sz -> n <= zlen src -> Forall is_byte src ->
  Z.of_nat (length secs) + rounds off n <= 9 ->
  (forall l secs' u', intx l a [] secs' u' o -> written u (addrs x) sz src off n u' ->
     Z.of_nat (length secs') <= Z.of_nat (length secs) + rounds off n -> Q (off + n) (s_lgs l s)) ->
  wp (loop (Z.to_nat (n / BSIZE) + 3) (write_round ip src n) (0, off)) Q s.
Proof.
  intros x Hi Hip Hdev Hsz Hbl Hdis Hoff Hn Hend Hsrc Hbytes Hroom HQ.
  pose proof (rounds_bound off n Hoff Hn) as Hr. change (MAXFILE * BSIZE) with 71680 in Hsz.
  apply (wp_loop (fun '(tot, off') s' => exists l secs' u', s' = s_lgs l s /\ intx l a [] secs' u' o /\
      0 <= tot <= n /\ off' = off + tot /\ written u (addrs x) sz src off tot u' /\
      Z.of_nat (length secs') + rounds off' (n - tot) <= Z.of_nat (length secs) + rounds off n)
    (fun '(tot, off') _ => Z.to_nat (rounds off' (n - tot)))).
  - exists (lgs s), secs, u. split; [by rewrite s_lgs_id|]. split; [done|]. split; [lia|].
    split; [lia|]. split; [apply written_nil|]. rewrite Z.sub_0_r. lia.
  - rewrite Z.sub_0_r. lia.
  - intros [tot off'] s' (l & secs' & u' & -> & Hl & Htot & -> & Hw & Hcount). unfold write_round.
    destruct (Z.ltb_spec tot n) as [Hlt|Hge].
    + assert (Hd : 0 <= (off + tot) / BSIZE) by (apply Z.div_pos; klia).
      assert (Hb : (off + tot) / BSIZE * BSIZE < sz).
      { pose proof (Z.mul_div_le (off + tot) BSIZE ltac:(done)). lia. }
      destruct (Hbl _ Hd Hb) as (Hbn & Hblk & _ & Hind).
      destruct (io_chunk_spec (n - tot) (off + tot)) as (Hm & Hfit & Hrd); [lia | lia |].
      set (m := io_chunk (n - tot) (off + tot)) in *.
      pose proof (rounds_bound (off + tot + m) (n - tot - m) ltac:(lia) ltac:(lia)) as Hr'.
      pose proof (Z.mod_pos_bound (off + tot) BSIZE ltac:(done)).
      wp_step. eapply (bmap_mapped_wp (s_lgs l s)); [exact Hl | done | done | done | | | cbn; lia |].
      { change (geti (s_lgs l s) ip) with x. rewrite (wr_blk _ _ _ _ _ _ _ Hw). lia. }
      { intros H12. change (geti (s_lgs l s) ip) with x. destruct (Hind H12). split; [lia | done]. }
      intros l1 Hl1 Hk1. wp_step. apply ifield_wp; [done|]. change (geti (s_lgs l1 (s_lgs l s)) ip) with x.
      rewrite Hdev. wp_step. unfold ondisk. wp_step. wp_step. change (geti (s_lgs l s) ip) with x.
      rewrite (wr_blk _ _ _ _ _ _ _ Hw). set (b := fblk u (addrs x) ((off + tot) / BSIZE)) in *.
      eapply intx_read; [done | exact Hl1 | lia | apply not_elem_of_nil | left; cbn; lia |].
      intros bp l2 Hl2 Ho2 Hk2.
      assert (Hok : blk_ok (u' b)) by (eapply intx_block_ok; [exact Hl1 | lia]).
      assert (Hsl : zlen (sub tot m src) = m) by (apply sub_length; lia).
      eapply intx_update; [done | exact Hl2 | done | lia | cbn; lia | |].
      { apply blit_ok; [done | lia | lia | by apply Forall_sub]. }
      intros l3 Hl3 Hk3. eapply intx_release; [done | exact Hl3 | apply not_elem_of_nil | by apply Hk3 |].
      intros l4 Hl4 _. wp_step. rewrite u32_small by klia. split.
      * eexists l4, _, _. split; [done|]. split; [exact Hl4|]. split; [lia|]. split; [lia|]. split.
        -- eapply (written_step u (addrs x) sz src off tot m u'); try (done || lia). apply Hok.
        -- pose proof (add_sec_length b secs'). replace (n - (tot + m)) with (n - tot - m) by lia. lia.
      * replace (n - (tot + m)) with (n - tot - m) by lia. lia.
    + wp_step. assert (tot = n) as -> by lia. rewrite Z.sub_diag in Hcount.
      eapply HQ; [exact Hl | done |]. change (rounds (off + n) 0) with 0 in Hcount. lia.
Qed.

(** Inode [ip] has blocks for its first [sz] bytes, at least those of the
    file, which are different from each other and from the block the inode
    itself is stored in. *)
Record file_room s u (a : Z) (ip sz : Z) : Prop := {
  fr_ip : 0 <= ip < NINODE;
  fr_dev : idev (geti s ip) = ROOTDEV;
  fr_type : itype (geti s ip) <> T_DEV;
  fr_size : 0 <= isize (geti s ip) <= sz;
  fr_max : sz <= MAXFILE * BSIZE;
  fr_addrs : length (addrs (geti s ip)) = 13%nat;
  fr_blocks : blocks_ok u a [] (addrs (geti s ip)) sz;
  fr_distinct : distinct_blocks u (addrs (geti s ip)) sz;
  fr_inode : 2 <= IBLOCK (inum (geti s ip)) < a;
  fr_inode_data : forall bn, 0 <= bn -> bn * BSIZE < sz ->
    IBLOCK (inum (geti s ip)) <> fblk u (addrs (geti s ip)) bn;
  fr_inode_map : IBLOCK (inum (geti s ip)) <> addrs (geti s ip) !!! Z.to_nat NDIRECT
}.

Lemma file_room_lgs s u a ip sz l : file_room s u a ip sz -> file_room (s_lgs l s) u a ip sz.
Proof. intros []. split; assumption. Qed.

(** The inode after a write that ends at [e]. *)
Definition grown s ip (n e : Z) : st :=
  if (0 <? n) && (isize (geti s ip) <? e)
  then s_ino (<[ip := w_size e (geti s ip)]> (inodes s)) s else s.

Lemma geti_grown s ip n e : 0 < n ->
  geti (grown s ip n e) ip = w_size (Z.max (isize (geti s ip)) e) (geti s ip).
Proof.
  intros Hn. unfold grown. destruct (Z.ltb_spec 0 n); [|lia]. cbn [andb].
  destruct (Z.ltb_spec (isize (geti s ip)) e).
  - rewrite geti_insert, decide_True by done. f_equal. lia.
  - rewrite Z.max_l by lia. by destruct (geti s ip).
Qed.

Lemma written_update u ad sz src off n u' ib d : written u ad sz src off n u' ->
  (forall bn, 0 <= bn -> bn * BSIZE < sz -> ib <> fblk u ad bn) -> ib <> ad !!! Z.to_nat NDIRECT ->
  (forall i, 0 <= i -> i / BSIZE * BSIZE < sz -> fbyte (uset u' ib d) ad i = fbyte u' ad i) /\
  (forall bn, fblk (uset u' ib d) ad bn = fblk u ad bn).
Proof.
  intros [_ Hbk _] Hd Hi.
  assert (Hb : forall bn, fblk (uset u' ib d) ad bn = fblk u ad bn).
  { intros bn. rewrite <- Hbk. apply fblk_ext, uset_ne. done. }
  split; [|done]. intros i Hi0 Hir. unfold fbyte. rewrite Hb, Hbk. f_equal. apply uset_ne.
  intros E. by apply (Hd (i / BSIZE)); [apply Z.div_pos; klia | |].
Qed.

Lemma inode_write_wp s ip a secs u o src off n sz (Q : Z -> st -> Prop) :
  let x := geti s ip in let ib := IBLOCK (inum x) in
  intx (lgs s) a [] secs u o -> file_room s u a ip sz ->
  0 <= off <= isize x -> 0 <= n -> off + n <= sz -> n <= zlen src -> Forall is_byte src ->
  Z.of_nat (length secs) + rounds off n <= 8 ->
  (forall l secs' u', intx l a [] secs' u' o ->
     (forall i, 0 <= i -> i / BSIZE * BSIZE < sz -> fbyte u' (addrs x) i =
        if decide (off <= i < off + n) then src !!! Z.to_nat (i - off) else fbyte u (addrs x) i) ->
     (forall bn, fblk u' (addrs x) bn = fblk u (addrs x) bn) ->
     (forall y, y <> ib -> (forall bn, 0 <= bn -> bn * BSIZE < sz -> y <> fblk u (addrs x) bn) ->
        u' y = u y) ->
     Q n (s_lgs l (grown s ip n (off + n)))) ->
  wp (inode_write ks ip src off n) Q s.
Proof.
  intros x ib Hi [Hip Hdev Hty Hsize Hmax Had Hbl Hdis Hib Hibd Hibm] Hoff Hn Hend Hsrc Hby Hroom HQ.
  fold x in Hdev, Hty, Hsize, Had, Hbl, Hdis, Hib, Hibd, Hibm. fold ib in Hib, Hibd, Hibm.
  change (MAXFILE * BSIZE) with 71680 in Hmax.
  unfold inode_write. wp_step. apply ifield_wp; [done|]. fold x. cbn [id].
  destruct (Z.eqb_spec (itype x) T_DEV); [done|]. rewrite (u32_small (off + n)) by klia.
  replace ((isize x <? off) || (off + n <? off)) with false
    by (symmetry; apply orb_false_iff; rewrite !Z.ltb_ge; lia).
  change (MAXFILE * BSIZE) with 71680. destruct (Z.ltb_spec 71680 (off + n)); [lia|].
  wp_step. eapply (write_loop_wp s ip a secs u o src off n sz); try (done || lia).
  intros l secs' u' Hl Hw Hlen. wp_step. apply ifield_wp; [done|]. change (geti (s_lgs l s) ip) with x.
  wp_step. unfold grown in HQ. fold x in HQ.
  destruct ((0 <? n) && (isize x <? off + n)) eqn:Eg; cbn [when].
  - wp_step. apply iupd_wp; [done|]. change (geti (s_lgs l s) ip) with x.
    set (s1 := s_ino _ _). assert (Hx1 : geti s1 ip = w_size (off + n) x).
    { unfold s1. rewrite geti_insert. by rewrite decide_True. }
    eapply (inode_update_wp s1 ip a [] secs' u' o); rewrite ?Hx1;
      [exact Hl | done | done | done | done | apply not_elem_of_nil | cbn; lia |].
    intros l2 Hl2 _. wp_step. rewrite i32_small by klia.
    change (inum (w_size (off + n) x)) with (inum x) in Hl2. fold ib in Hl2.
    destruct (written_update _ _ _ _ _ _ _ ib
      (put_dinode (di_off (inum x)) (w_size (off + n) x) (u' ib)) Hw Hibd Hibm) as [Hb Hk].
    eapply (HQ l2); [exact Hl2 | | done |].
    + intros i Hi0 Hir. rewrite Hb by done. by apply (wr_bytes _ _ _ _ _ _ _ Hw).
    + intros y Hyi Hy. rewrite uset_ne by done. by apply (wr_frame _ _ _ _ _ _ _ Hw).
  - wp_step. wp_step. rewrite i32_small by klia. eapply (HQ l); [exact Hl | | |].
    + apply (wr_bytes _ _ _ _ _ _ _ Hw).
    + apply (wr_blk _ _ _ _ _ _ _ Hw).
    + intros y _ Hy. by apply (wr_frame _ _ _ _ _ _ _ Hw).
Qed.

(** (C14) inode_read returns the bytes of the file from the offset on, as many
    as were asked for or as the file has: the contents that the block map of the
    inode, direct and indirect, points to.  Nothing the file system stores is
    changed.  An offset behind the end of the file, or a length that wraps
    around, is refused with -1. *)
Theorem inode_read_correct t s ip a secs u o off n :
  fsat t (lgs s) a [] secs u o -> file_ok s u a [] ip -> (length secs < 10)%nat ->
  is_u32 off -> is_u32 n ->
  let sz := isize (geti s ip) in let n' := Z.min n (sz - off) in
  (off <= sz -> off + n < 2 ^ 32 ->
     exists l, inode_read ks ip off n s = Ok (n', fbytes u (addrs (geti s ip)) off n') (s_lgs l s) /\
       fsat t l a [] secs u o) /\
  (sz < off \/ 2 ^ 32 <= off + n -> inode_read ks ip off n s = Ok (-1, []) s).
Proof.
  intros Hi Hf Hroom Hoff Hn sz n'. pose proof Hf as [Hip Hdev Hty Hsz Hbl]. split.
  - intros Ho Hov.
    destruct (proj1 (wp_run (inode_read ks ip off n) (fun r s' => exists l, fsat t l a [] secs u o /\
      r = (n', fbytes u (addrs (geti s ip)) off n') /\ s' = s_lgs l s) s))
      as (r & s' & Hrun & l & Hl & -> & ->).
    + eapply inode_read_wp; [exact Hi | done | klia | klia | lia | done |]. intros l Hl _. by exists l.
    + by exists l.
  - intros Hbad. unfold inode_read, ifield.
    rewrite bind_assoc. krun apply bounds_Ok. krun. cbn [id].
    destruct (Z.eqb_spec (itype (geti s ip)) T_DEV); [done|].
    assert ((isize (geti s ip) <? off) || (u32 (off + n) <? off) = true) as ->; [|done].
    apply orb_true_iff. rewrite !Z.ltb_lt. destruct Hbad as [|Hw]; [by left | right].
    unfold u32. replace (off + n) with (off + n - 2 ^ 32 + 1 * 2 ^ 32) by lia.
    rewrite Z.mod_add, Z.mod_small by klia. klia.
Qed.

(** (C13) Writing and reading back: inode_write of [n] bytes inside the blocks of
    a file returns [n], and inode_read of the whole file then gives the new
    bytes in the written range and the old bytes everywhere else; the file has
    grown if the range ends behind its old end.  No block outside the file,
    apart from the one that stores the inode, is changed. *)
Theorem inode_write_read s ip a secs u o src off n sz :
  intx (lgs s) a [] secs u o -> file_room s u a ip sz ->
  0 <= off <= isize (geti s ip) -> 0 < n -> off + n <= sz -> n <= zlen src -> Forall is_byte src ->
  Z.of_nat (length secs) + rounds off n <= 8 ->
  let x := geti s ip in let sz' := Z.max (isize x) (off + n) in
  exists s' secs' u', (r ← inode_write ks ip src off n; d ← inode_read ks ip 0 sz'; mret (r, d)) s =
      Ok (n, (sz', (fun i => if decide (off <= i < off + n) then src !!! Z.to_nat (i - off)
                             else fbyte u (addrs x) i) <$> seqZ 0 sz')) s' /\
    isize (geti s' ip) = sz' /\ intx (lgs s') a [] secs' u' o /\
    (forall y, y <> IBLOCK (inum x) ->
       (forall bn, 0 <= bn -> bn * BSIZE < sz -> y <> fblk u (addrs x) bn) -> u' y = u y).
Proof.
  intros Hi Hfr Hoff Hn Hend Hsrc Hby Hroom x sz'. pose proof Hfr as [Hip Hdev Hty Hsize Hmax Had Hbl Hdis Hib Hibd Hibm].
  set (new := fun i => if decide (off <= i < off + n) then src !!! Z.to_nat (i - off)
                       else fbyte u (addrs x) i).
  destruct (proj1 (wp_run (r ← inode_write ks ip src off n; d ← inode_read ks ip 0 sz'; mret (r, d))
    (fun r s' => exists secs' u', r = (n, (sz', new <$> seqZ 0 sz')) /\ isize (geti s' ip) = sz' /\
      intx (lgs s') a [] secs' u' o /\ (forall y, y <> IBLOCK (inum x) ->
       (forall bn, 0 <= bn -> bn * BSIZE < sz -> y <> fblk u (addrs x) bn) -> u' y = u y)) s))
    as (r & s' & Hrun & secs' & u' & -> & Hs & Hi' & Hfrm).
  2: { by exists s', secs', u'. }
  wp_step. eapply (inode_write_wp s ip a secs u o src off n sz); try (done || lia).
  intros l secs' u' Hl Hb Hk Hfrm. set (s1 := grown s ip n (off + n)).
  assert (Hx1 : geti s1 ip = w_size sz' x).
  { unfold s1. by rewrite geti_grown. }
  assert (Hlen : (length secs' < 10)%nat).
  { pose proof (intx_bounds _ _ _ _ _ _ Hl) as (_ & _ & Hz). unfold zlen in Hz. klia. }
  change (MAXFILE * BSIZE) with 71680 in Hmax. fold x in Hbl, Hsize, Hdis, Hdev, Hty.
  assert (Hsz' : 0 < sz' <= sz) by (unfold sz'; lia).
  wp_step. eapply (inode_read_wp (s_lgs l s1) ip a [] secs' u' o);
    change (geti (s_lgs l s1) ip) with (geti s1 ip); rewrite ?Hx1; cbn [isize w_size w_copy addrs];
    [exact Hl | | lia | lia | lia | done |].
  - split; change (geti (s_lgs l s1) ip) with (geti s1 ip); rewrite ?Hx1; try done.
    + change (MAXFILE * BSIZE) with 71680. cbn. lia.
    + cbn [isize w_size w_copy addrs]. intros bn Hbn Hr. rewrite Hk. apply Hbl; [done | lia].
  - intros l2 Hl2 _. wp_step. exists secs', u'. rewrite Z.sub_0_r, Z.min_id. split; [|split; [|done]].
    + do 2 f_equal. unfold fbytes. apply list_fmap_ext. intros k i Hi0.
      apply lookup_seqZ in Hi0 as [-> Hk0]. unfold new. apply Hb; [lia|].
      pose proof (Z.mul_div_le (0 + Z.of_nat k) BSIZE ltac:(done)). lia.
    + change (geti (s_lgs l2 (s_lgs l s1)) ip) with (geti s1 ip). by rewrite Hx1.
Qed.

(** *** bmap of a block the file does not have yet *)

Lemma addr_insert ad bn v k : length ad = 13%nat -> 0 <= bn < 13 -> 0 <= k ->
  <[Z.to_nat bn := v]> ad !!! Z.to_nat k = if decide (k = bn) then v else ad !!! Z.to_nat k.
Proof.
  intros Hl Hb Hk. case_decide.
  - subst. apply list_lookup_total_insert_eq. lia.
  - apply list_lookup_total_insert_ne. lia.
Qed.

(** Block [b] has become block [bn] of the file; the other blocks of the file
    are where they were, and blocks in use, which are not of the bitmap, have
    kept their contents. *)
Definition block_added s (ip : Z) u (ni b bn : Z) s' u' : Prop :=
  let ad := addrs (geti s ip) in let ad' := addrs (geti s' ip) in
  fblk u' ad' bn = b /\ u' b = zero_block /\
  (forall k, 0 <= k < MAXFILE -> k <> bn -> fblk u' ad' k = fblk u ad k) /\
  (forall y, y <> ad !!! Z.to_nat NDIRECT -> used u ni y = true ->
     (forall j, 0 <= j < sb_size (sb_of (u 1)) -> y <> BBLOCK j ni) -> u' y = u y).

(** What bmap needs to allocate block [bn]: [b] is the first free block, the
    bitmap and the block of block numbers are marked as used. *)
Record can_add s (ip a : Z) secs u o (ni b bn : Z) : Prop := {
  ca_tx : intx (lgs s) a [] secs u o;
  ca_layout : layout u a ni;
  ca_free : first_free u ni b;
  ca_b : 2 <= b < a;
  ca_meta : forall j, 0 <= j < sb_size (sb_of (u 1)) -> used u ni (BBLOCK j ni) = true;
  ca_room : (length secs < 7)%nat;
  ca_ip : 0 <= ip < NINODE;
  ca_dev : idev (geti s ip) = ROOTDEV;
  ca_len : length (addrs (geti s ip)) = 13%nat;
  ca_bn : 0 <= bn < MAXFILE;
  ca_none : fblk u (addrs (geti s ip)) bn = 0;
  ca_ind : let ib := addrs (geti s ip) !!! Z.to_nat NDIRECT in
    ib <> 0 -> 2 <= ib < a /\ used u ni ib = true /\
      forall j, 0 <= j < sb_size (sb_of (u 1)) -> ib <> BBLOCK j ni
}.

Lemma allocated_keeps u ni b y : used u ni b = false -> used u ni y = true ->
  0 <= b < sb_size (sb_of (u 1)) ->
  (forall j, 0 <= j < sb_size (sb_of (u 1)) -> y <> BBLOCK j ni) -> allocated u ni b y = u y.
Proof.
  intros Hbf Hy Hb Hyb. unfold allocated. rewrite !uset_ne; [done | by apply Hyb |].
  intros ->. by rewrite Hy in Hbf.
Qed.

Lemma bmap_alloc_direct s ip a secs u o ni b bn :
  can_add s ip a secs u o ni b bn -> bn < NDIRECT ->
  exists s' secs' u', bmap ks ip bn s = Ok b s' /\ intx (lgs s') a [] secs' u' o /\
    block_added s ip u ni b bn s' u'.
Proof.
  intros [Hi Hl Hfree Hb Hmeta Hroom Hip Hdev Hlen Hbn H0 Hib] Hdir.
  set (x := geti s ip) in *. set (ib := addrs x !!! Z.to_nat NDIRECT) in *.
  pose proof Hfree as (Hbs & Hbf & _). unfold fblk in H0. destruct (Z.ltb_spec bn NDIRECT); [|lia].
  destruct (proj1 (wp_run (ondisk (block_alloc ks ROOTDEV)) (fun r s' => exists l,
    r = b /\ s' = s_lgs l s /\ intx l a [] (alloc_secs ni b secs) (allocated u ni b) o) s))
    as (r & s1 & Hrun & l & -> & -> & Hl1).
  { unfold ondisk. wp_step. eapply block_alloc_wp; try done; [|apply not_elem_of_nil | cbn; lia |].
    - split; [apply not_elem_of_nil|]. intros ??. apply not_elem_of_nil.
    - intros l Hl1 _. by exists l. }
  set (s2 := s_ino (<[ip := w_addr bn b x]> (inodes s)) (s_lgs l s)).
  assert (Hx2 : geti s2 ip = w_addr bn b x).
  { unfold s2, geti. cbn. by rewrite lookup_total_insert_eq. }
  assert (Hadr : forall k, 0 <= k -> addrs (geti s2 ip) !!! Z.to_nat k =
    if decide (k = bn) then b else addrs x !!! Z.to_nat k).
  { intros k Hk. rewrite Hx2. apply addr_insert; [done | klia | done]. }
  exists s2, (alloc_secs ni b secs), (allocated u ni b).
  unfold block_added. fold x. cbn zeta. fold ib. split_and!; try done.
  + unfold bmap. bool_true. unfold ifield. rewrite bind_assoc. krun apply bounds_Ok. krun. fold x. cbn [id].
    rewrite H0. cbn [Z.eqb]. rewrite Hdev. erewrite bind_Ok by exact Hrun.
    unfold iupd. rewrite bind_assoc. krun apply bounds_Ok. krun. done.
  + unfold fblk. bool_true. rewrite Hadr by lia. by rewrite decide_True.
  + apply uset_eq.
  + intros k Hk Hne. unfold fblk. rewrite !Hadr by klia. rewrite (decide_False (P := NDIRECT = bn)) by lia.
    fold ib. destruct (Z.ltb_spec k NDIRECT); [by rewrite decide_False|].
    destruct (Z.eqb_spec ib 0) as [|Hib0]; [done|]. destruct (Hib Hib0) as (_ & Hiu & Hibb).
    by rewrite allocated_keeps.
  + intros y _ Hy Hyb. by apply allocated_keeps.
Qed.

Lemma bmap_alloc_indirect s ip a secs u o ni b bn :
  can_add s ip a secs u o ni b bn -> NDIRECT <= bn -> addrs (geti s ip) !!! Z.to_nat NDIRECT <> 0 ->
  exists s' secs' u', bmap ks ip bn s = Ok b s' /\ intx (lgs s') a [] secs' u' o /\
    block_added s ip u ni b bn s' u'.
Proof.
  intros [Hi Hl Hfree Hb Hmeta Hroom Hip Hdev Hlen Hbn H0 Hib] Hdir Hind.
  set (x := geti s ip) in *. set (ib := addrs x !!! Z.to_nat NDIRECT) in *.
  pose proof Hfree as (Hbs & Hbf & _). unfold fblk in H0. destruct (Z.ltb_spec bn NDIRECT); [lia|].
  destruct (Hib Hind) as (Hibr & Hiu & Hibb).
  fold ib in H0. destruct (Z.eqb_spec ib 0) as [|_]; [done|].
  set (k := bn - NDIRECT) in *.
  assert (Hk : 0 <= k < NINDIRECT) by (unfold k; klia).
  assert (Hk4 : 0 <= 4 * k <= 508) by (change NINDIRECT with 128 in Hk; lia).
  set (u' := uset (allocated u ni b) ib (set32 (4 * k) b (u ib))).
  assert (Hokib : blk_ok (u ib)) by (eapply intx_block_ok; [exact Hi | lia]).
  assert (Hbib : b <> ib) by (intros ->; by rewrite Hiu in Hbf).
  assert (Hua : allocated u ni b ib = u ib) by by apply allocated_keeps.
  set (prog := bp ← bread ks (idev x) ib; dat ← bget bp data;
     let addr := get32 dat (4 * k) in
     if addr =? 0 then addr ← block_alloc ks (idev x);
       bmod bp (set32 (4 * k) addr) ;; log_write ks bp ;; brelse ks bp ;; mret addr
     else brelse ks bp ;; mret addr).
  destruct (proj1 (wp_run prog (fun r l' => r = b /\ exists secs', intx l' a [] secs' u' o) (lgs s)))
    as (r & l' & Hrun & -> & secs' & Hl').
  { unfold prog. rewrite Hdev. wp_step.
    eapply intx_read; [done | exact Hi | lia | apply not_elem_of_nil | left; cbn; lia |].
    intros bp l1 Hl1 Ho1 _. wp_step. eapply intx_data; [exact Hl1 | done | lia |]. rewrite H0. cbn [Z.eqb].
    wp_step. eapply block_alloc_wp; [done | exact Hl1 | done | | done | done | | cbn; lia |].
    { split; [intros ?%list_elem_of_singleton; lia|]. intros j Hj ?%list_elem_of_singleton.
      by apply (Hibb j Hj). }
    { intros ?%list_elem_of_singleton. done. }
    intros l2 Hl2 Hk2. pose proof (add_sec_length b (add_sec (BBLOCK b ni) secs)).
    pose proof (add_sec_length (BBLOCK b ni) secs).
    eapply intx_update; [done | exact Hl2 | by apply Hk2 | lia | unfold alloc_secs; cbn [length]; lia | |].
    { rewrite Hua. apply set32_ok; [lia | unfold BSIZE; lia | done]. }
    intros l3 Hl3 Hk3. wp_step.
    eapply intx_release; [done | exact Hl3 | apply not_elem_of_nil | by apply Hk3, Hk2 |].
    intros l4 Hl4 _. wp_step. split; [done|]. rewrite Hua in Hl4. by eexists. }
  exists (s_lgs l' s), secs', u'.
  unfold block_added. fold x. cbn zeta. fold ib. split_and!; try done.
  + unfold bmap. bool_false. fold k. bool_true. unfold ifield. rewrite bind_assoc. krun apply bounds_Ok. krun. cbn [id]. fold x. fold ib.
    destruct (Z.eqb_spec ib 0) as [|_]; [done|]. krun. unfold ondisk. change (lgs s) with (lget lgs_lens s) in Hrun.
    change (zoom lgs_lens prog s = Ok b (s_lgs l' s)). by erewrite zoom_Ok by exact Hrun.
  + change (geti (s_lgs l' s) ip) with x. unfold fblk. fold ib.
    destruct (Z.ltb_spec bn NDIRECT); [lia|].
    destruct (Z.eqb_spec ib 0) as [|_]; [done|]. unfold u'. rewrite uset_eq. fold k.
    pose proof (intx_bounds _ _ _ _ _ _ Hi).
    apply get32_set32; [lia | rewrite (proj1 Hokib); unfold BSIZE; lia | klia].
  + unfold u'. rewrite uset_ne by done. apply uset_eq.
  + intros j Hj Hne. change (geti (s_lgs l' s) ip) with x. unfold fblk. fold ib.
    destruct (Z.ltb_spec j NDIRECT); [done|]. destruct (Z.eqb_spec ib 0); [done|].
    unfold u'. rewrite uset_eq. apply get32_set32_ne; unfold k; try lia.
    rewrite (proj1 Hokib). unfold BSIZE. fold k. lia.
  + intros y Hyi Hy Hyb. unfold u'. rewrite uset_ne by done. by apply allocated_keeps.
Qed.


(** *** Locking *)

(** The inode in the cache of [s] replaced, and the cache lock free. *)
Definition with_inode s (ip : Z) (x : inode) : st :=
  State (lgs s) unlocked_lk (<[ip := x]> (inodes s)).

Lemma geti_with s ip x i : geti (with_inode s ip x) i = if decide (i = ip) then x else geti s i.
Proof.
  unfold geti, with_inode. cbn. case_decide; [subst; by rewrite lookup_total_insert_eq|].
  by rewrite lookup_total_insert_ne.
Qed.

(** An inode that is in memory and not locked. *)
Definition unlocked s (ip : Z) : Prop :=
  0 <= ip < NINODE /\ 1 <= ref (geti s ip) /\ iflags (geti s ip) = I_VALID.

Lemma inode_lock_wp s ip (Q : unit -> st -> Prop) :
  lock (icache_lk s) = 0 -> unlocked s ip ->
  Q tt (with_inode s ip (w_iflags (Z.lor I_VALID I_BUSY) (geti s ip))) -> wp (inode_lock ks ip) Q s.
Proof.
  intros Hlk (Hip & Href & Hfl) HQ. unfold inode_lock. wp_step.
  apply wp_when; [intros E%Z.eqb_eq; unfold NULL in E; lia | intros _]. wp_step.
  apply ifield_wp; [done|]. wp_step. apply wp_when; [intros E%Z.ltb_lt; lia | intros _]. wp_step.
  unfold icache_lock. wp_step. eapply wp_intro; [by apply spinlock_acquire_run|]. wp_step.
  apply ifield_wp; [done|]. change (geti (lput ilk_lens _ s) ip) with (geti s ip). rewrite Hfl.
  change (Z.land I_VALID I_BUSY =? 0) with true. cbn [negb]. wp_step. apply iupd_wp; [done|]. cbn beta.
  change (geti (lput ilk_lens _ s) ip) with (geti s ip). rewrite Hfl. wp_step.
  unfold icache_unlock. wp_step. eapply wp_intro; [reflexivity|]. wp_step. apply ifield_wp; [done|].
  set (s1 := lput ilk_lens _ _).
  change s1 with (with_inode s ip (w_iflags (Z.lor I_VALID I_BUSY) (geti s ip))).
  by rewrite geti_with, decide_True.
Qed.

Lemma inode_unlock_wp {t} s ip a H secs u o (Q : unit -> st -> Prop) :
  lock (icache_lk s) = 0 -> 0 <= ip < NINODE -> 1 <= ref (geti s ip) ->
  iflags (geti s ip) = Z.lor I_VALID I_BUSY -> fsat t (lgs s) a H secs u o ->
  (forall l, fsat t l a H secs u o -> disk_now l = disk_now (lgs s) -> lg l = lg (lgs s) ->
     Q tt (s_lgs l (with_inode s ip (w_iflags I_VALID (geti s ip))))) ->
  wp (inode_unlock ks ip) Q s.
Proof.
  intros Hlk Hip Href Hfl Hi HQ. unfold inode_unlock. wp_step.
  apply wp_when; [intros E%Z.eqb_eq; unfold NULL in E; lia | intros _]. wp_step.
  apply ifield_wp; [done|]. cbn [id]. rewrite Hfl. wp_step. apply wp_when.
  { intros E. apply orb_true_iff in E as [E|E%Z.ltb_lt]; [done | lia]. }
  intros _. wp_step. unfold icache_lock. wp_step. eapply wp_intro; [by apply spinlock_acquire_run|]. wp_step.
  apply iupd_wp; [done|]. change (geti (lput ilk_lens _ s) ip) with (geti s ip). rewrite Hfl. wp_step.
  unfold ithread_wakeup, ondisk. wp_step. wp_step. unfold thread_wakeup. wp_step.
  wp_call wakeup_ok; [by eapply fsat_sched|]. intros [] th Hth.
  unfold icache_unlock. wp_step. eapply wp_intro; [reflexivity|].
  apply (HQ (s_bc (s_sch th (bc (lgs s))) (lgs s))); [by apply fsat_sch | done | done].
Qed.

(** ** The inode cache *)

Definition cached (x : inode) (k : key) : Prop := 0 < ref x /\ (idev x, inum x) = k.
#[local] Instance cached_dec x k : Decision (cached x k).
Proof. unfold cached. apply _. Defined.

(** The cache lock is free, counts are not negative, and an inode in use is in
    one slot only. *)
Record icache_ok s : Prop := {
  ic_lk : lock (icache_lk s) = 0;
  ic_ref : forall i, 0 <= i < NINODE -> 0 <= ref (geti s i);
  ic_uniq : forall i j k, 0 <= i < NINODE -> 0 <= j < NINODE ->
    cached (geti s i) k -> cached (geti s j) k -> i = j
}.

(** What find_inode has seen of the first [n] slots. *)
Definition scanned s (k : key) (n e : Z) : Prop :=
  (forall i, 0 <= i < n -> ~ cached (geti s i) k) /\
  ((e = NULL /\ forall i, 0 <= i < n -> ref (geti s i) <> 0) \/
   (0 <= e < n /\ ref (geti s e) = 0 /\ forall i, 0 <= i < e -> ref (geti s i) <> 0)).

Lemma find_inode_wp s k (Q : option Z * Z -> st -> Prop) :
  (forall ip e, 0 <= ip < NINODE -> cached (geti s ip) k -> Q (Some ip, e) s) ->
  (forall e, scanned s k NINODE e -> Q (None, e) s) ->
  wp (find_inode k.1 k.2) Q s.
Proof.
  intros HSome HNone. unfold find_inode.
  apply (wp_loop (fun '(ip, e) s' => s' = s /\ 0 <= ip <= NINODE /\ scanned s k ip e)
    (fun '(ip, _) _ => Z.to_nat (NINODE - ip))).
  - split; [done|]. split; [klia|]. split; [lia|]. left. split; [done|]. lia.
  - klia.
  - intros [ip e] s' (-> & Hip & Hno & He). destruct (Z.ltb_spec ip NINODE) as [Hlt|Hge]; cbn [negb].
    + wp_step. apply ifield_wp; [lia|]. cbn [id]. set (x := geti s ip).
      destruct ((0 <? ref x) && (idev x =? k.1) && (inum x =? k.2)) eqn:Eb.
      * wp_step. apply HSome; [lia|]. apply andb_true_iff in Eb as [[E1%Z.ltb_lt E2%Z.eqb_eq]%andb_true_iff E3%Z.eqb_eq].
        split; [done|]. fold x. rewrite E2, E3. by destruct k.
      * wp_step. split; [|lia]. split; [done|]. split; [lia|].
        assert (Hx : ~ cached x k).
        { intros [Hr Hk]. rewrite <- Hk in Eb. cbn in Eb. rewrite !Z.eqb_refl, !andb_true_r in Eb.
          apply Z.ltb_ge in Eb. lia. }
        split.
        -- intros i Hi. destruct (decide (i = ip)) as [->|]; [done | apply Hno; lia].
        -- destruct He as [[-> He]|(He0 & He1 & He2)].
           ++ rewrite Z.eqb_refl. destruct (Z.eqb_spec (ref x) 0); cbn [andb].
              ** right. split; [lia|]. split; [done|]. intros i Hi. apply He. lia.
              ** left. split; [done|]. intros i Hi. destruct (decide (i = ip)) as [->|]; [done | apply He; lia].
           ++ right. replace (e =? NULL) with false by (symmetry; apply Z.eqb_neq; unfold NULL; lia).
              cbn [andb]. split; [lia|]. done.
    + wp_step. apply HNone. assert (ip = NINODE) as -> by lia. done.
Qed.

(** The inode after inode_get: a cached one with one more reference, or a slot
    that was free, recycled. *)
Definition gotten (x : inode) (k : key) : inode :=
  if decide (cached x k) then w_ref (ref x + 1) x else w_ident k.1 k.2 1 0 x.

(** [ip] is the slot inode_get takes for [k]. *)
Definition get_slot s (k : key) (ip : Z) : Prop :=
  0 <= ip < NINODE /\ (cached (geti s ip) k \/
    (ref (geti s ip) = 0 /\ forall i, 0 <= i < NINODE -> ~ cached (geti s i) k)).

Lemma inode_get_wp s k (Q : Z -> st -> Prop) : icache_ok s ->
  (exists i, get_slot s k i) ->
  (forall ip, get_slot s k ip -> Q ip (with_inode s ip (gotten (geti s ip) k))) ->
  wp (inode_get ks k.1 k.2) Q s.
Proof.
  intros [Hlk Href Huniq] Hex HQ. unfold inode_get, icache_lock. wp_step. wp_step.
  eapply wp_intro; [by apply spinlock_acquire_run|]. wp_step.
  apply (find_inode_wp (lput ilk_lens (Spinlock (cpu_idx ks) 1) s) k).
  - intros ip e Hip Hc. change (geti _ ip) with (geti s ip) in Hc.
    wp_step. apply iupd_wp; [done|]. unfold icache_unlock. wp_step. wp_step.
    eapply wp_intro; [reflexivity|]. wp_step.
    specialize (HQ ip (conj Hip (or_introl Hc))). unfold gotten in HQ. by rewrite decide_True in HQ.
  - intros e [Hno He]. change (forall i, 0 <= i < NINODE -> ~ cached (geti s i) k) in Hno.
    destruct He as [[-> He]|(He0 & He1 & _)].
    + destruct Hex as (i & Hi & [Hc|[Hr _]]); [by destruct (Hno i)|]. by destruct (He i).
    + change (ref (geti s e) = 0) in He1.
      wp_step. apply wp_when; [intros E%Z.eqb_eq; unfold NULL in E; lia | intros _].
      wp_step. apply iupd_wp; [done|]. unfold icache_unlock. wp_step. wp_step.
      eapply wp_intro; [reflexivity|]. wp_step.
      specialize (HQ e (conj He0 (or_intror (conj He1 Hno)))). unfold gotten in HQ.
      by rewrite decide_False in HQ by by apply Hno.
Qed.

(** (C16) inode_get returns the slot in which the inode is cached, with one more
    reference, or else an unused slot, which then holds the inode with one
    reference and nothing read from disk yet.  No other slot changes, and no
    inode ever has two slots.  If every slot is in use by another inode it
    panics. *)
Theorem inode_get_correct s d i :
  icache_ok s ->
  ((exists ip, get_slot s (d, i) ip) ->
     exists ip s', inode_get ks d i s = Ok ip s' /\ get_slot s (d, i) ip /\ icache_ok s' /\
       cached (geti s' ip) (d, i) /\ ref (geti s' ip) = Z.max 0 (ref (geti s ip)) + 1 /\
       (ref (geti s ip) = 0 -> iflags (geti s' ip) = 0) /\
       lgs s' = lgs s /\ forall j, j <> ip -> geti s' j = geti s j) /\
  ((forall j, 0 <= j < NINODE -> ref (geti s j) <> 0 /\ ~ cached (geti s j) (d, i)) ->
     inode_get ks d i s = Err (Panic "inode_get: no inodes")).
Proof.
  intros Hok. split.
  - intros Hex. pose proof Hok as [Hlk Href Huniq].
    destruct (proj1 (wp_run (inode_get ks d i) (fun ip s' => get_slot s (d, i) ip /\
      s' = with_inode s ip (gotten (geti s ip) (d, i))) s)) as (ip & s' & Hrun & Hslot & ->).
    { apply (inode_get_wp s (d, i)); [done | done |]. by intros ip Hip. }
    pose proof Hslot as [Hip Hc]. exists ip, (with_inode s ip (gotten (geti s ip) (d, i))).
    assert (Hg : forall j, geti (with_inode s ip (gotten (geti s ip) (d, i))) j =
      if decide (j = ip) then gotten (geti s ip) (d, i) else geti s j) by (intros; apply geti_with).
    assert (Hgot : cached (gotten (geti s ip) (d, i)) (d, i) /\
      ref (gotten (geti s ip) (d, i)) = Z.max 0 (ref (geti s ip)) + 1).
    { unfold gotten. case_decide as E; [destruct E as [Hr Hk]|].
      - split; [split; [cbn; lia | exact Hk] | cbn; lia].
      - destruct Hc as [|[-> _]]; [done|]. split; [by split | done]. }
    split_and!; rewrite ?Hg, ?decide_True by done; try done.
    + split; [done | |].
      * intros j Hj. rewrite Hg. case_decide; [|by apply Href]. destruct Hgot as [[? _] _]. lia.
      * intros j j' k Hj Hj'. rewrite !Hg. repeat case_decide; subst; try done.
        -- intros [_ E1] Hc'. destruct Hgot as [[_ E2] _]. rewrite E1 in E2. subst k.
           destruct Hc as [Hc|[_ Hno]]; [by eapply Huniq | by destruct (Hno j')].
        -- intros Hc' [_ E1]. destruct Hgot as [[_ E2] _]. rewrite E1 in E2. subst k.
           destruct Hc as [Hc|[_ Hno]]; [by eapply Huniq | by destruct (Hno j)].
        -- by apply Huniq.
    + apply Hgot.
    + apply Hgot.
    + intros Hr0. unfold gotten. rewrite decide_False; [done|]. intros [Hr _]. lia.
    + intros j Hj. rewrite Hg. by rewrite decide_False.
  - intros Hfull. unfold inode_get, icache_lock.
    erewrite bind_Ok by (apply zoom_Ok, spinlock_acquire_run; [done | apply Hok]).
    set (s1 := lput ilk_lens _ s).
    assert (Hf : exists s2 e, find_inode d i s1 = Ok (None, e) s2 /\ e = NULL).
    { destruct (proj1 (wp_run (find_inode d i) (fun r _ => r = (None, NULL)) s1)) as (r & s2 & Hr & ->).
      - apply (find_inode_wp s1 (d, i)).
        + intros ip e Hip Hc. by destruct (Hfull ip Hip).
        + intros e [_ [[-> _]|(He & Hr & _)]]; [done|]. by destruct (Hfull e He).
      - by exists s2, NULL. }
    destruct Hf as (s2 & e & Hf & ->). by erewrite bind_Ok by exact Hf.
Qed.
End specs.
End Inode.

(** ** A file of 600 bytes in blocks 30 and 31 *)
Module InodeDemo.
Import Disk Bufcache BufcacheDemo Log Txn Block BlockDemo Inode.

Definition demo_addrs : list Z := [30; 31; 0; 0; 0; 0; 0; 0; 0; 0; 0; 0; 0].
Definition demo_inode : inode := MkInode ROOTDEV 1 1 3 T_FILE 0 0 1 600 demo_addrs.
Definition demo_ino : Inode.state unit := Inode.State demo_tx unlocked_lk {[0 := demo_inode]}.

Lemma demo_blk bn : 0 <= bn -> bn * BSIZE < 1024 -> bn = 0 \/ bn = 1.
Proof. unfold BSIZE. lia. Qed.

Lemma demo_blocks sz : sz <= 1024 -> blocks_ok demo_u 1014 [] demo_addrs sz.
Proof.
  intros Hs bn Hbn Hr. destruct (demo_blk bn Hbn ltac:(lia)) as [->| ->];
    (split; [done|]; split; [by vm_compute|]; split; [apply not_elem_of_nil | by intros ?]).
Qed.

Lemma demo_file_ok : file_ok demo_ino demo_u 1014 [] 0.
Proof. split; try done. apply demo_blocks. by vm_compute. Qed.

Lemma demo_file_room : file_room demo_ino demo_u 1014 0 1024.
Proof.
  split; try done.
  - apply demo_blocks. lia.
  - split.
    + intros bn bn' Hb Hr Hb' Hr'.
      destruct (demo_blk bn Hb Hr) as [->| ->], (demo_blk bn' Hb' Hr') as [->| ->]; by vm_compute.
    + intros bn Hb Hr. destruct (demo_blk bn Hb Hr) as [->| ->]; by vm_compute.
  - intros bn Hb Hr. destruct (demo_blk bn Hb Hr) as [->| ->]; by vm_compute.
Qed.

Lemma inode_read_correct_witness :
  exists l, inode_read demo_ks 0 500 400 demo_ino = Ok (100, fbytes demo_u demo_addrs 500 100) (s_lgs l demo_ino).
Proof.
  destruct (inode_read_correct demo_ks eq_refl true demo_ino 0 1014 [] demo_u demo_disk 500 400
    demo_intx demo_file_ok) as [H _]; [cbn; lia | by vm_compute | by vm_compute |].
  destruct H as (l & Hrun & _); [by vm_compute | by vm_compute |]. exists l. exact Hrun.
Defined.

Lemma inode_write_read_witness :
  exists s', (r ← inode_write demo_ks 0 [1; 2; 3; 4; 5] 598 5; d ← inode_read demo_ks 0 0 603; mret (r, d)) demo_ino =
    Ok (5, (603, (fun i => if decide (598 <= i < 598 + 5) then [1; 2; 3; 4; 5] !!! Z.to_nat (i - 598)
                           else fbyte demo_u demo_addrs i) <$> seqZ 0 603)) s'.
Proof.
  destruct (inode_write_read demo_ks eq_refl demo_ino 0 1014 [] demo_u demo_disk [1; 2; 3; 4; 5] 598 5 1024
    demo_intx demo_file_room) as (s' & secs' & u' & Hrun & _);
    [by vm_compute | lia | lia | by vm_compute | repeat constructor; klia | by vm_compute |].
  exists s'. exact Hrun.
Defined.


Definition empty_icache : Inode.state unit := Inode.State demo_tx unlocked_lk ∅.

Lemma inode_get_correct_witness : exists ip s', inode_get demo_ks 1 7 empty_icache = Ok ip s' /\ cached (geti s' ip) (1, 7).
Proof.
  destruct (inode_get_correct demo_ks eq_refl empty_icache 1 7) as [H _].
  - split; [done | done |]. intros i j k Hi Hj [Hr _]. by unfold geti in Hr.
  - destruct H as (ip & s' & Hrun & _ & _ & Hc & _); [|exists ip, s'; split; [exact Hrun | exact Hc]].
    exists 0. split; [klia|]. right. split; [done|]. intros i Hi [Hr _]. by unfold geti in Hr.
Defined.
End InodeDemo.
