(* ===== verification/Dir.v ===== *)
(** * Directories and path names (kern/fs/dir.c, kern/fs/path.c)

    A directory is a file of 16 byte entries: an inode number and a name of up
    to 14 bytes.  A C string is the list of the bytes in its buffer; reading
    behind the buffer is [Undef]. *)

From S2P Require Import Prelude Types Spinlock Bytes Memory Disk Bufcache Log Txn Block Inode.

(** What the file system needs of the processes: the running one, its working
    directory and its open files (PCurID, PTCBIntro). *)
Class Procs (T : Type) : Type := {
  cur_id : K T Z;
  get_cwd : Z -> K T Z;
  set_cwd : Z -> Z -> K T unit;
  get_openfile : Z -> Z -> K T Z;
  set_openfile : Z -> Z -> Z -> K T unit
}.

Module Dir.
Import Disk Bufcache Log Txn Block Inode.

Definition DIRSIZ : Z := 14.
Definition DIRENT_SIZE : Z := 16.
#[export] Hint Unfold DIRSIZ DIRENT_SIZE : kconst.

(** struct dirent, as bytes. *)
Definition de_inum (de : list Z) : Z := get16 de 0.
Definition de_name (de : list Z) : list Z := sub 2 DIRSIZ de.

(** The bytes behind a [char *]. *)
Definition chars (l : list Z) : Z -> Z := fun i => l !!! Z.to_nat i.

Definition dir_namecmp (s t : list Z) : Z := strncmp (chars s) (chars t) DIRSIZ.

(** strncpy into a buffer of [n] bytes. *)
Definition strncpy_bytes (t : list Z) (n : Z) : list Z :=
  (fun i => strncpy 0 (chars t) n ∅ !!! i) <$> seqZ 0 n.

Section ops.
Context {T : Type} `{!Sched T}.
Context (ks : kstack).
Abbreviation st := (Inode.state T).

(** One inode_read of an entry in the loops of dir.c. *)
Definition read_dirent (dp off : Z) (why : string) : K st (list Z) :=
  '(r, de) ← inode_read ks dp off DIRENT_SIZE;
  when (negb (r =? DIRENT_SIZE)) (panic why) ;;
  mret de.

(** The inode, or NULL, and the offset stored at [poff]. *)
Definition dir_lookup (dp : Z) (name : list Z) : K st (Z * Z) :=
  t ← ifield dp itype;
  when (negb (t =? T_DIR)) (panic "dir_lookup not DIR") ;;
  sz ← ifield dp isize;
  found ← loop (Z.to_nat (sz / DIRENT_SIZE) + 2) (fun off =>
    sz ← ifield dp isize;
    if off <? sz then
      de ← read_dirent dp off "dir_link read";
      if de_inum de =? 0 then mret (inl (u32 (off + DIRENT_SIZE)))
      else if dir_namecmp name (de_name de) =? 0 then mret (inr (Some (de_inum de, off)))
      else mret (inl (u32 (off + DIRENT_SIZE)))
    else mret (inr None)) 0;
  match found with
  | Some (ino, off) =>
      d ← ifield dp idev;
      ip ← inode_get ks d ino;
      mret (ip, off)
  | None => mret (NULL, 0)
  end.

(** The first entry with inode number 0, or the end of the directory. *)
Definition find_empty (dp : Z) : K st Z :=
  sz ← ifield dp isize;
  loop (Z.to_nat (sz / DIRENT_SIZE) + 2) (fun off =>
    sz ← ifield dp isize;
    if off <? sz then
      de ← read_dirent dp off "dir_link read";
      if de_inum de =? 0 then mret (inr off) else mret (inl (off + DIRENT_SIZE))
    else mret (inr off)) 0.

(** The entry for [name]: [de.name] is filled by strncpy, [de.inum] is 16 bits. *)
Definition mk_dirent (name : list Z) (ino : Z) : list Z :=
  le_enc 2 (u16 ino) ++ strncpy_bytes name DIRSIZ.

Definition dir_link (dp : Z) (name : list Z) (ino : Z) : K st Z :=
  '(ip, _) ← dir_lookup dp name;
  if negb (ip =? NULL) then inode_put ks ip ;; mret (-1)
  else
    off ← find_empty dp;
    r ← inode_write ks dp (mk_dirent name ino) off DIRENT_SIZE;
    when (negb (r =? DIRENT_SIZE)) (panic "dir_link") ;;
    mret 0.
End ops.

(** ** path.c *)

Definition SLASH : Z := 47.

(** The loop that steps over slashes. *)
Fixpoint skip_slashes (p : list Z) : option (list Z) :=
  match p with
  | [] => None
  | c :: p' => if c =? SLASH then skip_slashes p' else Some p
  end.

(** The bytes up to the next slash or the end of the string, and the rest. *)
Fixpoint take_elem (p : list Z) : option (list Z * list Z) :=
  match p with
  | [] => None
  | c :: p' =>
      if (c =? SLASH) || (c =? 0) then Some ([], p)
      else '(s, r) ← take_elem p'; Some (c :: s, r)
  end.

(** The name skipelem leaves in the buffer. *)
Definition elem_name (s : list Z) : list Z :=
  (if DIRSIZ <=? zlen s then take (Z.to_nat (DIRSIZ - 1)) s else s) ++ [0].

(** [None]: the path is not terminated.  [Some None]: no element left.
    [Some (Some (rest, name))]. *)
Definition skipelem (path : list Z) : option (option (list Z * list Z)) :=
  p ← skip_slashes path;
  match p with
  | [] => None
  | c :: _ =>
      if c =? 0 then Some None
      else
        '(s, r) ← take_elem p;
        r ← skip_slashes r;
        Some (Some (r, elem_name s))
  end.

Section path_ops.
Context {T : Type} `{!Sched T, !Procs T}.
Context (ks : kstack).
Abbreviation st := (Inode.state T).

Definition proc {A} (m : K T A) : K st A := ondisk (zoom bc_lens (zoom sch_lens m)).

Definition char0 (p : list Z) : K st Z :=
  match p with [] => fail Undef | c :: _ => mret c end.

(** The inode (or NULL) and the contents of the [name] buffer.  Every round
    consumes at least one byte of the path. *)
Definition namex (path : list Z) (nameiparent : bool) : K st (Z * list Z) :=
  c ← char0 path;
  ip ← (if c =? SLASH then inode_get ks ROOTDEV ROOTINO
        else pid ← proc cur_id; cwd ← proc (get_cwd pid); inode_dup ks cwd);
  loop (length path + 1) (fun '(path, ip, name) =>
    match skipelem path with
    | None => fail Undef
    | Some None =>
        if nameiparent then inode_put ks ip ;; mret (inr (NULL, name))
        else mret (inr (ip, name))
    | Some (Some (path, name)) =>
        inode_lock ks ip ;;
        t ← ifield ip itype;
        if negb (t =? T_DIR) then
          inode_unlockput ks ip ;;
          mret (inr (NULL, name))
        else
          c ← char0 path;
          if nameiparent && (c =? 0) then
            inode_unlock ks ip ;;
            mret (inr (ip, name))
          else
            '(next, _) ← dir_lookup ks ip name;
            if next =? NULL then
              inode_unlockput ks ip ;;
              mret (inr (NULL, name))
            else
              inode_unlockput ks ip ;;
              mret (inl (path, next, name))
    end) (path, ip, []).

Definition namei (path : list Z) : K st Z :=
  '(ip, _) ← namex path false; mret ip.

Definition nameiparent (path : list Z) : K st (Z * list Z) := namex path true.
End path_ops.

(** ** Paths are sequences of components *)

(** The pieces between slashes; the components are those that are not empty. *)
Fixpoint pieces (p : list Z) : list (list Z) :=
  match p with
  | [] => [[]]
  | c :: p' =>
      if c =? SLASH then [] :: pieces p'
      else match pieces p' with [] => [[c]] | e :: l => (c :: e) :: l end
  end.
Definition components (p : list Z) : list (list Z) := filter (fun e => e <> []) (pieces p).

(** The names a walk along [path] sees. *)
Fixpoint walk (fuel : nat) (path : list Z) : option (list (list Z)) :=
  match fuel with
  | O => None
  | S f =>
      r ← skipelem path;
      match r with
      | None => Some []
      | Some (rest, name) => l ← walk f rest; Some (name :: l)
      end
  end.

Lemma pieces_cons p : exists e l, pieces p = e :: l.
Proof.
  induction p as [|c p (e & l & IH)]; cbn [pieces]; [eauto|].
  destruct (c =? SLASH); [eauto|]. rewrite IH. eauto.
Qed.

Lemma pieces_elem e p : Forall (fun c => c <> SLASH) e ->
  pieces (e ++ SLASH :: p) = e :: pieces p.
Proof.
  induction 1 as [|c e Hc He IH]; cbn [app pieces]; [by rewrite Z.eqb_refl|].
  apply Z.eqb_neq in Hc. by rewrite Hc, IH.
Qed.

Lemma pieces_last e : Forall (fun c => c <> SLASH) e -> pieces e = [e].
Proof.
  induction 1 as [|c e Hc He IH]; cbn [pieces]; [done|]. apply Z.eqb_neq in Hc. by rewrite Hc, IH.
Qed.

Lemma components_slash p : components (SLASH :: p) = components p.
Proof. unfold components. cbn [pieces]. rewrite Z.eqb_refl, filter_cons_False by (intros H; by apply H). done. Qed.

Lemma components_slashes k p : components (replicate k SLASH ++ p) = components p.
Proof. induction k as [|k IH]; [done|]. cbn [replicate app]. by rewrite components_slash. Qed.

Lemma components_elem e p : e <> [] -> Forall (fun c => c <> SLASH) e ->
  components (e ++ SLASH :: p) = e :: components p.
Proof. intros Hne He. unfold components. by rewrite pieces_elem, filter_cons_True. Qed.

Lemma components_last e : e <> [] -> Forall (fun c => c <> SLASH) e -> components e = [e].
Proof. intros Hne He. unfold components. by rewrite pieces_last, filter_cons_True. Qed.

(** skip_slashes and take_elem on a terminated path. *)
Lemma skip_slashes_spec p tl : Forall (fun c => c <> 0) p ->
  exists k q, p = replicate k SLASH ++ q /\ skip_slashes (p ++ 0 :: tl) = Some (q ++ 0 :: tl) /\
    (forall c q', q = c :: q' -> c <> SLASH).
Proof.
  induction 1 as [|c p Hc Hp IH]; cbn [app skip_slashes].
  - exists 0%nat, []. by split_and!.
  - destruct (Z.eqb_spec c SLASH) as [->|Hne].
    + destruct IH as (k & q & -> & Hs & Hq). exists (S k), q. by split_and!.
    + exists 0%nat, (c :: p). split_and!; try done. by intros ?? [= <- _].
Qed.

Lemma take_elem_spec p tl : Forall (fun c => c <> 0) p ->
  exists e q, p = e ++ q /\ take_elem (p ++ 0 :: tl) = Some (e, q ++ 0 :: tl) /\
    Forall (fun c => c <> SLASH) e /\ (q = [] \/ exists q', q = SLASH :: q').
Proof.
  induction 1 as [|c p Hc Hp IH]; cbn [app take_elem].
  - exists [], []. split_and!; try done. by left.
  - destruct (Z.eqb_spec c SLASH) as [->|Hne]; cbn [orb].
    + exists [], (SLASH :: p). split_and!; try done. right. by exists p.
    + apply Z.eqb_neq in Hc as ->. destruct IH as (e & q & -> & -> & He & Hq).
      exists (c :: e), q. split_and!; try done. by constructor.
Qed.

(** skipelem takes the first component off the path. *)
Lemma skipelem_spec p tl : Forall (fun c => c <> 0) p ->
  (components p = [] /\ skipelem (p ++ 0 :: tl) = Some None) \/
  exists e q, components p = e :: components q /\ (length q < length p)%nat /\
    Forall (fun c => c <> 0) q /\
    skipelem (p ++ 0 :: tl) = Some (Some (q ++ 0 :: tl, elem_name e)).
Proof.
  intros Hp. destruct (skip_slashes_spec p tl Hp) as (k & q & -> & Hs & Hq).
  unfold skipelem. rewrite Hs. cbn [mbind option_bind]. rewrite components_slashes.
  apply Forall_app in Hp as [_ Hq0]. destruct q as [|c q]; cbn [app]; [by left|].
  right. specialize (Hq c q eq_refl). pose proof Hq0 as [Hc _]%Forall_cons.
  apply Z.eqb_neq in Hc as ->. change (c :: q ++ 0 :: tl) with ((c :: q) ++ 0 :: tl).
  destruct (take_elem_spec (c :: q) tl Hq0) as (e & r & E & -> & He & Hr). cbn [mbind option_bind].
  assert (Hne : e <> []).
  { intros ->. cbn in E. destruct Hr as [->|[q' ->]]; [done|]. by injection E as -> _. }
  rewrite E in Hq0. apply Forall_app in Hq0 as [_ Hr0].
  destruct (skip_slashes_spec r tl Hr0) as (k' & q' & Er & -> & _). cbn [mbind option_bind].
  assert (Hlen : (length (c :: q) = length e + k' + length q')%nat).
  { rewrite E, Er, !length_app, length_replicate. lia. }
  exists e, q'. rewrite E. split_and!; [| | by rewrite Er in Hr0; apply Forall_app in Hr0 as [] | done].
  - destruct Hr as [->|[r' ->]].
    + destruct k', q'; try done. by rewrite app_nil_r, components_last.
    + rewrite components_elem by done. f_equal. rewrite <- (components_slash r').
      rewrite Er. by rewrite components_slashes.
  - rewrite length_app, length_replicate, <- E. destruct e; [done|]. cbn in *. lia.
Qed.

(** (C20) Walking a path with skipelem visits exactly the components of the path
    name, in order: the non-empty pieces between slashes, of which names of 14
    bytes or more are cut to 13.  The walk ends, after as many steps as there
    are components, for every path that is terminated by a NUL. *)
Theorem path_walk_correct p tl :
  Forall (fun c => c <> 0) p ->
  walk (S (length p)) (p ++ 0 :: tl) = Some (elem_name <$> components p).
Proof.
  intros Hp. assert (Hgen : forall f p, (length p < f)%nat -> Forall (fun c => c <> 0) p ->
    walk f (p ++ 0 :: tl) = Some (elem_name <$> components p)); [|apply Hgen; [lia | done]].
  clear p Hp. intros f. induction f as [|f IH]; intros p Hf Hp; [lia|]. cbn [walk].
  destruct (skipelem_spec p tl Hp) as [[-> ->]|(e & q & -> & Hlen & Hq & ->)]; [done|].
  cbn [mbind option_bind]. rewrite IH by (done || lia). done.
Qed.

(** "/usr//lib/". *)
Lemma path_walk_correct_witness :
  walk 11 ([47; 117; 115; 114; 47; 47; 108; 105; 98; 47] ++ 0 :: [1; 2]) =
    Some [[117; 115; 114; 0]; [108; 105; 98; 0]].
Proof.
  etransitivity; [apply (path_walk_correct [47; 117; 115; 114; 47; 47; 108; 105; 98; 47] [1; 2])|].
  - repeat constructor; lia.
  - reflexivity.
Defined.

(** ** Directories *)

(** Entry [k] of the directory with the blocks [u] and block map [ad]. *)
Definition dent (u : Z -> block) (ad : list Z) (k : Z) : list Z :=
  fbytes u ad (DIRENT_SIZE * k) DIRENT_SIZE.
(** The entry is in use, for [name]. *)
Definition hit (name de : list Z) : bool :=
  negb (de_inum de =? 0) && (dir_namecmp name (de_name de) =? 0).
(** [k] is the first of the [n] entries for which [f] holds, or [n]. *)
Definition first_entry (f : list Z -> bool) (u : Z -> block) (ad : list Z) (n k : Z) : Prop :=
  0 <= k <= n /\ (forall j, 0 <= j < k -> f (dent u ad j) = false) /\
  (k < n -> f (dent u ad k) = true).

(** A new entry has the inode number and the name it was made for. *)
Lemma strncpy_bytes_lookup name n k : 0 <= k < n -> n <= 2 ^ 32 ->
  strncpy_bytes name n !! Z.to_nat k = Some (cstr_byte (chars name) 0 k).
Proof.
  intros Hk Hn. unfold strncpy_bytes. rewrite list_lookup_fmap.
  assert (seqZ 0 n !! Z.to_nat k = Some k) as -> by (apply lookup_seqZ; lia). cbn [fmap option_fmap option_map].
  unfold strncpy. rewrite strncpy_from_lookup by lia. rewrite decide_True by lia. f_equal. f_equal. lia.
Qed.

Lemma mk_dirent_length name ino : zlen (mk_dirent name ino) = DIRENT_SIZE.
Proof.
  unfold mk_dirent, strncpy_bytes, zlen. rewrite length_app, le_enc_length, length_fmap, length_seqZ. done.
Qed.

Lemma mk_dirent_bytes name ino : Forall is_byte name -> Forall is_byte (mk_dirent name ino).
Proof.
  intros Hn. apply Forall_app. split; [apply le_enc_bytes|]. apply Forall_lookup. intros k c Hc.
  assert (Hk : (k < 14)%nat).
  { apply lookup_lt_Some in Hc. unfold strncpy_bytes in Hc. rewrite length_fmap, length_seqZ in Hc.
    unfold DIRSIZ in Hc. lia. }
  rewrite <- (Nat2Z.id k), strncpy_bytes_lookup in Hc by (unfold DIRSIZ; lia). injection Hc as <-.
  unfold cstr_byte. destruct (existsb _ _); [klia|]. unfold chars. rewrite list_lookup_total_alt.
  destruct (name !! _) eqn:E; cbn; [by eapply Forall_lookup_1 in E | klia].
Qed.

Lemma mk_dirent_inum name ino : 0 <= ino < 2 ^ 16 -> de_inum (mk_dirent name ino) = ino.
Proof.
  intros Hi. unfold de_inum, get16, mk_dirent, sub. change (Z.to_nat 0) with 0%nat.
  change (Z.to_nat 2) with 2%nat. rewrite drop_0, take_app_length' by (by rewrite le_enc_length). rewrite le_dec_enc.
  unfold u16. rewrite Zmod_mod. by apply Z.mod_small.
Qed.

Lemma mk_dirent_name name ino : dir_namecmp name (de_name (mk_dirent name ino)) = 0.
Proof.
  unfold dir_namecmp. apply strncmp_correct; [done|]. intros k Hk Hz.
  assert (E : chars (de_name (mk_dirent name ino)) k = cstr_byte (chars name) 0 k).
  { unfold chars at 1. rewrite list_lookup_total_alt. unfold de_name. rewrite sub_lookup by lia.
    unfold mk_dirent. rewrite lookup_app_r by (rewrite le_enc_length; lia). rewrite le_enc_length.
    replace (Z.to_nat (2 + k) - 2)%nat with (Z.to_nat k) by lia.
    by rewrite strncpy_bytes_lookup by (unfold DIRSIZ in *; lia). }
  rewrite E. unfold cstr_byte. destruct (existsb _ _) eqn:Ex; [|done].
  apply existsb_exists in Ex as (j & Hj & Hj0). apply list_elem_of_In, elem_of_seqZ in Hj.
  apply Z.eqb_eq in Hj0. destruct (Hz j); [lia | done].
Qed.

Lemma hit_mk_dirent name ino : 0 < ino < 2 ^ 16 -> hit name (mk_dirent name ino) = true.
Proof.
  intros Hi. unfold hit. rewrite mk_dirent_inum, mk_dirent_name by lia.
  destruct (Z.eqb_spec ino 0); [lia | done].
Qed.

Lemma dent_ext u u' ad k : (forall i, DIRENT_SIZE * k <= i < DIRENT_SIZE * k + DIRENT_SIZE ->
  fbyte u' ad i = fbyte u ad i) -> dent u' ad k = dent u ad k.
Proof.
  intros E. unfold dent, fbytes. apply list_fmap_ext. intros j i Hi. apply lookup_seqZ in Hi as [-> Hj].
  apply E. lia.
Qed.

Lemma dent_src u ad k src : zlen src = DIRENT_SIZE ->
  (forall i, DIRENT_SIZE * k <= i < DIRENT_SIZE * k + DIRENT_SIZE ->
     fbyte u ad i = src !!! Z.to_nat (i - DIRENT_SIZE * k)) -> dent u ad k = src.
Proof.
  intros Hl E. unfold dent, fbytes. apply list_eq_Z. intros i Hi. rewrite list_lookup_fmap.
  destruct (decide (i < DIRENT_SIZE)).
  - assert (seqZ (DIRENT_SIZE * k) DIRENT_SIZE !! Z.to_nat i = Some (DIRENT_SIZE * k + i)) as ->
      by (apply lookup_seqZ; lia).
    cbn [fmap option_fmap option_map]. rewrite E by lia.
    replace (DIRENT_SIZE * k + i - DIRENT_SIZE * k) with i by lia. symmetry.
    apply list_lookup_lookup_total_lt. unfold zlen in Hl. lia.
  - rewrite (lookup_zlen_ge src) by lia.
    rewrite lookup_ge_None_2; [done|]. rewrite length_seqZ. lia.
Qed.

Lemma first_entry_uniq f u ad n k k' :
  first_entry f u ad n k' -> first_entry f u ad n k -> k' = k.
Proof.
  intros (Hr' & Hb' & Hh') (Hr & Hb & Hh).
  destruct (decide (k' < k)); [specialize (Hb k' ltac:(lia)); rewrite Hh' in Hb by lia; done|].
  destruct (decide (k < k')); [specialize (Hb' k ltac:(lia)); rewrite Hh in Hb' by lia; done | lia].
Qed.

Section specs.
Context {T : Type} `{!Sched T} `{!SchedOk T}.
Context (ks : kstack) (Hks : magic ks = KSTACK_MAGIC).
Abbreviation st := (Inode.state T).
Implicit Types (s : st) (u : Z -> block) (o : disk) (H secs ad : list Z).

(** [dp] is a directory with [n] entries. *)
Record dir_ok s u (a : Z) H (dp n : Z) : Prop := {
  do_file : file_ok s u a H dp;
  do_type : itype (geti s dp) = T_DIR;
  do_n : 0 <= n;
  do_size : isize (geti s dp) = DIRENT_SIZE * n
}.

Lemma dir_ok_size s u a H dp n : dir_ok s u a H dp n -> DIRENT_SIZE * n <= 71680.
Proof. intros [[_ _ _ Hs _] _ _ <-]. change 71680 with (MAXFILE * BSIZE). lia. Qed.

Lemma dir_ok_lgs s u a H dp n l : dir_ok s u a H dp n -> dir_ok (s_lgs l s) u a H dp n.
Proof. intros [[Hip Hdev Hty Hsz Hbl] Ht Hn Hs]. split; [split | | |]; assumption. Qed.

Lemma icache_ok_lgs s l : icache_ok s -> icache_ok (s_lgs l s).
Proof. intros [Hlk Href Hu]. split; assumption. Qed.

Lemma read_dirent_wp {t} s u a H secs o dp n k why (Q : list Z -> st -> Prop) :
  fsat t (lgs s) a H secs u o -> dir_ok s u a H dp n -> 0 <= k < n ->
  (length H + length secs < 10)%nat ->
  (forall l, fsat t l a H secs u o -> keeps (lgs s) l -> Q (dent u (addrs (geti s dp)) k) (s_lgs l s)) ->
  wp (read_dirent ks dp (DIRENT_SIZE * k) why) Q s.
Proof.
  intros Hi Hd Hk Hroom HQ. pose proof (dir_ok_size _ _ _ _ _ _ Hd). destruct Hd as [Hf Ht Hn Hs].
  unfold read_dirent. wp_step. unfold DIRENT_SIZE in *.
  eapply (inode_read_wp ks Hks s dp a H secs u o); [exact Hi | done | lia | lia | lia | done |].
  intros l Hl Hkp. rewrite Z.min_l by lia. wp_step. apply wp_when; [done|]. intros _. wp_step.
  by apply HQ.
Qed.

(** The loops of dir_lookup, dir_link and isdirempty: [g off de] is what they
    do with the entry at [off]. *)
Lemma scan_wp {t R} s u a H secs o dp n (f : list Z -> bool) (g : Z -> list Z -> R) (dflt : Z -> R) why
    (next : Z -> Z) (Q : R -> st -> Prop) :
  fsat t (lgs s) a H secs u o -> dir_ok s u a H dp n -> (length H + length secs < 10)%nat ->
  (forall k, 0 <= k < n -> next (DIRENT_SIZE * k) = DIRENT_SIZE * (k + 1)) ->
  (forall l k, fsat t l a H secs u o -> keeps (lgs s) l -> first_entry f u (addrs (geti s dp)) n k ->
     Q (if k <? n then g (DIRENT_SIZE * k) (dent u (addrs (geti s dp)) k) else dflt (DIRENT_SIZE * n)) (s_lgs l s)) ->
  wp (loop (Z.to_nat (isize (geti s dp) / DIRENT_SIZE) + 2) (fun off =>
        sz ← ifield dp isize;
        if off <? sz then
          de ← read_dirent ks dp off why;
          if f de then mret (inr (g off de)) else mret (inl (next off))
        else mret (inr (dflt off))) 0) Q s.
Proof.
  intros Hi Hd Hroom Hnext HQ. pose proof Hd as [Hf Ht Hn Hs]. pose proof Hf as [Hip _ _ _ _].
  apply (wp_loop (fun off s' => exists l k, s' = s_lgs l s /\ off = DIRENT_SIZE * k /\ 0 <= k <= n /\
      fsat t l a H secs u o /\ keeps (lgs s) l /\
      forall j, 0 <= j < k -> f (dent u (addrs (geti s dp)) j) = false)
    (fun off _ => Z.to_nat (n - off / DIRENT_SIZE))).
  - exists (lgs s), 0. split; [by rewrite s_lgs_id|]. split; [done|]. split; [lia|]. split; [done|].
    split; [by intros ??|]. lia.
  - rewrite Hs, Z.mul_comm, Z.div_mul by done. change (0 / DIRENT_SIZE) with 0. lia.
  - intros off s' (l & k & -> & -> & Hk & Hl & Hkp & Hno). wp_step. apply ifield_wp; [done|].
    change (geti (s_lgs l s) dp) with (geti s dp). rewrite Hs.
    destruct (Z.ltb_spec (DIRENT_SIZE * k) (DIRENT_SIZE * n)) as [Hlt|Hge].
    + assert (Hkn : k < n) by (unfold DIRENT_SIZE in Hlt; lia).
      wp_step. eapply (read_dirent_wp (s_lgs l s)); [exact Hl | by apply dir_ok_lgs | lia | done |].
      intros l1 Hl1 Hk1. change (geti (s_lgs l s) dp) with (geti s dp).
      assert (Hkp1 : keeps (lgs s) l1) by (intros ???; by apply Hk1, Hkp).
      destruct (f (dent u (addrs (geti s dp)) k)) eqn:Ef; wp_step.
      * specialize (HQ l1 k Hl1 Hkp1). destruct (Z.ltb_spec k n); [|lia]. by apply HQ.
      * rewrite Hnext by lia. split.
        -- exists l1, (k + 1). split_and!; try done; try lia. intros j Hj.
           destruct (decide (j = k)) as [->|]; [done | apply Hno; lia].
        -- rewrite !(Z.mul_comm DIRENT_SIZE), !Z.div_mul by done. lia.
    + assert (k = n) as -> by (unfold DIRENT_SIZE in Hge; lia). wp_step.
      specialize (HQ l n Hl Hkp). destruct (Z.ltb_spec n n); [lia|]. apply HQ.
      split; [lia|]. split; [done | lia].
Qed.

Lemma dir_lookup_wp {t} s u a H secs o dp n name (Q : Z * Z -> st -> Prop) :
  let ad := addrs (geti s dp) in
  fsat t (lgs s) a H secs u o -> dir_ok s u a H dp n -> icache_ok s ->
  (length H + length secs < 10)%nat ->
  (forall k, first_entry (hit name) u ad n k -> k < n ->
     exists ip, get_slot s (ROOTDEV, de_inum (dent u ad k)) ip) ->
  (forall l k, fsat t l a H secs u o -> keeps (lgs s) l -> first_entry (hit name) u ad n k ->
     if k <? n then
       forall ip, let key := (ROOTDEV, de_inum (dent u ad k)) in get_slot s key ip ->
         Q (ip, DIRENT_SIZE * k) (with_inode (s_lgs l s) ip (gotten (geti s ip) key))
     else Q (NULL, 0) (s_lgs l s)) ->
  wp (dir_lookup ks dp name) Q s.
Proof.
  intros ad Hi Hd Hic Hroom Hslot HQ. pose proof (dir_ok_size _ _ _ _ _ _ Hd) as Hsz.
  pose proof Hd as [Hf Ht Hn Hs]. pose proof Hf as [Hip Hdev _ _ _]. unfold dir_lookup.
  wp_step. apply ifield_wp; [done|]. rewrite Ht. wp_step. apply wp_when; [done|]. intros _.
  wp_step. apply ifield_wp; [done|]. wp_step.
  eapply wp_ext.
  { apply (loop_ext _ _ (fun off => sz ← ifield dp isize;
      if off <? sz then de ← read_dirent ks dp off "dir_link read";
        if hit name de then mret (inr (Some (de_inum de, off))) else mret (inl (u32 (off + DIRENT_SIZE)))
      else mret (inr None))).
    intros off s'. apply bind_ext. intros sz s2. destruct (off <? sz); [|done].
    apply bind_ext. intros de s3. unfold hit.
    destruct (de_inum de =? 0); [done|]. by destruct (dir_namecmp name (de_name de) =? 0). }
  eapply (scan_wp s u a H secs o dp n (hit name) (fun off de => Some (de_inum de, off)) (fun _ => None)
    "dir_link read" (fun off => u32 (off + DIRENT_SIZE))); [exact Hi | done | done | |].
  { intros k Hk. rewrite u32_small; [lia|]. unfold DIRENT_SIZE in *. klia. }
  intros l k Hl Hk Hfirst. fold ad in Hfirst. specialize (HQ l k Hl Hk Hfirst). fold ad.
  destruct (Z.ltb_spec k n) as [Hlt|Hge].
  - wp_step. apply ifield_wp; [done|]. change (geti (s_lgs l s) dp) with (geti s dp). rewrite Hdev.
    wp_step. apply (inode_get_wp ks Hks (s_lgs l s) (ROOTDEV, de_inum (dent u ad k))).
    + by apply icache_ok_lgs.
    + apply (Hslot k); [done | done].
    + intros ip Hip'. wp_step. by apply HQ.
  - by wp_step.
Qed.

(** (C18) dir_lookup finds the first entry of the directory that is in use and
    has the name, compared on up to 14 bytes and up to a NUL: it returns that
    entry's inode, with a reference, and the offset of the entry; when no entry
    matches it returns NULL.  The directory and the disk do not change. *)
Theorem dir_lookup_correct t s u a secs o dp n name k :
  let ad := addrs (geti s dp) in let key := (ROOTDEV, de_inum (dent u ad k)) in
  fsat t (lgs s) a [] secs u o -> dir_ok s u a [] dp n -> icache_ok s -> (length secs < 10)%nat ->
  first_entry (hit name) u ad n k ->
  (k < n -> (exists ip, get_slot s key ip) ->
     exists ip l, get_slot s key ip /\ fsat t l a [] secs u o /\
       dir_lookup ks dp name s =
         Ok (ip, DIRENT_SIZE * k) (with_inode (s_lgs l s) ip (gotten (geti s ip) key))) /\
  (k = n -> exists l, fsat t l a [] secs u o /\ dir_lookup ks dp name s = Ok (NULL, 0) (s_lgs l s)).
Proof.
  intros ad key Hi Hd Hic Hroom Hk.
  assert (Huniq : forall k', first_entry (hit name) u ad n k' -> k' = k)
    by (intros k' Hk'; by eapply first_entry_uniq).
  split.
  - intros Hlt Hex.
    destruct (proj1 (wp_run (dir_lookup ks dp name) (fun r s' => exists ip l, get_slot s key ip /\
      fsat t l a [] secs u o /\ r = (ip, DIRENT_SIZE * k) /\
      s' = with_inode (s_lgs l s) ip (gotten (geti s ip) key)) s))
      as (r & s' & Hrun & ip & l & Hs & Hl & -> & ->); [|by exists ip, l].
    eapply (dir_lookup_wp s u a [] secs o dp n name); [exact Hi | done | done | done | |].
    + intros k' Hk' _. by rewrite (Huniq k' Hk').
    + intros l k' Hl _ Hk'. fold ad in Hk'. rewrite (Huniq k' Hk'). destruct (Z.ltb_spec k n); [|lia].
      intros ip. cbn zeta. fold ad key. intros Hs. by exists ip, l.
  - intros ->.
    destruct (proj1 (wp_run (dir_lookup ks dp name) (fun r s' => exists l, fsat t l a [] secs u o /\
      r = (NULL, 0) /\ s' = s_lgs l s) s)) as (r & s' & Hrun & l & Hl & -> & ->); [|by exists l].
    eapply (dir_lookup_wp s u a [] secs o dp n name); [exact Hi | done | done | done | |].
    + intros k' Hk' Hlt. rewrite (Huniq k' Hk') in Hlt. lia.
    + intros l k' Hl _ Hk'. fold ad in Hk'. rewrite (Huniq k' Hk'). destruct (Z.ltb_spec n n); [lia|].
      by exists l.
Qed.

Definition is_empty (de : list Z) : bool := de_inum de =? 0.

Lemma find_empty_wp {t} s u a H secs o dp n (Q : Z -> st -> Prop) :
  fsat t (lgs s) a H secs u o -> dir_ok s u a H dp n -> (length H + length secs < 10)%nat ->
  (forall l e, fsat t l a H secs u o -> keeps (lgs s) l ->
     first_entry is_empty u (addrs (geti s dp)) n e -> Q (DIRENT_SIZE * e) (s_lgs l s)) ->
  wp (find_empty ks dp) Q s.
Proof.
  intros Hi Hd Hroom HQ. unfold find_empty. wp_step. pose proof Hd as [[Hip _ _ _ _] _ _ _].
  apply ifield_wp; [done|].
  eapply (scan_wp s u a H secs o dp n is_empty (fun off _ => off) (fun off => off)
    "dir_link read" (fun off => off + DIRENT_SIZE)); [exact Hi | done | done | lia |].
  intros l k Hl Hk Hfirst. specialize (HQ l k Hl Hk Hfirst).
  destruct (Z.ltb_spec k n); [done|]. destruct Hfirst as [Hr _]. by replace n with k by lia.
Qed.

Lemma rounds_dirent e : 0 <= e -> rounds (DIRENT_SIZE * e) DIRENT_SIZE = 1.
Proof.
  intros He. unfold rounds. cbn [Z.ltb]. change (0 <? DIRENT_SIZE) with true. cbv iota.
  unfold DIRENT_SIZE, BSIZE. replace (16 * e) with (16 * (e mod 32) + (e / 32) * 512).
  - rewrite Z.mod_add by lia. pose proof (Z.mod_pos_bound e 32 ltac:(lia)).
    rewrite (Z.mod_small (16 * (e mod 32))) by lia. symmetry.
    apply Z.div_unique with (16 * (e mod 32) + 15); lia.
  - pose proof (Z.div_mod e 32 ltac:(lia)). lia.
Qed.

(** (C19) After dir_link the name can be found: for a name that is not in the
    directory, and a directory with room for the entry, dir_link returns 0; the
    first free entry (or a new last one) then holds the inode number and is the
    first entry that matches the name, so that dir_lookup returns that inode;
    all other entries are as before. *)
Theorem dir_link_lookup s u a secs o dp n name ino e sz :
  let ad := addrs (geti s dp) in let n' := Z.max n (e + 1) in
  intx (lgs s) a [] secs u o -> dir_ok s u a [] dp n -> icache_ok s ->
  file_room s u a dp sz -> DIRENT_SIZE * n' <= sz -> (length secs <= 7)%nat ->
  first_entry is_empty u ad n e -> first_entry (hit name) u ad n n ->
  0 < ino < 2 ^ 16 -> Forall is_byte name ->
  exists s' secs' u', dir_link ks dp name ino s = Ok 0 s' /\ intx (lgs s') a [] secs' u' o /\
    dir_ok s' u' a [] dp n' /\ addrs (geti s' dp) = ad /\
    first_entry (hit name) u' ad n' e /\ de_inum (dent u' ad e) = ino /\
    forall k, 0 <= k < n -> k <> e -> dent u' ad k = dent u ad k.
Proof.
  intros ad n' Hi Hd Hic Hfr Hsz Hroom He Hnone Hino Hname.
  pose proof Hd as [Hf Ht Hn Hs]. pose proof He as (Hen & Hebefore & _).
  set (src := mk_dirent name ino). set (off := DIRENT_SIZE * e).
  destruct (proj1 (wp_run (dir_link ks dp name ino) (fun r s' => r = 0 /\ exists l secs' u',
    s' = s_lgs l (grown s dp DIRENT_SIZE (off + DIRENT_SIZE)) /\ intx l a [] secs' u' o /\
    (forall i, 0 <= i -> i / BSIZE * BSIZE < sz -> fbyte u' ad i =
       if decide (off <= i < off + DIRENT_SIZE) then src !!! Z.to_nat (i - off) else fbyte u ad i) /\
    (forall bn, fblk u' ad bn = fblk u ad bn)) s))
    as (r & s' & Hrun & -> & l & secs' & u' & -> & Hl & Hb & Hk).
  - unfold dir_link. wp_step.
    eapply (dir_lookup_wp s u a [] secs o dp n name); [exact Hi | done | done | cbn; lia | |].
    { intros k Hk Hlt. rewrite (first_entry_uniq _ _ _ _ _ _ Hk Hnone) in Hlt. lia. }
    intros l k Hl _ Hk. fold ad in Hk. rewrite (first_entry_uniq _ _ _ _ _ _ Hk Hnone).
    destruct (Z.ltb_spec n n); [lia|]. cbn [negb Z.eqb]. change (NULL =? NULL) with true. cbn [negb]. wp_step.
    eapply (find_empty_wp (s_lgs l s)); [exact Hl | by apply dir_ok_lgs | cbn; lia |].
    intros l1 e' Hl1 _ He'. change (geti (s_lgs l s) dp) with (geti s dp) in He'. fold ad in He'.
    rewrite (first_entry_uniq _ _ _ _ _ _ He' He). fold off. wp_step.
    eapply (inode_write_wp ks Hks (s_lgs l1 (s_lgs l s)) dp a secs u o src off DIRENT_SIZE sz);
      [exact Hl1 | by do 2 apply file_room_lgs | | done | | | by apply mk_dirent_bytes | |].
    + change (geti (s_lgs l1 (s_lgs l s)) dp) with (geti s dp). rewrite Hs. unfold off, DIRENT_SIZE. lia.
    + unfold off, n', DIRENT_SIZE in *. lia.
    + unfold src. rewrite mk_dirent_length. lia.
    + unfold off. rewrite rounds_dirent by lia. lia.
    + intros l3 secs' u' Hl3 Hb Hk' _. wp_step. apply wp_when; [done|]. intros _. wp_step. split; [done|].
      exists l3, secs', u'. split; [|done]. unfold grown.
      change (geti (s_lgs l1 (s_lgs l s)) dp) with (geti s dp). by destruct (_ && _).
  - set (s1 := grown s dp DIRENT_SIZE (off + DIRENT_SIZE)).
    assert (Hx1 : geti s1 dp = w_size (DIRENT_SIZE * n') (geti s dp)).
    { unfold s1. rewrite geti_grown by done. rewrite Hs. f_equal. unfold off, n', DIRENT_SIZE. lia. }
    assert (Hold : forall k, 0 <= k < n -> k <> e -> dent u' ad k = dent u ad k).
    { intros k Hk0 Hke. apply dent_ext. intros i Hi0. unfold off, n', DIRENT_SIZE in *. rewrite Hb; [|lia|].
      - by rewrite decide_False by lia.
      - pose proof (Z.mul_div_le i BSIZE ltac:(done)). lia. }
    assert (Hnew : dent u' ad e = src).
    { apply dent_src; [apply mk_dirent_length|]. intros i Hi0. unfold off, n', DIRENT_SIZE in *.
      rewrite Hb; [by rewrite decide_True by lia | lia |].
      pose proof (Z.mul_div_le i BSIZE ltac:(done)). lia. }
    exists (s_lgs l s1), secs', u'. split_and!; try done.
    + destruct Hfr as [Hip Hdev Hty Hsize Hmax Had Hbl Hdis Hib Hibd Hibm].
      split; [split | | |]; change (geti (s_lgs l s1) dp) with (geti s1 dp); rewrite ?Hx1; try done.
      * cbn [isize w_size w_copy]. unfold n', DIRENT_SIZE in *. lia.
      * cbn [isize w_size w_copy addrs]. intros bn Hbn Hr. fold ad. rewrite Hk. apply Hbl; [done | lia].
      * unfold n'. lia.
    + change (geti (s_lgs l s1) dp) with (geti s1 dp). by rewrite Hx1.
    + split; [unfold n'; lia|]. split; [|intros _; rewrite Hnew; by apply hit_mk_dirent].
      intros j Hj. rewrite Hold by lia. destruct Hnone as (_ & Hno & _). apply Hno. lia.
    + rewrite Hnew. apply mk_dirent_inum. lia.
Qed.
End specs.
End Dir.

(** ** A root directory with the entries "." and ".." in block 30 *)
Module DirDemo.
Import Disk Bufcache BufcacheDemo Log Txn Block BlockDemo Inode InodeDemo Dir.

Definition root_block : block := [1; 0; 46; 0] ++ replicate 12 0 ++ [1; 0; 46; 46] ++ replicate 492 0.
Definition root_img : gmap key block := <[home 30 := root_block]> demo_img.
Definition root_u (x : Z) : block := sector_of root_img (home x).
Definition root_tx : Log.state unit :=
  Log.State (Log.bc (booted root_img Intr.Intr.demo tt)) (MkLog unlocked_lk 1014 10 1 ROOTDEV 0 ∅).
Definition root_inode : inode := MkInode ROOTDEV 1 1 3 T_DIR 0 0 1 32 demo_addrs.
Definition root_ino : Inode.state unit := Inode.State root_tx unlocked_lk {[0 := root_inode]}.

Lemma root_img_ok k : blk_ok (sector_of root_img k).
Proof.
  unfold root_img. rewrite sector_of_insert. unfold upd. case_decide; [|apply mkfs_img_ok].
  split; [done|]. repeat apply Forall_app_2; try (apply Forall_replicate; klia); repeat constructor; klia.
Qed.

Definition root_disk : disk := (root_img, []).

Lemma root_intx : intx root_tx 1014 [] [] root_u root_disk.
Proof.
  exists (sector_of root_img), []. split; [|split_and!; [constructor | apply root_img_ok | done]].
  apply transaction_tx; [|done]. split; try done.
  - apply booted_cache; [done | apply root_img_ok].
  - split; [done|]. split; [constructor|]. by intros x ?%not_elem_of_nil.
Qed.

Lemma root_dir_ok : dir_ok root_ino root_u 1014 [] 0 2.
Proof.
  split; try done. split; try done. intros bn Hbn Hr.
  assert (Hr' : bn * BSIZE < 32) by exact Hr. assert (bn = 0) as -> by (unfold BSIZE in Hr'; lia).
  split; [done|]. split; [by vm_compute|]. split; [apply not_elem_of_nil | by intros ?].
Qed.

Lemma root_geti i : geti root_ino i = if decide (i = 0) then root_inode else inhabitant.
Proof.
  unfold geti, root_ino, inodes. rewrite <- insert_empty. case_decide.
  - subst. by rewrite lookup_total_insert_eq.
  - by rewrite lookup_total_insert_ne, lookup_total_empty by done.
Qed.

Lemma root_icache : icache_ok root_ino.
Proof.
  split; [done | |].
  - intros i Hi. rewrite root_geti. by case_decide.
  - intros i j k Hi Hj. rewrite !root_geti. intros [Hri _] [Hrj _]. repeat case_decide; by subst.
Qed.

Lemma first_entry_of f u ad n k : 0 <= k <= n -> forallb (fun j => negb (f (dent u ad j))) (seqZ 0 k) = true ->
  (k < n -> f (dent u ad k) = true) -> first_entry f u ad n k.
Proof.
  intros Hk Hall Hh. split; [done|]. split; [|done]. intros j Hj. rewrite forallb_forall in Hall.
  apply negb_true_iff, Hall, list_elem_of_In, elem_of_seqZ. lia.
Qed.

Lemma root_room : file_room root_ino root_u 1014 0 512.
Proof.
  assert (H0 : forall bn, 0 <= bn -> bn * BSIZE < 512 -> bn = 0) by (unfold BSIZE; lia).
  split; try done.
  - intros bn Hb Hr. rewrite (H0 bn Hb Hr).
    split; [done|]. split; [by vm_compute|]. split; [apply not_elem_of_nil | by intros ?].
  - split; [|intros bn Hb Hr; rewrite (H0 bn Hb Hr); by vm_compute].
    intros bn bn' Hb Hr Hb' Hr' _. by rewrite (H0 bn Hb Hr), (H0 bn' Hb' Hr').
  - intros bn Hb Hr. rewrite (H0 bn Hb Hr). by vm_compute.
Qed.

Lemma dir_lookup_correct_witness :
  exists ip l, dir_lookup demo_ks 0 [46; 46; 0] root_ino =
    Ok (ip, 16) (with_inode (s_lgs l root_ino) ip (gotten (geti root_ino ip) (ROOTDEV, 1))).
Proof.
  destruct (dir_lookup_correct demo_ks eq_refl true root_ino root_u 1014 [] root_disk 0 2 [46; 46; 0] 1
    root_intx root_dir_ok root_icache) as [H _].
  - cbn. lia.
  - apply first_entry_of; [lia | by vm_compute | by vm_compute].
  - destruct H as (ip & l & _ & _ & Hrun).
    + lia.
    + exists 0. split; [by vm_compute|]. left. by vm_compute.
    + exists ip, l. exact Hrun.
Defined.

Lemma dir_link_lookup_witness :
  exists s' u', dir_link demo_ks 0 [97; 0] 7 root_ino = Ok 0 s' /\
    first_entry (hit [97; 0]) u' demo_addrs 3 2 /\ de_inum (dent u' demo_addrs 2) = 7.
Proof.
  destruct (dir_link_lookup demo_ks eq_refl root_ino root_u 1014 [] root_disk 0 2 [97; 0] 7 2 512
    root_intx root_dir_ok root_icache root_room) as (s' & secs' & u' & Hrun & _ & _ & _ & Hf & Hn & _).
  - by vm_compute.
  - cbn. lia.
  - apply first_entry_of; [lia | by vm_compute | by vm_compute].
  - apply first_entry_of; [lia | by vm_compute | by vm_compute].
  - lia.
  - repeat constructor; klia.
  - exists s', u'. split; [exact Hrun|]. split; [exact Hf | exact Hn].
Defined.
End DirDemo.
