(* ===== verification/Mkfs.v ===== *)
(** * The image builder (kern/fs/mkfs.c)

    mkfs runs on the host.  Its state is the image file, [nsec] sectors long,
    and the counters.  A failing assert or [exit(1)] is a panic.  The host is
    little endian, so that [xint] and [xshort] are the identity on words of
    their width; [szw] is the size of the host's [size_t], which is the type of
    the first field of the superblock. *)

From S2P Require Import Prelude Types Spinlock Bytes Disk Bufcache Log Txn Block Inode Dir.

Module Mkfs.
Import Disk Bufcache Log Txn Block Inode Dir.

Definition nblocks : Z := 985.
Definition nlog : Z := LOGSIZE.
Definition ninodes : Z := 200.
Definition size : Z := 1024.

Record st : Type := Mk {
  img : gmap key block; nsec : Z; freeblock : Z; usedblocks : Z; freeinode : Z
}.
Definition w_img m n s := Mk m n (freeblock s) (usedblocks s) (freeinode s).
Definition w_free f u s := Mk (img s) (nsec s) f u (freeinode s).
Definition w_ino v s := Mk (img s) (nsec s) (freeblock s) (usedblocks s) v.

Definition xshort (x : Z) : Z := le_dec (le_enc 2 x).
Definition xint (x : Z) : Z := le_dec (le_enc 4 x).

Definition wsect (sec : Z) (buf : block) : K st unit :=
  modify (fun s => w_img (<[home sec := buf]> (img s)) (Z.max (nsec s) (sec + 1)) s).
(** Reading behind the end of the file gives less than 512 bytes. *)
Definition rsect (sec : Z) : K st block :=
  n ← gets nsec;
  if sec <? n then gets (fun s => sector_of (img s) (home sec)) else panic "exit(1)".

Definition i2b (inum : Z) : Z := inum / IPB + 2.

(** struct dinode in memory, and its bytes. *)
Record dinode : Type := Din {
  d_type : Z; d_major : Z; d_minor : Z; d_nlink : Z; d_size : Z; d_addrs : list Z
}.
Definition din_bytes (d : dinode) : list Z :=
  le_enc 2 (d_type d) ++ le_enc 2 (d_major d) ++ le_enc 2 (d_minor d) ++ le_enc 2 (d_nlink d) ++
  le_enc 4 (d_size d) ++ words_bytes (d_addrs d).
Definition din_of (b : block) (o : Z) : dinode :=
  Din (get16 b o) (get16 b (o + 2)) (get16 b (o + 4)) (get16 b (o + 6)) (get32 b (o + 8)) (di_addrs b o).
Definition din_size (v : Z) (d : dinode) : dinode :=
  Din (d_type d) (d_major d) (d_minor d) (d_nlink d) v (d_addrs d).
Definition din_addr (k v : Z) (d : dinode) : dinode :=
  Din (d_type d) (d_major d) (d_minor d) (d_nlink d) (d_size d) (<[Z.to_nat k := v]> (d_addrs d)).

Definition winode (inum : Z) (d : dinode) : K st unit :=
  let bn := i2b inum in
  buf ← rsect bn;
  wsect bn (blit (di_off inum) (din_bytes d) buf).
Definition rinode (inum : Z) : K st dinode :=
  buf ← rsect (i2b inum);
  mret (din_of buf (di_off inum)).

Definition ialloc (type : Z) : K st Z :=
  inum ← gets freeinode;
  modify (w_ino (u32 (inum + 1))) ;;
  winode inum (Din (xshort type) 0 0 (xshort 1) (xint 0) (replicate 13 0)) ;;
  mret inum.

(** [freeblock++; usedblocks++]. *)
Definition new_block : K st Z :=
  fb ← gets freeblock;
  modify (fun s => w_free (u32 (fb + 1)) (u32 (usedblocks s + 1)) s) ;;
  mret (xint fb).

(** The block of the file for [fbn], the part of the loop of iappend before
    the copy. *)
Definition iblock (fbn : Z) (din : dinode) : K st (dinode * Z) :=
  if fbn <? NDIRECT then
    din ← (if xint (d_addrs din !!! Z.to_nat fbn) =? 0
           then fb ← new_block; mret (din_addr fbn fb din) else mret din);
    mret (din, xint (d_addrs din !!! Z.to_nat fbn))
  else
    din ← (if xint (d_addrs din !!! Z.to_nat NDIRECT) =? 0
           then fb ← new_block; mret (din_addr NDIRECT fb din) else mret din);
    let ind := xint (d_addrs din !!! Z.to_nat NDIRECT) in
    indirect ← rsect ind;
    indirect ← (if get32 indirect (4 * (fbn - NDIRECT)) =? 0 then
                  fb ← new_block;
                  let indirect := set32 (4 * (fbn - NDIRECT)) fb indirect in
                  wsect ind indirect ;; mret indirect
                else mret indirect);
    mret (din, xint (get32 indirect (4 * (fbn - NDIRECT)))).

Definition iappend_body (v : dinode * Z * list Z) : K st (dinode * Z * list Z + dinode * Z) :=
  let '(din, off, p) := v in
  if 0 <? zlen p then
    let fbn := off / 512 in
    kassert (fbn <? MAXFILE) "fbn < MAXFILE" ;;
    '(din, x) ← iblock fbn din;
    let n1 := Z.min (zlen p) ((fbn + 1) * 512 - off) in
    buf ← rsect x;
    wsect x (blit (off - fbn * 512) (sub 0 n1 p) buf) ;;
    mret (inl (din, u32 (off + n1), drop (Z.to_nat n1) p))
  else mret (inr (din, off)).

Definition iappend (inum : Z) (p : list Z) : K st unit :=
  din ← rinode inum;
  '(din, off) ← loop (Z.to_nat (zlen p / 512) + 3) iappend_body (din, xint (d_size din), p);
  winode inum (din_size (xint off) din).

Fixpoint set_bits (n : nat) (i : Z) (buf : block) : block :=
  match n with
  | O => buf
  | Datatypes.S n' =>
      set_bits n' (i + 1) (set8 (i / 8) (Z.lor (get8 buf (i / 8)) (Z.shiftl 1 (i mod 8))) buf)
  end.

Definition balloc (used : Z) : K st unit :=
  kassert (used <? 512 * 8) "used < 512*8" ;;
  wsect (ninodes / IPB + 3) (set_bits (Z.to_nat used) 0 zero_block).

(** A directory entry, [strncpy(de.name, name, DIRSIZ)]; a name ends at its
    null byte. *)
Definition dirent_bytes (inum : Z) (name : list Z) : list Z :=
  le_enc 2 (xshort inum) ++ strncpy_bytes name DIRSIZ.

Fixpoint write_chunks (fuel : nat) (inum : Z) (data : list Z) : K st unit :=
  match fuel with
  | O => mret tt
  | Datatypes.S fuel' =>
      if zlen data =? 0 then mret tt
      else
        iappend inum (take 512 data) ;;
        write_chunks fuel' inum (drop 512 data)
  end.

(** One command line argument: the file's name and its contents. *)
Definition add_file (root : Z) (file : list Z * list Z) : K st unit :=
  let '(name, data) := file in
  kassert (bool_decide (SLASH ∉ name)) "index(argv[i], '/') == 0" ;;
  let name := match name with 95 :: rest => rest | _ => name end in
  inum ← ialloc T_FILE;
  iappend root (dirent_bytes inum (name ++ [0])) ;;
  write_chunks (Datatypes.S (length data)) inum data.

Fixpoint add_files (root : Z) (l : list (list Z * list Z)) : K st unit :=
  match l with
  | [] => mret tt
  | f :: l => add_file root f ;; add_files root l
  end.

Definition super_bytes (szw : nat) : list Z :=
  le_enc szw (xint size) ++ le_enc 4 (xint nblocks) ++ le_enc 4 (xint ninodes) ++ le_enc 4 (xint nlog).

Definition main (szw : nat) (files : list (list Z * list Z)) : K st unit :=
  let bitblocks := size / (512 * 8) + 1 in
  let used := ninodes / IPB + 3 + bitblocks in
  modify (w_free used used) ;;
  kassert (nblocks + used + nlog =? size) "nblocks + usedblocks + nlog == size" ;;
  for_ 0 (nblocks + used + nlog) (fun i => wsect i zero_block) ;;
  wsect 1 (blit 0 (super_bytes szw) zero_block) ;;
  rootino ← ialloc T_DIR;
  kassert (rootino =? ROOTINO) "rootino == ROOTINO" ;;
  iappend rootino (dirent_bytes rootino [46; 0]) ;;
  iappend rootino (dirent_bytes rootino [46; 46; 0]) ;;
  add_files rootino files ;;
  din ← rinode rootino;
  let off := (xint (d_size din) / BSIZE + 1) * BSIZE in
  winode rootino (din_size (xint off) din) ;;
  u ← gets usedblocks;
  balloc u.

(** The image file is created empty. *)
Definition empty : st := Mk ∅ 0 0 0 1.

(** ** Sectors of the image *)

Definition sec (s : st) (x : Z) : block := sector_of (img s) (home x).
Definition wr (x : Z) (b : block) (s : st) : st :=
  w_img (<[home x := b]> (img s)) (Z.max (nsec s) (x + 1)) s.

Lemma sec_wr x b s y : sec (wr x b s) y = uset (sec s) x b y.
Proof.
  unfold sec, wr, w_img, uset. cbn. rewrite sector_of_insert. unfold upd, home.
  destruct (decide (y = x)) as [->|Hn]; [by rewrite decide_True|].
  rewrite decide_False; [done|]. by intros [=].
Qed.
Lemma nsec_wr x b s : 0 <= x < nsec s -> nsec (wr x b s) = nsec s.
Proof. intros. cbn. lia. Qed.

Lemma wsect_wp x b s (Q : unit -> st -> Prop) : Q tt (wr x b s) -> wp (wsect x b) Q s.
Proof. done. Qed.
Lemma rsect_wp x s (Q : block -> st -> Prop) : x < nsec s -> Q (sec s x) s -> wp (rsect x) Q s.
Proof. intros Hx HQ. unfold rsect. apply wp_bind, wp_gets. destruct (Z.ltb_spec x (nsec s)); [done | lia]. Qed.

Lemma xint_id x : is_u32 x -> xint x = x.
Proof. intros H. unfold xint. rewrite le_dec_enc. by apply Z.mod_small. Qed.

(** ** Inodes on the image *)

Lemma sub_app_r k n (a b : list Z) : zlen a <= k -> sub k n (a ++ b) = sub (k - zlen a) n b.
Proof.
  intros Hk. unfold sub, zlen in *. rewrite drop_app_ge by lia. f_equal. f_equal. lia.
Qed.
Lemma sub_app_l n (a b : list Z) : zlen a = n -> sub 0 n (a ++ b) = a.
Proof. intros <-. unfold sub, zlen. rewrite drop_0, Nat2Z.id. apply take_app_length. Qed.
Lemma sub_blit_in o k n src l : 0 <= o -> 0 <= k -> 0 <= n -> k + n <= zlen src -> o + zlen src <= zlen l ->
  sub (o + k) n (blit o src l) = sub k n src.
Proof.
  intros Ho Hk Hn Hs Hl. apply list_eq_Z. intros i Hi. destruct (decide (i < n)) as [Hlt|].
  - rewrite !sub_lookup, blit_lookup by lia. rewrite decide_True by lia. f_equal. lia.
  - unfold sub. by rewrite !lookup_take_ge by lia.
Qed.

Lemma words_sub l k : 0 <= k < zlen l -> sub (4 * k) 4 (words_bytes l) = le_enc 4 (l !!! Z.to_nat k).
Proof.
  revert k. induction l as [|x l IH]; intros k Hk; [unfold zlen in Hk; cbn in Hk; lia|].
  change (words_bytes (x :: l)) with (le_enc 4 x ++ words_bytes l).
  destruct (decide (k = 0)) as [->|Hk0]; [by apply sub_app_l|].
  rewrite sub_app_r by (rewrite zlen_le_enc; lia). rewrite zlen_le_enc.
  replace (4 * k - Z.of_nat 4) with (4 * (k - 1)) by lia. unfold zlen in *. cbn [length] in Hk.
  rewrite IH by lia. by replace (Z.to_nat k) with (S (Z.to_nat (k - 1))) by lia.
Qed.

Record din_ok (d : dinode) : Prop := {
  dk_type : 0 <= d_type d < 2 ^ 16; dk_major : 0 <= d_major d < 2 ^ 16;
  dk_minor : 0 <= d_minor d < 2 ^ 16; dk_nlink : 0 <= d_nlink d < 2 ^ 16;
  dk_size : is_u32 (d_size d); dk_len : length (d_addrs d) = 13%nat;
  dk_addrs : forall k, 0 <= k < 13 -> is_u32 (d_addrs d !!! Z.to_nat k)
}.

Lemma din_bytes_len d : length (d_addrs d) = 13%nat -> zlen (din_bytes d) = DINODE_SIZE.
Proof.
  intros H. unfold din_bytes, zlen. rewrite !length_app, !le_enc_length.
  pose proof (words_bytes_length (d_addrs d)). unfold zlen, DINODE_SIZE in *. rewrite H in *. lia.
Qed.

Lemma di_off_range i : 0 <= i -> 0 <= di_off i <= BSIZE - DINODE_SIZE.
Proof.
  intros Hi. unfold di_off, BSIZE, DINODE_SIZE. change IPB with 8.
  pose proof (Z.mod_pos_bound i 8 ltac:(done)). lia.
Qed.

(** The fields of an encoded inode. *)
Lemma din_fields d : length (d_addrs d) = 13%nat ->
  sub 0 2 (din_bytes d) = le_enc 2 (d_type d) /\ sub 2 2 (din_bytes d) = le_enc 2 (d_major d) /\
  sub 4 2 (din_bytes d) = le_enc 2 (d_minor d) /\ sub 6 2 (din_bytes d) = le_enc 2 (d_nlink d) /\
  sub 8 4 (din_bytes d) = le_enc 4 (d_size d) /\
  forall k, 0 <= k < 13 -> sub (12 + 4 * k) 4 (din_bytes d) = le_enc 4 (d_addrs d !!! Z.to_nat k).
Proof.
  intros Hl. unfold din_bytes. split_and!.
  6: { intros k Hk. rewrite <- (words_sub (d_addrs d) k) by (unfold zlen; lia).
       do 5 (rewrite sub_app_r by (rewrite zlen_le_enc; lia); rewrite zlen_le_enc). f_equal. lia. }
  - by apply sub_app_l.
  - do 1 (rewrite sub_app_r by (rewrite zlen_le_enc; lia); rewrite zlen_le_enc). by apply sub_app_l.
  - do 2 (rewrite sub_app_r by (rewrite zlen_le_enc; lia); rewrite zlen_le_enc). by apply sub_app_l.
  - do 3 (rewrite sub_app_r by (rewrite zlen_le_enc; lia); rewrite zlen_le_enc). by apply sub_app_l.
  - do 4 (rewrite sub_app_r by (rewrite zlen_le_enc; lia); rewrite zlen_le_enc). by apply sub_app_l.
Qed.

Lemma addrs_ext (ad : list Z) (f : Z -> Z) : length ad = 13%nat ->
  (forall k, 0 <= k < 13 -> f k = ad !!! Z.to_nat k) -> f <$> seqZ 0 (NDIRECT + 1) = ad.
Proof.
  intros Hl Hf. apply list_eq_Z. intros i Hi. rewrite list_lookup_fmap.
  destruct (decide (i < 13)) as [Hlt|Hge].
  - rewrite (proj2 (lookup_seqZ 0 (NDIRECT + 1) (Z.to_nat i) (0 + i))) by klia. cbn.
    rewrite Hf by lia. symmetry. apply list_lookup_lookup_total_lt. lia.
  - rewrite lookup_seqZ_ge by klia. symmetry. apply lookup_ge_None_2. lia.
Qed.

(** An inode reads back as it was written. *)
Lemma din_of_bytes i d b : 0 <= i -> din_ok d -> blk_ok b ->
  din_of (blit (di_off i) (din_bytes d) b) (di_off i) = d.
Proof.
  intros Hi [H1 H2 H3 H4 H5 H6 H7] [Hb _]. pose proof (di_off_range i Hi) as Ho.
  pose proof (din_bytes_len d H6) as Hl.
  assert (Hin : forall k n, 0 <= k -> 0 <= n -> k + n <= DINODE_SIZE ->
    sub (di_off i + k) n (blit (di_off i) (din_bytes d) b) = sub k n (din_bytes d))
    by (intros; apply sub_blit_in; lia).
  assert (E16 : forall v, 0 <= v < 2 ^ 16 -> le_dec (le_enc 2 v) = v)
    by (intros v Hv; rewrite le_dec_enc; by apply Z.mod_small).
  assert (E32 : forall v, is_u32 v -> le_dec (le_enc 4 v) = v)
    by (intros v Hv; rewrite le_dec_enc; by apply Z.mod_small).
  destruct (din_fields d H6) as (F1 & F2 & F3 & F4 & F5 & F6). unfold DINODE_SIZE in *.
  pose proof (Hin 0 2) as G0. rewrite Z.add_0_r, F1 in G0.
  unfold din_of, get16, get32. rewrite G0, !Hin, F2, F3, F4, F5, !E16, E32 by (done || lia).
  transitivity (Din (d_type d) (d_major d) (d_minor d) (d_nlink d) (d_size d) (d_addrs d)); [|by destruct d].
  f_equal. apply addrs_ext; [done|]. intros k Hk.
  unfold get32. rewrite <- Z.add_assoc, Hin, F6, E32 by (lia || auto). done.
Qed.

(** The other inodes of the block stay. *)
Lemma din_of_other i j d b : 0 <= i -> 0 <= j -> i mod IPB <> j mod IPB -> length (d_addrs d) = 13%nat ->
  blk_ok b -> din_of (blit (di_off i) (din_bytes d) b) (di_off j) = din_of b (di_off j).
Proof.
  intros Hi Hj Hne Hl [Hb _]. pose proof (di_off_range i Hi). pose proof (di_off_range j Hj).
  pose proof (din_bytes_len d Hl) as Hd.
  assert (Hin : forall k n, 0 <= k -> 0 <= n -> k + n <= DINODE_SIZE ->
    sub (di_off j + k) n (blit (di_off i) (din_bytes d) b) = sub (di_off j + k) n b).
  { intros k n Hk Hn Hkn. apply sub_blit_ne; try lia. rewrite Hd. unfold di_off, DINODE_SIZE in *. lia. }
  unfold DINODE_SIZE in *. pose proof (Hin 0 2) as G0. rewrite Z.add_0_r in G0.
  unfold din_of, get16, get32, di_addrs. rewrite G0, !Hin by lia. f_equal.
  apply list_fmap_ext. intros n k Hk%lookup_seqZ. unfold get32. rewrite <- Z.add_assoc, Hin by klia. done.
Qed.

Definition inode_at (u : Z -> block) (i : Z) : dinode := din_of (u (i2b i)) (di_off i).

Lemma inode_at_written u i d j : 0 <= i -> 0 <= j -> din_ok d -> blk_ok (u (i2b i)) ->
  inode_at (uset u (i2b i) (blit (di_off i) (din_bytes d) (u (i2b i)))) j =
  if decide (j = i) then d else inode_at u j.
Proof.
  intros Hi Hj Hd Hb. unfold inode_at, uset. destruct (decide (j = i)) as [->|Hne].
  - rewrite decide_True by done. by apply din_of_bytes.
  - destruct (decide (i2b j = i2b i)) as [E|]; [|done]. rewrite E.
    apply din_of_other; [done | done | | apply Hd | exact Hb].
    unfold i2b in E. change IPB with 8 in *. pose proof (Z.div_mod i 8). pose proof (Z.div_mod j 8). lia.
Qed.

Lemma rinode_wp i s (Q : dinode -> st -> Prop) :
  i2b i < nsec s -> Q (inode_at (sec s) i) s -> wp (rinode i) Q s.
Proof. intros Hi HQ. unfold rinode. apply wp_bind, rsect_wp; [done|]. by apply wp_ret. Qed.

Lemma winode_wp i d s (Q : unit -> st -> Prop) :
  i2b i < nsec s -> Q tt (wr (i2b i) (blit (di_off i) (din_bytes d) (sec s (i2b i))) s) ->
  wp (winode i d) Q s.
Proof. intros Hi HQ. unfold winode. apply wp_bind, rsect_wp; [done|]. by apply wsect_wp. Qed.

Lemma zero_get32 o : get32 zero_block o = 0.
Proof.
  unfold get32, sub, zero_block. rewrite drop_replicate, take_replicate.
  induction (_ `min` _)%nat as [|n IH]; [done|]. cbn [replicate le_dec]. rewrite IH. lia.
Qed.

(** ** Which block belongs to which file

    [own b] is the inode number and the position in the file of block [b], -1
    for an indirect block. *)

Definition owner : Type := Z -> option (Z * Z).
Definition oset (own : owner) (b : Z) (p : Z * Z) : owner := fun x => if decide (x = b) then Some p else own x.

(** The data region: blocks 29 to 1013; 1014 is the first block of the log. *)
Definition DATA : Z := 29.
Definition LOG : Z := 1014.

Record dinv (s : st) (own : owner) : Prop := {
  dv_nsec : nsec s = size;
  dv_ok : forall x, blk_ok (sec s x);
  dv_zero : forall x, freeblock s <= x < size -> sec s x = zero_block;
  dv_own : forall b p, own b = Some p -> DATA <= b < freeblock s;
  dv_free : DATA <= freeblock s <= LOG;
  dv_used : usedblocks s = freeblock s
}.

(** The first [nb] blocks of the file [i] with the block map [ad] are
    allocated, and no others; [h] says whether the indirect block is. *)
Record mapped (u : Z -> block) (own : owner) (i : Z) (ad : list Z) (nb : Z) (h : bool) : Prop := {
  m_len : length ad = 13%nat;
  m_nb : 0 <= nb <= MAXFILE;
  m_own : forall bn, 0 <= bn < nb -> own (fblk u ad bn) = Some (i, bn);
  m_dir : forall bn, nb <= bn < NDIRECT -> ad !!! Z.to_nat bn = 0;
  m_noind : h = false -> nb <= NDIRECT /\ ad !!! Z.to_nat NDIRECT = 0;
  m_ind : h = true -> own (ad !!! Z.to_nat NDIRECT) = Some (i, -1);
  m_zero : h = true -> forall k, 0 <= k < NINDIRECT -> nb - NDIRECT <= k ->
    get32 (u (ad !!! Z.to_nat NDIRECT)) (4 * k) = 0
}.

(** [s'] with [own'] follows from [s] by allocating blocks for file [i]; only
    its indirect block is written. *)
Record grown (s : st) (own : owner) (i : Z) (s' : st) (own' : owner) : Prop := {
  g_dinv : dinv s' own';
  g_ino : freeinode s' = freeinode s;
  g_own : forall b p, own b = Some p -> own' b = Some p;
  g_new : forall b j p, own' b = Some (j, p) -> own b = Some (j, p) \/ j = i;
  g_frame : forall b, own' b <> Some (i, -1) -> sec s' b = sec s b
}.

Lemma grown_refl s own i : dinv s own -> grown s own i s own.
Proof. intros H. split; auto. Qed.

Lemma grown_trans s0 own0 i s1 own1 s2 own2 :
  grown s0 own0 i s1 own1 -> grown s1 own1 i s2 own2 -> grown s0 own0 i s2 own2.
Proof.
  intros [A1 A2 A3 A4 A5] [B1 B2 B3 B4 B5]. split; [done | congruence | auto | |].
  - intros b j p H. apply B4 in H as [H|]; auto.
  - intros b Hb. rewrite B5 by done. apply A5. intros E. by apply Hb, B3.
Qed.

Definition bump (s : st) : st := w_free (freeblock s + 1) (usedblocks s + 1) s.

Lemma new_block_wp s own i p (Q : Z -> st -> Prop) :
  dinv s own -> freeblock s < LOG ->
  (grown s own i (bump s) (oset own (freeblock s) (i, p)) -> own (freeblock s) = None ->
   sec s (freeblock s) = zero_block -> Q (freeblock s) (bump s)) ->
  wp new_block Q s.
Proof.
  intros [H1 H2 H3 H4 H5 H6] Hf HQ. unfold LOG, DATA, size in *.
  assert (Hn : own (freeblock s) = None).
  { destruct (own (freeblock s)) as [q|] eqn:E; [|done]. apply H4 in E. lia. }
  unfold new_block. apply wp_bind, wp_gets, wp_bind, wp_modify, wp_ret.
  rewrite H6, xint_id, u32_small by klia.
  replace (w_free (freeblock s + 1) (freeblock s + 1) s) with (bump s) by (unfold bump; by rewrite H6).
  apply HQ; [|done | apply H3; unfold size; lia]. split; [split; try done|..].
  - cbn. intros x Hx. apply H3. unfold size in *. lia.
  - unfold oset. intros b q. destruct (decide _) as [->|]; cbn; [unfold DATA; lia|]. intros Hb%H4. unfold DATA in *. lia.
  - cbn. unfold DATA, LOG. lia.
  - cbn. by rewrite H6.
  - done.
  - intros b q Hb. unfold oset. destruct (decide _) as [->|]; [congruence | done].
  - intros b j q. unfold oset. destruct (decide _) as [->|]; [intros [= <- <-]; auto | auto].
  - done.
Qed.

Lemma oset_eq own b p : oset own b p b = Some p.
Proof. unfold oset. by rewrite decide_True. Qed.
Lemma oset_old own b p x q : own b = None -> own x = Some q -> oset own b p x = Some q.
Proof. intros Hb Hx. unfold oset. destruct (decide _) as [->|]; [congruence | done]. Qed.

Ltac fconst := unfold MAXFILE, NDIRECT, NINDIRECT, BSIZE in *; change (512 / 4) with 128 in *.

Lemma mapped_add_direct u own i ad nb h fb : mapped u own i ad nb h -> nb < NDIRECT -> own fb = None ->
  let ad' := <[Z.to_nat nb := fb]> ad in
  mapped u (oset own fb (i, nb)) i ad' (nb + 1) h /\
  (forall bn, 0 <= bn < nb -> fblk u ad' bn = fblk u ad bn) /\ fblk u ad' nb = fb.
Proof.
  intros [H1 H2 H3 H4 H5 H6 H7] Hn Hf ad'. fconst.
  assert (Ha : forall k, 0 <= k -> ad' !!! Z.to_nat k = if decide (k = nb) then fb else ad !!! Z.to_nat k)
    by (intros; apply addr_insert; lia).
  assert (Hb : forall bn, 0 <= bn < nb -> fblk u ad' bn = fblk u ad bn).
  { intros bn Hbn. unfold fblk, NDIRECT. bool_true. rewrite Ha by lia. by rewrite decide_False by lia. }
  assert (He : fblk u ad' nb = fb).
  { unfold fblk, NDIRECT. bool_true. rewrite Ha by lia. by rewrite decide_True. }
  assert (Hi : ad' !!! Z.to_nat 12 = ad !!! Z.to_nat 12) by (rewrite Ha by lia; by rewrite decide_False by lia).
  split; [split|done]; fconst; rewrite ?Hi.
  - unfold ad'. by rewrite length_insert.
  - lia.
  - intros bn Hbn. destruct (decide (bn = nb)) as [->|]; [by rewrite He, oset_eq|].
    rewrite Hb by lia. apply oset_old; auto with lia.
  - intros bn Hbn. rewrite Ha, decide_False by lia. apply H4. lia.
  - intros Hh. destruct (H5 Hh). split; [lia | done].
  - intros Hh. apply oset_old; auto.
  - intros Hh k Hk Hkn. apply H7; [done | done | lia].
Qed.

Lemma mapped_add_ind u own i ad nb fb : mapped u own i ad nb false -> NDIRECT <= nb -> own fb = None ->
  0 < fb -> u fb = zero_block ->
  let ad' := <[Z.to_nat NDIRECT := fb]> ad in
  mapped u (oset own fb (i, -1)) i ad' nb true /\
  (forall bn, 0 <= bn < nb -> fblk u ad' bn = fblk u ad bn) /\ ad' !!! Z.to_nat NDIRECT = fb.
Proof.
  intros [H1 H2 H3 H4 H5 H6 H7] Hn Hf Hp Hz ad'. destruct (H5 eq_refl) as [Hn' H0]. fconst.
  assert (Ha : forall k, 0 <= k -> ad' !!! Z.to_nat k = if decide (k = 12) then fb else ad !!! Z.to_nat k)
    by (intros; apply addr_insert; lia).
  assert (Hb : forall bn, 0 <= bn < nb -> fblk u ad' bn = fblk u ad bn).
  { intros bn Hbn. unfold fblk, NDIRECT. destruct (Z.ltb_spec bn 12); [|lia]. rewrite Ha by lia. by rewrite decide_False by lia. }
  assert (He : ad' !!! Z.to_nat 12 = fb) by (rewrite Ha by lia; by rewrite decide_True).
  split; [split|done]; fconst; rewrite ?He.
  - unfold ad'. by rewrite length_insert.
  - lia.
  - intros bn Hbn. rewrite Hb by lia. apply oset_old; auto with lia.
  - intros bn Hbn. lia.
  - done.
  - intros _. apply oset_eq.
  - intros _ k Hk Hkn. rewrite Hz. apply zero_get32.
Qed.

Lemma mapped_add_indirect u own i ad nb fb : mapped u own i ad nb true -> NDIRECT <= nb < MAXFILE ->
  own fb = None -> is_u32 fb -> (forall b p, own b = Some p -> 0 < b) -> zlen (u (ad !!! Z.to_nat NDIRECT)) = BSIZE ->
  let ib := ad !!! Z.to_nat NDIRECT in
  let u' := uset u ib (set32 (4 * (nb - NDIRECT)) fb (u ib)) in
  mapped u' (oset own fb (i, nb)) i ad (nb + 1) true /\
  (forall bn, 0 <= bn < nb -> fblk u' ad bn = fblk u ad bn) /\ fblk u' ad nb = fb.
Proof.
  intros [H1 H2 H3 H4 H5 H6 H7] Hn Hf Hu Hpos Hl ib u'. pose proof (H6 eq_refl) as Hib. fold ib in Hib, Hl.
  pose proof (Hpos _ _ Hib) as Hib0. fconst.
  assert (Hg : forall k, 0 <= k < 128 -> get32 (u' ib) (4 * k) =
    if decide (k = nb - 12) then fb else get32 (u ib) (4 * k)).
  { intros k Hk. unfold u'. rewrite uset_eq. case_decide as E.
    - subst. apply get32_set32; klia.
    - apply get32_set32_ne; klia. }
  assert (Hb : forall bn, 0 <= bn < 140 -> fblk u' ad bn = if decide (bn = nb) then fb else fblk u ad bn).
  { intros bn Hbn. unfold fblk, NDIRECT. fold ib. destruct (Z.ltb_spec bn 12); [by rewrite decide_False by lia|].
    bool_false. rewrite Hg by lia. case_decide; case_decide; lia || done. }
  split; [split|split]; fconst; fold ib.
  - done.
  - lia.
  - intros bn Hbn. rewrite Hb by lia. case_decide; [subst; apply oset_eq | apply oset_old; auto with lia].
  - intros bn Hbn. lia.
  - done.
  - intros _. by apply oset_old.
  - intros _ k Hk Hkn. rewrite Hg, decide_False by lia. apply H7; [done | done | lia].
  - intros bn Hbn. by rewrite Hb, decide_False by lia.
  - by rewrite Hb, decide_True by lia.
Qed.

Definition with_addrs (ad : list Z) (d : dinode) : dinode :=
  Din (d_type d) (d_major d) (d_minor d) (d_nlink d) (d_size d) ad.

Lemma own_range s own b p : dinv s own -> own b = Some p -> 0 < b < 1014.
Proof. intros H Hb. pose proof (dv_own _ _ H _ _ Hb). pose proof (dv_free _ _ H). unfold DATA, LOG in *. lia. Qed.

Lemma xint_own s own b p : dinv s own -> own b = Some p -> xint b = b.
Proof. intros H Hb. apply xint_id. pose proof (own_range _ _ _ _ H Hb). klia. Qed.

(** Blocks the file has. *)
Lemma iblock_old s own i d nb h fbn (Q : dinode * Z -> st -> Prop) :
  dinv s own -> mapped (sec s) own i (d_addrs d) nb h -> 0 <= fbn < nb ->
  Q (d, fblk (sec s) (d_addrs d) fbn) s -> wp (iblock fbn d) Q s.
Proof.
  intros Hd [H1 H2 H3 H4 H5 H6 H7] Hf HQ. unfold iblock.
  pose proof (H3 fbn Hf) as Ho. pose proof (own_range _ _ _ _ Hd Ho) as Hr.
  pose proof (xint_own _ _ _ _ Hd Ho) as Hx. unfold fblk in *.
  destruct (Z.ltb_spec fbn NDIRECT) as [Hlt|Hge].
  - rewrite !Hx. bool_false. apply wp_bind, wp_ret, wp_ret. by rewrite Hx.
  - assert (h = true) as -> by (destruct h; [done | destruct (H5 eq_refl); lia]).
    pose proof (own_range _ _ _ _ Hd (H6 eq_refl)) as Hi. pose proof (xint_own _ _ _ _ Hd (H6 eq_refl)) as Hxi.
    rewrite (proj2 (Z.eqb_neq (d_addrs d !!! Z.to_nat NDIRECT) 0)) in * by lia.
    rewrite Hxi. rewrite (proj2 (Z.eqb_neq _ 0)) by lia. apply wp_bind, wp_ret. rewrite Hxi.
    apply wp_bind, rsect_wp; [rewrite (dv_nsec _ _ Hd); unfold size; lia|].
    rewrite (proj2 (Z.eqb_neq _ 0)) by lia. apply wp_bind, wp_ret, wp_ret. by rewrite Hx.
Qed.

(** The next block of the file. *)
Definition added (s : st) (own : owner) (i : Z) (ad : list Z) (nb : Z) (s' : st) (own' : owner) (ad' : list Z) : Prop :=
  grown s own i s' own' /\ mapped (sec s') own' i ad' (nb + 1) (NDIRECT <? nb + 1) /\
  (forall bn, 0 <= bn < nb -> fblk (sec s') ad' bn = fblk (sec s) ad bn) /\
  sec s' (fblk (sec s') ad' nb) = zero_block /\
  freeblock s' = freeblock s + (if nb =? NDIRECT then 2 else 1).

Lemma iblock_direct s own i d nb (Q : dinode * Z -> st -> Prop) :
  dinv s own -> mapped (sec s) own i (d_addrs d) nb false -> nb < NDIRECT -> freeblock s < LOG ->
  (forall s' own' ad', added s own i (d_addrs d) nb s' own' ad' ->
     Q (with_addrs ad' d, fblk (sec s') ad' nb) s') -> wp (iblock nb d) Q s.
Proof.
  intros Hd Hm Hn Hf HQ. pose proof (m_nb _ _ _ _ _ _ Hm) as Hnb. unfold iblock. bool_true.
  rewrite (m_dir _ _ _ _ _ _ Hm) by lia. change (xint 0 =? 0) with true.
  apply wp_bind, wp_bind. apply (new_block_wp s own i nb); [done | done|]. intros Hg Hnone Hz.
  destruct (mapped_add_direct _ _ _ _ _ _ _ Hm Hn Hnone) as (Hm' & Hold & Hnew).
  apply wp_ret, wp_ret.
  assert (Hx : xint (freeblock s) = freeblock s).
  { apply (xint_own _ _ _ _ (g_dinv _ _ _ _ _ Hg) (oset_eq _ _ _)). }
  unfold din_addr. cbn [d_addrs]. rewrite addr_insert, decide_True, Hx by (fconst; apply Hm || lia || done).
  change (Din _ _ _ _ _ _) with (with_addrs (<[Z.to_nat nb := freeblock s]> (d_addrs d)) d).
  rewrite <- Hnew at 2. apply (HQ (bump s) (oset own (freeblock s) (i, nb))). split; [done|].
  replace (NDIRECT <? nb + 1) with false by (symmetry; apply Z.ltb_ge; lia).
  split; [done|]. split; [done|]. split; [exact (eq_trans (f_equal (sec s) Hnew) Hz)|]. cbn. bool_false. done.
Qed.

Lemma mapped_ext u u' own i ad nb h : (forall x, u' x = u x) -> mapped u own i ad nb h -> mapped u' own i ad nb h.
Proof.
  intros E [H1 H2 H3 H4 H5 H6 H7].
  assert (Ef : forall bn, fblk u' ad bn = fblk u ad bn) by (intros; by apply fblk_ext).
  split; try done; intros; [rewrite Ef; auto | rewrite E; auto].
Qed.

(** Writing a block of the file. *)
Lemma dinv_wr s own b p d : dinv s own -> own b = Some p -> blk_ok d -> dinv (wr b d s) own.
Proof.
  intros H Hb Hok. pose proof (own_range _ _ _ _ H Hb) as Hr. pose proof (dv_own _ _ H _ _ Hb) as Hr'.
  destruct H as [H1 H2 H3 H4 H5 H6]. unfold size in *.
  split; try done; [cbn; unfold size; lia | intros x | intros x Hx]; rewrite sec_wr; unfold uset; case_decide; try done.
  - subst. cbn in Hx. lia.
  - by apply H3.
Qed.

Lemma grown_wr s own i s' own' b d : grown s own i s' own' -> own' b = Some (i, -1) -> blk_ok d ->
  grown s own i (wr b d s') own'.
Proof.
  intros [H1 H2 H3 H4 H5] Hb Hok. split; try done.
  - by apply (dinv_wr _ _ _ (i, -1)).
  - intros x Hx. rewrite sec_wr, uset_ne by (intros ->; congruence). by apply H5.
Qed.

(** The indirect block of a file that grows beyond its direct blocks. *)
Lemma ind_wp s own i d nb (Q : dinode -> st -> Prop) :
  dinv s own -> mapped (sec s) own i (d_addrs d) nb (NDIRECT <? nb) -> NDIRECT <= nb < MAXFILE -> freeblock s < LOG ->
  (forall s1 own1 ad1, grown s own i s1 own1 -> mapped (sec s1) own1 i ad1 nb true ->
     (forall bn, 0 <= bn < nb -> fblk (sec s1) ad1 bn = fblk (sec s) (d_addrs d) bn) ->
     freeblock s1 = freeblock s + (if nb =? NDIRECT then 1 else 0) -> Q (with_addrs ad1 d) s1) ->
  wp (if xint (d_addrs d !!! Z.to_nat NDIRECT) =? 0
      then fb ← new_block; mret (din_addr NDIRECT fb d) else mret d) Q s.
Proof.
  intros Hd Hm Hn Hf HQ. destruct (Z.eqb_spec nb NDIRECT) as [->|Hne].
  - destruct (m_noind _ _ _ _ _ _ Hm eq_refl) as [_ ->]. change (xint 0 =? 0) with true. cbn match.
    apply wp_bind, (new_block_wp s own i (-1)); [done | done|]. intros Hg Hnone Hz. apply wp_ret.
    destruct (mapped_add_ind _ _ _ _ _ _ Hm ltac:(lia) Hnone) as (Hm' & Hold & Hnew);
      [pose proof (dv_free _ _ Hd); unfold DATA in *; lia | done|].
    by apply (HQ (bump s) (oset own (freeblock s) (i, -1))).
  - rewrite (proj2 (Z.ltb_lt NDIRECT nb)) in Hm by lia. pose proof (m_ind _ _ _ _ _ _ Hm eq_refl) as Ho.
    rewrite (xint_own _ _ _ _ Hd Ho). pose proof (own_range _ _ _ _ Hd Ho).
    rewrite (proj2 (Z.eqb_neq _ 0)) by lia. apply wp_ret.
    replace d with (with_addrs (d_addrs d) d) by (by destruct d).
    apply (HQ s own); [by apply grown_refl | done..| lia].
Qed.

Lemma iblock_indirect s own i d nb (Q : dinode * Z -> st -> Prop) :
  dinv s own -> mapped (sec s) own i (d_addrs d) nb (NDIRECT <? nb) -> NDIRECT <= nb < MAXFILE ->
  freeblock s + (if nb =? NDIRECT then 2 else 1) <= LOG ->
  (forall s' own' ad', added s own i (d_addrs d) nb s' own' ad' ->
     Q (with_addrs ad' d, fblk (sec s') ad' nb) s') -> wp (iblock nb d) Q s.
Proof.
  intros Hd Hm Hn Hf HQ. unfold iblock. replace (nb <? NDIRECT) with false by (symmetry; apply Z.ltb_ge; lia).
  apply wp_bind, (ind_wp s own i d nb); try done; [destruct (nb =? NDIRECT); lia|].
  intros s1 own1 ad1 Hg1 Hm1 Hold1 Hf1. unfold with_addrs. cbn [d_addrs].
  pose proof (g_dinv _ _ _ _ _ Hg1) as Hd1. pose proof (m_ind _ _ _ _ _ _ Hm1 eq_refl) as Hib.
  rewrite !(xint_own _ _ _ _ Hd1 Hib). pose proof (own_range _ _ _ _ Hd1 Hib).
  apply wp_bind, rsect_wp; [rewrite (dv_nsec _ _ Hd1); unfold size; lia|].
  rewrite (m_zero _ _ _ _ _ _ Hm1) by (done || fconst; lia). change (0 =? 0) with true. cbn match.
  apply wp_bind, wp_bind, (new_block_wp s1 own1 i nb); [done | destruct (nb =? NDIRECT); lia|].
  intros Hg2 Hnone Hz. apply wp_bind, wsect_wp, wp_ret, wp_ret.
  pose proof (dv_free _ _ Hd1) as Hfr. unfold DATA, LOG in Hfr.
  set (ib := ad1 !!! Z.to_nat NDIRECT) in *. set (s' := wr ib _ _). set (own' := oset own1 (freeblock s1) (i, nb)) in *.
  assert (Hok : blk_ok (set32 (4 * (nb - NDIRECT)) (freeblock s1) (sec s1 ib))).
  { apply set32_ok; [| | apply (dv_ok _ _ Hd1)]; fconst; lia. }
  destruct (mapped_add_indirect _ _ _ _ _ _ Hm1 Hn Hnone) as (Hm' & Hold & Hnew).
  { klia. } { intros b p Hb. pose proof (own_range _ _ _ _ Hd1 Hb). lia. } { apply (dv_ok _ _ Hd1). }
  fold ib in Hm', Hold, Hnew. fold own' in Hm'.
  assert (Es : forall x, sec s' x = uset (sec s1) ib (set32 (4 * (nb - NDIRECT)) (freeblock s1) (sec s1 ib)) x)
    by (intros x; exact (sec_wr ib _ (bump s1) x)).
  assert (Ef : forall bn, fblk (sec s') ad1 bn = fblk (uset (sec s1) ib (set32 (4 * (nb - NDIRECT)) (freeblock s1) (sec s1 ib))) ad1 bn)
    by (intros; by apply fblk_ext).
  replace (xint _) with (fblk (sec s') ad1 nb).
  2: { destruct (dv_ok _ _ Hd1 ib) as [Hlen _]. rewrite Ef, Hnew, get32_set32, xint_id; try klia; fconst; lia. }
  apply (HQ s' own' ad1). split_and!.
  - apply grown_wr; [by apply (grown_trans _ _ _ s1 own1) | by apply (oset_old own1) | done].
  - replace (NDIRECT <? nb + 1) with true by (symmetry; apply Z.ltb_lt; lia). by apply (mapped_ext _ _ _ _ _ _ _ Es).
  - intros bn Hbn. by rewrite Ef, Hold, Hold1.
  - rewrite Ef, Hnew, Es, uset_ne; [done|]. intros E. congruence.
  - cbn. rewrite Hf1. destruct (nb =? NDIRECT); lia.
Qed.

(** ** iappend *)

Definition nblks (n : Z) : Z := (n + 511) / 512.
Definition cost (n : Z) : Z := nblks n + (if NDIRECT <? nblks n then 1 else 0).

(** The file [i] with block map [ad] has the contents [l]; its last block is
    zero behind them. *)
Definition file_is (u : Z -> block) (own : owner) (i : Z) (ad l : list Z) : Prop :=
  mapped u own i ad (nblks (zlen l)) (NDIRECT <? nblks (zlen l)) /\
  forall k, 0 <= k < 512 * nblks (zlen l) -> fbyte u ad k = get8 l k.

Lemma nblks_next off m : 0 <= off -> 0 < m -> off mod 512 + m <= 512 -> nblks (off + m) = off / 512 + 1.
Proof. intros. unfold nblks. pose proof (Z.div_mod off 512). Z.div_mod_to_equations. lia. Qed.

Lemma nblks_cur off : 0 <= off -> nblks off = if decide (off mod 512 = 0) then off / 512 else off / 512 + 1.
Proof. intros. unfold nblks. case_decide; Z.div_mod_to_equations; lia. Qed.

Lemma get8_app l c k : 0 <= k -> get8 (l ++ c) k = if decide (k < zlen l) then get8 l k else get8 c (k - zlen l).
Proof.
  intros Hk. unfold get8, zlen. rewrite !list_lookup_total_alt. case_decide.
  - by rewrite lookup_app_l by lia.
  - rewrite lookup_app_r by lia. do 2 f_equal. lia.
Qed.

Lemma get8_beyond l k : zlen l <= k -> get8 l k = 0.
Proof. intros Hk. unfold get8. rewrite list_lookup_total_alt. by rewrite lookup_zlen_ge. Qed.

Lemma write_step u own i ad l c : 0 < zlen c -> zlen l mod 512 + zlen c <= 512 ->
  let fbn := zlen l / 512 in let x := fblk u ad fbn in
  mapped u own i ad (fbn + 1) (NDIRECT <? fbn + 1) -> blk_ok (u x) ->
  (forall k, 0 <= k < 512 * (fbn + 1) -> fbyte u ad k = get8 l k) ->
  file_is (uset u x (blit (zlen l mod 512) c (u x))) own i ad (l ++ c).
Proof.
  intros Hc Hfit fbn x Hm [Hx _] Hk. set (off := zlen l) in *.
  assert (0 <= off) by (unfold off, zlen; lia). pose proof (Z.mod_pos_bound off 512 ltac:(done)) as Hmod.
  assert (0 <= fbn) by (apply Z.div_pos; lia).
  assert (Hz : zlen (l ++ c) = off + zlen c) by (unfold off, zlen; rewrite length_app; lia).
  unfold file_is. rewrite Hz, nblks_next by lia. fold fbn.
  pose proof (m_own _ _ _ _ _ _ Hm) as Ho. pose proof (Ho fbn ltac:(lia)) as Hxo. fold x in Hxo.
  set (u' := uset u x _). 
  assert (Hi : NDIRECT < fbn + 1 -> u' (ad !!! Z.to_nat NDIRECT) = u (ad !!! Z.to_nat NDIRECT)).
  { intros Hlt. apply uset_ne. intros E. rewrite (proj2 (Z.ltb_lt _ _) Hlt) in Hm.
    pose proof (m_ind _ _ _ _ _ _ Hm eq_refl) as Hio. rewrite E, Hxo in Hio. by injection Hio as ->. }
  assert (Ef : forall bn, 0 <= bn < fbn + 1 -> fblk u' ad bn = fblk u ad bn).
  { intros bn Hbn. destruct (decide (NDIRECT < fbn + 1)) as [Hlt|]; [by apply fblk_ext, Hi|].
    unfold fblk. by rewrite (proj2 (Z.ltb_lt bn NDIRECT)) by lia. }
  split.
  - destruct Hm as [H1 H2 H3 H4 H5 H6 H7]. split; try done.
    + intros bn Hbn. rewrite Ef; auto.
    + intros Hh. rewrite Hi by (by apply Z.ltb_lt). auto.
  - intros k Hkr. unfold fbyte. change BSIZE with 512. rewrite Ef by (Z.div_mod_to_equations; lia).
    specialize (Hk k Hkr). unfold fbyte in Hk. change BSIZE with 512 in Hk. rewrite get8_app by lia. fold off.
    destruct (decide (k / 512 = fbn)) as [E|E].
    + rewrite E in *. fold x in Hk |- *. unfold u'. rewrite uset_eq. change BSIZE with 512 in Hx.
      rewrite get8_blit by (Z.div_mod_to_equations; lia).
      assert (Ek : k mod 512 - off mod 512 = k - off) by (unfold fbn in E; Z.div_mod_to_equations; lia).
      rewrite Ek. destruct (decide (k < off)).
      * by rewrite decide_False by lia.
      * destruct (decide _); [done|]. rewrite Hk, !get8_beyond by (unfold off in *; lia). done.
    + unfold u'. rewrite uset_ne.
      2: { intros E'. pose proof (Ho (k / 512) ltac:(Z.div_mod_to_equations; lia)) as Hko.
           rewrite E', Hxo in Hko. injection Hko. lia. }
      rewrite Hk, decide_True; [done|]. unfold fbn in *. Z.div_mod_to_equations. lia.
Qed.

(** Only blocks of file [i] are written. *)
Record appended (s : st) (own : owner) (i : Z) (s' : st) (own' : owner) : Prop := {
  ap_dinv : dinv s' own';
  ap_ino : freeinode s' = freeinode s;
  ap_own : forall b p, own b = Some p -> own' b = Some p;
  ap_new : forall b j p, own' b = Some (j, p) -> own b = Some (j, p) \/ j = i;
  ap_frame : forall b, (forall p, own' b <> Some (i, p)) -> sec s' b = sec s b
}.

Lemma appended_grown s own i s' own' : grown s own i s' own' -> appended s own i s' own'.
Proof. intros [H1 H2 H3 H4 H5]. split; auto. Qed.

Lemma appended_trans s0 own0 i s1 own1 s2 own2 :
  appended s0 own0 i s1 own1 -> appended s1 own1 i s2 own2 -> appended s0 own0 i s2 own2.
Proof.
  intros [A1 A2 A3 A4 A5] [B1 B2 B3 B4 B5]. split; [done | congruence | auto | |].
  - intros b j p H. apply B4 in H as [H|]; auto.
  - intros b Hb. rewrite B5 by done. apply A5. intros p E. by apply (Hb p), B3.
Qed.

Lemma appended_wr s own i b p d : dinv s own -> own b = Some (i, p) -> blk_ok d -> appended s own i (wr b d s) own.
Proof.
  intros H Hb Hok. split; auto; [by apply (dinv_wr _ _ _ (i, p))|].
  intros x Hx. rewrite sec_wr, uset_ne; [done|]. intros ->. by apply (Hx p).
Qed.

(** One round: the block for position [zlen l / 512], present or new. *)
Lemma iblock_wp s own i d l (Q : dinode * Z -> st -> Prop) :
  let fbn := zlen l / 512 in
  dinv s own -> file_is (sec s) own i (d_addrs d) l -> fbn < MAXFILE ->
  freeblock s + (cost (512 * (fbn + 1)) - cost (zlen l)) <= LOG ->
  (forall s' own' ad', grown s own i s' own' -> mapped (sec s') own' i ad' (fbn + 1) (NDIRECT <? fbn + 1) ->
     (forall k, 0 <= k < 512 * (fbn + 1) -> fbyte (sec s') ad' k = get8 l k) ->
     freeblock s' = freeblock s + (cost (512 * (fbn + 1)) - cost (zlen l)) ->
     Q (with_addrs ad' d, fblk (sec s') ad' fbn) s') -> wp (iblock fbn d) Q s.
Proof.
  intros fbn Hd [Hm Hk] Hmax Hroom HQ.
  assert (Hl : 0 <= zlen l) by (unfold zlen; lia). assert (Hf0 : 0 <= fbn) by (apply Z.div_pos; lia).
  assert (Enb : nblks (512 * (fbn + 1)) = fbn + 1) by (unfold nblks; Z.div_mod_to_equations; lia).
  pose proof (nblks_cur (zlen l) Hl) as Ec. fold fbn in Ec. unfold cost in *. rewrite Enb in *.
  destruct (decide (zlen l mod 512 = 0)) as [E|E]; rewrite Ec in *.
  - assert (Hadd : forall s' own' ad', added s own i (d_addrs d) fbn s' own' ad' ->
      Q (with_addrs ad' d, fblk (sec s') ad' fbn) s').
    { intros s' own' ad' (Hg & Hm' & Hold & Hz & Hf). apply (HQ s' own' ad'); try done.
      - intros k Hkr. unfold fbyte. change BSIZE with 512. destruct (decide (k < 512 * fbn)) as [Hlt|Hge].
        + assert (Hb : 0 <= k / 512 < fbn) by (Z.div_mod_to_equations; lia).
          rewrite Hold by done. rewrite <- (Hk k) by lia. unfold fbyte. change BSIZE with 512.
          rewrite (g_frame _ _ _ _ _ Hg); [done|].
          pose proof (m_own _ _ _ _ _ _ Hm (k / 512) Hb) as Ho. apply (g_own _ _ _ _ _ Hg) in Ho.
          rewrite Ho. intros [=]. lia.
        + assert (k / 512 = fbn) as -> by (Z.div_mod_to_equations; lia). rewrite Hz.
          rewrite (get8_beyond l k) by (unfold fbn in *; Z.div_mod_to_equations; lia).
          unfold get8, zero_block. rewrite list_lookup_total_alt. 
          destruct (replicate 512 0 !! _) as [v|] eqn:Ev; [|done]. by apply lookup_replicate in Ev as [-> _].
      - rewrite Hf. fconst. repeat case_bool; lia. }
    destruct (decide (fbn < NDIRECT)) as [Hlt|Hge].
    + rewrite (proj2 (Z.ltb_ge NDIRECT fbn)) in Hm by lia. apply (iblock_direct s own i); try done.
      revert Hroom. fconst. repeat case_bool; lia.
    + apply (iblock_indirect s own i); try done; [lia|]. revert Hroom. fconst. repeat case_bool; lia.
  - apply (iblock_old s own i d (fbn + 1) (NDIRECT <? fbn + 1)); try done; [lia|].
    specialize (HQ s own (d_addrs d)). replace (with_addrs (d_addrs d) d) with d in HQ by (by destruct d).
    apply HQ; try done; [by apply grown_refl | lia].
Qed.

Lemma file_is_frame u u' own own' i ad l :
  (forall b p, own b = Some (i, p) -> own' b = Some (i, p) /\ u' b = u b) ->
  file_is u own i ad l -> file_is u' own' i ad l.
Proof.
  intros E [[H1 H2 H3 H4 H5 H6 H7] Hk].
  assert (Ef : forall bn, 0 <= bn < nblks (zlen l) -> fblk u' ad bn = fblk u ad bn).
  { intros bn Hbn. unfold fblk. destruct (Z.ltb_spec bn NDIRECT); [done|].
    assert (Hh : (NDIRECT <? nblks (zlen l)) = true) by (apply Z.ltb_lt; lia).
    destruct (E _ _ (H6 Hh)) as [_ ->]. done. }
  split; [split; try done|].
  - intros bn Hbn. rewrite Ef by done. by apply E, H3.
  - intros Hh. by apply E, H6.
  - intros Hh. destruct (E _ _ (H6 Hh)) as [_ ->]. by apply H7.
  - intros k Hr. rewrite <- Hk by done. unfold fbyte. change BSIZE with 512.
    assert (Hb : 0 <= k / 512 < nblks (zlen l)) by (Z.div_mod_to_equations; lia).
    rewrite Ef by done. by destruct (E _ _ (H3 _ Hb)) as [_ ->].
Qed.

Lemma iappend_body_wp s own i d l p (Q : dinode * Z * list Z + dinode * Z -> st -> Prop) :
  dinv s own -> file_is (sec s) own i (d_addrs d) l -> Forall is_byte p -> 0 < zlen p ->
  zlen l + zlen p <= MAXFILE * 512 -> freeblock s + (cost (zlen l + zlen p) - cost (zlen l)) <= LOG ->
  (forall s' own' ad' c p', p = c ++ p' -> 0 < zlen c -> zlen c = io_chunk (zlen p) (zlen l) ->
     appended s own i s' own' -> file_is (sec s') own' i ad' (l ++ c) ->
     freeblock s' = freeblock s + (cost (zlen l + zlen c) - cost (zlen l)) ->
     Q (inl (with_addrs ad' d, zlen (l ++ c), p')) s') ->
  wp (iappend_body (d, zlen l, p)) Q s.
Proof.
  intros Hd Hf Hp Hn Hmax Hroom HQ. assert (Hl : 0 <= zlen l) by (unfold zlen; lia).
  destruct (io_chunk_spec (zlen p) (zlen l) Hn Hl) as (Hm & Hfit & _). unfold iappend_body. bool_true.
  set (fbn := zlen l / 512). set (m := io_chunk _ _) in *. change BSIZE with 512 in *.
  assert (Em : Z.min (zlen p) ((fbn + 1) * 512 - zlen l) = m).
  { unfold m, io_chunk. rewrite min_spec. change BSIZE with 512. f_equal. unfold fbn. Z.div_mod_to_equations. lia. }
  assert (Hfb : fbn < MAXFILE) by (unfold fbn; fconst; apply Z.div_lt_upper_bound; lia).
  assert (Hfb0 : 0 <= fbn) by (apply Z.div_pos; lia).
  assert (Ec : cost (zlen l + m) = cost (512 * (fbn + 1))).
  { unfold cost. rewrite nblks_next by lia. fold fbn.
    assert (nblks (512 * (fbn + 1)) = fbn + 1) as -> by (unfold nblks; Z.div_mod_to_equations; lia). done. }
  assert (Hmono : cost (zlen l + m) <= cost (zlen l + zlen p)).
  { assert (nblks (zlen l + m) <= nblks (zlen l + zlen p)) by (unfold nblks; apply Z.div_le_mono; lia).
    unfold cost. repeat case_bool; lia. }
  apply wp_bind, wp_kassert; [by apply Z.ltb_lt|]. apply wp_bind.
  apply (iblock_wp s own i d l); [done.. | fold fbn; lia|]. fold fbn. intros s' own' ad' Hg Hm' Hk Hfree.
  pose proof (g_dinv _ _ _ _ _ Hg) as Hd'. pose proof (m_own _ _ _ _ _ _ Hm' fbn ltac:(lia)) as Ho.
  pose proof (own_range _ _ _ _ Hd' Ho) as Hr. set (x := fblk _ _ _) in *.
  rewrite Em. apply wp_bind, rsect_wp; [rewrite (dv_nsec _ _ Hd'); unfold size; lia|].
  apply wp_bind, wsect_wp, wp_ret.
  set (c := sub 0 m p). assert (Hc : zlen c = m) by (apply sub_length; lia).
  assert (Eo : zlen l - fbn * 512 = zlen l mod 512) by (unfold fbn; Z.div_mod_to_equations; lia).
  rewrite Eo, u32_small by (fconst; klia).
  replace (zlen l + m) with (zlen (l ++ c)) by (unfold zlen in *; rewrite length_app; lia).
  pose proof (dv_ok _ _ Hd' x) as Hok. pose proof (Z.mod_pos_bound (zlen l) 512 ltac:(done)).
  assert (Hbok : blk_ok (blit (zlen l mod 512) c (sec s' x))).
  { apply blit_ok; [done | lia | change BSIZE with 512; lia | by apply Forall_sub]. }
  apply (HQ (wr x (blit (zlen l mod 512) c (sec s' x)) s') own' ad').
  - unfold c, sub. rewrite drop_0. by rewrite take_drop.
  - lia.
  - done.
  - apply (appended_trans _ _ _ s' own'); [by apply appended_grown | by apply (appended_wr _ _ _ _ fbn)].
  - eapply file_is_frame; [|apply (write_step (sec s') own' i ad' l c); [lia | lia | exact Hm' | exact Hok | exact Hk]].
    intros b q Hb. split; [done|]. apply sec_wr.
  - rewrite Hc, Ec. exact Hfree.
Qed.

Lemma mapped_u32 s own i ad nb : dinv s own -> mapped (sec s) own i ad nb (NDIRECT <? nb) ->
  forall k, 0 <= k < 13 -> is_u32 (ad !!! Z.to_nat k).
Proof.
  intros Hd Hm k Hk. assert (Ho : forall b p, own b = Some p -> is_u32 b)
    by (intros b p Hb; pose proof (own_range _ _ _ _ Hd Hb); klia).
  destruct (decide (k = 12)) as [->|Hne].
  - destruct (Z.ltb_spec NDIRECT nb).
    + apply (Ho _ _ (m_ind _ _ _ _ _ _ Hm eq_refl)).
    + destruct (m_noind _ _ _ _ _ _ Hm eq_refl) as [_ E]. change 12 with NDIRECT. rewrite E. klia.
  - destruct (decide (k < nb)).
    + pose proof (m_own _ _ _ _ _ _ Hm k ltac:(lia)) as Hb. unfold fblk in Hb. fconst.
      rewrite (proj2 (Z.ltb_lt k 12)) in Hb by lia. by apply Ho in Hb.
    + rewrite (m_dir _ _ _ _ _ _ Hm) by (fconst; lia). klia.
Qed.

(** Inode [i] is [d] and its file has the contents [l]. *)
Record holds_file (s : st) (own : owner) (i : Z) (d : dinode) (l : list Z) : Prop := {
  hf_inode : inode_at (sec s) i = d;
  hf_ok : din_ok d;
  hf_size : d_size d = zlen l;
  hf_file : file_is (sec s) own i (d_addrs d) l
}.

(** [s'] differs from [s] in inode [i] and in blocks of its file. *)
Record only_file (s : st) (own : owner) (i : Z) (s' : st) (own' : owner) : Prop := {
  of_dinv : dinv s' own';
  of_ino : freeinode s' = freeinode s;
  of_own : forall b p, own b = Some p -> own' b = Some p;
  of_new : forall b j p, own' b = Some (j, p) -> own b = Some (j, p) \/ j = i;
  of_inode : forall j, 0 <= j < ninodes -> j <> i -> inode_at (sec s') j = inode_at (sec s) j;
  of_frame : forall b, b <> i2b i -> (forall p, own' b <> Some (i, p)) -> sec s' b = sec s b
}.

Lemma i2b_range i : 0 <= i < ninodes -> 2 <= i2b i < 27.
Proof. unfold i2b, ninodes. change IPB with 8. intros. Z.div_mod_to_equations. lia. Qed.

Lemma dinv_low s own b d : dinv s own -> 0 <= b < DATA -> blk_ok d -> dinv (wr b d s) own.
Proof.
  intros [H1 H2 H3 H4 H5 H6] Hb Hok. unfold size, DATA in *.
  split; try done; [cbn; unfold size; lia | intros x | intros x Hx]; rewrite sec_wr; unfold uset; case_decide; try done.
  - subst. cbn in Hx. lia.
  - by apply H3.
Qed.

Lemma winode_file s own i d (Q : unit -> st -> Prop) :
  dinv s own -> 0 <= i < ninodes -> din_ok d ->
  (forall s', only_file s own i s' own -> inode_at (sec s') i = d -> freeblock s' = freeblock s ->
     (forall b, b <> i2b i -> sec s' b = sec s b) -> Q tt s') ->
  wp (winode i d) Q s.
Proof.
  intros Hd Hi Hok HQ. pose proof (i2b_range i Hi) as Hb. pose proof (dv_ok _ _ Hd (i2b i)) as Hbo.
  apply winode_wp; [rewrite (dv_nsec _ _ Hd); unfold size; lia|].
  set (s' := wr _ _ _).
  assert (Es : forall b, b <> i2b i -> sec s' b = sec s b) by (intros b Hne; unfold s'; by rewrite sec_wr, uset_ne).
  assert (Ei : forall j, 0 <= j -> inode_at (sec s') j = if decide (j = i) then d else inode_at (sec s) j).
  { intros j Hj. rewrite <- (inode_at_written (sec s)) by (done || lia). unfold inode_at, s'. by rewrite sec_wr. }
  apply HQ; [| by rewrite Ei, decide_True by lia | done | done]. split; auto.
  - apply dinv_low; [done | unfold DATA; lia|]. pose proof (di_off_range i ltac:(lia)).
    pose proof (din_bytes_len d (dk_len _ Hok)). apply blit_ok; [done | lia | lia|].
    unfold din_bytes. rewrite !Forall_app. split_and!; try apply le_enc_bytes. apply words_bytes_ok.
  - intros j Hj Hne. by rewrite Ei, decide_False by (done || lia).
Qed.

Lemma only_appended s own i s1 own1 s2 own2 :
  appended s own i s1 own1 -> only_file s1 own1 i s2 own2 -> only_file s own i s2 own2.
Proof.
  intros [A1 A2 A3 A4 A5] [B1 B2 B3 B4 B5 B6]. split; [done | congruence | auto | | |].
  - intros b j p H. apply B4 in H as [H|]; auto.
  - intros j Hj Hne. rewrite B5 by done. unfold inode_at. f_equal. apply A5. intros p E.
    pose proof (dv_own _ _ A1 _ _ E). pose proof (i2b_range j Hj). unfold DATA in *. lia.
  - intros b Hb Hp. rewrite B6 by done. apply A5. intros p E. by apply (Hp p), B3.
Qed.

(** The store of the inode that ends iappend. *)
Lemma iappend_end s own s1 own1 i d ad l (Q : unit -> st -> Prop) :
  0 <= i < ninodes -> din_ok d -> appended s own i s1 own1 -> file_is (sec s1) own1 i ad l ->
  zlen l <= MAXFILE * 512 ->
  (forall s' d', only_file s own i s' own1 -> holds_file s' own1 i d' l ->
     d_type d' = d_type d -> d_nlink d' = d_nlink d -> freeblock s' = freeblock s1 -> Q tt s') ->
  wp (winode i (din_size (xint (zlen l)) (with_addrs ad d))) Q s1.
Proof.
  intros Hi Hok Ha Hf Hmax HQ. assert (Hl : 0 <= zlen l) by (unfold zlen; lia).
  rewrite xint_id by (fconst; klia). set (d' := din_size _ _). assert (Ho : din_ok d').
  { destruct Hok as [K1 K2 K3 K4 K5 K6 K7]. split; try done; cbn.
    - fconst; klia.
    - apply Hf.
    - apply (mapped_u32 s1 own1 i ad _ (ap_dinv _ _ _ _ _ Ha) (proj1 Hf)). }
  apply (winode_file s1 own1); [apply Ha | done | done|]. intros s2 Hof Ei Efr Es.
  apply (HQ s2 d'); [by apply (only_appended _ _ _ s1 own1) | | done | done | done].
  split; [done | done | done|]. apply (file_is_frame (sec s1) _ own1); [|done].
  intros b q Hbq. split; [done|]. apply Es. pose proof (i2b_range i Hi).
  pose proof (dv_own _ _ (ap_dinv _ _ _ _ _ Ha) _ _ Hbq). unfold DATA in *. lia.
Qed.

(** iappend appends, in as many blocks as the new length needs. *)
Lemma iappend_wp s own i d l p (Q : unit -> st -> Prop) :
  dinv s own -> 0 <= i < ninodes -> holds_file s own i d l -> Forall is_byte p ->
  zlen l + zlen p <= MAXFILE * 512 -> freeblock s + (cost (zlen l + zlen p) - cost (zlen l)) <= LOG ->
  (forall s' own' d', only_file s own i s' own' -> holds_file s' own' i d' (l ++ p) ->
     d_type d' = d_type d -> d_nlink d' = d_nlink d ->
     freeblock s' = freeblock s + (cost (zlen l + zlen p) - cost (zlen l)) -> Q tt s') ->
  wp (iappend i p) Q s.
Proof.
  intros Hd Hi [E1 E2 E3 E4] Hp Hmax Hroom HQ. unfold iappend. pose proof (i2b_range i Hi) as Hb.
  apply wp_bind, rinode_wp; [rewrite (dv_nsec _ _ Hd); unfold size; lia|]. rewrite E1, E3.
  rewrite xint_id by (rewrite <- E3; apply E2). apply wp_bind.
  apply (wp_loop (fun v s1 => exists own1 ad1 l1, v.1 = (with_addrs ad1 d, zlen l1) /\ l1 ++ v.2 = l ++ p /\
      Forall is_byte v.2 /\ appended s own i s1 own1 /\ file_is (sec s1) own1 i ad1 l1 /\
      freeblock s1 = freeblock s + (cost (zlen l1) - cost (zlen l)))
    (fun v _ => Z.to_nat (rounds v.1.2 (zlen v.2)))).
  - exists own, (d_addrs d), l. cbn. split_and!; try done; [by destruct d | | lia].
    by apply appended_grown, grown_refl.
  - cbn. pose proof (rounds_bound (zlen l) (zlen p) ltac:(unfold zlen; lia) ltac:(unfold zlen; lia)) as Hr.
    change BSIZE with 512 in Hr. pose proof (Z.div_pos (zlen p) 512 ltac:(unfold zlen; lia)). lia.
  - intros [[din off] q] s1 (own1 & ad1 & l1 & [= -> ->] & El & Hq & Ha & Hf & Hfree). cbn [fst snd] in *.
    assert (Hz : zlen l1 + zlen q = zlen l + zlen p)
      by (apply (f_equal zlen) in El; unfold zlen in *; rewrite !length_app in El; lia).
    destruct (decide (0 < zlen q)) as [Hn|Hn].
    + apply (iappend_body_wp s1 own1 i _ l1 q); [apply Ha | done | done | done | lia | rewrite Hz; lia|].
      intros s2 own2 ad2 c q' -> Hc0 Hc Ha2 Hf2 Hfree2. split.
      * exists own2, ad2, (l1 ++ c). cbn. rewrite <- app_assoc. split_and!; try done.
        -- by apply Forall_app in Hq as [_ ?].
        -- by apply (appended_trans _ _ _ s1 own1).
        -- rewrite Hfree2, Hfree. replace (zlen (l1 ++ c)) with (zlen l1 + zlen c); [lia|].
           unfold zlen. rewrite length_app. lia.
      * cbn. destruct (io_chunk_spec (zlen (c ++ q')) (zlen l1) Hn ltac:(unfold zlen; lia)) as (_ & _ & Hr).
        rewrite <- Hc in Hr.
        replace (zlen (c ++ q') - zlen c) with (zlen q') in Hr by (unfold zlen; rewrite length_app; lia).
        replace (zlen l1 + zlen c) with (zlen (l1 ++ c)) in Hr by (unfold zlen; rewrite length_app; lia).
        rewrite Hr. pose proof (rounds_bound (zlen (l1 ++ c)) (zlen q') ltac:(unfold zlen; lia) ltac:(unfold zlen; lia)). lia.
    + unfold iappend_body. rewrite (proj2 (Z.ltb_ge 0 (zlen q))) by lia. apply wp_ret.
      destruct q; [|unfold zlen in Hn; cbn in Hn; lia]. rewrite app_nil_r in El. subst l1.
      change (zlen []) with 0 in Hz. rewrite Z.add_0_r in Hz.
      apply (iappend_end s own s1 own1 i d ad1 (l ++ p)); [done.. | lia|].
      intros s2 d' H1 H2 H3 H4 H5. apply (HQ s2 own1 d'); [done.. |]. by rewrite H5, Hfree, <- Hz.
Qed.

(** ** The image *)

Lemma holds_file_frame s own i s' own' j d l : only_file s own i s' own' -> dinv s own ->
  0 <= i < ninodes -> 0 <= j < ninodes -> j <> i -> holds_file s own j d l -> holds_file s' own' j d l.
Proof.
  intros [B1 B2 B3 B4 B5 B6] Hd Hi Hj Hne [E1 E2 E3 E4]. split; [by rewrite B5 | done | done|].
  apply (file_is_frame (sec s) _ own); [|done]. intros b p Hb. split; [by apply B3|]. apply B6.
  - pose proof (dv_own _ _ Hd _ _ Hb). pose proof (i2b_range i Hi). unfold DATA in *. lia.
  - intros q E. apply B3 in Hb. rewrite E in Hb. by injection Hb as ->.
Qed.

Definition new_inode (type : Z) : dinode := Din type 0 0 1 0 (replicate 13 0).

Definition has_file (s : st) (own : owner) (i type : Z) (l : list Z) : Prop :=
  exists d, holds_file s own i d l /\ d_type d = type /\ d_nlink d = 1.

(** The root directory holds [rl], the files from inode 2 on hold [fs], and
    [free] blocks are left. *)
Record image (s : st) (own : owner) (rl : list Z) (fs : list (list Z)) (super : block) : Prop := {
  im_dinv : dinv s own;
  im_ino : freeinode s = 2 + zlen fs;
  im_root : has_file s own ROOTINO T_DIR rl;
  im_files : forall k l, fs !! k = Some l -> has_file s own (2 + Z.of_nat k) T_FILE l;
  im_super : sec s 1 = super;
  im_rest : forall b, b = 0 \/ 27 <= b < DATA -> sec s b = zero_block
}.

Lemma only_low s own i s' own' b : only_file s own i s' own' -> 0 <= i < ninodes ->
  b < 2 \/ 27 <= b < DATA -> sec s' b = sec s b.
Proof.
  intros H Hi Hb. pose proof (i2b_range i Hi). apply (of_frame _ _ _ _ _ H); [lia|].
  intros p E. pose proof (dv_own _ _ (of_dinv _ _ _ _ _ H) _ _ E). unfold DATA in *. lia.
Qed.

Lemma zlen_app {A} (a b : list A) : zlen (a ++ b) = zlen a + zlen b.
Proof. unfold zlen. rewrite length_app. lia. Qed.
Lemma zlen_nonneg {A} (l : list A) : 0 <= zlen l.
Proof. unfold zlen. lia. Qed.

(** Growing the root directory, or the last file. *)
Lemma image_root s own rl fs super p (Q : unit -> st -> Prop) :
  image s own rl fs super -> zlen fs <= 198 -> Forall is_byte p -> zlen rl + zlen p <= MAXFILE * 512 ->
  freeblock s + (cost (zlen rl + zlen p) - cost (zlen rl)) <= LOG ->
  (forall s' own', image s' own' (rl ++ p) fs super ->
     freeblock s' = freeblock s + (cost (zlen rl + zlen p) - cost (zlen rl)) -> Q tt s') ->
  wp (iappend ROOTINO p) Q s.
Proof.
  intros [H1 H2 (d & Hf & Ht & Hn) H4 H5 H6] Hlen Hp Hmax Hroom HQ.
  apply (iappend_wp s own ROOTINO d rl p); try done. intros s' own' d' Hof Hf' Ht' Hn' Hfree.
  apply (HQ s' own'); [|done]. split.
  - apply Hof.
  - rewrite (of_ino _ _ _ _ _ Hof). done.
  - exists d'. by rewrite Ht', Hn'.
  - intros k l Hk. destruct (H4 k l Hk) as (dk & Hk' & ?). exists dk. split; [|done].
    apply lookup_lt_Some in Hk. unfold zlen, ninodes, ROOTINO in *.
    by apply (holds_file_frame s own 1); unfold ninodes; try lia.
  - rewrite (only_low _ _ _ _ _ _ Hof); try done; lia.
  - intros b Hb. rewrite (only_low _ _ _ _ _ _ Hof); [by apply H6 | done|]. unfold DATA in *. lia.
Qed.

Lemma image_last s own rl fs l super p (Q : unit -> st -> Prop) :
  image s own rl (fs ++ [l]) super -> zlen fs < 198 -> Forall is_byte p -> zlen l + zlen p <= MAXFILE * 512 ->
  freeblock s + (cost (zlen l + zlen p) - cost (zlen l)) <= LOG ->
  (forall s' own', image s' own' rl (fs ++ [l ++ p]) super ->
     freeblock s' = freeblock s + (cost (zlen l + zlen p) - cost (zlen l)) -> Q tt s') ->
  wp (iappend (2 + zlen fs) p) Q s.
Proof.
  intros [H1 H2 H3 H4 H5 H6] Hlen Hp Hmax Hroom HQ. pose proof (zlen_nonneg fs) as Hnn.
  assert (Hi : 0 <= 2 + zlen fs < ninodes) by (unfold ninodes; lia).
  destruct (H4 (length fs) l) as (d & Hf & Ht & Hn); [by apply list_lookup_middle|]. fold (zlen fs) in Hf.
  apply (iappend_wp s own (2 + zlen fs) d l p); try done. intros s' own' d' Hof Hf' Ht' Hn' Hfree.
  apply (HQ s' own'); [|done]. split.
  - apply Hof.
  - rewrite (of_ino _ _ _ _ _ Hof), H2, !zlen_app. done.
  - destruct H3 as (dr & Hr & ?). exists dr. split; [|done].
    apply (holds_file_frame s own (2 + zlen fs)); try done. unfold ROOTINO. lia.
  - intros k l' Hk. apply lookup_app_Some in Hk as [Hk|[Hk1 Hk2]].
    + destruct (H4 k l') as (dk & Hk' & ?); [by apply lookup_app_l_Some|]. exists dk. split; [|done].
      apply lookup_lt_Some in Hk. unfold zlen in *.
      apply (holds_file_frame s own (2 + Z.of_nat (length fs))); try done; unfold ninodes in *; lia.
    + apply list_lookup_singleton_Some in Hk2 as [Hk2 <-]. assert (k = length fs) as -> by lia.
      exists d'. rewrite Ht', Hn'. done.
  - rewrite (only_low _ _ _ _ _ _ Hof); try done; lia.
  - intros b Hb. rewrite (only_low _ _ _ _ _ _ Hof); [by apply H6 | done|]. unfold DATA in *. lia.
Qed.

Lemma file_is_nil u own i : file_is u own i (replicate 13 0) [].
Proof.
  assert (Hz : forall k, 0 <= k < 13 -> replicate 13 0 !!! Z.to_nat k = 0).
  { intros k Hk. apply lookup_total_replicate_2. lia. }
  split; [|intros k; change (nblks (zlen [])) with 0; lia].
  change (nblks (zlen [])) with 0. split; try done; intros; try lia.
  - fconst. apply Hz. lia.
Qed.

Lemma new_inode_ok type : 0 <= type < 2 ^ 16 -> din_ok (new_inode type).
Proof.
  intros Ht. split; try done. intros k Hk. unfold new_inode, d_addrs. rewrite lookup_total_replicate_2 by lia. klia.
Qed.

Lemma xshort_id x : 0 <= x < 2 ^ 16 -> xshort x = x.
Proof. intros H. unfold xshort. rewrite le_dec_enc. by apply Z.mod_small. Qed.

(** ialloc takes the next inode and makes it an empty file. *)
Lemma ialloc_wp s own type (Q : Z -> st -> Prop) :
  dinv s own -> 0 <= freeinode s < ninodes -> 0 <= type < 2 ^ 16 ->
  (forall s', only_file (w_ino (freeinode s + 1) s) own (freeinode s) s' own ->
     has_file s' own (freeinode s) type [] -> freeblock s' = freeblock s -> Q (freeinode s) s') ->
  wp (ialloc type) Q s.
Proof.
  intros Hd Hi Ht HQ. unfold ialloc. apply wp_bind, wp_gets, wp_bind, wp_modify, wp_bind.
  rewrite u32_small by (unfold ninodes in *; klia). rewrite xshort_id by done.
  apply (winode_file _ own _ (new_inode type)); [|done | by apply new_inode_ok|].
  - destruct Hd. by split.
  - intros s' Hof Ei Hfree _. apply wp_ret, HQ; [done | | done]. exists (new_inode type).
    split; [|done]. split; [done | by apply new_inode_ok | done | apply file_is_nil].
Qed.

Lemma image_new s own rl fs super (Q : Z -> st -> Prop) :
  image s own rl fs super -> zlen fs < 198 ->
  (forall s' own', image s' own' rl (fs ++ [[]]) super -> freeblock s' = freeblock s -> Q (2 + zlen fs) s') ->
  wp (ialloc T_FILE) Q s.
Proof.
  intros [H1 H2 H3 H4 H5 H6] Hlen HQ. pose proof (zlen_nonneg fs) as Hnn.
  assert (Hi : 0 <= 2 + zlen fs < ninodes) by (unfold ninodes; lia).
  assert (Hd' : dinv (w_ino (freeinode s + 1) s) own) by (destruct H1; by split).
  apply (ialloc_wp s own); [done | by rewrite H2 | by unfold T_FILE|]. rewrite H2 in *. intros s' Hof Hnew Hfree.
  assert (Hfr : forall j d l, 0 <= j < ninodes -> j <> 2 + zlen fs -> holds_file s own j d l -> holds_file s' own j d l).
  { intros j d l Hj Hne Hf. apply (holds_file_frame _ _ _ _ _ _ _ _ Hof); try done. by destruct Hf. }
  apply (HQ s' own); [|done]. split.
  - apply Hof.
  - rewrite (of_ino _ _ _ _ _ Hof), zlen_app. change (zlen [[]]) with 1. cbn [w_ino freeinode]. lia.
  - destruct H3 as (dr & Hr & ?). exists dr. split; [|done]. apply Hfr; try done. unfold ROOTINO. lia.
  - intros k l Hk. apply lookup_app_Some in Hk as [Hk|[Hk1 Hk2]].
    + destruct (H4 k l Hk) as (dk & Hk' & ?). exists dk. split; [|done].
      apply lookup_lt_Some in Hk. unfold zlen, ninodes in *. apply Hfr; [lia | lia | done].
    + apply list_lookup_singleton_Some in Hk2 as [Hk2 <-]. by assert (k = length fs) as -> by lia.
  - rewrite (only_low _ _ _ _ _ _ Hof); try done; lia.
  - intros b Hb. rewrite (only_low _ _ _ _ _ _ Hof); [by apply H6 | done|]. unfold DATA in *. lia.
Qed.

Lemma cost_mono m n : m <= n -> cost m <= cost n.
Proof.
  intros H. assert (nblks m <= nblks n) by (unfold nblks; apply Z.div_le_mono; lia).
  unfold cost. repeat case_bool; lia.
Qed.

(** The contents of a file, 512 bytes at a time. *)
Lemma write_chunks_wp fuel s own rl fs l super data (Q : unit -> st -> Prop) :
  image s own rl (fs ++ [l]) super -> zlen fs < 198 -> Forall is_byte data -> (length data < fuel)%nat ->
  zlen l + zlen data <= MAXFILE * 512 -> freeblock s + (cost (zlen l + zlen data) - cost (zlen l)) <= LOG ->
  (forall s' own', image s' own' rl (fs ++ [l ++ data]) super ->
     freeblock s' = freeblock s + (cost (zlen l + zlen data) - cost (zlen l)) -> Q tt s') ->
  wp (write_chunks fuel (2 + zlen fs) data) Q s.
Proof.
  revert s own l data. induction fuel as [|fuel IH]; intros s own l data Hm Hlen Hb Hfu Hmax Hroom HQ; [lia|].
  cbn [write_chunks]. destruct (Z.eqb_spec (zlen data) 0) as [E|E].
  - apply wp_ret. destruct data; [|unfold zlen in E; cbn in E; lia]. apply (HQ s own); [by rewrite app_nil_r|].
    change (zlen []) with 0. rewrite Z.add_0_r. lia.
  - assert (Hsp : data = take 512 data ++ drop 512 data) by (by rewrite take_drop).
    assert (Hz : zlen data = zlen (take 512 data) + zlen (drop 512 data)) by (by rewrite <- zlen_app, <- Hsp).
    pose proof (zlen_nonneg (drop 512 data)) as H0.
    pose proof (cost_mono (zlen l + zlen (take 512 data)) (zlen l + zlen data) ltac:(lia)) as Hc.
    apply wp_bind, (image_last s own rl fs l super); [done | done | by apply Forall_take | lia | lia|].
    intros s1 own1 Hm1 Hf1. apply (IH s1 own1 (l ++ take 512 data) (drop 512 data)); try done.
    + by apply Forall_drop.
    + rewrite length_drop. unfold zlen in E. lia.
    + rewrite zlen_app. lia.
    + rewrite zlen_app, <- Z.add_assoc, <- Hz. lia.
    + rewrite <- app_assoc, <- Hsp, zlen_app. intros s2 own2 Hm2 Hf2. apply (HQ s2 own2); [done|].
      rewrite Hf2, Hf1. replace (zlen l + _ + _) with (zlen l + zlen data) by lia. lia.
Qed.

(** ** main *)

Definition strip (name : list Z) : list Z := match name with 95 :: rest => rest | _ => name end.
Fixpoint entries (i : Z) (files : list (list Z * list Z)) : list Z :=
  match files with
  | [] => []
  | f :: files => mk_dirent (strip f.1 ++ [0]) i ++ entries (i + 1) files
  end.
Fixpoint costs (files : list (list Z * list Z)) : Z :=
  match files with [] => 0 | f :: files => cost (zlen f.2) + costs files end.

Lemma dirent_mk inum name : dirent_bytes inum name = mk_dirent name inum.
Proof. unfold dirent_bytes, mk_dirent, xshort. by rewrite le_dec_enc. Qed.

Lemma entries_len i files : zlen (entries i files) = 16 * zlen files.
Proof.
  revert i. induction files as [|f files IH]; intros i; [done|]. cbn [entries].
  rewrite zlen_app, mk_dirent_length, IH. unfold zlen, DIRENT_SIZE. cbn [length]. lia.
Qed.

Lemma cost_nonneg n : 0 <= n -> 0 <= cost n.
Proof.
  intros. assert (0 <= nblks n) by (unfold nblks; apply Z.div_pos; lia). unfold cost. repeat case_bool; lia.
Qed.

(** A host file that fits: the name of a file of the current directory. *)
Record arg_ok (f : list Z * list Z) : Prop := {
  a_slash : SLASH ∉ f.1;
  a_name : Forall is_byte f.1;
  a_data : Forall is_byte f.2;
  a_size : zlen f.2 <= MAXFILE * 512
}.

Lemma add_file_wp s own rl fs super f (Q : unit -> st -> Prop) :
  image s own rl fs super -> zlen fs < 198 -> arg_ok f -> zlen rl + 16 <= MAXFILE * 512 ->
  freeblock s + (cost (zlen rl + 16) - cost (zlen rl)) + cost (zlen f.2) <= LOG ->
  (forall s' own', image s' own' (rl ++ mk_dirent (strip f.1 ++ [0]) (2 + zlen fs)) (fs ++ [f.2]) super ->
     freeblock s' = freeblock s + (cost (zlen rl + 16) - cost (zlen rl)) + cost (zlen f.2) -> Q tt s') ->
  wp (add_file ROOTINO f) Q s.
Proof.
  destruct f as [name data]. intros Hm Hlen [A1 A2 A3 A4] Hmax Hroom HQ. cbn [fst snd] in *. unfold add_file.
  pose proof (cost_nonneg (zlen data) (zlen_nonneg data)) as Hc0.
  apply wp_bind, wp_kassert; [by apply bool_decide_eq_true|].
  apply wp_bind, (image_new s own rl fs super); [done | done|]. intros s1 own1 Hm1 Hf1.
  fold (strip name). rewrite dirent_mk. set (e := mk_dirent _ _).
  assert (He : zlen e = 16) by apply mk_dirent_length.
  assert (Hs : Forall is_byte (strip name ++ [0])).
  { apply Forall_app. split; [|by repeat constructor; klia]. destruct name as [|[| |]]; try done.
    unfold strip. repeat case_match; try done. by inversion A2. }
  apply wp_bind, (image_root s1 own1 rl (fs ++ [[]]) super); [done | rewrite zlen_app; change (zlen [[]]) with 1; lia
    | by apply mk_dirent_bytes | rewrite He; lia | rewrite He; lia|].
  intros s2 own2 Hm2 Hf2. rewrite He in Hf2.
  assert (E0 : cost (zlen (A := Z) []) = 0) by done.
  apply (write_chunks_wp _ s2 own2 (rl ++ e) fs [] super data); try done; [lia | |].
  - rewrite E0. change (zlen [] + zlen data) with (0 + zlen data). rewrite Z.add_0_l. lia.
  - rewrite E0. intros s3 own3 Hm3 Hf3. apply (HQ s3 own3); [done|].
    change (zlen [] + zlen data) with (0 + zlen data) in Hf3. rewrite Z.add_0_l in Hf3. lia.
Qed.

Lemma add_files_wp files : forall s own rl fs super (Q : unit -> st -> Prop),
  image s own rl fs super -> zlen fs + zlen files <= 198 -> Forall arg_ok files ->
  zlen rl + 16 * zlen files <= MAXFILE * 512 ->
  freeblock s + (cost (zlen rl + 16 * zlen files) - cost (zlen rl)) + costs files <= LOG ->
  (forall s' own', image s' own' (rl ++ entries (2 + zlen fs) files) (fs ++ files.*2) super ->
     freeblock s' = freeblock s + (cost (zlen rl + 16 * zlen files) - cost (zlen rl)) + costs files -> Q tt s') ->
  wp (add_files ROOTINO files) Q s.
Proof.
  induction files as [|f files IH]; intros s own rl fs super Q Hm Hlen Hok Hmax Hroom HQ.
  - apply wp_ret. cbn [entries costs fmap list_fmap] in *. rewrite !app_nil_r in HQ. apply (HQ s own Hm).
    replace (zlen rl + 16 * zlen []) with (zlen rl) by (change (zlen []) with 0; lia). lia.
  - apply Forall_cons in Hok as [Hf Hok]. assert (Hz : zlen (f :: files) = 1 + zlen files) by (unfold zlen; cbn; lia).
    rewrite Hz in *. cbn [costs] in *. pose proof (zlen_nonneg files) as Hn.
    pose proof (cost_mono (zlen rl + 16) (zlen rl + 16 * (1 + zlen files)) ltac:(lia)) as Hc.
    assert (0 <= costs files) by (clear; induction files; cbn; [lia|]; pose proof (cost_nonneg (zlen a.2) (zlen_nonneg _)); lia).
    apply wp_bind, (add_file_wp s own rl fs super f); [done | lia | done | lia | lia|]. intros s1 own1 Hm1 Hf1.
    set (e := mk_dirent _ _) in *. assert (He : zlen e = 16) by apply mk_dirent_length.
    assert (Hre : zlen (rl ++ e) + 16 * zlen files = zlen rl + 16 * (1 + zlen files)) by (rewrite zlen_app; lia).
    apply (IH s1 own1 (rl ++ e) (fs ++ [f.2]) super); [done | rewrite zlen_app; change (zlen [f.2]) with 1; lia
      | done | lia | rewrite Hre, zlen_app, He; lia|].
    rewrite Hre. intros s2 own2 Hm2 Hf2. apply (HQ s2 own2).
    + cbn [entries fmap list_fmap]. rewrite <- !app_assoc in Hm2. cbn [app] in Hm2.
      replace (2 + zlen fs + 1) with (2 + zlen (fs ++ [f.2])); [done|]. rewrite zlen_app. change (zlen [f.2]) with 1. lia.
    + rewrite Hf2, Hf1, zlen_app, He. lia.
Qed.

(** The bitmap marks the first [n] blocks. *)
Lemma set_bits_spec n : forall i buf, 0 <= i -> i + Z.of_nat n <= BPB -> blk_ok buf ->
  blk_ok (set_bits n i buf) /\
  forall j, 0 <= j -> bit (set_bits n i buf) j = if decide (i <= j < i + Z.of_nat n) then true else bit buf j.
Proof.
  induction n as [|n IH]; intros i buf Hi Hn Hok.
  - split; [done|]. intros j Hj. by rewrite decide_False by lia.
  - destruct (IH (i + 1) (set_bit i buf)) as [H1 H2]; [lia | lia | by apply set_bit_ok|].
    split; [done|]. intros j Hj. cbn [set_bits]. etransitivity; [exact (H2 j Hj)|].
    rewrite bit_set_bit by (done || lia). repeat case_decide; try done; lia.
Qed.

Lemma zero_block_bit j : bit zero_block j = false.
Proof.
  unfold bit, get8, zero_block. rewrite list_lookup_total_alt.
  destruct (replicate 512 0 !! _) as [v|] eqn:E; [apply lookup_replicate in E as [-> _]|]; apply Z.bits_0.
Qed.

Definition no_owner : owner := fun _ => None.

(** The image before the first file: zeros, and the superblock. *)
Lemma start_wp szw (Q : unit -> st -> Prop) (rest : K st unit) :
  let super := blit 0 (super_bytes szw) zero_block in
  blk_ok super ->
  (forall s, dinv s no_owner -> freeblock s = DATA -> freeinode s = 1 -> sec s 1 = super ->
     (forall b, b <> 1 -> sec s b = zero_block) -> wp rest Q s) ->
  wp (modify (w_free DATA DATA) ;;
      kassert (size =? size) "nblocks + usedblocks + nlog == size" ;;
      for_ 0 size (fun i => wsect i zero_block) ;;
      wsect 1 super ;; rest) Q empty.
Proof.
  intros super Hok HQ. apply wp_bind, wp_modify, wp_bind, wp_kassert; [done|]. apply wp_bind.
  apply (wp_for (fun i s => nsec s = i /\ freeblock s = DATA /\ usedblocks s = DATA /\ freeinode s = 1 /\
    forall b, sec s b = zero_block)); [done | done | |].
  - intros i s Hi (H1 & H2 & H3 & H4 & H5). apply wsect_wp. split_and!; try done; [cbn; lia|].
    intros b. rewrite sec_wr. unfold uset. by case_decide.
  - intros s (H1 & H2 & H3 & H4 & H5). apply wp_bind, wsect_wp.
    assert (E1 : sec (wr 1 super s) 1 = super) by (by rewrite sec_wr, uset_eq).
    assert (E2 : forall b, b <> 1 -> sec (wr 1 super s) b = zero_block) by (intros b Hb; by rewrite sec_wr, uset_ne).
    apply HQ; try done. split; try done.
    + cbn. rewrite H1. done.
    + intros b. rewrite sec_wr. unfold uset. case_decide; [done|]. rewrite H5. apply zero_block_ok.
    + intros b Hb. apply E2. cbn in Hb. rewrite H2 in Hb. unfold DATA in Hb. lia.
    + cbn. rewrite H2. done.
    + cbn. congruence.
Qed.

Definition root_dir (files : list (list Z * list Z)) : list Z :=
  mk_dirent [46; 0] ROOTINO ++ mk_dirent [46; 46; 0] ROOTINO ++ entries 2 files.

Lemma root_dir_len files : zlen (root_dir files) = 16 * (2 + zlen files).
Proof. unfold root_dir. rewrite !zlen_app, !mk_dirent_length, entries_len. unfold DIRENT_SIZE. lia. Qed.

(** The blocks in use at the end. *)
Definition in_use (files : list (list Z * list Z)) : Z := DATA + cost (16 * (2 + zlen files)) + costs files.

(** What main leaves: the size of the root directory is rounded up to the
    next block boundary. *)
Record final (s : st) (own : owner) (files : list (list Z * list Z)) (super : block) : Prop := {
  fi_dinv : dinv s own;
  fi_free : freeblock s = in_use files;
  fi_root : exists d, inode_at (sec s) ROOTINO = d /\ d_type d = T_DIR /\ d_nlink d = 1 /\
    d_size d = (16 * (2 + zlen files) / BSIZE + 1) * BSIZE /\ file_is (sec s) own ROOTINO (d_addrs d) (root_dir files);
  fi_files : forall k f, files !! k = Some f -> has_file s own (2 + Z.of_nat k) T_FILE f.2;
  fi_super : sec s 1 = super;
  fi_bitmap : sec s 28 = set_bits (Z.to_nat (in_use files)) 0 zero_block
}.

(** The two entries a directory starts with. *)
Lemma root_wp s super rest (Q : unit -> st -> Prop) :
  dinv s no_owner -> freeblock s = DATA -> freeinode s = 1 -> sec s 1 = super ->
  (forall b, b <> 1 -> sec s b = zero_block) ->
  (forall s' own', image s' own' (mk_dirent [46; 0] ROOTINO ++ mk_dirent [46; 46; 0] ROOTINO) [] super ->
     freeblock s' = DATA + 1 -> wp (rest ROOTINO) Q s') ->
  wp (rootino ← ialloc T_DIR;
      kassert (rootino =? ROOTINO) "rootino == ROOTINO" ;;
      iappend rootino (dirent_bytes rootino [46; 0]) ;;
      iappend rootino (dirent_bytes rootino [46; 46; 0]) ;;
      rest rootino) Q s.
Proof.
  intros Hd Hf Hi Hs Hz HQ. apply wp_bind, (ialloc_wp s no_owner); [done | by rewrite Hi | by unfold T_DIR|].
  rewrite Hi. intros s1 Hof Hnew Hf1. assert (Him : image s1 no_owner [] [] super).
  { split; [apply Hof | by rewrite (of_ino _ _ _ _ _ Hof) | done | done | |].
    - rewrite (only_low _ _ _ _ _ _ Hof); try done; lia.
    - intros b Hb. rewrite (only_low _ _ _ _ _ _ Hof); [|done |]; unfold DATA in *; [apply Hz|]; lia. }
  apply wp_bind, wp_kassert; [done|]. rewrite !dirent_mk.
  assert (Hd1 : forall n, zlen (mk_dirent n 1) = 16) by (intros; apply mk_dirent_length).
  assert (Hd2 : forall n, Forall is_byte n -> Forall is_byte (mk_dirent n 1)) by (intros; by apply mk_dirent_bytes).
  assert (C0 : cost 0 = 0 /\ cost 16 = 1 /\ cost 32 = 1) by done. destruct C0 as (C0 & C16 & C32).
  apply wp_bind, (image_root s1 no_owner [] [] super); [done | done | apply Hd2; repeat constructor; klia| ..];
    rewrite ?Hd1; change (zlen (A := Z) []) with 0; rewrite ?C0; cbn [Z.add]; rewrite ?C16; [done | rewrite Hf1, Hf; done |].
  intros s2 own2 Hm2 Hf2. 
  apply wp_bind, (image_root s2 own2 (mk_dirent [46; 0] 1) [] super); [done | done | apply Hd2; repeat constructor; klia| ..];
    rewrite ?Hd1; cbn [Z.add Pos.add Pos.add_carry Pos.succ]; rewrite ?C16, ?C32; [done | rewrite Hf2, Hf1, Hf; done |].
  intros s3 own3 Hm3 Hf3. apply (HQ s3 own3); [done|]. rewrite Hf3, Hf2, Hf1, Hf. done.
Qed.

(** The size of the root directory and the bitmap. *)
Lemma finish_wp s own files super :
  image s own (root_dir files) files.*2 super -> freeblock s = in_use files -> zlen files <= 198 ->
  wp (din ← rinode ROOTINO;
      let off := (xint (d_size din) / BSIZE + 1) * BSIZE in
      winode ROOTINO (din_size (xint off) din) ;;
      u ← gets usedblocks;
      balloc u) (fun _ s => exists own, final s own files super) s.
Proof.
  intros [K1 K2 (d & [L1 L2 L3 L4] & Ht & Hnl) K4 K5 K6] Hf Hlen. pose proof (zlen_nonneg files) as Hn.
  rewrite root_dir_len in L3.
  apply wp_bind, rinode_wp; [by rewrite (dv_nsec _ _ K1)|]. cbv zeta. rewrite L1.
  rewrite (xint_id (d_size d)) by (rewrite L3; klia). rewrite L3. set (off := (_ / BSIZE + 1) * BSIZE).
  assert (Hoff : is_u32 off) by (unfold off, BSIZE; apply conj; Z.div_mod_to_equations; lia).
  rewrite xint_id by done. set (d' := din_size off d).
  assert (Hok : din_ok d') by (destruct L2; by split).
  apply wp_bind, (winode_file s own); [done | done | done|]. intros s1 Hof Ei Hf1 Es.
  pose proof (of_dinv _ _ _ _ _ Hof) as Hd1. pose proof (dv_free _ _ Hd1) as Hfr.
  pose proof (dv_used _ _ Hd1) as Hu. rewrite Hf1, Hf in *. unfold DATA, LOG in Hfr.
  apply wp_bind, wp_gets. rewrite Hu. unfold balloc. apply wp_bind, wp_kassert; [apply Z.ltb_lt; lia|].
  apply wsect_wp. change (ninodes / IPB + 3) with 28.
  destruct (set_bits_spec (Z.to_nat (in_use files)) 0 zero_block ltac:(done)) as [Hbok _];
    [unfold BPB, BSIZE; lia | apply zero_block_ok|].
  set (s2 := wr 28 _ _). assert (E2 : forall b, b <> 28 -> sec s2 b = sec s1 b).
  { intros b Hb. unfold s2. by rewrite sec_wr, uset_ne. }
  assert (Eo : forall b p, own b = Some p -> sec s2 b = sec s b /\ sec s2 b = sec s1 b).
  { intros b p Hb. pose proof (dv_own _ _ K1 _ _ Hb). unfold DATA in *.
    rewrite E2 by lia. split; [apply Es; unfold i2b; change (ROOTINO / IPB + 2) with 2; lia | done]. }
  exists own. split.
  - by apply dinv_low.
  - done.
  - exists d'. split; [unfold inode_at; by rewrite E2|]. split_and!; try done.
    apply (file_is_frame (sec s) _ own); [|done]. intros b p Hb. split; [done | by apply (Eo b _ Hb)].
  - intros k f Hk. destruct (K4 k f.2) as (dk & Hdk & ?); [by rewrite list_lookup_fmap, Hk|].
    exists dk. split; [|done]. apply lookup_lt_Some in Hk. unfold zlen in *.
    assert (Hki : 0 <= 2 + Z.of_nat k < ninodes) by (unfold ninodes; lia).
    apply (holds_file_frame _ _ _ _ _ _ _ _ Hof) in Hdk; [|done | done | done | unfold ROOTINO; lia].
    destruct Hdk as [M1 M2 M3 M4]. pose proof (i2b_range _ Hki).
    split; [unfold inode_at; rewrite E2 by lia; done | done | done|].
    apply (file_is_frame (sec s1) _ own); [|done]. intros b p Hb. split; [done | by apply (Eo b _ Hb)].
  - rewrite E2, Es by done. done.
  - unfold s2. by rewrite sec_wr, uset_eq.
Qed.

Lemma main_wp szw files : let super := blit 0 (super_bytes szw) zero_block in
  blk_ok super -> Forall arg_ok files -> zlen files <= 198 -> in_use files <= LOG ->
  wp (main szw files) (fun _ s => exists own, final s own files super) empty.
Proof.
  intros super Hs Hok Hlen Hroom. unfold main. change (ninodes / IPB + 3 + (size / (512 * 8) + 1)) with DATA.
  change (nblocks + DATA + nlog) with size. pose proof (zlen_nonneg files) as Hn.
  apply start_wp; [done|]. fold super. intros s0 H1 H2 H3 H4 H5.
  eapply root_wp; try done. intros s1 own1 Hm1 Hf1. set (rl := _ ++ _) in Hm1.
  assert (Hz : zlen rl = 32) by (unfold rl; rewrite zlen_app, !mk_dirent_length; done).
  assert (Hu : in_use files = DATA + cost (32 + 16 * zlen files) + costs files)
    by (unfold in_use; do 2 f_equal; f_equal; lia).
  assert (C32 : cost 32 = 1) by done.
  apply wp_bind, (add_files_wp files s1 own1 rl [] super); [done | change (zlen []) with 0; lia | done | ..];
    rewrite ?Hz; [fconst; lia | lia |]. intros s2 own2 Hm2 Hf2.
  apply (finish_wp s2 own2); [|lia | done]. unfold rl in Hm2. rewrite <- app_assoc in Hm2. exact Hm2.
Qed.

(** ** The image as the kernel reads it *)

(** Inode [i] of the file system [u] is a file of the given type with contents
    [l], all in allocated blocks before the log. *)
Definition on_disk (u : Z -> block) (i type : Z) (l : list Z) : Prop :=
  let b := u (IBLOCK i) in let o := di_off i in
  di_type b o = type /\ di_nlink b o = 1 /\ di_size b o = zlen l /\
  blocks_ok u LOG [] (di_addrs b o) (zlen l) /\ fbytes u (di_addrs b o) 0 (zlen l) = l.

(** Block [bn] of the file of inode [i], and whether there is one. *)
Definition file_block (u : Z -> block) (i bn : Z) : Z := fblk u (di_addrs (u (IBLOCK i)) (di_off i)) bn.
Definition in_file (u : Z -> block) (i bn : Z) : Prop := 0 <= bn /\ bn * BSIZE < di_size (u (IBLOCK i)) (di_off i).

(** The directory, filled up with empty entries. *)
Definition pad (l : list Z) : list Z :=
  l ++ replicate (Z.to_nat ((zlen l / BSIZE + 1) * BSIZE - zlen l)) 0.

Record built (u : Z -> block) (files : list (list Z * list Z)) : Prop := {
  b_super : sb_of (u 1) = MkSb 1024 985 200 10;
  b_root : on_disk u ROOTINO T_DIR (pad (root_dir files));
  b_files : forall k f, files !! k = Some f -> on_disk u (2 + Z.of_nat k) T_FILE f.2;
  b_used : forall b, 0 <= b < size -> used u ninodes b = (b <? in_use files);
  b_blocks : forall i bn, 1 <= i < 2 + zlen files -> in_file u i bn -> DATA <= file_block u i bn < in_use files;
  b_distinct : forall i bn j bn', 1 <= i < 2 + zlen files -> 1 <= j < 2 + zlen files ->
    in_file u i bn -> in_file u j bn' -> file_block u i bn = file_block u j bn' -> i = j /\ bn = bn'
}.

Lemma get8_pad l k : 0 <= k -> get8 (pad l) k = get8 l k.
Proof.
  intros Hk. unfold pad. rewrite get8_app by done. case_decide; [done|]. rewrite (get8_beyond l k) by lia.
  unfold get8. rewrite list_lookup_total_alt.
  destruct (replicate _ 0 !! _) as [v|] eqn:E; [by apply lookup_replicate in E as [-> _] | done].
Qed.

Lemma zlen_pad l : zlen (pad l) = (zlen l / BSIZE + 1) * BSIZE.
Proof.
  unfold pad. rewrite zlen_app. unfold zlen at 2. rewrite length_replicate. pose proof (zlen_nonneg l).
  unfold BSIZE. Z.div_mod_to_equations. lia.
Qed.

Lemma fbytes_get8 u ad l : (forall k, 0 <= k < zlen l -> fbyte u ad k = get8 l k) -> fbytes u ad 0 (zlen l) = l.
Proof.
  intros H. apply list_eq_Z. intros i Hi. unfold fbytes. rewrite list_lookup_fmap.
  destruct (decide (i < zlen l)).
  - rewrite (proj2 (lookup_seqZ 0 (zlen l) (Z.to_nat i) i)) by lia. cbn. rewrite H by lia.
    unfold get8. symmetry. apply list_lookup_lookup_total_lt. unfold zlen in *. lia.
  - rewrite lookup_seqZ_ge by lia. symmetry. apply lookup_zlen_ge. lia.
Qed.

(** A file whose blocks the owner map lists is on disk. *)
Lemma on_disk_of u own i d type l0 l :
  (forall b p, own b = Some p -> DATA <= b < LOG) ->
  inode_at u i = d -> d_type d = type -> 0 <= type < 2 ^ 15 -> d_nlink d = 1 -> d_size d = zlen l ->
  file_is u own i (d_addrs d) l0 -> zlen l <= 512 * nblks (zlen l0) -> (forall k, 0 <= k -> get8 l k = get8 l0 k) ->
  on_disk u i type l.
Proof.
  intros Ho <- Ht Htr Hn Hs [Hm Hk] Hl Heq. unfold on_disk. change (IBLOCK i) with (i2b i).
  unfold inode_at, din_of in *. cbn [d_type d_nlink d_size d_addrs] in *.
  unfold di_type, di_nlink, di_size. rewrite Ht, Hn, Hs.
  split; [unfold i16, u16; rewrite Z.mod_small by lia; case_bool; lia|]. split; [done|]. split; [done|]. split.
  - intros bn Hb Hbs. change BSIZE with 512 in Hbs. assert (Hr : 0 <= bn < nblks (zlen l0)) by lia.
    pose proof (Ho _ _ (m_own _ _ _ _ _ _ Hm bn Hr)) as H1. unfold DATA in *.
    split; [pose proof (m_nb _ _ _ _ _ _ Hm); lia|]. split; [lia|]. split; [apply not_elem_of_nil|].
    intros Hb12. assert (Hh : (NDIRECT <? nblks (zlen l0)) = true) by (apply Z.ltb_lt; lia).
    pose proof (Ho _ _ (m_ind _ _ _ _ _ _ Hm Hh)). split; [lia | apply not_elem_of_nil].
  - apply fbytes_get8. intros k Hkr. rewrite Hk by lia. symmetry. apply Heq. lia.
Qed.

Lemma pad_blks l : zlen l mod 512 <> 0 -> zlen (pad l) <= 512 * nblks (zlen l).
Proof.
  intros H. rewrite zlen_pad, nblks_cur by apply zlen_nonneg. rewrite decide_False by done. unfold BSIZE. lia.
Qed.

(** The facts on one file that both its contents and its place follow from. *)
Lemma final_file s own files super u i : final s own files super -> (2 + zlen files) mod 32 <> 0 ->
  zlen files <= 198 -> (forall b, b <> LOG -> u b = sec s b) -> 1 <= i < 2 + zlen files ->
  exists d l0, inode_at u i = d /\ file_is u own i (d_addrs d) l0 /\ d_size d <= 512 * nblks (zlen l0) /\
    d_nlink d = 1 /\
    (i = ROOTINO -> d_type d = T_DIR /\ l0 = root_dir files /\ d_size d = zlen (pad l0)) /\
    (forall k f, i = 2 + Z.of_nat k -> files !! k = Some f -> d_type d = T_FILE /\ l0 = f.2 /\ d_size d = zlen l0).
Proof.
  intros [F1 F2 (d & R1 & R2 & R3 & R4 & R5) F4 F5 F6] Hmod Hlen Eu Hi.
  assert (Eo : forall b p, own b = Some p -> u b = sec s b).
  { intros b p Hb. apply Eu. pose proof (dv_own _ _ F1 _ _ Hb). pose proof (dv_free _ _ F1). lia. }
  assert (Hir : 0 <= i < ninodes) by (unfold ninodes; lia). pose proof (i2b_range i Hir) as Hb.
  assert (Ei : inode_at u i = inode_at (sec s) i) by (unfold inode_at; rewrite Eu; [done | unfold LOG; lia]).
  destruct (decide (i = ROOTINO)) as [->|Hne].
  - exists d, (root_dir files). rewrite Ei, R1. split_and!; try done.
    + apply (file_is_frame (sec s) _ own); [|done]. intros b p Hbp. split; [done | by apply (Eo b _ Hbp)].
    + rewrite R4, <- root_dir_len, <- zlen_pad. apply pad_blks. rewrite root_dir_len. Z.div_mod_to_equations. lia.
    + intros _. split_and!; try done. by rewrite zlen_pad, root_dir_len.
    + unfold ROOTINO. intros k f ?. lia.
  - unfold ROOTINO in *. destruct (lookup_lt_is_Some_2 files (Z.to_nat (i - 2))) as [f Hf]; [unfold zlen in *; lia|].
    destruct (F4 _ _ Hf) as (di & [M1 M2 M3 M4] & Ht & Hn).
    replace (2 + Z.of_nat (Z.to_nat (i - 2))) with i in * by lia.
    exists di, f.2. rewrite Ei, M1. split_and!; try done.
    + apply (file_is_frame (sec s) _ own); [|done]. intros b p Hbp. split; [done | by apply (Eo b _ Hbp)].
    + rewrite M3. unfold nblks. Z.div_mod_to_equations. lia.
    + intros k f' -> Hk. replace (Z.to_nat (2 + Z.of_nat k - 2)) with k in Hf by lia.
      rewrite Hf in Hk. by injection Hk as <-.
Qed.

Lemma final_built s own files u : final s own files (blit 0 (super_bytes 4) zero_block) ->
  (2 + zlen files) mod 32 <> 0 -> zlen files <= 198 -> (forall b, b <> LOG -> u b = sec s b) -> built u files.
Proof.
  intros Hfin Hmod Hlen Eu. pose proof (fi_dinv _ _ _ _ Hfin) as Hd. pose proof (fi_free _ _ _ _ Hfin) as Hf.
  pose proof (dv_free _ _ Hd) as Hfr. rewrite Hf in Hfr. pose proof (zlen_nonneg files) as Hnn.
  assert (Ho : forall b p, own b = Some p -> DATA <= b < in_use files)
    by (intros b p Hb; rewrite <- Hf; apply (dv_own _ _ Hd _ _ Hb)).
  assert (Hblk : forall i bn, 1 <= i < 2 + zlen files -> in_file u i bn -> own (file_block u i bn) = Some (i, bn)).
  { intros i bn Hi [Hb Hbs]. destruct (final_file _ _ _ _ u i Hfin Hmod Hlen Eu Hi) as (d & l0 & <- & [Hm _] & Hs & _).
    apply (m_own _ _ _ _ _ _ Hm). change (di_size _ _) with (d_size (inode_at u i)) in Hbs.
    change BSIZE with 512 in Hbs. lia. }
  split.
  - rewrite Eu by done. rewrite (fi_super _ _ _ _ Hfin). by vm_compute.
  - destruct (final_file _ _ _ _ u ROOTINO Hfin Hmod Hlen Eu) as (d & l0 & Hi & Hfl & Hs & Hn & Hr & _);
      [unfold ROOTINO; lia|]. destruct (Hr eq_refl) as (Ht & -> & Hsz).
    apply (on_disk_of u own _ d _ (root_dir files)); try done; [|by rewrite <- Hsz |].
    + intros b p Hb. specialize (Ho _ _ Hb). lia.
    + intros k Hk. by apply get8_pad.
  - intros k f Hk. pose proof (lookup_lt_Some _ _ _ Hk) as Hkl.
    destruct (final_file _ _ _ _ u (2 + Z.of_nat k) Hfin Hmod Hlen Eu) as (d & l0 & Hi & Hfl & Hs & Hn & _ & Hr);
      [unfold zlen; lia|]. destruct (Hr k f eq_refl Hk) as (Ht & -> & Hsz).
    apply (on_disk_of u own _ d _ f.2); try done; [|by rewrite Hsz in Hs].
    intros b p Hb. specialize (Ho _ _ Hb). lia.
  - intros b Hb. unfold used, size in *. change ninodes with 200.
    assert (BBLOCK b 200 = 28) as -> by (by apply BlockDemo.demo_bblock).
    rewrite Eu by done. rewrite (fi_bitmap _ _ _ _ Hfin). unfold DATA, LOG in *.
    destruct (set_bits_spec (Z.to_nat (in_use files)) 0 zero_block) as [_ Hbit];
      [done | unfold BPB, BSIZE; lia | apply zero_block_ok|].
    rewrite (Z.mod_small b) by (unfold BPB, BSIZE; lia). rewrite Hbit, zero_block_bit by lia.
    destruct (Z.ltb_spec b (in_use files)); [by rewrite decide_True by lia | by rewrite decide_False by lia].
  - intros i bn Hi Hin. by apply (Ho _ (i, bn)), Hblk.
  - intros i bn j bn' Hi Hj Hin Hin' E. pose proof (Hblk _ _ Hi Hin) as H1. pose proof (Hblk _ _ Hj Hin') as H2.
    rewrite E, H2 in H1. by injection H1 as -> ->.
Qed.


(** On a host whose size_t has 8 bytes, the kernel reads the words of the
    superblock shifted by one field: it takes the number of inodes for the
    number of log blocks, and looks for the log in the middle of the data. *)
Theorem mkfs_wide_size_t files :
  Forall arg_ok files -> zlen files <= 198 -> in_use files <= LOG ->
  exists s, main 8 files empty = Ok tt s /\ sb_of (sec s 1) = MkSb 1024 0 985 200 /\
    sb_size (sb_of (sec s 1)) - sb_nlog (sb_of (sec s 1)) = 824.
Proof.
  intros Hok Hlen Hroom.
  assert (Hs : blk_ok (blit 0 (super_bytes 8) zero_block)).
  { apply blit_ok; [apply zero_block_ok | done | done|].
    unfold super_bytes. rewrite !Forall_app. split_and!; apply le_enc_bytes. }
  destruct (proj1 (wp_run (main 8 files) _ empty) (main_wp 8 files Hs Hok Hlen Hroom)) as ([] & s & E & own & Hfin).
  exists s. split; [exact E|]. clear E. rewrite (fi_super _ _ _ _ Hfin). by vm_compute.
Qed.

(** A file "_a" of three bytes. *)
Definition demo_files : list (list Z * list Z) := [([95; 97], [1; 2; 3])].

Lemma demo_args : Forall arg_ok demo_files.
Proof.
  apply Forall_singleton. split; [by apply (bool_decide_unpack _) | repeat constructor; klia.. | done].
Qed.


Lemma mkfs_wide_size_t_witness : exists s, main 8 demo_files empty = Ok tt s /\
  sb_of (sec s 1) = MkSb 1024 0 985 200 /\ sb_size (sb_of (sec s 1)) - sb_nlog (sb_of (sec s 1)) = 824.
Proof. apply (mkfs_wide_size_t demo_files); [apply demo_args | by vm_compute | by vm_compute]. Defined.
End Mkfs.
