(* ===== verification/Printfmt.v ===== *)
(** * Formatted output (kern/lib/printfmt.c, kern/lib/dprintf.c, user/lib)

    vprintfmt hands the characters of its output to a function [putch] over
    state of its own, so the model is over an arbitrary state and [putch].  The
    format is the bytes behind the pointer with their null byte; reading past
    them is undefined.  A variable argument is the 32 bit word on the stack,
    with the bytes that memory holds at that address when the word is a
    pointer.  The kernel and the user library have the same code but for the
    octal conversion, which the user library leaves out ([octal]). *)

From S2P Require Import Prelude Bytes.

Module Printfmt.

Definition i8 (z : Z) : Z := if u8 z <? 128 then u8 z else u8 z - 256.
Definition u64 (z : Z) : Z := z mod 2 ^ 64.
Definition i64 (z : Z) : Z := if u64 z <? 2 ^ 63 then u64 z else u64 z - 2 ^ 64.

Record arg : Type := Arg { word : Z; target : list Z }.

(** padc, width, precision, lflag and altflag of vprintfmt. *)
Record flags : Type := Flags { padc : Z; width : Z; precision : Z; lflag : Z; altflag : bool }.
Definition f_padc v f := Flags v (width f) (precision f) (lflag f) (altflag f).
Definition f_width v f := Flags (padc f) v (precision f) (lflag f) (altflag f).
Definition f_prec v f := Flags (padc f) (width f) v (lflag f) (altflag f).
Definition f_lflag v f := Flags (padc f) (width f) (precision f) v (altflag f).
Definition f_alt v f := Flags (padc f) (width f) (precision f) (lflag f) v.

Definition hexdigits : list Z :=
  [48; 49; 50; 51; 52; 53; 54; 55; 56; 57; 97; 98; 99; 100; 101; 102].

(** strnlen of string.c; [None] when it reads past the accessible bytes. *)
Fixpoint strnlen (size : Z) (s : list Z) : option Z :=
  if size =? 0 then Some 0
  else match s with
       | [] => None
       | c :: s => if c =? 0 then Some 0 else Z.succ <$> strnlen (size - 1) s
       end.

Definition isdigit (c : Z) : bool := (48 <=? c) && (c <=? 57).

(** "(null)" *)
Definition null_string : list Z := [40; 110; 117; 108; 108; 41; 0].

Section ops.
Context {S : Type} (putch : Z -> K S unit).

Definition undef_if_none {A} (o : option A) : K S A :=
  match o with Some a => mret a | None => fail Undef end.

(** A 64 bit number has at most 64 digits in any base. *)
Fixpoint printnum_rec (fuel : nat) (num base width padc : Z) : K S unit :=
  match fuel with
  | O => fail Fuel
  | Datatypes.S f =>
      (if base <=? num then printnum_rec f (num / base) base (width - 1) padc
       else for_range (Z.to_nat (width - 1)) 0 (fun _ => putch padc)) ;;
      putch (hexdigits !!! Z.to_nat (num mod base))
  end.
Definition printnum (num base width padc : Z) : K S unit := printnum_rec 64 num base width padc.

Definition va_arg (ap : list arg) : K S (arg * list arg) :=
  match ap with a :: ap => mret (a, ap) | [] => fail Undef end.

Definition getuint (ap : list arg) (lflag : Z) : K S (Z * list arg) :=
  if 2 <=? lflag then
    '(lo, ap) ← va_arg ap; '(hi, ap) ← va_arg ap;
    mret (u32 (word lo) + 2 ^ 32 * u32 (word hi), ap)
  else '(a, ap) ← va_arg ap; mret (u32 (word a), ap).

Definition getint (ap : list arg) (lflag : Z) : K S (Z * list arg) :=
  if 2 <=? lflag then
    '(lo, ap) ← va_arg ap; '(hi, ap) ← va_arg ap;
    mret (i64 (u32 (word lo) + 2 ^ 32 * u32 (word hi)), ap)
  else '(a, ap) ← va_arg ap; mret (i32 (word a), ap).

(** The second loop of the conversion s: the characters, at most [precision]
    of them unless it is negative; it returns the width that is left. *)
Fixpoint put_string (s : list Z) (precision : Z) (altflag : bool) (width : Z) : K S Z :=
  match s with
  | [] => fail Undef
  | c :: s =>
      let ch := i8 c in
      if (ch =? 0) || negb ((precision <? 0) || (0 <=? precision - 1)) then mret width
      else
        putch (if altflag && ((ch <? 32) || (126 <? ch)) then 63 else ch) ;;
        put_string s (if precision <? 0 then precision else precision - 1) altflag (width - 1)
  end.

Definition conv_s (f : flags) (a : arg) : K S unit :=
  let p := if word a =? 0 then null_string else target a in
  w ← (if (0 <? width f) && negb (padc f =? 45) then
         n ← undef_if_none (strnlen (u32 (precision f)) p);
         for_range (Z.to_nat (width f - n)) 0 (fun _ => putch (padc f)) ;;
         mret (Z.min (width f - n) 0)
       else mret (width f));
  w ← put_string p (precision f) (altflag f) w;
  for_range (Z.to_nat w) 0 (fun _ => putch 32).

Context (octal : bool) (fmt : list Z).

Definition fetch (p : Z) : K S Z :=
  if p <? 0 then fail Undef else undef_if_none (fmt !! Z.to_nat p).

(** [for (precision = 0; ; ++fmt)]: the digits of a width. *)
Definition get_digits (v : Z * Z * Z) : K S (Z * Z * Z + Z * Z) :=
  let '(prec, ch, p) := v in
  let prec := i32 (prec * 10 + ch - 48) in
  ch ← fetch p;
  if isdigit (i8 ch) then mret (inl (prec, i8 ch, p + 1)) else mret (inr (prec, p)).

Definition process_precision (prec : Z) (f : flags) : flags :=
  if width f <? 0 then f_prec (-1) (f_width prec f) else f_prec prec f.

(** [for (fmt--; fmt[-1] != '%'; fmt--)] *)
Definition back (p : Z) : K S (Z + Z) :=
  ch ← fetch (p - 1); if ch =? 37 then mret (inr p) else mret (inl (p - 1)).

Definition number (f : flags) (num base : Z) : K S unit := printnum num base (width f) (padc f).

(** One character behind a percent sign, from the label reswitch: on to the
    next character, or behind the conversion. *)
Definition reswitch (v : Z * list arg * flags) : K S (Z * list arg * flags + Z * list arg) :=
  let '(p, ap, f) := v in
  ch ← fetch p;
  let p := p + 1 in
  if ch =? 45 then mret (inl (p, ap, f_padc 45 f))
  else if ch =? 48 then mret (inl (p, ap, f_padc 48 f))
  else if (49 <=? ch) && (ch <=? 57) then
    '(prec, p) ← loop (Datatypes.S (length fmt)) get_digits (0, ch, p);
    mret (inl (p, ap, process_precision prec f))
  else if ch =? 42 then
    '(a, ap) ← va_arg ap; mret (inl (p, ap, process_precision (i32 (word a)) f))
  else if ch =? 46 then mret (inl (p, ap, if width f <? 0 then f_width 0 f else f))
  else if ch =? 35 then mret (inl (p, ap, f_alt true f))
  else if ch =? 108 then mret (inl (p, ap, f_lflag (lflag f + 1) f))
  else if ch =? 99 then
    '(a, ap) ← va_arg ap; putch (i32 (word a)) ;; mret (inr (p, ap))
  else if ch =? 115 then '(a, ap) ← va_arg ap; conv_s f a ;; mret (inr (p, ap))
  else if ch =? 100 then
    '(num, ap) ← getint ap (lflag f);
    when (num <? 0) (putch 45) ;;
    number f (u64 (if num <? 0 then - num else num)) 10 ;; mret (inr (p, ap))
  else if ch =? 117 then '(num, ap) ← getuint ap (lflag f); number f num 10 ;; mret (inr (p, ap))
  else if ch =? 111 then
    if octal then '(num, ap) ← getuint ap (lflag f); number f num 8 ;; mret (inr (p, ap))
    else putch 88 ;; putch 88 ;; putch 88 ;; mret (inr (p, ap))
  else if ch =? 112 then
    putch 48 ;; putch 120 ;;
    '(a, ap) ← va_arg ap; number f (u32 (word a)) 16 ;; mret (inr (p, ap))
  else if ch =? 120 then '(num, ap) ← getuint ap (lflag f); number f num 16 ;; mret (inr (p, ap))
  else if ch =? 37 then putch ch ;; mret (inr (p, ap))
  else
    putch 37 ;;
    p ← loop (Datatypes.S (length fmt)) back (p - 1);
    mret (inr (p, ap)).

Definition start_flags : flags := Flags 32 (-1) (-1) 0 false.

Definition fmt_body (v : Z * list arg) : K S (Z * list arg + unit) :=
  let '(p, ap) := v in
  ch ← fetch p;
  if negb (ch =? 37) then
    if ch =? 0 then mret (inr tt) else putch ch ;; mret (inl (p + 1, ap))
  else
    '(p, ap) ← loop (Datatypes.S (length fmt)) reswitch (p + 1, ap, start_flags);
    mret (inl (p, ap)).

Definition vprintfmt (ap : list arg) : K S unit :=
  loop (Datatypes.S (length fmt)) fmt_body (0, ap).
End ops.

(** ** What is printed

    [emits m out a]: from every state, [m] gives the characters [out] to
    [putch], in order, and returns [a].  It is an equation between programs, so
    it holds whatever [putch] does: buffer, send to a device, or fail. *)
Section emits.
Context {S : Type} (putch : Z -> K S unit).

Fixpoint emit (l : list Z) : K S unit :=
  match l with [] => mret tt | c :: l => putch c ;; emit l end.

Definition emits {A} (m : K S A) (out : list Z) (a : A) : Prop :=
  forall s, m s = (emit out ;; mret a) s.

Lemma emit_app l l' s : emit (l ++ l') s = (emit l ;; emit l') s.
Proof.
  revert s. induction l as [|c l IH]; intros s; [done|]. cbn [emit app]. rewrite bind_assoc.
  apply bind_ext. intros [] s'. apply IH.
Qed.

Lemma emits_ret {A} (a : A) : emits (mret a) [] a.
Proof. done. Qed.

Lemma emits_bind {A B} (m : K S A) (k : A -> K S B) o1 o2 a b :
  emits m o1 a -> emits (k a) o2 b -> emits (m ≫= k) (o1 ++ o2) b.
Proof.
  intros Hm Hk s. unfold mbind at 1, K_bind at 1. rewrite Hm.
  unfold mbind, K_bind, mret, K_ret. rewrite emit_app. unfold mbind, K_bind.
  destruct (emit o1 s) as [[] s1|]; [|done]. rewrite Hk. done.
Qed.

Lemma emits_ret_bind {A B} (m : K S A) (k : A -> K S B) a o b :
  emits m [] a -> emits (k a) o b -> emits (m ≫= k) o b.
Proof. intros Hm Hk. by apply (emits_bind _ _ [] o a b). Qed.

Lemma emits_bind_ret {A} (m : K S unit) o (a : A) : emits m o tt -> emits (m ;; mret a) o a.
Proof. intros Hm. rewrite <- (app_nil_r o). by apply (emits_bind _ _ o [] tt). Qed.

Lemma emits_putch c : emits (putch c) [c] tt.
Proof.
  intros s. cbn [emit]. unfold mbind, K_bind, mret, K_ret. by destruct (putch c s) as [[] s'|].
Qed.

Lemma emits_pad n c i : emits (for_range n i (fun _ => putch c)) (replicate n c) tt.
Proof.
  revert i. induction n as [|n IH]; intros i; [done|]. cbn [for_range replicate].
  apply (emits_bind _ _ [c]  _ tt); [apply emits_putch | apply IH].
Qed.

Lemma emits_loop_end {L R} f (body : L -> K S (L + R)) l o r :
  emits (body l) o (inr r) -> emits (loop (Datatypes.S f) body l) o r.
Proof. intros H. cbn [loop]. rewrite <- (app_nil_r o). by eapply emits_bind. Qed.

Lemma emits_loop_step {L R} f (body : L -> K S (L + R)) l l' o o' r :
  emits (body l) o (inl l') -> emits (loop f body l') o' r -> emits (loop (Datatypes.S f) body l) (o ++ o') r.
Proof. intros H H'. cbn [loop]. by eapply emits_bind. Qed.

(** ** Numbers *)

(** The digits of [n], the most significant first. *)
Fixpoint digits_rec (fuel : nat) (base n : Z) : list Z :=
  match fuel with
  | O => []
  | Datatypes.S f => if base <=? n then digits_rec f base (n / base) ++ [n mod base] else [n mod base]
  end.
End emits.
Definition digits (base n : Z) : list Z := digits_rec 64 base n.
Definition value (base : Z) (l : list Z) : Z := foldl (fun a d => a * base + d) 0 l.
Definition digit_char (d : Z) : Z := hexdigits !!! Z.to_nat d.

Definition num_text (padc width base n : Z) : list Z :=
  let ds := digit_char <$> digits base n in
  replicate (Z.to_nat (width - zlen ds)) padc ++ ds.

Lemma value_snoc base l d : value base (l ++ [d]) = value base l * base + d.
Proof. unfold value. by rewrite foldl_app. Qed.

(** What the digits are: their value is the number, none is out of range, and
    the first is 0 only for the number 0. *)
Lemma digits_rec_spec f base n : 2 <= base -> 0 <= n < base ^ Z.of_nat f -> (0 < f)%nat ->
  value base (digits_rec f base n) = n /\ Forall (fun d => 0 <= d < base) (digits_rec f base n) /\
  (exists d l, digits_rec f base n = d :: l /\ (d = 0 -> n = 0)) /\
  zlen (digits_rec f base n) <= Z.of_nat f.
Proof.
  intros Hb. revert n. induction f as [|f IH]; intros n Hn Hf; [lia|]. cbn [digits_rec].
  pose proof (Z.mod_pos_bound n base ltac:(lia)) as Hm. destruct (Z.leb_spec base n) as [Hle|Hlt].
  - rewrite Nat2Z.inj_succ, Z.pow_succ_r in Hn by lia.
    assert (Hf' : (0 < f)%nat) by (destruct f; [cbn in Hn; lia | lia]).
    assert (Hq : 0 <= n / base < base ^ Z.of_nat f)
      by (split; [apply Z.div_pos; lia | apply Z.div_lt_upper_bound; lia]).
    destruct (IH (n / base) Hq Hf') as (V & F & (d & l & E & Hd) & L). split_and!.
    + rewrite value_snoc, V. pose proof (Z.div_mod n base). lia.
    + apply Forall_app. split; [done|]. by constructor.
    + exists d, (l ++ [n mod base]). rewrite E. split; [done|]. intros H0. specialize (Hd H0).
      pose proof (Z.div_le_lower_bound n base 1 ltac:(lia) ltac:(lia)). lia.
    + unfold zlen in *. rewrite length_app. cbn. lia.
  - rewrite Z.mod_small by lia. split_and!; [unfold value; cbn; lia | by repeat constructor; lia | | unfold zlen; cbn; lia].
    by exists n, [].
Qed.

Lemma digits_spec base n : 2 <= base -> 0 <= n < 2 ^ 64 ->
  value base (digits base n) = n /\ Forall (fun d => 0 <= d < base) (digits base n) /\
  (exists d l, digits base n = d :: l /\ (d = 0 -> n = 0)) /\ zlen (digits base n) <= 64.
Proof.
  intros Hb Hn. apply (digits_rec_spec 64); [done | | lia]. split; [lia|].
  apply Z.lt_le_trans with (2 ^ 64); [lia|]. apply Z.pow_le_mono_l. lia.
Qed.

Section printnum.
Context {S : Type} (putch : Z -> K S unit).

Lemma printnum_rec_emits f base n width padc : 2 <= base -> 0 <= n < base ^ Z.of_nat f -> (0 < f)%nat ->
  emits putch (printnum_rec putch f n base width padc)
    (replicate (Z.to_nat (width - zlen (digits_rec f base n))) padc ++ (digit_char <$> digits_rec f base n)) tt.
Proof.
  intros Hb. revert n width. induction f as [|f IH]; intros n width Hn Hf; [lia|].
  cbn [printnum_rec digits_rec]. destruct (Z.leb_spec base n) as [Hle|Hlt].
  - rewrite Nat2Z.inj_succ, Z.pow_succ_r in Hn by lia.
    assert (Hf' : (0 < f)%nat) by (destruct f; [cbn in Hn; lia | lia]).
    assert (Hq : 0 <= n / base < base ^ Z.of_nat f)
      by (split; [apply Z.div_pos; lia | apply Z.div_lt_upper_bound; lia]).
    rewrite fmap_app, app_assoc. eapply emits_bind; [|apply emits_putch].
    replace (width - zlen (_ ++ _)) with (width - 1 - zlen (digits_rec f base (n / base)));
      [by apply IH|]. unfold zlen. rewrite length_app. cbn. lia.
  - cbn [fmap list_fmap]. eapply emits_bind; [|apply emits_putch].
    change (zlen [n mod base]) with 1. apply emits_pad.
Qed.

Lemma printnum_emits n base width padc : 2 <= base -> 0 <= n < 2 ^ 64 ->
  emits putch (printnum putch n base width padc) (num_text padc width base n) tt.
Proof.
  intros Hb Hn. unfold printnum, num_text. 
  assert (E : zlen (digit_char <$> digits base n) = zlen (digits base n)) by (unfold zlen; by rewrite length_fmap).
  rewrite E. apply printnum_rec_emits; [done | | lia]. split; [lia|].
  apply Z.lt_le_trans with (2 ^ 64); [lia|]. apply Z.pow_le_mono_l. lia.
Qed.
End printnum.

(** ** Strings *)

Definition nonzero (c : Z) : Prop := 0 < c < 2 ^ 8.

Definition shown_len (f : flags) (str : list Z) : Z :=
  if precision f <? 0 then zlen str else Z.min (zlen str) (precision f).
Definition shown (f : flags) (str : list Z) : list Z :=
  (fun c => if altflag f && ((i8 c <? 32) || (126 <? i8 c)) then 63 else i8 c) <$> take (Z.to_nat (shown_len f str)) str.
Definition str_text (f : flags) (str : list Z) : list Z :=
  let pad := Z.to_nat (width f - shown_len f str) in
  if (0 <? width f) && negb (padc f =? 45) then replicate pad (padc f) ++ shown f str
  else shown f str ++ replicate pad 32.

Lemma i8_nonzero c : nonzero c -> (i8 c =? 0) = false.
Proof.
  intros [H1 H2]. apply Z.eqb_neq. unfold i8, u8. rewrite Z.mod_small by lia. case_bool; lia.
Qed.

Lemma strnlen_spec size str rest : Forall nonzero str -> 0 <= size ->
  strnlen size (str ++ 0 :: rest) = Some (Z.min (zlen str) size).
Proof.
  intros Hs. revert size. induction Hs as [|c str Hc Hs IH]; intros size Hz.
  - cbn [strnlen app]. change (zlen []) with 0. rewrite Z.min_l by lia. by case_bool.
  - cbn [strnlen app]. destruct (Z.eqb_spec size 0) as [->|Hne].
    + by rewrite Z.min_r by (unfold zlen; lia).
    + unfold nonzero in Hc. rewrite (proj2 (Z.eqb_neq c 0)) by lia. rewrite IH by lia. cbn. f_equal.
      unfold zlen. cbn [length]. lia.
Qed.

Section conv_s.
Context {S : Type} (putch : Z -> K S unit).

Lemma put_string_emits str rest prec alt w : Forall nonzero str ->
  let n := if prec <? 0 then zlen str else Z.min (zlen str) prec in
  emits putch (put_string putch (str ++ 0 :: rest) prec alt w)
    ((fun c => if alt && ((i8 c <? 32) || (126 <? i8 c)) then 63 else i8 c) <$> take (Z.to_nat n) str) (w - n).
Proof.
  intros Hs. revert prec w. induction Hs as [|c str Hc Hs IH]; intros prec w.
  - cbv zeta. change (zlen []) with 0. replace (if prec <? 0 then 0 else Z.min 0 prec) with 0 by (case_bool; lia).
    rewrite Z.sub_0_r. apply emits_ret.
  - cbn [put_string app]. rewrite i8_nonzero by done. cbn [orb].
    assert (Hz : zlen (c :: str) = 1 + zlen str) by (unfold zlen; cbn [length]; lia).
    assert (0 <= zlen str) by (unfold zlen; lia). rewrite Hz. cbv zeta in *.
    destruct (Z.ltb_spec prec 0) as [Hneg|Hpos]; cbn [orb negb].
    + replace (Z.to_nat (1 + zlen str)) with (Datatypes.S (Z.to_nat (zlen str))) by lia.
      cbn [take fmap list_fmap]. eapply (emits_bind _ _ _ [_]); [apply emits_putch|].
      specialize (IH prec (w - 1)). rewrite (proj2 (Z.ltb_lt prec 0)) in IH by lia.
      replace (w - (1 + zlen str)) with (w - 1 - zlen str) by lia. apply IH.
    + destruct (Z.leb_spec 0 (prec - 1)); cbn [negb].
      * replace (Z.to_nat (Z.min (1 + zlen str) prec)) with (Datatypes.S (Z.to_nat (Z.min (zlen str) (prec - 1)))) by lia.
        cbn [take fmap list_fmap]. eapply (emits_bind _ _ _ [_]); [apply emits_putch|].
        specialize (IH (prec - 1) (w - 1)). rewrite (proj2 (Z.ltb_ge (prec - 1) 0)) in IH by lia.
        replace (w - Z.min (1 + zlen str) prec) with (w - 1 - Z.min (zlen str) (prec - 1)) by lia. apply IH.
      * replace (Z.min (1 + zlen str) prec) with 0 by lia. rewrite Z.sub_0_r. apply emits_ret.
Qed.

Lemma conv_s_emits f a str rest : Forall nonzero str -> zlen str < 2 ^ 31 -> - 2 ^ 31 <= precision f < 2 ^ 31 ->
  (if word a =? 0 then null_string else target a) = str ++ 0 :: rest ->
  emits putch (conv_s putch f a) (str_text f str) tt.
Proof.
  intros Hs Hl Hp E. unfold conv_s. rewrite E. unfold str_text, shown.
  pose proof (put_string_emits str rest (precision f) (altflag f)) as Hput. cbv zeta in Hput.
  fold (shown_len f str) in Hput. assert (Hn : 0 <= zlen str) by (unfold zlen; lia).
  destruct ((0 <? width f) && negb (padc f =? 45)).
  - assert (Es : strnlen (u32 (precision f)) (str ++ 0 :: rest) = Some (shown_len f str)).
    { rewrite strnlen_spec by (done || apply u32_range). f_equal. unfold shown_len, u32.
      case_bool.
      - rewrite <- (Z.mod_unique (precision f) (2 ^ 32) (-1) (precision f + 2 ^ 32)) by lia. lia.
      - by rewrite Z.mod_small by lia. }
    rewrite Es. eapply (emits_bind _ _ _ _ _ (Z.min (width f - shown_len f str) 0)).
    + eapply emits_ret_bind; [apply emits_ret|]. apply emits_bind_ret, emits_pad.
    + rewrite <- (app_nil_r (_ <$> _)). eapply emits_bind; [by apply Hput|].
      assert (0 <= shown_len f str \/ shown_len f str < 0) as [Hsh|Hsh] by lia.
      * replace (Z.to_nat _) with 0%nat by lia. apply emits_pad.
      * unfold shown_len in Hsh. destruct (Z.ltb_spec (precision f) 0); lia.
  - eapply emits_ret_bind; [apply emits_ret|]. eapply emits_bind; [by apply Hput | apply emits_pad].
Qed.
End conv_s.

(** ** Formats as lists of directives

    The meaning of a format that the comments of the source describe: literal
    characters, and directives with flags, a width, a precision and a
    conversion. *)

Inductive pfx : Type := PMinus | PZero | PAlt | PDot | PLong | PStar | PWidth (n : Z).
Inductive conv : Type := Cc | Cs | Cd | Cu | Co | Cp | Cx | Cpct.
Inductive item : Type := Lit (c : Z) | Dir (l : list pfx) (cv : conv).

Definition pfx_bytes (x : pfx) : list Z :=
  match x with
  | PMinus => [45] | PZero => [48] | PAlt => [35] | PDot => [46] | PLong => [108] | PStar => [42]
  | PWidth n => digit_char <$> digits 10 n
  end.
Definition conv_char (cv : conv) : Z :=
  match cv with Cc => 99 | Cs => 115 | Cd => 100 | Cu => 117 | Co => 111 | Cp => 112 | Cx => 120 | Cpct => 37 end.
Definition item_bytes (i : item) : list Z :=
  match i with Lit c => [c] | Dir l cv => 37 :: (l ≫= pfx_bytes) ++ [conv_char cv] end.

Definition pfx_step (x : pfx) (f : flags) (ap : list arg) : option (flags * list arg) :=
  match x with
  | PMinus => Some (f_padc 45 f, ap)
  | PZero => Some (f_padc 48 f, ap)
  | PAlt => Some (f_alt true f, ap)
  | PDot => Some (if width f <? 0 then f_width 0 f else f, ap)
  | PLong => Some (f_lflag (lflag f + 1) f, ap)
  | PStar => match ap with a :: ap => Some (process_precision (i32 (word a)) f, ap) | [] => None end
  | PWidth n => Some (process_precision n f, ap)
  end.

(** The arguments a conversion takes, and the number they are. *)
Definition arg_word (ap : list arg) : option (Z * list arg) :=
  match ap with a :: ap => Some (u32 (word a), ap) | [] => None end.
Definition arg_uint (l : Z) (ap : list arg) : option (Z * list arg) :=
  '(lo, ap) ← arg_word ap;
  if 2 <=? l then '(hi, ap) ← arg_word ap; Some (lo + 2 ^ 32 * hi, ap) else Some (lo, ap).
Definition arg_int (l : Z) (ap : list arg) : option (Z * list arg) :=
  '(n, ap) ← arg_uint l ap; Some (if 2 <=? l then i64 n else i32 n, ap).
(** The bytes before the null byte. *)
Fixpoint cstring (l : list Z) : option (list Z) :=
  match l with [] => None | c :: l => if c =? 0 then Some [] else cons c <$> cstring l end.
Definition arg_string (a : arg) : option (list Z) :=
  if word a =? 0 then cstring null_string else cstring (target a).

Definition signed_text (f : flags) (n : Z) : list Z :=
  (if n <? 0 then [45] else []) ++ num_text (padc f) (width f) 10 (Z.abs n).

Definition conv_text (octal : bool) (cv : conv) (f : flags) (ap : list arg) : option (list Z * list arg) :=
  match cv with
  | Cc => match ap with a :: ap => Some ([i32 (word a)], ap) | [] => None end
  | Cs => match ap with a :: ap => str ← arg_string a; Some (str_text f str, ap) | [] => None end
  | Cd => '(n, ap) ← arg_int (lflag f) ap; Some (signed_text f n, ap)
  | Cu => '(n, ap) ← arg_uint (lflag f) ap; Some (num_text (padc f) (width f) 10 n, ap)
  | Co => if octal then '(n, ap) ← arg_uint (lflag f) ap; Some (num_text (padc f) (width f) 8 n, ap)
          else Some ([88; 88; 88], ap)
  | Cp => '(n, ap) ← arg_word ap; Some ([48; 120] ++ num_text (padc f) (width f) 16 n, ap)
  | Cx => '(n, ap) ← arg_uint (lflag f) ap; Some (num_text (padc f) (width f) 16 n, ap)
  | Cpct => Some ([37], ap)
  end.

Fixpoint dir_text (octal : bool) (l : list pfx) (cv : conv) (f : flags) (ap : list arg) : option (list Z * list arg) :=
  match l with
  | [] => conv_text octal cv f ap
  | x :: l => '(f, ap) ← pfx_step x f ap; dir_text octal l cv f ap
  end.

Fixpoint render (octal : bool) (items : list item) (ap : list arg) : option (list Z) :=
  match items with
  | [] => Some []
  | Lit c :: items => out ← render octal items ap; Some (c :: out)
  | Dir l cv :: items =>
      '(t, ap) ← dir_text octal l cv start_flags ap;
      out ← render octal items ap;
      Some (t ++ out)
  end.

Definition starts_digit (l : list pfx) : Prop := match l with (PZero | PWidth _) :: _ => True | _ => False end.
Fixpoint wf_pfxs (l : list pfx) : Prop :=
  match l with
  | [] => True
  | PWidth n :: l => 1 <= n < 2 ^ 31 /\ ~ starts_digit l /\ wf_pfxs l
  | _ :: l => wf_pfxs l
  end.
Definition wf_item (i : item) : Prop :=
  match i with Lit c => 0 < c < 2 ^ 8 /\ c <> 37 | Dir l cv => wf_pfxs l end.
(** Strings are shorter than memory. *)
Definition wf_arg (a : arg) : Prop :=
  Forall is_byte (target a) /\ zlen (target a) < 2 ^ 31.

Section format.
Context {S : Type} (putch : Z -> K S unit) (octal : bool) (fmt : list Z).
Abbreviation fetch := (fetch fmt).
Abbreviation reswitch := (reswitch putch octal fmt).

Definition at_ (p : Z) (suf : list Z) : Prop := 0 <= p /\ drop (Z.to_nat p) fmt = suf.

Lemma at_next p c suf : at_ p (c :: suf) -> at_ (p + 1) suf.
Proof.
  intros [Hp E]. split; [lia|]. replace (Z.to_nat (p + 1)) with (Z.to_nat p + 1)%nat by lia.
  rewrite <- drop_drop, E. done.
Qed.

Lemma at_app p l suf : at_ p (l ++ suf) -> at_ (p + zlen l) suf.
Proof.
  revert p. induction l as [|c l IH]; intros p H; [by rewrite Z.add_0_r|].
  replace (p + zlen (c :: l)) with (p + 1 + zlen l) by (unfold zlen; cbn [length]; lia). by eapply IH, at_next.
Qed.

Lemma fetch_emits p c suf : at_ p (c :: suf) -> emits putch (fetch p) [] c.
Proof.
  intros [Hp E]. unfold Printfmt.fetch. bool_false.
  assert (fmt !! Z.to_nat p = Some c) as ->; [|apply emits_ret].
  rewrite <- (Nat.add_0_r (Z.to_nat p)), <- lookup_drop, E. done.
Qed.

Lemma digit_char_dec d : 0 <= d < 10 -> digit_char d = 48 + d.
Proof.
  intros H. assert (F : Forall (fun d => digit_char d = 48 + d) (seqZ 0 10)) by (vm_compute; repeat constructor).
  rewrite Forall_forall in F. apply F, elem_of_seqZ. lia.
Qed.

Lemma isdigit_dec d : 0 <= d < 10 -> isdigit (i8 (48 + d)) = true /\ i8 (48 + d) = 48 + d.
Proof.
  intros H. assert (E : i8 (48 + d) = 48 + d) by (unfold i8, u8; rewrite Z.mod_small by lia; bool_true; done).
  rewrite E. split; [|done]. unfold isdigit. bool_simp. done.
Qed.

Lemma foldl_ge l : forall acc, 0 <= acc -> Forall (fun d => 0 <= d < 10) l ->
  acc <= foldl (fun a d => a * 10 + d) acc l.
Proof.
  induction l as [|d l IH]; intros acc Ha Hl; [done|]. apply Forall_cons in Hl as [Hd Hl]. cbn [foldl].
  specialize (IH (acc * 10 + d) ltac:(lia) Hl). lia.
Qed.

(** The digits of a width are read back. *)
Lemma get_digits_emits l : forall acc d p c suf f,
  Forall (fun d => 0 <= d < 10) (d :: l) -> 0 <= acc -> foldl (fun a d => a * 10 + d) acc (d :: l) < 2 ^ 31 ->
  at_ p ((digit_char <$> l) ++ c :: suf) -> isdigit (i8 c) = false -> (length l < f)%nat ->
  emits putch (loop f (get_digits fmt) (acc, 48 + d, p)) [] (foldl (fun a d => a * 10 + d) acc (d :: l), p + zlen l).
Proof.
  induction l as [|d' l IH]; intros acc d p c suf f Hl Ha Hv Hat Hc Hf; (destruct f as [|f]; [cbn in Hf; lia|]);
    apply Forall_cons in Hl as [Hd Hl]; cbn [foldl] in Hv |- *;
    assert (Ei : i32 (acc * 10 + (48 + d) - 48) = acc * 10 + d)
      by (pose proof (foldl_ge _ (acc * 10 + d) ltac:(lia) Hl); cbn [foldl] in *; rewrite i32_small; lia).
  - cbn [fmap list_fmap app] in Hat. apply emits_loop_end. unfold get_digits. eapply emits_ret_bind; [by eapply fetch_emits|].
    rewrite Hc, Ei, Z.add_0_r. apply emits_ret.
  - pose proof Hl as [Hd' _]%Forall_cons. cbn [fmap list_fmap app] in Hat. rewrite digit_char_dec in Hat by done.
    apply (emits_loop_step putch _ _ _ (acc * 10 + d, 48 + d', p + 1) [] []).
    + unfold get_digits. eapply emits_ret_bind; [by eapply fetch_emits|].
      destruct (isdigit_dec d' Hd') as [-> ->]. rewrite Ei. apply emits_ret.
    + replace (p + zlen (d' :: l)) with (p + 1 + zlen l) by (unfold zlen; cbn [length]; lia).
      apply (IH (acc * 10 + d) d' (p + 1) c suf); try done; [lia | by eapply at_next | cbn in Hf; lia].
Qed.

Definition flags_ok (f : flags) : Prop := - 2 ^ 31 <= precision f < 2 ^ 31.

Ltac eval_tests := cbn [Z.eqb Z.leb Z.compare Pos.compare Pos.compare_cont Pos.eqb andb negb].

(** The first byte of what follows a width is no digit. *)
Lemma next_byte l cv suf : ~ starts_digit l -> wf_pfxs l ->
  exists c suf', (l ≫= pfx_bytes) ++ conv_char cv :: suf = c :: suf' /\ isdigit (i8 c) = false.
Proof.
  intros Hs Hw. destruct l as [|x l]; [exists (conv_char cv), suf; by destruct cv|].
  rewrite bind_cons. destruct x; cbn in Hs; try done; cbn [pfx_bytes app]; do 2 eexists; by split.
Qed.

Lemma pfx_emits x l cv suf p f ap f' ap' :
  wf_pfxs (x :: l) -> at_ p (((x :: l) ≫= pfx_bytes) ++ conv_char cv :: suf) -> pfx_step x f ap = Some (f', ap') ->
  flags_ok f -> Forall wf_arg ap ->
  exists p', emits putch (reswitch (p, ap, f)) [] (inl (p', ap', f')) /\
    at_ p' ((l ≫= pfx_bytes) ++ conv_char cv :: suf) /\ flags_ok f' /\ Forall wf_arg ap' /\ wf_pfxs l.
Proof.
  intros Hw Hat Hs Hf Hap. rewrite bind_cons, <- app_assoc in Hat.
  assert (Hpp : forall n, - 2 ^ 31 <= n < 2 ^ 31 -> flags_ok (process_precision n f))
    by (intros n Hn; unfold flags_ok, process_precision; case_bool; cbn; lia).
  destruct x; cbn [pfx_bytes app pfx_step] in *;
    try (injection Hs as <- <-; exists (p + 1); split; [|split; [by eapply at_next | by case_bool || done]];
         unfold Printfmt.reswitch; eapply emits_ret_bind; [by eapply fetch_emits|]; apply emits_ret).
  - destruct ap as [|a ap]; [done|]. injection Hs as <- <-. apply Forall_cons in Hap as [_ Hap].
    exists (p + 1). split; [|split; [by eapply at_next | split; [apply Hpp, i32_range | done]]].
    unfold Printfmt.reswitch. eapply emits_ret_bind; [by eapply fetch_emits|]. eval_tests.
    eapply emits_ret_bind; apply emits_ret.
  - destruct Hw as (Hn & Hsd & Hw). injection Hs as <- <-. destruct (next_byte l cv suf Hsd Hw) as (c & suf' & E & Hc).
    destruct (digits_spec 10 n ltac:(lia) ltac:(lia)) as (V & F & (d & ds & Ed & Hd0) & _).
    rewrite E in *. rewrite Ed in *. pose proof F as [Hd _]%Forall_cons.
    exists (p + 1 + zlen ds). cbn [fmap list_fmap app] in Hat. pose proof (at_next _ _ _ Hat) as Hat'.
    split; [|split; [|split; [apply Hpp; lia | done]]].
    + unfold Printfmt.reswitch. eapply emits_ret_bind; [by eapply fetch_emits|]. rewrite digit_char_dec by done.
      assert (d <> 0) by (intros ->; specialize (Hd0 eq_refl); lia).
      rewrite !(proj2 (Z.eqb_neq _ _)) by lia.
      rewrite (proj2 (Z.leb_le 49 (48 + d))), (proj2 (Z.leb_le (48 + d) 57)) by lia. cbn [andb].
      eapply emits_ret_bind.
      * apply (get_digits_emits ds 0 d (p + 1) c suf'); try done; [unfold value in V; lia|].
        destruct Hat' as [_ Hat']. apply (f_equal length) in Hat'. rewrite length_drop, length_app, length_fmap in Hat'. lia.
      * change (foldl _ 0 (d :: ds)) with (value 10 (d :: ds)). rewrite V. apply emits_ret.
    + replace (p + 1 + zlen ds) with (p + 1 + zlen (digit_char <$> ds)) by (unfold zlen; by rewrite length_fmap).
      by apply at_app.
Qed.

(** The arguments. *)
Lemma getuint_emits l ap n ap' : arg_uint l ap = Some (n, ap') -> Forall wf_arg ap ->
  emits putch (getuint ap l) [] (n, ap') /\ 0 <= n < 2 ^ 64 /\ Forall wf_arg ap' /\ (l < 2 -> is_u32 n).
Proof.
  unfold arg_uint, getuint. intros H Ha. destruct ap as [|a ap]; [done|]. apply Forall_cons in Ha as [_ Ha].
  cbn [arg_word mbind option_bind] in H. pose proof (u32_range (word a)) as H1. unfold is_u32 in *.
  destruct (Z.leb_spec 2 l).
  - destruct ap as [|b ap]; [done|]. apply Forall_cons in Ha as [_ Ha]. cbn [arg_word mbind option_bind] in H.
    injection H as <- <-. pose proof (u32_range (word b)). unfold is_u32 in *. split_and!; try lia; try done.
  - injection H as <- <-. split_and!; try lia; try done.
Qed.

Lemma getint_emits l ap n ap' : arg_int l ap = Some (n, ap') -> Forall wf_arg ap ->
  emits putch (getint ap l) [] (n, ap') /\ - 2 ^ 63 <= n < 2 ^ 63 /\ Forall wf_arg ap'.
Proof.
  unfold arg_int, arg_uint, getint. intros H Ha. destruct ap as [|a ap]; [done|]. apply Forall_cons in Ha as [_ Ha].
  cbn [arg_word mbind option_bind] in H. destruct (Z.leb_spec 2 l).
  - destruct ap as [|b ap]; [done|]. apply Forall_cons in Ha as [_ Ha]. cbn [arg_word mbind option_bind] in H.
    injection H as <- <-. split; [done|]. split; [|done]. unfold i64, u64.
    pose proof (Z.mod_pos_bound (u32 (word a) + 2 ^ 32 * u32 (word b)) (2 ^ 64)). case_bool; lia.
  - injection H as <- <-. pose proof (i32_range (u32 (word a))). split; [|split; [lia | done]].
    assert (i32 (u32 (word a)) = i32 (word a)) as -> by (unfold i32; by rewrite u32_idemp). done.
Qed.

Lemma number_emits f n base : 2 <= base -> 0 <= n < 2 ^ 64 ->
  emits putch (number putch f n base) (num_text (padc f) (width f) base n) tt.
Proof. apply printnum_emits. Qed.

Lemma cstring_nul w tl : Forall (fun c => c <> 0) w -> cstring (w ++ 0 :: tl) = Some w.
Proof. induction 1 as [|c w Hc _ IH]; [done|]. cbn [app cstring]. rewrite (proj2 (Z.eqb_neq c 0)) by done. by rewrite IH. Qed.

Lemma cstring_spec l str : cstring l = Some str -> Forall is_byte l ->
  exists rest, l = str ++ 0 :: rest /\ Forall nonzero str.
Proof.
  revert str. induction l as [|c l IH]; intros str H Hl; [done|]. apply Forall_cons in Hl as [Hc Hl]. cbn in H.
  destruct (Z.eqb_spec c 0) as [->|]; [injection H as <-; by exists l|].
  destruct (cstring l) as [str'|]; [|done]. injection H as <-. destruct (IH str' eq_refl Hl) as (rest & -> & Hs).
  exists rest. split; [done|]. constructor; [unfold nonzero; unfold is_byte in Hc; lia | done].
Qed.

Lemma conv_emits cv suf p f ap t ap' :
  at_ p (conv_char cv :: suf) -> conv_text octal cv f ap = Some (t, ap') -> flags_ok f -> Forall wf_arg ap ->
  emits putch (reswitch (p, ap, f)) t (inr (p + 1, ap')) /\ Forall wf_arg ap'.
Proof.
  intros Hat H Hf Ha. pose proof (fetch_emits _ _ _ Hat) as Hfe.
  assert (Hu : forall n ap' base, arg_uint (lflag f) ap = Some (n, ap') -> 2 <= base ->
    emits putch ('(num, ap) ← getuint ap (lflag f); number putch f num base ;; mret (inr (p + 1, ap)))
      (num_text (padc f) (width f) base n) (inr (A := Z * list arg * flags) (p + 1, ap')) /\ Forall wf_arg ap').
  { intros n ap1 base E Hb. destruct (getuint_emits _ _ _ _ E Ha) as (H1 & H2 & H3 & _). split; [|done].
    eapply emits_ret_bind; [exact H1|]. by apply emits_bind_ret, number_emits. }
  destruct cv; cbn [conv_text conv_char] in *; unfold Printfmt.reswitch.
  - destruct ap as [|a ap]; [done|]. apply Forall_cons in Ha as [_ Ha]. injection H as <- <-. split; [|done].
    eapply emits_ret_bind; [exact Hfe|]. eval_tests. eapply emits_ret_bind; [apply emits_ret|].
    apply emits_bind_ret, emits_putch.
  - destruct ap as [|a ap]; [done|]. apply Forall_cons in Ha as [[Hb Hl] Ha].
    destruct (arg_string a) as [str|] eqn:E; [|done]. injection H as <- <-. split; [|done].
    eapply emits_ret_bind; [exact Hfe|]. eval_tests. eapply emits_ret_bind; [apply emits_ret|]. apply emits_bind_ret.
    unfold arg_string in E.
    assert (Es : exists rest, (if word a =? 0 then null_string else target a) = str ++ 0 :: rest /\ Forall nonzero str).
    { destruct (word a =? 0); apply cstring_spec; try done. repeat constructor; klia. }
    destruct Es as (rest & Er & Hnz). apply (conv_s_emits putch f a str rest); try done.
    assert (zlen str <= zlen (if word a =? 0 then null_string else target a))
      by (rewrite Er; unfold zlen; rewrite length_app; lia).
    destruct (word a =? 0); [change (zlen null_string) with 7 in *|]; lia.
  - destruct (arg_int (lflag f) ap) as [[n ap1]|] eqn:E; [|done]. injection H as <- <-.
    destruct (getint_emits _ _ _ _ E Ha) as (H1 & H2 & H3). split; [|done].
    eapply emits_ret_bind; [exact Hfe|]. eval_tests. eapply emits_ret_bind; [exact H1|].
    unfold signed_text. apply (emits_bind putch _ _ _ _ tt).
    + unfold when. destruct (n <? 0); [apply emits_putch | apply emits_ret].
    + apply emits_bind_ret. assert (En : u64 (if n <? 0 then - n else n) = Z.abs n)
        by (unfold u64; case_bool; rewrite Z.mod_small; lia). rewrite En. apply number_emits; lia.
  - destruct (arg_uint (lflag f) ap) as [[n ap1]|] eqn:E; [|done]. injection H as <- <-.
    destruct (Hu n ap1 10 eq_refl ltac:(lia)) as [H1 H2]. split; [|done]. by eapply emits_ret_bind; [exact Hfe|].
  - destruct octal.
    + destruct (arg_uint (lflag f) ap) as [[n ap1]|] eqn:E; [|done]. injection H as <- <-.
      destruct (Hu n ap1 8 eq_refl ltac:(lia)) as [H1 H2]. split; [|done]. by eapply emits_ret_bind; [exact Hfe|].
    + injection H as <- <-. split; [|done]. eapply emits_ret_bind; [exact Hfe|]. eval_tests.
      do 2 (apply (emits_bind putch _ _ [88] _ tt); [apply emits_putch|]). apply emits_bind_ret, emits_putch.
  - destruct ap as [|a ap]; [done|]. apply Forall_cons in Ha as [_ Ha]. injection H as <- <-. split; [|done].
    eapply emits_ret_bind; [exact Hfe|]. eval_tests.
    apply (emits_bind putch _ _ [48] _ tt); [apply emits_putch|].
    apply (emits_bind putch _ _ [120] _ tt); [apply emits_putch|].
    eapply emits_ret_bind; [apply emits_ret|]. apply emits_bind_ret, number_emits; [lia|].
    pose proof (u32_range (word a)). klia.
  - destruct (arg_uint (lflag f) ap) as [[n ap1]|] eqn:E; [|done]. injection H as <- <-.
    destruct (Hu n ap1 16 eq_refl ltac:(lia)) as [H1 H2]. split; [|done]. by eapply emits_ret_bind; [exact Hfe|].
  - injection H as <- <-. split; [|done]. eapply emits_ret_bind; [exact Hfe|]. eval_tests.
    apply emits_bind_ret, emits_putch.
Qed.

Lemma dir_emits l : forall cv suf p f ap t ap' fuel,
  wf_pfxs l -> at_ p ((l ≫= pfx_bytes) ++ conv_char cv :: suf) -> dir_text octal l cv f ap = Some (t, ap') ->
  flags_ok f -> Forall wf_arg ap -> (length l < fuel)%nat ->
  exists p', emits putch (loop fuel reswitch (p, ap, f)) t (p', ap') /\ at_ p' suf /\ Forall wf_arg ap'.
Proof.
  induction l as [|x l IH]; intros cv suf p f ap t ap' fuel Hw Hat Ht Hf Ha Hfu; (destruct fuel as [|fuel]; [lia|]).
  - cbn in Hat, Ht. destruct (conv_emits _ _ _ _ _ _ _ Hat Ht Hf Ha) as [H1 H2]. exists (p + 1).
    split; [by apply emits_loop_end | split; [by eapply at_next | done]].
  - cbn [dir_text] in Ht. destruct (pfx_step x f ap) as [[f1 ap1]|] eqn:E; [|done]. cbn [mbind option_bind] in Ht.
    destruct (pfx_emits x l cv suf p f ap f1 ap1 Hw Hat E Hf Ha) as (p1 & H1 & H2 & H3 & H4 & H5).
    destruct (IH cv suf p1 f1 ap1 t ap' fuel H5 H2 Ht H3 H4 ltac:(cbn in Hfu; lia)) as (p' & K1 & K2 & K3).
    exists p'. split; [|done]. by apply (emits_loop_step putch _ _ _ (p1, ap1, f1) [] t).
Qed.

Lemma pfx_bytes_length l : wf_pfxs l -> (length l <= length (l ≫= pfx_bytes))%nat.
Proof.
  induction l as [|x l IH]; intros Hw; [done|]. rewrite bind_cons, length_app. cbn [length].
  assert (wf_pfxs l /\ (1 <= length (pfx_bytes x))%nat) as [Hl Hx]; [|specialize (IH Hl); lia].
  destruct x; cbn [wf_pfxs pfx_bytes length] in *; try (split; [done | lia]).
  destruct Hw as (Hn & _ & Hw). split; [done|]. rewrite length_fmap.
  destruct (digits_spec 10 n ltac:(lia) ltac:(lia)) as (_ & _ & (d & ds & -> & _) & _). cbn. lia.
Qed.

Lemma items_emits items : forall p ap out fuel,
  Forall wf_item items -> Forall wf_arg ap -> at_ p ((items ≫= item_bytes) ++ [0]) -> render octal items ap = Some out ->
  (length items < fuel)%nat -> emits putch (loop fuel (fmt_body putch octal fmt) (p, ap)) out tt.
Proof.
  induction items as [|i items IH]; intros p ap out fuel Hw Ha Hat Hr Hfu; (destruct fuel as [|fuel]; [lia|]).
  - injection Hr as <-. change (at_ p [0]) in Hat. apply emits_loop_end. unfold fmt_body. eapply emits_ret_bind; [by eapply fetch_emits|]. done.
  - apply Forall_cons in Hw as [Hi Hw]. rewrite bind_cons, <- app_assoc in Hat. cbn [length] in Hfu.
    destruct i as [c | l cv]; cbn [item_bytes app render] in *.
    + destruct (render octal items ap) as [out'|] eqn:E; [|done]. injection Hr as <-. destruct Hi as [Hc Hc'].
      apply (emits_loop_step putch _ _ _ (p + 1, ap) [c] out').
      * unfold fmt_body. eapply emits_ret_bind; [by eapply fetch_emits|].
        rewrite !(proj2 (Z.eqb_neq c _)) by lia. apply emits_bind_ret, emits_putch.
      * apply IH; try done; [by eapply at_next | lia].
    + destruct (dir_text octal l cv start_flags ap) as [[t ap1]|] eqn:E; [|done]. cbn [mbind option_bind] in Hr.
      destruct (render octal items ap1) as [out'|] eqn:E'; [|done]. injection Hr as <-. cbn in Hi.
      pose proof (at_next _ _ _ Hat) as Hat1. rewrite <- app_assoc in Hat1. cbn [app] in Hat1.
      destruct (dir_emits l cv _ (p + 1) start_flags ap t ap1 (Datatypes.S (length fmt)) Hi Hat1 E) as (p' & H1 & H2 & H3);
        [unfold flags_ok, start_flags; cbn; lia | done | |].
      { pose proof (pfx_bytes_length l Hi). destruct Hat1 as [_ Hd]. apply (f_equal length) in Hd.
        rewrite length_drop, length_app in Hd. lia. }
      apply (emits_loop_step putch _ _ _ (p', ap1) t out').
      * unfold fmt_body. eapply emits_ret_bind; [by eapply fetch_emits|]. eval_tests.
        rewrite <- (app_nil_r t). by eapply emits_bind.
      * apply IH; try done; lia.
Qed.

Lemma item_bytes_length items : (length items <= length (items ≫= item_bytes))%nat.
Proof.
  induction items as [|i items IH]; [done|]. rewrite bind_cons, length_app. cbn [length].
  destruct i; cbn [item_bytes length]; lia.
Qed.
End format.

(** vprintfmt terminates on every format and gives exactly the characters
    that the directives and the arguments denote to [putch]. *)
Lemma vprintfmt_emits {S} (putch : Z -> K S unit) octal items ap out :
  Forall wf_item items -> Forall wf_arg ap -> render octal items ap = Some out ->
  emits putch (vprintfmt putch octal ((items ≫= item_bytes) ++ [0]) ap) out tt.
Proof.
  intros Hw Ha Hr. unfold vprintfmt. apply (items_emits putch octal _ items); try done.
  pose proof (item_bytes_length items). rewrite length_app. lia.
Qed.

End Printfmt.
