(* ===== verification/Printf.v ===== *)
(** * The printf family (kern/lib/dprintf.c, user/lib/printfmt.c, printf.c, atoi.c)

    The functions that pass a [putch] of their own to vprintfmt: into memory,
    to the console, and through the system call puts.  The kernel's cons_putc
    and serial lock and the user's puts are parameters over the state of the
    device. *)

From S2P Require Import Prelude Bytes Printfmt.

Module Printf.
Import Printfmt.

(** vprintfmt of user/lib/printfmt.c: the kernel's code without the octal
    conversion. *)
Definition user_vprintfmt {S} (putch : Z -> K S unit) (fmt : list Z) (ap : list arg) : K S unit :=
  vprintfmt putch false fmt ap.

(** ** sprintf and snprintf *)

Abbreviation mem := (gmap Z Z).
Record sprintbuf : Type := SB { smem : mem; buf : Z; ebuf : Z; cnt : Z }.

Definition sprintputch (ch : Z) : K sprintbuf unit := modify (fun b =>
  let c := i32 (cnt b + 1) in
  if buf b <? ebuf b then SB (<[buf b := u8 ch]> (smem b)) (u32 (buf b + 1)) (ebuf b) c
  else SB (smem b) (buf b) (ebuf b) c).

(** The body of vsprintf and vsnprintf, with the end of the buffer. *)
Definition sprint_to (buffer e : Z) (fmt : list Z) (ap : list arg) : K mem Z := fun m =>
  match user_vprintfmt sprintputch fmt ap (SB m buffer e 0) with
  | Ok _ b => Ok (cnt b) (<[buf b := 0]> (smem b))
  | Err e => Err e
  end.
Definition vsprintf (buffer : Z) (fmt : list Z) (ap : list arg) : K mem Z :=
  sprint_to buffer (2 ^ 32 - 1) fmt ap.
Definition vsnprintf (buffer n : Z) (fmt : list Z) (ap : list arg) : K mem Z :=
  sprint_to buffer (u32 (buffer + n - 1)) fmt ap.

(** ** atoi *)

Fixpoint atoi_digits (s : list Z) (loc acc : Z) : option (Z * Z) :=
  match s with
  | [] => None
  | c :: s => if isdigit (i8 c) then atoi_digits s (loc + 1) (i32 (acc * 10 + (i8 c - 48))) else Some (loc, acc)
  end.

(** The result and what is stored through [i], [None] for nothing; [None] for
    a read past the bytes of [buf]. *)
Definition atoi (buf : list Z) : option (Z * option Z) :=
  c ← head buf;
  let '(negative, loc) := if c =? 43 then (false, 1) else if c =? 45 then (true, 1) else (false, 0) in
  '(loc', acc) ← atoi_digits (drop (Z.to_nat loc) buf) loc 0;
  if loc =? loc' then Some (0, None)
  else Some (loc', Some (if negative : bool then i32 (- acc) else acc)).

(** ** Line buffers

    struct dprintbuf of the kernel and struct printbuf of the user library,
    with the device behind them; [flush str i] prints the [i] characters at the
    start of [str], behind which there is a null byte. *)
Section buffered.
Context {S : Type} (SIZE : Z) (flush : list Z -> Z -> K S unit).

Record printbuf : Type := PB { pidx : Z; pcnt : Z; pbuf : list Z; pdev : S }.

Definition on_dev (m : K S unit) : K printbuf unit := fun b =>
  match m (pdev b) with Ok _ s => Ok tt (PB (pidx b) (pcnt b) (pbuf b) s) | Err e => Err e end.
(** [b->buf[i] = c] *)
Definition set_buf (i c : Z) : K printbuf unit := fun b =>
  if (0 <=? i) && (i <? zlen (pbuf b)) then Ok tt (PB (pidx b) (pcnt b) (<[Z.to_nat i := u8 c]> (pbuf b)) (pdev b))
  else Err Undef.

Definition buf_putch (ch : Z) : K printbuf unit :=
  i ← gets pidx;
  set_buf i ch ;;
  modify (fun b => PB (i + 1) (pcnt b) (pbuf b) (pdev b)) ;;
  when (i + 1 =? SIZE - 1)
    (set_buf (i + 1) 0 ;;
     str ← gets pbuf;
     on_dev (flush str (i + 1)) ;;
     modify (fun b => PB 0 (pcnt b) (pbuf b) (pdev b))) ;;
  modify (fun b => PB (pidx b) (i32 (pcnt b + 1)) (pbuf b) (pdev b)).

(** The output of [m] through a buffer that starts empty; [junk] is what the
    stack holds where it lies. *)
Definition buffered (junk : list Z) (m : K printbuf unit) : K S Z := fun s =>
  match (m ;; i ← gets pidx; set_buf i 0 ;; str ← gets pbuf; on_dev (flush str i)) (PB 0 0 junk s) with
  | Ok _ b => Ok (pcnt b) (pdev b)
  | Err e => Err e
  end.
End buffered.

(** ** dprintf *)

Definition CONSOLE_BUFFER_SIZE : Z := 512.

Section dprintf.
Context {S : Type} (cons_putc : Z -> K S unit) (serial_lock serial_unlock : K S unit).

Fixpoint cputs (str : list Z) : K S unit :=
  match str with
  | [] => fail Undef
  | c :: str => if c =? 0 then mret tt else cons_putc (i8 c) ;; cputs str
  end.

Definition putch : Z -> K printbuf unit := buf_putch CONSOLE_BUFFER_SIZE (fun str _ => cputs str).

Definition vdprintf (junk fmt : list Z) (ap : list arg) : K S Z :=
  serial_lock ;;
  n ← buffered (fun str _ => cputs str) junk (vprintfmt putch true fmt ap);
  serial_unlock ;;
  mret n.
End dprintf.

(** ** printf of the user library *)

Definition MAX_BUF : Z := 4096.

Section printf.
Context {S : Type} (puts : list Z -> K S unit).

Definition uputch : Z -> K printbuf unit := buf_putch MAX_BUF (fun str i => puts (take (Z.to_nat i) str)).

Definition vcprintf (junk fmt : list Z) (ap : list arg) : K S Z :=
  buffered (fun str i => puts (take (Z.to_nat i) str)) junk (user_vprintfmt uputch fmt ap).
End printf.

(** ** Output in memory *)

Fixpoint put_bytes (a : Z) (l : list Z) (m : mem) : mem :=
  match l with [] => m | c :: l => put_bytes (a + 1) l (<[a := c]> m) end.

Lemma put_bytes_snoc l c : forall a m, put_bytes a (l ++ [c]) m = <[a + zlen l := c]> (put_bytes a l m).
Proof.
  induction l as [|x l IH]; intros a m; [by cbn; rewrite Z.add_0_r|]. cbn [put_bytes app]. rewrite IH.
  f_equal. unfold zlen. cbn [length]. lia.
Qed.

Lemma sprint_emit out : forall m a e c, 0 <= a -> e < 2 ^ 32 -> 0 <= c -> c + zlen out < 2 ^ 31 ->
  let k := Z.to_nat (e - a) in
  emit sprintputch out (SB m a e c) =
  Ok tt (SB (put_bytes a (u8 <$> take k out) m) (Z.max a (Z.min e (a + zlen out))) e (c + zlen out)).
Proof.
  induction out as [|ch out IH]; intros m a e c Ha He Hc Hl k.
  - cbn. rewrite take_nil. change (zlen []) with 0. cbn. unfold mret, K_ret. do 2 f_equal; lia.
  - assert (Hz : zlen (ch :: out) = 1 + zlen out) by (unfold zlen; cbn [length]; lia). rewrite Hz in *.
    assert (0 <= zlen out) by (unfold zlen; lia).
    cbn [emit]. erewrite bind_Ok by reflexivity. cbn [buf ebuf smem cnt].
    rewrite i32_small by lia. destruct (Z.ltb_spec a e) as [Hlt|Hge].
    + rewrite u32_small by (unfold is_u32; lia). rewrite IH by lia. unfold k.
      replace (Z.to_nat (e - a)) with (Datatypes.S (Z.to_nat (e - (a + 1)))) by lia. cbn [take fmap list_fmap put_bytes].
      do 2 f_equal; lia.
    + rewrite IH by lia. unfold k. replace (Z.to_nat (e - a)) with 0%nat by lia. cbn [take fmap list_fmap put_bytes].
      do 2 f_equal; lia.
Qed.

(** (C36) snprintf never writes outside its buffer: it stores the first [n - 1]
    characters of the output and a null byte, and returns the length of the
    whole output. *)
Theorem vsnprintf_correct a n items ap out m :
  Forall wf_item items -> Forall wf_arg ap -> render false items ap = Some out ->
  0 <= a -> 1 <= n -> a + n <= 2 ^ 32 -> zlen out < 2 ^ 31 ->
  vsnprintf a n ((items ≫= item_bytes) ++ [0]) ap m =
  Ok (zlen out) (put_bytes a ((u8 <$> take (Z.to_nat (n - 1)) out) ++ [0]) m).
Proof.
  intros Hw Hap Hr Ha Hn Han Hl. unfold vsnprintf, sprint_to, user_vprintfmt. rewrite u32_small by (unfold is_u32; lia).
  rewrite (vprintfmt_emits sprintputch false items ap out Hw Hap Hr).
  unfold mbind, K_bind. rewrite sprint_emit by lia. unfold mret, K_ret. cbn [cnt buf smem].
  replace (a + n - 1 - a) with (n - 1) by lia. rewrite put_bytes_snoc. f_equal.
  f_equal. unfold zlen. rewrite length_fmap, length_take. lia.
Qed.

Lemma vsprintf_text a items ap out m :
  Forall wf_item items -> Forall wf_arg ap -> render false items ap = Some out ->
  0 <= a -> a + zlen out < 2 ^ 32 -> zlen out < 2 ^ 31 ->
  vsprintf a ((items ≫= item_bytes) ++ [0]) ap m = Ok (zlen out) (put_bytes a ((u8 <$> out) ++ [0]) m).
Proof.
  intros Hw Hap Hr Ha Han Hl. unfold vsprintf, sprint_to, user_vprintfmt.
  rewrite (vprintfmt_emits sprintputch false items ap out Hw Hap Hr).
  unfold mbind, K_bind. rewrite sprint_emit by lia. unfold mret, K_ret. cbn [cnt buf smem].
  rewrite take_ge by (unfold zlen in *; lia). rewrite put_bytes_snoc. f_equal.
  f_equal. unfold zlen in *. rewrite length_fmap. lia.
Qed.

(** ** atoi *)

Lemma put_bytes_ne l : forall a m b, b < a -> put_bytes a l m !!! b = m !!! b.
Proof.
  induction l as [|c l IH]; intros a m b Hb; [done|]. cbn [put_bytes]. rewrite IH by lia.
  apply lookup_total_insert_ne. lia.
Qed.

Lemma put_bytes_read l : forall a m, (fun k => put_bytes a l m !!! k) <$> seqZ a (zlen l) = l.
Proof.
  induction l as [|c l IH]; intros a m; [done|].
  replace (zlen (c :: l)) with (Z.succ (zlen l)) by (unfold zlen; cbn [length]; lia).
  rewrite seqZ_cons by (unfold zlen; lia). cbn [fmap list_fmap put_bytes]. f_equal.
  - rewrite put_bytes_ne by lia. apply lookup_total_insert_eq.
  - rewrite Z.pred_succ. apply IH.
Qed.

Lemma atoi_digits_spec ds : forall loc acc c rest,
  Forall (fun d => 0 <= d < 10) ds -> 0 <= acc -> foldl (fun a d => a * 10 + d) acc ds < 2 ^ 31 ->
  isdigit (i8 c) = false ->
  atoi_digits ((digit_char <$> ds) ++ c :: rest) loc acc = Some (loc + zlen ds, foldl (fun a d => a * 10 + d) acc ds).
Proof.
  induction ds as [|d ds IH]; intros loc acc c rest Hd Ha Hv Hc.
  - cbn. rewrite Hc. by rewrite Z.add_0_r.
  - apply Forall_cons in Hd as [Hd Hds]. cbn [fmap list_fmap app atoi_digits foldl] in *.
    rewrite digit_char_dec by done. destruct (isdigit_dec d Hd) as [-> ->].
    pose proof (foldl_ge ds (acc * 10 + d) ltac:(lia) Hds).
    replace (acc * 10 + (48 + d - 48)) with (acc * 10 + d) by lia. rewrite i32_small by lia.
    rewrite IH by (done || lia). do 2 f_equal. unfold zlen. cbn [length]. lia.
Qed.

Lemma digit_char_byte l : Forall (fun d => 0 <= d < 10) l -> u8 <$> (digit_char <$> l) = digit_char <$> l.
Proof.
  intros H. rewrite <- list_fmap_compose. apply list_fmap_ext. intros i d Hi.
  eapply Forall_lookup_1 in Hi; [|done]. cbn in Hi |- *. rewrite digit_char_dec by done. apply u8_small. klia.
Qed.

(** The decimal text of a number, followed by anything but a digit, is read
    back as the number. *)
Lemma atoi_text v c rest : - 2 ^ 31 < v < 2 ^ 31 -> isdigit (i8 c) = false ->
  atoi ((u8 <$> signed_text start_flags v) ++ c :: rest) = Some (zlen (signed_text start_flags v), Some v).
Proof.
  intros Hv Hc. destruct (digits_spec 10 (Z.abs v) ltac:(lia) ltac:(lia)) as (V & F & (d & ds & E & _) & Hlen).
  unfold signed_text, num_text, start_flags. cbn [padc width]. set (cs := digit_char <$> digits 10 (Z.abs v)).
  replace (Z.to_nat (-1 - zlen cs)) with 0%nat by (unfold zlen; lia). cbn [replicate app].
  rewrite fmap_app. unfold cs. rewrite digit_char_byte by done. fold cs.
  assert (Hcs : exists ch l, cs = ch :: l /\ 48 <= ch).
  { unfold cs. rewrite E. cbn [fmap list_fmap]. rewrite E in F. apply Forall_cons in F as [Hd _].
    rewrite digit_char_dec by done. do 2 eexists. split; [done | lia]. }
  assert (Hz : zlen cs = zlen (digits 10 (Z.abs v))) by (unfold cs, zlen; by rewrite length_fmap).
  assert (Hp : 0 < zlen cs) by (destruct Hcs as (ch & l & -> & _); unfold zlen; cbn [length]; lia).
  assert (Had : forall loc, atoi_digits (cs ++ c :: rest) loc 0 = Some (loc + zlen cs, Z.abs v)).
  { intros loc. unfold cs. rewrite atoi_digits_spec by (done || (change (foldl _ 0 ?l) with (value 10 l); rewrite ?V; lia)).
    change (foldl _ 0 (digits 10 (Z.abs v))) with (value 10 (digits 10 (Z.abs v))). rewrite V, <- Hz. done. }
  unfold atoi. destruct (Z.ltb_spec v 0).
  - cbn [fmap list_fmap app head mbind option_bind]. change (u8 45 =? 43) with false. change (u8 45 =? 45) with true.
    cbn match. change (drop (Z.to_nat 1) (u8 45 :: cs ++ c :: rest)) with (cs ++ c :: rest). rewrite Had.
    cbn [mbind option_bind]. rewrite (proj2 (Z.eqb_neq 1 (1 + zlen cs))) by lia.
    replace (zlen (45 :: cs)) with (1 + zlen cs) by (unfold zlen; cbn [length]; lia).
    rewrite i32_small by lia. do 3 f_equal. lia.
  - cbn [fmap list_fmap app]. destruct Hcs as (ch & l & Ecs & Hch). 
    assert (head (cs ++ c :: rest) = Some ch) as -> by (by rewrite Ecs). cbn [mbind option_bind].
    rewrite !(proj2 (Z.eqb_neq ch _)) by lia. change (drop (Z.to_nat 0) (cs ++ c :: rest)) with (cs ++ c :: rest).
    rewrite Had. cbn [mbind option_bind]. rewrite (proj2 (Z.eqb_neq 0 (0 + zlen cs))) by lia. do 3 f_equal; lia.
Qed.

(** printing an int with %d and reading it with atoi gives the int back. *)
Theorem sprintf_atoi v a m : - 2 ^ 31 < v < 2 ^ 31 -> 0 <= a < 2 ^ 32 - 72 ->
  exists n m', vsprintf a [37; 100; 0] [Arg (u32 v) []] m = Ok n m' /\
    atoi ((fun k => m' !!! k) <$> seqZ a (n + 1)) = Some (n, Some v).
Proof.
  intros Hv Ha. set (out := signed_text start_flags v).
  assert (Hr : render false [Dir [] Cd] [Arg (u32 v) []] = Some out).
  { cbn [render dir_text conv_text arg_int arg_uint arg_word mbind option_bind lflag start_flags word].
    change (2 <=? 0) with false. cbn match. cbn [mbind option_bind]. rewrite app_nil_r. unfold out. do 2 f_equal.
    transitivity (i32 v); [unfold i32; by rewrite !u32_idemp | apply i32_small; lia]. }
  assert (Hl : zlen out <= 66).
  { destruct (digits_spec 10 (Z.abs v) ltac:(lia) ltac:(lia)) as (_ & _ & _ & Hlen).
    unfold out, signed_text, num_text. cbn [padc width start_flags]. unfold zlen in *.
    rewrite !length_app, length_replicate, length_fmap. case_bool; cbn [length]; lia. }
  assert (Hw : Forall wf_arg [Arg (u32 v) []]) by (repeat constructor; cbn; lia).
  exists (zlen out), (put_bytes a ((u8 <$> out) ++ [0]) m). split.
  - apply (vsprintf_text a [Dir [] Cd] _ out); try done; [by repeat constructor | lia | lia | lia].
  - replace (zlen out + 1) with (zlen ((u8 <$> out) ++ [0])) by (unfold zlen; rewrite length_app, length_fmap; cbn; lia).
    rewrite put_bytes_read. by apply atoi_text.
Qed.

(** ** Buffered output is the output *)

Section through.
Context {S : Type} (SIZE : Z) (flush : list Z -> Z -> K S unit) (dev_putc : Z -> K S unit) (P : Z -> Prop) (g : Z -> Z).
Hypothesis Hsize : 2 <= SIZE.
Hypothesis Hflush : forall l rest s, Forall P l -> flush (l ++ 0 :: rest) (zlen l) s = emit dev_putc (g <$> l) s.

Lemma bind_unfold {T A B} (m : K T A) (k : A -> K T B) t :
  (m ≫= k) t = match m t with Ok a t' => k a t' | Err e => Err e end.
Proof. done. Qed.

Definition finish : K printbuf unit := i ← gets pidx; set_buf i 0 ;; str ← gets pbuf; on_dev (flush str i).
Definition result (o : outcome printbuf unit) : outcome S Z :=
  match o with Ok _ b => Ok (pcnt b) (pdev b) | Err e => Err e end.

Lemma set_buf_next pend x rest i j c ch (s : S) : zlen pend = i ->
  set_buf i ch (PB j c (pend ++ x :: rest) s) = Ok tt (PB j c ((pend ++ [u8 ch]) ++ rest) s).
Proof.
  intros Hi. unfold set_buf. cbn [pbuf pidx pcnt pdev]. assert (Hl : zlen (pend ++ x :: rest) = i + 1 + zlen rest)
    by (unfold zlen in *; rewrite length_app; cbn [length]; lia).
  assert (0 <= i /\ 0 <= zlen rest) by (unfold zlen in *; lia). rewrite Hl. bool_simp. do 2 f_equal.
  rewrite <- app_assoc. cbn [app]. replace (Z.to_nat i) with (length pend + 0)%nat by (unfold zlen in Hi; lia).
  by rewrite insert_app_r.
Qed.

(** A character that fits, and one that fills the buffer. *)
Lemma buf_putch_keep ch pend x rest c s : zlen pend + 1 <> SIZE - 1 ->
  buf_putch SIZE flush ch (PB (zlen pend) c (pend ++ x :: rest) s) =
  Ok tt (PB (zlen pend + 1) (i32 (c + 1)) ((pend ++ [u8 ch]) ++ rest) s).
Proof.
  intros Hn. unfold buf_putch. erewrite bind_Ok by reflexivity. cbn [pidx].
  erewrite bind_Ok by (by apply set_buf_next). erewrite bind_Ok by reflexivity. cbn [pidx pcnt pbuf pdev].
  rewrite (proj2 (Z.eqb_neq _ _) Hn). done.
Qed.

Lemma buf_putch_flush ch pend x y rest c s : zlen pend + 1 = SIZE - 1 -> Forall P (pend ++ [u8 ch]) ->
  buf_putch SIZE flush ch (PB (zlen pend) c (pend ++ x :: y :: rest) s) =
  match emit dev_putc (g <$> (pend ++ [u8 ch])) s with
  | Ok _ s' => Ok tt (PB 0 (i32 (c + 1)) ((pend ++ [u8 ch]) ++ 0 :: rest) s')
  | Err e => Err e
  end.
Proof.
  intros Hn Hp. unfold buf_putch. erewrite bind_Ok by reflexivity. cbn [pidx].
  erewrite bind_Ok by (by apply set_buf_next). erewrite bind_Ok by reflexivity. cbn [pidx pcnt pbuf pdev].
  rewrite (proj2 (Z.eqb_eq _ _) Hn). unfold when. rewrite bind_assoc.
  assert (Hz : zlen (pend ++ [u8 ch]) = zlen pend + 1) by (unfold zlen; rewrite length_app; cbn [length]; lia).
  erewrite bind_Ok by (by apply set_buf_next). rewrite bind_assoc. erewrite bind_Ok by reflexivity.
  cbn [pidx pcnt pbuf pdev]. change (u8 0) with 0. rewrite <- Hz. rewrite <- app_assoc at 1. rewrite bind_assoc.
  unfold mbind at 1, K_bind at 1, on_dev. cbn [pdev pidx pcnt pbuf app]. rewrite <- app_assoc. cbn [app].
  replace (pend ++ u8 ch :: 0 :: rest) with ((pend ++ [u8 ch]) ++ 0 :: rest) by (by rewrite <- app_assoc).
  rewrite Hflush by done. destruct (emit dev_putc _ s) as [[] s'|e]; [|done].
  cbn. unfold modify, mbind, K_bind. cbn. by rewrite <- !app_assoc.
Qed.

(** The whole of [out] behind what is pending in the buffer. *)
Lemma through_buffer out : forall pend rest c s,
  zlen pend + zlen rest = SIZE -> zlen pend < SIZE - 1 -> Forall P pend -> Forall P (u8 <$> out) ->
  0 <= c -> c + zlen out < 2 ^ 31 ->
  result ((emit (buf_putch SIZE flush) out ;; finish) (PB (zlen pend) c (pend ++ rest) s)) =
  match emit dev_putc (g <$> (pend ++ (u8 <$> out))) s with Ok _ s' => Ok (c + zlen out) s' | Err e => Err e end.
Proof.
  induction out as [|ch out IH]; intros pend rest c s Hl Hi Hp Ho Hc Hc'; (destruct rest as [|x rest]; [unfold zlen in *; cbn in *; lia|]).
  - cbn [emit]. erewrite bind_Ok by reflexivity. unfold finish. erewrite bind_Ok by reflexivity. cbn [pidx].
    erewrite bind_Ok by (by apply set_buf_next). erewrite bind_Ok by reflexivity. cbn [pbuf].
    unfold on_dev. cbn [pdev]. rewrite <- app_assoc. cbn [app]. change (u8 0) with 0. rewrite Hflush by done.
    cbn [fmap list_fmap]. rewrite app_nil_r. destruct (emit dev_putc _ s) as [[] s'|e]; [|done].
    cbn. change (zlen []) with 0. by rewrite Z.add_0_r.
  - rewrite fmap_cons in Ho. apply Forall_cons in Ho as [Hch Ho].
    assert (Hz : zlen (ch :: out) = 1 + zlen out) by (unfold zlen; cbn [length]; lia). rewrite Hz in *.
    assert (Hz' : zlen (pend ++ [u8 ch]) = zlen pend + 1) by (unfold zlen; rewrite length_app; cbn [length]; lia).
    assert (Hr : zlen (x :: rest) = 1 + zlen rest) by (unfold zlen; cbn [length]; lia). rewrite Hr in Hl.
    assert (0 <= zlen out /\ 0 <= zlen rest /\ 0 <= zlen pend) by (unfold zlen; lia).
    assert (Hp' : Forall P (pend ++ [u8 ch])) by (apply Forall_app; split; [done | by constructor]).
    cbn [emit]. rewrite bind_assoc, fmap_cons.
    replace (pend ++ u8 ch :: (u8 <$> out)) with ((pend ++ [u8 ch]) ++ (u8 <$> out)) by (by rewrite <- app_assoc).
    destruct (decide (zlen pend + 1 = SIZE - 1)) as [Hfull|Hn].
    + destruct rest as [|y rest]; [unfold zlen in *; cbn in *; lia|].
      rewrite (bind_unfold (buf_putch _ _ _)), buf_putch_flush by done. set (q := pend ++ [u8 ch]) in *.
      rewrite fmap_app, emit_app, (bind_unfold (emit dev_putc _)). destruct (emit dev_putc (g <$> q) s) as [[] s'|e]; [|done].
      rewrite i32_small by lia.
      replace (c + (1 + zlen out)) with (c + 1 + zlen out) by lia.
      apply (IH [] (q ++ 0 :: rest) (c + 1) s'); try done; try lia.
      * unfold zlen in *. rewrite !length_app in *. cbn [length] in *. lia.
      * change (zlen []) with 0. lia.
    + erewrite bind_Ok by (by apply buf_putch_keep). rewrite i32_small by lia. rewrite <- Hz'.
      replace (c + (1 + zlen out)) with (c + 1 + zlen out) by lia.
      apply (IH (pend ++ [u8 ch]) rest (c + 1) s); try done; lia.
Qed.

Lemma buffered_emits junk (m : K printbuf unit) out s : zlen junk = SIZE -> Forall P (u8 <$> out) ->
  zlen out < 2 ^ 31 -> emits (buf_putch SIZE flush) m out tt ->
  buffered flush junk m s =
  match emit dev_putc (g <$> (u8 <$> out)) s with Ok _ s' => Ok (zlen out) s' | Err e => Err e end.
Proof.
  intros Hj Ho Hl Hm. pose proof (through_buffer out [] junk 0 s) as H. cbn [app] in H.
  change (zlen (A := Z) []) with 0 in H. rewrite (Z.add_0_l (zlen out)) in H. rewrite <- H by (done || lia). clear H.
  unfold buffered, result. fold finish. rewrite (bind_unfold m), Hm, !(bind_unfold (emit _ _)).
  by destruct (emit _ out _) as [[] b|].
Qed.
End through.

Lemma cputs_emit {S} (cons_putc : Z -> K S unit) l rest s : Forall nonzero l ->
  cputs cons_putc (l ++ 0 :: rest) s = emit cons_putc (i8 <$> l) s.
Proof.
  intros H. revert s. induction H as [|c l Hc Hl IH]; intros s; [done|]. cbn [app cputs fmap list_fmap emit].
  unfold nonzero in Hc. rewrite (proj2 (Z.eqb_neq c 0)) by lia. apply bind_ext. intros []. apply IH.
Qed.

(** dprintf sends the formatted text to the console, character by character
    and under the serial lock, and returns its length; it holds for texts of
    any length, across the flushes of its buffer, that have no null byte. *)
Theorem vdprintf_correct {S} (cons_putc : Z -> K S unit) lock unlock junk items ap out s :
  Forall wf_item items -> Forall wf_arg ap -> render true items ap = Some out ->
  Forall (fun c => u8 c <> 0) out -> zlen out < 2 ^ 31 -> zlen junk = CONSOLE_BUFFER_SIZE ->
  vdprintf cons_putc lock unlock junk ((items ≫= item_bytes) ++ [0]) ap s =
  (lock ;; emit cons_putc ((fun c => i8 (u8 c)) <$> out) ;; unlock ;; mret (zlen out)) s.
Proof.
  intros Hw Hap Hr Hnz Hl Hj. unfold vdprintf. apply bind_ext. intros [] s1.
  assert (Hp : Forall nonzero (u8 <$> out)).
  { apply Forall_fmap. eapply Forall_impl; [exact Hnz|]. intros c Hc. cbn. pose proof (u8_range c).
    unfold nonzero. klia. }
  rewrite !bind_unfold. rewrite (buffered_emits CONSOLE_BUFFER_SIZE (fun str _ => cputs cons_putc str) cons_putc nonzero i8
    ltac:(done) (cputs_emit cons_putc) junk _ out s1 Hj Hp Hl (vprintfmt_emits (putch cons_putc) true items ap out Hw Hap Hr)).
  rewrite <- list_fmap_compose. by destruct (emit cons_putc _ s1) as [[] s2|].
Qed.

(** printf of the user library: the system calls puts carry exactly the text,
    whatever bytes it has. *)
Theorem vcprintf_correct {S} (puts : list Z -> K S unit) (putc : Z -> K S unit) junk items ap out s :
  (forall l s, puts l s = emit putc l s) ->
  Forall wf_item items -> Forall wf_arg ap -> render false items ap = Some out ->
  zlen out < 2 ^ 31 -> zlen junk = MAX_BUF ->
  vcprintf puts junk ((items ≫= item_bytes) ++ [0]) ap s = (emit putc (u8 <$> out) ;; mret (zlen out)) s.
Proof.
  intros Hputs Hw Hap Hr Hl Hj.
  assert (Hf : forall l rest s, Forall (fun _ => True) l ->
    puts (take (Z.to_nat (zlen l)) (l ++ 0 :: rest)) s = emit putc (id <$> l) s).
  { intros l rest s' _. unfold zlen. rewrite Nat2Z.id, take_app_length, list_fmap_id. apply Hputs. }
  unfold vcprintf, user_vprintfmt. rewrite (buffered_emits MAX_BUF (fun str i => puts (take (Z.to_nat i) str)) putc (fun _ => True) id
    ltac:(done) Hf junk _ out s Hj ltac:(by apply Forall_true) Hl (vprintfmt_emits (uputch puts) false items ap out Hw Hap Hr)).
  rewrite list_fmap_id, bind_unfold. by destruct (emit putc _ s) as [[] s2|].
Qed.

(** ** Examples *)

Definition collect (c : Z) : K (list Z) unit := modify (fun l => l ++ [c]).

(** "n=%05d\n" and the argument -42. *)
Definition demo_items : list item := [Lit 110; Lit 61; Dir [PZero; PWidth 5] Cd; Lit 10].
Definition demo_ap : list arg := [Arg (2 ^ 32 - 42) []].
Definition demo_out : list Z := [110; 61; 45; 48; 48; 48; 52; 50; 10].

Lemma demo_wf : Forall wf_item demo_items.
Proof. repeat constructor; cbn; try lia; try (intros []; lia). Qed.
Lemma demo_ap_wf : Forall wf_arg demo_ap.
Proof. repeat constructor; cbn; lia. Qed.


Lemma vsnprintf_correct_witness :
  vsnprintf 100 4 ((demo_items ≫= item_bytes) ++ [0]) demo_ap ∅ = Ok 9 (put_bytes 100 [110; 61; 45; 0] ∅).
Proof.
  exact (vsnprintf_correct 100 4 demo_items demo_ap demo_out ∅ demo_wf demo_ap_wf ltac:(by vm_compute)
    ltac:(lia) ltac:(lia) ltac:(lia) ltac:(by vm_compute)).
Defined.

Lemma sprintf_atoi_witness : exists n m', vsprintf 100 [37; 100; 0] [Arg (u32 (-42)) []] ∅ = Ok n m' /\
  atoi ((fun k => m' !!! k) <$> seqZ 100 (n + 1)) = Some (n, Some (-42)).
Proof. apply (sprintf_atoi (-42) 100 ∅); lia. Defined.

Lemma vdprintf_correct_witness :
  vdprintf collect (mret tt) (mret tt) (replicate 512 7) ((demo_items ≫= item_bytes) ++ [0]) demo_ap [] = Ok 9 demo_out.
Proof.
  rewrite (vdprintf_correct collect (mret tt) (mret tt) (replicate 512 7) demo_items demo_ap demo_out [] demo_wf demo_ap_wf);
    [by vm_compute | by vm_compute | | by vm_compute | by vm_compute].
  repeat constructor; by vm_compute.
Defined.

Lemma vcprintf_correct_witness :
  vcprintf (emit collect) (replicate 4096 7) ((demo_items ≫= item_bytes) ++ [0]) demo_ap [] = Ok 9 demo_out.
Proof.
  rewrite (vcprintf_correct (emit collect) collect (replicate 4096 7) demo_items demo_ap demo_out [] (fun _ _ => eq_refl)
    demo_wf demo_ap_wf); by vm_compute.
Defined.

(** The flag "-", which is to pad on the right, pads numbers on the left with
    minus signs: "%-5d" of 7 is "----7". *)
Theorem minus_flag_number : vprintfmt collect true [37; 45; 53; 100; 0] [Arg 7 []] [] = Ok tt [45; 45; 45; 45; 55].
Proof. by vm_compute. Qed.
End Printf.
