(* ===== verification/Ustring.v ===== *)
(** * The string library of user programs (user/lib/string.c)

    A string that is only read is the list of the bytes behind the pointer;
    a read past them is [None].  Strings that are copied are in memory, so
    that source and destination may overlap.  The routines that are the same
    code as those of kern/lib/string.c share their definitions. *)

From S2P Require Import Prelude Bytes Memory Printfmt.

Module Ustring.
Import Printfmt.

(** ** Reading *)

Fixpoint strlen (s : list Z) : option Z :=
  match s with [] => None | c :: s => if c =? 0 then Some 0 else Z.add 1 <$> strlen s end.
Fixpoint strnlen (s : list Z) (size : nat) : option Z :=
  match size, s with
  | O, _ => Some 0
  | S _, [] => None
  | S size, c :: s => if c =? 0 then Some 0 else Z.add 1 <$> strnlen s size
  end.
Fixpoint strcmp (p q : list Z) : option Z :=
  match p, q with
  | a :: p, b :: q => if negb (a =? 0) && (a =? b) then strcmp p q else Some (a - b)
  | _, _ => None
  end.
Fixpoint strncmp (p q : list Z) (n : nat) : option Z :=
  match n, p, q with
  | O, _, _ => Some 0
  | S n, a :: p, b :: q => if negb (a =? 0) && (a =? b) then strncmp p q n else Some (a - b)
  | _, _, _ => None
  end.
(** [Some (Some k)]: the pointer [s + k]; [Some None]: the null pointer. *)
Fixpoint strchr (s : list Z) (c k : Z) : option (option Z) :=
  match s with
  | [] => None
  | x :: s => if x =? 0 then Some None else if x =? c then Some (Some k) else strchr s c (k + 1)
  end.
Fixpoint strfind (s : list Z) (c k : Z) : option Z :=
  match s with
  | [] => None
  | x :: s => if x =? 0 then Some k else if x =? c then Some k else strfind s c (k + 1)
  end.
Fixpoint memchr (s : list Z) (c k : Z) (n : nat) : option (option Z) :=
  match n, s with
  | O, _ => Some None
  | S _, [] => None
  | S n, x :: s => if x =? u8 c then Some (Some k) else memchr s c (k + 1) n
  end.

(** *** strtol *)

(** The digit a character stands for. *)
Definition dig (c : Z) : option Z :=
  if (48 <=? c) && (c <=? 57) then Some (c - 48)
  else if (97 <=? c) && (c <=? 122) then Some (c - 97 + 10)
  else if (65 <=? c) && (c <=? 90) then Some (c - 65 + 10)
  else None.

(** The number and the position behind it; the arithmetic of a long. *)
Fixpoint strtol_digits (s : list Z) (k val base : Z) : option (Z * Z) :=
  match s with
  | [] => None
  | c :: s' =>
      match dig (i8 c) with
      | None => Some (val, k)
      | Some d => if base <=? d then Some (val, k) else strtol_digits s' (k + 1) (i32 (i32 (val * base) + d)) base
      end
  end.
Fixpoint skip_blanks (s : list Z) (k : Z) : option (list Z * Z) :=
  match s with
  | [] => None
  | c :: s' => if (c =? 32) || (c =? 9) then skip_blanks s' (k + 1) else Some (s, k)
  end.
Definition strtol (s : list Z) (base : Z) : option (Z * Z) :=
  '(s, k) ← skip_blanks s 0;
  c ← head s;
  let '(s, k, neg) := if c =? 43 then (tail s, k + 1, false) else if c =? 45 then (tail s, k + 1, true) else (s, k, false) in
  c0 ← head s;
  let hex := match tail s with c1 :: _ => (c0 =? 48) && (c1 =? 120) | [] => false end in
  let '(s, k, base) :=
    if ((base =? 0) || (base =? 16)) && hex then (drop 2 s, k + 2, 16)
    else if (base =? 0) && (c0 =? 48) then (tail s, k + 1, 8)
    else if base =? 0 then (s, k, 10) else (s, k, base) in
  '(val, k) ← strtol_digits s k 0 base;
  Some (if neg : bool then i32 (- val) else val, k).

(** ** Memory *)

Definition memset : Z -> Z -> Z -> mem -> mem := Memory.memset.
Definition memmove : Z -> Z -> Z -> mem -> mem := Memory.memmove.
Definition memcpy (dst src n : Z) (m : mem) : mem := memmove dst src n m.
Definition memzero (v n : Z) (m : mem) : mem := memset v 0 n m.
Definition memcmp : (Z -> Z) -> (Z -> Z) -> Z -> Z := Memory.memcmp.

Definition load (a : Z) : K mem Z := gets (fun m => m !!! u32 a).
Definition store (a c : Z) : K mem unit := modify (fun m => <[u32 a := c]> m).

Definition strcpy_body (x : Z * Z) : K mem ((Z * Z) + unit) :=
  let '(dst, src) := x in
  c ← load src;
  store dst c ;;
  if c =? 0 then mret (inr tt) else mret (inl (dst + 1, src + 1)).
(** [fuel] bounds the length of the string. *)
Definition strcpy (fuel : nat) (dst src : Z) : K mem Z := loop fuel strcpy_body (dst, src) ;; mret dst.

Fixpoint strncpy_from (n : nat) (dst src : Z) : K mem unit :=
  match n with
  | O => mret tt
  | S n =>
      c ← load src;
      store dst c ;;
      c ← load src;
      strncpy_from n (dst + 1) (if c =? 0 then src else src + 1)
  end.
Definition strncpy (dst src size : Z) : K mem Z := strncpy_from (Z.to_nat size) dst src ;; mret dst.

(** The loop of strlcpy with [n] = size - 1 bytes of room. *)
Fixpoint strlcpy_from (n : nat) (dst src : Z) : K mem Z :=
  match n with
  | O => mret dst
  | S n =>
      c ← load src;
      if c =? 0 then mret dst else store dst c ;; strlcpy_from n (dst + 1) (src + 1)
  end.
Definition strlcpy (dst src size : Z) : K mem Z :=
  let dst_in := dst in
  if 0 <? size then
    dst ← strlcpy_from (Z.to_nat (size - 1)) dst src;
    store dst 0 ;;
    mret (dst - dst_in)
  else mret 0.

(** ** Copying *)

(** The string [l] is at [a]. *)
Definition string_at (m : mem) (a : Z) (l : list Z) : Prop :=
  Forall (fun c => c <> 0) l /\ 0 <= a /\ a + zlen l < 2 ^ 32 /\
  forall i, 0 <= i <= zlen l -> m !!! (a + i) = (l ++ [0]) !!! Z.to_nat i.

Lemma string_at_cons m a c l : string_at m a (c :: l) -> c <> 0 /\ m !!! a = c /\ string_at m (a + 1) l.
Proof.
  intros (H1 & H2 & H3 & H4). apply Forall_cons in H1 as [Hc Hl].
  assert (Hz : zlen (c :: l) = 1 + zlen l) by (unfold zlen; cbn [length]; lia).
  assert (0 <= zlen l) by (unfold zlen; lia). split; [done|].
  split; [specialize (H4 0 ltac:(lia)); by rewrite Z.add_0_r in H4|]. split; [done|]. split; [lia|]. split; [lia|].
  intros i Hi. rewrite <- Z.add_assoc, H4 by lia. by replace (Z.to_nat (1 + i)) with (S (Z.to_nat i)) by lia.
Qed.
Lemma string_at_nil m a : string_at m a [] -> m !!! a = 0.
Proof. intros (_ & _ & _ & H). specialize (H 0 ltac:(done)). by rewrite Z.add_0_r in H. Qed.
Lemma string_at_ne m a l b c : string_at m a l -> b < a \/ a + zlen l < b -> string_at (<[b := c]> m) a l.
Proof.
  intros (H1 & H2 & H3 & H4) Hb. split; [done|]. split; [done|]. split; [done|]. intros i Hi.
  rewrite lookup_total_insert_ne by lia. by apply H4.
Qed.

Lemma strlcpy_loop n : forall l dst src m, string_at m src l -> 0 <= dst -> dst + Z.of_nat n < 2 ^ 32 ->
  dst + Z.of_nat n < src \/ src + zlen l < dst ->
  let k := Z.min (Z.of_nat n) (zlen l) in
  exists m', strlcpy_from n dst src m = Ok (dst + k) m' /\
    forall x, m' !!! x = if decide (dst <= x < dst + k) then l !!! Z.to_nat (x - dst) else m !!! x.
Proof.
  induction n as [|n IH]; intros l dst src m Hs Hd Hn Hdis k; subst k; cbn [strlcpy_from].
  - exists m. assert (0 <= zlen l) by (unfold zlen; lia). rewrite Z.min_l, Z.add_0_r by lia. split; [done|].
    intros x. by rewrite decide_False by lia.
  - pose proof Hs as (_ & Ha & He & _). assert (El : load src m = Ok (m !!! src) m).
    { unfold load, gets. rewrite u32_small; [done|]. assert (0 <= zlen l) by (unfold zlen; lia). klia. }
    erewrite bind_Ok by exact El. destruct l as [|c l].
    + rewrite (string_at_nil m src Hs). cbn [Z.eqb]. exists m. change (zlen []) with 0. rewrite Z.min_r, Z.add_0_r by lia.
      split; [done|]. intros x. by rewrite decide_False by lia.
    + destruct (string_at_cons m src c l Hs) as (Hc & Em & Hs'). rewrite Em, (proj2 (Z.eqb_neq c 0)) by done.
      assert (Hz : zlen (c :: l) = 1 + zlen l /\ 0 <= zlen l) by (unfold zlen; cbn [length]; lia). destruct Hz as [Hz Hz0]. rewrite Hz in *.
      erewrite bind_Ok by reflexivity. rewrite u32_small by klia.
      destruct (IH l (dst + 1) (src + 1) (<[dst := c]> m)) as (m' & E & Hm'); [apply string_at_ne; [done | lia] | lia | lia | lia|].
      exists m'. rewrite E. split; [f_equal; lia|]. intros x. rewrite Hm'.
      destruct (decide (x = dst)) as [->|Hne].
      * rewrite decide_False, decide_True, Z.sub_diag by lia. by rewrite lookup_total_insert_eq.
      * destruct (decide (dst + 1 <= x < dst + 1 + Z.min (Z.of_nat n) (zlen l))).
        -- rewrite decide_True by lia. replace (Z.to_nat (x - dst)) with (S (Z.to_nat (x - (dst + 1)))) by lia. done.
        -- rewrite decide_False by lia. by rewrite lookup_total_insert_ne by lia.
Qed.

(** strlcpy copies as much of the string as fits into [size] bytes with a null
    byte behind it, writes nothing outside of them, and returns how many
    characters it copied. *)
Theorem strlcpy_correct dst src size l m : string_at m src l -> 0 <= dst -> 0 < size -> dst + size <= 2 ^ 32 ->
  dst + size <= src \/ src + zlen l < dst ->
  let k := Z.min (size - 1) (zlen l) in
  exists m', strlcpy dst src size m = Ok k m' /\
    forall x, m' !!! x = if decide (x = dst + k) then 0 else if decide (dst <= x < dst + k) then l !!! Z.to_nat (x - dst) else m !!! x.
Proof.
  intros Hs Hd Hsz He Hdis k. unfold strlcpy. bool_true.
  destruct (strlcpy_loop (Z.to_nat (size - 1)) l dst src m Hs Hd ltac:(lia) ltac:(lia)) as (m' & E & Hm').
  rewrite Z2Nat.id in E, Hm' by lia. fold k in E, Hm'. erewrite bind_Ok by exact E. assert (0 <= zlen l) by (unfold zlen; lia).
  eexists. split; [erewrite bind_Ok by reflexivity; unfold mret, K_ret; f_equal; lia|]. intros x. rewrite u32_small by (unfold k; klia).
  destruct (decide (x = dst + k)) as [->|Hne]; [by rewrite lookup_total_insert_eq | by rewrite lookup_total_insert_ne, Hm' by auto].
Qed.
Lemma strlcpy_correct_witness :
  let m : mem := {[200 := 65; 201 := 66; 202 := 67]} in
  exists m', strlcpy 100 200 3 m = Ok 2 m' /\ m' !!! 100 = 65 /\ m' !!! 101 = 66 /\ m' !!! 102 = 0 /\ m' !!! 103 = 0.
Proof.
  intros m. destruct (strlcpy_correct 100 200 3 [65; 66; 67] m) as (m' & E & H).
  - split; [by repeat constructor|]. split; [done|]. split; [done|]. intros i Hi. change (zlen [65; 66; 67]) with 3 in Hi.
    assert (i = 0 \/ i = 1 \/ i = 2 \/ i = 3) as [-> | [-> | [-> | ->]]] by lia; by vm_compute.
  - done.
  - done.
  - done.
  - left. done.
  - exists m'. split; [exact E|]. rewrite !H. by vm_compute.
Defined.

(** ** Numbers *)

Lemma dig_char d : 0 <= d < 16 -> dig (i8 (digit_char d)) = Some d /\ digit_char d <> 32 /\ digit_char d <> 9 /\
  digit_char d <> 43 /\ digit_char d <> 45 /\ digit_char d <> 120.
Proof.
  intros Hd. assert (H : forallb (fun d => bool_decide (dig (i8 (digit_char d)) = Some d /\ digit_char d <> 32 /\ digit_char d <> 9 /\
    digit_char d <> 43 /\ digit_char d <> 45 /\ digit_char d <> 120)) (seqZ 0 16) = true) by (vm_compute; reflexivity).
  rewrite forallb_forall in H. eapply bool_decide_eq_true, H. rewrite <- list_elem_of_In, elem_of_seqZ. lia.
Qed.

Lemma value_from_ge base ds : forall acc, 0 <= acc -> 1 <= base -> Forall (fun d => 0 <= d < base) ds ->
  acc <= foldl (fun a d => a * base + d) acc ds.
Proof.
  induction ds as [|d ds IH]; intros acc Ha Hb Hd; [done|]. apply Forall_cons in Hd as [Hd Hds]. cbn [foldl].
  specialize (IH (acc * base + d) ltac:(nia) Hb Hds). nia.
Qed.

Lemma strtol_digits_spec base ds : forall k acc c rest,
  2 <= base <= 16 -> Forall (fun d => 0 <= d < base) ds -> 0 <= acc -> foldl (fun a d => a * base + d) acc ds < 2 ^ 31 ->
  dig (i8 c) = None ->
  strtol_digits ((digit_char <$> ds) ++ c :: rest) k acc base = Some (foldl (fun a d => a * base + d) acc ds, k + zlen ds).
Proof.
  induction ds as [|d ds IH]; intros k acc c rest Hb Hd Ha Hv Hc.
  - cbn [fmap list_fmap app strtol_digits foldl]. rewrite Hc. by rewrite Z.add_0_r.
  - apply Forall_cons in Hd as [Hd Hds]. rewrite fmap_cons, <- app_comm_cons. cbn [strtol_digits foldl] in *.
    destruct (dig_char d ltac:(lia)) as [-> _]. bool_false.
    pose proof (value_from_ge base ds (acc * base + d) ltac:(nia) ltac:(lia) Hds).
    rewrite (i32_small (acc * base)) by nia. rewrite i32_small by nia.
    rewrite IH by (done || nia). do 2 f_equal. unfold zlen. cbn [length]. lia.
Qed.

(** strtol reads a number in any base up to 16 back from its digits, with a
    minus sign before those of a negative one. *)
Theorem strtol_correct v base c rest : - 2 ^ 31 < v < 2 ^ 31 -> 2 <= base <= 16 -> dig (i8 c) = None -> c <> 120 ->
  let t := (if v <? 0 then [45] else []) ++ (digit_char <$> digits base (Z.abs v)) in
  strtol (t ++ c :: rest) base = Some (v, zlen t).
Proof.
  intros Hv Hb Hc Hx t. destruct (digits_spec base (Z.abs v) ltac:(lia) ltac:(lia)) as (V & F & (d & ds & E & _) & _).
  assert (Hd : 0 <= d < 16) by (rewrite E in F; apply Forall_cons in F as [? _]; lia).
  destruct (dig_char d Hd) as (_ & D1 & D2 & D3 & D4 & _).
  set (cs := digit_char <$> digits base (Z.abs v)) in *.
  assert (Hcs : cs = digit_char d :: (digit_char <$> ds)) by (unfold cs; by rewrite E).
  assert (Hhex : match tail (cs ++ c :: rest) with c1 :: _ => (digit_char d =? 48) && (c1 =? 120) | [] => false end = false).
  { rewrite Hcs, <- app_comm_cons. cbn [tail]. destruct ds as [|d' ds']; cbn [fmap list_fmap app].
    - rewrite (proj2 (Z.eqb_neq c 120)) by done. apply andb_false_r.
    - assert (0 <= d' < 16) as Hd' by (rewrite E in F; apply Forall_cons in F as [_ F]; apply Forall_cons in F as [? _]; lia).
      destruct (dig_char d' Hd') as (_ & _ & _ & _ & _ & D). rewrite (proj2 (Z.eqb_neq _ 120)) by done. apply andb_false_r. }
  assert (Hnum : forall k, strtol_digits (cs ++ c :: rest) k 0 base = Some (Z.abs v, k + zlen cs)).
  { intros k. unfold cs. pose proof (strtol_digits_spec base (digits base (Z.abs v)) k 0 c rest Hb F) as Es.
    change (foldl _ 0 (digits base (Z.abs v))) with (value base (digits base (Z.abs v))) in Es. rewrite V in Es.
    rewrite Es by (done || lia). do 2 f_equal. unfold zlen. by rewrite length_fmap. }
  assert (Hb0 : (base =? 0) = false) by (apply Z.eqb_neq; lia).
  assert (Hhead : head (cs ++ c :: rest) = Some (digit_char d)) by (by rewrite Hcs).
  assert (Hskip : skip_blanks (t ++ c :: rest) 0 = Some (t ++ c :: rest, 0)).
  { unfold t. destruct (v <? 0); [done|]. cbn [app]. rewrite Hcs. cbn [app skip_blanks].
    by rewrite (proj2 (Z.eqb_neq _ 32)), (proj2 (Z.eqb_neq _ 9)) by done. }
  unfold strtol. rewrite Hskip. cbn [mbind option_bind]. unfold t. destruct (Z.ltb_spec v 0) as [Hneg|Hpos].
  - cbn [app head tail]. cbn [mbind option_bind Z.eqb Pos.eqb]. rewrite Hhead. cbn [mbind option_bind]. rewrite Hhex, andb_false_r, Hb0.
    cbn [andb]. rewrite Hnum. cbn [mbind option_bind]. rewrite i32_small by lia.
    do 2 f_equal; [lia|]. unfold zlen. cbn [length]. lia.
  - cbn [app]. rewrite Hhead. cbn [mbind option_bind]. rewrite (proj2 (Z.eqb_neq _ 43)), (proj2 (Z.eqb_neq _ 45)) by done.
    rewrite Hhead. cbn [mbind option_bind]. rewrite Hhex, andb_false_r, Hb0. cbn [andb]. rewrite Hnum. cbn [mbind option_bind]. do 2 f_equal; lia.
Qed.
Lemma strtol_correct_witness : strtol [45; 50; 97; 0] 16 = Some (-42, 3).
Proof. exact (strtol_correct (-42) 16 0 [] ltac:(lia) ltac:(lia) eq_refl ltac:(lia)). Defined.
End Ustring.

(** ** Spin locks of user programs (user/lib/spinlock.c)

    The lock is one word: 0 or 1. *)
Module Uspin.

Definition xchg (newval : Z) : K Z Z := fun lk => Ok lk (u32 newval).
Definition spinlock_init : K Z unit := modify (fun _ => 0).
(** [while (xchg(lk, 1) != 0) pause;]: a taken lock is spun on. *)
Definition spinlock_acquire : K Z unit :=
  old ← xchg 1; if old =? 0 then mret tt else fail Block.
Definition spinlock_holding : K Z bool := gets (fun lk => negb (lk =? 0)).
Definition spinlock_release : K Z unit :=
  h ← spinlock_holding;
  when h (xchg 0 ;; mret tt).

(** Acquire takes a free lock and waits for a taken one; release gives it back;
    a second release is without effect. *)
Theorem uspin_correct lk :
  spinlock_init lk = Ok tt 0 /\
  spinlock_acquire 0 = Ok tt 1 /\ (lk <> 0 -> spinlock_acquire lk = Err Block) /\
  spinlock_release lk = Ok tt 0.
Proof.
  repeat split.
  - intros H. unfold spinlock_acquire, xchg, mbind, K_bind; cbn. by apply Z.eqb_neq in H as ->.
  - unfold spinlock_release, spinlock_holding, xchg, mbind, K_bind; cbn.
    destruct (Z.eqb_spec lk 0) as [->|]; done.
Qed.
End Uspin.
