(* ===== verification/Clock.v ===== *)
(** * The clocks (kern/dev/timer.c, tsc.c)

    The 8253 interval timer is its three channels, programmed by a control
    word and then the low and the high byte of the count.  What the processor
    reads from the time stamp counter and from port 0x61 (bit 5: channel 2 has
    counted down) comes from input streams; a run that asks for more than the
    streams hold is [Block].  The messages of tsc_init are not modelled. *)

From S2P Require Import Prelude Printfmt.

Module Clock.
Import Printfmt.

Record channel : Type := Channel { c_mode : Z; c_lsb : option Z; c_count : Z }.
#[export] Instance channel_inhabited : Inhabited channel := populate (Channel 0 None 0).

Record state : Type := State {
  pit : gmap Z channel; port61 : Z;      (* the timer; the last value written to port 0x61 *)
  in61 : list Z; tscs : list Z;          (* what port 0x61 and rdtsc return *)
  tsc_per_ms : Z
}.
Definition w_pit f s := State (f (pit s)) (port61 s) (in61 s) (tscs s) (tsc_per_ms s).
Definition w_port61 v s := State (pit s) v (in61 s) (tscs s) (tsc_per_ms s).
Definition w_in61 l s := State (pit s) (port61 s) l (tscs s) (tsc_per_ms s).
Definition w_tscs l s := State (pit s) (port61 s) (in61 s) l (tsc_per_ms s).
Definition w_per_ms v s := State (pit s) (port61 s) (in61 s) (tscs s) v.

Definition PIT_CHANNEL0 : Z := 0x40.
Definition PIT_CHANNEL2 : Z := 0x42.
Definition PIT_CONTROL : Z := 0x43.

(** A control word selects a channel (bits 7, 6), the access (bits 5, 4; only
    low byte then high byte is used) and the mode (bits 3 to 1). *)
Definition pit_control (v : Z) (p : gmap Z channel) : gmap Z channel :=
  let c := Z.shiftr v 6 in
  if (c <? 3) && (Z.land (Z.shiftr v 4) 3 =? 3)
  then <[c := Channel (Z.land (Z.shiftr v 1) 7) None (c_count (p !!! c))]> p else p.
Definition pit_data (c v : Z) (p : gmap Z channel) : gmap Z channel :=
  let ch := p !!! c in
  match c_lsb ch with
  | None => <[c := Channel (c_mode ch) (Some v) (c_count ch)]> p
  | Some l => <[c := Channel (c_mode ch) None (l + 256 * v)]> p
  end.
Definition outb (port v : Z) : K state unit := modify (fun s =>
  let v := u8 v in
  if port =? PIT_CONTROL then w_pit (pit_control v) s
  else if (PIT_CHANNEL0 <=? port) && (port <=? PIT_CHANNEL2) then
    w_pit (pit_data (port - PIT_CHANNEL0) v) s
  else if port =? 0x61 then w_port61 v s
  else s).

Definition inb61 : K state Z :=
  p ← gets in61;
  match p with
  | [] => fail Block
  | v :: p' => modify (w_in61 p') ;; mret v
  end.
Definition rdtsc : K state Z :=
  t ← gets tscs;
  match t with
  | [] => fail Block
  | v :: t' => modify (w_tscs t') ;; mret v
  end.

(** ** timer.c *)

Definition TIMER_FREQ : Z := 1193182.
Definition FREQ : Z := 100.
Definition TIMER_DIV (x : Z) : Z := (TIMER_FREQ + x / 2) / x.
Definition LATCH : Z := TIMER_DIV FREQ.
Definition TIMER_SEL0 : Z := 0x00.
Definition TIMER_RATEGEN : Z := 0x04.
Definition TIMER_16BIT : Z := 0x30.
Definition LOW8 (x : Z) : Z := Z.land x 0xff.
Definition HIGH8 (x : Z) : Z := Z.land (Z.shiftr x 8) 0xff.

Definition timer_hw_init : K state unit :=
  outb PIT_CONTROL (Z.lor (Z.lor TIMER_SEL0 TIMER_RATEGEN) TIMER_16BIT) ;;
  outb PIT_CHANNEL0 (LOW8 LATCH) ;;
  outb PIT_CHANNEL0 (HIGH8 LATCH).

(** ** tsc.c *)

Definition CAL_MS : Z := 10.
Definition CAL_LATCH : Z := TIMER_FREQ / (1000 / CAL_MS).
Definition CAL_PIT_LOOPS : Z := 1000.

(** [~(uint64_t) 0x0] *)
Definition NO_RATE : Z := 2 ^ 64 - 1.

(** The locals of the polling loop: [tsc], [t2], [pitcnt], [tscmin], [tscmax]. *)
Definition cal_locals : Type := Z * Z * Z * Z * Z.
Definition cal_body (v : cal_locals) : K state (cal_locals + cal_locals) :=
  let '(tsc, t2, pitcnt, tscmin, tscmax) := v in
  p ← inb61;
  if negb (Z.land p 0x20 =? 0) then mret (inr v)
  else
    t2 ← rdtsc;
    let delta := u64 (t2 - tsc) in
    mret (inl (t2, t2, i32 (pitcnt + 1),
               (if delta <? tscmin then delta else tscmin),
               (if tscmax <? delta then delta else tscmax))).

Definition tsc_calibrate (fuel : nat) (latch ms loopmin : Z) : K state Z :=
  g ← inb61;
  outb 0x61 (Z.lor (Z.land g (Z.lnot 0x02)) 0x01) ;;
  outb 0x43 0xb0 ;;
  outb 0x42 (Z.land latch 0xff) ;;
  outb 0x42 (Z.shiftr latch 8) ;;
  t1 ← rdtsc;
  r ← loop fuel cal_body (t1, t1, 0, NO_RATE, 0);
  let '(_, t2, pitcnt, tscmin, tscmax) := r in
  if (pitcnt <? loopmin) || (u64 (10 * tscmin) <? tscmax) then mret NO_RATE
  else if ms =? 0 then fail Undef
  else mret (u64 (t2 - t1) / ms).

(** [for (i = 0; i < 10; i++) { ret = tsc_calibrate(...); if (ret != ~0) break; }] *)
Definition tsc_retry (fuel : nat) (i : Z) : K state (Z + Z) :=
  ret ← tsc_calibrate fuel CAL_LATCH CAL_MS CAL_PIT_LOOPS;
  if negb (ret =? NO_RATE) then mret (inr ret)
  else if i + 1 <? 10 then mret (inl (i + 1)) else mret (inr ret).

Definition tsc_init (fuel : nat) : K state Z :=
  timer_hw_init ;;
  modify (w_per_ms 0) ;;
  ret ← loop 10 (tsc_retry fuel) 0;
  if ret =? NO_RATE then
    modify (w_per_ms 1000000) ;;
    timer_hw_init ;;
    mret 1
  else
    modify (w_per_ms ret) ;;
    timer_hw_init ;;
    mret 0.

(** [while (rdtsc() < start + ticks);] *)
Definition wait_body (start ticks : Z) (_ : unit) : K state (unit + unit) :=
  t ← rdtsc;
  if t <? u64 (start + ticks) then mret (inl tt) else mret (inr tt).
Definition delay (fuel : nat) (ms : Z) : K state unit :=
  ticks ← gets (fun s => u64 (tsc_per_ms s * ms));
  start ← rdtsc;
  loop fuel (wait_body start ticks) tt.
Definition udelay (fuel : nat) (us : Z) : K state unit :=
  ticks ← gets (fun s => u64 (tsc_per_ms s / 1000 * us));
  start ← rdtsc;
  loop fuel (wait_body start ticks) tt.

(** ** Theorems *)

(** *** Polling the countdown

    tsc.c and lapic.c measure a counter in the same way: they start channel 2,
    read the counter whenever port 0x61 says that channel 2 still runs, and try
    again when the readings are irregular.  The lemmas are shared: [diff t t2]
    is the number of ticks from reading [t] to reading [t2] and [wrap] the
    width of the counter. *)

(** One calibration as the hardware shows it: the gate register, the reading
    of the counter at the start, the polls of port 0x61 that find channel 2
    running with the counter read after each, and the poll that ends it. *)
Record attempt : Type := Attempt {
  a_gate : Z; a_start : Z; a_polls : list (Z * Z); a_end : Z
}.
Definition wf_attempt (a : attempt) : Prop :=
  Forall (fun p => Z.land p.1 0x20 = 0) (a_polls a) /\ Z.land (a_end a) 0x20 <> 0 /\
  Z.of_nat (length (a_polls a)) < 2 ^ 31.
Definition attempt_ok (fuel : nat) (a : attempt) : Prop :=
  wf_attempt a /\ (length (a_polls a) < fuel)%nat.
Definition a_in61 (a : attempt) : list Z := a_gate a :: (a_polls a).*1 ++ [a_end a].
Definition a_reads (a : attempt) : list Z := a_start a :: (a_polls a).*2.

Definition minimum (m : Z) (l : list Z) : Z := foldl Z.min m l.
Definition maximum (m : Z) (l : list Z) : Z := foldl Z.max m l.

Lemma ltb_min a b : (if a <? b then a else b) = Z.min b a.
Proof. case_bool; lia. Qed.
Lemma ltb_max a b : (if b <? a then a else b) = Z.max b a.
Proof. case_bool; lia. Qed.
Lemma default_last_cons (t x : Z) l : default t (last (x :: l)) = default x (last l).
Proof. rewrite last_cons. by destruct (last l). Qed.

Section polling.
Context (diff : Z -> Z -> Z) (wrap : Z -> Z).

(** The differences between consecutive readings, and the rate they give: none
    when there were too few polls, or when the longest interval is more than
    ten times the shortest. *)
Fixpoint deltas (t : Z) (l : list Z) : list Z :=
  match l with
  | [] => []
  | t2 :: l' => diff t t2 :: deltas t2 l'
  end.
Definition rate (ms loopmin : Z) (a : attempt) : option Z :=
  if decide (loopmin <= Z.of_nat (length (a_polls a)) /\
       maximum 0 (deltas (a_start a) (a_polls a).*2) <=
       wrap (10 * minimum (wrap (-1)) (deltas (a_start a) (a_polls a).*2)))
  then Some (diff (a_start a) (default (a_start a) (last (a_polls a).*2)) / ms) else None.

(** The test that ends a calibration. *)
Lemma rate_test {S} ms loopmin a (s : S) : 0 < ms ->
  (if (Z.of_nat (length (a_polls a)) <? loopmin) ||
      (wrap (10 * minimum (wrap (-1)) (deltas (a_start a) (a_polls a).*2)) <?
       maximum 0 (deltas (a_start a) (a_polls a).*2)) then mret (wrap (-1))
   else if ms =? 0 then fail Undef
   else mret (diff (a_start a) (default (a_start a) (last (a_polls a).*2)) / ms)) s =
  Ok (default (wrap (-1)) (rate ms loopmin a)) s.
Proof.
  intros Hms. replace (ms =? 0) with false by lia. unfold rate.
  destruct (decide _) as [[E1 E2]|E].
  - by rewrite (proj2 (Z.ltb_ge _ _) E1), (proj2 (Z.ltb_ge _ _) E2).
  - destruct (_ || _) eqn:O; [done|]. apply orb_false_iff in O as [O1%Z.ltb_ge O2%Z.ltb_ge].
    by destruct E.
Qed.

Context {S : Type} (body : cal_locals -> K S (cal_locals + cal_locals)) (st : list Z -> list Z -> S).
Hypothesis body_poll : forall p x r1 r2 t n mn mx, Z.land p 0x20 = 0 -> 0 <= n < 2 ^ 31 - 1 ->
  body (t, t, n, mn, mx) (st (p :: r1) (x :: r2)) =
  Ok (inl (x, x, n + 1, Z.min mn (diff t x), Z.max mx (diff t x))) (st r1 r2).
Hypothesis body_end : forall e r1 ts v, Z.land e 0x20 <> 0 -> body v (st (e :: r1) ts) = Ok (inr v) (st r1 ts).

Lemma poll_loop e r1 r2 polls : forall f t n mn mx,
  Forall (fun p => Z.land p.1 0x20 = 0) polls -> Z.land e 0x20 <> 0 ->
  0 <= n -> n + Z.of_nat (length polls) < 2 ^ 31 -> (length polls < f)%nat ->
  loop f body (t, t, n, mn, mx) (st (polls.*1 ++ e :: r1) (polls.*2 ++ r2)) =
  Ok (default t (last polls.*2), default t (last polls.*2), n + Z.of_nat (length polls),
      minimum mn (deltas t polls.*2), maximum mx (deltas t polls.*2)) (st r1 r2).
Proof.
  induction polls as [|[p x] polls IH]; intros f t n mn mx Hp He Hn Hl Hf;
    destruct f as [|f]; cbn [length] in *; try lia; cbn [loop].
  - cbn [fmap list_fmap app]. erewrite bind_Ok by (apply body_end; done). by rewrite Z.add_0_r.
  - apply Forall_cons in Hp as [Hp0 Hps].
    cbn [fmap list_fmap fst snd app]. erewrite bind_Ok by (apply body_poll; [done | lia]).
    cbn beta iota. rewrite IH, default_last_cons by (done || lia).
    by replace (n + 1 + Z.of_nat (length polls)) with (n + Z.of_nat (Datatypes.S (length polls))) by lia.
Qed.
End polling.

(** Trying again: up to [limit] attempts, each of which reads its inputs and
    relates the states before and after it by [R]. *)
Section retrying.
Context {S : Type} (in1 in2 : S -> list Z) (R : S -> S -> Prop) `{!PreOrder R}.
Context (s0 : S) (limit none : Z) (ok : attempt -> Prop) (rate_of : attempt -> option Z) (retry : Z -> K S (Z + Z)).
Hypothesis retry_run : forall i a r1 r2 s, R s0 s -> ok a -> in1 s = a_in61 a ++ r1 -> in2 s = a_reads a ++ r2 ->
  exists s', retry i s = Ok (match rate_of a with
      | Some r => inr r
      | None => if i + 1 <? limit then inl (i + 1) else inr none
      end) s' /\ in1 s' = r1 /\ in2 s' = r2 /\ R s s'.

Lemma retry_loop r1 r2 as_ : forall f i s last_,
  R s0 s -> Forall ok (as_ ++ [last_]) -> Forall (fun a => rate_of a = None) as_ -> (length as_ < f)%nat ->
  (is_Some (rate_of last_) /\ i + Z.of_nat (length as_) < limit \/
   rate_of last_ = None /\ i + Z.of_nat (length as_) = limit - 1) ->
  in1 s = concat (a_in61 <$> as_ ++ [last_]) ++ r1 ->
  in2 s = concat (a_reads <$> as_ ++ [last_]) ++ r2 ->
  exists s', loop f retry i s = Ok (default none (rate_of last_)) s' /\ in1 s' = r1 /\ in2 s' = r2 /\ R s0 s'.
Proof.
  induction as_ as [|a as_ IH]; intros f i s l HR0 Hok Hn Hf Hl H1 H2; destruct f as [|f];
    cbn [length app fmap list_fmap concat] in *; try lia; cbn [loop];
    apply Forall_cons in Hok as [Ha Hok].
  - rewrite app_nil_r in *. edestruct (retry_run i l) as (s' & E & ? & ? & ?); [done | done | exact H1 | exact H2|].
    erewrite bind_Ok by exact E. exists s'. split; [|repeat split; [done.. | by etrans]].
    destruct Hl as [[[r Er] Hl]|[Er Hl]]; rewrite Er; [done|]. by replace (i + 1 <? limit) with false by lia.
  - apply Forall_cons in Hn as [Hna Hn]. rewrite <- app_assoc in H1, H2.
    edestruct (retry_run i a) as (s1 & E & ? & ? & HR); [done | done | exact H1 | exact H2|].
    erewrite bind_Ok by exact E. rewrite Hna. replace (i + 1 <? limit) with true by lia. cbn beta iota.
    edestruct (IH f (i + 1) s1 l) as (s' & E' & ? & ? & ?); [by etrans | done | done | lia | | done | done |].
    + destruct Hl as [[? ?]|[? ?]]; [left | right]; split; (done || lia).
    + by exists s'.
Qed.
End retrying.

(** *** The time stamp counter *)

Definition tsc_diff (t t2 : Z) : Z := u64 (t2 - t).

Lemma cal_body_poll P g k p x r1 r2 t n mn mx : Z.land p 0x20 = 0 -> 0 <= n < 2 ^ 31 - 1 ->
  cal_body (t, t, n, mn, mx) (State P g (p :: r1) (x :: r2) k) =
  Ok (inl (x, x, n + 1, Z.min mn (tsc_diff t x), Z.max mx (tsc_diff t x))) (State P g r1 r2 k).
Proof.
  intros Hp Hn. unfold cal_body, inb61, rdtsc, mbind, K_bind; cbn. rewrite Hp. cbn.
  rewrite i32_small, ltb_min, ltb_max by lia. done.
Qed.

Lemma cal_body_end P g k e r1 ts v : Z.land e 0x20 <> 0 ->
  cal_body v (State P g (e :: r1) ts k) = Ok (inr v) (State P g r1 ts k).
Proof.
  intros He. destruct v as [[[[t t2] n] mn] mx]. unfold cal_body, inb61, mbind, K_bind; cbn.
  by rewrite (proj2 (Z.eqb_neq _ _) He).
Qed.

(** What a calibration leaves: channel 2 counts [latch] down in mode 0, the
    gate is on and the speaker off. *)
Definition pit_calibrating (latch : Z) (P : gmap Z channel) : gmap Z channel :=
  <[2 := Channel 0 None latch]> P.
Definition after (latch : Z) (a : attempt) (r1 r2 : list Z) (s : state) : state :=
  State (pit_calibrating latch (pit s)) (u8 (Z.lor (Z.land (a_gate a) (Z.lnot 2)) 1)) r1 r2 (tsc_per_ms s).

Lemma outb_control v s : outb 0x43 v s = Ok tt (w_pit (pit_control (u8 v)) s).
Proof. done. Qed.
Lemma outb_channel0 v s : outb 0x40 v s = Ok tt (w_pit (pit_data 0 (u8 v)) s).
Proof. done. Qed.
Lemma outb_channel2 v s : outb 0x42 v s = Ok tt (w_pit (pit_data 2 (u8 v)) s).
Proof. done. Qed.
Lemma outb_gate v s : outb 0x61 v s = Ok tt (w_port61 (u8 v) s).
Proof. done. Qed.

(** A control word and the two bytes of the count program a channel. *)
Lemma pit_program c mode ctl lo hi P :
  pit_control ctl P = <[c := Channel mode None (c_count (P !!! c))]> P ->
  pit_data c hi (pit_data c lo (pit_control ctl P)) = <[c := Channel mode None (lo + 256 * hi)]> P.
Proof.
  intros ->. unfold pit_data at 2. rewrite lookup_total_insert_eq. cbn [c_lsb c_mode c_count].
  rewrite insert_insert_eq. unfold pit_data. rewrite lookup_total_insert_eq. cbn [c_lsb c_mode].
  by rewrite insert_insert_eq.
Qed.

Lemma tsc_calibrate_run fuel latch ms loopmin a r1 r2 s :
  0 <= latch < 2 ^ 16 -> 0 < ms -> attempt_ok fuel a ->
  in61 s = a_in61 a ++ r1 -> tscs s = a_reads a ++ r2 ->
  tsc_calibrate fuel latch ms loopmin s =
  Ok (default NO_RATE (rate tsc_diff u64 ms loopmin a)) (after latch a r1 r2 s).
Proof.
  intros Hl Hms ((Hp & He & Hn) & Hf) H1 H2. destruct s as [P g i1 i2 k]; cbn in *; subst.
  unfold tsc_calibrate. rewrite <- app_assoc. krun. krun (apply outb_gate).
  krun (apply outb_control). do 2 krun (apply outb_channel2). krun.
  unfold w_tscs, w_pit, w_port61, w_in61. cbn [pit in61 tscs tsc_per_ms port61 app].
  erewrite bind_Ok by (apply (poll_loop tsc_diff cal_body (fun l1 l2 => State _ _ l1 l2 k)
    (cal_body_poll _ _ k) (cal_body_end _ _ k)); done).
  cbn beta iota. rewrite Z.add_0_l. unfold after, pit_calibrating.
  rewrite (pit_program 2 0) by done. cbn [pit tsc_per_ms].
  replace (u8 (Z.land latch 255) + 256 * u8 (latch ≫ 8)) with latch; last first.
  { change 255 with (Z.ones 8). rewrite Z.land_ones, Z.shiftr_div_pow2 by lia. unfold u8. rewrite Zmod_mod.
    rewrite (Z.mod_small (latch / 2 ^ 8)) by (split; [apply Z.div_pos | apply Z.div_lt_upper_bound]; lia).
    pose proof (Z.div_mod latch (2 ^ 8)). lia. }
  apply (rate_test tsc_diff u64). done.
Qed.

(** timer_hw_init programs channel 0 as a rate generator with the count
    [LATCH], whatever it was doing: an interrupt every [LATCH] / [TIMER_FREQ]
    seconds, which is 10 ms to one part in ten thousand. *)
Definition pit_100hz (P : gmap Z channel) : gmap Z channel := <[0 := Channel 2 None LATCH]> P.

Lemma timer_hw_init_run s : timer_hw_init s = Ok tt (w_pit pit_100hz s).
Proof.
  unfold timer_hw_init. krun (apply outb_control). krun (apply outb_channel0).
  rewrite outb_channel0. unfold w_pit; cbn [pit in61 tscs tsc_per_ms port61].
  by rewrite (pit_program 0 2).
Qed.

Lemma LATCH_period : Z.abs (LATCH * 1000 - 10 * TIMER_FREQ) * 10000 <= 10 * TIMER_FREQ.
Proof. vm_compute. congruence. Qed.

(** The rate an attempt of tsc_init finds: the quotient of a 64 bit number by
    10, never all ones. *)
Definition cal_rate : attempt -> option Z := rate tsc_diff u64 CAL_MS CAL_PIT_LOOPS.

Lemma cal_rate_not_all_ones a r : cal_rate a = Some r -> (r =? NO_RATE) = false.
Proof.
  unfold cal_rate, rate. destruct (decide _); [|done]. intros [= <-]. unfold tsc_diff.
  match goal with |- context [u64 ?x] => pose proof (Z.mod_pos_bound x (2 ^ 64)) end.
  match goal with |- context [u64 ?x] => assert (0 <= u64 x / 10 < 2 ^ 64 - 1) end.
  { unfold u64. split; [apply Z.div_pos | apply Z.div_lt_upper_bound]; lia. }
  change CAL_MS with 10. unfold NO_RATE. apply Z.eqb_neq. lia.
Qed.

(** Attempts leave channel 0 and the rate alone. *)
Definition same_clock (s s' : state) : Prop :=
  pit s' !!! 0 = pit s !!! 0 /\ tsc_per_ms s' = tsc_per_ms s.
#[local] Instance same_clock_preorder : PreOrder same_clock.
Proof. split; [by split | intros ? ? ? [] []; split; congruence]. Qed.

Lemma tsc_retry_run fuel i a r1 r2 s :
  attempt_ok fuel a -> in61 s = a_in61 a ++ r1 -> tscs s = a_reads a ++ r2 ->
  exists s', tsc_retry fuel i s =
  Ok (match cal_rate a with
      | Some r => inr r
      | None => if i + 1 <? 10 then inl (i + 1) else inr NO_RATE
      end) s' /\ in61 s' = r1 /\ tscs s' = r2 /\ same_clock s s'.
Proof.
  intros Hok H1 H2. exists (after CAL_LATCH a r1 r2 s). split; [|repeat split; by apply lookup_total_insert_ne].
  unfold tsc_retry. erewrite bind_Ok by (apply tsc_calibrate_run; [done.. | exact H1 | exact H2]).
  fold (cal_rate a). destruct (cal_rate a) as [r|] eqn:E; cbn [from_option]; unfold id.
  - by rewrite (cal_rate_not_all_ones a r E).
  - rewrite Z.eqb_refl. by destruct (i + 1 <? 10).
Qed.

(** The attempts [as_] fail, [last_] gives a rate or is the tenth. *)
Definition calibrations (fuel : nat) (as_ : list attempt) (last_ : attempt) : Prop :=
  Forall (attempt_ok fuel) (as_ ++ [last_]) /\ Forall (fun a => cal_rate a = None) as_ /\
  (is_Some (cal_rate last_) /\ (length as_ < 10)%nat \/ cal_rate last_ = None /\ length as_ = 9%nat).

Lemma tsc_init_wp fuel as_ last_ r1 r2 s (Q : Z -> state -> Prop) :
  calibrations fuel as_ last_ ->
  in61 s = concat (a_in61 <$> as_ ++ [last_]) ++ r1 ->
  tscs s = concat (a_reads <$> as_ ++ [last_]) ++ r2 ->
  (forall s', tsc_per_ms s' = default 1000000 (cal_rate last_) -> in61 s' = r1 -> tscs s' = r2 ->
     pit s' !!! 0 = Channel 2 None LATCH -> Q (match cal_rate last_ with Some _ => 0 | None => 1 end) s') ->
  wp (tsc_init fuel) Q s.
Proof.
  intros (Hok & Hn & Hl) H1 H2 HQ. unfold tsc_init. apply wp_bind. eapply wp_intro; [apply timer_hw_init_run|].
  apply wp_bind, wp_modify, wp_bind.
  edestruct (retry_loop in61 tscs same_clock (w_per_ms 0 (w_pit pit_100hz s)) 10 NO_RATE (attempt_ok fuel) cal_rate (tsc_retry fuel)
    (fun i a r1 r2 s _ => tsc_retry_run fuel i a r1 r2 s) r1 r2 as_ 10 0 (w_per_ms 0 (w_pit pit_100hz s)) last_)
    as (s' & E & ? & ? & _); [reflexivity | done | done | lia | | done | done |].
  { destruct Hl as [[? ?]|[? ?]]; [left | right]; split; (done || lia). }
  eapply wp_intro; [exact E|].
  destruct (cal_rate last_) as [r|] eqn:Er; cbn [from_option]; unfold id.
  - rewrite (cal_rate_not_all_ones _ _ Er). apply wp_bind, wp_modify, wp_bind.
    eapply wp_intro; [apply timer_hw_init_run|]. apply wp_ret, HQ; try done. apply lookup_total_insert_eq.
  - rewrite Z.eqb_refl. apply wp_bind, wp_modify, wp_bind.
    eapply wp_intro; [apply timer_hw_init_run|]. apply wp_ret, HQ; try done. apply lookup_total_insert_eq.
Qed.

(** tsc_init takes the first of at most ten attempts that gives a rate, and
    returns 0 with that rate as [tsc_per_ms]; when all ten fail it returns 1
    with the assumed rate of a 1 GHz counter.  It has read exactly the inputs of
    these attempts, and channel 0 of the interval timer ticks at 100 Hz. *)
Theorem tsc_init_correct fuel as_ last_ r1 r2 s :
  Forall (attempt_ok fuel) (as_ ++ [last_]) -> Forall (fun a => cal_rate a = None) as_ ->
  (is_Some (cal_rate last_) /\ (length as_ < 10)%nat \/ cal_rate last_ = None /\ length as_ = 9%nat) ->
  in61 s = concat (a_in61 <$> as_ ++ [last_]) ++ r1 ->
  tscs s = concat (a_reads <$> as_ ++ [last_]) ++ r2 ->
  exists s', tsc_init fuel s = Ok (match cal_rate last_ with Some _ => 0 | None => 1 end) s' /\
    tsc_per_ms s' = default 1000000 (cal_rate last_) /\
    in61 s' = r1 /\ tscs s' = r2 /\ pit s' !!! 0 = Channel 2 None LATCH.
Proof.
  intros Hok Hn Hl H1 H2.
  assert (W : wp (tsc_init fuel) (fun r s' => r = (match cal_rate last_ with Some _ => 0 | None => 1 end) /\
    tsc_per_ms s' = default 1000000 (cal_rate last_) /\
    in61 s' = r1 /\ tscs s' = r2 /\ pit s' !!! 0 = Channel 2 None LATCH) s).
  { eapply tsc_init_wp; [by split_and! | exact H1 | exact H2 | done]. }
  apply wp_run in W as (r & s' & E & -> & H). eauto.
Qed.

(** 1000 polls of a counter that advances by 3000 between two polls. *)
Definition steady : attempt :=
  Attempt 0 5 ((fun i => (0x10, 5 + 3000 * Z.of_nat i)) <$> seq 1 1000) 0x30.
Definition hit_by_smi : attempt := Attempt 0 5 [(0, 8)] 0x20.
Lemma steady_ok : calibrations 2000 [] steady /\ cal_rate steady = Some 300000.
Proof.
  assert (E : cal_rate steady = Some 300000) by (vm_compute; reflexivity).
  unfold calibrations. rewrite E. split_and!; [| done | left; split; [by eexists | cbn; lia] | done].
  unfold attempt_ok, wf_attempt. refine (bool_decide_unpack _ _). vm_compute. exact I.
Qed.

Lemma tsc_init_correct_witness :
  let s := State ∅ 0 (a_in61 hit_by_smi ++ a_in61 steady ++ [0]) (a_reads hit_by_smi ++ a_reads steady ++ [7]) 0 in
  exists s', tsc_init 2000 s = Ok 0 s' /\ tsc_per_ms s' = 300000 /\ in61 s' = [0] /\ tscs s' = [7] /\
    pit s' !!! 0 = Channel 2 None 11932.
Proof.
  intros s. assert (E : cal_rate steady = Some 300000) by (vm_compute; reflexivity).
  destruct (tsc_init_correct 2000 [hit_by_smi] steady [0] [7] s) as (s' & H).
  - unfold attempt_ok, wf_attempt. refine (bool_decide_unpack _ _). vm_compute. exact I.
  - refine (bool_decide_unpack _ _). vm_compute. exact I.
  - left. rewrite E. split; [by eexists | cbn; lia].
  - vm_compute. reflexivity.
  - vm_compute. reflexivity.
  - exists s'. rewrite E in H. exact H.
Defined.

(** Waiting: the loop of delay and udelay ends at the first reading that is not
    before [start + ticks]. *)
Lemma wait_body_run start ticks P g i x rest k :
  0 <= start + ticks < 2 ^ 64 ->
  wait_body start ticks tt (State P g i (x :: rest) k) =
  Ok (if x <? start + ticks then inl tt else inr tt) (State P g i rest k).
Proof.
  intros H. unfold wait_body. krun. unfold u64. rewrite Z.mod_small by done. by destruct (x <? _).
Qed.

Lemma wait_run start ticks rest t waits P g i k : forall f,
  (length waits < f)%nat -> 0 <= start + ticks < 2 ^ 64 ->
  Forall (fun x => x < start + ticks) waits -> start + ticks <= t ->
  loop f (wait_body start ticks) tt (State P g i (waits ++ t :: rest) k) = Ok tt (State P g i rest k).
Proof.
  induction waits as [|x waits IH]; intros f Hf Hb Hw Hge; destruct f as [|f];
    cbn [length] in Hf; try lia; cbn [loop app]; erewrite bind_Ok by (by apply wait_body_run).
  - by replace (t <? start + ticks) with false by lia.
  - apply Forall_cons in Hw as [Hx Hw]. replace (x <? start + ticks) with true by lia.
    apply IH; (done || lia).
Qed.

(** delay returns at the first reading of the counter that is [ms] milliseconds
    ([tsc_per_ms * ms] ticks) behind the first one, and no later. *)
Theorem delay_correct fuel ms start waits t rest s :
  tscs s = start :: waits ++ t :: rest -> (length waits < fuel)%nat ->
  0 <= start -> 0 <= tsc_per_ms s * ms -> start + tsc_per_ms s * ms < 2 ^ 64 ->
  Forall (fun x => x - start < tsc_per_ms s * ms) waits -> tsc_per_ms s * ms <= t - start ->
  delay fuel ms s = Ok tt (w_tscs rest s).
Proof.
  intros Hs Hf H0 H1 H2 Hw Ht. destruct s as [P g i x k]; cbn in *; subst x.
  unfold delay. krun. cbn [tsc_per_ms]. unfold u64. rewrite Z.mod_small by lia. krun.
  apply wait_run; try done; try lia. eapply Forall_impl; [exact Hw|]. cbn. lia.
Qed.

Lemma delay_correct_witness :
  delay 5 2 (State ∅ 0 [] [100; 150; 2099; 2101; 3000] 1000) = Ok tt (State ∅ 0 [] [3000] 1000).
Proof.
  refine (delay_correct 5 2 100 [150; 2099] 2101 [3000] (State ∅ 0 [] [100; 150; 2099; 2101; 3000] 1000) _ _ _ _ _ _ _);
    cbn; try reflexivity; try lia. repeat constructor; lia.
Defined.

(** udelay divides before it multiplies: it returns at the first reading that is
    [tsc_per_ms / 1000 * us] ticks behind the first one, which is
    [tsc_per_ms mod 1000] ticks for each millisecond too early. *)
Theorem udelay_short fuel us start waits t rest s :
  let ticks := tsc_per_ms s / 1000 * us in
  tscs s = start :: waits ++ t :: rest -> (length waits < fuel)%nat ->
  0 <= start -> 0 <= tsc_per_ms s -> 0 <= us -> start + ticks < 2 ^ 64 ->
  Forall (fun x => x - start < ticks) waits -> ticks <= t - start ->
  udelay fuel us s = Ok tt (w_tscs rest s) /\
  1000 * ticks = tsc_per_ms s * us - tsc_per_ms s mod 1000 * us.
Proof.
  intros ticks Hs Hf H0 H1 Hus H2 Hw Ht. subst ticks.
  pose proof (Z.div_mod (tsc_per_ms s) 1000). split; [|nia].
  assert (0 <= tsc_per_ms s / 1000 * us) by (apply Z.mul_nonneg_nonneg; [apply Z.div_pos|]; lia).
  destruct s as [P g i x k]; cbn in *; subst x. unfold udelay. krun. cbn [tsc_per_ms].
  unfold u64. rewrite Z.mod_small by lia. krun.
  apply wait_run; try done; try lia. eapply Forall_impl; [exact Hw|]. cbn. lia.
Qed.

End Clock.
