(* ===== verification/Apic.v ===== *)
(** * The APICs after initialisation

    What lapic_init, ioapic_init and intr_init (kern/dev/lapic.c, ioapic.c,
    intr.c, modelled in [Intr]) leave in the controllers of a machine with
    APICs, which is the only kind intr_init accepts. *)

From S2P Require Import Prelude Printfmt Intr Clock.

Module Apic.
Import Intr.

(** ** The local APIC *)

(** [s] with the registers [r], the trace [t] and the inputs [l1], [l2]. *)
Definition put (r : gmap Z Z) (t : list (Z * Z)) (l1 l2 : list Z) (s : state) : state :=
  w_streams l1 l2 (w_lapic (lapic s) r t s).

Lemma put_id s : s = put (lregs s) (ltrace s) (in61 s) (tccr s) s.
Proof. by destruct s. Qed.

Lemma lapic_write_put i v r t l1 l2 s : lapic s <> 0 ->
  lapic_write i v (put r t l1 l2 s) = Ok tt (put (<[i := u32 v]> r) (t ++ [(i, u32 v)]) l1 l2 s).
Proof.
  intros H. unfold lapic_write, lapic_here, mbind, K_bind; cbn. by apply Z.eqb_neq in H as ->.
Qed.
Lemma lapic_read_put i r t l1 l2 s : lapic s <> 0 -> i <> LAPIC_TCCR ->
  lapic_read i (put r t l1 l2 s) = Ok (r !!! i) (put r t l1 l2 s).
Proof.
  intros H Hi. unfold lapic_read, lapic_here, mbind, K_bind; cbn. apply Z.eqb_neq in H as ->.
  by apply Z.eqb_neq in Hi as ->.
Qed.
Lemma read_count_put v r t l1 l2 s : lapic s <> 0 ->
  lapic_read LAPIC_TCCR (put r t l1 (v :: l2) s) = Ok v (put r t l1 l2 s).
Proof.
  intros H. unfold lapic_read, lapic_here, mbind, K_bind; cbn. by apply Z.eqb_neq in H as ->.
Qed.
Lemma inb61_put v r t l1 l2 s : inb61 (put r t (v :: l1) l2 s) = Ok v (put r t l1 l2 s).
Proof. done. Qed.

(** The timer counts down. *)
Definition lapic_diff (t t2 : Z) : Z := u32 (t - t2).
Definition lapic_rate : Clock.attempt -> option Z := Clock.rate lapic_diff u32 CAL_MS CAL_PIT_LOOPS.
Definition NO_RATE : Z := 2 ^ 32 - 1.

Section calibration.
Context (s : state) (r : gmap Z Z) (t : list (Z * Z)).
Hypothesis Hl : lapic s <> 0.

Lemma calib_poll p x r1 r2 c n mn mx : Z.land p 0x20 = 0 -> 0 <= n < 2 ^ 31 - 1 ->
  calib_body (c, c, n, mn, mx) (put r t (p :: r1) (x :: r2) s) =
  Ok (inl (x, x, n + 1, Z.min mn (lapic_diff c x), Z.max mx (lapic_diff c x))) (put r t r1 r2 s).
Proof.
  intros Hp Hn. unfold calib_body. krun. rewrite Hp. cbn [negb Z.eqb].
  krun (by apply read_count_put). rewrite i32_small, Clock.ltb_min, Clock.ltb_max by lia. done.
Qed.

Lemma calib_end e r1 ts v : Z.land e 0x20 <> 0 ->
  calib_body v (put r t (e :: r1) ts s) = Ok (inr v) (put r t r1 ts s).
Proof.
  intros He. destruct v as [[[[c c2] n] mn] mx]. unfold calib_body. krun.
  by rewrite (proj2 (Z.eqb_neq _ _) He).
Qed.

End calibration.

Lemma lapic_calibrate_run fuel latch ms loopmin a r1 r2 r t s : lapic s <> 0 -> 0 < ms -> Clock.attempt_ok fuel a ->
  lapic_calibrate_timer fuel latch ms loopmin (put r t (Clock.a_in61 a ++ r1) (Clock.a_reads a ++ r2) s) =
  Ok (default NO_RATE (Clock.rate lapic_diff u32 ms loopmin a))
     (put (<[LAPIC_TICR := NO_RATE]> r) (t ++ [(LAPIC_TICR, NO_RATE)]) r1 r2 s).
Proof.
  intros Hl Hms ((Hp & He & Hn) & Hf). unfold lapic_calibrate_timer.
  krun (by apply lapic_write_put). unfold Clock.a_in61, Clock.a_reads. rewrite <- app_comm_cons, <- app_assoc.
  krun (by apply inb61_put). cbn [app]. krun (by apply read_count_put).
  erewrite bind_Ok by (apply (Clock.poll_loop lapic_diff calib_body (fun l1 l2 => put _ _ l1 l2 s)
    (calib_poll s _ _ Hl) (calib_end s _ _)); done).
  cbn beta iota. rewrite Z.add_0_l. apply (Clock.rate_test lapic_diff u32). done.
Qed.

(** Attempts change the initial count and nothing else of the registers. *)
Definition calibrating (s s' : state) : Prop := exists r t l1 l2,
  s' = put r t l1 l2 s /\ forall j, j <> LAPIC_TICR -> r !!! j = lregs s !!! j.
#[local] Instance calibrating_preorder : PreOrder calibrating.
Proof.
  split.
  - intros s. eexists _, _, _, _. by split; [apply put_id|].
  - intros s s1 s2 (r & t & l1 & l2 & -> & H) (r' & t' & l1' & l2' & -> & H').
    exists r', t', l1', l2'. split; [done|]. intros j Hj. rewrite H' by done. by apply H.
Qed.

Lemma lapic_rate_not_all_ones a r : lapic_rate a = Some r -> (r =? NO_RATE) = false.
Proof.
  unfold lapic_rate, Clock.rate. destruct (decide _); [|done]. intros [= <-]. unfold lapic_diff.
  match goal with |- context [u32 ?x / _] => pose proof (u32_range x); assert (0 <= u32 x / 10 < 2 ^ 32 - 1) end.
  { split; [apply Z.div_pos | apply Z.div_lt_upper_bound]; klia. }
  change CAL_MS with 10. unfold NO_RATE. apply Z.eqb_neq. lia.
Qed.

Lemma calib_retry_run fuel s i a r1 r2 s1 : lapic s <> 0 -> calibrating s s1 -> Clock.attempt_ok fuel a ->
  in61 s1 = Clock.a_in61 a ++ r1 -> tccr s1 = Clock.a_reads a ++ r2 ->
  exists s2, calib_retry fuel i s1 =
  Ok (match lapic_rate a with
      | Some r => inr r
      | None => if i + 1 <? 5 then inl (i + 1) else inr NO_RATE
      end) s2 /\ in61 s2 = r1 /\ tccr s2 = r2 /\ calibrating s1 s2.
Proof.
  intros Hl (r & t & l1 & l2 & -> & _) Ha H1 H2. cbn in H1, H2. subst l1 l2. eexists.
  unfold calib_retry. erewrite bind_Ok by (by apply lapic_calibrate_run). fold lapic_rate. split.
  - destruct (lapic_rate a) as [v|] eqn:E; cbn [from_option]; unfold id; fold NO_RATE.
    + by rewrite (lapic_rate_not_all_ones a v E).
    + rewrite Z.eqb_refl. by destruct (i + 1 <? 5).
  - split; [done|]. split; [done|]. exists (<[LAPIC_TICR := NO_RATE]> r), (t ++ [(LAPIC_TICR, NO_RATE)]), r1, r2.
    split; [reflexivity|]. intros j Hj. cbn [lregs put w_streams w_lapic].
    by apply lookup_total_insert_ne.
Qed.

(** The registers lapic_init leaves: the APIC is enabled, its timer raises vector
    32 periodically with the calibrated count, the local interrupt lines are
    masked, errors raise vector 50, and no priority is blocked. *)
Definition lapic_ready (ticks : Z) (r : gmap Z Z) : Prop :=
  r !!! LAPIC_SVR = 0x100 + 39 /\ r !!! LAPIC_TIMER = 0x20000 + 32 /\ r !!! LAPIC_TDCR = 0xB /\
  r !!! LAPIC_TICR = u32 (ticks * 1000) / 1000 /\
  r !!! LAPIC_LINT0 = 0x10000 /\ r !!! LAPIC_LINT1 = 0x10000 /\ r !!! LAPIC_ERROR = 50 /\
  r !!! LAPIC_TPR = 0.

Definition lapic_ticks (a : Clock.attempt) : Z := default 500000 (lapic_rate a).

(** The attempts at calibration on a machine: [as_] fail, [last_] gives a rate
    or is the fifth. *)
Definition lapic_attempts (fuel : nat) (as_ : list Clock.attempt) (last_ : Clock.attempt) : Prop :=
  Forall (Clock.attempt_ok fuel) (as_ ++ [last_]) /\ Forall (fun a => lapic_rate a = None) as_ /\
  (is_Some (lapic_rate last_) /\ (length as_ < 5)%nat \/ lapic_rate last_ = None /\ length as_ = 4%nat).

Ltac lw := apply wp_bind; eapply wp_intro; [by apply lapic_write_put|].

Lemma lapic_setup_wp ticks r t l1 l2 s (Q : unit -> state -> Prop) : lapic s <> 0 ->
  r !!! LAPIC_SVR = 0x100 + 39 -> r !!! LAPIC_TIMER = 0x20000 + 32 -> r !!! LAPIC_TDCR = 0xB ->
  (forall r' t', lapic_ready ticks r' -> Q tt (put r' t' l1 l2 s)) ->
  wp (lapic_write LAPIC_TICR (u32 (ticks * 1000) / LAPIC_TIMER_INTR_FREQ) ;;
      lapic_write LAPIC_LINT0 LAPIC_LINT_MASKED ;;
      lapic_write LAPIC_LINT1 LAPIC_LINT_MASKED ;;
      ver ← lapic_read LAPIC_VER;
      when (4 <=? Z.land (Z.shiftr ver 16) 0xFF) (lapic_write LAPIC_PCINT APIC_LVTT_M) ;;
      lapic_write LAPIC_DFR LAPIC_DFR_FLAT_MODE ;;
      lapic_write LAPIC_LDR 0 ;;
      lapic_write LAPIC_ERROR T_LERROR ;;
      lapic_write LAPIC_ESR 0 ;;
      lapic_write LAPIC_ESR 0 ;;
      lapic_write LAPIC_EOI 0 ;;
      lapic_write LAPIC_ICRHI 0 ;;
      lapic_write LAPIC_ICRLO (Z.lor (Z.lor LAPIC_ICRLO_BCAST LAPIC_ICRLO_INIT) LAPIC_ICRLO_LEVEL) ;;
      wait_icr ;;
      lapic_write LAPIC_TPR 0) Q (put r t l1 l2 s).
Proof.
  intros Hl H1 H2 H3 HQ.
  assert (Ht : u32 (u32 (ticks * 1000) / LAPIC_TIMER_INTR_FREQ) = u32 (ticks * 1000) / 1000).
  { apply u32_small. pose proof (u32_range (ticks * 1000)) as [? ?]. unfold LAPIC_TIMER_INTR_FREQ.
    split; [apply Z.div_pos | apply Z.div_lt_upper_bound]; lia. }
  do 3 lw. apply wp_bind. eapply wp_intro; [by apply lapic_read_put|]. cbn beta.
  apply wp_bind.
  assert (W : forall b r t (P : unit -> state -> Prop), (forall r' t', (forall j, j <> LAPIC_PCINT -> r' !!! j = r !!! j) ->
      P tt (put r' t' l1 l2 s)) -> wp (when b (lapic_write LAPIC_PCINT APIC_LVTT_M)) P (put r t l1 l2 s)).
  { intros b r0 t0 P HP. apply wp_when; intros _; [|by apply HP].
    eapply wp_intro; [by apply lapic_write_put|]. apply HP. intros j Hj. by apply lookup_total_insert_ne. }
  apply W. clear W. intros r' t' Hr. do 8 lw. unfold wait_icr. apply wp_bind, wp_bind.
  eapply wp_intro; [by apply lapic_read_put|]. rewrite lookup_total_insert_eq. apply wp_ret.
  eapply wp_intro; [by apply lapic_write_put|]. apply HQ. unfold lapic_ready. rewrite <- H1, <- H2, <- H3, <- Ht.
  repeat split; repeat (rewrite lookup_total_insert_eq || rewrite lookup_total_insert_ne by done);
    rewrite ?Hr by done;
    repeat (rewrite lookup_total_insert_eq || rewrite lookup_total_insert_ne by done); done.
Qed.

(** lapic_init on a machine with a local APIC. *)
Lemma lapic_init_wp fuel as_ last_ r1 r2 s (Q : unit -> state -> Prop) :
  lapic s <> 0 -> lapic_attempts fuel as_ last_ ->
  in61 s = concat (Clock.a_in61 <$> as_ ++ [last_]) ++ r1 ->
  tccr s = concat (Clock.a_reads <$> as_ ++ [last_]) ++ r2 ->
  (forall r t, lapic_ready (lapic_ticks last_) r -> Q tt (put r t r1 r2 s)) ->
  wp (lapic_init fuel) Q s.
Proof.
  intros Hl (Hok & Hn & Hlast) H1 H2 HQ. unfold lapic_init. apply wp_bind, wp_gets.
  rewrite (proj2 (Z.eqb_neq _ _) Hl). apply wp_bind, wp_ret. rewrite (put_id s) at 1. do 3 lw.
  match goal with |- wp _ _ ?x => set (s1 := x) end. apply wp_bind.
  edestruct (Clock.retry_loop in61 tccr calibrating s1 5 NO_RATE (Clock.attempt_ok fuel) lapic_rate
    (calib_retry fuel) (fun i a r1 r2 s' => calib_retry_run fuel s1 i a r1 r2 s' Hl) r1 r2 as_ 5 0 s1 last_)
    as (s2 & E & <- & <- & r & t & l1 & l2 & -> & Hr);
    [reflexivity | done | done | lia | | exact H1 | exact H2 |].
  { destruct Hlast as [[? ?]|[? ?]]; [left | right]; split; (done || lia). }
  eapply wp_intro; [exact E|]. cbn beta.
  replace (if default NO_RATE (lapic_rate last_) =? 2 ^ 32 - 1 then 500000 else default NO_RATE (lapic_rate last_))
    with (lapic_ticks last_); last first.
  { unfold lapic_ticks. destruct (lapic_rate last_) as [v|] eqn:Ev; [|done]. cbn. fold NO_RATE.
    by rewrite (lapic_rate_not_all_ones _ _ Ev). }
  change (put r t l1 l2 s1) with (put r t l1 l2 s).
  apply lapic_setup_wp; [done | rewrite Hr by done .. | by intros; apply HQ];
    unfold s1; cbn [lregs put w_streams w_lapic];
    repeat (rewrite lookup_total_insert_eq || rewrite lookup_total_insert_ne by done); done.
Qed.

(** ** The I/O APICs *)

(** Every redirection entry is masked, edge triggered, and has vector 32 plus
    its number and the destination 0. *)
Definition masked_upto (n : Z) (d : ioapic_dev) : Prop := forall j, 0 <= j < n ->
  ioregs d !!! (REG_TABLE + 2 * j) = Z.lor INT_DISABLED (T_IRQ0 + j) /\ ioregs d !!! (REG_TABLE + 2 * j + 1) = 0.
Definition entries (d : ioapic_dev) : Z := maxintr_of (ioregs d !!! REG_VER) + 1.
Definition masked (d : ioapic_dev) : Prop := masked_upto (entries d) d.

Lemma entries_range d : 1 <= entries d <= 256.
Proof.
  unfold entries, maxintr_of. change 0xFF with (Z.ones 8). rewrite Z.land_ones by lia.
  match goal with |- context [?x mod _] => pose proof (Z.mod_pos_bound x (2 ^ 8)) end. lia.
Qed.

(** The controllers [m] after a part of the initialisation of those of [s]. *)
Definition keeps (s : state) (m : gmap Z ioapic_dev) : Prop :=
  (forall b d, mmio s !! b = Some d -> exists d', m !! b = Some d' /\ ioregs d' !!! REG_VER = ioregs d !!! REG_VER) /\
  (forall b, mmio s !! b = None -> m !! b = None).

Section ioapics.
Context (s : state).

Lemma mask_entries_wp base m d n (Q : unit -> state -> Prop) :
  m !! base = Some d -> 0 <= n <= 256 ->
  (forall m' d', m' !! base = Some d' -> ioregs d' !!! REG_VER = ioregs d !!! REG_VER -> masked_upto n d' ->
     (forall b, b <> base -> m' !! b = m !! b) -> Q tt (w_mmio m' (lowmem s) s)) ->
  wp (for_ 0 n (fun j =>
    ioapic_write base (REG_TABLE + 2 * j) (Z.lor INT_DISABLED (T_IRQ0 + j)) ;;
    ioapic_write base (REG_TABLE + 2 * j + 1) 0)) Q (w_mmio m (lowmem s) s).
Proof.
  intros Hd Hn HQ.
  apply (wp_for (fun j s1 => exists m' d', s1 = w_mmio m' (lowmem s) s /\ m' !! base = Some d' /\
    ioregs d' !!! REG_VER = ioregs d !!! REG_VER /\ masked_upto j d' /\ forall b, b <> base -> m' !! b = m !! b));
    [lia | | | by intros s1 (m' & d' & -> & ? & ? & ? & ?); eauto].
  { exists m, d. split_and!; try done. intros ? ?. lia. }
  intros j s1 Hj (m' & d' & -> & Hd' & Hv & Hm & Ho).
  apply wp_bind. eapply wp_intro; [by apply ioapic_write_run|].
  eapply wp_intro; [apply ioapic_write_run, lookup_insert_eq|]. cbn [mmio lowmem w_mmio ioregs].
  eexists _, _. split; [reflexivity|]. split; [apply lookup_insert_eq|]. cbn [ioregs]. split_and!.
  - unfold REG_VER, REG_TABLE in *. by rewrite !lookup_total_insert_ne by lia.
  - intros k Hk. cbn [ioregs]. destruct (decide (k = j)) as [->|].
    + rewrite lookup_total_insert_ne by lia. by rewrite !lookup_total_insert_eq.
    + rewrite !lookup_total_insert_ne by lia. apply Hm. lia.
  - intros b Hb. rewrite !lookup_insert_ne by done. by apply Ho.
Qed.

Lemma ioapic_init_one_wp i m (Q : unit -> state -> Prop) :
  0 <= i < MAX_IOAPIC -> ioapics s !!! i <> 0 -> is_Some (m !! (ioapics s !!! i)) -> keeps s m ->
  (forall m' d', m' !! (ioapics s !!! i) = Some d' -> masked d' -> keeps s m' ->
     (forall b, b <> ioapics s !!! i -> m' !! b = m !! b) -> Q tt (w_mmio m' (lowmem s) s)) ->
  wp (ioapic_init_one i) Q (w_mmio m (lowmem s) s).
Proof.
  intros Hi Hb [d Hd] [Hk Hk0] HQ. unfold ioapic_init_one. apply wp_bind, wp_bounds; [done|].
  apply wp_bind, wp_gets, wp_bind, wp_gets. cbn [ioapics ioapicid w_mmio].
  apply wp_bind, wp_kassert; [by apply negb_true_iff, Z.eqb_neq|].
  apply wp_bind. eapply wp_intro; [by apply ioapic_read_run|]. cbn [mmio lowmem w_mmio].
  apply wp_bind. set (base := ioapics s !!! i) in *.
  assert (W : forall c v (P : unit -> state -> Prop) (m1 : gmap Z ioapic_dev) (d1 : ioapic_dev), m1 !! base = Some d1 ->
    (forall m2 d2, m2 !! base = Some d2 -> ioregs d2 !!! REG_VER = ioregs d1 !!! REG_VER ->
       (forall b, b <> base -> m2 !! b = m1 !! b) -> P tt (w_mmio m2 (lowmem s) s)) ->
    wp (when c (ioapic_write base REG_ID v)) P (w_mmio m1 (lowmem s) s)).
  { intros c v P m1 d1 Hd1 HP. apply wp_when; intros _; [|by eapply HP].
    eapply wp_intro; [by apply ioapic_write_run|]. eapply HP; [apply lookup_insert_eq | |].
    - by apply lookup_total_insert_ne.
    - intros b Hbn. by apply lookup_insert_ne. }
  eapply W; [apply lookup_insert_eq|]. clear W. intros m2 d2 Hd2 Hv2 Ho2. cbn [ioregs] in Hv2.
  apply wp_bind. eapply wp_intro; [by apply ioapic_read_run|]. cbn [mmio lowmem w_mmio].
  change (maxintr_of (ioregs d2 !!! REG_VER) + 1) with (entries d2).
  pose proof (entries_range d2).
  eapply mask_entries_wp; [apply lookup_insert_eq | lia |]. cbn [ioregs]. intros m3 d3 Hd3 Hv3 Hm3 Ho3.
  assert (Ho : forall b, b <> base -> m3 !! b = m !! b).
  { intros b Hbn. rewrite Ho3, lookup_insert_ne, Ho2, lookup_insert_ne by done. done. }
  eapply HQ; [exact Hd3 | | | exact Ho].
  - unfold masked, entries in *. by rewrite Hv3.
  - split; [intros b e He; destruct (Hk b e He) as (e' & He' & Hev)|intros b He];
      destruct (decide (b = base)) as [->|Hbn].
    + exists d3. split; [done|]. rewrite Hv3, Hv2. rewrite Hd in He'. by injection He' as ->.
    + exists e'. by rewrite Ho.
    + by rewrite Hk0 in Hd.
    + rewrite Ho by done. by apply Hk0.
Qed.
End ioapics.

(** ioapic_init masks every line of every I/O APIC. *)
Definition all_masked (s : state) (m : gmap Z ioapic_dev) : Prop :=
  forall i, 0 <= i < ioapic_num s -> exists d, m !! (ioapics s !!! i) = Some d /\ masked d.

Lemma ioapic_init_wp s (Q : unit -> state -> Prop) :
  ioapics_ok s -> (forall i, 0 <= i < ioapic_num s -> ioapics s !!! i <> 0) ->
  (forall m, keeps s m -> all_masked s m -> Q tt (w_mmio m (lowmem s) s)) ->
  wp ioapic_init Q s.
Proof.
  intros (Hn & Hp & Hinj) H0 HQ. unfold ioapic_init. apply wp_bind, wp_gets.
  apply (wp_for (fun i s1 => exists m, s1 = w_mmio m (lowmem s) s /\ keeps s m /\
    forall k, 0 <= k < i -> exists d, m !! (ioapics s !!! k) = Some d /\ masked d));
    [lia | | | by intros s1 (m & -> & ? & ?); apply HQ].
  { exists (mmio s). split; [by destruct s|]. split; [|intros; lia]. split; [|done]. intros b d ?. by exists d. }
  intros i s1 Hi (m & -> & Hk & Hm). destruct (Hp i Hi) as [d Hd]. destruct (proj1 Hk _ _ Hd) as (d' & Hd' & _).
  apply ioapic_init_one_wp; [lia | by apply H0 | by exists d' | done |].
  intros m' e He Hme Hk' Ho. exists m'. split; [done|]. split; [done|]. intros k Hki.
  destruct (decide (k = i)) as [->|Hne]; [by exists e|].
  destruct (Hm k) as (f & Hf & Hmf); [lia|]. exists f. rewrite Ho; [done|].
  intros E. apply Hne, Hinj; (done || lia).
Qed.

(** ** intr_init *)

(** The chips of the old controller, masked and out of the way. *)
Definition pic_off (base casc : Z) (p : i8259) : Prop :=
  icw p = Operational /\ imr p = 0xff /\ vector_base p = base /\ cascade p = casc /\ mode p = 1.

Lemma pic_init_run s : pic_inited s = false -> exists p1 p2,
  pic_init s = Ok tt (w_pic (pic_irqmask s) true (w_pics p1 p2 s)) /\
  pic_off T_IRQ0 4 p1 /\ pic_off (T_IRQ0 + 8) 2 p2.
Proof.
  destruct s as [[[] ? ? ? ? ?] [[] ? ? ? ? ?]]; cbn; intros ->;
    (eexists _, _; split; [vm_compute; reflexivity | done]).
Qed.

(** What intr_init leaves of the state [s] it starts from. *)
Record intr_ready (ticks : Z) (s s' : state) : Prop := {
  ready_flags : using_apic s' = true /\ intr_inited s' = true;
  ready_idt : user_gates (idt s') /\ idt_loaded s' = true;
  ready_pics : pic_off T_IRQ0 4 (pic1 s') /\ pic_off (T_IRQ0 + 8) 2 (pic2 s');
  ready_lapic : lapic s' = lapic s /\ lapic_ready ticks (lregs s');
  ready_ioapics : ioapics s' = ioapics s /\ gsi s' = gsi s /\ ioapic_num s' = ioapic_num s;
  ready_masked : keeps s (mmio s') /\ all_masked s (mmio s');
  ready_disk : disk_ioapic s' = disk_ioapic s
}.

Lemma intr_init_wp fuel handler edx as_ last_ r1 r2 s (Q : unit -> state -> Prop) :
  Z.testbit edx 9 = true -> pic_inited s = false -> lapic s <> 0 ->
  ioapics_ok s -> (forall i, 0 <= i < ioapic_num s -> ioapics s !!! i <> 0) ->
  lapic_attempts fuel as_ last_ ->
  in61 s = concat (Clock.a_in61 <$> as_ ++ [last_]) ++ r1 ->
  tccr s = concat (Clock.a_reads <$> as_ ++ [last_]) ++ r2 ->
  (forall s', intr_ready (lapic_ticks last_) s s' -> Q tt s') ->
  wp (intr_init fuel handler edx true) Q s.
Proof.
  intros He Hp Hl Hio H0 Hat H1 H2 HQ. unfold intr_init.
  destruct (pic_init_run s Hp) as (p1 & p2 & E & P1 & P2). apply wp_bind. eapply wp_intro; [exact E|].
  replace (negb (Z.land edx CPUID_FEATURE_APIC =? 0)) with true; last first.
  { symmetry. apply negb_true_iff, Z.eqb_neq. intros Hz. apply (f_equal (fun z => Z.testbit z 9)) in Hz.
    by rewrite Z.land_spec, He in Hz. }
  apply wp_bind, wp_modify, wp_bind, wp_kassert; [done|]. cbn [when]. apply wp_bind, wp_bind.
  apply ioapic_init_wp; [exact Hio | exact H0|]. intros m Hk Hm.
  eapply lapic_init_wp; [exact Hl | exact Hat | exact H1 | exact H2|]. intros r t Hr.
  match goal with |- wp _ _ ?x => destruct (intr_init_idt_run handler x) as (g & Eg & Hg) end.
  apply wp_bind. eapply wp_intro; [exact Eg|]. apply wp_modify, HQ. by split.
Qed.

(** intr_init on the boot processor of a machine with a local APIC and I/O
    APICs: it returns with the old controllers off, every line of every I/O
    APIC masked, the local APIC timer running at the calibrated rate, and the
    descriptor table loaded with the gates of [idt_user_gates]. *)
Theorem intr_init_correct fuel handler edx as_ last_ r1 r2 s :
  Z.testbit edx 9 = true -> pic_inited s = false -> lapic s <> 0 ->
  ioapics_ok s -> (forall i, 0 <= i < ioapic_num s -> ioapics s !!! i <> 0) ->
  lapic_attempts fuel as_ last_ ->
  in61 s = concat (Clock.a_in61 <$> as_ ++ [last_]) ++ r1 ->
  tccr s = concat (Clock.a_reads <$> as_ ++ [last_]) ++ r2 ->
  exists s', intr_init fuel handler edx true s = Ok tt s' /\ intr_ready (lapic_ticks last_) s s'.
Proof.
  intros He Hp Hl Hio H0 Hat H1 H2.
  cut (wp (intr_init fuel handler edx true) (fun _ => intr_ready (lapic_ticks last_) s) s).
  { intros ([] & s' & E & H)%wp_run. eauto. }
  by eapply intr_init_wp.
Qed.

(** Without a local APIC the machine stops. *)
Theorem intr_init_no_apic fuel handler edx b s :
  Z.testbit edx 9 = false -> intr_init fuel handler edx b s = Err (Panic "using_apic == TRUE").
Proof.
  intros He. unfold intr_init.
  assert (E : exists s1, pic_init s = Ok tt s1).
  { destruct (pic_inited s) eqn:Ei; [|destruct (pic_init_run s Ei) as (? & ? & E & _); eauto].
    exists s. unfold pic_init. krun. by rewrite Ei. }
  destruct E as [s1 E]. rewrite (bind_Ok _ _ _ _ _ E). krun.
  replace (Z.land edx CPUID_FEATURE_APIC =? 0) with true; [done|].
  symmetry. apply Z.eqb_eq, Z.bits_inj'. intros n Hn. rewrite Z.land_spec, Z.bits_0.
  unfold CPUID_FEATURE_APIC. rewrite Z.pow2_bits_eqb by lia.
  destruct (Z.eqb_spec 9 n) as [<-|]; [by rewrite He | apply andb_false_r].
Qed.

(** ** Enabling lines

    The lines [on] of an I/O APIC are enabled, edge triggered, at vector 32 plus
    their number for the processor [dest]; the others are masked. *)
Definition lines_ok (dest : Z) (on : list Z) (d : ioapic_dev) : Prop := forall j, 0 <= j < entries d ->
  ioregs d !!! (REG_TABLE + 2 * j) = (if decide (j ∈ on) then T_IRQ0 + j else Z.lor INT_DISABLED (T_IRQ0 + j)) /\
  ioregs d !!! (REG_TABLE + 2 * j + 1) = (if decide (j ∈ on) then u32 (Z.shiftl dest 24) else 0).

Lemma masked_lines dest d : masked d -> lines_ok dest [] d.
Proof. intros H j Hj. rewrite !decide_False by apply not_elem_of_nil. by apply H. Qed.

(** The first I/O APIC takes the sixteen old lines. *)
Record routes (dest : Z) (on : list Z) (s : state) : Prop := {
  ro_apic : using_apic s = true;
  ro_ok : ioapics_ok s;
  ro_num : 0 < ioapic_num s;
  ro_null : mmio s !! 0 = None;
  ro_gsi : gsi s !!! 0 = 0;
  ro_lines : exists d, mmio s !! (ioapics s !!! 0) = Some d /\ 16 <= entries d /\ lines_ok dest on d
}.

Lemma entry_lo_edge irq : entry_lo irq false false = T_IRQ0 + irq.
Proof. reflexivity. Qed.

Lemma intr_enable_wp ncpu lapicid irq on s (Q : unit -> state -> Prop) :
  0 < ncpu -> 0 <= irq < 16 -> routes (lapicid 0) on s ->
  (forall m, routes (lapicid 0) (irq :: on) (w_mmio m (lowmem s) s) -> Q tt (w_mmio m (lowmem s) s)) ->
  wp (intr_enable ncpu lapicid irq 0) Q s.
Proof.
  intros Hn Hi [Ha Hok Hnum Hnull Hg (d & Hd & He & Hl)] HQ. unfold intr_enable. apply wp_bind, wp_kassert; [lia|].
  destruct (Z.leb_spec 24 irq); [lia|]. apply wp_bind, wp_gets. rewrite Ha. cbn [Z.eqb].
  destruct (ioapic_enable_correct s irq (lapicid 0) false false 0 d) as (s' & E & Ef & Hr); [done | lia | | lia | done |].
  { exists d. rewrite Hg. split; [done|]. unfold entries in He. lia. }
  eapply wp_intro; [exact E|]. rewrite Hg, Z.sub_0_r, entry_lo_edge in Hr. rewrite Ef. apply HQ.
  assert (Hdev : forall b, is_Some (mmio s !! b) -> is_Some (mmio s' !! b)).
  { intros b [e Hb]. specialize (Hr b). unfold regs_of in Hr. rewrite Hb in Hr.
    destruct (mmio s' !! b); [by eexists|]. by case_decide. }
  split; [done | | done | | done |].
  - destruct Hok as (H1 & H2 & H3). split_and!; [exact (proj1 H1) | exact (proj2 H1) | | exact H3].
    intros i Hi'. apply Hdev, H2, Hi'.
  - specialize (Hr 0). unfold regs_of in Hr. rewrite Hnull, decide_False in Hr by congruence.
    cbn [mmio w_mmio]. by destruct (mmio s' !! 0).
  - cbn [mmio ioapics w_mmio]. destruct (Hdev (ioapics s !!! 0)) as [d' Hd']; [by eexists|]. exists d'.
    specialize (Hr (ioapics s !!! 0)). unfold regs_of in Hr. rewrite Hd', decide_True in Hr by done.
    injection Hr as Hr. assert (Hent : entries d' = entries d).
    { unfold entries. rewrite Hr. unfold REG_TABLE, REG_VER. by rewrite !lookup_total_insert_ne by lia. }
    split; [done|]. split; [lia|]. intros j Hj. rewrite Hent in Hj. rewrite Hr. unfold entry_hi.
    destruct (decide (j = irq)) as [->|Hne].
    + rewrite !decide_True by apply list_elem_of_here.
      rewrite lookup_total_insert_eq, lookup_total_insert_ne, lookup_total_insert_eq by lia. done.
    + rewrite !lookup_total_insert_ne by lia. destruct (Hl j Hj) as [-> ->].
      destruct (decide (j ∈ on)) as [Hin|Hin].
      * by rewrite !decide_True by (by apply list_elem_of_further).
      * by rewrite !decide_False by (by intros [?|?]%elem_of_cons).
Qed.

(** After intr_init no line is enabled. *)
Lemma ready_routes ticks dest s s' d :
  intr_ready ticks s s' -> ioapics_ok s -> 0 < ioapic_num s -> gsi s !!! 0 = 0 ->
  mmio s !! 0 = None -> mmio s !! (ioapics s !!! 0) = Some d -> 16 <= entries d -> routes dest [] s'.
Proof.
  intros [[Ha _] _ _ _ (Ei & Eg & En) [[Hk Hk0] Hm] _] (Hn & Hp & Hinj) H0 Hg Hnull Hd He.
  split; [done | | by rewrite En | by apply Hk0 | by rewrite Eg |].
  - split_and!; rewrite ?En, ?Ei; try lia; [|done].
    intros i Hi. destruct (Hp i Hi) as [e Hi']. destruct (Hk _ _ Hi') as (e' & -> & _). by eexists.
  - rewrite Ei. destruct (Hm 0) as (e & He' & Hme); [lia|]. destruct (Hk _ _ Hd) as (e2 & He2 & Hv).
    rewrite He' in He2. injection He2 as <-. exists e. split; [done|]. split; [|by apply masked_lines].
    unfold entries in *. by rewrite Hv.
Qed.

(** A machine: one I/O APIC with 24 lines, a local APIC timer that counts 3000
    between two polls, 1000 of which fit into the countdown. *)
Definition countdown : Clock.attempt :=
  Clock.Attempt 0 (2 ^ 32 - 6) ((fun i => (0x10, 2 ^ 32 - 6 - 3000 * Z.of_nat i)) <$> seq 1 1000) 0x30.
Definition machine : state :=
  w_streams (Clock.a_in61 countdown) (Clock.a_reads countdown) (w_lapic 0xFEE00000 ∅ [] demo).

Lemma countdown_ok : lapic_attempts 2000 [] countdown /\ lapic_ticks countdown = 300000.
Proof.
  assert (E : lapic_rate countdown = Some 300000) by (vm_compute; reflexivity).
  unfold lapic_ticks, lapic_attempts. rewrite E. split_and!; [| done | | done].
  - unfold Clock.attempt_ok, Clock.wf_attempt. refine (bool_decide_unpack _ _). vm_compute. exact I.
  - left. split; [by eexists | cbn; lia].
Qed.

Lemma intr_init_correct_witness :
  exists s', intr_init 2000 (fun _ => 0x100000) (2 ^ 9) true machine = Ok tt s' /\ lregs s' !!! LAPIC_TICR = 300000.
Proof.
  destruct countdown_ok as [Hc Ht].
  destruct (intr_init_correct 2000 (fun _ => 0x100000) (2 ^ 9) [] countdown [] [] machine) as (s' & E & H).
  - reflexivity.
  - reflexivity.
  - discriminate.
  - exact demo_ok.
  - intros i Hi. change (ioapic_num machine) with 1 in Hi. replace i with 0 by lia. discriminate.
  - exact Hc.
  - cbn [in61 machine w_streams concat app fmap list_fmap]. by rewrite !app_nil_r.
  - cbn [tccr machine w_streams concat app fmap list_fmap]. by rewrite !app_nil_r.
  - exists s'. split; [exact E|]. destruct H as [_ _ _ [_ (_ & _ & _ & HT & _)] _ _ _]. rewrite HT, Ht. reflexivity.
Defined.

Lemma intr_init_no_apic_witness :
  intr_init 1 (fun _ => 0) 0 true machine = Err (Panic "using_apic == TRUE").
Proof. exact (intr_init_no_apic 1 (fun _ => 0) 0 true machine eq_refl). Defined.

End Apic.
