(* ===== verification/Sound.v ===== *)
(** * The sound card (kern/dev/sb16.c)

    The processor's view of the I/O ports: what is read from a port comes from
    the input stream of that port, and the writes are recorded in order.
    sb16_init is meant to reset a Sound Blaster at port 0x220, to switch it to
    extended mode and to give it an interrupt and a DMA channel.  The theorem
    gives the writes the code makes: [outb] takes the port first, and the code
    passes the data first. *)

From S2P Require Import Prelude.

Module Sb16.

Record state : Type := State { ins : gmap Z (list Z); outs : list (Z * Z) }.

(** [outb(int port, uint8_t data)] and [inb(int port)] of kern/lib/x86.c; the
    instructions use the low 16 bits of the port. *)
Definition outb (port data : Z) : K state unit :=
  modify (fun s => State (ins s) (outs s ++ [(u16 port, u8 data)])).
Definition inb (port : Z) : K state Z :=
  l ← gets (fun s => ins s !!! u16 port);
  match l with
  | [] => fail Block
  | v :: l' => modify (fun s => State (<[u16 port := l']> (ins s)) (outs s)) ;; mret (u8 v)
  end.

(** [while (!(inb(port) & 0x80)) continue;] and [while (inb(port) & 0x80) continue;] *)
Definition wait_assert (fuel : nat) (port : Z) : K state unit :=
  loop fuel (fun _ : unit =>
    v ← inb port; if Z.land v 0x80 =? 0 then mret (inl tt) else mret (inr tt)) tt.
Definition wait_deassert (fuel : nat) (port : Z) : K state unit :=
  loop fuel (fun _ : unit =>
    v ← inb port; if negb (Z.land v 0x80 =? 0) then mret (inl tt) else mret (inr tt)) tt.

Definition sb16_init (fuel : nat) : K state unit :=
  outb 0x01 0x0226 ;;
  inb 0x0226 ;;
  outb 0x00 0x0226 ;;
  wait_assert fuel 0x022e ;;
  inb 0x022a ;;
  outb 0xc6 0x022c ;;
  inb 0x022a ;;
  wait_deassert fuel 0x022c ;;
  outb 0xb1 0x022c ;;
  wait_deassert fuel 0x022c ;;
  outb 0x14 0x022c ;;
  wait_deassert fuel 0x022c ;;
  outb 0xb2 0x022c ;;
  wait_deassert fuel 0x022c ;;
  outb 0x18 0x022c ;;
  inb 0x022c ;;
  mret tt.

(** The writes of a run, in order: port and data. *)
Definition sb16_writes : list (Z * Z) :=
  [(0x01, 0x26); (0x00, 0x26); (0xc6, 0x2c); (0xb1, 0x2c); (0x14, 0x2c); (0xb2, 0x2c); (0x18, 0x2c)].

(** The ports of the card. *)
Definition sb16_port (p : Z) : Prop := 0x220 <= p <= 0x22f.

(** What the code does with a card that answers: [v1], [v2], [v3], [v4] are the
    plain reads, [up] the readings of 0x22e before bit 7 is set, [d1] .. [d4]
    the readings of 0x22c before bit 7 is clear.  *)
Definition busy (b : bool) (l : list Z) : Prop :=
  Forall (fun v => Z.testbit v 7 = b) l.

Lemma land_bit7 v : (Z.land v 0x80 =? 0) = negb (Z.testbit v 7).
Proof.
  change 0x80 with (2 ^ 7). rewrite Z.land_comm.
  destruct (Z.testbit v 7) eqn:E; cbn [negb].
  - apply Z.eqb_neq. intros H. apply (f_equal (fun z => Z.testbit z 7)) in H.
    by rewrite Z.land_spec, E in H.
  - apply Z.eqb_eq, Z.bits_inj'. intros n Hn. rewrite Z.land_spec, Z.bits_0.
    rewrite Z.pow2_bits_eqb by lia. destruct (Z.eqb_spec 7 n) as [<-|]; [by rewrite E | done].
Qed.

Lemma testbit7_u8 v : Z.testbit (u8 v) 7 = Z.testbit v 7.
Proof. unfold u8. by rewrite Z.mod_pow2_bits_low by lia. Qed.

Lemma inb_run port v l I o :
  0 <= port < 2 ^ 16 -> I !!! port = v :: l ->
  inb port (State I o) = Ok (u8 v) (State (<[port := l]> I) o).
Proof.
  intros Hp H. unfold inb, mbind, K_bind, gets; cbn.
  replace (u16 port) with port by (symmetry; apply Z.mod_small; lia). by rewrite H.
Qed.

(** The two waiting loops read up to the first reading with bit 7 as wanted. *)
Lemma wait_loop port (want : bool) x rest l o : forall f I,
  0 <= port < 2 ^ 16 -> (length l < f)%nat -> busy (negb want) l -> Z.testbit x 7 = want ->
  I !!! port = l ++ x :: rest ->
  loop f (fun _ : unit => v ← inb port;
    if (if want then Z.land v 0x80 =? 0 else negb (Z.land v 0x80 =? 0))
    then mret (inl tt) else mret (inr tt)) tt (State I o) =
  Ok tt (State (<[port := rest]> I) o).
Proof.
  induction l as [|v l IH]; intros f I Hp Hf Hb Hx HI; destruct f as [|f]; cbn [length] in Hf; try lia;
    cbn [loop]; rewrite bind_assoc; cbn [app] in HI; erewrite bind_Ok by (by apply inb_run);
    rewrite land_bit7, testbit7_u8.
  - rewrite Hx. by destruct want.
  - apply Forall_cons in Hb as [Hv Hb]. rewrite Hv.
    replace (if want then _ else _) with true by (by destruct want). rewrite bind_ret_l.
    rewrite IH by (done || lia || by rewrite lookup_total_insert_eq). by rewrite insert_insert_eq.
Qed.

Lemma wait_assert_run f port l x rest I o :
  0 <= port < 2 ^ 16 -> (length l < f)%nat -> busy false l -> Z.testbit x 7 = true ->
  I !!! port = l ++ x :: rest -> wait_assert f port (State I o) = Ok tt (State (<[port := rest]> I) o).
Proof. intros. by apply (wait_loop port true x rest l). Qed.

Lemma wait_deassert_run f port l x rest I o :
  0 <= port < 2 ^ 16 -> (length l < f)%nat -> busy true l -> Z.testbit x 7 = false ->
  I !!! port = l ++ x :: rest -> wait_deassert f port (State I o) = Ok tt (State (<[port := rest]> I) o).
Proof. intros. by apply (wait_loop port false x rest l). Qed.

Lemma outb_run port data I o : 0 <= port < 2 ^ 16 ->
  outb port data (State I o) = Ok tt (State I (o ++ [(port, u8 data)])).
Proof. intros. unfold outb, modify; cbn. unfold u16. by rewrite Z.mod_small by lia. Qed.

Ltac sb_look := repeat first [rewrite lookup_total_insert_eq; cbn [app]; reflexivity
  | rewrite lookup_total_insert_ne by lia]; eassumption.
Ltac sb_step := lazymatch goal with
  | |- context [(outb _ _ ≫= _) _] => erewrite bind_Ok by (apply outb_run; lia)
  | |- context [(inb _ ≫= _) _] => erewrite bind_Ok by (apply inb_run; [lia | sb_look])
  | |- context [(wait_assert _ _ ≫= _) _] =>
      erewrite bind_Ok by (eapply wait_assert_run; [lia | | | | sb_look]; eassumption)
  | |- context [(wait_deassert _ _ ≫= _) _] =>
      erewrite bind_Ok by (eapply wait_deassert_run; [lia | | | | sb_look]; eassumption)
  end.

(** On a card that answers every poll in the end, sb16_init returns, and none
    of its writes is to a port of the card: it writes 0x26 and 0x2c, the low
    bytes of the ports it means, to the ports 0x01, 0x00, 0xc6, 0xb1, 0x14,
    0xb2 and 0x18, which belong to the DMA controllers and the like. *)
Theorem sb16_init_misses_card fuel I o v r226 up x r22e a b r22a d1 y1 d2 y2 d3 y3 d4 y4 z r22c :
  I !!! 0x226 = v :: r226 -> I !!! 0x22e = up ++ x :: r22e -> I !!! 0x22a = a :: b :: r22a ->
  I !!! 0x22c = d1 ++ y1 :: d2 ++ y2 :: d3 ++ y3 :: d4 ++ y4 :: z :: r22c ->
  (length up < fuel)%nat -> busy false up -> Z.testbit x 7 = true ->
  Forall (fun p => (length p.1 < fuel)%nat /\ busy true p.1 /\ Z.testbit p.2 7 = false)
    [(d1, y1); (d2, y2); (d3, y3); (d4, y4)] ->
  (exists I', sb16_init fuel (State I o) = Ok tt (State I' (o ++ sb16_writes))) /\
  Forall (fun w => ~ sb16_port w.1) sb16_writes.
Proof.
  intros H1 H2 H3 H4 Hup Bup Hx Hd.
  split; [|unfold sb16_port; repeat constructor; cbn; lia].
  apply Forall_cons in Hd as [(? & ? & ?) Hd]. apply Forall_cons in Hd as [(? & ? & ?) Hd].
  apply Forall_cons in Hd as [(? & ? & ?) Hd]. apply Forall_cons in Hd as [(? & ? & ?) _].
  cbn [fst snd] in *. eexists. unfold sb16_init. do 16 sb_step. rewrite <- !app_assoc. reflexivity.
Qed.

Lemma sb16_init_misses_card_witness :
  (exists I', sb16_init 3 (State (<[0x226 := [0]]> (<[0x22e := [0; 0x80]]> (<[0x22a := [0; 0]]>
     (<[0x22c := [0xff; 0; 0; 0; 0; 0]]> ∅)))) []) = Ok tt (State I' sb16_writes)) /\
  Forall (fun w => ~ sb16_port w.1) sb16_writes.
Proof.
  refine (sb16_init_misses_card 3 _ [] 0 [] [0] 0x80 [] 0 0 [] [0xff] 0 [] 0 [] 0 [] 0 0 [] _ _ _ _ _ _ _ _);
    try reflexivity; try (cbn; lia); unfold busy; repeat constructor; cbn; lia.
Defined.

End Sb16.
