(* ===== verification/Console.v ===== *)
(** * The console (kern/dev/console.c, serial.c, keyboard.c, video.c)

    Input goes from the serial line and the keyboard through one ring buffer;
    output goes to both the serial line and the screen.  The hardware is
    modelled at the registers the drivers use: the serial chip with its line
    status, the queue of received bytes and the bytes sent; the keyboard
    controller with its queue of scan codes; the 6845 with the cursor
    registers; words of memory, which hold the screen.  [tx_time] is how often
    the line status has to be polled until the serial chip can send again. *)

From S2P Require Import Prelude Spinlock Bytes Printfmt Printf.

Module Console.
Import Printfmt Printf.

Definition BUFLEN : Z := 1024.
Definition CRT_ROWS : Z := 25.
Definition CRT_COLS : Z := 80.
Definition CRT_SIZE : Z := CRT_ROWS * CRT_COLS.
Definition MONO_BASE : Z := 0x3B4.
Definition MONO_BUF : Z := 0xB0000.
Definition CGA_BASE : Z := 0x3D4.
Definition CGA_BUF : Z := 0xB8000.
#[export] Hint Unfold CONSOLE_BUFFER_SIZE BUFLEN CRT_ROWS CRT_COLS CRT_SIZE : kconst.

(** ** Devices *)

Record uart : Type := Uart {
  present : bool; rx : list Z; busy : nat; tx : list Z;
  ier : Z; lcr : Z; mcr : Z; fcr : Z; dll : Z; dlm : Z
}.
Record crtc : Type := Crtc { color : bool; index : Z; cursor_hi : Z; cursor_lo : Z }.

Record video : Type := Video { crt_buf : Z; crt_pos : Z; addr_6845 : Z; chip : crtc; words : gmap Z Z }.

Record cons : Type := Cons { cbuf : list Z; rpos : Z; wpos : Z }.

Record state : Type := State {
  con : cons; cons_lk : spinlock_t; linebuf : list Z;
  serial_exists : bool; com1 : uart;
  shift : Z; kbd : list Z; reset : bool;
  terminal : video; serial_lk : spinlock_t; debug_lk : spinlock_t
}.
Definition s_con v s := State v (cons_lk s) (linebuf s) (serial_exists s) (com1 s) (shift s) (kbd s) (reset s) (terminal s) (serial_lk s) (debug_lk s).
Definition s_cons_lk v s := State (con s) v (linebuf s) (serial_exists s) (com1 s) (shift s) (kbd s) (reset s) (terminal s) (serial_lk s) (debug_lk s).
Definition s_linebuf v s := State (con s) (cons_lk s) v (serial_exists s) (com1 s) (shift s) (kbd s) (reset s) (terminal s) (serial_lk s) (debug_lk s).
Definition s_exists v s := State (con s) (cons_lk s) (linebuf s) v (com1 s) (shift s) (kbd s) (reset s) (terminal s) (serial_lk s) (debug_lk s).
Definition s_com1 v s := State (con s) (cons_lk s) (linebuf s) (serial_exists s) v (shift s) (kbd s) (reset s) (terminal s) (serial_lk s) (debug_lk s).
Definition s_kbd sh k r s := State (con s) (cons_lk s) (linebuf s) (serial_exists s) (com1 s) sh k r (terminal s) (serial_lk s) (debug_lk s).
Definition s_terminal v s := State (con s) (cons_lk s) (linebuf s) (serial_exists s) (com1 s) (shift s) (kbd s) (reset s) v (serial_lk s) (debug_lk s).
Definition s_serial_lk v s := State (con s) (cons_lk s) (linebuf s) (serial_exists s) (com1 s) (shift s) (kbd s) (reset s) (terminal s) v (debug_lk s).
Definition s_debug_lk v s := State (con s) (cons_lk s) (linebuf s) (serial_exists s) (com1 s) (shift s) (kbd s) (reset s) (terminal s) (serial_lk s) v.

Definition con_lens : lens state cons := Lens con s_con.
Definition cons_lk_lens : lens state spinlock_t := Lens cons_lk s_cons_lk.
Definition com1_lens : lens state uart := Lens com1 s_com1.
Definition terminal_lens : lens state video := Lens terminal s_terminal.
Definition serial_lk_lens : lens state spinlock_t := Lens serial_lk s_serial_lk.
Definition debug_lk_lens : lens state spinlock_t := Lens debug_lk s_debug_lk.

(** ** The tables of keyboard.c *)

Definition SHIFT : Z := 1.
Definition CTL : Z := 2.
Definition ALT : Z := 4.
Definition CAPSLOCK : Z := 8.
Definition NUMLOCK : Z := 16.
Definition SCROLLLOCK : Z := 32.
Definition E0ESC : Z := 64.
Definition KEY_DEL : Z := 0xE9.

(** An array with an initialiser list, some of it by designators; the rest is
    0. *)
Definition keymap (low : list Z) (ext : list (Z * Z)) (i : Z) : Z :=
  match list_find (fun p => p.1 = i) ext with
  | Some (_, p) => p.2
  | None => low !!! Z.to_nat i
  end.

Definition shiftcode (i : Z) : Z :=
  keymap [] [(0x1D, CTL); (0x2A, SHIFT); (0x36, SHIFT); (0x38, ALT); (0x9D, CTL); (0xB8, ALT)] i.
Definition togglecode (i : Z) : Z :=
  keymap [] [(0x3A, CAPSLOCK); (0x45, NUMLOCK); (0x46, SCROLLLOCK)] i.
Definition normalmap_low : list Z :=
  [0; 27; 49; 50; 51; 52; 53; 54; 55; 56; 57; 48; 45; 61; 8; 9;
   113; 119; 101; 114; 116; 121; 117; 105; 111; 112; 91; 93; 10; 0; 97; 115;
   100; 102; 103; 104; 106; 107; 108; 59; 39; 96; 0; 92; 122; 120; 99; 118;
   98; 110; 109; 44; 46; 47; 0; 42; 0; 32; 0; 0; 0; 0; 0; 0;
   0; 0; 0; 0; 0; 0; 0; 55; 56; 57; 45; 52; 53; 54; 43; 49;
   50; 51; 48; 46; 0; 0; 0; 0].
Definition normalmap (i : Z) : Z :=
  keymap normalmap_low [(0xC7, 0xE0); (0x9C, 10); (0xB5, 47); (0xC8, 0xE2); (0xC9, 0xE6); (0xCB, 0xE4); (0xCD, 0xE5); (0xCF, 0xE1); (0xD0, 0xE3); (0xD1, 0xE7); (0xD2, 0xE8); (0xD3, 0xE9)] i.

Definition shiftmap_low : list Z :=
  [0; 27; 33; 64; 35; 36; 37; 94; 38; 42; 40; 41; 95; 43; 8; 9;
   81; 87; 69; 82; 84; 89; 85; 73; 79; 80; 123; 125; 10; 0; 65; 83;
   68; 70; 71; 72; 74; 75; 76; 58; 34; 126; 0; 124; 90; 88; 67; 86;
   66; 78; 77; 60; 62; 63; 0; 42; 0; 32; 0; 0; 0; 0; 0; 0;
   0; 0; 0; 0; 0; 0; 0; 55; 56; 57; 45; 52; 53; 54; 43; 49;
   50; 51; 48; 46; 0; 0; 0; 0].
Definition shiftmap (i : Z) : Z :=
  keymap shiftmap_low [(0xC7, 0xE0); (0x9C, 10); (0xB5, 47); (0xC8, 0xE2); (0xC9, 0xE6); (0xCB, 0xE4); (0xCD, 0xE5); (0xCF, 0xE1); (0xD0, 0xE3); (0xD1, 0xE7); (0xD2, 0xE8); (0xD3, 0xE9)] i.

Definition ctlmap_low : list Z :=
  [0; 0; 0; 0; 0; 0; 0; 0; 0; 0; 0; 0; 0; 0; 0; 0;
   17; 23; 5; 18; 20; 25; 21; 9; 15; 16; 0; 0; 13; 0; 1; 19;
   4; 6; 7; 8; 10; 11; 12; 0; 0; 0; 0; 28; 26; 24; 3; 22;
   2; 14; 13; 0; 0; 239; 0; 0].
Definition ctlmap (i : Z) : Z :=
  keymap ctlmap_low [(0x97, 0xE0); (0xB5, 0xEF); (0xC8, 0xE2); (0xC9, 0xE6); (0xCB, 0xE4); (0xCD, 0xE5); (0xCF, 0xE1); (0xD0, 0xE3); (0xD1, 0xE7); (0xD2, 0xE8); (0xD3, 0xE9)] i.

Definition charcode (m : Z) : Z -> Z :=
  if m =? 0 then normalmap else if m =? 1 then shiftmap else ctlmap.

Section ops.
Context (tx_time : nat) (ks : kstack).

(** The registers of the serial chip at COM1 + [r]. *)
Definition COM_LSR_DATA : Z := 0x01.
Definition COM_LSR_TXRDY : Z := 0x20.

Definition u_rx v u := Uart (present u) v (busy u) (tx u) (ier u) (lcr u) (mcr u) (fcr u) (dll u) (dlm u).
Definition u_busy v u := Uart (present u) (rx u) v (tx u) (ier u) (lcr u) (mcr u) (fcr u) (dll u) (dlm u).

Definition lsr (u : uart) : Z :=
  if present u then
    Z.lor (match rx u with [] => 0 | _ => COM_LSR_DATA end) (match busy u with O => COM_LSR_TXRDY | _ => 0 end)
  else 0xFF.

Definition inb_lsr : K uart Z := fun u => Ok (lsr u) (u_busy (pred (busy u)) u).
Definition inb_rx : K uart Z := fun u =>
  match rx u with c :: l => Ok c (u_rx l u) | [] => Ok 0 u end.
Definition inb_iir : K uart Z := mret 1.

Definition outb_com1 (r v : Z) : K uart unit := modify (fun u =>
  let v := u8 v in
  let dlab := Z.testbit (lcr u) 7 in
  if r =? 0 then
    if dlab then Uart (present u) (rx u) (busy u) (tx u) (ier u) (lcr u) (mcr u) (fcr u) v (dlm u)
    else Uart (present u) (rx u) tx_time (tx u ++ [v]) (ier u) (lcr u) (mcr u) (fcr u) (dll u) (dlm u)
  else if r =? 1 then
    if dlab then Uart (present u) (rx u) (busy u) (tx u) (ier u) (lcr u) (mcr u) (fcr u) (dll u) v
    else Uart (present u) (rx u) (busy u) (tx u) v (lcr u) (mcr u) (fcr u) (dll u) (dlm u)
  else if r =? 2 then Uart (present u) (if Z.testbit v 1 then [] else rx u) (busy u) (tx u) (ier u) (lcr u) (mcr u) v (dll u) (dlm u)
  else if r =? 3 then Uart (present u) (rx u) (busy u) (tx u) (ier u) v (mcr u) (fcr u) (dll u) (dlm u)
  else if r =? 4 then Uart (present u) (rx u) (busy u) (tx u) (ier u) (lcr u) v (fcr u) (dll u) (dlm u)
  else u).

(** ** serial.c *)

Definition serial_proc_data : K state Z := zoom com1_lens (
  st ← inb_lsr;
  if Z.land st COM_LSR_DATA =? 0 then mret (-1) else inb_rx).

Definition serial_reformatnewline (c : Z) : K uart bool :=
  if c =? 10 then outb_com1 0 13 ;; outb_com1 0 10 ;; mret true else mret false.

(** The wait for the transmitter gives up after 12800 polls. *)
Definition wait_tx (i : Z) : K uart (Z + unit) :=
  st ← inb_lsr;
  if (Z.land st COM_LSR_TXRDY =? 0) && (i <? 12800) then mret (inl (i + 1)) else mret (inr tt).

Definition serial_putc (c : Z) : K state unit :=
  ex ← gets serial_exists;
  if negb ex then mret tt
  else zoom com1_lens (
    loop (Z.to_nat 12802) wait_tx 0 ;;
    nl ← serial_reformatnewline c;
    if nl : bool then mret tt else outb_com1 0 c).

Definition serial_init : K state unit :=
  zoom com1_lens (
    outb_com1 1 0 ;;
    outb_com1 3 0x80 ;;
    outb_com1 0 (Z.land 0x0001 0xff) ;;
    outb_com1 1 (Z.shiftr 0x0001 8) ;;
    outb_com1 3 (Z.land 0x03 (Z.lnot 0x80)) ;;
    outb_com1 2 0xc7 ;;
    outb_com1 4 0x0b) ;;
  st ← zoom com1_lens inb_lsr;
  modify (s_exists (negb (st =? 0xFF))) ;;
  zoom com1_lens inb_iir ;;
  zoom com1_lens inb_rx ;;
  mret tt.

(** ** video.c *)

(** Words of memory; without a color adapter there is none at CGA_BUF. *)
Definition rd16 (a : Z) : K video Z := gets (fun v =>
  if negb (color (chip v)) && (CGA_BUF <=? a) && (a <? CGA_BUF + 0x8000) then 0xFFFF else words v !!! a).
Definition wr16 (a x : Z) : K video unit := modify (fun v =>
  Video (crt_buf v) (crt_pos v) (addr_6845 v) (chip v) (<[a := u16 x]> (words v))).
Definition outb_6845 (r v : Z) : K video unit := modify (fun t =>
  let c := chip t in let v := u8 v in
  Video (crt_buf t) (crt_pos t) (addr_6845 t)
    (if r =? 0 then Crtc (color c) v (cursor_hi c) (cursor_lo c)
     else if index c =? 14 then Crtc (color c) (index c) v (cursor_lo c)
     else if index c =? 15 then Crtc (color c) (index c) (cursor_hi c) v
     else c) (words t)).
Definition inb_6845 : K video Z := gets (fun t =>
  if index (chip t) =? 14 then cursor_hi (chip t)
  else if index (chip t) =? 15 then cursor_lo (chip t) else 0).

Definition set_pos (p : Z) : K video unit := modify (fun v =>
  Video (crt_buf v) (u16 p) (addr_6845 v) (chip v) (words v)).

(** [terminal.crt_buf[i] = x] *)
Definition put_cell (i x : Z) : K video unit := b ← gets crt_buf; wr16 (b + 2 * i) x.

(** Scrolling: memmove of all rows but the first, then a blank row. *)
Definition scroll : K video unit :=
  b ← gets crt_buf;
  for_ 0 (CRT_SIZE - CRT_COLS) (fun i => x ← rd16 (b + 2 * (i + CRT_COLS)); put_cell i x) ;;
  for_ (CRT_SIZE - CRT_COLS) CRT_SIZE (fun i => put_cell i (Z.lor 0x0700 32)) ;;
  p ← gets crt_pos; set_pos (p - CRT_COLS).

Definition video_putc_rec (rec : Z -> K video unit) (c : Z) : K video unit :=
  let c := if Z.land c (Z.lnot 0xFF) =? 0 then Z.lor c 0x0700 else c in
  let low := Z.land c 0xff in
  (if low =? 8 then
     p ← gets crt_pos;
     when (0 <? p) (set_pos (p - 1) ;; put_cell (p - 1) (Z.lor (Z.land c (Z.lnot 0xff)) 32))
   else if low =? 10 then
     p ← gets crt_pos; set_pos (p + CRT_COLS) ;;
     p ← gets crt_pos; set_pos (p - p mod CRT_COLS)
   else if low =? 13 then p ← gets crt_pos; set_pos (p - p mod CRT_COLS)
   else if low =? 9 then rec 32 ;; rec 32 ;; rec 32 ;; rec 32 ;; rec 32
   else p ← gets crt_pos; set_pos (p + 1) ;; put_cell p c) ;;
  (p ← gets crt_pos; when (CRT_SIZE <=? p) scroll) ;;
  outb_6845 0 14 ;;
  (p ← gets crt_pos; outb_6845 1 (Z.shiftr p 8)) ;;
  outb_6845 0 15 ;;
  (p ← gets crt_pos; outb_6845 1 p).

(** The calls for a tab put blanks, which are no tabs. *)
Definition video_putc (c : Z) : K video unit := video_putc_rec (video_putc_rec (fun _ => fail Fuel)) c.

Definition video_set_cursor (x y : Z) : K video unit := set_pos (x * CRT_COLS + y).
Definition video_clear_screen : K video unit := for_ 0 CRT_SIZE (fun i => put_cell i 32).

(** ** Output *)

Definition cons_putc (c : Z) : K state unit :=
  serial_putc c ;;
  zoom terminal_lens (video_putc c).

Definition serial_lock : K state unit := zoom serial_lk_lens (spinlock_acquire ks).
Definition serial_unlock : K state unit := zoom serial_lk_lens spinlock_release.
Definition debug_lock : K state unit := zoom debug_lk_lens (spinlock_acquire ks).
Definition debug_unlock : K state unit := zoom debug_lk_lens spinlock_release.
Definition debug_init : K state unit :=
  zoom debug_lk_lens spinlock_init ;; zoom serial_lk_lens spinlock_init.

(** [junk]: the buffer of dprintf is not initialised. *)
Context (junk : list Z).
Definition dprintf (fmt : list Z) (ap : list arg) : K state Z :=
  vdprintf cons_putc serial_lock serial_unlock junk fmt ap.
Definition debug_info (fmt : list Z) (ap : list arg) : K state unit :=
  debug_lock ;; dprintf fmt ap ;; debug_unlock.

(** ** debug.c *)

Definition debug_normal (file : list Z) (line : Z) (fmt : list Z) (ap : list arg) : K state unit :=
  debug_lock ;;
  dprintf (text "[D] %s:%d: " ++ [0]) [Arg 1 file; Arg line []] ;;
  dprintf fmt ap ;;
  debug_unlock.
Definition debug_warn (file : list Z) (line : Z) (fmt : list Z) (ap : list arg) : K state unit :=
  debug_lock ;;
  dprintf (text "[W] %s:%d: " ++ [0]) [Arg 1 file; Arg line []] ;;
  dprintf fmt ap ;;
  debug_unlock.

Definition DEBUG_TRACEFRAMES : nat := 10.
(** The return addresses of the frames that are linked from [frame], read from
    the words [mem] of memory; the rest of the array is 0. *)
Fixpoint debug_trace_from (n : nat) (mem : Z -> Z) (frame : Z) : list Z :=
  match n with
  | O => []
  | S n' => if frame =? 0 then replicate n 0
            else mem (u32 (frame + 4)) :: debug_trace_from n' mem (mem frame)
  end.
Definition debug_trace (mem : Z -> Z) (ebp : Z) : list Z := debug_trace_from DEBUG_TRACEFRAMES mem ebp.

Fixpoint print_trace (eips : list Z) : K state unit :=
  match eips with
  | [] => mret tt
  | eip :: eips =>
      if eip =? 0 then mret tt
      else dprintf ([9] ++ text "from 0x%08x" ++ [10; 0]) [Arg eip []] ;; print_trace eips
  end.
(** Up to the halt. *)
Definition debug_panic (mem : Z -> Z) (ebp : Z) (file : list Z) (line : Z) (fmt : list Z) (ap : list arg) : K state unit :=
  debug_lock ;;
  dprintf (text "[P] %s:%d: " ++ [0]) [Arg 1 file; Arg line []] ;;
  dprintf fmt ap ;;
  print_trace (debug_trace mem ebp) ;;
  dprintf (text "Kernel Panic !!!" ++ [10; 0]) [] ;;
  debug_unlock.

Definition video_init : K state unit :=
  cp ← zoom terminal_lens (
    was ← rd16 CGA_BUF;
    wr16 CGA_BUF 0xA55A ;;
    x ← rd16 CGA_BUF;
    if negb (x =? 0xA55A) then
      modify (fun v => Video (crt_buf v) (crt_pos v) MONO_BASE (chip v) (words v)) ;; mret MONO_BUF
    else
      wr16 CGA_BUF was ;;
      modify (fun v => Video (crt_buf v) (crt_pos v) CGA_BASE (chip v) (words v)) ;; mret CGA_BUF);
  a ← gets (fun s => addr_6845 (terminal s));
  dprintf (text "addr_6845:%x" ++ [10; 0]) [Arg a []] ;;
  zoom terminal_lens (
    outb_6845 0 14 ;;
    hi ← inb_6845;
    outb_6845 0 15 ;;
    lo ← inb_6845;
    modify (fun v => Video cp (u16 (Z.lor (Z.shiftl hi 8) lo)) (addr_6845 v) (chip v) (words v))).

(** ** console.c *)

Definition cons_init : K state unit :=
  modify (s_con (Cons (replicate 512 0) 0 0)) ;;
  serial_init ;;
  video_init ;;
  zoom cons_lk_lens spinlock_init.

(** One round of the loop of cons_intr; [proc] polls a device. *)
Definition intr_body (proc : K state Z) (_ : unit) : K state (unit + unit) :=
  c ← proc;
  if c =? -1 then mret (inr tt)
  else if c =? 0 then mret (inl tt)
  else
    k ← gets con;
    if (0 <=? wpos k) && (wpos k <? zlen (cbuf k)) then
      let w := u32 (wpos k + 1) in
      modify (s_con (Cons (<[Z.to_nat (wpos k) := u8 c]> (cbuf k)) (rpos k)
                       (if w =? CONSOLE_BUFFER_SIZE then 0 else w))) ;;
      mret (inl tt)
    else fail Undef.

(** [fuel] bounds how much input arrives while the loop runs. *)
Definition cons_intr (fuel : nat) (proc : K state Z) : K state unit :=
  zoom cons_lk_lens (spinlock_acquire ks) ;;
  loop fuel (intr_body proc) tt ;;
  zoom cons_lk_lens spinlock_release.

Definition serial_intr (fuel : nat) : K state unit :=
  ex ← gets serial_exists; when ex (cons_intr fuel serial_proc_data).

Definition serial_intenable (fuel : nat) : K state unit :=
  ex ← gets serial_exists;
  when ex (zoom com1_lens (outb_com1 1 1) ;; serial_intr fuel).

(** ** keyboard.c *)

(** The character for the scan code [data] that is not a prefix or a release,
    and the new modifiers. *)
Definition kbd_char (sh data : Z) : Z * Z :=
  let '(data, sh) := if Z.land sh E0ESC =? 0 then (data, sh)
                     else (Z.lor data 0x80, Z.land sh (Z.lnot E0ESC)) in
  let sh := Z.lor sh (shiftcode data) in
  let sh := Z.lxor sh (togglecode data) in
  let c := charcode (Z.land sh (Z.lor CTL SHIFT)) data in
  let c := if Z.land sh CAPSLOCK =? 0 then c
           else if (97 <=? c) && (c <=? 122) then c + (65 - 97)
           else if (65 <=? c) && (c <=? 90) then c + (97 - 65) else c in
  (c, sh).

Definition kbd_proc_data : K state Z :=
  q ← gets kbd;
  match q with
  | [] => mret (-1)
  | data :: q =>
      sh ← gets shift;
      modify (fun s => s_kbd (shift s) q (reset s) s) ;;
      if data =? 0xE0 then modify (fun s => s_kbd (Z.lor sh E0ESC) (kbd s) (reset s) s) ;; mret 0
      else if negb (Z.land data 0x80 =? 0) then
        let data := if Z.land sh E0ESC =? 0 then Z.land data 0x7F else data in
        modify (fun s => s_kbd (Z.land sh (Z.lnot (Z.lor (shiftcode data) E0ESC))) (kbd s) (reset s) s) ;;
        mret 0
      else
        let '(c, sh) := kbd_char sh data in
        modify (fun s => s_kbd sh (kbd s) (reset s) s) ;;
        when ((Z.land (Z.lnot sh) (Z.lor CTL ALT) =? 0) && (c =? KEY_DEL))
          (dprintf (text "Rebooting!" ++ [10; 0]) [] ;;
           (* outb(0x92, 3) *)
           modify (fun s => s_kbd (shift s) (kbd s) true s)) ;;
        mret c
  end.

Definition keyboard_intr (fuel : nat) : K state unit := cons_intr fuel kbd_proc_data.

(** ** Input *)

Definition cons_getc (fuel : nat) : K state Z :=
  serial_intr fuel ;;
  keyboard_intr fuel ;;
  zoom cons_lk_lens (spinlock_acquire ks) ;;
  k ← gets con;
  if negb (rpos k =? wpos k) then
    match cbuf k !! Z.to_nat (rpos k) with
    | Some c =>
        let r := u32 (rpos k + 1) in
        modify (s_con (Cons (cbuf k) (if r =? CONSOLE_BUFFER_SIZE then 0 else r) (wpos k))) ;;
        zoom cons_lk_lens spinlock_release ;;
        mret (i8 c)
    | None => fail Undef
    end
  else zoom cons_lk_lens spinlock_release ;; mret 0.

(** getchar polls until there is a character. *)
Definition getchar (fuel : nat) : K state Z :=
  c ← cons_getc fuel; if c =? 0 then fail Block else mret c.

Definition set_line (i c : Z) : K state unit := fun s =>
  if (0 <=? i) && (i <? zlen (linebuf s)) then Ok tt (s_linebuf (<[Z.to_nat i := u8 c]> (linebuf s)) s) else Err Undef.

(** The loop of readline; it leaves with whether it returns the line. *)
Definition readline_body (fuel : nat) (i : Z) : K state (Z + bool) :=
  c ← getchar fuel;
  if c <? 0 then
    dprintf (text "read error: %e" ++ [10; 0]) [Arg (u32 c) []] ;;
    mret (inr false)
  else if ((c =? 8) || (c =? 127)) && (0 <? i) then cons_putc 8 ;; mret (inl (i - 1))
  else if (32 <=? c) && (i <? BUFLEN - 1) then cons_putc c ;; set_line i c ;; mret (inl (i + 1))
  else if (c =? 10) || (c =? 13) then cons_putc 10 ;; set_line i 0 ;; mret (inr true)
  else mret (inl i).

Definition readline (fuel : nat) (prompt : option (list Z)) : K state bool :=
  match prompt with Some p => dprintf (text "%s" ++ [0]) [Arg 1 p] ;; mret tt | None => mret tt end ;;
  loop fuel (readline_body fuel) 0.
End ops.

(** ** The ring buffer is a queue *)

Record ring_ok (k : cons) : Prop := {
  ro_len : zlen (cbuf k) = CONSOLE_BUFFER_SIZE;
  ro_r : 0 <= rpos k < CONSOLE_BUFFER_SIZE;
  ro_w : 0 <= wpos k < CONSOLE_BUFFER_SIZE
}.

Definition pending (k : cons) : Z := (wpos k - rpos k) mod CONSOLE_BUFFER_SIZE.
Definition queue (k : cons) : list Z :=
  (fun i => cbuf k !!! Z.to_nat ((rpos k + i) mod CONSOLE_BUFFER_SIZE)) <$> seqZ 0 (pending k).

(** The position behind [p]. *)
Definition next (p : Z) : Z := if u32 (p + 1) =? CONSOLE_BUFFER_SIZE then 0 else u32 (p + 1).

Lemma next_mod p : 0 <= p < CONSOLE_BUFFER_SIZE -> next p = (p + 1) mod CONSOLE_BUFFER_SIZE.
Proof.
  intros Hp. unfold next. unfold CONSOLE_BUFFER_SIZE in *. rewrite u32_small by klia. case_bool.
  - by replace (p + 1) with 512 by lia.
  - by rewrite Z.mod_small by lia.
Qed.

Lemma zlen_queue k : zlen (queue k) = pending k.
Proof.
  unfold queue, zlen. rewrite length_fmap, length_seqZ. pose proof (Z.mod_pos_bound (wpos k - rpos k) 512 ltac:(done)).
  unfold pending, CONSOLE_BUFFER_SIZE. lia.
Qed.

Lemma ring_put k c : ring_ok k -> pending k < CONSOLE_BUFFER_SIZE - 1 ->
  let k' := Cons (<[Z.to_nat (wpos k) := c]> (cbuf k)) (rpos k) (next (wpos k)) in
  ring_ok k' /\ queue k' = queue k ++ [c].
Proof.
  intros [Hl Hr Hw] Hp k'. unfold k'. rewrite next_mod by done. unfold CONSOLE_BUFFER_SIZE in *. split.
  - split; cbn [cbuf rpos wpos]; [unfold zlen in *; by rewrite length_insert | done | by apply (Z.mod_pos_bound _ 512)].
  - unfold queue, pending in *. cbn [cbuf rpos wpos]. unfold CONSOLE_BUFFER_SIZE in *.
    set (n := (wpos k - rpos k) mod 512) in *. pose proof (Z.mod_pos_bound (wpos k - rpos k) 512 ltac:(done)) as Hn. fold n in Hn.
    assert (E : ((wpos k + 1) mod 512 - rpos k) mod 512 = n + 1).
    { unfold n. rewrite Zminus_mod_idemp_l. replace (wpos k + 1 - rpos k) with (wpos k - rpos k + 1) by lia.
      rewrite <- Zplus_mod_idemp_l. fold n. apply Z.mod_small. lia. }
    rewrite E. rewrite seqZ_app by lia. rewrite fmap_app. f_equal.
    + apply list_fmap_ext. intros j i Hj%lookup_seqZ. destruct Hj as [-> Hj].
      apply list_lookup_total_insert_ne. intros Ei.
      assert (Em : (rpos k + (0 + Z.of_nat j)) mod 512 = wpos k).
      { pose proof (Z.mod_pos_bound (rpos k + (0 + Z.of_nat j)) 512 ltac:(done)). lia. }
      assert (Ej : n = (0 + Z.of_nat j) mod 512).
      { unfold n. rewrite <- Em, Zminus_mod_idemp_l. f_equal. lia. }
      rewrite Z.mod_small in Ej by lia. lia.
    + rewrite Z.add_0_l, seqZ_cons, seqZ_nil by lia. cbn [fmap list_fmap]. f_equal.
      assert ((rpos k + n) mod 512 = wpos k) as ->.
      { unfold n. rewrite Zplus_mod_idemp_r. replace (rpos k + (wpos k - rpos k)) with (wpos k) by lia. by apply Z.mod_small. }
      apply list_lookup_total_insert_eq. unfold zlen in Hl. lia.
Qed.

Lemma ring_take k : ring_ok k -> rpos k <> wpos k ->
  exists c, cbuf k !! Z.to_nat (rpos k) = Some c /\
    let k' := Cons (cbuf k) (next (rpos k)) (wpos k) in ring_ok k' /\ queue k = c :: queue k'.
Proof.
  intros [Hl Hr Hw] Hne. unfold CONSOLE_BUFFER_SIZE in *.
  destruct (lookup_lt_is_Some_2 (cbuf k) (Z.to_nat (rpos k))) as [c Hc]; [unfold zlen in Hl; lia|].
  exists c. split; [done|]. cbv zeta. rewrite next_mod by done. split.
  - split; cbn [cbuf rpos wpos]; [done | by apply (Z.mod_pos_bound _ 512) | done].
  - unfold queue, pending. cbn [cbuf rpos wpos]. unfold CONSOLE_BUFFER_SIZE.
    set (n := (wpos k - rpos k) mod 512). pose proof (Z.mod_pos_bound (wpos k - rpos k) 512 ltac:(done)) as Hn. fold n in Hn.
    assert (Hn0 : n <> 0).
    { intros E. apply Hne. unfold n in E. apply Z.mod_divide in E as [q Hq]; [|done]. lia. }
    assert (E : (wpos k - (rpos k + 1) mod 512) mod 512 = n - 1).
    { rewrite Zminus_mod_idemp_r. replace (wpos k - (rpos k + 1)) with (wpos k - rpos k - 1) by lia.
      rewrite <- Zminus_mod_idemp_l. fold n. apply Z.mod_small. lia. }
    rewrite E. rewrite (seqZ_cons 0 n) by lia. cbn [fmap list_fmap]. f_equal.
    + rewrite Z.add_0_r, Z.mod_small by lia. by apply list_lookup_total_correct.
    + change (Z.succ 0) with (1 + 0). rewrite <- fmap_add_seqZ, <- list_fmap_compose.
      apply list_fmap_ext. intros j i _. cbn. rewrite Zplus_mod_idemp_l. do 3 f_equal. lia.
Qed.

Section source.
Context {R : Type} (rest : state -> R) (D : list Z -> state -> Prop) (proc : K state Z).

(** [proc] hands out the characters the device has, one a call, and -1 when
    there are none; it touches neither the ring nor [rest]. *)
Record source : Prop := {
  so_nil : forall s, D [] s -> exists s', proc s = Ok (-1) s' /\ D [] s' /\ con s' = con s /\
    cons_lk s' = cons_lk s /\ rest s' = rest s;
  so_cons : forall c l s, D (c :: l) s -> exists s', proc s = Ok c s' /\ D l s' /\ 0 <= c /\ con s' = con s /\
    cons_lk s' = cons_lk s /\ rest s' = rest s;
  so_con : forall l s k, D l s -> D l (s_con k s) /\ rest (s_con k s) = rest s;
  so_lk : forall l s k, D l s -> D l (s_cons_lk k s) /\ rest (s_cons_lk k s) = rest s
}.
Context (Hso : source) (ks : kstack) (Hks : magic ks = KSTACK_MAGIC).

Definition chars (l : list Z) : list Z := u8 <$> filter (fun c => c <> 0) l.

Lemma intr_loop l : forall fuel s, D l s -> ring_ok (con s) -> zlen (queue (con s)) + zlen (chars l) < CONSOLE_BUFFER_SIZE ->
  (length l < fuel)%nat ->
  wp (loop fuel (intr_body proc) tt) (fun _ s' => D [] s' /\ ring_ok (con s') /\
    queue (con s') = queue (con s) ++ chars l /\ cons_lk s' = cons_lk s /\ rest s' = rest s) s.
Proof.
  induction l as [|c l IH]; intros fuel s HD Hok Hroom Hf; (destruct fuel as [|fuel]; [lia|]); apply wp_loop_S; unfold intr_body.
  - destruct (so_nil Hso s HD) as (s' & E & HD' & E1 & E2 & E3). eapply wp_bind, wp_intro; [exact E|]. apply wp_ret.
    rewrite E1, app_nil_r. done.
  - destruct (so_cons Hso c l s HD) as (s' & E & HD' & Hc & E1 & E2 & E3). eapply wp_bind, wp_intro; [exact E|].
    rewrite (proj2 (Z.eqb_neq c (-1))) by lia. unfold chars in *. destruct (Z.eqb_spec c 0) as [->|Hn].
    + apply wp_ret. rewrite filter_cons_False in * by lia. rewrite <- E1, <- E2, <- E3 in *.
      by apply IH; [.. | cbn in Hf; lia].
    + rewrite filter_cons_True in * by done. rewrite fmap_cons in *.
      assert (Hz : zlen (u8 c :: (u8 <$> filter (fun c => c <> 0) l)) = 1 + zlen (u8 <$> filter (fun c => c <> 0) l))
        by (unfold zlen; cbn [length]; lia).
      assert (Hz0 : 0 <= zlen (u8 <$> filter (fun c => c <> 0) l)) by (unfold zlen; lia). rewrite Hz in Hroom.
      apply wp_bind, wp_gets. rewrite E1. destruct (ro_w _ Hok). pose proof (ro_len _ Hok) as Hl. rewrite Hl.
      bool_simp. cbn match. apply wp_bind, wp_modify, wp_ret. fold (next (wpos (con s))).
      rewrite zlen_queue in Hroom. destruct (ring_put (con s) (u8 c) Hok ltac:(lia)) as [Hok' Eq'].
      destruct (so_con Hso l s' (Cons (<[Z.to_nat (wpos (con s)) := u8 c]> (cbuf (con s))) (rpos (con s)) (next (wpos (con s)))) HD') as [HD2 E4].
      eapply wp_mono; [apply IH; [exact HD2 | exact Hok' | | cbn in Hf; lia]|].
      * cbn [con s_con]. rewrite Eq'. unfold zlen in *. rewrite length_app. cbn [length]. rewrite <- zlen_queue in Hroom. unfold zlen in Hroom. lia.
      * intros [] s2 (F1 & F2 & F3 & F4 & F5). split; [done|]. split; [done|]. cbn [con s_con] in F3.
        rewrite F3, Eq', <- app_assoc. split; [done|]. rewrite F4, F5, E4. done.
Qed.

(** cons_intr moves what the device has to the end of the queue. *)
Lemma cons_intr_wp l fuel s (Q : unit -> state -> Prop) :
  D l s -> ring_ok (con s) -> lock (cons_lk s) = 0 ->
  zlen (queue (con s)) + zlen (chars l) < CONSOLE_BUFFER_SIZE -> (length l < fuel)%nat ->
  (forall s', D [] s' -> ring_ok (con s') -> queue (con s') = queue (con s) ++ chars l ->
     lock (cons_lk s') = 0 -> rest s' = rest s -> Q tt s') ->
  wp (cons_intr ks fuel proc) Q s.
Proof.
  intros HD Hok Hlk Hroom Hf HQ. unfold cons_intr.
  apply wp_bind, wp_zoom. eapply wp_intro; [by apply spinlock_acquire_run|]. cbn [lput cons_lk_lens].
  destruct (so_lk Hso l s (Spinlock (cpu_idx ks) 1) HD) as [HD1 E1].
  apply wp_bind. eapply wp_mono; [by apply (intr_loop l fuel _ HD1)|].
  intros [] s1 (F1 & F2 & F3 & F4 & F5). apply wp_zoom. eapply wp_intro; [apply spinlock_release_run|].
  cbn [lput cons_lk_lens]. destruct (so_lk Hso [] s1 (Spinlock (NUM_CPUS + 1) 0) F1) as [HD2 E2].
  apply HQ; [done | done | exact F3 | done | congruence].
Qed.
End source.

(** ** The serial line and the keyboard as sources *)

Definition serial_has (l : list Z) (s : state) : Prop :=
  present (com1 s) = true /\ rx (com1 s) = l /\ Forall is_byte l.
Definition serial_rest (s : state) := (serial_exists s, shift s, kbd s, reset s, linebuf s, terminal s, serial_lk s, debug_lk s).

Lemma lsr_data u : present u = true -> (Z.land (lsr u) COM_LSR_DATA =? 0) = match rx u with [] => true | _ => false end.
Proof. intros H. unfold lsr. rewrite H. by destruct (rx u), (busy u). Qed.

Lemma serial_source : source serial_rest serial_has serial_proc_data.
Proof.
  split.
  - intros s (Hp & Hr & _). unfold serial_proc_data, zoom, mbind, K_bind, inb_lsr. cbn [lget com1_lens].
    rewrite lsr_data, Hr by done. eexists. split; [reflexivity|]. done.
  - intros c l s (Hp & Hr & Hb). apply Forall_cons in Hb as [Hc Hb].
    unfold serial_proc_data, zoom, mbind, K_bind, inb_lsr, inb_rx. cbn [lget com1_lens].
    rewrite lsr_data, Hr by done. cbn [rx u_busy]. rewrite Hr. eexists. split; [reflexivity|].
    split; [done|]. split; [klia | done].
  - done.
  - done.
Qed.

(** The characters, 0 for none, of a sequence of scan codes, and the modifiers
    behind it; [None] when it has a Ctrl-Alt-Del. *)
Fixpoint decode (sh : Z) (q : list Z) : option (list Z) :=
  match q with
  | [] => Some []
  | data :: q =>
      if data =? 0xE0 then app [0] <$> decode (Z.lor sh E0ESC) q
      else if negb (Z.land data 0x80 =? 0) then
        let data := if Z.land sh E0ESC =? 0 then Z.land data 0x7F else data in
        app [0] <$> decode (Z.land sh (Z.lnot (Z.lor (shiftcode data) E0ESC))) q
      else
        let '(c, sh) := kbd_char sh data in
        if (Z.land (Z.lnot sh) (Z.lor CTL ALT) =? 0) && (c =? KEY_DEL) then None else app [c] <$> decode sh q
  end.

Definition kbd_has (l : list Z) (s : state) : Prop := decode (shift s) (kbd s) = Some l.
Definition kbd_rest (s : state) := (serial_exists s, com1 s, reset s, linebuf s, terminal s, serial_lk s, debug_lk s).

Lemma keymap_nonneg low ext i : Forall (fun c => 0 <= c) low -> Forall (fun p => 0 <= p.2) ext -> 0 <= keymap low ext i.
Proof.
  intros Hl He. unfold keymap. destruct (list_find _ ext) as [[n p]|] eqn:E.
  - apply list_find_Some in E as (Hp & _). exact (Forall_lookup_1 _ _ _ _ He Hp).
  - rewrite list_lookup_total_alt. destruct (low !! _) as [c|] eqn:Ec; [exact (Forall_lookup_1 _ _ _ _ Hl Ec) | done].
Qed.

Lemma charcode_nonneg m i : 0 <= charcode m i.
Proof.
  unfold charcode. repeat case_bool; apply keymap_nonneg; repeat constructor; done || (cbn; lia).
Qed.

Lemma kbd_char_nonneg sh data : 0 <= (kbd_char sh data).1.
Proof.
  unfold kbd_char. case_match. cbn [fst]. set (c := charcode _ _). pose proof (charcode_nonneg _ _ : 0 <= c) as Hc.
  repeat case_bool; cbn [andb]; lia.
Qed.

Lemma kbd_source tx_time ks junk : source kbd_rest kbd_has (kbd_proc_data tx_time ks junk).
Proof.
  split; [| | done | done].
  - intros s H. unfold kbd_has in H. unfold kbd_proc_data. destruct (kbd s) as [|data q] eqn:Eq.
    + exists s. unfold mbind, K_bind, gets. rewrite Eq. unfold kbd_has. rewrite Eq. done.
    + exfalso. cbn [decode] in H. destruct (data =? 0xE0); [by destruct (decode _ q)|].
      destruct (negb _); [by destruct (decode _ q)|]. destruct (kbd_char _ _) as [c sh'].
      destruct (_ && _); [done|]. by destruct (decode _ q).
  - intros c l s H. unfold kbd_has in *. unfold kbd_proc_data. destruct (kbd s) as [|data q] eqn:Eq; [done|].
    erewrite bind_Ok by reflexivity. rewrite Eq. erewrite bind_Ok by reflexivity.
    erewrite bind_Ok by reflexivity. cbn [decode] in H. destruct (data =? 0xE0).
    { destruct (decode _ q) as [l'|] eqn:Ed; [|done]. injection H as <- <-. eexists. split; [reflexivity|]. done. }
    destruct (negb _).
    { destruct (decode _ q) as [l'|] eqn:Ed; [|done]. injection H as <- <-. eexists. split; [reflexivity|]. done. }
    pose proof (kbd_char_nonneg (shift s) data) as Hnn. destruct (kbd_char (shift s) data) as [c' sh'] eqn:Ek.
    destruct (_ && _) eqn:Er; [done|]. destruct (decode sh' q) as [l'|] eqn:Ed; [|done]. injection H as <- <-.
    erewrite bind_Ok by reflexivity. eexists. split; [reflexivity|]. done.
Qed.

(** ** Input *)

Section getc.
Context (tx_time : nat) (ks : kstack) (junk : list Z) (Hks : magic ks = KSTACK_MAGIC).
Abbreviation cons_getc := (cons_getc tx_time ks junk).

(** The characters waiting on the serial line. *)
Definition serial_input (s : state) : list Z := if serial_exists s then rx (com1 s) else [].

(** All input, in the order in which it is read: what the ring holds, then the
    serial line, then the keys. *)
Record input (s : state) (keys q : list Z) : Prop := {
  in_ring : ring_ok (con s);
  in_lk : lock (cons_lk s) = 0;
  in_serial : serial_exists s = true -> present (com1 s) = true;
  in_rx : Forall is_byte (rx (com1 s));
  in_keys : decode (shift s) (kbd s) = Some keys;
  in_q : q = queue (con s) ++ chars (serial_input s) ++ chars keys;
  in_room : zlen q < CONSOLE_BUFFER_SIZE
}.

Lemma serial_intr_wp fuel s keys q (Q : unit -> state -> Prop) :
  input s keys q -> (length (rx (com1 s)) < fuel)%nat ->
  (forall s', input s' keys q -> serial_input s' = [] -> shift s' = shift s -> kbd s' = kbd s -> reset s' = reset s ->
     linebuf s' = linebuf s -> (length (rx (com1 s')) <= length (rx (com1 s)))%nat -> terminal s' = terminal s -> serial_lk s' = serial_lk s -> Q tt s') ->
  wp (serial_intr ks fuel) Q s.
Proof.
  intros [I1 I2 I3 I4 I5 I6 I7] Hf HQ. unfold serial_intr. apply wp_bind, wp_gets. unfold serial_input in *.
  destruct (serial_exists s) eqn:E; cbn [when].
  - assert (Hroom : zlen (queue (con s)) + zlen (chars (rx (com1 s))) < CONSOLE_BUFFER_SIZE).
    { rewrite I6 in I7. unfold zlen in *. rewrite !length_app in I7. lia. }
    apply (cons_intr_wp serial_rest serial_has _ serial_source ks Hks (rx (com1 s))); try done; [by split_and!; auto|].
    intros s' (F1 & F2 & F3) F4 F5 F6 [= G1 G2 G3 G4 G5 G6 G7 G8].
    apply HQ; try done; [|unfold serial_input; rewrite G1, E; done | rewrite F2; cbn; lia].
    split; try done; [by rewrite F2 | by rewrite G2, G3 |]. unfold serial_input. rewrite G1, E, F2, F5, <- app_assoc.
    exact I6.
  - apply HQ; try done; [|unfold serial_input; by rewrite E].
    split; try done; [by rewrite E|]. unfold serial_input. by rewrite E.
Qed.

Lemma keyboard_intr_wp fuel s keys q (Q : unit -> state -> Prop) :
  input s keys q -> serial_input s = [] -> (length keys < fuel)%nat ->
  (forall s', input s' [] q -> serial_input s' = [] -> com1 s' = com1 s -> serial_exists s' = serial_exists s ->
     linebuf s' = linebuf s -> terminal s' = terminal s -> serial_lk s' = serial_lk s -> Q tt s') ->
  wp (keyboard_intr tx_time ks junk fuel) Q s.
Proof.
  intros [I1 I2 I3 I4 I5 I6 I7] Hs Hf HQ. unfold keyboard_intr. rewrite Hs in I6. cbn [app] in I6.
  change (chars []) with (@nil Z) in I6. cbn [app] in I6.
  apply (cons_intr_wp kbd_rest kbd_has _ (kbd_source tx_time ks junk) ks Hks keys); try done.
  { rewrite I6 in I7. unfold zlen in *. rewrite !length_app in I7. lia. }
  intros s' F1 F2 F3 F4 [= G1 G2 G3 G4 G5 G6 G7]. assert (Hs' : serial_input s' = []).
  { unfold serial_input in *. by rewrite G1, G2. }
  apply HQ; try done. split; try done; [by rewrite G1, G2 | by rewrite G2 |].
  rewrite Hs'. change (chars []) with (@nil Z). by rewrite F3, !app_nil_r.
Qed.

(** cons_getc returns the first of all input that is waiting and leaves the
    rest in the ring; it returns 0 when there is none. *)
Lemma cons_getc_wp fuel s keys q (Q : Z -> state -> Prop) :
  input s keys q -> (length (rx (com1 s)) < fuel)%nat -> (length keys < fuel)%nat ->
  (forall s', input s' [] (tail q) -> linebuf s' = linebuf s -> (length (rx (com1 s')) <= length (rx (com1 s)))%nat ->
     terminal s' = terminal s -> serial_lk s' = serial_lk s -> Q (match q with c :: _ => i8 c | [] => 0 end) s') ->
  wp (cons_getc fuel) Q s.
Proof.
  intros Hin Hf Hk HQ. unfold Console.cons_getc. apply wp_bind, (serial_intr_wp fuel s keys q); [done | done|].
  intros s1 Hin1 Hs1 _ _ _ L1 R1 T1 K1. apply wp_bind, (keyboard_intr_wp fuel s1 keys q); [done | done | done|].
  intros s2 [I1 I2 I3 I4 I5 I6 I7] Hs2 C2 _ L2 T2 K2. rewrite Hs2 in I6. change (chars []) with (@nil Z) in I6. rewrite !app_nil_r in I6.
  apply wp_bind, wp_zoom. eapply wp_intro; [by apply spinlock_acquire_run|]. cbn [lput cons_lk_lens].
  apply wp_bind, wp_gets. cbn [con s_cons_lk]. 
  assert (Hr : (length (rx (com1 s2)) <= length (rx (com1 s)))%nat) by (rewrite C2; lia).
  destruct (Z.eqb_spec (rpos (con s2)) (wpos (con s2))) as [Ee|Ee]; cbn [negb].
  - assert (q = []) as ->.
    { rewrite I6. apply nil_length_inv. pose proof (zlen_queue (con s2)) as Hz. unfold pending, zlen in Hz.
      rewrite Ee, Z.sub_diag in Hz. change (0 mod CONSOLE_BUFFER_SIZE) with 0 in Hz. lia. }
    apply wp_bind, wp_zoom. eapply wp_intro; [apply spinlock_release_run|]. apply wp_ret.
    apply HQ; [|cbn; congruence | done | cbn; congruence | cbn; congruence]. split; try done. cbn [lput cons_lk_lens tail]. unfold serial_input in *.
    cbn [con serial_exists com1 s_cons_lk] in *. rewrite Hs2. change (chars []) with (@nil Z). by rewrite !app_nil_r.
  - destruct (ring_take (con s2) I1 Ee) as (c & Hc & Hok & Eq). rewrite Hc, I6, Eq in *. subst q.
    apply wp_bind, wp_modify, wp_bind, wp_zoom. eapply wp_intro; [apply spinlock_release_run|]. apply wp_ret.
    fold (next (rpos (con s2))). apply HQ; [|cbn; congruence | done | cbn; congruence | cbn; congruence].
    split; try done; cbn [tail].
    + unfold serial_input in *. cbn [con serial_exists com1 s_cons_lk s_con lput cons_lk_lens] in *.
      rewrite Hs2. change (chars []) with (@nil Z). by rewrite !app_nil_r.
    + unfold zlen in *. cbn [length] in I7. lia.
Qed.
End getc.

(** ** The screen *)

(** Only cells of the screen change. *)
Record vstep (v v' : video) : Prop := {
  vs_buf : crt_buf v' = crt_buf v;
  vs_addr : addr_6845 v' = addr_6845 v;
  vs_color : color (chip v') = color (chip v);
  vs_frame : forall a, (forall i, 0 <= i < CRT_SIZE -> a <> crt_buf v + 2 * i) -> words v' !! a = words v !! a
}.
Definition pos_ok (v : video) : Prop := 0 <= crt_pos v < CRT_SIZE.
(** The cursor registers of the chip show the position. *)
Definition cursor_ok (v : video) : Prop :=
  is_byte (cursor_lo (chip v)) /\ cursor_hi (chip v) * 256 + cursor_lo (chip v) = crt_pos v.

Lemma vstep_refl v : vstep v v.
Proof. by split. Qed.
Lemma vstep_trans v1 v2 v3 : vstep v1 v2 -> vstep v2 v3 -> vstep v1 v3.
Proof.
  intros [A1 A2 A3 A4] [B1 B2 B3 B4]. split; [congruence | congruence | congruence|]. intros a Ha.
  rewrite B4 by (by rewrite A1). by apply A4.
Qed.

Lemma put_cell_wp i x v (Q : unit -> video -> Prop) : 0 <= i < CRT_SIZE ->
  (forall v', vstep v v' -> crt_pos v' = crt_pos v -> Q tt v') -> wp (put_cell i x) Q v.
Proof.
  intros Hi HQ. unfold put_cell. apply wp_bind, wp_gets, wp_modify, HQ; [|done]. split; try done.
  intros a Ha. cbn. apply lookup_insert_ne. intros E. by apply (Ha i).
Qed.

Lemma set_pos_wp p v (Q : unit -> video -> Prop) : 0 <= p < 2 ^ 16 ->
  (forall v', vstep v v' -> crt_pos v' = p -> Q tt v') -> wp (set_pos p) Q v.
Proof.
  intros Hp HQ. apply wp_modify, HQ; [by split|]. cbn. unfold u16. by apply Z.mod_small.
Qed.

Lemma outb_6845_wp r x v (Q : unit -> video -> Prop) :
  (forall v', vstep v v' -> crt_pos v' = crt_pos v -> words v' = words v ->
     chip v' = (if r =? 0 then Crtc (color (chip v)) (u8 x) (cursor_hi (chip v)) (cursor_lo (chip v))
       else if index (chip v) =? 14 then Crtc (color (chip v)) (index (chip v)) (u8 x) (cursor_lo (chip v))
       else if index (chip v) =? 15 then Crtc (color (chip v)) (index (chip v)) (cursor_hi (chip v)) (u8 x)
       else chip v) -> Q tt v') -> wp (outb_6845 r x) Q v.
Proof.
  intros HQ. apply wp_modify, HQ; try done. split; try done. cbn. by repeat case_bool.
Qed.

Lemma scroll_wp v (Q : unit -> video -> Prop) : CRT_SIZE <= crt_pos v < CRT_SIZE + CRT_COLS ->
  (forall v', vstep v v' -> pos_ok v' -> Q tt v') -> wp scroll Q v.
Proof.
  intros Hp HQ. unfold scroll. apply wp_bind, wp_gets, wp_bind.
  apply (wp_for (fun _ v' => vstep v v' /\ crt_pos v' = crt_pos v)); [klia | by split; [apply vstep_refl|] | |].
  - intros i v1 Hi [V1 P1]. apply wp_bind, wp_gets, put_cell_wp; [klia|]. intros v2 V2 P2.
    split; [by eapply vstep_trans | congruence].
  - intros v1 [V1 P1]. apply wp_bind.
    apply (wp_for (fun _ v' => vstep v v' /\ crt_pos v' = crt_pos v)); [klia | done | |].
    + intros i v2 Hi [V2 P2]. apply put_cell_wp; [klia|]. intros v3 V3 P3. split; [by eapply vstep_trans | congruence].
    + intros v2 [V2 P2]. apply wp_bind, wp_gets. rewrite P2. apply set_pos_wp; [klia|]. intros v3 V3 P3.
      apply HQ; [by eapply vstep_trans|]. unfold pos_ok. klia.
Qed.

Lemma cursor_bytes p : 0 <= p < 2 ^ 16 -> u8 (Z.shiftr p 8) * 256 + u8 p = p.
Proof.
  intros Hp. rewrite Z.shiftr_div_pow2 by lia. unfold u8. rewrite (Z.mod_small (p / 2 ^ 8)).
  - pose proof (Z.div_mod p (2 ^ 8)). lia.
  - split; [apply Z.div_pos; lia | apply Z.div_lt_upper_bound; lia].
Qed.

(** The end of video_putc: scroll if the position has left the screen, and
    move the cursor. *)
Lemma video_end_wp v (Q : unit -> video -> Prop) : 0 <= crt_pos v < CRT_SIZE + CRT_COLS ->
  (forall v', vstep v v' -> pos_ok v' -> cursor_ok v' -> Q tt v') ->
  wp ((p ← gets crt_pos; when (CRT_SIZE <=? p) scroll) ;;
      outb_6845 0 14 ;; (p ← gets crt_pos; outb_6845 1 (Z.shiftr p 8)) ;;
      outb_6845 0 15 ;; (p ← gets crt_pos; outb_6845 1 p)) Q v.
Proof.
  intros Hp HQ. apply wp_bind, wp_bind, wp_gets.
  assert (Hsc : forall P : unit -> video -> Prop, (forall v', vstep v v' -> pos_ok v' -> P tt v') ->
    wp (when (CRT_SIZE <=? crt_pos v) scroll) P v).
  { intros P HP. apply wp_when; intros E.
    - apply Z.leb_le in E. apply scroll_wp; [lia | done].
    - apply Z.leb_gt in E. apply HP; [apply vstep_refl | unfold pos_ok; lia]. }
  apply Hsc. intros v1 V1 P1. apply wp_bind, outb_6845_wp. intros v2 V2 P2 _ C2. cbn in C2.
  apply wp_bind, wp_bind, wp_gets, outb_6845_wp. intros v3 V3 P3 _ C3. rewrite C2 in C3. cbn in C3.
  apply wp_bind, outb_6845_wp. intros v4 V4 P4 _ C4. rewrite C3 in C4. cbn in C4.
  apply wp_bind, wp_gets, outb_6845_wp. intros v5 V5 P5 _ C5. rewrite C4 in C5. cbn in C5.
  apply HQ.
  - by repeat (eapply vstep_trans; [eassumption|]); apply vstep_refl.
  - unfold pos_ok in *. rewrite P5, P4, P3, P2. done.
  - unfold cursor_ok, pos_ok in *. rewrite C5, P5, P4, P3, P2. cbn [cursor_hi cursor_lo]. rewrite ?P2.
    split; [apply u8_range | apply cursor_bytes; klia].
Qed.

Definition putc_spec (m : K video unit) : Prop := forall v (Q : unit -> video -> Prop), pos_ok v ->
  (forall v', vstep v v' -> pos_ok v' -> cursor_ok v' -> Q tt v') -> wp m Q v.

Lemma video_putc_rec_spec rec c :
  (Z.land (if Z.land c (Z.lnot 0xFF) =? 0 then Z.lor c 0x0700 else c) 0xff <> 9 \/ putc_spec (rec 32)) ->
  putc_spec (video_putc_rec rec c).
Proof.
  intros Hrec v Q Hp HQ. unfold video_putc_rec. set (c' := if Z.land c (Z.lnot 0xFF) =? 0 then Z.lor c 0x0700 else c) in *.
  assert (Hend : forall v1, vstep v v1 -> 0 <= crt_pos v1 < CRT_SIZE + CRT_COLS ->
    wp ((p ← gets crt_pos; when (CRT_SIZE <=? p) scroll) ;;
      outb_6845 0 14 ;; (p ← gets crt_pos; outb_6845 1 (Z.shiftr p 8)) ;;
      outb_6845 0 15 ;; (p ← gets crt_pos; outb_6845 1 p)) Q v1).
  { intros v1 V1 P1. apply video_end_wp; [done|]. intros v2 V2 P2 C2. apply HQ; [by eapply vstep_trans | done | done]. }
  unfold pos_ok in Hp. pose proof (Z.mod_pos_bound (crt_pos v) CRT_COLS ltac:(done)) as Hm.
  pose proof (Z.mod_le (crt_pos v) CRT_COLS ltac:(lia) ltac:(done)) as Hm'.
  apply wp_bind. destruct (Z.eqb_spec (Z.land c' 255) 8); [|destruct (Z.eqb_spec (Z.land c' 255) 10);
    [|destruct (Z.eqb_spec (Z.land c' 255) 13); [|destruct (Z.eqb_spec (Z.land c' 255) 9)]]].
  - apply wp_bind, wp_gets, wp_when; intros E; [apply Z.ltb_lt in E | apply Hend; [apply vstep_refl | klia]].
    apply wp_bind, set_pos_wp; [klia|]. intros v1 V1 P1. apply put_cell_wp; [lia|]. intros v2 V2 P2.
    apply Hend; [by eapply vstep_trans | klia].
  - apply wp_bind, wp_gets, wp_bind, set_pos_wp; [klia|]. intros v1 V1 P1. apply wp_bind, wp_gets. rewrite P1.
    pose proof (Z.mod_pos_bound (crt_pos v + CRT_COLS) CRT_COLS ltac:(done)).
    pose proof (Z.mod_le (crt_pos v + CRT_COLS) CRT_COLS ltac:(klia) ltac:(done)).
    apply set_pos_wp; [klia|]. intros v2 V2 P2. apply Hend; [by eapply vstep_trans | klia].
  - apply wp_bind, wp_gets, set_pos_wp; [klia|]. intros v1 V1 P1. apply Hend; [done | klia].
  - destruct Hrec as [?|Hrec]; [done|].
    do 4 (apply wp_bind, Hrec; [done|]; clear Hp; intros ? ? Hp ?). apply Hrec; [done|]. intros v5 V5 P5 _.
    apply Hend; [by repeat (eapply vstep_trans; [eassumption|]); apply vstep_refl | unfold pos_ok in P5; klia].
  - apply wp_bind, wp_gets, wp_bind, set_pos_wp; [klia|]. intros v1 V1 P1. apply put_cell_wp; [lia|]. intros v2 V2 P2.
    apply Hend; [by eapply vstep_trans | klia].
Qed.

Lemma video_putc_spec c : putc_spec (video_putc c).
Proof. apply video_putc_rec_spec. right. apply video_putc_rec_spec. left. done. Qed.

(** (C37) Whatever character is printed, the position stays on the screen, only
    cells of the screen are written, and the cursor of the display chip is
    where the next character goes. *)
Theorem video_putc_correct c v : pos_ok v ->
  exists v', video_putc c v = Ok tt v' /\ vstep v v' /\ pos_ok v' /\ cursor_ok v'.
Proof.
  intros Hp. destruct (proj1 (wp_run (video_putc c) (fun _ v' => vstep v v' /\ pos_ok v' /\ cursor_ok v') v))
    as ([] & v' & E & H); [by apply video_putc_spec | eauto].
Qed.

Definition blank_video : video := Video CGA_BUF 1999 CGA_BASE (Crtc true 0 0 0) ∅.
Lemma video_putc_correct_witness : exists v', video_putc 65 blank_video = Ok tt v' /\ vstep blank_video v' /\
  pos_ok v' /\ cursor_ok v'.
Proof. apply (video_putc_correct 65 blank_video). split; by vm_compute. Defined.

(** ** Output *)

Section output.
Context (tx_time : nat).

Lemma wait_tx_wp u (Q : unit -> uart -> Prop) : (forall n, Q tt (u_busy n u)) -> wp (loop (Z.to_nat 12802) wait_tx 0) Q u.
Proof.
  intros HQ.
  apply (wp_loop (fun i u' => 0 <= i <= 12800 /\ exists n, u' = u_busy n u) (fun i _ => Z.to_nat (12801 - i))).
  - split; [lia|]. exists (busy u). by destruct u.
  - lia.
  - intros i u' (Hi & n & ->). unfold wait_tx, inb_lsr, mbind, K_bind, wp.
    destruct ((Z.land (lsr (u_busy n u)) COM_LSR_TXRDY =? 0) && (i <? 12800)) eqn:E; cbn.
    + apply andb_true_iff in E as [_ E%Z.ltb_lt]. split; [|lia]. split; [lia | by eexists].
    + apply HQ.
Qed.

(** A character goes out once, a newline as CR LF. *)
Definition line_bytes (c : Z) : list Z := if c =? 10 then [13; 10] else [u8 c].

Lemma serial_putc_wp c s (Q : unit -> state -> Prop) :
  (forall u, rx u = rx (com1 s) -> present u = present (com1 s) -> lcr u = lcr (com1 s) ->
     (serial_exists s = true -> Z.testbit (lcr (com1 s)) 7 = false -> tx u = tx (com1 s) ++ line_bytes c) ->
     (serial_exists s = false -> tx u = tx (com1 s)) -> Q tt (s_com1 u s)) ->
  wp (serial_putc tx_time c) Q s.
Proof.
  intros HQ. unfold serial_putc. apply wp_bind, wp_gets. destruct (serial_exists s) eqn:E; cbn [negb].
  - apply wp_zoom, wp_bind, wait_tx_wp. intros n. unfold serial_reformatnewline, line_bytes in *.
    destruct (Z.eqb_spec c 10) as [->|Hne].
    + unfold wp, mbind, K_bind, outb_com1, modify, mret, K_ret. cbn -[u8 Z.testbit].
      destruct (Z.testbit (lcr (com1 s)) 7) eqn:Ed; cbn -[u8 Z.testbit]; rewrite ?Ed; cbn -[u8 Z.testbit];
        apply HQ; try done. intros _ _. cbn. by rewrite <- app_assoc.
    + unfold wp, mbind, K_bind, outb_com1, modify, mret, K_ret. cbn -[u8 Z.testbit].
      destruct (Z.testbit (lcr (com1 s)) 7) eqn:Ed; cbn -[u8 Z.testbit]; apply HQ; done.
  - apply wp_ret. replace s with (s_com1 (com1 s) s) by (by destruct s). apply HQ; done.
Qed.

Lemma cons_putc_wp c s (Q : unit -> state -> Prop) : pos_ok (terminal s) ->
  (forall u v, rx u = rx (com1 s) -> present u = present (com1 s) -> lcr u = lcr (com1 s) ->
     (serial_exists s = true -> Z.testbit (lcr (com1 s)) 7 = false -> tx u = tx (com1 s) ++ line_bytes c) ->
     vstep (terminal s) v -> pos_ok v -> Q tt (s_terminal v (s_com1 u s))) ->
  wp (cons_putc tx_time c) Q s.
Proof.
  intros Hp HQ. unfold cons_putc. apply wp_bind, serial_putc_wp. intros u H1 H2 H3 H4 _.
  apply wp_zoom. apply video_putc_spec; [done|]. intros v V P _. by apply HQ.
Qed.
End output.

(** ** readline *)

Section readline.
Context (tx_time : nat) (ks : kstack) (junk : list Z) (Hks : magic ks = KSTACK_MAGIC).
Hypothesis Hjunk : zlen junk = CONSOLE_BUFFER_SIZE.

Lemma zlen_app' {A} (a b : list A) : zlen (a ++ b) = zlen a + zlen b.
Proof. unfold zlen. rewrite length_app. lia. Qed.

(** [s'] differs from [s] in what has been printed: [l] on the serial line. *)
Definition printed (l : list Z) (s s' : state) : Prop :=
  exists u v, s' = s_terminal v (s_com1 u s) /\ rx u = rx (com1 s) /\ present u = present (com1 s) /\ lcr u = lcr (com1 s) /\
    (serial_exists s = true -> Z.testbit (lcr (com1 s)) 7 = false -> tx u = tx (com1 s) ++ l) /\
    vstep (terminal s) v /\ pos_ok v.

Lemma printed_putc c s (Q : unit -> state -> Prop) : pos_ok (terminal s) ->
  (forall s', printed (line_bytes c) s s' -> Q tt s') -> wp (cons_putc tx_time c) Q s.
Proof. intros Hp HQ. apply cons_putc_wp; [done|]. intros u v H1 H2 H3 H4 H5 H6. apply HQ. by exists u, v. Qed.

Lemma printed_app l1 l2 s1 s2 s3 : printed l1 s1 s2 -> printed l2 s2 s3 -> printed (l1 ++ l2) s1 s3.
Proof.
  intros (u1 & v1 & -> & A1 & A2 & A3 & A4 & A5 & A6) (u2 & v2 & -> & B1 & B2 & B3 & B4 & B5 & B6).
  cbn in *. exists u2, v2. split; [done|]. rewrite A3 in B4. do 3 (split; [congruence|]).
  split; [intros H1 H2; by rewrite B4, A4, app_assoc by done|]. split; [by eapply vstep_trans | done].
Qed.

Lemma emit_cons_wp l : forall s (Q : unit -> state -> Prop), pos_ok (terminal s) ->
  (forall s', printed (l ≫= line_bytes) s s' -> Q tt s') -> wp (emit (cons_putc tx_time) l) Q s.
Proof.
  induction l as [|c l IH]; intros s Q Hp HQ; cbn [emit].
  - apply wp_ret, HQ. exists (com1 s), (terminal s). cbn. rewrite app_nil_r. pose proof (vstep_refl (terminal s)). by destruct s.
  - apply wp_bind, printed_putc; [done|]. intros s1 H1. apply IH; [by destruct H1 as (? & ? & -> & ? & ? & ? & ? & ? & ?)|].
    intros s2 H2. apply HQ. rewrite bind_cons. by eapply printed_app.
Qed.

(** dprintf under its lock. *)
Lemma dprintf_wp items ap out s (Q : Z -> state -> Prop) :
  Forall wf_item items -> Forall wf_arg ap -> render true items ap = Some out ->
  Forall (fun c => u8 c <> 0) out -> zlen out < 2 ^ 31 -> pos_ok (terminal s) -> lock (serial_lk s) = 0 ->
  (forall s', printed (((fun c => i8 (u8 c)) <$> out) ≫= line_bytes) s s' ->
     Q (zlen out) (s_serial_lk (Spinlock (NUM_CPUS + 1) 0) s')) ->
  wp (dprintf tx_time ks junk ((items ≫= item_bytes) ++ [0]) ap) Q s.
Proof.
  intros Hw Ha Hr Hnz Hl Hp Hlk HQ. unfold dprintf.
  eapply wp_ext; [by apply (vdprintf_correct (cons_putc tx_time) _ _ junk items ap out s)|].
  apply wp_bind, wp_zoom. eapply wp_intro; [by apply spinlock_acquire_run|]. cbn [lput serial_lk_lens].
  apply wp_bind, emit_cons_wp; [done|]. intros s' (u & v & -> & H).
  apply wp_bind, wp_zoom. eapply wp_intro; [apply spinlock_release_run|]. apply wp_ret.
  apply (HQ (s_terminal v (s_com1 u s))). by exists u, v.
Qed.

Lemma input_printed l s s' keys q : printed l s s' -> input s keys q -> input s' keys q.
Proof.
  intros (u & v & -> & H1 & H2 & _) [I1 I2 I3 I4 I5 I6 I7].
  split; try done; cbn; rewrite ?H1, ?H2; try done. unfold serial_input. cbn. by rewrite H1.
Qed.

(** What is typed, with the editing keys carried out, up to the end of the
    line, and the input behind it. *)
Fixpoint edit (acc q : list Z) : option (list Z * list Z) :=
  match q with
  | [] => None
  | c :: q =>
      if ((c =? 8) || (c =? 127)) && (0 <? zlen acc) then edit (removelast acc) q
      else if (32 <=? c) && (zlen acc <? BUFLEN - 1) then edit (acc ++ [c]) q
      else if (c =? 10) || (c =? 13) then Some (acc, q)
      else edit acc q
  end.

Definition line_is (acc : list Z) (s : state) : Prop :=
  zlen (linebuf s) = BUFLEN /\ take (length acc) (linebuf s) = acc /\ zlen acc <= BUFLEN - 1 /\ Forall is_byte (linebuf s).

(** The buffer holds the line, and [rest] of the input is left. *)
Definition line_read (line rest : list Z) (s : state) : Prop :=
  take (length line + 1) (linebuf s) = line ++ [0] /\ input s [] rest /\ pos_ok (terminal s) /\
  zlen (linebuf s) = BUFLEN /\ Forall is_byte (linebuf s).

Lemma line_put acc c s (Q : unit -> state -> Prop) : line_is acc s -> is_byte c ->
  (forall l, zlen l = BUFLEN -> take (length acc + 1) l = acc ++ [c] -> Forall is_byte l -> Q tt (s_linebuf l s)) ->
  wp (set_line (zlen acc) c) Q s.
Proof.
  intros (H1 & H2 & H3 & H4) Hc HQ. unfold set_line, wp. assert (0 <= zlen acc) by (unfold zlen; lia).
  unfold BUFLEN in *. bool_simp. rewrite u8_small by done. apply HQ; unfold zlen in *; rewrite ?Nat2Z.id.
  - by rewrite length_insert.
  - assert (Hl : (length acc < length (linebuf s))%nat) by lia.
    rewrite Nat.add_1_r, (take_S_r _ _ c) by (by apply list_lookup_insert_eq). by rewrite take_insert_ge, H2 by lia.
  - by apply Forall_insert.
Qed.

Lemma line_pop acc s : line_is acc s -> acc <> [] -> line_is (removelast acc) s /\ zlen (removelast acc) = zlen acc - 1.
Proof.
  intros (H1 & H2 & H3 & H4) Hne. destruct (exists_last Hne) as (a & x & ->). rewrite removelast_last.
  rewrite zlen_app' in *. change (zlen [x]) with 1 in *. split; [|lia]. split; [done|]. split; [|split; [lia | done]].
  rewrite length_app in H2. apply (f_equal (take (length a))) in H2. rewrite take_take in H2.
  rewrite Nat.min_l in H2 by lia. by rewrite take_app_length in H2.
Qed.

Context (fuel : nat).

Lemma getchar_wp s keys c q (Q : Z -> state -> Prop) : input s keys (c :: q) -> 0 < c < 128 ->
  (length (rx (com1 s)) < fuel)%nat -> (length keys < fuel)%nat ->
  (forall s', input s' [] q -> linebuf s' = linebuf s -> (length (rx (com1 s')) <= length (rx (com1 s)))%nat ->
     terminal s' = terminal s -> serial_lk s' = serial_lk s -> Q c s') ->
  wp (getchar tx_time ks junk fuel) Q s.
Proof.
  intros Hin Hc H1 H2 HQ. unfold getchar. apply wp_bind.
  apply (cons_getc_wp tx_time ks junk Hks fuel s keys (c :: q)); [done | done | done|]. intros s' I L R T K. cbn [tail] in I.
  assert (Ec : i8 c = c) by (unfold i8; rewrite u8_small by klia; bool_true; done).
  rewrite Ec, (proj2 (Z.eqb_neq c 0)) by lia. by apply wp_ret, HQ.
Qed.

Lemma readline_loop q : forall acc s keys rounds line rest,
  input s keys q -> (length (rx (com1 s)) < fuel)%nat -> (length keys < fuel)%nat -> Forall (fun c => 0 < c < 128) q ->
  pos_ok (terminal s) -> line_is acc s -> edit acc q = Some (line, rest) -> (length q < rounds)%nat ->
  wp (loop rounds (readline_body tx_time ks junk fuel) (zlen acc))
    (fun r s' => r = true /\ line_read line rest s' /\ serial_lk s' = serial_lk s) s.
Proof.
  induction q as [|c q IH]; intros acc s keys rounds line rest Hin Hrx Hk Hq Hp Hl He Hr; [done|].
  apply Forall_cons in Hq as [Hc Hq]. destruct rounds as [|rounds]; [lia|]. apply wp_loop_S. unfold readline_body.
  apply wp_bind, (getchar_wp s keys c q); try done. intros s1 I1 L1 R1 T1 K1.
  rewrite (proj2 (Z.ltb_ge c 0)) by lia. cbn [edit] in He. cbn in Hr.
  assert (Hl1 : line_is acc s1) by (unfold line_is; by rewrite L1).
  assert (Hp1 : pos_ok (terminal s1)) by (by rewrite T1).
  assert (Hput : forall x (Q : unit -> state -> Prop),
    (forall s2, printed (line_bytes x) s1 s2 -> Q tt s2) -> wp (cons_putc tx_time x) Q s1).
  { intros x Q HQ. by apply printed_putc. }
  assert (Hn0 : forall l s2, printed l s1 s2 -> input s2 [] q /\ (length (rx (com1 s2)) < fuel)%nat /\ pos_ok (terminal s2) /\
    linebuf s2 = linebuf s1 /\ serial_lk s2 = serial_lk s).
  { intros l s2 Hpr. split; [by eapply input_printed|]. destruct Hpr as (u & v & -> & E1 & E2 & E3 & E4 & E5 & E6). cbn. rewrite E1.
    split_and!; [lia | done | done | done]. }
  destruct (((c =? 8) || (c =? 127)) && (0 <? zlen acc)) eqn:Eb.
  - apply andb_true_iff in Eb as [_ Eb%Z.ltb_lt]. destruct (line_pop acc s1 Hl1) as [Hl2 Hz]; [by intros ->|].
    apply wp_bind, Hput. intros s2 Hpr. destruct (Hn0 _ s2 Hpr) as (J1 & J2 & J3 & J4 & J5). apply wp_ret. rewrite <- Hz.
    rewrite <- J5. apply (IH _ s2 []); try done; [cbn; lia | unfold line_is in *; by rewrite J4 | lia].
  - destruct ((32 <=? c) && (zlen acc <? BUFLEN - 1)) eqn:Ec.
    + apply andb_true_iff in Ec as [_ Ec%Z.ltb_lt]. apply wp_bind, Hput. intros s2 Hpr.
      destruct (Hn0 _ s2 Hpr) as (J1 & J2 & J3 & J4 & J5). apply wp_bind, (line_put acc c s2); [unfold line_is in *; by rewrite J4 | klia|].
      intros l Hll Htl Hbl. apply wp_ret. replace (zlen acc + 1) with (zlen (acc ++ [c])) by (unfold zlen; rewrite length_app; cbn; lia).
      rewrite <- J5. change (serial_lk s2) with (serial_lk (s_linebuf l s2)).
      apply (IH _ _ []); try done; [by destruct J1 | cbn; lia | | lia].
      split; [done|]. split; [cbn; by rewrite length_app|]. rewrite zlen_app'. change (zlen [c]) with 1. split; [lia | done].
    + destruct ((c =? 10) || (c =? 13)).
      * injection He as <- <-. apply wp_bind, Hput. intros s2 Hpr. destruct (Hn0 _ s2 Hpr) as (J1 & J2 & J3 & J4 & J5).
        apply wp_bind, (line_put acc 0 s2); [unfold line_is in *; by rewrite J4 | klia|]. intros l Hll Htl Hbl. apply wp_ret.
        split; [done|]. split; [|exact J5]. split_and!; try done. by destruct J1.
      * apply wp_ret. rewrite <- K1. apply (IH acc s1 []); try done; [lia | cbn; lia | lia].
Qed.

(** The line that is typed, for a prompt that is printed first. *)
Definition prompt_ok (prompt : option (list Z)) (s : state) : Prop :=
  match prompt with
  | None => True
  | Some p => (exists t, cstring p = Some t) /\ Forall is_byte p /\ zlen p < 2 ^ 31 /\ lock (serial_lk s) = 0
  end.
End readline.

Lemma cstring_bytes p t : cstring p = Some t -> Forall is_byte p -> Forall (fun c => u8 c <> 0) t /\ zlen t <= zlen p.
Proof.
  revert t. induction p as [|c p IH]; intros t Ht Hb; [done|]. cbn [cstring] in Ht. apply Forall_cons in Hb as [Hc Hb].
  destruct (Z.eqb_spec c 0) as [->|Hn]; [injection Ht as <-; split; [done | unfold zlen; cbn; lia]|].
  destruct (cstring p) as [t'|]; [|done]. injection Ht as <-. destruct (IH t' eq_refl Hb) as [H1 H2].
  split; [constructor; [by rewrite u8_small | done] | unfold zlen in *; cbn [length]; lia].
Qed.

Lemma str_text_plain t : str_text start_flags t = i8 <$> t.
Proof.
  unfold str_text, shown, shown_len, zlen. cbn -[i8 take Z.to_nat Z.of_nat Z.sub].
  rewrite Nat2Z.id, firstn_all. replace (Z.to_nat _) with 0%nat by lia. apply app_nil_r.
Qed.
Lemma u8_i8 c : u8 (i8 c) = u8 c.
Proof.
  unfold i8. case_bool; [apply u8_small, u8_range|]. unfold u8. change 256 with (2 ^ 8).
  rewrite Zminus_mod, Z.mod_same, Z.sub_0_r, !Z.mod_mod by lia. done.
Qed.

(** ** The console as a whole *)

(** (C34) cons_getc returns the first of the characters that wait, in the order ring,
    serial line, keyboard, and 0 when there are none; all others still wait,
    in the same order. *)
Theorem cons_getc_correct tx_time ks junk fuel s keys q :
  magic ks = KSTACK_MAGIC -> input s keys q -> (length (rx (com1 s)) < fuel)%nat -> (length keys < fuel)%nat ->
  exists s', cons_getc tx_time ks junk fuel s = Ok (match q with c :: _ => i8 c | [] => 0 end) s' /\ input s' [] (tail q) /\
    linebuf s' = linebuf s /\ terminal s' = terminal s.
Proof.
  intros Hks Hin Hrx Hk. 
  destruct (proj1 (wp_run (cons_getc tx_time ks junk fuel) (fun r s' => r = match q with c :: _ => i8 c | [] => 0 end /\
    input s' [] (tail q) /\ linebuf s' = linebuf s /\ terminal s' = terminal s) s)) as (r & s' & E & -> & H); [|by eauto].
  by apply (cons_getc_wp tx_time ks junk Hks fuel s keys q).
Qed.

(** dprintf prints the text its format describes: every byte once, in order,
    on the serial line with a newline as CR LF, and nothing of the screen
    outside its 2000 cells is written. *)
Theorem dprintf_correct tx_time ks junk items ap out s :
  magic ks = KSTACK_MAGIC -> zlen junk = CONSOLE_BUFFER_SIZE ->
  Forall wf_item items -> Forall wf_arg ap -> render true items ap = Some out ->
  Forall (fun c => u8 c <> 0) out -> zlen out < 2 ^ 31 -> pos_ok (terminal s) -> lock (serial_lk s) = 0 ->
  exists s', dprintf tx_time ks junk ((items ≫= item_bytes) ++ [0]) ap s =
      Ok (zlen out) (s_serial_lk (Spinlock (NUM_CPUS + 1) 0) s') /\
    printed (((fun c => i8 (u8 c)) <$> out) ≫= line_bytes) s s'.
Proof.
  intros Hks Hj Hw Ha Hr Hnz Hl Hp Hlk.
  destruct (proj1 (wp_run (dprintf tx_time ks junk ((items ≫= item_bytes) ++ [0]) ap) (fun r s2 => r = zlen out /\
    exists s', s2 = s_serial_lk (Spinlock (NUM_CPUS + 1) 0) s' /\
      printed (((fun c => i8 (u8 c)) <$> out) ≫= line_bytes) s s') s)) as (r & s2 & E & -> & s' & -> & H); [|by eauto].
  apply (dprintf_wp tx_time ks junk Hks Hj items ap out s); try done. eauto.
Qed.

Lemma readline_run tx_time ks junk fuel prompt s keys q line rest :
  magic ks = KSTACK_MAGIC -> zlen junk = CONSOLE_BUFFER_SIZE -> input s keys q -> Forall (fun c => 0 < c < 128) q ->
  (length (rx (com1 s)) < fuel)%nat -> (length keys < fuel)%nat -> (length q < fuel)%nat ->
  pos_ok (terminal s) -> line_is [] s -> prompt_ok prompt s -> edit [] q = Some (line, rest) ->
  exists s', readline tx_time ks junk fuel prompt s = Ok true s' /\ line_read line rest s' /\
    (lock (serial_lk s) = 0 -> lock (serial_lk s') = 0).
Proof.
  intros Hks Hj Hin Hq Hrx Hk Hr Hp Hl Hpr He.
  assert (Hloop : forall s1, input s1 keys q -> rx (com1 s1) = rx (com1 s) -> pos_ok (terminal s1) -> linebuf s1 = linebuf s ->
    wp (loop fuel (readline_body tx_time ks junk fuel) 0) (fun r s' => r = true /\ line_read line rest s' /\ serial_lk s' = serial_lk s1) s1).
  { intros s1 I1 R1 P1 L1. apply (readline_loop tx_time ks junk Hks fuel q [] s1 keys); try done; [by rewrite R1|].
    unfold line_is. by rewrite L1. }
  destruct (proj1 (wp_run (readline tx_time ks junk fuel prompt) (fun r s' => r = true /\ line_read line rest s' /\
    (lock (serial_lk s) = 0 -> lock (serial_lk s') = 0)) s)) as (r & s' & E & -> & H); [|by eauto].
  unfold readline. destruct prompt as [p|]; [|apply wp_bind, wp_ret; eapply wp_mono; [by apply Hloop|]; intros r s' (H1 & H2 & ->); done].
  destruct Hpr as ([t Ht] & Hb & Hlp & Hlk). destruct (cstring_bytes p t Ht Hb) as [Hnz Hlt].
  apply wp_bind, wp_bind. apply (dprintf_wp tx_time ks junk Hks Hj [Dir [] Cs] [Arg 1 p] (i8 <$> t) s); try done.
  - by repeat constructor.
  - by repeat constructor.
  - unfold render, dir_text, conv_text, arg_string. cbn -[str_text start_flags cstring]. rewrite Ht.
    cbn -[str_text start_flags]. by rewrite str_text_plain, app_nil_r.
  - apply Forall_fmap. eapply Forall_impl; [exact Hnz|]. intros c. cbn. by rewrite u8_i8.
  - unfold zlen in *. rewrite length_fmap. lia.
  - intros s1 Hp1. apply wp_ret. pose proof (input_printed _ _ _ _ _ Hp1 Hin) as Hin1.
    destruct Hp1 as (u & v & -> & A1 & A2 & A3 & A4 & A5 & A6). eapply wp_mono; [apply Hloop; try done; by destruct Hin1|]. intros r s' (H1 & H2 & ->). done.
Qed.
(** readline returns the line that is typed, with the erase keys carried out
    and control characters left out, up to 1023 characters; the input behind
    the end of the line stays for the next call. *)
Theorem readline_correct tx_time ks junk fuel prompt s keys q line rest :
  magic ks = KSTACK_MAGIC -> zlen junk = CONSOLE_BUFFER_SIZE -> input s keys q -> Forall (fun c => 0 < c < 128) q ->
  (length (rx (com1 s)) < fuel)%nat -> (length keys < fuel)%nat -> (length q < fuel)%nat ->
  pos_ok (terminal s) -> line_is [] s -> prompt_ok prompt s -> edit [] q = Some (line, rest) ->
  exists s', readline tx_time ks junk fuel prompt s = Ok true s' /\ line_read line rest s'.
Proof.
  intros Hks Hj Hin Hq Hrx Hk Hr Hp Hl Hpr He. by edestruct readline_run as (s' & E & H & _); eauto.
Qed.
(** ** Examples *)

Definition boot_ks : kstack := Kstack 0 KSTACK_MAGIC.
Definition idle_uart (l : list Z) : uart := Uart true l 0 [] 0 3 0 0 1 0.
(** "lx\b" on the serial line, "s" and Enter on the keyboard. *)
Definition typed : state :=
  State (Cons (replicate 512 0) 510 510) (Spinlock 0 0) (replicate 1024 0) true (idle_uart [108; 120; 8])
    0 [0x1F; 0x9F; 0x1C; 0x9C] false blank_video (Spinlock 0 0) (Spinlock 0 0).
Definition typed_keys : list Z := [115; 0; 10; 0].
Definition typed_q : list Z := [108; 120; 8; 115; 10].

Lemma typed_input : input typed typed_keys typed_q.
Proof. split; try by vm_compute; repeat constructor; by vm_compute. Qed.

Lemma cons_getc_correct_witness : exists s', cons_getc 3 boot_ks (replicate 512 0) 9 typed = Ok 108 s' /\
  input s' [] [120; 8; 115; 10] /\ linebuf s' = linebuf typed /\ terminal s' = terminal typed.
Proof. apply (cons_getc_correct 3 boot_ks (replicate 512 0) 9 typed typed_keys typed_q eq_refl typed_input); cbn; lia. Defined.

Lemma dprintf_correct_witness : exists s', dprintf 3 boot_ks (replicate 512 0) ((demo_items ≫= item_bytes) ++ [0]) demo_ap typed =
    Ok 9 (s_serial_lk (Spinlock (NUM_CPUS + 1) 0) s') /\
  printed [110; 61; 45; 48; 48; 48; 52; 50; 13; 10] typed s'.
Proof.
  apply (dprintf_correct 3 boot_ks (replicate 512 0) demo_items demo_ap demo_out typed eq_refl eq_refl demo_wf demo_ap_wf);
    try by vm_compute. repeat constructor; by vm_compute.
Defined.

Lemma readline_correct_witness : exists s', readline 3 boot_ks (replicate 512 0) 9 (Some [36; 0]) typed = Ok true s' /\
  line_read [108; 115] [] s'.
Proof.
  apply (readline_correct 3 boot_ks (replicate 512 0) 9 (Some [36; 0]) typed typed_keys typed_q [108; 115] [] eq_refl eq_refl typed_input);
    try (cbn; lia); try by vm_compute.
  - repeat constructor; by vm_compute.
  - split_and!; try by vm_compute. by apply Forall_replicate.
  - split; [by eexists|]. split; [repeat constructor; by vm_compute | by vm_compute].
Defined.

(** cons_intr does not test whether the ring is full: 512 characters that
    nobody reads are lost at once. *)
Theorem cons_intr_overflow :
  let s := s_com1 (idle_uart (replicate 512 65)) typed in
  exists s', serial_intr boot_ks 600 s = Ok tt s' /\ rx (com1 s') = [] /\ queue (con s) = [] /\ queue (con s') = [].
Proof. eexists. split; [vm_compute; reflexivity|]. by vm_compute. Qed.

(** video_init prints the address of the display chip before it has set
    terminal.crt_buf: with the null pointer of a fresh start the text is
    stored at address 0. *)
Definition fresh : state :=
  State (Cons [] 0 0) (Spinlock 0 0) (replicate 1024 0) false (Uart true [] 0 [] 0 0 0 0 0 0) 0 [] false
    (Video 0 0 0 (Crtc true 0 0 0) ∅) (Spinlock 0 0) (Spinlock 0 0).
Theorem video_init_low_memory : exists s', cons_init 3 boot_ks (replicate 512 0) fresh = Ok tt s' /\
  crt_buf (terminal s') = CGA_BUF /\
  ((fun i => words (terminal s') !! (2 * i)) <$> seqZ 0 4) = Some <$> [0x761; 0x764; 0x764; 0x772].
Proof. eexists. split; [vm_compute; reflexivity|]. by vm_compute. Qed.

(** Caps lock exchanges the two cases of the letters and changes no other
    key, whatever modifiers are down. *)
Definition swap_case (c : Z) : Z :=
  if (97 <=? c) && (c <=? 122) then c - 32 else if (65 <=? c) && (c <=? 90) then c + 32 else c.
Theorem caps_lock_correct sh data : 0 <= sh < 128 -> Z.land sh CAPSLOCK = 0 -> 0 <= data < 128 ->
  togglecode data = 0 ->
  (kbd_char (Z.lor sh CAPSLOCK) data).1 = swap_case (kbd_char sh data).1.
Proof.
  intros Hs Hc Hd Ht.
  assert (H : forallb (fun sh => forallb (fun data => negb (Z.land sh CAPSLOCK =? 0) || negb (togglecode data =? 0) ||
    ((kbd_char (Z.lor sh CAPSLOCK) data).1 =? swap_case (kbd_char sh data).1)) (seqZ 0 128)) (seqZ 0 128) = true)
    by (vm_compute; reflexivity).
  rewrite forallb_forall in H. specialize (H sh). rewrite <- list_elem_of_In, elem_of_seqZ in H. specialize (H ltac:(lia)).
  rewrite forallb_forall in H. specialize (H data). rewrite <- list_elem_of_In, elem_of_seqZ in H. specialize (H ltac:(lia)).
  rewrite Hc, Ht in H. by apply Z.eqb_eq in H.
Qed.
Lemma caps_lock_correct_witness : (kbd_char (Z.lor SHIFT CAPSLOCK) 0x1E).1 = 97.
Proof. exact (caps_lock_correct SHIFT 0x1E ltac:(by vm_compute) eq_refl ltac:(by vm_compute) eq_refl). Defined.
End Console.
