(* ===== verification/Monitor.v ===== *)
(** * The kernel monitor (kern/lib/monitor.c)

    The command interpreter on the console: a line is read into the buffer of
    readline, split into words in place, and the first word selects the
    command.  Pointers into the line are indices of the buffer.  The addresses
    of the linker symbols that kerninfo prints are parameters. *)

From S2P Require Import Prelude Spinlock Bytes Memory Printfmt Printf Console.

Module Monitor.
Import Printfmt Printf Console.

Definition WHITESPACE : list Z := [9; 13; 10; 32; 0].
Definition MAXARGS : Z := 16.
(** strchr (WHITESPACE, c) *)
Definition is_white (c : Z) : bool :=
  match strchr 5 (fun i => WHITESPACE !!! Z.to_nat i) c with Some (Some _) => true | _ => false end.

Definition help_name : list Z := text "help".
Definition help_desc : list Z := text "Display this list of commands".
Definition kerninfo_name : list Z := text "kerninfo".
Definition kerninfo_desc : list Z := text "Display information about the kernel".

Section ops.
Context (tx_time : nat) (ks : kstack) (junk : list Z) (start etext edata end_ : Z).
Abbreviation dprintf := (dprintf tx_time ks junk).

Definition mon_help : K state Z :=
  dprintf (text "%s - %s" ++ [10; 0]) [Arg 1 (help_name ++ [0]); Arg 1 (help_desc ++ [0])] ;;
  dprintf (text "%s - %s" ++ [10; 0]) [Arg 1 (kerninfo_name ++ [0]); Arg 1 (kerninfo_desc ++ [0])] ;;
  mret 0.

(** ROUNDUP(end - start, 1024) / 1024, in signed arithmetic *)
Definition footprint : Z :=
  let a := end_ - start + 1024 - 1 in Z.quot (a - Z.rem a 1024) 1024.

Definition mon_kerninfo : K state Z :=
  dprintf (text "Special kernel symbols:" ++ [10; 0]) [] ;;
  dprintf (text "  start  %08x" ++ [10; 0]) [Arg start []] ;;
  dprintf (text "  etext  %08x" ++ [10; 0]) [Arg etext []] ;;
  dprintf (text "  edata  %08x" ++ [10; 0]) [Arg edata []] ;;
  dprintf (text "  end    %08x" ++ [10; 0]) [Arg end_ []] ;;
  dprintf (text "Kernel executable memory footprint: %dKB" ++ [10; 0]) [Arg (u32 footprint) []] ;;
  mret 0.

Definition commands : list (list Z * K state Z) := [(help_name, mon_help); (kerninfo_name, mon_kerninfo)].

(** [*buf] *)
Definition get_line (i : Z) : K state Z := fun s =>
  match linebuf s !! Z.to_nat i with Some c => Ok c s | None => Err Undef end.

Definition gobble (i : Z) : K state (Z + Z) :=
  c ← get_line i;
  if negb (c =? 0) && is_white c then set_line i 0 ;; mret (inl (i + 1)) else mret (inr i).
Definition scan (i : Z) : K state (Z + Z) :=
  c ← get_line i;
  if negb (c =? 0) && negb (is_white c) then mret (inl (i + 1)) else mret (inr i).

Definition fuel : nat := Z.to_nat (BUFLEN + 1).

(** One word; the loop leaves with argv, or nothing when there are too many. *)
Definition parse_word (x : Z * list Z) : K state ((Z * list Z) + option (list Z)) :=
  let '(buf, argv) := x in
  buf ← loop fuel gobble buf;
  c ← get_line buf;
  if c =? 0 then mret (inr (Some argv))
  else if zlen argv =? MAXARGS - 1 then
    dprintf (text "Too many arguments (max %d)" ++ [10; 0]) [Arg MAXARGS []] ;; mret (inr None)
  else
    let argv := argv ++ [buf] in
    buf ← loop fuel scan buf;
    mret (inl (buf, argv)).

(** strcmp (argv[0], name) == 0 *)
Definition is_name (p : Z) (name : list Z) : K state bool := fun s =>
  match strcmp fuel (fun i => linebuf s !!! Z.to_nat (p + i)) (fun i => (name ++ [0]) !!! Z.to_nat i) with
  | Some r => Ok (r =? 0) s
  | None => Err Undef
  end.

Fixpoint invoke (cmds : list (list Z * K state Z)) (p : Z) : K state Z :=
  match cmds with
  | [] =>
      buf ← gets linebuf;
      dprintf (text "Unknown command '%s'" ++ [10; 0]) [Arg 1 (drop (Z.to_nat p) buf)] ;;
      mret 0
  | (name, func) :: cmds => b ← is_name p name; if b : bool then func else invoke cmds p
  end.

Definition runcmd : K state Z :=
  argv ← loop fuel parse_word (0, []);
  match argv with
  | None => mret 0
  | Some [] => mret 0
  | Some (p :: _) => invoke commands p
  end.

Definition banner : K state unit :=
  let stars := [10] ++ text "****************************************" ++ [10; 10; 0] in
  dprintf stars [] ;;
  dprintf (text "Welcome to the mCertiKOS kernel monitor!" ++ [10; 0]) [] ;;
  dprintf stars [] ;;
  dprintf (text "Type 'help' for a list of commands." ++ [10; 0]) [] ;;
  mret tt.

(** One round of the loop of monitor. *)
Definition monitor_body (n : nat) (_ : unit) : K state (unit + unit) :=
  b ← readline tx_time ks junk n (Some (text "$> " ++ [0]));
  if b : bool then
    r ← runcmd;
    if r <? 0 then mret (inr tt) else mret (inl tt)
  else mret (inl tt).

(** [rounds] lines; [n] bounds the input that is waiting. *)
Definition monitor (rounds n : nat) : K state unit := banner ;; loop rounds (monitor_body n) tt.
End ops.

(** ** Words *)

Fixpoint word_list (l : list Z) : list (list Z) :=
  match l with
  | [] => []
  | c :: l' =>
      if is_white c then word_list l'
      else match l' with
           | [] => [[c]]
           | c' :: _ => if is_white c' then [c] :: word_list l'
                        else match word_list l' with w :: ws => (c :: w) :: ws | [] => [[c]] end
           end
  end.

Definition printable (l : list Z) : Prop := Forall (fun c => 0 < c < 128) l.
Definition wire (l : list Z) : list Z := l ≫= line_bytes.

(** [s'] is [s] with [l] sent on the serial line, and perhaps another content
    of the line buffer. *)
Record said (l : list Z) (s s' : state) : Prop := {
  sd_con : con s' = con s; sd_cons_lk : cons_lk s' = cons_lk s; sd_exists : serial_exists s' = serial_exists s;
  sd_rx : rx (com1 s') = rx (com1 s); sd_present : present (com1 s') = present (com1 s); sd_lcr : lcr (com1 s') = lcr (com1 s);
  sd_kbd : kbd s' = kbd s; sd_shift : shift s' = shift s;
  sd_tx : serial_exists s = true -> Z.testbit (lcr (com1 s)) 7 = false -> tx (com1 s') = tx (com1 s) ++ wire l;
  sd_pos : pos_ok (terminal s'); sd_lock : lock (serial_lk s') = 0; sd_len : zlen (linebuf s') = zlen (linebuf s)
}.

Lemma said_nil s : pos_ok (terminal s) -> lock (serial_lk s) = 0 -> said [] s s.
Proof. split; try done. intros _ _. by rewrite app_nil_r. Qed.
Lemma said_app l1 l2 s1 s2 s3 : said l1 s1 s2 -> said l2 s2 s3 -> said (l1 ++ l2) s1 s3.
Proof.
  intros [] []. split; try done; try congruence. intros H1 H2. unfold wire in *. rewrite bind_app, app_assoc, <- sd_tx0 by done.
  apply sd_tx1; congruence.
Qed.
Lemma said_line b l s s' : zlen b = zlen (linebuf s') -> said l s s' -> said l s (s_linebuf b s').
Proof. intros Hb []. split; try done. cbn. congruence. Qed.
Lemma said_line_l b l s s' : zlen b = zlen (linebuf s) -> said l (s_linebuf b s) s' -> said l s s'.
Proof. intros Hb []. split; try done. cbn in *. congruence. Qed.
Lemma said_input l s s' keys q : said l s s' -> input s keys q -> input s' keys q.
Proof.
  intros [] [I1 I2 I3 I4 I5 I6 I7]. split; try done; try congruence.
  - by rewrite sd_exists0, sd_present0.
  - unfold serial_input in *. by rewrite sd_con0, sd_exists0, sd_rx0.
Qed.

(** ** Splitting the line *)

Definition zeroed (l : list Z) : list Z := (fun c => if is_white c then 0 else c) <$> l.
Definition stops (l : list Z) : Prop := match l with [] => True | c :: _ => is_white c = true end.

Lemma span_list (p : Z -> bool) l : exists a b, l = a ++ b /\ Forall (fun c => p c = true) a /\
  match b with [] => True | c :: _ => p c = false end.
Proof.
  induction l as [|c l (a & b & -> & H1 & H2)]; [by exists [], []|]. destruct (p c) eqn:E.
  - exists (c :: a), b. split; [done|]. by split; [constructor|].
  - exists [], (c :: a ++ b). done.
Qed.

Lemma word_list_white ws l : Forall (fun c => is_white c = true) ws -> word_list (ws ++ l) = word_list l.
Proof. induction 1 as [|c ws Hc _ IH]; [done|]. cbn [app word_list]. by rewrite Hc. Qed.
Lemma word_list_word w l : Forall (fun c => negb (is_white c) = true) w -> w <> [] -> stops l ->
  word_list (w ++ l) = w :: word_list l.
Proof.
  induction 1 as [|c w Hc Hw IH]; intros Hne Hs; [done|]. apply negb_true_iff in Hc. cbn [app word_list]. rewrite Hc.
  destruct w as [|c' w].
  - cbn [app]. destruct l as [|x l]; [done|]. cbn in Hs. by rewrite Hs.
  - cbn [app]. apply Forall_cons in Hw as [Hc' _]. apply negb_true_iff in Hc'. rewrite Hc'. change (c' :: w ++ l) with ((c' :: w) ++ l).
    rewrite IH by done. done.
Qed.
Lemma zeroed_white ws : Forall (fun c => is_white c = true) ws -> zeroed ws = replicate (length ws) 0.
Proof. induction 1 as [|c ws Hc _ IH]; [done|]. cbn. unfold zeroed in IH. by rewrite Hc, IH. Qed.
Lemma zeroed_word w : Forall (fun c => negb (is_white c) = true) w -> zeroed w = w.
Proof. induction 1 as [|c w Hc _ IH]; [done|]. cbn. unfold zeroed in IH. apply negb_true_iff in Hc. by rewrite Hc, IH. Qed.

Lemma zeroed_app l l' : zeroed (l ++ l') = zeroed l ++ zeroed l'.
Proof. apply fmap_app. Qed.
Lemma to_nat_zlen {A} (l : list A) : Z.to_nat (zlen l) = length l.
Proof. unfold zlen. lia. Qed.
Lemma zlen_snoc {A} (l : list A) x : zlen (l ++ [x]) = zlen l + 1.
Proof. by rewrite zlen_app'. Qed.

Lemma get_line_wp pre c r s (Q : Z -> state -> Prop) : linebuf s = pre ++ c :: r -> Q c s -> wp (get_line (zlen pre)) Q s.
Proof. intros E HQ. unfold get_line, wp. by rewrite E, to_nat_zlen, list_lookup_middle. Qed.

Lemma gobble_wp ws : forall n pre c r s (Q : Z -> state -> Prop), Forall (fun c => is_white c = true) ws -> ~ In 0 ws ->
  linebuf s = pre ++ ws ++ c :: r -> (c = 0 \/ is_white c = false) -> (length ws < n)%nat ->
  Q (zlen pre + zlen ws) (s_linebuf (pre ++ replicate (length ws) 0 ++ c :: r) s) -> wp (loop n gobble (zlen pre)) Q s.
Proof.
  induction ws as [|x ws IH]; intros n pre c r s Q Hw Hz E Hc Hn HQ; (destruct n as [|n]; [cbn in Hn; lia|]);
    apply wp_loop_S; unfold gobble.
  - apply wp_bind, (get_line_wp pre c r); [done|].
    assert (negb (c =? 0) && is_white c = false) as ->
      by (destruct Hc as [-> | ->]; [done | by rewrite andb_false_r]).
    apply wp_ret. cbn [app] in E. cbn [length replicate app] in HQ. rewrite <- E, Z.add_0_r in HQ. by destruct s.
  - apply Forall_cons in Hw as [Hx Hw]. apply wp_bind, (get_line_wp pre x (ws ++ c :: r)); [done|].
    assert (x <> 0) by (intros ->; apply Hz; by left). rewrite Hx, (proj2 (Z.eqb_neq x 0)) by done. cbn [negb andb].
    apply wp_bind. unfold set_line, wp. rewrite E.
    assert (0 <= zlen pre < zlen (pre ++ (x :: ws) ++ c :: r)) by (rewrite zlen_app'; unfold zlen; cbn; lia).
    bool_simp. rewrite to_nat_zlen, (insert_app_r_alt pre _ (length pre)), Nat.sub_diag by lia. cbn [app].
    change (wp (loop n gobble (zlen pre + 1)) Q (s_linebuf (pre ++ 0 :: ws ++ c :: r) s)).
    rewrite <- (zlen_snoc pre 0). apply (IH n (pre ++ [0]) c r); try done.
    + intros ?. apply Hz. by right.
    + cbn. by rewrite <- app_assoc.
    + cbn in Hn. lia.
    + rewrite zlen_snoc. replace (zlen pre + 1 + zlen ws) with (zlen pre + zlen (x :: ws)) by (unfold zlen; cbn; lia).
      rewrite <- app_assoc. exact HQ.
Qed.

Lemma scan_word_wp w : forall n pre c r s (Q : Z -> state -> Prop), Forall (fun c => negb (is_white c) = true) w -> ~ In 0 w ->
  linebuf s = pre ++ w ++ c :: r -> (c = 0 \/ is_white c = true) -> (length w < n)%nat ->
  Q (zlen pre + zlen w) s -> wp (loop n scan (zlen pre)) Q s.
Proof.
  induction w as [|x w IH]; intros n pre c r s Q Hw Hz E Hc Hn HQ; (destruct n as [|n]; [cbn in Hn; lia|]);
    apply wp_loop_S; unfold scan.
  - apply wp_bind, (get_line_wp pre c r); [done|].
    assert (negb (c =? 0) && negb (is_white c) = false) as ->
      by (destruct Hc as [-> | ->]; [done | by rewrite andb_false_r]).
    apply wp_ret. by rewrite Z.add_0_r in HQ.
  - apply Forall_cons in Hw as [Hx Hw]. apply wp_bind, (get_line_wp pre x (w ++ c :: r)); [done|].
    assert (x <> 0) by (intros ->; apply Hz; by left). rewrite Hx, (proj2 (Z.eqb_neq x 0)) by done. cbn [negb andb].
    apply wp_ret. rewrite <- (zlen_snoc pre x). apply (IH n (pre ++ [x]) c r); try done.
    + intros ?. apply Hz. by right.
    + by rewrite <- app_assoc.
    + cbn in Hn. lia.
    + rewrite zlen_snoc. by replace (zlen pre + 1 + zlen w) with (zlen pre + zlen (x :: w)) by (unfold zlen; cbn; lia).
Qed.

Section proofs.
Context (tx_time : nat) (ks : kstack) (junk : list Z) (Hks : magic ks = KSTACK_MAGIC).
Hypothesis Hjunk : zlen junk = CONSOLE_BUFFER_SIZE.

Lemma i8u8_id l : printable l -> (fun c => i8 (u8 c)) <$> l = l.
Proof.
  induction 1 as [|c l Hc _ IH]; [done|]. rewrite fmap_cons, IH. f_equal. unfold i8. rewrite !(u8_small c) by klia. by bool_true.
Qed.

Lemma i8_printable l : printable l -> i8 <$> l = l.
Proof.
  induction 1 as [|c l Hc _ IH]; [done|]. rewrite fmap_cons, IH. f_equal. unfold i8. rewrite !(u8_small c) by klia. by bool_true.
Qed.

Lemma dprintf_said items ap fmt out s (Q : Z -> state -> Prop) :
  fmt = (items ≫= item_bytes) ++ [0] -> Forall wf_item items -> Forall wf_arg ap -> render true items ap = Some out ->
  printable out -> zlen out < 2 ^ 31 -> pos_ok (terminal s) -> lock (serial_lk s) = 0 ->
  (forall s', said out s s' -> linebuf s' = linebuf s -> Q (zlen out) s') ->
  wp (dprintf tx_time ks junk fmt ap) Q s.
Proof.
  intros -> Hw Ha Hr Hpr Hl Hp Hlk HQ. apply (dprintf_wp tx_time ks junk Hks Hjunk items ap out s); try done.
  - eapply Forall_impl; [exact Hpr|]. intros c Hc. cbn in *. rewrite u8_small by klia. lia.
  - intros s' (u & v & -> & A1 & A2 & A3 & A4 & A5 & A6). apply HQ; [|done]. split; try done.
    rewrite i8u8_id in A4 by done. exact A4.
Qed.

(** ** The commands *)

Definition lits (s : string) : list item := Lit <$> text s.
Definition TOO_MANY : list Z := text "Too many arguments (max 16)" ++ [10].

Definition at_word (buf : list Z) (p : Z) (w : list Z) : Prop :=
  0 <= p /\ exists tl, drop (Z.to_nat p) buf = w ++ 0 :: tl.

Lemma stops_zeroed l r : stops l -> exists tl, zeroed l ++ 0 :: r = 0 :: tl.
Proof. destruct l as [|c l]; intros H; cbn in *; [by eexists|]. rewrite H. by eexists. Qed.

(** The loop over the words: from behind [pre] on, all words are found and
    closed by null bytes, unless there are more than fit. *)
Lemma parse_wp n : forall l pre r argv k s (Q : option (list Z) -> state -> Prop),
  (length l <= n)%nat -> (n < k)%nat -> printable l -> linebuf s = pre ++ l ++ 0 :: r -> zlen (linebuf s) = BUFLEN ->
  pos_ok (terminal s) -> lock (serial_lk s) = 0 -> zlen argv <= MAXARGS - 1 ->
  (forall ps, zlen argv + zlen (word_list l) <= MAXARGS - 1 ->
     Forall2 (at_word (pre ++ zeroed l ++ 0 :: r)) ps (word_list l) ->
     Q (Some (argv ++ ps)) (s_linebuf (pre ++ zeroed l ++ 0 :: r) s)) ->
  (forall s', MAXARGS - 1 < zlen argv + zlen (word_list l) -> said TOO_MANY s s' -> Q None s') ->
  wp (loop k (parse_word tx_time ks junk) (zlen pre, argv)) Q s.
Proof.
  induction n as [n IH] using lt_wf_ind. intros l pre r argv k s Q Hl Hk Hpr E Hlen Hp Hlk Hargs HQ HQ2.
  destruct k as [|k]; [lia|]. apply wp_loop_S. unfold parse_word.
  assert (Hln : (length l < Z.to_nat BUFLEN)%nat).
  { rewrite E, !zlen_app' in Hlen. unfold zlen in Hlen. cbn [length] in Hlen. lia. }
  destruct (span_list is_white l) as (ws & l1 & -> & Hws & Hl1).
  destruct (span_list (fun c => negb (is_white c)) l1) as (w & l2 & -> & Hw & Hl2).
  rewrite !length_app in *. apply Forall_app in Hpr as [Hp0 Hpr]. apply Forall_app in Hpr as [Hp1 Hp2].
  assert (Hz : forall x, printable x -> ~ In 0 x).
  { intros x Hx Hin. apply list_elem_of_In in Hin. pose proof (proj1 (Forall_forall _ _) Hx 0 Hin) as H0. cbn in H0. lia. }
  assert (Hs2 : stops l2) by (destruct l2 as [|c l2]; [done | by apply negb_false_iff in Hl2]).
  rewrite <- !app_assoc in E.
  assert (exists c t, w ++ l2 ++ 0 :: r = c :: t /\ (c = 0 \/ is_white c = false)) as (c & t & Ec & Hc).
  { destruct w as [|x w]; [|exists x, (w ++ l2 ++ 0 :: r); split; [done|]; right; apply Forall_cons in Hw as [Hw _]; by apply negb_true_iff].
    destruct l2 as [|x l2]; [by exists 0, r; auto|]. cbn [app] in Hl1. cbn in Hs2. congruence. }
  rewrite Ec in E. apply wp_bind, (gobble_wp ws _ pre c t); try done; [by apply Hz | unfold fuel; lia|].
  rewrite word_list_white in HQ, HQ2 by done. rewrite <- (zeroed_white ws) by done.
  rewrite <- zlen_app'. assert (Hzl : zlen (pre ++ ws) = zlen (pre ++ zeroed ws)).
  { rewrite !zlen_app'. unfold zlen, zeroed. by rewrite length_fmap. }
  rewrite Hzl. apply wp_bind, (get_line_wp _ c t); [cbn; by rewrite <- app_assoc|].
  destruct w as [|x w].
  { destruct l2 as [|x l2]; [|cbn [app] in Hl1; cbn in Hs2; congruence]. cbn [app] in Ec. injection Ec as <- <-. cbn [Z.eqb].
    apply wp_ret. specialize (HQ []). rewrite !app_nil_r in HQ. apply HQ; [change (zlen (word_list [])) with 0; lia | constructor]. }
  cbn [app] in Ec. injection Ec as <- <-. set (w0 := x :: w) in *.
  pose proof (Forall_inv Hp1) as Hx. cbn in Hx. rewrite (proj2 (Z.eqb_neq x 0)) by lia.
  rewrite word_list_word in HQ, HQ2 by done. change (zlen (w0 :: word_list l2)) with (Z.of_nat (S (length (word_list l2)))) in *.
  assert (Hmid : forall t, zlen (pre ++ zeroed ws ++ t) = zlen (pre ++ ws ++ t))
    by (intros t; rewrite !zlen_app'; unfold zlen, zeroed; by rewrite length_fmap).
  destruct (Z.eqb_spec (zlen argv) (MAXARGS - 1)) as [Ea|Ea].
  - apply wp_bind. eapply (dprintf_said (lits "Too many arguments (max " ++ [Dir [] Cd; Lit 41; Lit 10]) _ _ TOO_MANY);
      try done; [by repeat constructor | by repeat constructor | by repeat constructor|].
    intros s1 Hs1 _. apply wp_ret, HQ2; [lia|]. eapply said_line_l; [|exact Hs1].
    by rewrite E, Hmid.
  - apply wp_bind. apply (scan_word_wp w0 _ _ (hd 0 (l2 ++ [0])) (tail (l2 ++ 0 :: r))); try done;
      [by apply Hz | cbn; rewrite <- app_assoc; by destruct l2 | destruct l2; auto | unfold fuel; subst w0; cbn in *; lia|].
    apply wp_ret. rewrite <- zlen_app'.
    apply (IH (length l2) ltac:(subst w0; cbn in *; lia) l2 _ r); try done; [subst w0; cbn in *; lia | by cbn; rewrite <- !app_assoc | | rewrite zlen_snoc; lia | |].
    + cbn. by rewrite Hmid, <- E.
    + intros ps Hps Hat. rewrite <- app_assoc. cbn [app].
      assert (Ef : ((pre ++ zeroed ws) ++ w0) ++ zeroed l2 ++ 0 :: r = pre ++ zeroed (ws ++ w0 ++ l2) ++ 0 :: r)
        by (by rewrite !zeroed_app, (zeroed_word w0), <- !app_assoc by done).
      rewrite Ef in *. apply HQ; [rewrite zlen_snoc in Hps; unfold zlen in *; lia|]. constructor; [|done].
      rewrite <- Ef. destruct (stops_zeroed l2 r Hs2) as [tl Et]. split; [unfold zlen; lia|]. exists tl. by rewrite Et, to_nat_zlen, <- app_assoc, drop_app_length.
    + intros s' Hm Hs'. apply HQ2; [rewrite zlen_snoc in Hm; unfold zlen in *; lia|]. eapply said_line_l; [|exact Hs'].
      by rewrite E, Hmid.
Qed.

(** strcmp tells whether two strings are equal. *)
Lemma strcmp_strings w : forall name n p q i, printable w -> printable name -> (length w < n)%nat ->
  (forall j, (j <= length w)%nat -> p (i + Z.of_nat j) = (w ++ [0]) !!! j) ->
  (forall j, (j <= length name)%nat -> q (i + Z.of_nat j) = (name ++ [0]) !!! j) ->
  exists d, strcmp_from n p q i = Some d /\ (d =? 0) = bool_decide (w = name).
Proof.
  induction w as [|c w IH]; intros name n p q i Hw Hn Hf Hp Hq; (destruct n as [|n]; [cbn in Hf; lia|]); cbn [strcmp_from].
  - pose proof (Hp 0%nat ltac:(cbn; lia)) as Ep. pose proof (Hq 0%nat ltac:(lia)) as Eq. rewrite Z.add_0_r in Ep, Eq.
    rewrite Ep, Eq. cbn [Z.eqb negb andb]. eexists. split; [reflexivity|]. destruct name as [|x name]; [done|].
    pose proof (Forall_inv Hn) as Hx. cbn in *. rewrite bool_decide_false by done. apply Z.eqb_neq. lia.
  - pose proof (Hp 0%nat ltac:(cbn; lia)) as Ep. pose proof (Hq 0%nat ltac:(lia)) as Eq. rewrite Z.add_0_r in Ep, Eq.
    rewrite Ep, Eq. pose proof (Forall_inv Hw) as Hc. destruct name as [|x name].
    + cbn in *. rewrite (proj2 (Z.eqb_neq c 0)) by lia. cbn [negb andb]. eexists. split; [reflexivity|].
      rewrite bool_decide_false by done. apply Z.eqb_neq. lia.
    + pose proof (Forall_inv Hn) as Hx. cbn in Hc, Hx, Hf |- *. rewrite (proj2 (Z.eqb_neq c 0)) by lia. cbn [negb andb].
      destruct (Z.eqb_spec c x) as [<-|Hne].
      * destruct (IH name n p q (i + 1)) as (d & Ed & Hd); [by apply Forall_inv_tail in Hw | by apply Forall_inv_tail in Hn | lia | | |].
        -- intros j Hj. rewrite <- Z.add_assoc, (Z.add_1_l (Z.of_nat j)), <- Nat2Z.inj_succ. apply Hp. cbn. lia.
        -- intros j Hj. rewrite <- Z.add_assoc, (Z.add_1_l (Z.of_nat j)), <- Nat2Z.inj_succ. apply Hq. cbn. lia.
        -- exists d. split; [done|]. rewrite Hd. apply bool_decide_ext. split; [by intros -> | by intros [= ->]].
      * eexists. split; [reflexivity|]. rewrite bool_decide_false by congruence. apply Z.eqb_neq. lia.
Qed.

Lemma is_name_wp p w name s (Q : bool -> state -> Prop) : at_word (linebuf s) p w -> printable w -> printable name ->
  zlen (linebuf s) = BUFLEN -> Q (bool_decide (w = name)) s -> wp (is_name p name) Q s.
Proof.
  intros (Hp0 & tl & Hat) Hw Hn Hl HQ. unfold is_name, wp, strcmp.
  assert (Hlw : (length w < fuel)%nat).
  { apply (f_equal length) in Hat. rewrite length_drop, length_app in Hat. cbn in Hat. unfold zlen in Hl. unfold fuel. lia. }
  destruct (strcmp_strings w name fuel (fun i => linebuf s !!! Z.to_nat (p + i)) (fun i => (name ++ [0]) !!! Z.to_nat i) 0)
    as (d & Ed & Hd); try done.
  - intros j Hj. cbv beta. rewrite Z.add_0_l, list_lookup_total_alt, Z2Nat.inj_add, Nat2Z.id, <- lookup_drop, Hat by lia.
    rewrite list_lookup_total_alt. f_equal. change (0 :: tl) with ([0] ++ tl). rewrite app_assoc. apply lookup_app_l.
    rewrite length_app. cbn. lia.
  - intros j Hj. by rewrite Z.add_0_l, Nat2Z.id.
  - rewrite Ed, Hd. exact HQ.
Qed.

Lemma printable_b l : forallb (fun c => (0 <? c) && (c <? 128)) l = true -> printable l.
Proof.
  intros H. apply Forall_forall. intros c Hc%list_elem_of_In. rewrite forallb_forall in H. specialize (H c Hc).
  apply andb_true_iff in H as [H1%Z.ltb_lt H2%Z.ltb_lt]. done.
Qed.
Lemma printable_app a b : printable a -> printable b -> printable (a ++ b).
Proof. apply Forall_app_2. Qed.
Lemma printable_num pad width base n : 0 < pad < 128 -> 2 <= base <= 16 -> 0 <= n < 2 ^ 64 ->
  printable (num_text pad width base n).
Proof.
  intros Hp Hb Hn. apply Forall_app. split; [by apply Forall_replicate|]. apply Forall_fmap.
  destruct (digits_spec base n ltac:(lia) Hn) as (_ & Hd & _). eapply Forall_impl; [exact Hd|]. intros d Hd'. cbn in Hd' |- *.
  assert (H : forallb (fun d => (0 <? digit_char d) && (digit_char d <? 128)) (seqZ 0 16) = true) by done.
  rewrite forallb_forall in H. specialize (H d). rewrite <- list_elem_of_In, elem_of_seqZ in H. specialize (H ltac:(lia)).
  apply andb_true_iff in H as [H1%Z.ltb_lt H2%Z.ltb_lt]. done.
Qed.
Lemma num_text_length pad width base n : zlen (num_text pad width base n) <= Z.max width 0 + 64.
Proof.
  assert (H : forall f m, (length (digits_rec f base m) <= f)%nat).
  { induction f as [|f IH]; intros m; [done|]. cbn [digits_rec]. case_bool; rewrite ?length_app; cbn [length]; [|lia].
    specialize (IH (m / base)). lia. }
  unfold num_text, digits. rewrite zlen_app'. specialize (H 64%nat n). unfold zlen. rewrite length_replicate, length_fmap. lia.
Qed.
Lemma cstring_word w tl : printable w -> cstring (w ++ 0 :: tl) = Some w.
Proof. intros H. apply cstring_nul. eapply Forall_impl; [exact H|]. intros c Hc. cbn in Hc. lia. Qed.

Definition help_text : list Z :=
  help_name ++ text " - " ++ help_desc ++ [10] ++ kerninfo_name ++ text " - " ++ kerninfo_desc ++ [10].

Lemma mon_help_wp s (Q : Z -> state -> Prop) : pos_ok (terminal s) -> lock (serial_lk s) = 0 ->
  (forall s', said help_text s s' -> Q 0 s') -> wp (mon_help tx_time ks junk) Q s.
Proof.
  intros Hp Hlk HQ. unfold mon_help. apply wp_bind.
  eapply (dprintf_said [Dir [] Cs; Lit 32; Lit 45; Lit 32; Dir [] Cs; Lit 10] _ _ (help_name ++ text " - " ++ help_desc ++ [10]));
    try done; [by repeat constructor | by repeat constructor | by apply printable_b|]. intros s1 H1 _. apply wp_bind.
  eapply (dprintf_said [Dir [] Cs; Lit 32; Lit 45; Lit 32; Dir [] Cs; Lit 10] _ _ (kerninfo_name ++ text " - " ++ kerninfo_desc ++ [10]));
    try done; [by repeat constructor | by repeat constructor | by apply printable_b | apply H1 | apply H1|].
  intros s2 H2 _. apply wp_ret, HQ. exact (said_app _ _ _ _ _ H1 H2).
Qed.

Context (start etext edata end_ : Z).
Hypotheses (Hst : is_u32 start) (Het : is_u32 etext) (Hed : is_u32 edata) (Hen : is_u32 end_).
Hypothesis Hsize : 0 <= end_ - start < 2 ^ 31 - 1024.

(** A line with an address. *)
Definition addr_line (what : string) (a : Z) : list Z := text what ++ num_text 48 8 16 a ++ [10].
Lemma render_lits o what items ap : render o (lits what ++ items) ap = (fun out => text what ++ out) <$> render o items ap.
Proof.
  unfold lits. induction (text what) as [|c l IH]; [cbn [app fmap list_fmap]; by destruct (render o items ap)|].
  rewrite fmap_cons, <- app_comm_cons. cbn [render]. rewrite IH. by destruct (render o items ap).
Qed.
Lemma bytes_lits what : lits what ≫= item_bytes = text what.
Proof. unfold lits. induction (text what) as [|c l IH]; [done|]. cbn in *. by rewrite IH. Qed.
Lemma wf_lits what : forallb (fun c => (0 <? c) && (c <? 128) && negb (c =? 37)) (text what) = true -> Forall wf_item (lits what).
Proof.
  intros H. apply Forall_fmap, Forall_forall. intros c Hc%list_elem_of_In. rewrite forallb_forall in H. specialize (H c Hc).
  apply andb_true_iff in H as [[H1%Z.ltb_lt H2%Z.ltb_lt]%andb_true_iff H3%negb_true_iff%Z.eqb_neq]. cbn. lia.
Qed.

Lemma addr_line_wp what a fmt s (Q : Z -> state -> Prop) : fmt = text what ++ text "%08x" ++ [10; 0] ->
  is_u32 a -> pos_ok (terminal s) -> lock (serial_lk s) = 0 ->
  forallb (fun c => (0 <? c) && (c <? 128)) (text what) = true ->
  forallb (fun c => (0 <? c) && (c <? 128) && negb (c =? 37)) (text what) = true -> zlen (text what) < 100 ->
  (forall s', said (addr_line what a) s s' -> Q (zlen (addr_line what a)) s') ->
  wp (dprintf tx_time ks junk fmt [Arg a []]) Q s.
Proof.
  intros -> Ha Hp Hlk Ht Hw Hl HQ.
  eapply (dprintf_said (lits what ++ [Dir [PZero; PWidth 8] Cx; Lit 10]) _ _ (addr_line what a)); try done.
  - by rewrite bind_app, bytes_lits, <- app_assoc.
  - apply Forall_app_2; [by apply wf_lits|]. repeat constructor; cbn; try lia; try (intros []; lia).
  - by repeat constructor.
  - rewrite render_lits. unfold addr_line. cbn -[num_text u32]. rewrite u32_small by done. done.
  - apply printable_app; [by apply printable_b|]. apply printable_app; [apply printable_num; klia | by apply printable_b].
  - unfold addr_line. rewrite !zlen_app'. pose proof (num_text_length 48 8 16 a). change (zlen [10]) with 1. lia.
  - intros s' H _. by apply HQ.
Qed.

Definition kerninfo_text : list Z :=
  (text "Special kernel symbols:" ++ [10]) ++ addr_line "  start  " start ++ addr_line "  etext  " etext ++
  addr_line "  edata  " edata ++ addr_line "  end    " end_ ++
  (text "Kernel executable memory footprint: " ++ num_text 32 (-1) 10 (footprint start end_) ++ text "KB" ++ [10]).

(** The size of the kernel in units of 1024 bytes, rounded up. *)
Lemma footprint_spec : footprint start end_ = (end_ - start + 1023) / 1024 /\ 0 <= footprint start end_ < 2 ^ 31.
Proof.
  unfold footprint. replace (end_ - start + 1024 - 1) with (end_ - start + 1023) by lia.
  set (a := end_ - start + 1023). assert (Ha : 0 <= a < 2 ^ 31) by lia.
  rewrite Z.rem_mod_nonneg by lia. pose proof (Z.mod_pos_bound a 1024). pose proof (Z.div_mod a 1024).
  assert (Ed : a - a mod 1024 = a / 1024 * 1024) by lia. rewrite Ed, Z.quot_mul by lia. split; [done|].
  split; [apply Z.div_pos; lia | apply Z.div_lt_upper_bound; lia].
Qed.

Lemma mon_kerninfo_wp s (Q : Z -> state -> Prop) : pos_ok (terminal s) -> lock (serial_lk s) = 0 ->
  (forall s', said kerninfo_text s s' -> Q 0 s') -> wp (mon_kerninfo tx_time ks junk start etext edata end_) Q s.
Proof.
  intros Hp Hlk HQ. unfold mon_kerninfo.
  apply wp_bind. eapply (dprintf_said (lits "Special kernel symbols:" ++ [Lit 10]) _ _ (text "Special kernel symbols:" ++ [10]));
    try done; [by repeat constructor | by apply printable_b|]. intros s1 H1 _.
  apply wp_bind, (addr_line_wp "  start  "); try done; [apply H1 | apply H1|]. intros s2 H2.
  apply wp_bind, (addr_line_wp "  etext  "); try done; [apply H2 | apply H2|]. intros s3 H3.
  apply wp_bind, (addr_line_wp "  edata  "); try done; [apply H3 | apply H3|]. intros s4 H4.
  apply wp_bind, (addr_line_wp "  end    "); try done; [apply H4 | apply H4|]. intros s5 H5.
  destruct footprint_spec as [_ Hf]. apply wp_bind.
  eapply (dprintf_said (lits "Kernel executable memory footprint: " ++ [Dir [] Cd] ++ lits "KB" ++ [Lit 10]) _ _
    (text "Kernel executable memory footprint: " ++ num_text 32 (-1) 10 (footprint start end_) ++ text "KB" ++ [10]));
    try done; [by repeat constructor | by repeat constructor | | | | apply H5 | apply H5|].
  - rewrite render_lits. assert (Ei : i32 (u32 (u32 (footprint start end_))) = footprint start end_)
      by (rewrite !(u32_small (footprint start end_)) by klia; apply i32_small; klia).
    cbn -[num_text u32 i32]. rewrite Ei. unfold signed_text. bool_simp. cbn -[num_text]. by rewrite Z.abs_eq by lia.
  - apply printable_app; [by apply printable_b|]. apply printable_app; [apply printable_num; lia | by apply printable_b].
  - rewrite !zlen_app'. pose proof (num_text_length 32 (-1) 10 (footprint start end_)). 
    change (zlen (text "Kernel executable memory footprint: ")) with 36. change (zlen (text "KB")) with 2. change (zlen [10]) with 1. lia.
  - intros s6 H6 _. apply wp_ret, HQ. unfold kerninfo_text. by repeat (eapply said_app; [eassumption|]).
Qed.

(** ** The interpreter *)

(** What the monitor answers to a line. *)
Definition reply (l : list Z) : list Z :=
  match word_list l with
  | [] => []
  | w :: ws =>
      if MAXARGS - 1 <? zlen (w :: ws) then TOO_MANY
      else if bool_decide (w = help_name) then help_text
      else if bool_decide (w = kerninfo_name) then kerninfo_text
      else text "Unknown command '" ++ w ++ text "'" ++ [10]
  end.

Lemma printable_words l : printable l -> Forall printable (word_list l).
Proof.
  induction 1 as [|c l Hc Hl IH]; [constructor|]. cbn [word_list]. destruct (is_white c); [done|].
  assert (printable [c]) by (by constructor).
  destruct l as [|c' l]; [by apply Forall_singleton|]. destruct (is_white c'); [by constructor|].
  destruct (word_list (c' :: l)) as [|w ws]; [by apply Forall_singleton|]. inversion IH; subst. constructor; [by constructor | done].
Qed.

Abbreviation runcmd := (runcmd tx_time ks junk start etext edata end_).

Lemma unknown_wp p w s (Q : Z -> state -> Prop) : at_word (linebuf s) p w -> printable w -> zlen (linebuf s) = BUFLEN ->
  Forall is_byte (linebuf s) -> pos_ok (terminal s) -> lock (serial_lk s) = 0 ->
  (forall s', said (text "Unknown command '" ++ w ++ text "'" ++ [10]) s s' -> Q 0 s') ->
  wp (invoke tx_time ks junk [] p) Q s.
Proof.
  intros (Hp0 & tl & Hat) Hw Hl Hb Hp Hlk HQ. cbn [invoke]. apply wp_bind, wp_gets, wp_bind. rewrite Hat.
  assert (Hlt : (length (w ++ 0%Z :: tl) <= length (linebuf s))%nat) by (rewrite <- Hat, length_drop; lia).
  eapply (dprintf_said (lits "Unknown command '" ++ [Dir [] Cs; Lit 39; Lit 10]) _ _ (text "Unknown command '" ++ w ++ text "'" ++ [10]));
    try done.
  - by repeat constructor.
  - constructor; [|constructor]. split; cbn [target]; [rewrite <- Hat; by apply Forall_drop|]. unfold zlen in *. unfold BUFLEN in *. lia.
  - rewrite render_lits. unfold render, dir_text, conv_text, arg_string. cbn -[str_text start_flags cstring text].
    rewrite cstring_word by done. cbn -[str_text start_flags text]. rewrite str_text_plain, i8_printable by done. done.
  - apply printable_app; [by apply printable_b|]. apply printable_app; [done | by apply printable_b].
  - rewrite !zlen_app'. rewrite length_app in Hlt. unfold zlen in *. cbn [length text] in *. unfold BUFLEN in *. lia.
  - intros s1 H1 _. by apply wp_ret, HQ.
Qed.

Lemma invoke_wp p w s (Q : Z -> state -> Prop) : at_word (linebuf s) p w -> printable w -> zlen (linebuf s) = BUFLEN ->
  Forall is_byte (linebuf s) -> pos_ok (terminal s) -> lock (serial_lk s) = 0 ->
  (forall s', said (if bool_decide (w = help_name) then help_text else if bool_decide (w = kerninfo_name) then kerninfo_text
     else text "Unknown command '" ++ w ++ text "'" ++ [10]) s s' -> Q 0 s') ->
  wp (invoke tx_time ks junk (commands tx_time ks junk start etext edata end_) p) Q s.
Proof.
  intros Hat Hw Hl Hb Hp Hlk HQ. unfold commands. cbn [invoke].
  apply wp_bind, (is_name_wp p w); try done; [by apply printable_b|].
  destruct (bool_decide (w = help_name)); [by apply mon_help_wp|].
  apply wp_bind, (is_name_wp p w); try done; [by apply printable_b|].
  destruct (bool_decide (w = kerninfo_name)); [by apply mon_kerninfo_wp|]. by apply (unknown_wp p w).
Qed.

Lemma zeroed_bytes l : Forall is_byte l -> Forall is_byte (zeroed l).
Proof. intros H. apply Forall_fmap. eapply Forall_impl; [exact H|]. intros c Hc. cbn. by destruct (is_white c). Qed.

Lemma runcmd_wp l r s (Q : Z -> state -> Prop) : printable l -> linebuf s = l ++ 0 :: r -> zlen (linebuf s) = BUFLEN ->
  Forall is_byte r -> pos_ok (terminal s) -> lock (serial_lk s) = 0 ->
  (forall s', said (reply l) s s' -> Q 0 s') -> wp runcmd Q s.
Proof.
  intros Hpr E Hl Hb Hp Hlk HQ. unfold Monitor.runcmd. apply wp_bind.
  assert (Hn : (length l < fuel)%nat).
  { unfold fuel. rewrite E, zlen_app' in Hl. unfold zlen in Hl. cbn [length] in Hl. lia. }
  apply (parse_wp (length l) l [] r [] fuel s); try done.
  - intros ps Hm Hat. cbn [app] in *. assert (Hlen : zlen (zeroed l ++ 0 :: r) = zlen (linebuf s)).
    { rewrite E, !zlen_app'. unfold zlen, zeroed. by rewrite length_fmap. }
    pose proof (printable_words l Hpr) as Hws. unfold reply in HQ. destruct Hat as [|p w ps ws Hat _].
    + apply wp_ret, HQ. apply said_line; [done|]. by apply said_nil.
    + change (zlen []) with 0 in Hm. rewrite (proj2 (Z.ltb_ge _ _)) in HQ by lia.
      apply (invoke_wp p w); try done; [by inversion Hws | by cbn; rewrite Hlen | |].
      * cbn. apply Forall_app_2; [apply zeroed_bytes | by constructor].
        eapply Forall_impl; [exact Hpr|]. intros c Hc. cbn in Hc. klia.
      * intros s' Hs'. apply HQ. eapply said_line_l; [|exact Hs']. done.
  - intros s' Hm Hs'. apply wp_ret, HQ. unfold reply. change (zlen []) with 0 in Hm.
    destruct (word_list l) as [|w ws]; [done|]. by rewrite (proj2 (Z.ltb_lt _ _)) by lia.
Qed.

Lemma take_line line rest s : line_read line rest s -> exists r, linebuf s = line ++ 0 :: r /\ Forall is_byte r.
Proof.
  intros (H1 & _ & _ & _ & H5). exists (drop (length line + 1) (linebuf s)). split; [|by apply Forall_drop].
  rewrite <- (take_drop (length line + 1) (linebuf s)) at 1. by rewrite H1, <- app_assoc.
Qed.

Lemma edit_printable q : forall acc line rest, Forall (fun c => 0 < c < 128) q -> printable acc -> edit acc q = Some (line, rest) ->
  printable line.
Proof.
  induction q as [|c q IH]; intros acc line rest Hq Ha He; [done|]. apply Forall_cons in Hq as [Hc Hq]. cbn [edit] in He.
  destruct (_ && _); [eapply IH; [done | | exact He]|].
  - destruct (decide (acc = [])) as [->|Hne]; [done|]. destruct (exists_last Hne) as (a & x & ->). rewrite removelast_last.
    by apply Forall_app in Ha as [Ha _].
  - destruct (_ && _); [eapply IH; [done | | exact He]; apply printable_app; [done | by constructor]|].
    destruct (_ || _); [by injection He as -> _ | by eapply IH].
Qed.
End proofs.

(** runcmd answers a line: it splits it into words at blanks, tabs and line
    ends, and runs the command the first word names; it reports an unknown
    command and more than 15 words.  All of this stays within the buffer. *)
Theorem runcmd_correct tx_time ks junk start etext edata end_ l r s :
  magic ks = KSTACK_MAGIC -> zlen junk = CONSOLE_BUFFER_SIZE ->
  Forall is_u32 [start; etext; edata; end_] -> 0 <= end_ - start < 2 ^ 31 - 1024 ->
  printable l -> linebuf s = l ++ 0 :: r -> zlen (linebuf s) = BUFLEN -> Forall is_byte r ->
  pos_ok (terminal s) -> lock (serial_lk s) = 0 ->
  exists s', runcmd tx_time ks junk start etext edata end_ s = Ok 0 s' /\ said (reply start etext edata end_ l) s s'.
Proof.
  intros Hks Hj Hsym Hsz Hpr E Hl Hr Hp Hlk. repeat (apply Forall_cons in Hsym as [? Hsym]).
  destruct (proj1 (wp_run (runcmd tx_time ks junk start etext edata end_) (fun x s' => x = 0 /\
    said (reply start etext edata end_ l) s s') s)) as (x & s' & Er & -> & H'); [|by eauto].
  by apply (runcmd_wp tx_time ks junk Hks Hj start etext edata end_ ltac:(done) ltac:(done) ltac:(done) ltac:(done) Hsz l r).
Qed.

(** (C33) One round of the monitor: the line that is typed is read and answered,
    and the monitor goes on with the input behind it. *)
Theorem monitor_round tx_time ks junk start etext edata end_ n s keys q line rest :
  magic ks = KSTACK_MAGIC -> zlen junk = CONSOLE_BUFFER_SIZE ->
  Forall is_u32 [start; etext; edata; end_] -> 0 <= end_ - start < 2 ^ 31 - 1024 ->
  input s keys q -> Forall (fun c => 0 < c < 128) q ->
  (length (rx (com1 s)) < n)%nat -> (length keys < n)%nat -> (length q < n)%nat ->
  pos_ok (terminal s) -> line_is [] s -> lock (serial_lk s) = 0 -> edit [] q = Some (line, rest) ->
  exists s1 s', readline tx_time ks junk n (Some (text "$> " ++ [0])) s = Ok true s1 /\ line_read line rest s1 /\
    monitor_body tx_time ks junk start etext edata end_ n tt s = Ok (inl tt) s' /\
    said (reply start etext edata end_ line) s1 s' /\ input s' [] rest.
Proof.
  intros Hks Hj Hsym Hsz Hin Hq Hrx Hk Hn Hp Hl Hlk He. repeat (apply Forall_cons in Hsym as [? Hsym]).
  destruct (readline_run tx_time ks junk n (Some (text "$> " ++ [0])) s keys q line rest) as (s1 & E1 & Hr & Hlk1); try done.
  { split; [by eexists|]. split; [by repeat constructor | done]. }
  exists s1. destruct (take_line _ _ _ Hr) as (r & Eb & Hb). pose proof Hr as (_ & Hin1 & Hp1 & Hl1 & _).
  assert (W : wp (runcmd tx_time ks junk start etext edata end_) (fun x s' => x = 0 /\ said (reply start etext edata end_ line) s1 s') s1).
  { apply (runcmd_wp tx_time ks junk Hks Hj start etext edata end_ ltac:(done) ltac:(done) ltac:(done) ltac:(done) Hsz line r); auto.
    apply (edit_printable q [] line rest); [done | constructor | done]. }
  apply wp_run in W as (x & s' & Er & -> & Hs). exists s'. split; [done|]. split; [done|].
  split; [|split; [done | by eapply said_input]]. unfold monitor_body. erewrite bind_Ok by exact E1. cbn match.
  by erewrite bind_Ok by exact Er.
Qed.

Lemma invoke_0 tx_time ks junk cmds p s x s' :
  Forall (fun c => forall s x s', c.2 s = Ok x s' -> x = 0) cmds -> invoke tx_time ks junk cmds p s = Ok x s' -> x = 0.
Proof.
  intros H. revert s. induction H as [|[name func] cmds Hc _ IH]; intros s; cbn [invoke].
  - intros (b & s1 & _ & E)%bind_inv. apply bind_inv in E as (r & s2 & _ & E). by injection E.
  - intros (b & s1 & _ & E)%bind_inv. destruct b; [by eapply Hc | by eapply IH].
Qed.

Lemma commands_0 tx_time ks junk start etext edata end_ :
  Forall (fun c => forall s x s', c.2 s = Ok x s' -> x = 0) (commands tx_time ks junk start etext edata end_).
Proof.
  repeat constructor; intros s x s' E; cbn [snd] in E; unfold mon_help, mon_kerninfo in E;
    repeat (apply bind_inv in E as (? & ? & _ & E)); by injection E.
Qed.

(** No command makes the monitor return: runcmd never gives a negative
    result. *)
Theorem monitor_no_exit tx_time ks junk start etext edata end_ rounds n s s' :
  monitor tx_time ks junk start etext edata end_ rounds n s <> Ok tt s'.
Proof.
  unfold monitor. intros (u & s1 & _ & E)%bind_inv. revert s1 E.
  induction rounds as [|rounds IH]; intros s1 E; [done|]. cbn [loop] in E. apply bind_inv in E as (x & s2 & Eb & E).
  destruct x as [[]|[]]; [by eapply IH|]. unfold monitor_body in Eb. apply bind_inv in Eb as (b & s3 & _ & Eb).
  destruct b; [|done]. apply bind_inv in Eb as (r & s4 & Er & Eb). assert (r = 0) as ->; [|done].
  unfold runcmd in Er. apply bind_inv in Er as ([[|p argv]|] & s5 & _ & Er); [by injection Er | | by injection Er].
  eapply invoke_0; [apply commands_0 | exact Er].
Qed.

(** ** Examples *)

Lemma runcmd_correct_witness :
  let s := s_linebuf (text " help me " ++ replicate 1015 0) typed in
  exists s', runcmd 3 boot_ks (replicate 512 0) 0x100000 0x110000 0x120000 0x200000 s = Ok 0 s' /\ said help_text s s'.
Proof.
  intros s. assert (E : reply 0x100000 0x110000 0x120000 0x200000 (text " help me ") = help_text) by (by vm_compute).
  rewrite <- E. apply (runcmd_correct 3 boot_ks (replicate 512 0) 0x100000 0x110000 0x120000 0x200000 (text " help me ") (replicate 1014 0) s);
    [done | done | by repeat constructor | done | by apply printable_b | done | done | by apply Forall_replicate | done | done].
Defined.

Lemma monitor_round_witness :
  exists s1 s', readline 3 boot_ks (replicate 512 0) 9 (Some (text "$> " ++ [0])) typed = Ok true s1 /\ line_read [108; 115] [] s1 /\
    monitor_body 3 boot_ks (replicate 512 0) 0x100000 0x110000 0x120000 0x200000 9 tt typed = Ok (inl tt) s' /\
    said (text "Unknown command 'ls'" ++ [10]) s1 s' /\ input s' [] [].
Proof.
  assert (E : reply 0x100000 0x110000 0x120000 0x200000 [108; 115] = text "Unknown command 'ls'" ++ [10]) by (by vm_compute).
  rewrite <- E.
  apply (monitor_round 3 boot_ks (replicate 512 0) 0x100000 0x110000 0x120000 0x200000 9 typed typed_keys typed_q [108; 115] []);
    [done | done | by repeat constructor | done | exact typed_input | by repeat constructor | cbn; lia | cbn; lia | cbn; lia
     | by vm_compute | split_and!; [done | done | done | by apply Forall_replicate] | done | by vm_compute].
Defined.
End Monitor.
