(* ===== verification/Boot.v ===== *)
(** * The second stage of the boot loader (boot/boot1: boot1main.c, boot1lib.c)

    It finds the bootable partition in the master boot record, takes the
    length of the memory map the BIOS has left, loads the kernel, an ELF file
    at the start of the partition, by programmed disk I/O and jumps to it.
    Memory is byte-addressed; the screen is the part of it from 0xB8000 on.
    The disk is a function from sector numbers to sectors; the drive decodes
    the sector number from the registers it is given, and is busy for
    [ready_time] polls after a command. *)

From S2P Require Import Prelude Bytes Memory Printfmt.

Module Boot.
Import Printfmt.

Record drive : Type := Drive { lba0 : Z; lba1 : Z; lba2 : Z; lba3 : Z; busy : nat; data : list Z }.
Record state : Type := State { mm : mem; row : Z; puti_str : list Z; hd : drive; mmap_length : Z; mmap_addr : Z }.
Definition s_mm v s := State v (row s) (puti_str s) (hd s) (mmap_length s) (mmap_addr s).
Definition s_row v s := State (mm s) v (puti_str s) (hd s) (mmap_length s) (mmap_addr s).
Definition s_puti v s := State (mm s) (row s) v (hd s) (mmap_length s) (mmap_addr s).
Definition s_hd v s := State (mm s) (row s) (puti_str s) v (mmap_length s) (mmap_addr s).
Definition s_mmap l a s := State (mm s) (row s) (puti_str s) (hd s) l a.

Definition puti_lens : lens state (list Z) := Lens puti_str s_puti.
Definition hd_lens : lens state drive := Lens hd s_hd.

Definition CRT_ROWS : Z := 25.
Definition VGA_CLR_BLACK : Z := 0.
Definition VGA_CLR_RED : Z := 4.
Definition VGA_CLR_WHITE : Z := 15.
Definition SECTOR_SIZE : Z := 512.
Definition VIDEO : Z := 0xB8000.
Definition BOOTABLE_PARTITION : Z := 0x80.
Definition ELF_MAGIC : Z := 0x464C457F.
Definition ELFHDR : Z := 0x20000.

Definition load8 (m : mem) (a : Z) : Z := m !!! u32 a.
Definition load16 (m : mem) (a : Z) : Z := m !!! u32 a + 2 ^ 8 * (m !!! u32 (a + 1)).
Definition load64 (m : mem) (a : Z) : Z := load32 m a + 2 ^ 32 * load32 m (a + 4).

(** ** Screen *)

Definition putc (l color ch : Z) : K state unit :=
  modify (fun s => s_mm (<[VIDEO + l * 2 + 1 := color]> (<[VIDEO + l * 2 := ch]> (mm s))) s).

(** [string]: the bytes before the null byte. *)
Fixpoint puts_from (l color : Z) (string : list Z) : K state Z :=
  match string with
  | [] => mret l
  | ch :: string => putc l color ch ;; puts_from (l + 1) color string
  end.
Definition puts (r c color : Z) (string : list Z) : K state Z := puts_from (r * 80 + c) color string.

Definition blank : list Z := replicate 80 32.

Definition putline (str : list Z) : K state unit :=
  r ← gets row;
  modify (s_row (if CRT_ROWS <=? r then 0 else r + 1)) ;;
  r ← gets row;
  puts r 0 VGA_CLR_BLACK blank ;;
  puts r 0 VGA_CLR_WHITE str ;;
  mret tt.
Definition roll (r : Z) : K state unit := modify (s_row r).
(** panic prints and halts for good. *)
Definition boot_panic {A} (m : string) : K state A :=
  puts 0 0 VGA_CLR_RED (text m) ;; panic m.

(** ** Strings: character arrays *)

Definition ch_get (i : Z) : K (list Z) Z := fun s =>
  if i <? 0 then Err Undef else match s !! Z.to_nat i with Some c => Ok c s | None => Err Undef end.
Definition ch_set (i c : Z) : K (list Z) unit := fun s =>
  if (0 <=? i) && (i <? zlen s) then Ok tt (<[Z.to_nat i := u8 c]> s) else Err Undef.

Definition strlen_body (n : Z) : K (list Z) (Z + Z) :=
  c ← ch_get n; if c =? 0 then mret (inr n) else mret (inl (n + 1)).
Definition strlen : K (list Z) Z := fun s => loop (S (length s)) strlen_body 0 s.

Definition reverse_body (ij : Z * Z) : K (list Z) ((Z * Z) + unit) :=
  let '(i, j) := ij in
  if i <? j then
    c ← ch_get i;
    d ← ch_get j;
    ch_set i d ;;
    ch_set j c ;;
    mret (inl (i + 1, j - 1))
  else mret (inr tt).
Definition reverse : K (list Z) unit :=
  n ← strlen;
  loop (S (Z.to_nat n)) reverse_body (0, n - 1).

(** [table[n % root]]; the remainder has the sign of [n]. *)
Definition itox_body (root : Z) (table : list Z) (x : Z * Z) : K (list Z) ((Z * Z) + Z) :=
  let '(i, n) := x in
  let d := Z.rem n root in
  match (if d <? 0 then None else table !! Z.to_nat d) with
  | None => fail Undef
  | Some c =>
      ch_set i c ;;
      let n := Z.quot n root in
      if 0 <? n then mret (inl (i + 1, n)) else mret (inr (i + 1))
  end.

(** The negation of the least number overflows. *)
Definition itox (n root : Z) (table : list Z) : K (list Z) unit :=
  let sign := n in
  n ← (if n <? 0 then if n =? - 2 ^ 31 then fail Undef else mret (- n) else mret n);
  i ← loop 32 (itox_body root table) (0, n);
  i ← (if sign <? 0 then ch_set i 45 ;; mret (i + 1) else mret i);
  ch_set i 0 ;;
  reverse.

Definition dec : list Z := text "0123456789".
Definition hex : list Z := text "0123456789abcdef".
Definition itoa (n : Z) : K (list Z) unit := itox n 10 dec.
Definition itoh (n : Z) : K (list Z) unit := itox n 16 hex.

Definition puti (i : Z) : K state unit :=
  zoom puti_lens (itoh i) ;;
  str ← gets puti_str;
  match cstring str with Some str => putline str | None => fail Undef end.

(** ** Disk *)

Section disk.
Context (disk : Z -> list Z) (ready_time : nat).

Definition inb_status : K drive Z := fun d =>
  Ok (match busy d with O => 0x40 | _ => 0xC0 end) (Drive (lba0 d) (lba1 d) (lba2 d) (lba3 d) (pred (busy d)) (data d)).
Definition wait_body (_ : unit) : K drive (unit + unit) :=
  st ← inb_status; if Z.land st 0xC0 =? 0x40 then mret (inr tt) else mret (inl tt).
Definition waitdisk : K drive unit := fun d => loop (S (busy d)) wait_body tt d.

(** The registers 0x1F3 to 0x1F6 hold the sector number, 28 bits of it. *)
Definition lba (d : drive) : Z :=
  lba0 d + 2 ^ 8 * lba1 d + 2 ^ 16 * lba2 d + 2 ^ 24 * Z.land (lba3 d) 0x0F.
Definition outb_hd (port v : Z) : K drive unit := modify (fun d =>
  let v := u8 v in
  if port =? 0x1F3 then Drive v (lba1 d) (lba2 d) (lba3 d) (busy d) (data d)
  else if port =? 0x1F4 then Drive (lba0 d) v (lba2 d) (lba3 d) (busy d) (data d)
  else if port =? 0x1F5 then Drive (lba0 d) (lba1 d) v (lba3 d) (busy d) (data d)
  else if port =? 0x1F6 then Drive (lba0 d) (lba1 d) (lba2 d) v (busy d) (data d)
  else if (port =? 0x1F7) && (v =? 0x20) then Drive (lba0 d) (lba1 d) (lba2 d) (lba3 d) ready_time (disk (lba d))
  else d).

(** [cnt] words from the data port to memory at [addr]. *)
Definition insl (addr cnt : Z) : K state unit := modify (fun s =>
  s_mm (fill (Z.to_nat (4 * cnt)) addr (fun k => data (hd s) !!! Z.to_nat k) (mm s)) s).

Definition readsector (dst offset : Z) : K state unit :=
  zoom hd_lens (
    waitdisk ;;
    outb_hd 0x1F2 1 ;;
    outb_hd 0x1F3 offset ;;
    outb_hd 0x1F4 (Z.shiftr offset 8) ;;
    outb_hd 0x1F5 (Z.shiftr offset 16) ;;
    outb_hd 0x1F6 (Z.lor (Z.shiftr offset 24) 0xE0) ;;
    outb_hd 0x1F7 0x20 ;;
    waitdisk) ;;
  insl dst (SECTOR_SIZE / 4).

Definition readsection_body (end_va : Z) (x : Z * Z) : K state ((Z * Z) + unit) :=
  let '(va, offset) := x in
  if va <? end_va then
    readsector va offset ;;
    mret (inl (u32 (va + SECTOR_SIZE), u32 (offset + 1)))
  else mret (inr tt).

(** The fuel is the number of sectors between the two addresses. *)
Definition readsection (va count offset lba : Z) : K state unit :=
  let va := Z.land va 0xFFFFFF in
  let end_va := u32 (va + count) in
  let va := Z.land va (Z.lnot (SECTOR_SIZE - 1)) in
  let offset := u32 (offset / SECTOR_SIZE + lba) in
  loop (Z.to_nat ((end_va - va) / SECTOR_SIZE + 2)) (readsection_body end_va) (va, offset).

(** ** boot1main.c *)

Definition segment (dkernel ph : Z) : K state unit :=
  m ← gets mm;
  readsection (load32 m (ph + 8)) (load32 m (ph + 20)) (load32 m (ph + 4)) dkernel.

Definition segments_body (dkernel eph ph : Z) : K state (Z + unit) :=
  if ph <? eph then segment dkernel ph ;; mret (inl (u32 (ph + 32))) else mret (inr tt).

Definition load_kernel (dkernel : Z) : K state Z :=
  readsection ELFHDR (SECTOR_SIZE * 8) 0 dkernel ;;
  m ← gets mm;
  if negb (load32 m ELFHDR =? ELF_MAGIC) then boot_panic "Kernel is not a valid elf."
  else
    let ph := u32 (ELFHDR + load32 m (ELFHDR + 28)) in
    let n := load16 m (ELFHDR + 44) in
    let eph := u32 (ph + 32 * n) in
    loop (S (Z.to_nat n)) (segments_body dkernel eph) ph ;;
    m ← gets mm;
    mret (Z.land (load32 m (ELFHDR + 24)) 0xFFFFFF).

(** A structure of the memory map: size, base_addr, length, type. *)
Definition smap_body (x : Z * Z) : K state ((Z * Z) + Z) :=
  let '(p, mmap_len) := x in
  m ← gets mm;
  if negb (load64 m (p + 4) =? 0) || negb (load64 m (p + 12) =? 0) || negb (load32 m (p + 20) =? 0) then
    puti (i32 (load64 m (p + 4))) ;;
    mret (inl (u32 (p + 24), u32 (mmap_len + 24)))
  else mret (inr mmap_len).
(** [fuel] bounds the length of the map. *)
Definition parse_e820 (fuel : nat) (smap : Z) : K state unit :=
  putline (text "* E820 Memory Map *") ;;
  mmap_len ← loop fuel smap_body (smap, 0);
  modify (s_mmap mmap_len smap).

Fixpoint find_bootable (mbr : Z) (i : Z) (n : nat) (m : mem) : option Z :=
  match n with
  | O => None
  | S n => if load8 m (mbr + 446 + 16 * i) =? BOOTABLE_PARTITION then Some (load32 m (mbr + 446 + 16 * i + 8))
           else find_bootable mbr (i + 1) n m
  end.

(** The entry point exec_kernel jumps to. *)
Definition boot1main (fuel : nat) (mbr smap : Z) : K state Z :=
  roll 3 ;;
  putline (text "Start boot1 main ...") ;;
  m ← gets mm;
  match find_bootable mbr 0 4 m with
  | None => boot_panic "Cannot find bootable partition!"
  | Some bootable_lba =>
      parse_e820 fuel smap ;;
      putline (text "Load kernel ..." ++ [10]) ;;
      entry ← load_kernel bootable_lba;
      putline (text "Start kernel ..." ++ [10]) ;;
      mret entry
  end.
End disk.

(** ** Numbers as text *)

Section chars.
Lemma ch_get_run pre c r : ch_get (zlen pre) (pre ++ c :: r) = Ok c (pre ++ c :: r).
Proof.
  unfold ch_get. rewrite (proj2 (Z.ltb_ge _ 0)) by (unfold zlen; lia). unfold zlen.
  by rewrite Nat2Z.id, list_lookup_middle.
Qed.
Lemma ch_set_run pre x r c : is_byte c -> ch_set (zlen pre) c (pre ++ x :: r) = Ok tt (pre ++ c :: r).
Proof.
  intros Hc. unfold ch_set. assert (0 <= zlen pre < zlen (pre ++ x :: r)) by (unfold zlen; rewrite length_app; cbn; lia).
  bool_simp. rewrite u8_small by done. unfold zlen. by rewrite Nat2Z.id, insert_app_r_alt, Nat.sub_diag by lia.
Qed.
Lemma zlen_snoc_ {A} (l : list A) x : zlen (l ++ [x]) = zlen l + 1.
Proof. unfold zlen. rewrite length_app. cbn. lia. Qed.

Lemma strlen_loop l : forall n pre r, Forall (fun c => c <> 0) l -> (length l < n)%nat ->
  loop n strlen_body (zlen pre) (pre ++ l ++ 0 :: r) = Ok (zlen pre + zlen l) (pre ++ l ++ 0 :: r).
Proof.
  induction l as [|c l IH]; intros n pre r Hl Hn; (destruct n as [|n]; [cbn in Hn; lia|]); cbn [loop]; unfold strlen_body.
  - erewrite bind_Ok; [|erewrite bind_Ok by apply (ch_get_run pre 0 r); reflexivity]. by rewrite Z.add_0_r.
  - apply Forall_cons in Hl as [Hc Hl]. erewrite bind_Ok; [|erewrite bind_Ok by apply (ch_get_run pre c (l ++ 0 :: r));
      rewrite (proj2 (Z.eqb_neq c 0)) by done; reflexivity].
    rewrite <- (zlen_snoc_ pre c). cbn in Hn. specialize (IH n (pre ++ [c]) r Hl ltac:(lia)).
    rewrite <- app_assoc in IH. etransitivity; [exact IH|]. f_equal. rewrite zlen_snoc_. unfold zlen. cbn [length]. lia.
Qed.
Lemma strlen_run l r : Forall (fun c => c <> 0) l -> strlen (l ++ 0 :: r) = Ok (zlen l) (l ++ 0 :: r).
Proof. intros Hl. unfold strlen. apply (strlen_loop l _ [] r Hl). rewrite length_app. lia. Qed.

Lemma reverse_loop n : forall a m b, (length m <= n)%nat -> Forall is_byte m ->
  loop (S n) reverse_body (zlen a, zlen a + zlen m - 1) (a ++ m ++ b) = Ok tt (a ++ rev m ++ b).
Proof.
  induction n as [n IH] using lt_wf_ind. intros a m b Hn Hm. cbn [loop]. unfold reverse_body.
  destruct m as [|x m].
  { change (zlen []) with 0. bool_false. by erewrite bind_Ok by reflexivity. }
  destruct (decide (m = [])) as [->|Hne].
  { change (zlen [x]) with 1. bool_false. by erewrite bind_Ok by reflexivity. }
  destruct (exists_last Hne) as (m' & y & ->). cbn [length] in Hn. rewrite length_app in Hn. cbn [length] in Hn.
  apply Forall_cons in Hm as [Hx Hm]. apply Forall_app in Hm as [Hm' Hy]. apply Forall_cons in Hy as [Hy _].
  assert (Hz : zlen a + zlen (x :: m' ++ [y]) - 1 = zlen (a ++ x :: m')).
  { unfold zlen. cbn [length]. rewrite !length_app. cbn [length]. lia. }
  assert (Hz' : zlen (a ++ y :: m') = zlen (a ++ x :: m')) by (unfold zlen; rewrite !length_app; done).
  rewrite Hz. assert (zlen a < zlen (a ++ x :: m')) by (unfold zlen; rewrite length_app; cbn [length]; lia). bool_true.
  erewrite bind_Ok; [|erewrite bind_Ok by apply (ch_get_run a x ((m' ++ [y]) ++ b));
    erewrite bind_Ok by (replace (a ++ x :: (m' ++ [y]) ++ b) with ((a ++ x :: m') ++ y :: b) by (by rewrite <- !app_assoc);
      apply ch_get_run);
    erewrite bind_Ok by (replace ((a ++ x :: m') ++ y :: b) with (a ++ x :: m' ++ y :: b) by (by rewrite <- app_assoc);
      by apply ch_set_run);
    erewrite bind_Ok by (replace (a ++ y :: m' ++ y :: b) with ((a ++ y :: m') ++ y :: b) by (by rewrite <- app_assoc);
      rewrite <- Hz'; by apply ch_set_run); reflexivity].
  replace (zlen a + 1) with (zlen (a ++ [y])) by (apply zlen_snoc_).
  replace (zlen (a ++ x :: m') - 1) with (zlen (a ++ [y]) + zlen m' - 1)
    by (unfold zlen; rewrite !length_app; cbn [length]; lia).
  destruct n as [|n]; [lia|]. replace ((a ++ y :: m') ++ x :: b) with ((a ++ [y]) ++ m' ++ (x :: b)) by (by rewrite <- !app_assoc).
  fold reverse_body. rewrite (IH n ltac:(lia) (a ++ [y]) m' (x :: b)) by (done || lia). f_equal. cbn [rev]. rewrite rev_app_distr. cbn.
  by rewrite <- !app_assoc.
Qed.
Lemma reverse_run l r : Forall (fun c => c <> 0) l -> Forall is_byte l -> reverse (l ++ 0 :: r) = Ok tt (rev l ++ 0 :: r).
Proof.
  intros H0 Hb. unfold reverse. erewrite bind_Ok by by apply strlen_run. unfold zlen. rewrite Nat2Z.id.
  apply (reverse_loop (length l) [] l (0 :: r)); done.
Qed.

Context (root : Z) (table : list Z) (Hroot : 2 <= root <= zlen table) (Htab : Forall nonzero table).
Definition digit (d : Z) : Z := table !!! Z.to_nat d.

Lemma digit_lookup d : 0 <= d < root -> table !! Z.to_nat d = Some (digit d) /\ nonzero (digit d).
Proof.
  intros Hd. unfold digit. destruct (lookup_lt_is_Some_2 table (Z.to_nat d)) as [c Hc]; [unfold zlen in Hroot; lia|].
  rewrite (list_lookup_total_correct _ _ _ Hc). split; [done|]. exact (Forall_lookup_1 _ _ _ _ Htab Hc).
Qed.

(** Enough fuel gives all digits. *)
Lemma digits_rec_fuel f : forall f' n, 0 <= n < root ^ Z.of_nat f -> (0 < f <= f')%nat -> digits_rec f root n = digits_rec f' root n.
Proof.
  induction f as [|f IH]; intros f' n Hn Hf; [lia|]. destruct f' as [|f']; [lia|]. cbn [digits_rec].
  destruct (Z.leb_spec root n) as [Hle|]; [|done]. f_equal. apply IH.
  - split; [apply Z.div_pos; lia|]. apply Z.div_lt_upper_bound; [lia|]. rewrite <- Z.pow_succ_r, <- Nat2Z.inj_succ by lia. lia.
  - destruct f; [|lia]. cbn in Hn. lia.
Qed.

(** The digits are stored from the last one on. *)
Lemma itox_loop f : forall n pre rest, 0 <= n < root ^ Z.of_nat f -> (0 < f)%nat -> (f <= length rest)%nat ->
  let ds := rev (digit <$> digits_rec f root n) in
  loop f (itox_body root table) (zlen pre, n) (pre ++ rest) =
    Ok (zlen pre + zlen ds) (pre ++ ds ++ drop (length ds) rest).
Proof.
  induction f as [|f IH]; intros n pre rest Hn Hf Hl ds; [lia|]. destruct rest as [|x rest]; [cbn in Hl; lia|]. cbn in Hl.
  pose proof (Z.rem_mod_nonneg n root ltac:(lia) ltac:(lia)) as Er.
  pose proof (Z.quot_div_nonneg n root ltac:(lia) ltac:(lia)) as Eq.
  pose proof (Z.mod_pos_bound n root ltac:(lia)) as Hm. destruct (digit_lookup (n mod root) Hm) as [El Hd].
  assert (Eb : itox_body root table (zlen pre, n) (pre ++ x :: rest) =
    Ok (if 0 <? n / root then inl (zlen pre + 1, n / root) else inr (zlen pre + 1)) (pre ++ digit (n mod root) :: rest)).
  { unfold itox_body. rewrite Er, Eq, (proj2 (Z.ltb_ge (n mod root) 0)), El by lia.
    erewrite bind_Ok by (apply ch_set_run; unfold nonzero in Hd; klia). by case_bool. }
  cbn [loop]. erewrite bind_Ok by exact Eb.
  unfold ds. cbn [digits_rec]. destruct (Z.leb_spec root n) as [Hle|Hgt].
  - assert (0 < n / root) by (apply Z.div_str_pos; lia).
    bool_true. rewrite <- (zlen_snoc_ pre (digit (n mod root))).
    rewrite fmap_app, rev_app_distr. cbn [fmap list_fmap rev app].
    replace (pre ++ digit (n mod root) :: rest) with ((pre ++ [digit (n mod root)]) ++ rest) by (by rewrite <- app_assoc).
    rewrite (IH (n / root)); [| |destruct f; [cbn in Hn; lia | lia] | lia].
    + f_equal; [rewrite zlen_snoc_; unfold zlen; cbn [length]; lia | by rewrite <- app_assoc].
    + split; [lia|]. apply Z.div_lt_upper_bound; [lia|]. rewrite <- Z.pow_succ_r, <- Nat2Z.inj_succ by lia. lia.
  - assert (n / root = 0) as -> by (apply Z.div_small; lia). done.
Qed.

Lemma itox_run n buf : - 2 ^ 31 < n < 2 ^ 31 -> (34 <= length buf)%nat ->
  exists r, itox n root table buf = Ok tt ((if n <? 0 then [45] else []) ++ (digit <$> digits root (Z.abs n)) ++ 0 :: r) /\
    zlen ((if n <? 0 then [45] else []) ++ (digit <$> digits root (Z.abs n)) ++ 0 :: r) = zlen buf.
Proof.
  assert (H45 : is_byte 45) by done. assert (H0 : is_byte 0) by done.
  intros Hn Hl. assert (Hn' : 0 <= Z.abs n < root ^ Z.of_nat 32).
  { split; [lia|]. apply Z.lt_le_trans with (2 ^ 32); [lia|]. apply Z.pow_le_mono_l. lia. }
  pose proof (digits_rec_fuel 32 64 (Z.abs n) Hn' ltac:(lia)) as Ed. fold (digits root (Z.abs n)) in Ed.
  destruct (digits_rec_spec 32 root (Z.abs n) ltac:(lia) Hn' ltac:(lia)) as (_ & Hdr & _ & Hlen). rewrite Ed in Hdr, Hlen.
  pose proof (itox_loop 32 (Z.abs n) [] buf Hn' ltac:(lia) ltac:(lia)) as Eloop. cbv zeta in Eloop. rewrite Ed in Eloop.
  set (ds := digit <$> digits root (Z.abs n)) in *. assert (Hds : Forall nonzero ds).
  { apply Forall_fmap. eapply Forall_impl; [exact Hdr|]. intros d Hd. by apply digit_lookup. }
  assert (Hl32 : (length (rev ds) <= 32)%nat) by (rewrite length_rev; unfold ds; rewrite length_fmap; unfold zlen in Hlen; lia).
  set (pre := if n <? 0 then [45] else [] : list Z).
  assert (Hpre : (length pre <= 1)%nat /\ Forall nonzero pre) by (unfold pre; case_bool; split; cbn; try lia; repeat constructor).
  destruct Hpre as [Hp1 Hp2]. cbn [app] in Eloop. change (zlen []) with 0 in Eloop. rewrite Z.add_0_l in Eloop.
  assert (Hdrop : exists x r, drop (length (rev ds) + length pre) buf = x :: r).
  { destruct (drop (length (rev ds) + length pre) buf) as [|x r] eqn:E; [|eauto]. apply (f_equal length) in E.
    rewrite length_drop in E. cbn [length] in E. lia. }
  destruct Hdrop as (x & r & Er). exists r.
  assert (E1 : itox n root table buf = (ch_set (zlen (rev ds ++ pre)) 0 ;; reverse) ((rev ds ++ pre) ++ x :: r)).
  { unfold itox. erewrite bind_Ok with (a := Z.abs n) (s' := buf).
    2:{ destruct (Z.ltb_spec n 0); [rewrite (proj2 (Z.eqb_neq n _)) by lia; by rewrite Z.abs_neq by lia | by rewrite Z.abs_eq by lia]. }
    erewrite bind_Ok by exact Eloop. unfold pre in *. destruct (Z.ltb_spec n 0).
    - destruct (drop (length (rev ds)) buf) as [|y r'] eqn:Ey; [apply (f_equal length) in Ey; rewrite length_drop in Ey; cbn [length] in *; lia|].
      cbn [length] in Er. rewrite <- drop_drop, Ey in Er. change (drop 1 (y :: r')) with r' in Er. subst r'.
      pose proof (ch_set_run (rev ds) y (x :: r) 45 H45) as Es.
      erewrite bind_Ok; [|erewrite bind_Ok by exact Es; reflexivity].
      rewrite zlen_snoc_, <- app_assoc. reflexivity.
    - erewrite bind_Ok by reflexivity. cbn [length] in Er. rewrite Nat.add_0_r in Er. rewrite app_nil_r, Er. reflexivity. }
  rewrite E1. pose proof (ch_set_run (rev ds ++ pre) x r 0 H0) as Es. erewrite bind_Ok by exact Es. rewrite reverse_run.
  - rewrite rev_app_distr, rev_involutive, <- app_assoc. assert (rev pre = pre) as -> by (unfold pre; by case_bool).
    split; [reflexivity|]. apply (f_equal length) in Er. rewrite length_drop, length_rev in Er. cbn [length] in Er.
    unfold zlen. rewrite !length_app. cbn [length]. rewrite length_rev in Hl32. lia.
  - apply Forall_app_2; [apply Forall_rev|]; (eapply Forall_impl; [eassumption|]); intros c [? ?]; lia.
  - apply Forall_app_2; [apply Forall_rev|]; (eapply Forall_impl; [eassumption|]); intros c [? ?]; klia.
Qed.
End chars.

(** ** The screen *)

(** Only the memory of the screen, rows 0 to 25, and the loader's own
    variables may differ. *)
Record drawn (s s' : state) : Prop := {
  dr_mem : forall a, a < VIDEO \/ VIDEO + 4160 <= a -> mm s' !!! a = mm s !!! a;
  dr_row : 0 <= row s' <= CRT_ROWS;
  dr_str : zlen (puti_str s') = zlen (puti_str s);
  dr_hd : hd s' = hd s;
  dr_len : mmap_length s' = mmap_length s;
  dr_addr : mmap_addr s' = mmap_addr s
}.
Lemma drawn_trans s1 s2 s3 : drawn s1 s2 -> drawn s2 s3 -> drawn s1 s3.
Proof. intros [] []. split; try congruence. intros a Ha. rewrite dr_mem1; auto. Qed.

Lemma puts_wp str : forall l color s (Q : Z -> state -> Prop), 0 <= l -> l + zlen str <= 2080 -> 0 <= row s <= CRT_ROWS ->
  (forall s', drawn s s' -> row s' = row s -> Q (l + zlen str) s') -> wp (puts_from l color str) Q s.
Proof.
  induction str as [|ch str IH]; intros l color s Q Hl Hs Hr HQ; cbn [puts_from].
  - apply wp_ret. rewrite <- (Z.add_0_r l). by apply (HQ s).
  - assert (Hz : zlen (ch :: str) = 1 + zlen str) by (unfold zlen; cbn [length]; lia). rewrite Hz in *.
    assert (0 <= zlen str) by (unfold zlen; lia).
    apply wp_bind, wp_modify, IH; [lia | lia | done|]. intros s' [D1 D2 D3 D4 D5 D6] Er. rewrite Z.add_assoc in HQ. apply HQ; [|done].
    split; try done. intros a Ha. rewrite D1 by done. cbn. unfold VIDEO in *. by rewrite !lookup_total_insert_ne by lia.
Qed.

Lemma boot_panic_run {A} m s : boot_panic (A := A) m s = Err (Panic m).
Proof.
  unfold boot_panic, puts. generalize (0 * 80 + 0). intros l. assert (H : exists s', puts_from l VGA_CLR_RED (text m) s = Ok (l + zlen (text m)) s').
  { revert l s. induction (text m) as [|c t IH]; intros l s; cbn [puts_from].
    - exists s. by rewrite Z.add_0_r.
    - erewrite bind_Ok by reflexivity. edestruct IH as [s' E]. exists s'. rewrite E. f_equal. unfold zlen. cbn [length]. lia. }
  destruct H as [s' E]. by erewrite bind_Ok by exact E.
Qed.

Lemma putline_wp str s (Q : unit -> state -> Prop) : zlen str <= 80 -> 0 <= row s <= CRT_ROWS ->
  (forall s', drawn s s' -> Q tt s') -> wp (putline str) Q s.
Proof.
  intros Hl Hr HQ. unfold putline. apply wp_bind, wp_gets, wp_bind, wp_modify, wp_bind, wp_gets. cbn [row s_row].
  set (r := if CRT_ROWS <=? row s then 0 else row s + 1).
  assert (Hr' : 0 <= r <= CRT_ROWS) by (unfold r, CRT_ROWS in *; case_bool; lia). unfold CRT_ROWS in *.
  apply wp_bind, puts_wp; [lia | change (zlen blank) with 80; lia | done|]. intros s1 D1 R1.
  apply wp_bind, puts_wp; [lia | lia | by rewrite R1|]. intros s2 D2 R2. apply wp_ret, HQ.
  eapply drawn_trans; [|exact D2]. destruct D1. by split.
Qed.

Lemma hex_table : Forall nonzero hex.
Proof. repeat constructor. Qed.

Lemma puti_wp i s (Q : unit -> state -> Prop) : - 2 ^ 31 < i < 2 ^ 31 -> 34 <= zlen (puti_str s) -> 0 <= row s <= CRT_ROWS ->
  (forall s', drawn s s' -> Q tt s') -> wp (puti i) Q s.
Proof.
  intros Hi Hl Hr HQ. destruct (itox_run 16 hex ltac:(by vm_compute) hex_table i (puti_str s) Hi ltac:(unfold zlen in Hl; lia)) as (r & E & Ez).
  unfold puti. apply wp_bind, wp_zoom. eapply wp_intro; [exact E|]. apply wp_bind, wp_gets. cbn [puti_str lput puti_lens s_puti].
  set (t := (if i <? 0 then [45] else []) ++ (digit hex <$> digits 16 (Z.abs i))). rewrite app_assoc. fold t.
  destruct (digits_spec 16 (Z.abs i) ltac:(done) ltac:(lia)) as (_ & Hd & _ & Hlen).
  assert (Ht : Forall (fun c => c <> 0) t).
  { apply Forall_app_2; [by case_bool; repeat constructor|]. apply Forall_fmap. eapply Forall_impl; [exact Hd|].
    intros d Hd'. unfold compose. cbv beta. destruct (digit_lookup 16 hex ltac:(by vm_compute) hex_table d Hd') as [_ [? ?]]. lia. }
  rewrite cstring_nul by done. apply putline_wp; [|done|].
  - unfold t, zlen in *. rewrite length_app, length_fmap. case_bool; cbn [length]; lia.
  - intros s' [D1 D2 D3 D4 D5 D6]. apply HQ. split; try done. rewrite D3. cbn. rewrite <- Ez, app_assoc. done.
Qed.

(** ** The disk *)

Section loader.
Context (disk : Z -> list Z) (ready_time : nat).

Lemma waitdisk_run d : waitdisk d = Ok tt (Drive (lba0 d) (lba1 d) (lba2 d) (lba3 d) 0 (data d)).
Proof.
  unfold waitdisk. destruct d as [a b c e n l]. cbn [busy lba0 lba1 lba2 lba3 data].
  induction n as [|n IH]; [done|]. cbn [loop]. by erewrite bind_Ok by reflexivity.
Qed.

Lemma sector_bytes o : 0 <= o < 2 ^ 28 ->
  u8 o + 2 ^ 8 * u8 (Z.shiftr o 8) + 2 ^ 16 * u8 (Z.shiftr o 16) + 2 ^ 24 * Z.land (u8 (Z.lor (Z.shiftr o 24) 0xE0)) 0x0F = o.
Proof.
  intros Ho. assert (E : Z.land (u8 (Z.lor (Z.shiftr o 24) 0xE0)) 0x0F = Z.shiftr o 24).
  { rewrite Z.shiftr_div_pow2 by lia. assert (H : 0 <= o / 2 ^ 24 < 16) by (split; [apply Z.div_pos; lia | apply Z.div_lt_upper_bound; lia]).
    assert (Hc : forallb (fun x => Z.land (u8 (Z.lor x 0xE0)) 0x0F =? x) (seqZ 0 16) = true) by done.
    rewrite forallb_forall in Hc. apply Z.eqb_eq, Hc. rewrite <- list_elem_of_In, elem_of_seqZ. lia. }
  rewrite E. rewrite !Z.shiftr_div_pow2 by lia. unfold u8. change (2 ^ 24) with (2 ^ 16 * 2 ^ 8). change (2 ^ 16) with (2 ^ 8 * 2 ^ 8) in *.
  rewrite <- !Z.div_div by lia. pose proof (Z.div_mod o (2 ^ 8)). pose proof (Z.div_mod (o / 2 ^ 8) (2 ^ 8)).
  pose proof (Z.div_mod (o / 2 ^ 8 / 2 ^ 8) (2 ^ 8)). lia.
Qed.

Lemma outb_wp port v d d' (Q : unit -> drive -> Prop) : outb_hd disk ready_time port v d = Ok tt d' -> Q tt d' ->
  wp (outb_hd disk ready_time port v) Q d.
Proof. intros E HQ. by eapply wp_intro. Qed.

Lemma readsector_wp dst o s (Q : unit -> state -> Prop) : 0 <= o < 2 ^ 28 ->
  (forall h, Q tt (s_hd h (s_mm (fill 512 dst (fun k => disk o !!! Z.to_nat k) (mm s)) s))) ->
  wp (readsector disk ready_time dst o) Q s.
Proof.
  intros Ho HQ. unfold readsector. apply wp_bind, wp_zoom, wp_bind. eapply wp_intro; [apply waitdisk_run|].
  cbn [lget hd_lens]. destruct (hd s) as [a b c e n l]. cbn [lba0 lba1 lba2 lba3 busy data].
  apply wp_bind, (outb_wp _ _ _ (Drive a b c e 0 l)); [done|].
  apply wp_bind, (outb_wp _ _ _ (Drive (u8 o) b c e 0 l)); [done|].
  apply wp_bind, (outb_wp _ _ _ (Drive (u8 o) (u8 (Z.shiftr o 8)) c e 0 l)); [done|].
  apply wp_bind, (outb_wp _ _ _ (Drive (u8 o) (u8 (Z.shiftr o 8)) (u8 (Z.shiftr o 16)) e 0 l)); [done|].
  set (h := Drive (u8 o) (u8 (Z.shiftr o 8)) (u8 (Z.shiftr o 16)) (u8 (Z.lor (Z.shiftr o 24) 0xE0))).
  apply wp_bind, (outb_wp _ _ _ (h 0%nat l)); [done|].
  apply wp_bind, (outb_wp _ _ _ (h ready_time (disk o))).
  { unfold outb_hd, modify. cbn [Z.eqb Pos.eqb andb]. change (u8 32 =? 32) with true. cbn match. unfold lba, h.
    cbn [lba0 lba1 lba2 lba3]. by rewrite sector_bytes. }
  eapply wp_intro; [apply waitdisk_run|]. apply wp_modify. cbn [mm hd s_hd data s_mm lput hd_lens h]. apply HQ.
Qed.

(** Byte [b] of the file that starts at sector [start]. *)
Definition file (start b : Z) : Z := disk (start + b / SECTOR_SIZE) !!! Z.to_nat (b mod SECTOR_SIZE).

(** Memory after the sectors from byte [o] on of the file have been read to
    the addresses from [lo] up to [hi]. *)
Definition placed (start lo hi o : Z) (m m' : mem) : Prop :=
  forall a, m' !!! a = if decide (lo <= a < hi) then file start (o + (a - lo)) else m !!! a.

Lemma placed_step start lo hi o m m' d : placed start lo hi o m m' -> 0 <= lo <= hi -> hi + SECTOR_SIZE <= 2 ^ 32 ->
  0 <= o -> (o + (hi - lo)) mod SECTOR_SIZE = 0 -> d = start + (o + (hi - lo)) / SECTOR_SIZE ->
  placed start lo (hi + SECTOR_SIZE) o m (fill 512 hi (fun k => disk d !!! Z.to_nat k) m').
Proof.
  intros Hp Hlo Hhi Ho Hm -> a. unfold SECTOR_SIZE in *. rewrite fill_lookup by lia. change (Z.of_nat 512) with 512.
  specialize (Hp a). repeat case_decide; try lia; rewrite ?Hp; try (case_decide; done || lia); try done.
  unfold file, SECTOR_SIZE. pose proof (Z.div_mod (o + (hi - lo)) 512 ltac:(lia)) as Hd. rewrite Hm in Hd.
  set (k := (o + (hi - lo)) / 512) in *. assert (E : o + (a - lo) = (a - hi) + k * 512) by lia.
  by rewrite E, Z.div_add, Z.mod_add, Z.div_small, Z.mod_small, Z.add_0_l by lia.
Qed.

Lemma land_low a n : 0 <= n -> Z.land a (Z.lnot (2 ^ n - 1)) = a - a mod 2 ^ n.
Proof.
  intros Hn. rewrite Z.sub_1_r, <- Z.ones_equiv, <- Z.ldiff_land, Z.ldiff_ones_r, Z.shiftl_mul_pow2, Z.shiftr_div_pow2 by done.
  pose proof (Z.div_mod a (2 ^ n) ltac:(lia)). lia.
Qed.

(** The sectors readsection reads: from [lo], the address rounded down, to
    [hi], its end rounded up. *)
Definition sec_lo (va : Z) : Z := let va := Z.land va 0xFFFFFF in va - va mod SECTOR_SIZE.
Definition sec_hi (va count : Z) : Z :=
  sec_lo va + SECTOR_SIZE * ((Z.land va 0xFFFFFF + count - sec_lo va + SECTOR_SIZE - 1) / SECTOR_SIZE).
Definition sec_off (offset : Z) : Z := SECTOR_SIZE * (offset / SECTOR_SIZE).

Lemma sec_bounds va count : 0 <= count ->
  0 <= sec_lo va <= Z.land va 0xFFFFFF /\ Z.land va 0xFFFFFF < sec_lo va + SECTOR_SIZE /\ Z.land va 0xFFFFFF < 2 ^ 24 /\
  Z.land va 0xFFFFFF + count <= sec_hi va count < Z.land va 0xFFFFFF + count + SECTOR_SIZE /\
  sec_lo va mod SECTOR_SIZE = 0.
Proof.
  intros Hc. unfold sec_hi, sec_lo, SECTOR_SIZE. change 0xFFFFFF with (Z.ones 24). rewrite Z.land_ones by lia.
  set (v := va mod 2 ^ 24). pose proof (Z.mod_pos_bound va (2 ^ 24) ltac:(lia)) as Hv. fold v in Hv.
  pose proof (Z.mod_pos_bound v 512 ltac:(lia)). pose proof (Z.div_mod v 512 ltac:(lia)).
  pose proof (Z.div_pos v 512 ltac:(lia) ltac:(lia)).
  set (e := v + count - (v - v mod 512) + 512 - 1). pose proof (Z.div_mod e 512 ltac:(lia)). pose proof (Z.mod_pos_bound e 512 ltac:(lia)).
  assert (Em : (v - v mod 512) mod 512 = 0) by (apply Z.mod_divide; [lia|]; exists (v / 512); lia).
  split_and!; try lia.
Qed.

Definition fits (start va count offset : Z) : Prop :=
  0 <= count /\ sec_hi va count + SECTOR_SIZE < 2 ^ 32 /\ 0 <= offset /\ 0 <= start /\
  start + (offset + count) / SECTOR_SIZE + 2 < 2 ^ 28.

(** readsection puts sectors of the file into memory and touches nothing
    else. *)
Lemma readsection_wp va count offset start s (Q : unit -> state -> Prop) : fits start va count offset ->
  (forall m h, placed start (sec_lo va) (sec_hi va count) (sec_off offset) (mm s) m -> Q tt (s_hd h (s_mm m s))) ->
  wp (readsection disk ready_time va count offset start) Q s.
Proof.
  intros (Hc & Hhi & Ho & Hs & Hd) HQ. destruct (sec_bounds va count Hc) as (B1 & B2 & B3 & B4 & B5).
  assert (Hlo : Z.land (Z.land va 0xFFFFFF) (Z.lnot (SECTOR_SIZE - 1)) = sec_lo va) by (apply (land_low _ 9); lia).
  unfold readsection. rewrite Hlo. set (v := Z.land va 0xFFFFFF) in *. unfold SECTOR_SIZE in *.
  rewrite (u32_small (v + count)) by klia.
  assert (Hq : 0 <= offset / 512) by (apply Z.div_pos; lia).
  assert (Hq2 : forall k, 0 <= k -> sec_lo va + 512 * k < v + count -> offset / 512 + k <= (offset + count) / 512 + 1).
  { intros k Hk Hlt. pose proof (Z.div_mod offset 512 ltac:(lia)). pose proof (Z.mod_pos_bound offset 512 ltac:(lia)).
    pose proof (Z.div_mod (offset + count) 512 ltac:(lia)). pose proof (Z.mod_pos_bound (offset + count) 512 ltac:(lia)). lia. }
  rewrite (u32_small (offset / 512 + start)) by (pose proof (Z.div_le_mono offset (offset + count) 512 ltac:(lia) ltac:(lia)); klia).
  apply (wp_loop (fun x s' => exists k m h, 0 <= k /\ x = (sec_lo va + 512 * k, offset / 512 + start + k) /\
      sec_lo va + 512 * k <= sec_hi va count /\
      s' = s_hd h (s_mm m s) /\ placed start (sec_lo va) (sec_lo va + 512 * k) (sec_off offset) (mm s) m)
    (fun x _ => Z.to_nat ((v + count - x.1) / 512 + 1))).
  - exists 0, (mm s), (hd s). split; [done|]. split; [f_equal; lia|]. split; [lia|]. split; [by destruct s|].
    intros a. by rewrite decide_False by lia.
  - cbn [fst]. assert (0 <= (v + count - sec_lo va) / 512) by (apply Z.div_pos; lia). lia.
  - intros x s' (k & m & h & Hk & -> & Hle & -> & Hp). unfold readsection_body. destruct (Z.ltb_spec (sec_lo va + 512 * k) (v + count)) as [Hlt|Hge].
    + specialize (Hq2 k Hk Hlt). apply wp_bind, readsector_wp; [lia|]. intros h'. apply wp_ret. unfold SECTOR_SIZE.
      rewrite !u32_small by klia. assert (Hsec : sec_hi va count = sec_lo va + 512 * ((v + count - sec_lo va + 511) / 512)).
      { unfold sec_hi, SECTOR_SIZE. fold v. do 3 f_equal. lia. }
      pose proof (Z.div_mod (v + count - sec_lo va + 511) 512 ltac:(lia)).
      pose proof (Z.mod_pos_bound (v + count - sec_lo va + 511) 512 ltac:(lia)).
      split.
      * exists (k + 1), (fill 512 (sec_lo va + 512 * k) (fun i => disk (offset / 512 + start + k) !!! Z.to_nat i) m), h'.
        split; [lia|]. split; [f_equal; lia|]. split; [lia|]. split; [done|].
        replace (sec_lo va + 512 * (k + 1)) with (sec_lo va + 512 * k + SECTOR_SIZE) by (unfold SECTOR_SIZE; lia).
        apply placed_step; try done; unfold sec_off, SECTOR_SIZE; try lia.
        -- replace (512 * (offset / 512) + (sec_lo va + 512 * k - sec_lo va)) with ((offset / 512 + k) * 512) by lia. apply Z.mod_mul. lia.
        -- replace (512 * (offset / 512) + (sec_lo va + 512 * k - sec_lo va)) with ((offset / 512 + k) * 512) by lia. rewrite Z.div_mul by lia. lia.
      * cbn [fst]. replace (v + count - (sec_lo va + 512 * k + 512)) with (v + count - (sec_lo va + 512 * k) + (-1) * 512) by lia.
        rewrite Z.div_add by lia. assert (0 <= (v + count - (sec_lo va + 512 * k)) / 512) by (apply Z.div_pos; lia). lia.
    + apply wp_ret. apply HQ. assert (sec_hi va count = sec_lo va + 512 * k) as ->; [|done].
      unfold sec_hi, SECTOR_SIZE in *. fold v in B4, Hle |- *. f_equal. lia.
Qed.

(** ** The kernel file *)

Context (start : Z).
Abbreviation F := (file start).
Definition f16 (o : Z) : Z := F o + 2 ^ 8 * F (o + 1).
Definition f32 (o : Z) : Z := F o + 2 ^ 8 * F (o + 1) + 2 ^ 16 * F (o + 2) + 2 ^ 24 * F (o + 3).
(** The program headers. *)
Definition phnum : Z := f16 44.
Definition ph (k : Z) : Z := f32 28 + 32 * k.
Definition p_offset (k : Z) : Z := f32 (ph k + 4).
Definition p_va (k : Z) : Z := f32 (ph k + 8).
Definition p_memsz (k : Z) : Z := f32 (ph k + 20).
(** Where segment [k] goes: the 16 MB the loader can reach. *)
Definition seg_va (k : Z) : Z := Z.land (p_va k) 0xFFFFFF.
Definition in_sectors (k a : Z) : Prop := sec_lo (p_va k) <= a < sec_hi (p_va k) (p_memsz k).

Record kernel_ok : Prop := {
  ko_start : 0 <= start < 2 ^ 28 - 16;
  ko_phnum : 0 <= phnum;
  ko_phs : 0 <= f32 28 /\ f32 28 + 32 * phnum <= 4096;
  ko_fits : forall k, 0 <= k < phnum -> fits start (p_va k) (p_memsz k) (p_offset k);
  ko_clear : forall k a, 0 <= k < phnum -> in_sectors k a -> ~ (ELFHDR <= a < ELFHDR + 4096)
}.

(** Memory after [n] segments. *)
Fixpoint image (n : nat) (m : mem) (a : Z) : Z :=
  match n with
  | O => m !!! a
  | S n => if decide (sec_lo (p_va (Z.of_nat n)) <= a < sec_hi (p_va (Z.of_nat n)) (p_memsz (Z.of_nat n)))
           then F (sec_off (p_offset (Z.of_nat n)) + (a - sec_lo (p_va (Z.of_nat n)))) else image n m a
  end.

Definition header_ok (m : mem) : Prop := forall a, ELFHDR <= a < ELFHDR + 4096 -> m !!! a = F (a - ELFHDR).

Lemma header_load32 m o : header_ok m -> 0 <= o -> o + 4 <= 4096 -> load32 m (ELFHDR + o) = f32 o.
Proof.
  intros H H1 H2. unfold load32, f32, header_ok, ELFHDR in *. rewrite !u32_small by klia. rewrite !H by lia.
  replace (131072 + o - 131072) with o by lia. replace (131072 + o + 1 - 131072) with (o + 1) by lia.
  replace (131072 + o + 2 - 131072) with (o + 2) by lia. by replace (131072 + o + 3 - 131072) with (o + 3) by lia.
Qed.
Lemma header_load16 m o : header_ok m -> 0 <= o -> o + 2 <= 4096 -> load16 m (ELFHDR + o) = f16 o.
Proof.
  intros H H1 H2. unfold load16, f16, header_ok, ELFHDR in *. rewrite !u32_small by klia. rewrite !H by lia.
  replace (131072 + o - 131072) with o by lia. by replace (131072 + o + 1 - 131072) with (o + 1) by lia.
Qed.

Lemma segments_wp s (Q : unit -> state -> Prop) : kernel_ok -> header_ok (mm s) ->
  (forall m h, header_ok m -> (forall a, m !!! a = image (Z.to_nat phnum) (mm s) a) -> Q tt (s_hd h (s_mm m s))) ->
  wp (loop (S (Z.to_nat phnum)) (segments_body disk ready_time start (ELFHDR + ph phnum)) (ELFHDR + ph 0)) Q s.
Proof.
  intros [K1 K2 K3 K4 K5] Hh HQ. unfold ph in *.
  apply (wp_loop (fun x s' => exists k m h, (k <= Z.to_nat phnum)%nat /\ x = ELFHDR + (f32 28 + 32 * Z.of_nat k) /\
      s' = s_hd h (s_mm m s) /\ header_ok m /\ forall a, m !!! a = image k (mm s) a)
    (fun x _ => Z.to_nat ((ELFHDR + (f32 28 + 32 * phnum) - x) / 32))).
  - exists 0%nat, (mm s), (hd s). split; [lia|]. split; [done|]. split; [by destruct s | done].
  - replace (ELFHDR + (f32 28 + 32 * phnum) - (ELFHDR + (f32 28 + 32 * 0))) with (phnum * 32) by lia. rewrite Z.div_mul by lia. lia.
  - intros x s' (k & m & h & Hk & -> & -> & Hm & Hi). unfold segments_body.
    destruct (Z.ltb_spec (ELFHDR + (f32 28 + 32 * Z.of_nat k)) (ELFHDR + (f32 28 + 32 * phnum))) as [Hlt|Hge].
    + assert (Hkn : 0 <= Z.of_nat k < phnum) by lia. apply wp_bind. unfold segment. apply wp_bind, wp_gets. cbn [mm s_mm s_hd].
      rewrite <- !Z.add_assoc. rewrite !header_load32 by (done || lia). rewrite !Z.add_assoc.
      fold (ph (Z.of_nat k)). fold (p_va (Z.of_nat k)) (p_memsz (Z.of_nat k)) (p_offset (Z.of_nat k)).
      apply readsection_wp; [by apply K4|]. intros m' h' Hp. cbn [mm s_mm s_hd] in Hp. apply wp_ret. unfold ph, ELFHDR in *.
      rewrite u32_small by klia. split.
      * exists (S k), m', h'. split; [lia|]. split; [lia|]. split; [done|]. split.
        -- intros a Ha. rewrite (Hp a), decide_False; [by apply Hm|]. intros Hin. exact (K5 _ a Hkn Hin Ha).
        -- intros a. rewrite (Hp a). cbn [image]. by rewrite Hi.
      * match goal with |- (Z.to_nat (?a / 32) < Z.to_nat (?b / 32))%nat =>
          replace a with ((phnum - Z.of_nat k - 1) * 32) by lia; replace b with ((phnum - Z.of_nat k) * 32) by lia end.
        rewrite !Z.div_mul by lia. lia.
    + apply wp_ret, HQ; [done|]. by replace (Z.to_nat phnum) with k by lia.
Qed.

Lemma header_read s (Q : unit -> state -> Prop) : 0 <= start < 2 ^ 28 - 16 ->
  (forall m h, header_ok m -> (forall a, ~ (ELFHDR <= a < ELFHDR + 4096) -> m !!! a = mm s !!! a) -> Q tt (s_hd h (s_mm m s))) ->
  wp (readsection disk ready_time ELFHDR (SECTOR_SIZE * 8) 0 start) Q s.
Proof.
  intros Hs HQ. apply readsection_wp.
  - unfold fits. split; [done|]. split; [by vm_compute|]. split; [done|]. split; [lia|].
    change ((0 + SECTOR_SIZE * 8) / SECTOR_SIZE) with 8. lia.
  - intros m h Hp. change (sec_lo ELFHDR) with ELFHDR in Hp. change (sec_hi ELFHDR (SECTOR_SIZE * 8)) with (ELFHDR + 4096) in Hp.
    change (sec_off 0) with 0 in Hp. apply HQ; intros a Ha; rewrite (Hp a); [by rewrite decide_True | by rewrite decide_False].
Qed.

Lemma image_other n m a : (forall k, 0 <= k < Z.of_nat n -> ~ in_sectors k a) -> image n m a = m !!! a.
Proof.
  induction n as [|n IH]; intros H; [done|]. cbn [image]. rewrite decide_False by (apply (H (Z.of_nat n)); lia).
  apply IH. intros k Hk. apply H. lia.
Qed.

(** A byte of segment [k] that no later segment overwrites. *)
Lemma image_segment n m k a : 0 <= k < Z.of_nat n -> fits start (p_va k) (p_memsz k) (p_offset k) ->
  seg_va k mod SECTOR_SIZE = p_offset k mod SECTOR_SIZE -> seg_va k <= a < seg_va k + p_memsz k ->
  (forall j, k < j < Z.of_nat n -> ~ in_sectors j a) -> image n m a = F (p_offset k + (a - seg_va k)).
Proof.
  intros Hk (Hc & _) Hal Ha Hj. induction n as [|n IH]; [lia|]. cbn [image].
  destruct (decide (k = Z.of_nat n)) as [->|Hne].
  - destruct (sec_bounds (p_va (Z.of_nat n)) (p_memsz (Z.of_nat n)) Hc) as (B1 & B2 & B3 & B4 & _). fold (seg_va (Z.of_nat n)) in *.
    rewrite decide_True by lia. f_equal. unfold sec_lo, sec_off. fold (seg_va (Z.of_nat n)). rewrite Hal.
    pose proof (Z.div_mod (p_offset (Z.of_nat n)) SECTOR_SIZE ltac:(done)). lia.
  - rewrite decide_False by (apply (Hj (Z.of_nat n)); lia). apply IH; [lia|]. intros j Hjn. apply Hj. lia.
Qed.

Definition entry_point : Z := Z.land (f32 24) 0xFFFFFF.

(** What load_kernel leaves in memory. *)
Definition kernel_loaded (m m' : mem) : Prop :=
  (forall k a, 0 <= k < phnum -> seg_va k mod SECTOR_SIZE = p_offset k mod SECTOR_SIZE ->
     seg_va k <= a < seg_va k + p_memsz k -> (forall j, k < j < phnum -> ~ in_sectors j a) ->
     m' !!! a = F (p_offset k + (a - seg_va k))) /\
  (forall a, ~ (ELFHDR <= a < ELFHDR + 4096) -> (forall k, 0 <= k < phnum -> ~ in_sectors k a) -> m' !!! a = m !!! a).

Lemma load_kernel_wp s (Q : Z -> state -> Prop) : kernel_ok -> f32 0 = ELF_MAGIC ->
  (forall m h, kernel_loaded (mm s) m -> Q entry_point (s_hd h (s_mm m s))) ->
  wp (load_kernel disk ready_time start) Q s.
Proof.
  intros K Hmag HQ. unfold load_kernel. apply wp_bind, header_read; [apply K|]. intros m1 h1 Hh1 Ho1. apply wp_bind, wp_gets.
  cbn [mm s_mm s_hd]. pose proof K as [K1 K2 K3 K4 K5].
  rewrite <- (Z.add_0_r ELFHDR) at 1. rewrite !header_load32, header_load16 by (done || lia). rewrite Hmag, Z.eqb_refl. cbn [negb].
  fold phnum. rewrite (u32_small (ELFHDR + f32 28)) by (unfold ELFHDR; klia).
  rewrite (u32_small (ELFHDR + f32 28 + 32 * phnum)) by (unfold ELFHDR; klia).
  replace (ELFHDR + f32 28) with (ELFHDR + ph 0) by (unfold ph; lia).
  replace (ELFHDR + ph 0 + 32 * phnum) with (ELFHDR + ph phnum) by (unfold ph; lia).
  apply wp_bind, segments_wp; [done | done|]. intros m2 h2 Hh2 Hi. cbn [mm s_mm s_hd] in Hi. apply wp_bind, wp_gets, wp_ret. cbn [mm s_mm s_hd].
  rewrite header_load32 by (done || lia). fold entry_point. apply (HQ m2 h2). split.
  - intros k a Hk Hal Ha Hj. rewrite Hi. apply (image_segment _ _ k); [lia | by apply K4 | done | done|].
    intros j Hjn. apply Hj. lia.
  - intros a Ha Hk. rewrite Hi, image_other; [by apply Ho1|]. intros k Hkn. apply Hk. lia.
Qed.
End loader.

(** ** The memory map *)

Lemma drawn_load8 s s' a : drawn s s' -> 0 <= a < VIDEO -> load8 (mm s') a = load8 (mm s) a.
Proof. intros [D _ _ _ _ _] Ha. unfold load8, VIDEO in *. rewrite u32_small by klia. apply D. lia. Qed.
Lemma drawn_load32 s s' a : drawn s s' -> 0 <= a -> a + 4 <= VIDEO -> load32 (mm s') a = load32 (mm s) a.
Proof.
  intros [D _ _ _ _ _] Ha Hv. unfold load32, VIDEO in *. rewrite !u32_small by klia. by rewrite !D by lia.
Qed.
Lemma drawn_load64 s s' a : drawn s s' -> 0 <= a -> a + 8 <= VIDEO -> load64 (mm s') a = load64 (mm s) a.
Proof. intros D Ha Hv. unfold load64. by rewrite !(drawn_load32 s s') by (done || lia). Qed.

(** Entry [k] of the map at [p] ends the map. *)
Definition smap_end (m : mem) (p k : Z) : Prop :=
  load64 m (p + 24 * k + 4) = 0 /\ load64 m (p + 24 * k + 12) = 0 /\ load32 m (p + 24 * k + 20) = 0.
Record smap_ok (m : mem) (p n : Z) : Prop := {
  so_place : 0 <= p /\ 0 <= n /\ p + 24 * (n + 1) <= VIDEO;
  so_entry : forall k, 0 <= k < n -> ~ smap_end m p k /\ i32 (load64 m (p + 24 * k + 4)) <> - 2 ^ 31;
  so_end : smap_end m p n
}.

Lemma smap_test m p k : negb (load64 m (p + 24 * k + 4) =? 0) || negb (load64 m (p + 24 * k + 12) =? 0) ||
  negb (load32 m (p + 24 * k + 20) =? 0) = false <-> smap_end m p k.
Proof.
  unfold smap_end. rewrite !orb_false_iff, !negb_false_iff, !Z.eqb_eq. tauto.
Qed.

Lemma smap_loop p n m0 : smap_ok m0 p n -> forall fuel s, mm s = m0 -> 0 <= row s <= CRT_ROWS -> 34 <= zlen (puti_str s) ->
  (Z.to_nat n < fuel)%nat ->
  wp (loop fuel smap_body (p, 0)) (fun r s' => r = 24 * n /\ drawn s s') s.
Proof.
  intros [P1 P2 P3] fuel s Em Hr Hs Hf. unfold VIDEO in *.
  apply (wp_loop (fun x s' => exists k, 0 <= k <= n /\ x = (p + 24 * k, 24 * k) /\ drawn s s') (fun x _ => Z.to_nat (n - x.2 / 24))).
  - exists 0. split; [lia|]. split; [f_equal; lia|]. by split.
  - cbn [snd]. change (0 / 24) with 0. lia.
  - intros x s' (k & Hk & -> & D). unfold smap_body. apply wp_bind, wp_gets.
    rewrite !(drawn_load64 s s'), !(drawn_load32 s s') by (done || (unfold VIDEO; lia)). rewrite Em.
    destruct (decide (k = n)) as [->|Hne].
    + rewrite (proj2 (smap_test m0 p n)) by done. by apply wp_ret.
    + destruct (P2 k ltac:(lia)) as [Hnz Hmin]. destruct (_ || _) eqn:E; [|by apply smap_test in E].
      pose proof (i32_range (load64 m0 (p + 24 * k + 4))). destruct D as [D1 D2 D3 D4 D5 D6] eqn:ED.
      apply wp_bind, puti_wp; [lia | by rewrite D3 | done|]. intros s2 D'. apply wp_ret. rewrite !u32_small by klia. split.
      * exists (k + 1). split; [lia|]. split; [f_equal; lia|]. eapply drawn_trans; [exact D | exact D'].
      * cbn [snd]. rewrite (Z.mul_comm 24 k). replace (k * 24 + 24) with ((k + 1) * 24) by lia. rewrite !Z.div_mul by lia. lia.
Qed.

Lemma smap_ok_drawn s s1 p n : drawn s s1 -> smap_ok (mm s) p n -> smap_ok (mm s1) p n.
Proof.
  intros D1 [P1 P2 P3]. unfold smap_end in *. split; [done | |].
  - intros k Hk. specialize (P2 k Hk). unfold smap_end. by rewrite !(drawn_load64 s s1), (drawn_load32 s s1) by (done || lia).
  - unfold smap_end. by rewrite !(drawn_load64 s s1), (drawn_load32 s s1) by (done || lia).
Qed.

Lemma parse_e820_wp fuel p n s (Q : unit -> state -> Prop) : smap_ok (mm s) p n -> (Z.to_nat n < fuel)%nat ->
  0 <= row s <= CRT_ROWS -> 34 <= zlen (puti_str s) ->
  (forall s', drawn s s' -> Q tt (s_mmap (24 * n) p s')) -> wp (parse_e820 fuel p) Q s.
Proof.
  intros Hok Hf Hr Hs HQ. unfold parse_e820. apply wp_bind, putline_wp; [by vm_compute | done|]. intros s1 D1.
  pose proof (smap_ok_drawn s s1 p n D1 Hok) as Hok1.
  apply wp_bind. eapply wp_mono; [apply (smap_loop p n (mm s1) Hok1); [done | apply D1 | by rewrite (dr_str _ _ D1) | done]|].
  intros r s2 [-> D2]. apply wp_modify, HQ. by eapply drawn_trans.
Qed.

Lemma find_bootable_drawn s s' mbr n : forall i, drawn s s' -> 0 <= mbr -> 0 <= i -> i + Z.of_nat n <= 4 -> mbr + 512 <= VIDEO ->
  find_bootable mbr i n (mm s') = find_bootable mbr i n (mm s).
Proof.
  induction n as [|n IH]; intros i D Hm Hi Hn Hv; [done|]. cbn [find_bootable].
  rewrite (drawn_load8 s s'), (drawn_load32 s s'), IH by (done || lia). done.
Qed.

(** ** The loader as a whole *)

Definition off_screen (a : Z) : Prop := a < VIDEO \/ VIDEO + 4160 <= a.


(** (C38) Without a bootable partition, or when the file at the start of it is not
    an ELF file, the loader stops. *)
Theorem boot1main_refuses disk ready_time fuel mbr smap n s :
  0 <= mbr -> mbr + 512 <= VIDEO -> smap_ok (mm s) smap n -> (Z.to_nat n < fuel)%nat -> 34 <= zlen (puti_str s) ->
  match find_bootable mbr 0 4 (mm s) with
  | None => boot1main disk ready_time fuel mbr smap s = Err (Panic "Cannot find bootable partition!")
  | Some start => 0 <= start < 2 ^ 28 - 16 -> f32 disk start 0 <> ELF_MAGIC ->
      boot1main disk ready_time fuel mbr smap s = Err (Panic "Kernel is not a valid elf.")
  end.
Proof.
  intros Hm Hmv Hsm Hf Hstr. unfold boot1main.
  destruct (proj1 (wp_run (putline (text "Start boot1 main ...")) (fun _ s' => drawn s s') (s_row 3 s))) as ([] & s1 & E1 & D1).
  { apply putline_wp; [by vm_compute | done|]. intros s' []. by split. }
  rewrite <- (find_bootable_drawn s s1) by (done || lia).
  destruct (find_bootable mbr 0 4 (mm s1)) as [start|] eqn:Eb.
  - intros Hst Hmag. erewrite bind_Ok by reflexivity. erewrite bind_Ok by exact E1. erewrite bind_Ok by reflexivity. rewrite Eb.
    destruct (proj1 (wp_run (parse_e820 fuel smap) (fun _ s' => 0 <= row s' <= CRT_ROWS) s1)) as ([] & s2 & E2 & D2).
    { apply (parse_e820_wp fuel smap n); [by apply (smap_ok_drawn s) | done | apply D1 | by rewrite (dr_str _ _ D1)|]. intros s' []. done. }
    erewrite bind_Ok by exact E2.
    destruct (proj1 (wp_run (putline (text "Load kernel ..." ++ [10])) (fun _ _ => True) s2)) as ([] & s3 & E3 & _).
    { by apply putline_wp; [by vm_compute | |]. }
    erewrite bind_Ok by exact E3. apply bind_Err. unfold load_kernel.
    destruct (proj1 (wp_run (readsection disk ready_time ELFHDR (SECTOR_SIZE * 8) 0 start) (fun _ s' => header_ok disk start (mm s')) s3)) as ([] & s4 & E4 & H4).
    { by apply header_read. }
    erewrite bind_Ok by exact E4. erewrite bind_Ok by reflexivity.
    pose proof (header_load32 disk start (mm s4) 0 H4 ltac:(lia) ltac:(lia)) as Em. rewrite Z.add_0_r in Em.
    rewrite Em, (proj2 (Z.eqb_neq _ _)) by done. apply boot_panic_run.
  - erewrite bind_Ok by reflexivity. erewrite bind_Ok by exact E1. erewrite bind_Ok by reflexivity. rewrite Eb. apply boot_panic_run.
Qed.

(** itoa and itoh write the digits of the number, a minus sign before those of
    a negative one, and a null byte, within a buffer of 34 bytes; the digits
    have the value of the number. *)
Theorem itox_correct n root table buf :
  2 <= root <= zlen table -> Forall nonzero table -> - 2 ^ 31 < n < 2 ^ 31 -> (34 <= length buf)%nat ->
  exists r, itox n root table buf = Ok tt ((if n <? 0 then [45] else []) ++ (digit table <$> digits root (Z.abs n)) ++ 0 :: r) /\
    zlen ((if n <? 0 then [45] else []) ++ (digit table <$> digits root (Z.abs n)) ++ 0 :: r) = zlen buf /\
    value root (digits root (Z.abs n)) = Z.abs n.
Proof.
  intros Hr Ht Hn Hl. destruct (itox_run root table Hr Ht n buf Hn Hl) as (r & E & Ez). exists r.
  destruct (digits_spec root (Z.abs n)) as [Hv _]; [lia | lia|]. done.
Qed.
Lemma itox_correct_witness : exists r, itox (-42) 16 hex (replicate 40 0) = Ok tt (text "-2a" ++ 0 :: r) /\
  zlen (text "-2a" ++ 0 :: r) = 40 /\ value 16 [2; 10] = 42.
Proof. apply (itox_correct (-42) 16 hex (replicate 40 0)); [by vm_compute | exact hex_table | lia | cbn; lia]. Defined.

(** ** An example: a kernel with one segment of 600 bytes *)

Definition ex_header : list Z :=
  set32 (52 + 20) 600 (set32 (52 + 16) 512 (set32 (52 + 8) 0xF0100000 (set32 (52 + 4) 512
    (set16 44 1 (set32 28 52 (set32 24 0xF0100020 (set32 0 ELF_MAGIC (replicate 512 0)))))))).
Definition ex_disk (k : Z) : list Z :=
  if k =? 63 then ex_header else if k =? 64 then replicate 512 7 else replicate 512 9.
(** The boot record at 0x600, the memory map with one entry at 0x9000. *)
Definition ex_mem : mem := {[0x600 + 446 + 16 := 0x80; 0x600 + 446 + 24 := 63; 0x9000 + 13 := 1; 0x9000 + 20 := 1]}.
Definition ex_boot : state := State ex_mem 0 (replicate 40 0) (Drive 0 0 0 0 2 []) 0 0.

Lemma ex_kernel_ok : kernel_ok ex_disk 63.
Proof.
  assert (En : phnum ex_disk 63 = 1) by (by vm_compute).
  split; rewrite ?En; [done | done | by vm_compute | |].
  - intros k Hk. assert (k = 0) as -> by lia. by vm_compute.
  - intros k a Hk. assert (k = 0) as -> by lia. unfold in_sectors.
    assert (sec_lo (p_va ex_disk 63 0) = 0x100000) as -> by (by vm_compute). unfold ELFHDR. lia.
Qed.
Lemma ex_smap_ok : smap_ok ex_mem 0x9000 1.
Proof.
  split; [by vm_compute | | by vm_compute]. intros k Hk. assert (k = 0) as -> by lia. split; [intros (_ & H & _); by vm_compute in H | by vm_compute].
Qed.


Lemma boot1main_refuses_witness :
  boot1main (fun _ => replicate 512 0) 3 9 0x600 0x9000 ex_boot = Err (Panic "Kernel is not a valid elf.") /\
  boot1main ex_disk 3 9 0x1600 0x9000 ex_boot = Err (Panic "Cannot find bootable partition!").
Proof.
  assert (E1 : find_bootable 0x600 0 4 (mm ex_boot) = Some 63) by (vm_compute; reflexivity).
  assert (E2 : find_bootable 0x1600 0 4 (mm ex_boot) = None) by (vm_compute; reflexivity).
  pose proof (boot1main_refuses (fun _ => replicate 512 0) 3 9 0x600 0x9000 1 ex_boot ltac:(lia) ltac:(unfold VIDEO; lia) ex_smap_ok
    ltac:(cbn; lia) ltac:(by vm_compute)) as H1. rewrite E1 in H1.
  pose proof (boot1main_refuses ex_disk 3 9 0x1600 0x9000 1 ex_boot ltac:(lia) ltac:(unfold VIDEO; lia) ex_smap_ok
    ltac:(cbn; lia) ltac:(by vm_compute)) as H2. rewrite E2 in H2.
  split; [|exact H2]. apply H1; [lia|]. vm_compute. discriminate.
Defined.
End Boot.
