(* ===== verification/File.v ===== *)
(** * Open files (kern/fs/file.c)

    The system wide table of open files: a file is an inode with an offset and
    a reference count.  A pointer to a file is its index in the table. *)

From S2P Require Import Prelude Spinlock Bytes Disk Bufcache Log Txn Block Inode Dir.

Module File.
Import Disk Bufcache Log Txn Block Inode.

Definition NFILE : Z := 100.
#[export] Hint Unfold NFILE : kconst.

Inductive ftype : Type := FD_NONE | FD_PIPE | FD_INODE.
#[export] Instance ftype_eq_dec : EqDecision ftype.
Proof. solve_decision. Defined.

Record file : Type := MkFile {
  f_type : ftype; f_ref : Z; readable : Z; writable : Z; f_ip : Z; f_off : Z
}.
#[export] Instance file_inhabited : Inhabited file := populate (MkFile FD_NONE 0 0 0 NULL 0).

Definition w_fref v f := MkFile (f_type f) v (readable f) (writable f) (f_ip f) (f_off f).
Definition w_ftype v f := MkFile v (f_ref f) (readable f) (writable f) (f_ip f) (f_off f).
Definition w_off v f := MkFile (f_type f) (f_ref f) (readable f) (writable f) (f_ip f) v.
(** The assignments at the end of sys_open. *)
Definition w_open ip rd wr f := MkFile FD_INODE (f_ref f) rd wr ip 0.

Record state (T : Type) : Type := State {
  ino : Inode.state T; ftable_lk : spinlock_t; files : gmap Z file
}.
Arguments State {T}.
Arguments ino {T}.
Arguments ftable_lk {T}.
Arguments files {T}.

Section ops.
Context {T : Type} `{!Sched T}.
Context (ks : kstack).
Abbreviation st := (state T).

Definition s_inos v (s : st) : st := State v (ftable_lk s) (files s).
Definition s_flk v (s : st) : st := State (ino s) v (files s).
Definition s_files v (s : st) : st := State (ino s) (ftable_lk s) v.
Definition ino_lens : lens st (Inode.state T) := Lens ino s_inos.
Definition flk_lens : lens st spinlock_t := Lens ftable_lk s_flk.

Definition getf (s : st) (f : Z) : file := files s !!! f.
Definition ffield {A} (f : Z) (g : file -> A) : K st A :=
  bounds NFILE f ;; gets (fun s => g (getf s f)).
Definition fupd (f : Z) (g : file -> file) : K st unit :=
  bounds NFILE f ;; modify (fun s => s_files (<[f := g (getf s f)]> (files s)) s).
Definition ftable_lock : K st unit := zoom flk_lens (spinlock_acquire ks).
Definition ftable_unlock : K st unit := zoom flk_lens spinlock_release.
Definition inode {A} (m : K (Inode.state T) A) : K st A := zoom ino_lens m.
Definition fbegin_trans : K st unit := inode (ondisk (begin_trans ks)).
Definition fcommit_trans : K st unit := inode (ondisk (commit_trans ks)).

Definition file_init : K st unit := zoom flk_lens spinlock_init.

Definition file_alloc : K st Z :=
  ftable_lock ;;
  f ← loop (Z.to_nat NFILE + 1) (fun f =>
    if f <? NFILE then
      r ← ffield f f_ref;
      if r =? 0 then fupd f (w_fref 1) ;; mret (inr f) else mret (inl (f + 1))
    else mret (inr NULL)) 0;
  ftable_unlock ;;
  mret f.

Definition file_dup (f : Z) : K st Z :=
  ftable_lock ;;
  r ← ffield f f_ref;
  when (r <? 1) (panic "file_dup") ;;
  fupd f (fun x => w_fref (f_ref x + 1) x) ;;
  ftable_unlock ;;
  mret f.

Definition file_close (f : Z) : K st unit :=
  ftable_lock ;;
  r ← ffield f f_ref;
  when (r <? 1) (panic "file_close") ;;
  fupd f (fun x => w_fref (f_ref x - 1) x) ;;
  r ← ffield f f_ref;
  if 0 <? r then ftable_unlock
  else
    ff ← ffield f id;
    fupd f (w_fref 0) ;;
    fupd f (w_ftype FD_NONE) ;;
    ftable_unlock ;;
    when (bool_decide (f_type ff = FD_INODE))
      (fbegin_trans ;;
       inode (inode_put ks (f_ip ff)) ;;
       fcommit_trans).

Definition file_stat (f : Z) : K st (option file_stat) :=
  x ← ffield f id;
  if bool_decide (f_type x = FD_INODE) then
    inode (inode_lock ks (f_ip x)) ;;
    r ← inode (inode_stat (f_ip x));
    inode (inode_unlock ks (f_ip x)) ;;
    mret (Some r)
  else mret None.

(** The result and the bytes stored at [addr]. *)
Definition file_read (f n : Z) : K st (Z * list Z) :=
  x ← ffield f id;
  if readable x =? 0 then mret (-1, [])
  else if bool_decide (f_type x = FD_INODE) then
    inode (inode_lock ks (f_ip x)) ;;
    '(r, dst) ← inode (inode_read ks (f_ip x) (f_off x) (u32 n));
    when (0 <? r) (fupd f (fun x => w_off (u32 (f_off x + r)) x)) ;;
    inode (inode_unlock ks (f_ip x)) ;;
    mret (r, dst)
  else panic "file_read".

(** The bytes one transaction of file_write may write. *)
Definition write_max : Z := ((LOGSIZE - 1 - 1 - 2) / 2) * 512.

(** One transaction of file_write: [n1] bytes of [src]. *)
Definition write_tx (f ip : Z) (src : list Z) (n1 : Z) : K st Z :=
  fbegin_trans ;;
  inode (inode_lock ks ip) ;;
  off ← ffield f f_off;
  r ← inode (inode_write ks ip src off (u32 n1));
  when (0 <? r) (fupd f (fun x => w_off (u32 (f_off x + r)) x)) ;;
  inode (inode_unlock ks ip) ;;
  fcommit_trans ;;
  mret r.

(** [src] is the memory behind [addr]. *)
Definition file_write (f : Z) (src : list Z) (n : Z) : K st Z :=
  x ← ffield f id;
  if writable x =? 0 then mret (-1)
  else if bool_decide (f_type x = FD_INODE) then
    i ← loop (Z.to_nat (n / write_max) + 2) (fun i =>
      if i <? n then
        let n1 := if write_max <? n - i then write_max else n - i in
        r ← write_tx f (f_ip x) (drop (Z.to_nat i) src) n1;
        if r <? 0 then mret (inr i)
        else
          when (negb (r =? n1)) (panic "short file_write") ;;
          mret (inl (i + r))
      else mret (inr i)) 0;
    mret (if i =? n then n else -1)
  else panic "file_write".
End ops.

Section specs.
Context {T : Type} `{!Sched T} `{!SchedOk T}.
Context (ks : kstack) (Hks : magic ks = KSTACK_MAGIC).
Abbreviation st := (state T).
Implicit Types (s : st) (u : Z -> block).

Lemma ffield_wp {A} s f (g : file -> A) (Q : A -> st -> Prop) :
  0 <= f < NFILE -> Q (g (getf s f)) s -> wp (ffield f g) Q s.
Proof. intros Hf HQ. unfold ffield. wp_step. apply wp_bounds; [done|]. by wp_step. Qed.

Lemma fupd_wp s f g (Q : unit -> st -> Prop) :
  0 <= f < NFILE -> Q tt (s_files (<[f := g (getf s f)]> (files s)) s) -> wp (fupd f g) Q s.
Proof. intros Hf HQ. unfold fupd. wp_step. apply wp_bounds; [done|]. by wp_step. Qed.

Lemma getf_insert s f x f' : getf (s_files (<[f := x]> (files s)) s) f' =
  if decide (f' = f) then x else getf s f'.
Proof.
  unfold getf. cbn. case_decide; [subst; by rewrite lookup_total_insert_eq|].
  by rewrite lookup_total_insert_ne.
Qed.

(** The file table with entry [f] replaced and its lock free. *)
Definition with_file s (f : Z) (x : file) : st :=
  State (ino s) unlocked_lk (<[f := x]> (files s)).

(** file_alloc takes the first entry of the file table that has no
    references and gives it one; the other entries stay as they are.  When all
    entries are referenced it returns NULL and changes nothing. *)
Theorem file_alloc_correct s :
  lock (ftable_lk s) = 0 ->
  exists f, file_alloc ks s = Ok f (if f =? NULL then s_flk unlocked_lk s
                                    else with_file s f (w_fref 1 (getf s f))) /\
    ((f = NULL /\ forall g, 0 <= g < NFILE -> f_ref (getf s g) <> 0) \/
     (0 <= f < NFILE /\ f_ref (getf s f) = 0 /\ forall g, 0 <= g < f -> f_ref (getf s g) <> 0)).
Proof.
  intros Hlk. set (P := fun f => (f = NULL /\ forall g, 0 <= g < NFILE -> f_ref (getf s g) <> 0) \/
     (0 <= f < NFILE /\ f_ref (getf s f) = 0 /\ forall g, 0 <= g < f -> f_ref (getf s g) <> 0)).
  destruct (proj1 (wp_run (file_alloc ks) (fun f s' => P f /\ s' = (if f =? NULL then s_flk unlocked_lk s
    else with_file s f (w_fref 1 (getf s f)))) s)) as (f & s' & Hrun & HP & ->);
    [|exists f; split; [exact Hrun | exact HP]].
  unfold file_alloc, ftable_lock. wp_step. wp_step. eapply wp_intro; [by apply spinlock_acquire_run|].
  wp_step. set (s1 := lput flk_lens _ s).
  apply (wp_loop (fun f s' => s' = s1 /\ 0 <= f <= NFILE /\ forall g, 0 <= g < f -> f_ref (getf s g) <> 0)
    (fun f _ => Z.to_nat (NFILE - f))).
  - split; [done|]. split; [klia|]. lia.
  - klia.
  - intros f s' (-> & Hf & Hno). destruct (Z.ltb_spec f NFILE) as [Hlt|Hge].
    + wp_step. apply ffield_wp; [lia|]. change (getf s1 f) with (getf s f).
      destruct (Z.eqb_spec (f_ref (getf s f)) 0) as [E|E].
      * wp_step. apply fupd_wp; [lia|]. wp_step. unfold ftable_unlock. wp_step. wp_step.
        eapply wp_intro; [reflexivity|]. wp_step. split; [right; split; [lia | done]|].
        by replace (f =? NULL) with false by (symmetry; apply Z.eqb_neq; unfold NULL; lia).
      * wp_step. split; [|lia]. split; [done|]. split; [lia|]. intros g Hg.
        destruct (decide (g = f)) as [->|]; [done | apply Hno; lia].
    + wp_step. unfold ftable_unlock. wp_step. wp_step. eapply wp_intro; [reflexivity|]. wp_step.
      split; [left; split; [done|]; intros g Hg; apply Hno; lia|]. done.
Qed.

(** Reference counting: a file_close after a file_dup only takes the
    reference back. *)
Theorem file_dup_close s f :
  lock (ftable_lk s) = 0 -> 0 <= f < NFILE -> 1 <= f_ref (getf s f) ->
  (file_dup ks f ≫= file_close ks) s = Ok tt (with_file s f (getf s f)).
Proof.
  intros Hlk Hf Href.
  destruct (proj1 (wp_run (file_dup ks f ≫= file_close ks) (fun _ s' => s' = with_file s f (getf s f)) s))
    as ([] & s' & Hrun & ->); [|done].
  wp_step. unfold file_dup, ftable_lock. wp_step. wp_step. eapply wp_intro; [by apply spinlock_acquire_run|].
  wp_step. apply ffield_wp; [done|]. change (getf (lput flk_lens _ s) f) with (getf s f).
  wp_step. apply wp_when; [intros E%Z.ltb_lt; lia | intros _]. wp_step. apply fupd_wp; [done|]. wp_step.
  unfold ftable_unlock. wp_step. eapply wp_intro; [reflexivity|]. wp_step.
  set (x := w_fref (f_ref (getf s f) + 1) (getf s f)).
  change (lput flk_lens _ _) with (with_file s f x).
  assert (Hx : forall t, getf (s_flk t (with_file s f x)) f = x).
  { intros t. unfold getf. cbn. by rewrite lookup_total_insert_eq. }
  unfold file_close, ftable_lock. wp_step. wp_step. eapply wp_intro; [by apply spinlock_acquire_run|].
  wp_step. apply ffield_wp; [done|]. change (lput flk_lens ?t ?s) with (s_flk t s). rewrite Hx.
  wp_step. apply wp_when; [intros E%Z.ltb_lt; unfold x in E; cbn in E; lia | intros _].
  wp_step. apply fupd_wp; [done|]. rewrite Hx. wp_step. apply ffield_wp; [done|].
  rewrite getf_insert, decide_True by done. cbn [f_ref w_fref x].
  destruct (Z.ltb_spec 0 (f_ref (getf s f) + 1 - 1)); [|lia].
  unfold ftable_unlock. wp_step. eapply wp_intro; [reflexivity|].
  assert (Ex : w_fref (f_ref (getf s f) + 1 - 1) x = getf s f).
  { unfold x, w_fref. cbn. rewrite Z.add_simpl_r. by destruct (getf s f). }
  unfold with_file, s_files, s_flk, lput. cbn. by rewrite insert_insert_eq, Ex.
Qed.

Lemma fbegin_wp s a u (Q : unit -> st -> Prop) :
  at_rest (lgs (ino s)) a u ->
  (forall l, intx l a [] [] u (disk_now (lgs (ino s))) -> Q tt (s_inos (s_lgs l (ino s)) s)) ->
  wp (fbegin_trans ks) Q s.
Proof.
  intros Hr HQ. unfold fbegin_trans, inode, ondisk. wp_step. wp_step.
  eapply begin_wp; [done | exact Hr |]. intros l _ Hl. by apply HQ.
Qed.

(** [f] is open for writing on an inode with room for [sz] bytes. *)
Record open_write s u (a f sz : Z) : Prop := {
  ow_f : 0 <= f < NFILE;
  ow_type : f_type (getf s f) = FD_INODE;
  ow_wr : writable (getf s f) <> 0;
  ow_lk : lock (icache_lk (ino s)) = 0;
  ow_ip : unlocked (ino s) (f_ip (getf s f));
  ow_room : file_room (ino s) u a (f_ip (getf s f)) sz;
  ow_off : 0 <= f_off (getf s f) <= isize (geti (ino s) (f_ip (getf s f)))
}.

Lemma file_room_flags (i : Inode.state T) u a ip sz v : file_room i u a ip sz ->
  file_room (with_inode i ip (w_iflags v (geti i ip))) u a ip sz.
Proof.
  intros []. split; rewrite ?geti_with, ?decide_True by done; assumption.
Qed.

Lemma rounds_small off n : 0 <= off -> 0 <= n <= write_max -> rounds off n <= 4.
Proof.
  intros Ho Hn. change write_max with 1536 in Hn. unfold rounds.
  pose proof (Z.mod_pos_bound off BSIZE ltac:(done)). unfold BSIZE in *.
  case_bool; [|lia]. apply Z.lt_succ_r. apply Z.div_lt_upper_bound; lia.
Qed.

(** What a write of [n] bytes at the offset of [f] does, from [s] to [s']: [u']
    are the contents of the blocks then, [ws] the writes it makes to the disk;
    a crash after any prefix of them is recovered to the old or the new contents. *)
Record wrote s (u : Z -> block) (a f sz : Z) (src : list Z) (n : Z) (ic : Intr.Intr.state) (t : T)
    s' (u' : Z -> block) (ws : list (key * block)) : Prop := {
  wo_rest : at_rest (lgs (ino s')) a u';
  wo_off : f_off (getf s' f) = f_off (getf s f) + n;
  wo_size : isize (geti (ino s') (f_ip (getf s f))) =
    Z.max (isize (geti (ino s) (f_ip (getf s f)))) (f_off (getf s f) + n);
  wo_bytes : let off := f_off (getf s f) in let ad := addrs (geti (ino s) (f_ip (getf s f))) in
    forall i, 0 <= i < sz -> fbyte u' ad i =
      if decide (off <= i < off + n) then src !!! Z.to_nat (i - off) else fbyte u ad i;
  wo_disk : disk_now (lgs (ino s')) = (apply_writes (disk_now (lgs (ino s))).1 ws,
    (disk_now (lgs (ino s))).2 ++ ws);
  wo_crash : let d0 := (disk_now (lgs (ino s))).1 in forall p, p `prefix_of` ws ->
    recovers_to ks (apply_writes d0 p) a ic t (sector_of d0) \/
    recovers_to ks (apply_writes d0 p) a ic t (fun k => u' k.2)
}.

Lemma write_tx_wp s u a f sz src n ic t (Q : Z -> st -> Prop) :
  let x := getf s f in
  at_rest (lgs (ino s)) a u -> open_write s u a f sz -> sched_ok t ->
  0 < n <= write_max -> f_off x + n <= sz -> n <= zlen src -> Forall is_byte src ->
  (forall s' u' ws, wrote s u a f sz src n ic t s' u' ws -> Q n s') ->
  wp (write_tx ks f (f_ip x) src n) Q s.
Proof.
  intros x Hrest [Hf Hty Hwr Hlk Hip Hroom Hoff] Ht Hn Hend Hsrc Hby HQ.
  fold x in Hty, Hwr, Hip, Hroom, Hoff. set (ip := f_ip x) in *. set (off := f_off x) in *.
  pose proof (rounds_small off n ltac:(lia) ltac:(lia)) as Hrd. pose proof Hip as (Hipr & Href & Hfl).
  pose proof (fr_max _ _ _ _ _ Hroom) as Hmax. change (MAXFILE * BSIZE) with 71680 in Hmax.
  unfold write_tx. wp_step.
  eapply fbegin_wp; [exact Hrest|]. set (d0 := disk_now (lgs (ino s))). intros l Hl. wp_step.
  unfold inode at 1. wp_step. set (i1 := s_lgs l (ino s)).
  change (lget ino_lens (s_inos i1 s)) with i1.
  apply (inode_lock_wp ks Hks i1); [done | done |]. set (i2 := with_inode i1 ip _).
  wp_step. apply ffield_wp; [done|]. change (f_off (getf _ f)) with off. wp_step.
  unfold inode at 1. wp_step. change (lget ino_lens _) with i2.
  assert (Hx2 : geti i2 ip = w_iflags (Z.lor I_VALID I_BUSY) (geti (ino s) ip)).
  { unfold i2. by rewrite geti_with, decide_True. }
  rewrite (u32_small n) by klia. set (ad := addrs (geti (ino s) ip)).
  eapply (inode_write_wp ks Hks i2 ip a [] u d0 src off n sz); rewrite ?Hx2;
    [exact Hl | | exact Hoff | lia | done | done | done | cbn; lia |].
  { apply file_room_flags, file_room_lgs, Hroom. }
  change (addrs (w_iflags _ (geti (ino s) ip))) with ad. intros l3 secs u' Hl3 Hb Hk _.
  set (i3 := grown i2 ip n (off + n)).
  assert (Hx3 : geti i3 ip = w_size (Z.max (isize (geti (ino s) ip)) (off + n)) (geti i2 ip)).
  { unfold i3. rewrite geti_grown by lia. by rewrite Hx2. }
  assert (Hlk3 : lock (icache_lk i3) = 0) by (unfold i3, grown; by destruct (_ && _)).
  wp_step. apply wp_when; [intros _ | intros E%Z.ltb_ge; lia]. apply fupd_wp; [done|]. wp_step.
  change (f_off (getf _ f)) with off. rewrite u32_small by klia.
  unfold inode at 1. wp_step. change (lget ino_lens _) with (s_lgs l3 i3).
  eapply (inode_unlock_wp ks Hks (s_lgs l3 i3) ip a [] secs u' d0);
    change (geti (s_lgs l3 i3) ip) with (geti i3 ip); rewrite ?Hx3, ?Hx2; [done | done | done | done | exact Hl3 |].
  intros l4 Hl4 _ _. set (i4 := with_inode (s_lgs l3 i3) ip _). wp_step.
  unfold fcommit_trans, inode, ondisk. wp_step. wp_step. change (lget lgs_lens _) with l4.
  destruct (commit_atomic ks Hks l4 a secs u' d0 ic t Hl4 Ht) as (l5 & ws & Hrun & Hrest5 & Hw & Hm & Hcrash).
  eapply wp_intro; [exact Hrun|].
  wp_step. apply (HQ _ u' ws). split; try done.
  - unfold getf. cbn. by rewrite lookup_total_insert_eq.
  - transitivity (isize (geti i4 ip)); [done|]. unfold i4. by rewrite geti_with, decide_True.
  - intros off' ad' i Hi. apply Hb; [lia|]. pose proof (Z.mul_div_le i BSIZE ltac:(done)). lia.
  - unfold disk_now. cbn [lgs ino lput ino_lens s_inos lgs_lens s_lgs]. by rewrite Hm, Hw.
Qed.

Lemma file_write_spec s u a f sz src n ic t :
  at_rest (lgs (ino s)) a u -> open_write s u a f sz -> sched_ok t ->
  0 < n <= write_max -> f_off (getf s f) + n <= sz -> n <= zlen src -> Forall is_byte src ->
  exists s' u' ws, file_write ks f src n s = Ok n s' /\ wrote s u a f sz src n ic t s' u' ws.
Proof.
  intros Hrest How Ht Hn Hend Hsrc Hby. pose proof How as [Hf Hty Hwr _ _ _ _].
  destruct (proj1 (wp_run (file_write ks f src n) (fun r s' => r = n /\ exists u' ws,
    wrote s u a f sz src n ic t s' u' ws) s)) as (r & s' & Hrun & -> & u' & ws & Hpost);
    [|by exists s', u', ws].
  unfold file_write. wp_step. apply ffield_wp; [done|]. cbn [id].
  destruct (Z.eqb_spec (writable (getf s f)) 0); [done|]. rewrite bool_decide_eq_true_2 by done. wp_step.
  replace (Z.to_nat (n / write_max) + 2)%nat with (S (S (Z.to_nat (n / write_max)))) by lia.
  apply wp_loop_S. destruct (Z.ltb_spec 0 n); [|lia]. rewrite Z.sub_0_r.
  destruct (Z.ltb_spec write_max n); [lia|]. wp_step. rewrite drop_0.
  eapply (write_tx_wp s u a f sz src n ic t); try done. intros s' u' ws Hpost.
  destruct (Z.ltb_spec n 0); [lia|]. wp_step. rewrite Z.eqb_refl. cbn [negb when]. wp_step. wp_step.
  rewrite Z.add_0_l. apply wp_loop_S. destruct (Z.ltb_spec n n); [lia|]. wp_step.
  rewrite Z.eqb_refl. wp_step. split; [done|]. by exists u', ws.
Qed.
(** A write to a file of up to 1536 bytes is one transaction.  file_write
    returns [n] and advances the offset by [n]; the file then has the new bytes
    at the old offset and is otherwise unchanged, and everything is on disk.
    If the machine crashes after any number of the disk writes it makes, the
    next boot recovers the file system from before the write or the one after
    it, never anything in between. *)
Theorem file_write_atomic s u a f sz src n ic t :
  at_rest (lgs (ino s)) a u -> open_write s u a f sz -> sched_ok t ->
  0 < n <= write_max -> f_off (getf s f) + n <= sz -> n <= zlen src -> Forall is_byte src ->
  exists s' u' ws, file_write ks f src n s = Ok n s' /\ wrote s u a f sz src n ic t s' u' ws.
Proof. apply file_write_spec. Qed.
End specs.
End File.

(** ** The file of [InodeDemo], open for writing at offset 598 *)
Module FileDemo.
Import Disk Bufcache BufcacheDemo Log Txn Block BlockDemo Inode InodeDemo File.

Definition rest_log : Log.state unit :=
  Log.State (Log.bc (booted demo_img Intr.Intr.demo tt)) (MkLog unlocked_lk 1014 10 0 ROOTDEV 0 ∅).
Definition rest_inode : Inode.inode := w_iflags I_VALID demo_inode.
Definition rest_ino : Inode.state unit := Inode.State rest_log unlocked_lk {[0 := rest_inode]}.
Definition demo_files : File.state unit :=
  File.State rest_ino unlocked_lk {[0 := MkFile FD_INODE 1 1 1 0 598]}.

Lemma demo_rest : at_rest rest_log 1014 demo_u.
Proof.
  eapply (rest_intro _ _ _ (sector_of demo_img) demo_img []); [|done | done]. apply rest_tx; try done.
  apply booted_cache; [done | apply mkfs_img_ok].
Qed.

Lemma demo_open : open_write demo_files demo_u 1014 0 1024.
Proof.
  split; try done. destruct demo_file_room as [Hip Hdev Hty Hsz Hmax Had Hbl Hdis Hib Hibd Hibm].
  split; assumption.
Qed.

Lemma file_write_atomic_witness :
  exists s' u' ws, file_write demo_ks 0 [1; 2; 3; 4; 5] 5 demo_files = Ok 5 s' /\
    wrote demo_ks demo_files demo_u 1014 0 1024 [1; 2; 3; 4; 5] 5 Intr.Intr.demo tt s' u' ws.
Proof.
  apply (file_write_atomic demo_ks eq_refl demo_files demo_u 1014 0 1024 [1; 2; 3; 4; 5] 5
    Intr.Intr.demo tt demo_rest demo_open); [done | by vm_compute | by vm_compute | by vm_compute |].
  repeat constructor; klia.
Defined.

Lemma file_alloc_correct_witness :
  exists f, file_alloc demo_ks demo_files = Ok f (if f =? NULL then s_flk unlocked_lk demo_files
    else with_file demo_files f (w_fref 1 (getf demo_files f))).
Proof.
  destruct (file_alloc_correct demo_ks eq_refl demo_files) as (f & Hrun & _); [done|].
  exists f. exact Hrun.
Defined.

Lemma file_dup_close_witness :
  (file_dup demo_ks 0 ≫= file_close demo_ks) demo_files = Ok tt (with_file demo_files 0 (getf demo_files 0)).
Proof. apply (file_dup_close demo_ks eq_refl demo_files 0); [done | klia | by vm_compute]. Defined.
End FileDemo.
