(* ===== verification/Sysfile.v ===== *)
(** * File system calls (kern/trap/TSyscallArg, kern/fs/sysfile.c)

    The handlers get their arguments from the trap frame, copy path names and
    data between the process and buffers in the kernel, and return an error
    number and values through the trap frame. *)

From S2P Require Import Prelude Spinlock Bytes Memory Disk Bufcache Log Txn Block Inode Dir File.

(** The memory of the running process and of the kernel (pmap.c). *)
Class UserMem (T : Type) : Type := {
  copyin : Z -> Z -> Z -> Z -> K T Z;      (* pt_copyin(pid, uva, kva, len) *)
  copyout : Z -> Z -> Z -> Z -> K T Z;     (* pt_copyout(kva, pid, uva, len) *)
  kload : Z -> Z -> K T (list Z);          (* the [len] bytes at [kva] *)
  kstore : Z -> list Z -> K T unit         (* stores at [kva] *)
}.

(** ** kern/lib/trap.h, TSyscallArg.c *)
Module SyscallArg.

Record tf_t : Type := TF {
  eax : Z; ebx : Z; ecx : Z; edx : Z; esi : Z; edi : Z;
  tf_es : Z; tf_ds : Z; trapno : Z; tf_err : Z; tf_eip : Z; tf_cs : Z; eflags : Z;
  tf_esp : Z; tf_ss : Z
}.
#[export] Instance tf_inhabited : Inhabited tf_t := populate (TF 0 0 0 0 0 0 0 0 0 0 0 0 0 0 0).

Definition w_regs a b c d si di t := TF a b c d si di (tf_es t) (tf_ds t) (trapno t) (tf_err t)
  (tf_eip t) (tf_cs t) (eflags t) (tf_esp t) (tf_ss t).

Definition syscall_get_arg1 (tf : tf_t) : Z := eax tf.
Definition syscall_get_arg2 (tf : tf_t) : Z := ebx tf.
Definition syscall_get_arg3 (tf : tf_t) : Z := ecx tf.
Definition syscall_get_arg4 (tf : tf_t) : Z := edx tf.
Definition syscall_get_arg5 (tf : tf_t) : Z := esi tf.
Definition syscall_get_arg6 (tf : tf_t) : Z := edi tf.
Definition syscall_set_errno (errno : Z) (t : tf_t) : tf_t :=
  w_regs (u32 errno) (ebx t) (ecx t) (edx t) (esi t) (edi t) t.
Definition syscall_set_retval1 (v : Z) (t : tf_t) : tf_t :=
  w_regs (eax t) (u32 v) (ecx t) (edx t) (esi t) (edi t) t.
Definition syscall_set_retval2 (v : Z) (t : tf_t) : tf_t :=
  w_regs (eax t) (ebx t) (u32 v) (edx t) (esi t) (edi t) t.
Definition syscall_set_retval3 (v : Z) (t : tf_t) : tf_t :=
  w_regs (eax t) (ebx t) (ecx t) (u32 v) (esi t) (edi t) t.
Definition syscall_set_retval4 (v : Z) (t : tf_t) : tf_t :=
  w_regs (eax t) (ebx t) (ecx t) (edx t) (u32 v) (edi t) t.
Definition syscall_set_retval5 (v : Z) (t : tf_t) : tf_t :=
  w_regs (eax t) (ebx t) (ecx t) (edx t) (esi t) (u32 v) t.

(** enum __error_nr. *)
Definition E_SUCC : Z := 0.
Definition E_MEM : Z := 1.
Definition E_INVAL_CALLNR : Z := 3.
Definition E_INVAL_ADDR : Z := 4.
Definition E_INVAL_PID : Z := 5.
Definition E_DISK_OP : Z := 13.
Definition E_EXCEEDS_QUOTA : Z := 23.
Definition E_MAX_NUM_CHILDEN_REACHED : Z := 24.
Definition E_INVAL_CHILD_ID : Z := 25.
Definition E_NEXIST : Z := 26.
Definition E_CREATE : Z := 27.
Definition E_BADF : Z := 29.
End SyscallArg.

Module Sysfile.
Import Disk Log Txn Inode Dir File SyscallArg.

Definition NOFILE : Z := 16.
Definition O_RDONLY : Z := 0x000.
Definition O_WRONLY : Z := 0x001.
Definition O_RDWR : Z := 0x002.
Definition O_CREATE : Z := 0x200.
Definition PATH_SIZE : Z := 128.

Record state (T : Type) : Type := State {
  fs : File.state T; tf : tf_t; first : bool    (* the static variable of sys_open *)
}.
Arguments State {T}.
Arguments fs {T}.
Arguments tf {T}.
Arguments first {T}.

(** Where the buffers of the handlers are in kernel memory. *)
Record buffers : Type := Buffers {
  fbuf : Z; path_buf : Z; old_buf : Z; new_buf : Z; st_buf : Z
}.

Section ops.
Context {T : Type} `{!Sched T, !Procs T, !UserMem T}.
Context (ks : kstack) (bufs : buffers).
Abbreviation st := (state T).

Definition s_fs v (s : st) : st := State v (tf s) (first s).
Definition s_tf v (s : st) : st := State (fs s) v (first s).
Definition s_first v (s : st) : st := State (fs s) (tf s) v.
Definition fs_lens : lens st (File.state T) := Lens fs s_fs.

Definition fileop {A} (m : K (File.state T) A) : K st A := zoom fs_lens m.
Definition inodeop {A} (m : K (Inode.state T) A) : K st A := fileop (zoom ino_lens m).
Definition procop {A} (m : K T A) : K st A := inodeop (proc m).
Definition arg (f : tf_t -> Z) : K st Z := gets (fun s => f (tf s)).
Definition set_tf (f : tf_t -> tf_t) : K st unit := modify (fun s => s_tf (f (tf s)) s).
Definition errno (e : Z) : K st unit := set_tf (syscall_set_errno e).
Definition retval1 (v : Z) : K st unit := set_tf (syscall_set_retval1 v).
Definition begin_tx : K st unit := fileop (fbegin_trans ks).
Definition commit_tx : K st unit := fileop (fcommit_trans ks).

Definition openfile (fd : Z) : K st Z := pid ← procop cur_id; procop (get_openfile pid fd).

(** [pt_copyin(get_curid(), uva, path, 128)], whose result is ignored, and what
    is in the buffer then. *)
Definition copy_path (uva buf : Z) : K st (list Z) :=
  pid ← procop cur_id;
  procop (copyin pid uva buf PATH_SIZE) ;;
  procop (kload buf PATH_SIZE).

Definition fdalloc (f : Z) : K st Z :=
  loop (Z.to_nat NOFILE + 1) (fun fd =>
    if fd <? NOFILE then
      g ← openfile fd;
      if g =? NULL then
        pid ← procop cur_id;
        procop (set_openfile pid fd f) ;;
        mret (inr fd)
      else mret (inl (fd + 1))
    else mret (inr (-1))) 0.

(** [n] is unsigned: the test [n < 0] is never true. *)
Definition sys_read : K st unit :=
  fd ← arg (fun t => i32 (syscall_get_arg2 t));
  n ← arg syscall_get_arg4;
  f ← openfile fd;
  '(read, dst) ← fileop (file_read ks f (i32 n));
  procop (kstore (fbuf bufs) dst) ;;
  if read <? 0 then
    retval1 (-1) ;;
    errno E_BADF
  else
    pid ← procop cur_id;
    uva ← arg syscall_get_arg3;
    procop (copyout (fbuf bufs) pid uva n) ;;
    retval1 read ;;
    errno E_SUCC.

Definition sys_write : K st unit :=
  fd ← arg (fun t => i32 (syscall_get_arg2 t));
  n ← arg syscall_get_arg4;
  pid ← procop cur_id;
  uva ← arg syscall_get_arg3;
  procop (copyin pid uva (fbuf bufs) n) ;;
  f ← openfile fd;
  src ← procop (kload (fbuf bufs) n);
  r ← fileop (file_write ks f src (i32 n));
  if r <? 0 then
    retval1 (-1) ;;
    errno E_BADF
  else
    retval1 n ;;
    errno E_SUCC.

Definition sys_close : K st unit :=
  fd ← arg (fun t => i32 (syscall_get_arg2 t));
  f ← openfile fd;
  when (fd <? 0) (retval1 (-1) ;; errno E_BADF) ;;
  pid ← procop cur_id;
  procop (set_openfile pid fd NULL) ;;
  fileop (file_close ks f) ;;
  retval1 0 ;;
  errno E_SUCC.

(** The stores of inode_stat to the fields of [st]; the padding keeps what was
    on the stack. *)
Definition store_stat (x : Inode.file_stat) : K st unit :=
  procop (
    kstore (st_buf bufs + 4) (le_enc 4 (st_dev x)) ;;
    kstore (st_buf bufs + 8) (le_enc 4 (st_ino x)) ;;
    kstore (st_buf bufs) (le_enc 2 (u16 (st_type x))) ;;
    kstore (st_buf bufs + 12) (le_enc 2 (st_nlink x)) ;;
    kstore (st_buf bufs + 16) (le_enc 4 (st_size x))).

(** The call of pt_copyout has source and destination exchanged. *)
Definition sys_fstat : K st unit :=
  fd ← arg (fun t => i32 (syscall_get_arg2 t));
  f ← openfile fd;
  r ← fileop (file_stat ks f);
  match r with
  | None =>
      retval1 (-1) ;;
      errno E_BADF
  | Some x =>
      store_stat x ;;
      pid ← procop cur_id;
      kva ← arg syscall_get_arg3;
      procop (copyout kva pid (st_buf bufs) 20) ;;
      retval1 0 ;;
      errno E_SUCC
  end.

(** The label [bad] of sys_link. *)
Definition link_bad (ip : Z) : K st unit :=
  inodeop (
    inode_lock ks ip ;;
    iupd ip (fun x => w_nlink (i16 (nlink x - 1)) x) ;;
    inode_update ks ip ;;
    inode_unlockput ks ip) ;;
  commit_tx ;;
  errno E_DISK_OP.

Definition sys_link : K st unit :=
  uva ← arg syscall_get_arg2;
  old ← copy_path uva (old_buf bufs);
  uva ← arg syscall_get_arg3;
  new ← copy_path uva (new_buf bufs);
  ip ← inodeop (namei ks old);
  if ip =? NULL then errno E_NEXIST
  else
    begin_tx ;;
    inodeop (inode_lock ks ip) ;;
    t ← inodeop (ifield ip itype);
    if t =? T_DIR then
      inodeop (inode_unlockput ks ip) ;;
      commit_tx ;;
      errno E_DISK_OP
    else
      inodeop (
        iupd ip (fun x => w_nlink (i16 (nlink x + 1)) x) ;;
        inode_update ks ip ;;
        inode_unlock ks ip) ;;
      '(dp, name) ← inodeop (nameiparent ks new);
      if dp =? NULL then link_bad ip
      else
        inodeop (inode_lock ks dp) ;;
        d1 ← inodeop (ifield dp idev);
        d2 ← inodeop (ifield ip idev);
        r ← (if negb (d1 =? d2) then mret (-1)
             else
               i ← inodeop (ifield ip inum);
               inodeop (dir_link ks dp name i));
        if r <? 0 then
          inodeop (inode_unlockput ks dp) ;;
          link_bad ip
        else
          inodeop (inode_unlockput ks dp) ;;
          inodeop (inode_put ks ip) ;;
          commit_tx ;;
          errno E_SUCC.

Definition isdirempty (dp : Z) : K st bool :=
  sz ← inodeop (ifield dp isize);
  loop (Z.to_nat (sz / DIRENT_SIZE) + 2) (fun off =>
    sz ← inodeop (ifield dp isize);
    if off <? sz then
      de ← inodeop (read_dirent ks dp off "isdirempty: readi");
      if negb (de_inum de =? 0) then mret (inr false) else mret (inl (off + DIRENT_SIZE))
    else mret (inr true)) (2 * DIRENT_SIZE).

(** The label [bad] of sys_unlink. *)
Definition unlink_bad (dp : Z) : K st unit :=
  inodeop (inode_unlockput ks dp) ;;
  commit_tx ;;
  errno E_DISK_OP.

Definition DOT : list Z := [46; 0].
Definition DOTDOT : list Z := [46; 46; 0].

Definition sys_unlink : K st unit :=
  uva ← arg syscall_get_arg2;
  path ← copy_path uva (path_buf bufs);
  '(dp, name) ← inodeop (nameiparent ks path);
  if dp =? NULL then errno E_DISK_OP
  else
    begin_tx ;;
    inodeop (inode_lock ks dp) ;;
    if (dir_namecmp name DOT =? 0) || (dir_namecmp name DOTDOT =? 0) then unlink_bad dp
    else
      '(ip, off) ← inodeop (dir_lookup ks dp name);
      if ip =? NULL then unlink_bad dp
      else
        inodeop (inode_lock ks ip) ;;
        x ← inodeop (ifield ip id);
        when (nlink x <? 1) (panic "unlink: nlink < 1") ;;
        empty ← (if itype x =? T_DIR then isdirempty ip else mret true);
        if negb empty then
          inodeop (inode_unlockput ks ip) ;;
          unlink_bad dp
        else
          r ← inodeop (inode_write ks dp (replicate 16 0) off DIRENT_SIZE);
          when (negb (r =? DIRENT_SIZE)) (panic "unlink: writei") ;;
          t ← inodeop (ifield ip itype);
          when (t =? T_DIR) (inodeop (
            iupd dp (fun x => w_nlink (i16 (nlink x - 1)) x) ;;
            inode_update ks dp)) ;;
          inodeop (inode_unlockput ks dp) ;;
          inodeop (
            iupd ip (fun x => w_nlink (i16 (nlink x - 1)) x) ;;
            inode_update ks ip ;;
            inode_unlockput ks ip) ;;
          commit_tx ;;
          errno E_SUCC.

Definition create (path : list Z) (type major minor : Z) : K st Z :=
  '(dp, name) ← inodeop (nameiparent ks path);
  if dp =? NULL then mret NULL
  else
    inodeop (inode_lock ks dp) ;;
    '(ip, _) ← inodeop (dir_lookup ks dp name);
    if negb (ip =? NULL) then
      inodeop (inode_unlockput ks dp) ;;
      inodeop (inode_lock ks ip) ;;
      t ← inodeop (ifield ip itype);
      if (type =? T_FILE) && (t =? T_FILE) then mret ip
      else
        inodeop (inode_unlockput ks ip) ;;
        mret NULL
    else
      d ← inodeop (ifield dp idev);
      ip ← inodeop (inode_alloc ks d type);
      when (ip =? NULL) (panic "create: ialloc") ;;
      inodeop (
        inode_lock ks ip ;;
        iupd ip (fun x => w_nlink 1 (w_devno major minor x)) ;;
        inode_update ks ip) ;;
      i ← inodeop (ifield ip inum);
      when (type =? T_DIR)
        (inodeop (
           iupd dp (fun x => w_nlink (i16 (nlink x + 1)) x) ;;
           inode_update ks dp) ;;
         di ← inodeop (ifield dp inum);
         r1 ← inodeop (dir_link ks ip DOT i);
         when (r1 <? 0) (panic "create dots") ;;
         r2 ← inodeop (dir_link ks ip DOTDOT di);
         when (r2 <? 0) (panic "create dots")) ;;
      r ← inodeop (dir_link ks dp name i);
      when (r <? 0) (panic "create: dir_link") ;;
      inodeop (inode_unlockput ks dp) ;;
      mret ip.

(** The end of sys_open, with the inode locked. *)
Definition open_inode (ip omode : Z) : K st unit :=
  f ← fileop (file_alloc ks);
  fd ← (if f =? NULL then mret (-1) else fdalloc f);
  if fd <? 0 then
    when (negb (f =? NULL)) (fileop (file_close ks f)) ;;
    inodeop (inode_unlockput ks ip) ;;
    retval1 (-1) ;;
    errno E_DISK_OP
  else
    inodeop (inode_unlock ks ip) ;;
    fileop (fupd f (w_open ip
      (if Z.land omode O_WRONLY =? 0 then 1 else 0)
      (if (Z.land omode O_WRONLY =? 0) && (Z.land omode O_RDWR =? 0) then 0 else 1))) ;;
    retval1 fd ;;
    errno E_SUCC.

Definition sys_open : K st unit :=
  fi ← gets first;
  when fi
    (modify (s_first false) ;;
     inodeop (ondisk (log_init ks))) ;;
  uva ← arg syscall_get_arg2;
  path ← copy_path uva (path_buf bufs);
  omode ← arg (fun t => i32 (syscall_get_arg3 t));
  if negb (Z.land omode O_CREATE =? 0) then
    begin_tx ;;
    ip ← create path T_FILE 0 0;
    commit_tx ;;
    if ip =? NULL then
      retval1 (-1) ;;
      errno E_CREATE
    else open_inode ip omode
  else
    ip ← inodeop (namei ks path);
    if ip =? NULL then
      retval1 (-1) ;;
      errno E_NEXIST
    else
      inodeop (inode_lock ks ip) ;;
      t ← inodeop (ifield ip itype);
      if (t =? T_DIR) && negb (omode =? O_RDONLY) then
        inodeop (inode_unlockput ks ip) ;;
        retval1 (-1) ;;
        errno E_DISK_OP
      else open_inode ip omode.

Definition sys_mkdir : K st unit :=
  uva ← arg syscall_get_arg2;
  path ← copy_path uva (path_buf bufs);
  begin_tx ;;
  ip ← create path T_DIR 0 0;
  if ip =? NULL then
    commit_tx ;;
    errno E_DISK_OP
  else
    inodeop (inode_unlockput ks ip) ;;
    commit_tx ;;
    errno E_SUCC.

Definition sys_chdir : K st unit :=
  pid ← procop cur_id;
  uva ← arg syscall_get_arg2;
  path ← copy_path uva (path_buf bufs);
  ip ← inodeop (namei ks path);
  if ip =? NULL then errno E_DISK_OP
  else
    inodeop (inode_lock ks ip) ;;
    t ← inodeop (ifield ip itype);
    if negb (t =? T_DIR) then
      inodeop (inode_unlockput ks ip) ;;
      errno E_DISK_OP
    else
      inodeop (inode_unlock ks ip) ;;
      cwd ← procop (get_cwd pid);
      inodeop (inode_put ks cwd) ;;
      procop (set_cwd pid ip) ;;
      errno E_SUCC.
End ops.

(** ** What the handlers promise *)

(** What the processes promise the file system: the open files of the running
    process are an array of NOFILE pointers, and changing one changes nothing
    else the file system sees. *)
Class ProcsOk (T : Type) `{!Sched T, !SchedOk T, !Procs T} : Type := {
  procs_ok : T -> Prop;
  running_pid : T -> Z;
  ofile : T -> Z -> Z;
  cur_id_ok : forall t, procs_ok t -> cur_id t = Ok (running_pid t) t;
  get_openfile_ok : forall t fd, procs_ok t -> get_openfile (running_pid t) fd t =
    if in_bounds NOFILE fd then Ok (ofile t fd) t else Err Undef;
  set_openfile_ok : forall t fd f, procs_ok t -> 0 <= fd < NOFILE -> (f = NULL \/ 0 <= f) ->
    exists t', set_openfile (running_pid t) fd f t = Ok tt t' /\ procs_ok t' /\
      running_pid t' = running_pid t /\ (sched_ok t -> sched_ok t') /\
      forall fd', ofile t' fd' = if decide (fd' = fd) then f else ofile t fd'
}.

Section specs.
Context {T : Type} `{!Sched T, !SchedOk T, !Procs T, !ProcsOk T, !UserMem T}.
Context (ks : kstack) (Hks : magic ks = KSTACK_MAGIC) (bufs : buffers).
Abbreviation st := (state T).

Definition get_t (y : st) : T := sch (bc (lgs (ino (fs y)))).
Definition put_t (t : T) (y : st) : st :=
  lput fs_lens (lput ino_lens (lput lgs_lens (lput bc_lens (lput sch_lens t (bc (lgs (ino (fs y)))))
    (lgs (ino (fs y)))) (ino (fs y))) (fs y)) y.

Lemma put_t_get y : put_t (get_t y) y = y.
Proof. by destruct y as [[[[[]] ?] ?] ? ?]. Qed.

Lemma wp_procop {A} (m : K T A) (Q : A -> st -> Prop) y :
  wp m (fun a t => Q a (put_t t y)) (get_t y) -> wp (procop m) Q y.
Proof. intros H. by do 5 apply wp_zoom. Qed.

Lemma procop_read {A} (m : K T A) a (Q : A -> st -> Prop) y :
  m (get_t y) = Ok a (get_t y) -> Q a y -> wp (procop m) Q y.
Proof. intros H HQ. apply wp_procop. eapply wp_intro; [exact H|]. by rewrite put_t_get. Qed.

Lemma openfile_wp fd (Q : Z -> st -> Prop) y :
  procs_ok (get_t y) -> 0 <= fd < NOFILE -> Q (ofile (get_t y) fd) y -> wp (openfile fd) Q y.
Proof.
  intros Hp Hfd HQ. unfold openfile. apply wp_bind. eapply procop_read; [by apply cur_id_ok|].
  eapply procop_read; [|done]. rewrite get_openfile_ok by done. unfold in_bounds.
  by rewrite (proj2 (Z.leb_le 0 fd)), (proj2 (Z.ltb_lt fd NOFILE)) by lia.
Qed.

(** fdalloc gives the lowest free descriptor of the process to the file; with
    all sixteen in use it returns -1 and changes nothing. *)
Theorem fdalloc_correct f y :
  procs_ok (get_t y) -> 0 <= f ->
  exists fd y', fdalloc f y = Ok fd y' /\
    ((fd = -1 /\ y' = y /\ forall i, 0 <= i < NOFILE -> ofile (get_t y) i <> NULL) \/
     (0 <= fd < NOFILE /\ ofile (get_t y) fd = NULL /\
      (forall i, 0 <= i < fd -> ofile (get_t y) i <> NULL) /\
      exists t, y' = put_t t y /\ procs_ok t /\
        forall i, ofile t i = if decide (i = fd) then f else ofile (get_t y) i)).
Proof.
  intros Hp Hf.
  set (P fd y' := (fd = -1 /\ y' = y /\ forall i, 0 <= i < NOFILE -> ofile (get_t y) i <> NULL) \/
     (0 <= fd < NOFILE /\ ofile (get_t y) fd = NULL /\
      (forall i, 0 <= i < fd -> ofile (get_t y) i <> NULL) /\
      exists t, y' = put_t t y /\ procs_ok t /\
        forall i, ofile t i = if decide (i = fd) then f else ofile (get_t y) i)).
  cut (wp (fdalloc f) P y); [intros (fd & y' & Hr & H)%wp_run; eauto|]. unfold fdalloc.
  apply (wp_loop (fun fd y' => y' = y /\ 0 <= fd <= NOFILE /\
      forall i, 0 <= i < fd -> ofile (get_t y) i <> NULL) (fun fd _ => Z.to_nat (NOFILE - fd)));
    [split_and!; try done; lia | unfold NOFILE; lia|].
  intros fd y1 (-> & Hfd & Hall). destruct (Z.ltb_spec fd NOFILE) as [Hlt|Hge].
  - apply wp_bind, openfile_wp; [done | lia |].
    destruct (Z.eqb_spec (ofile (get_t y) fd) NULL) as [E|E].
    + apply wp_bind. eapply procop_read; [by apply cur_id_ok|].
      destruct (set_openfile_ok (get_t y) fd f Hp) as (t & Hr & Ht & _ & _ & Ho); [lia | auto |].
      apply wp_bind, wp_procop. eapply wp_intro; [exact Hr|]. apply wp_ret. right.
      split_and!; try done; try lia. by exists t.
    + apply wp_ret. split; [|unfold NOFILE in *; lia]. split_and!; [done | lia | lia |].
      intros i Hi. destruct (decide (i = fd)) as [->|]; [done|]. apply Hall. lia.
  - apply wp_ret. left. split_and!; [done..|]. intros i Hi. apply Hall. lia.
Qed.

(** A descriptor outside the table is used as an index all the same. *)
Theorem sys_close_bad_fd y :
  procs_ok (get_t y) -> ~ 0 <= i32 (syscall_get_arg2 (tf y)) < NOFILE ->
  sys_close ks y = Err Undef.
Proof.
  intros Hp Hfd. unfold sys_close. erewrite bind_Ok by reflexivity. apply bind_Err.
  unfold openfile. erewrite bind_Ok by (apply wp_reads; intros Q; apply procop_read, (cur_id_ok _ Hp)).
  unfold procop, inodeop, fileop, proc, ondisk, zoom.
  change (sch _) with (get_t y). cbn [lget fs_lens ino_lens lgs_lens bc_lens sch_lens].
  change (sch (bc (lgs (ino (fs y))))) with (get_t y). rewrite get_openfile_ok by done.
  unfold in_bounds. destruct (Z.leb_spec 0 (i32 (syscall_get_arg2 (tf y)))),
    (Z.ltb_spec (i32 (syscall_get_arg2 (tf y))) NOFILE); done || lia.
Qed.

Lemma wp_fileop {A} (m : K (File.state T) A) (Q : A -> st -> Prop) y :
  wp m (fun a x => Q a (s_fs x y)) (fs y) -> wp (fileop m) Q y.
Proof. exact (wp_zoom fs_lens m Q y). Qed.

Lemma rest_put (y : st) t a u :
  at_rest (lgs (ino (fs y))) a u -> sched_ok t -> at_rest (lgs (ino (fs (put_t t y)))) a u.
Proof. intros [Hf Hb] Ht. split; [|exact Hb]. by apply (fsat_sch (t := false)). Qed.

Lemma open_put (y : st) t u a f sz :
  open_write (fs y) u a f sz -> open_write (fs (put_t t y)) u a f sz.
Proof. intros [? ? ? ? ? [] ?]. by split. Qed.

End specs.
End Sysfile.

(** ** Sixteen descriptors of one process, over the file system of [FileDemo] *)
Module SysfileDemo.
Import Disk Bufcache BufcacheDemo Log Txn Block BlockDemo Inode InodeDemo File FileDemo SyscallArg Sysfile.

(** The open files of process 1; its memory is the byte sequence 1, 2, ..., 5. *)
Abbreviation procs := (gmap Z Z).
#[local] Instance procs_sched : Sched procs :=
  {| sched_sleep := fun _ => mret tt; sched_wakeup := fun _ => mret tt; sched_resume := fun _ => mret tt |}.
#[local] Instance procs_sched_ok : SchedOk procs.
Proof.
  refine {| sched_ok := fun _ => True; sched_asleep := fun _ _ => True; sched_woken := fun _ _ => True |};
    done.
Defined.
#[local] Instance procs_procs : Procs procs := {
  cur_id := mret 1;
  get_cwd _ := mret NULL;
  set_cwd _ _ := mret tt;
  get_openfile _ fd := bounds NOFILE fd ;; gets (fun t => default NULL (t !! fd));
  set_openfile _ fd f := bounds NOFILE fd ;; modify (fun t => <[fd := f]> t)
}.
#[local] Instance procs_mem : UserMem procs := {
  copyin _ _ _ n := mret n;
  copyout _ _ _ n := mret n;
  kload _ n := mret (seqZ 1 n);
  kstore _ _ := mret tt
}.
#[local] Program Instance procs_procs_ok : ProcsOk procs := {
  procs_ok _ := True; running_pid _ := 1; ofile t fd := default NULL (t !! fd)
}.
Next Obligation. done. Qed.
Next Obligation. intros t fd _. cbn. unfold bounds. by destruct (in_bounds NOFILE fd). Qed.
Next Obligation.
  intros t fd f _ Hfd _. exists (<[fd := f]> t). split_and!; try done.
  - cbn. by erewrite bind_Ok by (by apply bounds_Ok).
  - intros fd'. destruct (decide (fd' = fd)) as [->|]; [by rewrite lookup_insert_eq | by rewrite lookup_insert_ne].
Qed.

Definition sys_log : Log.state procs :=
  Log.State (Log.bc (booted demo_img Intr.Intr.demo {[3 := 0]})) (MkLog unlocked_lk 1014 10 0 ROOTDEV 0 ∅).
Definition sys_files : File.state procs :=
  File.State (Inode.State sys_log unlocked_lk {[0 := rest_inode]}) unlocked_lk
    {[0 := MkFile FD_INODE 1 1 1 0 598]}.
(** write(3, 0x40000000, 5) *)
Definition sys_demo : Sysfile.state procs :=
  Sysfile.State sys_files (TF 8 3 0x40000000 5 0 0 0 0 48 0 0 0 0 0 0) true.
Definition demo_bufs : buffers := Buffers 0x100000 0x110000 0x110000 0x120000 0x130000.

Lemma sys_rest : at_rest sys_log 1014 demo_u.
Proof.
  eapply (rest_intro _ _ _ (sector_of demo_img) demo_img []); [|done | done]. apply rest_tx; try done.
  apply booted_cache; [done | apply mkfs_img_ok].
Qed.

Lemma sys_open_demo : open_write sys_files demo_u 1014 0 1024.
Proof.
  split; try done. destruct demo_file_room as [Hip Hdev Hty Hsz Hmax Had Hbl Hdis Hib Hibd Hibm].
  split; assumption.
Qed.


Lemma fdalloc_correct_witness : exists fd y', fdalloc 7 sys_demo = Ok fd y' /\ fd = 0.
Proof.
  assert (Hp : procs_ok (get_t sys_demo)) by done.
  destruct (fdalloc_correct 7 sys_demo Hp ltac:(lia)) as (fd & y' & Hr & [(_ & _ & H)|(Hfd & _ & H & _)]).
  - exfalso. apply (H 0); [unfold NOFILE; lia | by vm_compute].
  - exists fd, y'. split; [exact Hr|]. destruct (decide (0 < fd)) as [Hlt|]; [|lia].
    exfalso. apply (H 0); [lia | by vm_compute].
Defined.

Lemma sys_close_bad_fd_witness :
  sys_close demo_ks (s_tf (TF 6 16 0 0 0 0 0 0 48 0 0 0 0 0 0) sys_demo) = Err Undef.
Proof. apply sys_close_bad_fd; [done | vm_compute; intuition congruence]. Defined.
End SysfileDemo.
