(* ===== verification/Trap.v ===== *)
(** * Processes, traps and system calls

    kern/proc (PProc, PUCtxIntro), kern/trap (TSyscall, TDispatch, TTrapHandler,
    TTrapInit) and kern/init/init.c, over the whole kernel below them: file
    system, disk, threads, page structures and containers.

    A handler that gives the processor away continues when its thread is
    switched to again: [others pid] is what the other threads do until then.
    What the kernel prints is a list of messages. *)

From S2P Require Import Prelude Spinlock Seg Container MAT Memory VMM Pmap Thread Intr Disk Apic.
From S2P Require Import ThreadSched Bufcache Log Inode Dir File Sysfile.

Module Trap.
Import MPT Pmap Thread SyscallArg.
#[local] Existing Instances PCPU.pcpu_inhabited Seg.kpage_inhabited.

(** ** The interfaces of the layers below, implemented *)

(** What sys_spawn asks the containers. *)
Class Quotas (C : Type) : Type := {
  can_consume : Z -> Z -> K C Z;
  get_nchildren : Z -> K C Z
}.
#[export] Instance mcontainer_quotas : Quotas ContainerPages.kcontainer := {
  can_consume := MContainer.container_can_consume;
  get_nchildren := MContainer.container_get_nchildren
}.

Inductive trap_cb : Type := exception_handler_cb | interrupt_handler_cb | syscall_dispatch_cb.
#[export] Instance trap_cb_eq_dec : EqDecision trap_cb.
Proof. solve_decision. Defined.

Inductive msg : Type :=
| Puts (s : list Z)                    (* KERN_INFO("%s", ...) *)
| Produced (cpu pid i : Z)
| Consumed (cpu pid i : Z)
| NoHandler (trapno pid eip : Z)
| KernelInitialized
| InKernelMain
| NumberOfCpus (n : Z)
| Created (cpu pid : Z).

(** The addresses the linker chose. *)
Record image : Type := Image {
  bsp_base : Z; proc_base : Z; sys_buf : Z; proc_start_user_addr : Z;
  ping : Z; pong : Z; ding : Z; fstest : Z; idle : Z; file_bufs : Sysfile.buffers
}.

Section ops.
Context {C : Type} `{!Containers C, !Quotas C}.
Context (ks : kstack) (img : image).
Abbreviation thr := (Thread.state (MPT.state C)).
Context (others : Z -> K thr unit).

#[export] Instance thr_sched : Sched thr := ThreadSched.thread_sched ks.

(** A null pointer to an inode or a file is [None] in a thread control block. *)
Definition to_ptr (o : option Z) : Z := default Disk.NULL o.
Definition of_ptr (p : Z) : option Z := if p =? Disk.NULL then None else Some p.

#[export] Instance thr_procs : Procs thr := {
  cur_id := get_curid ks;
  get_cwd pid := d ← tcb_get_cwd pid; mret (to_ptr d);
  set_cwd pid d := tcb_set_cwd pid (of_ptr d);
  get_openfile pid fd :=
    o ← tcb_get_openfiles pid; bounds NOFILE fd ;; mret (to_ptr (o !!! fd));
  set_openfile pid fd f := tcb_set_openfiles pid fd (of_ptr f)
}.

(** The kernel runs on the identity map: its addresses are physical. *)
Definition bytes_at (m : mem) (a n : Z) : list Z := (fun i => m !!! u32 (a + i)) <$> seqZ 0 n.
Fixpoint store_bytes (a : Z) (l : list Z) (m : mem) : mem :=
  match l with
  | [] => m
  | x :: l => store_bytes (a + 1) l (<[u32 a := u8 x]> m)
  end.

#[export] Instance thr_usermem : UserMem thr := {
  copyin pid uva kva len := zoom vm_lens (pt_copyin ks pid uva kva len);
  copyout kva pid uva len := zoom vm_lens (pt_copyout ks kva pid uva len);
  kload kva len := gets (fun s => bytes_at (pmem (vm s)) kva len);
  kstore kva l := modify (fun s => set_vm (set_pmem (store_bytes kva l (pmem (vm s))) (vm s)) s)
}.

Record state : Type := State {
  sys : Sysfile.state thr;           (* file system, threads, memory; the trap frame *)
  segs : Seg.state;
  uctx_pool : gmap Z tf_t;
  TRAP_HANDLER : gmap (Z * Z) trap_cb;
  inited : bool;
  cr2 : Z;
  eflags_if : bool;
  console : list msg
}.

Definition s_sys v s := State v (segs s) (uctx_pool s) (TRAP_HANDLER s) (inited s) (cr2 s) (eflags_if s) (console s).
Definition s_segs v s := State (sys s) v (uctx_pool s) (TRAP_HANDLER s) (inited s) (cr2 s) (eflags_if s) (console s).
Definition s_uctx v s := State (sys s) (segs s) v (TRAP_HANDLER s) (inited s) (cr2 s) (eflags_if s) (console s).
Definition s_handlers v i s := State (sys s) (segs s) (uctx_pool s) v i (cr2 s) (eflags_if s) (console s).
Definition s_if v s := State (sys s) (segs s) (uctx_pool s) (TRAP_HANDLER s) (inited s) (cr2 s) v (console s).
Definition s_console v s := State (sys s) (segs s) (uctx_pool s) (TRAP_HANDLER s) (inited s) (cr2 s) (eflags_if s) v.

Definition sys_lens : lens state (Sysfile.state thr) := Lens sys s_sys.
Definition seg_lens : lens state Seg.state := Lens segs s_segs.

Definition sysop {A} (m : K (Sysfile.state thr) A) : K state A := zoom sys_lens m.
Definition disk {A} (m : K (Disk.state thr) A) : K state A :=
  sysop (Sysfile.inodeop (Inode.ondisk (zoom Log.bc_lens m))).
Definition irq {A} (m : K Intr.state A) : K state A := disk (zoom Disk.irqc_lens m).
Definition thread {A} (m : K thr A) : K state A := disk (zoom Disk.sch_lens m).
Definition mm {A} (m : K (MPT.state C) A) : K state A := thread (zoom vm_lens m).
Definition seg {A} (m : K Seg.state A) : K state A := zoom seg_lens m.
Definition print (m : msg) : K state unit := modify (fun s => s_console (console s ++ [m]) s).
Definition frame {A} (f : tf_t -> A) : K state A := gets (fun s => f (Sysfile.tf (sys s))).
Definition set_errno (e : Z) : K state unit := sysop (Sysfile.errno e).
Definition set_retval1 (v : Z) : K state unit := sysop (Sysfile.retval1 v).

Definition curid : K state Z := thread (get_curid ks).
Definition pcpu_idx : K state Z := thread (get_pcpu_idx ks).

(** kstack_switch(pid) of seg.c. *)
Definition switch_kstack (pid : Z) : K state unit :=
  c ← pcpu_idx;
  p ← thread (zoom pcpus_lens (PCPU.get_pcpu_kstack_pointer c));
  seg (Seg.kstack_switch (bsp_base img) (proc_base img) c p pid).

(** ** PProc.c *)

(** [trap_return(&uctx_pool[cur_pid])]: the frame the process starts with. *)
Definition proc_start_user : K state tf_t :=
  pid ← curid;
  switch_kstack pid ;;
  mm (set_pdir_base pid) ;;
  bounds NUM_IDS pid ;;
  gets (fun s => uctx_pool s !!! pid).

Definition CPU_GDT_UCODE : Z := 0x18.
Definition CPU_GDT_UDATA : Z := 0x20.
Definition FL_IF : Z := 0x200.

Definition uctx_upd (pid : Z) (f : tf_t -> tf_t) : K state unit :=
  bounds NUM_IDS pid ;;
  modify (fun s => s_uctx (<[pid := f (uctx_pool s !!! pid)]> (uctx_pool s)) s).

(** The assignments to [uctx_pool[pid]]. *)
Definition user_context (entry : Z) (t : tf_t) : tf_t :=
  TF (eax t) (ebx t) (ecx t) (edx t) (SyscallArg.esi t) (SyscallArg.edi t)
    (Z.lor CPU_GDT_UDATA 3) (Z.lor CPU_GDT_UDATA 3)
    (trapno t) (tf_err t) entry (Z.lor CPU_GDT_UCODE 3) FL_IF VM_USERHI (Z.lor CPU_GDT_UDATA 3).

Definition proc_create (elf_addr quota : Z) : K state Z :=
  id ← curid;
  pid ← thread (thread_spawn ks alloc_mem_quota
    (fun p => Seg.proc_addr (proc_base img) p + Seg.KSTACK_SIZE) (proc_start_user_addr img) id quota);
  mm (elf_load ks elf_addr pid) ;;
  bounds NUM_IDS pid ;;
  entry ← mm (elf_entry elf_addr);
  uctx_upd pid (user_context entry) ;;
  c ← pcpu_idx;
  seg (Seg.seg_init_proc (proc_base img) c pid) ;;
  mret pid.

(** ** TSyscall.c *)

(** The string in [buf] up to its null byte. *)
Fixpoint c_string (l : list Z) : list Z :=
  match l with
  | [] => []
  | c :: l => if c =? 0 then [] else c :: c_string l
  end.

Definition puts_body (pid : Z) (v : Z * Z) : K state (Z * Z + bool) :=
  let '(remain, cur_pos) := v in
  if negb (remain =? 0) then
    let nbytes := if remain <? PAGESIZE - 1 then remain else PAGESIZE - 1 in
    let buf := sys_buf img + pid * PAGESIZE in
    n ← thread (copyin pid cur_pos buf nbytes);
    if negb (n =? nbytes) then
      set_errno E_MEM ;;
      mret (inr false)
    else
      thread (kstore (buf + nbytes) [0]) ;;
      s ← thread (kload buf PAGESIZE);
      print (Puts (c_string s)) ;;
      mret (inl (u32 (remain - nbytes), u32 (cur_pos + nbytes)))
  else mret (inr true).

Definition sys_puts : K state unit :=
  pid ← curid;
  uva ← frame syscall_get_arg2;
  len ← frame syscall_get_arg3;
  if negb ((VM_USERLO <=? uva) && (u32 (uva + len) <=? VM_USERHI)) then set_errno E_INVAL_ADDR
  else
    bounds NUM_IDS pid ;;
    ok ← loop (Z.to_nat (len / (PAGESIZE - 1)) + 2) (puts_body pid) (len, uva);
    when ok (set_errno E_SUCC).

Definition spawn_fails (e : Z) : K state unit := set_errno e ;; set_retval1 NUM_IDS.

(** [junk]: what the uninitialised variable curid holds when it is passed to
    the containers. *)
Definition sys_spawn (junk : Z) : K state unit :=
  elf_id ← frame syscall_get_arg2;
  quota ← frame syscall_get_arg3;
  qok ← mm (zoom ct_lens (can_consume junk quota));
  nc ← mm (zoom ct_lens (get_nchildren junk));
  cur ← curid;
  if qok =? 0 then spawn_fails E_EXCEEDS_QUOTA
  else if NUM_IDS <? u32 (u32 (cur * MAX_CHILDREN) + 1 + MAX_CHILDREN) then
    spawn_fails E_MAX_NUM_CHILDEN_REACHED
  else if nc =? MAX_CHILDREN then spawn_fails E_INVAL_CHILD_ID
  else
    let spawn elf :=
      new_pid ← proc_create elf quota;
      if new_pid =? NUM_IDS then spawn_fails E_INVAL_PID
      else set_errno E_SUCC ;; set_retval1 new_pid in
    if elf_id =? 1 then spawn (ping img)
    else if elf_id =? 2 then spawn (pong img)
    else if elf_id =? 3 then spawn (ding img)
    else if elf_id =? 4 then spawn (fstest img)
    else spawn_fails E_INVAL_PID.

(** thread_yield() as its caller sees it: it returns when the thread runs again. *)
Definition yield : K state unit :=
  old ← curid;
  thread (thread_yield ks) ;;
  new ← curid;
  when (negb (old =? new)) (thread (others old)).

Definition sys_yield : K state unit := yield ;; set_errno E_SUCC.

Definition announce (what : Z -> Z -> Z -> msg) : K state unit :=
  for_ 0 5 (fun i =>
    modify (s_if false) ;;
    c ← pcpu_idx;
    p ← curid;
    print (what c p i) ;;
    modify (s_if true)) ;;
  set_errno E_SUCC.
Definition sys_produce : K state unit := announce Produced.
Definition sys_consume : K state unit := announce Consumed.

(** ** TDispatch.c *)

Definition SYS_puts : Z := 0.
Definition SYS_spawn : Z := 1.
Definition SYS_yield : Z := 2.
Definition SYS_produce : Z := 3.
Definition SYS_consume : Z := 4.
Definition SYS_open : Z := 5.
Definition SYS_close : Z := 6.
Definition SYS_read : Z := 7.
Definition SYS_write : Z := 8.
Definition SYS_mkdir : Z := 9.
Definition SYS_chdir : Z := 10.
Definition SYS_link : Z := 11.
Definition SYS_unlink : Z := 12.
Definition SYS_stat : Z := 13.

(** The default case passes the error number where the frame is expected, so
    that the store goes to an address near 3. *)
Definition syscall_dispatch (junk : Z) : K state unit :=
  nr ← frame syscall_get_arg1;
  let b := file_bufs img in
  if nr =? SYS_puts then sys_puts
  else if nr =? SYS_spawn then sys_spawn junk
  else if nr =? SYS_yield then sys_yield
  else if nr =? SYS_produce then modify (s_if true) ;; sys_produce ;; modify (s_if false)
  else if nr =? SYS_consume then modify (s_if true) ;; sys_consume ;; modify (s_if false)
  else if nr =? SYS_open then sysop (Sysfile.sys_open ks b)
  else if nr =? SYS_close then sysop (Sysfile.sys_close ks)
  else if nr =? SYS_read then sysop (Sysfile.sys_read ks b)
  else if nr =? SYS_write then sysop (Sysfile.sys_write ks b)
  else if nr =? SYS_mkdir then sysop (Sysfile.sys_mkdir ks b)
  else if nr =? SYS_chdir then sysop (Sysfile.sys_chdir ks b)
  else if nr =? SYS_link then sysop (Sysfile.sys_link ks b)
  else if nr =? SYS_unlink then sysop (Sysfile.sys_unlink ks b)
  else if nr =? SYS_stat then sysop (Sysfile.sys_fstat ks b)
  else fail Undef.

(** ** TTrapHandler.c *)

Definition PFE_PR : Z := 0x1.
Definition T_PGFLT : Z := 14.

(** trap_dump prints the frame; the message goes with the panic that follows. *)
Definition default_exception_handler : K state unit :=
  curid ;; panic "Trap".

Definition pgflt_handler : K state unit :=
  pid ← curid;
  errno ← frame tf_err;
  fault_va ← gets cr2;
  if negb (Z.land errno PFE_PR =? 0) then panic "Permission denied"
  else
    r ← mm (alloc_page ks pid fault_va (Z.lor (Z.lor PTE_W PTE_U) PTE_P));
    when (r =? MagicNumber) (panic "Page allocation failed").

Definition exception_handler : K state unit :=
  curid ;;
  t ← frame trapno;
  if t =? T_PGFLT then pgflt_handler else default_exception_handler.

Definition spurious_intr_handler : K state unit := mret tt.

(** sched_update() may give the processor to another thread. *)
Definition timer_intr_handler : K state unit :=
  irq Intr.intr_eoi ;;
  old ← curid;
  thread (sched_update ks) ;;
  new ← curid;
  when (negb (old =? new)) (thread (others old)).

Definition default_intr_handler : K state unit := irq Intr.intr_eoi.

Definition IRQ_IDE2 : Z := 15.

Definition interrupt_handler : K state unit :=
  curid ;;
  t ← frame trapno;
  if t =? Intr.T_IRQ0 + Intr.IRQ_SPURIOUS then spurious_intr_handler
  else if t =? Intr.T_IRQ0 + Intr.IRQ_TIMER then timer_intr_handler
  else if t =? Intr.T_IRQ0 + Intr.IRQ_IDE1 then disk (Disk.ide_intr ks) ;; irq Intr.intr_eoi
  else if t =? Intr.T_IRQ0 + IRQ_IDE2 then mret tt
  else default_intr_handler.

(** The call through the function pointer. *)
Definition run_handler (junk : Z) (f : trap_cb) : K state unit :=
  match f with
  | exception_handler_cb => exception_handler
  | interrupt_handler_cb => interrupt_handler
  | syscall_dispatch_cb => syscall_dispatch junk
  end.

(** The result is the frame trap_return goes back to the process with. *)
Definition trap (junk : Z) : K state tf_t :=
  cur_pid ← curid;
  mm (set_pdir_base 0) ;;
  c ← pcpu_idx;
  t ← frame trapno;
  bounds NUM_CPUS c ;; bounds 256 t ;;
  f ← gets (fun s => TRAP_HANDLER s !! (c, t));
  match f with
  | Some f => run_handler junk f
  | None => eip ← frame tf_eip; print (NoHandler t cur_pid eip)
  end ;;
  switch_kstack cur_pid ;;
  mm (set_pdir_base cur_pid) ;;
  frame id.

(** ** TTrapInit.c *)

Definition trap_init_array : K state unit :=
  i ← gets inited;
  kassert (negb i) "inited == FALSE" ;;
  modify (s_handlers ∅ true).

Definition trap_handler_register (cpu trapno : Z) (cb : trap_cb) : K state unit :=
  kassert ((0 <=? cpu) && (cpu <? 8)) "0 <= cpu_idx && cpu_idx < 8" ;;
  kassert ((0 <=? trapno) && (trapno <? 256)) "0 <= trapno && trapno < 256" ;;
  modify (fun s => s_handlers (<[(cpu, trapno) := cb]> (TRAP_HANDLER s)) (inited s) s).

Fixpoint register_all (cpu : Z) (cb : trap_cb) (l : list Z) : K state unit :=
  match l with
  | [] => mret tt
  | t :: l => trap_handler_register cpu t cb ;; register_all cpu cb l
  end.

(** T_DIVIDE ... T_SECEV, in the order of the calls after those of T_GPFLT,
    T_PGFLT and T_SYSCALL. *)
Definition exceptions : list Z :=
  [0; 1; 2; 3; 4; 5; 6; 7; 8; 9; 10; 11; 12; 15; 16; 17; 18; 19; 30].
Definition irqs : list Z := [Intr.IRQ_SPURIOUS; Intr.IRQ_TIMER; Intr.IRQ_KBD; Intr.IRQ_SERIAL13; Intr.IRQ_IDE1].

Definition trap_init (ncpu : Z) (lapicid : Z -> Z) (cpu : Z) : K state unit :=
  when (cpu =? 0) trap_init_array ;;
  trap_handler_register cpu 13 exception_handler_cb ;;
  trap_handler_register cpu T_PGFLT exception_handler_cb ;;
  trap_handler_register cpu Intr.T_SYSCALL syscall_dispatch_cb ;;
  register_all cpu exception_handler_cb exceptions ;;
  register_all cpu interrupt_handler_cb ((fun i => Intr.T_IRQ0 + i) <$> irqs) ;;
  irq (Intr.intr_enable ncpu lapicid Intr.IRQ_TIMER cpu) ;;
  irq (Intr.intr_enable ncpu lapicid Intr.IRQ_KBD cpu) ;;
  irq (Intr.intr_enable ncpu lapicid Intr.IRQ_SERIAL13 cpu) ;;
  irq (Intr.intr_enable ncpu lapicid Intr.IRQ_IDE1 cpu).

(** ** init.c *)

(** kern_main up to its switch to the idle process. *)
Definition kern_main (ncpu : Z) : K state unit :=
  print InKernelMain ;;
  print (NumberOfCpus ncpu) ;;
  c ← pcpu_idx;
  pid ← proc_create (idle img) 1000;
  print (Created c pid) ;;
  thread (tqueue_remove ks NUM_IDS pid) ;;
  thread (tcb_set_state pid TSTATE_RUN) ;;
  thread (set_curid ks pid) ;;
  thread (kctx_switch ks 0 pid).

Definition kern_init (ncpu : Z) (paging : K (MPT.state C) unit) (root : K thr (option Z)) : K state unit :=
  thread (thread_init ks paging root) ;;
  print KernelInitialized ;;
  kern_main ncpu.

(** ** The threads and the memory inside the state *)

Definition get_disk (s : state) : Disk.state thr :=
  Log.bc (Inode.lgs (File.ino (Sysfile.fs (sys s)))).
Definition get_thr (s : state) : thr := Disk.sch (get_disk s).
Definition get_vm (s : state) : MPT.state C := vm (get_thr s).
Definition put_disk (d : Disk.state thr) (s : state) : state :=
  lput sys_lens (lput Sysfile.fs_lens (lput File.ino_lens (lput Inode.lgs_lens
    (lput Log.bc_lens d (Inode.lgs (File.ino (Sysfile.fs (sys s)))))
    (File.ino (Sysfile.fs (sys s)))) (Sysfile.fs (sys s))) (sys s)) s.
Definition put_thr (t : thr) (s : state) : state := put_disk (lput Disk.sch_lens t (get_disk s)) s.
Definition put_vm (v : MPT.state C) (s : state) : state := put_thr (set_vm v (get_thr s)) s.

Lemma wp_disk {A} (m : K (Disk.state thr) A) (Q : A -> state -> Prop) s :
  wp m (fun a d => Q a (put_disk d s)) (get_disk s) -> wp (disk m) Q s.
Proof. unfold disk, sysop, Sysfile.inodeop, Sysfile.fileop, Inode.ondisk. intros H. by do 5 apply wp_zoom. Qed.

Lemma wp_thread {A} (m : K thr A) (Q : A -> state -> Prop) s :
  wp m (fun a t => Q a (put_thr t s)) (get_thr s) -> wp (thread m) Q s.
Proof. intros H. by apply wp_disk, wp_zoom. Qed.

Lemma wp_mm {A} (m : K (MPT.state C) A) (Q : A -> state -> Prop) s :
  wp m (fun a v => Q a (put_vm v s)) (get_vm s) -> wp (mm m) Q s.
Proof. intros H. by apply wp_thread, wp_zoom. Qed.

Lemma put_disk_get s : put_disk (get_disk s) s = s.
Proof. by destruct s as [[[[[] ? ?] ?] ? ?] ? ? ? ? ? ? ?]. Qed.

Lemma put_thr_get s : put_thr (get_thr s) s = s.
Proof.
  unfold put_thr. assert (lput Disk.sch_lens (get_thr s) (get_disk s) = get_disk s) as ->
    by (unfold get_thr; by destruct (get_disk s)). apply put_disk_get.
Qed.

(** ** Entering and leaving the kernel *)

Context (Hks : kstack_ok ks).
Context (Hseg : Seg.arrays_ok (bsp_base img) (proc_base img)).
Abbreviation cpu := (cpu_idx ks).

(** Process [pid] runs on this processor, whose structures are set up. *)
Record running (s : state) (pid : Z) : Prop := {
  rn_cpu : cpu_ok (get_thr s);
  rn_cur : cur ks (get_thr s) = pid;
  rn_pid : 0 <= pid < NUM_IDS;
  rn_page : exists i, 0 <= i < NUM_CPUS /\
    PCPU.kstack_ptr (PCPU.pcpu (pcpus (get_thr s)) !!! cpu) = Seg.bsp_addr (bsp_base img) i
}.

(** The next entry into the kernel uses the stack of [pid]. *)
Definition on_stack (s : state) (pid : Z) : Prop :=
  exists i, 0 <= i < NUM_CPUS /\
    Seg.current_desc (segs s) i cpu = Seg.tss_desc (Seg.proc_addr (proc_base img) pid + Seg.TSS_OFF).

Lemma curid_wp s (Q : Z -> state -> Prop) :
  cpu_ok (get_thr s) -> Q (cur ks (get_thr s)) s -> wp curid Q s.
Proof.
  intros Hc HQ. apply wp_thread. eapply wp_intro; [by apply get_curid_run|]. by rewrite put_thr_get.
Qed.

Lemma pcpu_idx_wp s (Q : Z -> state -> Prop) :
  cpu_ok (get_thr s) -> Q cpu s -> wp pcpu_idx Q s.
Proof.
  intros Hc HQ. apply wp_thread. eapply wp_intro; [by apply pcpu_run|]. by rewrite put_thr_get.
Qed.

Lemma switch_kstack_wp s pid0 pid (Q : unit -> state -> Prop) :
  running s pid0 -> 0 <= pid < NUM_IDS ->
  (forall g, on_stack (s_segs g s) pid -> Q tt (s_segs g s)) -> wp (switch_kstack pid) Q s.
Proof.
  intros [Hc _ _ (i & Hi & Ep)] Hpid HQ. unfold switch_kstack. apply wp_bind, pcpu_idx_wp; [done|].
  apply wp_bind, wp_thread. eapply wp_intro.
  { apply zoom_Ok. unfold PCPU.get_pcpu_kstack_pointer, PCPU.read.
    erewrite bind_Ok by (apply bounds_Ok, Hks). reflexivity. }
  assert (E : lput pcpus_lens (lget pcpus_lens (get_thr s)) (get_thr s) = get_thr s)
    by (by destruct (get_thr s)).
  cbn beta. rewrite E, put_thr_get. cbn [lget pcpus_lens]. rewrite Ep.
  destruct (Seg.kstack_switch_run (bsp_base img) (proc_base img) cpu i pid (segs s))
    as (g & Hr & _ & _ & Hd & _); [done | apply Hks | done | done |].
  eapply wp_intro; [by apply zoom_Ok|]. apply HQ. by exists i.
Qed.

Definition with_cr3 (pid : Z) (v : MPT.state C) : MPT.state C :=
  MPT.State (ct v) (pt_lk v) (PDirPool v) (pmem v) (cr0 v) pid (cr4 v).

Lemma set_pdir_wp s pid (Q : unit -> state -> Prop) :
  0 <= pid < NUM_IDS -> Q tt (put_vm (with_cr3 pid (get_vm s)) s) -> wp (mm (set_pdir_base pid)) Q s.
Proof. intros Hp HQ. apply wp_mm. unfold set_pdir_base. apply wp_bind. by apply wp_bounds. Qed.

(** What the processor runs with when process [pid] has left the kernel: the
    page directory of the process, and its kernel stack for the next entry. *)
Record left_to (s : state) (pid : Z) : Prop := {
  lt_cr3 : cr3 (get_vm s) = pid;
  lt_stack : on_stack s pid
}.

Lemma bounds_inv {S} n i (s : S) u s' : bounds n i s = Ok u s' -> 0 <= i < n /\ s' = s.
Proof.
  unfold bounds, in_bounds. destruct (Z.leb_spec 0 i), (Z.ltb_spec i n); intros [=]; by subst.
Qed.

Lemma kstack_switch_inv c p pid g g' :
  Seg.kstack_switch (bsp_base img) (proc_base img) c p pid g = Ok tt g' ->
  exists i, Seg.current_desc g' i c = Seg.tss_desc (Seg.proc_addr (proc_base img) pid + Seg.TSS_OFF).
Proof.
  unfold Seg.kstack_switch. set (i := (p - _) / _). intros (u & g1 & [Hp ->]%bounds_inv & H)%bind_inv.
  assert (Hi : 0 <= i < NUM_CPUS)
    by (apply bind_inv in H as (? & ? & (? & ? & [? _]%bounds_inv & _)%bind_inv & _); lia).
  do 3 (erewrite bind_Ok in H by (by apply Seg.bsp_upd_run)).
  injection H as <-. exists i. unfold Seg.current_desc. cbn.
  rewrite !lookup_total_insert_eq. cbn. by rewrite !lookup_total_insert_eq.
Qed.

Lemma zoom_inv {S T A} (l : lens S T) (m : K T A) s a s' :
  zoom l m s = Ok a s' -> exists t, m (lget l s) = Ok a t /\ s' = lput l t s.
Proof. unfold zoom. destruct (m (lget l s)); intros [=]; subst; eauto. Qed.

Lemma disk_inv {A} (m : K (Disk.state thr) A) s a s' :
  disk m s = Ok a s' -> exists d, m (get_disk s) = Ok a d /\ s' = put_disk d s.
Proof.
  intros (? & (? & (? & (? & (d & H & ->)%zoom_inv & ->)%zoom_inv & ->)%zoom_inv & ->)%zoom_inv & ->)%zoom_inv.
  by exists d.
Qed.

Lemma thread_inv {A} (m : K thr A) s a s' :
  thread m s = Ok a s' -> exists t, m (get_thr s) = Ok a t /\ s' = put_thr t s.
Proof. intros (d & (t & H & ->)%zoom_inv & ->)%disk_inv. by exists t. Qed.

Lemma mm_inv {A} (m : K (MPT.state C) A) s a s' :
  mm m s = Ok a s' -> exists v, m (get_vm s) = Ok a v /\ s' = put_vm v s.
Proof. intros (t & (v & H & ->)%zoom_inv & ->)%thread_inv. by exists v. Qed.


(** ** Page faults *)

Lemma with_cr3_inv `{!ContainersSpec C} base p v : mpt_inv base v -> mpt_inv base (with_cr3 p v).
Proof. intros []. by split. Qed.
Lemma with_cr3_data `{!ContainersSpec C} p v : data_inv v -> data_inv (with_cr3 p v).
Proof. intros []. by split. Qed.

Lemma running_vm s pid v : running s pid -> running (put_vm v s) pid.
Proof. intros [? ? ? ?]. by split. Qed.

(** (C2) A page fault of a process on an address it has no page for is repaired: the
    process continues at the same instruction with the same registers, and has a
    page of its own at the address, writable for it; no other mapping of any
    process changes and no two user pages share memory. *)
Theorem page_fault_correct `{!ContainersSpec C} base junk s pid :
  base_ok base -> running s pid -> 0 < pid ->
  TRAP_HANDLER s !! (cpu, T_PGFLT) = Some exception_handler_cb ->
  trapno (Sysfile.tf (sys s)) = T_PGFLT -> Z.land (tf_err (Sysfile.tf (sys s))) PFE_PR = 0 ->
  user_va (cr2 s) -> mpt_inv base (get_vm s) -> data_inv (get_vm s) -> lock (pt_lk (get_vm s)) = 0 ->
  ~ alloc_fails ks pid (ct (get_vm s)) ->
  exists s' pi, trap junk s = Ok (Sysfile.tf (sys s)) s' /\ left_to s' pid /\
    map_updated (get_vm s) (get_vm s') pid (cr2 s) (pi * 4096 + 7) /\
    ct_used (ct (get_vm s)) pi = false /\
    mpt_inv base (get_vm s') /\ data_inv (get_vm s').
Proof.
  intros Hb Hrun Hp0 Hh Ht He Hva Hinv Hdata Hlk Hall. pose proof Hrun as [Hc Hcur Hpid _].
  cut (wp (trap junk) (fun tf s' => tf = Sysfile.tf (sys s) /\ left_to s' pid /\
    exists pi, map_updated (get_vm s) (get_vm s') pid (cr2 s) (pi * 4096 + 7) /\
      ct_used (ct (get_vm s)) pi = false /\ mpt_inv base (get_vm s') /\ data_inv (get_vm s')) s).
  { intros (tf & s' & Hr & -> & Hl & pi & H)%wp_run. by exists s', pi. }
  unfold trap. apply wp_bind, curid_wp; [done|]. rewrite Hcur.
  apply wp_bind, set_pdir_wp; [klia|]. set (s1 := put_vm _ s).
  apply wp_bind, pcpu_idx_wp; [done|]. apply wp_bind, wp_gets.
  change (Sysfile.tf (sys s1)) with (Sysfile.tf (sys s)). rewrite Ht.
  apply wp_bind, wp_bounds; [apply Hks|]. apply wp_bind, wp_bounds; [done|].
  apply wp_bind, wp_gets. change (TRAP_HANDLER s1) with (TRAP_HANDLER s). rewrite Hh.
  destruct (alloc_page_spec base Hb ks pid (cr2 s) 7 (with_cr3 0 (get_vm s)))
    as (r & v & Hr & Hinv' & _ & Hres & Hd); [by apply with_cr3_inv | lia | done | apply Hks | lia | done |].
  destruct Hres as [(_ & _ & []%Hall)|(pi & Hne & Hfr & _ & _ & Hup)].
  apply wp_bind. cbn [run_handler]. unfold exception_handler.
  apply wp_bind, curid_wp; [done|]. apply wp_bind, wp_gets. cbn beta.
  change (Sysfile.tf (sys s1)) with (Sysfile.tf (sys s)). rewrite Ht.
  change (T_PGFLT =? T_PGFLT) with true. cbn iota. unfold pgflt_handler.
  apply wp_bind, curid_wp; [done|]. change (cur ks (get_thr s1)) with (cur ks (get_thr s)). rewrite Hcur.
  apply wp_bind, wp_gets. change (Sysfile.tf (sys s1)) with (Sysfile.tf (sys s)). rewrite He.
  apply wp_bind, wp_gets. change (negb (0 =? 0)) with false. cbn iota.
  apply wp_bind, wp_mm. eapply wp_intro; [exact Hr|]. set (s2 := put_vm v s1).
  apply wp_when; [by intros ->%Z.eqb_eq|]. intros _.
  apply wp_bind, (switch_kstack_wp s2 pid pid); [by do 2 apply running_vm | done |].
  intros g Hg. apply wp_bind, set_pdir_wp; [done|]. apply wp_gets.
  split; [done|]. split; [by split|]. exists pi. split_and!; [done | done | |].
  - by apply with_cr3_inv.
  - by apply with_cr3_data, Hd, with_cr3_data.
Qed.

(** ** The handler table *)

(** [h'] is [h] with [cb] for the traps [l] of processor [c]. *)
Definition registered (c : Z) (cb : trap_cb) (l : list Z) (h h' : gmap (Z * Z) trap_cb) : Prop :=
  forall c' t, h' !! (c', t) = if decide (c' = c /\ t ∈ l) then Some cb else h !! (c', t).

Lemma register_wp c t cb s (Q : unit -> state -> Prop) :
  0 <= c < NUM_CPUS -> 0 <= t < 256 ->
  (forall h, registered c cb [t] (TRAP_HANDLER s) h -> Q tt (s_handlers h (inited s) s)) ->
  wp (trap_handler_register c t cb) Q s.
Proof.
  intros Hc Ht HQ. unfold trap_handler_register, NUM_CPUS in *.
  apply wp_bind, wp_kassert; [lia|]. apply wp_bind, wp_kassert; [lia|]. apply wp_modify, HQ.
  intros c' t'. destruct (decide _) as [[-> ->%list_elem_of_singleton]|Hn].
  - apply lookup_insert_eq.
  - apply lookup_insert_ne. intros [= <- <-]. apply Hn. split; [done|]. by apply list_elem_of_singleton.
Qed.

Lemma register_all_wp c cb l s (Q : unit -> state -> Prop) :
  0 <= c < NUM_CPUS -> Forall (fun t => 0 <= t < 256) l ->
  (forall h, registered c cb l (TRAP_HANDLER s) h -> Q tt (s_handlers h (inited s) s)) ->
  wp (register_all c cb l) Q s.
Proof.
  clear others.
  intros Hc Hl. revert s. induction Hl as [|t l Ht Hl IH]; intros s HQ; cbn [register_all].
  - apply wp_ret. specialize (HQ (TRAP_HANDLER s)). destruct s. apply HQ. intros c' t.
    by rewrite decide_False by (intros [_ []%elem_of_nil]).
  - apply wp_bind, register_wp; [done..|]. intros h Hh. apply IH. intros h' Hh'. apply HQ. intros c' t'.
    rewrite Hh'. cbn. rewrite Hh.
    pose proof (elem_of_cons l t' t). pose proof (list_elem_of_singleton t' t).
    repeat destruct (decide _); tauto || done.
Qed.

Lemma irq_enable_wp ncpu lapicid i c s (Q : unit -> state -> Prop) :
  Intr.using_apic (Disk.irqc (get_disk s)) = false -> 0 <= c < ncpu -> 0 <= i < 16 ->
  (forall d, Intr.using_apic (Disk.irqc d) = false -> Q tt (put_disk d s)) ->
  wp (irq (Intr.intr_enable ncpu lapicid i c)) Q s.
Proof.
  intros Ha Hc Hi HQ. apply wp_disk, wp_zoom. unfold Intr.intr_enable.
  apply wp_bind, wp_kassert; [lia|]. destruct (Z.leb_spec 24 i); [lia|].
  apply wp_bind, wp_gets. cbn [lget Disk.irqc_lens]. rewrite Ha.
  apply wp_bind, wp_kassert; [lia|].
  do 3 (apply wp_bind; first [apply wp_gets | apply wp_modify]). apply wp_modify, HQ. exact Ha.
Qed.

(** The handler of trap [t] after trap_init. *)
Definition handler_for (t : Z) : option trap_cb :=
  if t =? Intr.T_SYSCALL then Some syscall_dispatch_cb
  else if bool_decide (t ∈ 13 :: 14 :: exceptions) then Some exception_handler_cb
  else if bool_decide (t - Intr.T_IRQ0 ∈ irqs) then Some interrupt_handler_cb
  else None.

Lemma handler_cases c t :
  (if decide (c = 0 /\ t ∈ (fun i => Intr.T_IRQ0 + i) <$> irqs) then Some interrupt_handler_cb
   else if decide (c = 0 /\ t ∈ exceptions) then Some exception_handler_cb
   else if decide (c = 0 /\ t ∈ [Intr.T_SYSCALL]) then Some syscall_dispatch_cb
   else if decide (c = 0 /\ t ∈ [T_PGFLT]) then Some exception_handler_cb
   else if decide (c = 0 /\ t ∈ [13]) then Some exception_handler_cb else None) =
  if c =? 0 then handler_for t else None.
Proof.
  clear others.
  assert (M1 : t ∈ (fun i => Intr.T_IRQ0 + i) <$> irqs <-> t - Intr.T_IRQ0 ∈ irqs).
  { rewrite list_elem_of_fmap. split.
    - intros (i & -> & Hi). by replace (Intr.T_IRQ0 + i - Intr.T_IRQ0) with i by lia.
    - intros Hi. exists (t - Intr.T_IRQ0). split; [lia | done]. }
  assert (M2 : t ∈ exceptions -> 0 <= t < 31).
  { intros He. assert (HF : Forall (fun t => 0 <= t < 31) exceptions) by (by repeat constructor).
    by eapply Forall_forall in HF. }
  assert (M3 : t - Intr.T_IRQ0 ∈ irqs -> 0 <= t - Intr.T_IRQ0 < 15).
  { intros He. assert (HF : Forall (fun t => 0 <= t < 15) irqs) by (by repeat constructor).
    by eapply Forall_forall in HF. }
  pose proof (list_elem_of_singleton t Intr.T_SYSCALL). pose proof (list_elem_of_singleton t T_PGFLT).
  pose proof (list_elem_of_singleton t 13).
  pose proof (elem_of_cons (14 :: exceptions) t 13). pose proof (elem_of_cons exceptions t 14).
  unfold handler_for, Intr.T_SYSCALL, Intr.T_IRQ0, T_PGFLT in *.
  destruct (Z.eqb_spec c 0), (Z.eqb_spec t 48);
    repeat destruct (decide _); repeat case_bool_decide; try done; exfalso; intuition lia.
Qed.

(** The handlers after trap_init. *)
Definition handlers_set (h : gmap (Z * Z) trap_cb) : Prop :=
  forall c t, h !! (c, t) = if c =? 0 then handler_for t else None.

(** trap_init registers the handlers and then enables the four lines. *)
Lemma trap_init_wp ncpu lapicid s (Q : unit -> state -> Prop) :
  inited s = false ->
  (forall h, handlers_set h ->
     wp (irq (Intr.intr_enable ncpu lapicid Intr.IRQ_TIMER 0) ;;
         irq (Intr.intr_enable ncpu lapicid Intr.IRQ_KBD 0) ;;
         irq (Intr.intr_enable ncpu lapicid Intr.IRQ_SERIAL13 0) ;;
         irq (Intr.intr_enable ncpu lapicid Intr.IRQ_IDE1 0)) Q (s_handlers h true s)) ->
  wp (trap_init ncpu lapicid 0) Q s.
Proof.
  intros Hin HQ. unfold trap_init. apply wp_bind, wp_when; [intros _|done].
  unfold trap_init_array. apply wp_bind, wp_gets. rewrite Hin. apply wp_bind, wp_kassert; [done|].
  apply wp_modify. do 3 (apply wp_bind, register_wp; [klia | done |]; intros ? ?).
  apply wp_bind, register_all_wp; [klia | by repeat constructor|]. intros h4 H4.
  apply wp_bind, register_all_wp; [klia | by repeat constructor|]. intros h5 H5.
  cbn [TRAP_HANDLER s_handlers inited] in *. apply HQ. intros c t.
  rewrite H5, H4, H1, H0, H, lookup_empty. by apply handler_cases.
Qed.

(** trap_init on the boot processor: every exception goes to the exception
    handler, the five interrupts in use to the interrupt handler, 48 to the
    system calls; no other trap, and no trap of another processor, has a
    handler. *)
Theorem trap_init_correct ncpu lapicid s :
  Intr.using_apic (Disk.irqc (get_disk s)) = false -> 0 < ncpu -> inited s = false ->
  exists s', trap_init ncpu lapicid 0 s = Ok tt s' /\ inited s' = true /\
    (forall c t, TRAP_HANDLER s' !! (c, t) = if c =? 0 then handler_for t else None).
Proof.
  intros Ha Hn Hin.
  cut (wp (trap_init ncpu lapicid 0) (fun _ s' => inited s' = true /\
    forall c t, TRAP_HANDLER s' !! (c, t) = if c =? 0 then handler_for t else None) s).
  { intros ([] & s' & Hr & H)%wp_run. eauto. }
  apply trap_init_wp; [done|]. intros h Hh.
  do 3 (apply wp_bind, irq_enable_wp; [done | lia | done|]; intros ? ?).
  apply irq_enable_wp; [done | lia | done |]. intros ? _. by split.
Qed.

(** The same with APICs: of the lines of the first I/O APIC exactly the timer,
    keyboard, serial and disk lines are enabled, for the boot processor. *)
Definition put_irq (i : Intr.state) (s : state) : state := put_disk (lput Disk.irqc_lens i (get_disk s)) s.

Lemma irq_enable_apic_wp ncpu lapicid i on s (Q : unit -> state -> Prop) :
  0 < ncpu -> 0 <= i < 16 -> Apic.routes (lapicid 0) on (Disk.irqc (get_disk s)) ->
  (forall x, Apic.routes (lapicid 0) (i :: on) x -> Intr.w_mmio ∅ ∅ x = Intr.w_mmio ∅ ∅ (Disk.irqc (get_disk s)) ->
     Q tt (put_irq x s)) ->
  wp (irq (Intr.intr_enable ncpu lapicid i 0)) Q s.
Proof.
  intros Hn Hi Hr HQ. apply wp_disk, wp_zoom. eapply Apic.intr_enable_wp; [done | done | exact Hr|].
  intros m Hm. by apply HQ.
Qed.

Lemma trap_init_apic_wp ncpu lapicid s (Q : unit -> state -> Prop) :
  Apic.routes (lapicid 0) [] (Disk.irqc (get_disk s)) -> 0 < ncpu -> inited s = false ->
  (forall h x, handlers_set h -> Apic.routes (lapicid 0) [Intr.IRQ_IDE1; Intr.IRQ_SERIAL13; Intr.IRQ_KBD; Intr.IRQ_TIMER] x ->
     Intr.w_mmio ∅ ∅ x = Intr.w_mmio ∅ ∅ (Disk.irqc (get_disk s)) ->
     Q tt (put_irq x (s_handlers h true s))) ->
  wp (trap_init ncpu lapicid 0) Q s.
Proof.
  intros Hr Hn Hin HQ. apply trap_init_wp; [done|]. intros h Hh.
  apply wp_bind. eapply irq_enable_apic_wp; [done | done | exact Hr|]. intros x1 R1 E1.
  apply wp_bind. eapply irq_enable_apic_wp; [done | done | exact R1|]. intros x2 R2 E2.
  apply wp_bind. eapply irq_enable_apic_wp; [done | done | exact R2|]. intros x3 R3 E3.
  eapply irq_enable_apic_wp; [done | done | exact R3|]. intros x4 R4 E4.
  change (put_irq x4 _) with (put_irq x4 (s_handlers h true s)).
  apply HQ; [done | exact R4|]. rewrite E4. etrans; [exact E3|]. etrans; [exact E2 | exact E1].
Qed.

(** ** Processes *)

Definition kstack_top (pid : Z) : Z := Seg.proc_addr (proc_base img) pid + Seg.KSTACK_SIZE.

(** A frame that takes the processor to ring 3 at [entry], with an empty stack
    at the top of user memory and interrupts enabled. *)
Record user_frame (entry : Z) (t : tf_t) : Prop := {
  uf_eip : tf_eip t = entry;
  uf_esp : tf_esp t = VM_USERHI;
  uf_cs : Z.land (tf_cs t) 3 = 3 /\ Z.shiftr (tf_cs t) 3 = CPU_GDT_UCODE / 8;
  uf_ds : forall sel, sel ∈ [tf_ds t; tf_es t; tf_ss t] ->
    Z.land sel 3 = 3 /\ Z.shiftr sel 3 = CPU_GDT_UDATA / 8;
  uf_if : Z.land (eflags t) FL_IF <> 0
}.

Lemma user_context_frame entry t : user_frame entry (user_context entry t).
Proof.
  split; try done. intros sel [->|[->|[->|[]%elem_of_nil]%elem_of_cons]%elem_of_cons]%elem_of_cons; done.
Qed.

Lemma wp_uctx pid f s (Q : unit -> state -> Prop) : 0 <= pid < NUM_IDS ->
  Q tt (s_uctx (<[pid := f (uctx_pool s !!! pid)]> (uctx_pool s)) s) -> wp (uctx_upd pid f) Q s.
Proof. intros Hp HQ. by apply wp_bind, wp_bounds. Qed.

(** What proc_create leaves, as a state: a new thread, its memory, its user
    context and its kernel stack. *)
Lemma proc_create_run elf quota s Q pid v1 v2 entry :
  sched_inv ks (get_thr s) Q ->
  alloc_mem_quota (cur ks (get_thr s)) quota (get_vm s) = Ok pid v1 ->
  0 <= pid < NUM_IDS -> tstate (TCBPool (get_thr s) !!! pid) = TSTATE_DEAD ->
  elf_load ks elf pid v1 = Ok tt v2 -> elf_entry elf v2 = Ok entry v2 ->
  exists t g u, proc_create elf quota s =
      Ok pid (s_segs g (s_uctx (<[pid := user_context entry u]> (uctx_pool s)) (put_vm v2 (put_thr t s)))) /\
    (forall v, sched_inv ks (set_vm v t) (qupd Q cpu NUM_IDS (Q cpu NUM_IDS ++ [pid]))) /\
    cur ks t = cur ks (get_thr s) /\ pcpus t = pcpus (get_thr s) /\
    Thread.eip (kctx_pool t !!! pid) = proc_start_user_addr img /\ Thread.esp (kctx_pool t !!! pid) = kstack_top pid /\
    let k := Seg.proc_kstack g !!! pid in
    Seg.ts_esp0 (Seg.tss k) = kstack_top pid /\ Seg.k_magic k = KSTACK_MAGIC /\ Seg.k_cpu_idx k = cpu.
Proof.
  intros Hinv Ha Hpid Hdead He Hen.
  destruct (thread_spawn_spec ks Hks alloc_mem_quota kstack_top (proc_start_user_addr img) _ quota
    (get_thr s) Q pid v1 Hinv Ha Hpid Hdead) as (t & Hr & Ev & Ec & Hinv' & E1 & E2 & _ & E3).
  destruct (Seg.seg_init_proc_run (proc_base img) cpu pid (segs s) Hpid)
    as (g & Hg & _ & _ & _ & G1 & G2 & G3 & _).
  cut (wp (proc_create elf quota) (fun r s' => r = pid /\
    exists u, s' = s_segs g (s_uctx (<[pid := user_context entry u]> (uctx_pool s)) (put_vm v2 (put_thr t s)))) s).
  { intros (r & s' & Hrun & -> & u & ->)%wp_run. exists t, g, u. split; [exact Hrun|]. split; [|done].
    intros v. destruct Hinv'. split; try done. by apply (queues_ext t). }
  unfold proc_create. apply wp_bind, curid_wp; [apply (si_cpu _ _ _ Hinv)|].
  apply wp_bind, wp_thread. eapply wp_intro; [exact Hr|].
  apply wp_bind, wp_mm. rewrite <- Ev in He. eapply wp_intro; [exact He|].
  apply wp_bind, wp_bounds; [done|]. apply wp_bind, wp_mm. eapply wp_intro; [exact Hen|].
  apply wp_bind, wp_uctx; [done|]. apply wp_bind, pcpu_idx_wp; [apply (si_cpu _ _ _ Hinv')|].
  apply wp_bind, wp_zoom. eapply wp_intro; [exact Hg|]. apply wp_ret. split; [done|]. by eexists.
Qed.


(** A process that runs for the first time leaves the kernel with its user
    context, on its own page directory and kernel stack. *)
Theorem proc_start_user_correct s pid :
  running s pid ->
  exists s', proc_start_user s = Ok (uctx_pool s !!! pid) s' /\ left_to s' pid.
Proof.
  intros Hrun. pose proof Hrun as [Hc Hcur Hpid _].
  cut (wp proc_start_user (fun tf s' => tf = uctx_pool s !!! pid /\ left_to s' pid) s).
  { intros (tf & s' & Hr & -> & H)%wp_run. eauto. }
  unfold proc_start_user. apply wp_bind, curid_wp; [done|]. rewrite Hcur.
  apply wp_bind, (switch_kstack_wp s pid pid); [done..|]. intros g Hg.
  apply wp_bind, set_pdir_wp; [done|]. apply wp_bind, wp_bounds; [done|]. apply wp_gets.
  split; [done|]. by split.
Qed.

(** ** The first process *)

(** The thread that was alone in the ready queue takes the processor. *)
Definition switched (pid : Z) (t : thr) : thr :=
  let t := set_CURID (<[cpu := pid]> (CURID t)) (set_TCBPool (<[pid := w_state TSTATE_RUN (TCBPool t !!! pid)]> (TCBPool t)) t) in
  set_kctx (<[0 := regs t !!! cpu]> (kctx_pool t)) (<[cpu := <[0 := regs t !!! cpu]> (kctx_pool t) !!! pid]> (regs t)) t.

Lemma switched_inv t t1 pid :
  let Q := qupd (fun _ _ => []) cpu NUM_IDS [pid] in
  sched_inv ks t Q -> only_links t t1 -> queues t1 (qupd Q cpu NUM_IDS []) -> 0 <= pid < NUM_IDS ->
  sched_inv ks (switched pid t1) (qupd Q cpu NUM_IDS []).
Proof.
  intros Q [_ Hp Hlk _ _ _ Hready _] Ho HQ Hpid.
  assert (Ecur : cur ks (switched pid t1) = pid) by (unfold cur; cbn; by rewrite lookup_total_insert_eq).
  assert (HQ0 : forall c ch, qupd Q cpu NUM_IDS [] c ch = []).
  { intros c ch. unfold qupd, Q, qupd. by repeat destruct (decide _). }
  assert (ET : forall x, tstate (TCBPool (switched pid t1) !!! x) = if decide (x = pid) then TSTATE_RUN else tstate (TCBPool t !!! x)).
  { intros x. cbn. rewrite insert_TCB. destruct (decide _); [done|]. by destruct (ol_tcb _ _ Ho x) as [-> _]. }
  split; rewrite ?Ecur; try done.
  - apply (queues_ext t1); [done | | done]. intros x. cbn. rewrite insert_TCB. by destruct (decide _) as [->|].
  - unfold cpu_ok. cbn. by rewrite (ol_pcpus _ _ Ho).
  - cbn. by rewrite (ol_lk _ _ Ho).
  - by rewrite ET, decide_True.
  - intros c ch. rewrite HQ0. apply not_elem_of_nil.
  - intros x Hx. rewrite ET. split; [|intros (c & H); rewrite HQ0 in H; by apply elem_of_nil in H].
    destruct (decide (x = pid)); [done|]. rewrite (Hready x Hx). intros (c & H). exfalso.
    unfold Q, qupd in H. destruct (decide _); [by apply list_elem_of_singleton in H | by apply elem_of_nil in H].
Qed.


(** ** sys_spawn *)

Definition elf_of (id : Z) : Z :=
  if id =? 1 then ping img else if id =? 2 then pong img else if id =? 3 then ding img else fstest img.

(** The error sys_spawn reports before it creates anything. *)
Definition spawn_error (qok nc cur elf_id : Z) : option Z :=
  if qok =? 0 then Some E_EXCEEDS_QUOTA
  else if NUM_IDS <? cur * MAX_CHILDREN + 1 + MAX_CHILDREN then Some E_MAX_NUM_CHILDEN_REACHED
  else if nc =? MAX_CHILDREN then Some E_INVAL_CHILD_ID
  else if in_bounds 4 (elf_id - 1) then None else Some E_INVAL_PID.

(** [s] with the error number [e] and the value [v] in the trap frame. *)
Definition reply (e v : Z) (s : state) : state :=
  s_sys (Sysfile.s_tf (syscall_set_retval1 v (syscall_set_errno e (Sysfile.tf (sys s)))) (sys s)) s.

Lemma put_ct_get s : put_vm (set_ct (ct (get_vm s)) (get_vm s)) s = s.
Proof.
  unfold put_vm, get_vm. assert (set_vm (set_ct (ct (vm (get_thr s))) (vm (get_thr s))) (get_thr s) = get_thr s) as ->
    by (destruct (get_thr s) as [v]; by destruct v). apply put_thr_get.
Qed.

Lemma wp_ct_read {A} (m : K C A) a (Q : A -> state -> Prop) s :
  m (ct (get_vm s)) = Ok a (ct (get_vm s)) -> Q a s -> wp (mm (zoom ct_lens m)) Q s.
Proof.
  intros H HQ. apply wp_mm. eapply wp_intro; [by apply zoom_Ok|]. cbn [lput ct_lens]. by rewrite put_ct_get.
Qed.

(** sys_spawn: with the answers the containers give about the process in
    question, it refuses with the first error that applies, returns NUM_IDS and
    changes nothing but the frame; otherwise it creates the process and returns
    its id with E_SUCC. *)
Theorem sys_spawn_correct junk s qok nc :
  let tf := Sysfile.tf (sys s) in
  let elf_id := syscall_get_arg2 tf in
  let quota := syscall_get_arg3 tf in
  can_consume junk quota (ct (get_vm s)) = Ok qok (ct (get_vm s)) ->
  get_nchildren junk (ct (get_vm s)) = Ok nc (ct (get_vm s)) ->
  cpu_ok (get_thr s) -> 0 <= cur ks (get_thr s) < NUM_IDS ->
  match spawn_error qok nc (cur ks (get_thr s)) elf_id with
  | Some e => sys_spawn junk s = Ok tt (reply e NUM_IDS s)
  | None => forall pid s1, proc_create (elf_of elf_id) quota s = Ok pid s1 -> 0 <= pid < NUM_IDS ->
      sys_spawn junk s = Ok tt (reply E_SUCC pid s1)
  end.
Proof.
  intros tf elf_id quota Hq Hn Hc Hcur.
  assert (Hpre : forall k : Z -> Z -> Z -> Z -> Z -> K state unit,
    (elf_id ← frame syscall_get_arg2; quota ← frame syscall_get_arg3;
     qok ← mm (zoom ct_lens (can_consume junk quota));
     nc ← mm (zoom ct_lens (get_nchildren junk)); cur ← curid; k elf_id quota qok nc cur) s =
    k elf_id quota qok nc (cur ks (get_thr s)) s).
  { intros k. do 2 (erewrite bind_Ok by reflexivity). fold tf. fold elf_id. fold quota.
    erewrite bind_Ok by (apply wp_reads; intros Q; by apply wp_ct_read).
    erewrite bind_Ok by (apply wp_reads; intros Q; by apply wp_ct_read).
    by erewrite bind_Ok by (apply wp_reads; intros Q; by apply curid_wp). }
  unfold sys_spawn. rewrite Hpre. clear Hpre.
  unfold NUM_IDS, MAX_CHILDREN in Hcur |- *. rewrite (u32_small (cur ks (get_thr s) * 3)) by klia.
  rewrite u32_small by klia. unfold spawn_error, NUM_IDS, MAX_CHILDREN, in_bounds.
  destruct (qok =? 0); [done|]. destruct (Z.ltb_spec 64 (cur ks (get_thr s) * 3 + 1 + 3)); [done|].
  destruct (nc =? 3); [done|].
  assert (Hgo : forall pid s1 elf, proc_create elf quota s = Ok pid s1 -> 0 <= pid < 64 ->
    (new_pid ← proc_create elf quota; if new_pid =? 64 then spawn_fails E_INVAL_PID
     else set_errno E_SUCC ;; set_retval1 new_pid) s = Ok tt (reply E_SUCC pid s1)).
  { intros pid s1 elf Hr Hp. erewrite bind_Ok by exact Hr. by destruct (Z.eqb_spec pid 64); [lia|]. }
  unfold elf_of. destruct (Z.leb_spec 0 (elf_id - 1)), (Z.ltb_spec (elf_id - 1) 4); cbn [andb];
    destruct (Z.eqb_spec elf_id 1), (Z.eqb_spec elf_id 2), (Z.eqb_spec elf_id 3), (Z.eqb_spec elf_id 4);
    try lia; done || exact (fun pid s1 => Hgo pid s1 _).
Qed.

(** ** The threads implement what the file system asks of processes *)

#[export] Instance thr_sched_ok : SchedOk thr := ThreadSched.thread_sched_ok ks Hks.

Definition procs_inv (t : thr) : Prop := cpu_ok t /\ 0 <= cur ks t < NUM_IDS.
Definition open_file (t : thr) (fd : Z) : Z := to_ptr (openfiles (TCBPool t !!! cur ks t) !!! fd).

Lemma to_of_ptr p : to_ptr (of_ptr p) = p.
Proof. unfold of_ptr. by destruct (Z.eqb_spec p Disk.NULL) as [->|]. Qed.

(** Changing the files of a thread is invisible to the scheduler. *)
Lemma files_sched (t : thr) Q pid x : sched_inv ks t Q ->
  sched_inv ks (set_TCBPool (<[pid := w_files x (TCBPool t !!! pid)]> (TCBPool t)) t) Q.
Proof.
  intros [HQ Hp Hlk Hcur Hrun Hout Hready Hsl].
  assert (E : forall y, tstate ((<[pid := w_files x (TCBPool t !!! pid)]> (TCBPool t)) !!! y) =
    tstate (TCBPool t !!! y)) by (intros y; rewrite insert_TCB; by destruct (decide _) as [->|]).
  split; try done.
  - apply (queues_ext t); [done | | done]. intros y. cbn. rewrite insert_TCB.
    by destruct (decide _) as [->|].
  - cbn. by rewrite E.
  - intros y Hy. cbn. rewrite E. by apply Hready.
Qed.

#[export] Program Instance thr_procs_ok : Sysfile.ProcsOk thr := {|
  Sysfile.procs_ok := procs_inv; Sysfile.running_pid := cur ks; Sysfile.ofile := open_file
|}.
Next Obligation. intros t [Hc _]. by apply get_curid_run. Qed.
Next Obligation.
  intros t fd [Hc Hcur]. cbn. erewrite bind_Ok by (by apply tcb_read_run).
  unfold bounds. change Sysfile.NOFILE with NOFILE. by destruct (in_bounds NOFILE fd).
Qed.
Next Obligation.
  intros t fd f [Hc Hcur] Hfd _. cbn. unfold tcb_set_openfiles.
  erewrite bind_Ok by (by apply bounds_Ok). rewrite tcb_upd_run by done.
  eexists. split; [reflexivity|]. split_and!; try done.
  - intros (Q & Hinv & Hne). exists Q. split; [|done]. by apply files_sched.
  - intros fd'. unfold open_file. cbn. change (cur ks _) with (cur ks t). rewrite insert_TCB, decide_True by done.
    cbn. destruct (decide (fd' = fd)) as [->|].
    + by rewrite lookup_total_insert_eq, to_of_ptr.
    + by rewrite lookup_total_insert_ne.
Qed.
End ops.
End Trap.

(** ** A kernel with one processor to run on *)
Module TrapDemo.
Import MPT Pmap Thread SyscallArg Trap ContainerPages PmapDemo.

Definition img0 : image :=
  Image 0x110000 0x120000 0x180000 0x101234 0x200000 0x200000 0x200000 0x200000 0x200000
    (Sysfile.Buffers 0x160000 0x170000 0x170000 0x171000 0x172000).
Abbreviation ks0 := MATCorrect.demo_kstack.
Abbreviation thr0 := (Thread.state (MPT.state kcontainer)).

Lemma demo_ks_ok : kstack_ok ks0.
Proof. split; [unfold NUM_CPUS; cbn; lia | done]. Qed.
Lemma img0_ok : Seg.arrays_ok (bsp_base img0) (proc_base img0).
Proof. split_and!; cbn; unfold NUM_IDS, Seg.KSTACK_SIZE; lia. Qed.

Definition pcpus0 : PCPU.state :=
  PCPU.State (ainit 8 0 (fun i => PCPU.Pcpu true true (Seg.bsp_addr 0x110000 i) 0 i) ∅) true.
Definition thread0 (v : MPT.state kcontainer) (cur : Z) : thr0 :=
  Thread.State v pcpus0 {[0 := cur]} ∅ ∅ ∅ ∅ Disk.unlocked_lk ∅.
Definition kernel (t : thr0) (tf : tf_t) (h : gmap (Z * Z) trap_cb) (va : Z) : Trap.state :=
  Trap.State
    (Sysfile.State (File.State (Inode.State (Log.State
      (Disk.State Disk.unlocked_lk ∅ Disk.unlocked_lk Disk.NULL 1
         BufcacheDemo.demo_drive (Intr.w_intr false true ∅ true Intr.demo) t)
      (Log.MkLog Disk.unlocked_lk 0 0 0 0 0 ∅)) Disk.unlocked_lk ∅) Disk.unlocked_lk ∅) tf true)
    (Seg.State ∅ ∅ ∅) ∅ h false va false [].

Lemma thread0_cpu v c : cpu_ok (thread0 v c).
Proof. intros i Hi. cbn -[ainit]. by rewrite lookup_ainit, decide_True by (unfold NUM_CPUS in Hi; lia). Qed.

Lemma kernel_running v tf h va : running ks0 img0 (kernel (thread0 v 1) tf h va) 1.
Proof.
  split; [apply thread0_cpu | done | unfold NUM_IDS; lia|]. exists 0.
  split; [unfold NUM_CPUS; lia | done].
Qed.

Definition fault_tf : tf_t := TF 0 0 0 0 0 0 0x23 0x23 14 6 0x40000100 0x1b 0x200 0xeffffff0 0x23.
Definition no_others (pid : Z) : K thr0 unit := mret tt.

Lemma page_fault_correct_witness : exists s s' : Trap.state (C := kcontainer),
  trap ks0 img0 no_others 0 s = Ok fault_tf s' /\ cr3 (get_vm s') = 1.
Proof.
  set (s0 := MPT.State cont3 (Spinlock (NUM_CPUS + 1) 0) ∅ ∅ 0 0 0).
  destruct (proj1 (wp_run _ _ _) (pdir_init_kern_wp demo_base demo_base_ok
    demo_cinit cont3 s0 eq_refl cont3_inv)) as ([] & v & _ & Hinv & Hct & Hlk & Hempty).
  destruct (page_fault_correct ks0 img0 no_others demo_ks_ok img0_ok demo_base 0
    (kernel (thread0 v 1) fault_tf {[(0, 14) := exception_handler_cb]} 0xefffffec) 1)
    as (s' & pi & H1 & [H2 _] & _).
  - exact demo_base_ok.
  - apply kernel_running.
  - lia.
  - reflexivity.
  - reflexivity.
  - reflexivity.
  - unfold user_va; cbn; lia.
  - exact Hinv.
  - exact (data_inv_empty v Hempty).
  - cbn. rewrite Hlk. reflexivity.
  - cbn. rewrite Hct. exact cont3_alloc.
  - eexists _, s'. split; [exact H1 | exact H2].
Defined.

Definition vm0 : MPT.state kcontainer := MPT.State cont3 (Spinlock (NUM_CPUS + 1) 0) ∅ ∅ 0 0 0.

(** A trap nobody handles. *)
Definition odd_tf : tf_t := TF 0 0 0 0 0 0 0x23 0x23 100 0 0x40000100 0x1b 0x200 0xeffffff0 0x23.


Lemma trap_init_correct_witness : exists s' : Trap.state (C := kcontainer),
  trap_init 1 (fun _ => 0) 0 (kernel (thread0 vm0 1) odd_tf ∅ 0) = Ok tt s' /\
  TRAP_HANDLER s' !! (0, 48) = Some syscall_dispatch_cb /\ TRAP_HANDLER s' !! (0, 100) = None.
Proof.
  destruct (trap_init_correct 1 (fun _ => 0) (kernel (thread0 vm0 1) odd_tf ∅ 0))
    as (s' & Hr & _ & H).
  - reflexivity.
  - lia.
  - reflexivity.
  - exists s'. split; [exact Hr|]. rewrite !H. split; reflexivity.
Defined.

Lemma proc_start_user_correct_witness : exists s' : Trap.state (C := kcontainer),
  proc_start_user ks0 img0 (s_uctx {[1 := fault_tf]} (kernel (thread0 vm0 1) odd_tf ∅ 0)) = Ok fault_tf s' /\
  cr3 (get_vm s') = 1.
Proof.
  destruct (proc_start_user_correct ks0 img0 demo_ks_ok img0_ok
    (s_uctx {[1 := fault_tf]} (kernel (thread0 vm0 1) odd_tf ∅ 0)) 1) as (s' & Hr & [H _]).
  - destruct (kernel_running vm0 odd_tf ∅ 0). by split.
  - exists s'. split; [exact Hr | exact H].
Defined.

(** *** A kernel after thread_init, with a program of no segments in memory *)

Definition boot_thr (v : MPT.state kcontainer) : thr0 :=
  Thread.State v pcpus0 ∅ ∅ ∅ ∅ ∅ Disk.unlocked_lk ∅.
Definition root0 : K thr0 (option Z) := fun s => Ok (Some 0) (set_vm (vm s) s).
Definition up (v : MPT.state kcontainer) : thr0 :=
  match thread_init ks0 (fun v => Ok tt v) root0 (boot_thr v) with Ok _ s => s | Err _ => boot_thr v end.

Lemma up_vm v : vm (up v) = v.
Proof. vm_compute. reflexivity. Qed.

Lemma up_ok v : sched_inv ks0 (up v) (fun _ _ => []) /\ cur ks0 (up v) = 0 /\
  tstate (TCBPool (up v) !!! 1) = TSTATE_DEAD.
Proof.
  destruct (proj1 (wp_run _ _ _) (thread_init_wp ks0 demo_ks_ok (fun _ => True) (fun v => Ok tt v) root0 (boot_thr v) v
    (thread0_cpu v 0) eq_refl ltac:(intros s; by exists (Some 0), (vm s)) ltac:(done) I)) as ([] & s & Hr & H1 & H2 & _ & H3 & _).
  unfold up. rewrite Hr. split_and!; [done | done |]. apply H3. unfold NUM_IDS. lia.
Qed.

Definition elf_mem : mem :=
  store32 0x200000 ELF_MAGIC (store32 0x200018 0x40000100 (store32 0x20001c 52
    (store32 0x200020 64 (store32 0x20002c 0 (store32 0x200032 1 (store32 0x20006c 3 ∅)))))).
Definition vm1 : MPT.state kcontainer :=
  MPT.State (MContainer.State mat3 (<[0 := MContainer.root_container 3]> ∅))
    (Spinlock (NUM_CPUS + 1) 0) ∅ elf_mem 0 0 0.
(** spawn(1, 2) *)
Definition spawn_tf : tf_t := TF 1 1 2 0 0 0 0x23 0x23 48 0 0x40000100 0x1b 0x200 0xeffffff0 0x23.
Definition spawner : Trap.state := kernel (up vm1) spawn_tf ∅ 0.

Lemma spawner_vm : get_vm spawner = vm1.
Proof. exact (up_vm vm1). Qed.

Lemma split1 : exists v1, alloc_mem_quota 0 2 vm1 = Ok 1 v1 /\ elf_load ks0 0x200000 1 v1 = Ok tt v1 /\
  elf_entry 0x200000 v1 = Ok 0x40000100 v1.
Proof. eexists. split; [vm_compute; reflexivity|]. split; vm_compute; reflexivity. Qed.


(** The kernel starts with the memory of [vm1]. *)
Definition vm2 : MPT.state kcontainer :=
  MPT.State (MContainer.State mat3 (<[0 := MContainer.root_container 2000]> ∅))
    (Spinlock (NUM_CPUS + 1) 0) ∅ elf_mem 0 0 0.
Lemma split_idle : exists v1, alloc_mem_quota 0 1000 vm2 = Ok 1 v1 /\ elf_load ks0 0x200000 1 v1 = Ok tt v1 /\
  elf_entry 0x200000 v1 = Ok 0x40000100 v1.
Proof. eexists. split; [vm_compute; reflexivity|]. split; vm_compute; reflexivity. Qed.


(** A quota of 1000 pages is refused. *)
Definition greedy_tf : tf_t := TF 1 1 1000 0 0 0 0x23 0x23 48 0 0x40000100 0x1b 0x200 0xeffffff0 0x23.
Lemma sys_spawn_correct_witness : exists s' : Trap.state (C := kcontainer),
  sys_spawn ks0 img0 0 (kernel (thread0 vm1 0) greedy_tf ∅ 0) = Ok tt s' /\
  eax (Sysfile.tf (sys s')) = E_EXCEEDS_QUOTA /\ ebx (Sysfile.tf (sys s')) = NUM_IDS.
Proof.
  assert (H1 : can_consume 0 1000 (ct vm1) = Ok 0 (ct vm1)) by (vm_compute; reflexivity).
  assert (H2 : get_nchildren 0 (ct vm1) = Ok 0 (ct vm1)) by (vm_compute; reflexivity).
  pose proof (sys_spawn_correct ks0 img0 demo_ks_ok 0 (kernel (thread0 vm1 0) greedy_tf ∅ 0) 0 0
    H1 H2 (thread0_cpu vm1 0) ltac:(by vm_compute)) as H.
  eexists. split; [exact H|]. split; vm_compute; reflexivity.
Defined.
End TrapDemo.
