(* ===== verification/Usys.v ===== *)
(** * System calls from user mode (user/include/syscall.h, user/lib/proc.c)

    A stub puts the number of the call and its arguments into registers and
    traps; the kernel answers with an error number in eax and a value in ebx.
    The model of the trap instruction builds the trap frame of the process and
    runs the kernel's trap handling, so that a call of a stub runs the whole way
    into the kernel and back. *)

From S2P Require Import Prelude Spinlock Seg Container MAT Memory VMM Pmap Thread Intr Disk.
From S2P Require Import Inode File Sysfile Trap.

Module Usys.
Import MPT Pmap Thread SyscallArg Trap.

Section ops.
Context {C : Type} `{!Containers C, !Quotas C}.
Context (ks : kstack) (img : image) (others : Z -> K (Thread.state (MPT.state C)) unit).
Context (junk : Z).
Abbreviation kernel := (Trap.state (C := C)).

(** The frame of [int T_SYSCALL]: the registers of the process with those that
    the stub sets; [u] is the rest, with the address behind the instruction. *)
Definition gate_frame (a b c d : Z) (u : tf_t) : tf_t :=
  TF a b c d (SyscallArg.esi u) (SyscallArg.edi u) (tf_es u) (tf_ds u) Intr.T_SYSCALL 0 (tf_eip u) (tf_cs u)
    (eflags u) (tf_esp u) (tf_ss u).
Definition int_syscall (a b c d : Z) (u : tf_t) : K kernel tf_t :=
  sysop (Sysfile.set_tf (fun _ => gate_frame a b c d u)) ;; trap ks img others junk.

(** ** syscall.h *)

(** [errno ? -1 : ret] with the value as an int, and [errno ? -1 : 0]. *)
Definition value (t : tf_t) : Z := if eax t =? 0 then i32 (ebx t) else -1.
Definition status (t : tf_t) : Z := if eax t =? 0 then 0 else -1.

Definition sys_puts (u : tf_t) (s len : Z) : K kernel unit := int_syscall SYS_puts s len (edx u) u ;; mret tt.
Definition sys_spawn (u : tf_t) (exec quota : Z) : K kernel Z :=
  t ← int_syscall SYS_spawn exec quota (edx u) u; mret (value t).
Definition sys_yield (u : tf_t) : K kernel unit := int_syscall SYS_yield (ebx u) (ecx u) (edx u) u ;; mret tt.
Definition sys_produce (u : tf_t) : K kernel unit := int_syscall SYS_produce (ebx u) (ecx u) (edx u) u ;; mret tt.
Definition sys_consume (u : tf_t) : K kernel unit := int_syscall SYS_consume (ebx u) (ecx u) (edx u) u ;; mret tt.
Definition sys_read (u : tf_t) (fd buf n : Z) : K kernel Z :=
  t ← int_syscall SYS_read (u32 fd) buf n u; mret (value t).
Definition sys_write (u : tf_t) (fd p n : Z) : K kernel Z :=
  t ← int_syscall SYS_write (u32 fd) p (u32 n) u; mret (value t).
Definition sys_close (u : tf_t) (fd : Z) : K kernel Z :=
  t ← int_syscall SYS_close (u32 fd) (ecx u) (edx u) u; mret (status t).
Definition sys_fstat (u : tf_t) (fd st : Z) : K kernel Z :=
  t ← int_syscall SYS_stat (u32 fd) st (edx u) u; mret (status t).
Definition sys_link (u : tf_t) (old new : Z) : K kernel Z :=
  t ← int_syscall SYS_link old new (edx u) u; mret (status t).
Definition sys_unlink (u : tf_t) (path : Z) : K kernel Z :=
  t ← int_syscall SYS_unlink path (ecx u) (edx u) u; mret (status t).
Definition sys_open (u : tf_t) (path omode : Z) : K kernel Z :=
  t ← int_syscall SYS_open path (u32 omode) (edx u) u; mret (value t).
Definition sys_mkdir (u : tf_t) (path : Z) : K kernel Z :=
  t ← int_syscall SYS_mkdir path (ecx u) (edx u) u; mret (status t).
Definition sys_chdir (u : tf_t) (path : Z) : K kernel Z :=
  t ← int_syscall SYS_chdir path (ecx u) (edx u) u; mret (status t).

(** ** proc.c *)

Definition spawn (u : tf_t) (exec quota : Z) : K kernel Z := sys_spawn u exec quota.
Definition yield (u : tf_t) : K kernel unit := sys_yield u.
Definition produce (u : tf_t) : K kernel unit := sys_produce u.
Definition consume (u : tf_t) : K kernel unit := sys_consume u.

(** ** Through the gate *)

Context (Hks : kstack_ok ks).
Context (Hseg : Seg.arrays_ok (bsp_base img) (proc_base img)).

(** The kernel a call finds: the frame is there, and the kernel's own page
    directory is in use. *)
Definition entered (t : tf_t) (s : kernel) : kernel :=
  let s := s_sys (Sysfile.s_tf t (sys s)) s in put_vm (with_cr3 0 (get_vm s)) s.

(** A process that waits for an answer: it runs, and the handler of the system
    calls is installed. *)
Record calling (s : kernel) (pid : Z) : Prop := {
  ca_running : running ks img s pid;
  ca_handler : TRAP_HANDLER s !! (cpu_idx ks, Intr.T_SYSCALL) = Some syscall_dispatch_cb
}.

(** What a return to process [pid] changes in the kernel state [s1] the handler
    leaves: the page directory and the stack for the next trap. *)
Definition back (pid : Z) (s1 s' : kernel) : Prop :=
  left_to ks img s' pid /\ exists g, s' = put_vm (with_cr3 pid (get_vm s1)) (s_segs g s1).

Lemma gate_run a b c d u s pid s1 :
  calling s pid ->
  syscall_dispatch ks img others junk (entered (gate_frame a b c d u) s) = Ok tt s1 -> running ks img s1 pid ->
  exists s', int_syscall a b c d u s = Ok (Sysfile.tf (sys s1)) s' /\ back pid s1 s'.
Proof.
  intros [[Hc Hcur Hpid Hpage] Hh] Hd Hr1.
  cut (wp (int_syscall a b c d u) (fun t s' => t = Sysfile.tf (sys s1) /\ back pid s1 s') s).
  { intros (t & s' & E & -> & H)%wp_run. eauto. }
  unfold int_syscall, trap. apply wp_bind, wp_zoom, wp_modify.
  apply wp_bind, (curid_wp ks Hks); [done|]. change (cur ks _) with (cur ks (get_thr s)). rewrite Hcur.
  apply wp_bind, set_pdir_wp; [by vm_compute|]. apply wp_bind, (pcpu_idx_wp ks Hks); [done|].
  apply wp_bind, wp_gets. apply wp_bind, wp_bounds; [apply Hks|]. apply wp_bind, wp_bounds; [by vm_compute|].
  apply wp_bind, wp_gets. change (TRAP_HANDLER _) with (TRAP_HANDLER s). change (trapno _) with Intr.T_SYSCALL. rewrite Hh.
  apply wp_bind. eapply wp_intro; [exact Hd|]. apply wp_bind, (switch_kstack_wp _ _ Hks Hseg _ pid pid); [done..|].
  intros g Hg. apply wp_bind, set_pdir_wp; [done|]. apply wp_gets. split; [done|]. split; [by split|]. by exists g.
Qed.

(** The process goes on behind the trap instruction with its registers; only
    eax and ebx hold the answer. *)
Record resumed (a b c d : Z) (u t : tf_t) : Prop := {
  re_regs : ecx t = c /\ edx t = d /\ SyscallArg.esi t = SyscallArg.esi u /\ SyscallArg.edi t = SyscallArg.edi u;
  re_code : tf_eip t = tf_eip u /\ tf_cs t = tf_cs u /\ eflags t = eflags u;
  re_stack : tf_esp t = tf_esp u /\ tf_ss t = tf_ss u /\ tf_ds t = tf_ds u /\ tf_es t = tf_es u;
  re_answer : eax t = a /\ ebx t = b
}.

Lemma spawn_error_nonzero qok nc me exec e : spawn_error qok nc me exec = Some e -> u32 e = e /\ e <> 0.
Proof. unfold spawn_error. repeat case_match; by intros [= <-]. Qed.

(** (C10) spawn() of a user process, from the call to its return.  When the kernel
    refuses (quota, number of processes or of children, unknown program), the
    process gets -1 and nothing has changed but its two result registers; else
    it gets the id of the new process, which is ready, has the program loaded
    and will enter ring 3 at its entry point.  Either way the caller goes on
    behind its trap instruction, with its registers and its page directory. *)
Theorem spawn_correct u exec quota s me qok nc :
  calling s me ->
  can_consume junk quota (ct (get_vm s)) = Ok qok (ct (get_vm s)) ->
  get_nchildren junk (ct (get_vm s)) = Ok nc (ct (get_vm s)) ->
  let s0 := entered (gate_frame SYS_spawn exec quota (edx u) u) s in
  match spawn_error qok nc me exec with
  | Some e => exists s', spawn u exec quota s = Ok (-1) s' /\
      back me (reply e NUM_IDS s0) s' /\ resumed e NUM_IDS quota (edx u) u (Sysfile.tf (sys s'))
  | None => forall Q pid v1 v2 entry,
      sched_inv ks (get_thr s) Q -> alloc_mem_quota me quota (get_vm s0) = Ok pid v1 ->
      0 <= pid < NUM_IDS -> tstate (TCBPool (get_thr s) !!! pid) = TSTATE_DEAD ->
      elf_load ks (elf_of img exec) pid v1 = Ok tt v2 -> elf_entry (elf_of img exec) v2 = Ok entry v2 ->
      exists s', spawn u exec quota s = Ok pid s' /\
        left_to ks img s' me /\ resumed 0 pid quota (edx u) u (Sysfile.tf (sys s')) /\
        get_vm s' = with_cr3 me v2 /\ cur ks (get_thr s') = me /\
        sched_inv ks (get_thr s') (qupd Q (cpu_idx ks) NUM_IDS (Q (cpu_idx ks) NUM_IDS ++ [pid])) /\
        user_frame entry (uctx_pool s' !!! pid)
  end.
Proof.
  intros Hcall Hq Hn s0. pose proof Hcall as [[Hc Hcur Hpid Hpage] _].
  pose proof (sys_spawn_correct ks img Hks junk s0 qok nc Hq Hn Hc) as Hspawn.
  change (cur ks (get_thr s0)) with (cur ks (get_thr s)) in Hspawn. rewrite Hcur in Hspawn. specialize (Hspawn Hpid).
  change (syscall_get_arg2 _) with exec in Hspawn. change (syscall_get_arg3 _) with quota in Hspawn.
  destruct (spawn_error qok nc me exec) as [e|] eqn:Ee.
  - destruct (spawn_error_nonzero _ _ _ _ _ Ee) as [Eu Hne].
    destruct (gate_run SYS_spawn exec quota (edx u) u s me (reply e NUM_IDS s0)) as (s' & Hr & Hb); [done | exact Hspawn | by split |].
    exists s'. split_and!; [|exact Hb|].
    + unfold spawn, sys_spawn. erewrite bind_Ok by exact Hr. unfold value. change (eax _) with (u32 e).
      by rewrite Eu, (proj2 (Z.eqb_neq _ _) Hne).
    + destruct Hb as (_ & g & ->). by split.
  - intros Q pid v1 v2 entry Hinv Ha Hp Hdead Hl He.
    destruct (proc_create_run ks img Hks (elf_of img exec) quota s0 Q pid v1 v2 entry)
      as (t & g & w & Hr & Hq' & Ec & Epc & _); [by destruct Hinv; split; try done; apply (queues_ext (get_thr s)) | by change (cur ks (get_thr s0)) with (cur ks (get_thr s)); rewrite Hcur | done..|].
    specialize (Hspawn _ _ Hr Hp).
    destruct (gate_run SYS_spawn exec quota (edx u) u s me _ Hcall Hspawn) as (s' & Hr' & Hl' & g' & ->).
    { split; [| | done |].
      - exact (si_cpu _ _ _ (Hq' v2)).
      - etrans; [exact Ec | exact Hcur].
      - destruct Hpage as (i & Hi & E). exists i. split; [done|].
        match goal with |- context [pcpus ?x] => change (pcpus x) with (pcpus t) end. by rewrite Epc. }
    eexists. split.
    { unfold spawn, sys_spawn. erewrite bind_Ok by exact Hr'. unfold value. change (eax _) with 0. change (ebx _) with (u32 pid).
      cbn [Z.eqb]. rewrite u32_small, i32_small by klia. reflexivity. }
    split_and!; [exact Hl' | | reflexivity | etrans; [exact Ec | exact Hcur] | exact (Hq' (with_cr3 me v2)) |].
    + split; try done. split; [done|]. by apply u32_small; klia.
    + change (uctx_pool _) with (<[pid := user_context entry w]> (uctx_pool s)). rewrite lookup_total_insert_eq. apply user_context_frame.
Qed.

(** ** Every stub reaches its handler *)

(** A stub [k] delivers to the handler [h]: the handler runs with the arguments
    of the call where it looks for them and the rest of the frame as the process
    left it, and the stub returns what [res] makes of the frame the handler
    leaves, to the process that called. *)
Definition delivers (u : tf_t) (k : K kernel Z) (h : K kernel unit) (args : list Z) (res : tf_t -> Z) : Prop :=
  forall s pid, calling s pid -> exists t,
    args `prefix_of` [syscall_get_arg2 t; syscall_get_arg3 t; syscall_get_arg4 t] /\
    resumed (eax t) (ebx t) (ecx t) (edx t) u t /\
    forall s1, h (entered t s) = Ok tt s1 -> running ks img s1 pid ->
      exists s', k s = Ok (res (Sysfile.tf (sys s1))) s' /\ back pid s1 s'.

Lemma deliver u a b c d h args res :
  (forall s, syscall_dispatch ks img others junk (entered (gate_frame a b c d u) s) = h (entered (gate_frame a b c d u) s)) ->
  args `prefix_of` [b; c; d] ->
  delivers u (t ← int_syscall a b c d u; mret (res t)) h args res.
Proof.
  intros Hd Hargs s pid Hc. exists (gate_frame a b c d u). split; [exact Hargs|]. split; [by split|].
  intros s1 H1 Hr. rewrite <- Hd in H1. destruct (gate_run a b c d u s pid s1 Hc H1 Hr) as (s' & E & Hb).
  exists s'. split; [|exact Hb]. by erewrite bind_Ok by exact E.
Qed.

Lemma deliver_unit u a b c d h args :
  (forall s, syscall_dispatch ks img others junk (entered (gate_frame a b c d u) s) = h (entered (gate_frame a b c d u) s)) ->
  args `prefix_of` [b; c; d] ->
  delivers u ((int_syscall a b c d u ;; mret tt) ;; mret 0) h args (fun _ => 0).
Proof.
  intros Hd Hargs s pid Hc. destruct (deliver u a b c d h args (fun _ => 0) Hd Hargs s pid Hc) as (t & H1 & H2 & H3).
  exists t. split; [exact H1|]. split; [exact H2|]. intros s1 E1 Hr. destruct (H3 s1 E1 Hr) as (s' & E & Hb).
  exists s'. split; [|exact Hb]. by rewrite bind_assoc.
Qed.

#[local] Instance user_sched : Sched (Thread.state (MPT.state C)) := thr_sched ks.
#[local] Instance user_procs : Dir.Procs (Thread.state (MPT.state C)) := thr_procs ks.
#[local] Instance user_mem : UserMem (Thread.state (MPT.state C)) := thr_usermem ks.

(** (C31) The numbers and registers of the fourteen stubs are those the kernel's
    dispatcher and handlers use: every stub runs its own handler on its own
    arguments and returns the handler's answer. *)
Theorem stubs_deliver u x y z :
  let b := file_bufs img in
  delivers u (sys_puts u x y ;; mret 0) (Trap.sys_puts ks img) [x; y] (fun _ => 0) /\
  delivers u (sys_spawn u x y) (Trap.sys_spawn ks img junk) [x; y] value /\
  delivers u (sys_yield u ;; mret 0) (Trap.sys_yield ks others) [] (fun _ => 0) /\
  delivers u (sys_produce u ;; mret 0) (modify (s_if true) ;; Trap.sys_produce ks ;; modify (s_if false)) [] (fun _ => 0) /\
  delivers u (sys_consume u ;; mret 0) (modify (s_if true) ;; Trap.sys_consume ks ;; modify (s_if false)) [] (fun _ => 0) /\
  delivers u (sys_open u x y) (sysop (Sysfile.sys_open ks b)) [x; u32 y] value /\
  delivers u (sys_close u x) (sysop (Sysfile.sys_close ks)) [u32 x] status /\
  delivers u (sys_read u x y z) (sysop (Sysfile.sys_read ks b)) [u32 x; y; z] value /\
  delivers u (sys_write u x y z) (sysop (Sysfile.sys_write ks b)) [u32 x; y; u32 z] value /\
  delivers u (sys_mkdir u x) (sysop (Sysfile.sys_mkdir ks b)) [x] status /\
  delivers u (sys_chdir u x) (sysop (Sysfile.sys_chdir ks b)) [x] status /\
  delivers u (sys_link u x y) (sysop (Sysfile.sys_link ks b)) [x; y] status /\
  delivers u (sys_unlink u x) (sysop (Sysfile.sys_unlink ks b)) [x] status /\
  delivers u (sys_fstat u x y) (sysop (Sysfile.sys_fstat ks b)) [u32 x; y] status.
Proof.
  intros b. split_and!; (apply deliver_unit || apply deliver); (intros s; reflexivity) || (by eexists).
Qed.
End ops.
End Usys.

(** ** A process on the kernel of [TrapDemo] *)
Module UsysDemo.
Import MPT Pmap Thread SyscallArg Trap ContainerPages PmapDemo TrapDemo Usys.

Definition gate : gmap (Z * Z) trap_cb := {[(0, Intr.T_SYSCALL) := syscall_dispatch_cb]}.
Definition user_tf : tf_t := TF 7 7 7 7 1 2 0x23 0x23 0 0 0x40000200 0x1b 0x200 0xefffff00 0x23.
(** Process 0 with a program in memory and room for a child. *)
Definition parent : Trap.state (C := kcontainer) := kernel (up vm1) odd_tf gate 0.

Lemma parent_calling : calling ks0 img0 parent 0.
Proof.
  destruct (up_ok vm1) as (Hinv & Hcur & _). split; [split|done].
  - apply (si_cpu _ _ _ Hinv).
  - exact Hcur.
  - unfold NUM_IDS. lia.
  - exists 0. split; [unfold NUM_CPUS; lia | vm_compute; reflexivity].
Qed.

Lemma spawn_correct_witness : exists s',
  spawn ks0 img0 no_others 0 user_tf 1 2 parent = Ok 1 s' /\ left_to ks0 img0 s' 0 /\
  tf_eip (Sysfile.tf (sys s')) = 0x40000200 /\ tf_eip (uctx_pool s' !!! 1) = 0x40000100.
Proof.
  destruct (up_ok vm1) as (Hinv & Hcur & Hdead).
  assert (H1 : can_consume 0 2 (ct (get_vm parent)) = Ok 1 (ct (get_vm parent))) by (vm_compute; reflexivity).
  assert (H2 : get_nchildren 0 (ct (get_vm parent)) = Ok 0 (ct (get_vm parent))) by (vm_compute; reflexivity).
  destruct split1 as (v1 & E1 & E2 & E3).
  destruct (spawn_correct ks0 img0 no_others 0 demo_ks_ok img0_ok user_tf 1 2 parent 0 1 0 parent_calling H1 H2
    (fun _ _ => []) 1 v1 v1 0x40000100) as (s' & Hr & Hl & [_ [He _] _ _] & _ & _ & _ & [Hu _ _ _ _]).
  - exact Hinv.
  - rewrite <- E1. change (get_vm (entered _ parent)) with (with_cr3 0 (vm (up vm1))). by rewrite up_vm.
  - unfold NUM_IDS. lia.
  - exact Hdead.
  - exact E2.
  - exact E3.
  - exists s'. split; [exact Hr|]. split; [exact Hl|]. split; [exact He | exact Hu].
Defined.

(** A quota the container refuses. *)
Lemma refused (s : Trap.state (C := kcontainer)) t quota : running ks0 img0 s 0 ->
  can_consume 0 quota (ct (get_vm s)) = Ok 0 (ct (get_vm s)) -> get_nchildren 0 (ct (get_vm s)) = Ok 0 (ct (get_vm s)) ->
  syscall_get_arg3 t = quota ->
  exists s1, Trap.sys_spawn ks0 img0 0 (entered t s) = Ok tt s1 /\ running ks0 img0 s1 0 /\ value (Sysfile.tf (sys s1)) = -1.
Proof.
  intros [Hc Hcur Hpid Hpage] H1 H2 <-. eexists. split.
  - refine (sys_spawn_correct ks0 img0 demo_ks_ok 0 (entered t s) 0 0 H1 H2 Hc _).
    change (cur ks0 (get_thr (entered t s))) with (cur ks0 (get_thr s)). by rewrite Hcur.
  - split; [by split | done].
Qed.

Lemma stubs_deliver_witness : exists s',
  sys_spawn ks0 img0 no_others 0 user_tf 1 1000 parent = Ok (-1) s' /\ left_to ks0 img0 s' 0.
Proof.
  destruct (stubs_deliver ks0 img0 no_others 0 demo_ks_ok img0_ok user_tf 1 1000 0) as (_ & H & _).
  destruct (H parent 0 parent_calling) as (t & [l Ha] & _ & Ht). injection Ha as _ E _.
  destruct (refused parent t 1000 (ca_running _ _ _ _ parent_calling)) as (s1 & Hs & Hr & Ev);
    [vm_compute; reflexivity | vm_compute; reflexivity | exact E |].
  destruct (Ht _ Hs Hr) as (s' & Hr' & Hb & _). rewrite Ev in Hr'. exists s'. split; [exact Hr' | exact Hb].
Defined.
End UsysDemo.
