(* ===== verification/Uprog.v ===== *)
(** * User programs (user/idle, user/pingpong) and messages (user/lib/debug.c)

    The programs and the message routines over the system calls they make;
    strings are passed as their bytes. *)

From S2P Require Import Prelude Memory Bytes Printfmt Printf Console Monitor.

Module Uprog.
Import Printfmt Printf Console Monitor.

Section programs.
Context {S : Type} (puts : list Z -> K S unit) (spawn : Z -> Z -> K S Z) (yield produce consume : K S unit).
Context (junk : list Z).

Definition printf (fmt : list Z) (ap : list arg) : K S Z := vcprintf puts junk (fmt ++ [0]) ap.

(** ** debug.c *)

(** The message, after the place it comes from; the string is the argument that
    points to it. *)
Definition message (tag : string) (file : arg) (line : Z) (fmt : list Z) (ap : list arg) : K S unit :=
  printf (text tag ++ text "%s:%d: ") [file; Arg line []] ;;
  vcprintf puts junk fmt ap ;;
  mret tt.
Definition debug (file : arg) (line : Z) (fmt : list Z) (ap : list arg) : K S unit := message "[D] " file line fmt ap.
Definition warn (file : arg) (line : Z) (fmt : list Z) (ap : list arg) : K S unit := message "[W] " file line fmt ap.
Definition panic (fuel : nat) (file : arg) (line : Z) (fmt : list Z) (ap : list arg) : K S unit :=
  message "[P] " file line fmt ap ;;
  loop fuel (fun _ : unit => yield ;; mret (inl tt)) tt.

(** ** idle.c, ping.c, pong.c, ding.c *)

Definition idle_main : K S Z :=
  printf (text "idle" ++ [10]) [] ;;
  fstest_pid ← spawn 4 1000;
  (if negb (fstest_pid =? -1) then printf (text "fstest in process %d." ++ [10]) [Arg fstest_pid []]
   else printf (text "Failed to launch fstest." ++ [10]) []) ;;
  mret 0.

Definition ping_main : K S Z :=
  printf (text "ping started." ++ [10]) [] ;;
  for_ 0 10 (fun _ => produce) ;;
  for_ 0 40 (fun i => when (i mod 4 =? 0) produce) ;;
  mret 0.

Definition pong_main : K S Z :=
  printf (text "pong started." ++ [10]) [] ;;
  for_ 0 20 (fun i => when (i mod 2 =? 0) consume) ;;
  mret 0.

Definition ding_main : K S Z := printf (text "ding started." ++ [10]) [] ;; mret 0.

(** ** What they do *)

Context (putc : Z -> K S unit).
Hypothesis Hputs : forall l s, puts l s = emit putc l s.
Hypothesis Hjunk : zlen junk = MAX_BUF.

Lemma u8_printable l : printable l -> u8 <$> l = l.
Proof.
  intros H. rewrite <- (list_fmap_id l) at 2. apply list_fmap_ext. intros i c Hc.
  eapply Forall_lookup in H; [|exact Hc]. cbn in *. apply u8_small. klia.
Qed.

Lemma printf_run fmt items ap out s : fmt = items ≫= item_bytes -> Forall wf_item items -> Forall wf_arg ap ->
  render false items ap = Some out -> printable out -> zlen out < 2 ^ 31 ->
  printf fmt ap s = (emit putc out ;; mret (zlen out)) s.
Proof.
  intros -> Hw Ha Hr Hp Hl. unfold printf. rewrite (vcprintf_correct puts putc junk items ap out s) by done.
  by rewrite u8_printable.
Qed.

Definition plain (str : string) : bool := forallb (fun c => (0 <? c) && (c <? 128) && negb (c =? 37)) (text str).
Lemma plain_printable str : plain str = true -> printable (text str).
Proof.
  intros H. apply printable_b. unfold plain in H. rewrite forallb_forall in H |- *. intros c Hc. by apply H, andb_true_iff in Hc as [-> _].
Qed.

Lemma say str s : plain str = true -> zlen (text str) < 100 ->
  printf (text str ++ [10]) [] s = (emit putc (text str ++ [10]) ;; mret (zlen (text str ++ [10]))) s.
Proof.
  intros Hp Hl. apply (printf_run _ (lits str ++ [Lit 10])).
  - by rewrite bind_app, bytes_lits.
  - apply Forall_app_2; [by apply wf_lits | by repeat constructor].
  - done.
  - by rewrite render_lits.
  - apply printable_app; [by apply plain_printable | by apply printable_b].
  - rewrite zlen_app'. change (zlen [10]) with 1. lia.
Qed.

(** The line idle ends with. *)
Definition report (pid : Z) : list Z :=
  if pid =? -1 then text "Failed to launch fstest." ++ [10]
  else text "fstest in process " ++ signed_text start_flags (i32 (u32 pid)) ++ text "." ++ [10].

Lemma say_pid pid s : printf (text "fstest in process %d." ++ [10]) [Arg pid []] s =
  (emit putc (text "fstest in process " ++ signed_text start_flags (i32 (u32 pid)) ++ text "." ++ [10]) ;;
   mret (zlen (text "fstest in process " ++ signed_text start_flags (i32 (u32 pid)) ++ text "." ++ [10]))) s.
Proof.
  pose proof (i32_range (u32 pid)) as Hv.
  apply (printf_run _ (lits "fstest in process " ++ [Dir [] Cd; Lit 46; Lit 10])).
  - reflexivity.
  - apply Forall_app_2; [by apply wf_lits | by repeat constructor].
  - by repeat constructor.
  - rewrite render_lits. done.
  - apply printable_app; [by apply printable_b|]. apply printable_app; [apply printable_app | by apply printable_b].
    + by destruct (i32 (u32 pid) <? 0); apply printable_b.
    + apply printable_num; try lia. done.
  - unfold signed_text. rewrite !zlen_app'. pose proof (num_text_length (padc start_flags) (width start_flags) 10 (Z.abs (i32 (u32 pid)))).
    change (zlen (text "fstest in process ")) with 18. change (zlen (text ".")) with 1. change (zlen [10]) with 1.
    change (width start_flags) with (-1) in *. destruct (i32 (u32 pid) <? 0); unfold zlen in *; cbn [length]; lia.
Qed.

Lemma then_run (m : K S Z) out n {A} (k : K S A) s : m s = (emit putc out ;; mret n) s -> (m ;; k) s = (emit putc out ;; k) s.
Proof. unfold mbind, K_bind. intros ->. by destruct (emit putc out s). Qed.

(** idle prints its name, starts fstest with 1000 pages and reports the id of
    the process, or that it could not be started. *)
Theorem idle_correct s :
  idle_main s = (emit putc (text "idle" ++ [10]) ;; pid ← spawn 4 1000; emit putc (report pid) ;; mret 0) s.
Proof.
  unfold idle_main, report. erewrite then_run by (by apply say). apply bind_ext. intros _ s1. apply bind_ext. intros pid s2.
  destruct (pid =? -1); cbn [negb]; [by erewrite then_run by (by apply say) | by erewrite then_run by (apply say_pid)].
Qed.

Lemma for_range_app n m i (body : Z -> K S unit) s :
  for_range (n + m) i body s = (for_range n i body ;; for_range m (i + Z.of_nat n) body) s.
Proof.
  revert i s. induction n as [|n IH]; intros i s; cbn [Nat.add for_range].
  - by rewrite bind_ret_l, Z.add_0_r.
  - rewrite bind_assoc. apply bind_ext. intros _ s1. rewrite IH. apply bind_ext. intros _ s2. by replace (i + Z.of_nat (Datatypes.S n)) with (i + 1 + Z.of_nat n) by lia.
Qed.
Lemma bind_left {A B} (m m' : K S A) (k : A -> K S B) s : m s = m' s -> (m ≫= k) s = (m' ≫= k) s.
Proof. unfold mbind, K_bind. by intros ->. Qed.

(** ping announces itself and produces twenty times; pong consumes ten times,
    ding does nothing more. *)
Theorem pingpong_correct s :
  ping_main s = (emit putc (text "ping started." ++ [10]) ;; for_ 0 20 (fun _ => produce) ;; mret 0) s /\
  pong_main s = (emit putc (text "pong started." ++ [10]) ;; for_ 0 10 (fun _ => consume) ;; mret 0) s /\
  ding_main s = (emit putc (text "ding started." ++ [10]) ;; mret 0) s.
Proof.
  unfold ping_main, pong_main, ding_main.
  split_and!; (erewrite then_run by (by apply say)); apply bind_ext; intros _ s1; [|reflexivity..].
  unfold for_. change (Z.to_nat (20 - 0)) with (10 + 10)%nat. etrans; [|symmetry; apply bind_left, for_range_app].
  rewrite bind_assoc. apply bind_ext. intros _ s2. reflexivity.
Qed.

(** panic prints its message and does not return. *)
Theorem panic_no_return fuel file line fmt ap s u s' : panic fuel file line fmt ap s <> Ok u s'.
Proof.
  unfold panic. intros ([] & s1 & _ & H)%bind_inv. revert s1 H. induction fuel as [|fuel IH]; intros s1 H; [done|].
  cbn [loop] in H. rewrite bind_assoc in H. apply bind_inv in H as ([] & s2 & _ & H). by apply (IH s2).
Qed.
End programs.
End Uprog.
