(* ===== verification/Devinit.v ===== *)
(** * Device initialisation (kern/dev/devinit.c)

    devinit runs the initialisation of all components on the boot processor,
    in the order the later ones depend on: segments, console, processors,
    clocks, interrupt controllers and traps, the map of physical memory, the
    buffer, file and inode caches and the disk.  Its state puts the states of
    the components together; the interrupt controllers and physical memory,
    which processor discovery and the kernel proper both work on, are there
    once.  Static variables are zero at the start: seg_init clears them. *)

From S2P Require Import Prelude Spinlock Seg Mboot Container MAT Memory Bytes VMM Pmap Thread Intr Smp Disk.
From S2P Require Import Bufcache Log Inode File Sysfile Printfmt Printf Clock Apic Console Monitor Trap.

(** ** The console after its initialisation *)
Module ConsInit.
Import Printfmt Printf Console Monitor.

(** The console can print. *)
Definition con_ok (s : state) : Prop :=
  pos_ok (terminal s) /\ lock (serial_lk s) = 0 /\ lock (debug_lk s) = 0.

Section output.
Context (tx_time : nat) (ks : kstack) (junk : list Z).
Hypothesis Hks : magic ks = KSTACK_MAGIC.
Hypothesis Hjunk : zlen junk = CONSOLE_BUFFER_SIZE.

(** Printing leaves the input side alone. *)
Definition same_input (s s' : state) : Prop :=
  con s' = con s /\ cons_lk s' = cons_lk s /\ serial_exists s' = serial_exists s.

Lemma debug_info_wp items ap out s (Q : unit -> state -> Prop) :
  Forall wf_item items -> Forall wf_arg ap -> render true items ap = Some out ->
  Forall (fun c => u8 c <> 0) out -> zlen out < 2 ^ 31 -> con_ok s ->
  (forall s', con_ok s' -> same_input s s' -> Q tt s') ->
  wp (debug_info tx_time ks junk ((items ≫= item_bytes) ++ [0]) ap) Q s.
Proof.
  intros Hw Ha Hr Hnz Hl (Hp & Hs & Hd) HQ. unfold debug_info, debug_lock, debug_unlock.
  apply wp_bind, wp_zoom. eapply wp_intro; [by apply spinlock_acquire_run|].
  apply wp_bind. apply (dprintf_wp tx_time ks junk Hks Hjunk items ap out); try done.
  intros s' (u & v & -> & A1 & A2 & A3 & A4 & A5 & A6). apply wp_zoom.
  eapply wp_intro; [apply spinlock_release_run|]. by apply HQ.
Qed.

(** The two kinds of message of devinit: plain text, and a number. *)
Lemma info_text_wp str s (Q : unit -> state -> Prop) :
  forallb (fun c => (0 <? c) && (c <? 128) && negb (c =? 37)) (text str) = true -> zlen (text str) < 100 -> con_ok s ->
  (forall s', con_ok s' -> same_input s s' -> Q tt s') ->
  wp (debug_info tx_time ks junk ((text str ++ [10]) ++ [0]) []) Q s.
Proof.
  intros Ht Hl Hok HQ. assert (Hpr : printable (text str ++ [10])).
  { apply printable_app; [|by apply printable_b]. apply printable_b. rewrite forallb_forall in Ht |- *.
    intros c Hc. by apply Ht, andb_true_iff in Hc as [-> _]. }
  replace (text str ++ [10]) with ((lits str ++ [Lit 10]) ≫= item_bytes) at 1 by (by rewrite bind_app, bytes_lits).
  apply (debug_info_wp _ [] (text str ++ [10])); try done.
  - apply Forall_app_2; [by apply wf_lits | by repeat constructor].
  - by rewrite render_lits.
  - eapply Forall_impl; [exact Hpr|]. intros c Hc. cbn in *. rewrite u8_small by klia. lia.
  - rewrite zlen_app'. change (zlen [10]) with 1. lia.
Qed.

Lemma info_number_wp str n s (Q : unit -> state -> Prop) :
  forallb (fun c => (0 <? c) && (c <? 128) && negb (c =? 37)) (text str) = true -> zlen (text str) < 100 -> con_ok s ->
  (forall s', con_ok s' -> same_input s s' -> Q tt s') ->
  wp (debug_info tx_time ks junk ((text str ++ text "%d" ++ [10]) ++ [0]) [Arg n []]) Q s.
Proof.
  intros Ht Hl Hok HQ. set (v := i32 (u32 n)). pose proof (i32_range (u32 n)) as Hv. fold v in Hv.
  assert (Hpr : printable (text str ++ signed_text start_flags v ++ [10])).
  { apply printable_app; [|apply printable_app; [apply printable_app|by apply printable_b]].
    - apply printable_b. rewrite forallb_forall in Ht |- *. intros c Hc. by apply Ht, andb_true_iff in Hc as [-> _].
    - by destruct (v <? 0); apply printable_b.
    - apply printable_num; try lia. done. }
  replace (text str ++ text "%d" ++ [10]) with ((lits str ++ [Dir [] Cd; Lit 10]) ≫= item_bytes) at 1
    by (by rewrite bind_app, bytes_lits).
  apply (debug_info_wp _ [Arg n []] (text str ++ signed_text start_flags v ++ [10])); try done.
  - apply Forall_app_2; [by apply wf_lits | by repeat constructor].
  - by repeat constructor.
  - rewrite render_lits. cbn -[signed_text i32 u32]. unfold v. done.
  - eapply Forall_impl; [exact Hpr|]. intros c Hc. cbn in *. rewrite u8_small by klia. lia.
  - unfold signed_text. rewrite !zlen_app'. pose proof (num_text_length (padc start_flags) (width start_flags) 10 (Z.abs v)).
    change (zlen [10]) with 1. change (width start_flags) with (-1) in *. destruct (v <? 0); unfold zlen in *; cbn [length]; lia.
Qed.

(** After a character the cursor is where the next one goes. *)
Lemma emit_cursor_wp c l s (Q : unit -> state -> Prop) : pos_ok (terminal s) ->
  (forall u v, pos_ok v -> cursor_ok v -> Q tt (s_terminal v (s_com1 u s))) ->
  wp (emit (cons_putc tx_time) (c :: l)) Q s.
Proof.
  assert (P : forall c s (Q : unit -> state -> Prop), pos_ok (terminal s) ->
    (forall u v, pos_ok v -> cursor_ok v -> Q tt (s_terminal v (s_com1 u s))) -> wp (cons_putc tx_time c) Q s).
  { intros c' s' Q' Hp HQ'. unfold cons_putc. apply wp_bind, serial_putc_wp. intros u _ _ _ _ _.
    apply wp_zoom, video_putc_spec; [done|]. intros v _ Hv Hc. by apply HQ'. }
  revert c s Q. induction l as [|d l IH]; intros c s Q Hp HQ; cbn [emit]; (apply wp_bind, P; [done|]); [done|].
  intros u v Hv Hc. apply (IH d); [done|]. intros u' v' Hv' Hc'. exact (HQ u' v' Hv' Hc').
Qed.

(** The line video_init prints: the address of the display chip. *)
Definition addr_items : list item := (Lit <$> text "addr_6845:") ++ [Dir [] Cx; Lit 10].

Lemma addr_dprintf_wp a s (Q : Z -> state -> Prop) :
  a = MONO_BASE \/ a = CGA_BASE -> pos_ok (terminal s) -> lock (serial_lk s) = 0 ->
  (forall r u v, pos_ok v -> cursor_ok v ->
     Q r (s_serial_lk (Spinlock (NUM_CPUS + 1) 0) (s_terminal v (s_com1 u s)))) ->
  wp (dprintf tx_time ks junk (text "addr_6845:%x" ++ [10; 0]) [Arg a []]) Q s.
Proof.
  intros Ha Hp Hl HQ.
  assert (exists c l, render true addr_items [Arg a []] = Some (c :: l) /\
    Forall (fun c => u8 c <> 0) (c :: l) /\ zlen (c :: l) < 2 ^ 31) as (c & l & Hr & Hz & Hn).
  { destruct Ha as [-> | ->]; (eexists _, _; split; [vm_compute; reflexivity|]; split; [|done]);
      (apply (bool_decide_unpack _); vm_compute; exact I). }
  change (text "addr_6845:%x" ++ [10; 0]) with ((addr_items ≫= item_bytes) ++ [0]).
  unfold dprintf. eapply wp_ext; [apply (vdprintf_correct _ _ _ junk addr_items [Arg a []] (c :: l)); try done|].
  { repeat constructor; by vm_compute. }
  { by repeat constructor. }
  apply wp_bind, wp_zoom. eapply wp_intro; [by apply spinlock_acquire_run|].
  apply wp_bind. apply emit_cursor_wp; [done|]. intros u v Hv Hc.
  apply wp_bind, wp_zoom. eapply wp_intro; [apply spinlock_release_run|]. apply wp_ret.
  exact (HQ _ u v Hv Hc).
Qed.

Lemma outb_com1_wp r v u (Q : unit -> uart -> Prop) : (forall u', Q tt u') -> wp (outb_com1 tx_time r v) Q u.
Proof. intros HQ. apply wp_modify, HQ. Qed.

(** cons_init leaves an empty ring, and the position where the cursor is. *)
Lemma cons_init_wp s (Q : unit -> state -> Prop) :
  crt_pos (terminal s) = 0 -> lock (serial_lk s) = 0 ->
  (forall s', pos_ok (terminal s') -> con s' = Cons (replicate 512 0) 0 0 -> cons_lk s' = Spinlock (NUM_CPUS + 1) 0 ->
     Q tt s') ->
  wp (cons_init tx_time ks junk) Q s.
Proof.
  intros Hp Hl HQ. unfold cons_init. apply wp_bind, wp_modify, wp_bind.
  eapply (wp_mono _ (fun _ s1 => con s1 = Cons (replicate 512 0) 0 0 /\ crt_pos (terminal s1) = 0 /\ lock (serial_lk s1) = 0)).
  { unfold serial_init. apply wp_bind, wp_zoom. do 6 (apply wp_bind, outb_com1_wp; intros ?). apply outb_com1_wp. intros u.
    apply wp_bind, wp_zoom. eapply wp_intro; [reflexivity|]. apply wp_bind, wp_modify, wp_bind, wp_zoom.
    eapply wp_intro; [reflexivity|]. apply wp_bind, wp_zoom. unfold inb_rx, wp. destruct (rx _); done. }
  intros _ s1 (C1 & P1 & L1). apply wp_bind. unfold video_init. apply wp_bind, wp_zoom.
  eapply (wp_mono _ (fun _ v => crt_pos v = 0 /\ (addr_6845 v = MONO_BASE \/ addr_6845 v = CGA_BASE))).
  { apply wp_bind, wp_gets, wp_bind, wp_modify, wp_bind, wp_gets. destruct (negb _).
    - apply wp_bind, wp_modify, wp_ret. by auto.
    - apply wp_bind, wp_modify, wp_bind, wp_modify, wp_ret. by auto. }
  intros cp v1 [V1 A1]. apply wp_bind, wp_gets, wp_bind. cbn [lput terminal_lens].
  apply addr_dprintf_wp; [exact A1 | unfold pos_ok; cbn; rewrite V1; done | exact L1 |].
  intros r u v Hv [Hlo Hc]. apply wp_zoom. cbn [lget terminal_lens].
  apply wp_bind, wp_modify, wp_bind, wp_gets, wp_bind, wp_modify, wp_bind, wp_gets, wp_modify.
  cbn -[Z.shiftl u16]. apply wp_zoom. eapply wp_intro; [reflexivity|]. apply HQ; [|exact C1 | done].
  unfold pos_ok in *. cbn -[Z.shiftl u16]. change (u8 15) with 15. change (u8 14) with 14. cbn [Z.eqb Pos.eqb].
  rewrite Z.lor_comm, Disk.lor_shift_add by klia.
  unfold u16. rewrite Z.mod_small by klia. klia.
Qed.
End output.
End ConsInit.

(** ** devinit *)
Module Devinit.
#[local] Existing Instances Smp.pcpuinfo_inhabited PCPU.pcpu_inhabited Seg.kpage_inhabited Clock.channel_inhabited.
Import Trap.

Section ops.
Context {C : Type} `{!Containers C, !Quotas C}.
Abbreviation kernel := (Trap.state (C := C)).

Record state : Type := State {
  tr : kernel;                  (* segments, handlers, disk, threads, memory, interrupt controllers *)
  con : Console.state;
  clk : Clock.state;
  smp : Smp.state;              (* its memory and controllers are those of [tr] *)
  map : Mboot.state
}.
Definition s_tr v s := State v (con s) (clk s) (smp s) (map s).
Definition s_con v s := State (tr s) v (clk s) (smp s) (map s).
Definition s_clk v s := State (tr s) (con s) v (smp s) (map s).
Definition s_smp v s := State (tr s) (con s) (clk s) v (map s).
Definition s_map v s := State (tr s) (con s) (clk s) (smp s) v.

Definition tr_lens : lens state kernel := Lens tr s_tr.
Definition con_lens : lens state Console.state := Lens con s_con.
Definition clk_lens : lens state Clock.state := Lens clk s_clk.
Definition map_lens : lens state Mboot.state := Lens map s_map.

(** Processor discovery sees the kernel's memory and interrupt controllers. *)
Definition irqc (s : state) : Intr.Intr.state := Disk.irqc (get_disk (tr s)).
Definition pmem (s : state) : mem := MPT.pmem (get_vm (tr s)).
Definition get_smp (s : state) : Smp.state := Smp.s_mm (pmem s) (Smp.s_apics (irqc s) (smp s)).
Definition put_smp (p : Smp.state) (s : state) : state :=
  s_smp p (s_tr (put_irq (Smp.apics p) (put_vm (MPT.set_pmem (Smp.mm p) (get_vm (tr s))) (tr s))) s).
Definition smp_lens : lens state Smp.state := Lens get_smp put_smp.

Definition pcpus (s : state) : PCPU.state := Thread.pcpus (get_thr (tr s)).
Definition put_pcpus (p : PCPU.state) (s : state) : state :=
  s_tr (put_thr (Thread.set_pcpus p (get_thr (tr s))) (tr s)) s.
Definition pcpu_lens : lens state PCPU.state := Lens pcpus put_pcpus.

(** The parameters of a start: the stack of the boot processor, where the
    linker has put the tables, the entry points of idt.S, what cpuid answers,
    the code the other processors start with, and how long devices take. *)
Context (ks : kstack) (bsp_base proc_base idt_pd : Z) (handler : string -> Z).
Context (cpuid : Z -> Z -> Smp.regs) (ap_start ap_size : Z).
Context (fuel tx_time : nat) (junk : list Z).

Definition KERN_INFO (fmt : list Z) (ap : list Printfmt.arg) : K state unit :=
  zoom con_lens (Console.debug_info tx_time ks junk (fmt ++ [0]) ap).
Definition line (s : string) : list Z := text s ++ [10].

(** cr0 is computed and not written. *)
Definition CR4_OSFXSR : Z := 0x200.
Definition CR4_OSXMMEXCPT : Z := 0x400.
Definition enable_sse : K state unit :=
  zoom tr_lens (mm (modify (fun v => MPT.State (MPT.ct v) (MPT.pt_lk v) (MPT.PDirPool v) (MPT.pmem v)
    (MPT.cr0 v) (MPT.cr3 v) (Z.lor (Z.lor (MPT.cr4 v) CR4_OSFXSR) CR4_OSXMMEXCPT)))).

(** The vendor of a processor is a field of its architecture-dependent part. *)
Definition init_cpu : K state unit :=
  c ← zoom pcpu_lens (PCPU.get_pcpu_idx ks);
  zoom smp_lens (Smp.pcpu_init_cpu cpuid c) ;;
  v ← gets (fun s => Smp.cpu_vendor (Smp.info (smp s) !!! c));
  zoom pcpu_lens (PCPU.upd c (fun p => PCPU.Pcpu (PCPU.inited p) (PCPU.booted p) (PCPU.kstack_ptr p) v (PCPU.pcpu_idx p))).
Definition zero_arch : K state unit := zoom smp_lens (modify (Smp.s_info ∅)).
Definition mp_init : K state unit := zoom smp_lens (Smp.pcpu_mp_init ap_start ap_size) ;; mret tt.
Definition pcpu_init : K state unit :=
  PCPU.pcpu_init pcpu_lens zero_arch mp_init init_cpu ks (Seg.bsp_addr bsp_base (cpu_idx ks)).

Definition onboot : K state bool :=
  c ← zoom pcpu_lens (PCPU.get_pcpu_idx ks); zoom smp_lens (Smp.pcpu_onboot c).
Definition intr_init : K state unit :=
  b ← onboot;
  zoom tr_lens (irq (Intr.Intr.intr_init fuel handler (cpuid 1 0).2 b)).
Definition trap_init (cpu : Z) : K state unit :=
  n ← gets (fun s => Smp.ncpu (smp s));
  info ← gets (fun s => Smp.info (smp s));
  zoom tr_lens (Trap.trap_init n (fun i => Smp.lapicid (info !!! i)) cpu).
Definition ide_init : K state unit :=
  n ← gets (fun s => Smp.ncpu (smp s)); zoom tr_lens (disk (Disk.ide_init n)).

(** [mbi_addr] is printed; [mmap] is the memory map it points to. *)
Definition devinit (mbi_addr : Z) (mmap : list Mboot.mboot_mmap) : K state unit :=
  zoom tr_lens (seg (Seg.seg_init bsp_base idt_pd 0)) ;;
  enable_sse ;;
  zoom con_lens (Console.cons_init tx_time ks junk) ;;
  zoom con_lens Console.debug_init ;;
  KERN_INFO (line "[BSP KERN] cons initialized.") [] ;;
  KERN_INFO (line "[BSP KERN] devinit mbi_adr: %d") [Printfmt.Arg mbi_addr []] ;;
  pcpu_init ;;
  KERN_INFO (line "[BSP KERN] PCPU initialized") [] ;;
  zoom clk_lens (Clock.tsc_init fuel) ;;
  KERN_INFO (line "[BSP KERN] TSC initialized") [] ;;
  intr_init ;;
  KERN_INFO (line "[BSP KERN] INTR initialized") [] ;;
  trap_init 0 ;;
  zoom map_lens (Mboot.pmmap_init mmap) ;;
  zoom tr_lens (disk Bufcache.bufcache_init) ;;
  zoom tr_lens (sysop (Sysfile.fileop File.file_init)) ;;
  zoom tr_lens (sysop (Sysfile.inodeop Inode.inode_init)) ;;
  ide_init ;;
  KERN_INFO (line "[BSP KERN] IDE disk driver initialized") [].

(** devinit on another processor. *)
Definition devinit_ap : K state unit :=
  kassert ((1 <=? cpu_idx ks) && (cpu_idx ks <? 8)) "1 <= ks->cpu_idx && ks->cpu_idx < 8" ;;
  zoom tr_lens (seg (Seg.seg_init bsp_base idt_pd (cpu_idx ks))) ;;
  pcpu_init ;;
  KERN_INFO (line "[AP%d KERN] PCPU initialized") [Printfmt.Arg (cpu_idx ks) []] ;;
  intr_init ;;
  KERN_INFO (line "[AP%d KERN] INTR initialized.") [Printfmt.Arg (cpu_idx ks) []] ;;
  trap_init (cpu_idx ks) ;;
  zoom tr_lens (mm (MPT.paging_init_ap ks)).

(** Starting another processor: its start code at PCPU_AP_START_ADDR finds its
    stack, [f] and kern_init_ap in the three words below.  [rounds] is what the
    other processors do between one look at the flag and the next; the loop
    blocks when they end without the flag. *)
Fixpoint wait_booted (rounds : list (K state unit)) (cpu : Z) : K state unit :=
  bt ← zoom pcpu_lens (PCPU.get_pcpu_boot_info cpu);
  if bt : bool then mret tt
  else match rounds with [] => fail Block | o :: os => o ;; wait_booted os cpu end.
Definition pcpu_boot_ap (rounds : list (K state unit)) (kern_init_ap cpu f stack_addr : Z) : K state Z :=
  n ← gets (fun s => Smp.ncpu (smp s));
  kassert ((0 <? cpu) && (cpu <? n)) "cpu_idx > 0 && cpu_idx < pcpu_ncpu()" ;;
  i ← zoom pcpu_lens (PCPU.get_pcpu_inited_info cpu);
  kassert i "get_pcpu_inited_info(cpu_idx) == TRUE" ;;
  kassert (negb (f =? 0)) "f != NULL" ;;
  b ← onboot;
  if negb b then mret 1
  else
    bt ← zoom pcpu_lens (PCPU.get_pcpu_boot_info cpu);
    if bt : bool then mret 0
    else
      let boot := Smp.PCPU_AP_START_ADDR in
      zoom smp_lens (modify (fun q => Smp.s_mm (store32 (boot - 4) (u32 (stack_addr + 4096)) (Smp.mm q)) q)) ;;
      zoom smp_lens (modify (fun q => Smp.s_mm (store32 (boot - 8) f (Smp.mm q)) q)) ;;
      zoom smp_lens (modify (fun q => Smp.s_mm (store32 (boot - 12) kern_init_ap (Smp.mm q)) q)) ;;
      id ← zoom smp_lens (Smp.pcpu_cpu_lapicid cpu);
      zoom tr_lens (irq (Intr.lapic_startcpu id boot)) ;;
      wait_booted rounds cpu ;;
      bt ← zoom pcpu_lens (PCPU.get_pcpu_boot_info cpu);
      kassert bt "get_pcpu_boot_info(cpu_idx) == TRUE" ;;
      mret 0.

(** *** init.c on another processor; its static variables beside the state *)

Record statics : Type := Statics { cpu_booted : Z; all_ready : bool }.
Definition dev_lens : lens (state * statics) state := Lens fst (fun v s => (v, snd s)).

Definition kern_main_ap : K (state * statics) unit :=
  cpu ← zoom dev_lens (zoom pcpu_lens (PCPU.get_pcpu_idx ks));
  zoom dev_lens (zoom pcpu_lens (PCPU.set_pcpu_boot_info cpu true)) ;;
  r ← gets (fun s => all_ready (snd s));
  if negb r then fail Block
  else
    zoom dev_lens (KERN_INFO (line "[AP%d KERN] kernel_main_ap") [Printfmt.Arg cpu []]) ;;
    modify (fun s => (fst s, Statics (i32 (u32 (cpu_booted (snd s) + 1))) (all_ready (snd s)))).
Definition kern_init_ap (f : K (state * statics) unit) : K (state * statics) unit :=
  zoom dev_lens devinit_ap ;; f.

(** ** The processors *)

Lemma fields_wp (p : PCPU.state) (Q : unit -> PCPU.state -> Prop) :
  (forall p', PCPU.pcpu_ok p' -> PCPU.pcpu_inited p' = PCPU.pcpu_inited p -> Q tt p') ->
  wp (for_ 0 NUM_CPUS PCPU.pcpu_fields_init) Q p.
Proof.
  intros HQ. apply (wp_for (fun n p' => (forall i, 0 <= i < n -> PCPU.pcpu_idx (PCPU.pcpu p' !!! i) = i) /\
    PCPU.pcpu_inited p' = PCPU.pcpu_inited p)); [done | by split; [lia|] | | by intros p' [? ?]; apply HQ].
  intros n p' Hn [Hi Hp]. unfold PCPU.pcpu_fields_init. apply wp_bind.
  eapply wp_intro; [by apply PCPU.upd_run|]. eapply wp_intro; [by apply PCPU.upd_run|]. split; [|done].
  intros i Hin. cbn [PCPU.pcpu]. rewrite !PCPU.insert_idx. repeat case_decide; subst; try done. apply Hi. lia.
Qed.

Lemma identify_wp c (q : Smp.state) (Q : unit -> Smp.state -> Prop) :
  (forall v old, is_Some (Smp.l1_cache cpuid v old)) ->
  (forall new, Smp.lapicid new = Smp.lapicid (Smp.info q !!! c) -> Smp.bsp new = Smp.bsp (Smp.info q !!! c) ->
     Q tt (Smp.s_info (<[c := new]> (Smp.info q)) q)) ->
  wp (Smp.pcpu_init_cpu cpuid c) Q q.
Proof.
  intros Hc HQ. unfold Smp.pcpu_init_cpu, Smp.pcpu_identify. apply wp_bind, wp_gets.
  destruct (cpuid 0 0) as [[[a0 b0] c0] d0]. destruct (cpuid 1 0) as [[[a b] c1] d].
  match goal with |- context [Smp.l1_cache cpuid ?v ?o] => destruct (Hc v o) as [[size ln] ->] end.
  destruct (cpuid 2147483648 0) as [[[ax ?] ?] ?]. apply wp_modify. by apply HQ.
Qed.

(** What the kernel knows of the processors and the controllers after pcpu_init. *)
Record probed (ents : list Smp.ent) (s : state) (q : Smp.state) : Prop := {
  pr_ncpu : Smp.ncpu q = zlen (Smp.cpus ents);
  pr_inited : Smp.mp_inited q = true;
  pr_boot : forall id l, Smp.cpus ents = id :: l ->
    Smp.lapicid (Smp.info q !!! 0) = id /\ Smp.bsp (Smp.info q !!! 0) = true;
  pr_ios : Smp.ios_ok (Smp.ios ents) (Smp.apics q);
  pr_apics : Smp.same_apics (Intr.w_lapic (load32 (pmem s) (Smp.probe_madt (pmem s) + 36))
    (Intr.lregs (irqc s)) (Intr.ltrace (irqc s)) (irqc s)) (Smp.apics q);
  pr_mm : Smp.mm q = memmove Smp.PCPU_AP_START_ADDR ap_start ap_size (pmem s)
}.

(** The tables of the firmware. *)
Record firmware (ents : list Smp.ent) (m : mem) : Prop := {
  fw_madt : 0 < Smp.probe_madt m;
  fw_len : load32 m (Smp.probe_madt m + 4) = 44 + zlen (ents ≫= Smp.ent_bytes);
  fw_ents : Smp.holds m (Smp.probe_madt m + 44) (ents ≫= Smp.ent_bytes);
  fw_wf : Forall Smp.wf_ent ents;
  fw_end : Smp.probe_madt m + 44 + zlen (ents ≫= Smp.ent_bytes) + 256 < 2 ^ 32;
  fw_num : zlen ents + 2 < 2 ^ 31
}.

(** The structure of the boot processor. *)
Definition boot_cpu (p : PCPU.state) : Prop :=
  PCPU.pcpu_ok p /\ PCPU.pcpu_inited p = true /\
  PCPU.booted (PCPU.pcpu p !!! 0) = true /\ PCPU.kstack_ptr (PCPU.pcpu p !!! 0) = Seg.bsp_addr bsp_base 0.

Lemma boot_idx_wp p (Q : Z -> PCPU.state -> Prop) : cpu_idx ks = 0 -> PCPU.pcpu_ok p -> Q 0 p ->
  wp (PCPU.get_pcpu_idx ks) Q p.
Proof.
  intros Hc Hp HQ. unfold PCPU.get_pcpu_idx, PCPU.read. rewrite Hc. apply wp_bind, wp_bounds; [done|].
  apply wp_gets. by rewrite Hp.
Qed.

(** The state with other processor structures. *)
Definition with_cpus (p : PCPU.state) (q : Smp.state) (s : state) : state := put_pcpus p (put_smp q s).

Lemma pcpus_with p q s : lget pcpu_lens (with_cpus p q s) = p.
Proof. done. Qed.
Lemma smp_with p q s : lget smp_lens (with_cpus p q s) = q.
Proof. by destruct q. Qed.
Lemma put_pcpus_with p' p q s : lput pcpu_lens p' (with_cpus p q s) = with_cpus p' q s.
Proof. done. Qed.
Lemma put_smp_with q' p q s : lput smp_lens q' (with_cpus p q s) = with_cpus p q' s.
Proof. done. Qed.

Lemma wp_pcpu {A} (m : K PCPU.state A) p q s (Q : A -> state -> Prop) :
  wp m (fun a p' => Q a (with_cpus p' q s)) p -> wp (zoom pcpu_lens m) Q (with_cpus p q s).
Proof. intros H. by apply wp_zoom. Qed.
Lemma wp_smp {A} (m : K Smp.state A) p q s (Q : A -> state -> Prop) :
  wp m (fun a q' => Q a (with_cpus p q' s)) q -> wp (zoom smp_lens m) Q (with_cpus p q s).
Proof. intros H. apply wp_zoom. by rewrite smp_with. Qed.

Lemma pcpu_init_wp ents s (Q : unit -> state -> Prop) :
  cpu_idx ks = 0 -> PCPU.pcpu_inited (pcpus s) = false -> Smp.mp_inited (smp s) = false ->
  firmware ents (pmem s) -> Intr.ioapic_num (irqc s) = 0 -> (forall v old, is_Some (Smp.l1_cache cpuid v old)) ->
  (forall p q, boot_cpu p -> probed ents s q -> Q tt (put_pcpus p (put_smp q s))) ->
  wp pcpu_init Q s.
Proof.
  intros Hc Hi Hmp [F1 F2 F3 F4 F5 F6] Hio Hl1 HQ. unfold pcpu_init, PCPU.pcpu_init. rewrite Hc.
  apply wp_bind, wp_zoom, wp_gets. cbn [lget lput pcpu_lens]. rewrite Hi. cbn [Z.eqb andb].
  apply wp_bind, wp_when; [intros _|done]. apply wp_bind, wp_bind, wp_zoom, wp_modify. apply wp_zoom, wp_modify.
  match goal with |- wp _ _ ?x => change x with (with_cpus (PCPU.State ∅ (PCPU.pcpu_inited (pcpus s))) (Smp.s_info ∅ (get_smp s)) s) end.
  apply wp_bind. unfold mp_init. apply wp_bind, wp_smp.
  apply (Smp.pcpu_mp_init_wp ap_start ap_size ents);
    [exact Hmp | exact F1 | exact F2 | exact F3 | exact F4 | exact F5 | exact F6 | exact Hio |].
  intros q [D1 D2 D3 D4 D5 D6 D7]. apply wp_ret.
  apply wp_bind, wp_pcpu, fields_wp. intros p Hp Hpi. apply wp_pcpu, wp_modify.
  do 3 (apply wp_bind, wp_pcpu; eapply wp_intro; [by apply PCPU.upd_run|]). cbn [PCPU.pcpu PCPU.pcpu_inited].
  rewrite !lookup_total_insert_eq, !insert_insert_eq. cbn [PCPU.inited PCPU.booted PCPU.kstack_ptr PCPU.vendor PCPU.pcpu_idx].
  unfold init_cpu. apply wp_bind, wp_pcpu, boot_idx_wp; [done | |].
  { intros i Hi'. cbn [PCPU.pcpu]. rewrite PCPU.insert_idx. case_decide; [by subst | by apply Hp]. }
  apply wp_bind, wp_smp, identify_wp; [done|]. intros new Hid Hbsp. apply wp_bind, wp_gets.
  apply wp_pcpu. eapply wp_intro; [by apply PCPU.upd_run|]. cbn [PCPU.pcpu PCPU.pcpu_inited].
  rewrite lookup_total_insert_eq, insert_insert_eq. apply HQ.
  - split_and!; cbn [PCPU.pcpu PCPU.pcpu_inited]; rewrite ?lookup_total_insert_eq; try done.
    intros i Hi'. cbn [PCPU.pcpu]. rewrite PCPU.insert_idx. case_decide; [by subst | by apply Hp].
  - split; try done. intros id l El. cbn [Smp.info Smp.s_info]. rewrite lookup_total_insert_eq, Hid, Hbsp, (D4 0), El. done.
Qed.

(** ** The disk *)

(** bufcache_init strings the ten buffers together, most recent first. *)
Lemma empty_cache_run {T} lk lk' q h d ic (t : T) :
  Bufcache.bufcache_init (Disk.State lk ∅ lk' q h d ic t) =
  Ok tt (Disk.State Disk.unlocked_lk Bufcache.init_bufs lk' q h d ic t).
Proof. vm_compute. reflexivity. Qed.

Lemma picenable_wp n (ic : Intr.Intr.state) (Q : unit -> Intr.Intr.state -> Prop) :
  (forall p1 p2 mask, Q tt (Intr.w_disk mask (Intr.disk_ioapic ic) (Intr.w_pics p1 p2 ic))) -> wp (Intr.picenable n) Q ic.
Proof.
  intros HQ. unfold Intr.picenable, Intr.picsetmask. apply wp_bind, wp_gets, wp_bind, wp_modify, wp_bind, wp_modify, wp_modify.
  exact (HQ _ _ _).
Qed.

Lemma ioapicenable_null_wp n c (ic : Intr.Intr.state) (Q : unit -> Intr.Intr.state -> Prop) :
  Intr.disk_ioapic ic = 0 -> Intr.mmio ic !! 0 = None ->
  (forall low, Q tt (Intr.w_mmio (Intr.mmio ic) low ic)) -> wp (Intr.ioapicenable n c) Q ic.
Proof.
  intros Hd Hm HQ.
  assert (W : forall reg data low (P : unit -> Intr.Intr.state -> Prop), (forall low', P tt (Intr.w_mmio (Intr.mmio ic) low' ic)) ->
    wp (Intr.ioapicwrite reg data) P (Intr.w_mmio (Intr.mmio ic) low ic)).
  { intros reg data low P HP. unfold Intr.ioapicwrite. apply wp_bind, wp_gets. cbn [Intr.disk_ioapic Intr.w_mmio].
    rewrite Hd. apply wp_modify. cbn [Intr.mmio Intr.w_mmio]. rewrite Hm. apply HP. }
  assert (E : ic = Intr.w_mmio (Intr.mmio ic) (Intr.lowmem ic) ic) by (by destruct ic).
  unfold Intr.ioapicenable. rewrite E at 1. apply wp_bind, W. intros low. by apply W.
Qed.

(** ide_init finds both drives, and enables the line of the disk a second time:
    in the old controllers, which are off, and through a pointer to the I/O APIC
    that nobody has set. *)
Lemma ide_init_wp {T} n lk b lk' q h d ic (t : T) (Q : unit -> Disk.state T -> Prop) :
  Disk.ready d -> Intr.disk_ioapic ic = 0 -> Intr.mmio ic !! 0 = None ->
  (forall p1 p2 mask low, Q tt (Disk.State lk b Disk.unlocked_lk q 1
     (Disk.drive_outb 0x1f6 0xe0 (Disk.drive_outb 0x1f6 0xf0 d))
     (Intr.w_mmio (Intr.mmio ic) low (Intr.w_disk mask 0 (Intr.w_pics p1 p2 ic))) t)) ->
  wp (Disk.ide_init n) Q (Disk.State lk b lk' q h d ic t).
Proof.
  intros Hr Hd Hm HQ. unfold Disk.ide_init. apply wp_bind, wp_zoom. eapply wp_intro; [apply spinlock_init_run|].
  apply wp_bind, wp_zoom, picenable_wp. intros p1 p2 mask. cbn [lget lput Disk.irqc_lens Disk.irqc].
  apply wp_bind, wp_zoom, ioapicenable_null_wp; [exact Hd | exact Hm |]. intros low.
  apply wp_bind. eapply wp_intro; [by apply Disk.ide_wait_ready|].
  apply wp_bind, wp_modify, wp_bind.
  match goal with |- wp _ _ ?x => change x with (Disk.State lk b Disk.unlocked_lk q h (Disk.drive_outb 0x1f6 0xf0 d)
    (Intr.w_mmio (Intr.mmio ic) low (Intr.w_disk mask (Intr.disk_ioapic ic) (Intr.w_pics p1 p2 ic))) t) end.
  apply wp_loop_S. change (negb (0 <? 1000)) with false. cbn iota. apply wp_bind, wp_gets. cbn [Disk.hw].
  change (Disk.status (Disk.drive_outb 0x1f6 0xf0 d)) with (Disk.status d). rewrite Hr.
  apply wp_bind, wp_modify, wp_ret, wp_modify. rewrite Hd. exact (HQ _ _ _ _).
Qed.

(** ** The machine and what devinit makes of it *)

(** The buffers, the request queue and the drive: nobody touches them before
    bufcache_init. *)
Definition storage (s : state) : gmap Z Disk.buf * Z * Disk.drive :=
  let d := get_disk (tr s) in (Disk.bufs d, Disk.idequeue d, Disk.hw d).

(** The I/O APICs of the table are there, at different addresses, and the first
    one takes the sixteen old lines. *)
Record ioapics_there (l : list (Z * Z * Z)) (ic : Intr.Intr.state) : Prop := {
  it_num : 0 < zlen l <= Intr.MAX_IOAPIC;
  it_dup : NoDup ((fun x => x.1.1) <$> l);
  it_some : Forall (fun x => is_Some (Intr.mmio ic !! x.1.1)) l;
  it_null : Intr.mmio ic !! 0 = None;
  it_first : forall a i g, head l = Some (a, i, g) -> g = 0 /\
    exists d, Intr.mmio ic !! a = Some d /\ 16 <= Apic.entries d
}.

(** A machine whose statics are zero and whose devices answer: [ents] is its
    ACPI table, [tas], [tlast] and [las], [llast] are the calibrations of the
    two counters. *)
Record machine (ents : list Smp.ent) (tas : list Clock.attempt) (tlast : Clock.attempt)
    (las : list Clock.attempt) (llast : Clock.attempt) (mmap : list Mboot.mboot_mmap) (s : state) : Prop := {
  ma_stack : magic ks = KSTACK_MAGIC /\ cpu_idx ks = 0;
  ma_junk : zlen junk = Printf.CONSOLE_BUFFER_SIZE;
  ma_arrays : Seg.arrays_ok bsp_base proc_base /\ bsp_base + NUM_CPUS * Seg.KSTACK_SIZE <= 2 ^ 32;
  ma_con : Console.crt_pos (Console.terminal (con s)) = 0 /\ lock (Console.serial_lk (con s)) = 0;
  ma_cpus : PCPU.pcpu_inited (pcpus s) = false /\ Smp.mp_inited (smp s) = false;
  ma_table : firmware ents (pmem s) /\ 0 < zlen (Smp.cpus ents);
  ma_lapic : load32 (pmem s) (Smp.probe_madt (pmem s) + 36) <> 0;
  ma_ioapics : ioapics_there (Smp.ios ents) (irqc s);
  ma_cpuid : (forall v old, is_Some (Smp.l1_cache cpuid v old)) /\ Z.testbit (cpuid 1 0).2 9 = true;
  ma_tsc : Clock.calibrations fuel tas tlast /\
    Clock.in61 (clk s) = concat (Clock.a_in61 <$> tas ++ [tlast]) /\ Clock.tscs (clk s) = concat (Clock.a_reads <$> tas ++ [tlast]);
  ma_timer : Apic.lapic_attempts fuel las llast /\
    Intr.in61 (irqc s) = concat (Clock.a_in61 <$> las ++ [llast]) /\ Intr.tccr (irqc s) = concat (Clock.a_reads <$> las ++ [llast]);
  ma_zero : Intr.pic_inited (irqc s) = false /\ Intr.ioapic_num (irqc s) = 0 /\ Intr.disk_ioapic (irqc s) = 0 /\
    inited (tr s) = false;
  ma_map : map s = Mboot.boot_state /\ Forall Mboot.mmap_ok mmap /\ (length (Mboot.kept mmap) <= 128)%nat;
  ma_disk : storage s = (∅, Disk.NULL, Disk.hw (get_disk (tr s))) /\ Disk.ready (Disk.hw (get_disk (tr s)))
}.

(** Segments, console and processors. *)
Record phase1 (ents : list Smp.ent) (s s1 : state) : Prop := {
  p1_segs : Seg.seg_init bsp_base idt_pd 0 (segs (tr s)) = Ok tt (segs (tr s1));
  p1_con : ConsInit.con_ok (con s1) /\ Console.con (con s1) = Console.Cons (replicate 512 0) 0 0;
  p1_cpus : boot_cpu (pcpus s1);
  p1_smp : probed ents s (smp s1) /\ get_smp s1 = smp s1;
  p1_rest : clk s1 = clk s /\ map s1 = map s /\ inited (tr s1) = inited (tr s) /\ storage s1 = storage s
}.

Lemma info_wp str s (Q : unit -> state -> Prop) : magic ks = KSTACK_MAGIC -> zlen junk = Printf.CONSOLE_BUFFER_SIZE ->
  forallb (fun c => (0 <? c) && (c <? 128) && negb (c =? 37)) (text str) = true -> zlen (text str) < 100 ->
  ConsInit.con_ok (con s) ->
  (forall c, ConsInit.con_ok c -> ConsInit.same_input (con s) c -> Q tt (s_con c s)) ->
  wp (KERN_INFO (line str) []) Q s.
Proof. intros Hm Hj Ht Hl Hc HQ. by apply wp_zoom, ConsInit.info_text_wp. Qed.

Lemma phase1_wp ents tas tlast las llast mmap mbi (k : K state unit) s (Q : unit -> state -> Prop) :
  machine ents tas tlast las llast mmap s ->
  (forall s1, phase1 ents s s1 -> wp k Q s1) ->
  wp (zoom tr_lens (seg (Seg.seg_init bsp_base idt_pd 0)) ;;
      enable_sse ;;
      zoom con_lens (Console.cons_init tx_time ks junk) ;;
      zoom con_lens Console.debug_init ;;
      KERN_INFO (line "[BSP KERN] cons initialized.") [] ;;
      KERN_INFO (line "[BSP KERN] devinit mbi_adr: %d") [Printfmt.Arg mbi []] ;;
      pcpu_init ;; k) Q s.
Proof.
  intros [[Hm Hc] Hj [Ha Hb] [Hp Hlk] [Hi Hmp] [Hfw _] _ _ [Hl1 _] _ _ (_ & Hio & _ & _) _ _] HQ.
  destruct (Seg.seg_init_correct bsp_base proc_base idt_pd 0 (segs (tr s)) Ha Hb) as (g & Eg & _); [done|].
  apply wp_bind, wp_zoom, wp_zoom. eapply wp_intro; [exact Eg|].
  apply wp_bind, wp_zoom, wp_mm, wp_modify.
  match goal with |- wp _ _ ?x => set (s0 := x) end.
  assert (E0 : segs (tr s0) = g /\ con s0 = con s /\ clk s0 = clk s /\ map s0 = map s /\ smp s0 = smp s /\ pcpus s0 = pcpus s /\
    irqc s0 = irqc s /\ pmem s0 = pmem s /\ inited (tr s0) = inited (tr s) /\ storage s0 = storage s) by done.
  clearbody s0. destruct E0 as (E1 & E2 & E3 & E4 & E5 & E6 & E7 & E8 & E9 & E10).
  apply wp_bind, wp_zoom, ConsInit.cons_init_wp; [done | done | by cbn; rewrite E2 | by cbn; rewrite E2 |].
  intros c0 Hc0 Hring _. apply wp_bind, wp_zoom, wp_bind, wp_zoom. eapply wp_intro; [apply spinlock_init_run|].
  apply wp_zoom. eapply wp_intro; [apply spinlock_init_run|].
  match goal with |- wp _ _ ?x => set (s1 := x) end.
  assert (Hok : ConsInit.con_ok (con s1)) by done.
  assert (Hr1 : Console.con (con s1) = Console.Cons (replicate 512 0) 0 0) by exact Hring.
  apply wp_bind, info_wp; try done. intros c1 H1 [R1 _].
  apply wp_bind, wp_zoom. change (line "[BSP KERN] devinit mbi_adr: %d") with (text "[BSP KERN] devinit mbi_adr: " ++ text "%d" ++ [10]).
  apply ConsInit.info_number_wp; try done. intros c2 H2 [R2 _].
  apply wp_bind, (pcpu_init_wp ents); try done.
  - change (pcpus _) with (pcpus s0). by rewrite E6.
  - change (smp _) with (smp s0). by rewrite E5.
  - change (pmem _) with (pmem s0). by rewrite E8.
  - change (irqc _) with (irqc s0). by rewrite E7.
  - intros p q Hcpu [P1 P2 P3 P4 P5 P6]. apply HQ. split; try done.
    + by rewrite Eg, <- E1.
    + split; [done|]. by rewrite <- Hr1, <- R1.
    + split; [|by destruct q]. change (pmem _) with (pmem s0) in P5, P6. change (irqc _) with (irqc s0) in P5. rewrite E7, E8 in *. done.
Qed.

(** The registered I/O APICs are those that are there. *)
Lemma there_ok l ic st : ioapics_there l ic -> Smp.ios_ok l st -> Intr.mmio st = Intr.mmio ic ->
  Intr.ioapics_ok st /\ 0 < Intr.ioapic_num st /\ (forall i, 0 <= i < Intr.ioapic_num st -> Intr.ioapics st !!! i <> 0) /\
  Intr.gsi st !!! 0 = 0 /\ exists d, Intr.mmio st !! (Intr.ioapics st !!! 0) = Some d /\ 16 <= Apic.entries d.
Proof.
  intros [Hn Hdup Hsome Hnull Hfst] [En Hio] Em. rewrite Z.min_r in En by lia.
  assert (Hi : forall i, 0 <= i < Intr.ioapic_num st -> exists x, l !! Z.to_nat i = Some x /\ Intr.ioapics st !!! i = x.1.1 /\
    Intr.gsi st !!! i = x.2).
  { intros i Hi. destruct (lookup_lt_is_Some_2 l (Z.to_nat i)) as [x Hx]; [unfold zlen in *; lia|]. exists x. split; [done|].
    pose proof (Hio _ _ Hx ltac:(lia)) as E. rewrite Z2Nat.id in E by lia. by subst x. }
  assert (Hdev : forall i, 0 <= i < Intr.ioapic_num st -> is_Some (Intr.mmio st !! (Intr.ioapics st !!! i))).
  { intros i (x & Hx & -> & _)%Hi. rewrite Em. eapply Forall_lookup in Hsome; [|exact Hx]. done. }
  split_and!; try lia.
  - split; [lia|]. split; [exact Hdev|]. intros i j Hi' Hj' E. destruct (Hi i Hi') as (x & Hx & Ex & _). destruct (Hi j Hj') as (y & Hy & Ey & _).
    rewrite Ex, Ey in E. apply Z2Nat.inj; try lia. eapply (NoDup_lookup _ _ _ (x.1.1) Hdup).
    + by rewrite list_lookup_fmap, Hx.
    + by rewrite list_lookup_fmap, Hy, E.
  - intros i Hi' E. destruct (Hdev i Hi') as [d Hd]. by rewrite E, Em, Hnull in Hd.
  - destruct (Hi 0) as ([[a ii] g] & Hx & _ & ->); [lia|]. destruct l as [|y l]; [done|]. injection Hx as ->.
    by destruct (Hfst a ii g eq_refl).
  - destruct (Hi 0) as ([[a ii] g] & Hx & -> & _); [lia|]. destruct l as [|y l]; [done|]. injection Hx as ->.
    rewrite Em. by destruct (Hfst a ii g eq_refl).
Qed.

(** Reading changes nothing. *)
Lemma put_pcpus_id s : put_pcpus (pcpus s) s = s.
Proof.
  destruct s as [[[[[[[] ?] ? ?] ? ?] ? ?]] ? ? ? ?]. unfold put_pcpus, pcpus. cbn. by destruct sch.
Qed.
Lemma put_smp_get s : put_smp (get_smp s) s = s_smp (get_smp s) s.
Proof.
  destruct s as [[[[[[[] ?] ? ?] ? ?] ? ?]] ? ? ? ?]. unfold put_smp, get_smp, pmem, irqc. cbn.
  destruct sch as [[]]. done.
Qed.
Lemma put_smp_id s : get_smp s = smp s -> put_smp (smp s) s = s.
Proof. intros E. rewrite <- E, put_smp_get, E. by destruct s. Qed.

Lemma onboot_run s : cpu_idx ks = 0 -> PCPU.pcpu_ok (pcpus s) -> get_smp s = smp s ->
  Smp.mp_inited (smp s) = true -> Smp.bsp (Smp.info (smp s) !!! 0) = true -> onboot s = Ok true s.
Proof.
  intros Hc Hp Hs Hi Hb. apply wp_reads. intros Q HQ. unfold onboot. apply wp_bind, wp_zoom, boot_idx_wp; [done | done |].
  change (lput pcpu_lens _ s) with (put_pcpus (pcpus s) s). rewrite put_pcpus_id. apply wp_zoom.
  change (lget smp_lens s) with (get_smp s). rewrite Hs. unfold Smp.pcpu_onboot. apply wp_bind, wp_gets. rewrite Hi.
  apply wp_gets. rewrite Hb. change (lput smp_lens _ s) with (put_smp (smp s) s). by rewrite put_smp_id.
Qed.

(** The lines in use. *)
Definition lines : list Z := [Intr.IRQ_IDE1; Intr.IRQ_SERIAL13; Intr.IRQ_KBD; Intr.IRQ_TIMER].
Definition boot_apic (s : state) : Z := Smp.lapicid (Smp.info (smp s) !!! 0).

(** The interrupt controllers as the running kernel has them. *)
Record irq_ready (llast : Clock.attempt) (dest : Z) (ic : Intr.Intr.state) : Prop := {
  ir_idt : Intr.user_gates (Intr.idt ic) /\ Intr.idt_loaded ic = true;
  ir_lapic : Apic.lapic_ready (Apic.lapic_ticks llast) (Intr.lregs ic);
  ir_lines : Apic.routes dest lines ic
}.

(** Clocks, interrupts and traps. *)
Record phase2 (tlast llast : Clock.attempt) (s1 s2 : state) : Prop := {
  p2_con : ConsInit.con_ok (con s2) /\ Console.con (con s2) = Console.con (con s1);
  p2_clk : Clock.tsc_per_ms (clk s2) = default 1000000 (Clock.cal_rate tlast) /\
    Clock.pit (clk s2) !!! 0 = Clock.Channel 2 None Clock.LATCH;
  p2_irq : irq_ready llast (boot_apic s1) (irqc s2) /\ Intr.disk_ioapic (irqc s2) = Intr.disk_ioapic (irqc s1);
  p2_handlers : handlers_set (TRAP_HANDLER (tr s2));
  p2_rest : pcpus s2 = pcpus s1 /\ smp s2 = smp s1 /\ map s2 = map s1 /\ segs (tr s2) = segs (tr s1) /\
    storage s2 = storage s1
}.

Lemma phase2_wp ents tas tlast las llast mmap (k : K state unit) s s1 (Q : unit -> state -> Prop) :
  machine ents tas tlast las llast mmap s -> phase1 ents s s1 ->
  (forall s2, phase2 tlast llast s1 s2 -> wp k Q s2) ->
  wp (KERN_INFO (line "[BSP KERN] PCPU initialized") [] ;;
      zoom clk_lens (Clock.tsc_init fuel) ;;
      KERN_INFO (line "[BSP KERN] TSC initialized") [] ;;
      intr_init ;;
      KERN_INFO (line "[BSP KERN] INTR initialized") [] ;;
      trap_init 0 ;; k) Q s1.
Proof.
  intros [[Hm Hc] Hj _ _ _ [_ Hcpu] Hla Hthere [_ Hedx] (Hcal & Ht1 & Ht2) (Hat & Hl1 & Hl2) (Z1 & _ & Z2 & Z3) _ _]
    [_ [P1 _] P2 [[Q1 Q2 Q3 Q4 (a & i & g & n & Q5) _] P3] (P4 & _ & P6 & _)] HQ.
  destruct (Smp.cpus ents) as [|id cl] eqn:Ecpu; [done|]. destruct (Q3 id cl eq_refl) as [_ Hbsp].
  assert (Eirq : irqc s1 = Smp.apics (smp s1)) by (by rewrite <- P3).
  destruct (there_ok _ (irqc s) (irqc s1) Hthere) as (Hok & Hnum & Hne & Hg & d & Hd & He);
    [by rewrite Eirq | by rewrite Eirq, Q5 |].
  apply wp_bind, info_wp; try done. intros c1 C1 (R1 & _).
  apply wp_bind, wp_zoom. eapply (Clock.tsc_init_wp fuel tas tlast [] []); [done | | |].
  { change (lget clk_lens _) with (clk s1). by rewrite P4, app_nil_r. }
  { change (lget clk_lens _) with (clk s1). by rewrite P4, app_nil_r. }
  intros ck K1 _ _ K2. apply wp_bind, info_wp; try done. intros c2 C2 (R2 & _).
  match goal with |- wp _ _ ?x => set (s2 := x) end.
  apply wp_bind. unfold intr_init. apply wp_bind. eapply wp_intro; [apply (onboot_run s2); try done; apply P2|].
  apply wp_zoom, wp_disk, wp_zoom.
  eapply (Apic.intr_init_wp fuel handler _ las llast [] []); [done | | | exact Hok | exact Hne | exact Hat | | |].
  { change (lget _ _) with (irqc s1). by rewrite Eirq, Q5. }
  { change (lget _ _) with (irqc s1). by rewrite Eirq, Q5. }
  { change (lget _ _) with (irqc s1). by rewrite Eirq, Q5, app_nil_r. }
  { change (lget _ _) with (irqc s1). by rewrite Eirq, Q5, app_nil_r. }
  intros ic Hic. change (lget _ _) with (irqc s1) in Hic.
  assert (Hro : Apic.routes (boot_apic s1) [] ic).
  { eapply Apic.ready_routes; [exact Hic | exact Hok | exact Hnum | exact Hg | | exact Hd | exact He].
    rewrite Eirq, Q5. apply Hthere. }
  destruct Hic as [_ I2 _ [_ I4] _ _ I7].
  apply wp_bind, info_wp; try done. intros c3 C3 (R3 & _).
  apply wp_bind. unfold trap_init. apply wp_bind, wp_gets, wp_bind, wp_gets, wp_zoom.
  apply trap_init_apic_wp; [exact Hro | change (Smp.ncpu _) with (Smp.ncpu (smp s1)); by rewrite Q1 | by rewrite <- Z3 |].
  intros h x Hh Hx Ex. change (Disk.irqc _) with ic in Ex. apply HQ. split.
  - split; [done|]. exact (eq_trans R3 (eq_trans R2 R1)).
  - done.
  - match goal with |- irq_ready _ _ ?y /\ _ => change y with x end. split; [split|].
    + by rewrite (f_equal Intr.idt Ex : Intr.idt x = Intr.idt ic), (f_equal Intr.idt_loaded Ex : Intr.idt_loaded x = _).
    + by rewrite (f_equal Intr.lregs Ex : Intr.lregs x = Intr.lregs ic).
    + exact Hx.
    + by rewrite (f_equal Intr.disk_ioapic Ex : Intr.disk_ioapic x = Intr.disk_ioapic ic).
  - exact Hh.
  - done.
Qed.

(** The kernel behind devinit. *)
Record booted (ents : list Smp.ent) (tlast llast : Clock.attempt) (mmap : list Mboot.mboot_mmap) (s s' : state) : Prop := {
  bo_segs : Seg.seg_init bsp_base idt_pd 0 (segs (tr s)) = Ok tt (segs (tr s'));
  bo_con : ConsInit.con_ok (con s') /\ Console.con (con s') = Console.Cons (replicate 512 0) 0 0;
  bo_cpus : boot_cpu (pcpus s') /\ probed ents s (smp s');
  bo_clock : Clock.tsc_per_ms (clk s') = default 1000000 (Clock.cal_rate tlast) /\
    Clock.pit (clk s') !!! 0 = Clock.Channel 2 None Clock.LATCH;
  bo_irq : irq_ready llast (boot_apic s') (irqc s');
  bo_handlers : handlers_set (TRAP_HANDLER (tr s'));
  bo_map : Mboot.map_ok mmap (map s');
  bo_disk : exists ic t, get_disk (tr s') = Disk.State Disk.unlocked_lk Bufcache.init_bufs Disk.unlocked_lk Disk.NULL 1
    (Disk.drive_outb 0x1f6 0xe0 (Disk.drive_outb 0x1f6 0xf0 (Disk.hw (get_disk (tr s))))) ic t;
  bo_locks : File.ftable_lk (Sysfile.fs (sys (tr s'))) = Disk.unlocked_lk /\
    Inode.icache_lk (File.ino (Sysfile.fs (sys (tr s')))) = Disk.unlocked_lk
}.

Lemma devinit_wp ents tas tlast las llast mmap mbi s (Q : unit -> state -> Prop) :
  machine ents tas tlast las llast mmap s ->
  (forall s', booted ents tlast llast mmap s s' -> Q tt s') ->
  wp (devinit mbi mmap) Q s.
Proof.
  intros HM HQ. unfold devinit. eapply phase1_wp; [exact HM|]. intros s1 H1.
  eapply phase2_wp; [exact HM | exact H1|]. intros s2 H2.
  destruct HM as [[Hm _] Hj _ _ _ _ _ _ _ _ _ (_ & _ & Hz & _) (Hmap & Hmm & Hlen) [Hst Hrd]].
  destruct H1 as [A1 [A2 A2'] A3 [A4 A4'] (A5 & A6 & A7 & A8)].
  destruct H2 as [[B1 B1'] B2 [B3 B3'] B4 (B5 & B6 & B7 & B8 & B9)].
  apply wp_bind, wp_zoom. change (lget map_lens s2) with (map s2). rewrite B7, A6, Hmap.
  eapply wp_mono; [by apply Mboot.pmmap_init_wp|]. intros [] mp Hmp.
  assert (Hd0 : Intr.disk_ioapic (irqc s2) = 0).
  { rewrite B3'. change (irqc s1) with (Smp.apics (get_smp s1)). rewrite A4'. destruct A4 as [_ _ _ _ (? & ? & ? & ? & ->) _]. exact Hz. }
  assert (Es : storage s2 = (∅, Disk.NULL, Disk.hw (get_disk (tr s)))) by (by rewrite B9, A8, Hst).
  apply wp_bind, wp_zoom, wp_disk. change (get_disk _) with (get_disk (tr s2)).
  unfold storage in Es. unfold irqc in Hd0, B3. destruct (get_disk (tr s2)) as [lk bf lk' q h d ic t] eqn:Ed.
  assert (Ep : pcpus s2 = Thread.pcpus t) by (unfold pcpus, get_thr; by rewrite Ed).
  cbn in Es, Hd0, B3. injection Es as -> -> ->. eapply wp_intro; [apply empty_cache_run|].
  apply wp_bind, wp_zoom, wp_zoom, wp_zoom, wp_zoom. eapply wp_intro; [apply spinlock_init_run|].
  apply wp_bind, wp_zoom, wp_zoom, wp_zoom, wp_zoom, wp_zoom. eapply wp_intro; [apply spinlock_init_run|].
  match goal with |- wp _ _ ?x => set (s3 := x) end.
  apply wp_bind. unfold ide_init. apply wp_bind, wp_gets, wp_zoom, wp_disk.
  match goal with |- wp _ _ ?x => change x with
    (Disk.State Disk.unlocked_lk Bufcache.init_bufs lk' Disk.NULL h (Disk.hw (get_disk (tr s))) ic t) end.
  destruct B3 as [I1 I2 I3]. apply ide_init_wp; [done | done | apply I3 |]. intros p1 p2 mask low.
  apply info_wp; try done. intros c C1 (C2 & _). apply HQ. split.
  - by rewrite A1, <- B8.
  - split; [done|]. by rewrite <- A2', <- B1'.
  - split; [by rewrite <- B5, Ep in A3 | by rewrite <- B6 in A4].
  - done.
  - change (boot_apic _) with (boot_apic s2). unfold boot_apic in *. rewrite B6.
    by split; [exact I1 | exact I2 | destruct I3].
  - done.
  - done.
  - eexists _, _. reflexivity.
  - done.
Qed.

(** (C8) devinit brings a machine up: from zeroed statics, with the firmware's table,
    an APIC, counters that can be measured and a disk that is ready, it returns
    (no assertion fails, no device is waited for without end), and leaves every
    component initialised: the console prints, the structure of the boot
    processor is filled, the clocks are calibrated, the descriptor table is
    loaded, exactly the lines of timer, keyboard, serial line and disk are
    enabled and have handlers, the memory map describes the memory the boot
    loader reported, the buffer cache is an empty ring and the locks are free. *)
Theorem devinit_correct ents tas tlast las llast mmap mbi s :
  machine ents tas tlast las llast mmap s ->
  exists s', devinit mbi mmap s = Ok tt s' /\ booted ents tlast llast mmap s s'.
Proof.
  intros HM. cut (wp (devinit mbi mmap) (fun _ s' => booted ents tlast llast mmap s s') s).
  { intros ([] & s' & E & H)%wp_run. eauto. }
  by eapply devinit_wp.
Qed.

(** ** Starting another processor *)

(** The messages of the start: INIT, its end, and two start messages with the
    page of the start code, all to the processor [id]. *)
Definition start_ipis (id : Z) : list (Z * Z) :=
  [(Intr.LAPIC_ICRHI, u32 (Z.shiftl id 24)); (Intr.LAPIC_ICRLO, 0xC500); (Intr.LAPIC_ICRLO, 0x8500);
   (Intr.LAPIC_ICRHI, u32 (Z.shiftl id 24)); (Intr.LAPIC_ICRLO, 0x608);
   (Intr.LAPIC_ICRHI, u32 (Z.shiftl id 24)); (Intr.LAPIC_ICRLO, 0x608)].

Lemma startcpu_run id ic : Intr.lapic ic <> 0 ->
  exists r low, Intr.lapic_startcpu id Smp.PCPU_AP_START_ADDR ic =
    Ok tt (Intr.w_mmio (Intr.mmio ic) low (Intr.w_lapic (Intr.lapic ic) r (Intr.ltrace ic ++ start_ipis id) ic)).
Proof.
  intros Hl. unfold Intr.lapic_startcpu. krun.
  match goal with |- exists r low, _ ?x = _ => set (ic1 := x) end.
  assert (E1 : ic1 = Apic.put (Intr.lregs ic) (Intr.ltrace ic) (Intr.in61 ic) (Intr.tccr ic) ic1) by (by destruct ic).
  rewrite E1. assert (Hl1 : Intr.lapic ic1 <> 0) by done.
  do 3 erewrite bind_Ok by (by apply Apic.lapic_write_put).
  change (for_ 0 2) with (@for_range Intr.Intr.state 2 0). cbn [for_range].
  erewrite bind_Ok; last first.
  { erewrite bind_Ok by (by apply Apic.lapic_write_put). by apply Apic.lapic_write_put. }
  erewrite bind_Ok; last first.
  { erewrite bind_Ok by (by apply Apic.lapic_write_put). by apply Apic.lapic_write_put. }
  rewrite <- !app_assoc. eexists _, _. reflexivity.
Qed.

(** The mailbox and the messages of a started processor. *)
Record started (kern_init_ap cpu f stack_addr : Z) (s s1 : state) : Prop := {
  st_stack : load32 (pmem s1) (Smp.PCPU_AP_START_ADDR - 4) = u32 (stack_addr + 4096);
  st_f : load32 (pmem s1) (Smp.PCPU_AP_START_ADDR - 8) = f;
  st_init : load32 (pmem s1) (Smp.PCPU_AP_START_ADDR - 12) = kern_init_ap;
  st_frame : forall a, ~ (Smp.PCPU_AP_START_ADDR - 12 <= a < Smp.PCPU_AP_START_ADDR) -> pmem s1 !!! a = pmem s !!! a;
  st_ipis : Intr.ltrace (irqc s1) = Intr.ltrace (irqc s) ++ start_ipis (Smp.lapicid (Smp.info (smp s) !!! cpu));
  st_cpus : pcpus s1 = pcpus s
}.

Definition flag (cpu : Z) (s : state) : bool := PCPU.booted (PCPU.pcpu (pcpus s) !!! cpu).

Lemma mailbox v1 v2 v3 (m : mem) : is_u32 v1 -> is_u32 v2 -> is_u32 v3 ->
  let m' := store32 (0x8000 - 12) v3 (store32 (0x8000 - 8) v2 (store32 (0x8000 - 4) v1 m)) in
  load32 m' (0x8000 - 4) = v1 /\ load32 m' (0x8000 - 8) = v2 /\ load32 m' (0x8000 - 12) = v3 /\
  forall a, ~ (0x8000 - 12 <= a < 0x8000) -> m' !!! a = m !!! a.
Proof.
  intros H1 H2 H3 m'. unfold m'. split_and!.
  - rewrite !load32_store32_ne, load32_store32 by (done || lia). done.
  - rewrite load32_store32_ne, load32_store32 by (done || lia). done.
  - by rewrite load32_store32 by (done || lia).
  - intros a Ha. rewrite !store32_lookup by lia. by rewrite !decide_False by lia.
Qed.

Lemma put_smp_put q' q s : put_smp q' (put_smp q s) = put_smp q' s.
Proof. destruct s as [[[[[[[] ?] ? ?] ? ?] ? ?]] ? ? ? ?]. done. Qed.
Lemma get_smp_put q s : get_smp (put_smp q s) = q.
Proof. by destruct q. Qed.

(** One word of the mailbox. *)
Lemma poke_run a v q s :
  zoom smp_lens (modify (fun q => Smp.s_mm (store32 a v (Smp.mm q)) q)) (put_smp q s) =
  Ok tt (put_smp (Smp.s_mm (store32 a v (Smp.mm q)) q) s).
Proof. erewrite zoom_Ok by reflexivity. cbn [lput lget smp_lens]. by rewrite get_smp_put, put_smp_put. Qed.

Lemma lapicid_run cpu q s : 0 <= cpu < Z.min (Smp.ncpu q) NUM_CPUS ->
  zoom smp_lens (Smp.pcpu_cpu_lapicid cpu) (put_smp q s) = Ok (Smp.lapicid (Smp.info q !!! cpu)) (put_smp q s).
Proof.
  intros H. erewrite zoom_Ok; last first.
  { cbn [lget smp_lens]. rewrite get_smp_put. unfold Smp.pcpu_cpu_lapicid. krun.
    erewrite bind_Ok by (unfold kassert; rewrite u32_small by klia; bool_simp; reflexivity). reflexivity. }
  cbn [lput smp_lens]. by rewrite put_smp_put.
Qed.

Lemma read_cpu_run {A} cpu (g : PCPU.pcpu_t -> A) s : 0 <= cpu < NUM_CPUS ->
  zoom pcpu_lens (PCPU.read cpu g) s = Ok (g (PCPU.pcpu (pcpus s) !!! cpu)) s.
Proof.
  intros H. unfold PCPU.read. erewrite zoom_Ok; [|erewrite bind_Ok by (apply bounds_Ok; lia); reflexivity].
  cbn [lput pcpu_lens]. change (lget pcpu_lens s) with (pcpus s). by rewrite put_pcpus_id.
Qed.

Lemma ipis_run id q s ic : Intr.lapic_startcpu id Smp.PCPU_AP_START_ADDR (Smp.apics q) = Ok tt ic ->
  zoom tr_lens (irq (Intr.lapic_startcpu id Smp.PCPU_AP_START_ADDR)) (put_smp q s) =
  Ok tt (s_tr (put_irq ic (tr (put_smp q s))) (put_smp q s)).
Proof.
  intros E. assert (H : wp (zoom tr_lens (irq (Intr.lapic_startcpu id Smp.PCPU_AP_START_ADDR)))
    (fun _ s' => s' = s_tr (put_irq ic (tr (put_smp q s))) (put_smp q s)) (put_smp q s)).
  { apply wp_zoom, wp_disk, wp_zoom. eapply wp_intro; [exact E|]. done. }
  by apply wp_run in H as ([] & s' & -> & ->).
Qed.

(** The wait: rounds of the other processors until the flag is set. *)
Inductive waits (cpu : Z) : list (K state unit) -> state -> state -> Prop :=
  | waits_done os s : flag cpu s = true -> waits cpu os s s
  | waits_more o os s t u : flag cpu s = false -> o s = Ok tt t -> waits cpu os t u -> waits cpu (o :: os) s u.

Lemma waits_flag cpu os s u : waits cpu os s u -> flag cpu u = true.
Proof. by induction 1. Qed.

Lemma wait_booted_run cpu os s u : 0 <= cpu < NUM_CPUS -> wait_booted os cpu s = Ok tt u <-> waits cpu os s u.
Proof.
  intros Hc. revert s. induction os as [|o os IH]; intros s; cbn [wait_booted]; unfold PCPU.get_pcpu_boot_info;
    erewrite bind_Ok by (by apply read_cpu_run); fold (flag cpu s); destruct (flag cpu s) eqn:Ef.
  - split; [intros [= <-]; by apply waits_done | inversion 1; subst; done || congruence].
  - split; [done | inversion 1; subst; done || congruence].
  - split; [intros [= <-]; by apply waits_done | inversion 1; subst; done || congruence].
  - split.
    + intros ([] & t & E & H%IH)%bind_inv. by econstructor.
    + inversion 1; subst; [congruence|]. erewrite bind_Ok by eassumption. by apply IH.
Qed.



End ops.

(** ** A machine *)

Definition pc_cpuid (leaf _ : Z) : Smp.regs := if leaf =? 1 then (0, 0, 0, 2 ^ 9) else (0, 0, 0, 0).
Definition pc_irq : Intr.Intr.state :=
  Intr.w_streams (Clock.a_in61 Apic.countdown) (Clock.a_reads Apic.countdown)
    (Intr.w_lapic 0 ∅ [] (Intr.w_ioapics ∅ ∅ ∅ 0 Intr.demo)).
Definition pc_thread : Thread.Thread.state (MPT.state ContainerPages.kcontainer) :=
  Thread.State (MPT.set_pmem Smp.ex_mem TrapDemo.vm0) (PCPU.State ∅ false) ∅ ∅ ∅ ∅ ∅ (Spinlock 0 0) ∅.
Definition pc_kernel : Trap.state (C := ContainerPages.kcontainer) :=
  Trap.State
    (Sysfile.State (File.State (Inode.State (Log.State
      (Disk.State (Spinlock 0 0) ∅ (Spinlock 0 0) Disk.NULL 0 (Disk.Drive ∅ [] 0 0 0 0 0 Disk.IDE_DRDY) pc_irq pc_thread)
      (Log.MkLog (Spinlock 0 0) 0 0 0 0 0 ∅)) (Spinlock 0 0) ∅) (Spinlock 0 0) ∅) TrapDemo.odd_tf true)
    (Seg.State ∅ ∅ ∅) ∅ ∅ false 0 false [].
Definition pc : state (C := ContainerPages.kcontainer) :=
  State pc_kernel Console.fresh (Clock.State ∅ 0 (Clock.a_in61 Clock.steady) (Clock.a_reads Clock.steady) 0)
    (Smp.State ∅ ∅ 0 false false Intr.demo 0 0) Mboot.boot_state.
Definition pc_mmap : list Mboot.mboot_mmap := [Mboot.MbootMmap 0 0 0x9fc00 0 1; Mboot.MbootMmap 0x100000 0 0x7ee0000 0 1].


Lemma pc_firmware : firmware Smp.ex_ents (pmem pc).
Proof.
  assert (Em : Smp.probe_madt (pmem pc) = 0x7100) by (vm_compute; reflexivity).
  split; rewrite ?Em; [done | vm_compute; reflexivity | exact Smp.ex_holds | exact Smp.ex_wf | vm_compute; reflexivity
    | vm_compute; reflexivity].
Qed.

Lemma pc_ioapics : ioapics_there (Smp.ios Smp.ex_ents) (irqc pc).
Proof.
  split.
  - by vm_compute.
  - repeat constructor. by intros []%elem_of_nil.
  - repeat constructor. by eexists.
  - reflexivity.
  - intros a i g [= <- <- <-]. split; [done|]. eexists. split; [reflexivity|]. by vm_compute.
Qed.

Lemma pc_machine :
  machine Console.boot_ks 0x110000 0x120000 pc_cpuid 2000 (replicate 512 0) Smp.ex_ents
    [] Clock.steady [] Apic.countdown pc_mmap pc.
Proof.
  split.
  - done.
  - done.
  - split; [split_and!|]; vm_compute; congruence.
  - done.
  - done.
  - split; [exact pc_firmware | by vm_compute].
  - by vm_compute.
  - exact pc_ioapics.
  - split; [|done]. intros v old. unfold Smp.l1_cache. destruct (v =? Smp.INTEL); [by vm_compute; eexists|].
    destruct (v =? Smp.AMD); by vm_compute; eexists.
  - split; [apply Clock.steady_ok|]. cbn [app fmap list_fmap concat]. by rewrite !app_nil_r.
  - split; [apply Apic.countdown_ok|]. cbn [app fmap list_fmap concat]. by rewrite !app_nil_r.
  - done.
  - split; [done|]. split; [|by vm_compute; lia]. repeat constructor; by vm_compute.
  - done.
Qed.

Lemma devinit_correct_witness : exists s', devinit Console.boot_ks 0x110000 0 (fun _ => 0x100000) pc_cpuid 0x100000 16
    2000 3 (replicate 512 0) 0x10000 pc_mmap pc = Ok tt s' /\
  Clock.tsc_per_ms (clk s') = 300000 /\ Intr.lregs (irqc s') !!! Intr.LAPIC_TICR = 300000.
Proof.
  destruct (devinit_correct Console.boot_ks 0x110000 0x120000 0 (fun _ => 0x100000) pc_cpuid 0x100000 16
    2000 3 (replicate 512 0) Smp.ex_ents [] Clock.steady [] Apic.countdown pc_mmap 0x10000 pc pc_machine)
    as (s' & E & [_ _ _ [H1 _] [_ (_ & _ & _ & H2 & _) _] _ _ _ _]).
  exists s'. split; [exact E|]. rewrite H1, H2, (proj2 Clock.steady_ok), (proj2 Apic.countdown_ok). split; reflexivity.
Defined.

(** The same machine with its second processor waiting to be started; it sets
    its flag in the second round. *)
Definition duo_cpus : PCPU.state :=
  PCPU.State (list_to_map ((fun i => (i, PCPU.Pcpu true (i =? 0) 0 0 i)) <$> seqZ 0 8)) true.
Definition duo_info (id : Z) (b : bool) : Smp.pcpuinfo := Smp.Pcpuinfo id b 0 [] 0 0 0 0 0 0 0 0 0 0 0 0 0 0 0.
Definition duo : state (C := ContainerPages.kcontainer) :=
  put_pcpus duo_cpus
    (put_smp (Smp.State Smp.ex_mem {[0 := duo_info 2 true; 1 := duo_info 5 false]} 2 true true
      (Intr.w_lapic 0xfee00000 ∅ [] pc_irq) 0 0) pc).
Definition duo_rounds : list (K (state (C := ContainerPages.kcontainer)) unit) :=
  [mret tt; zoom pcpu_lens (PCPU.set_pcpu_boot_info 1 true)].

Lemma duo_ok : PCPU.pcpu_ok duo_cpus.
Proof.
  intros i Hi. assert (i = 0 \/ i = 1 \/ i = 2 \/ i = 3 \/ i = 4 \/ i = 5 \/ i = 6 \/ i = 7) as E by (unfold NUM_CPUS in Hi; lia).
  repeat (destruct E as [->|E]; [reflexivity|]). by subst.
Qed.


End Devinit.
